(* ===== verification/_CoqProject ===== *)
-Q . S2P
Prelude.v
Bytes.v
Mmio.v
Calendar.v
Snvs.v
RtcDrivers.v
SdkAlloc.v
Ostimer.v
Edma.v
EdmaQueue.v
EdmaLimits.v
Mmu.v
Uart.v
UartTransfer.v
UartStream.v
LinBytes.v
Lin.v
LinNode.v
LinFrames.v
LinLimits.v
Glikey.v
Ftfx.v
FtfxFlash.v
FtfxNvm.v
FtfxEngine.v
FtfxLoops.v
FtfxSection.v
FtfxVerify.v
FtfxOps.v
FtfxDevice.v
FtfxInit.v
FtfxProtect.v
FtfxLimits.v
FtfxUpdate.v
Sha.v
ShaEngine.v
ShaHash.v
ShaAsync.v
ShaDevice.v
I2c.v
I2cBus.v
I2cSignals.v
I2cPolled.v
I2cIrq.v
I2cLimits.v
I2cDevice.v
Semaphores.v
Mutex.v
Usdhc.v
UsdhcTransfer.v
UsdhcAdma.v
UsdhcScatter.v
UsdhcClock.v
UsdhcPort.v
UsdhcDevice.v
Flexcan.v
FlexcanBuffers.v
FlexcanTransfer.v
FlexcanTiming.v
FlexcanFifo.v
FlexcanReceive.v
FlexcanFrames.v
FlexcanDevice.v
Enet.v
EnetFrames.v
EnetMac.v
EnetRing.v
EnetClock.v
EnetTx.v
EnetSend.v
EnetWire.v
EnetReclaim.v
EnetRx.v
EnetPool.v
EnetLife.v
EnetDevice.v
