(* ===== verification/Prelude.v ===== *)
(** * Verification of the NXP MCUXpresso SDK core drivers

    ** The program

    The repository is the driver layer of the SDK: some three hundred
    peripheral drivers, each a pair [fsl_<name>.c], [fsl_<name>.h] under
    src/drivers/, compiled against a device header that is not part of the
    repository.  A driver owns no thread: its functions run in the caller or
    in an interrupt handler, and all they share is the peripheral's registers
    and, where there are transactions, a handle.  The drivers modelled here
    carry state and algorithms of their own:

    - calendar clocks: dates, seconds, alarms, a 47-bit counter read in two
      halves (snvs_hp, snvs_lp, rtc, lpc_rtc, rtc_1);
    - the aligned allocator of the common layer (common);
    - the OS event timer and its Gray code (ostimer);
    - the address remapping unit and its lookup table (mmu);
    - the UART: configuration, baud rate, polled transfers, interrupt-driven
      transfers with a receive ring buffer (uart);
    - the eDMA channel and its circular queue of transfer descriptors, linked
      behind a running engine (edma);
    - the LIN bus: a node's state machine, driven by breaks, bytes, edges and
      a millisecond clock (lin);
    - the write protection unit (glikey);
    - the FTFx flash: a command layer, and over it the drivers of the program
      flash and of the data flash with its emulated EEPROM (flash);
    - the hash engine: messages in pieces, padding, interrupts (sha);
    - the Ethernet controller: rings of descriptors shared with its DMA engine,
      buffers that travel between them and the application, a multicast hash
      filter and a 1588 clock (enet);
    - the I2C bus: signals, polled and interrupt-driven transfers, a slave
      (i2c);
    - the semaphores that processors share (sema42, sema4, rdc_sema42);
    - the SD host controller: clock, commands, a data port, descriptor tables
      for its DMA engine (usdhc);
    - the CAN controller: bit timing, message buffers, a receive FIFO whose
      transfers run on interrupts (flexcan).

    ** How the code is modelled

    A w-bit C integer is a [Z] with every wrap-around written out ([wrap],
    [u8], [u16], [u32]); [size_t], [int], [unsigned] and pointers have 32
    bits.  A function that touches state is a computation of the monad [M] on
    an explicit state; it ends in a value or in a [fault]: a failed assertion,
    an array access out of range, a division by zero, a call through a null
    pointer.  A loop that waits for the hardware takes fuel and faults with
    [OutOfFuel] when it is used up; the theorems say how much is enough, in
    terms of how long the hardware takes.

    A peripheral (Mmio.v) is a type of device states with one read and one
    write per register; a read may change the device. Driver code is written
    against that interface alone. What the hardware does is not in the
    repository: it is a class of laws per component, stating documented
    behaviour ([PlainRegs], [RunningClock], [OstimerLaws], [MmuLaws],
    [UartLaws], [EdmaLaws], [LinLaws], [GlikeyLaws], [FtfxLaws], [ShaLaws],
    [EnetLaws], [PtpLaws], [FilterLaws], [I2cLaws], [GateHw], [SdClockLaws],
    [SdPortLaws], [DmaErrorBit], [CanTimingLaws], [FifoLaws], [CanFrameLaws]), and each class
    has a concrete device that satisfies it, on which the witnesses run. Bit
    positions and feature macros of the device headers are parameters
    ([SnvsMasks], [OstimerFields], [MmuFields], [UartFields], [UartFeatures],
    [EdmaMasks], [EdmaFields], [LinMasks], [LinFields], [LinFeatures],
    [GlikeyFields], [FtfxFields], [FtfxFeatures], [FlashFeatures],
    [FlexNvmFeatures], [ShaFields], [ShaFeatures], [EnetFields],
    [EnetFeatures], [I2cFields], [I2cFeatures], [Sema42Fields], [UsdhcFields],
    [UsdhcFeatures], [CanFields], [CanFeatures]). Callbacks of the application
    are arbitrary computations, restricted, where a theorem needs it, by a
    named hypothesis; [BufferPool] is what the Ethernet driver expects of the
    application's buffer functions.

    ** The files

    - Prelude.v: machine integers, the outcome and state monads, arrays,
      status codes (fsl_common.h).
    - Bytes.v: memory as bytes, shared by the drivers that copy.
    - Mmio.v: register access, read-modify-write, polling loops, masks.
    - Calendar.v: the static functions [*_CheckDatetimeFormat],
      [*_ConvertDatetimeToSeconds], [*_ConvertSecondsToDatetime], the same
      text in snvs_hp, snvs_lp, lpc_rtc ([SnvsHp]) and with one more guard in
      rtc, rtc_1 ([Rtc]).  Reference: a Gregorian calendar defined by counting
      days.  The loops over years and months need 150 and 12 rounds for any
      32-bit count.
    - Snvs.v: [SNVS_HP_RTC_*] and [SNVS_LP_SRTC_*]: date, alarm, start and
      stop, and the loop that reads a running counter.
    - RtcDrivers.v: the other three drivers; [Soft] is the clock kept by the
      interrupt handler of rtc_1.
    - SdkAlloc.v: [SDK_Malloc], [SDK_Free], [SDK_SIZEALIGN].
    - Ostimer.v: the OS event timer.
    - Mmu.v: [MMU_*] with the lookup table of the peripheral.
    - Uart.v: registers, configuration, [UART_SetBaudRate], blocking
      transfers, FIFOs.  UartTransfer.v: the handle, the ring buffer, the
      non-blocking transfers and [UART_TransferHandleIRQ], block by block.
      UartStream.v: what they promise.
    - Edma.v: descriptors, channel functions and the transactional layer.
      EdmaQueue.v: the engine as the manual describes it, the queue invariant,
      the queue's theorems.  EdmaLimits.v: configurations, pool sizes, and
      the runs outside the queue's discipline.
    - LinBytes.v: identifier parity, checksums, time-out counts of the LIN
      driver.  Lin.v: the node and all of its functions.  LinNode.v: the
      UART, [controls] being what a call does to its control registers and
      interrupt enables, and one interrupt per byte or break.  LinFrames.v: frames on the bus, [after] being the driver after
      a sequence of characters.  LinLimits.v: refusals, time-outs, auto-baud.
    - Glikey.v: the write protection unit.
    - Ftfx.v: fsl_ftfx_controller.c; FtfxFlash.v: fsl_ftfx_flash.c; FtfxNvm.v:
      fsl_ftfx_flexnvm.c.  FtfxEngine.v: what a command does to the flash
      ([exec], [FtfxLaws]) and the command sequence.  FtfxLoops.v,
      FtfxSection.v, FtfxVerify.v: the loops of commands.  FtfxOps.v: the
      invariant [driver_ok] and each operation on a range of a flash.
      FtfxInit.v: initialisation.  FtfxDevice.v: an example module.
      FtfxProtect.v, FtfxLimits.v, FtfxUpdate.v: the theorems.
    - Sha.v: fsl_sha.c.  ShaEngine.v: the engine ([ShaLaws]) and feeding it.
      ShaHash.v: the padding of the standard, the invariant [hashing], the
      blocking interface.  ShaAsync.v: interrupts and the engine's own memory
      accesses.  ShaDevice.v: an engine with SHA-1 and SHA-256 written out.
    - Enet.v: descriptors, rings and the handle of fsl_enet.c; EnetFrames.v:
      its data path, from [ENET_SetTxBufferDescriptors] to
      [ENET_StartTxFrame]; EnetMac.v: interrupts, multicast, SMI, clock.  The
      state is that of one ring.  EnetRing.v: indices modulo a ring's length.
      EnetTx.v, EnetSend.v: what a call adds to the segments [pending].
      EnetWire.v: calls mixed with the engine's transmissions.
      EnetReclaim.v: the contexts under way.  EnetRx.v: scanning and serving
      the receive ring, seen from its current descriptor ([view]).
      EnetPool.v: where the buffers are ([placed]).  EnetLife.v: from
      [ENET_Up] to [ENET_Down].  EnetClock.v: the 1588 clock and the filter.
      EnetDevice.v: controllers and an application to run it all on.
    - I2c.v: fsl_i2c.c, master and slave.  I2cBus.v: what happens on the bus,
      the answers of the slaves ([environment]) and the transaction a transfer
      stands for ([transact]).  I2cSignals.v: the peripheral ([I2cLaws]) and
      start, stop, address.  I2cPolled.v, I2cIrq.v: the two kinds of transfer
      against [transact].  I2cLimits.v: both compared, the baud rate, failed
      starts.  I2cDevice.v: a peripheral with a memory device.
    - Semaphores.v: the three drivers, a Module each.  Mutex.v: mutual
      exclusion, proved of an interface ([TryLocks]) that the drivers
      implement on the gates of the manual ([GateHw]).
    - Usdhc.v: registers, data, configuration, clock and tuning of
      fsl_usdhc.c.  UsdhcTransfer.v: descriptor tables, data port, transfers,
      interrupt handlers.  UsdhcAdma.v: the two engines that follow a table,
      and what the driver writes for one buffer; [AdmaFormat] is what both
      formats have in common.  UsdhcScatter.v: several buffers, proved against
      [AdmaFormat].  UsdhcClock.v: the dividers.  UsdhcPort.v: polled reading
      and DMA errors.  UsdhcDevice.v: a controller with a card.
    - Flexcan.v: data and bit timing of fsl_flexcan.c, CAN FD's included; the
      search over the numbers of time quanta has as many rounds as there are
      numbers.  FlexcanBuffers.v: module control, configuration, frames in
      buffers and FIFO.  FlexcanTransfer.v: the handle, the non-blocking
      transfers and the interrupt handlers.  FlexcanTiming.v: the timing
      found.  FlexcanFifo.v: the FIFO ([FifoLaws]) and an abstract receiver
      ([fifo_state]).  FlexcanReceive.v: the handler refines it; nine rounds of
      the handler's loop are enough.  FlexcanFrames.v: frames through message
      buffers.  FlexcanDevice.v: a controller.

    ** What the theorems show

    - Calendar: date to seconds and back are inverse on the accepted dates and
      on all counts before 2100; the count is the Gregorian one; the
      conversion of any 32-bit count ends inside its tables.
    - Clocks: set-then-get of dates and alarms on every branch; a non-zero
      result of the read loop is the count at some moment of the call; the
      software clock follows the calendar and its alarm fires once.
    - Allocator: blocks are aligned and inside what [malloc] gave, and
      [SDK_Free] returns exactly that, unless the gap exceeds 16 bits.
    - OS timer: Gray code conversions are inverse; a reading of the running
      counter is never behind and bounded ahead; arming and dispatch.
    - MMU: after mapping a region within one 256 MB block, every address
      translates to its place, with the page options the header documents, but
      for three whose table entry the code gets wrong;
      remapping moves, teardown invalidates, everything else is kept.
    - UART: the run invariant; in any run of interrupts with a clean status,
      requests and time without a reported loss the bytes delivered and stored
      are exactly the bytes that came in on the line ([line_in] is their
      history), in order, and the bytes transmitted are exactly those of the
      accepted requests; the handler refines a bounded queue that drops
      its oldest byte; the blocking write ends and transmits a prefix; the
      baud divisor is optimal and the accepted rates are characterised.
    - eDMA: when interrupts are served before the next completion and the
      queue is refilled before it drains, the engine executes exactly the
      accepted transfers, once and in order; submission and interrupt answer
      like a bounded queue; a started queue can always move on.
    - LIN: the parity and checksum of the code are those of the bus
      standard; a node recognises exactly the headers with a good parity; a
      sent response is on the bus byte for byte, its own echo compared, with
      its checksum behind; a received one is accepted iff its checksum agrees,
      and ended by a framing error; only enabled interrupts run the handler
      ([fires]), so a break in the middle of a response does not;
      a response that stalls ends in a time-out after the computed ticks.
    - GLIKEY: locked registers refuse everything, but GLIKEY_Lock and
      GLIKEY_IsIndexLocked write to the peripheral all the same; code words go to the field
      their first byte selects, even malformed ones.
    - FTFx flash: initialisation establishes the invariant; an erase launches
      one command per touched sector, in order, up to the first failure, and
      nothing else changes; programming by sections equals programming by
      units; erase, program and verify leave the data in place; a refused call
      touches nothing; a protection query is exact on aligned ranges.
    - SHA: the pieces do not matter: the digest written is that of the padded
      concatenation, whether the processor feeds a piece or the engine fetches
      it, up to the 128 KB whose blocks its COUNT field can hold; the interrupt-driven hash feeds every full block once.
    - ENET: the segments on the wire and in the ring are those of the calls,
      in order; each accepted frame is reported once, with its context, if the
      application reclaims before it sends; a received frame is handed over
      with its buffers in order and new ones take their place; no buffer is
      lost between initialisation and shutdown; the filter accepts exactly the
      joined hashes.
    - I2C: a polled transfer and an interrupt-driven one do on the bus what
      the reference transaction says, for any slave and any delay, with the
      bytes received and its status (except that a refused data byte before
      the last one of a polled write is reported as success), and agree with
      each other; the
      callback is called once; the baud rate is the closest there is.
    - Semaphores: a gate taken stays with its processor until that processor
      acts, whatever the others do; an unlocked gate goes to the next one that
      tries; locking with a limit ends.
    - USDHC: the engine that follows the tables of a scatter-gather transfer
      moves exactly the words of the buffers, in order, for both formats, and
      only the memory of the tables is written; the clock set is the fastest
      one not above the one asked for, except for fifteen ratios; a polled
      read ends and stores the words of the card, whatever the watermark.
    - CAN: a bit timing is found exactly if the registers can hold one of
      precisely the bit rate asked for (in CBT, one with a pre-divider field
      of at most 255, where the register holds 1023), and none samples later
      without passing the recommended point; a transfer from the FIFO stores
      the frames in the order of arrival, writes nothing else, ends after the
      last one and says so once; a frame written to a buffer is the one read
      from another controller's buffer, the bus carrying as many bytes as
      its length says.
    - Flaws of the code are theorems too: a torn reading of zero, a refused
      date that stops the clock, assertions on output parameters, page
      selection by the wrong bits, truncated offsets, ring buffers over 2^16
      bytes, a completion reported early, baud rates refused although exact, a
      drained or late-served descriptor queue that repeats a transfer, a LIN
      bus that stays locked after a blocking time-out, a break lost between
      two flags, an auto-baud measurement that stalls, a [GLIKEY_Lock] that
      never locks, a protection request that is dropped, a protection query
      that overlooks a region, an erase of nothing that erases everything, a
      wait for a hash that is never reported done, a block count cut to the
      width of its field, a frame half queued and then continued by the next
      one, frames reported that were never sent, transmit interrupts of the
      further rings that reclaim nothing, a clock that jumps by 5.7 s instead
      of 5, a refused I2C byte reported as a success, a failed start that
      locks the I2C handle, a semaphore lock that waits for ever on a bad
      argument, an SD clock faster than reported, a descriptor table of
      nothing that writes in front of itself, a DMA error nobody is told of, a
      reception of five (or ten, ...) CAN frames that never ends, a handler of
      a range of message buffers that does not return while one outside has
      an interrupt pending, bit timings that are not found or refused although
      the register holds them, a reset that writes in front of an array.

    ** What is not modelled

    Clock gates, resets and the interrupt controller are calls into other
    parts of the platform: parameters or flags of the state.  Interrupt
    masking around a read-modify-write is implicit: a call runs without
    interruption, except where a theorem is about a counter that moves under
    it.  The DMA variants of the UART transfers, the remaining functions of
    the modelled drivers that only move bits, and the other driver families
    are listed in the manifest.  For
    the flash, the theorems are about blocking operations on the program
    flash; the swap procedure, the read-once records and the FlexNVM are
    modelled without theorems, and cache control is not modelled.  For
    the Ethernet controller, the configuration registers, statistics counters
    and the installation of interrupt handlers are not modelled, and
    [ENET_StartTxFrame], [ENET_ReadFrame], the SMI transfers and the error
    statistics have no theorem.  The I2C slave, the polled write and the tuning
    of the SD host controller are modelled without theorems; its data cache
    maintenance (a build option) is left out.  Of the CAN controller, CAN FD
    message buffers, the enhanced FIFO, pretended networking, memory error
    control, DMA, high resolution time stamps and workarounds for errata are
    not modelled, and the transfers from and to single message buffers and the
    data phase of the bit timing have no theorem.  The other driver families are
    register configuration with little state of their own, computations done
    by an accelerator or by firmware, or variants of the transfers modelled
    here over other registers: each would need the laws of one more peripheral
    and repeat the same reasoning.  Devices, build files and generators have
    no behaviour at run time. *)

From stdpp Require Import base list numbers tactics.
From Stdlib Require Import ZArith Lia.

Open Scope Z_scope.

(** ** Machine integers *)

(** A value of an unsigned [w]-bit C type is a [Z] in [0, 2^w); every
    assignment to such a variable wraps. *)
Definition wrap (w x : Z) : Z := x mod 2 ^ w.

Abbreviation u8 := (wrap 8).
Abbreviation u16 := (wrap 16).
Abbreviation u32 := (wrap 32).
Abbreviation u64 := (wrap 64).

Abbreviation UINT32_MAX := 4294967295.

(** [zlia] is [lia] on goals with [/] and [mod] by constants. *)
Ltac zlia := Z.to_euclidean_division_equations; lia.

(** [by_comparisons] decides the comparisons of a goal on [bool] one by one. *)
Ltac by_comparisons :=
  repeat first [case Z.ltb_spec; intro | case Z.leb_spec; intro]; cbn [andb orb negb]; lia.

(** [pow2] evaluates the powers of two that bound the machine types. *)
Ltac pow2 :=
  repeat (change (2 ^ 8) with 256 in * || change (2 ^ 16) with 65536 in *
    || change (2 ^ 32) with 4294967296 in *
    || change (2 ^ 64) with 18446744073709551616 in * ).

Lemma wrap_small w x : 0 <= x < 2 ^ w -> wrap w x = x.
Proof. apply Z.mod_small. Qed.

Lemma wrap_bound w x : 0 <= w -> 0 <= wrap w x < 2 ^ w.
Proof. intros Hw. apply Z.mod_pos_bound, Z.pow_pos_nonneg; lia. Qed.

Lemma wrap_wrap w x : wrap w (wrap w x) = wrap w x.
Proof. unfold wrap. apply Z.mod_mod_divide, Z.divide_refl. Qed.

Lemma wrap_testbit w x i :
  0 <= i < w -> Z.testbit (wrap w x) i = Z.testbit x i.
Proof. intros. unfold wrap. apply Z.mod_pow2_bits_low. lia. Qed.

Lemma wrap_testbit_high w x i :
  0 <= w <= i -> Z.testbit (wrap w x) i = false.
Proof. intros. unfold wrap. apply Z.mod_pow2_bits_high. lia. Qed.

(** [ws] removes, innermost first, the wrap-arounds whose argument is
    provably in range. *)
Ltac ws :=
  repeat match goal with
  | |- context [wrap ?w ?x] =>
      lazymatch x with context [wrap _ _] => fail | _ => idtac end;
      rewrite (wrap_small w x) by (pow2; lia)
  end.

(** Bit tests and updates as the drivers write them: [(reg & mask) != 0]
    and [reg & ~mask] on a [w]-bit register. *)
Definition has (reg mask : Z) : bool := negb (Z.land reg mask =? 0).
Definition bic (w reg mask : Z) : Z := Z.land reg (wrap w (Z.lnot mask)).
Abbreviation bic32 := (bic 32).
Abbreviation bic8 := (bic 8).

Lemma land_ones_mod x n : 0 <= n -> Z.land x (Z.ones n) = x mod 2 ^ n.
Proof. apply Z.land_ones. Qed.

Lemma land3_mod4 x : Z.land x 3 = x mod 4.
Proof. exact (Z.land_ones x 2 ltac:(lia)). Qed.

(** Bits above the width of a value are clear. *)
Lemma testbit_above x n i : 0 <= x < 2 ^ n -> 0 <= n <= i -> Z.testbit x i = false.
Proof. intros Hx Hi. rewrite <- (Z.mod_small x (2 ^ n)) by lia. apply Z.mod_pow2_bits_high. lia. Qed.

Lemma lxor_bound a b n : 0 <= n -> 0 <= a < 2 ^ n -> 0 <= b < 2 ^ n -> 0 <= Z.lxor a b < 2 ^ n.
Proof.
  intros Hn Ha Hb. assert (Z.lxor a b = Z.lxor a b mod 2 ^ n) as ->; [|apply Z.mod_pos_bound; lia].
  apply Z.bits_inj'. intros i Hi. destruct (Z.lt_ge_cases i n).
  - by rewrite Z.mod_pow2_bits_low by lia.
  - rewrite Z.mod_pow2_bits_high, Z.lxor_spec, !(testbit_above _ n) by lia. done.
Qed.

(** Packing two fields: the lower one fits below the upper one. *)
Lemma lor_pack a b n : 0 <= n -> 0 <= b < 2 ^ n -> Z.lor (a * 2 ^ n) b = a * 2 ^ n + b.
Proof.
  intros Hn Hb. symmetry. apply Z.add_nocarry_lor. apply Z.bits_inj'. intros i Hi.
  rewrite Z.land_spec, Z.bits_0. destruct (Z.lt_ge_cases i n).
  - by rewrite Z.mul_pow2_bits_low by lia.
  - by rewrite (testbit_above b n) by lia; rewrite andb_false_r.
Qed.

Lemma lor_pack_shiftl a b n : 0 <= n -> 0 <= b < 2 ^ n -> Z.lor (Z.shiftl a n) b = a * 2 ^ n + b.
Proof. intros. rewrite Z.shiftl_mul_pow2 by lia. by apply lor_pack. Qed.

(** ** Outcomes, faults and the state monad the drivers are written in *)

(** How a C function can fail to return: a failed [assert], an array access
    out of its bounds, a division by zero, a call through a pointer that is
    not a function, an access through a null pointer, or (an artefact of the
    model) a loop that ran out of the fuel given to it.  Every termination theorem
    excludes the last. *)
Inductive fault := AssertFailed | OutOfBounds | DivByZero | NullCall | NullDeref | OutOfFuel.

Inductive outcome (A : Type) := Ok (a : A) | Err (f : fault).
Arguments Ok {A} a.
Arguments Err {A} f.

Definition M (S A : Type) := S -> outcome (A * S).

Definition ret {S A} (a : A) : M S A := fun s => Ok (a, s).
Definition bind {S A B} (m : M S A) (f : A -> M S B) : M S B :=
  fun s => match m s with Ok (a, s') => f a s' | Err e => Err e end.
Definition get {S} : M S S := fun s => Ok (s, s).
Definition gets {S A} (f : S -> A) : M S A := fun s => Ok (f s, s).
Definition put {S} (s : S) : M S unit := fun _ => Ok (tt, s).
Definition modify {S} (f : S -> S) : M S unit := fun s => Ok (tt, f s).
Definition throw {S A} (e : fault) : M S A := fun _ => Err e.
Definition lift {S A} (o : outcome A) : M S A :=
  fun s => match o with Ok a => Ok (a, s) | Err e => Err e end.

Arguments bind : simpl never.
Arguments ret : simpl never.

(** C's [assert]. *)
Definition assert_ {S} (b : bool) : M S unit :=
  if b then ret tt else throw AssertFailed.

(** An array read, faulting outside the array. *)
Definition aget {A} (l : list A) (i : Z) : outcome A :=
  if i <? 0 then Err OutOfBounds
  else match l !! Z.to_nat i with Some a => Ok a | None => Err OutOfBounds end.

(** An array store, faulting outside the array. *)
Definition aset {A} (l : list A) (i : Z) (x : A) : outcome (list A) :=
  if (0 <=? i) && (i <? Z.of_nat (length l)) then Ok (<[Z.to_nat i := x]> l)
  else Err OutOfBounds.

(** Unsigned division. *)
Definition udiv (a b : Z) : outcome Z := if b =? 0 then Err DivByZero else Ok (a / b).
Definition umod (a b : Z) : outcome Z := if b =? 0 then Err DivByZero else Ok (a mod b).

Declare Scope prog_scope.
Delimit Scope prog_scope with prog.
Notation "x <- c1 ;; c2" := (bind c1 (fun x => c2))
  (at level 100, c1 at next level, right associativity) : prog_scope.
Notation "c1 ;; c2" := (bind c1 (fun _ => c2))
  (at level 100, right associativity) : prog_scope.
Notation "'when' b c" := (if b then c else ret tt)
  (at level 60, b at level 9, c at level 9) : prog_scope.

(** The same sequencing on plain outcomes, for code that touches no state. *)
Definition obind {A B} (m : outcome A) (f : A -> outcome B) : outcome B :=
  match m with Ok a => f a | Err e => Err e end.
Notation "x <-! c1 ;; c2" := (obind c1 (fun x => c2))
  (at level 100, c1 at next level, right associativity) : prog_scope.

Section Monad.
Context {S A B C : Type}.

Lemma bind_ok (m : M S A) (f : A -> M S B) s a s' :
  m s = Ok (a, s') -> bind m f s = f a s'.
Proof. intros H. unfold bind. by rewrite H. Qed.

Lemma bind_ret (a : A) (f : A -> M S B) s : bind (ret a) f s = f a s.
Proof. done. Qed.

Lemma bind_get (f : S -> M S B) s : bind get f s = f s s.
Proof. done. Qed.

Lemma bind_lift (a : A) (f : A -> M S B) s : bind (lift (Ok a)) f s = f a s.
Proof. done. Qed.

Lemma bind_err (m : M S A) (f : A -> M S B) s e :
  m s = Err e -> bind m f s = Err e.
Proof. intros H. unfold bind. by rewrite H. Qed.

Lemma bind_inv (m : M S A) (f : A -> M S B) s b s'' :
  bind m f s = Ok (b, s'') ->
  exists a s', m s = Ok (a, s') /\ f a s' = Ok (b, s'').
Proof.
  unfold bind. intros H. destruct (m s) as [[a s']|e]; [|discriminate].
  by exists a, s'.
Qed.

Lemma bind_assoc (m : M S A) (f : A -> M S B) (g : B -> M S C) s :
  bind (bind m f) g s = bind m (fun a => bind (f a) g) s.
Proof. unfold bind. by destruct (m s) as [[a s']|e]. Qed.
End Monad.

(** ** Total correctness

    [wp m Q s]: from [s], [m] returns without a fault, and its result and
    final state satisfy [Q]. *)
Definition wp {S A} (m : M S A) (Q : A -> S -> Prop) (s : S) : Prop :=
  match m s with Ok (a, s') => Q a s' | Err _ => False end.

Arguments wp : simpl never.

Section Wp.
Context {S A B : Type}.

Lemma wp_ok (m : M S A) (Q : A -> S -> Prop) s a s' : m s = Ok (a, s') -> wp m Q s <-> Q a s'.
Proof. intros H. unfold wp. by rewrite H. Qed.

Lemma wp_inv (m : M S A) (Q : A -> S -> Prop) s :
  wp m Q s -> exists a s', m s = Ok (a, s') /\ Q a s'.
Proof. unfold wp. destruct (m s) as [[a s']|]; [eauto|done]. Qed.

Lemma wp_mono (m : M S A) (P Q : A -> S -> Prop) s :
  wp m P s -> (forall a s', P a s' -> Q a s') -> wp m Q s.
Proof. unfold wp. destruct (m s) as [[a s']|]; auto. Qed.

Lemma wp_both (m : M S A) (P Q : A -> S -> Prop) s : wp m P s -> wp m Q s -> wp m (fun a s' => P a s' /\ Q a s') s.
Proof. unfold wp. by destruct (m s) as [[a s']|]. Qed.

(** What a concrete call answers. *)
Definition answer (m : M S A) (s : S) : option A := match m s with Ok (a, _) => Some a | Err _ => None end.

Lemma wp_answer (m : M S A) a0 (Q : A -> S -> Prop) s :
  answer m s = Some a0 -> wp m Q s -> wp m (fun a s' => a = a0 /\ Q a s') s.
Proof. unfold wp, answer. destruct (m s) as [[a s']|]; [|done]. by intros [= ->] H. Qed.

Lemma wp_bind (m : M S A) (f : A -> M S B) (Q : B -> S -> Prop) s :
  wp (bind m f) Q s <-> wp m (fun a => wp (f a) Q) s.
Proof. unfold wp, bind. by destruct (m s) as [[a s']|]. Qed.

Lemma wp_ret (a : A) (Q : A -> S -> Prop) s : wp (ret a) Q s <-> Q a s.
Proof. done. Qed.

Lemma wp_gets (f : S -> A) (Q : A -> S -> Prop) s : wp (gets f) Q s <-> Q (f s) s.
Proof. done. Qed.

Lemma wp_get (Q : S -> S -> Prop) s : wp get Q s <-> Q s s.
Proof. done. Qed.

Lemma wp_modify (f : S -> S) (Q : unit -> S -> Prop) s : wp (modify f) Q s <-> Q tt (f s).
Proof. done. Qed.

Lemma wp_assert (b : bool) (Q : unit -> S -> Prop) s : b = true -> wp (assert_ b) Q s <-> Q tt s.
Proof. by intros ->. Qed.

Lemma wp_lift (o : outcome A) a (Q : A -> S -> Prop) s : o = Ok a -> wp (lift o) Q s <-> Q a s.
Proof. by intros ->. Qed.
End Wp.

Lemma aget_ok {A} (l : list A) i x :
  0 <= i -> l !! Z.to_nat i = Some x -> aget l i = Ok x.
Proof.
  intros Hi Hl. unfold aget. rewrite Hl.
  destruct (Z.ltb_spec i 0); [lia|done].
Qed.

Lemma aset_ok {A} (l : list A) i x :
  0 <= i < Z.of_nat (length l) -> aset l i x = Ok (<[Z.to_nat i := x]> l).
Proof.
  intros Hi. unfold aset.
  by rewrite (proj2 (Z.leb_le 0 i)), (proj2 (Z.ltb_lt i _)) by lia.
Qed.

Lemma udiv_ok a b : b <> 0 -> udiv a b = Ok (a / b).
Proof. intros Hb. unfold udiv. by rewrite (proj2 (Z.eqb_neq b 0)). Qed.

Lemma umod_ok a b : b <> 0 -> umod a b = Ok (a mod b).
Proof. intros Hb. unfold umod. by rewrite (proj2 (Z.eqb_neq b 0)). Qed.

Lemma assert_true {S} (b : bool) : b = true -> assert_ (S := S) b = ret tt.
Proof. by intros ->. Qed.

(** Lemmas the components register for [auto]: what keeps an invariant, and
    the small facts about masks that decide it. *)
Create HintDb driver.
#[export] Hint Resolve wrap_bound : driver.
Create Rewrite HintDb wp.
#[export] Hint Rewrite @wp_bind @wp_ret @wp_gets @wp_get @wp_modify : wp.

(** ** Status codes (fsl_common.h) *)

Definition status_t := Z.
Definition MAKE_STATUS (group code : Z) : status_t := group * 100 + code.

Definition kStatusGroup_Generic : Z := 0.
Definition kStatus_Success : status_t := MAKE_STATUS kStatusGroup_Generic 0.
Definition kStatus_Fail : status_t := MAKE_STATUS kStatusGroup_Generic 1.
Definition kStatus_ReadOnly : status_t := MAKE_STATUS kStatusGroup_Generic 2.
Definition kStatus_OutOfRange : status_t := MAKE_STATUS kStatusGroup_Generic 3.
Definition kStatus_InvalidArgument : status_t := MAKE_STATUS kStatusGroup_Generic 4.
Definition kStatus_Timeout : status_t := MAKE_STATUS kStatusGroup_Generic 5.
Definition kStatus_NoTransferInProgress : status_t := MAKE_STATUS kStatusGroup_Generic 6.
Definition kStatus_Busy : status_t := MAKE_STATUS kStatusGroup_Generic 7.
Definition kStatus_NoData : status_t := MAKE_STATUS kStatusGroup_Generic 8.
