(* ===== verification/Bytes.v ===== *)
(** * Byte-addressed memory

    A memory is a function from addresses to bytes.  [bytes_at] reads a run of
    bytes and [mem_write] stores one, which is what [memcpy] does to the
    memory the drivers and their peripherals share. *)

From stdpp Require Import base list numbers tactics.
From Stdlib Require Import ZArith Lia.
From S2P Require Import Prelude.

Open Scope Z_scope.

(** [n] bytes at [a]. *)
Definition bytes_at (mem : Z -> Z) (a n : Z) : list Z := map (fun i => mem (a + Z.of_nat i)) (seq 0 (Z.to_nat n)).
(** The bytes [l] stored from [a] on. *)
Definition mem_write (a : Z) (l : list Z) (mem : Z -> Z) : Z -> Z :=
  fun x => if (a <=? x) && (x <? a + Z.of_nat (length l)) then nth (Z.to_nat (x - a)) l 0 else mem x.
(** Two ranges of addresses have nothing in common. *)
Definition apart (a n b m : Z) : Prop := n <= 0 \/ m <= 0 \/ a + n <= b \/ b + m <= a.

Lemma bytes_at_length mem a n : length (bytes_at mem a n) = Z.to_nat n.
Proof. unfold bytes_at. by rewrite length_map, length_seq. Qed.

Lemma bytes_at_split mem a n m : 0 <= n -> 0 <= m -> bytes_at mem a (n + m) = bytes_at mem a n ++ bytes_at mem (a + n) m.
Proof.
  intros Hn Hm. unfold bytes_at. rewrite Z2Nat.inj_add, seq_app, map_app by lia. f_equal. rewrite Nat.add_0_l.
  apply list_eq. intros i. rewrite !list_lookup_fmap.
  destruct (decide (i < Z.to_nat m)%nat) as [Hi|Hi].
  - rewrite !lookup_seq_lt by lia. simpl. do 2 f_equal. lia.
  - rewrite !lookup_seq_ge by lia. done.
Qed.
(** The first bytes of a range, and the others. *)
Lemma bytes_at_cut mem a n k : 0 <= n <= k ->
  take (Z.to_nat n) (bytes_at mem a k) = bytes_at mem a n /\ drop (Z.to_nat n) (bytes_at mem a k) = bytes_at mem (a + n) (k - n).
Proof.
  intros Hn. replace k with (n + (k - n)) at 1 2 by lia. rewrite bytes_at_split by lia.
  rewrite <- (bytes_at_length mem a n).
  by rewrite take_app_length, drop_app_length.
Qed.

Lemma bytes_at_next mem a n : bytes_at mem a (Z.of_nat (S n)) = mem a :: bytes_at mem (a + 1) (Z.of_nat n).
Proof.
  unfold bytes_at. rewrite !Nat2Z.id. cbn [seq map]. f_equal; [by rewrite Z.add_0_r|]. rewrite <- seq_shift, map_map. apply map_ext.
  intros i. f_equal. lia.
Qed.

Lemma bytes_at_nothing mem a n : n <= 0 -> bytes_at mem a n = [].
Proof. intros Hn. unfold bytes_at. by replace (Z.to_nat n) with 0%nat by lia. Qed.

Lemma bytes_at_agree mem mem' a n : (forall x, a <= x < a + n -> mem x = mem' x) -> bytes_at mem a n = bytes_at mem' a n.
Proof. intros H. unfold bytes_at. apply map_ext_in. intros i Hi%in_seq. apply H. lia. Qed.

Lemma mem_write_out a l mem x : x < a \/ a + Z.of_nat (length l) <= x -> mem_write a l mem x = mem x.
Proof.
  intros H. unfold mem_write. destruct (Z.leb_spec a x), (Z.ltb_spec x (a + Z.of_nat (length l))); simpl; done || lia.
Qed.

Lemma mem_write_nothing a mem x : mem_write a [] mem x = mem x.
Proof. apply mem_write_out. cbn. lia. Qed.
Lemma mem_write_next a x l mem y : mem_write (a + 1) l (mem_write a [x] mem) y = mem_write a (x :: l) mem y.
Proof.
  unfold mem_write. cbn [length]. destruct (Z.leb_spec (a + 1) y), (Z.ltb_spec y (a + 1 + Z.of_nat (length l))), (Z.leb_spec a y),
    (Z.ltb_spec y (a + Z.of_nat 1)), (Z.ltb_spec y (a + Z.of_nat (S (length l)))); try lia; cbn [andb]; try done.
  - replace (Z.to_nat (y - a)) with (S (Z.to_nat (y - (a + 1)))) by lia. done.
  - by replace (y - a) with 0 by lia.
Qed.

Lemma bytes_at_stored mem a l : bytes_at (mem_write a l mem) a (Z.of_nat (length l)) = l.
Proof.
  unfold bytes_at. rewrite Nat2Z.id. apply list_eq. intros i. rewrite list_lookup_fmap.
  destruct (decide (i < length l)%nat) as [Hi|Hi].
  - rewrite lookup_seq_lt by done. cbn [fmap option_fmap option_map]. destruct (lookup_lt_is_Some_2 l i Hi) as [x Hx]. rewrite Hx.
    f_equal. unfold mem_write. rewrite (proj2 (Z.leb_le _ _)), (proj2 (Z.ltb_lt _ _)) by lia. cbn [andb].
    rewrite nth_lookup. replace (Z.to_nat (a + Z.of_nat (0 + i) - a)) with i by lia. by rewrite Hx.
  - rewrite lookup_seq_ge by lia. symmetry. apply lookup_ge_None. lia.
Qed.

Lemma bytes_at_apart mem a l b n : apart a (Z.of_nat (length l)) b n -> bytes_at (mem_write a l mem) b n = bytes_at mem b n.
Proof. intros H. apply bytes_at_agree. intros x Hx. apply mem_write_out. unfold apart in H. lia. Qed.
