(* ===== verification/Mmio.v ===== *)
(** * Memory-mapped peripherals

    A driver touches its peripheral only through 32-bit reads and writes of
    named registers.  The peripheral itself is not part of the repository:
    it is an abstract state [D] with a read (which may change the state: a
    FIFO pops, a clock ticks) and a write.  Driver code is written against
    [Device] alone; a theorem that needs to know how the hardware answers
    takes the corresponding laws as a further class. *)

From stdpp Require Import base list numbers tactics.
From Stdlib Require Import ZArith Lia.
From S2P Require Import Prelude.

Open Scope Z_scope.
Open Scope prog_scope.

Class Device (Reg D : Type) := {
  reg_read : Reg -> D -> Z * D;
  reg_write : Reg -> Z -> D -> D
}.

Section Access.
Context {Reg D : Type} `{!Device Reg D}.

(** [x = base->R] *)
Definition rd (r : Reg) : M D Z := fun d => Ok (reg_read r d).
(** [base->R = v] *)
Definition wr (r : Reg) (v : Z) : M D unit := fun d => Ok (tt, reg_write r v d).
Lemma bind_rd {A} r (f : Z -> M D A) d :
  bind (rd r) f d = let '(v, d') := reg_read r d in f v d'.
Proof. unfold bind, rd. by destruct (reg_read r d). Qed.

Lemma bind_wr {A} r v (f : unit -> M D A) d : bind (wr r v) f d = f tt (reg_write r v d).
Proof. done. Qed.

(** [base->R |= v] and [base->R &= ~v] *)
Definition set_bits (r : Reg) (v : Z) : M D unit := x <- rd r ;; wr r (Z.lor x v).
Definition clear_bits (r : Reg) (v : Z) : M D unit := x <- rd r ;; wr r (bic32 x v).
(** The same on an 8-bit register. *)
Definition clear_bits8 (r : Reg) (v : Z) : M D unit := x <- rd r ;; wr r (bic8 x v).
End Access.

(** [while (cond) { body }] with [n] the number of rounds allowed. *)
Fixpoint while_ {S} (n : nat) (cond : M S bool) (body : M S unit) : M S unit :=
  match n with
  | O => throw OutOfFuel
  | S n => b <- cond ;; if b then (body ;; while_ n cond body) else ret tt
  end.

(** [while ((base->R & mask) != 0) {}] *)
Definition poll_set {Reg D} `{!Device Reg D} (fuel : nat) (r : Reg) (mask : Z) : M D unit :=
  while_ fuel (x <- rd r ;; ret (has x mask)) (ret tt).
(** [while ((base->R & mask) == 0) {}] *)
Definition poll_clear {Reg D} `{!Device Reg D} (fuel : nat) (r : Reg) (mask : Z) : M D unit :=
  while_ fuel (x <- rd r ;; ret (negb (has x mask))) (ret tt).

(** The simplest peripheral: every register is a storage cell. *)
Class PlainRegs (Reg D : Type) `{!Device Reg D, !EqDecision Reg} := {
  view : D -> Reg -> Z;
  plain_read r d : reg_read r d = (view d r, d);
  plain_write r v d r' :
    view (reg_write r v d) r' = if decide (r = r') then v else view d r'
}.

Section Plain.
Context {Reg D : Type} `{HP : PlainRegs Reg D}.

Lemma rd_plain r d : rd r d = Ok (view d r, d).
Proof. unfold rd. by rewrite plain_read. Qed.

Lemma bind_rd_plain {A} r (f : Z -> M D A) d : bind (rd r) f d = f (view d r) d.
Proof. apply bind_ok, rd_plain. Qed.

Lemma view_write_eq r v d : view (reg_write r v d) r = v.
Proof. rewrite plain_write. by rewrite decide_True. Qed.

Lemma view_write_ne r v d r' : r <> r' -> view (reg_write r v d) r' = view d r'.
Proof. intros. rewrite plain_write. by rewrite decide_False. Qed.

Lemma set_bits_plain r v d :
  set_bits r v d = Ok (tt, reg_write r (Z.lor (view d r) v) d).
Proof. unfold set_bits. by rewrite bind_rd_plain. Qed.

Lemma clear_bits_plain r v d :
  clear_bits r v d = Ok (tt, reg_write r (bic32 (view d r) v) d).
Proof. unfold clear_bits. by rewrite bind_rd_plain. Qed.

Lemma poll_set_plain n r m d :
  has (view d r) m = false -> poll_set (S n) r m d = Ok (tt, d).
Proof.
  intros H. unfold poll_set. cbn [while_]. rewrite bind_assoc, bind_rd_plain.
  unfold bind, ret. by rewrite H.
Qed.

Lemma poll_clear_plain n r m d :
  has (view d r) m = true -> poll_clear (S n) r m d = Ok (tt, d).
Proof.
  intros H. unfold poll_clear. cbn [while_]. rewrite bind_assoc, bind_rd_plain.
  unfold bind, ret. by rewrite H.
Qed.
End Plain.

(** A register file held in a function is such a peripheral; it is the
    instance the concrete examples use. *)
Section FunRegs.
Context {Reg : Type} `{!EqDecision Reg}.

#[export] Instance fun_device : Device Reg (Reg -> Z) := {
  reg_read r d := (d r, d);
  reg_write r v d := fun r' => if decide (r = r') then v else d r'
}.

#[export] Instance fun_plain : PlainRegs Reg (Reg -> Z).
Proof. by apply (Build_PlainRegs _ _ _ _ (fun d r => d r)). Defined.
End FunRegs.

(** Masks: setting and clearing the bits of a mask. *)

Lemma has_lor x m : 0 <= m -> m <> 0 -> has (Z.lor x m) m = true.
Proof.
  intros Hm Hm0. unfold has. rewrite negb_true_iff, Z.eqb_neq. intros H.
  assert (Z.land (Z.lor x m) m = m) as E; [|congruence].
  apply Z.bits_inj'. intros i Hi. rewrite Z.land_spec, Z.lor_spec.
  by destruct (Z.testbit x i), (Z.testbit m i).
Qed.

Lemma has_bic w x m : 0 <= w -> 0 <= m < 2 ^ w -> has (bic w x m) m = false.
Proof.
  intros Hw Hm. unfold has, bic. rewrite negb_false_iff, Z.eqb_eq.
  apply Z.bits_inj'. intros i Hi. rewrite !Z.land_spec, Z.bits_0.
  destruct (Z.testbit m i) eqn:E; [|by rewrite andb_false_r].
  destruct (Z.lt_ge_cases i w) as [Hlt|Hge].
  - rewrite wrap_testbit, Z.lnot_spec, E by lia. by rewrite andb_false_r.
  - rewrite (wrap_testbit_high w) by lia. by rewrite andb_false_r.
Qed.

Lemma has_bic32 x m : 0 <= m < 2 ^ 32 -> has (bic32 x m) m = false.
Proof. by apply has_bic. Qed.

(** Clearing one mask keeps a disjoint one. *)
Lemma has_bic_keep w x k m : 0 <= m < 2 ^ w -> 0 <= w -> Z.land k m = 0 -> has (bic w x k) m = has x m.
Proof.
  intros Hm Hw Hk. unfold has, bic. do 2 f_equal.
  apply Z.bits_inj'. intros i Hi. rewrite !Z.land_spec.
  destruct (Z.testbit m i) eqn:E; [|by rewrite !andb_false_r].
  destruct (Z.lt_ge_cases i w) as [Hlt|Hge].
  - rewrite wrap_testbit, Z.lnot_spec by lia.
    assert (Z.testbit k i && Z.testbit m i = false) as H by by rewrite <- Z.land_spec, Hk, Z.bits_0.
    rewrite E, andb_true_r in H. rewrite H. by destruct (Z.testbit x i).
  - rewrite (testbit_above m w) in E by lia. done.
Qed.

Lemma has_lor_keep x k m : Z.land k m = 0 -> has (Z.lor x k) m = has x m.
Proof. intros Hk. unfold has. by rewrite Z.land_lor_distr_l, Hk, Z.lor_0_r. Qed.

(** Clearing bits keeps the others clear; setting bits of a disjoint mask
    does too. *)
Lemma has_bic_other w x k m : has x m = false -> has (bic w x k) m = false.
Proof.
  unfold has, bic. rewrite !negb_false_iff, !Z.eqb_eq. intros H.
  rewrite <- Z.land_assoc, (Z.land_comm (wrap w _)), Z.land_assoc, H. apply Z.land_0_l.
Qed.

Lemma has_lor_other x k m : has x m = false -> Z.land k m = 0 -> has (Z.lor x k) m = false.
Proof.
  unfold has. rewrite !negb_false_iff, !Z.eqb_eq. intros H Hk.
  by rewrite Z.land_lor_distr_l, H, Hk.
Qed.

(** A mask of one bit. *)
Lemma has_pow2 x k : 0 <= k -> has x (2 ^ k) = Z.testbit x k.
Proof.
  intros Hk. unfold has. destruct (Z.testbit x k) eqn:E.
  - apply negb_true_iff, Z.eqb_neq. intros H. assert (Hb : Z.testbit (Z.land x (2 ^ k)) k = true)
      by (by rewrite Z.land_spec, E, Z.pow2_bits_true by done).
    by rewrite H, Z.bits_0 in Hb.
  - apply negb_false_iff, Z.eqb_eq, Z.bits_inj'. intros i Hi. rewrite Z.land_spec, Z.bits_0, Z.pow2_bits_eqb by done.
    destruct (Z.eqb_spec k i) as [<-|]; [by rewrite E|by rewrite andb_false_r].
Qed.

Lemma bic_testbit w x m i : 0 <= i < w -> Z.testbit (bic w x m) i = Z.testbit x i && negb (Z.testbit m i).
Proof. intros Hi. unfold bic. by rewrite Z.land_spec, wrap_testbit, Z.lnot_spec by lia. Qed.
