(* ===== verification/Calendar.v ===== *)
(** * Calendar arithmetic of the RTC drivers

    Every RTC driver of the SDK carries its own static copy of three
    functions: the check of a date, and the conversions between a date and a
    32-bit count of seconds from 1970.  [Module SnvsHp] is the copy of
    fsl_snvs_hp.c (the copies of fsl_snvs_lp.c and the LPC RTC are the same
    text); [Module Rtc] is the variant of fsl_rtc.c and rtc_1, with one more
    guard and an assertion.  The reference is a Gregorian calendar defined by
    counting days, [Section Gregorian]. *)

From stdpp Require Import base list numbers tactics.
From Stdlib Require Import ZArith Lia.
From S2P Require Import Prelude.

Open Scope Z_scope.
Open Scope prog_scope.

Definition SECONDS_IN_A_DAY := 86400.
Definition SECONDS_IN_A_HOUR := 3600.
Definition SECONDS_IN_A_MINUTE := 60.
Definition DAYS_IN_A_YEAR := 365.
Definition YEAR_RANGE_START := 1970.
Definition YEAR_RANGE_END := 2099.

(** [snvs_hp_rtc_datetime_t] and its siblings: a [uint16_t] year and five
    [uint8_t] fields. *)
Record datetime := Datetime {
  year : Z; month : Z; day : Z; hour : Z; minute : Z; second : Z
}.

#[export] Instance datetime_eq_dec : EqDecision datetime.
Proof. solve_decision. Defined.

Definition datetime_wf (d : datetime) : Prop :=
  0 <= year d < 2 ^ 16 /\ 0 <= month d < 2 ^ 8 /\ 0 <= day d < 2 ^ 8 /\
  0 <= hour d < 2 ^ 8 /\ 0 <= minute d < 2 ^ 8 /\ 0 <= second d < 2 ^ 8.

(** The tables of the three functions; entry 0 is not used. *)
Definition daysPerMonth : list Z := [0; 31; 28; 31; 30; 31; 30; 31; 31; 30; 31; 30; 31].
Definition monthDays : list Z := [0; 0; 31; 59; 90; 120; 151; 181; 212; 243; 273; 304; 334].

(** ** The driver's functions *)

Module SnvsHp.

Definition CheckDatetimeFormat (d : datetime) : bool :=
  if (year d <? YEAR_RANGE_START) || (YEAR_RANGE_END <? year d) || (12 <? month d)
     || (month d <? 1) || (24 <=? hour d) || (60 <=? minute d) || (60 <=? second d)
  then false
  else
    let dpm :=
      if ((Z.land (year d) 3 =? 0) && negb (year d mod 100 =? 0)) || (year d mod 400 =? 0)
      then <[2%nat := 29]> daysPerMonth else daysPerMonth in
    match aget dpm (month d) with
    | Ok n => if (n <? day d) || (day d <? 1) then false else true
    | Err _ => false
    end.

(** The entry of [aget] is in range whenever it is reached: the month was
    checked before, so the [Err] branch above is dead
    (lemma [CheckDatetimeFormat_spec]). *)

Definition ConvertDatetimeToSeconds (d : datetime) : outcome Z :=
  let seconds := u32 (u32 (year d - 1970) * DAYS_IN_A_YEAR) in
  let seconds := u32 (seconds + u32 (year d / 4 - 1970 / 4)) in
  md <-! aget monthDays (month d) ;;
  let seconds := u32 (seconds + md) in
  let seconds := u32 (seconds + u32 (day d - 1)) in
  let seconds :=
    if (0 =? Z.land (year d) 3) && (month d <=? 2) then u32 (seconds - 1) else seconds in
  Ok (u32 (u32 (seconds * SECONDS_IN_A_DAY) + hour d * SECONDS_IN_A_HOUR
           + minute d * SECONDS_IN_A_MINUTE + second d)).

(** The loop that takes whole years off the day count. *)
Fixpoint year_loop (fuel : nat) (days yr daysInYear : Z) : outcome (Z * Z) :=
  if days <=? daysInYear then Ok (days, yr)
  else match fuel with
  | O => Err OutOfFuel
  | S fuel =>
      let days := u32 (days - daysInYear) in
      let yr := u16 (yr + 1) in
      let daysInYear :=
        if negb (Z.land yr 3 =? 0) then DAYS_IN_A_YEAR else DAYS_IN_A_YEAR + 1 in
      year_loop fuel days yr daysInYear
  end.

(** The loop that takes whole months off; [m0] is the month already in the
    output structure, kept when no month matches. *)
Fixpoint month_loop (n : nat) (dpm : list Z) (x days m0 : Z) : outcome (Z * Z) :=
  match n with
  | O => Ok (days, m0)
  | S n =>
      k <-! aget dpm x ;;
      if days <=? k then Ok (days, u8 x)
      else month_loop n dpm (x + 1) (u32 (days - k)) m0
  end.

Definition year_fuel : nat := 150.

Definition ConvertSecondsToDatetime (seconds : Z) (d0 : datetime) : outcome datetime :=
  let days := u32 (seconds / SECONDS_IN_A_DAY + 1) in
  let secondsRemaining := seconds mod SECONDS_IN_A_DAY in
  let hour := u8 (secondsRemaining / SECONDS_IN_A_HOUR) in
  let secondsRemaining := secondsRemaining mod SECONDS_IN_A_HOUR in
  let minute := u8 (secondsRemaining / 60) in
  let second := u8 (secondsRemaining mod SECONDS_IN_A_MINUTE) in
  dy <-! year_loop year_fuel days YEAR_RANGE_START DAYS_IN_A_YEAR ;;
  let '(days, year) := dy in
  let dpm := if 0 =? Z.land year 3 then <[2%nat := 29]> daysPerMonth else daysPerMonth in
  dm <-! month_loop 12 dpm 1 days (month d0) ;;
  let '(days, month) := dm in
  Ok (Datetime year month (u8 days) hour minute second).

End SnvsHp.

Module Rtc.

(** fsl_rtc.c and rtc_1/fsl_rtc.c: as above, with [0U != seconds] added to
    the February test and an assertion before the multiplication. *)
Definition CheckDatetimeFormat := SnvsHp.CheckDatetimeFormat.

Definition ConvertDatetimeToSeconds (d : datetime) : outcome Z :=
  let seconds := u32 (u32 (year d - 1970) * DAYS_IN_A_YEAR) in
  let seconds := u32 (seconds + u32 (year d / 4 - 1970 / 4)) in
  md <-! aget monthDays (month d) ;;
  let seconds := u32 (seconds + md) in
  let seconds := u32 (seconds + u32 (day d - 1)) in
  let seconds :=
    if (0 =? Z.land (year d) 3) && (month d <=? 2) && negb (0 =? seconds)
    then u32 (seconds - 1) else seconds in
  if seconds <? UINT32_MAX / SECONDS_IN_A_DAY then
    Ok (u32 (u32 (seconds * SECONDS_IN_A_DAY) + hour d * SECONDS_IN_A_HOUR
             + minute d * SECONDS_IN_A_MINUTE + second d))
  else Err AssertFailed.

Definition ConvertSecondsToDatetime := SnvsHp.ConvertSecondsToDatetime.

End Rtc.

(** ** The Gregorian calendar by counting *)

Section Gregorian.

Definition leap (y : Z) : bool :=
  ((y mod 4 =? 0) && negb (y mod 100 =? 0)) || (y mod 400 =? 0).
Definition year_len (y : Z) : Z := if leap y then 366 else 365.
Definition month_len (y m : Z) : Z :=
  if m =? 2 then (if leap y then 29 else 28)
  else if (m =? 4) || (m =? 6) || (m =? 9) || (m =? 11) then 30 else 31.

(** Days before January 1st of year [1970 + n]. *)
Fixpoint days_before_year (n : nat) : Z :=
  match n with
  | O => 0
  | S n => days_before_year n + year_len (1970 + Z.of_nat n)
  end.

(** Days of year [y] before the first of its month [1 + n]. *)
Fixpoint days_before_month (y : Z) (n : nat) : Z :=
  match n with
  | O => 0
  | S n => days_before_month y n + month_len y (1 + Z.of_nat n)
  end.

Definition day_of_year (d : datetime) : Z :=
  days_before_month (year d) (Z.to_nat (month d - 1)) + (day d - 1).
Definition second_of_day (d : datetime) : Z :=
  hour d * 3600 + minute d * 60 + second d.

(** Seconds from 1970-01-01 00:00:00 to [d]. *)
Definition gregorian_seconds (d : datetime) : Z :=
  (days_before_year (Z.to_nat (year d - 1970)) + day_of_year d) * 86400 + second_of_day d.

Definition valid (d : datetime) : Prop :=
  1970 <= year d <= 2099 /\ 1 <= month d <= 12 /\
  1 <= day d <= month_len (year d) (month d) /\
  0 <= hour d < 24 /\ 0 <= minute d < 60 /\ 0 <= second d < 60.

(** Chronological order: lexicographic on the six fields. *)
Definition earlier (a b : datetime) : Prop :=
  year a < year b \/ (year a = year b /\ (month a < month b \/ (month a = month b /\
  (day a < day b \/ (day a = day b /\ (second_of_day a < second_of_day b)))))).

End Gregorian.

(** The seconds of the supported range: up to 2099-12-31 23:59:59. *)
Definition seconds_end : Z := 4102444800.

(** ** Facts about the reference calendar *)

Lemma leap_mod4 y : 1970 <= y <= 2099 -> leap y = (y mod 4 =? 0).
Proof. unfold leap. intros. zlia. Qed.

(** The days before year [y] by the drivers' rule, every fourth year a leap
    year, from which the loop of [ConvertSecondsToDatetime] counts. *)
Definition start4 (y : Z) : Z := 365 * (y - 1970) + (y - 1) / 4 - 492.

Lemma start4_succ y : start4 (y + 1) = start4 y + (if y mod 4 =? 0 then 366 else 365).
Proof. unfold start4. destruct (Z.eqb_spec (y mod 4) 0); zlia. Qed.

Lemma days_before_year_start4 n :
  (n <= 130)%nat -> days_before_year n = start4 (1970 + Z.of_nat n).
Proof.
  induction n as [|n IH]; intros Hn; [reflexivity|].
  cbn [days_before_year]. rewrite IH by lia. unfold year_len. rewrite leap_mod4 by lia.
  replace (1970 + Z.of_nat (S n)) with (1970 + Z.of_nat n + 1) by lia.
  by rewrite start4_succ.
Qed.

Lemma days_before_year_of y :
  1970 <= y <= 2100 -> days_before_year (Z.to_nat (y - 1970)) = start4 y.
Proof. intros. rewrite days_before_year_start4 by lia. f_equal; lia. Qed.

(** A property of the months is proved month by month. *)
Lemma month_cases (P : Z -> Prop) m :
  1 <= m <= 12 -> P 1 -> P 2 -> P 3 -> P 4 -> P 5 -> P 6 -> P 7 -> P 8 -> P 9 ->
  P 10 -> P 11 -> P 12 -> P m.
Proof.
  intros Hm. intros.
  assert (m = 1 \/ m = 2 \/ m = 3 \/ m = 4 \/ m = 5 \/ m = 6 \/ m = 7 \/ m = 8 \/
    m = 9 \/ m = 10 \/ m = 11 \/ m = 12) as Hc by lia.
  repeat (destruct Hc as [->|Hc]; [assumption|]). by subst.
Qed.

(** [by_month m Hm] splits a goal on the twelve values of [m]. *)
Ltac by_month m Hm := pattern m; apply (month_cases _ m Hm).

Lemma days_before_month_succ y m :
  1 <= m -> days_before_month y (Z.to_nat (m - 1)) + month_len y m =
            days_before_month y (Z.to_nat m).
Proof.
  intros. replace (Z.to_nat m) with (S (Z.to_nat (m - 1))) by lia.
  cbn [days_before_month]. do 2 f_equal. lia.
Qed.

Lemma month_len_pos y m : 28 <= month_len y m <= 31.
Proof. unfold month_len. repeat case_match; lia. Qed.

Lemma days_before_month_mono y m n :
  (m <= n)%nat -> days_before_month y m <= days_before_month y n.
Proof.
  induction 1 as [|n _ IH]; [lia|]. cbn [days_before_month].
  pose proof (month_len_pos y (1 + Z.of_nat n)). lia.
Qed.

Lemma days_before_month_12 y : days_before_month y 12 = year_len y.
Proof. unfold year_len. cbn. unfold month_len. cbn. by destruct (leap y). Qed.

Lemma day_of_year_bound d : valid d -> 0 <= day_of_year d < year_len (year d).
Proof.
  intros (_ & Hm & Hd & _). unfold day_of_year.
  pose proof (days_before_month_mono (year d) 0 (Z.to_nat (month d - 1)) ltac:(lia)) as H0.
  pose proof (days_before_month_mono (year d) (Z.to_nat (month d)) 12 ltac:(lia)) as H1.
  rewrite <- days_before_month_succ, days_before_month_12 in H1 by lia.
  cbn in H0. lia.
Qed.

Lemma second_of_day_bound d : valid d -> 0 <= second_of_day d < 86400.
Proof. unfold valid, second_of_day. lia. Qed.

Lemma start4_mono y z : y <= z -> start4 y <= start4 z.
Proof. unfold start4. intros. zlia. Qed.

Lemma gregorian_seconds_eq d :
  valid d ->
  gregorian_seconds d = (start4 (year d) + day_of_year d) * 86400 + second_of_day d.
Proof. intros [Hy _]. unfold gregorian_seconds. by rewrite days_before_year_of by lia. Qed.

Lemma year_end d :
  valid d -> start4 (year d) + day_of_year d < start4 (year d + 1).
Proof.
  intros Hv. pose proof (day_of_year_bound d Hv) as H. destruct Hv as [Hy _].
  rewrite start4_succ. unfold year_len in H. rewrite leap_mod4 in H by lia. lia.
Qed.

Lemma gregorian_seconds_bound d : valid d -> 0 <= gregorian_seconds d < seconds_end.
Proof.
  intros Hv. rewrite gregorian_seconds_eq by done.
  pose proof (second_of_day_bound d Hv). pose proof (day_of_year_bound d Hv).
  pose proof (year_end d Hv). destruct Hv as [Hy _].
  pose proof (start4_mono 1970 (year d) ltac:(lia)).
  pose proof (start4_mono (year d + 1) 2100 ltac:(lia)).
  change (start4 1970) with 0 in *. change (start4 2100) with 47482 in *.
  unfold seconds_end. lia.
Qed.

Lemma gregorian_seconds_mono a b :
  valid a -> valid b -> earlier a b -> gregorian_seconds a < gregorian_seconds b.
Proof.
  intros Ha Hb Hab. rewrite !gregorian_seconds_eq by done.
  pose proof (second_of_day_bound a Ha). pose proof (second_of_day_bound b Hb).
  enough (start4 (year a) + day_of_year a < start4 (year b) + day_of_year b \/
    (start4 (year a) + day_of_year a = start4 (year b) + day_of_year b /\
     second_of_day a < second_of_day b)) by lia.
  destruct Hab as [Hy|[Hy Hab]].
  { pose proof (year_end a Ha). pose proof (day_of_year_bound b Hb).
    pose proof (start4_mono (year a + 1) (year b) ltac:(lia)). lia. }
  rewrite Hy. destruct Hab as [Hm|[Hm [Hd|[Hd Hs]]]]; unfold day_of_year; rewrite Hy.
  - destruct Ha as (_ & Ham & Had & _), Hb as (_ & Hbm & Hbd & _).
    pose proof (days_before_month_succ (year b) (month a) ltac:(lia)).
    pose proof (days_before_month_mono (year b) (Z.to_nat (month a))
      (Z.to_nat (month b - 1)) ltac:(lia)). rewrite Hy in Had. lia.
  - rewrite Hm. lia.
  - right. rewrite Hm, Hd. lia.
Qed.

Lemma earlier_total a b : valid a -> valid b -> a = b \/ earlier a b \/ earlier b a.
Proof.
  intros (_ & _ & _ & Hha & Hma & Hsa) (_ & _ & _ & Hhb & Hmb & Hsb).
  destruct a as [ya ma da ha mia sa], b as [yb mb db hb mib sb].
  unfold earlier, second_of_day. cbn in *.
  destruct (Z.lt_trichotomy ya yb) as [?|[->|?]]; [lia| |lia].
  destruct (Z.lt_trichotomy ma mb) as [?|[->|?]]; [lia| |lia].
  destruct (Z.lt_trichotomy da db) as [?|[->|?]]; [lia| |lia].
  assert (ha * 3600 + mia * 60 + sa = hb * 3600 + mib * 60 + sb \/
          ha * 3600 + mia * 60 + sa <> hb * 3600 + mib * 60 + sb) as [?|?] by lia; [|lia].
  left. f_equal; lia.
Qed.

Lemma gregorian_seconds_inj a b :
  valid a -> valid b -> gregorian_seconds a = gregorian_seconds b -> a = b.
Proof.
  intros Ha Hb Heq. destruct (earlier_total a b Ha Hb) as [?|[H|H]]; [done| |];
    apply gregorian_seconds_mono in H; auto; lia.
Qed.

Lemma gregorian_seconds_lt_iff a b :
  valid a -> valid b -> (gregorian_seconds a < gregorian_seconds b <-> earlier a b).
Proof.
  intros Ha Hb. split; [|by apply gregorian_seconds_mono].
  intros Hlt. destruct (earlier_total a b Ha Hb) as [->|[?|H]]; [lia|done|].
  apply gregorian_seconds_mono in H; auto; lia.
Qed.

(** ** The driver's functions meet the reference *)

(** Evaluates the reference's month sums at a literal month. *)
Ltac eval_month :=
  repeat match goal with |- context [Z.to_nat (?a - 1)] =>
    let n := eval vm_compute in (Z.to_nat (a - 1)) in change (Z.to_nat (a - 1)) with n end;
  cbn [days_before_month];
  repeat match goal with |- context [1 + Z.of_nat ?a] =>
    let n := eval vm_compute in (1 + Z.of_nat a) in change (1 + Z.of_nat a) with n end;
  unfold month_len; cbn.

Lemma dpm_month_len y m :
  1 <= m <= 12 ->
  aget (if leap y then <[2%nat := 29]> daysPerMonth else daysPerMonth) m = Ok (month_len y m).
Proof.
  intros Hm. unfold month_len. destruct (leap y); by_month m Hm; reflexivity.
Qed.

Lemma CheckDatetimeFormat_valid d :
  0 <= hour d -> 0 <= minute d -> 0 <= second d ->
  SnvsHp.CheckDatetimeFormat d = true <-> valid d.
Proof.
  intros Hh Hmi Hs. unfold SnvsHp.CheckDatetimeFormat, valid, YEAR_RANGE_START, YEAR_RANGE_END.
  match goal with |- (if ?b then _ else _) = _ <-> _ => destruct b eqn:Hr end; [split; [done|lia]|].
  rewrite land3_mod4. fold (leap (year d)). rewrite dpm_month_len by lia.
  destruct (Z.ltb_spec (month_len (year d) (month d)) (day d)), (Z.ltb_spec (day d) 1);
    cbn [orb]; split; (done || lia).
Qed.

(** Decides [valid] and its negation at a concrete date. *)
Ltac decide_valid :=
  match goal with
  | |- valid ?d => apply (proj1 (CheckDatetimeFormat_valid d ltac:(cbn; lia) ltac:(cbn; lia) ltac:(cbn; lia)));
      vm_compute; reflexivity
  | |- ~ valid ?d => rewrite <- (CheckDatetimeFormat_valid d ltac:(cbn; lia) ltac:(cbn; lia) ltac:(cbn; lia));
      vm_compute; discriminate
  end.

Lemma monthDays_spec y m :
  1970 <= y <= 2099 -> 1 <= m <= 12 ->
  exists md, aget monthDays m = Ok md /\
    days_before_month y (Z.to_nat (m - 1)) = md + (if leap y && (2 <? m) then 1 else 0) /\
    0 <= md <= 334.
Proof.
  intros Hy Hm. by_month m Hm;
    (eexists; split; [reflexivity|]; eval_month; destruct (leap y); cbn; lia).
Qed.

(** The day count the driver accumulates is the reference's. *)
Lemma driver_days y m dd md :
  1970 <= y <= 2099 -> 1 <= m <= 12 -> 1 <= dd <= 31 -> 0 <= md <= 334 ->
  let s := u32 (u32 (u32 (u32 (u32 (y - 1970) * DAYS_IN_A_YEAR) + u32 (y / 4 - 1970 / 4)) + md)
             + u32 (dd - 1)) in
  s = start4 y + (if y mod 4 =? 0 then 1 else 0) + md + (dd - 1).
Proof.
  intros. subst s. unfold DAYS_IN_A_YEAR.
  rewrite (wrap_small 32 (y / 4 - 1970 / 4)) by (pow2; zlia). ws.
  assert (0 <= y / 4 - 1970 / 4 < 33) by zlia. ws.
  unfold start4. destruct (Z.eqb_spec (y mod 4) 0); zlia.
Qed.

Lemma ConvertDatetimeToSeconds_gregorian d :
  valid d -> SnvsHp.ConvertDatetimeToSeconds d = Ok (gregorian_seconds d).
Proof.
  intros Hv. pose proof (gregorian_seconds_bound d Hv) as Hb.
  rewrite gregorian_seconds_eq in * by done. unfold day_of_year, second_of_day, seconds_end in *.
  destruct Hv as (Hy & Hm & Hd & Hh & Hmi & Hs).
  destruct (monthDays_spec (year d) (month d) Hy Hm) as (md & Hmd & Hdb & Hmdb).
  pose proof (month_len_pos (year d) (month d)) as Hml.
  unfold SnvsHp.ConvertDatetimeToSeconds, obind. rewrite Hmd, land3_mod4, Hdb in *.
  rewrite (driver_days (year d) (month d) (day d) md) by lia. rewrite leap_mod4 in * by lia.
  rewrite (Z.eqb_sym 0).
  unfold SECONDS_IN_A_DAY, SECONDS_IN_A_HOUR, SECONDS_IN_A_MINUTE.
  pose proof (start4_mono 1970 (year d) ltac:(lia)). change (start4 1970) with 0 in *.
  destruct (Z.eqb_spec (year d mod 4) 0), (Z.leb_spec (month d) 2), (Z.ltb_spec 2 (month d));
    cbn in *; try lia; ws; f_equal; lia.
Qed.

Lemma Rtc_ConvertDatetimeToSeconds_same d :
  valid d -> Rtc.ConvertDatetimeToSeconds d = SnvsHp.ConvertDatetimeToSeconds d.
Proof.
  intros Hv. pose proof (gregorian_seconds_bound d Hv) as Hb.
  rewrite gregorian_seconds_eq in * by done. unfold day_of_year, second_of_day, seconds_end in *.
  destruct Hv as (Hy & Hm & Hd & Hh & Hmi & Hs).
  destruct (monthDays_spec (year d) (month d) Hy Hm) as (md & Hmd & Hdb & Hmdb).
  pose proof (month_len_pos (year d) (month d)) as Hml.
  unfold Rtc.ConvertDatetimeToSeconds, SnvsHp.ConvertDatetimeToSeconds, obind.
  rewrite Hmd, land3_mod4, Hdb in *.
  rewrite (driver_days (year d) (month d) (day d) md) by lia. rewrite leap_mod4 in * by lia.
  rewrite (Z.eqb_sym 0 (year d mod 4)).
  pose proof (start4_mono 1970 (year d) ltac:(lia)). change (start4 1970) with 0 in *.
  change (UINT32_MAX / SECONDS_IN_A_DAY) with 49710.
  set (s := start4 (year d) + _ + md + (day d - 1)).
  assert (0 <= s < 49710 /\ (year d mod 4 = 0 -> 0 < s)) as [Hs1 Hs2].
  { subst s. clear -Hb Hmdb H Hd Hml Hh Hmi Hs.
    destruct (Z.eqb_spec (year d mod 4) 0), (2 <? month d); cbn [andb] in *; lia. }
  clearbody s. destruct (Z.eqb_spec (year d mod 4) 0) as [e|]; cbn [andb].
  - specialize (Hs2 e). destruct (month d <=? 2); cbn [andb].
    + rewrite (proj2 (Z.eqb_neq 0 s)) by lia. cbn [negb]. ws.
      by rewrite (proj2 (Z.ltb_lt (s - 1) 49710)) by lia.
    + by rewrite (proj2 (Z.ltb_lt s 49710)) by lia.
  - by rewrite (proj2 (Z.ltb_lt s 49710)) by lia.
Qed.

(** ** From seconds to a date *)

Definition len4 (y : Z) : Z := if y mod 4 =? 0 then 366 else 365.

Lemma year_loop_spec fuel : forall days y,
  1970 <= y -> y + Z.of_nat fuel < 2 ^ 16 ->
  1 <= days -> days <= 365 * (Z.of_nat fuel + 1) -> days < 2 ^ 32 ->
  exists days' y', SnvsHp.year_loop fuel days y (len4 y) = Ok (days', y') /\
    start4 y + days = start4 y' + days' /\ 1 <= days' <= len4 y' /\ y <= y' <= y + Z.of_nat fuel.
Proof.
  induction fuel as [|fuel IH]; intros days y Hy Hw H1 Hf H32; cbn [SnvsHp.year_loop].
  all: destruct (Z.leb_spec days (len4 y)) as [Hle|Hgt]; [exists days, y; split; [done|lia]|].
  { unfold len4 in *. case_match; lia. }
  assert (365 <= len4 y <= 366) by (unfold len4; case_match; lia).
  rewrite land3_mod4, (wrap_small 32), (wrap_small 16) by lia.
  replace (if negb _ then _ else _) with (len4 (y + 1))
    by (unfold len4, DAYS_IN_A_YEAR; by destruct (_ =? 0)).
  destruct (IH (days - len4 y) (y + 1)) as (days' & y' & -> & Hs & Hd & Hyy); [lia..|].
  exists days', y'. split; [done|]. rewrite start4_succ in Hs. unfold len4 in *. lia.
Qed.

Lemma month_loop_spec y m0 n : forall x days,
  x + Z.of_nat n = 13 -> 1 <= x -> 1 <= days ->
  days_before_month y (Z.to_nat (x - 1)) + days <= year_len y ->
  exists days' m,
    SnvsHp.month_loop n (if leap y then <[2%nat := 29]> daysPerMonth else daysPerMonth) x days m0
      = Ok (days', m) /\ x <= m <= 12 /\ 1 <= days' <= month_len y m /\
    days_before_month y (Z.to_nat (m - 1)) + days' = days_before_month y (Z.to_nat (x - 1)) + days.
Proof.
  induction n as [|n IH]; intros x days Hx H1 Hd Hle; cbn [SnvsHp.month_loop].
  { assert (x = 13) as -> by lia. change (Z.to_nat (13 - 1)) with 12%nat in Hle.
    rewrite days_before_month_12 in Hle. lia. }
  rewrite dpm_month_len by lia. cbn [obind]. pose proof (month_len_pos y x).
  destruct (Z.leb_spec days (month_len y x)).
  { exists days, x. rewrite wrap_small by (pow2; lia). split; [done|lia]. }
  assert (year_len y <= 366) by (unfold year_len; case_match; lia).
  pose proof (days_before_month_mono y 0 (Z.to_nat (x - 1)) ltac:(lia)).
  change (days_before_month y 0) with 0 in *.
  pose proof (days_before_month_succ y x ltac:(lia)) as Hsucc.
  rewrite wrap_small by (pow2; lia).
  destruct (IH (x + 1) (days - month_len y x)) as (days' & m & -> & Hm & Hd' & Hs); try lia.
  { rewrite Z.add_simpl_r. lia. }
  exists days', m. rewrite Z.add_simpl_r in Hs. split; [done|lia].
Qed.

(** The drivers' leap rule picks the February table of some year [y']. *)
Lemma leap4_year y : exists y', leap y' = (y mod 4 =? 0) /\ year_len y' = len4 y /\
  (1970 <= y <= 2099 -> y' = y).
Proof.
  destruct (decide (1970 <= y <= 2099)) as [Hy|Hy].
  { exists y. unfold year_len, len4. by rewrite leap_mod4 by lia. }
  exists (if y mod 4 =? 0 then 1972 else 1970). unfold len4.
  split_and!; [by destruct (y mod 4 =? 0)..|lia].
Qed.

Lemma ConvertSecondsToDatetime_spec s d0 :
  0 <= s < 2 ^ 32 ->
  exists d, SnvsHp.ConvertSecondsToDatetime s d0 = Ok d /\ datetime_wf d /\
    1 <= month d <= 12 /\ 1 <= day d <= 31 /\ hour d < 24 /\ minute d < 60 /\ second d < 60 /\
    1970 <= year d <= 2106 /\ (s < seconds_end -> valid d /\ gregorian_seconds d = s).
Proof.
  intros Hs. unfold SnvsHp.ConvertSecondsToDatetime, SECONDS_IN_A_DAY, SECONDS_IN_A_HOUR,
    SECONDS_IN_A_MINUTE, YEAR_RANGE_START.
  assert (0 <= s / 86400 <= 49710) as Hday by zlia.
  rewrite (wrap_small 32) by lia. change DAYS_IN_A_YEAR with (len4 1970).
  destruct (year_loop_spec SnvsHp.year_fuel (s / 86400 + 1) 1970) as (days & y & -> & Hst & Hd & Hy);
    [unfold SnvsHp.year_fuel; pow2; lia..|].
  cbn [obind]. rewrite land3_mod4, (Z.eqb_sym 0).
  destruct (leap4_year y) as (y' & <- & Hlen & Hin).
  destruct (month_loop_spec y' (month d0) 12 1 days) as (dd & m & -> & Hm & Hdd & Hsum);
    [lia..|change (days_before_month y' (Z.to_nat (1 - 1))) with 0; lia|].
  cbn [obind]. pose proof (month_len_pos y' m). change (days_before_month _ (Z.to_nat (1 - 1))) with 0 in Hsum.
  change (start4 1970) with 0 in Hst.
  assert (y <= 2106) as Hy6 by (unfold start4 in *; zlia).
  assert (0 <= s mod 86400 < 86400) by (apply Z.mod_pos_bound; lia).
  assert (0 <= s mod 86400 / 3600 < 24) by zlia.
  assert (0 <= s mod 86400 mod 3600 < 3600) by (apply Z.mod_pos_bound; lia).
  assert (0 <= s mod 86400 mod 3600 / 60 < 60) by zlia.
  assert (0 <= s mod 86400 mod 3600 mod 60 < 60) by (apply Z.mod_pos_bound; lia).
  eexists. split; [reflexivity|]. unfold datetime_wf. cbn [year month day hour minute second].
  ws. pow2. split_and!; try lia. intros Hend.
  assert (y <= 2099) as Hy9.
  { pose proof (start4_mono 2100 y) as Hmono. change (start4 2100) with 47482 in Hmono.
    unfold seconds_end in Hend. assert (s / 86400 < 47482) by zlia. lia. }
  rewrite (Hin ltac:(lia)) in *.
  assert (valid (Datetime y m dd (s mod 86400 / 3600) (s mod 86400 mod 3600 / 60)
    (s mod 86400 mod 3600 mod 60))) as Hv by (unfold valid; cbn; lia).
  split; [done|]. rewrite gregorian_seconds_eq by done.
  unfold day_of_year, second_of_day; cbn [year month day hour minute second]. zlia.
Qed.

(** ** Properties *)

(** C27: every valid date survives the conversion to seconds and back. *)
Theorem calendar_date_roundtrip d d0 :
  valid d ->
  exists s, SnvsHp.ConvertDatetimeToSeconds d = Ok s /\ SnvsHp.ConvertSecondsToDatetime s d0 = Ok d.
Proof.
  intros Hv. exists (gregorian_seconds d). split; [by apply ConvertDatetimeToSeconds_gregorian|].
  pose proof (gregorian_seconds_bound d Hv) as Hb. unfold seconds_end in Hb.
  destruct (ConvertSecondsToDatetime_spec (gregorian_seconds d) d0 ltac:(lia))
    as (d' & -> & _ & _ & _ & _ & _ & _ & _ & Hs).
  destruct Hs as [Hv' Hs]; [unfold seconds_end; lia|]. f_equal. by apply gregorian_seconds_inj.
Qed.

(** every second count below 2100-01-01 becomes a date that passes the
    driver's own check and converts back to the same count. *)
Theorem calendar_seconds_roundtrip s d0 :
  0 <= s < seconds_end ->
  exists d, SnvsHp.ConvertSecondsToDatetime s d0 = Ok d /\ SnvsHp.CheckDatetimeFormat d = true /\
    SnvsHp.ConvertDatetimeToSeconds d = Ok s.
Proof.
  intros Hs. destruct (ConvertSecondsToDatetime_spec s d0) as (d & Hd & Hw & _ & _ & _ & _ & _ & _ & H).
  { unfold seconds_end in Hs. lia. }
  destruct H as [Hv Hg]; [lia|]. exists d. split; [done|]. split.
  - apply CheckDatetimeFormat_valid; [unfold datetime_wf in Hw; lia..|done].
  - rewrite ConvertDatetimeToSeconds_gregorian by done. by rewrite Hg.
Qed.

(** C29: on the dates the check admits, the count is the number of seconds of
    the Gregorian calendar since 1970, in both variants of the function (the
    assertion and the extra guard of fsl_rtc.c never matter), and it orders
    dates chronologically. *)
Theorem calendar_counts_gregorian_seconds d1 d2 :
  valid d1 -> valid d2 ->
  SnvsHp.ConvertDatetimeToSeconds d1 = Ok (gregorian_seconds d1) /\
  Rtc.ConvertDatetimeToSeconds d1 = Ok (gregorian_seconds d1) /\
  (gregorian_seconds d1 < gregorian_seconds d2 <-> earlier d1 d2).
Proof.
  intros H1 H2. rewrite Rtc_ConvertDatetimeToSeconds_same, ConvertDatetimeToSeconds_gregorian by done.
  split_and!; try done; by apply gregorian_seconds_lt_iff.
Qed.

(** the conversion of any 32-bit count ends (both loops within the
    fuel), reads no table out of range and fills every field in its range,
    also past the supported years. *)
Theorem calendar_from_seconds_total s d0 :
  0 <= s < 2 ^ 32 ->
  exists d, SnvsHp.ConvertSecondsToDatetime s d0 = Ok d /\
    1970 <= year d <= 2106 /\ 1 <= month d <= 12 /\ 1 <= day d <= 31 /\
    0 <= hour d < 24 /\ 0 <= minute d < 60 /\ 0 <= second d < 60.
Proof.
  intros Hs. destruct (ConvertSecondsToDatetime_spec s d0 Hs)
    as (d & Hd & Hw & Hm & Hdd & Hh & Hmi & Hse & Hy & _).
  exists d. unfold datetime_wf in Hw. split; [done|lia].
Qed.

Definition leap_day : datetime := Datetime 2024 2 29 23 59 59.
Definition no_date : datetime := Datetime 0 0 0 0 0 0.

Lemma calendar_date_roundtrip_witness :
  valid leap_day /\ exists s, SnvsHp.ConvertDatetimeToSeconds leap_day = Ok s /\
    SnvsHp.ConvertSecondsToDatetime s no_date = Ok leap_day.
Proof.
  assert (valid leap_day) as Hv by decide_valid.
  exact (conj Hv (calendar_date_roundtrip leap_day no_date Hv)).
Defined.

Lemma calendar_seconds_roundtrip_witness :
  exists d, SnvsHp.ConvertSecondsToDatetime 4102444799 no_date = Ok d /\
    SnvsHp.CheckDatetimeFormat d = true /\ SnvsHp.ConvertDatetimeToSeconds d = Ok 4102444799.
Proof. apply calendar_seconds_roundtrip. unfold seconds_end. lia. Defined.

Lemma calendar_counts_gregorian_seconds_witness :
  SnvsHp.ConvertDatetimeToSeconds leap_day = Ok 1709251199 /\
  (gregorian_seconds leap_day < gregorian_seconds (Datetime 2024 3 1 0 0 0)).
Proof.
  assert (valid leap_day) as Hv by decide_valid.
  assert (valid (Datetime 2024 3 1 0 0 0)) as Hv' by decide_valid.
  destruct (calendar_counts_gregorian_seconds leap_day (Datetime 2024 3 1 0 0 0) Hv Hv')
    as (H1 & _ & H2).
  split; [rewrite H1; vm_compute; reflexivity|].
  apply H2. right. split; [reflexivity|]. left. reflexivity.
Defined.

Lemma calendar_from_seconds_total_witness :
  exists d, SnvsHp.ConvertSecondsToDatetime UINT32_MAX no_date = Ok d /\
    1970 <= year d <= 2106 /\ 1 <= month d <= 12 /\ 1 <= day d <= 31 /\
    0 <= hour d < 24 /\ 0 <= minute d < 60 /\ 0 <= second d < 60.
Proof. apply calendar_from_seconds_total. lia. Defined.
