(* ===== verification/Snvs.v ===== *)
(** * The SNVS real time counters (fsl_snvs_hp.c, fsl_snvs_lp.c)

    The 47-bit counter of each of the two domains is read through a pair of
    registers, 15 high bits and 32 low bits of a 32768 Hz count, while it
    runs.  [Module Hp] and [Module Lp] are the two drivers; the laws of the
    hardware are [PlainRegs] (the counter stopped: registers are cells) and
    [RunningClock] (the counter may advance at any register access). *)

From stdpp Require Import base list numbers tactics.
From Stdlib Require Import ZArith Lia.
From S2P Require Import Prelude Mmio Calendar.

Open Scope Z_scope.
Open Scope prog_scope.

Inductive snvs_reg :=
  | HPCR | HPRTCMR | HPRTCLR | HPTAMR | HPTALR | LPCR | LPSRTCMR | LPSRTCLR | LPTAR.

#[export] Instance snvs_reg_eq_dec : EqDecision snvs_reg.
Proof. solve_decision. Defined.

(** Control bits of the device header. *)
Class SnvsMasks := {
  SNVS_HPCR_RTC_EN_MASK : Z;
  SNVS_HPCR_HPTA_EN_MASK : Z;
  SNVS_LPCR_SRTC_ENV_MASK : Z;
  SNVS_LPCR_LPTA_EN_MASK : Z
}.

(** One read of the counter registers, in seconds. *)
Definition seconds_of (hi lo : Z) : Z := Z.lor (u32 (Z.shiftl hi 17)) (Z.shiftr lo 15).

Section Driver.
Context {D : Type} `{!Device snvs_reg D} {masks : SnvsMasks}.

(** do { seconds = tmp; tmp = read } while (tmp != seconds) on the counter
    registers [mr] and [lr]. *)
Fixpoint GetSeconds_loop (mr lr : snvs_reg) (fuel : nat) (tmp : Z) : M D Z :=
  match fuel with
  | O => throw OutOfFuel
  | S fuel =>
      let seconds := tmp in
      hi <- rd mr ;;
      lo <- rd lr ;;
      let tmp := seconds_of hi lo in
      if negb (tmp =? seconds) then GetSeconds_loop mr lr fuel tmp else ret seconds
  end.

Definition SNVS_HP_RTC_StartTimer (fuel : nat) : M D unit :=
  set_bits HPCR SNVS_HPCR_RTC_EN_MASK ;;
  poll_clear fuel HPCR SNVS_HPCR_RTC_EN_MASK.

Definition SNVS_HP_RTC_StopTimer (fuel : nat) : M D unit :=
  clear_bits HPCR SNVS_HPCR_RTC_EN_MASK ;;
  poll_set fuel HPCR SNVS_HPCR_RTC_EN_MASK.

Definition SNVS_HP_RTC_GetSeconds (fuel : nat) : M D Z :=
  GetSeconds_loop HPRTCMR HPRTCLR fuel 0.

Definition SNVS_HP_RTC_SetDatetime (fuel : nat) (dt : datetime) : M D status_t :=
  tmp <- rd HPCR ;;
  SNVS_HP_RTC_StopTimer fuel ;;
  if negb (SnvsHp.CheckDatetimeFormat dt) then ret kStatus_InvalidArgument
  else
    seconds <- lift (SnvsHp.ConvertDatetimeToSeconds dt) ;;
    wr HPRTCMR (Z.shiftr seconds 17) ;;
    wr HPRTCLR (u32 (Z.shiftl seconds 15)) ;;
    when (has tmp SNVS_HPCR_RTC_EN_MASK) (SNVS_HP_RTC_StartTimer fuel) ;;
    ret kStatus_Success.

Definition SNVS_HP_RTC_GetDatetime (fuel : nat) (dt : datetime) : M D datetime :=
  seconds <- SNVS_HP_RTC_GetSeconds fuel ;;
  lift (SnvsHp.ConvertSecondsToDatetime seconds dt).

Definition SNVS_HP_RTC_SetAlarm (fuel : nat) (alarmTime : datetime) : M D status_t :=
  tmp <- rd HPCR ;;
  if negb (SnvsHp.CheckDatetimeFormat alarmTime) then ret kStatus_InvalidArgument
  else
    alarmSeconds <- lift (SnvsHp.ConvertDatetimeToSeconds alarmTime) ;;
    currSeconds <- SNVS_HP_RTC_GetSeconds fuel ;;
    if alarmSeconds <? currSeconds then ret kStatus_Fail
    else
      clear_bits HPCR SNVS_HPCR_HPTA_EN_MASK ;;
      poll_set fuel HPCR SNVS_HPCR_HPTA_EN_MASK ;;
      wr HPTAMR (Z.shiftr alarmSeconds 17) ;;
      wr HPTALR (u32 (Z.shiftl alarmSeconds 15)) ;;
      wr HPCR tmp ;;
      ret kStatus_Success.

Definition SNVS_HP_RTC_GetAlarm (dt : datetime) : M D datetime :=
  hi <- rd HPTAMR ;;
  lo <- rd HPTALR ;;
  lift (SnvsHp.ConvertSecondsToDatetime (seconds_of hi lo) dt).

(** The low power domain: the same counter format in the LP registers, but
    the alarm register holds whole seconds and an alarm at the current
    second is refused. *)
Definition SNVS_LP_CheckDatetimeFormat := SnvsHp.CheckDatetimeFormat.
Definition SNVS_LP_ConvertDatetimeToSeconds := SnvsHp.ConvertDatetimeToSeconds.
Definition SNVS_LP_ConvertSecondsToDatetime := SnvsHp.ConvertSecondsToDatetime.

Definition SNVS_LP_SRTC_StartTimer (fuel : nat) : M D unit :=
  set_bits LPCR SNVS_LPCR_SRTC_ENV_MASK ;;
  poll_clear fuel LPCR SNVS_LPCR_SRTC_ENV_MASK.

Definition SNVS_LP_SRTC_StopTimer (fuel : nat) : M D unit :=
  clear_bits LPCR SNVS_LPCR_SRTC_ENV_MASK ;;
  poll_set fuel LPCR SNVS_LPCR_SRTC_ENV_MASK.

Definition SNVS_LP_SRTC_GetSeconds (fuel : nat) : M D Z :=
  GetSeconds_loop LPSRTCMR LPSRTCLR fuel 0.

Definition SNVS_LP_SRTC_SetDatetime (fuel : nat) (dt : datetime) : M D status_t :=
  tmp <- rd LPCR ;;
  SNVS_LP_SRTC_StopTimer fuel ;;
  if negb (SNVS_LP_CheckDatetimeFormat dt) then ret kStatus_InvalidArgument
  else
    seconds <- lift (SNVS_LP_ConvertDatetimeToSeconds dt) ;;
    wr LPSRTCMR (Z.shiftr seconds 17) ;;
    wr LPSRTCLR (u32 (Z.shiftl seconds 15)) ;;
    when (has tmp SNVS_LPCR_SRTC_ENV_MASK) (SNVS_LP_SRTC_StartTimer fuel) ;;
    ret kStatus_Success.

Definition SNVS_LP_SRTC_GetDatetime (fuel : nat) (dt : datetime) : M D datetime :=
  seconds <- SNVS_LP_SRTC_GetSeconds fuel ;;
  lift (SNVS_LP_ConvertSecondsToDatetime seconds dt).

Definition SNVS_LP_SRTC_SetAlarm (fuel : nat) (alarmTime : datetime) : M D status_t :=
  tmp <- rd LPCR ;;
  if negb (SNVS_LP_CheckDatetimeFormat alarmTime) then ret kStatus_InvalidArgument
  else
    alarmSeconds <- lift (SNVS_LP_ConvertDatetimeToSeconds alarmTime) ;;
    currSeconds <- SNVS_LP_SRTC_GetSeconds fuel ;;
    if alarmSeconds <=? currSeconds then ret kStatus_Fail
    else
      clear_bits LPCR SNVS_LPCR_LPTA_EN_MASK ;;
      poll_set fuel LPCR SNVS_LPCR_LPTA_EN_MASK ;;
      wr LPTAR alarmSeconds ;;
      wr LPCR tmp ;;
      ret kStatus_Success.

Definition SNVS_LP_SRTC_GetAlarm (dt : datetime) : M D datetime :=
  alarmSeconds <- rd LPTAR ;;
  lift (SNVS_LP_ConvertSecondsToDatetime alarmSeconds dt).
End Driver.

(** ** The running counter *)

(** The counter of registers [mr], [lr]: each access returns the part it
    names of the count at that moment, and the count may have advanced when
    the access is over.  47 bits of a 32768 Hz count do not wrap. *)
Class RunningClock (D : Type) `{!Device snvs_reg D} (mr lr : snvs_reg) := {
  counter : D -> Z;
  counter_range d : 0 <= counter d < 2 ^ 47;
  read_mr d : (reg_read mr d).1 = counter d / 2 ^ 32;
  read_lr d : (reg_read lr d).1 = counter d mod 2 ^ 32;
  advance_mr d : counter d <= counter (reg_read mr d).2;
  advance_lr d : counter d <= counter (reg_read lr d).2
}.

Lemma seconds_of_eq hi lo :
  0 <= hi < 2 ^ 15 -> 0 <= lo < 2 ^ 32 -> seconds_of hi lo = hi * 2 ^ 17 + lo / 2 ^ 15.
Proof.
  intros Hhi Hlo. unfold seconds_of.
  rewrite Z.shiftl_mul_pow2, Z.shiftr_div_pow2 by lia. rewrite wrap_small by (pow2; lia).
  apply lor_pack; [lia|]. zlia.
Qed.

Section Running.
Context {D : Type} `{RC : RunningClock D mr lr}.

Lemma seconds_of_read d1 d2 :
  seconds_of (counter d1 / 2 ^ 32) (counter d2 mod 2 ^ 32) =
  counter d1 / 2 ^ 32 * 2 ^ 17 + counter d2 mod 2 ^ 32 / 2 ^ 15.
Proof.
  pose proof (counter_range d1). pose proof (counter_range d2).
  apply seconds_of_eq; [zlia|]. apply Z.mod_pos_bound. lia.
Qed.

(** Two equal consecutive readings agree on the high part, so the first
    was not torn: it is the count at the moment its low part was read. *)
Lemma equal_readings_exact d0 d1 d2 d3 :
  counter d0 <= counter d1 -> counter d1 <= counter d2 -> counter d2 <= counter d3 ->
  seconds_of (counter d0 / 2 ^ 32) (counter d1 mod 2 ^ 32) =
  seconds_of (counter d2 / 2 ^ 32) (counter d3 mod 2 ^ 32) ->
  seconds_of (counter d0 / 2 ^ 32) (counter d1 mod 2 ^ 32) = counter d1 / 2 ^ 15.
Proof.
  intros H01 H12 H23. rewrite !seconds_of_read. intros Heq.
  pose proof (Z.div_le_mono _ _ (2 ^ 32) ltac:(lia) H01).
  pose proof (Z.div_le_mono _ _ (2 ^ 32) ltac:(lia) H12).
  zlia.
Qed.

(** The loop, entered with the reading taken at [d0] and [d1]. *)
Lemma GetSeconds_loop_exact n : forall d0 d1 d v d',
  counter d0 <= counter d1 -> counter d1 <= counter d ->
  GetSeconds_loop mr lr n (seconds_of (counter d0 / 2 ^ 32) (counter d1 mod 2 ^ 32)) d
    = Ok (v, d') ->
  exists t, counter d1 <= counter t <= counter d' /\ v = counter t / 2 ^ 15.
Proof.
  induction n as [|n IH]; intros d0 d1 d v d' H01 H1 Hrun; [discriminate|].
  cbn [GetSeconds_loop] in Hrun. rewrite bind_rd in Hrun.
  pose proof (read_mr d) as Hmr. pose proof (advance_mr d) as Amr.
  destruct (reg_read mr d) as [hi e] eqn:He. cbn in *.
  rewrite bind_rd in Hrun.
  pose proof (read_lr e) as Hlr. pose proof (advance_lr e) as Alr.
  destruct (reg_read lr e) as [lo e'] eqn:He'. cbn in *. subst hi lo.
  destruct (Z.eqb_spec (seconds_of (counter d / 2 ^ 32) (counter e mod 2 ^ 32))
    (seconds_of (counter d0 / 2 ^ 32) (counter d1 mod 2 ^ 32))) as [Heq|Hne]; cbn [negb] in Hrun.
  - injection Hrun as <- <-. exists d1. split; [lia|].
    eapply equal_readings_exact; [done|..|symmetry; exact Heq]; lia.
  - destruct (IH d e e' v d') as (t & Ht & ->); [lia|lia|done|]. exists t. split; [lia|done].
Qed.

(** A non-zero result is exact; only the initial [tmp = 0] can match a
    reading that was never confirmed by a second one. *)
Lemma GetSeconds_exact n d v d' :
  GetSeconds_loop mr lr n 0 d = Ok (v, d') -> v <> 0 ->
  exists t, counter d <= counter t <= counter d' /\ v = counter t / 2 ^ 15.
Proof.
  intros Hrun Hv. destruct n as [|n]; [discriminate|].
  cbn [GetSeconds_loop] in Hrun. rewrite bind_rd in Hrun.
  pose proof (read_mr d) as Hmr. pose proof (advance_mr d) as Amr.
  destruct (reg_read mr d) as [hi e] eqn:He. cbn in *.
  rewrite bind_rd in Hrun.
  pose proof (read_lr e) as Hlr. pose proof (advance_lr e) as Alr.
  destruct (reg_read lr e) as [lo e'] eqn:He'. cbn in *. subst hi lo.
  destruct (seconds_of _ _ =? 0) eqn:E; cbn [negb] in Hrun; [by injection Hrun as <- _|].
  destruct (GetSeconds_loop_exact n d e e' v d') as (t & Ht & ->); [lia|lia|done|].
  exists t. split; [lia|done].
Qed.
End Running.

(** ** The stopped counter: registers are cells *)

Lemma seconds_of_split s :
  0 <= s < 2 ^ 32 -> seconds_of (Z.shiftr s 17) (u32 (Z.shiftl s 15)) = s.
Proof.
  intros Hs. rewrite seconds_of_eq.
  - rewrite Z.shiftr_div_pow2, Z.shiftl_mul_pow2 by lia. unfold wrap. zlia.
  - rewrite Z.shiftr_div_pow2 by lia. zlia.
  - apply wrap_bound. lia.
Qed.

Class SnvsMasksOk `{SnvsMasks} := {
  hp_en_mask : 0 < SNVS_HPCR_RTC_EN_MASK < 2 ^ 32;
  hp_alarm_mask : 0 < SNVS_HPCR_HPTA_EN_MASK < 2 ^ 32;
  lp_en_mask : 0 < SNVS_LPCR_SRTC_ENV_MASK < 2 ^ 32;
  lp_alarm_mask : 0 < SNVS_LPCR_LPTA_EN_MASK < 2 ^ 32
}.

(** The time in the counter registers [mr], [lr]. *)
Definition time_in {D} `{PlainRegs snvs_reg D} (mr lr : snvs_reg) (d : D) : Z :=
  seconds_of (view d mr) (view d lr).

Section Stopped.
Context {D : Type} `{PR : PlainRegs snvs_reg D} {masks : SnvsMasks} {mok : SnvsMasksOk}.

Lemma GetSeconds_plain mr lr n d :
  GetSeconds_loop mr lr (S (S n)) 0 d = Ok (time_in mr lr d, d).
Proof.
  unfold time_in. cbn [GetSeconds_loop]. rewrite !bind_rd_plain.
  destruct (Z.eqb_spec (seconds_of (view d mr) (view d lr)) 0) as [->|Hne]; cbn [negb]; [done|].
  by rewrite !bind_rd_plain, Z.eqb_refl.
Qed.

(** Bits of a control register set, then polled until they read as set
    (and the same for clearing). *)
Lemma start_plain r m n d :
  0 < m < 2 ^ 32 ->
  bind (set_bits r m) (fun _ => poll_clear (S n) r m) d
    = Ok (tt, reg_write r (Z.lor (view d r) m) d).
Proof.
  intros Hm. erewrite bind_ok by apply set_bits_plain. apply poll_clear_plain.
  rewrite view_write_eq. apply has_lor; lia.
Qed.

Lemma stop_plain r m n d :
  0 < m < 2 ^ 32 ->
  bind (clear_bits r m) (fun _ => poll_set (S n) r m) d
    = Ok (tt, reg_write r (bic32 (view d r) m) d).
Proof.
  intros Hm. erewrite bind_ok by apply clear_bits_plain. apply poll_set_plain.
  rewrite view_write_eq. apply has_bic32. lia.
Qed.

Lemma check_true dt : valid dt -> SnvsHp.CheckDatetimeFormat dt = true.
Proof. intros Hv. apply CheckDatetimeFormat_valid; [unfold valid in Hv; lia..|done]. Qed.

Lemma convert_valid dt :
  valid dt -> lift (S := D) (SnvsHp.ConvertDatetimeToSeconds dt) = lift (Ok (gregorian_seconds dt)).
Proof. intros. by rewrite ConvertDatetimeToSeconds_gregorian. Qed.

Lemma seconds_u32 dt : valid dt -> 0 <= gregorian_seconds dt < 2 ^ 32.
Proof. intros H. apply gregorian_seconds_bound in H. unfold seconds_end in H. lia. Qed.

(** Reading a count of seconds back as a date. *)
Lemma convert_back dt dt0 :
  valid dt -> SnvsHp.ConvertSecondsToDatetime (gregorian_seconds dt) dt0 = Ok dt.
Proof.
  intros Hv. destruct (ConvertSecondsToDatetime_spec _ dt0 (seconds_u32 dt Hv))
    as (dt' & -> & _ & _ & _ & _ & _ & _ & _ & Hs).
  destruct Hs as [Hv' Hs]; [by apply gregorian_seconds_bound|].
  f_equal. by apply gregorian_seconds_inj.
Qed.

Ltac regs := repeat (rewrite view_write_eq || rewrite view_write_ne by done).

(** What setting the date does to the registers, control register first. *)
Lemma HP_SetDatetime_run n dt d :
  valid dt ->
  exists d', SNVS_HP_RTC_SetDatetime (S n) dt d = Ok (kStatus_Success, d') /\
    time_in HPRTCMR HPRTCLR d' = gregorian_seconds dt /\
    view d' HPCR = (if has (view d HPCR) SNVS_HPCR_RTC_EN_MASK
      then Z.lor (bic32 (view d HPCR) SNVS_HPCR_RTC_EN_MASK) SNVS_HPCR_RTC_EN_MASK
      else bic32 (view d HPCR) SNVS_HPCR_RTC_EN_MASK) /\
    view d' HPTAMR = view d HPTAMR /\ view d' HPTALR = view d HPTALR.
Proof.
  intros Hv. unfold SNVS_HP_RTC_SetDatetime, SNVS_HP_RTC_StopTimer, SNVS_HP_RTC_StartTimer.
  rewrite bind_rd_plain. erewrite bind_ok by (apply stop_plain, hp_en_mask).
  rewrite check_true by done. cbn [negb]. rewrite convert_valid, bind_lift, !bind_wr by done.
  destruct (has _ _).
  - erewrite bind_ok by (apply start_plain, hp_en_mask).
    eexists. split; [reflexivity|]. unfold time_in. regs.
    by rewrite seconds_of_split by (apply seconds_u32; done).
  - rewrite bind_ret. eexists. split; [reflexivity|]. unfold time_in. regs.
    by rewrite seconds_of_split by (apply seconds_u32; done).
Qed.

Lemma LP_SetDatetime_run n dt d :
  valid dt ->
  exists d', SNVS_LP_SRTC_SetDatetime (S n) dt d = Ok (kStatus_Success, d') /\
    time_in LPSRTCMR LPSRTCLR d' = gregorian_seconds dt /\ view d' LPTAR = view d LPTAR.
Proof.
  intros Hv. unfold SNVS_LP_SRTC_SetDatetime, SNVS_LP_SRTC_StopTimer, SNVS_LP_SRTC_StartTimer,
    SNVS_LP_ConvertDatetimeToSeconds, SNVS_LP_CheckDatetimeFormat.
  rewrite bind_rd_plain. erewrite bind_ok by (apply stop_plain, lp_en_mask).
  rewrite check_true by done. cbn [negb]. rewrite convert_valid, bind_lift, !bind_wr by done.
  destruct (has _ _).
  - erewrite bind_ok by (apply start_plain, lp_en_mask).
    eexists. split; [reflexivity|]. unfold time_in. regs.
    by rewrite seconds_of_split by (apply seconds_u32; done).
  - rewrite bind_ret. eexists. split; [reflexivity|]. unfold time_in. regs.
    by rewrite seconds_of_split by (apply seconds_u32; done).
Qed.

Lemma HP_GetDatetime_run n dt dt0 d :
  valid dt -> time_in HPRTCMR HPRTCLR d = gregorian_seconds dt ->
  SNVS_HP_RTC_GetDatetime (S (S n)) dt0 d = Ok (dt, d).
Proof.
  intros Hv Ht. unfold SNVS_HP_RTC_GetDatetime, SNVS_HP_RTC_GetSeconds.
  erewrite bind_ok by apply GetSeconds_plain. rewrite Ht. unfold lift. by rewrite convert_back.
Qed.

Lemma LP_GetDatetime_run n dt dt0 d :
  valid dt -> time_in LPSRTCMR LPSRTCLR d = gregorian_seconds dt ->
  SNVS_LP_SRTC_GetDatetime (S (S n)) dt0 d = Ok (dt, d).
Proof.
  intros Hv Ht. unfold SNVS_LP_SRTC_GetDatetime, SNVS_LP_SRTC_GetSeconds,
    SNVS_LP_ConvertSecondsToDatetime.
  erewrite bind_ok by apply GetSeconds_plain. rewrite Ht. unfold lift. by rewrite convert_back.
Qed.

Lemma HP_SetAlarm_run n a d :
  valid a ->
  SNVS_HP_RTC_SetAlarm (S (S n)) a d =
    if gregorian_seconds a <? time_in HPRTCMR HPRTCLR d then Ok (kStatus_Fail, d)
    else Ok (kStatus_Success,
      reg_write HPCR (view d HPCR)
        (reg_write HPTALR (u32 (Z.shiftl (gregorian_seconds a) 15))
          (reg_write HPTAMR (Z.shiftr (gregorian_seconds a) 17)
            (reg_write HPCR (bic32 (view d HPCR) SNVS_HPCR_HPTA_EN_MASK) d)))).
Proof.
  intros Hv. unfold SNVS_HP_RTC_SetAlarm, SNVS_HP_RTC_GetSeconds.
  rewrite bind_rd_plain, check_true by done. cbn [negb].
  rewrite convert_valid, bind_lift by done.
  erewrite bind_ok by apply GetSeconds_plain. destruct (_ <? _); [done|].
  rewrite <- bind_assoc. erewrite bind_ok by (apply stop_plain, hp_alarm_mask).
  by rewrite !bind_wr.
Qed.

Lemma LP_SetAlarm_run n a d :
  valid a ->
  SNVS_LP_SRTC_SetAlarm (S (S n)) a d =
    if gregorian_seconds a <=? time_in LPSRTCMR LPSRTCLR d then Ok (kStatus_Fail, d)
    else Ok (kStatus_Success,
      reg_write LPCR (view d LPCR)
        (reg_write LPTAR (gregorian_seconds a)
            (reg_write LPCR (bic32 (view d LPCR) SNVS_LPCR_LPTA_EN_MASK) d))).
Proof.
  intros Hv. unfold SNVS_LP_SRTC_SetAlarm, SNVS_LP_SRTC_GetSeconds,
    SNVS_LP_ConvertDatetimeToSeconds, SNVS_LP_CheckDatetimeFormat.
  rewrite bind_rd_plain, check_true by done. cbn [negb].
  rewrite convert_valid, bind_lift by done.
  erewrite bind_ok by apply GetSeconds_plain. destruct (_ <=? _); [done|].
  rewrite <- bind_assoc. erewrite bind_ok by (apply stop_plain, lp_alarm_mask).
  by rewrite !bind_wr.
Qed.

Lemma HP_GetAlarm_run a dt0 d :
  valid a -> time_in HPTAMR HPTALR d = gregorian_seconds a ->
  SNVS_HP_RTC_GetAlarm dt0 d = Ok (a, d).
Proof.
  intros Hv Ht. unfold SNVS_HP_RTC_GetAlarm, time_in in *. rewrite !bind_rd_plain, Ht.
  unfold lift. by rewrite convert_back.
Qed.

Lemma invalid_check dt :
  datetime_wf dt -> ~ valid dt -> SnvsHp.CheckDatetimeFormat dt = false.
Proof.
  intros Hw Hv. destruct (SnvsHp.CheckDatetimeFormat dt) eqn:E; [|done].
  apply CheckDatetimeFormat_valid in E; [done|unfold datetime_wf in Hw; lia..].
Qed.
End Stopped.

(** ** Properties *)

Section Claims.
Context {D : Type} `{PR : PlainRegs snvs_reg D} {masks : SnvsMasks} {mok : SnvsMasksOk}.

(** setting a valid date and reading it back returns that date, in both
    SNVS domains, and the high-power counter runs afterwards exactly if it
    ran before; polling loops and the read loop end within two rounds. *)
Theorem snvs_datetime_roundtrip dt dt0 d :
  valid dt ->
  (exists d', SNVS_HP_RTC_SetDatetime 1 dt d = Ok (kStatus_Success, d') /\
    SNVS_HP_RTC_GetDatetime 2 dt0 d' = Ok (dt, d') /\
    has (view d' HPCR) SNVS_HPCR_RTC_EN_MASK = has (view d HPCR) SNVS_HPCR_RTC_EN_MASK) /\
  (exists d', SNVS_LP_SRTC_SetDatetime 1 dt d = Ok (kStatus_Success, d') /\
    SNVS_LP_SRTC_GetDatetime 2 dt0 d' = Ok (dt, d')).
Proof.
  intros Hv. split.
  - destruct (HP_SetDatetime_run 0 dt d Hv) as (d' & Hset & Ht & Hcr & _).
    exists d'. split_and!; [done|by apply HP_GetDatetime_run|]. rewrite Hcr.
    pose proof hp_en_mask. destruct (has (view d HPCR) _); [apply has_lor|apply has_bic32]; lia.
  - destruct (LP_SetDatetime_run 0 dt d Hv) as (d' & Hset & Ht & _).
    exists d'. split; [done|by apply LP_GetDatetime_run].
Qed.

(** the high-power alarm on every branch.  A malformed date is refused
    with no register changed; a date before the current one (in calendar
    order) fails with no register changed; any other is accepted, reads
    back as set, and leaves the control register as it was. *)
Theorem snvs_hp_alarm_spec now a dt0 d :
  valid now -> time_in HPRTCMR HPRTCLR d = gregorian_seconds now -> datetime_wf a ->
  (~ valid a -> SNVS_HP_RTC_SetAlarm 2 a d = Ok (kStatus_InvalidArgument, d)) /\
  (valid a -> earlier a now -> SNVS_HP_RTC_SetAlarm 2 a d = Ok (kStatus_Fail, d)) /\
  (valid a -> ~ earlier a now ->
    exists d', SNVS_HP_RTC_SetAlarm 2 a d = Ok (kStatus_Success, d') /\
      SNVS_HP_RTC_GetAlarm dt0 d' = Ok (a, d') /\ view d' HPCR = view d HPCR).
Proof.
  intros Hnow Ht Hw. split_and!.
  - intros Hn. unfold SNVS_HP_RTC_SetAlarm. by rewrite bind_rd_plain, invalid_check.
  - intros Hv He. rewrite HP_SetAlarm_run, Ht by done.
    by rewrite (proj2 (Z.ltb_lt _ _)) by (by apply gregorian_seconds_lt_iff).
  - intros Hv He. rewrite HP_SetAlarm_run, Ht by done.
    rewrite <- gregorian_seconds_lt_iff in He by done.
    rewrite (proj2 (Z.ltb_ge _ _)) by lia. eexists. split; [reflexivity|]. split.
    + apply HP_GetAlarm_run; [done|]. unfold time_in.
      repeat (rewrite view_write_eq || rewrite view_write_ne by done).
      apply seconds_of_split, seconds_u32, Hv.
    + by rewrite view_write_eq.
Qed.

(** a malformed date passed to [SNVS_HP_RTC_SetDatetime] is refused,
    but the counter has been stopped by then and is not started again:
    the call returns with the enable bit clear whatever it was before. *)
Theorem snvs_set_invalid_stops_clock dt d :
  datetime_wf dt -> ~ valid dt ->
  exists d', SNVS_HP_RTC_SetDatetime 1 dt d = Ok (kStatus_InvalidArgument, d') /\
    has (view d' HPCR) SNVS_HPCR_RTC_EN_MASK = false /\
    time_in HPRTCMR HPRTCLR d' = time_in HPRTCMR HPRTCLR d.
Proof.
  intros Hw Hn. unfold SNVS_HP_RTC_SetDatetime, SNVS_HP_RTC_StopTimer.
  rewrite bind_rd_plain. erewrite bind_ok by (apply stop_plain, hp_en_mask).
  rewrite invalid_check by done. cbn [negb]. eexists. split; [reflexivity|].
  unfold time_in. rewrite view_write_eq, !view_write_ne by done.
  split; [|done]. pose proof hp_en_mask. apply has_bic32. lia.
Qed.
End Claims.

(** C33: reading a running counter.  Whatever moments the hardware ticks at,
    a non-zero result of either domain's read loop is the exact second count
    at some moment during the call: never a mix of two counts. *)
Theorem snvs_get_seconds_exact {D} `{!Device snvs_reg D}
    `{HRC : !RunningClock D HPRTCMR HPRTCLR} `{LRC : !RunningClock D LPSRTCMR LPSRTCLR}
    fuel d v d' :
  v <> 0 ->
  (SNVS_HP_RTC_GetSeconds fuel d = Ok (v, d') ->
    exists t, counter (RunningClock := HRC) d <= counter (RunningClock := HRC) t
              <= counter (RunningClock := HRC) d' /\ v = counter (RunningClock := HRC) t / 2 ^ 15) /\
  (SNVS_LP_SRTC_GetSeconds fuel d = Ok (v, d') ->
    exists t, counter (RunningClock := LRC) d <= counter (RunningClock := LRC) t
              <= counter (RunningClock := LRC) d' /\ v = counter (RunningClock := LRC) t / 2 ^ 15).
Proof. intros Hv. split; intros Hrun; exact (GetSeconds_exact fuel d v d' Hrun Hv). Qed.

(** *** A ticking device, for the witnesses *)

(** The count and the numbers of ticks at the coming accesses. *)
Definition ticking := (Z * list nat)%type.
Definition clamp (c : Z) : Z := Z.max 0 (Z.min (2 ^ 47 - 1) c).

Lemma clamp_range c : 0 <= clamp c < 2 ^ 47.
Proof. unfold clamp. lia. Qed.

Lemma clamp_advance c n : clamp c <= clamp (clamp c + Z.of_nat n).
Proof. unfold clamp. lia. Qed.

Definition tick (d : ticking) : ticking := (clamp d.1 + Z.of_nat (hd 0%nat d.2), tl d.2).

#[export] Instance ticking_device : Device snvs_reg ticking := {
  reg_read r d := (match r with
    | HPRTCMR | LPSRTCMR => clamp d.1 / 2 ^ 32
    | _ => clamp d.1 mod 2 ^ 32 end, tick d);
  reg_write _ _ d := d
}.

#[export] Instance ticking_hp : RunningClock ticking HPRTCMR HPRTCLR.
Proof.
  unshelve eapply (Build_RunningClock ticking _ _ _ (fun d => clamp d.1)); intros d.
  - apply clamp_range.
  - cbn [reg_read ticking_device fst]. done.
  - cbn [reg_read ticking_device fst]. done.
  - cbn [reg_read ticking_device snd]. apply clamp_advance.
  - cbn [reg_read ticking_device snd]. apply clamp_advance.
Defined.

#[export] Instance ticking_lp : RunningClock ticking LPSRTCMR LPSRTCLR.
Proof.
  unshelve eapply (Build_RunningClock ticking _ _ _ (fun d => clamp d.1)); intros d.
  - apply clamp_range.
  - cbn [reg_read ticking_device fst]. done.
  - cbn [reg_read ticking_device fst]. done.
  - cbn [reg_read ticking_device snd]. apply clamp_advance.
  - cbn [reg_read ticking_device snd]. apply clamp_advance.
Defined.

Definition ticking_example : ticking := (5 * 2 ^ 32 - 1, [1%nat]).
Definition ticking_after : ticking := (5 * 2 ^ 32, []).

Lemma snvs_get_seconds_exact_witness :
  SNVS_HP_RTC_GetSeconds 4 ticking_example = Ok (655360, ticking_after) /\
  exists t, counter (RunningClock := ticking_hp) ticking_example
      <= counter (RunningClock := ticking_hp) t
      <= counter (RunningClock := ticking_hp) ticking_after /\
    655360 = counter (RunningClock := ticking_hp) t / 2 ^ 15.
Proof.
  assert (SNVS_HP_RTC_GetSeconds 4 ticking_example = Ok (655360, ticking_after)) as Hrun
    by (vm_compute; reflexivity).
  split; [exact Hrun|].
  exact (proj1 (snvs_get_seconds_exact 4 ticking_example 655360 ticking_after ltac:(lia)) Hrun).
Defined.

(** the exception is real.  The loop compares its first reading with the
    initial [tmp = 0], so a first reading torn across a carry into the high
    register is accepted when its parts are both zero: here the call returns
    0 although the counter shows at least 131071 seconds throughout. *)
Theorem snvs_get_seconds_torn_zero :
  exists d d', SNVS_HP_RTC_GetSeconds 1 d = Ok (0, d') /\
    forall t, counter (RunningClock := ticking_hp) d <= counter (RunningClock := ticking_hp) t ->
      131071 <= counter (RunningClock := ticking_hp) t / 2 ^ 15.
Proof.
  exists (2 ^ 32 - 1, [1%nat]), (2 ^ 32, []). split; [vm_compute; reflexivity|].
  intros t. change (clamp (2 ^ 32 - 1) <= clamp t.1 -> 131071 <= clamp t.1 / 2 ^ 15).
  change (clamp (2 ^ 32 - 1)) with 4294967295. generalize (clamp t.1). intros c Hc.
  change (2 ^ 15) with 32768. zlia.
Qed.

Definition example_masks : SnvsMasks := Build_SnvsMasks 1 2 1 2.

Lemma example_masks_ok : @SnvsMasksOk example_masks.
Proof. split; cbn; lia. Defined.

Lemma snvs_datetime_roundtrip_witness :
  valid (Datetime 2024 2 29 23 59 58) /\
  exists d', @SNVS_HP_RTC_SetDatetime (snvs_reg -> Z) _ example_masks 1 (Datetime 2024 2 29 23 59 58) (fun _ => 3)
      = Ok (kStatus_Success, d') /\
    SNVS_HP_RTC_GetDatetime 2 (Datetime 0 0 0 0 0 0) d' = Ok (Datetime 2024 2 29 23 59 58, d').
Proof.
  assert (valid (Datetime 2024 2 29 23 59 58)) as Hv by decide_valid.
  split; [exact Hv|].
  destruct (@snvs_datetime_roundtrip (snvs_reg -> Z) _ _ _ example_masks example_masks_ok
    (Datetime 2024 2 29 23 59 58) (Datetime 0 0 0 0 0 0) (fun _ => 3) Hv) as [(d' & H1 & H2 & _) _].
  exists d'. exact (conj H1 H2).
Defined.

Definition alarm_example : snvs_reg -> Z := fun r => if decide (r = HPRTCMR) then 1 else 0.

Lemma snvs_hp_alarm_spec_witness :
  @SNVS_HP_RTC_SetAlarm (snvs_reg -> Z) _ example_masks 2 (Datetime 1970 1 1 0 0 0) alarm_example
    = Ok (kStatus_Fail, alarm_example).
Proof.
  refine (proj1 (proj2 (@snvs_hp_alarm_spec (snvs_reg -> Z) _ _ _ example_masks example_masks_ok
    (Datetime 1970 1 2 12 24 32) (Datetime 1970 1 1 0 0 0) (Datetime 0 0 0 0 0 0) alarm_example _ _ _)) _ _).
  - decide_valid.
  - vm_compute. reflexivity.
  - unfold datetime_wf; cbn; lia.
  - decide_valid.
  - unfold earlier; cbn; lia.
Defined.

Lemma snvs_set_invalid_stops_clock_witness :
  exists d', @SNVS_HP_RTC_SetDatetime (snvs_reg -> Z) _ example_masks 1 (Datetime 2023 2 29 0 0 0) (fun _ => 3)
    = Ok (kStatus_InvalidArgument, d') /\ has (d' HPCR) 1 = false.
Proof.
  destruct (@snvs_set_invalid_stops_clock (snvs_reg -> Z) _ _ _ example_masks example_masks_ok
    (Datetime 2023 2 29 0 0 0) (fun _ => 3)) as (d' & H1 & H2 & _).
  - unfold datetime_wf; cbn; lia.
  - decide_valid.
  - exists d'. exact (conj H1 H2).
Defined.
