(* ===== verification/RtcDrivers.v ===== *)
(** * The RTC drivers of rtc, lpc_rtc and rtc_1

    [Module Kinetis] is drivers/rtc/fsl_rtc.c (the counter and the alarm are
    registers holding seconds), [Module Lpc] is drivers/lpc_rtc/fsl_rtc.c
    (the counter is read twice until two reads agree), and [Module Soft] is
    drivers/rtc_1/fsl_rtc.c, where the time lives in two variables advanced
    by the interrupt handler. *)

From stdpp Require Import base list numbers tactics.
From Stdlib Require Import ZArith Lia.
From S2P Require Import Prelude Mmio Calendar.

Open Scope Z_scope.
Open Scope prog_scope.

Inductive rtc_reg := TSR | TAR | SR | COUNT | MATCH.

#[export] Instance rtc_reg_eq_dec : EqDecision rtc_reg.
Proof. solve_decision. Defined.

(** ** drivers/rtc *)

Module Kinetis.
Section Driver.
(** [RTC_SR_TCE_MASK] is a bit of the device header;
    [FSL_FEATURE_RTC_HAS_ERRATA_010716] is set per device at build time. *)
Context {D : Type} `{!Device rtc_reg D}
  (RTC_SR_TCE_MASK : Z) (FSL_FEATURE_RTC_HAS_ERRATA_010716 : bool).

Definition RTC_SetDatetime (dt : datetime) : M D status_t :=
  if negb (Rtc.CheckDatetimeFormat dt) then ret kStatus_InvalidArgument
  else
    seconds <- lift (Rtc.ConvertDatetimeToSeconds dt) ;;
    wr TSR seconds ;;
    ret kStatus_Success.

(** The output structure is cleared before the conversion. *)
Definition RTC_GetDatetime : M D datetime :=
  seconds <- rd TSR ;;
  lift (Rtc.ConvertSecondsToDatetime seconds (Datetime 0 0 0 0 0 0)).

Definition RTC_SetAlarm (alarmTime : datetime) : M D status_t :=
  if negb (Rtc.CheckDatetimeFormat alarmTime) then ret kStatus_InvalidArgument
  else
    alarmSeconds <- lift (Rtc.ConvertDatetimeToSeconds alarmTime) ;;
    currSeconds <- rd TSR ;;
    if alarmSeconds <? currSeconds then ret kStatus_Fail
    else if FSL_FEATURE_RTC_HAS_ERRATA_010716 then
      sr <- rd SR ;;
      let restartCounter := has sr RTC_SR_TCE_MASK in
      clear_bits SR RTC_SR_TCE_MASK ;;
      wr TAR alarmSeconds ;;
      when restartCounter (set_bits SR RTC_SR_TCE_MASK) ;;
      ret kStatus_Success
    else
      wr TAR alarmSeconds ;;
      ret kStatus_Success.

(** [datetime] is the output parameter; its previous content is [dt0]. *)
Definition RTC_GetAlarm (dt0 : datetime) : M D datetime :=
  assert_ (Rtc.CheckDatetimeFormat dt0) ;;
  alarmSeconds <- rd TAR ;;
  lift (Rtc.ConvertSecondsToDatetime alarmSeconds dt0).
End Driver.
End Kinetis.

(** ** drivers/lpc_rtc *)

Module Lpc.
Section Driver.
Context {D : Type} `{!Device rtc_reg D}.

Definition RTC_CheckDatetimeFormat := SnvsHp.CheckDatetimeFormat.
Definition RTC_ConvertDatetimeToSeconds := SnvsHp.ConvertDatetimeToSeconds.
Definition RTC_ConvertSecondsToDatetime := SnvsHp.ConvertSecondsToDatetime.

Fixpoint RTC_GetSecondsTimerCount (fuel : nat) : M D Z :=
  match fuel with
  | O => throw OutOfFuel
  | S fuel =>
      a <- rd COUNT ;;
      b <- rd COUNT ;;
      if negb (a =? b) then RTC_GetSecondsTimerCount fuel else ret b
  end.

Definition RTC_SetDatetime (dt : datetime) : M D status_t :=
  if negb (RTC_CheckDatetimeFormat dt) then ret kStatus_InvalidArgument
  else
    seconds <- lift (RTC_ConvertDatetimeToSeconds dt) ;;
    wr COUNT seconds ;;
    ret kStatus_Success.

Definition RTC_GetDatetime (fuel : nat) (dt0 : datetime) : M D datetime :=
  seconds <- RTC_GetSecondsTimerCount fuel ;;
  lift (RTC_ConvertSecondsToDatetime seconds dt0).

Definition RTC_SetAlarm (fuel : nat) (alarmTime : datetime) : M D status_t :=
  if negb (RTC_CheckDatetimeFormat alarmTime) then ret kStatus_InvalidArgument
  else
    alarmSeconds <- lift (RTC_ConvertDatetimeToSeconds alarmTime) ;;
    currSeconds <- RTC_GetSecondsTimerCount fuel ;;
    if alarmSeconds <? currSeconds then ret kStatus_Fail
    else wr MATCH alarmSeconds ;; ret kStatus_Success.

Definition RTC_GetAlarm (dt0 : datetime) : M D datetime :=
  alarmSeconds <- rd MATCH ;;
  lift (RTC_ConvertSecondsToDatetime alarmSeconds dt0).
End Driver.
End Lpc.

(** ** drivers/rtc_1: a clock kept by the interrupt handler *)

Module Soft.

(** The three static variables, the peripheral's second-interrupt flag, and
    the number of times the callback was entered. *)
Record state := State {
  s_CurrentTimeSeconds : Z;
  s_AlarmTimeSeconds : Z;
  s_RtcAlarmCallback : bool;   (** not NULL *)
  RTIF : bool;
  calls : nat
}.

Definition set_current (t : Z) (s : state) : state :=
  State t (s_AlarmTimeSeconds s) (s_RtcAlarmCallback s) (RTIF s) (calls s).
Definition set_alarm (t : Z) (s : state) : state :=
  State (s_CurrentTimeSeconds s) t (s_RtcAlarmCallback s) (RTIF s) (calls s).
Definition set_callback (b : bool) (s : state) : state :=
  State (s_CurrentTimeSeconds s) (s_AlarmTimeSeconds s) b (RTIF s) (calls s).
Definition set_flag (b : bool) (s : state) : state :=
  State (s_CurrentTimeSeconds s) (s_AlarmTimeSeconds s) (s_RtcAlarmCallback s) b (calls s).
Definition call_back (s : state) : state :=
  State (s_CurrentTimeSeconds s) (s_AlarmTimeSeconds s) (s_RtcAlarmCallback s) (RTIF s) (S (calls s)).

Definition RTC_SetDatetime (dt : datetime) : M state status_t :=
  if negb (Rtc.CheckDatetimeFormat dt) then ret kStatus_InvalidArgument
  else
    seconds <- lift (Rtc.ConvertDatetimeToSeconds dt) ;;
    modify (set_current seconds) ;;
    ret kStatus_Success.

Definition RTC_GetDatetime : M state datetime :=
  t <- gets s_CurrentTimeSeconds ;;
  lift (Rtc.ConvertSecondsToDatetime t (Datetime 0 0 0 0 0 0)).

Definition RTC_SetAlarm (second : Z) : M state unit :=
  now <- gets s_CurrentTimeSeconds ;;
  assert_ (second <? u32 (UINT32_MAX - now)) ;;
  modify (set_alarm (u32 (second + now))).

Definition RTC_GetAlarm (dt0 : datetime) : M state datetime :=
  assert_ (Rtc.CheckDatetimeFormat dt0) ;;
  t <- gets s_AlarmTimeSeconds ;;
  lift (Rtc.ConvertSecondsToDatetime t dt0).

Definition RTC_SetAlarmCallback (callback : bool) : M state unit := modify (set_callback callback).

Definition RTC_DriverIRQHandler : M state unit :=
  alarmTimeSeconds <- gets s_AlarmTimeSeconds ;;
  flag <- gets RTIF ;;
  when flag (
    now <- gets s_CurrentTimeSeconds ;;
    assert_ (now <? UINT32_MAX - 1) ;;
    modify (set_current (u32 (now + 1))) ;;
    modify (set_flag false)) ;;
  now <- gets s_CurrentTimeSeconds ;;
  when (alarmTimeSeconds =? now) (
    cb <- gets s_RtcAlarmCallback ;;
    when cb (modify call_back)).

(** One second of hardware time: the flag rises and the handler runs. *)
Definition second_elapses : M state unit :=
  modify (set_flag true) ;; RTC_DriverIRQHandler.

Fixpoint seconds_elapse (n : nat) : M state unit :=
  match n with O => ret tt | S n => second_elapses ;; seconds_elapse n end.

End Soft.

(** ** The software clock *)

Section SoftClock.
Import Soft.

(** What the handler does when a second has elapsed. *)
Lemma second_elapses_run s :
  0 <= s_CurrentTimeSeconds s < UINT32_MAX - 1 ->
  second_elapses s = Ok (tt, State (s_CurrentTimeSeconds s + 1) (s_AlarmTimeSeconds s)
    (s_RtcAlarmCallback s) false
    (if (s_AlarmTimeSeconds s =? s_CurrentTimeSeconds s + 1) && s_RtcAlarmCallback s
     then S (calls s) else calls s)).
Proof.
  intros Hs. destruct s as [c a cb f k]. cbn in Hs.
  unfold second_elapses, RTC_DriverIRQHandler, bind, gets, modify, assert_, ret, set_flag, set_current;
    cbn [s_CurrentTimeSeconds s_AlarmTimeSeconds s_RtcAlarmCallback RTIF calls].
  rewrite (proj2 (Z.ltb_lt c _)) by lia.
  cbn [s_CurrentTimeSeconds s_AlarmTimeSeconds s_RtcAlarmCallback RTIF calls].
  rewrite wrap_small by (pow2; lia). by destruct (a =? c + 1), cb.
Qed.

(** The alarm time lies among the next [n] seconds. *)
Definition alarm_within (n : nat) (s : state) : bool :=
  (s_CurrentTimeSeconds s <? s_AlarmTimeSeconds s) &&
  (s_AlarmTimeSeconds s <=? s_CurrentTimeSeconds s + Z.of_nat n).

Lemma seconds_elapse_run n : forall s,
  0 <= s_CurrentTimeSeconds s -> s_CurrentTimeSeconds s + Z.of_nat n < UINT32_MAX ->
  exists s', seconds_elapse n s = Ok (tt, s') /\
    s_CurrentTimeSeconds s' = s_CurrentTimeSeconds s + Z.of_nat n /\
    s_AlarmTimeSeconds s' = s_AlarmTimeSeconds s /\
    s_RtcAlarmCallback s' = s_RtcAlarmCallback s /\
    calls s' = (calls s + if alarm_within n s && s_RtcAlarmCallback s then 1 else 0)%nat.
Proof.
  induction n as [|n IH]; intros s H0 Hn; cbn [seconds_elapse].
  { exists s. split_and!; try done; [lia|].
    unfold alarm_within. destruct (Z.ltb_spec (s_CurrentTimeSeconds s) (s_AlarmTimeSeconds s)),
      (Z.leb_spec (s_AlarmTimeSeconds s) (s_CurrentTimeSeconds s + Z.of_nat 0)); cbn [andb]; lia. }
  erewrite bind_ok by (apply second_elapses_run; lia).
  edestruct IH as (s' & -> & Hc & Ha & Hcb & Hk).
  3: { exists s'. split; [done|]. rewrite Hc, Ha, Hcb, Hk. unfold alarm_within.
    cbn [s_CurrentTimeSeconds s_AlarmTimeSeconds s_RtcAlarmCallback RTIF calls].
    split_and!; try done; [lia|]. destruct (s_RtcAlarmCallback s); rewrite ?andb_true_r, ?andb_false_r; [|done].
    destruct (Z.eqb_spec (s_AlarmTimeSeconds s) (s_CurrentTimeSeconds s + 1));
      by_comparisons. }
  all: cbn [s_CurrentTimeSeconds]; lia.
Qed.

Lemma soft_SetDatetime_run dt s :
  valid dt -> RTC_SetDatetime dt s = Ok (kStatus_Success, set_current (gregorian_seconds dt) s).
Proof.
  intros Hv. unfold RTC_SetDatetime, Rtc.CheckDatetimeFormat.
  rewrite (proj2 (CheckDatetimeFormat_valid dt ltac:(unfold valid in Hv; lia)
    ltac:(unfold valid in Hv; lia) ltac:(unfold valid in Hv; lia))) by done.
  cbn [negb]. by rewrite Rtc_ConvertDatetimeToSeconds_same, ConvertDatetimeToSeconds_gregorian by done.
Qed.
End SoftClock.

Lemma seconds_to_date dt d0 :
  valid dt -> SnvsHp.ConvertSecondsToDatetime (gregorian_seconds dt) d0 = Ok dt.
Proof.
  intros Hv. pose proof (gregorian_seconds_bound dt Hv) as Hb. unfold seconds_end in Hb.
  destruct (ConvertSecondsToDatetime_spec (gregorian_seconds dt) d0 ltac:(lia))
    as (dt' & -> & _ & _ & _ & _ & _ & _ & _ & Hs).
  destruct Hs as [Hv' Hs]; [unfold seconds_end; lia|]. f_equal. by apply gregorian_seconds_inj.
Qed.

(** ** The register-backed drivers with storage-cell registers *)

Section Registers.
Context {D : Type} `{PR : PlainRegs rtc_reg D} (tce : Z) (errata : bool).

Lemma check_valid dt : valid dt -> SnvsHp.CheckDatetimeFormat dt = true.
Proof. intros Hv. apply CheckDatetimeFormat_valid; [unfold valid in Hv; lia..|done]. Qed.

Lemma kinetis_SetAlarm_run a d :
  valid a -> view d TSR <= gregorian_seconds a ->
  exists d', Kinetis.RTC_SetAlarm tce errata a d = Ok (kStatus_Success, d') /\
    view d' TAR = gregorian_seconds a /\ view d' TSR = view d TSR.
Proof.
  intros Hv Hle. unfold Kinetis.RTC_SetAlarm, Rtc.CheckDatetimeFormat. rewrite check_valid by done.
  cbn [negb]. rewrite Rtc_ConvertDatetimeToSeconds_same, ConvertDatetimeToSeconds_gregorian by done.
  rewrite bind_lift, bind_rd_plain, (proj2 (Z.ltb_ge _ _)) by lia.
  destruct errata.
  - rewrite bind_rd_plain. erewrite bind_ok by apply clear_bits_plain. rewrite bind_wr.
    destruct (has _ _); [erewrite bind_ok by apply set_bits_plain|rewrite bind_ret];
      (eexists; split; [reflexivity|]);
      split; repeat (rewrite view_write_eq || rewrite view_write_ne by done); done.
  - rewrite bind_wr. eexists. split; [reflexivity|].
    split; repeat (rewrite view_write_eq || rewrite view_write_ne by done); done.
Qed.

Lemma lpc_count_run n d : Lpc.RTC_GetSecondsTimerCount (S n) d = Ok (view d COUNT, d).
Proof. cbn [Lpc.RTC_GetSecondsTimerCount]. by rewrite !bind_rd_plain, Z.eqb_refl. Qed.
End Registers.

(** ** Properties *)

(** after [RTC_SetDatetime] and [n] seconds of interrupts, the software
    clock of rtc_1 reads as the calendar date [n] seconds later; no interrupt
    trips the handler's assertion. *)
Theorem soft_clock_keeps_calendar_time dt dt' n s :
  valid dt -> valid dt' -> gregorian_seconds dt' = gregorian_seconds dt + Z.of_nat n ->
  exists s1 s2, Soft.RTC_SetDatetime dt s = Ok (kStatus_Success, s1) /\
    Soft.seconds_elapse n s1 = Ok (tt, s2) /\ Soft.RTC_GetDatetime s2 = Ok (dt', s2).
Proof.
  intros Hv Hv' Hn. pose proof (gregorian_seconds_bound dt Hv) as Hb.
  pose proof (gregorian_seconds_bound dt' Hv') as Hb'. unfold seconds_end in *.
  eexists. destruct (seconds_elapse_run n (Soft.set_current (gregorian_seconds dt) s))
    as (s2 & Hrun & Hc & _); [cbn; lia..|].
  exists s2. split_and!; [by apply soft_SetDatetime_run|done|].
  unfold Soft.RTC_GetDatetime, bind, gets, lift. rewrite Hc. cbn [Soft.s_CurrentTimeSeconds Soft.set_current].
  rewrite <- Hn. unfold Rtc.ConvertSecondsToDatetime. by rewrite seconds_to_date.
Qed.

(** an alarm set [k >= 1] seconds ahead calls the callback exactly once
    in any run of [n >= k] seconds, at second [k], and not at all in a run of
    fewer. *)
Theorem soft_alarm_fires_once k n s :
  1 <= k -> 0 <= Soft.s_CurrentTimeSeconds s -> Soft.s_RtcAlarmCallback s = true ->
  Soft.s_CurrentTimeSeconds s + k < UINT32_MAX ->
  Soft.s_CurrentTimeSeconds s + Z.of_nat n < UINT32_MAX ->
  exists s1 s2, Soft.RTC_SetAlarm k s = Ok (tt, s1) /\ Soft.seconds_elapse n s1 = Ok (tt, s2) /\
    Soft.calls s2 = (Soft.calls s + if (k <=? Z.of_nat n)%Z then 1 else 0)%nat.
Proof.
  intros Hk H0 Hcb Hmax Hn. exists (Soft.set_alarm (Soft.s_CurrentTimeSeconds s + k) s).
  destruct (seconds_elapse_run n (Soft.set_alarm (Soft.s_CurrentTimeSeconds s + k) s))
    as (s2 & Hrun & _ & _ & _ & Hcalls); [cbn; lia..|].
  exists s2. split_and!; [|done|].
  - unfold Soft.RTC_SetAlarm, bind, gets, assert_, modify, ret. rewrite (wrap_small 32) by (pow2; lia).
    rewrite (proj2 (Z.ltb_lt _ _)) by lia. rewrite (wrap_small 32) by (pow2; lia). by rewrite Z.add_comm.
  - rewrite Hcalls. cbn [Soft.calls Soft.set_alarm Soft.s_RtcAlarmCallback]. rewrite Hcb, andb_true_r.
    unfold alarm_within. cbn [Soft.s_CurrentTimeSeconds Soft.s_AlarmTimeSeconds Soft.set_alarm].
    by_comparisons.
Qed.

(** [RTC_GetAlarm] of rtc and rtc_1 checks the *output* structure: given
    one that does not already hold a valid date, such as a cleared one, the
    assertion fails whatever the alarm register holds. *)
Theorem rtc_get_alarm_asserts_on_output {D} `{!Device rtc_reg D} dt0 (d : D) s :
  datetime_wf dt0 -> ~ valid dt0 ->
  Kinetis.RTC_GetAlarm dt0 d = Err AssertFailed /\ Soft.RTC_GetAlarm dt0 s = Err AssertFailed.
Proof.
  intros Hw Hn. unfold Kinetis.RTC_GetAlarm, Soft.RTC_GetAlarm, Rtc.CheckDatetimeFormat.
  destruct (SnvsHp.CheckDatetimeFormat dt0) eqn:E; [|done].
  apply CheckDatetimeFormat_valid in E; [done|unfold datetime_wf in Hw; lia..].
Qed.

(** the register-backed drivers: a date set reads back, and an alarm not
    before the current time is accepted and holds the alarm's second count;
    on rtc with or without the erratum's stop of the counter. *)
Theorem rtc_registers_roundtrip {D} `{PR : PlainRegs rtc_reg D} tce errata dt a dt0 (d : D) :
  valid dt -> valid a -> ~ earlier a dt ->
  (exists d1 d2, Kinetis.RTC_SetDatetime dt d = Ok (kStatus_Success, d1) /\
    Kinetis.RTC_GetDatetime d1 = Ok (dt, d1) /\
    Kinetis.RTC_SetAlarm tce errata a d1 = Ok (kStatus_Success, d2) /\
    view d2 TAR = gregorian_seconds a) /\
  (exists d1 d2, Lpc.RTC_SetDatetime dt d = Ok (kStatus_Success, d1) /\
    Lpc.RTC_GetDatetime 1 dt0 d1 = Ok (dt, d1) /\
    Lpc.RTC_SetAlarm 1 a d1 = Ok (kStatus_Success, d2) /\
    Lpc.RTC_GetAlarm dt0 d2 = Ok (a, d2)).
Proof.
  intros Hv Ha He. rewrite <- gregorian_seconds_lt_iff in He by done. split.
  - exists (reg_write TSR (gregorian_seconds dt) d).
    destruct (kinetis_SetAlarm_run tce errata a (reg_write TSR (gregorian_seconds dt) d) Ha)
      as (d2 & Hset & Htar & _); [rewrite view_write_eq; lia|].
    exists d2. split_and!; [| |done|done].
    + unfold Kinetis.RTC_SetDatetime, Rtc.CheckDatetimeFormat. rewrite check_valid by done.
      cbn [negb]. by rewrite Rtc_ConvertDatetimeToSeconds_same, ConvertDatetimeToSeconds_gregorian.
    + unfold Kinetis.RTC_GetDatetime. rewrite bind_rd_plain, view_write_eq.
      unfold lift, Rtc.ConvertSecondsToDatetime. by rewrite seconds_to_date.
  - exists (reg_write COUNT (gregorian_seconds dt) d),
      (reg_write MATCH (gregorian_seconds a) (reg_write COUNT (gregorian_seconds dt) d)).
    unfold Lpc.RTC_SetDatetime, Lpc.RTC_GetDatetime, Lpc.RTC_SetAlarm, Lpc.RTC_GetAlarm,
      Lpc.RTC_CheckDatetimeFormat, Lpc.RTC_ConvertDatetimeToSeconds, Lpc.RTC_ConvertSecondsToDatetime.
    rewrite !check_valid, !ConvertDatetimeToSeconds_gregorian by done. cbn [negb].
    rewrite !bind_lift, !bind_wr, bind_rd_plain. erewrite !bind_ok by apply lpc_count_run.
    rewrite !view_write_eq, (proj2 (Z.ltb_ge _ _)) by lia. unfold lift. by rewrite !seconds_to_date.
Qed.

Definition soft_example : Soft.state := Soft.State 0 0 true false 0.

Lemma soft_clock_keeps_calendar_time_witness :
  exists s1 s2, Soft.RTC_SetDatetime (Datetime 1999 12 31 23 59 59) soft_example = Ok (kStatus_Success, s1) /\
    Soft.seconds_elapse 2 s1 = Ok (tt, s2) /\ Soft.RTC_GetDatetime s2 = Ok (Datetime 2000 1 1 0 0 1, s2).
Proof.
  apply soft_clock_keeps_calendar_time; [decide_valid|decide_valid|vm_compute; reflexivity].
Defined.

Lemma soft_alarm_fires_once_witness :
  exists s1 s2, Soft.RTC_SetAlarm 2 soft_example = Ok (tt, s1) /\
    Soft.seconds_elapse 5 s1 = Ok (tt, s2) /\ Soft.calls s2 = 1%nat.
Proof.
  exact (soft_alarm_fires_once 2 5 soft_example ltac:(lia) ltac:(cbn; lia) eq_refl
    ltac:(cbn; lia) ltac:(cbn; lia)).
Defined.

Lemma rtc_get_alarm_asserts_on_output_witness :
  Kinetis.RTC_GetAlarm (D := rtc_reg -> Z) (Datetime 0 0 0 0 0 0) (fun _ => 0) = Err AssertFailed /\
  Soft.RTC_GetAlarm (Datetime 0 0 0 0 0 0) soft_example = Err AssertFailed.
Proof.
  apply rtc_get_alarm_asserts_on_output; [unfold datetime_wf; cbn; lia|decide_valid].
Defined.

Lemma rtc_registers_roundtrip_witness :
  exists d1 d2 : rtc_reg -> Z, Lpc.RTC_SetDatetime leap_day (fun _ => 0) = Ok (kStatus_Success, d1) /\
    Lpc.RTC_GetDatetime 1 no_date d1 = Ok (leap_day, d1) /\
    Lpc.RTC_SetAlarm 1 leap_day d1 = Ok (kStatus_Success, d2) /\
    Lpc.RTC_GetAlarm no_date d2 = Ok (leap_day, d2).
Proof.
  refine (proj2 (rtc_registers_roundtrip (D := rtc_reg -> Z) 16 true leap_day leap_day no_date (fun _ => 0) _ _ _)).
  - decide_valid.
  - decide_valid.
  - unfold earlier, second_of_day. lia.
Defined.
