(* ===== verification/SdkAlloc.v ===== *)
(** * Aligned allocation (drivers/common/fsl_common.c)

    [SDK_Malloc] over-allocates, rounds the address up, and stores in the four
    bytes below the result a magic number and the distance to the address that
    [malloc] returned, from which [SDK_Free] finds that address again.  The C
    library's [malloc] and [free] are parameters. *)

From stdpp Require Import base list numbers tactics.
From Stdlib Require Import ZArith Lia.
From S2P Require Import Prelude.

Open Scope Z_scope.
Open Scope prog_scope.

Definition SDK_MEM_MAGIC_NUMBER : Z := 12345.
Definition SIZE_MAX : Z := 4294967295.

(** [((unsigned int)((var) + ((alignbytes)-1U)) & (unsigned int)(~(unsigned int)((alignbytes)-1U)))] *)
Definition SDK_SIZEALIGN (var alignbytes : Z) : Z :=
  Z.land (u32 (var + u32 (alignbytes - 1))) (u32 (Z.lnot (u32 (alignbytes - 1)))).

(** The C library's allocator [H] and the bytes of memory. *)
Record alloc_state (H : Type) := AllocState { heap : H; bytes : Z -> Z }.
Arguments AllocState {H}. Arguments heap {H}. Arguments bytes {H}.

Section Alloc.
Context {H : Type} (malloc : Z -> H -> Z * H) (free : Z -> H -> H).

(** A little-endian [uint16_t] in memory. *)
Definition load16 (m : Z -> Z) (a : Z) : Z := m a + m (a + 1) * 256.
Definition store16 (m : Z -> Z) (a v : Z) : Z -> Z :=
  fun x => if x =? a then v mod 256 else if x =? a + 1 then v / 256 mod 256 else m x.

(** [mem_align_cb_t] is two [uint16_t]s: the identifier and the offset. *)
Definition sizeof_cb : Z := 4.

Definition SDK_Malloc (size alignbytes : Z) : M (alloc_state H) Z :=
  if (alignbytes =? 0) || (SIZE_MAX <=? alignbytes) then ret 0 else
  let alignedsize := SDK_SIZEALIGN size alignbytes in
  if alignedsize <? size then ret 0 else
  if u32 (SIZE_MAX - alignbytes - sizeof_cb) <? alignedsize then ret 0 else
  let alignedsize := u32 (alignedsize + alignbytes + sizeof_cb) in
  s <- get ;;
  let '(p_addr, h) := malloc alignedsize (heap s) in
  put (AllocState h (bytes s)) ;;
  if p_addr =? 0 then ret 0 else
  let p_align_addr := SDK_SIZEALIGN (u32 (p_addr + sizeof_cb)) alignbytes in
  let p_cb := u32 (p_align_addr - 4) in
  modify (fun s => AllocState (heap s) (store16 (bytes s) p_cb SDK_MEM_MAGIC_NUMBER)) ;;
  modify (fun s => AllocState (heap s) (store16 (bytes s) (p_cb + 2) (u16 (p_align_addr - p_addr)))) ;;
  ret p_align_addr.

Definition SDK_Free (ptr : Z) : M (alloc_state H) unit :=
  s <- get ;;
  let p_cb := u32 (ptr - 4) in
  if negb (load16 (bytes s) p_cb =? SDK_MEM_MAGIC_NUMBER) then ret tt else
  put (AllocState (free (u32 (ptr - load16 (bytes s) (p_cb + 2))) (heap s)) (bytes s)).
End Alloc.

(** ** Rounding up *)

Lemma SDK_SIZEALIGN_pow2 var k :
  0 <= k < 32 -> 0 <= var -> var + 2 ^ k - 1 < 2 ^ 32 ->
  SDK_SIZEALIGN var (2 ^ k) = (var + 2 ^ k - 1) / 2 ^ k * 2 ^ k.
Proof.
  intros Hk Hv Hb. unfold SDK_SIZEALIGN. assert (0 < 2 ^ k) by lia.
  assert (2 ^ k < 2 ^ 32) by (apply Z.pow_lt_mono_r; lia).
  rewrite (wrap_small 32 (2 ^ k - 1)), (wrap_small 32 (var + _)) by lia.
  replace (var + (2 ^ k - 1)) with (var + 2 ^ k - 1) by lia.
  rewrite <- Z.shiftr_div_pow2, <- Z.shiftl_mul_pow2 by lia.
  replace (2 ^ k - 1) with (Z.ones k) by (rewrite Z.ones_equiv; lia).
  apply Z.bits_inj'. intros i Hi. rewrite Z.land_spec.
  destruct (Z.lt_ge_cases i k).
  - rewrite Z.shiftl_spec_low by lia. destruct (Z.lt_ge_cases i 32).
    + rewrite wrap_testbit, Z.lnot_spec, Z.ones_spec_low by lia. by rewrite andb_false_r.
    + lia.
  - rewrite Z.shiftl_spec, Z.shiftr_spec by lia. replace (i - k + k) with i by lia.
    destruct (Z.lt_ge_cases i 32).
    + rewrite wrap_testbit, Z.lnot_spec, Z.ones_spec_high by lia. by rewrite andb_true_r.
    + rewrite (testbit_above (var + 2 ^ k - 1) 32) by lia. done.
Qed.

(** The result is the least multiple not below the argument. *)
Lemma round_up var k : 0 <= k -> 0 <= var ->
  let r := (var + 2 ^ k - 1) / 2 ^ k * 2 ^ k in var <= r < var + 2 ^ k /\ r mod 2 ^ k = 0.
Proof.
  intros Hk Hv r. assert (0 < 2 ^ k) by lia. split; [|by apply Z.mod_mul; lia].
  subst r. pose proof (Z.div_mod (var + 2 ^ k - 1) (2 ^ k) ltac:(lia)).
  pose proof (Z.mod_pos_bound (var + 2 ^ k - 1) (2 ^ k) ltac:(lia)). nia.
Qed.

Lemma load_store16 m a v : 0 <= v < 2 ^ 16 -> load16 (store16 m a v) a = v.
Proof.
  intros Hv. unfold load16, store16. rewrite !Z.eqb_refl.
  rewrite (proj2 (Z.eqb_neq (a + 1) a)) by lia. pow2. zlia.
Qed.

Lemma load16_ext m m' a : m' a = m a -> m' (a + 1) = m (a + 1) -> load16 m' a = load16 m a.
Proof. unfold load16. by intros -> ->. Qed.

Lemma store16_other m a v x : x <> a -> x <> a + 1 -> store16 m a v x = m x.
Proof. intros. unfold store16. by rewrite (proj2 (Z.eqb_neq x a)), (proj2 (Z.eqb_neq x (a + 1))). Qed.

(** ** Claims *)

Section Claims.
Context {H : Type} (malloc : Z -> H -> Z * H) (free : Z -> H -> H).

(** The C library: NULL, or a block inside the address space. *)
Definition malloc_spec : Prop := forall n h, 0 <= n ->
  (malloc n h).1 = 0 \/ 0 < (malloc n h).1 /\ (malloc n h).1 + n < 2 ^ 32.

(** C32: For every alignment that is a power of two and every size,
    [SDK_Malloc] returns NULL with memory unchanged or an aligned address
    whose [size] bytes, and the four bytes of the header below them, lie in
    the block [malloc] returned; only the header is written.  As long as the
    user leaves the header alone, [SDK_Free] then passes to [free] the address
    [malloc] returned -- if the gap is below 2^16, which holds for alignments
    up to 2^15; a larger gap is stored truncated and another address is
    freed. *)
Theorem sdk_malloc_free size k s :
  malloc_spec -> 0 <= size < 2 ^ 32 -> 0 <= k < 32 ->
  exists q s', SDK_Malloc malloc size (2 ^ k) s = Ok (q, s') /\
    (q = 0 -> bytes s' = bytes s) /\
    (q <> 0 -> exists n p, malloc n (heap s) = (p, heap s') /\
       q mod 2 ^ k = 0 /\ p + 4 <= q < p + 4 + 2 ^ k /\ q + size <= p + n /\
       (forall x, ~ q - 4 <= x < q -> bytes s' x = bytes s x) /\
       (forall s2, (forall x, q - 4 <= x < q -> bytes s2 x = bytes s' x) ->
          SDK_Free free q s2 = Ok (tt, AllocState (free (q - (q - p) mod 2 ^ 16) (heap s2)) (bytes s2))) /\
       (q - (q - p) mod 2 ^ 16 = p <-> q - p < 2 ^ 16) /\ (k <= 15 -> q - p < 2 ^ 16)).
Proof.
  intros Hm Hs Hk. unfold SDK_Malloc. assert (0 < 2 ^ k) by lia.
  assert (2 ^ k <= 2 ^ 31) by (apply Z.pow_le_mono_r; lia). unfold SIZE_MAX, sizeof_cb.
  rewrite (proj2 (Z.eqb_neq (2 ^ k) 0)), (proj2 (Z.leb_gt _ (2 ^ k))) by lia. cbn [orb].
  destruct (Z.ltb_spec (SDK_SIZEALIGN size (2 ^ k)) size) as [|Hge]; [by exists 0, s|].
  rewrite (wrap_small 32 (4294967295 - _ - _)) by (pow2; lia).
  destruct (Z.ltb_spec (4294967295 - 2 ^ k - 4) (SDK_SIZEALIGN size (2 ^ k))) as [|Hle]; [by exists 0, s|].
  rewrite bind_get. rewrite (wrap_small 32 (SDK_SIZEALIGN size (2 ^ k) + _ + _)) by (pow2; lia).
  set (n := SDK_SIZEALIGN size (2 ^ k) + 2 ^ k + 4).
  destruct (malloc n (heap s)) as [p h] eqn:Ep.
  pose proof (Hm n (heap s) ltac:(lia)) as Hp. rewrite Ep in Hp. cbn [fst] in Hp.
  unfold bind at 1, put. destruct (Z.eqb_spec p 0) as [->|Hp0]; [by eexists 0, _|].
  destruct Hp as [?|Hp]; [lia|]. rewrite (wrap_small 32 (p + 4)) by (pow2; lia).
  rewrite SDK_SIZEALIGN_pow2 by lia.
  destruct (round_up (p + 4) k ltac:(lia) ltac:(lia)) as [Hq Hal].
  set (q := (p + 4 + 2 ^ k - 1) / 2 ^ k * 2 ^ k) in *.
  rewrite (wrap_small 32 (q - 4)) by (pow2; lia).
  unfold bind, modify, ret. cbn [heap bytes]. eexists q, _. split; [reflexivity|]. cbn [heap bytes].
  split; [lia|]. intros _. exists n, p. split; [done|]. split; [done|]. split; [lia|]. split; [lia|].
  split; [intros x Hx; rewrite !store16_other by lia; done|].
  assert (0 <= u16 (q - p) < 2 ^ 16) by (apply wrap_bound; lia).
  split; [|split].
  - intros s2 Hs2. unfold SDK_Free. rewrite bind_get, (wrap_small 32 (q - 4)) by (pow2; lia). cbv zeta.
    assert (load16 (bytes s2) (q - 4) = SDK_MEM_MAGIC_NUMBER) as ->.
    { rewrite (load16_ext (store16 (bytes s) (q - 4) SDK_MEM_MAGIC_NUMBER) (bytes s2)).
      - apply load_store16. unfold SDK_MEM_MAGIC_NUMBER. lia.
      - rewrite Hs2, store16_other by lia. done.
      - rewrite Hs2, store16_other by lia. done. }
    assert (load16 (bytes s2) (q - 4 + 2) = u16 (q - p)) as ->.
    { rewrite (load16_ext (store16 (store16 (bytes s) (q - 4) SDK_MEM_MAGIC_NUMBER) (q - 4 + 2) (u16 (q - p)))
        (bytes s2)); [by apply load_store16|apply Hs2; lia|apply Hs2; lia]. }
    rewrite Z.eqb_refl. cbn [negb].
    unfold put. rewrite (wrap_small 32 (q - _)); [done|]. pow2. unfold wrap in *.
    assert ((q - p) mod 2 ^ 16 <= q - p) by (apply Z.mod_le; lia). pow2. lia.
  - split; intros E; [|rewrite Z.mod_small; lia].
    pose proof (Z.mod_pos_bound (q - p) (2 ^ 16) ltac:(lia)). lia.
  - intros Hk15. assert (2 ^ k <= 2 ^ 15) by (apply Z.pow_le_mono_r; lia). lia.
Qed.
End Claims.

(** ** Witness *)

(** A C library whose every allocation is at [0x20000008], if it fits. *)
Definition bump_malloc (n : Z) (h : Z) : Z * Z :=
  if n <? 3758096375 then (536870920, h + 1) else (0, h).

Lemma bump_malloc_spec : malloc_spec bump_malloc.
Proof.
  intros n h Hn. unfold bump_malloc. destruct (Z.ltb_spec n 3758096375); cbn [fst]; [right; pow2; lia|by left].
Qed.

Lemma sdk_malloc_free_witness :
  exists q s', SDK_Malloc bump_malloc 100 (2 ^ 5) (AllocState 0 (fun _ => 0)) = Ok (q, s') /\ q = 536870944.
Proof.
  destruct (sdk_malloc_free bump_malloc (fun _ h => h - 1) 100 5 (AllocState 0 (fun _ => 0))
    bump_malloc_spec ltac:(lia) ltac:(lia)) as (q & s' & E & _).
  exists q, s'. split; [exact E|]. vm_compute in E. by injection E as <- _.
Defined.
