(* ===== verification/Ostimer.v ===== *)
(** * The OS event timer (drivers/ostimer)

    A 64-bit counter that the hardware presents in Gray code as two 32-bit
    words, and a match register.  The driver converts between Gray code and
    binary, waits for the match register to accept a value, and dispatches the
    match interrupt to the user's callback.

    Modelled: fsl_ostimer.c and the inline functions of fsl_ostimer.h in the
    configuration without the SYSCTL hardware converter, for the instance the
    interrupt handler serves, with clock and reset control left out.  The bit
    masks of the control register come from the device's header and are
    parameters; so are the two configuration switches. *)

From stdpp Require Import base list numbers tactics.
From Stdlib Require Import ZArith Lia.
From S2P Require Import Prelude Mmio.

Open Scope Z_scope.
Open Scope prog_scope.

Inductive ostimer_reg := OSEVENT_CTRL | MATCH_L | MATCH_H | EVTIMERL | EVTIMERH | CAPTURE_L | CAPTURE_H.

Class OstimerFields := {
  INTRFLAG_MASK : Z; INTENA_MASK : Z;
  MATCH_WR_RDY_MASK : option Z;   (** absent on some devices *)
  BINARY_ENCODED_COUNTER : bool   (** FSL_FEATURE_OSTIMER_HAS_BINARY_ENCODED_COUNTER *)
}.

(** ** Gray code *)

Definition OSTIMER_DecimalToGray (dec : Z) : Z := Z.lxor dec (Z.shiftr dec 1).

Definition OSTIMER_GrayToDecimal (gray : Z) : Z :=
  let gray := Z.lxor gray (Z.shiftr gray 32) in
  let gray := Z.lxor gray (Z.shiftr gray 16) in
  let gray := Z.lxor gray (Z.shiftr gray 8) in
  let gray := Z.lxor gray (Z.shiftr gray 4) in
  let gray := Z.lxor gray (Z.shiftr gray 2) in
  Z.lxor gray (Z.shiftr gray 1).

(** ** Registers *)

Section Registers.
Context {D : Type} `{!Device ostimer_reg D} {F : OstimerFields}.

Definition OSTIMER_GetStatusFlags : M D Z := x <- rd OSEVENT_CTRL ;; ret (Z.land x INTRFLAG_MASK).
Definition OSTIMER_ClearStatusFlags (mask : Z) : M D unit := set_bits OSEVENT_CTRL mask.
Definition OSTIMER_EnableMatchInterrupt : M D unit := set_bits OSEVENT_CTRL INTENA_MASK.
Definition OSTIMER_DisableMatchInterrupt : M D unit := clear_bits OSEVENT_CTRL INTENA_MASK.

(** A 64-bit value read as two words, the low one first. *)
Definition read64 (l h : ostimer_reg) : M D Z :=
  tmp <- rd l ;; x <- rd h ;; ret (Z.lor tmp (Z.shiftl x 32)).

Definition OSTIMER_SetMatchRegister (fuel : nat) (value : Z) : M D unit :=
  match MATCH_WR_RDY_MASK with Some m => poll_set fuel OSEVENT_CTRL m | None => ret tt end ;;
  wr MATCH_L (Z.land value 4294967295) ;;
  wr MATCH_H (u32 (Z.shiftr value 32)).
Definition OSTIMER_GetMatchRegister : M D Z := read64 MATCH_L MATCH_H.
Definition OSTIMER_GetMatchValue : M D Z :=
  value <- OSTIMER_GetMatchRegister ;; ret (OSTIMER_GrayToDecimal value).
Definition OSTIMER_GetCurrentTimerRawValue : M D Z := read64 EVTIMERL EVTIMERH.
Definition OSTIMER_GetCaptureRawValue : M D Z := read64 CAPTURE_L CAPTURE_H.
Definition OSTIMER_GetCurrentTimerValue : M D Z :=
  tmp <- OSTIMER_GetCurrentTimerRawValue ;;
  ret (if BINARY_ENCODED_COUNTER then tmp else OSTIMER_GrayToDecimal tmp).
Definition OSTIMER_GetCaptureValue : M D Z :=
  tmp <- OSTIMER_GetCaptureRawValue ;;
  ret (if BINARY_ENCODED_COUNTER then tmp else OSTIMER_GrayToDecimal tmp).
End Registers.

(** ** The driver: interrupt enables and the stored callback *)

(** [o_irq] is the enable of the timer's line in the interrupt controller;
    [o_isr] and [o_handle] are [s_ostimerIsr] and [s_ostimerHandle[0]]. *)
Record ostimer_state (D C U : Type) := OstimerState {
  o_hw : D; o_irq : bool; o_isr : bool; o_handle : option C; o_user : U
}.
Arguments OstimerState {D C U}. Arguments o_hw {D C U}. Arguments o_irq {D C U}.
Arguments o_isr {D C U}. Arguments o_handle {D C U}. Arguments o_user {D C U}.

Section Driver.
Context {D C U : Type} `{!Device ostimer_reg D} {F : OstimerFields}.
Abbreviation state := (ostimer_state D C U).

Definition on_hw {A} (m : M D A) : M state A :=
  fun s => match m (o_hw s) with
  | Ok (a, d) => Ok (a, OstimerState d (o_irq s) (o_isr s) (o_handle s) (o_user s))
  | Err e => Err e
  end.
(** EnableIRQ, DisableIRQ *)
Definition set_irq (b : bool) : M state unit :=
  modify (fun s => OstimerState (o_hw s) b (o_isr s) (o_handle s) (o_user s)).
Definition set_handle (cb : option C) : M state unit :=
  modify (fun s => OstimerState (o_hw s) (o_irq s) true cb (o_user s)).

Definition OSTIMER_EnableInterrupt (enable : bool) : M state unit :=
  if enable then set_irq true ;; on_hw (set_bits OSEVENT_CTRL INTENA_MASK)
  else set_irq false ;; on_hw (clear_bits OSEVENT_CTRL INTENA_MASK).

Definition OSTIMER_Deinit : M state unit := OSTIMER_EnableInterrupt false.

Definition OSTIMER_SetMatchRawValue (fuel : nat) (count : Z) (cb : option C) : M state status_t :=
  OSTIMER_EnableInterrupt false ;;
  set_handle cb ;;
  on_hw (OSTIMER_SetMatchRegister fuel count) ;;
  OSTIMER_EnableInterrupt true ;;
  ret kStatus_Success.

Definition OSTIMER_SetMatchValue (fuel : nat) (count : Z) (cb : option C) : M state status_t :=
  if BINARY_ENCODED_COUNTER then OSTIMER_SetMatchRawValue fuel count cb
  else OSTIMER_SetMatchRawValue fuel (OSTIMER_DecimalToGray count) cb.

Context (run : C -> M state unit).

Definition OSTIMER_HandleIRQ (cb : option C) : M state unit :=
  OSTIMER_EnableInterrupt false ;;
  match cb with Some c => run c | None => ret tt end.

(** Before the first match is set [s_ostimerIsr] is a null pointer. *)
Definition OS_EVENT_DriverIRQHandler : M state unit :=
  s <- get ;; if o_isr s then OSTIMER_HandleIRQ (o_handle s) else throw NullCall.
End Driver.

(** ** Gray code: the conversions are inverse *)

Lemma xor_shift_xor_shift x m : 0 <= m ->
  Z.lxor (Z.lxor x (Z.shiftr x m)) (Z.shiftr (Z.lxor x (Z.shiftr x m)) m) = Z.lxor x (Z.shiftr x (m + m)).
Proof.
  intros Hm. rewrite Z.shiftr_lxor, Z.shiftr_shiftr by lia.
  rewrite Z.lxor_assoc. f_equal. by rewrite <- Z.lxor_assoc, Z.lxor_nilpotent, Z.lxor_0_l.
Qed.

Lemma xor_shift_comm x m n : 0 <= m -> 0 <= n ->
  Z.lxor (Z.lxor x (Z.shiftr x m)) (Z.shiftr (Z.lxor x (Z.shiftr x m)) n) =
  Z.lxor (Z.lxor x (Z.shiftr x n)) (Z.shiftr (Z.lxor x (Z.shiftr x n)) m).
Proof.
  intros Hm Hn. rewrite !Z.shiftr_lxor, !Z.shiftr_shiftr by lia. rewrite (Z.add_comm n m).
  rewrite !Z.lxor_assoc. f_equal. by rewrite <- !Z.lxor_assoc, (Z.lxor_comm (Z.shiftr x m)).
Qed.

Definition xs (m x : Z) : Z := Z.lxor x (Z.shiftr x m).

Lemma GrayToDecimal_xs g : OSTIMER_GrayToDecimal g = xs 1 (xs 2 (xs 4 (xs 8 (xs 16 (xs 32 g))))).
Proof. done. Qed.

Lemma xs_comm m n x : 0 <= m -> 0 <= n -> xs n (xs m x) = xs m (xs n x).
Proof. apply xor_shift_comm. Qed.

Lemma xs_xs m x : 0 <= m -> xs m (xs m x) = xs (m + m) x.
Proof. apply xor_shift_xor_shift. Qed.

Lemma xs_all x : 0 <= x < 2 ^ 64 -> xs 1 (xs 1 (xs 2 (xs 4 (xs 8 (xs 16 (xs 32 x)))))) = x.
Proof.
  intros Hx. rewrite xs_xs by lia. change (1 + 1) with 2. rewrite xs_xs by lia. change (2 + 2) with 4.
  rewrite xs_xs by lia. change (4 + 4) with 8. rewrite xs_xs by lia. change (8 + 8) with 16.
  rewrite xs_xs by lia. change (16 + 16) with 32. rewrite xs_xs by lia. change (32 + 32) with 64.
  unfold xs. rewrite Z.shiftr_div_pow2, Z.div_small by lia. apply Z.lxor_0_r.
Qed.

Lemma GrayToDecimalToGray g : 0 <= g < 2 ^ 64 -> OSTIMER_DecimalToGray (OSTIMER_GrayToDecimal g) = g.
Proof. apply xs_all. Qed.

Lemma DecimalToGrayToDecimal n : 0 <= n < 2 ^ 64 -> OSTIMER_GrayToDecimal (OSTIMER_DecimalToGray n) = n.
Proof.
  intros Hn. rewrite GrayToDecimal_xs. change (OSTIMER_DecimalToGray n) with (xs 1 n).
  rewrite (xs_comm 1 32), (xs_comm 1 16), (xs_comm 1 8), (xs_comm 1 4), (xs_comm 1 2) by lia.
  by apply xs_all.
Qed.

Lemma DecimalToGray_bound n : 0 <= n < 2 ^ 64 -> 0 <= OSTIMER_DecimalToGray n < 2 ^ 64.
Proof.
  intros Hn. apply lxor_bound; [lia|lia|]. rewrite Z.shiftr_div_pow2 by lia.
  split; [apply Z.div_pos; lia|]. apply Z.div_lt_upper_bound; lia.
Qed.

(** ** A counter read in two halves *)

Lemma gray_testbit n i : 0 <= i ->
  Z.testbit (OSTIMER_DecimalToGray n) i = xorb (Z.testbit n i) (Z.testbit n (i + 1)).
Proof. intros. unfold OSTIMER_DecimalToGray. by rewrite Z.lxor_spec, Z.shiftr_spec by lia. Qed.

Definition halves (n n' : Z) : Z :=
  Z.lor (OSTIMER_DecimalToGray n mod 2 ^ 32) (Z.shiftl (OSTIMER_DecimalToGray n' / 2 ^ 32) 32).

Lemma halves_testbit n n' i : 0 <= i ->
  Z.testbit (halves n n') i =
  let m := if i <? 32 then n else n' in xorb (Z.testbit m i) (Z.testbit m (i + 1)).
Proof.
  intros Hi. cbv zeta. unfold halves. rewrite <- Z.shiftr_div_pow2, Z.lor_spec by lia.
  destruct (Z.ltb_spec i 32).
  - by rewrite Z.mod_pow2_bits_low, Z.shiftl_spec_low, orb_false_r, gray_testbit by lia.
  - rewrite Z.mod_pow2_bits_high, Z.shiftl_spec, Z.shiftr_spec, orb_false_l by lia.
    replace (i - 32 + 32) with i by lia. by rewrite gray_testbit by lia.
Qed.

Lemma div_testbit a b i : a / 2 ^ 32 = b / 2 ^ 32 -> 32 <= i -> Z.testbit a i = Z.testbit b i.
Proof.
  intros E Hi. replace i with (i - 32 + 32) by lia.
  rewrite <- !(Z.shiftr_spec _ 32), !Z.shiftr_div_pow2 by lia. by rewrite E.
Qed.

Lemma halves_same n n' : n / 2 ^ 32 = n' / 2 ^ 32 -> halves n n' = OSTIMER_DecimalToGray n.
Proof.
  intros E. apply Z.bits_inj'. intros i Hi. rewrite halves_testbit, gray_testbit by done. cbv zeta.
  destruct (Z.ltb_spec i 32); [done|]. by rewrite !(div_testbit n n') by (done || lia).
Qed.

(** The reflection of [n] at the carry into the high word. *)
Definition reflected (n n' : Z) : Z := n' / 2 ^ 32 * 2 ^ 32 + wrap 32 (Z.lnot n).

Lemma reflected_value n n' : reflected n n' = n' / 2 ^ 32 * 2 ^ 32 + (2 ^ 32 - 1 - n mod 2 ^ 32).
Proof. unfold reflected, wrap, Z.lnot. pow2. zlia. Qed.

Lemma reflected_testbit n n' i : 0 <= i ->
  Z.testbit (reflected n n') i = if i <? 32 then negb (Z.testbit n i) else Z.testbit n' i.
Proof.
  intros Hi. unfold reflected. rewrite <- lor_pack by (lia || apply wrap_bound; lia).
  rewrite Z.lor_spec. destruct (Z.ltb_spec i 32).
  - by rewrite Z.mul_pow2_bits_low, wrap_testbit, Z.lnot_spec by lia.
  - rewrite wrap_testbit_high, orb_false_r by lia.
    rewrite Z.mul_pow2_bits, Z.div_pow2_bits by lia. f_equal. lia.
Qed.

Lemma halves_carry n n' : n' / 2 ^ 32 = n / 2 ^ 32 + 1 ->
  halves n n' = OSTIMER_DecimalToGray (reflected n n').
Proof.
  intros E. apply Z.bits_inj'. intros i Hi. rewrite halves_testbit, gray_testbit by done. cbv zeta.
  rewrite !reflected_testbit by lia.
  destruct (Z.ltb_spec i 32), (Z.ltb_spec (i + 1) 32); try done; try lia.
  - by destruct (Z.testbit n i), (Z.testbit n (i + 1)).
  - assert (i + 1 = 32) as -> by lia.
    assert (Z.testbit n' 32 = negb (Z.testbit n 32)) as ->.
    { change 32 with (0 + 32). rewrite <- !(Z.div_pow2_bits _ 32), E, !Z.bit0_odd by lia.
      by rewrite Z.add_1_r, Z.odd_succ, <- Z.negb_odd. }
    by destruct (Z.testbit n i), (Z.testbit n 32).
Qed.

(** What a decoded reading is, and how far off it can be. *)
Lemma halves_value n n' : 0 <= n < 2 ^ 64 -> n <= n' < n + 2 ^ 32 -> n' < 2 ^ 64 ->
  let r := OSTIMER_GrayToDecimal (halves n n') in
  r = (if n / 2 ^ 32 =? n' / 2 ^ 32 then n else reflected n n') /\
  n <= r /\ (r = n \/ r <= n + 2 * (n' - n) - 1).
Proof.
  intros Hn Hn' Hb. cbv zeta. destruct (Z.eqb_spec (n / 2 ^ 32) (n' / 2 ^ 32)) as [E|E].
  - rewrite halves_same, DecimalToGrayToDecimal by done. lia.
  - assert (n' / 2 ^ 32 = n / 2 ^ 32 + 1) as E1 by (pow2; zlia).
    rewrite halves_carry by done. rewrite DecimalToGrayToDecimal.
    + split; [done|]. rewrite reflected_value. pow2. zlia.
    + rewrite reflected_value. pow2. zlia.
Qed.

(** ** The documented hardware *)

Definition encode `{OstimerFields} (n : Z) : Z := if BINARY_ENCODED_COUNTER then n else OSTIMER_DecimalToGray n.

(** The match flag clears where 1 is written to it; the match words hold what
    is written; [busy] bounds the reads of the control register that still
    find the match register occupied.  Time may pass at every access: the
    counter advances and the match flag may rise. *)
Class OstimerLaws (D : Type) `{!Device ostimer_reg D} {F : OstimerFields} := {
  flag : D -> bool; ena : D -> bool; match_l : D -> Z; match_h : D -> Z; busy : D -> nat; count : D -> Z;
  masks_ok : 0 < INTRFLAG_MASK < 2 ^ 32 /\ 0 < INTENA_MASK < 2 ^ 32 /\ Z.land INTENA_MASK INTRFLAG_MASK = 0;
  read_ok r d v d' : reg_read r d = (v, d') ->
    (ena d' = ena d /\ match_l d' = match_l d /\ match_h d' = match_h d /\
     (flag d = true -> flag d' = true) /\ (busy d' <= pred (busy d))%nat /\ count d <= count d') /\
    match r with
    | OSEVENT_CTRL => has v INTENA_MASK = ena d /\ has v INTRFLAG_MASK = flag d' /\
        (forall m, MATCH_WR_RDY_MASK = Some m -> has v m = negb (busy d =? 0)%nat)
    | MATCH_L => v = match_l d
    | MATCH_H => v = match_h d
    | EVTIMERL => v = encode (count d) mod 2 ^ 32
    | EVTIMERH => v = encode (count d) / 2 ^ 32
    | CAPTURE_L | CAPTURE_H => True
    end;
  write_ctrl x d : let d' := reg_write OSEVENT_CTRL x d in
    ena d' = has x INTENA_MASK /\ flag d' = flag d && negb (has x INTRFLAG_MASK) /\
    match_l d' = match_l d /\ match_h d' = match_h d /\ busy d' = busy d;
  write_match_l x d : busy d = 0%nat -> let d' := reg_write MATCH_L x d in
    match_l d' = x /\ match_h d' = match_h d /\ ena d' = ena d /\ busy d' = busy d;
  write_match_h x d : busy d = 0%nat -> let d' := reg_write MATCH_H x d in
    match_h d' = x /\ match_l d' = match_l d /\ ena d' = ena d
}.

Section Laws.
Context {D C U : Type} `{HD : !Device ostimer_reg D} {F : OstimerFields} {HL : OstimerLaws D}.

(** What the interrupt enable does to the peripheral. *)
Lemma set_ena_ok (b : bool) d :
  exists d', (if b then set_bits OSEVENT_CTRL INTENA_MASK else clear_bits OSEVENT_CTRL INTENA_MASK) d = Ok (tt, d') /\
    ena d' = b /\ (flag d = true -> flag d' = false) /\
    match_l d' = match_l d /\ match_h d' = match_h d /\ (busy d' <= pred (busy d))%nat.
Proof.
  destruct masks_ok as (Hf & He & Hd).
  destruct (reg_read OSEVENT_CTRL d) as [v d1] eqn:E.
  destruct (read_ok _ _ _ _ E) as [(H1 & H2 & H3 & H4 & H5 & _) (_ & H6 & _)].
  set (x := if b then Z.lor v INTENA_MASK else bic32 v INTENA_MASK).
  exists (reg_write OSEVENT_CTRL x d1).
  destruct (write_ctrl x d1) as (W1 & W2 & W3 & W4 & W5). split.
  - destruct b; unfold set_bits, clear_bits; by rewrite bind_rd, E.
  - rewrite W1, W2, W3, W4, W5. repeat split; try done.
    + subst x. destruct b; [apply has_lor|apply has_bic32]; lia.
    + intros Hfl. rewrite (H4 Hfl) in *. assert (has x INTRFLAG_MASK = true) as ->; [|done].
      subst x. destruct b; [rewrite has_lor_keep|rewrite has_bic_keep]; (done || lia).
Qed.

Lemma EnableInterrupt_ok (b : bool) (s : ostimer_state D C U) :
  exists d', OSTIMER_EnableInterrupt b s = Ok (tt, OstimerState d' b (o_isr s) (o_handle s) (o_user s)) /\
    ena d' = b /\ (flag (o_hw s) = true -> flag d' = false) /\
    match_l d' = match_l (o_hw s) /\ match_h d' = match_h (o_hw s) /\ (busy d' <= pred (busy (o_hw s)))%nat.
Proof.
  destruct (set_ena_ok b (o_hw s)) as (d' & E & H). exists d'. split; [|exact H].
  unfold OSTIMER_EnableInterrupt. destruct b; unfold bind, set_irq, modify, on_hw; cbn [o_hw]; by rewrite E.
Qed.

Lemma wait_ready fuel m d :
  MATCH_WR_RDY_MASK = Some m -> (busy d < fuel)%nat ->
  exists d', poll_set fuel OSEVENT_CTRL m d = Ok (tt, d') /\ busy d' = 0%nat /\
    match_l d' = match_l d /\ match_h d' = match_h d /\ ena d' = ena d.
Proof.
  intros Em. revert d. induction fuel as [|fuel IH]; intros d Hf; [lia|].
  unfold poll_set. cbn [while_]. rewrite bind_assoc, bind_rd.
  destruct (reg_read OSEVENT_CTRL d) as [v d1] eqn:E.
  destruct (read_ok _ _ _ _ E) as [(H1 & H2 & H3 & _ & H5 & _) (_ & _ & H6)].
  rewrite bind_ret, (H6 m Em). destruct (Nat.eqb_spec (busy d) 0) as [Hz|Hz]; cbn [negb].
  - exists d1. split; [done|]. repeat split; try done. lia.
  - rewrite bind_ret. destruct (IH d1 ltac:(lia)) as (d' & E' & H0 & Hl & Hh & He).
    exists d'. unfold poll_set in E'. rewrite E'. repeat split; congruence.
Qed.

Definition ready_in (fuel : nat) (d : D) : Prop :=
  match MATCH_WR_RDY_MASK with Some _ => (busy d < fuel)%nat | None => busy d = 0%nat end.

Lemma SetMatchRegister_ok fuel v d :
  ready_in fuel d -> 0 <= v < 2 ^ 64 ->
  exists d', OSTIMER_SetMatchRegister fuel v d = Ok (tt, d') /\
    match_l d' = v mod 2 ^ 32 /\ match_h d' = v / 2 ^ 32 /\ ena d' = ena d.
Proof.
  unfold ready_in, OSTIMER_SetMatchRegister. intros Hr Hv.
  assert (exists d1, match MATCH_WR_RDY_MASK with Some m => poll_set fuel OSEVENT_CTRL m | None => ret tt end d
    = Ok (tt, d1) /\ busy d1 = 0%nat /\ ena d1 = ena d) as (d1 & E & Hb & He).
  { destruct MATCH_WR_RDY_MASK as [m|] eqn:Em; [|by exists d].
    destruct (wait_ready fuel m d Em Hr) as (d1 & ? & ? & _ & _ & ?). by exists d1. }
  rewrite (bind_ok _ _ _ _ _ E). rewrite bind_wr. eexists. split; [reflexivity|].
  destruct (write_match_l (Z.land v 4294967295) d1 Hb) as (L1 & L2 & L3 & L4).
  rewrite Hb in L4.
  destruct (write_match_h (u32 (Z.shiftr v 32)) (reg_write MATCH_L (Z.land v 4294967295) d1) L4)
    as (K1 & K2 & K3).
  rewrite K1, K2, K3, L1, L3, He. repeat split.
  - by apply (Z.land_ones v 32).
  - rewrite Z.shiftr_div_pow2 by lia. apply wrap_small. pow2. zlia.
Qed.

Lemma read64_ok l h d :
  exists vl vh d1 d2, reg_read l d = (vl, d1) /\ reg_read h d1 = (vh, d2) /\
    read64 l h d = Ok (Z.lor vl (Z.shiftl vh 32), d2).
Proof.
  destruct (reg_read l d) as [vl d1] eqn:E1. destruct (reg_read h d1) as [vh d2] eqn:E2.
  exists vl, vh, d1, d2. repeat split; [done|]. unfold read64. by rewrite bind_rd, E1, bind_rd, E2.
Qed.

Lemma join_halves v : 0 <= v -> Z.lor (v mod 2 ^ 32) (Z.shiftl (v / 2 ^ 32) 32) = v.
Proof.
  intros Hv. rewrite Z.lor_comm, lor_pack_shiftl by (lia || apply Z.mod_pos_bound; lia).
  pow2. zlia.
Qed.

Lemma encode_bound n : 0 <= n < 2 ^ 64 -> 0 <= encode n < 2 ^ 64.
Proof. intros Hn. unfold encode. destruct BINARY_ENCODED_COUNTER; [done|by apply DecimalToGray_bound]. Qed.

Lemma SetMatchValue_raw fuel n (cb : option C) :
  OSTIMER_SetMatchValue (U := U) (D := D) fuel n cb = OSTIMER_SetMatchRawValue fuel (encode n) cb.
Proof. unfold OSTIMER_SetMatchValue, encode. by destruct BINARY_ENCODED_COUNTER. Qed.

Lemma SetMatchRawValue_ok fuel v (cb : option C) (s : ostimer_state D C U) :
  ready_in fuel (o_hw s) -> 0 <= v < 2 ^ 64 ->
  exists d', OSTIMER_SetMatchRawValue fuel v cb s = Ok (kStatus_Success, OstimerState d' true true cb (o_user s)) /\
    ena d' = true /\ match_l d' = v mod 2 ^ 32 /\ match_h d' = v / 2 ^ 32.
Proof.
  intros Hr Hv. unfold OSTIMER_SetMatchRawValue.
  destruct (EnableInterrupt_ok false s) as (d1 & E1 & _ & _ & _ & _ & Hb).
  rewrite (bind_ok _ _ _ _ _ E1). unfold bind at 1, set_handle, modify. cbn [o_hw o_irq o_isr o_handle o_user].
  assert (ready_in fuel d1) as Hr1 by (unfold ready_in in *; destruct MATCH_WR_RDY_MASK; lia).
  destruct (SetMatchRegister_ok fuel v d1 Hr1 Hv) as (d2 & E2 & Hl & Hh & _).
  unfold bind at 1, on_hw. cbn [o_hw o_irq o_isr o_handle o_user]. rewrite E2.
  destruct (EnableInterrupt_ok true (OstimerState d2 false true cb (o_user s)))
    as (d3 & E3 & He & _ & Hl3 & Hh3 & _). rewrite (bind_ok _ _ _ _ _ E3).
  cbn [o_hw o_irq o_isr o_handle o_user] in *. exists d3. repeat split; congruence.
Qed.
End Laws.

(** ** Claims *)

Section Claims.
Context {D C U : Type} `{HD : !Device ostimer_reg D} {F : OstimerFields} {HL : OstimerLaws D}.
Abbreviation state := (ostimer_state D C U).

(** C31: Reading the 64-bit counter in two halves while it runs.  With the
    Gray-coded counter the value returned is never behind the count at the
    first read; it is that count exactly unless the count carries into the
    high word in between, and then it runs ahead by less than twice the
    ticks elapsed -- so with at most one tick between the reads it is one of
    the two counts.  With the binary counter the high word of the second read
    is joined to the low word of the first: across the carry the value is
    2^32 too large. *)
Theorem ostimer_current_value d d1 vl :
  reg_read EVTIMERL d = (vl, d1) -> 0 <= count d < 2 ^ 64 -> count d1 < count d + 2 ^ 32 -> count d1 < 2 ^ 64 ->
  exists r d2, OSTIMER_GetCurrentTimerValue d = Ok (r, d2) /\
    (count d / 2 ^ 32 = count d1 / 2 ^ 32 -> r = count d) /\
    (BINARY_ENCODED_COUNTER = false ->
       count d <= r /\ (r = count d \/ r <= count d + 2 * (count d1 - count d) - 1) /\
       (count d1 <= count d + 1 -> r = count d \/ r = count d1)) /\
    (BINARY_ENCODED_COUNTER = true -> count d / 2 ^ 32 <> count d1 / 2 ^ 32 -> r = count d + 2 ^ 32).
Proof.
  intros E Hn Hlt Hb. destruct (read64_ok EVTIMERL EVTIMERH d) as (? & vh & ? & d2 & E1 & E2 & E3).
  rewrite E in E1. injection E1 as <- <-.
  destruct (read_ok _ _ _ _ E) as [(_ & _ & _ & _ & _ & Hle) Hvl].
  destruct (read_ok _ _ _ _ E2) as [_ Hvh]. subst vl vh.
  unfold OSTIMER_GetCurrentTimerValue, OSTIMER_GetCurrentTimerRawValue. rewrite (bind_ok _ _ _ _ _ E3).
  eexists _, d2. split; [reflexivity|]. unfold encode. destruct BINARY_ENCODED_COUNTER.
  - rewrite Z.lor_comm, lor_pack_shiftl by (lia || apply Z.mod_pos_bound; lia).
    split; [pow2; zlia|]. split; [done|]. intros _ Hne. pow2. zlia.
  - assert (count d <= count d1 < count d + 2 ^ 32) as Hd by (split; [exact Hle|exact Hlt]).
    destruct (halves_value (count d) (count d1) Hn Hd Hb) as (Hr & Hge & Hup).
    fold (halves (count d) (count d1)). set (r := OSTIMER_GrayToDecimal _) in *.
    split; [|split; [|done]].
    + intros Heq. by rewrite Hr, (proj2 (Z.eqb_eq _ _) Heq).
    + intros _. split; [done|]. split; [done|]. lia.
Qed.

(** [OSTIMER_SetMatchValue] waits until the match register accepts a
    value, stores the (encoded) count, registers the callback and leaves the
    interrupt enabled at both places.  [OSTIMER_GetMatchValue] then returns
    that count with the Gray-coded counter; with the binary counter it still
    decodes, and returns the count only for 0 and 1. *)
Theorem ostimer_match_roundtrip fuel n (cb : option C) (s : state) :
  ready_in fuel (o_hw s) -> 0 <= n < 2 ^ 64 ->
  exists d' r d'', OSTIMER_SetMatchValue fuel n cb s = Ok (kStatus_Success, OstimerState d' true true cb (o_user s)) /\
    ena d' = true /\ OSTIMER_GetMatchValue d' = Ok (r, d'') /\
    (BINARY_ENCODED_COUNTER = false -> r = n) /\
    (BINARY_ENCODED_COUNTER = true -> (r = n <-> n < 2)).
Proof.
  intros Hr Hn. rewrite SetMatchValue_raw. pose proof (encode_bound n Hn) as Hen.
  destruct (SetMatchRawValue_ok fuel (encode n) cb s Hr Hen) as (d' & E & He & Hl & Hh).
  destruct (read64_ok MATCH_L MATCH_H d') as (vl & vh & d1 & d2 & E1 & E2 & E3).
  destruct (read_ok _ _ _ _ E1) as [(_ & _ & Hh1 & _) Hvl]. destruct (read_ok _ _ _ _ E2) as [_ Hvh].
  assert (Z.lor vl (Z.shiftl vh 32) = encode n) as Ej
    by by rewrite Hvl, Hvh, Hh1, Hl, Hh, join_halves by lia.
  exists d', (OSTIMER_GrayToDecimal (encode n)), d2. split; [done|]. split; [done|]. split.
  - unfold OSTIMER_GetMatchValue, OSTIMER_GetMatchRegister. by rewrite (bind_ok _ _ _ _ _ E3), Ej.
  - unfold encode. destruct BINARY_ENCODED_COUNTER; (split; [try done|try done]).
    + intros _. split; intros H.
      * apply (f_equal OSTIMER_DecimalToGray) in H. rewrite GrayToDecimalToGray in H by done.
        assert (Z.lxor n (Z.lxor n (Z.shiftr n 1)) = 0) as E0
          by (unfold OSTIMER_DecimalToGray in H; rewrite <- H; apply Z.lxor_nilpotent).
        rewrite <- Z.lxor_assoc, Z.lxor_nilpotent, Z.lxor_0_l, Z.shiftr_div_pow2 in E0 by lia.
        change (2 ^ 1) with 2 in E0. zlia.
      * destruct (decide (n = 0)) as [->|]; [done|]. by replace n with 1 by lia.
    + intros _. by apply DecimalToGrayToDecimal.
Qed.

(** The interrupt handler: with a pending match it clears the flag,
    disables the interrupt in the peripheral and in the interrupt controller,
    and only then calls the registered callback, once; without a registered
    callback it stops there. *)
Theorem ostimer_irq_dispatch (run : C -> M state unit) (s : state) :
  o_isr s = true -> flag (o_hw s) = true ->
  exists d', flag d' = false /\ ena d' = false /\
    match_l d' = match_l (o_hw s) /\ match_h d' = match_h (o_hw s) /\
    let s1 := OstimerState d' false true (o_handle s) (o_user s) in
    OS_EVENT_DriverIRQHandler run s =
      match o_handle s with Some c => run c s1 | None => Ok (tt, s1) end.
Proof.
  intros Hi Hf. destruct (EnableInterrupt_ok false s) as (d' & E & He & Hfl & Hl & Hh & _).
  exists d'. split; [auto|]. split; [done|]. split; [done|]. split; [done|].
  unfold OS_EVENT_DriverIRQHandler, OSTIMER_HandleIRQ. rewrite bind_get, Hi.
  rewrite (bind_ok _ _ _ _ _ E), Hi. by destruct (o_handle s).
Qed.
End Claims.

(** ** A timer that ticks at every access *)

Record toy_timer := ToyTimer {
  t_flag : bool; t_ena : bool; t_l : Z; t_h : Z; t_busy : nat; t_count : Z
}.

#[export] Instance toy_fields : OstimerFields :=
  {| INTRFLAG_MASK := 1; INTENA_MASK := 2; MATCH_WR_RDY_MASK := Some 4; BINARY_ENCODED_COUNTER := false |}.

Definition toy_ctrl (d : toy_timer) : Z :=
  (if t_flag d then 1 else 0) + (if t_ena d then 2 else 0) + (if (t_busy d =? 0)%nat then 0 else 4).
Definition toy_tick (d : toy_timer) : toy_timer :=
  ToyTimer (t_flag d) (t_ena d) (t_l d) (t_h d) (pred (t_busy d)) (t_count d + 1).

#[export] Instance toy_device : Device ostimer_reg toy_timer := {|
  reg_read r d := (match r with
    | OSEVENT_CTRL => toy_ctrl d | MATCH_L => t_l d | MATCH_H => t_h d
    | EVTIMERL | CAPTURE_L => encode (t_count d) mod 2 ^ 32
    | EVTIMERH | CAPTURE_H => encode (t_count d) / 2 ^ 32 end, toy_tick d);
  reg_write r x d := match r with
    | OSEVENT_CTRL => ToyTimer (t_flag d && negb (has x 1)) (has x 2) (t_l d) (t_h d) (t_busy d) (t_count d)
    | MATCH_L => ToyTimer (t_flag d) (t_ena d) x (t_h d) (t_busy d) (t_count d)
    | MATCH_H => ToyTimer (t_flag d) (t_ena d) (t_l d) x (t_busy d + 3) (t_count d)
    | _ => d end
|}.

#[export] Instance toy_laws : OstimerLaws toy_timer.
Proof.
  refine (Build_OstimerLaws toy_timer toy_device toy_fields t_flag t_ena t_l t_h t_busy t_count _ _ _ _ _).
  - by vm_compute.
  - intros r d v d' E. injection E as <- <-. split; [cbn [t_flag t_ena t_l t_h t_busy t_count toy_tick]; repeat split; auto with lia|].
    destruct r; try done. cbn [toy_tick t_flag]. unfold toy_ctrl, has.
    cbn [INTENA_MASK INTRFLAG_MASK MATCH_WR_RDY_MASK toy_fields].
    destruct (t_flag d), (t_ena d), (t_busy d =? 0)%nat; (split; [done|split; [done|by intros m [= <-]]]).
  - intros x d. by repeat split.
  - intros x d Hb. by repeat split.
  - intros x d Hb. by repeat split.
Defined.

Definition at_carry : toy_timer := ToyTimer false false 0 0 0 (2 ^ 40 - 1).

Lemma ostimer_current_value_witness :
  exists r d2, OSTIMER_GetCurrentTimerValue at_carry = Ok (r, d2) /\ r = 2 ^ 40.
Proof.
  assert (reg_read EVTIMERL at_carry = (encode (2 ^ 40 - 1) mod 2 ^ 32, toy_tick at_carry)) as E0 by done.
  assert (count at_carry = 2 ^ 40 - 1) as C0 by (vm_compute; reflexivity).
  assert (count (toy_tick at_carry) = 2 ^ 40) as C1 by (vm_compute; reflexivity).
  destruct (ostimer_current_value at_carry (toy_tick at_carry) _ E0
    ltac:(rewrite C0; lia) ltac:(rewrite C0, C1; lia) ltac:(rewrite C1; lia)) as (r & d2 & E & _ & Hg & _).
  exists r, d2. split; [exact E|]. vm_compute in E. by injection E as <- _.
Defined.

Lemma ostimer_match_roundtrip_witness :
  let s := OstimerState (ToyTimer true true 0 0 2 5) true false (@None nat) tt in
  exists d' d'', OSTIMER_SetMatchValue 3 (2 ^ 40 + 12345) (Some 7%nat) s
    = Ok (kStatus_Success, OstimerState d' true true (Some 7%nat) tt) /\
    OSTIMER_GetMatchValue d' = Ok (2 ^ 40 + 12345, d'').
Proof.
  intros s. assert (ready_in 3 (o_hw s)) as Hr0 by (apply Nat.ltb_lt; vm_compute; reflexivity).
  destruct (ostimer_match_roundtrip 3 (2 ^ 40 + 12345) (Some 7%nat) s Hr0 ltac:(lia)) as (d' & r & d'' & E & _ & E' & Hr & _).
  exists d', d''. split; [exact E|]. rewrite E'. by rewrite (Hr eq_refl).
Defined.

(** A callback that counts its calls. *)
Definition count_call (c : nat) : M (ostimer_state toy_timer nat nat) unit :=
  modify (fun s => OstimerState (o_hw s) (o_irq s) (o_isr s) (o_handle s) (o_user s + c)%nat).

Lemma ostimer_irq_dispatch_witness :
  let s := OstimerState (ToyTimer true true 0 0 2 5) true true (Some 7%nat) 0%nat in
  exists d', flag d' = false /\
    OS_EVENT_DriverIRQHandler count_call s = Ok (tt, OstimerState d' false true (Some 7%nat) 7%nat).
Proof.
  intros s. assert (flag (o_hw s) = true) as Hf0 by reflexivity.
  destruct (ostimer_irq_dispatch count_call s eq_refl Hf0) as (d' & Hf & _ & _ & _ & E).
  exists d'. split; [exact Hf|exact E].
Defined.
