(* ===== verification/Edma.v ===== *)
(** * The eDMA driver (drivers/edma/fsl_edma.c)

    One channel of the eDMA controller: transfer control descriptors (TCDs),
    the configuration of a transfer, and the transactional layer with its
    circular queue of descriptors.  A descriptor is eleven fields at an
    address; the channel's own registers are the descriptor at address [HW],
    which is why one function serves both, as in the code.  The engine reads
    the same memory, so every field access is an access to the device.

    Modelled in the configuration without an address offset between core and
    DMA, for the channel of the handle. *)

From stdpp Require Import base list numbers tactics.
From Stdlib Require Import ZArith Lia.
From S2P Require Import Prelude Mmio.

Open Scope Z_scope.
Open Scope prog_scope.

(** The fields of [edma_tcd_t]. *)
Inductive tcd_field := SADDR | SOFF | ATTR | NBYTES | SLAST | DADDR | DOFF | CITER | DLAST_SGA | CSR | BITER.
#[export] Instance tcd_field_eq_dec : EqDecision tcd_field.
Proof. solve_decision. Defined.

Inductive edma_reg := TCD (a : Z) (f : tcd_field) | CR | ERQ | EEI | ERR | INT | SERQ | CERQ | CINT | CERR | CDNE.

(** The device header: the address of the channel's TCD, masks and fields. *)
Class EdmaFields := {
  HW : Z; channel : Z;
  DMA_CSR_DREQ_MASK : Z; DMA_CSR_ESG_MASK : Z; DMA_CSR_INTMAJOR_MASK : Z; DMA_CSR_INTHALF_MASK : Z;
  DMA_CSR_DONE_MASK : Z; DMA_CSR_DONE_SHIFT : Z; DMA_CSR_ACTIVE_MASK : Z;
  DMA_CSR_MAJORELINK_MASK : Z; DMA_CSR_MAJORLINKCH_MASK : Z; DMA_CSR_MAJORLINKCH : Z -> Z;
  DMA_CSR_BWC_MASK : Z; DMA_CSR_BWC : Z -> Z;
  DMA_ATTR_SSIZE : Z -> Z; DMA_ATTR_DSIZE : Z -> Z;
  DMA_ATTR_SMOD_MASK : Z; DMA_ATTR_DMOD_MASK : Z; DMA_ATTR_SMOD : Z -> Z; DMA_ATTR_DMOD : Z -> Z;
  DMA_NBYTES_SMLOE_MASK : Z; DMA_NBYTES_DMLOE_MASK : Z; DMA_NBYTES_MLOFF_MASK : Z; DMA_NBYTES_MLOFF : Z -> Z;
  DMA_CITER_ELINKYES_ELINK_MASK : Z; DMA_CITER_ELINKYES_LINKCH_MASK : Z; DMA_CITER_ELINKYES_LINKCH : Z -> Z;
  DMA_BITER_ELINKYES_ELINK_MASK : Z; DMA_BITER_ELINKYES_LINKCH_MASK : Z; DMA_BITER_ELINKYES_LINKCH : Z -> Z;
  DMA_CITER_ELINKYES_CITER_MASK : Z; DMA_CITER_ELINKYES_CITER_SHIFT : Z;
  DMA_CITER_ELINKNO_ELINK_MASK : Z; DMA_CITER_ELINKNO_CITER_MASK : Z; DMA_CITER_ELINKNO_CITER_SHIFT : Z;
  DMA_BITER_ELINKNO_BITER_MASK : Z;
  DMA_CR_ERCA_MASK : Z; DMA_CR_HOE_MASK : Z; DMA_CR_CLM_MASK : Z; DMA_CR_EDBG_MASK : Z; DMA_CR_EMLM_MASK : Z;
  FSL_FEATURE_EDMA_SUPPORT_8_BYTES_TRANSFER : bool; FSL_FEATURE_EDMA_SUPPORT_16_BYTES_TRANSFER : bool
}.

Inductive edma_channel_link_type := kEDMA_LinkNone | kEDMA_MinorLink | kEDMA_MajorLink.
Inductive edma_transfer_type :=
  kEDMA_MemoryToMemory | kEDMA_PeripheralToMemory | kEDMA_MemoryToPeripheral | kEDMA_PeripheralToPeripheral.

Definition kStatusGroup_EDMA : Z := 51.
Definition kStatus_EDMA_QueueFull : status_t := MAKE_STATUS kStatusGroup_EDMA 0.
Definition kStatus_EDMA_Busy : status_t := MAKE_STATUS kStatusGroup_EDMA 1.
Definition EDMA_TRANSFER_ENABLED_MASK : Z := 0x80.

Record edma_config := EdmaConfig {
  enableContinuousLinkMode : bool; enableHaltOnError : bool;
  enableRoundRobinArbitration : bool; enableDebugMode : bool
}.

(** [edma_transfer_config_t]; the two sizes are the register encodings
    [kEDMA_TransferSize1Bytes] = 0 to [kEDMA_TransferSize32Bytes] = 5. *)
Record edma_transfer_config := TransferConfig {
  srcAddr : Z; destAddr : Z; srcTransferSize : Z; destTransferSize : Z;
  srcOffset : Z; destOffset : Z; minorLoopBytes : Z; majorLoopCounts : Z
}.

(** The [int8_t] of the queue indices. *)
Definition i8 (x : Z) : Z := (x + 128) mod 256 - 128.
Definition i16 (x : Z) : Z := (x + 32768) mod 65536 - 32768.

Record edma_handle := EdmaHandle {
  callback : bool; tcdPool : Z; header : Z; tail : Z; tcdUsed : Z; tcdSize : Z; flags : Z
}.

(** ** Descriptors *)

Section Tcd.
Context {D : Type} `{!Device edma_reg D} {F : EdmaFields}.

(** [assert(((uint32_t)tcd & 0x1FU) == 0U)] *)
Definition assert_tcd (a : Z) : M D unit := assert_ (Z.land a 0x1F =? 0).
Definition or_field (a : Z) (f : tcd_field) (v : Z) : M D unit :=
  x <- rd (TCD a f) ;; wr (TCD a f) (Z.lor x v).
Definition bic_field (a : Z) (f : tcd_field) (v : Z) : M D unit :=
  x <- rd (TCD a f) ;; wr (TCD a f) (bic 16 x v).

Definition EDMA_TcdReset (tcd : Z) : M D unit :=
  assert_ (negb (tcd =? 0)) ;; assert_tcd tcd ;;
  wr (TCD tcd SADDR) 0 ;; wr (TCD tcd SOFF) 0 ;; wr (TCD tcd ATTR) 0 ;; wr (TCD tcd NBYTES) 0 ;;
  wr (TCD tcd SLAST) 0 ;; wr (TCD tcd DADDR) 0 ;; wr (TCD tcd DOFF) 0 ;; wr (TCD tcd CITER) 0 ;;
  wr (TCD tcd DLAST_SGA) 0 ;;
  wr (TCD tcd CSR) DMA_CSR_DREQ_MASK ;;
  wr (TCD tcd BITER) 0.

Definition EDMA_TcdSetTransferConfig (tcd : Z) (config : edma_transfer_config) (nextTcd : Z) : M D unit :=
  assert_ (negb (tcd =? 0)) ;; assert_tcd tcd ;; assert_tcd nextTcd ;;
  assert_ (srcAddr config mod u32 (Z.shiftl 1 (srcTransferSize config)) =? 0) ;;
  assert_ (destAddr config mod u32 (Z.shiftl 1 (destTransferSize config)) =? 0) ;;
  wr (TCD tcd SADDR) (srcAddr config) ;;
  wr (TCD tcd DADDR) (destAddr config) ;;
  wr (TCD tcd ATTR) (Z.lor (DMA_ATTR_SSIZE (srcTransferSize config)) (DMA_ATTR_DSIZE (destTransferSize config))) ;;
  wr (TCD tcd SOFF) (u16 (srcOffset config)) ;;
  wr (TCD tcd DOFF) (u16 (destOffset config)) ;;
  wr (TCD tcd NBYTES) (minorLoopBytes config) ;;
  wr (TCD tcd CITER) (u16 (majorLoopCounts config)) ;;
  wr (TCD tcd BITER) (u16 (majorLoopCounts config)) ;;
  when (negb (nextTcd =? 0)) (
    wr (TCD tcd DLAST_SGA) nextTcd ;;
    x <- rd (TCD tcd CSR) ;;
    wr (TCD tcd CSR) (bic 16 (Z.lor x DMA_CSR_ESG_MASK) DMA_CSR_DREQ_MASK)).

Definition EDMA_TcdSetMinorOffsetConfig (tcd : Z) (src dest : bool) (minorOffset : Z) : M D unit :=
  assert_ (negb (tcd =? 0)) ;; assert_tcd tcd ;;
  x <- rd (TCD tcd NBYTES) ;;
  let tmpreg := bic32 x (Z.lor (Z.lor DMA_NBYTES_SMLOE_MASK DMA_NBYTES_DMLOE_MASK) DMA_NBYTES_MLOFF_MASK) in
  wr (TCD tcd NBYTES) (Z.lor tmpreg (Z.lor (Z.lor (if src then DMA_NBYTES_SMLOE_MASK else 0)
    (if dest then DMA_NBYTES_DMLOE_MASK else 0)) (DMA_NBYTES_MLOFF minorOffset))).

Definition EDMA_TcdSetMajorOffsetConfig (tcd sourceOffset destOffset : Z) : M D unit :=
  assert_ (negb (tcd =? 0)) ;; assert_tcd tcd ;;
  wr (TCD tcd SLAST) (u32 sourceOffset) ;;
  wr (TCD tcd DLAST_SGA) (u32 destOffset).

Definition EDMA_TcdSetChannelLink (channels tcd : Z) (linkType : edma_channel_link_type) (linked : Z) : M D unit :=
  assert_ (negb (tcd =? 0)) ;; assert_tcd tcd ;; assert_ (linked <? channels) ;;
  match linkType with
  | kEDMA_MinorLink =>
      or_field tcd CITER DMA_CITER_ELINKYES_ELINK_MASK ;;
      or_field tcd BITER DMA_BITER_ELINKYES_ELINK_MASK ;;
      x <- rd (TCD tcd CITER) ;;
      wr (TCD tcd CITER) (u16 (Z.lor (bic 16 x DMA_CITER_ELINKYES_LINKCH_MASK) (DMA_CITER_ELINKYES_LINKCH linked))) ;;
      x <- rd (TCD tcd BITER) ;;
      wr (TCD tcd BITER) (u16 (Z.lor (bic 16 x DMA_BITER_ELINKYES_LINKCH_MASK) (DMA_BITER_ELINKYES_LINKCH linked)))
  | kEDMA_MajorLink =>
      or_field tcd CSR DMA_CSR_MAJORELINK_MASK ;;
      x <- rd (TCD tcd CSR) ;;
      wr (TCD tcd CSR) (u16 (Z.lor (bic 16 x DMA_CSR_MAJORLINKCH_MASK) (DMA_CSR_MAJORLINKCH linked)))
  | kEDMA_LinkNone =>
      bic_field tcd CITER DMA_CITER_ELINKYES_ELINK_MASK ;;
      bic_field tcd BITER DMA_BITER_ELINKYES_ELINK_MASK ;;
      bic_field tcd CSR DMA_CSR_MAJORELINK_MASK
  end.

Definition EDMA_TcdSetModulo (tcd srcModulo destModulo : Z) : M D unit :=
  assert_ (negb (tcd =? 0)) ;; assert_tcd tcd ;;
  x <- rd (TCD tcd ATTR) ;;
  wr (TCD tcd ATTR) (u16 (Z.lor (Z.lor (bic 16 x (Z.lor DMA_ATTR_SMOD_MASK DMA_ATTR_DMOD_MASK))
    (DMA_ATTR_DMOD destModulo)) (DMA_ATTR_SMOD srcModulo))).

Definition EDMA_TcdSetBandWidth (tcd bandWidth : Z) : M D unit :=
  assert_ (negb (tcd =? 0)) ;; assert_tcd tcd ;;
  x <- rd (TCD tcd CSR) ;; wr (TCD tcd CSR) (u16 (Z.lor (bic32 x DMA_CSR_BWC_MASK) (DMA_CSR_BWC bandWidth))).

Definition EDMA_TcdEnableAutoStopRequest (tcd : Z) (enable : bool) : M D unit :=
  assert_ (negb (tcd =? 0)) ;; assert_tcd tcd ;;
  x <- rd (TCD tcd CSR) ;;
  wr (TCD tcd CSR) (u16 (Z.lor (bic32 x DMA_CSR_DREQ_MASK) (if enable then DMA_CSR_DREQ_MASK else 0))).

Definition EDMA_TcdEnableInterrupts (tcd mask : Z) : M D unit :=
  assert_ (negb (tcd =? 0)) ;;
  when (has mask DMA_CSR_INTMAJOR_MASK) (or_field tcd CSR DMA_CSR_INTMAJOR_MASK) ;;
  when (has mask DMA_CSR_INTHALF_MASK) (or_field tcd CSR DMA_CSR_INTHALF_MASK).

Definition EDMA_TcdDisableInterrupts (tcd mask : Z) : M D unit :=
  assert_ (negb (tcd =? 0)) ;;
  when (has mask DMA_CSR_INTMAJOR_MASK) (bic_field tcd CSR DMA_CSR_INTMAJOR_MASK) ;;
  when (has mask DMA_CSR_INTHALF_MASK) (bic_field tcd CSR DMA_CSR_INTHALF_MASK).

(** ** The channel *)

Definition EDMA_InstallTCD (tcd : Z) : M D unit :=
  assert_ (negb (tcd =? 0)) ;; assert_tcd tcd ;;
  x <- rd (TCD tcd SADDR) ;; wr (TCD HW SADDR) x ;;
  x <- rd (TCD tcd SOFF) ;; wr (TCD HW SOFF) x ;;
  x <- rd (TCD tcd ATTR) ;; wr (TCD HW ATTR) x ;;
  x <- rd (TCD tcd NBYTES) ;; wr (TCD HW NBYTES) x ;;
  x <- rd (TCD tcd SLAST) ;; wr (TCD HW SLAST) x ;;
  x <- rd (TCD tcd DADDR) ;; wr (TCD HW DADDR) x ;;
  x <- rd (TCD tcd DOFF) ;; wr (TCD HW DOFF) x ;;
  x <- rd (TCD tcd CITER) ;; wr (TCD HW CITER) x ;;
  x <- rd (TCD tcd DLAST_SGA) ;; wr (TCD HW DLAST_SGA) x ;;
  wr (TCD HW CSR) 0 ;;
  x <- rd (TCD tcd CSR) ;; wr (TCD HW CSR) x ;;
  x <- rd (TCD tcd BITER) ;; wr (TCD HW BITER) x.

(** [enableContinuousLinkMode] is tested twice and [enableDebugMode] never,
    as in the source. *)
Definition EDMA_Init (config : edma_config) : M D unit :=
  wr ERQ 0 ;; wr INT 4294967295 ;; wr ERR 4294967295 ;;
  x <- rd CR ;;
  let tmpreg := bic32 x (Z.lor (Z.lor (Z.lor DMA_CR_ERCA_MASK DMA_CR_HOE_MASK) DMA_CR_CLM_MASK) DMA_CR_EDBG_MASK) in
  wr CR (Z.lor tmpreg (Z.lor (Z.lor (Z.lor (Z.lor
    (if enableRoundRobinArbitration config then DMA_CR_ERCA_MASK else 0)
    (if enableHaltOnError config then DMA_CR_HOE_MASK else 0))
    (if enableContinuousLinkMode config then DMA_CR_CLM_MASK else 0))
    (if enableContinuousLinkMode config then DMA_CR_CLM_MASK else 0)) DMA_CR_EMLM_MASK)).

Definition EDMA_GetDefaultConfig : edma_config := EdmaConfig false true false false.
Definition EDMA_ResetChannel : M D unit := EDMA_TcdReset HW.
Definition EDMA_SetTransferConfig (config : edma_transfer_config) (nextTcd : Z) : M D unit :=
  assert_tcd nextTcd ;; EDMA_TcdSetTransferConfig HW config nextTcd.
Definition EDMA_SetMajorOffsetConfig (sourceOffset destOffset : Z) : M D unit :=
  wr (TCD HW SLAST) (u32 sourceOffset) ;; wr (TCD HW DLAST_SGA) (u32 destOffset).
Definition EDMA_SetChannelLink (channels : Z) (linkType : edma_channel_link_type) (linked : Z) : M D unit :=
  assert_ (linked <? channels) ;; EDMA_TcdSetChannelLink channels HW linkType linked.
Definition EDMA_SetBandWidth (bandWidth : Z) : M D unit :=
  x <- rd (TCD HW CSR) ;; wr (TCD HW CSR) (u16 (Z.lor (bic32 x DMA_CSR_BWC_MASK) (DMA_CSR_BWC bandWidth))).
Definition EDMA_SetModulo (srcModulo destModulo : Z) : M D unit :=
  x <- rd (TCD HW ATTR) ;;
  wr (TCD HW ATTR) (u16 (Z.lor (Z.lor (bic 16 x (Z.lor DMA_ATTR_SMOD_MASK DMA_ATTR_DMOD_MASK))
    (DMA_ATTR_DMOD destModulo)) (DMA_ATTR_SMOD srcModulo))).

(** [kEDMA_ErrorInterruptEnable] is 1. *)
Definition EDMA_EnableChannelInterrupts (mask : Z) : M D unit :=
  when (has mask 1) (set_bits EEI (u32 (Z.shiftl 1 channel))) ;;
  when (has mask DMA_CSR_INTMAJOR_MASK) (or_field HW CSR DMA_CSR_INTMAJOR_MASK) ;;
  when (has mask DMA_CSR_INTHALF_MASK) (or_field HW CSR DMA_CSR_INTHALF_MASK).
Definition EDMA_DisableChannelInterrupts (mask : Z) : M D unit :=
  when (has mask 1) (clear_bits EEI (u32 (Z.shiftl 1 channel))) ;;
  when (has mask DMA_CSR_INTMAJOR_MASK) (bic_field HW CSR DMA_CSR_INTMAJOR_MASK) ;;
  when (has mask DMA_CSR_INTHALF_MASK) (bic_field HW CSR DMA_CSR_INTHALF_MASK).

Definition EDMA_GetRemainingMajorLoopCount : M D Z :=
  csr <- rd (TCD HW CSR) ;;
  if has DMA_CSR_DONE_MASK csr then ret 0 else
  citer <- rd (TCD HW CITER) ;;
  citer' <- rd (TCD HW CITER) ;;
  ret (if has citer DMA_CITER_ELINKNO_ELINK_MASK
       then Z.shiftr (Z.land citer' DMA_CITER_ELINKYES_CITER_MASK) DMA_CITER_ELINKYES_CITER_SHIFT
       else Z.shiftr (Z.land citer' DMA_CITER_ELINKNO_CITER_MASK) DMA_CITER_ELINKNO_CITER_SHIFT).

Definition EDMA_GetChannelStatusFlags : M D Z :=
  csr <- rd (TCD HW CSR) ;;
  err <- rd ERR ;;
  int <- rd INT ;;
  ret (Z.lor (Z.lor (Z.shiftr (Z.land csr DMA_CSR_DONE_MASK) DMA_CSR_DONE_SHIFT)
    (Z.shiftl (Z.land (Z.shiftr err channel) 1) 1)) (Z.shiftl (Z.land (Z.shiftr int channel) 1) 2)).

Definition EDMA_ClearChannelStatusFlags (mask : Z) : M D unit :=
  when (has mask 1) (wr CDNE (u8 channel)) ;;
  when (has mask 2) (wr CERR (u8 channel)) ;;
  when (has mask 4) (wr CINT (u8 channel)).
End Tcd.

(** ** The transactional layer *)

(** The driver call's world: the controller, the handle, and the state of the
    application, which only the callback touches. *)
Record edma_state (D U : Type) := EdmaState { e_hw : D; e_h : edma_handle; e_user : U }.
Arguments EdmaState {D U}. Arguments e_hw {D U}. Arguments e_h {D U}. Arguments e_user {D U}.

Definition with_flags (x : Z) (h : edma_handle) : edma_handle :=
  EdmaHandle (callback h) (tcdPool h) (header h) (tail h) (tcdUsed h) (tcdSize h) x.
Definition with_used (x : Z) (h : edma_handle) : edma_handle :=
  EdmaHandle (callback h) (tcdPool h) (header h) (tail h) x (tcdSize h) (flags h).
Definition with_tail (x : Z) (h : edma_handle) : edma_handle :=
  EdmaHandle (callback h) (tcdPool h) (header h) x (tcdUsed h) (tcdSize h) (flags h).
Definition with_header (x : Z) (h : edma_handle) : edma_handle :=
  EdmaHandle (callback h) (tcdPool h) x (tail h) (tcdUsed h) (tcdSize h) (flags h).

Section Transactional.
Context {D U : Type} `{!Device edma_reg D} {F : EdmaFields}.
Abbreviation state := (edma_state D U).

Definition on_hw {A} (m : M D A) : M state A :=
  fun s => match m (e_hw s) with
  | Ok (a, d) => Ok (a, EdmaState d (e_h s) (e_user s))
  | Err e => Err e
  end.
Definition handle : M state edma_handle := gets e_h.
Definition set_h (f : edma_handle -> edma_handle) : M state unit :=
  modify (fun s => EdmaState (e_hw s) (f (e_h s)) (e_user s)).

(** [sizeof(edma_tcd_t)], and [&handle->tcdPool[i]] for an [int8_t] index. *)
Definition sizeof_tcd : Z := 32.
Definition slot (h : edma_handle) (i : Z) : Z := u32 (tcdPool h + i * sizeof_tcd).

(** [memset] of the handle, then the channel's TCD is zeroed, [CSR] included.
    The handle table and the interrupt controller are left out. *)
Definition EDMA_CreateHandle : M state unit :=
  set_h (fun _ => EdmaHandle false 0 0 0 0 0 0) ;;
  on_hw (
    wr (TCD HW SADDR) 0 ;; wr (TCD HW SOFF) 0 ;; wr (TCD HW ATTR) 0 ;; wr (TCD HW NBYTES) 0 ;;
    wr (TCD HW SLAST) 0 ;; wr (TCD HW DADDR) 0 ;; wr (TCD HW DOFF) 0 ;; wr (TCD HW CITER) 0 ;;
    wr (TCD HW DLAST_SGA) 0 ;; wr (TCD HW CSR) 0 ;; wr (TCD HW BITER) 0).

Definition EDMA_InstallTCDMemory (tcdPool tcdSize : Z) : M state unit :=
  assert_ (Z.land tcdPool 0x1F =? 0) ;;
  set_h (fun h => EdmaHandle (callback h) tcdPool 0 (tail h) 0 (i8 tcdSize) 0).

Definition EDMA_SetCallback (cb : bool) : M state unit :=
  set_h (fun h => EdmaHandle cb (tcdPool h) (header h) (tail h) (tcdUsed h) (tcdSize h) (flags h)).

(** [EDMA_GetUnusedTCDNumber], [EDMA_GetNextTCDAddress] *)
Definition EDMA_GetUnusedTCDNumber (h : edma_handle) : Z := u32 (u32 (tcdSize h) - u32 (tcdUsed h)).
Definition EDMA_GetNextTCDAddress : M state Z := on_hw (rd (TCD HW DLAST_SGA)).

(** The switch of [EDMA_TransferWidthMapping]. *)
Definition EDMA_TransferWidthMapping (width : Z) : outcome Z :=
  if width =? 1 then Ok 0 else if width =? 2 then Ok 1 else if width =? 4 then Ok 2 else
  if (width =? 8) && FSL_FEATURE_EDMA_SUPPORT_8_BYTES_TRANSFER then Ok 3 else
  if (width =? 16) && FSL_FEATURE_EDMA_SUPPORT_16_BYTES_TRANSFER then Ok 4 else
  if width =? 32 then Ok 5 else Err AssertFailed.

Definition check (b : bool) : outcome unit := if b then Ok tt else Err AssertFailed.
Definition umod (a b : Z) : outcome Z := if b =? 0 then Err DivByZero else Ok (a mod b).

Definition EDMA_PrepareTransferConfig (srcAddr srcWidth srcOffset destAddr destWidth destOffset
    bytesEachRequest transferBytes : Z) : outcome edma_transfer_config :=
  _ <-! check (negb (srcAddr =? 0)) ;;
  _ <-! check (negb (destAddr =? 0)) ;;
  _ <-! check (negb (srcWidth =? 0) && (srcWidth <=? 32) && (Z.land srcWidth (u32 (srcWidth - 1)) =? 0)) ;;
  _ <-! check (negb (destWidth =? 0) && (destWidth <=? 32) && (Z.land destWidth (u32 (destWidth - 1)) =? 0)) ;;
  r <-! umod transferBytes bytesEachRequest ;;
  _ <-! check (r =? 0) ;;
  _ <-! check (srcAddr mod srcWidth =? 0) ;;
  _ <-! check (destAddr mod destWidth =? 0) ;;
  majorLoopCounts <-! udiv transferBytes bytesEachRequest ;;
  srcTransferSize <-! EDMA_TransferWidthMapping srcWidth ;;
  destTransferSize <-! EDMA_TransferWidthMapping destWidth ;;
  Ok (TransferConfig srcAddr destAddr srcTransferSize destTransferSize srcOffset destOffset
        bytesEachRequest majorLoopCounts).

Definition EDMA_PrepareTransfer (srcAddr srcWidth destAddr destWidth bytesEachRequest transferBytes : Z)
    (transferType : edma_transfer_type) : outcome edma_transfer_config :=
  let destOffset := match transferType with
    | kEDMA_MemoryToMemory | kEDMA_PeripheralToMemory => i16 destWidth | _ => 0 end in
  let srcOffset := match transferType with
    | kEDMA_MemoryToMemory | kEDMA_MemoryToPeripheral => i16 srcWidth | _ => 0 end in
  EDMA_PrepareTransferConfig srcAddr srcWidth srcOffset destAddr destWidth destOffset
    bytesEachRequest transferBytes.

(** The branch of [EDMA_SubmitTransfer] without a descriptor queue. *)
Definition submit_single (config : edma_transfer_config) : M state status_t :=
  csr <- on_hw (rd (TCD HW CSR)) ;;
  busy <- (if has csr DMA_CSR_ACTIVE_MASK then ret true else
    citer <- on_hw (rd (TCD HW CITER)) ;;
    biter <- on_hw (rd (TCD HW BITER)) ;;
    ret (negb (Z.land citer DMA_CITER_ELINKNO_CITER_MASK =? Z.land biter DMA_BITER_ELINKNO_BITER_MASK))) ;;
  if busy : bool then ret kStatus_EDMA_Busy else
  on_hw (EDMA_SetTransferConfig config 0 ;;
         or_field HW CSR DMA_CSR_DREQ_MASK ;;
         or_field HW CSR DMA_CSR_INTMAJOR_MASK) ;;
  ret kStatus_Success.

(** The end of the queue branch: no live chain, the descriptor goes into the
    channel's registers. *)
Definition submit_install (currentTcd : Z) : M state status_t :=
  h <- handle ;;
  on_hw (EDMA_InstallTCD (slot h currentTcd)) ;;
  h <- handle ;;
  when (has (flags h) EDMA_TRANSFER_ENABLED_MASK) (on_hw (wr SERQ channel)) ;;
  ret kStatus_Success.

(** The new descriptor is linked behind the previous one: in memory, and in
    the channel's registers when the previous one is loaded there. *)
Definition submit_link (currentTcd previousTcd nextTcd : Z) : M state status_t :=
  h <- handle ;;
  x <- on_hw (rd (TCD (slot h previousTcd) CSR)) ;;
  let csr := bic 16 (Z.lor x DMA_CSR_ESG_MASK) DMA_CSR_DREQ_MASK in
  on_hw (wr (TCD (slot h previousTcd) CSR) csr) ;;
  sga <- on_hw (rd (TCD HW DLAST_SGA)) ;;
  if sga =? slot h currentTcd then
    on_hw (or_field HW CSR DMA_CSR_DREQ_MASK) ;;
    x <- on_hw (rd (TCD HW CSR)) ;;
    on_hw (wr (TCD HW CSR) (Z.lor x DMA_CSR_ESG_MASK)) ;;
    x <- on_hw (rd (TCD HW CSR)) ;;
    if has x DMA_CSR_ESG_MASK then
      on_hw (bic_field HW CSR DMA_CSR_DREQ_MASK) ;;
      ret kStatus_Success
    else
      sga <- on_hw (rd (TCD HW DLAST_SGA)) ;;
      if sga =? slot h nextTcd then ret kStatus_Success else submit_install currentTcd
  else
    sga <- on_hw (rd (TCD HW DLAST_SGA)) ;;
    if negb (sga =? 0) then ret kStatus_Success else submit_install currentTcd.

Definition EDMA_SubmitTransfer (config : edma_transfer_config) : M state status_t :=
  h <- handle ;;
  if tcdPool h =? 0 then submit_single config else
  if tcdSize h <=? tcdUsed h then ret kStatus_EDMA_QueueFull else
  let currentTcd := tail h in
  set_h (with_used (i8 (tcdUsed h + 1))) ;;
  let nextTcd := i8 (currentTcd + 1) in
  let nextTcd := if nextTcd =? tcdSize h then 0 else nextTcd in
  set_h (with_tail nextTcd) ;;
  let previousTcd := if negb (currentTcd =? 0) then i8 (currentTcd - 1) else i8 (tcdSize h - 1) in
  on_hw (EDMA_TcdReset (slot h currentTcd)) ;;
  on_hw (EDMA_TcdSetTransferConfig (slot h currentTcd) config 0) ;;
  on_hw (or_field (slot h currentTcd) CSR DMA_CSR_INTMAJOR_MASK) ;;
  on_hw (wr (TCD (slot h currentTcd) DLAST_SGA) (slot h nextTcd)) ;;
  if negb (currentTcd =? previousTcd) then submit_link currentTcd previousTcd nextTcd
  else submit_install currentTcd.

Definition EDMA_StartTransfer : M state unit :=
  h <- handle ;;
  if tcdPool h =? 0 then on_hw (wr SERQ channel) else
  set_h (with_flags (Z.lor (flags h) EDMA_TRANSFER_ENABLED_MASK)) ;;
  sga <- on_hw (rd (TCD HW DLAST_SGA)) ;;
  when (negb (sga =? 0)) (
    erq <- on_hw (rd ERQ) ;;
    when (negb (has erq (u32 (Z.shiftl 1 channel)))) (
      tmpCSR <- on_hw (rd (TCD HW CSR)) ;;
      when (negb (has tmpCSR DMA_CSR_DONE_MASK) || has tmpCSR DMA_CSR_ESG_MASK) (on_hw (wr SERQ channel)))).

Definition EDMA_StopTransfer : M state unit :=
  h <- handle ;;
  set_h (with_flags (bic 8 (flags h) EDMA_TRANSFER_ENABLED_MASK)) ;;
  on_hw (wr CERQ channel).

Definition EDMA_AbortTransfer : M state unit :=
  on_hw (wr CERQ channel ;; wr (TCD HW CSR) 0 ;; wr (TCD HW DLAST_SGA) 0 ;;
         wr (TCD HW CITER) 0 ;; wr (TCD HW BITER) 0) ;;
  h <- handle ;;
  when (negb (tcdPool h =? 0)) (
    set_h (with_header 0) ;; set_h (with_tail 0) ;; set_h (with_used 0)).

Context (user_callback : bool -> Z -> M state unit).

Definition EDMA_HandleIRQ : M state unit :=
  on_hw (wr CINT channel) ;;
  csr <- on_hw (rd (TCD HW CSR)) ;;
  let transfer_done := has csr DMA_CSR_DONE_MASK in
  h <- handle ;;
  if tcdPool h =? 0 then when (callback h) (user_callback transfer_done 0) else
  sga <- on_hw (rd (TCD HW DLAST_SGA)) ;;
  csr <- on_hw (rd (TCD HW CSR)) ;;
  let esg := has csr DMA_CSR_ESG_MASK in
  let sga := u32 (sga - tcdPool h) in
  let sga_index := sga / sizeof_tcd in
  let new_header := if negb (sga_index =? 0) then u8 (u8 sga_index - 1) else u8 (u8 (tcdSize h) - 1) in
  tcds_done <-
    (if new_header =? u8 (header h) then
       ret (if ((tcdUsed h =? tcdSize h) || negb esg) && transfer_done then tcdUsed h else 0)
     else
       let n := new_header - header h in
       let n := if n <? 0 then n + tcdSize h else n in
       when transfer_done (on_hw (wr CDNE channel)) ;;
       ret n) ;;
  set_h (with_header (i8 new_header)) ;;
  set_h (fun h => with_used (i8 (tcdUsed h - i8 tcds_done)) h) ;;
  h <- handle ;;
  when (callback h) (user_callback transfer_done (u32 tcds_done)) ;;
  when transfer_done (
    csr <- on_hw (rd (TCD HW CSR)) ;;
    when (has csr DMA_CSR_ESG_MASK) (on_hw (wr CDNE channel))).
End Transactional.
