(* ===== verification/EdmaQueue.v ===== *)
(** * The eDMA transfer queue

    What the circular descriptor queue promises while the engine runs.  The
    engine is the documented hardware: a channel executes the descriptor in
    its registers; on completion it raises the interrupt, and either fetches
    the next descriptor from memory (ESG) or, with DREQ, disables its request.
    The DONE bit stays until the channel starts again or software clears it,
    and while it is set ESG cannot be written. *)

From stdpp Require Import base list numbers tactics relations.
From Stdlib Require Import ZArith Lia.
From S2P Require Import Prelude Mmio Edma.

Open Scope Z_scope.
Open Scope prog_scope.

(** ** The documented controller *)

(** What a descriptor makes the engine do. *)
Record descr := Descr {
  x_saddr : Z; x_daddr : Z; x_attr : Z; x_soff : Z; x_doff : Z; x_nbytes : Z; x_slast : Z; x_count : Z
}.
Definition descr_of (t : tcd_field -> Z) : descr :=
  Descr (t SADDR) (t DADDR) (t ATTR) (t SOFF) (t DOFF) (t NBYTES) (t SLAST) (t CITER).

(** The descriptors in memory and in the channel ([HW]), the request enable,
    the pending interrupt, and the transfers executed so far. *)
Record eview := EView { mem : Z -> tcd_field -> Z; erq : bool; irq : bool; ran : list descr }.

Definition fidx (f : tcd_field) : nat :=
  match f with SADDR => 0 | SOFF => 1 | ATTR => 2 | NBYTES => 3 | SLAST => 4 | DADDR => 5 | DOFF => 6
  | CITER => 7 | DLAST_SGA => 8 | CSR => 9 | BITER => 10 end.
Definition feq (f g : tcd_field) : bool := (fidx f =? fidx g)%nat.
Definition upd_mem (m : Z -> tcd_field -> Z) (a : Z) (f : tcd_field) (x : Z) : Z -> tcd_field -> Z :=
  fun b g => if (b =? a) && feq f g then x else m b g.

Section View.
Context {F : EdmaFields}.

(** ESG is forced to zero by a write to the channel's CSR while DONE is set. *)
Definition csr_write (old x : Z) : Z := if has old DMA_CSR_DONE_MASK then bic 16 x DMA_CSR_ESG_MASK else x.

Definition v_write (r : edma_reg) (x : Z) (v : eview) : eview :=
  match r with
  | TCD a f =>
      let x := if (a =? HW) && feq f CSR then csr_write (mem v HW CSR) x else x in
      EView (upd_mem (mem v) a f x) (erq v) (irq v) (ran v)
  | SERQ => EView (mem v) (if x =? channel then true else erq v) (irq v) (ran v)
  | CERQ => EView (mem v) (if x =? channel then false else erq v) (irq v) (ran v)
  | CINT => EView (mem v) (erq v) (if x =? channel then false else irq v) (ran v)
  | CDNE => EView (if x =? channel then upd_mem (mem v) HW CSR (bic 16 (mem v HW CSR) DMA_CSR_DONE_MASK)
                   else mem v) (erq v) (irq v) (ran v)
  | _ => v
  end.

Definition clear_done (v : eview) : eview := v_write CDNE channel v.

(** One move of the engine: the channel starts, or its major loop completes. *)
Inductive engine (v : eview) : eview -> Prop :=
  | engine_start : erq v = true -> engine v (clear_done v)
  | engine_chain m' :
      erq v = true -> has (mem v HW CSR) DMA_CSR_DONE_MASK = false -> has (mem v HW CSR) DMA_CSR_ESG_MASK = true ->
      (forall a f, a <> HW -> m' a f = mem v a f) ->
      (forall f, f <> CSR -> m' HW f = mem v (mem v HW DLAST_SGA) f) ->
      m' HW CSR = Z.lor (mem v (mem v HW DLAST_SGA) CSR) DMA_CSR_DONE_MASK ->
      engine v (EView m' true (irq v || has (mem v HW CSR) DMA_CSR_INTMAJOR_MASK) (ran v ++ [descr_of (mem v HW)]))
  | engine_last m' :
      erq v = true -> has (mem v HW CSR) DMA_CSR_DONE_MASK = false -> has (mem v HW CSR) DMA_CSR_ESG_MASK = false ->
      (forall a f, a <> HW -> m' a f = mem v a f) ->
      m' HW DLAST_SGA = mem v HW DLAST_SGA ->
      m' HW CSR = Z.lor (mem v HW CSR) DMA_CSR_DONE_MASK ->
      engine v (EView m' (negb (has (mem v HW CSR) DMA_CSR_DREQ_MASK))
        (irq v || has (mem v HW CSR) DMA_CSR_INTMAJOR_MASK) (ran v ++ [descr_of (mem v HW)])).

Class EdmaMasks := {
  dreq_ok : 0 < DMA_CSR_DREQ_MASK < 2 ^ 16; esg_ok : 0 < DMA_CSR_ESG_MASK < 2 ^ 16;
  int_ok : 0 < DMA_CSR_INTMAJOR_MASK < 2 ^ 16; done_ok : 0 < DMA_CSR_DONE_MASK < 2 ^ 16;
  dreq_esg : Z.land DMA_CSR_DREQ_MASK DMA_CSR_ESG_MASK = 0; dreq_int : Z.land DMA_CSR_DREQ_MASK DMA_CSR_INTMAJOR_MASK = 0;
  dreq_done : Z.land DMA_CSR_DREQ_MASK DMA_CSR_DONE_MASK = 0; esg_int : Z.land DMA_CSR_ESG_MASK DMA_CSR_INTMAJOR_MASK = 0;
  esg_done : Z.land DMA_CSR_ESG_MASK DMA_CSR_DONE_MASK = 0; int_done : Z.land DMA_CSR_INTMAJOR_MASK DMA_CSR_DONE_MASK = 0
}.

(** The controller as the driver sees it when the engine does not move
    during the call. *)
Class EdmaLaws (D : Type) `{!Device edma_reg D} := {
  dview : D -> eview;
  read_tcd a f d : reg_read (TCD a f) d = (mem (dview d) a f, d);
  read_erq d : exists x, reg_read ERQ d = (x, d) /\ has x (u32 (Z.shiftl 1 channel)) = erq (dview d);
  write_ok r x d : dview (reg_write r x d) = v_write r x (dview d)
}.
End View.

(** ** Memory lemmas *)

Lemma feq_refl f : feq f f = true.
Proof. by destruct f. Qed.
Lemma feq_true f g : feq f g = true -> f = g.
Proof. by destruct f, g. Qed.

Lemma upd_mem_ne m a f x b g : b <> a \/ f <> g -> upd_mem m a f x b g = m b g.
Proof.
  intros H. unfold upd_mem. destruct (Z.eqb_spec b a) as [->|]; [|done]. cbn [andb].
  destruct (feq f g) eqn:E; [|done]. apply feq_true in E. destruct H; congruence.
Qed.
Lemma upd_mem_eq m a f x : upd_mem m a f x a f = x.
Proof. unfold upd_mem. by rewrite Z.eqb_refl, feq_refl. Qed.

Lemma bic_0 w m : bic w 0 m = 0.
Proof. unfold bic. apply Z.land_0_l. Qed.
Lemma has_0 m : has 0 m = false.
Proof. unfold has. by rewrite Z.land_0_l. Qed.
Lemma bic_none w x m : 0 <= x < 2 ^ w -> 0 <= w -> has x m = false -> bic w x m = x.
Proof.
  intros Hx Hw. unfold has, bic. rewrite negb_false_iff, Z.eqb_eq. intros H. apply Z.bits_inj'. intros i Hi.
  rewrite Z.land_spec. destruct (Z.lt_ge_cases i w).
  - rewrite wrap_testbit, Z.lnot_spec by lia.
    assert (Z.testbit x i && Z.testbit m i = false) as E by by rewrite <- Z.land_spec, H, Z.bits_0.
    by destruct (Z.testbit x i), (Z.testbit m i).
  - rewrite (testbit_above x w) by lia. done.
Qed.

Lemma csr_write_0 `{EdmaFields} old : csr_write old 0 = 0.
Proof. unfold csr_write. rewrite bic_0. by case_match. Qed.
Lemma csr_write_from0 `{EdmaFields} x : csr_write 0 x = x.
Proof. unfold csr_write. by rewrite has_0. Qed.

Section Laws.
Context {D : Type} `{HD : !Device edma_reg D} {F : EdmaFields} {HM : EdmaMasks} {HL : EdmaLaws D}.

Lemma bind_rd_tcd {A} a f (k : Z -> M D A) d : bind (rd (TCD a f)) k d = k (mem (dview d) a f) d.
Proof. by rewrite bind_rd, read_tcd. Qed.

Lemma rd_tcd a f d : rd (TCD a f) d = Ok (mem (dview d) a f, d).
Proof. unfold rd. by rewrite read_tcd. Qed.

(** Reading back through a write. *)
Lemma mem_wr a f x d b g : (a <> HW \/ f <> CSR) ->
  mem (dview (reg_write (TCD a f) x d)) b g = upd_mem (mem (dview d)) a f x b g.
Proof.
  intros H. rewrite write_ok. cbn [v_write mem]. destruct (Z.eqb_spec a HW) as [->|]; [|done].
  destruct (feq f CSR) eqn:E; [|done]. apply feq_true in E. destruct H; congruence.
Qed.

Lemma mem_wr_csr x d b g :
  mem (dview (reg_write (TCD HW CSR) x d)) b g =
  upd_mem (mem (dview d)) HW CSR (csr_write (mem (dview d) HW CSR) x) b g.
Proof. rewrite write_ok. cbn [v_write mem]. by rewrite Z.eqb_refl. Qed.

Lemma mem_wr_csr_other x d b g : b <> HW \/ g <> CSR ->
  mem (dview (reg_write (TCD HW CSR) x d)) b g = mem (dview d) b g.
Proof. intros H. rewrite mem_wr_csr. apply upd_mem_ne. destruct H; [by left|right; congruence]. Qed.

Lemma mem_wr_other a f x d b g : b <> a -> mem (dview (reg_write (TCD a f) x d)) b g = mem (dview d) b g.
Proof. intros H. rewrite write_ok. cbn [v_write mem]. apply upd_mem_ne. by left. Qed.

Lemma mem_wr_same a f x d : (a <> HW \/ f <> CSR) -> mem (dview (reg_write (TCD a f) x d)) a f = x.
Proof. intros H. rewrite mem_wr by done. apply upd_mem_eq. Qed.

Lemma mem_wr_field a f x d b g : f <> g -> mem (dview (reg_write (TCD a f) x d)) b g = mem (dview d) b g.
Proof. intros H. rewrite write_ok. cbn [v_write mem]. apply upd_mem_ne. by right. Qed.

(** A write to a descriptor touches neither request, interrupt nor log. *)
Definition ctl (v : eview) : bool * bool * list descr := (erq v, irq v, ran v).
Lemma ctl_wr a f x d : ctl (dview (reg_write (TCD a f) x d)) = ctl (dview d).
Proof. by rewrite write_ok. Qed.

End Laws.

(** [mem_ev] evaluates a field of a descriptor after writes to descriptors
    in memory. *)
Ltac mem_ev := repeat first
  [ rewrite mem_wr_same by solve [left; done | right; done] | rewrite mem_wr_field by done | rewrite mem_wr_other by done ].

Section Ops.
Context {D : Type} `{HD : !Device edma_reg D} {F : EdmaFields} {HM : EdmaMasks} {HL : EdmaLaws D}.

Lemma bind_assert {A} (b : bool) (k : unit -> M D A) d : b = true -> bind (assert_ b) k d = k tt d.
Proof. by intros ->. Qed.

(** The descriptor of a configuration. *)
Definition descr_of_config (c : edma_transfer_config) : descr :=
  Descr (srcAddr c) (destAddr c)
    (Z.lor (DMA_ATTR_SSIZE (srcTransferSize c)) (DMA_ATTR_DSIZE (destTransferSize c)))
    (u16 (srcOffset c)) (u16 (destOffset c)) (minorLoopBytes c) 0 (u16 (majorLoopCounts c)).

Definition config_ok (c : edma_transfer_config) : Prop :=
  srcAddr c mod u32 (Z.shiftl 1 (srcTransferSize c)) = 0 /\ destAddr c mod u32 (Z.shiftl 1 (destTransferSize c)) = 0.

Definition tcd_addr (a : Z) : Prop := a <> 0 /\ Z.land a 0x1F = 0.

Lemma tcd_addr_tests a : tcd_addr a -> negb (a =? 0) = true /\ (Z.land a 0x1F =? 0) = true.
Proof. intros [? ?]. split; [|by apply Z.eqb_eq]. by rewrite negb_true_iff, Z.eqb_neq. Qed.

Lemma TcdReset_ok a d : tcd_addr a -> a <> HW ->
  exists d', EDMA_TcdReset a d = Ok (tt, d') /\ ctl (dview d') = ctl (dview d) /\
    (forall b g, b <> a -> mem (dview d') b g = mem (dview d) b g) /\
    (forall g, mem (dview d') a g = if feq g CSR then DMA_CSR_DREQ_MASK else 0).
Proof.
  intros Ha Hne. destruct (tcd_addr_tests a Ha) as [E1 E2]. unfold EDMA_TcdReset, assert_tcd.
  rewrite !bind_assert by done. rewrite !bind_wr. eexists. split; [reflexivity|].
  split; [by rewrite !ctl_wr|]. split; [intros b g Hb; by mem_ev|].
  intros g. destruct g; by mem_ev.
Qed.

Lemma TcdSetTransferConfig_ok a c d : tcd_addr a -> a <> HW -> config_ok c ->
  exists d', EDMA_TcdSetTransferConfig a c 0 d = Ok (tt, d') /\ ctl (dview d') = ctl (dview d) /\
    (forall b g, b <> a -> mem (dview d') b g = mem (dview d) b g) /\
    (mem (dview d) a SLAST = 0 -> descr_of (mem (dview d') a) = descr_of_config c) /\
    mem (dview d') a CSR = mem (dview d) a CSR.
Proof.
  intros Ha Hne [Hs Hd]. destruct (tcd_addr_tests a Ha) as [E1 E2]. unfold EDMA_TcdSetTransferConfig, assert_tcd.
  rewrite !bind_assert by (done || by apply Z.eqb_eq). rewrite !bind_wr. eexists. split; [reflexivity|].
  split; [by rewrite !ctl_wr|]. split; [intros b g Hb; by mem_ev|]. split; [|by mem_ev].
  intros Hsl. unfold descr_of, descr_of_config. mem_ev. by rewrite Hsl.
Qed.

Lemma or_field_ok a f v d : a <> HW \/ f <> CSR ->
  exists d', or_field a f v d = Ok (tt, d') /\ ctl (dview d') = ctl (dview d) /\
    (forall b g, (b <> a \/ g <> f) -> mem (dview d') b g = mem (dview d) b g) /\
    mem (dview d') a f = Z.lor (mem (dview d) a f) v.
Proof.
  intros Ha. unfold or_field. rewrite bind_rd_tcd. eexists. split; [reflexivity|].
  split; [apply ctl_wr|]. split; [intros b g Hb; rewrite mem_wr by done; apply upd_mem_ne; destruct Hb as [? | ?]; [left|right]; congruence|].
  by rewrite mem_wr_same.
Qed.

(** A descriptor ready in its slot, not yet linked to a successor. *)
Lemma prepare_ok a c next d : tcd_addr a -> a <> HW -> config_ok c ->
  exists d1 d2 d3, EDMA_TcdReset a d = Ok (tt, d1) /\ EDMA_TcdSetTransferConfig a c 0 d1 = Ok (tt, d2) /\
    or_field a CSR DMA_CSR_INTMAJOR_MASK d2 = Ok (tt, d3) /\
    let d4 := reg_write (TCD a DLAST_SGA) next d3 in
    ctl (dview d4) = ctl (dview d) /\
    (forall b g, b <> a -> mem (dview d4) b g = mem (dview d) b g) /\
    descr_of (mem (dview d4) a) = descr_of_config c /\ mem (dview d4) a DLAST_SGA = next /\
    mem (dview d4) a CSR = Z.lor DMA_CSR_DREQ_MASK DMA_CSR_INTMAJOR_MASK.
Proof.
  intros Ha Hne Hc. destruct (TcdReset_ok a d Ha Hne) as (d1 & E1 & C1 & O1 & S1).
  destruct (TcdSetTransferConfig_ok a c d1 Ha Hne Hc) as (d2 & E2 & C2 & O2 & S2 & K2).
  destruct (or_field_ok a CSR DMA_CSR_INTMAJOR_MASK d2 ltac:(by left)) as (d3 & E3 & C3 & O3 & K3).
  exists d1, d2, d3. split; [done|]. split; [done|]. split; [done|]. cbv zeta.
  split; [by rewrite ctl_wr, C3, C2, C1|].
  split; [intros b g Hb; rewrite mem_wr_other by done; rewrite O3 by (by left); by rewrite O2, O1|].
  split.
  - rewrite <- S2 by (rewrite S1; done). unfold descr_of. mem_ev. by rewrite !O3 by (by right).
  - split; [by mem_ev|]. mem_ev. by rewrite K3, K2, S1.
Qed.

(** [EDMA_InstallTCD] copies a descriptor into the channel. *)
Lemma InstallTCD_ok a d : tcd_addr a -> a <> HW ->
  exists d', EDMA_InstallTCD a d = Ok (tt, d') /\ ctl (dview d') = ctl (dview d) /\
    (forall b g, b <> HW -> mem (dview d') b g = mem (dview d) b g) /\
    (forall g, mem (dview d') HW g = mem (dview d) a g).
Proof.
  intros Ha Hne. destruct (tcd_addr_tests a Ha) as [E1 E2]. unfold EDMA_InstallTCD, assert_tcd.
  rewrite !bind_assert by done. repeat (rewrite bind_rd_tcd || rewrite bind_wr).
  eexists. split; [reflexivity|].
  split; [by rewrite !ctl_wr|]. split; [intros b g Hb; by mem_ev|].
  intros g. destruct g; mem_ev; try done.
  rewrite mem_wr_csr, upd_mem_eq. mem_ev. rewrite mem_wr_csr, upd_mem_eq, csr_write_0, csr_write_from0. by mem_ev.
Qed.
End Ops.

(** ** Slots of the pool *)

Definition pool_ok `{EdmaFields} (P N : Z) : Prop :=
  2 <= N <= 127 /\ 0 < P /\ Z.land P 0x1F = 0 /\ P + 32 * N <= 2 ^ 32 /\
  forall i, 0 <= i < N -> P + 32 * i <> HW.

(** The address of the slot of the [i]-th transfer. *)
Definition at_ (P N : Z) (i : nat) : Z := P + 32 * (Z.of_nat i mod N).

Section Slots.
Context `{F : EdmaFields} (P N : Z) (HP : pool_ok P N).

Lemma N_pos : 0 < N. Proof. destruct HP; lia. Qed.

Lemma mod_bound i : 0 <= Z.of_nat i mod N < N.
Proof. apply Z.mod_pos_bound, N_pos. Qed.

Lemma at_inj i j : (i < j)%nat -> Z.of_nat j < Z.of_nat i + N -> at_ P N i <> at_ P N j.
Proof.
  intros Hij Hj E. pose proof N_pos. unfold at_ in E.
  assert (Z.of_nat i mod N = Z.of_nat j mod N) as E' by lia.
  pose proof (Z.div_mod (Z.of_nat i) N ltac:(lia)). pose proof (Z.div_mod (Z.of_nat j) N ltac:(lia)).
  assert (Z.of_nat j - Z.of_nat i = N * (Z.of_nat j / N - Z.of_nat i / N)) by nia.
  assert (0 < Z.of_nat j / N - Z.of_nat i / N < 1); [|lia]. split; nia.
Qed.

Lemma slot_at h i : tcdPool h = P -> slot h (Z.of_nat i mod N) = at_ P N i.
Proof.
  intros E. unfold slot, at_, sizeof_tcd. rewrite E. pose proof (mod_bound i).
  destruct HP as (? & ? & ? & ? & ?). rewrite wrap_small by lia. lia.
Qed.

Lemma at_addr i : tcd_addr (at_ P N i) /\ at_ P N i <> HW /\ 0 < at_ P N i < 2 ^ 32.
Proof.
  pose proof (mod_bound i). destruct HP as (HN & HP0 & Hal & Hend & Hhw). unfold at_. split; [|split].
  - split; [lia|]. change 0x1F with (Z.ones 5) in *. rewrite Z.land_ones in * by lia.
    replace (P + 32 * (Z.of_nat i mod N)) with (P + (Z.of_nat i mod N) * 2 ^ 5) by lia.
    rewrite Z.mod_add by lia. done.
  - apply Hhw. lia.
  - lia.
Qed.

Lemma next_slot i :
  (let x := i8 (Z.of_nat i mod N + 1) in if x =? N then 0 else x) = Z.of_nat (S i) mod N.
Proof.
  pose proof (mod_bound i). destruct HP as (HN & _). cbv zeta. unfold i8.
  rewrite (Z.mod_small (Z.of_nat i mod N + 1 + 128)) by lia.
  replace (Z.of_nat i mod N + 1 + 128 - 128) with (Z.of_nat i mod N + 1) by lia.
  replace (Z.of_nat (S i)) with (Z.of_nat i + 1) by lia.
  rewrite <- (Z.add_mod_idemp_l (Z.of_nat i)) by lia.
  destruct (Z.eqb_spec (Z.of_nat i mod N + 1) N) as [E|E].
  - rewrite E. by rewrite Z.mod_same by lia.
  - by rewrite (Z.mod_small (Z.of_nat i mod N + 1)) by lia.
Qed.

Lemma prev_slot i :
  (if negb (Z.of_nat i mod N =? 0) then i8 (Z.of_nat i mod N - 1) else i8 (N - 1)) = (Z.of_nat i - 1) mod N.
Proof.
  pose proof (mod_bound i). destruct HP as (HN & _). unfold i8.
  rewrite <- (Zminus_mod_idemp_l (Z.of_nat i)).
  destruct (Z.eqb_spec (Z.of_nat i mod N) 0) as [E|E]; cbn [negb].
  - rewrite E, (Z.mod_small (N - 1 + 128)) by lia. change (0 - 1) with (-1).
    rewrite <- (Z.mod_add (-1) 1 N), Z.mod_small by lia. lia.
  - rewrite (Z.mod_small (Z.of_nat i mod N - 1 + 128)), (Z.mod_small (Z.of_nat i mod N - 1)) by lia. lia.
Qed.

Lemma prev_ne i : (Z.of_nat i mod N =? (Z.of_nat i - 1) mod N) = false.
Proof.
  apply Z.eqb_neq. intros E. destruct HP as (HN & _).
  pose proof (Z.div_mod (Z.of_nat i) N ltac:(lia)). pose proof (Z.div_mod (Z.of_nat i - 1) N ltac:(lia)).
  assert (1 = N * (Z.of_nat i / N - (Z.of_nat i - 1) / N)) by nia.
  assert (0 < Z.of_nat i / N - (Z.of_nat i - 1) / N) by nia. nia.
Qed.

Lemma slot_prev h i : tcdPool h = P -> exists p, slot h ((Z.of_nat i - 1) mod N) = at_ P N p /\
  (i <> 0%nat -> p = pred i) /\ at_ P N p <> at_ P N i.
Proof.
  intros E. destruct i as [|i].
  - exists (Z.to_nat (N - 1)). destruct HP as (HN & _). split; [|split; [done|]].
    + rewrite <- slot_at with (h := h) by done. f_equal. rewrite Z2Nat.id by lia.
      rewrite <- (Z.mod_add _ 1) by lia. f_equal. lia.
    + apply not_eq_sym, at_inj; lia.
  - exists i. split; [|split; [done|]].
    + replace (Z.of_nat (S i) - 1) with (Z.of_nat i) by lia. by apply slot_at.
    + destruct HP as (HN & _). apply at_inj; lia.
Qed.
End Slots.

(** ** Control words *)

Section Csr.
Context `{F : EdmaFields} {HM : EdmaMasks}.

(** A control word of the queue: interrupt at the end; linked to a successor,
    or stopping; with or without DONE. *)
Definition csr_is (x : Z) (linked done : bool) : Prop :=
  has x DMA_CSR_INTMAJOR_MASK = true /\ has x DMA_CSR_ESG_MASK = linked /\
  has x DMA_CSR_DREQ_MASK = negb linked /\ has x DMA_CSR_DONE_MASK = done.

Ltac masks := pose proof dreq_ok; pose proof esg_ok; pose proof int_ok; pose proof done_ok;
  pose proof dreq_esg; pose proof dreq_int; pose proof dreq_done; pose proof esg_int; pose proof esg_done;
  pose proof int_done.

(** [disj] proves that two of the masks are disjoint, in either order. *)
Ltac disj := first [assumption | rewrite Z.land_comm; assumption].

Lemma csr_fresh : csr_is (Z.lor DMA_CSR_DREQ_MASK DMA_CSR_INTMAJOR_MASK) false false.
Proof.
  masks. repeat split.
  - apply has_lor; lia.
  - apply has_lor_other; [|disj]. unfold has. by rewrite dreq_esg.
  - rewrite Z.lor_comm. apply has_lor; lia.
  - apply has_lor_other; [|disj]. unfold has. by rewrite dreq_done.
Qed.

Lemma csr_or_dreq x b : csr_is x false b -> csr_is (Z.lor x DMA_CSR_DREQ_MASK) false b.
Proof.
  intros (H1 & H2 & H3 & H4). masks. repeat split.
  - by rewrite has_lor_keep by disj.
  - by rewrite has_lor_keep by disj.
  - apply has_lor; lia.
  - by rewrite has_lor_keep by disj.
Qed.

Lemma csr_link x b : csr_is x false b ->
  csr_is (bic 16 (Z.lor x DMA_CSR_ESG_MASK) DMA_CSR_DREQ_MASK) true b.
Proof.
  intros (H1 & H2 & H3 & H4). masks. repeat split.
  - by rewrite has_bic_keep, has_lor_keep by (lia || disj).
  - rewrite has_bic_keep by (lia || disj). apply has_lor; lia.
  - apply has_bic; lia.
  - by rewrite has_bic_keep, has_lor_keep by (lia || disj).
Qed.

Lemma csr_or_esg x b : csr_is x false b -> has (Z.lor x DMA_CSR_ESG_MASK) DMA_CSR_ESG_MASK = true /\
  has (Z.lor x DMA_CSR_ESG_MASK) DMA_CSR_DONE_MASK = b.
Proof.
  intros (H1 & H2 & H3 & H4). masks. split; [apply has_lor; lia|]. by rewrite has_lor_keep by disj.
Qed.

Lemma csr_or_done x l b : csr_is x l b -> csr_is (Z.lor x DMA_CSR_DONE_MASK) l true.
Proof.
  intros (H1 & H2 & H3 & H4). masks. repeat split.
  - by rewrite has_lor_keep by disj.
  - by rewrite has_lor_keep by disj.
  - by rewrite has_lor_keep by disj.
  - apply has_lor; lia.
Qed.

Lemma csr_bic_done x l b : csr_is x l b -> csr_is (bic 16 x DMA_CSR_DONE_MASK) l false.
Proof.
  intros (H1 & H2 & H3 & H4). masks. repeat split.
  - by rewrite has_bic_keep by (lia || disj).
  - by rewrite has_bic_keep by (lia || disj).
  - by rewrite has_bic_keep by (lia || disj).
  - apply has_bic; lia.
Qed.
End Csr.

(** ** The queue invariant *)

Abbreviation queue_state D := (edma_state D (list edma_transfer_config)).

Section Queue.
Context {D : Type} `{HD : !Device edma_reg D} {F : EdmaFields} {HM : EdmaMasks} {HL : EdmaLaws D}.
Context (P N : Z) (HP : pool_ok P N).
Abbreviation at_ := (at_ P N).
Abbreviation config := edma_transfer_config.

(** A descriptor of the chain: transfer [i] of [L], linked iff it is not the
    last. *)
Definition chained (L : list config) (t : tcd_field -> Z) (i : nat) (done : bool) : Prop :=
  Some (descr_of t) = descr_of_config <$> L !! i /\ t DLAST_SGA = at_ (S i) /\
  csr_is (t CSR) (S i <? length L)%nat done.

(** The queue after the transfers [L] were submitted and [r] of them
    executed; [pend]: the completion of the last one is not yet reported.
    While transfers remain, the channel holds number [r] and the others wait
    in their slots; when none remains it holds the last one, finished. *)
Record Inv (L : list config) (r : nat) (pend : bool) (h : edma_handle) (v : eview) : Prop := {
  i_pool : tcdPool h = P; i_size : tcdSize h = N;
  i_le : (r <= length L)%nat;
  i_tail : tail h = Z.of_nat (length L) mod N;
  i_header : header h = Z.of_nat (if pend then pred r else Nat.min r (pred (length L))) mod N;
  i_used : tcdUsed h = Z.of_nat (length L) - Z.of_nat r + Z.b2z pend;
  i_window : Z.of_nat (length L) - Z.of_nat r + Z.b2z pend <= N;
  i_pend : pend = true -> (1 <= r)%nat;
  i_irq : irq v = pend;
  i_ran : ran v = take r (descr_of_config <$> L);
  i_erq : erq v = has (flags h) EDMA_TRANSFER_ENABLED_MASK && (r <? length L)%nat;
  i_slots i : (r < i < length L)%nat -> chained L (mem v (at_ i)) i false;
  i_empty : L = [] -> mem v HW DLAST_SGA = 0;
  i_hw : (r < length L)%nat -> exists b, chained L (mem v HW) r b /\ (pend = false -> b = false);
  i_done : L <> [] -> r = length L -> mem v HW DLAST_SGA = at_ r /\ has (mem v HW CSR) DMA_CSR_ESG_MASK = false /\
    has (mem v HW CSR) DMA_CSR_DONE_MASK = true
}.

Lemma chained_ext L t t' i b : (forall f, t' f = t f) -> chained L t i b -> chained L t' i b.
Proof. intros E. unfold chained, descr_of. by rewrite !E. Qed.

(** One more transfer behind it changes only the link of the last one. *)
Lemma chained_app L c t i b : (S i < length L)%nat -> chained L t i b -> chained (L ++ [c]) t i b.
Proof.
  intros Hi (H1 & H2 & H3). split; [|split; [done|]].
  - by rewrite lookup_app_l by lia.
  - rewrite length_app. cbn [length]. destruct (Nat.ltb_spec (S i) (length L)); [|lia].
    by rewrite (proj2 (Nat.ltb_lt (S i) _)) by lia.
Qed.

Lemma chained_link L c t t' i b : (S i = length L)%nat -> chained L t i b ->
  (forall f, f <> CSR -> t' f = t f) -> csr_is (t' CSR) true b -> chained (L ++ [c]) t' i b.
Proof.
  intros Hi (H1 & H2 & H3) E Hc. split; [|split].
  - rewrite lookup_app_l by lia. unfold descr_of. by rewrite !E.
  - by rewrite E.
  - rewrite length_app. cbn [length]. by rewrite (proj2 (Nat.ltb_lt (S i) _)) by lia.
Qed.

Lemma chained_csr L t i b : (S i = length L)%nat -> chained L t i b -> csr_is (t CSR) false b.
Proof. intros Hi (_ & _ & H). by rewrite (proj2 (Nat.ltb_ge (S i) _)) in H by lia. Qed.

Lemma last_chained L c t : let n := length L in
  descr_of t = descr_of_config c -> t DLAST_SGA = at_ (S n) -> csr_is (t CSR) false false ->
  chained (L ++ [c]) t n false.
Proof.
  intros n H1 H2 H3. split; [|split; [done|]].
  - rewrite lookup_app_r, Nat.sub_diag by lia. cbn. by rewrite H1.
  - rewrite length_app. cbn [length]. by rewrite (proj2 (Nat.ltb_ge (S n) _)) by lia.
Qed.

(** ** Submission *)

Section Steps.
Context {U A : Type}.
Abbreviation state := (edma_state D U).

Lemma bind_ehandle (k : edma_handle -> M state A) d h u :
  bind handle k (EdmaState d h u) = k h (EdmaState d h u).
Proof. done. Qed.
Lemma bind_eset_h (f : edma_handle -> edma_handle) (k : unit -> M state A) d h u :
  bind (set_h f) k (EdmaState d h u) = k tt (EdmaState d (f h) u).
Proof. done. Qed.
Lemma bind_hw_rd a f (k : Z -> M state A) d h u :
  bind (on_hw (rd (TCD a f))) k (EdmaState d h u) = k (mem (dview d) a f) (EdmaState d h u).
Proof. unfold bind at 1, on_hw. cbn [e_hw e_h e_user]. by rewrite rd_tcd. Qed.
Lemma bind_hw_wr r x (k : unit -> M state A) d h u :
  bind (on_hw (wr r x)) k (EdmaState d h u) = k tt (EdmaState (reg_write r x d) h u).
Proof. done. Qed.
Lemma bind_hw {B} (m : M D B) (k : B -> M state A) b d d' h u :
  m d = Ok (b, d') -> bind (on_hw m) k (EdmaState d h u) = k b (EdmaState d' h u).
Proof. intros E. unfold bind at 1, on_hw. cbn [e_hw]. by rewrite E. Qed.
End Steps.

(** Writing the channel's CSR while DONE is clear. *)
Lemma wr_hw_csr x d : has (mem (dview d) HW CSR) DMA_CSR_DONE_MASK = false ->
  mem (dview (reg_write (TCD HW CSR) x d)) HW CSR = x.
Proof. intros H. rewrite mem_wr_csr, upd_mem_eq. unfold csr_write. by rewrite H. Qed.

(** While transfers remain the new one is linked behind the last. *)
Lemma submit_link_ok {U} cur prev next n p r d h (u : U) :
  slot h cur = at_ n -> slot h prev = at_ p -> at_ p <> HW -> at_ n <> 0 ->
  mem (dview d) HW DLAST_SGA = at_ r -> at_ r <> 0 -> (r = n -> csr_is (mem (dview d) HW CSR) false false) ->
  (at_ r = at_ n -> r = n) ->
  exists d', submit_link cur prev next (EdmaState d h u) = Ok (kStatus_Success, EdmaState d' h u) /\
    ctl (dview d') = ctl (dview d) /\
    (forall b g, b <> at_ p \/ g <> CSR -> b <> HW \/ g <> CSR -> mem (dview d') b g = mem (dview d) b g) /\
    mem (dview d') (at_ p) CSR = bic 16 (Z.lor (mem (dview d) (at_ p) CSR) DMA_CSR_ESG_MASK) DMA_CSR_DREQ_MASK /\
    (if (r =? n)%nat then csr_is (mem (dview d') HW CSR) true false
     else mem (dview d') HW CSR = mem (dview d) HW CSR).
Proof.
  intros Ec Ep Hp Hn0 Hsga Hr0 Hcsr Hinj. unfold submit_link.
  rewrite bind_ehandle, bind_hw_rd, bind_hw_wr, bind_hw_rd, Ec, Ep. mem_ev. rewrite Hsga.
  set (x := bic 16 _ _). set (d1 := reg_write _ _ _).
  assert (forall b g, b <> at_ p \/ g <> CSR -> mem (dview d1) b g = mem (dview d) b g) as M1.
  { intros b g Hb. unfold d1. rewrite mem_wr by (by left). apply upd_mem_ne. destruct Hb; [by left|right; congruence]. }
  assert (mem (dview d1) (at_ p) CSR = x) as X1 by (unfold d1; by mem_ev).
  assert (ctl (dview d1) = ctl (dview d)) as C1 by apply ctl_wr.
  destruct (Nat.eqb_spec r n) as [->|Hne].
  - rewrite Z.eqb_refl. specialize (Hcsr eq_refl).
    rewrite <- (M1 HW CSR) in Hcsr by (by left; apply not_eq_sym).
    set (c0 := mem (dview d1) HW CSR) in *. pose proof (csr_or_dreq c0 false Hcsr) as Hcsr1.
    destruct (csr_or_esg _ _ Hcsr1) as [Hesg Hdone2].
    set (d2 := reg_write (TCD HW CSR) (Z.lor c0 DMA_CSR_DREQ_MASK) d1).
    assert (or_field HW CSR DMA_CSR_DREQ_MASK d1 = Ok (tt, d2)) as E2 by (unfold or_field; by rewrite bind_rd_tcd).
    rewrite (bind_hw _ _ _ _ _ _ _ E2).
    assert (mem (dview d2) HW CSR = Z.lor c0 DMA_CSR_DREQ_MASK) as X2 by (apply wr_hw_csr, Hcsr).
    rewrite bind_hw_rd, bind_hw_wr, bind_hw_rd, X2.
    set (d3 := reg_write (TCD HW CSR) _ d2).
    assert (mem (dview d3) HW CSR = Z.lor (Z.lor c0 DMA_CSR_DREQ_MASK) DMA_CSR_ESG_MASK) as X3
      by (apply wr_hw_csr; rewrite X2; apply Hcsr1).
    rewrite X3, Hesg. set (d4 := reg_write (TCD HW CSR) (bic 16 (mem (dview d3) HW CSR) DMA_CSR_DREQ_MASK) d3).
    assert (bic_field HW CSR DMA_CSR_DREQ_MASK d3 = Ok (tt, d4)) as E4 by (unfold bic_field; by rewrite bind_rd_tcd).
    rewrite (bind_hw _ _ _ _ _ _ _ E4). exists d4. split; [done|].
    assert (forall b g, b <> HW \/ g <> CSR -> mem (dview d4) b g = mem (dview d1) b g) as M4.
    { intros b g Hb. unfold d4, d3, d2. by rewrite !mem_wr_csr_other. }
    split; [unfold d4, d3, d2; by rewrite !ctl_wr|]. split; [intros b g Hb Hb'; rewrite M4, M1; done|].
    split; [rewrite M4 by (by left); done|].
    unfold d4. rewrite wr_hw_csr by (by rewrite X3). rewrite X3. by apply csr_link.
  - destruct (Z.eqb_spec (at_ r) (at_ n)) as [E|_]; [tauto|]. rewrite bind_hw_rd, M1, Hsga by (by right).
    rewrite (proj2 (Z.eqb_neq (at_ r) 0)) by done. cbn [negb].
    exists d1. split; [done|]. split; [done|]. split; [intros; by apply M1|]. split; [done|].
    apply M1. left. by apply not_eq_sym.
Qed.

(** The first transfer goes straight into the channel. *)
Lemma submit_first_ok {U} cur prev next p d h (u : U) :
  slot h cur = at_ 0 -> slot h prev = at_ p -> at_ p <> HW -> at_ p <> at_ 0 ->
  tcd_addr (at_ 0) -> at_ 0 <> HW -> mem (dview d) HW DLAST_SGA = 0 ->
  exists d', submit_link cur prev next (EdmaState d h u) = Ok (kStatus_Success, EdmaState d' h u) /\
    (forall g, mem (dview d') HW g = mem (dview d) (at_ 0) g) /\
    irq (dview d') = irq (dview d) /\ ran (dview d') = ran (dview d) /\
    erq (dview d') = has (flags h) EDMA_TRANSFER_ENABLED_MASK || erq (dview d).
Proof.
  intros Ec Ep Hp Hpn Ha Hne Hsga. unfold submit_link.
  rewrite bind_ehandle, bind_hw_rd, bind_hw_wr, bind_hw_rd, Ec, Ep. mem_ev. rewrite Hsga.
  destruct (Z.eqb_spec 0 (at_ 0)) as [E|_]; [by destruct Ha|].
  rewrite bind_hw_rd. mem_ev. rewrite Hsga. cbn [negb Z.eqb].
  set (d1 := reg_write _ _ _). unfold submit_install. rewrite bind_ehandle, Ec.
  destruct (InstallTCD_ok (at_ 0) d1 Ha Hne) as (d2 & E2 & C2 & _ & M2).
  rewrite (bind_hw _ _ _ _ _ _ _ E2), bind_ehandle.
  assert (ctl (dview d2) = ctl (dview d)) as C by (rewrite C2; apply ctl_wr).
  injection C as C_e C_i C_r.
  assert (forall g, mem (dview d2) HW g = mem (dview d) (at_ 0) g) as M.
  { intros g. rewrite M2. unfold d1. by rewrite mem_wr_other by (by apply not_eq_sym). }
  destruct (has (flags h) _).
  - rewrite bind_hw_wr. eexists. split; [reflexivity|]. rewrite !write_ok. cbn [v_write mem irq ran erq].
    rewrite Z.eqb_refl. done.
  - rewrite bind_ret. exists d2. by rewrite C_e.
Qed.

(** The queue branch of [EDMA_SubmitTransfer] up to the linking. *)
Lemma submit_prepare {U} L r c d h (u : U) :
  let n := length L in
  Inv L r false h (dview d) -> config_ok c -> Z.of_nat n - Z.of_nat r < N ->
  exists d' p, let h' := with_tail (Z.of_nat (S n) mod N) (with_used (tcdUsed h + 1) h) in
    let prev := (Z.of_nat n - 1) mod N in
    slot h' prev = at_ p /\ (n <> 0%nat -> p = pred n) /\ at_ p <> at_ n /\
    EDMA_SubmitTransfer c (EdmaState d h u) =
      submit_link (Z.of_nat n mod N) prev (Z.of_nat (S n) mod N) (EdmaState d' h' u) /\
    ctl (dview d') = ctl (dview d) /\
    (forall b g, b <> at_ n -> mem (dview d') b g = mem (dview d) b g) /\
    chained (L ++ [c]) (mem (dview d') (at_ n)) n false.
Proof.
  intros n HI Hc Hroom. destruct (slot_prev P N HP h n (i_pool _ _ _ _ _ HI)) as (p & Ep & Hp & Hpn).
  destruct (at_addr P N HP n) as (Ha & Hhw & _).
  destruct (prepare_ok (at_ n) c (at_ (S n)) d Ha Hhw Hc) as (d1 & d2 & d3 & E1 & E2 & E3 & C4 & O4 & X4 & G4 & K4).
  exists (reg_write (TCD (at_ n) DLAST_SGA) (at_ (S n)) d3), p. cbv zeta.
  split; [done|]. split; [done|]. split; [done|]. split; [|split; [done|split; [done|]]].
  - unfold EDMA_SubmitTransfer. rewrite bind_ehandle.
    pose proof HP as (HN & HP0 & _).
    rewrite (i_pool _ _ _ _ _ HI), (i_size _ _ _ _ _ HI), (i_used _ _ _ _ _ HI), (i_tail _ _ _ _ _ HI).
    rewrite (proj2 (Z.eqb_neq P 0)) by lia. cbn [Z.b2z]. fold n.
    rewrite (proj2 (Z.leb_gt N (Z.of_nat n - Z.of_nat r + 0))) by lia.
    cbv zeta. rewrite !bind_eset_h, (next_slot P N HP), (prev_slot P N HP).
    rewrite !(slot_at P N HP h) by apply (i_pool _ _ _ _ _ HI).
    rewrite (bind_hw _ _ _ _ _ _ _ E1), (bind_hw _ _ _ _ _ _ _ E2), (bind_hw _ _ _ _ _ _ _ E3), bind_hw_wr.
    rewrite (prev_ne P N HP). cbn [negb]. do 3 f_equal.
    pose proof (i_le _ _ _ _ _ HI) as Hle. fold n in Hle. unfold i8. f_equal. rewrite Z.mod_small by lia. lia.
  - apply last_chained; [done|done|]. rewrite K4. apply csr_fresh.
Qed.

Definition enqueue (h : edma_handle) (n : nat) : edma_handle :=
  with_tail (Z.of_nat (S n) mod N) (with_used (tcdUsed h + 1) h).

(** The handle's fields after a submission. *)
Lemma Inv_handle L r c h v v' :
  Inv L r false h v -> L = [] \/ (r < length L)%nat -> Z.of_nat (length L) - Z.of_nat r < N ->
  erq v' = has (flags h) EDMA_TRANSFER_ENABLED_MASK -> irq v' = irq v -> ran v' = ran v ->
  (forall i, (r < i < S (length L))%nat -> chained (L ++ [c]) (mem v' (at_ i)) i false) ->
  chained (L ++ [c]) (mem v' HW) r false ->
  Inv (L ++ [c]) r false (enqueue h (length L)) v'.
Proof.
  intros HI Hs Hroom Ee Ei Er Hslots Hhw. pose proof (i_le _ _ _ _ _ HI) as Hle.
  assert (length (L ++ [c]) = S (length L)) as El by (rewrite length_app; cbn; lia).
  constructor; rewrite ?El; cbn [enqueue with_tail with_used tcdPool tcdSize tail header tcdUsed flags callback Z.b2z].
  - apply HI.
  - apply HI.
  - lia.
  - done.
  - rewrite (i_header _ _ _ _ _ HI). do 2 f_equal. destruct Hs as [-> | Hs]; cbn [length] in *; lia.
  - rewrite (i_used _ _ _ _ _ HI). cbn [Z.b2z]. lia.
  - lia.
  - done.
  - rewrite Ei. apply HI.
  - rewrite Er, (i_ran _ _ _ _ _ HI), fmap_app, take_app_le by (rewrite length_fmap; lia). done.
  - rewrite Ee, (proj2 (Nat.ltb_lt r _)) by (destruct Hs as [-> | Hs]; cbn [length] in *; lia). by rewrite andb_true_r.
  - done.
  - by destruct L.
  - intros _. exists false. done.
  - intros _ E. destruct Hs as [-> | Hs]; cbn [length] in *; lia.
Qed.

(** The chain after a descriptor was linked behind the last one. *)
Lemma slots_linked L r c h v v1 v2 i : let n := length L in
  Inv L r false h v -> (r < n)%nat -> Z.of_nat n - Z.of_nat r < N ->
  (forall b g, b <> at_ n -> mem v1 b g = mem v b g) -> chained (L ++ [c]) (mem v1 (at_ n)) n false ->
  (forall b g, b <> at_ (pred n) \/ g <> CSR -> b <> HW \/ g <> CSR -> mem v2 b g = mem v1 b g) ->
  mem v2 (at_ (pred n)) CSR = bic 16 (Z.lor (mem v1 (at_ (pred n)) CSR) DMA_CSR_ESG_MASK) DMA_CSR_DREQ_MASK ->
  (r < i < S n)%nat -> chained (L ++ [c]) (mem v2 (at_ i)) i false.
Proof.
  intros n HI Hr Hroom H1 Hn H2 H2c Hi.
  assert (forall j, (r < j <= n)%nat -> j <> pred n -> forall g, mem v2 (at_ j) g = mem v1 (at_ j) g) as Hsame.
  { intros j Hj Hjn g. apply H2; [left|left; apply (at_addr P N HP)].
    destruct (Nat.lt_ge_cases j (pred n)); [by apply at_inj; [..|lia]|]. apply not_eq_sym, at_inj; (done || lia). }
  assert (forall j, (r < j < n)%nat -> forall g, mem v1 (at_ j) g = mem v (at_ j) g) as Hold
    by (intros j Hj g; apply H1, at_inj; (done || lia)).
  destruct (decide (i = n)) as [->|]; [by apply (chained_ext _ (mem v1 (at_ n))); [apply Hsame; lia|]|].
  pose proof (i_slots _ _ _ _ _ HI i ltac:(lia)) as Hc.
  apply (chained_ext _ _ (mem v1 (at_ i))) in Hc; [|apply Hold; lia].
  destruct (decide (i = pred n)) as [->|Hne].
  - apply (chained_link _ _ (mem v1 (at_ (pred n)))); [fold n; lia|done| |].
    + intros f Hf. apply H2; by right.
    + rewrite H2c. apply csr_link. apply (chained_csr L _ (pred n)); [fold n; lia|done].
  - apply (chained_ext _ (mem v1 (at_ i))); [apply Hsame; lia|]. apply chained_app; [fold n; lia|done].
Qed.

(** The channel after the link. *)
Lemma channel_linked L r c h v v1 v2 : let n := length L in
  Inv L r false h v -> (r < n)%nat ->
  (forall b g, b <> at_ n -> mem v1 b g = mem v b g) ->
  (forall g, g <> CSR -> mem v2 HW g = mem v1 HW g) ->
  (if (S r =? n)%nat then csr_is (mem v2 HW CSR) true false else mem v2 HW CSR = mem v1 HW CSR) ->
  chained (L ++ [c]) (mem v2 HW) r false.
Proof.
  intros n HI Hr H1 H2 Hcsr. destruct (i_hw _ _ _ _ _ HI Hr) as (b & Hc & Hb). rewrite Hb in Hc by done.
  assert (forall g, mem v1 HW g = mem v HW g) as E1 by (intros g; apply H1, not_eq_sym, (at_addr P N HP)).
  destruct (Nat.eqb_spec (S r) n) as [E|E].
  - apply (chained_link L c (mem v HW)); [fold n; lia|done| |done]. intros f Hf. by rewrite H2, E1.
  - apply (chained_ext _ (mem v HW)); [|apply chained_app; [fold n; lia|done]].
    intros f. rewrite <- E1. destruct (decide (f = CSR)) as [->|]; [done|by apply H2].
Qed.

(** Submission into a queue that is new or has transfers left. *)
Lemma submit_ok {U} L r c d h (u : U) :
  Inv L r false h (dview d) -> config_ok c -> L = [] \/ (r < length L)%nat ->
  Z.of_nat (length L) - Z.of_nat r < N ->
  exists d', EDMA_SubmitTransfer c (EdmaState d h u) = Ok (kStatus_Success, EdmaState d' (enqueue h (length L)) u) /\
    Inv (L ++ [c]) r false (enqueue h (length L)) (dview d').
Proof.
  intros HI Hc Hstream Hroom.
  destruct (submit_prepare L r c d h u HI Hc Hroom) as (d1 & p & Ep & Hp & Hpn & E & C1 & O1 & Hn).
  fold (enqueue h (length L)) in *. set (h' := enqueue h (length L)) in *. rewrite E. injection C1 as Ce Ci Cr.
  destruct (at_addr P N HP p) as (_ & Hphw & _). destruct (at_addr P N HP (length L)) as (Ha & Hnhw & Hnpos).
  assert (slot h' (Z.of_nat (length L) mod N) = at_ (length L)) as En by (apply slot_at; [done|apply HI]).
  pose proof (i_le _ _ _ _ _ HI) as Hle. pose proof (i_erq _ _ _ _ _ HI) as He.
  destruct Hstream as [HL0|Hrun].
  - assert (length L = 0)%nat as Hn0 by by rewrite HL0.
    rewrite Hn0 in *. assert (r = 0)%nat as -> by lia.
    destruct (submit_first_ok _ _ (Z.of_nat 1 mod N) p d1 h' u En Ep Hphw Hpn Ha Hnhw) as (d2 & E2 & M2 & Ci2 & Cr2 & Ce2).
    { rewrite O1 by (by apply not_eq_sym). by apply (i_empty _ _ _ _ _ HI). }
    exists d2. split; [exact E2|]. replace h' with (enqueue h (length L)) by (unfold h'; by rewrite Hn0).
    apply (Inv_handle _ _ _ _ (dview d)); rewrite ?Hn0; try (done || lia || congruence).
    + by left.
    + rewrite Ce2, Ce, He, Nat.ltb_irrefl, andb_false_r, orb_false_r. done.
    + by apply (chained_ext _ (mem (dview d1) (at_ 0))).
  - specialize (Hp ltac:(lia)). subst p. destruct (at_addr P N HP (S r)) as ([Hr0 _] & _).
    destruct (i_hw _ _ _ _ _ HI Hrun) as (b & Hch & Hb). rewrite Hb in Hch by done.
    destruct (submit_link_ok _ _ (Z.of_nat (S (length L)) mod N) (length L) _ (S r) d1 h' u En Ep Hphw)
      as (d2 & E2 & C2 & O2 & K2 & X2); try (done || lia).
    + rewrite O1 by (by apply not_eq_sym). apply Hch.
    + intros Er. rewrite O1 by (by apply not_eq_sym). by apply (chained_csr L _ r).
    + intros Eat. destruct (decide (S r = length L)); [done|]. exfalso. revert Eat. apply at_inj; (done || lia).
    + exists d2. split; [exact E2|]. injection C2 as Ce2 Ci2 Cr2.
      apply (Inv_handle _ _ _ _ (dview d)); try (done || congruence).
      * by right.
      * rewrite Ce2, Ce, He, (proj2 (Nat.ltb_lt r _)), andb_true_r by lia. done.
      * intros i Hi. by apply (slots_linked L r c h (dview d) (dview d1)).
      * apply (channel_linked L r c h (dview d) (dview d1)); try done. intros g Hg. apply O2; by right.
Qed.

(** A full queue refuses, and nothing changes. *)
Lemma submit_full {U} L r c d h (u : U) :
  Inv L r false h (dview d) -> Z.of_nat (length L) - Z.of_nat r = N ->
  EDMA_SubmitTransfer c (EdmaState d h u) = Ok (kStatus_EDMA_QueueFull, EdmaState d h u).
Proof.
  intros HI Hfull. pose proof HP as (HN & HP0 & _). unfold EDMA_SubmitTransfer. rewrite bind_ehandle.
  rewrite (i_pool _ _ _ _ _ HI), (i_size _ _ _ _ _ HI), (i_used _ _ _ _ _ HI).
  rewrite (proj2 (Z.eqb_neq P 0)) by lia. cbn [Z.b2z].
  by rewrite (proj2 (Z.leb_le N _)) by lia.
Qed.

(** ** The engine *)

Lemma mem_clear_done v a f : a <> HW \/ f <> CSR -> mem (clear_done v) a f = mem v a f.
Proof.
  intros H. unfold clear_done, v_write. rewrite Z.eqb_refl. cbn [mem]. apply upd_mem_ne.
  destruct H; [by left|right; congruence].
Qed.
Lemma csr_clear_done v : mem (clear_done v) HW CSR = bic 16 (mem v HW CSR) DMA_CSR_DONE_MASK.
Proof. unfold clear_done, v_write. rewrite Z.eqb_refl. apply upd_mem_eq. Qed.

Lemma chained_set_done L t t' i b b' : chained L t i b -> (forall f, f <> CSR -> t' f = t f) ->
  csr_is (t' CSR) (S i <? length L)%nat b' -> chained L t' i b'.
Proof.
  intros (H1 & H2 & H3) E Hc. split; [|split; [|done]].
  - unfold descr_of. by rewrite !E.
  - by rewrite E.
Qed.

(** Clearing DONE while transfers remain keeps the invariant. *)
Lemma Inv_clear_done L r pend h v : Inv L r pend h v -> (r < length L)%nat -> Inv L r pend h (clear_done v).
Proof.
  intros HI Hr. destruct (i_hw _ _ _ _ _ HI Hr) as (b & Hc & Hb).
  constructor; try apply HI.
  - intros i Hi. apply (chained_ext _ (mem v (at_ i))); [|by apply HI].
    intros f. apply mem_clear_done. left. apply (at_addr P N HP).
  - intros ->. cbn in Hr. lia.
  - intros _. exists false. split; [|done]. apply (chained_set_done L (mem v HW) _ r b); [done| |].
    + intros f Hf. apply mem_clear_done. by right.
    + rewrite csr_clear_done. apply (csr_bic_done _ _ b), Hc.
  - intros _ E. lia.
Qed.

Lemma take_S_snoc {A} (l : list A) i x : l !! i = Some x -> take (S i) l = take i l ++ [x].
Proof. intros H. by rewrite (take_S_r _ _ x). Qed.

Lemma chained_ran L t r b : chained L t r b ->
  take (S r) (descr_of_config <$> L) = take r (descr_of_config <$> L) ++ [descr_of t].
Proof. intros (H & _). apply take_S_snoc. by rewrite list_lookup_fmap, <- H. Qed.

Lemma engine_ok L r h v v' : Inv L r false h v -> engine v v' ->
  (r < length L)%nat /\ (Inv L r false h v' \/ Inv L (S r) true h v').
Proof.
  intros HI He. assert (erq v = true) as Herq by by destruct He.
  pose proof (i_erq _ _ _ _ _ HI) as Hq. rewrite Herq in Hq. symmetry in Hq. apply andb_prop in Hq as [Hen Hr].
  apply Nat.ltb_lt in Hr. split; [done|].
  destruct (i_hw _ _ _ _ _ HI Hr) as (b & Hc & Hb). rewrite Hb in Hc by done. clear b Hb.
  pose proof Hc as (_ & Hsga & Hint & Hesg & Hdreq & _).
  pose proof HP as (HN & _). pose proof (i_window _ _ _ _ _ HI) as Hw. cbn [Z.b2z] in Hw.
  destruct He as [_ | m' _ Hd He Ho Hf Hcsr | m' _ Hd He Ho Hf Hcsr].
  - left. by apply Inv_clear_done.
  - right. rewrite He in Hesg. symmetry in Hesg. apply Nat.ltb_lt in Hesg.
    pose proof (i_slots _ _ _ _ _ HI (S r) ltac:(lia)) as Hn.
    constructor; cbn [mem erq irq ran Z.b2z]; try apply HI; try lia; try done.
    + rewrite (i_header _ _ _ _ _ HI). do 2 f_equal. cbn. lia.
    + rewrite (i_used _ _ _ _ _ HI). cbn [Z.b2z]. lia.
    + rewrite Hint. by destruct (irq v).
    + rewrite (i_ran _ _ _ _ _ HI). symmetry. by apply (chained_ran _ _ _ false).
    + by rewrite Hen, (proj2 (Nat.ltb_lt (S r) _)).
    + intros i Hi. apply (chained_ext _ (mem v (at_ i))); [|apply HI; lia]. intros f. apply Ho, (at_addr P N HP).
    + intros ->. cbn in Hr. lia.
    + intros _. exists true. split; [|done]. rewrite Hsga in Hf, Hcsr.
      apply (chained_set_done L (mem v (at_ (S r))) _ _ false); [done|done|].
      rewrite Hcsr. apply (csr_or_done _ _ false), Hn.
  - right. rewrite He in Hesg. symmetry in Hesg. apply Nat.ltb_ge in Hesg.
    rewrite (proj2 (Nat.ltb_ge (S r) _)) in Hdreq by lia.
    constructor; cbn [mem erq irq ran Z.b2z]; try apply HI; try lia; try done.
    + rewrite (i_header _ _ _ _ _ HI). do 2 f_equal. cbn. lia.
    + rewrite (i_used _ _ _ _ _ HI). cbn [Z.b2z]. lia.
    + rewrite Hint. by destruct (irq v).
    + rewrite (i_ran _ _ _ _ _ HI). symmetry. by apply (chained_ran _ _ _ false).
    + rewrite Hdreq, (proj2 (Nat.ltb_ge (S r) _)) by lia. by rewrite andb_false_r.
    + intros ->. cbn in Hr. lia.
    + intros _ _. rewrite Hf, Hsga, Hcsr. destruct (csr_or_done _ _ _ (proj2 (proj2 Hc))) as (_ & K1 & _ & K2).
      split; [done|]. split; [|done]. rewrite K1. by apply Nat.ltb_ge.
Qed.

(** A move that executes nothing is the start of the channel. *)
Lemma engine_start_only L r pend h v v' : Inv L r pend h v -> engine v v' -> ran v' = ran v ->
  Inv L r pend h v' /\ ran v' = ran v.
Proof.
  intros HI He Hr. split; [|done].
  assert (erq v = true) as Herq by by destruct He.
  pose proof (i_erq _ _ _ _ _ HI) as Hq. rewrite Herq in Hq. symmetry in Hq. apply andb_prop in Hq as [_ Hlt].
  apply Nat.ltb_lt in Hlt. destruct He as [_ | m' _ _ _ _ _ _ | m' _ _ _ _ _ _].
  1: by apply Inv_clear_done.
  all: cbn [ran] in Hr; apply (f_equal length) in Hr; rewrite length_app in Hr; cbn in Hr; lia.
Qed.

(** ** The interrupt handler *)

(** The slot index computed from the address of the next descriptor. *)
Lemma header_of_slot k :
  let idx := u32 (at_ k - P) / sizeof_tcd in
  (if negb (idx =? 0) then u8 (u8 idx - 1) else u8 (u8 N - 1)) = (Z.of_nat k - 1) mod N.
Proof.
  cbv zeta. pose proof (mod_bound P N HP k). pose proof HP as (HN & HP0 & _ & Hend & _).
  unfold at_, sizeof_tcd. rewrite wrap_small by lia.
  replace (P + 32 * (Z.of_nat k mod N) - P) with (Z.of_nat k mod N * 32) by lia.
  rewrite Z.div_mul by lia. rewrite <- (prev_slot P N HP k). unfold i8.
  destruct (Z.eqb_spec (Z.of_nat k mod N) 0) as [E|E]; cbn [negb].
  - rewrite (wrap_small 8 N), (wrap_small 8 (N - 1)) by (pow2; lia). rewrite Z.mod_small by lia. lia.
  - rewrite (wrap_small 8 (_ mod N)), (wrap_small 8 (_ - 1)) by (pow2; lia).
    rewrite (Z.mod_small (Z.of_nat k mod N - 1 + 128)) by lia. lia.
Qed.

Lemma pred_mod k : (1 <= k)%nat -> (Z.of_nat k - 1) mod N = Z.of_nat (pred k) mod N.
Proof. intros. f_equal. lia. Qed.

(** The number of descriptors finished between two neighbouring slots. *)
Lemma one_done k : (1 <= k)%nat ->
  let n := Z.of_nat k mod N - Z.of_nat (pred k) mod N in (if n <? 0 then n + N else n) = 1.
Proof.
  intros Hk. cbv zeta. pose proof HP as (HN & _). rewrite <- pred_mod by done.
  pose proof (prev_slot P N HP k) as E. pose proof (mod_bound P N HP k). unfold i8 in E.
  destruct (Z.eqb_spec (Z.of_nat k mod N) 0) as [E0|E0]; cbn [negb] in E; rewrite Z.mod_small in E by lia; rewrite <- E.
  - rewrite E0. destruct (Z.ltb_spec (0 - (N - 1 + 128 - 128)) 0); lia.
  - destruct (Z.ltb_spec (Z.of_nat k mod N - (Z.of_nat k mod N - 1 + 128 - 128)) 0); lia.
Qed.

Definition reported (h : edma_handle) (k : nat) : edma_handle :=
  with_used (tcdUsed h - 1) (with_header (Z.of_nat k mod N) h).

(** The invariant after the completion is reported. *)
Lemma Inv_report L r h v v' : Inv L r true h v -> ctl v' = (erq v, false, ran v) ->
  (forall a f, a <> HW -> mem v' a f = mem v a f) -> (forall f, f <> CSR -> mem v' HW f = mem v HW f) ->
  (if (r <? length L)%nat then csr_is (mem v' HW CSR) (S r <? length L)%nat false
   else mem v' HW CSR = mem v HW CSR) ->
  Inv L r false (reported h (Nat.min r (pred (length L)))) v'.
Proof.
  intros HI [= Ee Ei Er] Ho Hh Hcsr. pose proof (i_le _ _ _ _ _ HI) as Hle.
  pose proof (i_window _ _ _ _ _ HI) as Hw. pose proof (i_pend _ _ _ _ _ HI eq_refl) as Hr1. cbn [Z.b2z] in Hw.
  constructor; cbn [reported with_used with_header tcdPool tcdSize tail header tcdUsed flags Z.b2z];
    try apply HI; try lia; try done.
  - rewrite (i_used _ _ _ _ _ HI). cbn [Z.b2z]. lia.
  - rewrite Er. apply HI.
  - rewrite Ee. apply HI.
  - intros i Hi. apply (chained_ext _ (mem v (at_ i))); [|by apply HI]. intros f. apply Ho, (at_addr P N HP).
  - intros ->. cbn in Hle. lia.
  - intros Hr. rewrite (proj2 (Nat.ltb_lt r _)) in Hcsr by done. destruct (i_hw _ _ _ _ _ HI Hr) as (b & Hc & _).
    exists false. split; [|done]. by apply (chained_set_done L (mem v HW) _ _ b).
  - intros Hne Hr. rewrite (proj2 (Nat.ltb_ge r _)) in Hcsr by lia. rewrite Hcsr, Hh by done. by apply HI.
Qed.

Definition irq_tail {U} (td : bool) : M (edma_state D U) unit :=
  when td (csr <- on_hw (rd (TCD HW CSR)) ;; when (has csr DMA_CSR_ESG_MASK) (on_hw (wr CDNE channel))).

(** The handler with its reads done; [k] is the number of the descriptor the
    channel would load next. *)
Lemma irq_eval {U} (cb : bool -> Z -> M (edma_state D U) unit) k hd d h u :
  tcdPool h = P -> tcdSize h = N -> header h = Z.of_nat hd mod N -> mem (dview d) HW DLAST_SGA = at_ k -> (1 <= k)%nat ->
  let nh := Z.of_nat (pred k) mod N in
  let td := has (mem (dview d) HW CSR) DMA_CSR_DONE_MASK in
  let esg := has (mem (dview d) HW CSR) DMA_CSR_ESG_MASK in
  EDMA_HandleIRQ cb (EdmaState d h u) =
  (tcds_done <-
     (if nh =? header h then ret (if ((tcdUsed h =? N) || negb esg) && td then tcdUsed h else 0)
      else when td (on_hw (wr CDNE channel)) ;;
           ret (if nh - header h <? 0 then nh - header h + N else nh - header h)) ;;
   set_h (with_header nh) ;;
   set_h (fun h => with_used (i8 (tcdUsed h - i8 tcds_done)) h) ;;
   h <- handle ;;
   when (callback h) (cb td (u32 tcds_done)) ;; irq_tail td) (EdmaState (reg_write CINT channel d) h u).
Proof.
  intros Ep En Eh Hsga Hk nh td esg. pose proof HP as (HN & HP0 & _).
  unfold EDMA_HandleIRQ. rewrite bind_hw_wr. set (d1 := reg_write CINT channel d).
  assert (mem (dview d1) = mem (dview d)) as V1 by (unfold d1; by rewrite write_ok).
  rewrite bind_hw_rd, bind_ehandle, Ep, (proj2 (Z.eqb_neq P 0)), bind_hw_rd, bind_hw_rd, !V1 by lia.
  rewrite Hsga, En, (header_of_slot k), pred_mod by done. fold nh td esg.
  assert (u8 (header h) = header h) as ->
    by (pose proof (mod_bound P N HP hd); rewrite Eh; apply wrap_small; pow2; lia).
  assert (i8 nh = nh) as ->; [|done].
  pose proof (mod_bound P N HP (pred k)). unfold i8, nh. rewrite Z.mod_small by lia. lia.
Qed.

(** The handler up to the callback: it counts exactly one finished transfer. *)
Lemma irq_ok {U} (cb : bool -> Z -> M (edma_state D U) unit) L r d h u :
  Inv L r true h (dview d) ->
  exists d2 td, let h2 := reported h (Nat.min r (pred (length L))) in
    Inv L r false h2 (dview d2) /\ (r = length L -> td = true) /\
    EDMA_HandleIRQ cb (EdmaState d h u) =
      ((when (callback h) (cb td 1)) ;; irq_tail td) (EdmaState d2 h2 u).
Proof.
  intros HI. pose proof HP as (HN & _).
  pose proof (i_pend _ _ _ _ _ HI eq_refl) as Hr1. pose proof (i_le _ _ _ _ _ HI) as Hle.
  pose proof (i_window _ _ _ _ _ HI) as Hw. cbn [Z.b2z] in Hw.
  pose proof (i_header _ _ _ _ _ HI) as Hh. pose proof (i_used _ _ _ _ _ HI) as Hu. cbn [Z.b2z] in Hu.
  set (d1 := reg_write CINT channel d).
  assert (dview d1 = EView (mem (dview d)) (erq (dview d)) false (ran (dview d))) as V1
    by (unfold d1; rewrite write_ok; cbn [v_write]; by rewrite Z.eqb_refl).
  assert (i8 (tcdUsed h - i8 1) = tcdUsed h - 1) as Eu
    by (change (i8 1) with 1; unfold i8; rewrite Z.mod_small by lia; lia).
  destruct (decide (r = length L)) as [Hr|Hr].
  - destruct (i_done _ _ _ _ _ HI ltac:(intros ->; cbn in *; lia) Hr) as (Hsga & Hesg & Hdone).
    exists d1, true. cbv zeta. split; [|split; [done|]].
    + apply (Inv_report _ _ _ (dview d)); rewrite ?V1; try done. by rewrite (proj2 (Nat.ltb_ge r _)) by lia.
    + rewrite (irq_eval cb r (pred r) d h u (i_pool _ _ _ _ _ HI) (i_size _ _ _ _ _ HI) Hh Hsga Hr1). fold d1.
      rewrite Hesg, Hdone, Hh, Z.eqb_refl, orb_true_r. cbn [andb]. rewrite bind_ret, !bind_eset_h.
      assert (tcdUsed h = 1) as Hu1 by lia.
      cbn [with_header tcdUsed]. rewrite Hu1 at 2. rewrite Eu, bind_ehandle. 
      unfold reported. replace (Nat.min r (pred (length L))) with (pred r) by lia. by rewrite Hu1.
  - destruct (i_hw _ _ _ _ _ HI ltac:(lia)) as (b & Hc & _). pose proof Hc as (_ & Hsga & Hcsr).
    pose proof Hcsr as (_ & _ & _ & Hb).
    set (d2 := if b then reg_write CDNE channel d1 else d1).
    exists d2, b. cbv zeta. split; [|split; [lia|]].
    + assert (dview d2 = if b then clear_done (dview d1) else dview d1) as V2
        by (unfold d2; destruct b; [apply write_ok|done]).
      assert (forall a f, a <> HW \/ f <> CSR -> mem (dview d2) a f = mem (dview d) a f) as M2.
      { intros a f Hx. rewrite V2. destruct b; [rewrite mem_clear_done by done|]; by rewrite V1. }
      apply (Inv_report _ _ _ (dview d)); [done|..].
      * rewrite V2. destruct b; [|by rewrite V1]. unfold clear_done, v_write, ctl. by rewrite V1.
      * intros a f Ha. apply M2. by left.
      * intros f Hf. apply M2. by right.
      * rewrite (proj2 (Nat.ltb_lt r _)) by lia. rewrite V2. destruct b.
        -- rewrite csr_clear_done, V1. by apply (csr_bic_done _ _ true).
        -- by rewrite V1.
    + rewrite (irq_eval cb (S r) (pred r) d h u (i_pool _ _ _ _ _ HI) (i_size _ _ _ _ _ HI) Hh Hsga) by lia. fold d1.
      cbn [pred]. rewrite Hb, Hh, <- (pred_mod r), (prev_ne P N HP), (pred_mod r), (one_done r) by done.
      assert (forall k : unit -> M (edma_state D U) unit, bind (when b (on_hw (wr CDNE channel))) k (EdmaState d1 h u)
        = k tt (EdmaState d2 h u)) as Ecd by (intros k; unfold d2; by destruct b).
      rewrite bind_assoc, Ecd, bind_ret, !bind_eset_h. cbn [with_header tcdUsed]. rewrite Eu, bind_ehandle.
      unfold reported. by replace (Nat.min r (pred (length L))) with r by lia.
Qed.

Lemma irq_tail_ok {U} td L r d h (u : U) : L <> [] -> Inv L r false h (dview d) ->
  exists d', irq_tail td (EdmaState d h u) = Ok (tt, EdmaState d' h u) /\ Inv L r false h (dview d').
Proof.
  intros Hne HI. unfold irq_tail. destruct td; [|by exists d]. rewrite bind_hw_rd.
  destruct (has _ _) eqn:Hesg; [|by exists d]. eexists. split; [reflexivity|].
  rewrite write_ok. apply Inv_clear_done; [done|]. pose proof (i_le _ _ _ _ _ HI).
  destruct (decide (r = length L)) as [Hr|]; [|lia].
  destruct (i_done _ _ _ _ _ HI Hne Hr) as (_ & K & _). congruence.
Qed.

(** ** Start and stop *)

Lemma rd_erq d : exists x, rd ERQ d = Ok (x, d) /\ has x (u32 (Z.shiftl 1 channel)) = erq (dview d).
Proof. destruct (read_erq d) as (x & Ex & Hx). exists x. split; [|done]. unfold rd. by rewrite Ex. Qed.

Lemma Inv_flags L r h v v' x : Inv L r false h v -> mem v' = mem v -> irq v' = irq v -> ran v' = ran v ->
  erq v' = has x EDMA_TRANSFER_ENABLED_MASK && (r <? length L)%nat -> Inv L r false (with_flags x h) v'.
Proof.
  intros HI Em Ei Er Ee. constructor; rewrite ?Em, ?Ei, ?Er; cbn [with_flags tcdPool tcdSize tail header tcdUsed flags];
    try apply HI. done.
Qed.

Lemma start_ok {U} L r d h (u : U) : Inv L r false h (dview d) ->
  let h' := with_flags (Z.lor (flags h) EDMA_TRANSFER_ENABLED_MASK) h in
  exists d', EDMA_StartTransfer (EdmaState d h u) = Ok (tt, EdmaState d' h' u) /\ Inv L r false h' (dview d').
Proof.
  intros HI h'. pose proof HP as (HN & HP0 & _). unfold EDMA_StartTransfer.
  rewrite bind_ehandle, (i_pool _ _ _ _ _ HI), (proj2 (Z.eqb_neq P 0)), bind_eset_h, bind_hw_rd by lia. fold h'.
  assert (has (flags h') EDMA_TRANSFER_ENABLED_MASK = true) as Hen by (apply has_lor; done).
  pose proof (i_erq _ _ _ _ _ HI) as He. pose proof (i_le _ _ _ _ _ HI) as Hle.
  assert (forall d', mem (dview d') = mem (dview d) -> irq (dview d') = irq (dview d) -> ran (dview d') = ran (dview d) ->
    erq (dview d') = (r <? length L)%nat -> Inv L r false h' (dview d')) as Hfin
    by (intros d' H1 H2 H3 H4; apply (Inv_flags _ _ _ (dview d)); [done..|]; by rewrite H4; cbn [h' with_flags flags] in Hen; rewrite Hen).
  destruct (Nat.ltb_spec r (length L)) as [Hr|Hr].
  - destruct (i_hw _ _ _ _ _ HI Hr) as (b & Hc & Hb). rewrite Hb in Hc by done. destruct Hc as (_ & Hsga & _ & _ & _ & Hdone).
    destruct (at_addr P N HP (S r)) as ([Hne _] & _). rewrite Hsga, (proj2 (Z.eqb_neq _ 0)) by done. cbn [negb].
    destruct (rd_erq d) as (x & Ex & Hx). rewrite (bind_hw _ _ _ _ _ _ _ Ex), Hx.
    destruct (erq (dview d)) eqn:Eq; cbn [negb].
    + exists d. split; [done|]. by apply Hfin.
    + rewrite bind_hw_rd, Hdone. cbn [negb orb]. eexists. split; [reflexivity|].
      apply Hfin; rewrite write_ok; cbn [v_write mem irq ran erq]; try done. by rewrite Z.eqb_refl.
  - rewrite andb_false_r in He. destruct (decide (L = [])) as [HL0|HL0].
    + rewrite (i_empty _ _ _ _ _ HI HL0). exists d. split; [done|]. by apply Hfin.
    + destruct (i_done _ _ _ _ _ HI HL0 ltac:(lia)) as (Hsga & Hesg & Hdone).
      destruct (at_addr P N HP r) as ([Hne _] & _). rewrite Hsga, (proj2 (Z.eqb_neq _ 0)) by done. cbn [negb].
      destruct (rd_erq d) as (x & Ex & Hx). rewrite (bind_hw _ _ _ _ _ _ _ Ex), Hx, He.
      cbn [negb]. rewrite bind_hw_rd, Hdone, Hesg. exists d. split; [done|]. by apply Hfin.
Qed.

Lemma stop_ok {U} L r d h (u : U) : Inv L r false h (dview d) ->
  let h' := with_flags (bic 8 (flags h) EDMA_TRANSFER_ENABLED_MASK) h in
  exists d', EDMA_StopTransfer (EdmaState d h u) = Ok (tt, EdmaState d' h' u) /\ Inv L r false h' (dview d').
Proof.
  intros HI h'. unfold EDMA_StopTransfer. rewrite bind_ehandle, bind_eset_h. eexists. split; [reflexivity|].
  apply (Inv_flags _ _ _ (dview d)); rewrite ?write_ok; cbn [v_write mem irq ran erq]; try done.
  rewrite Z.eqb_refl. by rewrite has_bic by (by vm_compute).
Qed.

(** ** Setting up *)

Lemma setup_ok {U} cb d h (u : U) : irq (dview d) = false -> erq (dview d) = false -> ran (dview d) = [] ->
  exists d' h', (EDMA_CreateHandle ;; EDMA_InstallTCDMemory P N ;; EDMA_SetCallback cb) (EdmaState d h u)
    = Ok (tt, EdmaState d' h' u) /\ callback h' = cb /\ has (flags h') EDMA_TRANSFER_ENABLED_MASK = false /\ Inv [] 0 false h' (dview d').
Proof.
  intros Hi He Hr. pose proof HP as (HN & HP0 & Hal & _).
  unfold EDMA_CreateHandle. rewrite bind_assoc, bind_eset_h.
  assert (exists d', (wr (TCD HW SADDR) 0 ;; wr (TCD HW SOFF) 0 ;; wr (TCD HW ATTR) 0 ;; wr (TCD HW NBYTES) 0 ;;
    wr (TCD HW SLAST) 0 ;; wr (TCD HW DADDR) 0 ;; wr (TCD HW DOFF) 0 ;; wr (TCD HW CITER) 0 ;;
    wr (TCD HW DLAST_SGA) 0 ;; wr (TCD HW CSR) 0 ;; wr (TCD HW BITER) 0) d = Ok (tt, d') /\
    ctl (dview d') = ctl (dview d) /\ mem (dview d') HW DLAST_SGA = 0) as (d' & E & C & Hsga).
  { rewrite !bind_wr. eexists. split; [reflexivity|]. split; [by rewrite !ctl_wr|]. by mem_ev. }
  rewrite (bind_hw _ _ _ _ _ _ _ E). injection C as Ce Ci Cr.
  unfold EDMA_InstallTCDMemory. rewrite assert_true by by apply Z.eqb_eq.
  rewrite bind_assoc, bind_ret, bind_eset_h. unfold EDMA_SetCallback. cbn [callback tail].
  eexists d', _. split; [reflexivity|]. cbn [callback tcdPool header tail tcdUsed tcdSize flags].
  split; [done|]. split; [done|].
  constructor; cbn [callback tcdPool header tail tcdUsed tcdSize flags length Z.b2z]; rewrite ?Ce, ?Ci, ?Cr; try done; try lia.
  cbn [e_h tcdSize]. unfold i8. rewrite Z.mod_small by lia. lia.
Qed.

(** ** An application and its runs *)

(** The application keeps the list of the transfers that were accepted.  It
    submits more only while some are outstanding, or to begin with. *)
Abbreviation state := (queue_state D).
Definition app_submit (c : config) : M state unit :=
  h <- handle ;; L <- gets e_user ;;
  if (tcdUsed h =? 0) && negb (length L =? 0)%nat then ret tt else
  st <- EDMA_SubmitTransfer c ;;
  when (st =? kStatus_Success) (modify (fun s => EdmaState (e_hw s) (e_h s) (e_user s ++ [c]))).
Fixpoint app_submits (cs : list config) : M state unit :=
  match cs with [] => ret tt | c :: cs => app_submit c ;; app_submits cs end.

(** What the callback submits, from what was accepted so far and what the
    driver reports. *)
Context (plan : list config -> bool -> Z -> list config).
Context (plan_ok : forall L td n, Forall config_ok (plan L td n)).
Definition app_callback (td : bool) (n : Z) : M state unit :=
  L <- gets e_user ;; app_submits (plan L td n).

(** The interrupt is served before the engine completes another transfer and
    before the application makes its next call; the engine may start the next
    transfer at any time. *)
Inductive event (s : state) : state -> Prop :=
  | ev_engine d' : irq (dview (e_hw s)) = false \/ ran (dview d') = ran (dview (e_hw s)) ->
      engine (dview (e_hw s)) (dview d') ->
      event s (EdmaState d' (e_h s) (e_user s))
  | ev_irq s' : irq (dview (e_hw s)) = true -> EDMA_HandleIRQ app_callback s = Ok (tt, s') -> event s s'
  | ev_submit c s' : irq (dview (e_hw s)) = false -> config_ok c -> app_submit c s = Ok (tt, s') -> event s s'
  | ev_start s' : irq (dview (e_hw s)) = false -> EDMA_StartTransfer s = Ok (tt, s') -> event s s'
  | ev_stop s' : irq (dview (e_hw s)) = false -> EDMA_StopTransfer s = Ok (tt, s') -> event s s'.

Definition Good (s : state) : Prop := exists r pend, Inv (e_user s) r pend (e_h s) (dview (e_hw s)).

Lemma Good_quiet s : Good s -> irq (dview (e_hw s)) = false ->
  exists r, Inv (e_user s) r false (e_h s) (dview (e_hw s)).
Proof. intros (r & pend & HI) Hq. exists r. assert (pend = false) as -> by by rewrite <- (i_irq _ _ _ _ _ HI). done. Qed.

(** What a submission does to the queue, by its length and room. *)
Lemma app_submit_ok c L r d h : Inv L r false h (dview d) -> config_ok c ->
  exists d' h' L', app_submit c (EdmaState d h L) = Ok (tt, EdmaState d' h' L') /\
    Inv L' r false h' (dview d') /\ callback h' = callback h /\ flags h' = flags h /\
    L' = if decide (L = [] \/ (r < length L)%nat /\ Z.of_nat (length L) - Z.of_nat r < N) then L ++ [c] else L.
Proof.
  intros HI Hc. pose proof (i_le _ _ _ _ _ HI) as Hle. pose proof HP as (HN & _).
  unfold app_submit. rewrite bind_ehandle. unfold bind at 1, gets. cbn [e_user].
  pose proof (i_used _ _ _ _ _ HI) as Hu. cbn [Z.b2z] in Hu.
  pose proof (i_window _ _ _ _ _ HI) as Hw. cbn [Z.b2z] in Hw.
  destruct (Z.eqb_spec (tcdUsed h) 0) as [E|E]; destruct (Nat.eqb_spec (length L) 0) as [E0|E0]; cbn [andb negb].
  2: { exists d, h, L. rewrite decide_False by (intros [-> |?]; cbn in *; lia). done. }
  all: destruct (decide (Z.of_nat (length L) - Z.of_nat r = N)) as [Hfull|Hroom].
  all: try (rewrite (bind_ok _ _ _ _ _ (submit_full L r c d h L HI Hfull)); exists d, h, L;
    rewrite decide_False by (intros [-> |?]; cbn in *; lia); done).
  all: destruct (submit_ok L r c d h L HI Hc) as (d' & E' & HI'); [destruct L; [by left|right; cbn in *; lia]|lia|].
  all: rewrite (bind_ok _ _ _ _ _ E'); exists d', (enqueue h (length L)), (L ++ [c]).
  all: rewrite decide_True by (destruct L; [by left|right; cbn in *; lia]); done.
Qed.

Lemma app_submits_ok cs : forall L r d h, Inv L r false h (dview d) -> Forall config_ok cs ->
  exists d' h' L', app_submits cs (EdmaState d h L) = Ok (tt, EdmaState d' h' L') /\
    Inv L' r false h' (dview d') /\ callback h' = callback h /\ L `prefix_of` L'.
Proof.
  induction cs as [|c cs IH]; intros L r d h HI Hcs; cbn [app_submits]; [by exists d, h, L|].
  apply Forall_cons_1 in Hcs as [Hc Hcs].
  destruct (app_submit_ok c L r d h HI Hc) as (d1 & h1 & L1 & E1 & HI1 & Hcb & _ & HL1).
  rewrite (bind_ok _ _ _ _ _ E1). destruct (IH L1 r d1 h1 HI1 Hcs) as (d2 & h2 & L2 & E2 & HI2 & Hcb2 & Hp).
  exists d2, h2, L2. split; [done|]. split; [done|]. split; [congruence|].
  etrans; [|exact Hp]. rewrite HL1. case_decide; [by apply prefix_app_r|done].
Qed.

(** The handler with the application's callback. *)
Lemma edma_irq_run L r d h : Inv L r true h (dview d) ->
  exists d' h' L', EDMA_HandleIRQ app_callback (EdmaState d h L) = Ok (tt, EdmaState d' h' L') /\
    Inv L' r false h' (dview d') /\ L `prefix_of` L' /\ callback h' = callback h.
Proof.
  intros HI. pose proof (i_pend _ _ _ _ _ HI eq_refl) as Hr1. pose proof (i_le _ _ _ _ _ HI) as Hle.
  destruct (irq_ok app_callback L r d h L HI) as (d2 & td & HI2 & _ & E). rewrite E.
  set (h2 := reported _ _) in *.
  assert (exists d3 h3 L3, (when (callback h) (app_callback td 1)) (EdmaState d2 h2 L) = Ok (tt, EdmaState d3 h3 L3) /\
    Inv L3 r false h3 (dview d3) /\ L `prefix_of` L3 /\ callback h3 = callback h) as (d3 & h3 & L3 & E3 & HI3 & Hp & Hcb).
  { destruct (callback h) eqn:Hcb; [|by exists d2, h2, L].
    destruct (app_submits_ok (plan L td 1) L r d2 h2 HI2 (plan_ok _ _ _)) as (d3 & h3 & L3 & E3 & HI3 & Hcb3 & Hp).
    exists d3, h3, L3. split; [exact E3|]. split; [done|]. split; [done|]. rewrite Hcb3. exact Hcb. }
  rewrite (bind_ok _ _ _ _ _ E3).
  destruct (irq_tail_ok td L3 r d3 h3 L3) as (d4 & E4 & HI4); [|done|].
  { intros ->. apply prefix_nil_inv in Hp. subst L. cbn in Hle. lia. }
  by exists d4, h3, L3.
Qed.

Lemma prefix_take_S {A} (l : list A) n : take n l `prefix_of` take (S n) l.
Proof. replace n with (Nat.min n (S n)) at 1 by lia. rewrite <- take_take. apply prefix_take. Qed.

Lemma event_good s s' : Good s -> event s s' ->
  Good s' /\ e_user s `prefix_of` e_user s' /\ ran (dview (e_hw s)) `prefix_of` ran (dview (e_hw s')).
Proof.
  intros HG He. destruct s as [d h L].
  destruct He as [d' Hq He | s' Hq E | c s' Hq Hc E | s' Hq E | s' Hq E]; cbn [e_hw e_h e_user] in *.
  - destruct (irq (dview d)) eqn:Hp.
    + destruct Hq as [?|Hq]; [done|]. destruct HG as (r & pend & HI). cbn [e_hw e_h e_user] in HI.
      destruct (engine_start_only L r pend h _ _ HI He Hq) as [HI' ->]. split; [by eexists _, _|done].
    + destruct (Good_quiet _ HG Hp) as (r & HI). cbn [e_hw e_h e_user] in HI.
      destruct (engine_ok L r h _ _ HI He) as [_ [HI'|HI']]; (split; [by eexists _, _|]); (split; [done|]);
        cbn [e_hw]; rewrite (i_ran _ _ _ _ _ HI), (i_ran _ _ _ _ _ HI'); [done|]. by apply prefix_take_S.
  - destruct HG as (r & pend & HI). cbn [e_hw e_h e_user] in HI.
    assert (pend = true) as -> by by rewrite <- (i_irq _ _ _ _ _ HI).
    destruct (edma_irq_run L r d h HI) as (d' & h' & L' & E' & HI' & Hp & _). rewrite E in E'. injection E' as ->.
    split; [by eexists _, _|]. split; [done|]. cbn [e_hw]. rewrite (i_ran _ _ _ _ _ HI), (i_ran _ _ _ _ _ HI').
    destruct Hp as [k ->]. pose proof (i_le _ _ _ _ _ HI). rewrite fmap_app, take_app_le by (rewrite length_fmap; lia). done.
  - destruct (Good_quiet _ HG Hq) as (r & HI). cbn [e_hw e_h e_user] in HI.
    destruct (app_submit_ok c L r d h HI Hc) as (d' & h' & L' & E' & HI' & _ & _ & HL'). rewrite E in E'. injection E' as ->.
    assert (L `prefix_of` L') as [k ->] by (rewrite HL'; case_decide; [by apply prefix_app_r|done]).
    split; [by eexists _, _|]. split; [by apply prefix_app_r|]. cbn [e_hw]. rewrite (i_ran _ _ _ _ _ HI), (i_ran _ _ _ _ _ HI').
    pose proof (i_le _ _ _ _ _ HI). rewrite fmap_app, take_app_le by (rewrite length_fmap; lia). done.
  - destruct (Good_quiet _ HG Hq) as (r & HI). cbn [e_hw e_h e_user] in HI.
    destruct (start_ok L r d h L HI) as (d' & E' & HI'). rewrite E in E'. injection E' as ->.
    split; [by eexists _, _|]. split; [done|]. cbn [e_hw]. by rewrite (i_ran _ _ _ _ _ HI), (i_ran _ _ _ _ _ HI').
  - destruct (Good_quiet _ HG Hq) as (r & HI). cbn [e_hw e_h e_user] in HI.
    destruct (stop_ok L r d h L HI) as (d' & E' & HI'). rewrite E in E'. injection E' as ->.
    split; [by eexists _, _|]. split; [done|]. cbn [e_hw]. by rewrite (i_ran _ _ _ _ _ HI), (i_ran _ _ _ _ _ HI').
Qed.

Lemma run_good s s' : Good s -> rtc event s s' -> Good s'.
Proof. intros HG Hr. induction Hr as [|s s1 s' He _ IH]; [done|]. apply IH. by destruct (event_good _ _ HG He). Qed.
End Queue.

(** ** Claims *)

Section Claims.
Context {D : Type} `{HD : !Device edma_reg D} {F : EdmaFields} {HM : EdmaMasks} {HL : EdmaLaws D}.
Context (P N : Z) (HP : pool_ok P N).
Context (plan : list edma_transfer_config -> bool -> Z -> list edma_transfer_config).
Context (plan_ok : forall L td n, Forall config_ok (plan L td n)).

(** The channel is idle, the handle is created, the pool installed. *)
Definition reachable (s : queue_state D) : Prop :=
  exists cb d h s0, irq (dview d) = false /\ erq (dview d) = false /\ ran (dview d) = [] /\
    (EDMA_CreateHandle ;; EDMA_InstallTCDMemory P N ;; EDMA_SetCallback cb) (EdmaState d h []) = Ok (tt, s0) /\
    rtc (event plan) s0 s.

Lemma reachable_good s : reachable s -> Good P N s.
Proof.
  intros (cb & d & h & s0 & Hi & He & Hr & E & Hrun).
  destruct (setup_ok P N HP cb d h ([] : list edma_transfer_config) Hi He Hr) as (d' & h' & E' & _ & _ & HI).
  assert (s0 = EdmaState d' h' []) as -> by congruence.
  apply (run_good P N HP plan plan_ok _ _) in Hrun; [done|]. by eexists _, _.
Qed.

(** C7: In every run in which each completion is served before the next one
    and the queue, once in use, is refilled before it drains, the engine
    executes exactly the accepted transfers, once each and in the order they
    were accepted; the driver's count of used descriptors is the number
    outstanding plus the one not yet reported, and never exceeds the pool.
    The comment on [EDMA_HandleIRQ] describes another count, of the
    descriptors not yet loaded into the engine (two fewer after the first of
    several transfers, 0 after each of the last two): the code counts a
    descriptor until its transfer has been reported. *)
Theorem edma_stream_exactly_once s : reachable s ->
  let executed := ran (dview (e_hw s)) in let accepted := descr_of_config <$> e_user s in
  executed = take (length executed) accepted /\
  tcdUsed (e_h s) = Z.of_nat (length accepted) - Z.of_nat (length executed) + Z.b2z (irq (dview (e_hw s))) /\
  tcdUsed (e_h s) <= N.
Proof.
  intros Hs executed accepted. destruct (reachable_good s Hs) as (r & pend & HI).
  pose proof (i_le _ _ _ _ _ _ _ HI) as Hle. pose proof (i_ran _ _ _ _ _ _ _ HI) as Hr.
  assert (length executed = r) as El by (unfold executed; rewrite Hr, length_take, length_fmap; lia).
  rewrite El. split; [exact Hr|]. unfold accepted. rewrite length_fmap, (i_irq _ _ _ _ _ _ _ HI), (i_used _ _ _ _ _ _ _ HI).
  split; [done|]. apply HI.
Qed.

(** C11: In every such run the driver's calls answer as a bounded queue: a
    submission is accepted exactly when a descriptor is free and takes one;
    refused, it changes nothing.  The interrupt handler returns one
    descriptor, clears the interrupt and tells the callback that one transfer
    finished, whatever the callback is.  (The comment on [EDMA_HandleIRQ] has
    it return two at the first interrupt and none at the last: the code
    returns one at each.) *)
Theorem edma_calls_answer s c cb : reachable s -> config_ok c ->
  let n := length (e_user s) in let r := length (ran (dview (e_hw s))) in
  (irq (dview (e_hw s)) = false -> (n = 0 \/ r < n)%nat ->
   if tcdUsed (e_h s) =? N then EDMA_SubmitTransfer c s = Ok (kStatus_EDMA_QueueFull, s)
   else exists d' h', EDMA_SubmitTransfer c s = Ok (kStatus_Success, EdmaState d' h' (e_user s)) /\
     tcdUsed h' = tcdUsed (e_h s) + 1 /\ ran (dview d') = ran (dview (e_hw s)) /\ irq (dview d') = false) /\
  (irq (dview (e_hw s)) = true ->
   exists d' h' td, tcdUsed h' = tcdUsed (e_h s) - 1 /\ irq (dview d') = false /\ ran (dview d') = ran (dview (e_hw s)) /\
     EDMA_HandleIRQ cb s = ((when (callback (e_h s)) (cb td 1)) ;; irq_tail td) (EdmaState d' h' (e_user s))).
Proof.
  intros Hs Hc n r. destruct (reachable_good s Hs) as (r' & pend & HI). destruct s as [d h L]. cbn [e_hw e_h e_user] in *.
  pose proof (i_le _ _ _ _ _ _ _ HI) as Hle. pose proof (i_ran _ _ _ _ _ _ _ HI) as Hr.
  assert (r = r') as -> by (unfold r; rewrite Hr, length_take, length_fmap; lia). subst n.
  pose proof (i_irq _ _ _ _ _ _ _ HI) as Hq. pose proof (i_used _ _ _ _ _ _ _ HI) as Hu.
  pose proof (i_window _ _ _ _ _ _ _ HI) as Hw. split; intros Hp; rewrite Hp in Hq; subst pend; cbn [Z.b2z] in *.
  - intros Hst. destruct (Z.eqb_spec (tcdUsed h) N) as [E|E]; [apply (submit_full P N HP L r'); [done|lia]|].
    destruct (submit_ok P N HP L r' c d h L HI Hc) as (d' & E' & HI').
    + destruct Hst; [left; by destruct L|by right].
    + lia.
    + exists d', (enqueue N h (length L)). split; [exact E'|]. split; [done|].
      split; [|apply HI']. rewrite Hr, (i_ran _ _ _ _ _ _ _ HI'), fmap_app, take_app_le by (rewrite length_fmap; lia). done.
  - destruct (irq_ok P N HP cb L r' d h L HI) as (d' & td & HI' & _ & E').
    exists d', (reported N h (Nat.min r' (pred (length L)))), td. split; [done|]. split; [apply HI'|]. split; [|exact E'].
    by rewrite Hr, (i_ran _ _ _ _ _ _ _ HI').
Qed.

(** The queue neither stalls nor runs on its own: with transfers
    outstanding, started and no interrupt pending, the engine can complete
    the next one, in order; once all are executed, or while stopped, it can
    make no move at all. *)
Theorem edma_queue_progress s : reachable s ->
  let v := dview (e_hw s) in let r := length (ran v) in
  (irq v = false -> (r < length (e_user s))%nat -> has (flags (e_h s)) EDMA_TRANSFER_ENABLED_MASK = true ->
   exists v' c, engine v v' /\ e_user s !! r = Some c /\ ran v' = ran v ++ [descr_of_config c] /\ irq v' = true) /\
  (r = length (e_user s) \/ has (flags (e_h s)) EDMA_TRANSFER_ENABLED_MASK = false -> forall v', ~ engine v v').
Proof.
  intros Hs v r. destruct (reachable_good s Hs) as (r' & pend & HI).
  pose proof (i_le _ _ _ _ _ _ _ HI) as Hle. pose proof (i_ran _ _ _ _ _ _ _ HI) as Hr.
  assert (r = r') as Er by (unfold r, v; rewrite Hr, length_take, length_fmap; lia). rewrite Er in *. clear r Er.
  pose proof (i_erq _ _ _ _ _ _ _ HI) as He. fold v in He. split.
  - intros Hq Hlt Hen. rewrite Hen, (proj2 (Nat.ltb_lt _ _) Hlt) in He.
    pose proof (i_irq _ _ _ _ _ _ _ HI) as Hp. fold v in Hp. rewrite Hq in Hp. subst pend.
    destruct (i_hw _ _ _ _ _ _ _ HI Hlt) as (b & (Hd & _ & Hint & Hesg & _ & Hdone) & Hb). rewrite (Hb eq_refl) in Hdone.
    fold v in Hd, Hint, Hesg, Hdone. destruct (lookup_lt_is_Some_2 (e_user s) r' Hlt) as [c Hc].
    assert (descr_of (mem v HW) = descr_of_config c) as Ed by (rewrite Hc in Hd; cbn in Hd; congruence).
    set (m' := fun a f => if a =? HW then (if feq f CSR
      then Z.lor (mem v (if has (mem v HW CSR) DMA_CSR_ESG_MASK then mem v HW DLAST_SGA else HW) CSR) DMA_CSR_DONE_MASK
      else mem v (if has (mem v HW CSR) DMA_CSR_ESG_MASK then mem v HW DLAST_SGA else HW) f) else mem v a f).
    assert (forall a f, a <> HW -> m' a f = mem v a f) as M1
      by (intros a f Ha; unfold m'; by rewrite (proj2 (Z.eqb_neq a HW) Ha)).
    assert (forall f, f <> CSR -> feq f CSR = false) as Hf by (intros f Hf; destruct f; done).
    destruct (has (mem v HW CSR) DMA_CSR_ESG_MASK) eqn:Ee.
    + eexists _, c. split; [apply (engine_chain v m'); try done|].
      * intros f Hx. unfold m'. by rewrite Z.eqb_refl, Hf.
      * unfold m'. by rewrite Z.eqb_refl.
      * cbn [ran irq]. rewrite Ed, Hint. split; [done|]. split; [done|]. by destruct (irq v).
    + eexists _, c. split; [apply (engine_last v m'); try done|].
      * unfold m'. by rewrite Z.eqb_refl.
      * unfold m'. by rewrite Z.eqb_refl.
      * cbn [ran irq]. rewrite Ed, Hint. split; [done|]. split; [done|]. by destruct (irq v).
  - intros Hno v' Hv. assert (erq v = true) as E by by destruct Hv. rewrite E in He.
    symmetry in He. apply andb_prop in He as [H1 H2]. apply Nat.ltb_lt in H2.
    destruct Hno as [Hno|Hno]; [lia|congruence].
Qed.
End Claims.


(** ** A controller to run on *)

(** Channel 0 with the bit positions of the reference manual; the fields the
    queue does not use are zero. *)
#[export] Instance edma_fields : EdmaFields := {|
  HW := 0x40009000; channel := 0;
  DMA_CSR_DREQ_MASK := 0x8; DMA_CSR_ESG_MASK := 0x10; DMA_CSR_INTMAJOR_MASK := 0x2; DMA_CSR_INTHALF_MASK := 0x4;
  DMA_CSR_DONE_MASK := 0x80; DMA_CSR_DONE_SHIFT := 7; DMA_CSR_ACTIVE_MASK := 0x40;
  DMA_CSR_MAJORELINK_MASK := 0x20; DMA_CSR_MAJORLINKCH_MASK := 0xF00; DMA_CSR_MAJORLINKCH x := Z.land (Z.shiftl x 8) 0xF00;
  DMA_CSR_BWC_MASK := 0xC000; DMA_CSR_BWC x := Z.land (Z.shiftl x 14) 0xC000;
  DMA_ATTR_SSIZE x := Z.land (Z.shiftl x 8) 0x700; DMA_ATTR_DSIZE x := Z.land x 0x7;
  DMA_ATTR_SMOD_MASK := 0xF800; DMA_ATTR_DMOD_MASK := 0xF8;
  DMA_ATTR_SMOD x := Z.land (Z.shiftl x 11) 0xF800; DMA_ATTR_DMOD x := Z.land (Z.shiftl x 3) 0xF8;
  DMA_NBYTES_SMLOE_MASK := 0x80000000; DMA_NBYTES_DMLOE_MASK := 0x40000000;
  DMA_NBYTES_MLOFF_MASK := 0x3FFFFC00; DMA_NBYTES_MLOFF x := Z.land (Z.shiftl x 10) 0x3FFFFC00;
  DMA_CITER_ELINKYES_ELINK_MASK := 0x8000; DMA_CITER_ELINKYES_LINKCH_MASK := 0x1E00;
  DMA_CITER_ELINKYES_LINKCH x := Z.land (Z.shiftl x 9) 0x1E00;
  DMA_BITER_ELINKYES_ELINK_MASK := 0x8000; DMA_BITER_ELINKYES_LINKCH_MASK := 0x1E00;
  DMA_BITER_ELINKYES_LINKCH x := Z.land (Z.shiftl x 9) 0x1E00;
  DMA_CITER_ELINKYES_CITER_MASK := 0x1FF; DMA_CITER_ELINKYES_CITER_SHIFT := 0;
  DMA_CITER_ELINKNO_ELINK_MASK := 0x8000; DMA_CITER_ELINKNO_CITER_MASK := 0x7FFF; DMA_CITER_ELINKNO_CITER_SHIFT := 0;
  DMA_BITER_ELINKNO_BITER_MASK := 0x7FFF;
  DMA_CR_ERCA_MASK := 0x4; DMA_CR_HOE_MASK := 0x10; DMA_CR_CLM_MASK := 0x40; DMA_CR_EDBG_MASK := 0x2; DMA_CR_EMLM_MASK := 0x80;
  FSL_FEATURE_EDMA_SUPPORT_8_BYTES_TRANSFER := false; FSL_FEATURE_EDMA_SUPPORT_16_BYTES_TRANSFER := true
|}.

#[export] Instance edma_masks : EdmaMasks.
Proof. by constructor. Defined.

#[export] Instance edma_device : Device edma_reg eview := {|
  reg_read r v := (match r with TCD a f => mem v a f | ERQ => if erq v then 1 else 0 | _ => 0 end, v);
  reg_write := v_write
|}.

#[export] Instance edma_laws : EdmaLaws eview.
Proof.
  unshelve refine {| dview := fun v : eview => v |}; try done.
  intros v. eexists. split; [reflexivity|]. by destruct (erq v).
Defined.

(** One major loop of the engine, where it can run. *)
Definition complete (v : eview) : eview :=
  let csr := mem v HW CSR in
  let src := if has csr DMA_CSR_ESG_MASK then mem v HW DLAST_SGA else HW in
  EView (fun a f => if a =? HW then (if feq f CSR then Z.lor (mem v src CSR) DMA_CSR_DONE_MASK else mem v src f) else mem v a f)
    (if has csr DMA_CSR_ESG_MASK then true else negb (has csr DMA_CSR_DREQ_MASK))
    (irq v || has csr DMA_CSR_INTMAJOR_MASK) (ran v ++ [descr_of (mem v HW)]).

Lemma complete_engine v : erq v = true -> has (mem v HW CSR) DMA_CSR_DONE_MASK = false -> engine v (complete v).
Proof.
  intros He Hd. unfold complete. destruct (has (mem v HW CSR) DMA_CSR_ESG_MASK) eqn:Ee.
  - apply engine_chain; try done.
    + intros a f Ha. by rewrite (proj2 (Z.eqb_neq a HW) Ha).
    + intros f Hf. rewrite Z.eqb_refl. by destruct f.
  - apply engine_last; try done.
    intros a f Ha. by rewrite (proj2 (Z.eqb_neq a HW) Ha).
Qed.

(** Three transfers, a pool of four descriptors in RAM. *)
Definition transfer (k : Z) : edma_transfer_config :=
  TransferConfig (0x20000000 + 4096 * k) 0x4000A000 2 2 4 0 4 64.
Definition pool : Z := 0x20001000.
Lemma pool_4 : pool_ok pool 4.
Proof. split_and!; try done. intros i Hi. unfold pool. cbn [HW edma_fields]. lia. Qed.
Lemma transfer_ok k : config_ok (transfer k).
Proof.
  split; [|done]. unfold transfer. cbn [srcAddr srcTransferSize]. change (u32 (Z.shiftl 1 2)) with 4.
  zlia.
Qed.

Definition idle : eview := EView (fun _ _ => 0) false false [].
Abbreviation estate := (queue_state eview).
Definition blank : estate := EdmaState idle (EdmaHandle false 0 0 0 0 0 0) [].

(** A script of calls, completions and interrupts; it stops where the engine
    cannot move. *)
Inductive action := Submit (k : Z) | Start | Begin | Complete | Interrupt.
Definition act (a : action) : M estate unit :=
  match a with
  | Submit k => app_submit (transfer k)
  | Start => EDMA_StartTransfer
  | Begin => fun s =>
      if erq (e_hw s) then Ok (tt, EdmaState (clear_done (e_hw s)) (e_h s) (e_user s)) else Err AssertFailed
  | Complete => fun s =>
      if erq (e_hw s) && negb (has (mem (e_hw s) HW CSR) DMA_CSR_DONE_MASK)
      then Ok (tt, EdmaState (complete (e_hw s)) (e_h s) (e_user s)) else Err AssertFailed
  | Interrupt => EDMA_HandleIRQ (app_callback (fun _ _ _ => []))
  end.
Definition set_up : M estate unit := EDMA_CreateHandle ;; EDMA_InstallTCDMemory pool 4 ;; EDMA_SetCallback true.
(** An action is prompt when it respects the order of the runs above. *)
Definition prompt (a : action) (s : estate) : bool :=
  match a with Interrupt => irq (e_hw s) | Begin => true | _ => negb (irq (e_hw s)) end.
Fixpoint acts (l : list action) (s : estate) : option estate :=
  match l with
  | [] => Some s
  | a :: l => if prompt a s then match act a s with Ok (_, s') => acts l s' | Err _ => None end else None
  end.

Lemma act_event a s s' : prompt a s = true -> act a s = Ok (tt, s') -> event (fun _ _ _ => []) s s'.
Proof.
  destruct a as [k| | | |]; cbn [prompt act]; rewrite ?negb_true_iff; intros Hq E.
  - apply (ev_submit _ _ (transfer k)); [done|apply transfer_ok|done].
  - by apply ev_start.
  - destruct (erq (e_hw s)) eqn:He; [|done]. injection E as <-.
    apply ev_engine; [by right|]. by apply engine_start.
  - destruct (erq (e_hw s)) eqn:He; [|done]. destruct (has _ _) eqn:Hd; [done|]. injection E as <-.
    apply ev_engine; [by left|]. by apply complete_engine.
  - by apply ev_irq.
Qed.

Lemma acts_run l : forall s s', acts l s = Some s' -> rtc (event (fun _ _ _ => [])) s s'.
Proof.
  induction l as [|a l IH]; intros s s' E; cbn [acts] in E; [by injection E as ->|].
  destruct (prompt a s) eqn:Hp; [|done]. destruct (act a s) as [[[] s1]|] eqn:Ea; [|done].
  eapply rtc_l; [by eapply act_event|by apply IH].
Qed.

Lemma acts_reachable l s0 s : set_up blank = Ok (tt, s0) -> acts l s0 = Some s ->
  reachable pool 4 (fun _ _ _ => []) s.
Proof. intros E0 E. exists true, idle, (e_h blank), s0. split_and!; try done. by apply (acts_run l). Qed.

(** The state after a prompt script. *)
Definition after (l : list action) : option estate :=
  match set_up blank with Ok (_, s0) => acts l s0 | Err _ => None end.
Definition state_after (l : list action) : estate := default blank (after l).

Lemma state_after_reachable l : bool_decide (is_Some (after l)) = true -> reachable pool 4 (fun _ _ _ => []) (state_after l).
Proof.
  unfold state_after, after. destruct (set_up blank) as [[[] s0]|] eqn:E0; [|done].
  destruct (acts l s0) as [s|] eqn:E; [|done]. intros _. cbn [default]. by apply (acts_reachable l s0).
Qed.

Lemma no_plan (L : list edma_transfer_config) (td : bool) (n : Z) : Forall config_ok (@nil edma_transfer_config).
Proof. done. Qed.

(** Five transfers through four descriptors; the fifth submission comes
    while two are outstanding. *)
Definition demo : list action :=
  [Submit 0; Submit 1; Start; Complete; Interrupt; Submit 2; Begin; Complete; Interrupt; Submit 3; Submit 4].

Lemma demo_ok : reachable pool 4 (fun _ _ _ => []) (state_after demo).
Proof. apply state_after_reachable. vm_compute. reflexivity. Qed.
Lemma demo_pending_ok : reachable pool 4 (fun _ _ _ => []) (state_after (demo ++ [Complete])).
Proof. apply state_after_reachable. vm_compute. reflexivity. Qed.

Lemma demo_quiet : irq (dview (e_hw (state_after demo))) = false.
Proof. vm_compute. reflexivity. Qed.
Lemma demo_pending : irq (dview (e_hw (state_after (demo ++ [Complete])))) = true.
Proof. vm_compute. reflexivity. Qed.
Lemma demo_counts : length (ran (dview (e_hw (state_after demo)))) = 2%nat /\ length (e_user (state_after demo)) = 5%nat /\
  tcdUsed (e_h (state_after demo)) = 3.
Proof. vm_compute. repeat split. Qed.
Lemma demo_outstanding : (length (ran (dview (e_hw (state_after demo)))) < length (e_user (state_after demo)))%nat.
Proof. destruct demo_counts as (-> & -> & _). lia. Qed.
Lemma demo_started : has (flags (e_h (state_after demo))) EDMA_TRANSFER_ENABLED_MASK = true.
Proof. vm_compute. reflexivity. Qed.

(** The witnesses below reason about these states, and need not compute them. *)
#[local] Opaque state_after.

Lemma edma_stream_exactly_once_witness :
  let s := state_after demo in let executed := ran (dview (e_hw s)) in
  length executed = 2%nat /\ executed = take (length executed) (descr_of_config <$> e_user s).
Proof.
  intros s executed. split; [exact (proj1 demo_counts)|].
  exact (proj1 (edma_stream_exactly_once pool 4 pool_4 (fun _ _ _ => []) no_plan s demo_ok)).
Defined.

Lemma edma_calls_answer_witness :
  (exists d' h', EDMA_SubmitTransfer (transfer 5) (state_after demo) =
     Ok (kStatus_Success, EdmaState d' h' (e_user (state_after demo)))) /\
  (let s := state_after (demo ++ [Complete]) in
   exists d' h' td, EDMA_HandleIRQ (fun _ _ => ret tt) s =
     ((when (callback (e_h s)) (ret tt)) ;; irq_tail td) (EdmaState d' h' (e_user s))).
Proof.
  split.
  - pose proof (proj1 (edma_calls_answer pool 4 pool_4 (fun _ _ _ => []) no_plan (state_after demo) (transfer 5)
      (fun _ _ => ret tt) demo_ok (transfer_ok 5)) demo_quiet (or_intror demo_outstanding)) as H.
    rewrite (proj2 (proj2 demo_counts)) in H. cbn [Z.eqb Pos.eqb] in H. destruct H as (d' & h' & H & _). exists d', h'. exact H.
  - intros s. destruct (proj2 (edma_calls_answer pool 4 pool_4 (fun _ _ _ => []) no_plan s (transfer 5)
      (fun _ _ => ret tt) demo_pending_ok (transfer_ok 5)) demo_pending) as (d' & h' & td & _ & _ & _ & E).
    exists d', h', td. exact E.
Defined.

Lemma edma_queue_progress_witness :
  let v := dview (e_hw (state_after demo)) in
  exists v' c, engine v v' /\ e_user (state_after demo) !! length (ran v) = Some c /\
    ran v' = ran v ++ [descr_of_config c].
Proof.
  intros v. destruct (proj1 (edma_queue_progress pool 4 pool_4 (fun _ _ _ => []) no_plan (state_after demo) demo_ok)
    demo_quiet demo_outstanding demo_started) as (v' & c & H1 & H2 & H3 & _).
  exists v', c. split; [exact H1|]. split; [exact H2|exact H3].
Defined.
