(* ===== verification/EdmaLimits.v ===== *)
(** * The limits of the eDMA driver

    What the configuration functions accept and how much of it the hardware
    gets; pools too large for the [int8_t] indices; and what happens to the
    queue outside the discipline of EdmaQueue.v: a queue that drains, and
    interrupts that come late.  The last two are shown by scripts of calls,
    completions and interrupts on the controller of EdmaQueue.v. *)

From stdpp Require Import base list numbers tactics relations.
From Stdlib Require Import ZArith Lia.
From S2P Require Import Prelude Mmio Edma EdmaQueue.

Open Scope Z_scope.
Open Scope prog_scope.

Lemma obind_inv {A B} (m : outcome A) (f : A -> outcome B) b :
  obind m f = Ok b -> exists a, m = Ok a /\ f a = Ok b.
Proof. destruct m as [a|]; [|done]. intros H. by exists a. Qed.

(** ** Scripts without discipline *)

(** The application submits whatever it is told, whenever. *)
Definition raw_act (a : action) : M estate unit :=
  match a with
  | Submit k =>
      st <- EDMA_SubmitTransfer (transfer k) ;;
      when (st =? kStatus_Success) (modify (fun s => EdmaState (e_hw s) (e_h s) (e_user s ++ [transfer k])))
  | _ => act a
  end.
Fixpoint raw_acts (l : list action) (s : estate) : option estate :=
  match l with
  | [] => Some s
  | a :: l => match raw_act a s with Ok (_, s') => raw_acts l s' | Err _ => None end
  end.
(** The same, stopping at an interrupt that is not served at once. *)
Fixpoint prompt_acts (l : list action) (s : estate) : option estate :=
  match l with
  | [] => Some s
  | a :: l => if prompt a s then match raw_act a s with Ok (_, s') => prompt_acts l s' | Err _ => None end else None
  end.

(** Executed transfers, accepted transfers, descriptors in use, pending
    interrupt, request enable. *)
Definition outcome_of (r : option estate) : option (list descr * list descr * Z * bool * bool) :=
  match r with
  | Some s => Some (ran (e_hw s), map descr_of_config (e_user s), tcdUsed (e_h s), irq (e_hw s), erq (e_hw s))
  | None => None
  end.
Definition from_setup (f : estate -> option estate) : option (list descr * list descr * Z * bool * bool) :=
  match set_up blank with Ok (_, s) => outcome_of (f s) | Err _ => None end.
Definition dk (k : Z) : descr := descr_of_config (transfer k).

(** ** Widths *)

Lemma width_mapping `{EdmaFields} w s : EDMA_TransferWidthMapping w = Ok s -> 0 <= s <= 5 /\ w = 2 ^ s.
Proof.
  unfold EDMA_TransferWidthMapping.
  destruct (Z.eqb_spec w 1) as [->|]; [by intros [= <-]|]. destruct (Z.eqb_spec w 2) as [->|]; [by intros [= <-]|].
  destruct (Z.eqb_spec w 4) as [->|]; [by intros [= <-]|].
  destruct (Z.eqb_spec w 8) as [->|]; cbn [andb].
  { destruct FSL_FEATURE_EDMA_SUPPORT_8_BYTES_TRANSFER; [by intros [= <-]|done]. }
  destruct (Z.eqb_spec w 16) as [->|]; cbn [andb].
  { destruct FSL_FEATURE_EDMA_SUPPORT_16_BYTES_TRANSFER; [by intros [= <-]|done]. }
  destruct (Z.eqb_spec w 32) as [->|]; [by intros [= <-]|done].
Qed.

Lemma width_shift s : 0 <= s <= 5 -> u32 (Z.shiftl 1 s) = 2 ^ s.
Proof.
  intros Hs. rewrite Z.shiftl_mul_pow2, Z.mul_1_l by lia. apply wrap_small.
  split; [lia|]. apply Z.pow_lt_mono_r; lia.
Qed.

(** ** Claims *)

Section Claims.
Context {D : Type} `{HD : !Device edma_reg D} {F : EdmaFields}.

(** A configuration that [EDMA_PrepareTransfer] accepts describes
    exactly [transferBytes] bytes and satisfies the alignment assertions of
    the functions that consume it; but the descriptor built from it moves
    that many bytes only below 2^16 major loops -- beyond, the count is
    silently reduced modulo 2^16. *)
Theorem edma_prepared_bytes src srcW dst dstW each bytes type c :
  0 < src -> 0 < dst -> 0 < srcW -> 0 < dstW -> 0 <= each -> 0 <= bytes ->
  EDMA_PrepareTransfer src srcW dst dstW each bytes type = Ok c ->
  minorLoopBytes c * majorLoopCounts c = bytes /\ config_ok c /\
  (x_nbytes (descr_of_config c) * x_count (descr_of_config c) = bytes <-> bytes / each < 2 ^ 16).
Proof.
  intros Hs Hd HsW HdW He Hb Hp. unfold EDMA_PrepareTransfer, EDMA_PrepareTransferConfig in Hp.
  do 4 apply obind_inv in Hp as (? & ? & Hp).
  apply obind_inv in Hp as (r & Hr & Hp). apply obind_inv in Hp as ([] & Hr0 & Hp).
  apply obind_inv in Hp as ([] & Hsa & Hp). apply obind_inv in Hp as ([] & Hda & Hp).
  apply obind_inv in Hp as (m & Hm & Hp). apply obind_inv in Hp as (ss & Hss & Hp).
  apply obind_inv in Hp as (ds & Hds & Hp). injection Hp as <-. cbn.
  unfold check in *. unfold udiv in Hm. unfold umod in Hr.
  destruct (Z.eqb_spec each 0) as [|Hez]; [done|]. injection Hm as <-. injection Hr as <-.
  destruct (Z.eqb_spec (bytes mod each) 0) as [Hmod|]; [|done].
  destruct (Z.eqb_spec (src mod srcW) 0) as [Hsm|]; [|done].
  destruct (Z.eqb_spec (dst mod dstW) 0) as [Hdm|]; [|done].
  pose proof (Z.div_mod bytes each Hez) as Hdm'. rewrite Hmod in Hdm'.
  split; [lia|]. apply width_mapping in Hss as [Hss ->]. apply width_mapping in Hds as [Hds ->].
  split; [split; cbn; rewrite width_shift by lia; done|].
  assert (0 <= bytes / each) by (apply Z.div_pos; lia). unfold wrap.
  pose proof (Z.mod_pos_bound (bytes / each) (2 ^ 16) ltac:(lia)).
  split; intros Hx; [|rewrite Z.mod_small by lia; lia].
  assert ((bytes / each) mod 2 ^ 16 = bytes / each) by nia. lia.
Qed.

(** [EDMA_InstallTCDMemory] keeps the size of the pool in an [int8_t]:
    with 128 to 256 descriptors the pool counts as full while it is empty,
    and every submission is refused. *)
Theorem edma_large_pool_refuses {U} P N c (s : edma_state D U) :
  0 < P -> Z.land P 0x1F = 0 -> 128 <= N <= 256 ->
  exists s', EDMA_InstallTCDMemory P N s = Ok (tt, s') /\
    EDMA_SubmitTransfer c s' = Ok (kStatus_EDMA_QueueFull, s').
Proof.
  intros HP Hal HN. unfold EDMA_InstallTCDMemory. rewrite assert_true by by apply Z.eqb_eq.
  rewrite bind_ret. eexists. split; [reflexivity|]. unfold EDMA_SubmitTransfer. rewrite bind_ehandle.
  cbn [tcdPool tcdSize tcdUsed]. rewrite (proj2 (Z.eqb_neq P 0)) by lia.
  assert (i8 N <= 0) as Hi by (unfold i8; zlia). by rewrite (proj2 (Z.leb_le _ 0) Hi).
Qed.
End Claims.

(** Three transfers submitted one at a time, each after the previous one
    was executed and reported: the third is accepted, but the engine is left
    disabled although the queue is started; starting it again executes the
    second transfer once more, and not the third. *)
Theorem edma_drained_queue_repeats :
  from_setup (prompt_acts [Start; Submit 0; Complete; Interrupt; Submit 1; Complete; Interrupt; Submit 2])
    = Some ([dk 0; dk 1], [dk 0; dk 1; dk 2], 1, false, false) /\
  from_setup (prompt_acts [Start; Submit 0; Complete; Interrupt; Submit 1; Complete; Interrupt; Submit 2; Start; Complete])
    = Some ([dk 0; dk 1; dk 1], [dk 0; dk 1; dk 2], 1, true, true).
Proof. split; vm_compute; reflexivity. Qed.

(** When the interrupt is served late the queue goes wrong in two ways.
    A submission between a completion and its interrupt overwrites the
    descriptor just loaded: that transfer is accepted and never executed, and
    the engine stops.  Two completions served by one interrupt count as one:
    a descriptor stays in use with nothing outstanding, and the next
    submission, once started, repeats the last transfer. *)
Theorem edma_late_interrupt_breaks_queue :
  from_setup (raw_acts [Submit 0; Submit 1; Start; Complete; Submit 2; Interrupt; Complete; Interrupt])
    = Some ([dk 0; dk 2], [dk 0; dk 1; dk 2], 0, false, false) /\
  from_setup (raw_acts [Submit 0; Submit 1; Start; Complete; Begin; Complete; Interrupt])
    = Some ([dk 0; dk 1], [dk 0; dk 1], 1, false, false) /\
  from_setup (raw_acts [Submit 0; Submit 1; Start; Complete; Begin; Complete; Interrupt; Submit 2; Start; Complete])
    = Some ([dk 0; dk 1; dk 1], [dk 0; dk 1; dk 2], 2, true, true).
Proof. split_and!; vm_compute; reflexivity. Qed.

(** ** Witnesses *)

Lemma edma_prepared_bytes_witness :
  exists c, EDMA_PrepareTransfer 0x20000000 4 0x4000A000 4 4 400000 kEDMA_MemoryToPeripheral = Ok c /\
    minorLoopBytes c * majorLoopCounts c = 400000 /\
    ~ x_nbytes (descr_of_config c) * x_count (descr_of_config c) = 400000.
Proof.
  assert (EDMA_PrepareTransfer 0x20000000 4 0x4000A000 4 4 400000 kEDMA_MemoryToPeripheral
    = Ok (TransferConfig 0x20000000 0x4000A000 2 2 4 0 4 100000)) as E by (vm_compute; reflexivity).
  eexists. split; [exact E|].
  destruct (edma_prepared_bytes 0x20000000 4 0x4000A000 4 4 400000 kEDMA_MemoryToPeripheral _ ltac:(lia) ltac:(lia) ltac:(lia) ltac:(lia) ltac:(lia) ltac:(lia) E)
    as (H1 & _ & H2).
  split; [exact H1|]. intros H. apply H2 in H. vm_compute in H. discriminate.
Defined.

Lemma edma_large_pool_refuses_witness :
  exists s', EDMA_InstallTCDMemory pool 200 blank = Ok (tt, s') /\
    EDMA_SubmitTransfer (transfer 0) s' = Ok (kStatus_EDMA_QueueFull, s').
Proof. apply (edma_large_pool_refuses pool 200 (transfer 0) blank); (lia || reflexivity). Defined.
