(* ===== verification/Mmu.v ===== *)
(** * The memory remapping unit (drivers/mmu/fsl_mmu.c)

    The MMU remaps units of 4 to 64 KB of the bus address space through a
    lookup table of 8192 words in the peripheral.  The driver computes table
    indices and words from addresses, and fills the table through a write
    pointer, one word or one burst at a time.  [mmu_view] and its two step
    functions are the documented behaviour of the peripheral; [MmuLaws] says
    a device behaves so. *)

From stdpp Require Import base list numbers tactics.
From Stdlib Require Import ZArith Lia.
From S2P Require Import Prelude Mmio.

Open Scope Z_scope.
Open Scope prog_scope.

Inductive mmu_reg :=
  | CTRL | ADDR_RANGE | WRITE_PTR | LUT_WDATA | READ_PTR | LUT_RDATA | READ_VFY | STS
  | FAIL_INFO | FAIL_ADDR.

(** Masks and field encodings of the device header. *)
Class MmuFields := {
  MMU_CTRL_CLK_DIS_MASK : Z;
  MMU_CTRL_SWRST_MASK : Z;
  MMU_CTRL_MMU_EN_MASK : Z;
  MMU_CTRL_UNIT_SIZE_MASK : Z;
  MMU_CTRL_LOCK_LUT_MASK : Z;
  MMU_STS_BUSY_MASK : Z;
  MMU_CTRL_UNIT_SIZE : Z -> Z;
  MMU_ADDR_RANGE_BASE_ADDR : Z -> Z;
  MMU_ADDR_RANGE_MAX_ADDR : Z -> Z;
  MMU_WRITE_PTR_POINTER : Z -> Z;
  MMU_READ_PTR_POINTER : Z -> Z;
  MMU_LUT_WDATA_ADDR : Z -> Z;
  MMU_LUT_WDATA_VALID : Z -> Z;
  MMU_LUT_WDATA_COUNT : Z -> Z;
  MMU_LUT_RDATA_DATA : Z -> Z;   (** [(x & DATA_MASK) >> DATA_SHIFT] *)
  MMU_READ_VFY_DATA : Z -> Z;
  MMU_READ_VFY_COUNT : Z -> Z
}.

Inductive unit_size :=
  kMMU_UnitSize4KB | kMMU_UnitSize8KB | kMMU_UnitSize16KB | kMMU_UnitSize32KB | kMMU_UnitSize64KB.
Definition unit_index (u : unit_size) : Z :=
  match u with
  | kMMU_UnitSize4KB => 0 | kMMU_UnitSize8KB => 1 | kMMU_UnitSize16KB => 2
  | kMMU_UnitSize32KB => 3 | kMMU_UnitSize64KB => 4
  end.

Inductive page_option :=
  | kMMU_PageOpt_1Page
  | kMMU_PageOpt_4Page_Low2KWordSelected
  | kMMU_PageOpt_4Page_MidLow2KWordSelected
  | kMMU_PageOpt_4Page_MidHigh2KWordSelected
  | kMMU_PageOpt_4Page_High2KWordSelected.
Definition page_value (p : page_option) : Z :=
  match p with
  | kMMU_PageOpt_1Page => 0
  | kMMU_PageOpt_4Page_Low2KWordSelected => 1
  | kMMU_PageOpt_4Page_MidLow2KWordSelected => 3
  | kMMU_PageOpt_4Page_MidHigh2KWordSelected => 5
  | kMMU_PageOpt_4Page_High2KWordSelected => 7
  end.

#[export] Instance unit_size_eq_dec : EqDecision unit_size.
Proof. solve_decision. Defined.
#[export] Instance page_option_eq_dec : EqDecision page_option.
Proof. solve_decision. Defined.

Definition MMU_PAGE_OPT_MASK := 0xE0.
Definition MMU_PAGE_OPT (x : Z) : Z := Z.land (u32 (Z.shiftl x 5)) MMU_PAGE_OPT_MASK.

Inductive write_operation := kMMU_LUTSingleWrite | kMMU_LUTBurstWrite.
Inductive invalid_mode := kMMU_InvalidAddrRespondError | kMMU_InvalidAddrAllowed.

(** [mmu_lut_word_t]: two bit fields of 15 and 1 bits. *)
Record lut_word := LutWord { mappedValue : Z; lvalid : Z }.
Definition lut_word_of (mapped valid : Z) : lut_word := LutWord (wrap 15 mapped) (wrap 1 valid).
Definition set_valid (v : Z) (w : lut_word) : lut_word := LutWord (mappedValue w) v.

(** [mmu_config_t]; the two arrays are [None] for NULL. *)
Record mmu_config := MmuConfig {
  unitSize : unit_size; pageOpt : page_option; invalidAddrMode : invalid_mode;
  baseAddr : Z; maxAddr : Z;
  ptrPhyAddrArray : option (list Z); ptrVirtualAddrArray : option (list Z);
  countOfAddr : Z; enableMMP : bool
}.

(** The driver's state: the peripheral and the two globals. *)
Record mmu_state (D : Type) := MmuState {
  hw : D; g_selectedUnitSize : unit_size; g_selectedPageOpt : page_option
}.
Arguments MmuState {D}. Arguments hw {D}.
Arguments g_selectedUnitSize {D}. Arguments g_selectedPageOpt {D}.

Definition on_hw {D A} (m : M D A) : M (mmu_state D) A :=
  fun s => match m (hw s) with
  | Ok (a, d) => Ok (a, MmuState d (g_selectedUnitSize s) (g_selectedPageOpt s))
  | Err e => Err e
  end.

(** ** Address arithmetic *)

Definition MMU_UNIT_BYTE_SIZE (u : unit_size) : Z := Z.shiftl 0x1000 (unit_index u).

Definition word_masks : list Z := [0x7FFF000; 0xFFFE000; 0xFFFC000; 0xFFF8000; 0xFFF0000].
Definition unit_shifts : list Z := [12; 13; 14; 15; 16].
Definition index_masks_1page : list Z := [0x1FFFFFF; 0x3FFFFFF; 0x7FFFFFF; 0xFFFFFFF; 0x1FFFFFFF].
Definition index_masks_4page : list Z := [0x7FFFFF; 0xFFFFFF; 0x1FFFFFF; 0x3FFFFFF; 0x7FFFFFF].
Definition unit_factors : list Z := [0x1000; 0x2000; 0x4000; 0x8000; 0x10000].
Definition offset_masks : list Z := [0xFFF; 0x1FFF; 0x3FFF; 0x7FFF; 0xFFFF].

Definition MMU_TransferAddrToLUTWord (u : unit_size) (addr : Z) : outcome lut_word :=
  mask <-! aget word_masks (unit_index u) ;;
  shift <-! aget unit_shifts (unit_index u) ;;
  Ok (lut_word_of (u16 (Z.shiftr (Z.land addr mask) shift)) 1).

(** [0x6U >> 1U] binds tighter than [&] in the page selection. *)
Definition MMU_TransferAddrToLUTIndex (u : unit_size) (p : page_option) (addr : Z) : outcome Z :=
  let pageMode := if decide (p = kMMU_PageOpt_1Page) then 0 else 1 in
  mask <-! aget (if pageMode =? 0 then index_masks_1page else index_masks_4page) (unit_index u) ;;
  factor <-! aget unit_factors (unit_index u) ;;
  let lutPointer := u16 (Z.land addr mask / factor) in
  if negb (pageMode =? 0) then
    let pageSelect := u8 (Z.land (u8 (page_value p)) (Z.shiftr 0x6 1)) in
    Ok (u16 (Z.lor lutPointer (Z.shiftl pageSelect 11)))
  else Ok lutPointer.

(** ** The operations *)

Section Driver.
Context {D : Type} `{!Device mmu_reg D} {F : MmuFields}.

Definition selected_unit : M (mmu_state D) unit_size := gets g_selectedUnitSize.
Definition lut_word_for (addr : Z) : M (mmu_state D) lut_word :=
  u <- gets g_selectedUnitSize ;; lift (MMU_TransferAddrToLUTWord u addr).
Definition lut_index_for (addr : Z) : M (mmu_state D) Z :=
  u <- gets g_selectedUnitSize ;; p <- gets g_selectedPageOpt ;;
  lift (MMU_TransferAddrToLUTIndex u p addr).

(** [assert((x % MMU_UNIT_BYTE_SIZE) == 0UL)] *)
Definition assert_aligned (x : Z) : M (mmu_state D) unit :=
  u <- gets g_selectedUnitSize ;; assert_ (x mod MMU_UNIT_BYTE_SIZE u =? 0).

Definition MMU_EnableMemoryMap (enable : bool) : M (mmu_state D) unit :=
  on_hw (if enable then set_bits CTRL MMU_CTRL_MMU_EN_MASK
         else clear_bits CTRL MMU_CTRL_MMU_EN_MASK).

Definition MMU_UpdateUnitSize (u : unit_size) : M (mmu_state D) unit :=
  on_hw (x <- rd CTRL ;;
         wr CTRL (Z.lor (bic32 x MMU_CTRL_UNIT_SIZE_MASK) (MMU_CTRL_UNIT_SIZE (unit_index u)))) ;;
  modify (fun s => MmuState (hw s) u (g_selectedPageOpt s)).

Definition MMU_UpdateValidAddressRange (base max : Z) : M (mmu_state D) unit :=
  on_hw (wr ADDR_RANGE (Z.lor (MMU_ADDR_RANGE_BASE_ADDR base) (MMU_ADDR_RANGE_MAX_ADDR max))).

Definition MMU_ChangePageOption (p : page_option) : M (mmu_state D) unit :=
  on_hw (if decide (p = kMMU_PageOpt_1Page) then clear_bits CTRL MMU_PAGE_OPT_MASK
         else x <- rd CTRL ;;
              wr CTRL (Z.lor (bic32 x MMU_PAGE_OPT_MASK) (MMU_PAGE_OPT (page_value p)))) ;;
  modify (fun s => MmuState (hw s) (g_selectedUnitSize s) p).

Definition MMU_LockLUT : M D unit := set_bits CTRL MMU_CTRL_LOCK_LUT_MASK.
Definition MMU_UnlockLUT : M D unit := clear_bits CTRL MMU_CTRL_LOCK_LUT_MASK.

Definition MMU_DoSoftwareReset : M (mmu_state D) unit :=
  on_hw (set_bits CTRL MMU_CTRL_SWRST_MASK ;; clear_bits CTRL MMU_CTRL_SWRST_MASK).

Definition wdata (w : lut_word) (count : Z) : Z :=
  Z.lor (Z.lor (MMU_LUT_WDATA_ADDR (mappedValue w)) (MMU_LUT_WDATA_VALID (lvalid w)))
        (MMU_LUT_WDATA_COUNT count).

(** The single-write loop takes its words from the array at [ptrLutWord]. *)
Fixpoint write_words (ws : list lut_word) (n : nat) : M D unit :=
  match n with
  | O => ret tt
  | S n => w <- lift (aget ws 0) ;; wr LUT_WDATA (wdata w 0) ;; write_words (tl ws) n
  end.

Definition MMU_UpdateLUTBlocking (fuel : nat) (startPointer : Z) (ptrLutWord : list lut_word)
    (countOfWord : Z) (op : write_operation) : M D unit :=
  assert_ (0 <? countOfWord) ;;
  assert_ (startPointer + countOfWord <=? 8192) ;;
  MMU_UnlockLUT ;;
  match op with
  | kMMU_LUTSingleWrite =>
      wr WRITE_PTR (MMU_WRITE_PTR_POINTER startPointer) ;;
      write_words ptrLutWord (Z.to_nat countOfWord)
  | kMMU_LUTBurstWrite =>
      wr WRITE_PTR (MMU_WRITE_PTR_POINTER startPointer) ;;
      w <- lift (aget ptrLutWord 0) ;;
      wr LUT_WDATA (wdata w (countOfWord - 1)) ;;
      poll_set fuel STS MMU_STS_BUSY_MASK
  end ;;
  MMU_LockLUT.

Fixpoint read_words (n : nat) : M D (list lut_word) :=
  match n with
  | O => ret []
  | S n =>
      x <- rd LUT_RDATA ;;
      let readData := MMU_LUT_RDATA_DATA x in
      let w := LutWord (Z.land (u16 readData) 0x7FFF) (if has readData 0x8000 then 1 else 0) in
      ws <- read_words n ;;
      ret (w :: ws)
  end.

Definition MMU_ReadLUT (startPointer count : Z) : M D (list lut_word) :=
  assert_ (0 <? count) ;;
  assert_ (startPointer + count <=? 8192) ;;
  wr READ_PTR (MMU_READ_PTR_POINTER startPointer) ;;
  read_words (Z.to_nat count).

Definition MMU_TriggerLUTVerificationBlocking (fuel : nat) (startPointer : Z) (golden : lut_word)
    (count : Z) : M D unit :=
  assert_ (0 <? count) ;;
  assert_ (startPointer + count <=? 8192) ;;
  wr READ_PTR (MMU_READ_PTR_POINTER startPointer) ;;
  wr READ_VFY (Z.lor (MMU_READ_VFY_DATA (Z.lor (mappedValue golden) (Z.shiftl (lvalid golden) 15)))
                     (MMU_READ_VFY_COUNT (count - 1))) ;;
  poll_set fuel STS MMU_STS_BUSY_MASK.

(** The info word, copied into the record's bit fields, and the address. *)
Definition MMU_GetAHBErrorRecord : M D (Z * Z) :=
  tmpInfo <- rd FAIL_INFO ;; failAddr <- rd FAIL_ADDR ;; ret (tmpInfo, failAddr).

Definition MMU_SetupSimpleMap (fuel : nat) (virt phys : Z) : M (mmu_state D) unit :=
  assert_aligned virt ;; assert_aligned phys ;;
  lutWord <- lut_word_for phys ;;
  lutIndex <- lut_index_for virt ;;
  on_hw (MMU_UpdateLUTBlocking fuel lutIndex [lutWord] 1 kMMU_LUTSingleWrite).

Definition MMU_TearDownSimpleMap (fuel : nat) (virt : Z) : M (mmu_state D) unit :=
  assert_aligned virt ;;
  lutIndex <- lut_index_for virt ;;
  ws <- on_hw (MMU_ReadLUT lutIndex 1) ;;
  lutWord <- lift (aget ws 0) ;;
  on_hw (MMU_UpdateLUTBlocking fuel lutIndex [set_valid 0 lutWord] 1 kMMU_LUTSingleWrite).

(** [uint16_t unitCount = regionSize / MMU_UNIT_BYTE_SIZE] *)
Definition unit_count (regionSize : Z) : M (mmu_state D) Z :=
  u <- gets g_selectedUnitSize ;; ret (u16 (regionSize / MMU_UNIT_BYTE_SIZE u)).

Definition MMU_SetupRegionMap (fuel : nat) (virt phys regionSize : Z) : M (mmu_state D) unit :=
  assert_aligned virt ;; assert_aligned phys ;; assert_aligned regionSize ;;
  lutWord <- lut_word_for phys ;;
  lutIndex <- lut_index_for virt ;;
  unitCount <- unit_count regionSize ;;
  on_hw (MMU_UpdateLUTBlocking fuel lutIndex [lutWord] unitCount kMMU_LUTBurstWrite).

Definition MMU_TearDownRegionMap (fuel : nat) (virt regionSize : Z) : M (mmu_state D) unit :=
  assert_aligned virt ;; assert_aligned regionSize ;;
  lutIndex <- lut_index_for virt ;;
  unitCount <- unit_count regionSize ;;
  ws <- on_hw (MMU_ReadLUT lutIndex 1) ;;
  lutWord <- lift (aget ws 0) ;;
  on_hw (MMU_UpdateLUTBlocking fuel lutIndex [set_valid 0 lutWord] unitCount kMMU_LUTBurstWrite).

Definition MMU_RemapRegion (fuel : nat) (oldVirt newVirt regionSize : Z) : M (mmu_state D) unit :=
  assert_aligned oldVirt ;; assert_aligned newVirt ;; assert_aligned regionSize ;;
  oldLutIndex <- lut_index_for oldVirt ;;
  newLutIndex <- lut_index_for newVirt ;;
  unitCount <- unit_count regionSize ;;
  ws <- on_hw (MMU_ReadLUT oldLutIndex 1) ;;
  lutWord <- lift (aget ws 0) ;;
  on_hw (MMU_UpdateLUTBlocking fuel newLutIndex [set_valid 1 lutWord] unitCount kMMU_LUTBurstWrite) ;;
  MMU_TearDownRegionMap fuel oldVirt regionSize.

(** [memcpy] through the remapped bus: destination, source, size. *)
Context (memcpy : Z -> Z -> Z -> M (mmu_state D) unit).

Definition MMU_MoveRegion (fuel : nat) (oldVirt newVirt newPhys regionSize : Z) : M (mmu_state D) unit :=
  MMU_SetupRegionMap fuel newVirt newPhys regionSize ;;
  memcpy newVirt oldVirt regionSize ;;
  MMU_TearDownRegionMap fuel oldVirt regionSize.

Fixpoint setup_array_loop (fuel : nat) (virts phys : list Z) (i : Z) (n : nat) : M (mmu_state D) unit :=
  match n with
  | O => ret tt
  | S n =>
      v <- lift (aget virts i) ;; p <- lift (aget phys i) ;;
      MMU_SetupSimpleMap fuel v p ;;
      setup_array_loop fuel virts phys (i + 1) n
  end.

Definition MMU_SetupArrayMap (fuel : nat) (virts phys : list Z) (count : Z) : M (mmu_state D) unit :=
  setup_array_loop fuel virts phys 0 (Z.to_nat count).

Fixpoint teardown_array_loop (fuel : nat) (virts : list Z) (i : Z) (n : nat) : M (mmu_state D) unit :=
  match n with
  | O => ret tt
  | S n =>
      v <- lift (aget virts i) ;;
      MMU_TearDownSimpleMap fuel v ;;
      teardown_array_loop fuel virts (i + 1) n
  end.

Definition MMU_TearDownArrayMap (fuel : nat) (virts : list Z) (count : Z) : M (mmu_state D) unit :=
  teardown_array_loop fuel virts 0 (Z.to_nat count).

(** The copy loop hands [memcpy] the addresses [&ptrNewVirts[i]] and
    [&ptrOldVirts[i]] of the array elements, [uint32_t]s at [new_base] and
    [old_base]. *)
Fixpoint move_array_loop (old_base new_base i : Z) (n : nat) : M (mmu_state D) unit :=
  match n with
  | O => ret tt
  | S n =>
      u <- gets g_selectedUnitSize ;;
      memcpy (new_base + 4 * i) (old_base + 4 * i) (MMU_UNIT_BYTE_SIZE u) ;;
      move_array_loop old_base new_base (i + 1) n
  end.

Definition MMU_MoveArray (fuel : nat) (old_base : Z) (ptrOldVirts : list Z) (new_base : Z)
    (ptrNewVirts ptrNewPhys : list Z) (count : Z) : M (mmu_state D) unit :=
  MMU_SetupArrayMap fuel ptrNewVirts ptrNewPhys count ;;
  move_array_loop old_base new_base 0 (Z.to_nat count) ;;
  MMU_TearDownArrayMap fuel ptrOldVirts count.

Definition MMU_GetPhyAddr (virt : Z) : M (mmu_state D) Z :=
  lutIndex <- lut_index_for virt ;;
  ws <- on_hw (MMU_ReadLUT lutIndex 1) ;;
  lutWord <- lift (aget ws 0) ;;
  u <- gets g_selectedUnitSize ;;
  shift <- lift (aget unit_shifts (unit_index u)) ;;
  mask <- lift (aget offset_masks (unit_index u)) ;;
  let mapAddr := u32 (Z.shiftl (mappedValue lutWord) shift) in
  ret (Z.lor (Z.lor (Z.land virt 0xF0000000) mapAddr) (Z.land virt mask)).

(** The clock gate of the MMU instance is a call into the clock driver. *)
Context (CLOCK_EnableClock CLOCK_DisableClock : M (mmu_state D) unit).

Definition MMU_Init (fuel : nat) (config : mmu_config) : M (mmu_state D) unit :=
  CLOCK_EnableClock ;;
  MMU_DoSoftwareReset ;;
  on_hw (clear_bits CTRL MMU_CTRL_CLK_DIS_MASK) ;;
  MMU_UpdateUnitSize (unitSize config) ;;
  MMU_ChangePageOption (pageOpt config) ;;
  MMU_UpdateValidAddressRange (baseAddr config) (maxAddr config) ;;
  match ptrPhyAddrArray config, ptrVirtualAddrArray config with
  | Some phys, Some virts => MMU_SetupArrayMap fuel virts phys (countOfAddr config)
  | _, _ => ret tt
  end ;;
  MMU_EnableMemoryMap (enableMMP config).

Definition MMU_Deinit : M (mmu_state D) unit :=
  MMU_EnableMemoryMap false ;;
  MMU_DoSoftwareReset ;;
  on_hw (set_bits CTRL MMU_CTRL_CLK_DIS_MASK) ;;
  CLOCK_DisableClock.

Definition MMU_GetDefaultConfig : mmu_config :=
  MmuConfig kMMU_UnitSize4KB kMMU_PageOpt_1Page kMMU_InvalidAddrRespondError 0 0 None None 0 false.
End Driver.

(** ** The peripheral's documented behaviour *)

(** What can be observed of the MMU: its control register, the table, the
    write and read pointers, and how many more reads of the status register
    will show it busy. *)
Record mmu_view := View {
  v_ctrl : Z; v_lut : Z -> lut_word; v_wptr : Z; v_rptr : Z; v_busy : nat
}.

Definition word_wf (w : lut_word) : Prop := 0 <= mappedValue w < 2 ^ 15 /\ 0 <= lvalid w <= 1.

(** A burst of [n] words from [w] at [p]: consecutive values. *)
Definition burst (p : Z) (w : lut_word) (n : Z) (t : Z -> lut_word) : Z -> lut_word :=
  fun i => if (p <=? i) && (i <? p + n)
           then LutWord ((mappedValue w + (i - p)) mod 2 ^ 15) (lvalid w) else t i.

(** A device that behaves as documented.  Table writes need the table
    unlocked and the MMU idle; afterwards it may be busy for up to [max_busy]
    status reads.  Nothing is said of a write that sets the reset bit. *)
Class MmuLaws (D : Type) `{!Device mmu_reg D, F : MmuFields} := {
  mview : D -> mmu_view;
  max_busy : nat;
  lut_wf d i : word_wf (v_lut (mview d) i);
  lock_mask : 0 < MMU_CTRL_LOCK_LUT_MASK < 2 ^ 32;
  lock_reset_disjoint : Z.land MMU_CTRL_LOCK_LUT_MASK MMU_CTRL_SWRST_MASK = 0;
  ctrl_read d : reg_read CTRL d = (v_ctrl (mview d), d);
  ctrl_write v d :
    has v MMU_CTRL_SWRST_MASK = false ->
    mview (reg_write CTRL v d) =
      View v (v_lut (mview d)) (v_wptr (mview d)) (v_rptr (mview d)) (v_busy (mview d));
  wptr_write p d :
    0 <= p < 8192 ->
    mview (reg_write WRITE_PTR (MMU_WRITE_PTR_POINTER p) d) =
      View (v_ctrl (mview d)) (v_lut (mview d)) p (v_rptr (mview d)) (v_busy (mview d));
  rptr_write p d :
    0 <= p < 8192 ->
    mview (reg_write READ_PTR (MMU_READ_PTR_POINTER p) d) =
      View (v_ctrl (mview d)) (v_lut (mview d)) (v_wptr (mview d)) p (v_busy (mview d));
  wdata_write w c d :
    word_wf w -> 0 <= c -> v_wptr (mview d) + c < 8192 ->
    has (v_ctrl (mview d)) MMU_CTRL_LOCK_LUT_MASK = false -> v_busy (mview d) = 0%nat ->
    exists n, (n <= max_busy)%nat /\ (c = 0 -> n = 0%nat) /\
      mview (reg_write LUT_WDATA (wdata w c) d) =
        View (v_ctrl (mview d)) (burst (v_wptr (mview d)) w (c + 1) (v_lut (mview d)))
          (v_wptr (mview d) + c + 1) (v_rptr (mview d)) n;
  rdata_read d :
    MMU_LUT_RDATA_DATA (reg_read LUT_RDATA d).1 =
      mappedValue (v_lut (mview d) (v_rptr (mview d)))
      + lvalid (v_lut (mview d) (v_rptr (mview d))) * 2 ^ 15 /\
    mview (reg_read LUT_RDATA d).2 =
      View (v_ctrl (mview d)) (v_lut (mview d)) (v_wptr (mview d)) (v_rptr (mview d) + 1)
        (v_busy (mview d));
  sts_read d :
    has (reg_read STS d).1 MMU_STS_BUSY_MASK = negb (Nat.eqb (v_busy (mview d)) 0) /\
    mview (reg_read STS d).2 =
      View (v_ctrl (mview d)) (v_lut (mview d)) (v_wptr (mview d)) (v_rptr (mview d))
        (Nat.pred (v_busy (mview d)))
}.

Lemma burst_other p w n t i : ~ p <= i < p + n -> burst p w n t i = t i.
Proof.
  intros Hi. unfold burst.
  destruct (Z.leb_spec p i), (Z.ltb_spec i (p + n)); cbn [andb]; (done || lia).
Qed.

Lemma burst_in p w n t i :
  p <= i < p + n -> burst p w n t i = LutWord ((mappedValue w + (i - p)) mod 2 ^ 15) (lvalid w).
Proof. intros Hi. unfold burst. by rewrite (proj2 (Z.leb_le p i)), (proj2 (Z.ltb_lt i _)) by lia. Qed.

(** Idle and out of reset: the state between driver calls. *)
Definition ready {D} `{MmuLaws D} (d : D) : Prop :=
  has (v_ctrl (mview d)) MMU_CTRL_SWRST_MASK = false /\ v_busy (mview d) = 0%nat.

(** ** Address arithmetic in closed form *)

Definition unit_shift (u : unit_size) : Z := 12 + unit_index u.
(** The block of addresses whose units a table word can name. *)
Definition window (u : unit_size) : Z := if decide (u = kMMU_UnitSize4KB) then 2 ^ 27 else 2 ^ 28.
Definition index_bits (p : page_option) : Z := if decide (p = kMMU_PageOpt_1Page) then 13 else 11.
(** The page the code selects: bits 0 and 1 of the option. *)
Definition code_page (p : page_option) : Z :=
  if decide (p = kMMU_PageOpt_1Page) then 0 else Z.land (page_value p) 3.

Lemma MMU_UNIT_BYTE_SIZE_eq u : MMU_UNIT_BYTE_SIZE u = 2 ^ unit_shift u.
Proof. by destruct u. Qed.

Lemma land_window x k n : 0 <= k <= n -> Z.land x (Z.ones n - Z.ones k) = x / 2 ^ k mod 2 ^ (n - k) * 2 ^ k.
Proof.
  intros Hk. apply Z.bits_inj'. intros i Hi. rewrite Z.land_spec.
  replace (Z.ones n - Z.ones k) with (Z.shiftl (Z.ones (n - k)) k).
  2: { rewrite Z.shiftl_mul_pow2, !Z.ones_equiv by lia. unfold Z.pred.
       replace n with (n - k + k) at 2 by lia. rewrite Z.pow_add_r by lia. lia. }
  rewrite Z.shiftl_spec by lia. destruct (Z.lt_ge_cases i k).
  - rewrite Z.mul_pow2_bits_low by lia. rewrite (Z.testbit_neg_r _ (i - k)) by lia. apply andb_false_r.
  - rewrite Z.mul_pow2_bits by lia. destruct (Z.lt_ge_cases (i - k) (n - k)).
    + rewrite Z.ones_spec_low, Z.mod_pow2_bits_low, Z.div_pow2_bits by lia.
      rewrite andb_true_r. f_equal; lia.
    + rewrite Z.ones_spec_high, Z.mod_pow2_bits_high by lia. apply andb_false_r.
Qed.

Lemma LUTWord_eq u addr :
  MMU_TransferAddrToLUTWord u addr =
    Ok (LutWord (addr mod window u / 2 ^ unit_shift u) 1).
Proof.
  assert (forall k n, 0 <= k <= n -> n - k <= 15 ->
    lut_word_of (u16 (Z.shiftr (Z.land addr (Z.ones n - Z.ones k)) k)) 1
    = LutWord (addr mod 2 ^ n / 2 ^ k) 1) as H.
  { intros k n Hk Hn. rewrite land_window, Z.shiftr_div_pow2, Z.div_mul by lia.
    assert (addr / 2 ^ k mod 2 ^ (n - k) = addr mod 2 ^ n / 2 ^ k) as ->.
    { apply Z.bits_inj'. intros i Hi. rewrite Z.div_pow2_bits by lia.
      destruct (Z.lt_ge_cases i (n - k)).
      - rewrite !Z.mod_pow2_bits_low, Z.div_pow2_bits by lia. done.
      - by rewrite !Z.mod_pow2_bits_high by lia. }
    assert (0 <= addr mod 2 ^ n / 2 ^ k < 2 ^ 15).
    { assert (0 <= addr mod 2 ^ n < 2 ^ n) by (apply Z.mod_pos_bound; lia). split.
      - apply Z.div_pos; lia.
      - apply Z.div_lt_upper_bound; [lia|]. eapply Z.lt_le_trans; [apply H|].
        rewrite <- Z.pow_add_r by lia. apply Z.pow_le_mono_r; lia. }
    unfold lut_word_of. rewrite (wrap_small 16), (wrap_small 15) by (pow2; lia). done. }
  destruct u.
  - exact (f_equal Ok (H 12 27 ltac:(lia) ltac:(lia))).
  - exact (f_equal Ok (H 13 28 ltac:(lia) ltac:(lia))).
  - exact (f_equal Ok (H 14 28 ltac:(lia) ltac:(lia))).
  - exact (f_equal Ok (H 15 28 ltac:(lia) ltac:(lia))).
  - exact (f_equal Ok (H 16 28 ltac:(lia) ltac:(lia))).
Qed.

Lemma LUTIndex_eq u p addr :
  MMU_TransferAddrToLUTIndex u p addr =
    Ok (addr / 2 ^ unit_shift u mod 2 ^ index_bits p + code_page p * 2 ^ 11).
Proof.
  assert (forall k n, 0 <= k <= n -> n - k <= 13 ->
    u16 (Z.land addr (Z.ones n) / 2 ^ k) = addr / 2 ^ k mod 2 ^ (n - k)) as H.
  { intros k n Hk Hn. rewrite Z.land_ones by lia.
    assert (addr mod 2 ^ n / 2 ^ k = addr / 2 ^ k mod 2 ^ (n - k)) as ->.
    { apply Z.bits_inj'. intros i Hi. rewrite Z.div_pow2_bits by lia.
      destruct (Z.lt_ge_cases i (n - k)).
      - rewrite !Z.mod_pow2_bits_low, Z.div_pow2_bits by lia. done.
      - by rewrite !Z.mod_pow2_bits_high by lia. }
    apply wrap_small. assert (0 <= addr / 2 ^ k mod 2 ^ (n - k) < 2 ^ (n - k)) by (apply Z.mod_pos_bound; lia).
    assert (2 ^ (n - k) <= 2 ^ 16) by (apply Z.pow_le_mono_r; lia). lia. }
  assert (forall x pg, 0 <= pg < 4 -> u16 (Z.lor (x mod 2 ^ 11) (Z.shiftl pg 11)) = x mod 2 ^ 11 + pg * 2 ^ 11) as Hpg.
  { intros x pg Hp. assert (0 <= x mod 2 ^ 11 < 2 ^ 11) by (apply Z.mod_pos_bound; lia).
    rewrite Z.lor_comm, lor_pack_shiftl by lia. rewrite wrap_small by (pow2; lia). lia. }
  unfold index_bits, code_page. destruct (decide (p = kMMU_PageOpt_1Page)) as [->|Hne].
  - rewrite Z.add_0_r. destruct u.
    + exact (f_equal Ok (H 12 25 ltac:(lia) ltac:(lia))).
    + exact (f_equal Ok (H 13 26 ltac:(lia) ltac:(lia))).
    + exact (f_equal Ok (H 14 27 ltac:(lia) ltac:(lia))).
    + exact (f_equal Ok (H 15 28 ltac:(lia) ltac:(lia))).
    + exact (f_equal Ok (H 16 29 ltac:(lia) ltac:(lia))).
  - assert (0 <= Z.land (page_value p) 3 < 4) as Hr by (destruct p; vm_compute; split; (discriminate || reflexivity)).
    assert (u8 (Z.land (u8 (page_value p)) (Z.shiftr 0x6 1)) = Z.land (page_value p) 3) as Hsel
      by (by destruct p).
    assert (forall k, 12 <= k <= 16 ->
      Ok (u16 (Z.lor (u16 (Z.land addr (Z.ones (k + 11)) / 2 ^ k))
        (Z.shiftl (u8 (Z.land (u8 (page_value p)) (Z.shiftr 0x6 1))) 11)))
      = Ok (addr / 2 ^ k mod 2 ^ 11 + Z.land (page_value p) 3 * 2 ^ 11)) as H4.
    { intros k Hk. rewrite H, Hsel by lia. replace (k + 11 - k) with 11 by lia. by rewrite Hpg. }
    destruct u.
    + etransitivity; [|exact (H4 12 ltac:(lia))]. destruct p; [done|reflexivity..].
    + etransitivity; [|exact (H4 13 ltac:(lia))]. destruct p; [done|reflexivity..].
    + etransitivity; [|exact (H4 14 ltac:(lia))]. destruct p; [done|reflexivity..].
    + etransitivity; [|exact (H4 15 ltac:(lia))]. destruct p; [done|reflexivity..].
    + etransitivity; [|exact (H4 16 ltac:(lia))]. destruct p; [done|reflexivity..].
Qed.

(** ** The table operations on a documented device *)

Section Table.
Context {D : Type} `{ML : MmuLaws D}.

Lemma UnlockLUT_run d :
  ready d ->
  exists d', MMU_UnlockLUT d = Ok (tt, d') /\ ready d' /\
    has (v_ctrl (mview d')) MMU_CTRL_LOCK_LUT_MASK = false /\ v_lut (mview d') = v_lut (mview d).
Proof.
  intros [Hr Hb]. unfold MMU_UnlockLUT, clear_bits. rewrite bind_rd, ctrl_read.
  eexists. split; [reflexivity|]. unfold ready.
  rewrite ctrl_write by by apply has_bic_other. cbn [v_ctrl v_lut v_busy].
  pose proof lock_mask. split_and!; try done; [by apply has_bic_other|apply has_bic32; lia].
Qed.

Lemma LockLUT_run d :
  ready d ->
  exists d', MMU_LockLUT d = Ok (tt, d') /\ ready d' /\ v_lut (mview d') = v_lut (mview d).
Proof.
  intros [Hr Hb]. unfold MMU_LockLUT, set_bits. rewrite bind_rd, ctrl_read.
  assert (has (Z.lor (v_ctrl (mview d)) MMU_CTRL_LOCK_LUT_MASK) MMU_CTRL_SWRST_MASK = false)
    by (apply has_lor_other; [done|apply lock_reset_disjoint]).
  eexists. split; [reflexivity|]. unfold ready. by rewrite ctrl_write.
Qed.

(** Waiting for the MMU takes as many reads as it stays busy. *)
Lemma wait_idle n : forall fuel d,
  v_busy (mview d) = n -> (n < fuel)%nat ->
  exists d', poll_set fuel STS MMU_STS_BUSY_MASK d = Ok (tt, d') /\
    mview d' = View (v_ctrl (mview d)) (v_lut (mview d)) (v_wptr (mview d)) (v_rptr (mview d)) 0.
Proof.
  induction n as [|n IH]; intros fuel d Hn Hf; (destruct fuel as [|fuel]; [lia|]);
    unfold poll_set; cbn [while_]; rewrite bind_assoc, bind_rd;
    destruct (sts_read d) as [Hv Hs]; destruct (reg_read STS d) as [x e]; cbn [fst snd] in *;
    rewrite bind_ret, Hv, Hn.
  - cbn [Nat.eqb negb]. exists e. split; [done|]. by rewrite Hs, Hn.
  - cbn [Nat.eqb negb]. rewrite bind_ret.
    destruct (IH fuel e) as (d' & Hrun & Hd'); [by rewrite Hs, Hn|lia|].
    exists d'. split; [exact Hrun|]. by rewrite Hd', Hs.
Qed.

Lemma UpdateLUT_run fuel p w n op d :
  ready d -> word_wf w -> 0 <= p -> 0 < n -> p + n <= 8192 -> (max_busy < fuel)%nat ->
  (op = kMMU_LUTSingleWrite -> n = 1) ->
  exists d', MMU_UpdateLUTBlocking fuel p [w] n op d = Ok (tt, d') /\ ready d' /\
    v_lut (mview d') = burst p w n (v_lut (mview d)).
Proof.
  intros Hr Hw Hp Hn Hpn Hf Hop. unfold MMU_UpdateLUTBlocking.
  rewrite !assert_true, !bind_ret by lia.
  destruct (UnlockLUT_run d Hr) as (d1 & Hd1 & [Hr1 Hb1] & Hl1 & Ht1).
  rewrite (bind_ok _ _ _ _ _ Hd1).
  pose proof (wptr_write p d1 ltac:(lia)) as Hv2.
  set (d2 := reg_write WRITE_PTR (MMU_WRITE_PTR_POINTER p) d1) in *.
  destruct (wdata_write w (n - 1) d2 Hw) as (b & Hbb & Hb0 & Hv3);
    [lia|rewrite Hv2; cbn; lia|by rewrite Hv2..|].
  set (d3 := reg_write LUT_WDATA (wdata w (n - 1)) d2) in *.
  rewrite Hv2 in Hv3. cbn [v_ctrl v_lut v_wptr v_rptr v_busy] in Hv3.
  replace (n - 1 + 1) with n in Hv3 by lia. rewrite Ht1 in Hv3.
  assert (exists d4, (match op with
    | kMMU_LUTSingleWrite => bind (wr WRITE_PTR (MMU_WRITE_PTR_POINTER p)) (fun _ => write_words [w] (Z.to_nat n))
    | kMMU_LUTBurstWrite => bind (wr WRITE_PTR (MMU_WRITE_PTR_POINTER p)) (fun _ =>
        bind (lift (aget [w] 0)) (fun w => bind (wr LUT_WDATA (wdata w (n - 1)))
          (fun _ => poll_set fuel STS MMU_STS_BUSY_MASK)))
    end) d1 = Ok (tt, d4) /\ ready d4 /\ v_lut (mview d4) = burst p w n (v_lut (mview d)))
    as (d4 & Hd4 & Hr4 & Ht4).
  { destruct op.
    - assert (n = 1) as -> by auto. exists d3. change (Z.to_nat 1) with 1%nat. split; [reflexivity|].
      unfold ready. rewrite Hv3. cbn. by rewrite Hb0.
    - rewrite bind_wr. change (aget [w] 0) with (Ok w). rewrite bind_lift, bind_wr. fold d2 d3.
      destruct (wait_idle b fuel d3) as (d4 & Hd4 & Hv4); [by rewrite Hv3|lia|].
      exists d4. split; [exact Hd4|]. unfold ready. by rewrite Hv4, Hv3. }
  rewrite (bind_ok _ _ _ _ _ Hd4).
  destruct (LockLUT_run d4 Hr4) as (d5 & Hd5 & Hr5 & Ht5).
  exists d5. split_and!; [done|done|by rewrite Ht5].
Qed.

Lemma ReadLUT_run p d :
  ready d -> 0 <= p < 8192 ->
  exists d', MMU_ReadLUT p 1 d = Ok ([v_lut (mview d) p], d') /\ ready d' /\
    v_lut (mview d') = v_lut (mview d).
Proof.
  intros [Hr Hb] Hp. unfold MMU_ReadLUT. rewrite !assert_true, !bind_ret, bind_wr by lia.
  pose proof (rptr_write p d Hp) as Hv1.
  set (d1 := reg_write READ_PTR (MMU_READ_PTR_POINTER p) d) in *.
  change (Z.to_nat 1) with 1%nat. cbn [read_words]. rewrite bind_rd.
  destruct (rdata_read d1) as [Hx Hv2]. destruct (reg_read LUT_RDATA d1) as [x d2]. cbn [fst snd] in *.
  rewrite bind_ret. unfold ret. exists d2.
  pose proof (lut_wf d p) as [Hm Hvl]. rewrite Hv1 in *. cbn [v_lut v_rptr v_ctrl v_busy v_wptr] in *.
  assert (has (MMU_LUT_RDATA_DATA x) 0x8000 = (lvalid (v_lut (mview d) p) =? 1)) as Hhas.
  { rewrite Hx. unfold has. change 0x8000 with (Z.ones 16 - Z.ones 15).
    rewrite land_window by lia. change (2 ^ (16 - 15)) with 2.
    replace ((mappedValue _ + _ * 2 ^ 15) / 2 ^ 15) with (lvalid (v_lut (mview d) p)) by zlia.
    assert (lvalid (v_lut (mview d) p) = 0 \/ lvalid (v_lut (mview d) p) = 1) as [->| ->] by lia; done. }
  split_and!.
  - rewrite Hhas, Hx. rewrite wrap_small by (pow2; lia).
    change 0x7FFF with (Z.ones 15). rewrite Z.land_ones, Z.mod_add, Z.mod_small by lia.
    do 3 f_equal. destruct (v_lut (mview d) p) as [mp vl]; cbn in *. f_equal.
    destruct (Z.eqb_spec vl 1); lia.
  - unfold ready. by rewrite Hv2.
  - by rewrite Hv2.
Qed.
End Table.

(** ** Translation *)

(** The table entry the code consults for an address, and the address a word
    names. *)
Definition code_entry (u : unit_size) (p : page_option) (a : Z) : Z :=
  a / 2 ^ unit_shift u mod 2 ^ index_bits p + code_page p * 2 ^ 11.
Definition translate (u : unit_size) (w : lut_word) (a : Z) : Z :=
  a / 2 ^ 28 * 2 ^ 28 + mappedValue w * 2 ^ unit_shift u + a mod 2 ^ unit_shift u.



Lemma code_page_range p : 0 <= code_page p < 4 /\ code_page kMMU_PageOpt_1Page = 0.
Proof. split; [|done]. destruct p; vm_compute; split; (discriminate || reflexivity). Qed.

Lemma entry_range u p a :
  0 <= code_entry u p a < 8192 /\
  code_entry u p a - a / 2 ^ unit_shift u mod 2 ^ index_bits p + 2 ^ index_bits p <= 8192.
Proof.
  unfold code_entry. assert (0 < 2 ^ index_bits p) by (destruct p; reflexivity).
  pose proof (Z.mod_pos_bound (a / 2 ^ unit_shift u) (2 ^ index_bits p) ltac:(lia)).
  destruct (code_page_range p) as [Hr H1]. unfold index_bits in *.
  destruct (decide (p = kMMU_PageOpt_1Page)) as [->|Hne]; [rewrite H1|];
    change (2 ^ 11) with 2048 in *; change (2 ^ 13) with 8192 in *; lia.
Qed.

Lemma unit_shift_cases u : 12 <= unit_shift u <= 16 /\ 0 < 2 ^ unit_shift u /\
  window u <= 2 ^ 28 /\ window u mod 2 ^ unit_shift u = 0 /\ window u / 2 ^ unit_shift u <= 2 ^ 15.
Proof. destruct u; vm_compute; repeat split; discriminate. Qed.

(** The three parts of a translated address do not overlap. *)
Lemma translate_lor u w a mask :
  aget offset_masks (unit_index u) = Ok mask -> 0 <= a < 2 ^ 32 ->
  0 <= mappedValue w -> mappedValue w * 2 ^ unit_shift u < 2 ^ 28 ->
  Z.lor (Z.lor (Z.land a 0xF0000000) (u32 (Z.shiftl (mappedValue w) (unit_shift u)))) (Z.land a mask)
  = translate u w a.
Proof.
  intros Hmask Ha Hw0 Hw. pose proof (unit_shift_cases u) as (Hs & Hp & _).
  assert (mask = Z.ones (unit_shift u)) as -> by (destruct u; injection Hmask; done).
  change 0xF0000000 with (Z.ones 32 - Z.ones 28). rewrite land_window, Z.land_ones by lia.
  rewrite (Z.mod_small (a / 2 ^ 28)) by (split; [apply Z.div_pos; lia|apply Z.div_lt_upper_bound; lia]).
  rewrite Z.shiftl_mul_pow2 by lia. rewrite (wrap_small 32) by lia.
  pose proof (Z.mod_pos_bound a (2 ^ unit_shift u) Hp).
  rewrite <- Z.lor_assoc, (lor_pack (mappedValue w)) by lia.
  rewrite lor_pack; [unfold translate; lia|lia|]. split; [lia|].
  assert (mappedValue w * 2 ^ unit_shift u <= 2 ^ 28 - 2 ^ unit_shift u); [|lia].
  replace (2 ^ 28) with (2 ^ (28 - unit_shift u) * 2 ^ unit_shift u) in *
    by (rewrite <- Z.pow_add_r by lia; f_equal; lia).
  assert (mappedValue w < 2 ^ (28 - unit_shift u)) by nia. nia.
Qed.

Definition lut_of {D} `{MmuLaws D} (s : mmu_state D) : Z -> lut_word := v_lut (mview (hw s)).

(** [s'] is [s] with the table [t]: globals kept, the MMU idle. *)
Definition with_lut {D} `{MmuLaws D} (s s' : mmu_state D) (t : Z -> lut_word) : Prop :=
  ready (hw s') /\ lut_of s' = t /\ g_selectedUnitSize s' = g_selectedUnitSize s /\
  g_selectedPageOpt s' = g_selectedPageOpt s.

Section Operations.
Context {D : Type} `{ML : MmuLaws D}.

Lemma on_hw_ok {A} (m : M D A) s a d :
  m (hw s) = Ok (a, d) ->
  on_hw m s = Ok (a, MmuState d (g_selectedUnitSize s) (g_selectedPageOpt s)).
Proof. intros H. unfold on_hw. by rewrite H. Qed.

Lemma lut_word_for_run (s : mmu_state D) a :
  lut_word_for a s =
    Ok (LutWord (a mod window (g_selectedUnitSize s) / 2 ^ unit_shift (g_selectedUnitSize s)) 1, s).
Proof. unfold lut_word_for, bind, gets, lift. by rewrite LUTWord_eq. Qed.

Lemma lut_index_for_run (s : mmu_state D) a :
  lut_index_for a s = Ok (code_entry (g_selectedUnitSize s) (g_selectedPageOpt s) a, s).
Proof. unfold lut_index_for, bind, gets, lift. by rewrite LUTIndex_eq. Qed.

Lemma assert_aligned_run (s : mmu_state D) x :
  x mod 2 ^ unit_shift (g_selectedUnitSize s) = 0 -> assert_aligned x s = Ok (tt, s).
Proof.
  intros H. unfold assert_aligned, bind, gets. rewrite MMU_UNIT_BYTE_SIZE_eq, H. done.
Qed.

Lemma update_run fuel p w n op (s : mmu_state D) :
  ready (hw s) -> word_wf w -> 0 <= p -> 0 < n -> p + n <= 8192 -> (max_busy < fuel)%nat ->
  (op = kMMU_LUTSingleWrite -> n = 1) ->
  exists s', on_hw (MMU_UpdateLUTBlocking fuel p [w] n op) s = Ok (tt, s') /\
    with_lut s s' (burst p w n (lut_of s)).
Proof.
  intros. destruct (UpdateLUT_run fuel p w n op (hw s)) as (d & Hd & Hr & Ht); try done.
  eexists. split; [by apply on_hw_ok|]. done.
Qed.

Lemma read_run p (s : mmu_state D) :
  ready (hw s) -> 0 <= p < 8192 ->
  exists s', on_hw (MMU_ReadLUT p 1) s = Ok ([lut_of s p], s') /\ with_lut s s' (lut_of s).
Proof.
  intros Hr Hp. destruct (ReadLUT_run p (hw s) Hr Hp) as (d & Hd & Hr' & Ht).
  eexists. split; [by apply on_hw_ok|]. done.
Qed.

Lemma GetPhyAddr_run a (s : mmu_state D) :
  ready (hw s) -> 0 <= a < 2 ^ 32 ->
  let w := lut_of s (code_entry (g_selectedUnitSize s) (g_selectedPageOpt s) a) in
  mappedValue w * 2 ^ unit_shift (g_selectedUnitSize s) < 2 ^ 28 ->
  exists s', MMU_GetPhyAddr a s = Ok (translate (g_selectedUnitSize s) w a, s') /\
    with_lut s s' (lut_of s).
Proof.
  intros Hr Ha w Hw. unfold MMU_GetPhyAddr. rewrite (bind_ok _ _ _ _ _ (lut_index_for_run s a)).
  destruct (read_run (code_entry (g_selectedUnitSize s) (g_selectedPageOpt s) a) s Hr)
    as (s' & Hs' & Hl); [apply entry_range|].
  rewrite (bind_ok _ _ _ _ _ Hs'). change (aget [?x] 0) with (Ok x). rewrite bind_lift.
  unfold bind, gets at 1. destruct Hl as (Hr' & Ht & Hu & Hp). rewrite Hu.
  assert (aget unit_shifts (unit_index (g_selectedUnitSize s)) = Ok (unit_shift (g_selectedUnitSize s)))
    as -> by by destruct (g_selectedUnitSize s).
  destruct (aget offset_masks (unit_index (g_selectedUnitSize s))) as [mask|] eqn:Hm;
    [|by destruct (g_selectedUnitSize s)].
  cbn [lift]. fold w. unfold ret. rewrite (translate_lor _ _ _ mask Hm); try done.
  - exists s'. by unfold with_lut.
  - apply lut_wf.
Qed.
End Operations.

(** *** Regions *)

Section Regions.
Context {D : Type} `{ML : MmuLaws D}.

(** A region of [n] units at [v]: unit-aligned, inside the 32-bit space, and
    its entries do not run past the selected page of the table. *)
Record region (s : mmu_state D) (v n : Z) : Prop := {
  r_base : 0 <= v;
  r_aligned : v mod 2 ^ unit_shift (g_selectedUnitSize s) = 0;
  r_end : v + n * 2 ^ unit_shift (g_selectedUnitSize s) <= 2 ^ 32;
  r_page : v / 2 ^ unit_shift (g_selectedUnitSize s) mod 2 ^ index_bits (g_selectedPageOpt s) + n
           <= 2 ^ index_bits (g_selectedPageOpt s);
  r_count : 0 < n
}.

Abbreviation entry s a := (code_entry (g_selectedUnitSize s) (g_selectedPageOpt s) a).

Lemma region_count s v n : region s v n -> n <= 8192 /\ entry s v + n <= 8192.
Proof.
  intros [? ? ? Hpg ?]. pose proof (entry_range (g_selectedUnitSize s) (g_selectedPageOpt s) v) as [? Hr].
  assert (2 ^ index_bits (g_selectedPageOpt s) <= 8192) by (by destruct (g_selectedPageOpt s)).
  pose proof (Z.mod_pos_bound (v / 2 ^ unit_shift (g_selectedUnitSize s))
    (2 ^ index_bits (g_selectedPageOpt s)) ltac:(by destruct (g_selectedPageOpt s))). lia.
Qed.

(** The entry of the address [a] of a region: the first plus the unit. *)
Lemma region_entry s v n a :
  region s v n -> v <= a < v + n * 2 ^ unit_shift (g_selectedUnitSize s) ->
  let j := (a - v) / 2 ^ unit_shift (g_selectedUnitSize s) in
  entry s a = entry s v + j /\ 0 <= j < n /\
  a - v = j * 2 ^ unit_shift (g_selectedUnitSize s) + a mod 2 ^ unit_shift (g_selectedUnitSize s).
Proof.
  intros [H0 Hal He Hpg Hn] Ha j. pose proof (unit_shift_cases (g_selectedUnitSize s)) as (_ & Hp & _).
  set (K := 2 ^ unit_shift (g_selectedUnitSize s)) in *.
  set (B := 2 ^ index_bits (g_selectedPageOpt s)) in *.
  assert (0 < B) by (subst B; by destruct (g_selectedPageOpt s)).
  assert (v = K * (v / K)) as Hv by (apply Z.div_exact; lia).
  assert (0 <= j < n) as Hj.
  { subst j. split; [apply Z.div_pos; lia|apply Z.div_lt_upper_bound; lia]. }
  assert (a / K = v / K + j) as Hq.
  { subst j. replace (a / K) with ((v / K * K + (a - v)) / K) by (f_equal; lia).
    rewrite Z.div_add_l by lia. done. }
  split_and!; try lia.
  - unfold code_entry. fold K B. rewrite Hq.
    assert ((v / K + j) mod B = v / K mod B + j) as ->; [|lia].
    pose proof (Z.mod_pos_bound (v / K) B ltac:(lia)).
    rewrite <- Z.add_mod_idemp_l by lia. apply Z.mod_small. lia.
  - pose proof (Z.div_mod a K ltac:(lia)). rewrite Hq in *. nia.
Qed.

Lemma size_aligned (s : mmu_state D) n :
  (n * 2 ^ unit_shift (g_selectedUnitSize s)) mod 2 ^ unit_shift (g_selectedUnitSize s) = 0.
Proof. pose proof (unit_shift_cases (g_selectedUnitSize s)). apply Z.mod_mul. lia. Qed.

Lemma unit_count_run (s : mmu_state D) n :
  0 <= n <= 8192 -> unit_count (n * 2 ^ unit_shift (g_selectedUnitSize s)) s = Ok (n, s).
Proof.
  intros Hn. pose proof (unit_shift_cases (g_selectedUnitSize s)). unfold unit_count, bind, gets.
  rewrite MMU_UNIT_BYTE_SIZE_eq, Z.div_mul, wrap_small by (pow2; lia). done.
Qed.

(** What [MMU_SetupRegionMap] leaves in the table. *)
Lemma SetupRegionMap_run fuel v ph n s :
  ready (hw s) -> (max_busy < fuel)%nat -> region s v n ->
  ph mod 2 ^ unit_shift (g_selectedUnitSize s) = 0 ->
  exists s', MMU_SetupRegionMap fuel v ph (n * 2 ^ unit_shift (g_selectedUnitSize s)) s = Ok (tt, s') /\
    with_lut s s' (burst (entry s v)
      (LutWord (ph mod window (g_selectedUnitSize s) / 2 ^ unit_shift (g_selectedUnitSize s)) 1)
      n (lut_of s)).
Proof.
  intros Hr Hf Hreg Hph. destruct (region_count s v n Hreg) as [Hn Hen]. destruct Hreg as [H0 Hal He Hpg Hn0].
  pose proof (unit_shift_cases (g_selectedUnitSize s)) as (Hsh & Hp & Hw28 & Hwm & Hw15).
  unfold MMU_SetupRegionMap.
  rewrite (bind_ok _ _ _ _ _ (assert_aligned_run s v Hal)).
  rewrite (bind_ok _ _ _ _ _ (assert_aligned_run s ph Hph)).
  rewrite (bind_ok _ _ _ _ _ (assert_aligned_run s _ (size_aligned s n))).
  rewrite (bind_ok _ _ _ _ _ (lut_word_for_run s ph)), (bind_ok _ _ _ _ _ (lut_index_for_run s v)).
  rewrite (bind_ok _ _ _ _ _ (unit_count_run s n ltac:(lia))). apply update_run; try done; [|apply entry_range].
  assert (0 < window (g_selectedUnitSize s)) by (destruct (g_selectedUnitSize s); reflexivity).
  pose proof (Z.mod_pos_bound ph (window (g_selectedUnitSize s)) ltac:(lia)).
  split; cbn; [|lia]. split; [apply Z.div_pos; lia|].
  eapply Z.lt_le_trans; [|exact Hw15]. apply Z.div_lt_upper_bound; [lia|].
  apply Z.div_exact in Hwm; lia.
Qed.

Lemma TearDownRegionMap_run fuel v n s :
  ready (hw s) -> (max_busy < fuel)%nat -> region s v n ->
  exists s', MMU_TearDownRegionMap fuel v (n * 2 ^ unit_shift (g_selectedUnitSize s)) s = Ok (tt, s') /\
    with_lut s s' (burst (entry s v) (set_valid 0 (lut_of s (entry s v))) n (lut_of s)).
Proof.
  intros Hr Hf Hreg. destruct (region_count s v n Hreg) as [Hn Hen]. destruct Hreg as [H0 Hal He Hpg Hn0].
  pose proof (unit_shift_cases (g_selectedUnitSize s)) as (Hsh & Hp & _).
  unfold MMU_TearDownRegionMap.
  rewrite (bind_ok _ _ _ _ _ (assert_aligned_run s v Hal)).
  rewrite (bind_ok _ _ _ _ _ (assert_aligned_run s _ (size_aligned s n))).
  rewrite (bind_ok _ _ _ _ _ (lut_index_for_run s v)).
  rewrite (bind_ok _ _ _ _ _ (unit_count_run s n ltac:(lia))).
  destruct (read_run (entry s v) s Hr) as (s1 & Hs1 & Hr1 & Ht1 & Hu1 & Hp1); [apply entry_range|].
  rewrite (bind_ok _ _ _ _ _ Hs1). change (aget [?x] 0) with (Ok x). rewrite bind_lift.
  destruct (update_run fuel (entry s v) (set_valid 0 (lut_of s (entry s v))) n kMMU_LUTBurstWrite s1)
    as (s2 & Hs2 & Hr2 & Ht2 & Hu2 & Hp2); try done; [|apply entry_range|].
  - destruct (lut_wf (hw s) (entry s v)). split; cbn; [done|lia].
  - exists s2. split; [done|]. unfold with_lut. rewrite Ht2, Ht1, Hu2, Hp2. done.
Qed.

(** Translation through a burst that starts at the word of [ph]. *)
Lemma burst_translates s s' t v ph n vl a :
  region s v n -> ph mod 2 ^ unit_shift (g_selectedUnitSize s) = 0 ->
  ph mod 2 ^ 28 + n * 2 ^ unit_shift (g_selectedUnitSize s) <= window (g_selectedUnitSize s) ->
  with_lut s s' t ->
  (forall i, entry s v <= i < entry s v + n -> t i = LutWord
     ((ph mod window (g_selectedUnitSize s) / 2 ^ unit_shift (g_selectedUnitSize s)
       + (i - entry s v)) mod 2 ^ 15) vl) ->
  v <= a < v + n * 2 ^ unit_shift (g_selectedUnitSize s) -> a / 2 ^ 28 = ph / 2 ^ 28 ->
  lvalid (lut_of s' (entry s' a)) = vl /\
  exists s'', MMU_GetPhyAddr a s' = Ok (ph + (a - v), s'').
Proof.
  intros Hreg Hph Hfit (Hr & Ht & Hu & Hp) Hburst Ha Htop.
  destruct (region_entry s v n a Hreg Ha) as (Hent & Hj & Haj).
  set (u := g_selectedUnitSize s) in *. set (j := (a - v) / 2 ^ unit_shift u) in *.
  pose proof (unit_shift_cases u) as (Hsh & HK & Hw28 & Hwm & Hw15).
  assert (ph mod window u = ph mod 2 ^ 28) as Hwin.
  { unfold window in *. destruct (decide (u = kMMU_UnitSize4KB)); [|done].
    assert (0 <= ph mod 2 ^ 28) by (apply Z.mod_pos_bound; lia).
    destruct Hreg as [_ _ _ _ Hn]. assert (0 < n * 2 ^ unit_shift u) by lia. zlia. }
  assert (ph mod 2 ^ 28 = ph mod 2 ^ 28 / 2 ^ unit_shift u * 2 ^ unit_shift u) as Hq.
  { rewrite Z.mul_comm. apply Z.div_exact; [lia|]. rewrite <- Hph.
    apply Z.mod_mod_divide. exists (2 ^ (28 - unit_shift u)).
    rewrite <- Z.pow_add_r by lia. f_equal; lia. }
  assert (lut_of s' (entry s' a) = LutWord (ph mod 2 ^ 28 / 2 ^ unit_shift u + j) vl) as Hword.
  { rewrite Hu, Hp. fold u. rewrite Hent, Ht, Hburst by lia.
    rewrite Hwin. f_equal. replace (code_entry u _ v + j - code_entry u _ v) with j by lia.
    apply Z.mod_small. assert (0 <= ph mod 2 ^ 28 / 2 ^ unit_shift u) by (apply Z.div_pos; [apply Z.mod_pos_bound; lia|lia]).
    split; [lia|]. apply Z.div_exact in Hwm; [|lia]. nia. }
  split; [by rewrite Hword|].
  destruct (GetPhyAddr_run a s' Hr) as (s'' & Hrun & _).
  - destruct Hreg. fold u in r_end0. lia.
  - rewrite Hword, Hu. fold u. cbn [mappedValue]. nia.
  - exists s''. rewrite Hrun, Hword, Hu. fold u. unfold translate. cbn [mappedValue]. do 2 f_equal.
    rewrite Htop. pose proof (Z.div_mod ph (2 ^ 28) ltac:(lia)). nia.
Qed.
(** [MMU_RemapRegion] makes one burst at the new place from the first word
    of the old one, then invalidates the old entries. *)
Lemma RemapRegion_run fuel v v' n s :
  ready (hw s) -> (max_busy < fuel)%nat -> region s v n -> region s v' n ->
  exists s', MMU_RemapRegion fuel v v' (n * 2 ^ unit_shift (g_selectedUnitSize s)) s = Ok (tt, s') /\
    let t := burst (entry s v') (set_valid 1 (lut_of s (entry s v))) n (lut_of s) in
    with_lut s s' (burst (entry s v) (set_valid 0 (t (entry s v))) n t).
Proof.
  intros Hr Hf Hreg Hreg'. destruct (region_count s v' n Hreg') as [Hn Hen].
  destruct (lut_wf (hw s) (entry s v)) as [Hw _].
  unfold MMU_RemapRegion.
  rewrite (bind_ok _ _ _ _ _ (assert_aligned_run s v (r_aligned _ _ _ Hreg))).
  rewrite (bind_ok _ _ _ _ _ (assert_aligned_run s v' (r_aligned _ _ _ Hreg'))).
  rewrite (bind_ok _ _ _ _ _ (assert_aligned_run s _ (size_aligned s n))).
  rewrite (bind_ok _ _ _ _ _ (lut_index_for_run s v)), (bind_ok _ _ _ _ _ (lut_index_for_run s v')).
  destruct Hreg' as [H0 Hal He Hpg Hn0].
  rewrite (bind_ok _ _ _ _ _ (unit_count_run s n ltac:(lia))).
  destruct (read_run (entry s v) s Hr) as (s1 & Hs1 & Hr1 & Ht1 & Hu1 & Hp1); [apply entry_range|].
  rewrite (bind_ok _ _ _ _ _ Hs1). change (aget [?x] 0) with (Ok x). rewrite bind_lift.
  destruct (update_run fuel (entry s v') (set_valid 1 (lut_of s (entry s v))) n kMMU_LUTBurstWrite s1)
    as (s2 & Hs2 & Hr2 & Ht2 & Hu2 & Hp2); try done; [apply entry_range|].
  rewrite (bind_ok _ _ _ _ _ Hs2). rewrite <- Hu1, <- Hu2.
  assert (region s2 v n) as Hreg2 by (destruct Hreg; split; rewrite ?Hu2, ?Hp2, ?Hu1, ?Hp1; done).
  destruct (TearDownRegionMap_run fuel v n s2 Hr2 Hf Hreg2) as (s3 & Hs3 & Hr3 & Ht3 & Hu3 & Hp3).
  exists s3. split; [exact Hs3|]. unfold with_lut. rewrite Ht3, Hu3, Hp3, Hu2, Hp2, Hu1, Hp1, Ht2, Ht1. done.
Qed.
End Regions.

(** ** A concrete peripheral

    The fields of [LUT_WDATA] are the 15-bit address, the valid bit and the
    burst count; the reset bit is bit 1, the lock bit is bit 30. *)

#[export] Instance mmu_fields : MmuFields := {
  MMU_CTRL_CLK_DIS_MASK := 1;
  MMU_CTRL_SWRST_MASK := 2;
  MMU_CTRL_MMU_EN_MASK := 4;
  MMU_CTRL_UNIT_SIZE_MASK := 0x700;
  MMU_CTRL_LOCK_LUT_MASK := 0x40000000;
  MMU_STS_BUSY_MASK := 1;
  MMU_CTRL_UNIT_SIZE x := Z.shiftl x 8;
  MMU_ADDR_RANGE_BASE_ADDR x := x;
  MMU_ADDR_RANGE_MAX_ADDR x := Z.shiftl x 16;
  MMU_WRITE_PTR_POINTER x := x;
  MMU_READ_PTR_POINTER x := x;
  MMU_LUT_WDATA_ADDR x := x;
  MMU_LUT_WDATA_VALID x := Z.shiftl x 15;
  MMU_LUT_WDATA_COUNT x := Z.shiftl x 16;
  MMU_LUT_RDATA_DATA x := x;
  MMU_READ_VFY_DATA x := x;
  MMU_READ_VFY_COUNT x := Z.shiftl x 16
}.

Definition lut_table := {t : Z -> lut_word | forall i, word_wf (t i)}.

Record mmu_dev := MmuDev { d_ctrl : Z; d_lut : lut_table; d_wptr : Z; d_rptr : Z; d_busy : nat }.

Definition wdata_word (x : Z) : lut_word := LutWord (x mod 2 ^ 15) (x / 2 ^ 15 mod 2).

Lemma burst_wf p x n (t : Z -> lut_word) :
  (forall i, word_wf (t i)) -> forall i, word_wf (burst p (wdata_word x) n t i).
Proof.
  intros Ht i. unfold burst. destruct (_ && _); [|done].
  split; cbn; [apply Z.mod_pos_bound; lia|zlia].
Qed.

#[export] Instance mmu_dev_device : Device mmu_reg mmu_dev := {
  reg_read r d :=
    match r with
    | CTRL => (d_ctrl d, d)
    | LUT_RDATA =>
        (mappedValue ((proj1_sig (d_lut d)) (d_rptr d)) + lvalid ((proj1_sig (d_lut d)) (d_rptr d)) * 2 ^ 15,
         MmuDev (d_ctrl d) (d_lut d) (d_wptr d) (d_rptr d + 1) (d_busy d))
    | STS => (if Nat.eqb (d_busy d) 0 then 0 else 1,
              MmuDev (d_ctrl d) (d_lut d) (d_wptr d) (d_rptr d) (Nat.pred (d_busy d)))
    | _ => (0, d)
    end;
  reg_write r x d :=
    match r with
    | CTRL => MmuDev x (d_lut d) (d_wptr d) (d_rptr d) (d_busy d)
    | WRITE_PTR => MmuDev (d_ctrl d) (d_lut d) x (d_rptr d) (d_busy d)
    | READ_PTR => MmuDev (d_ctrl d) (d_lut d) (d_wptr d) x (d_busy d)
    | LUT_WDATA =>
        let n := x / 2 ^ 16 + 1 in
        MmuDev (d_ctrl d)
          (exist _ (burst (d_wptr d) (wdata_word x) n (proj1_sig (d_lut d))) (burst_wf _ _ _ _ (proj2_sig (d_lut d))))
          (d_wptr d + n) (d_rptr d) (if n =? 1 then 0%nat else 3%nat)
    | _ => d
    end
}.

#[export] Instance mmu_dev_laws : MmuLaws mmu_dev.
Proof.
  refine (Build_MmuLaws mmu_dev _ mmu_fields
    (fun d => View (d_ctrl d) (proj1_sig (d_lut d)) (d_wptr d) (d_rptr d) (d_busy d)) 3%nat
    _ _ _ _ _ _ _ _ _ _); try done.
  - intros d i. exact (proj2_sig (d_lut d) i).
  - intros [m vl] c d [Hm Hv] Hc _ _ _. cbn [mappedValue lvalid] in *.
    assert (wdata (LutWord m vl) c = m + vl * 2 ^ 15 + c * 2 ^ 16) as ->.
    { unfold wdata. cbn [mappedValue lvalid MMU_LUT_WDATA_ADDR MMU_LUT_WDATA_VALID MMU_LUT_WDATA_COUNT mmu_fields].
      rewrite Z.lor_comm, (Z.lor_comm m), (lor_pack_shiftl vl m 15) by lia.
      rewrite lor_pack_shiftl by lia. lia. }
    cbn [mview reg_write mmu_dev_device d_ctrl d_lut d_wptr d_rptr d_busy v_ctrl v_lut v_wptr v_rptr v_busy proj1_sig].
    assert (wdata_word (m + vl * 2 ^ 15 + c * 2 ^ 16) = LutWord m vl) as ->
      by (unfold wdata_word; f_equal; zlia).
    assert ((m + vl * 2 ^ 15 + c * 2 ^ 16) / 2 ^ 16 = c) as -> by zlia.
    exists (if c + 1 =? 1 then 0%nat else 3%nat). split; [destruct (_ =? _); lia|split; [by intros ->|]].
    f_equal. lia.
  - intros d. by destruct d as [? ? ? ? [|n]].
Defined.

Lemma blank_wf : word_wf (LutWord 0 0).
Proof. split; cbn; lia. Qed.
Definition blank_table : lut_table :=
  exist (fun t => forall i, word_wf (t i)) (fun _ => LutWord 0 0) (fun _ => blank_wf).
Definition blank_mmu (u : unit_size) (p : page_option) : mmu_state mmu_dev :=
  MmuState (MmuDev 0 blank_table 0 0 0) u p.
Definition a_region : mmu_state mmu_dev := blank_mmu kMMU_UnitSize64KB kMMU_PageOpt_1Page.

(** ** Claims *)



(** [MMU_TearDownRegionMap] returns, marks every entry of the region
    invalid and leaves the other entries as they were. *)
Theorem mmu_teardown_invalidates {D} `{MmuLaws D} fuel (s : mmu_state D) v n :
  ready (hw s) -> (max_busy < fuel)%nat -> region s v n ->
  exists s', MMU_TearDownRegionMap fuel v (n * MMU_UNIT_BYTE_SIZE (g_selectedUnitSize s)) s = Ok (tt, s') /\
    (forall a, v <= a < v + n * 2 ^ unit_shift (g_selectedUnitSize s) ->
       lvalid (lut_of s' (code_entry (g_selectedUnitSize s') (g_selectedPageOpt s') a)) = 0) /\
    (forall i, let first := code_entry (g_selectedUnitSize s) (g_selectedPageOpt s) v in
       ~ first <= i < first + n -> lut_of s' i = lut_of s i).
Proof.
  intros Hr Hf Hreg. rewrite MMU_UNIT_BYTE_SIZE_eq.
  destruct (TearDownRegionMap_run fuel v n s Hr Hf Hreg) as (s' & Hs' & _ & Ht & Hu & Hp).
  exists s'. split_and!; [done| |].
  - intros a Ha. rewrite Hu, Hp, Ht. destruct (region_entry s v n a Hreg Ha) as (-> & Hj & _).
    by rewrite burst_in by lia.
  - intros i first Hi. rewrite Ht. by apply burst_other.
Qed.

Lemma mmu_teardown_invalidates_witness :
  exists s', MMU_TearDownRegionMap 4 0x30010000 (3 * MMU_UNIT_BYTE_SIZE kMMU_UnitSize64KB) a_region = Ok (tt, s') /\
    (forall a, 0x30010000 <= a < 0x30010000 + 3 * 2 ^ 16 ->
       lvalid (lut_of s' (code_entry (g_selectedUnitSize s') (g_selectedPageOpt s') a)) = 0) /\
    (forall i, let first := code_entry kMMU_UnitSize64KB kMMU_PageOpt_1Page 0x30010000 in
       ~ first <= i < first + 3 -> lut_of s' i = lut_of a_region i).
Proof.
  apply (mmu_teardown_invalidates 4 a_region 0x30010000 3); try done.
  change (3 < 4)%nat. lia.
Defined.

(** A region set up at [v] and then remapped to [v'], whose table entries
    are disjoint: both calls return, the new addresses translate to the
    physical addresses the old ones had, and the old addresses are invalid. *)
Theorem mmu_remap_moves_translation {D} `{MmuLaws D} fuel (s : mmu_state D) v v' ph n :
  ready (hw s) -> (max_busy < fuel)%nat -> region s v n -> region s v' n ->
  (let e := code_entry (g_selectedUnitSize s) (g_selectedPageOpt s) in e v + n <= e v' \/ e v' + n <= e v) ->
  ph mod 2 ^ unit_shift (g_selectedUnitSize s) = 0 ->
  ph mod 2 ^ 28 + n * 2 ^ unit_shift (g_selectedUnitSize s) <= window (g_selectedUnitSize s) ->
  v' / 2 ^ 28 = ph / 2 ^ 28 ->
  (v' + n * 2 ^ unit_shift (g_selectedUnitSize s) - 1) / 2 ^ 28 = ph / 2 ^ 28 ->
  exists s', bind (MMU_SetupRegionMap fuel v ph (n * MMU_UNIT_BYTE_SIZE (g_selectedUnitSize s)))
      (fun _ => MMU_RemapRegion fuel v v' (n * MMU_UNIT_BYTE_SIZE (g_selectedUnitSize s))) s = Ok (tt, s') /\
    forall k, 0 <= k < n * 2 ^ unit_shift (g_selectedUnitSize s) ->
      (exists s'', MMU_GetPhyAddr (v' + k) s' = Ok (ph + k, s'')) /\
      lvalid (lut_of s' (code_entry (g_selectedUnitSize s') (g_selectedPageOpt s') (v' + k))) = 1 /\
      lvalid (lut_of s' (code_entry (g_selectedUnitSize s') (g_selectedPageOpt s') (v + k))) = 0.
Proof.
  intros Hr Hf Hreg Hreg' Hdis Hph Hfit Hlo Hhi. cbn beta zeta in Hdis. rewrite MMU_UNIT_BYTE_SIZE_eq.
  destruct (SetupRegionMap_run fuel v ph n s Hr Hf Hreg Hph) as (s1 & Hs1 & Hr1 & Ht1 & Hu1 & Hp1).
  rewrite (bind_ok _ _ _ _ _ Hs1).
  assert (region s1 v n /\ region s1 v' n) as [Hreg1 Hreg1'].
  { destruct Hreg, Hreg'. split; split; rewrite ?Hu1, ?Hp1; done. }
  destruct (RemapRegion_run fuel v v' n s1 Hr1 Hf Hreg1 Hreg1') as (s2 & Hs2 & Hr2 & Ht2 & Hu2 & Hp2).
  rewrite Hu1 in Hs2. exists s2. split; [exact Hs2|]. intros k Hk.
  cbn zeta in Ht2. rewrite Ht1, Hu1, Hp1 in Ht2.
  rewrite Hu1 in Hu2. rewrite Hp1 in Hp2.
  set (e := code_entry (g_selectedUnitSize s) (g_selectedPageOpt s)) in *.
  assert (with_lut s s2 (lut_of s2)) as Hl by done.
  rewrite Hu2, Hp2. fold e.
  assert (v' <= v' + k < v' + n * 2 ^ unit_shift (g_selectedUnitSize s)) as Hk' by lia.
  destruct (burst_translates s s2 _ v' ph n 1 (v' + k) Hreg' Hph Hfit Hl) as [Hval (s3 & Htr)]; [|done| |].
  - intros i Hi. fold e in Hi |- *. rewrite Ht2, (burst_other (e v)), burst_in by lia.
    cbn [mappedValue set_valid lvalid]. rewrite burst_in, Z.sub_diag, Z.add_0_r by lia.
    cbn [mappedValue]. by rewrite Z.add_mod_idemp_l by lia.
  - assert (v' / 2 ^ 28 <= (v' + k) / 2 ^ 28) by (apply Z.div_le_mono; lia).
    assert ((v' + k) / 2 ^ 28 <= (v' + n * 2 ^ unit_shift (g_selectedUnitSize s) - 1) / 2 ^ 28)
      by (apply Z.div_le_mono; lia). lia.
  - rewrite Hu2, Hp2 in Hval. fold e in Hval. split_and!; [|done|].
    + exists s3. by replace (ph + k) with (ph + (v' + k - v')) by lia.
    + destruct (region_entry s v n (v + k) Hreg) as (He & Hj & _); [lia|]. fold e in He.
      rewrite He, Ht2. by rewrite burst_in by lia.
Qed.

Lemma mmu_remap_moves_translation_witness :
  exists s', bind (MMU_SetupRegionMap 4 0x30010000 0x34560000 (3 * MMU_UNIT_BYTE_SIZE kMMU_UnitSize64KB))
      (fun _ => MMU_RemapRegion 4 0x30010000 0x32000000 (3 * MMU_UNIT_BYTE_SIZE kMMU_UnitSize64KB)) a_region = Ok (tt, s') /\
    forall k, 0 <= k < 3 * 2 ^ 16 ->
      (exists s'', MMU_GetPhyAddr (0x32000000 + k) s' = Ok (0x34560000 + k, s'')) /\
      lvalid (lut_of s' (code_entry (g_selectedUnitSize s') (g_selectedPageOpt s') (0x32000000 + k))) = 1 /\
      lvalid (lut_of s' (code_entry (g_selectedUnitSize s') (g_selectedPageOpt s') (0x30010000 + k))) = 0.
Proof.
  apply (mmu_remap_moves_translation 4 a_region 0x30010000 0x32000000 0x34560000 3); try done.
  - change (3 < 4)%nat. lia.
  - vm_compute. by left.
Defined.

(** The page chosen in 4-page mode is not the one the option names:
    [0x6U >> 1U] is evaluated before the [&], so the first and third option
    select the same 2K words, and for every address the table index of the
    options "low", "middle low", "middle high" and "high" lies in quarter
    1, 3, 1 and 3 of the table instead of 0, 1, 2 and 3. *)
Theorem mmu_page_option_aliases u addr :
  let quarter p := match MMU_TransferAddrToLUTIndex u p addr with Ok i => i / 2048 | Err _ => -1 end in
  quarter kMMU_PageOpt_4Page_Low2KWordSelected = 1 /\
  quarter kMMU_PageOpt_4Page_MidLow2KWordSelected = 3 /\
  quarter kMMU_PageOpt_4Page_MidHigh2KWordSelected = 1 /\
  quarter kMMU_PageOpt_4Page_High2KWordSelected = 3 /\
  MMU_TransferAddrToLUTIndex u kMMU_PageOpt_4Page_Low2KWordSelected addr =
    MMU_TransferAddrToLUTIndex u kMMU_PageOpt_4Page_MidHigh2KWordSelected addr.
Proof.
  cbn zeta. rewrite !LUTIndex_eq. unfold index_bits, code_page. rewrite !decide_False by done.
  cbn [page_value]. change (2 ^ 11) with 2048.
  change (Z.land 1 3) with 1. change (Z.land 3 3) with 3. change (Z.land 5 3) with 1. change (Z.land 7 3) with 3.
  pose proof (Z.mod_pos_bound (addr / 2 ^ unit_shift u) 2048 ltac:(lia)).
  split_and!; rewrite ?Z.div_add, ?Z.div_small by lia; lia || done.
Qed.
