(* ===== verification/Uart.v ===== *)
(** * The UART driver: configuration and polled transfers (drivers/uart)

    Registers, configuration, baud rate, flags, interrupts and the blocking
    transfers of fsl_uart.c and fsl_uart.h.  The device header's masks are
    [UartFields], the feature macros that select code are [UartFeatures]. *)

From stdpp Require Import base list numbers tactics.
From Stdlib Require Import ZArith Lia.
From S2P Require Import Prelude Mmio.

Open Scope Z_scope.
Open Scope prog_scope.

Inductive uart_reg :=
  | BDH | BDL | C1 | C2 | C3 | C4 | C5 | S1 | S2 | ED | D_ | MA1 | MA2 | MODEM
  | PFIFO | CFIFO | SFIFO | TWFIFO | RWFIFO | TCFIFO | RCFIFO.

#[export] Instance uart_reg_eq_dec : EqDecision uart_reg.
Proof. solve_decision. Defined.

Class UartFields := {
  UART_BDH_SBR_MASK : Z; UART_BDH_SBNS_MASK : Z; UART_BDH_SBNS : Z -> Z;
  UART_BDH_LBKDIE_MASK : Z; UART_BDH_RXEDGIE_MASK : Z;
  UART_C1_PE_MASK : Z; UART_C1_PT_MASK : Z; UART_C1_M_MASK : Z; UART_C1_ILT_MASK : Z;
  UART_C1_ILT : Z -> Z;
  UART_C2_TIE_MASK : Z; UART_C2_TCIE_MASK : Z; UART_C2_RIE_MASK : Z; UART_C2_ILIE_MASK : Z;
  UART_C2_TE_MASK : Z; UART_C2_RE_MASK : Z;
  UART_C3_ORIE_MASK : Z; UART_C3_NEIE_MASK : Z; UART_C3_FEIE_MASK : Z; UART_C3_PEIE_MASK : Z;
  UART_C3_T8_MASK : Z;
  UART_C4_BRFA_MASK : Z; UART_C4_MAEN1_MASK : Z; UART_C4_MAEN2_MASK : Z;
  UART_C4_TDMAS_MASK : Z; UART_C4_RDMAS_MASK : Z; UART_C5_TDMAS_MASK : Z; UART_C5_RDMAS_MASK : Z;
  UART_S1_TDRE_MASK : Z; UART_S1_TC_MASK : Z; UART_S1_RDRF_MASK : Z; UART_S1_IDLE_MASK : Z;
  UART_S1_OR_MASK : Z; UART_S1_NF_MASK : Z; UART_S1_FE_MASK : Z; UART_S1_PF_MASK : Z;
  UART_S2_RXEDGIF_MASK : Z; UART_S2_LBKDIF_MASK : Z;
  UART_SFIFO_TXEMPT_MASK : Z; UART_SFIFO_RXEMPT_MASK : Z; UART_SFIFO_RXUF_MASK : Z;
  UART_CFIFO_TXFLUSH_MASK : Z; UART_CFIFO_RXFLUSH_MASK : Z;
  UART_CFIFO_RXOFE_MASK : Z; UART_CFIFO_TXOFE_MASK : Z; UART_CFIFO_RXUFE_MASK : Z;
  UART_PFIFO_TXFE_MASK : Z; UART_PFIFO_RXFE_MASK : Z;
  UART_MODEM_RXRTSE_MASK : Z; UART_MODEM_TXCTSE_MASK : Z
}.

(** The feature macros of a chip and the retry bound of the build. *)
Class UartFeatures := {
  has_fifo : bool;                (** FSL_FEATURE_UART_HAS_FIFO *)
  fifo_size : Z;                  (** FSL_FEATURE_UART_FIFO_SIZEn *)
  has_extended_flags : bool;
  has_lin_break : bool;
  has_fine_adjust : bool;         (** ..._HAS_BAUD_RATE_FINE_ADJUST_SUPPORT *)
  has_stop_bit : bool;
  has_modem : bool;
  is_sci : bool;
  UART_RETRY_TIMES : Z            (** 0: wait for ever *)
}.

(** ** Status codes, modes and flags *)

Definition kStatusGroup_UART : Z := 10.
Definition kStatusGroup_LPUART : Z := 13.
Definition kStatus_UART_TxBusy : status_t := MAKE_STATUS kStatusGroup_UART 0.
Definition kStatus_UART_RxBusy : status_t := MAKE_STATUS kStatusGroup_UART 1.
Definition kStatus_UART_TxIdle : status_t := MAKE_STATUS kStatusGroup_UART 2.
Definition kStatus_UART_RxIdle : status_t := MAKE_STATUS kStatusGroup_UART 3.
Definition kStatus_UART_FlagCannotClearManually : status_t := MAKE_STATUS kStatusGroup_UART 6.
Definition kStatus_UART_RxRingBufferOverrun : status_t := MAKE_STATUS kStatusGroup_UART 8.
Definition kStatus_UART_RxHardwareOverrun : status_t := MAKE_STATUS kStatusGroup_UART 9.
Definition kStatus_UART_NoiseError : status_t := MAKE_STATUS kStatusGroup_UART 10.
Definition kStatus_UART_FramingError : status_t := MAKE_STATUS kStatusGroup_UART 11.
Definition kStatus_UART_ParityError : status_t := MAKE_STATUS kStatusGroup_UART 12.
Definition kStatus_UART_BaudrateNotSupport : status_t := MAKE_STATUS kStatusGroup_UART 13.
Definition kStatus_UART_IdleLineDetected : status_t := MAKE_STATUS kStatusGroup_UART 14.
(** The timeout code this driver returns is the one of the LPUART driver
    (fsl_lpuart.h), its sixteenth. *)
Definition kStatus_LPUART_Timeout : status_t := MAKE_STATUS kStatusGroup_LPUART 15.

Inductive uart_parity_mode := kUART_ParityDisabled | kUART_ParityEven | kUART_ParityOdd.
Definition parity_bits (p : uart_parity_mode) : Z :=
  match p with kUART_ParityDisabled => 0 | kUART_ParityEven => 2 | kUART_ParityOdd => 3 end.
Inductive uart_stop_bit_count := kUART_OneStopBit | kUART_TwoStopBit.
Definition stop_bits (c : uart_stop_bit_count) : Z :=
  match c with kUART_OneStopBit => 0 | kUART_TwoStopBit => 1 end.
Inductive uart_idle_type := kUART_IdleTypeStartBit | kUART_IdleTypeStopBit.
Definition idle_bits (i : uart_idle_type) : Z :=
  match i with kUART_IdleTypeStartBit => 0 | kUART_IdleTypeStopBit => 1 end.

Record uart_config := UartConfig {
  baudRate_Bps : Z; parityMode : uart_parity_mode; stopBitCount : uart_stop_bit_count;
  txFifoWatermark : Z; rxFifoWatermark : Z; enableRxRTS : bool; enableTxCTS : bool;
  idleType : uart_idle_type; enableTx : bool; enableRx : bool
}.

Definition UART_GetDefaultConfig : uart_config :=
  UartConfig 115200 kUART_ParityDisabled kUART_OneStopBit 0 1 false false
    kUART_IdleTypeStartBit false false.

(** ** Baud rate *)

Section Baud.
Context {X : UartFeatures}.

(** [sbr = src / (baud * 16)], at least 1. *)
Definition initial_sbr (baud src : Z) : outcome Z :=
  sbr <-! udiv src (u32 (baud * 16)) ;;
  Ok (if sbr =? 0 then 1 else sbr).

(** The divisor, the fine adjustment and the difference from the wanted rate
    that [UART_Init] and [UART_SetBaudRate] compute. *)
Definition baud_divisor (baud src : Z) : outcome (Z * Z * Z) :=
  sbr <-! initial_sbr baud src ;;
  if has_fine_adjust then
    q <-! udiv (u32 (2 * src)) baud ;;
    let brfa := u32 (q - u32 (32 * sbr)) in
    tempBaud <-! udiv (u32 (src * 2)) (u32 (u32 (sbr * 32) + brfa)) ;;
    let baudDiff := if baud <? tempBaud then u32 (tempBaud - baud) else u32 (baud - tempBaud) in
    Ok (sbr, brfa, baudDiff)
  else
    rate <-! udiv src (u32 (sbr * 16)) ;;
    rate1 <-! udiv src (u32 (16 * u32 (sbr + 1))) ;;
    let baudDiff := u32 (rate - baud) in
    if u32 (baud - rate1) <? baudDiff
    then Ok (u32 (sbr + 1), 0, u32 (baud - rate1)) else Ok (sbr, 0, baudDiff).
End Baud.

(** ** The driver *)

Section Driver.
Context {D : Type} `{!Device uart_reg D} {F : UartFields} {X : UartFeatures}.

(** The flags of the enumerations of fsl_uart.h. *)
Definition kUART_TxDataRegEmptyFlag : Z := UART_S1_TDRE_MASK.
Definition kUART_TransmissionCompleteFlag : Z := UART_S1_TC_MASK.
Definition kUART_RxDataRegFullFlag : Z := UART_S1_RDRF_MASK.
Definition kUART_IdleLineFlag : Z := UART_S1_IDLE_MASK.
Definition kUART_RxOverrunFlag : Z := UART_S1_OR_MASK.
Definition kUART_NoiseErrorFlag : Z := UART_S1_NF_MASK.
Definition kUART_FramingErrorFlag : Z := UART_S1_FE_MASK.
Definition kUART_ParityErrorFlag : Z := UART_S1_PF_MASK.

Definition kUART_AllInterruptsEnable : Z :=
  foldr Z.lor 0
    ((if has_lin_break then [UART_BDH_LBKDIE_MASK] else []) ++
     [UART_BDH_RXEDGIE_MASK; Z.shiftl UART_C2_TIE_MASK 8; Z.shiftl UART_C2_TCIE_MASK 8;
      Z.shiftl UART_C2_RIE_MASK 8; Z.shiftl UART_C2_ILIE_MASK 8; Z.shiftl UART_C3_ORIE_MASK 16;
      Z.shiftl UART_C3_NEIE_MASK 16; Z.shiftl UART_C3_FEIE_MASK 16; Z.shiftl UART_C3_PEIE_MASK 16] ++
     (if has_fifo then [Z.shiftl UART_CFIFO_RXOFE_MASK 24; Z.shiftl UART_CFIFO_TXOFE_MASK 24;
                        Z.shiftl UART_CFIFO_RXUFE_MASK 24] else [])).

(** Both FIFO flush bits. *)
Definition flush_fifos : M D unit :=
  set_bits CFIFO (Z.lor UART_CFIFO_TXFLUSH_MASK UART_CFIFO_RXFLUSH_MASK).

(** [C2 &= ~(TE | RE)] *)
Definition disable_tx_rx : M D unit := clear_bits8 C2 (Z.lor UART_C2_TE_MASK UART_C2_RE_MASK).

(** The divisor into BDH, BDL and, where the chip has it, C4. *)
Definition write_divisor (sbr brfa : Z) : M D unit :=
  x <- rd BDH ;;
  wr BDH (Z.lor (bic8 x UART_BDH_SBR_MASK) (u8 (Z.shiftr sbr 8))) ;;
  wr BDL (u8 sbr) ;;
  when (has_fine_adjust) (x <- rd C4 ;;
    wr C4 (Z.lor (bic8 x UART_C4_BRFA_MASK) (Z.land (u8 brfa) UART_C4_BRFA_MASK))).

Definition UART_SetBaudRate (baud src : Z) : M D status_t :=
  assert_ (negb (baud =? 0)) ;;
  d <- lift (baud_divisor baud src) ;;
  let '(sbr, brfa, baudDiff) := d in
  if baudDiff <? u32 (baud / 100 * 3) then
    oldCtrl <- rd C2 ;;
    disable_tx_rx ;;
    write_divisor sbr brfa ;;
    wr C2 oldCtrl ;;
    ret kStatus_Success
  else ret kStatus_UART_BaudrateNotSupport.

(** The clock gate is a call into the clock driver. *)
Context (CLOCK_EnableClock CLOCK_DisableClock : M D unit).

Definition UART_Init (config : uart_config) (src : Z) : M D status_t :=
  assert_ (negb (baudRate_Bps config =? 0)) ;;
  when (has_fifo) (assert_ (txFifoWatermark config <=? u8 fifo_size) ;;
                   assert_ (rxFifoWatermark config <=? u8 fifo_size)) ;;
  d <- lift (baud_divisor (baudRate_Bps config) src) ;;
  let '(sbr, brfa, baudDiff) := d in
  if u32 (baudRate_Bps config / 100 * 3) <? baudDiff then ret kStatus_UART_BaudrateNotSupport else
  CLOCK_EnableClock ;;
  disable_tx_rx ;;
  write_divisor sbr brfa ;;
  c1 <- rd C1 ;;
  let temp := u8 (bic 8 c1 (Z.lor (Z.lor (Z.lor UART_C1_PE_MASK UART_C1_PT_MASK) UART_C1_M_MASK)
                                  UART_C1_ILT_MASK)) in
  let temp := u8 (Z.lor temp (UART_C1_ILT (idle_bits (idleType config)))) in
  let temp := match parityMode config with
              | kUART_ParityDisabled => temp
              | p => u8 (Z.lor temp (Z.lor UART_C1_M_MASK (parity_bits p)))
              end in
  wr C1 temp ;;
  when (has_stop_bit) (x <- rd BDH ;;
    wr BDH (Z.lor (bic8 x UART_BDH_SBNS_MASK) (u8 (UART_BDH_SBNS (stop_bits (stopBitCount config)))))) ;;
  when (has_fifo) (
    wr TWFIFO (txFifoWatermark config) ;;
    wr RWFIFO (rxFifoWatermark config) ;;
    set_bits PFIFO (Z.lor UART_PFIFO_TXFE_MASK UART_PFIFO_RXFE_MASK) ;;
    flush_fifos) ;;
  when (has_modem) (
    when (enableRxRTS config) (set_bits MODEM UART_MODEM_RXRTSE_MASK) ;;
    when (enableTxCTS config) (set_bits MODEM UART_MODEM_TXCTSE_MASK)) ;;
  temp <- rd C2 ;;
  let temp := if enableTx config then u8 (Z.lor temp UART_C2_TE_MASK) else temp in
  let temp := if enableRx config then u8 (Z.lor temp UART_C2_RE_MASK) else temp in
  wr C2 temp ;;
  ret kStatus_Success.

Definition UART_Deinit (fuel : nat) : M D unit :=
  when (has_fifo) (while_ fuel (x <- rd TCFIFO ;; ret (negb (x =? 0))) (ret tt)) ;;
  poll_clear fuel S1 UART_S1_TC_MASK ;;
  wr C2 0 ;;
  CLOCK_DisableClock.

Definition UART_Enable9bitMode (enable : bool) : M D unit :=
  if enable then
    x <- rd C1 ;;
    let temp := bic8 x (Z.lor (Z.lor UART_C1_PE_MASK UART_C1_PT_MASK) UART_C1_M_MASK) in
    wr C1 (u8 (Z.lor temp UART_C1_M_MASK))
  else clear_bits8 C1 UART_C1_M_MASK.

Definition UART_Set9thTransmitBit : M D unit := set_bits C3 UART_C3_T8_MASK.
Definition UART_Clear9thTransmitBit : M D unit := clear_bits8 C3 UART_C3_T8_MASK.
Definition UART_WriteByte (data : Z) : M D unit := wr D_ data.
Definition UART_ReadByte : M D Z := rd D_.
Definition UART_SendAddress (address : Z) : M D unit :=
  UART_Set9thTransmitBit ;; UART_WriteByte address ;; UART_Clear9thTransmitBit.

Definition UART_SetMatchAddress (a1 a2 : Z) : M D unit := wr MA1 a1 ;; wr MA2 a2.
Definition UART_EnableMatchAddress (match1 match2 : bool) : M D unit :=
  (if match1 then set_bits C4 UART_C4_MAEN1_MASK else clear_bits8 C4 UART_C4_MAEN1_MASK) ;;
  (if match2 then set_bits C4 UART_C4_MAEN2_MASK else clear_bits8 C4 UART_C4_MAEN2_MASK).

Definition UART_EnableTxDMA (enable : bool) : M D unit :=
  if enable then
    (if is_sci then set_bits C4 UART_C4_TDMAS_MASK else set_bits C5 UART_C5_TDMAS_MASK) ;;
    set_bits C2 UART_C2_TIE_MASK
  else
    (if is_sci then clear_bits8 C4 UART_C4_TDMAS_MASK else clear_bits8 C5 UART_C5_TDMAS_MASK) ;;
    clear_bits8 C2 UART_C2_TIE_MASK.
Definition UART_EnableRxDMA (enable : bool) : M D unit :=
  if enable then
    (if is_sci then set_bits C4 UART_C4_RDMAS_MASK else set_bits C5 UART_C5_RDMAS_MASK) ;;
    set_bits C2 UART_C2_RIE_MASK
  else
    (if is_sci then clear_bits8 C4 UART_C4_RDMAS_MASK else clear_bits8 C5 UART_C5_RDMAS_MASK) ;;
    clear_bits8 C2 UART_C2_RIE_MASK.

Definition UART_EnableTx (enable : bool) : M D unit :=
  if enable then set_bits C2 UART_C2_TE_MASK else clear_bits8 C2 UART_C2_TE_MASK.
Definition UART_EnableRx (enable : bool) : M D unit :=
  if enable then set_bits C2 UART_C2_RE_MASK else clear_bits8 C2 UART_C2_RE_MASK.

Definition UART_SetRxFifoWatermark (water : Z) : M D unit :=
  assert_ (water <=? u8 fifo_size) ;; wr RWFIFO water.
Definition UART_SetTxFifoWatermark (water : Z) : M D unit :=
  assert_ (water <=? u8 fifo_size) ;; wr TWFIFO water.

(** ** Interrupts and flags *)

Definition UART_EnableInterrupts (mask : Z) : M D unit :=
  let mask := Z.land mask kUART_AllInterruptsEnable in
  set_bits BDH (u8 mask) ;;
  set_bits C2 (u8 (Z.shiftr mask 8)) ;;
  set_bits C3 (u8 (Z.shiftr mask 16)) ;;
  when (has_fifo) (set_bits CFIFO (u8 (Z.shiftr mask 24))).

Definition UART_DisableInterrupts (mask : Z) : M D unit :=
  let mask := Z.land mask kUART_AllInterruptsEnable in
  clear_bits8 BDH (u8 mask) ;;
  clear_bits8 C2 (u8 (Z.shiftr mask 8)) ;;
  clear_bits8 C3 (u8 (Z.shiftr mask 16)) ;;
  when (has_fifo) (clear_bits8 CFIFO (u8 (Z.shiftr mask 24))).

Definition UART_GetEnabledInterrupts : M D Z :=
  bdh <- rd BDH ;; c2 <- rd C2 ;; c3 <- rd C3 ;;
  cfifo <- (if has_fifo then rd CFIFO else ret 0) ;;
  ret (Z.land (Z.lor (Z.lor (Z.lor bdh (Z.shiftl c2 8)) (Z.shiftl c3 16)) (Z.shiftl cfifo 24))
              kUART_AllInterruptsEnable).

Definition UART_GetStatusFlags : M D Z :=
  s1 <- rd S1 ;; s2 <- rd S2 ;;
  ed <- (if has_extended_flags then rd ED else ret 0) ;;
  sfifo <- (if has_fifo then rd SFIFO else ret 0) ;;
  ret (Z.lor (Z.lor (Z.lor s1 (Z.shiftl s2 8)) (Z.shiftl ed 16)) (Z.shiftl sfifo 24)).

Definition UART_ClearStatusFlags (mask : Z) : M D status_t :=
  reg <- rd S2 ;;
  let reg := bic8 reg (if has_lin_break then Z.lor UART_S2_RXEDGIF_MASK UART_S2_LBKDIF_MASK
                       else UART_S2_RXEDGIF_MASK) in
  wr S2 (Z.lor reg (u8 (Z.shiftr mask 8))) ;;
  when (has_fifo) (wr SFIFO (u8 (Z.shiftr mask 24))) ;;
  when (has mask (Z.lor (Z.lor (Z.lor (Z.lor kUART_IdleLineFlag kUART_NoiseErrorFlag)
                    kUART_FramingErrorFlag) kUART_ParityErrorFlag) kUART_RxOverrunFlag)) (
    rd S1 ;; rd D_ ;;
    when (has_fifo) (wr SFIFO UART_SFIFO_RXUF_MASK ;; set_bits CFIFO UART_CFIFO_RXFLUSH_MASK)) ;;
  flags <- UART_GetStatusFlags ;;
  ret (if has mask flags then kStatus_UART_FlagCannotClearManually else kStatus_Success).

(** ** Blocking transfers *)

(** Waiting for a bit of S1 to be set, at most [UART_RETRY_TIMES] reads when
    that is not 0: [true] when the bit was seen. *)
Fixpoint wait_s1 (fuel : nat) (mask waitTimes : Z) : M D bool :=
  match fuel with
  | O => throw OutOfFuel
  | S fuel =>
      x <- rd S1 ;;
      if has x mask then ret true else
      if UART_RETRY_TIMES =? 0 then wait_s1 fuel mask waitTimes else
      let waitTimes := u32 (waitTimes - 1) in
      if waitTimes =? 0 then ret false else wait_s1 fuel mask waitTimes
  end.

Fixpoint UART_WriteBlocking (fuel : nat) (data : list Z) : M D status_t :=
  match data with
  | [] =>
      ok <- wait_s1 fuel UART_S1_TC_MASK UART_RETRY_TIMES ;;
      ret (if ok : bool then kStatus_Success else kStatus_LPUART_Timeout)
  | b :: data =>
      ok <- wait_s1 fuel UART_S1_TDRE_MASK UART_RETRY_TIMES ;;
      if ok : bool then wr D_ b ;; UART_WriteBlocking fuel data
      else ret kStatus_LPUART_Timeout
  end.

(** One error flag of the receive wait: cleared and reported. *)
Definition clear_error (flag code : Z) : M D status_t :=
  st <- UART_ClearStatusFlags flag ;;
  ret (if st =? kStatus_Success then code else kStatus_UART_FlagCannotClearManually).

(** The wait for a received byte; the result is the status. *)
Fixpoint wait_rx (fuel : nat) (waitTimes : Z) (status : status_t) : M D status_t :=
  match fuel with
  | O => throw OutOfFuel
  | S fuel =>
      ready <- (if has_fifo then x <- rd RCFIFO ;; ret (negb (x =? 0))
                else x <- rd S1 ;; ret (has x UART_S1_RDRF_MASK)) ;;
      if ready : bool then ret status else
      let waitTimes := u32 (waitTimes - 1) in
      if negb (UART_RETRY_TIMES =? 0) && (waitTimes =? 0) then ret kStatus_LPUART_Timeout else
      statusFlag <- UART_GetStatusFlags ;;
      if has statusFlag kUART_RxOverrunFlag
      then clear_error kUART_RxOverrunFlag kStatus_UART_RxHardwareOverrun
      else
      status <- (if has statusFlag kUART_ParityErrorFlag
                 then clear_error kUART_ParityErrorFlag kStatus_UART_ParityError else ret status) ;;
      status <- (if has statusFlag kUART_FramingErrorFlag
                 then clear_error kUART_FramingErrorFlag kStatus_UART_FramingError else ret status) ;;
      status <- (if has statusFlag kUART_NoiseErrorFlag
                 then clear_error kUART_NoiseErrorFlag kStatus_UART_NoiseError else ret status) ;;
      if status =? kStatus_Success then wait_rx fuel waitTimes status else ret status
  end.

(** The bytes stored so far come with the status. *)
Fixpoint UART_ReadBlocking (fuel : nat) (length : nat) : M D (status_t * list Z) :=
  match length with
  | O => ret (kStatus_Success, [])
  | S length =>
      status <- wait_rx fuel UART_RETRY_TIMES kStatus_Success ;;
      if status =? kStatus_Success then
        b <- rd D_ ;;
        r <- UART_ReadBlocking fuel length ;;
        ret (r.1, b :: r.2)
      else ret (status, [])
  end.

(** ** FIFO switches *)

Definition enable_fifo (empty_mask enable_mask : Z) (enable : bool) : M D status_t :=
  sfifo <- rd SFIFO ;;
  x <- rd C2 ;;
  let temp := Z.land x (Z.lor UART_C2_RE_MASK UART_C2_TE_MASK) in
  if Z.land sfifo empty_mask =? empty_mask then
    disable_tx_rx ;;
    flush_fifos ;;
    (if enable then set_bits PFIFO enable_mask else clear_bits8 PFIFO enable_mask) ;;
    flush_fifos ;;
    set_bits C2 temp ;;
    ret kStatus_Success
  else ret kStatus_Fail.

Definition UART_EnableTxFIFO : bool -> M D status_t :=
  enable_fifo UART_SFIFO_TXEMPT_MASK UART_PFIFO_TXFE_MASK.
Definition UART_EnableRxFIFO : bool -> M D status_t :=
  enable_fifo UART_SFIFO_RXEMPT_MASK UART_PFIFO_RXFE_MASK.
End Driver.

(** ** The peripheral's documented behaviour *)

(** Plain control registers: what is written is read back. *)
Definition is_control (r : uart_reg) : bool :=
  match r with C1 | C2 | C3 | C4 | C5 | BDH | BDL | MA1 | MA2 => true | _ => false end.

(** What can be observed: the control registers, the bytes received and not
    yet read, the bytes handed to the transmitter, the room left in it, and
    every byte that has come in on the line so far. *)
Record uart_view := View { ctl : uart_reg -> Z; rxq : list Z; txd : list Z; room : Z; line_in : list Z }.

(** Between two accesses bytes may arrive and the transmitter may drain. *)
Record later (v v' : uart_view) : Prop := {
  later_ctl : ctl v' = ctl v;
  later_rx : exists bs, rxq v' = rxq v ++ bs /\ line_in v' = line_in v ++ bs;
  later_tx : txd v' = txd v;
  later_room : room v <= room v'
}.

#[export] Instance later_preorder : PreOrder later.
Proof.
  split.
  - intros v. split; try done. exists []. by rewrite !app_nil_r.
  - intros u v w [? (bs & Hb & Hb') ? ?] [? (cs & Hc & Hc') ? ?]. split; [congruence| |congruence|lia].
    exists (bs ++ cs). by rewrite Hc, Hb, Hc', Hb', !app_assoc.
Qed.

Definition set_ctl (v : uart_view) (r : uart_reg) (x : Z) : uart_view :=
  View (fun r' => if decide (r = r') then x else ctl v r') (rxq v) (txd v) (room v) (line_in v).

Class UartLaws (D : Type) `{!Device uart_reg D, F : UartFields, X : UartFeatures} := {
  uview : D -> uart_view;
  fifo_size_bound : 0 < fifo_size < 256;
  s1_masks : 0 <= UART_S1_TDRE_MASK < 2 ^ 8 /\ 0 <= UART_S1_RDRF_MASK < 2 ^ 8;
  tx_masks : 0 < UART_C2_TIE_MASK < 2 ^ 8 /\ 0 < UART_C2_TCIE_MASK < 2 ^ 8 /\
    0 <= UART_C2_RIE_MASK < 2 ^ 8 /\
    Z.land UART_C2_TIE_MASK UART_C2_TCIE_MASK = 0 /\ Z.land UART_C2_RIE_MASK UART_C2_TCIE_MASK = 0 /\
    Z.land UART_C2_RIE_MASK UART_C2_TIE_MASK = 0;
  room_bound d : 0 <= room (uview d) <= fifo_size;
  control_read r d : is_control r = true ->
    (reg_read r d).1 = ctl (uview d) r /\ later (uview d) (uview (reg_read r d).2);
  control_write r v d : is_control r = true -> later (set_ctl (uview d) r v) (uview (reg_write r v d));
  flag_read r d : r = S1 \/ r = S2 \/ r = ED \/ r = SFIFO ->
    later (uview d) (uview (reg_read r d).2);
  rdrf_read d : has (reg_read S1 d).1 UART_S1_RDRF_MASK = true -> rxq (uview d) <> [];
  tdre_read d : has (reg_read S1 d).1 UART_S1_TDRE_MASK = true -> 0 < room (uview d);
  rcfifo_read d : has_fifo = true ->
    (reg_read RCFIFO d).1 = Z.of_nat (length (rxq (uview d))) /\
    (reg_read RCFIFO d).1 < 256 /\
    later (uview d) (uview (reg_read RCFIFO d).2);
  tcfifo_read d : has_fifo = true ->
    (reg_read TCFIFO d).1 = fifo_size - room (uview d) /\
    later (uview d) (uview (reg_read TCFIFO d).2);
  data_read d b q : rxq (uview d) = b :: q ->
    (reg_read D_ d).1 = b /\
    later (View (ctl (uview d)) q (txd (uview d)) (room (uview d)) (line_in (uview d))) (uview (reg_read D_ d).2);
  data_write b d : 0 < room (uview d) ->
    later (View (ctl (uview d)) (rxq (uview d)) (txd (uview d) ++ [b]) (room (uview d) - 1) (line_in (uview d)))
      (uview (reg_write D_ b d))
}.

Section Accesses.
Context {D : Type} `{UL : UartLaws D}.

Lemma rd_control r d : is_control r = true ->
  exists d', rd r d = Ok (ctl (uview d) r, d') /\ later (uview d) (uview d').
Proof.
  intros Hr. destruct (control_read r d Hr) as [Hv Hl]. unfold rd.
  destruct (reg_read r d) as [v d']. cbn [fst snd] in *. subst. by exists d'.
Qed.

Lemma rd_flag r d : r = S1 \/ r = S2 \/ r = ED \/ r = SFIFO ->
  exists d', rd r d = Ok ((reg_read r d).1, d') /\ later (uview d) (uview d').
Proof.
  intros Hr. pose proof (flag_read r d Hr). unfold rd. destruct (reg_read r d) as [v d'].
  by exists d'.
Qed.

Lemma rd_data d b q : rxq (uview d) = b :: q ->
  exists d', rd D_ d = Ok (b, d') /\
    later (View (ctl (uview d)) q (txd (uview d)) (room (uview d)) (line_in (uview d))) (uview d').
Proof.
  intros H. destruct (data_read d b q H) as [Hb Hl]. unfold rd.
  destruct (reg_read D_ d) as [v d']. cbn [fst snd] in *. subst. by exists d'.
Qed.

Lemma wr_data d b : 0 < room (uview d) ->
  exists d', wr D_ b d = Ok (tt, d') /\
    later (View (ctl (uview d)) (rxq (uview d)) (txd (uview d) ++ [b]) (room (uview d) - 1) (line_in (uview d))) (uview d').
Proof. intros H. eexists. split; [reflexivity|by apply data_write]. Qed.

(** A read-modify-write of a control register. *)
Lemma update_control r f d : is_control r = true ->
  exists d', bind (rd r) (fun x => wr r (f x)) d = Ok (tt, d') /\
    later (set_ctl (uview d) r (f (ctl (uview d) r))) (uview d').
Proof.
  intros Hr. destruct (rd_control r d Hr) as (d1 & H1 & Hl). rewrite (bind_ok _ _ _ _ _ H1).
  eexists. split; [reflexivity|]. etransitivity; [|by apply control_write].
  destruct Hl as [Hc Hb Ht Hm]. unfold set_ctl.
  split; cbn; [by rewrite Hc|done|done|done].
Qed.

Lemma set_bits_control r m d : is_control r = true ->
  exists d', set_bits r m d = Ok (tt, d') /\
    later (set_ctl (uview d) r (Z.lor (ctl (uview d) r) m)) (uview d').
Proof. by apply (update_control r (fun x => Z.lor x m)). Qed.

Lemma clear_bits_control r m d : is_control r = true ->
  exists d', clear_bits8 r m d = Ok (tt, d') /\
    later (set_ctl (uview d) r (bic8 (ctl (uview d) r) m)) (uview d').
Proof. by apply (update_control r (fun x => bic8 x m)). Qed.

(** A low flag of the combined status word is the flag of S1. *)
Lemma has_low s1 s2 ed sf m : 0 <= m < 2 ^ 8 ->
  has (Z.lor (Z.lor (Z.lor s1 (Z.shiftl s2 8)) (Z.shiftl ed 16)) (Z.shiftl sf 24)) m = has s1 m.
Proof.
  intros Hm. assert (forall x k, 8 <= k -> Z.land (Z.shiftl x k) m = 0) as H.
  { intros x k Hk. apply Z.bits_inj'. intros i Hi. rewrite Z.land_spec, Z.bits_0.
    destruct (Z.lt_ge_cases i 8).
    - by rewrite Z.shiftl_spec_low by lia.
    - rewrite (testbit_above m 8) by lia. apply andb_false_r. }
  unfold has. rewrite !Z.land_lor_distr_l, !H, !Z.lor_0_r by lia. done.
Qed.

Lemma GetStatusFlags_run d :
  exists st d', UART_GetStatusFlags d = Ok (st, d') /\ later (uview d) (uview d') /\
    (has st UART_S1_TDRE_MASK = true -> 0 < room (uview d)) /\
    (has st UART_S1_RDRF_MASK = true -> rxq (uview d) <> []).
Proof.
  unfold UART_GetStatusFlags.
  destruct (rd_flag S1 d ltac:(auto)) as (d1 & H1 & L1). rewrite (bind_ok _ _ _ _ _ H1).
  destruct (rd_flag S2 d1 ltac:(auto)) as (d2 & H2 & L2). rewrite (bind_ok _ _ _ _ _ H2).
  assert (exists v d3, (if has_extended_flags then rd ED else ret 0) d2 = Ok (v, d3) /\
    later (uview d2) (uview d3)) as (v & d3 & H3 & L3).
  { destruct has_extended_flags; [|by exists 0, d2].
    destruct (rd_flag ED d2 ltac:(auto)) as (d3 & ? & ?). by eexists _, d3. }
  rewrite (bind_ok _ _ _ _ _ H3).
  assert (exists v d4, (if has_fifo then rd SFIFO else ret 0) d3 = Ok (v, d4) /\
    later (uview d3) (uview d4)) as (w & d4 & H4 & L4).
  { destruct has_fifo; [|by exists 0, d3].
    destruct (rd_flag SFIFO d3 ltac:(auto 6)) as (d4 & ? & ?). by eexists _, d4. }
  rewrite (bind_ok _ _ _ _ _ H4). eexists _, d4. split; [reflexivity|].
  split; [by rewrite L1, L2, L3|]. destruct s1_masks. rewrite !has_low by done.
  split; [apply tdre_read|apply rdrf_read].
Qed.
End Accesses.

Section Divisor_registers.
Context {D : Type} `{UL : UartLaws D}.

Lemma write_divisor_run sbr brfa d : has_fine_adjust = true ->
  let c := ctl (uview d) in
  exists d', write_divisor sbr brfa d = Ok (tt, d') /\
    let c' := ctl (uview d') in
    c' BDH = Z.lor (bic8 (c BDH) UART_BDH_SBR_MASK) (u8 (Z.shiftr sbr 8)) /\ c' BDL = u8 sbr /\
    c' C4 = Z.lor (bic8 (c C4) UART_C4_BRFA_MASK) (Z.land (u8 brfa) UART_C4_BRFA_MASK) /\
    c' C2 = c C2.
Proof.
  intros Hfine c. unfold write_divisor. rewrite Hfine. rewrite <- bind_assoc.
  destruct (update_control BDH (fun x => Z.lor (bic8 x UART_BDH_SBR_MASK) (u8 (Z.shiftr sbr 8))) d eq_refl)
    as (d1 & H1 & L1). rewrite (bind_ok _ _ _ _ _ H1), bind_wr.
  pose proof (control_write BDL (u8 sbr) d1 eq_refl) as L2. set (d2 := reg_write BDL (u8 sbr) d1) in *.
  destruct (update_control C4 (fun x => Z.lor (bic8 x UART_C4_BRFA_MASK) (Z.land (u8 brfa) UART_C4_BRFA_MASK)) d2 eq_refl)
    as (d3 & H3 & L3).
  exists d3. split; [exact H3|].
  apply later_ctl in L1, L2, L3. cbn [set_ctl ctl] in L1, L2, L3. cbn zeta. subst c.
  rewrite !L3, !L2, !L1. split_and!; reflexivity.
Qed.

(** A field written by mask and or reads back. *)
Lemma land_lor_bic w x y m : 0 <= w -> 0 <= m < 2 ^ w -> Z.land (Z.lor (bic w x m) y) m = Z.land y m.
Proof.
  intros Hw Hm. rewrite Z.land_lor_distr_l.
  pose proof (has_bic w x m Hw Hm) as H. unfold has in H.
  apply negb_false_iff, Z.eqb_eq in H. by rewrite H.
Qed.
End Divisor_registers.

(** ** Blocking transfers: lemmas *)

Section Blocking.
Context {D : Type} `{UL : UartLaws D}.
Context (Hretry : 0 < UART_RETRY_TIMES < 2 ^ 32).

Lemma wait_s1_run mask : forall fuel w d,
  0 < w < 2 ^ 32 -> (Z.to_nat w <= fuel)%nat ->
  exists ok d', wait_s1 fuel mask w d = Ok (ok, d') /\ later (uview d) (uview d') /\
    (ok = true -> mask = UART_S1_TDRE_MASK -> 0 < room (uview d')).
Proof.
  induction fuel as [|fuel IH]; intros w d Hw Hf; [lia|]. cbn [wait_s1].
  destruct (rd_flag S1 d ltac:(auto)) as (d1 & H1 & L1). rewrite (bind_ok _ _ _ _ _ H1).
  destruct (has (reg_read S1 d).1 mask) eqn:Hm.
  { exists true, d1. split_and!; [done|done|]. intros _ ->.
    pose proof (tdre_read d Hm). destruct L1. lia. }
  rewrite (proj2 (Z.eqb_neq _ 0)) by lia. rewrite wrap_small by (pow2; lia).
  destruct (Z.eqb_spec (w - 1) 0) as [E|E]; [by exists false, d1|].
  destruct (IH (w - 1) d1) as (ok & d' & Hr & Hl & Hroom); [lia..|].
  exists ok, d'. split_and!; [done|by rewrite L1|done].
Qed.

Lemma WriteBlocking_run fuel : (Z.to_nat UART_RETRY_TIMES <= fuel)%nat -> forall data d,
  exists st k d', UART_WriteBlocking fuel data d = Ok (st, d') /\
    txd (uview d') = txd (uview d) ++ take k data /\ ctl (uview d') = ctl (uview d) /\
    (st = kStatus_Success /\ k = length data \/ st = kStatus_LPUART_Timeout).
Proof.
  intros Hf. induction data as [|b data IH]; intros d; cbn [UART_WriteBlocking].
  - destruct (wait_s1_run UART_S1_TC_MASK fuel UART_RETRY_TIMES d Hretry Hf) as (ok & d1 & H1 & L1 & _).
    rewrite (bind_ok _ _ _ _ _ H1). eexists _, 0%nat, d1. split; [reflexivity|].
    rewrite app_nil_r. destruct L1. split_and!; [done|done|]. destruct ok; auto.
  - destruct (wait_s1_run UART_S1_TDRE_MASK fuel UART_RETRY_TIMES d Hretry Hf) as (ok & d1 & H1 & L1 & Hroom).
    rewrite (bind_ok _ _ _ _ _ H1). destruct ok.
    + destruct (wr_data d1 b (Hroom eq_refl eq_refl)) as (d2 & H2 & L2). rewrite (bind_ok _ _ _ _ _ H2).
      destruct (IH d2) as (st & k & d' & Hr & Ht & Hc & Hst). exists st, (S k), d'.
      destruct L1, L2. cbn [take txd ctl] in *. split_and!; [done| |congruence|].
      * rewrite Ht, later_tx1, later_tx0, <- app_assoc. done.
      * destruct Hst as [[-> ->]| ->]; auto.
    + exists kStatus_LPUART_Timeout, 0%nat, d1. destruct L1. rewrite app_nil_r. by split_and!; try right.
Qed.
End Blocking.

(** ** The divisor: lemmas *)

Section Divisor.
Context {X : UartFeatures}.

Lemma initial_sbr_run baud src :
  0 < baud < 2 ^ 28 -> 0 <= src ->
  initial_sbr baud src = Ok (Z.max 1 (src / (baud * 16))).
Proof.
  intros Hb Hs. unfold initial_sbr. rewrite (wrap_small 32) by (pow2; lia). rewrite udiv_ok by lia.
  cbn [obind]. assert (0 <= src / (baud * 16)) by (apply Z.div_pos; lia).
  destruct (Z.eqb_spec (src / (baud * 16)) 0); f_equal; lia.
Qed.

(** With the fine adjustment the 18-bit divisor is the quotient rounded down. *)
Lemma baud_divisor_fine baud src :
  has_fine_adjust = true -> 0 < baud < 2 ^ 28 -> 16 * baud <= src < 2 ^ 31 ->
  let d := 2 * src / baud in
  baud_divisor baud src = Ok (d / 32, d mod 32, 2 * src / d - baud) /\ 32 <= d /\ baud <= 2 * src / d.
Proof.
  intros Hfine Hb Hs d. unfold baud_divisor. rewrite initial_sbr_run by lia. cbn [obind].
  assert (32 <= d) as Hd by (apply Z.div_le_lower_bound; lia).
  assert (d * baud <= 2 * src) as Hdb by (pose proof (Z.mul_div_le (2 * src) baud ltac:(lia)); lia).
  assert (src / (baud * 16) = d / 32) as Hq.
  { subst d. rewrite !Z.div_div by lia. rewrite (Z.mul_comm baud 16), (Z.mul_comm baud 32).
    replace (32 * baud) with (2 * (16 * baud)) by lia. by rewrite Z.div_mul_cancel_l by lia. }
  rewrite Hq, Hfine. assert (1 <= d / 32) by (apply Z.div_le_lower_bound; lia). rewrite Z.max_r by lia.
  assert (0 < d <= 2 * src) by nia.
  assert (32 * (d / 32) <= d) by (apply Z.mul_div_le; lia).
  pose proof (Z.div_mod d 32 ltac:(lia)). pose proof (Z.mod_pos_bound d 32 ltac:(lia)).
  rewrite (wrap_small 32 (2 * src)), (wrap_small 32 (32 * _)) by (pow2; lia).
  rewrite udiv_ok by lia. cbn [obind]. fold d.
  replace (d - 32 * (d / 32)) with (d mod 32) by lia.
  rewrite (wrap_small 32 (d mod 32)), (wrap_small 32 (src * 2)), (wrap_small 32 (d / 32 * 32)) by (pow2; lia).
  replace (d / 32 * 32 + d mod 32) with d by lia. rewrite wrap_small by (pow2; lia).
  rewrite udiv_ok by lia. cbn [obind]. rewrite (Z.mul_comm src 2).
  assert (baud <= 2 * src / d) by (apply Z.div_le_lower_bound; lia).
  assert (2 * src / d <= 2 * src) by (apply Z.div_le_upper_bound; nia).
  split; [|done]. f_equal. f_equal. destruct (Z.ltb_spec baud (2 * src / d)); rewrite wrap_small by (pow2; lia); lia.
Qed.

(** Without it the better of two consecutive divisors is chosen. *)
Lemma baud_divisor_coarse baud src :
  has_fine_adjust = false -> 0 < baud < 2 ^ 28 -> 16 * baud <= src < 2 ^ 31 ->
  exists sbr, baud_divisor baud src = Ok (sbr, 0, Z.abs (src / (16 * sbr) - baud)) /\ 1 <= sbr < 2 ^ 28 /\
    forall s, 1 <= s -> Z.abs (src / (16 * sbr) - baud) <= Z.abs (src / (16 * s) - baud).
Proof.
  intros Hfine Hb Hs. unfold baud_divisor. rewrite initial_sbr_run, Hfine by lia. cbn [obind].
  set (k := src / (baud * 16)).
  assert (1 <= k) by (apply Z.div_le_lower_bound; lia). rewrite Z.max_r by lia.
  assert (k * (baud * 16) <= src) by (pose proof (Z.mul_div_le src (baud * 16) ltac:(lia)); lia).
  assert (src < (k + 1) * (baud * 16)) by (pose proof (Z.mul_succ_div_gt src (baud * 16) ltac:(lia)); lia).
  assert (k * 16 <= src) by nia. assert (k < 2 ^ 27) by lia.
  assert (baud <= src / (16 * k)) by (apply Z.div_le_lower_bound; nia).
  assert (src / (16 * (k + 1)) < baud) by (apply Z.div_lt_upper_bound; nia).
  assert (0 <= src / (16 * (k + 1))) by (apply Z.div_pos; lia).
  assert (src / (16 * k) <= src) by (apply Z.div_le_upper_bound; nia).
  rewrite (wrap_small 32 (k * 16)), (wrap_small 32 (k + 1)), (wrap_small 32 (16 * (k + 1))) by (pow2; lia).
  rewrite !udiv_ok by lia. cbn [obind]. rewrite (Z.mul_comm k 16).
  rewrite (wrap_small 32 (baud - _)), (wrap_small 32 (_ - baud)) by (pow2; lia).
  assert (forall s, 1 <= s -> baud <= src / (16 * s) /\ src / (16 * k) <= src / (16 * s) \/
    src / (16 * s) <= src / (16 * (k + 1))) as Hmono.
  { intros s Hs1. destruct (Z.le_gt_cases s k).
    - left. assert (src / (16 * k) <= src / (16 * s)) by (apply Z.div_le_compat_l; lia). lia.
    - right. apply Z.div_le_compat_l; lia. }
  destruct (Z.ltb_spec (baud - src / (16 * (k + 1))) (src / (16 * k) - baud)).
  - exists (k + 1). split; [do 2 f_equal; lia|]. split; [lia|]. intros s Hs1.
    destruct (Hmono s Hs1); lia.
  - exists k. split; [do 2 f_equal; lia|]. split; [lia|]. intros s Hs1. destruct (Hmono s Hs1); lia.
Qed.
End Divisor.

(** ** A concrete peripheral

    A receive FIFO of eight bytes fed from a longer line, and a transmitter
    that drains at once.  The masks are those of the Kinetis UART. *)

#[export] Instance uart_fields : UartFields := {
  UART_BDH_SBR_MASK := 0x1F; UART_BDH_SBNS_MASK := 0x20; UART_BDH_SBNS x := Z.shiftl x 5;
  UART_BDH_LBKDIE_MASK := 0x80; UART_BDH_RXEDGIE_MASK := 0x40;
  UART_C1_PE_MASK := 0x2; UART_C1_PT_MASK := 0x1; UART_C1_M_MASK := 0x10; UART_C1_ILT_MASK := 0x4;
  UART_C1_ILT x := Z.shiftl x 2;
  UART_C2_TIE_MASK := 0x80; UART_C2_TCIE_MASK := 0x40; UART_C2_RIE_MASK := 0x20;
  UART_C2_ILIE_MASK := 0x10; UART_C2_TE_MASK := 0x8; UART_C2_RE_MASK := 0x4;
  UART_C3_ORIE_MASK := 0x8; UART_C3_NEIE_MASK := 0x4; UART_C3_FEIE_MASK := 0x2;
  UART_C3_PEIE_MASK := 0x1; UART_C3_T8_MASK := 0x40;
  UART_C4_BRFA_MASK := 0x1F; UART_C4_MAEN1_MASK := 0x80; UART_C4_MAEN2_MASK := 0x40;
  UART_C4_TDMAS_MASK := 0x80; UART_C4_RDMAS_MASK := 0x20; UART_C5_TDMAS_MASK := 0x80;
  UART_C5_RDMAS_MASK := 0x20;
  UART_S1_TDRE_MASK := 0x80; UART_S1_TC_MASK := 0x40; UART_S1_RDRF_MASK := 0x20;
  UART_S1_IDLE_MASK := 0x10; UART_S1_OR_MASK := 0x8; UART_S1_NF_MASK := 0x4;
  UART_S1_FE_MASK := 0x2; UART_S1_PF_MASK := 0x1;
  UART_S2_RXEDGIF_MASK := 0x40; UART_S2_LBKDIF_MASK := 0x80;
  UART_SFIFO_TXEMPT_MASK := 0x80; UART_SFIFO_RXEMPT_MASK := 0x40; UART_SFIFO_RXUF_MASK := 0x1;
  UART_CFIFO_TXFLUSH_MASK := 0x80; UART_CFIFO_RXFLUSH_MASK := 0x40;
  UART_CFIFO_RXOFE_MASK := 0x4; UART_CFIFO_TXOFE_MASK := 0x2; UART_CFIFO_RXUFE_MASK := 0x1;
  UART_PFIFO_TXFE_MASK := 0x80; UART_PFIFO_RXFE_MASK := 0x8;
  UART_MODEM_RXRTSE_MASK := 0x8; UART_MODEM_TXCTSE_MASK := 0x1
}.

Definition demo_features (fifo fine : bool) : UartFeatures := {|
  has_fifo := fifo; fifo_size := 8; has_extended_flags := true; has_lin_break := true;
  has_fine_adjust := fine; has_stop_bit := false; has_modem := true; is_sci := false;
  UART_RETRY_TIMES := 5
|}.

Record uart_dev := UartDev { d_ctl : uart_reg -> Z; d_line : list Z; d_sent : list Z; d_past : list Z }.

Definition d_s1 (d : uart_dev) : Z := match d_line d with [] => 0xC0 | _ => 0xE0 end.

#[export] Instance uart_dev_device : Device uart_reg uart_dev := {
  reg_read r d :=
    match r with
    | D_ => (match d_line d with b :: _ => b | [] => 0 end,
        UartDev (d_ctl d) (tl (d_line d)) (d_sent d) (d_past d ++ take 1 (d_line d)))
    | S1 => (d_s1 d, d)
    | RCFIFO => (Z.of_nat (length (take 8 (d_line d))), d)
    | TCFIFO | S2 | ED | SFIFO => (0, d)
    | _ => (d_ctl d r, d)
    end;
  reg_write r x d :=
    match r with
    | D_ => UartDev (d_ctl d) (d_line d) (d_sent d ++ [x]) (d_past d)
    | _ => UartDev (fun r' => if decide (r = r') then x else d_ctl d r') (d_line d) (d_sent d) (d_past d)
    end
}.

#[export] Instance uart_dev_laws fifo fine :
  UartLaws uart_dev (X := demo_features fifo fine).
Proof.
  refine (Build_UartLaws uart_dev _ uart_fields (demo_features fifo fine)
    (fun d => View (d_ctl d) (take 8 (d_line d)) (d_sent d) 8 (d_past d ++ take 8 (d_line d))) _ _ _ _ _ _ _ _ _ _ _ _ _); cbn [fifo_size].
  - done.
  - done.
  - done.
  - done.
  - intros r d Hr. by destruct r.
  - intros r v d Hr. by destruct r.
  - intros r d Hr. destruct Hr as [->|[->|[->| ->]]]; done.
  - intros [c [|b l] t p]; done.
  - intros d _. done.
  - intros d _. cbn [reg_read uart_dev_device fst snd rxq]. split_and!; [done| |done].
    rewrite length_take. lia.
  - intros d _. done.
  - intros [c l t p] b q Hq. cbn [rxq] in Hq. destruct l as [|b' l]; [done|]. injection Hq as <- <-.
    split; [done|]. split; [done| |done|done]. exists (drop 7 (take 8 l)).
    assert (E : take 8 l = take 7 l ++ drop 7 (take 8 l)) by (rewrite <- (take_drop 7 (take 8 l)) at 1; by rewrite take_take).
    cbn [rxq line_in uart_dev_device reg_read snd d_line d_past tl take]. split; [done|].
    rewrite E at 1. by rewrite <- !app_assoc.
  - intros b d _. split; try done. exists []. by rewrite !app_nil_r.
Defined.

Definition demo_uart : uart_dev := UartDev (fun _ => 0xFF) [] [] [].

(** ** Claims *)

(** With a retry bound, [UART_WriteBlocking] always returns, and has by
    then handed a prefix of the data to the transmitter, in order and never
    into a full data register or FIFO: all of it when the status is success;
    the only other status is the timeout. *)
Theorem uart_write_blocking_sends {D} `{UL : UartLaws D} fuel data d :
  0 < UART_RETRY_TIMES < 2 ^ 32 -> (Z.to_nat UART_RETRY_TIMES <= fuel)%nat ->
  exists st d', UART_WriteBlocking fuel data d = Ok (st, d') /\
    (st = kStatus_Success \/ st = kStatus_LPUART_Timeout) /\
    (st = kStatus_Success -> txd (uview d') = txd (uview d) ++ data) /\
    (exists k, txd (uview d') = txd (uview d) ++ take k data) /\ ctl (uview d') = ctl (uview d).
Proof.
  intros Hr Hf. destruct (WriteBlocking_run Hr fuel Hf data d) as (st & k & d' & Hrun & Ht & Hc & Hst).
  exists st, d'. split_and!; [done|tauto| |by exists k|done].
  intros ->. destruct Hst as [[_ ->]|Hst]; [|done]. by rewrite Ht, firstn_all.
Qed.

Lemma uart_write_blocking_sends_witness :
  exists st d', UART_WriteBlocking (X := demo_features true true) 5 [1; 2; 3] demo_uart = Ok (st, d') /\
    (st = kStatus_Success \/ st = kStatus_LPUART_Timeout) /\
    (st = kStatus_Success -> d_sent d' = [1; 2; 3]) /\
    (exists k, d_sent d' = take k [1; 2; 3]) /\ d_ctl d' = d_ctl demo_uart.
Proof.
  apply (uart_write_blocking_sends (UL := uart_dev_laws true true) 5 [1; 2; 3] demo_uart); cbn; lia.
Defined.

(** With the fine adjustment, and a clock at least 16 times the rate,
    [UART_SetBaudRate] accepts exactly when the rate of the divisor
    [d = 2 * src / baud] is within the 3% the code allows.  It then restores
    C2 and leaves [d / 32] modulo 2^13 in the SBR field and [d mod 32] in
    BRFA: the divisor wanted if and only if [d < 2^18], which the code does
    not check.  When it refuses, no control register has changed. *)
Theorem uart_set_baud_rate_fine {D} `{UL : UartLaws D} baud src d :
  has_fine_adjust = true -> UART_BDH_SBR_MASK = 0x1F -> UART_C4_BRFA_MASK = 0x1F ->
  0 < baud < 2 ^ 28 -> 16 * baud <= src < 2 ^ 31 ->
  let dv := 2 * src / baud in
  exists st d', UART_SetBaudRate baud src d = Ok (st, d') /\
    (st = kStatus_Success <-> 2 * src / dv - baud < baud / 100 * 3) /\
    (st <> kStatus_Success -> st = kStatus_UART_BaudrateNotSupport /\ d' = d) /\
    (st = kStatus_Success ->
       let c := ctl (uview d') in
       c C2 = ctl (uview d) C2 /\
       32 * (Z.land (c BDH) 0x1F * 256 + c BDL) + Z.land (c C4) 0x1F = 32 * (dv / 32 mod 2 ^ 13) + dv mod 32 /\
       (32 * (Z.land (c BDH) 0x1F * 256 + c BDL) + Z.land (c C4) 0x1F = dv <-> dv < 2 ^ 18)).
Proof.
  intros Hfine Hsbr Hbrfa Hb Hs dv. unfold UART_SetBaudRate.
  rewrite (proj2 (Z.eqb_neq baud 0)) by lia. cbn [negb]. rewrite assert_true, bind_ret by done.
  destruct (baud_divisor_fine baud src Hfine Hb Hs) as (Hd & Hd32 & Hge). fold dv in Hd, Hd32, Hge.
  rewrite Hd, bind_lift.
  assert (0 <= baud / 100 * 3 <= baud) by zlia. rewrite (wrap_small 32 (baud / 100 * 3)) by (pow2; lia).
  destruct (Z.ltb_spec (2 * src / dv - baud) (baud / 100 * 3)) as [Hok|Hbad].
  2: { eexists _, d. split; [reflexivity|]. split; [split; [discriminate|lia]|split; [done|discriminate]]. }
  destruct (rd_control C2 d eq_refl) as (d1 & H1 & L1). rewrite (bind_ok _ _ _ _ _ H1).
  unfold disable_tx_rx.
  destruct (clear_bits_control C2 (Z.lor UART_C2_TE_MASK UART_C2_RE_MASK) d1 eq_refl) as (d2 & H2 & L2).
  rewrite (bind_ok _ _ _ _ _ H2).
  destruct (write_divisor_run (dv / 32) (dv mod 32) d2 Hfine) as (d3 & H3 & HH & HL & HC & _).
  rewrite (bind_ok _ _ _ _ _ H3), bind_wr.
  pose proof (control_write C2 (ctl (uview d) C2) d3 eq_refl) as L4.
  set (d4 := reg_write C2 (ctl (uview d) C2) d3) in *.
  exists kStatus_Success, d4. split; [reflexivity|]. split; [done|]. split; [done|]. intros _.
  apply later_ctl in L4. cbn zeta. rewrite L4. cbn [set_ctl ctl].
  rewrite decide_True, !decide_False by done. rewrite HH, HL, HC, Hsbr, Hbrfa.
  rewrite !land_lor_bic by lia. rewrite Z.shiftr_div_pow2 by lia.
  change 0x1F with (Z.ones 5). rewrite !Z.land_ones by lia. unfold wrap.
  assert (32 * ((dv / 32 / 2 ^ 8) mod 2 ^ 8 mod 2 ^ 5 * 256 + dv / 32 mod 2 ^ 8) + dv mod 32 mod 2 ^ 8 mod 2 ^ 5 mod 2 ^ 5 =
    32 * (dv / 32 mod 2 ^ 13) + dv mod 32) as E.
  { change (2 ^ 8) with 256. change (2 ^ 5) with 32. change (2 ^ 13) with 8192. zlia. }
  rewrite E. split; [done|]. split; [done|]. change (2 ^ 13) with 8192. change (2 ^ 18) with 262144. zlia.
Qed.

Lemma uart_set_baud_rate_fine_witness :
  let dv := 2 * 60000000 / 115200 in
  exists st d', UART_SetBaudRate (X := demo_features true true) 115200 60000000 demo_uart = Ok (st, d') /\
    (st = kStatus_Success <-> 2 * 60000000 / dv - 115200 < 115200 / 100 * 3) /\
    (st <> kStatus_Success -> st = kStatus_UART_BaudrateNotSupport /\ d' = demo_uart) /\
    (st = kStatus_Success ->
       let c := d_ctl d' in
       c C2 = 0xFF /\
       32 * (Z.land (c BDH) 0x1F * 256 + c BDL) + Z.land (c C4) 0x1F = 32 * (dv / 32 mod 2 ^ 13) + dv mod 32 /\
       (32 * (Z.land (c BDH) 0x1F * 256 + c BDL) + Z.land (c C4) 0x1F = dv <-> dv < 2 ^ 18)).
Proof.
  apply (uart_set_baud_rate_fine (UL := uart_dev_laws true true) 115200 60000000 demo_uart); done || lia.
Defined.

(** Without the fine adjustment and with a clock at least 16 times the
    rate, the divisor tried is optimal: no other divisor gives a rate closer
    to the one asked for, as the code measures it. *)
Theorem uart_baud_divisor_optimal {X : UartFeatures} baud src :
  has_fine_adjust = false -> 0 < baud < 2 ^ 28 -> 16 * baud <= src < 2 ^ 31 ->
  exists sbr, baud_divisor baud src = Ok (sbr, 0, Z.abs (src / (16 * sbr) - baud)) /\ 1 <= sbr /\
    forall s, 1 <= s -> Z.abs (src / (16 * sbr) - baud) <= Z.abs (src / (16 * s) - baud).
Proof.
  intros Hf Hb Hs. destruct (baud_divisor_coarse baud src Hf Hb Hs) as (sbr & H1 & H2 & H3).
  exists sbr. split; [done|]. split; [lia|done].
Qed.

Lemma uart_baud_divisor_optimal_witness :
  exists sbr, baud_divisor (X := demo_features true false) 115200 48000000
      = Ok (sbr, 0, Z.abs (48000000 / (16 * sbr) - 115200)) /\ 1 <= sbr /\
    forall s, 1 <= s -> Z.abs (48000000 / (16 * sbr) - 115200) <= Z.abs (48000000 / (16 * s) - 115200).
Proof. apply (uart_baud_divisor_optimal (X := demo_features true false) 115200 48000000); done || lia. Defined.

(** Two kinds of rates are refused although the clock can make them.
    Without the fine adjustment, a clock below 16 times the rate always gives
    divisor 2 and half the rate, even where divisor 1 is within 3%; and
    [UART_SetBaudRate] compares strictly with a bound that is 0 below 100
    baud, so it refuses every such rate, exact ones included. *)
Theorem uart_baud_refused {D} `{!Device uart_reg D} {F : UartFields} {X : UartFeatures} baud src (d : D) :
  (has_fine_adjust = false -> 32 <= src < 16 * baud -> 16 * baud < 2 ^ 31 ->
     baud_divisor baud src = Ok (2, 0, baud - src / 32) /\ baud / 100 * 3 < baud - src / 32 /\
     UART_SetBaudRate baud src d = Ok (kStatus_UART_BaudrateNotSupport, d)) /\
  (has_fine_adjust = true -> 0 < baud < 100 -> 16 * baud <= src < 2 ^ 31 ->
     UART_SetBaudRate baud src d = Ok (kStatus_UART_BaudrateNotSupport, d)).
Proof.
  split.
  - intros Hf Hs Hb.
    assert (baud_divisor baud src = Ok (2, 0, baud - src / 32)) as Hd.
    { unfold baud_divisor. rewrite initial_sbr_run by lia. cbn [obind].
      rewrite (Z.div_small src) by lia. change (Z.max 1 0) with 1. rewrite Hf.
      rewrite (wrap_small 32 (1 + 1)) by (pow2; lia). change (1 + 1) with 2. change (16 * 2) with 32. change (1 * 16) with 16.
      rewrite !(wrap_small 32 16), (wrap_small 32 32), !udiv_ok by (pow2; lia). cbn [obind].
      assert (src / 16 < baud) by zlia. assert (0 <= src / 32 <= src / 16) by zlia.
      assert (u32 (src / 16 - baud) = src / 16 - baud + 2 ^ 32) as ->.
      { unfold wrap. rewrite <- (Z.mod_add _ 1) by lia. rewrite Z.mul_1_l. apply Z.mod_small. lia. }
      rewrite (wrap_small 32 (baud - _)) by (pow2; lia).
      rewrite (proj2 (Z.ltb_lt _ _)) by lia. done. }
    assert (baud / 100 * 3 < baud - src / 32) as Hlt by zlia.
    split; [done|]. split; [done|]. unfold UART_SetBaudRate.
    rewrite (proj2 (Z.eqb_neq baud 0)) by lia. cbn [negb]. rewrite assert_true, bind_ret, Hd, bind_lift by done.
    rewrite (wrap_small 32 (baud / 100 * 3)) by (pow2; zlia).
    by rewrite (proj2 (Z.ltb_ge _ _)) by lia.
  - intros Hf Hb Hs. destruct (baud_divisor_fine baud src Hf ltac:(lia) Hs) as (Hd & _ & Hge).
    unfold UART_SetBaudRate.
    rewrite (proj2 (Z.eqb_neq baud 0)) by lia. cbn [negb]. rewrite assert_true, bind_ret, Hd, bind_lift by done.
    rewrite (Z.div_small baud) by lia. change (u32 (0 * 3)) with 0.
    by rewrite (proj2 (Z.ltb_ge _ _)) by lia.
Qed.

Lemma uart_baud_refused_witness :
  (32 <= 1840000 < 16 * 115200 /\
     UART_SetBaudRate (X := demo_features true false) 115200 1840000 demo_uart
       = Ok (kStatus_UART_BaudrateNotSupport, demo_uart)) /\
  UART_SetBaudRate (X := demo_features true true) 50 1000000 demo_uart
    = Ok (kStatus_UART_BaudrateNotSupport, demo_uart).
Proof.
  split; [split; [lia|]|].
  - destruct (uart_baud_refused (X := demo_features true false) 115200 1840000 demo_uart) as [H _].
    apply H; [reflexivity|lia|lia].
  - destruct (uart_baud_refused (X := demo_features true true) 50 1000000 demo_uart) as [_ H].
    apply H; [reflexivity|lia|lia].
Defined.
