(* ===== verification/UartTransfer.v ===== *)
(** * The UART driver: interrupt-driven transfers (drivers/uart/fsl_uart.c)

    The transfer handle, the receive ring buffer, the non-blocking transfers
    and the interrupt handler.  The handle, the user's buffers and the ring
    buffer live in one byte-addressed memory, so that what aliases in the
    program aliases here.  The user's callback is arbitrary code: a parameter.

    The interrupt handler is the sequence of the blocks of
    [UART_TransferHandleIRQ], one definition per block.  Masking the global
    interrupt protects a read-modify-write from the handler and has no other
    effect; each function here runs without interruption. *)

From stdpp Require Import base list numbers tactics.
From Stdlib Require Import ZArith Lia.
From S2P Require Import Prelude Mmio Uart.

Open Scope Z_scope.
Open Scope prog_scope.

Inductive tx_state := kUART_TxIdle | kUART_TxBusy.
Inductive rx_state := kUART_RxIdle | kUART_RxBusy | kUART_RxFramingError | kUART_RxParityError.
#[export] Instance tx_state_eq_dec : EqDecision tx_state.
Proof. solve_decision. Defined.
#[export] Instance rx_state_eq_dec : EqDecision rx_state.
Proof. solve_decision. Defined.

(** [uart_handle_t]; pointers are addresses, 0 is NULL. *)
Record uart_handle := UartHandle {
  txData : Z; txDataSize : Z; txDataSizeAll : Z;
  rxData : Z; rxDataSize : Z; rxDataSizeAll : Z;
  rxRingBuffer : Z; rxRingBufferSize : Z; rxRingBufferHead : Z; rxRingBufferTail : Z;
  callback : bool;          (** [callback != NULL] *)
  txState : tx_state; rxState : rx_state
}.

(** Assignments to groups of fields. *)
Definition with_tx (data size : Z) (h : uart_handle) : uart_handle :=
  UartHandle data size (txDataSizeAll h) (rxData h) (rxDataSize h) (rxDataSizeAll h)
    (rxRingBuffer h) (rxRingBufferSize h) (rxRingBufferHead h) (rxRingBufferTail h)
    (callback h) (txState h) (rxState h).
Definition with_txState (st : tx_state) (h : uart_handle) : uart_handle :=
  UartHandle (txData h) (txDataSize h) (txDataSizeAll h) (rxData h) (rxDataSize h) (rxDataSizeAll h)
    (rxRingBuffer h) (rxRingBufferSize h) (rxRingBufferHead h) (rxRingBufferTail h)
    (callback h) st (rxState h).
Definition with_txAll (n : Z) (h : uart_handle) : uart_handle :=
  UartHandle (txData h) (txDataSize h) n (rxData h) (rxDataSize h) (rxDataSizeAll h)
    (rxRingBuffer h) (rxRingBufferSize h) (rxRingBufferHead h) (rxRingBufferTail h)
    (callback h) (txState h) (rxState h).
Definition with_rx (data size : Z) (h : uart_handle) : uart_handle :=
  UartHandle (txData h) (txDataSize h) (txDataSizeAll h) data size (rxDataSizeAll h)
    (rxRingBuffer h) (rxRingBufferSize h) (rxRingBufferHead h) (rxRingBufferTail h)
    (callback h) (txState h) (rxState h).
Definition with_rxState (st : rx_state) (h : uart_handle) : uart_handle :=
  UartHandle (txData h) (txDataSize h) (txDataSizeAll h) (rxData h) (rxDataSize h) (rxDataSizeAll h)
    (rxRingBuffer h) (rxRingBufferSize h) (rxRingBufferHead h) (rxRingBufferTail h)
    (callback h) (txState h) st.
Definition with_rxAll (n : Z) (h : uart_handle) : uart_handle :=
  UartHandle (txData h) (txDataSize h) (txDataSizeAll h) (rxData h) (rxDataSize h) n
    (rxRingBuffer h) (rxRingBufferSize h) (rxRingBufferHead h) (rxRingBufferTail h)
    (callback h) (txState h) (rxState h).
Definition with_ring (buf size head tail : Z) (h : uart_handle) : uart_handle :=
  UartHandle (txData h) (txDataSize h) (txDataSizeAll h) (rxData h) (rxDataSize h) (rxDataSizeAll h)
    buf size head tail (callback h) (txState h) (rxState h).
Definition with_head (head : Z) (h : uart_handle) : uart_handle :=
  with_ring (rxRingBuffer h) (rxRingBufferSize h) head (rxRingBufferTail h) h.
Definition with_tail (tail : Z) (h : uart_handle) : uart_handle :=
  with_ring (rxRingBuffer h) (rxRingBufferSize h) (rxRingBufferHead h) tail h.

(** A driver call's world: the peripheral, the handle, the memory, and the
    state of the user's program, which only the callback touches. *)
Record uart_state (D U : Type) := UartState {
  u_hw : D; u_h : uart_handle; u_mem : Z -> Z; u_user : U
}.
Arguments UartState {D U}. Arguments u_hw {D U}. Arguments u_h {D U}.
Arguments u_mem {D U}. Arguments u_user {D U}.

Definition upd (m : Z -> Z) (a v : Z) : Z -> Z := fun x => if decide (x = a) then v else m x.

(** ** The ring buffer *)

(** [UART_TransferGetRxRingBufferLength]; [size_t] has 32 bits. *)
Definition UART_TransferGetRxRingBufferLength (h : uart_handle) : Z :=
  if rxRingBufferHead h <? rxRingBufferTail h
  then u32 (rxRingBufferHead h + rxRingBufferSize h - rxRingBufferTail h)
  else u32 (rxRingBufferHead h - rxRingBufferTail h).

Definition UART_TransferIsRxRingBufferFull (h : uart_handle) : bool :=
  UART_TransferGetRxRingBufferLength h =? u32 (rxRingBufferSize h - 1).

(** The step of a 16-bit index: wrap to 0 by comparison, not by modulo. *)
Definition next_index (h : uart_handle) (i : Z) : Z :=
  if i + 1 =? rxRingBufferSize h then 0 else u16 (i + 1).

Section Transfer.
Context {D U : Type} `{!Device uart_reg D} {F : UartFields} {X : UartFeatures}.
Abbreviation state := (uart_state D U).

Definition on_hw {A} (m : M D A) : M state A :=
  fun s => match m (u_hw s) with
  | Ok (a, d) => Ok (a, UartState d (u_h s) (u_mem s) (u_user s))
  | Err e => Err e
  end.
Definition handle : M state uart_handle := gets u_h.
Definition set_h (f : uart_handle -> uart_handle) : M state unit :=
  modify (fun s => UartState (u_hw s) (f (u_h s)) (u_mem s) (u_user s)).
Definition load (a : Z) : M state Z := gets (fun s => u_mem s a).
Definition store (a v : Z) : M state unit :=
  modify (fun s => UartState (u_hw s) (u_h s) (upd (u_mem s) a v) (u_user s)).

Context (user_callback : status_t -> M state unit).

(** [if (handle->callback != NULL) handle->callback(base, handle, st, ...)] *)
Definition notify (st : status_t) : M state unit :=
  h <- handle ;; when (callback h) (user_callback st).

(** [for (i = 0; i < length; i++) data[i] = base->D] *)
Fixpoint read_loop (data i : Z) (n : nat) : M state unit :=
  match n with
  | O => ret tt
  | S n => b <- on_hw (rd D_) ;; store (data + i) b ;; read_loop data (i + 1) n
  end.
Definition UART_ReadNonBlocking (data length : Z) : M state unit :=
  read_loop data 0 (Z.to_nat length).

Fixpoint write_loop (data i : Z) (n : nat) : M state unit :=
  match n with
  | O => ret tt
  | S n => b <- load (data + i) ;; on_hw (wr D_ b) ;; write_loop data (i + 1) n
  end.
Definition UART_WriteNonBlocking (data length : Z) : M state unit :=
  write_loop data 0 (Z.to_nat length).

(** ** Receive interrupts: the enable sequences of C2 and C3 *)

(** [if ((PE & base->C1) != 0) C3 op PEIE] *)
Definition if_parity (m : M D unit) : M D unit :=
  x <- rd C1 ;; when (has UART_C1_PE_MASK x) m.

Definition enable_rx_errors : M D unit :=
  set_bits C3 (Z.lor UART_C3_ORIE_MASK UART_C3_FEIE_MASK) ;;
  if_parity (set_bits C3 UART_C3_PEIE_MASK).
Definition disable_rx_errors : M D unit :=
  clear_bits8 C3 (Z.lor UART_C3_ORIE_MASK UART_C3_FEIE_MASK) ;;
  if_parity (clear_bits8 C3 UART_C3_PEIE_MASK).

(** RIE, overrun, framing and parity error off. *)
Definition stop_rx_interrupts : M D unit :=
  clear_bits8 C2 UART_C2_RIE_MASK ;; disable_rx_errors.
(** RIE, idle line, overrun, framing and parity error on. *)
Definition start_rx_interrupts : M D unit :=
  set_bits C2 (Z.lor UART_C2_RIE_MASK UART_C2_ILIE_MASK) ;; enable_rx_errors.

(** ** Creating the handle, installing the ring buffer *)

Definition null_handle : uart_handle :=
  UartHandle 0 0 0 0 0 0 0 0 0 0 false kUART_TxIdle kUART_RxIdle.

(** The registration of the handle for the vector table and the NVIC enable
    are not part of this state. *)
Definition UART_TransferCreateHandle (cb : bool) : M state unit :=
  set_h (fun _ => UartHandle 0 0 0 0 0 0 0 0 0 0 cb kUART_TxIdle kUART_RxIdle).

Definition UART_TransferStartRingBuffer (ringBuffer ringBufferSize : Z) : M state unit :=
  assert_ (negb (ringBuffer =? 0)) ;;
  set_h (with_ring ringBuffer ringBufferSize 0 0) ;;
  on_hw (set_bits C2 UART_C2_RIE_MASK ;; enable_rx_errors).

Definition UART_TransferStopRingBuffer : M state unit :=
  h <- handle ;;
  when (bool_decide (rxState h = kUART_RxIdle)) (on_hw stop_rx_interrupts) ;;
  set_h (with_ring 0 0 0 0).

(** ** Sending *)

Definition UART_TransferSendNonBlocking (data dataSize : Z) : M state status_t :=
  assert_ (negb (dataSize =? 0)) ;;
  assert_ (negb (data =? 0)) ;;
  h <- handle ;;
  if decide (txState h = kUART_TxBusy) then ret kStatus_UART_TxBusy else
  set_h (with_tx data dataSize) ;;
  set_h (with_txAll dataSize) ;;
  set_h (with_txState kUART_TxBusy) ;;
  on_hw (set_bits C2 UART_C2_TIE_MASK) ;;
  ret kStatus_Success.

Definition UART_TransferAbortSend : M state unit :=
  on_hw (clear_bits8 C2 (Z.lor UART_C2_TIE_MASK UART_C2_TCIE_MASK)) ;;
  h <- handle ;;
  set_h (with_tx (txData h) 0) ;;
  set_h (with_txState kUART_TxIdle).

(** The status, and the count where the code stores one. *)
Definition UART_TransferGetSendCount : M state (status_t * option Z) :=
  h <- handle ;;
  if decide (txState h = kUART_TxIdle) then ret (kStatus_NoTransferInProgress, None) else
  if has_fifo then
    n <- on_hw (rd TCFIFO) ;;
    ret (kStatus_Success, Some (u32 (txDataSizeAll h - txDataSize h - n)))
  else
    s1 <- on_hw (rd S1) ;;
    if has s1 kUART_TxDataRegEmptyFlag
    then ret (kStatus_Success, Some (u32 (txDataSizeAll h - txDataSize h)))
    else ret (kStatus_Success, Some (u32 (txDataSizeAll h - txDataSize h - 1))).

(** ** Receiving *)

(** The copy from the ring buffer: [xfer->rxData[received++] = ring[tail]]. *)
Fixpoint copy_from_ring (data received : Z) (n : nat) : M state Z :=
  match n with
  | O => ret received
  | S n =>
      h <- handle ;;
      b <- load (rxRingBuffer h + rxRingBufferTail h) ;;
      store (data + received) b ;;
      set_h (with_tail (next_index h (rxRingBufferTail h))) ;;
      copy_from_ring data (received + 1) n
  end.

(** The status and, where the code stores it, the bytes already received. *)
Definition UART_TransferReceiveNonBlocking (data dataSize : Z) : M state (status_t * option Z) :=
  assert_ (negb (data =? 0)) ;;
  assert_ (negb (dataSize =? 0)) ;;
  h <- handle ;;
  if decide (rxState h = kUART_RxBusy) then ret (kStatus_UART_RxBusy, None) else
  if negb (rxRingBuffer h =? 0) then
    on_hw (clear_bits8 C2 UART_C2_RIE_MASK) ;;
    let bytesToCopy := Z.min dataSize (UART_TransferGetRxRingBufferLength h) in
    let bytesToReceive := dataSize - bytesToCopy in
    received <- copy_from_ring data 0 (Z.to_nat bytesToCopy) ;;
    when (negb (bytesToReceive =? 0)) (
      set_h (with_rx (data + received) bytesToReceive) ;;
      set_h (with_rxAll dataSize) ;;
      set_h (with_rxState kUART_RxBusy)) ;;
    on_hw (set_bits C2 UART_C2_RIE_MASK) ;;
    when (bytesToReceive =? 0) (notify kStatus_UART_RxIdle) ;;
    ret (kStatus_Success, Some received)
  else
    set_h (with_rx data dataSize) ;;
    set_h (with_rxAll dataSize) ;;
    set_h (with_rxState kUART_RxBusy) ;;
    on_hw start_rx_interrupts ;;
    ret (kStatus_Success, Some 0).

Definition UART_TransferAbortReceive : M state unit :=
  h <- handle ;;
  when (rxRingBuffer h =? 0) (on_hw (
    clear_bits8 C2 (Z.lor UART_C2_RIE_MASK UART_C2_ILIE_MASK) ;; disable_rx_errors)) ;;
  h <- handle ;;
  set_h (with_rx (rxData h) 0) ;;
  set_h (with_rxState kUART_RxIdle).

Definition UART_TransferGetReceiveCount : M state (status_t * option Z) :=
  h <- handle ;;
  if decide (rxState h = kUART_RxIdle) then ret (kStatus_NoTransferInProgress, None) else
  ret (kStatus_Success, Some (u32 (rxDataSizeAll h - rxDataSize h))).

(** ** The interrupt handler *)

(** [while ((base->S1 & RDRF) != 0) (void)base->D], then the FIFO flush. *)
Definition discard_received (fuel : nat) : M D unit :=
  while_ fuel (x <- rd S1 ;; ret (has x UART_S1_RDRF_MASK)) (rd D_ ;; ret tt) ;;
  when (has_fifo) (set_bits CFIFO UART_CFIFO_RXFLUSH_MASK).

Definition isr_framing (fuel : nat) (status : Z) : M state unit :=
  when (has status kUART_FramingErrorFlag) (
    on_hw (discard_received fuel) ;;
    h <- handle ;;
    set_h (with_rxState kUART_RxFramingError) ;;
    set_h (with_rx (rxData h) 0) ;;
    notify kStatus_UART_FramingError).

Definition isr_parity (fuel : nat) (status : Z) : M state unit :=
  when (has status kUART_ParityErrorFlag) (
    on_hw (discard_received fuel) ;;
    h <- handle ;;
    set_h (with_rxState kUART_RxParityError) ;;
    set_h (with_rx (rxData h) 0) ;;
    notify kStatus_UART_ParityError).

Definition isr_overrun (fuel : nat) (status : Z) : M state unit :=
  when (has status kUART_RxOverrunFlag) (
    on_hw (discard_received fuel) ;;
    notify kStatus_UART_RxHardwareOverrun).

(** The loop that stores into the pending request; [stop] is what the idle
    line block adds when the request is complete.  The result is [count]. *)
Fixpoint receive_to_user (stop : M state unit) (rounds : nat) (count : Z) : M state Z :=
  h <- handle ;;
  if (count =? 0) || (rxDataSize h =? 0) then ret count else
  match rounds with
  | O => throw OutOfFuel
  | S rounds =>
      let tempCount := if has_fifo then u8 (Z.min (rxDataSize h) count) else 1 in
      UART_ReadNonBlocking (rxData h) tempCount ;;
      set_h (with_rx (rxData h + tempCount) (u32 (rxDataSize h - tempCount))) ;;
      when (u32 (rxDataSize h - tempCount) =? 0) (
        set_h (with_rxState kUART_RxIdle) ;;
        stop ;;
        notify kStatus_UART_RxIdle) ;;
      receive_to_user stop rounds (u8 (count - tempCount))
  end.

Definition isr_idle (fuel : nat) (status : Z) : M state unit :=
  idle <- (if has status kUART_IdleLineFlag
           then x <- on_hw (rd C2) ;; ret (has UART_C2_ILIE_MASK x) else ret false) ;;
  when (idle : bool) (
    when (has_fifo) (
      count <- on_hw (rd RCFIFO) ;;
      receive_to_user (on_hw stop_rx_interrupts) 256 count ;;
      ret tt) ;;
    on_hw (while_ fuel (x <- rd S1 ;; ret (has UART_S1_IDLE_MASK x)) (rd D_ ;; ret tt)) ;;
    when (has_fifo) (on_hw (set_bits CFIFO UART_CFIFO_RXFLUSH_MASK)) ;;
    h <- handle ;;
    when (rxDataSize h =? 0) (on_hw (clear_bits8 C2 UART_C2_ILIE_MASK)) ;;
    when (callback h && negb (rxDataSize h =? 0)) (user_callback kStatus_UART_IdleLineDetected)).

(** One byte into the ring buffer; a full buffer is reported first, and if
    the callback did not make room the oldest byte gives way. *)
Definition receive_to_ring : M state unit :=
  h <- handle ;;
  when (UART_TransferIsRxRingBufferFull h) (notify kStatus_UART_RxRingBufferOverrun) ;;
  h <- handle ;;
  when (UART_TransferIsRxRingBufferFull h) (set_h (with_tail (next_index h (rxRingBufferTail h)))) ;;
  tmpdata <- on_hw (rd D_) ;;
  h <- handle ;;
  store (rxRingBuffer h + rxRingBufferHead h) tmpdata ;;
  set_h (with_head (next_index h (rxRingBufferHead h))).

(** [while (0U != count--)] *)
Fixpoint receive_all_to_ring (count : nat) : M state unit :=
  match count with
  | O => ret tt
  | S count => receive_to_ring ;; receive_all_to_ring count
  end.

Definition isr_receive (status : Z) : M state unit :=
  full <- (if has status kUART_RxDataRegFullFlag
           then x <- on_hw (rd C2) ;; ret (has UART_C2_RIE_MASK x) else ret false) ;;
  when (full : bool) (
    count <- (if has_fifo then on_hw (rd RCFIFO) else ret 1) ;;
    count <- receive_to_user (ret tt) 256 count ;;
    h <- handle ;;
    if negb (rxRingBuffer h =? 0) then receive_all_to_ring (Z.to_nat count)
    else when (rxDataSize h =? 0) (on_hw stop_rx_interrupts)).

Definition isr_error_tail : M state unit :=
  h <- handle ;;
  when (bool_decide (rxState h = kUART_RxFramingError \/ rxState h = kUART_RxParityError)
        && (rxRingBuffer h =? 0)) (on_hw start_rx_interrupts).

Fixpoint transmit (rounds : nat) (count : Z) : M state unit :=
  h <- handle ;;
  if (count =? 0) || (txDataSize h =? 0) then ret tt else
  match rounds with
  | O => throw OutOfFuel
  | S rounds =>
      let tempCount := if has_fifo then u8 (Z.min (txDataSize h) count) else 1 in
      UART_WriteNonBlocking (txData h) tempCount ;;
      set_h (with_tx (txData h + tempCount) (u32 (txDataSize h - tempCount))) ;;
      when (u32 (txDataSize h - tempCount) =? 0) (on_hw (
        x <- rd C2 ;; wr C2 (Z.lor (bic8 x UART_C2_TIE_MASK) UART_C2_TCIE_MASK))) ;;
      transmit rounds (u8 (count - tempCount))
  end.

Definition isr_transmit (status : Z) : M state unit :=
  empty <- (if has status kUART_TxDataRegEmptyFlag
            then x <- on_hw (rd C2) ;; ret (has x UART_C2_TIE_MASK) else ret false) ;;
  when (empty : bool) (
    count <- (if has_fifo then n <- on_hw (rd TCFIFO) ;; ret (u8 (u8 fifo_size - n)) else ret 1) ;;
    transmit 256 count).

Definition isr_complete (status : Z) : M state unit :=
  complete <- (if has kUART_TransmissionCompleteFlag status
               then x <- on_hw (rd C2) ;; ret (has x UART_C2_TCIE_MASK) else ret false) ;;
  when (complete : bool) (
    set_h (with_txState kUART_TxIdle) ;;
    on_hw (clear_bits8 C2 UART_C2_TCIE_MASK) ;;
    notify kStatus_UART_TxIdle).

Definition UART_TransferHandleIRQ (fuel : nat) : M state unit :=
  status <- on_hw UART_GetStatusFlags ;;
  isr_framing fuel status ;;
  isr_parity fuel status ;;
  isr_overrun fuel status ;;
  isr_idle fuel status ;;
  isr_receive status ;;
  isr_error_tail ;;
  isr_transmit status ;;
  isr_complete status.
End Transfer.
