(* ===== verification/UartStream.v ===== *)
(** * The UART driver: the byte streams

    What the interrupt-driven transfers promise.  Received bytes pass, in
    order and without loss, first to the pending request and then to the ring
    buffer, a bounded queue that drops its oldest byte when full; requests
    are served from the ring buffer first.  Bytes to send reach the
    transmitter in order.  The callback of these theorems is quiet: it
    changes only the user's own state ([Quiet]). *)

From stdpp Require Import base list numbers tactics.
From Stdlib Require Import ZArith Lia.
From S2P Require Import Prelude Mmio Uart UartTransfer.

Open Scope Z_scope.
Open Scope prog_scope.

(** ** Memory *)

Fixpoint bytes_at (m : Z -> Z) (a : Z) (n : nat) : list Z :=
  match n with O => [] | S n => m a :: bytes_at m (a + 1) n end.

Fixpoint write_bytes (m : Z -> Z) (a : Z) (bs : list Z) : Z -> Z :=
  match bs with [] => m | b :: bs => write_bytes (upd m a b) (a + 1) bs end.

(** Memory unchanged outside [n] bytes at [a]. *)
Definition frame (m m' : Z -> Z) (a n : Z) : Prop := forall x, ~ a <= x < a + n -> m' x = m x.

Lemma upd_eq m a v : upd m a v a = v.
Proof. unfold upd. by rewrite decide_True. Qed.
Lemma upd_ne m a v x : x <> a -> upd m a v x = m x.
Proof. intros. unfold upd. by rewrite decide_False. Qed.

Lemma length_bytes_at m n : forall a, length (bytes_at m a n) = n.
Proof. induction n; intros a; cbn; [done|by rewrite IHn]. Qed.

Lemma bytes_at_ext m m' n : forall a,
  (forall x, a <= x < a + Z.of_nat n -> m' x = m x) -> bytes_at m' a n = bytes_at m a n.
Proof.
  induction n as [|n IH]; intros a H; cbn [bytes_at]; [done|].
  rewrite H by lia. f_equal. apply IH. intros x Hx. apply H. lia.
Qed.

Lemma write_bytes_frame bs : forall m a, frame m (write_bytes m a bs) a (Z.of_nat (length bs)).
Proof.
  induction bs as [|b bs IH]; intros m a x Hx; cbn [write_bytes length] in *; [done|].
  rewrite IH by lia. apply upd_ne. lia.
Qed.

Lemma bytes_at_write bs : forall m a, bytes_at (write_bytes m a bs) a (length bs) = bs.
Proof.
  induction bs as [|b bs IH]; intros m a; cbn [write_bytes length bytes_at]; [done|].
  rewrite IH, (write_bytes_frame bs (upd m a b) (a + 1)), upd_eq by lia. done.
Qed.

Lemma write_bytes_app bs cs : forall m a,
  write_bytes m a (bs ++ cs) = write_bytes (write_bytes m a bs) (a + Z.of_nat (length bs)) cs.
Proof.
  induction bs as [|b bs IH]; intros m a; cbn [write_bytes length app].
  - by rewrite Z.add_0_r.
  - rewrite IH. f_equal. lia.
Qed.

(** ** Bounded queues *)

(** A push that drops the oldest element of a full queue. *)
Definition push (cap : nat) (q : list Z) (b : Z) : list Z :=
  (if decide (length q = cap) then tail q else q) ++ [b].

(** The newest [cap] elements. *)
Definition newest (cap : nat) (l : list Z) : list Z := drop (length l - cap) l.

Lemma push_newest cap q b : (0 < cap)%nat -> (length q <= cap)%nat -> push cap q b = newest cap (q ++ [b]).
Proof.
  intros Hc Hq. unfold push, newest. rewrite length_app. cbn [length].
  destruct (decide (length q = cap)) as [E|E].
  - replace (length q + 1 - cap)%nat with 1%nat by lia. destruct q; cbn in *; [lia|done].
  - by replace (length q + 1 - cap)%nat with 0%nat by lia.
Qed.

Lemma newest_app cap l k : newest cap (newest cap l ++ k) = newest cap (l ++ k).
Proof.
  unfold newest. rewrite !length_app, length_drop.
  destruct (Nat.le_gt_cases (length l) cap).
  - by replace (length l - cap)%nat with 0%nat by lia; rewrite drop_0, Nat.sub_0_r.
  - rewrite <- drop_app_le, drop_drop by lia. f_equal. lia.
Qed.

Lemma newest_short cap l : (length l <= cap)%nat -> newest cap l = l.
Proof. intros H. unfold newest. by replace (length l - cap)%nat with 0%nat by lia. Qed.

Lemma length_newest cap l : (length (newest cap l) <= cap)%nat.
Proof. unfold newest. rewrite length_drop. lia. Qed.

(** ** The ring buffer as a queue *)

Definition next (size i : Z) : Z := if i + 1 =? size then 0 else i + 1.

Fixpoint ring_list (m : Z -> Z) (base size tl : Z) (n : nat) : list Z :=
  match n with O => [] | S n => m (base + tl) :: ring_list m base size (next size tl) n end.

Record ring_ok (h : uart_handle) : Prop := {
  ring_buffer : rxRingBuffer h <> 0;
  ring_size : 2 <= rxRingBufferSize h <= 2 ^ 16;
  ring_head : 0 <= rxRingBufferHead h < rxRingBufferSize h;
  ring_tail : 0 <= rxRingBufferTail h < rxRingBufferSize h
}.

Definition ring_count (h : uart_handle) : Z :=
  (rxRingBufferHead h - rxRingBufferTail h) mod rxRingBufferSize h.
Definition ring_cap (h : uart_handle) : nat := Z.to_nat (rxRingBufferSize h - 1).
(** The bytes in the ring buffer, oldest first. *)
Definition queue (h : uart_handle) (m : Z -> Z) : list Z :=
  ring_list m (rxRingBuffer h) (rxRingBufferSize h) (rxRingBufferTail h) (Z.to_nat (ring_count h)).

Lemma length_ring_list m base size n : forall tl, length (ring_list m base size tl n) = n.
Proof. induction n; intros t; cbn; [done|by rewrite IHn]. Qed.

Lemma length_queue h m : length (queue h m) = Z.to_nat (ring_count h).
Proof. apply length_ring_list. Qed.

Lemma next_mod size i : 0 <= i < size -> next size i = (i + 1) mod size.
Proof.
  intros H. unfold next. destruct (Z.eqb_spec (i + 1) size) as [->|E].
  - by rewrite Z.mod_same by lia.
  - by rewrite Z.mod_small by lia.
Qed.

Lemma next_range size i : 0 <= i < size -> 0 <= next size i < size.
Proof. intros H. rewrite next_mod by done. apply Z.mod_pos_bound. lia. Qed.

Lemma ring_count_range h : ring_ok h -> 0 <= ring_count h <= rxRingBufferSize h - 1.
Proof.
  intros []. unfold ring_count.
  pose proof (Z.mod_pos_bound (rxRingBufferHead h - rxRingBufferTail h) (rxRingBufferSize h)). lia.
Qed.

Lemma ring_head_eq h : ring_ok h ->
  rxRingBufferHead h = (rxRingBufferTail h + ring_count h) mod rxRingBufferSize h.
Proof.
  intros []. unfold ring_count. rewrite Z.add_mod_idemp_r by lia.
  replace (rxRingBufferTail h + _) with (rxRingBufferHead h) by lia. by rewrite Z.mod_small.
Qed.

Lemma ring_length_count h : ring_ok h -> UART_TransferGetRxRingBufferLength h = ring_count h.
Proof.
  intros []. unfold UART_TransferGetRxRingBufferLength, ring_count.
  destruct (Z.ltb_spec (rxRingBufferHead h) (rxRingBufferTail h)); rewrite wrap_small by (pow2; lia).
  - rewrite <- (Z.mod_add _ 1) by lia. rewrite Z.mul_1_l, Z.mod_small; lia.
  - by rewrite Z.mod_small by lia.
Qed.

Lemma ring_full_spec h m : ring_ok h ->
  UART_TransferIsRxRingBufferFull h = bool_decide (length (queue h m) = ring_cap h).
Proof.
  intros H. unfold UART_TransferIsRxRingBufferFull. rewrite ring_length_count by done.
  rewrite length_queue. pose proof (ring_count_range h H). destruct H.
  rewrite wrap_small by (pow2; lia). unfold ring_cap.
  destruct (Z.eqb_spec (ring_count h) (rxRingBufferSize h - 1)); symmetry.
  - apply bool_decide_eq_true. lia.
  - apply bool_decide_eq_false. lia.
Qed.

Lemma next_index_next h i : ring_ok h -> 0 <= i < rxRingBufferSize h -> next_index h i = next (rxRingBufferSize h) i.
Proof.
  intros [] Hi. unfold next_index, next. destruct (Z.eqb_spec (i + 1) (rxRingBufferSize h)); [done|].
  apply wrap_small. pow2. lia.
Qed.

Lemma ring_list_ext m m' base size n : forall tl, 0 <= tl < size ->
  (forall x, base <= x < base + size -> m' x = m x) -> ring_list m' base size tl n = ring_list m base size tl n.
Proof.
  induction n as [|n IH]; intros t Ht H; cbn [ring_list]; [done|].
  rewrite H by lia. f_equal. apply IH; [by apply next_range|done].
Qed.

(** Storing at the head adds a byte at the end. *)
Lemma ring_list_push m base size b n : forall tl, 0 <= tl < size -> Z.of_nat n < size ->
  ring_list (upd m (base + (tl + Z.of_nat n) mod size) b) base size tl (S n)
  = ring_list m base size tl n ++ [b].
Proof.
  induction n as [|n IH]; intros t Ht Hn.
  - cbn [ring_list app]. rewrite Z.add_0_r, Z.mod_small, upd_eq by lia. done.
  - change (ring_list ?m base size t (S (S n))) with (m (base + t) :: ring_list m base size (next size t) (S n)).
    change (ring_list m base size t (S n)) with (m (base + t) :: ring_list m base size (next size t) n).
    cbn [app]. f_equal.
    + apply upd_ne. intros E. apply Z.add_reg_l in E.
      assert (t = (t + Z.of_nat (S n)) mod size) as E' by done.
      assert (Z.of_nat (S n) mod size = 0) as E2.
      { replace (Z.of_nat (S n)) with (t + Z.of_nat (S n) - t) by lia.
        rewrite <- Zminus_mod_idemp_l, <- E', Z.sub_diag. done. }
      rewrite Z.mod_small in E2; lia.
    + assert ((t + Z.of_nat (S n)) mod size = (next size t + Z.of_nat n) mod size) as ->.
      { rewrite next_mod, Z.add_mod_idemp_l by lia. f_equal. lia. }
      apply IH; [by apply next_range|lia].
Qed.

Lemma ring_ok_tail h : ring_ok h -> ring_ok (with_tail (next_index h (rxRingBufferTail h)) h).
Proof.
  intros H. rewrite next_index_next by (done || apply H). destruct H.
  split; cbn; try done. by apply next_range.
Qed.

Lemma ring_ok_head h : ring_ok h -> ring_ok (with_head (next_index h (rxRingBufferHead h)) h).
Proof.
  intros H. rewrite next_index_next by (done || apply H). destruct H.
  split; cbn; try done. by apply next_range.
Qed.

Lemma ring_count_tail h : ring_ok h -> 0 < ring_count h ->
  ring_count (with_tail (next_index h (rxRingBufferTail h)) h) = ring_count h - 1.
Proof.
  intros H Hc. rewrite next_index_next by (done || apply H).
  pose proof (ring_count_range h H) as Hr. destruct H.
  unfold ring_count in *. cbn. rewrite next_mod by done. rewrite Zminus_mod_idemp_r.
  replace (_ - (_ + 1)) with (rxRingBufferHead h - rxRingBufferTail h - 1) by lia.
  rewrite <- Zminus_mod_idemp_l. apply Z.mod_small. lia.
Qed.

Lemma ring_count_head h : ring_ok h -> ring_count h < rxRingBufferSize h - 1 ->
  ring_count (with_head (next_index h (rxRingBufferHead h)) h) = ring_count h + 1.
Proof.
  intros H Hc. rewrite next_index_next by (done || apply H).
  pose proof (ring_count_range h H) as Hr. destruct H.
  unfold ring_count in *. cbn. rewrite next_mod by done. rewrite Zminus_mod_idemp_l.
  replace (_ + 1 - _) with (rxRingBufferHead h - rxRingBufferTail h + 1) by lia.
  rewrite <- Zplus_mod_idemp_l. apply Z.mod_small. lia.
Qed.

Lemma queue_pop h m : ring_ok h -> queue h m <> [] ->
  queue h m = m (rxRingBuffer h + rxRingBufferTail h)
              :: queue (with_tail (next_index h (rxRingBufferTail h)) h) m.
Proof.
  intros H Hq. pose proof (ring_count_range h H).
  assert (0 < ring_count h) as Hc.
  { destruct (Z.eq_dec (ring_count h) 0) as [E|]; [|lia]. destruct Hq.
    apply nil_length_inv. by rewrite length_queue, E. }
  unfold queue. rewrite ring_count_tail by done. rewrite next_index_next by (done || apply H).
  cbn [with_tail with_ring rxRingBuffer rxRingBufferSize rxRingBufferTail].
  by replace (Z.to_nat (ring_count h)) with (S (Z.to_nat (ring_count h - 1))) by lia.
Qed.

Lemma queue_push h m b : ring_ok h -> (length (queue h m) < ring_cap h)%nat ->
  queue (with_head (next_index h (rxRingBufferHead h)) h) (upd m (rxRingBuffer h + rxRingBufferHead h) b)
  = queue h m ++ [b].
Proof.
  intros H Hl. rewrite length_queue in Hl. unfold ring_cap in Hl. pose proof (ring_count_range h H).
  unfold queue. rewrite ring_count_head by (done || lia).
  cbn [with_head with_ring rxRingBuffer rxRingBufferSize rxRingBufferTail].
  replace (Z.to_nat (ring_count h + 1)) with (S (Z.to_nat (ring_count h))) by lia.
  rewrite <- ring_list_push by (apply H || lia). rewrite Z2Nat.id by lia. by rewrite ring_head_eq by done.
Qed.

Lemma queue_ext h m m' : ring_ok h ->
  (forall x, rxRingBuffer h <= x < rxRingBuffer h + rxRingBufferSize h -> m' x = m x) -> queue h m' = queue h m.
Proof. intros H Hm. by apply ring_list_ext; [apply H|]. Qed.

(** ** Runs of the driver with a quiet callback *)

Section Runs.
Context {D U : Type} `{UL : UartLaws D}.
Abbreviation state := (uart_state D U).
Context (user_callback : status_t -> M state unit) (on_status : status_t -> U -> U).

Definition Quiet : Prop := forall st s,
  user_callback st s = Ok (tt, UartState (u_hw s) (u_h s) (u_mem s) (on_status st (u_user s))).
Context (quiet : Quiet).

(** What the user has seen after a notification. *)
Definition told (h : uart_handle) (st : status_t) (u : U) : U := if callback h then on_status st u else u.

Lemma notify_run st d h m u :
  notify user_callback st (UartState d h m u) = Ok (tt, UartState d h m (told h st u)).
Proof.
  unfold notify, bind, handle, gets, told. cbn [u_h]. destruct (callback h); [|done]. apply quiet.
Qed.

Lemma on_hw_run {A} (c : M D A) a d d' h m (u : U) :
  c d = Ok (a, d') -> on_hw c (UartState d h m u) = Ok (a, UartState d' h m u).
Proof. intros H. unfold on_hw. cbn [u_hw]. by rewrite H. Qed.

Lemma bind_set_h {A} f (k : unit -> M state A) d h m u :
  bind (set_h f) k (UartState d h m u) = k tt (UartState d (f h) m u).
Proof. done. Qed.
Lemma bind_handle {A} (k : uart_handle -> M state A) d h m u :
  bind handle k (UartState d h m u) = k h (UartState d h m u).
Proof. done. Qed.
Lemma bind_load {A} a (k : Z -> M state A) d h m u :
  bind (load a) k (UartState d h m u) = k (m a) (UartState d h m u).
Proof. done. Qed.
Lemma bind_store {A} a v (k : unit -> M state A) d h m u :
  bind (store a v) k (UartState d h m u) = k tt (UartState d h (upd m a v) u).
Proof. done. Qed.

(** Reading [length bs] bytes off the receiver. *)
Lemma read_loop_run data bs : forall i d h m (u : U) q,
  rxq (uview d) = bs ++ q ->
  exists d', read_loop data i (length bs) (UartState d h m u)
      = Ok (tt, UartState d' h (write_bytes m (data + i) bs) u) /\
    later (View (ctl (uview d)) q (txd (uview d)) (room (uview d)) (line_in (uview d))) (uview d').
Proof.
  induction bs as [|b bs IH]; intros i d h m u q Hq; cbn [read_loop length write_bytes].
  - exists d. split; [done|]. cbn [app] in Hq. subst q. destruct (uview d); reflexivity.
  - destruct (rd_data d b (bs ++ q) Hq) as (d1 & H1 & [Hc (cs & Hb & Hi) Ht Hm]).
    cbn [ctl rxq txd room line_in] in *. rewrite (bind_ok _ _ _ _ _ (on_hw_run _ _ _ _ h m u H1)), bind_store.
    destruct (IH (i + 1) d1 h (upd m (data + i) b) u (q ++ cs)) as (d' & Hr & [Hc' (cs' & Hb' & Hi') Ht' Hm']).
    { by rewrite Hb, app_assoc. }
    exists d'. rewrite Z.add_assoc in Hr. split; [exact Hr|].
    cbn [ctl rxq txd room line_in] in *. split; cbn; [congruence| |congruence|lia].
    exists (cs ++ cs'). by rewrite Hb', Hi', Hi, !app_assoc.
Qed.

(** The count the receive block starts from: bytes that are there. *)
Lemma receive_count_run d h m (u : U) :
  has_fifo = true \/ (exists b q, rxq (uview d) = b :: q) ->
  exists n d', (if has_fifo then on_hw (rd RCFIFO) else ret 1) (UartState d h m u)
      = Ok (Z.of_nat n, UartState d' h m u) /\ later (uview d) (uview d') /\
    (n < 256)%nat /\ (n <= length (rxq (uview d')))%nat /\
    (if has_fifo then n = length (rxq (uview d)) else n = 1%nat).
Proof.
  intros Hb. destruct has_fifo eqn:E.
  - destruct (rcfifo_read d E) as (Hn & Hlt & Hl). destruct (reg_read RCFIFO d) as [v d'] eqn:Hd.
    cbn [fst snd] in *. exists (length (rxq (uview d))), d'. split.
    + apply on_hw_run. unfold rd. by rewrite Hd, Hn.
    + split_and!; [done|lia| |done]. destruct Hl as [_ (bs & -> & _) _ _]. rewrite length_app. lia.
  - destruct Hb as [Hb|(b & q & Hb)]; [done|]. exists 1%nat, d. split; [done|].
    split_and!; [reflexivity|lia|rewrite Hb; cbn; lia|done].
Qed.

(** The request after [bs] has been stored into it. *)
Definition request_after (h : uart_handle) (bs : list Z) : uart_handle :=
  let n := Z.of_nat (length bs) in
  let h' := with_rx (rxData h + n) (rxDataSize h - n) h in
  if decide (bs = []) then h
  else if decide (rxDataSize h = n) then with_rxState kUART_RxIdle h' else h'.
Definition completes (h : uart_handle) (bs : list Z) : Prop :=
  bs <> [] /\ rxDataSize h = Z.of_nat (length bs).
#[local] Instance completes_dec h bs : Decision (completes h bs).
Proof. unfold completes. apply _. Defined.

Lemma receive_to_user_stop stop rounds count d h m u :
  count = 0 \/ rxDataSize h = 0 ->
  receive_to_user user_callback stop rounds count (UartState d h m u) = Ok (count, UartState d h m u).
Proof.
  intros H. destruct rounds; cbn [receive_to_user]; rewrite bind_handle;
    (destruct (Z.eqb_spec count 0), (Z.eqb_spec (rxDataSize h) 0); [done..|lia]).
Qed.

Lemma receive_to_user_run rounds n d h m u bs q :
  rxq (uview d) = bs ++ q -> Z.of_nat (length bs) = Z.min (rxDataSize h) (Z.of_nat n) ->
  0 <= rxDataSize h < 2 ^ 32 -> (n < 256)%nat -> (has_fifo = false -> (n <= 1)%nat) ->
  exists d', receive_to_user user_callback (ret tt) (S rounds) (Z.of_nat n) (UartState d h m u)
      = Ok (Z.of_nat (n - length bs), UartState d' (request_after h bs) (write_bytes m (rxData h) bs)
          (if decide (completes h bs) then told h kStatus_UART_RxIdle u else u)) /\
    later (View (ctl (uview d)) q (txd (uview d)) (room (uview d)) (line_in (uview d))) (uview d').
Proof.
  intros Hq Hlen Hk Hn Hnf. unfold request_after.
  destruct (decide (bs = [])) as [->|Hbs].
  - exists d. cbn [length] in *. rewrite receive_to_user_stop by lia. rewrite Nat.sub_0_r.
    cbn [write_bytes]. rewrite decide_False by (intros [Hc _]; by apply Hc). split; [done|].
    cbn [app] in Hq. subst q. destruct (uview d); reflexivity.
  - assert (length bs <> 0%nat) as Hb0 by (clear -Hbs; destruct bs; [congruence|discriminate]).
    cbn [receive_to_user]. rewrite bind_handle.
    rewrite (proj2 (Z.eqb_neq (Z.of_nat n) 0)), (proj2 (Z.eqb_neq (rxDataSize h) 0)) by lia. cbn [orb].
    assert ((if has_fifo then u8 (Z.min (rxDataSize h) (Z.of_nat n)) else 1) = Z.of_nat (length bs)) as ->.
    { destruct has_fifo; [rewrite wrap_small by (pow2; lia)|specialize (Hnf eq_refl)]; lia. }
    unfold UART_ReadNonBlocking. rewrite Nat2Z.id.
    destruct (read_loop_run (rxData h) bs 0 d h m u q Hq) as (d1 & H1 & L1).
    rewrite (bind_ok _ _ _ _ _ H1), bind_set_h, Z.add_0_r.
    rewrite (wrap_small 32 (rxDataSize h - _)), (wrap_small 8) by (pow2; lia).
    destruct (Z.eqb_spec (rxDataSize h - Z.of_nat (length bs)) 0) as [E|E].
    + rewrite decide_True by lia. rewrite decide_True by (split; [done|lia]).
      rewrite bind_assoc, bind_set_h, bind_assoc, bind_ret.
      rewrite (bind_ok _ _ _ _ _ (notify_run _ _ _ _ _)).
      rewrite receive_to_user_stop by (right; exact E). exists d1. split; [|done].
      by rewrite Nat2Z.inj_sub by lia.
    + rewrite decide_False by lia. rewrite decide_False by (unfold completes; lia).
      rewrite bind_ret. rewrite receive_to_user_stop by lia. exists d1. split; [|done].
      by rewrite Nat2Z.inj_sub by lia.
Qed.

(** One byte into the ring buffer. *)
Lemma receive_to_ring_run d h m u b q :
  rxq (uview d) = b :: q -> ring_ok h ->
  exists d' h' m', receive_to_ring user_callback (UartState d h m u) =
      Ok (tt, UartState d' h' m'
        (if decide (length (queue h m) = ring_cap h) then told h kStatus_UART_RxRingBufferOverrun u else u)) /\
    later (View (ctl (uview d)) q (txd (uview d)) (room (uview d)) (line_in (uview d))) (uview d') /\
    (exists hd tl, h' = with_ring (rxRingBuffer h) (rxRingBufferSize h) hd tl h) /\ ring_ok h' /\
    queue h' m' = push (ring_cap h) (queue h m) b /\
    frame m m' (rxRingBuffer h) (rxRingBufferSize h).
Proof.
  intros Hq Hok. unfold receive_to_ring. rewrite bind_handle, !(ring_full_spec h m Hok).
  assert (exists u', (when (bool_decide (length (queue h m) = ring_cap h))
      (notify user_callback kStatus_UART_RxRingBufferOverrun)) (UartState d h m u) = Ok (tt, UartState d h m u') /\
    u' = if decide (length (queue h m) = ring_cap h) then told h kStatus_UART_RxRingBufferOverrun u else u)
    as (u' & Hn & Hu').
  { destruct (decide _) as [E|E]; [rewrite bool_decide_eq_true_2 by done|rewrite bool_decide_eq_false_2 by done].
    - eexists. split; [apply notify_run|done].
    - by eexists. }
  rewrite (bind_ok _ _ _ _ _ Hn), bind_handle, (ring_full_spec h m Hok). rewrite <- Hu'. clear Hn Hu'.
  pose proof (ring_count_range h Hok) as Hcr.
  assert (exists h1 tl, (when (bool_decide (length (queue h m) = ring_cap h))
      (set_h (with_tail (next_index h (rxRingBufferTail h))))) (UartState d h m u')
      = Ok (tt, UartState d h1 m u') /\ ring_ok h1 /\ h1 = with_tail tl h /\
      queue h1 m = (if decide (length (queue h m) = ring_cap h) then tail (queue h m) else queue h m) /\
      (length (queue h1 m) < ring_cap h)%nat) as (h1 & tl & Ht & Hok1 & Hh1 & Hq1 & Hl1).
  { destruct (decide _) as [E|E]; [rewrite bool_decide_eq_true_2 by done|rewrite bool_decide_eq_false_2 by done].
    - exists (with_tail (next_index h (rxRingBufferTail h)) h), (next_index h (rxRingBufferTail h)).
      assert (queue h m <> []) as Hne.
      { intros E'. rewrite E' in E. unfold ring_cap in E. destruct Hok. cbn in E. lia. }
      pose proof (queue_pop h m Hok Hne) as Hp.
      split_and!; [done|by apply ring_ok_tail|done|by rewrite Hp|]. rewrite Hp in E. cbn in E. lia.
    - exists h, (rxRingBufferTail h). split_and!; [done|done|by destruct h|done|].
      rewrite length_queue in *. unfold ring_cap in *. lia. }
  rewrite (bind_ok _ _ _ _ _ Ht). destruct (rd_data d b q Hq) as (d1 & H1 & L1).
  rewrite (bind_ok _ _ _ _ _ (on_hw_run _ _ _ _ h1 m u' H1)), bind_handle, bind_store.
  assert (ring_cap h1 = ring_cap h) as Hcap by by subst h1.
  exists d1, (with_head (next_index h1 (rxRingBufferHead h1)) h1), (upd m (rxRingBuffer h1 + rxRingBufferHead h1) b).
  split; [reflexivity|]. split; [done|].
  split; [subst h1; by eexists _, _|]. split; [by apply ring_ok_head|]. split.
  - rewrite queue_push by (done || lia). unfold push. by rewrite Hq1.
  - intros x Hx. apply upd_ne. destruct Hok1. subst h1. cbn in *. lia.
Qed.

(** [bs] has been taken off the receiver between [v] and [v']. *)
Record took (bs : list Z) (v v' : uart_view) : Prop := {
  took_rx : exists arr, rxq v ++ arr = bs ++ rxq v' /\ line_in v' = line_in v ++ arr;
  took_ctl : ctl v' = ctl v;
  took_tx : txd v' = txd v;
  took_room : room v <= room v'
}.

Lemma took_later v v' : later v v' -> took [] v v'.
Proof. intros [Hc (bs & Hb & Hi) Ht Hr]. split; try done. by exists bs. Qed.

Lemma took_read bs q v v' :
  rxq v = bs ++ q -> later (View (ctl v) q (txd v) (room v) (line_in v)) v' -> took bs v v'.
Proof.
  intros Hq [Hc (cs & Hb & Hi) Ht Hr]. cbn in *. split; try done. exists cs. by rewrite Hq, Hb, app_assoc.
Qed.

Lemma took_trans bs cs u v w : took bs u v -> took cs v w -> took (bs ++ cs) u w.
Proof.
  intros [(a & Ha & Hi) Hc Ht Hr] [(b & Hb & Hj) Hc' Ht' Hr']. split; [|congruence|congruence|lia].
  exists (a ++ b). by rewrite app_assoc, Ha, <- app_assoc, Hb, app_assoc, Hj, Hi, <- !app_assoc.
Qed.

Definition overruns (cap : nat) (q bs : list Z) : nat := (length q + length bs - cap)%nat.

(** All of [bs] into the ring buffer. *)
Lemma receive_all_to_ring_run bs : forall d h m u q,
  rxq (uview d) = bs ++ q -> ring_ok h ->
  exists d' h' m', receive_all_to_ring user_callback (length bs) (UartState d h m u) =
      Ok (tt, UartState d' h' m'
        (Nat.iter (overruns (ring_cap h) (queue h m) bs) (told h kStatus_UART_RxRingBufferOverrun) u)) /\
    took bs (uview d) (uview d') /\
    (exists hd tl, h' = with_ring (rxRingBuffer h) (rxRingBufferSize h) hd tl h) /\ ring_ok h' /\
    queue h' m' = newest (ring_cap h) (queue h m ++ bs) /\
    frame m m' (rxRingBuffer h) (rxRingBufferSize h).
Proof.
  induction bs as [|b bs IH]; intros d h m u q Hq Hok; cbn [receive_all_to_ring length].
  - pose proof (ring_count_range h Hok) as Hcr.
    assert (length (queue h m) <= ring_cap h)%nat by (rewrite length_queue; unfold ring_cap; lia).
    exists d, h, m. unfold overruns. cbn [length].
    replace (length (queue h m) + 0 - ring_cap h)%nat with 0%nat by lia.
    split_and!; [done|apply took_later; reflexivity| |done| |done].
    + exists (rxRingBufferHead h), (rxRingBufferTail h). by destruct h.
    + by rewrite app_nil_r, newest_short.
  - pose proof (ring_count_range h Hok) as Hcr.
    assert (length (queue h m) <= ring_cap h)%nat by (rewrite length_queue; unfold ring_cap; lia).
    assert (0 < ring_cap h)%nat by (unfold ring_cap; destruct Hok; lia).
    destruct (receive_to_ring_run d h m u b (bs ++ q) Hq Hok)
      as (d1 & h1 & m1 & H1 & L1 & (hd1 & tl1 & E1) & Hok1 & Hq1 & Hf1).
    rewrite (bind_ok _ _ _ _ _ H1).
    assert (ring_cap h1 = ring_cap h) as Hcap by by subst h1.
    pose proof (took_read [b] (bs ++ q) (uview d) (uview d1) Hq L1) as T1.
    destruct L1 as [_ (cs & Hcs & _) _ _]. cbn [rxq] in Hcs.
    destruct (IH d1 h1 m1 (if decide (length (queue h m) = ring_cap h)
        then told h kStatus_UART_RxRingBufferOverrun u else u) (q ++ cs))
      as (d2 & h2 & m2 & H2 & T2 & (hd2 & tl2 & E2) & Hok2 & Hq2 & Hf2);
      [by rewrite Hcs, app_assoc|done|].
    exists d2, h2, m2. split; [rewrite H2|].
    { do 3 f_equal. unfold overruns. rewrite Hcap, Hq1.
      assert (told h1 = told h) as -> by by subst h1. unfold push. rewrite length_app. cbn [length].
      destruct (decide (length (queue h m) = ring_cap h)) as [E|E].
      - rewrite E. replace (ring_cap h + S (length bs) - ring_cap h)%nat with (S (length bs)) by lia.
        rewrite Nat.iter_succ_r. f_equal.
        assert (length (tail (queue h m)) = (ring_cap h - 1)%nat) as ->
          by (rewrite <- E; destruct (queue h m); cbn; lia). lia.
      - f_equal. lia. }
    split; [exact (took_trans [b] bs _ _ _ T1 T2)|].
    split; [subst h1 h2; by eexists _, _|]. split; [done|]. split.
    + rewrite Hq2, Hcap, Hq1, push_newest, newest_app, <- app_assoc by done. done.
    + intros x Hx. subst h1. cbn in Hf2. rewrite Hf2, Hf1 by done. done.
Qed.

Lemma request_after_ring h up :
  rxRingBuffer (request_after h up) = rxRingBuffer h /\
  rxRingBufferSize (request_after h up) = rxRingBufferSize h /\
  rxRingBufferHead (request_after h up) = rxRingBufferHead h /\
  rxRingBufferTail (request_after h up) = rxRingBufferTail h /\
  callback (request_after h up) = callback h.
Proof. unfold request_after. repeat destruct (decide _); done. Qed.

Lemma request_after_queue h up m :
  ring_ok h -> ring_ok (request_after h up) /\ ring_cap (request_after h up) = ring_cap h /\
  queue (request_after h up) m = queue h m /\ told (request_after h up) = told h.
Proof.
  intros [? ? ? ?]. destruct (request_after_ring h up) as (E1 & E2 & E3 & E4 & E5).
  split_and!.
  - split; rewrite ?E1, ?E2, ?E3, ?E4; done.
  - unfold ring_cap. by rewrite E2.
  - unfold queue, ring_count. by rewrite E1, E2, E3, E4.
  - unfold told. by rewrite E5.
Qed.

(** The pending request and the ring buffer do not overlap. *)
Definition request_apart (h : uart_handle) : Prop :=
  rxData h + rxDataSize h <= rxRingBuffer h \/ rxRingBuffer h + rxRingBufferSize h <= rxData h.

(** Bytes have been received: [up] into the request, all it had room for,
    and [rest] into the ring buffer; the user has been told what happened. *)
Record received (up rest : list Z) (h : uart_handle) (m : Z -> Z) (u : U)
    (h' : uart_handle) (m' : Z -> Z) (u' : U) : Prop := {
  rec_split : Z.of_nat (length up) = Z.min (rxDataSize h) (Z.of_nat (length up + length rest));
  rec_handle : exists hd tl, h' = with_ring (rxRingBuffer h) (rxRingBufferSize h) hd tl (request_after h up);
  rec_ok : ring_ok h';
  rec_user : bytes_at m' (rxData h) (length up) = up;
  rec_queue : queue h' m' = newest (ring_cap h) (queue h m ++ rest);
  rec_frame x : ~ rxData h <= x < rxData h + Z.of_nat (length up) ->
    ~ rxRingBuffer h <= x < rxRingBuffer h + rxRingBufferSize h -> m' x = m x;
  rec_told : u' = Nat.iter (overruns (ring_cap h) (queue h m) rest)
    (told h kStatus_UART_RxRingBufferOverrun)
    (if decide (completes h up) then told h kStatus_UART_RxIdle u else u)
}.

Lemma received_nothing h m u : ring_ok h -> 0 <= rxDataSize h -> received [] [] h m u h m u.
Proof.
  intros Hok Hs. pose proof (ring_count_range h Hok).
  assert (length (queue h m) <= ring_cap h)%nat by (rewrite length_queue; unfold ring_cap; lia).
  split; try done; cbn [length].
  - lia.
  - exists (rxRingBufferHead h), (rxRingBufferTail h). by destruct h.
  - by rewrite app_nil_r, newest_short.
  - unfold overruns. cbn [length].
    replace (length (queue h m) + 0 - ring_cap h)%nat with 0%nat by lia.
    rewrite decide_False; [done|]. by intros [Hc _].
Qed.

(** [n] bytes of the FIFO: first the request, then the ring buffer. *)
Lemma receive_both_run n d h m u :
  ring_ok h -> 0 <= rxDataSize h < 2 ^ 32 -> request_apart h ->
  (n < 256)%nat -> (n <= length (rxq (uview d)))%nat -> (has_fifo = false -> (n <= 1)%nat) ->
  exists up rest d' h' m' u',
    bind (receive_to_user user_callback (ret tt) 256 (Z.of_nat n)) (fun count => bind handle (fun h =>
      if negb (rxRingBuffer h =? 0) then receive_all_to_ring user_callback (Z.to_nat count)
      else when (rxDataSize h =? 0) (on_hw stop_rx_interrupts))) (UartState d h m u) = Ok (tt, UartState d' h' m' u') /\
    took (up ++ rest) (uview d) (uview d') /\ received up rest h m u h' m' u' /\ length (up ++ rest) = n.
Proof.
  intros Hok Hs Hap Hn Hnq Hnf. set (k := Z.to_nat (Z.min (rxDataSize h) (Z.of_nat n))).
  set (up := take k (rxq (uview d))). set (q := drop k (rxq (uview d))). set (rest := take (n - k) q).
  assert (rxq (uview d) = up ++ q) as Hq by by unfold up, q; rewrite take_drop.
  assert (length up = k) as Hk by (unfold up; rewrite length_take; lia).
  assert (length rest = (n - k)%nat) as Hrest by (unfold rest, q; rewrite length_take, length_drop; lia).
  destruct (receive_to_user_run 255 n d h m u up q Hq) as (d3 & H3 & L3); [rewrite Hk; lia|done|done|done|].
  rewrite Hk in H3. change 256%nat with (S 255). rewrite (bind_ok _ _ _ _ _ H3), bind_handle.
  destruct (request_after_queue h up (write_bytes m (rxData h) up) Hok) as (Hok1 & Hcap1 & Hq1 & Ht1).
  destruct (request_after_ring h up) as (E1 & E2 & _).
  rewrite E1. rewrite (proj2 (Z.eqb_neq _ 0)) by apply Hok. cbn [negb]. rewrite Nat2Z.id.
  pose proof (took_read up _ _ _ Hq L3) as T3. destruct L3 as [_ (cs & Hcs & _) _ _]. cbn [rxq] in Hcs.
  assert (frame m (write_bytes m (rxData h) up) (rxData h) (Z.of_nat k)) as Hfr
    by (rewrite <- Hk; apply write_bytes_frame).
  destruct (receive_all_to_ring_run rest d3 (request_after h up) (write_bytes m (rxData h) up)
    (if decide (completes h up) then told h kStatus_UART_RxIdle u else u)
    (drop (n - k) q ++ cs)) as (d4 & h4 & m4 & H4 & T4 & (hd & tl & E4) & Hok4 & Hq4 & Hf4); [|done|].
  { rewrite Hcs. unfold rest. by rewrite app_assoc, take_drop. }
  rewrite Hrest in H4. exists up, rest, d4, h4, m4. eexists. split; [exact H4|].
  split; [exact (took_trans _ _ _ _ _ T3 T4)|]. split; [|rewrite length_app; lia]. split.
  - rewrite Hk, Hrest. lia.
  - by exists hd, tl; rewrite E4, E1, E2.
  - done.
  - rewrite (bytes_at_ext (write_bytes m (rxData h) up)); [apply bytes_at_write|].
    intros x Hx. apply Hf4. rewrite E1, E2. destruct Hap; lia.
  - rewrite Hq4, Hcap1, Hq1. f_equal. f_equal. apply queue_ext; [done|].
    intros x Hx. apply Hfr. destruct Hap; lia.
  - intros x Hx Hx'. rewrite Hf4 by by rewrite E1, E2. apply Hfr. by rewrite Hk in Hx.
  - rewrite Hcap1, Hq1, Ht1. f_equal. f_equal. apply queue_ext; [done|].
    intros x Hx. apply Hfr. destruct Hap; lia.
Qed.

(** The receive block with a ring buffer. *)
Lemma isr_receive_run st d h m u :
  ring_ok h -> 0 <= rxDataSize h < 2 ^ 32 -> request_apart h ->
  (has st UART_S1_RDRF_MASK = true -> rxq (uview d) <> []) ->
  exists up rest d' h' m' u',
    isr_receive user_callback st (UartState d h m u) = Ok (tt, UartState d' h' m' u') /\
    took (up ++ rest) (uview d) (uview d') /\ received up rest h m u h' m' u' /\
    (has st UART_S1_RDRF_MASK = true -> has UART_C2_RIE_MASK (ctl (uview d) C2) = true ->
       if has_fifo then (length (rxq (uview d)) <= length (up ++ rest))%nat
       else length (up ++ rest) = 1%nat).
Proof.
  intros Hok Hs Hap Hrx. unfold isr_receive, kUART_RxDataRegFullFlag.
  destruct (has st UART_S1_RDRF_MASK) eqn:Hst.
  2: { rewrite bind_ret. exists [], [], d, h, m, u. split_and!; [done|apply took_later; reflexivity| |done].
       apply received_nothing; [done|lia]. }
  destruct (rd_control C2 d eq_refl) as (d1 & H1 & L1).
  rewrite bind_assoc, (bind_ok _ _ _ _ _ (on_hw_run _ _ _ _ h m u H1)), bind_ret.
  destruct (has UART_C2_RIE_MASK (ctl (uview d) C2)).
  2: { exists [], [], d1, h, m, u. split_and!; [done|by apply took_later| |done].
       apply received_nothing; [done|lia]. }
  destruct (receive_count_run d1 h m u) as (n & d2 & H2 & L2 & Hn & Hnq & Hcount).
  { right. destruct L1 as [_ (bs & E & _) _ _]. specialize (Hrx eq_refl).
    destruct (rxq (uview d)); [done|]. by eexists _, _. }
  rewrite (bind_ok _ _ _ _ _ H2).
  destruct (receive_both_run n d2 h m u Hok Hs Hap Hn Hnq) as (up & rest & d' & h' & m' & u' & H3 & T3 & R3 & Hl).
  { intros E. rewrite E in Hcount. lia. }
  exists up, rest, d', h', m', u'. split; [exact H3|]. split; [|split; [done|]].
  - apply (took_trans [] (up ++ rest) _ (uview d2)); [apply took_later; by rewrite L1|done].
  - intros _ _. rewrite Hl. destruct has_fifo; [|lia].
    destruct L1 as [_ (bs & E & _) _ _]. rewrite Hcount, E, length_app. lia.
Qed.

(** *** Transmission *)

(** [bs] has been handed to the transmitter; only C2 may have changed. *)
Record gave (bs : list Z) (c2 : Z) (v v' : uart_view) : Prop := {
  gave_tx : txd v' = txd v ++ bs;
  gave_rx : exists arr, rxq v' = rxq v ++ arr /\ line_in v' = line_in v ++ arr;
  gave_c2 : ctl v' C2 = c2;
  gave_ctl r : r <> C2 -> ctl v' r = ctl v r
}.

Lemma gave_later v v' : later v v' -> gave [] (ctl v C2) v v'.
Proof. intros [Hc Hb Ht _]. split; try done; [by rewrite app_nil_r|by rewrite Hc|by intros; rewrite Hc]. Qed.

Lemma gave_trans bs cs c e u v w : gave bs c u v -> gave cs e v w -> gave (bs ++ cs) e u w.
Proof.
  intros [Ht (a & Ha & Hi) Hc Hr] [Ht' (b & Hb & Hj) Hc' Hr']. split.
  - by rewrite Ht', Ht, app_assoc.
  - exists (a ++ b). by rewrite Hb, Ha, Hj, Hi, !app_assoc.
  - done.
  - intros r Hne. by rewrite Hr', Hr.
Qed.

Lemma write_loop_run data n : forall i d h m (u : U),
  Z.of_nat n <= room (uview d) ->
  exists d', write_loop data i n (UartState d h m u) = Ok (tt, UartState d' h m u) /\
    gave (bytes_at m (data + i) n) (ctl (uview d) C2) (uview d) (uview d').
Proof.
  induction n as [|n IH]; intros i d h m u Hroom; cbn [write_loop bytes_at].
  - exists d. split; [done|]. apply gave_later. reflexivity.
  - rewrite bind_load. assert (0 < room (uview d)) as Hr0 by lia.
    destruct (wr_data d (m (data + i)) Hr0) as (d1 & H1 & L1).
    rewrite (bind_ok _ _ _ _ _ (on_hw_run _ _ _ _ h m u H1)).
    destruct (IH (i + 1) d1 h m u) as (d' & Hr & G); [destruct L1; cbn in *; lia|].
    exists d'. split; [exact Hr|]. rewrite Z.add_assoc in G.
    apply (gave_trans [m (data + i)] _ (ctl (uview d) C2) _ _ (uview d1)).
    + destruct L1 as [Hc Hb Ht _]. cbn in *. split; [done|done|by rewrite Hc|by intros; rewrite Hc].
    + destruct G as [Ht Hx Hc Hr']. split; try done. destruct L1 as [Hc1 _ _ _]. cbn in Hc1. congruence.
Qed.

Lemma transmit_stop rounds count d h m (u : U) :
  count = 0 \/ txDataSize h = 0 ->
  transmit rounds count (UartState d h m u) = Ok (tt, UartState d h m u).
Proof.
  intros H. destruct rounds; cbn [transmit]; rewrite bind_handle;
    (destruct (Z.eqb_spec count 0), (Z.eqb_spec (txDataSize h) 0); [done..|lia]).
Qed.

(** C2 after all data has been written: TIE off, TCIE on. *)
Definition c2_after (size n c2 : Z) : Z :=
  if (0 <? n) && (n =? size) then Z.lor (bic8 c2 UART_C2_TIE_MASK) UART_C2_TCIE_MASK else c2.
Definition tx_after (n : Z) (h : uart_handle) : uart_handle := with_tx (txData h + n) (txDataSize h - n) h.

Lemma tx_after_0 h : tx_after 0 h = h.
Proof. unfold tx_after. rewrite Z.add_0_r, Z.sub_0_r. by destruct h. Qed.

Lemma transmit_run rounds c d h m (u : U) :
  0 <= c <= room (uview d) -> c < 256 -> (has_fifo = false -> c <= 1) -> 0 <= txDataSize h < 2 ^ 32 ->
  let n := Z.min (txDataSize h) c in
  exists d', transmit (S rounds) c (UartState d h m u) = Ok (tt, UartState d' (tx_after n h) m u) /\
    gave (bytes_at m (txData h) (Z.to_nat n)) (c2_after (txDataSize h) n (ctl (uview d) C2)) (uview d) (uview d').
Proof.
  intros Hc Hc8 Hnf Hs n. unfold c2_after.
  destruct (Z.eq_dec n 0) as [E|E].
  - exists d. rewrite transmit_stop by lia. rewrite E, tx_after_0. split; [done|].
    cbn. apply gave_later. reflexivity.
  - cbn [transmit]. rewrite bind_handle.
    rewrite (proj2 (Z.eqb_neq c 0)), (proj2 (Z.eqb_neq (txDataSize h) 0)) by lia. cbn [orb].
    assert ((if has_fifo then u8 (Z.min (txDataSize h) c) else 1) = n) as ->.
    { destruct has_fifo; [rewrite wrap_small by (pow2; lia)|specialize (Hnf eq_refl)]; lia. }
    unfold UART_WriteNonBlocking.
    destruct (write_loop_run (txData h) (Z.to_nat n) 0 d h m u) as (d1 & H1 & G1); [lia|].
    rewrite Z.add_0_r in G1. rewrite (bind_ok _ _ _ _ _ H1), bind_set_h.
    rewrite (wrap_small 32 (txDataSize h - n)), (wrap_small 8) by (pow2; lia).
    rewrite (proj2 (Z.ltb_lt 0 n)) by lia. cbn [andb].
    destruct (Z.eqb_spec (txDataSize h - n) 0) as [E'|E'].
    + rewrite (proj2 (Z.eqb_eq n (txDataSize h))) by lia.
      destruct (update_control C2 (fun x => Z.lor (bic8 x UART_C2_TIE_MASK) UART_C2_TCIE_MASK) d1 eq_refl)
        as (d2 & H2 & L2).
      rewrite (bind_ok _ _ _ _ _ (on_hw_run _ _ _ _ _ m u H2)).
      rewrite transmit_stop by (right; exact E'). exists d2. split; [done|].
      rewrite <- (app_nil_r (bytes_at m _ _)). apply (gave_trans _ _ _ _ _ _ _ G1).
      apply gave_c2 in G1. destruct L2 as [Hc2 Hb Ht _]. cbn in *. split.
      * by rewrite app_nil_r.
      * done.
      * by rewrite Hc2, <- G1.
      * intros r Hr. rewrite Hc2. by rewrite decide_False by congruence.
    + rewrite (proj2 (Z.eqb_neq n (txDataSize h))) by lia. rewrite bind_ret, transmit_stop by lia.
      by exists d1.
Qed.

(** The transmit block: as much as there is room for. *)
Lemma isr_transmit_run st d h m (u : U) :
  0 <= txDataSize h < 2 ^ 32 -> (has st UART_S1_TDRE_MASK = true -> 0 < room (uview d)) ->
  exists n d', isr_transmit st (UartState d h m u) = Ok (tt, UartState d' (tx_after n h) m u) /\
    0 <= n <= txDataSize h /\
    gave (bytes_at m (txData h) (Z.to_nat n)) (c2_after (txDataSize h) n (ctl (uview d) C2)) (uview d) (uview d') /\
    (has st UART_S1_TDRE_MASK = true -> has (ctl (uview d) C2) UART_C2_TIE_MASK = true ->
       0 < txDataSize h -> 0 < n) /\
    (0 < n -> has (ctl (uview d) C2) UART_C2_TIE_MASK = true).
Proof.
  intros Hs Hroom. unfold isr_transmit, kUART_TxDataRegEmptyFlag.
  destruct (has st UART_S1_TDRE_MASK) eqn:Hst.
  2: { rewrite bind_ret. exists 0, d. rewrite tx_after_0. split_and!; try done; [lia|].
       apply gave_later. reflexivity. }
  specialize (Hroom eq_refl).
  destruct (rd_control C2 d eq_refl) as (d1 & H1 & L1).
  rewrite bind_assoc, (bind_ok _ _ _ _ _ (on_hw_run _ _ _ _ h m u H1)), bind_ret.
  destruct (has (ctl (uview d) C2) UART_C2_TIE_MASK) eqn:Htie.
  2: { exists 0, d1. rewrite tx_after_0. split_and!; try done; [lia|]. by apply gave_later. }
  assert (exists c d2, (if has_fifo then bind (on_hw (rd TCFIFO)) (fun n => ret (u8 (u8 fifo_size - n))) else ret 1)
      (UartState d1 h m u) = Ok (c, UartState d2 h m u) /\ later (uview d1) (uview d2) /\
      0 < c <= room (uview d2) /\ c < 256 /\ (has_fifo = false -> c <= 1)) as (c & d2 & H2 & L2 & Hc & Hc8 & Hnf).
  { destruct has_fifo eqn:E.
    - destruct (tcfifo_read d1 E) as (Hn & Hl). destruct (reg_read TCFIFO d1) as [v d2] eqn:Hd.
      cbn [fst snd] in *. subst v. pose proof fifo_size_bound. pose proof (room_bound d1).
      exists (room (uview d1)), d2. split.
      + erewrite bind_ok; [|apply on_hw_run; unfold rd; by rewrite Hd]. unfold ret.
        rewrite !wrap_small by (rewrite ?wrap_small; pow2; lia). do 3 f_equal. lia.
      + destruct L1, Hl. split_and!; try done; lia.
    - exists 1, d1. split; [done|]. destruct L1. split_and!; try done; lia. }
  rewrite (bind_ok _ _ _ _ _ H2). change 256%nat with (S 255).
  destruct (transmit_run 255 c d2 h m u) as (d3 & H3 & G3); [lia..|done|done|].
  exists (Z.min (txDataSize h) c), d3. split; [exact H3|]. split; [lia|].
  assert (later (uview d) (uview d2)) as L12 by by rewrite L1.
  split; [|split; [lia|done]].
  apply (gave_trans [] _ _ _ _ _ _ (gave_later _ _ L12)).
  by rewrite <- (gave_c2 _ _ _ _ (gave_later _ _ L12)).
Qed.

(** The completion block. *)
Lemma isr_complete_run st d h m u :
  exists d' h' u', isr_complete user_callback st (UartState d h m u) = Ok (tt, UartState d' h' m u') /\
    if has UART_S1_TC_MASK st && has (ctl (uview d) C2) UART_C2_TCIE_MASK
    then h' = with_txState kUART_TxIdle h /\ u' = told h kStatus_UART_TxIdle u /\
         gave [] (bic8 (ctl (uview d) C2) UART_C2_TCIE_MASK) (uview d) (uview d')
    else h' = h /\ u' = u /\ gave [] (ctl (uview d) C2) (uview d) (uview d').
Proof.
  unfold isr_complete, kUART_TransmissionCompleteFlag. destruct (has UART_S1_TC_MASK st).
  2: { rewrite bind_ret. exists d, h, u. split; [done|]. cbn [andb]. split_and!; try done.
       apply gave_later. reflexivity. }
  destruct (rd_control C2 d eq_refl) as (d1 & H1 & L1).
  rewrite bind_assoc, (bind_ok _ _ _ _ _ (on_hw_run _ _ _ _ h m u H1)), bind_ret. cbn [andb].
  destruct (has (ctl (uview d) C2) UART_C2_TCIE_MASK).
  2: { exists d1, h, u. split; [done|]. split_and!; try done. by apply gave_later. }
  rewrite bind_set_h. destruct (clear_bits_control C2 UART_C2_TCIE_MASK d1 eq_refl) as (d2 & H2 & L2).
  rewrite (bind_ok _ _ _ _ _ (on_hw_run _ _ _ _ _ m u H2)), notify_run.
  exists d2, (with_txState kUART_TxIdle h), (told h kStatus_UART_TxIdle u).
  split; [done|]. split_and!; try done.
  apply (gave_trans [] [] _ _ _ _ _ (gave_later _ _ L1)). destruct L1 as [Hc1 _ _ _].
  destruct L2 as [Hc2 Hb Ht _]. cbn in *. split.
  - by rewrite app_nil_r.
  - done.
  - by rewrite Hc2, Hc1.
  - intros r Hr. rewrite Hc2. by rewrite decide_False by congruence.
Qed.

(** ** The whole handler *)

(** The status word of an interrupt that reports no receive error, and no
    idle line while the idle interrupt is enabled. *)
Definition clean_status (c2 st : Z) : Prop :=
  has st UART_S1_FE_MASK = false /\ has st UART_S1_PF_MASK = false /\ has st UART_S1_OR_MASK = false /\
  (has st UART_S1_IDLE_MASK = false \/ has UART_C2_ILIE_MASK c2 = false).

Lemma isr_idle_skip fuel st d h m (u : U) :
  has st UART_S1_IDLE_MASK = false \/ has UART_C2_ILIE_MASK (ctl (uview d) C2) = false ->
  exists d', isr_idle user_callback fuel st (UartState d h m u) = Ok (tt, UartState d' h m u) /\
    later (uview d) (uview d').
Proof.
  intros H. unfold isr_idle, kUART_IdleLineFlag. destruct (has st UART_S1_IDLE_MASK).
  - destruct H as [H|H]; [done|]. destruct (rd_control C2 d eq_refl) as (d1 & H1 & L1).
    rewrite bind_assoc, (bind_ok _ _ _ _ _ (on_hw_run _ _ _ _ h m u H1)), bind_ret, H. by exists d1.
  - rewrite bind_ret. by exists d.
Qed.

Lemma error_tail_skip d h m (u : U) :
  rxState h = kUART_RxIdle \/ rxState h = kUART_RxBusy ->
  isr_error_tail (UartState d h m u) = Ok (tt, UartState d h m u).
Proof.
  intros H. unfold isr_error_tail. rewrite bind_handle.
  rewrite bool_decide_eq_false_2; [done|]. destruct H as [-> | ->]; by intros [?|?].
Qed.

Lemma irq_run fuel d h m u st d0 :
  UART_GetStatusFlags d = Ok (st, d0) -> clean_status (ctl (uview d) C2) st ->
  ring_ok h -> 0 <= rxDataSize h < 2 ^ 32 -> request_apart h -> 0 <= txDataSize h < 2 ^ 32 ->
  rxState h = kUART_RxIdle \/ rxState h = kUART_RxBusy ->
  exists up rest n d' h1 m' u1 h' u' arr,
    UART_TransferHandleIRQ user_callback fuel (UartState d h m u) = Ok (tt, UartState d' h' m' u') /\
    received up rest h m u h1 m' u1 /\ rxq (uview d) ++ arr = (up ++ rest) ++ rxq (uview d') /\
    line_in (uview d') = line_in (uview d) ++ arr /\
    (has st UART_S1_RDRF_MASK = true -> has UART_C2_RIE_MASK (ctl (uview d) C2) = true ->
       if has_fifo then (length (rxq (uview d)) <= length (up ++ rest))%nat
       else length (up ++ rest) = 1%nat) /\
    0 <= n <= txDataSize h /\
    txd (uview d') = txd (uview d) ++ bytes_at m' (txData h) (Z.to_nat n) /\
    (has st UART_S1_TDRE_MASK = true -> has (ctl (uview d) C2) UART_C2_TIE_MASK = true ->
       0 < txDataSize h -> 0 < n) /\
    (0 < n -> has (ctl (uview d) C2) UART_C2_TIE_MASK = true) /\
    let c2 := c2_after (txDataSize h) n (ctl (uview d) C2) in
    if has UART_S1_TC_MASK st && has c2 UART_C2_TCIE_MASK
    then h' = with_txState kUART_TxIdle (tx_after n h1) /\ u' = told h kStatus_UART_TxIdle u1 /\
         ctl (uview d') C2 = bic8 c2 UART_C2_TCIE_MASK
    else h' = tx_after n h1 /\ u' = u1 /\ ctl (uview d') C2 = c2.
Proof.
  intros Hst (Hfe & Hpf & Hor & Hidle) Hok Hrs Hap Hts Hstate.
  destruct (GetStatusFlags_run d) as (st' & d0' & Hst' & L0 & Htdre & Hrdrf).
  rewrite Hst in Hst'. injection Hst' as <- <-.
  unfold UART_TransferHandleIRQ. rewrite (bind_ok _ _ _ _ _ (on_hw_run _ _ _ _ h m u Hst)).
  unfold isr_framing, isr_parity, isr_overrun, kUART_FramingErrorFlag, kUART_ParityErrorFlag, kUART_RxOverrunFlag.
  rewrite Hfe, Hpf, Hor, !bind_ret.
  assert (ctl (uview d0) = ctl (uview d)) as Hc0 by apply L0.
  destruct (isr_idle_skip fuel st d0 h m u) as (d1 & H1 & L1); [by rewrite Hc0|].
  rewrite (bind_ok _ _ _ _ _ H1).
  assert (later (uview d) (uview d1)) as L01 by by rewrite L0.
  assert (ctl (uview d1) = ctl (uview d)) as Hc1 by apply L01.
  destruct (isr_receive_run st d1 h m u Hok Hrs Hap) as (up & rest & d2 & h1 & m' & u1 & H2 & T2 & R2 & P2).
  { intros E. specialize (Hrdrf E). destruct L01 as [_ (bs & -> & _) _ _]. by destruct (rxq (uview d)). }
  rewrite (bind_ok _ _ _ _ _ H2).
  destruct (rec_handle _ _ _ _ _ _ _ _ R2) as (hd & tl & Eh1).
  rewrite (bind_ok _ _ _ _ _ (error_tail_skip d2 h1 m' u1 ltac:(
    subst h1; cbn; unfold request_after; repeat destruct (decide _); cbn; auto))).
  assert (txData h1 = txData h /\ txDataSize h1 = txDataSize h /\ callback h1 = callback h) as (Etd & Ets & Ecb).
  { subst h1; cbn; unfold request_after; repeat destruct (decide _); done. }
  assert (took (up ++ rest) (uview d) (uview d2)) as T02 by exact (took_trans [] _ _ _ _ (took_later _ _ L01) T2).
  destruct (isr_transmit_run st d2 h1 m' u1) as (n & d3 & H3 & Hn & G3 & P3 & P3'); [by rewrite Ets| |].
  { intros E. specialize (Htdre E). apply took_room in T02. lia. }
  rewrite (bind_ok _ _ _ _ _ H3).
  destruct (isr_complete_run st d3 (tx_after n h1) m' u1) as (d4 & h' & u' & H4 & E4).
  assert (ctl (uview d2) = ctl (uview d)) as Hc2 by apply T02.
  rewrite Etd, Ets, Hc2 in *. rewrite (gave_c2 _ _ _ _ G3) in E4.
  assert (told (tx_after n h1) = told h) as Etold by (unfold told; cbn; by rewrite Ecb).
  assert (exists c, gave [] c (uview d3) (uview d4)) as (c & G4).
  { destruct (_ && _) in E4; destruct E4 as (_ & _ & G4); eauto. }
  destruct T02 as [(arr & Harr & Hi2) _ Htx _].
  destruct (gave_rx _ _ _ _ G3) as (a3 & Ha3 & Hi3), (gave_rx _ _ _ _ G4) as (a4 & Ha4 & Hi4).
  exists up, rest, n, d4, h1, m', u1, h', u', (arr ++ a3 ++ a4).
  split; [exact H4|]. split; [done|]. split.
  { rewrite Ha4, Ha3, app_assoc, Harr, <- !app_assoc. done. }
  split; [by rewrite Hi4, Hi3, Hi2, <- !app_assoc|]. split.
  { intros E1 E2. rewrite <- Hc1 in E2. specialize (P2 E1 E2). destruct L01 as [_ (bs & Hb & _) _ _].
    destruct has_fifo; [|done]. rewrite Hb, length_app in P2. lia. }
  split; [done|]. split.
  { rewrite (gave_tx _ _ _ _ G4), (gave_tx _ _ _ _ G3), Htx, app_nil_r. done. }
  split; [done|]. split; [done|]. cbn zeta.
  destruct (_ && _); destruct E4 as (-> & -> & G); rewrite ?Etold; (split; [done|]); (split; [done|]);
    exact (gave_c2 _ _ _ _ G).
Qed.

(** ** Requests *)

(** [n] bytes at [a] lie outside the ring buffer. *)
Definition apart (h : uart_handle) (a n : Z) : Prop :=
  a + n <= rxRingBuffer h \/ rxRingBuffer h + rxRingBufferSize h <= a.

Lemma copy_from_ring_run data n : forall i (d : D) h m (u : U),
  ring_ok h -> (n <= length (queue h m))%nat -> apart h (data + i) (Z.of_nat n) ->
  exists tl m', copy_from_ring data i n (UartState d h m u)
      = Ok (i + Z.of_nat n, UartState d (with_tail tl h) m' u) /\
    ring_ok (with_tail tl h) /\ queue (with_tail tl h) m' = drop n (queue h m) /\
    bytes_at m' (data + i) n = take n (queue h m) /\ frame m m' (data + i) (Z.of_nat n).
Proof.
  induction n as [|n IH]; intros i d h m u Hok Hn Hap; cbn [copy_from_ring].
  - exists (rxRingBufferTail h), m. assert (with_tail (rxRingBufferTail h) h = h) as -> by by destruct h.
    split_and!; [by rewrite Z.add_0_r|done|done|done|done].
  - assert (queue h m <> []) as Hne by (intros E; rewrite E in Hn; cbn in Hn; lia).
    pose proof (queue_pop h m Hok Hne) as Hp. pose proof (ring_ok_tail h Hok) as Hok1.
    rewrite bind_handle, bind_load, bind_store, bind_set_h.
    set (b := m (rxRingBuffer h + rxRingBufferTail h)) in *.
    set (h1 := with_tail (next_index h (rxRingBufferTail h)) h) in *.
    assert (queue h1 (upd m (data + i) b) = queue h1 m) as Hq1.
    { apply queue_ext; [done|]. intros x Hx. apply upd_ne. subst h1. cbn in Hx. destruct Hap; lia. }
    destruct (IH (i + 1) d h1 (upd m (data + i) b) u Hok1) as (tl & m' & Hr & Hok' & Hq & Hb & Hf).
    { rewrite Hq1. rewrite Hp in Hn. cbn in Hn. lia. }
    { subst h1. destruct Hap; [left|right]; cbn; lia. }
    assert (with_tail tl h1 = with_tail tl h) as E by done. rewrite E in *.
    exists tl, m'. split; [rewrite Hr; do 2 f_equal; lia|]. split; [done|].
    rewrite Hq1 in Hq, Hb. rewrite Hp. cbn [drop take bytes_at]. split; [done|].
    rewrite Z.add_assoc in Hb, Hf. split.
    + f_equal; [|done]. rewrite Hf by lia. apply upd_eq.
    + intros x Hx. rewrite Hf by lia. apply upd_ne. lia.
Qed.

(** Installing the rest of a request. *)
Definition request (data size all : Z) (h : uart_handle) : uart_handle :=
  with_rxState kUART_RxBusy (with_rxAll all (with_rx data size h)).

Lemma receive_run data size d h m u :
  ring_ok h -> rxState h <> kUART_RxBusy -> data <> 0 -> 0 < size < 2 ^ 32 -> apart h data size ->
  let q := queue h m in
  let k := Nat.min (Z.to_nat size) (length q) in
  exists tl m' d', UART_TransferReceiveNonBlocking user_callback data size (UartState d h m u) =
      Ok ((kStatus_Success, Some (Z.of_nat k)),
          UartState d' (if decide (Z.of_nat k = size) then with_tail tl h
                        else request (data + Z.of_nat k) (size - Z.of_nat k) size (with_tail tl h)) m'
            (if decide (Z.of_nat k = size) then told h kStatus_UART_RxIdle u else u)) /\
    ring_ok (with_tail tl h) /\ queue (with_tail tl h) m' = drop k q /\
    bytes_at m' data k = take k q /\ frame m m' data (Z.of_nat k) /\
    gave [] (Z.lor (bic8 (ctl (uview d) C2) UART_C2_RIE_MASK) UART_C2_RIE_MASK) (uview d) (uview d').
Proof.
  intros Hok Hst Hd Hs Hap q k. unfold UART_TransferReceiveNonBlocking.
  rewrite (proj2 (Z.eqb_neq data 0)), (proj2 (Z.eqb_neq size 0)) by lia. cbn [negb].
  rewrite !assert_true, !bind_ret, bind_handle by done. rewrite decide_False by done.
  rewrite (proj2 (Z.eqb_neq (rxRingBuffer h) 0)) by apply Hok. cbn [negb].
  destruct (clear_bits_control C2 UART_C2_RIE_MASK d eq_refl) as (d1 & H1 & L1).
  rewrite (bind_ok _ _ _ _ _ (on_hw_run _ _ _ _ h m u H1)).
  rewrite (ring_length_count h Hok). pose proof (ring_count_range h Hok).
  assert (Z.min size (ring_count h) = Z.of_nat k) as ->.
  { subst k q. rewrite length_queue. lia. }
  rewrite Nat2Z.id.
  destruct (copy_from_ring_run data k 0 d1 h m u Hok) as (tl & m' & H2 & Hok' & Hq & Hb & Hf).
  { subst k q. lia. } { rewrite Z.add_0_r. subst k q. destruct Hap; [left|right]; lia. }
  rewrite Z.add_0_r in Hb, Hf. rewrite (bind_ok _ _ _ _ _ H2). rewrite Z.add_0_l.
  destruct (set_bits_control C2 UART_C2_RIE_MASK d1 eq_refl) as (d2 & H3 & L3).
  exists tl, m', d2. split; [|split; [done|]].
  - destruct (Z.eqb_spec (size - Z.of_nat k) 0) as [E|E].
    + rewrite !(decide_True (P := Z.of_nat k = size)) by lia. cbn [negb]. rewrite bind_ret.
      rewrite (bind_ok _ _ _ _ _ (on_hw_run _ _ _ _ _ _ _ H3)).
      rewrite (bind_ok _ _ _ _ _ (notify_run _ _ _ _ _)). done.
    + rewrite !(decide_False (P := Z.of_nat k = size)) by lia. cbn [negb].
      rewrite bind_assoc, bind_set_h, bind_assoc, bind_set_h. unfold bind at 1.
      cbn [set_h modify u_hw u_h u_mem u_user].
      rewrite (bind_ok _ _ _ _ _ (on_hw_run _ _ _ _ _ _ _ H3)), bind_ret. done.
  - split_and!; [done|done|done|]. destruct L1 as [Hc1 (b1 & Hb1 & Hi1) Ht1 Hr1], L3 as [Hc3 (b3 & Hb3 & Hi3) Ht3 Hr3].
    cbn in *. split.
    + by rewrite app_nil_r, Ht3, Ht1.
    + exists (b1 ++ b3). by rewrite Hb3, Hb1, Hi3, Hi1, !app_assoc.
    + by rewrite Hc3, Hc1.
    + intros r Hr. by rewrite Hc3, Hc1, !decide_False by congruence.
Qed.
End Runs.

Arguments rec_split {U on_status up rest h m u h' m' u'}.
Arguments rec_handle {U on_status up rest h m u h' m' u'}.
Arguments rec_ok {U on_status up rest h m u h' m' u'}.
Arguments rec_user {U on_status up rest h m u h' m' u'}.
Arguments rec_queue {U on_status up rest h m u h' m' u'}.
Arguments rec_frame {U on_status up rest h m u h' m' u'}.
Arguments rec_told {U on_status up rest h m u h' m' u'}.

(** ** Runs of the driver *)

Lemma bytes_at_app m n k : forall a, bytes_at m a (n + k) = bytes_at m a n ++ bytes_at m (a + Z.of_nat n) k.
Proof.
  induction n as [|n IH]; intros a; cbn [bytes_at Nat.add app].
  - by rewrite Z.add_0_r.
  - rewrite IH. do 3 f_equal. lia.
Qed.

Section Stream.
Context {D : Type} `{UL : UartLaws D}.
Abbreviation state := (uart_state D (list status_t)).
Context (user_callback : status_t -> M state unit).

(** The user's program keeps a log of the notifications. *)
Definition logged (st : status_t) (u : list status_t) : list status_t := u ++ [st].
Context (quiet : Quiet user_callback logged).

(** The bytes of the send request not yet handed over. *)
Definition pending_tx (s : state) : list Z :=
  bytes_at (u_mem s) (txData (u_h s)) (Z.to_nat (txDataSize (u_h s))).
Definition ring_bytes (s : state) : list Z := queue (u_h s) (u_mem s).
(** All bytes that have come in on the line. *)
Definition line_of (s : state) : list Z := line_in (uview (u_hw s)).
Definition c2_of (s : state) : Z := ctl (uview (u_hw s)) C2.

(** [n] bytes at [a] avoid the ring buffer, the request and the send data. *)
Definition clear_of_ring (h : uart_handle) (x : Z) : Prop :=
  ~ rxRingBuffer h <= x < rxRingBuffer h + rxRingBufferSize h.
Definition clear_of_request (h : uart_handle) (x : Z) : Prop :=
  ~ rxData h <= x < rxData h + rxDataSize h.
Definition clear_of_tx (h : uart_handle) (x : Z) : Prop :=
  ~ txData h <= x < txData h + txDataSize h.

(** The invariant of a driver with a ring buffer installed. *)
Record wf (s : state) : Prop := {
  wf_ring : ring_ok (u_h s);
  wf_callback : callback (u_h s) = true;
  wf_rx_size : 0 <= rxDataSize (u_h s) < 2 ^ 32;
  wf_tx_size : 0 <= txDataSize (u_h s) < 2 ^ 32;
  wf_rx : rxState (u_h s) = kUART_RxIdle /\ rxDataSize (u_h s) = 0 \/
          rxState (u_h s) = kUART_RxBusy /\ 0 < rxDataSize (u_h s);
  wf_order : 0 < rxDataSize (u_h s) -> ring_bytes s = [];
  wf_apart : request_apart (u_h s);
  wf_tx_apart x : txData (u_h s) <= x < txData (u_h s) + txDataSize (u_h s) ->
    clear_of_ring (u_h s) x /\ clear_of_request (u_h s) x;
  wf_idle : txState (u_h s) = kUART_TxIdle -> txDataSize (u_h s) = 0;
  wf_tcie : has (c2_of s) UART_C2_TCIE_MASK = true ->
    txDataSize (u_h s) = 0 /\ txState (u_h s) = kUART_TxBusy;
  wf_tie : 0 < txDataSize (u_h s) -> has (c2_of s) UART_C2_TIE_MASK = true
}.

(** What a step keeps: the invariant; what it delivers and what is still
    queued is what was queued and what arrived; what it sends and what is
    pending is what was pending and what it accepted. *)
Record keeps (s : state) (delivered accepted : list Z) (s' : state) : Prop := {
  keeps_wf : wf s';
  keeps_log : exists l, u_user s' = u_user s ++ l /\
    (kStatus_UART_RxRingBufferOverrun ∉ l -> exists arr, line_of s' = line_of s ++ arr /\
       delivered ++ ring_bytes s' ++ rxq (uview (u_hw s'))
       = ring_bytes s ++ rxq (uview (u_hw s)) ++ arr);
  keeps_tx : txd (uview (u_hw s')) ++ pending_tx s' = txd (uview (u_hw s)) ++ pending_tx s ++ accepted
}.

Inductive step : state -> list Z -> list Z -> state -> Prop :=
  (** time passes: bytes arrive, the transmitter drains *)
  | step_wait d d' h m u : later (uview d) (uview d') ->
      step (UartState d h m u) [] [] (UartState d' h m u)
  (** the user writes memory the driver is not using *)
  | step_user d h m m' u :
      (forall x, ~ clear_of_ring h x \/ ~ clear_of_request h x \/ ~ clear_of_tx h x -> m' x = m x) ->
      step (UartState d h m u) [] [] (UartState d h m' u)
  (** an interrupt without receive errors *)
  | step_irq fuel s s' st d0 :
      UART_GetStatusFlags (u_hw s) = Ok (st, d0) -> clean_status (c2_of s) st ->
      UART_TransferHandleIRQ user_callback fuel s = Ok (tt, s') ->
      step s (bytes_at (u_mem s') (rxData (u_h s)) (Z.to_nat (rxDataSize (u_h s) - rxDataSize (u_h s')))) [] s'
  (** the receive request is given up *)
  | step_abort_receive s s' :
      UART_TransferAbortReceive s = Ok (tt, s') -> step s [] [] s'
  (** a receive request into a buffer of the user's *)
  | step_receive data size s s' st r :
      data <> 0 -> 0 < size < 2 ^ 32 -> apart (u_h s) data size ->
      (forall x, data <= x < data + size -> clear_of_tx (u_h s) x) ->
      UART_TransferReceiveNonBlocking user_callback data size s = Ok ((st, r), s') ->
      step s (bytes_at (u_mem s') data (Z.to_nat (default 0 r))) [] s'
  (** a send request *)
  | step_send data size s s' st :
      data <> 0 -> 0 < size < 2 ^ 32 ->
      (forall x, data <= x < data + size -> clear_of_ring (u_h s) x /\ clear_of_request (u_h s) x) ->
      UART_TransferSendNonBlocking data size s = Ok (st, s') ->
      step s [] (if decide (st = kStatus_Success) then bytes_at (u_mem s) data (Z.to_nat size) else []) s'.

Inductive run : state -> list Z -> list Z -> state -> Prop :=
  | run_nil s : run s [] [] s
  | run_cons s del acc s' del' acc' s'' :
      step s del acc s' -> run s' del' acc' s'' -> run s (del ++ del') (acc ++ acc') s''.

Lemma keeps_nothing s : wf s -> keeps s [] [] s.
Proof.
  intros Hw. split; [done| |by rewrite app_nil_r].
  exists []. rewrite app_nil_r. split; [done|]. intros _. exists []. by rewrite !app_nil_r.
Qed.

Lemma wait_keeps d d' h m u :
  wf (UartState d h m u) -> later (uview d) (uview d') ->
  keeps (UartState d h m u) [] [] (UartState d' h m u).
Proof.
  intros Hw [Hc (bs & Hb & Hi) Ht _]. split.
  - destruct Hw. split; try done; unfold c2_of in *; cbn in *; by rewrite Hc.
  - exists []. rewrite app_nil_r. split; [done|]. intros _. exists bs. split; [done|]. cbn. by rewrite Hb.
  - cbn. by rewrite Ht, app_nil_r.
Qed.

Lemma user_keeps d h m m' u :
  wf (UartState d h m u) ->
  (forall x, ~ clear_of_ring h x \/ ~ clear_of_request h x \/ ~ clear_of_tx h x -> m' x = m x) ->
  keeps (UartState d h m u) [] [] (UartState d h m' u).
Proof.
  intros Hw Hm.
  assert (queue h m' = queue h m) as Hq.
  { apply queue_ext; [apply Hw|]. intros x Hx. apply Hm. left. unfold clear_of_ring. tauto. }
  split.
  - destruct Hw. split; try done. unfold ring_bytes in *. cbn in *. by rewrite Hq.
  - exists []. rewrite app_nil_r. split; [done|]. intros _. exists []. unfold ring_bytes, line_of. cbn.
    by rewrite Hq, !app_nil_r.
  - unfold pending_tx. cbn. rewrite app_nil_r. f_equal. apply bytes_at_ext.
    intros x Hx. apply Hm. right. right. unfold clear_of_tx. destruct Hw. cbn in *. lia.
Qed.

(** Notifications: what the log gains. *)
Lemma iter_logged k st u : Nat.iter k (logged st) u = u ++ repeat st k.
Proof.
  revert u. induction k as [|k IH]; intros u; [cbn; by rewrite app_nil_r|].
  rewrite Nat.iter_succ_r, IH. unfold logged. by rewrite <- app_assoc.
Qed.


Lemma irq_log h (u u1 : list status_t) k b st (c : Prop) `{Decision c} :
  callback h = true ->
  u1 = Nat.iter k (told logged h kStatus_UART_RxRingBufferOverrun)
         (if decide c then told logged h kStatus_UART_RxIdle u else u) ->
  exists l, (if b : bool then told logged h st u1 else u1) = u ++ l /\
    (kStatus_UART_RxRingBufferOverrun ∉ l -> k = 0%nat).
Proof.
  intros Hcb ->.
  assert (forall st, told logged h st = logged st) as Ht.
  { intros st'. unfold told. by rewrite Hcb. }
  rewrite !Ht, iter_logged.
  exists ((if decide c then [kStatus_UART_RxIdle] else []) ++
    repeat kStatus_UART_RxRingBufferOverrun k ++ (if b then [st] else [])). split.
  - unfold logged. destruct (decide c), b; rewrite ?app_nil_r, <- ?app_assoc; done.
  - intros Hn. destruct k as [|k]; [done|]. exfalso. apply Hn.
    rewrite !elem_of_app. right. left. cbn [repeat]. constructor.
Qed.

(** The request and the other fields of the handle after reception. *)
Lemma received_handle up rest h m u h1 m1 u1 :
  received logged up rest h m u h1 m1 u1 ->
  rxState h = kUART_RxIdle /\ rxDataSize h = 0 \/ rxState h = kUART_RxBusy /\ 0 < rxDataSize h ->
  rxDataSize h1 = rxDataSize h - Z.of_nat (length up) /\ rxData h1 = rxData h + Z.of_nat (length up) /\
  (rxState h1 = kUART_RxIdle /\ rxDataSize h1 = 0 \/ rxState h1 = kUART_RxBusy /\ 0 < rxDataSize h1) /\
  rxRingBuffer h1 = rxRingBuffer h /\ rxRingBufferSize h1 = rxRingBufferSize h /\
  callback h1 = callback h /\ txData h1 = txData h /\ txDataSize h1 = txDataSize h /\ txState h1 = txState h.
Proof.
  intros R Hst. pose proof (rec_split R) as Hsplit.
  destruct (rec_handle R) as (hd & tl & ->). cbn. unfold request_after.
  destruct (decide (up = [])) as [->|Hne]; cbn [length] in *.
  - cbn. split_and!; try done; lia.
  - assert (length up <> 0%nat) by (clear -Hne; destruct up; [congruence|discriminate]).
    destruct (decide _) as [E|E]; cbn; (split; [lia|]); (split; [lia|]).
    + split; [left; split; [done|lia]|done].
    + split; [|done]. right. destruct Hst as [[_ Hst]|[Hst _]]; [lia|]. split; [done|lia].
Qed.

(** The stream is in order: either nothing went to the request, or the ring
    buffer was empty. *)
Lemma received_stream up rest h m u h1 m1 u1 :
  received logged up rest h m u h1 m1 u1 ->
  (0 < rxDataSize h -> queue h m = []) ->
  (overruns (ring_cap h) (queue h m) rest = 0%nat -> up ++ queue h1 m1 = queue h m ++ up ++ rest) /\
  (0 < rxDataSize h - Z.of_nat (length up) -> queue h1 m1 = []).
Proof.
  intros R Hord. pose proof (rec_split R) as Hsplit. rewrite (rec_queue R). split.
  - unfold overruns. intros Hov. rewrite newest_short by (rewrite length_app; lia).
    destruct up as [|b up]; [done|]. cbn [length] in Hsplit. rewrite Hord by lia. by rewrite app_nil_l.
  - intros Hs. rewrite Hord by lia. assert (length rest = 0%nat) as E by lia.
    apply nil_length_inv in E. by rewrite E.
Qed.

(** The transmit interrupts after [n] of the pending bytes were written. *)
Lemma c2_after_facts s n :
  wf s -> 0 <= n <= txDataSize (u_h s) -> let c2 := c2_after (txDataSize (u_h s)) n (c2_of s) in
  (has c2 UART_C2_TCIE_MASK = true -> txDataSize (u_h s) - n = 0 /\ txState (u_h s) = kUART_TxBusy) /\
  (0 < txDataSize (u_h s) - n -> has c2 UART_C2_TIE_MASK = true).
Proof.
  intros Hw Hn c2. unfold c2_after in c2. split.
  - destruct (Z.ltb_spec 0 n), (Z.eqb_spec n (txDataSize (u_h s))); cbn [andb] in c2.
    2-4: intros Hc; destruct (wf_tcie _ Hw Hc); split; [lia|done].
    intros _. split; [lia|]. destruct (txState (u_h s)) eqn:E; [|done].
    pose proof (wf_idle _ Hw E). lia.
  - intros Hs. subst c2. rewrite (proj2 (Z.eqb_neq _ _)) by lia. rewrite andb_false_r.
    apply (wf_tie _ Hw). lia.
Qed.

(** The invariant after an interrupt that wrote [n] bytes, [fin] if it was
    the one for the end of the transmission. *)
Lemma irq_wf d d' h h1 h' m m' u u1 u' up rest n (fin : bool) :
  wf (UartState d h m u) -> received logged up rest h m u h1 m' u1 -> 0 <= n <= txDataSize h ->
  let c2 := c2_after (txDataSize h) n (ctl (uview d) C2) in
  h' = (if fin then with_txState kUART_TxIdle (tx_after n h1) else tx_after n h1) ->
  ctl (uview d') C2 = (if fin then bic8 c2 UART_C2_TCIE_MASK else c2) ->
  (fin = true -> has c2 UART_C2_TCIE_MASK = true) ->
  wf (UartState d' h' m' u').
Proof.
  intros Hw R Hn c2 Eh' Ec2 Hfin. pose proof (wf_rx _ Hw) as Hrx. pose proof (wf_apart _ Hw) as Ha. cbn in Hrx, Ha.
  unfold request_apart in Ha. pose proof (wf_tx_size _ Hw) as Hts. pose proof (wf_rx_size _ Hw) as Hrs. cbn in Hts, Hrs.
  destruct (received_handle _ _ _ _ _ _ _ _ R Hrx) as (Es & Ed & Est & Erb & Ers & Ecb & Etd & Ets & Ett).
  destruct (received_stream _ _ _ _ _ _ _ _ R (wf_order _ Hw)) as [_ Hemp]. pose proof (rec_split R) as Hsplit.
  destruct (c2_after_facts _ n Hw Hn) as [Hc1 Hc2]. cbn in Hc1, Hc2. unfold c2_of in Hc1, Hc2. cbn in Hc1, Hc2.
  fold c2 in Hc1, Hc2. pose proof tx_masks as (Hm1 & Hm2 & _).
  assert (rxDataSize h' = rxDataSize h1) as Es' by (rewrite Eh'; by destruct fin).
  assert (queue h' m' = queue h1 m') as Eq' by (rewrite Eh'; by destruct fin).
  assert (ring_ok h') as Hok' by (rewrite Eh'; destruct fin; destruct (rec_ok R); by split).
  split; unfold ring_bytes, c2_of; cbn [u_hw u_h u_mem]; rewrite ?Es', ?Eq', ?Ec2; try done.
  - rewrite Eh'. destruct fin; cbn; rewrite Ecb; apply Hw.
  - rewrite Es. lia.
  - rewrite Eh'. destruct fin; cbn; lia.
  - rewrite Eh'. by destruct fin.
  - rewrite Es. exact Hemp.
  - unfold request_apart. rewrite Eh'. destruct fin; cbn; rewrite Es, Ed, Erb, Ers; lia.
  - intros x Hx. assert (txData h <= x < txData h + txDataSize h) as Hx'
      by (revert Hx; rewrite Eh'; destruct fin; cbn; lia).
    destruct (wf_tx_apart _ Hw x Hx') as [H1 H2]. unfold clear_of_ring, clear_of_request in *. cbn in H1, H2.
    rewrite Eh'; destruct fin; cbn; rewrite Es, Ed, Erb, Ers; (split; [done|lia]).
  - rewrite Eh'. destruct fin; cbn; intros E.
    + rewrite Ets. apply Hc1, Hfin. done.
    + rewrite Ett in E. pose proof (wf_idle _ Hw E). cbn in *. lia.
  - rewrite Eh'. destruct fin; cbn; rewrite ?Ets, ?Ett; [|done]. by rewrite has_bic by lia.
  - rewrite Eh'. destruct fin; cbn; rewrite Ets; [|done]. destruct Hc1 as [E _]; [by apply Hfin|]. lia.
Qed.

Lemma irq_keeps fuel s s' st d0 :
  wf s -> UART_GetStatusFlags (u_hw s) = Ok (st, d0) -> clean_status (c2_of s) st ->
  UART_TransferHandleIRQ user_callback fuel s = Ok (tt, s') ->
  keeps s (bytes_at (u_mem s') (rxData (u_h s)) (Z.to_nat (rxDataSize (u_h s) - rxDataSize (u_h s')))) [] s'.
Proof.
  destruct s as [d h m u]. intros Hw Hst Hcl Hrun.
  pose proof (wf_rx_size _ Hw) as Hrs. pose proof (wf_tx_size _ Hw) as Hts. pose proof (wf_rx _ Hw) as Hrx.
  unfold c2_of, ring_bytes in *. cbn [u_hw u_h u_mem u_user] in *.
  destruct (irq_run user_callback logged quiet fuel d h m u st d0 Hst Hcl (wf_ring _ Hw) Hrs (wf_apart _ Hw) Hts) as
    (up & rest & n & d' & h1 & m' & u1 & h' & u' & arr & Hr & R & Harr & Hi & _ & Hn & Htx & _ & Htie & Hend).
  { destruct Hrx as [[E _]|[E _]]; rewrite E; auto. }
  rewrite Hrun in Hr. injection Hr as ->. cbn [u_hw u_h u_mem u_user] in *.
  destruct (received_handle _ _ _ _ _ _ _ _ R Hrx) as (Es & _ & _ & _ & _ & _ & Etd & Ets & _).
  destruct (received_stream _ _ _ _ _ _ _ _ R (wf_order _ Hw)) as [Hstr _]. pose proof (rec_split R) as Hsplit.
  cbn zeta in Hend. set (c2 := c2_after (txDataSize h) n (ctl (uview d) C2)) in *.
  remember (has UART_S1_TC_MASK st && has c2 UART_C2_TCIE_MASK) as fin eqn:Efin.
  assert (h' = if fin then with_txState kUART_TxIdle (tx_after n h1) else tx_after n h1) as Eh'
    by (destruct fin; apply Hend).
  assert (rxDataSize h' = rxDataSize h1) as Es' by (rewrite Eh'; by destruct fin).
  assert (queue h' m' = queue h1 m') as Eq' by (rewrite Eh'; by destruct fin).
  pose proof (irq_log h u u1 _ fin kStatus_UART_TxIdle _ (wf_callback _ Hw) (rec_told R)) as (l & Hl & Hov).
  assert (u' = u ++ l) as Eu' by (rewrite <- Hl; destruct fin; apply Hend).
  rewrite Es', Es. replace (Z.to_nat _) with (length up) by lia. rewrite (rec_user R). split.
  - apply (irq_wf d d' h h1 h' m m' u u1 u' up rest n fin); [done|done|done|done|by destruct fin; apply Hend|].
    intros ->. symmetry in Efin. by apply andb_prop in Efin as [_ ?].
  - exists l. split; [done|]. intros Hnov. exists arr. split; [exact Hi|]. unfold ring_bytes. cbn [u_hw u_h u_mem].
    rewrite Eq', app_assoc, (Hstr (Hov Hnov)), Harr. by rewrite <- !app_assoc.
  - cbn [u_hw]. rewrite Htx, app_nil_r, <- app_assoc. f_equal. unfold pending_tx. cbn [u_h u_mem].
    replace (Z.to_nat (txDataSize h)) with (Z.to_nat n + Z.to_nat (txDataSize h - n))%nat by lia.
    rewrite <- (bytes_at_ext m m'), bytes_at_app.
    + f_equal. rewrite Z2Nat.id by lia. subst h'. destruct fin; cbn; by rewrite Etd, Ets.
    + intros x Hx. destruct (wf_tx_apart _ Hw x ltac:(cbn; lia)) as [H1 H2]. cbn in H1, H2.
      apply (rec_frame R); [|done]. unfold clear_of_request in H2. lia.
Qed.

(** Interrupt enables that a read-modify-write of other bits keeps. *)
Lemma toggle_rie c m : 0 <= m < 2 ^ 8 -> Z.land UART_C2_RIE_MASK m = 0 ->
  has (Z.lor (bic8 c UART_C2_RIE_MASK) UART_C2_RIE_MASK) m = has c m.
Proof. intros Hm Hd. rewrite has_lor_keep, has_bic_keep by (done || lia). done. Qed.

(** The invariant after a receive request took [k] bytes from the ring. *)
Lemma receive_wf data size d d' h h' m m' u u' k tl :
  wf (UartState d h m u) -> 0 < size < 2 ^ 32 -> apart h data size ->
  (forall x, data <= x < data + size -> clear_of_tx h x) ->
  k = Nat.min (Z.to_nat size) (length (queue h m)) -> rxDataSize h = 0 ->
  h' = (if decide (Z.of_nat k = size) then with_tail tl h
        else request (data + Z.of_nat k) (size - Z.of_nat k) size (with_tail tl h)) ->
  ring_ok (with_tail tl h) -> queue (with_tail tl h) m' = drop k (queue h m) ->
  rxState h = kUART_RxIdle -> ctl (uview d') C2 = Z.lor (bic8 (ctl (uview d) C2) UART_C2_RIE_MASK) UART_C2_RIE_MASK ->
  wf (UartState d' h' m' u').
Proof.
  intros Hw Hs Hap Htx Hk Hsz Eh' Hok Hq Hst Gc.
  pose proof tx_masks as (Hm1 & Hm2 & Hm3 & Hd1 & Hd2 & Hd3).
  pose proof (wf_callback _ Hw) as Hcb. pose proof (wf_apart _ Hw) as Hwa. unfold request_apart in Hwa. cbn in Hcb, Hwa.
  assert (queue h' m' = drop k (queue h m)) as Eq by (subst h'; by destruct (decide _)).
  assert (ring_ok h') as Hok' by (subst h'; destruct (decide _); [done|]; destruct Hok; by split).
  split; unfold ring_bytes, c2_of; cbn [u_hw u_h u_mem]; rewrite ?Gc, ?Eq; try done.
  - subst h'. by destruct (decide _).
  - subst h'. destruct (decide _); cbn; lia.
  - pose proof (wf_tx_size _ Hw). subst h'. by destruct (decide _).
  - subst h'. destruct (decide _); cbn; [by left|right; split; [done|]]. lia.
  - intros Hp. apply nil_length_inv. rewrite length_drop.
    assert (Z.of_nat k <> size) by (subst h'; destruct (decide _); cbn in Hp; lia). lia.
  - unfold request_apart. subst h'. destruct (decide _); cbn; [lia|]. destruct Hap; lia.
  - intros x Hx. assert (txData h <= x < txData h + txDataSize h) as Hx'
      by (subst h'; by destruct (decide _)).
    destruct (wf_tx_apart _ Hw x Hx') as [H1 H2]. unfold clear_of_ring, clear_of_request in *. cbn in H1, H2.
    subst h'. destruct (decide _); cbn; (split; [done|]); [lia|]. intros Hx''.
    assert (data <= x < data + size) as Hx3 by lia. exact (Htx x Hx3 Hx').
  - pose proof (wf_idle _ Hw) as E. subst h'. by destruct (decide _).
  - rewrite toggle_rie by (done || lia). pose proof (wf_tcie _ Hw) as E. subst h'. by destruct (decide _).
  - rewrite toggle_rie by (done || lia). pose proof (wf_tie _ Hw) as E. subst h'. by destruct (decide _).
Qed.

Lemma receive_busy data size d h m u :
  rxState h = kUART_RxBusy -> data <> 0 -> 0 < size ->
  UART_TransferReceiveNonBlocking user_callback data size (UartState d h m u) =
    Ok ((kStatus_UART_RxBusy, None), UartState d h m u).
Proof.
  intros Hbusy Hd Hs. unfold UART_TransferReceiveNonBlocking.
  rewrite (proj2 (Z.eqb_neq data 0)), (proj2 (Z.eqb_neq size 0)) by lia. cbn [negb].
  rewrite !assert_true, !bind_ret, bind_handle by done. by rewrite decide_True.
Qed.

Lemma receive_keeps data size s s' st r :
  wf s -> data <> 0 -> 0 < size < 2 ^ 32 -> apart (u_h s) data size ->
  (forall x, data <= x < data + size -> clear_of_tx (u_h s) x) ->
  UART_TransferReceiveNonBlocking user_callback data size s = Ok ((st, r), s') ->
  keeps s (bytes_at (u_mem s') data (Z.to_nat (default 0 r))) [] s'.
Proof.
  destruct s as [d h m u]. cbn [u_h]. intros Hw Hd Hs Hap Htx Hrun.
  destruct (decide (rxState h = kUART_RxBusy)) as [Hbusy|Hidle].
  - rewrite receive_busy in Hrun by (done || lia). injection Hrun as <- <- <-. cbn. by apply keeps_nothing.
  - pose proof (wf_rx _ Hw) as Hrx. cbn in Hrx. destruct Hrx as [[Hst Hsz]|[? _]]; [|done].
    destruct (receive_run user_callback logged quiet data size d h m u (wf_ring _ Hw) Hidle Hd Hs Hap)
      as (tl & m' & d' & Hr & Hok & Hq & Hb & Hf & [Gt Gr Gc _]).
    rewrite Hrun in Hr. injection Hr as -> -> ->.
    set (k := Nat.min (Z.to_nat size) (length (queue h m))) in *.
    cbn [u_hw u_h u_mem u_user default from_option id] in *. rewrite Nat2Z.id, Hb.
    assert (forall x, txData h <= x < txData h + txDataSize h -> m' x = m x) as Hmtx.
    { intros x Hx. apply Hf. intros Hx'. assert (data <= x < data + size) as Hx'' by lia.
      exact (Htx x Hx'' Hx). }
    split.
    + by eapply (receive_wf data size d d').
    + pose proof (wf_callback _ Hw) as Hcb. cbn in Hcb.
      exists (if decide (Z.of_nat k = size) then [kStatus_UART_RxIdle] else []). split.
      { destruct (decide _); [unfold told; by rewrite Hcb|by rewrite app_nil_r]. }
      intros _. destruct Gr as (arr & Harr & Hi). exists arr. split; [exact Hi|]. unfold ring_bytes. cbn [u_hw u_h u_mem].
      replace (queue _ m') with (drop k (queue h m)) by (rewrite <- Hq; by destruct (decide _)). by rewrite Harr, app_assoc, take_drop.
    + cbn [u_hw]. rewrite Gt, !app_nil_r. f_equal. unfold pending_tx. cbn [u_h u_mem].
      rewrite <- (bytes_at_ext m m') by (intros; apply Hmtx; pose proof (wf_tx_size _ Hw) as Hts; cbn in Hts; lia).
      by destruct (decide _).
Qed.

Lemma send_keeps data size s s' st :
  wf s -> data <> 0 -> 0 < size < 2 ^ 32 ->
  (forall x, data <= x < data + size -> clear_of_ring (u_h s) x /\ clear_of_request (u_h s) x) ->
  UART_TransferSendNonBlocking data size s = Ok (st, s') ->
  keeps s [] (if decide (st = kStatus_Success) then bytes_at (u_mem s) data (Z.to_nat size) else []) s'.
Proof.
  destruct s as [d h m u]. cbn [u_h u_mem]. intros Hw Hd Hs Hap Hrun.
  unfold UART_TransferSendNonBlocking in Hrun.
  rewrite (proj2 (Z.eqb_neq data 0)), (proj2 (Z.eqb_neq size 0)) in Hrun by lia. cbn [negb] in Hrun.
  rewrite !assert_true, !bind_ret, bind_handle in Hrun by done.
  destruct (decide (txState h = kUART_TxBusy)) as [Hb|Hb].
  { injection Hrun as <- <-. rewrite decide_False by done. by apply keeps_nothing. }
  assert (txState h = kUART_TxIdle) as Hi by by destruct (txState h).
  rewrite !bind_set_h in Hrun.
  destruct (set_bits_control C2 UART_C2_TIE_MASK d eq_refl) as (d1 & H1 & [Hc (bs & Hbs & Hline) Ht _]).
  rewrite (bind_ok _ _ _ _ _ (on_hw_run _ _ _ _ _ m u H1)) in Hrun. injection Hrun as <- <-.
  rewrite decide_True by done. cbn [set_ctl ctl rxq txd room line_in] in *.
  pose proof tx_masks as (Hm1 & Hm2 & Hm3 & Hd1 & Hd2 & Hd3).
  pose proof (wf_idle _ Hw Hi) as Hz. cbn in Hz.
  assert (has (ctl (uview d) C2) UART_C2_TCIE_MASK = false) as Hno.
  { destruct (has (ctl (uview d) C2) UART_C2_TCIE_MASK) eqn:E; [|done].
    destruct (wf_tcie _ Hw E) as [_ E']. cbn in E'. congruence. }
  split.
  - destruct Hw. split; unfold c2_of, ring_bytes in *; cbn in *; rewrite ?Hc; cbn; try done.
    + by destruct wf_ring0; split.
    + lia.
    + rewrite decide_True by done. rewrite has_lor_keep by done. by rewrite Hno.
    + intros _. rewrite decide_True by done. apply has_lor; lia.
  - exists []. rewrite app_nil_r. split; [done|]. intros _. exists bs. split; [exact Hline|]. cbn. by rewrite Hbs.
  - unfold pending_tx. cbn. rewrite Ht, Hz. done.
Qed.

(** Giving up the request leaves the ring buffer to go on. *)
Lemma abort_keeps s s' : wf s -> UART_TransferAbortReceive s = Ok (tt, s') -> keeps s [] [] s'.
Proof.
  destruct s as [d h m u]. intros Hw. unfold UART_TransferAbortReceive. rewrite bind_handle.
  rewrite (proj2 (Z.eqb_neq (rxRingBuffer h) 0)) by apply (wf_ring _ Hw). rewrite bind_ret, bind_handle, bind_set_h.
  intros [= <-]. pose proof (wf_apart _ Hw) as Hap. unfold request_apart in Hap. cbn in Hap. split.
  - destruct Hw. split; unfold ring_bytes, c2_of in *; cbn in *; try done; try lia.
    + by destruct wf_ring0; split.
    + by left.
    + unfold request_apart. cbn. lia.
    + intros x Hx. split; [by apply wf_tx_apart0|]. unfold clear_of_request. cbn. lia.
  - exists []. rewrite app_nil_r. split; [done|]. intros _. exists []. by rewrite !app_nil_r.
  - by rewrite app_nil_r.
Qed.

Lemma step_keeps s del acc s' : wf s -> step s del acc s' -> keeps s del acc s'.
Proof.
  intros Hw Hst. destruct Hst.
  - by apply wait_keeps.
  - by apply user_keeps.
  - by eapply irq_keeps.
  - by apply abort_keeps.
  - by eapply receive_keeps.
  - by apply send_keeps.
Qed.

Lemma run_keeps s del acc s' : run s del acc s' -> wf s -> keeps s del acc s'.
Proof.
  induction 1 as [s|s del acc s1 del' acc' s2 Hst Hrun IH]; intros Hw; [by apply keeps_nothing|].
  destruct (step_keeps _ _ _ _ Hw Hst) as [Hw1 (l1 & Hl1 & Hs1) Ht1].
  destruct (IH Hw1) as [Hw2 (l2 & Hl2 & Hs2) Ht2]. split; [done| |].
  - exists (l1 ++ l2). rewrite Hl2, Hl1, app_assoc. split; [done|].
    rewrite elem_of_app. intros Hno.
    destruct Hs1 as (a1 & Hi1 & Ha1); [tauto|]. destruct Hs2 as (a2 & Hi2 & Ha2); [tauto|].
    exists (a1 ++ a2). split; [by rewrite Hi2, Hi1, app_assoc|]. rewrite <- app_assoc, Ha2. rewrite !app_assoc in *. by rewrite Ha1.
  - rewrite Ht2, app_assoc, Ht1. by rewrite <- !app_assoc.
Qed.
End Stream.

(** ** Starting *)

Section Start.
Context {D : Type} `{UL : UartLaws D}.
Abbreviation state := (uart_state D (list status_t)).

Lemma enable_rx_errors_run d :
  exists d', enable_rx_errors d = Ok (tt, d') /\ ctl (uview d') C2 = ctl (uview d) C2 /\
    txd (uview d') = txd (uview d).
Proof.
  unfold enable_rx_errors, if_parity.
  destruct (set_bits_control C3 (Z.lor UART_C3_ORIE_MASK UART_C3_FEIE_MASK) d eq_refl) as (d1 & H1 & [Hc1 _ Ht1 _]).
  rewrite (bind_ok _ _ _ _ _ H1). destruct (rd_control C1 d1 eq_refl) as (d2 & H2 & [Hc2 _ Ht2 _]).
  rewrite (bind_ok _ _ _ _ _ H2). cbn in *. destruct (has UART_C1_PE_MASK _).
  - destruct (set_bits_control C3 UART_C3_PEIE_MASK d2 eq_refl) as (d3 & H3 & [Hc3 _ Ht3 _]). cbn in *.
    exists d3. split; [done|]. rewrite Hc3, Hc2, Hc1, !decide_False by done. split; congruence.
  - exists d2. split; [done|]. rewrite Hc2, Hc1, decide_False by done. split; congruence.
Qed.

Lemma start_run ring size d h m u :
  ring <> 0 ->
  exists d', UART_TransferStartRingBuffer ring size (UartState d h m u)
      = Ok (tt, UartState d' (with_ring ring size 0 0 h) m u : state) /\
    ctl (uview d') C2 = Z.lor (ctl (uview d) C2) UART_C2_RIE_MASK /\ txd (uview d') = txd (uview d).
Proof.
  intros Hr. unfold UART_TransferStartRingBuffer. rewrite (proj2 (Z.eqb_neq ring 0)) by lia. cbn [negb].
  rewrite assert_true, bind_ret, bind_set_h by done.
  destruct (set_bits_control C2 UART_C2_RIE_MASK d eq_refl) as (d1 & H1 & [Hc1 _ Ht1 _]).
  destruct (enable_rx_errors_run d1) as (d2 & H2 & Hc2 & Ht2). exists d2. split.
  - apply on_hw_run. by rewrite (bind_ok _ _ _ _ _ H1).
  - cbn in *. rewrite Hc2, Ht2, Hc1, decide_True by done. by split.
Qed.
End Start.

(** ** A concrete program: its log is appended to by the callback *)

Definition log_callback {D} (st : status_t) : M (uart_state D (list status_t)) unit :=
  modify (fun s => UartState (u_hw s) (u_h s) (u_mem s) (u_user s ++ [st])).
Lemma log_callback_quiet {D} : Quiet (log_callback (D := D)) logged.
Proof. done. Qed.

Definition demo_hw (line : list Z) : uart_dev := UartDev (fun _ => 0) line [] [].
Definition demo_state (line : list Z) : uart_state uart_dev (list status_t) :=
  UartState (demo_hw line) (with_ring 0x100 4 0 0 (UartHandle 0 0 0 0 0 0 0 0 0 0 true kUART_TxIdle kUART_RxIdle))
    (fun _ => 0) [].

(** ** Claims *)

(** [UART_TransferCreateHandle] and [UART_TransferStartRingBuffer], with a
    buffer of 2 to 2^16 bytes, return in a state that satisfies the driver's
    invariant, with an empty ring buffer, nothing to send, and the receive
    interrupt enabled.  The handle that was there before is irrelevant. *)
Theorem uart_start_establishes_invariant {D} `{UL : UartLaws D} ring size d h m u :
  0 < ring -> 2 <= size <= 2 ^ 16 -> 0 < UART_C2_RIE_MASK -> has (ctl (uview d) C2) UART_C2_TCIE_MASK = false ->
  exists s', bind (UART_TransferCreateHandle true) (fun _ => UART_TransferStartRingBuffer ring size)
      (UartState d h m u) = Ok (tt, s') /\
    wf s' /\ ring_bytes s' = [] /\ pending_tx s' = [] /\ u_mem s' = m /\
    has (c2_of s') UART_C2_RIE_MASK = true.
Proof.
  intros Hr Hs Hrie Htc. unfold UART_TransferCreateHandle. rewrite bind_set_h.
  destruct (start_run ring size d (UartHandle 0 0 0 0 0 0 0 0 0 0 true kUART_TxIdle kUART_RxIdle) m u)
    as (d' & Hrun & Hc & Ht); [lia|].
  eexists. split; [exact Hrun|]. pose proof tx_masks as (_ & _ & Hm & _ & Hd & _).
  split; [|split_and!; try done].
  - split; unfold c2_of, ring_bytes; cbn [u_h u_hw u_mem]; rewrite ?Hc; cbn; try done; try lia.
    + split; cbn; lia.
    + by left.
    + unfold request_apart. cbn. lia.
    + rewrite has_lor_keep by done. by rewrite Htc.
  - unfold c2_of. cbn. rewrite Hc. apply has_lor; lia.
Qed.

Lemma uart_start_establishes_invariant_witness :
  exists s', bind (UART_TransferCreateHandle true) (fun _ => UART_TransferStartRingBuffer 0x100 4)
      (UartState (demo_hw []) (with_ring 7 7 7 7 null_handle) (fun _ => 0) [kStatus_Fail]) = Ok (tt, s') /\
    wf (UL := uart_dev_laws true true) s' /\ ring_bytes s' = [] /\ pending_tx s' = [] /\
    u_mem s' = (fun _ => 0) /\ has (c2_of (UL := uart_dev_laws true true) s') 0x20 = true.
Proof.
  apply (uart_start_establishes_invariant (UL := uart_dev_laws true true) 0x100 4 (demo_hw [])
    (with_ring 7 7 7 7 null_handle) (fun _ => 0) [kStatus_Fail]); done || lia.
Defined.

(** C3: The receive stream.  In any run of the driver from its invariant --
    interrupts, receive and send requests, receive requests given up, time
    passing, the user writing its own memory, in any order -- during which the
    callback is never told of a ring buffer overrun and the status of no
    interrupt reports a receive error or an idle line that is enabled: the
    bytes delivered into the user's buffers, followed by those in the ring
    buffer and those still in the receiver, are the bytes that were in the ring
    buffer and the receiver at the start followed by those that came in on the
    line since.  Nothing is lost, duplicated or reordered; and the invariant
    holds at the end. *)
Theorem uart_receive_stream {D} `{UL : UartLaws D}
    (user_callback : status_t -> M (uart_state D (list status_t)) unit) s del acc s' :
  Quiet user_callback logged -> wf s -> run user_callback s del acc s' ->
  wf s' /\ exists log, u_user s' = u_user s ++ log /\
    (kStatus_UART_RxRingBufferOverrun ∉ log -> exists arrived,
       line_in (uview (u_hw s')) = line_in (uview (u_hw s)) ++ arrived /\
       del ++ ring_bytes s' ++ rxq (uview (u_hw s'))
       = ring_bytes s ++ rxq (uview (u_hw s)) ++ arrived).
Proof. intros Hq Hw Hr. destruct (run_keeps _ Hq _ _ _ _ Hr Hw). done. Qed.

(** C4: The send stream.  In any run from the invariant, the bytes handed to
    the transmitter followed by those pending are what they were at the start
    followed by the bytes of the requests that were accepted, in order. *)
Theorem uart_send_stream {D} `{UL : UartLaws D}
    (user_callback : status_t -> M (uart_state D (list status_t)) unit) s del acc s' :
  Quiet user_callback logged -> wf s -> run user_callback s del acc s' ->
  txd (uview (u_hw s')) ++ pending_tx s' = txd (uview (u_hw s)) ++ pending_tx s ++ acc.
Proof. intros Hq Hw Hr. destruct (run_keeps _ Hq _ _ _ _ Hr Hw). done. Qed.

(** The concrete run of the witnesses: two bytes are requested, four bytes
    arrive, an interrupt delivers two and queues two, three bytes are sent. *)
Definition after {S A} (m : M S A) (s : S) : S := match m s with Ok (_, s') => s' | Err _ => s end.
Definition W0 := demo_state [].
#[local] Existing Instance uart_dev_laws.
Abbreviation XD := (demo_features true true).
Definition W1 := after (UART_TransferReceiveNonBlocking log_callback 0x200 2) W0.
Definition W1b := UartState (UartDev (d_ctl (u_hw W1)) [11; 12; 13; 14] [] []) (u_h W1) (u_mem W1) (u_user W1).
Definition user_memory (m : Z -> Z) (x : Z) : Z :=
  if x =? 0x300 then 21 else if x =? 0x301 then 22 else if x =? 0x302 then 23 else m x.
Definition W2 := UartState (u_hw W1b) (u_h W1b) (user_memory (u_mem W1b)) (u_user W1b).
Definition W3 := after (UART_TransferSendNonBlocking (F := uart_fields) 0x300 3) W2.
Definition W4 := after (UART_TransferHandleIRQ (X := XD) log_callback 9) W3.

Definition W5 := after (UART_TransferReceiveNonBlocking log_callback 0x210 1) W4.

Lemma W0_wf : wf (UL := uart_dev_laws true true) W0.
Proof.
  split; try done; cbn; try lia.
  - by left.
  - unfold request_apart. cbn. lia.
Qed.

Lemma after_ok {S A} (m : M S A) s a : match m s with Ok (x, _) => x = a | Err _ => False end ->
  m s = Ok (a, after m s).
Proof. unfold after. destruct (m s) as [[x s']|]; [by intros ->|done]. Qed.

Ltac demo_run_step m s a :=
  let H := fresh in
  assert (match m s with Ok (x, _) => x = a | Err _ => False end) as H by (vm_compute; reflexivity);
  exact (after_ok m s a H).
Lemma W1_ok : UART_TransferReceiveNonBlocking log_callback 0x200 2 W0 = Ok ((kStatus_Success, Some 0), W1).
Proof. demo_run_step (UART_TransferReceiveNonBlocking (D := uart_dev) log_callback 0x200 2) W0 (kStatus_Success, Some 0). Qed.
Lemma W3_ok : UART_TransferSendNonBlocking 0x300 3 W2 = Ok (kStatus_Success, W3).
Proof. demo_run_step (UART_TransferSendNonBlocking (D := uart_dev) (U := list status_t) 0x300 3) W2 kStatus_Success. Qed.
Lemma W4_ok : UART_TransferHandleIRQ (X := XD) log_callback 9 W3 = Ok (tt, W4).
Proof. demo_run_step (UART_TransferHandleIRQ (D := uart_dev) (X := XD) log_callback 9) W3 tt. Qed.
Lemma W5_ok : UART_TransferReceiveNonBlocking log_callback 0x210 1 W4 = Ok ((kStatus_Success, Some 1), W5).
Proof. demo_run_step (UART_TransferReceiveNonBlocking (D := uart_dev) log_callback 0x210 1) W4 (kStatus_Success, Some 1). Qed.

(** The handle at the points of the run where a buffer is handed over. *)
Lemma demo_h1 : u_h W1 = UartHandle 0 0 0 0x200 2 2 0x100 4 0 0 true kUART_TxIdle kUART_RxBusy.
Proof. by vm_compute. Qed.
Lemma demo_h2 : u_h W2 = u_h W1.
Proof. done. Qed.
Lemma demo_h4 : u_h W4 = UartHandle 0x303 0 3 0x202 0 2 0x100 4 2 0 true kUART_TxIdle kUART_RxIdle.
Proof. by vm_compute. Qed.

Ltac demo_step :=
  rewrite ?demo_h2, ?demo_h1, ?demo_h4;
  try done; try lia; try (right; cbn; lia);
  try (intros ? ?; unfold clear_of_tx, clear_of_ring, clear_of_request; cbn; lia).

(** Two bytes to the request, two to the ring buffer, one of them then asked
    for; three bytes sent. *)
Lemma demo_run_3 : run (UL := uart_dev_laws true true) log_callback W0 [] [21; 22; 23] W3.
Proof.
  apply (run_cons log_callback W0 [] [] W1 [] [21; 22; 23]).
  { refine (step_receive log_callback 0x200 2 W0 W1 kStatus_Success (Some 0) _ _ _ _ W1_ok); demo_step. }
  apply (run_cons log_callback W1 [] [] W1b [] [21; 22; 23]).
  { apply (step_wait log_callback (u_hw W1) (u_hw W1b) (u_h W1) (u_mem W1) (u_user W1)).
    split; try done. by exists [11; 12; 13; 14]. }
  apply (run_cons log_callback W1b [] [] W2 [] [21; 22; 23]).
  { apply (step_user log_callback (u_hw W1b) (u_h W1b) (u_mem W1b)).
    intros x Hx. change (u_h W1b) with (u_h W1) in Hx. rewrite demo_h1 in Hx.
    unfold clear_of_ring, clear_of_request, clear_of_tx in Hx. cbn in Hx. unfold user_memory.
    destruct (Z.eqb_spec x 0x300), (Z.eqb_spec x 0x301), (Z.eqb_spec x 0x302); (done || lia). }
  apply (run_cons log_callback W2 [] [21; 22; 23] W3 [] []); [|constructor].
  refine (step_send log_callback 0x300 3 W2 W3 kStatus_Success _ _ _ W3_ok); demo_step.
Qed.

Lemma demo_status : UART_GetStatusFlags (X := XD) (u_hw W3) = Ok (0xE0, u_hw W3).
Proof. by vm_compute. Qed.
Lemma demo_clean : clean_status (c2_of (UL := uart_dev_laws true true) W3) 0xE0.
Proof. vm_compute. auto. Qed.

Lemma demo_run_5 : run (UL := uart_dev_laws true true) log_callback W3 [11; 12; 13] [] W5.
Proof.
  apply (run_cons log_callback W3 [11; 12] [] W4 [13] []).
  { replace [11; 12] with (bytes_at (u_mem W4) (rxData (u_h W3)) (Z.to_nat (rxDataSize (u_h W3) - rxDataSize (u_h W4))))
      by by vm_compute.
    exact (step_irq log_callback 9 W3 W4 0xE0 (u_hw W3) demo_status demo_clean W4_ok). }
  apply (run_cons log_callback W4 [13] [] W5 [] []); [|constructor].
  replace [13] with (bytes_at (u_mem W5) 0x210 (Z.to_nat (default 0 (Some 1)))) by by vm_compute.
  refine (step_receive log_callback 0x210 1 W4 W5 kStatus_Success (Some 1) _ _ _ _ W5_ok); demo_step.
Qed.

Lemma W3_wf : wf (UL := uart_dev_laws true true) W3.
Proof. exact (keeps_wf _ _ _ _ (run_keeps log_callback log_callback_quiet _ _ _ _ demo_run_3 W0_wf)). Qed.
Lemma W4_wf : wf (UL := uart_dev_laws true true) W4.
Proof.
  exact (keeps_wf _ _ _ _ (irq_keeps log_callback log_callback_quiet 9 W3 W4 0xE0 (u_hw W3) W3_wf
    demo_status demo_clean W4_ok)).
Qed.

Lemma demo_log : kStatus_UART_RxRingBufferOverrun ∉ [kStatus_UART_RxIdle; kStatus_UART_TxIdle; kStatus_UART_RxIdle].
Proof. rewrite !not_elem_of_cons. split; [done|split; [done|split; [done|apply not_elem_of_nil]]]. Qed.

(** The four bytes of the line: three delivered, one in the ring buffer. *)
Lemma uart_receive_stream_witness :
  [11; 12; 13] ++ ring_bytes W5 ++ rxq (uview (UartLaws := uart_dev_laws true true) (u_hw W5)) =
  line_in (uview (UartLaws := uart_dev_laws true true) (u_hw W5)).
Proof.
  destruct (uart_receive_stream (UL := uart_dev_laws true true) log_callback W3 [11; 12; 13] [] W5
    log_callback_quiet W3_wf demo_run_5) as (_ & log & Hlog & H).
  assert (E : u_user W5 = [kStatus_UART_RxIdle; kStatus_UART_TxIdle; kStatus_UART_RxIdle] /\ u_user W3 = [])
    by (split; vm_compute; reflexivity).
  destruct E as [E5 E3]. rewrite E5, E3, app_nil_l in Hlog. subst log.
  destruct (H demo_log) as (arrived & Hi & H').
  etransitivity; [exact H'|]. etransitivity; [|symmetry; exact Hi].
  rewrite app_assoc. f_equal.
Defined.

Lemma uart_send_stream_witness :
  txd (uview (UartLaws := uart_dev_laws true true) (u_hw W3)) ++ pending_tx W3 = [] ++ [] ++ [21; 22; 23].
Proof.
  exact (uart_send_stream (UL := uart_dev_laws true true) log_callback W0 [] [21; 22; 23] W3
    log_callback_quiet W0_wf demo_run_3).
Defined.



(** A receive request from the invariant.  While another is pending it is
    refused and nothing changes.  Otherwise it succeeds: the oldest bytes of
    the ring buffer, as many as are there and asked for, are in the buffer and
    gone from the ring buffer, in order, and memory elsewhere is as it was; if
    they are all that was asked for the callback is told, and if not the ring
    buffer is empty and the rest of the buffer is the pending request. *)
Theorem uart_receive_request_spec {D} `{UL : UartLaws D}
    (user_callback : status_t -> M (uart_state D (list status_t)) unit) s data size :
  Quiet user_callback logged -> wf s -> data <> 0 -> 0 < size < 2 ^ 32 -> apart (u_h s) data size ->
  (rxState (u_h s) = kUART_RxBusy ->
     UART_TransferReceiveNonBlocking user_callback data size s = Ok ((kStatus_UART_RxBusy, None), s)) /\
  (rxState (u_h s) <> kUART_RxBusy ->
     let k := Nat.min (Z.to_nat size) (length (ring_bytes s)) in
     exists s', UART_TransferReceiveNonBlocking user_callback data size s
         = Ok ((kStatus_Success, Some (Z.of_nat k)), s') /\
       bytes_at (u_mem s') data k = take k (ring_bytes s) /\ ring_bytes s' = drop k (ring_bytes s) /\
       frame (u_mem s) (u_mem s') data (Z.of_nat k) /\
       (Z.of_nat k = size -> u_user s' = u_user s ++ [kStatus_UART_RxIdle] /\ rxDataSize (u_h s') = 0 /\
          rxState (u_h s') = kUART_RxIdle) /\
       (Z.of_nat k < size -> u_user s' = u_user s /\ ring_bytes s' = [] /\
          rxData (u_h s') = data + Z.of_nat k /\ rxDataSize (u_h s') = size - Z.of_nat k /\
          rxState (u_h s') = kUART_RxBusy)).
Proof.
  intros Hq Hw Hd Hs Hap. destruct s as [d h m u]. cbn [u_h u_mem u_user] in *. split.
  - intros Hb. unfold UART_TransferReceiveNonBlocking.
    rewrite (proj2 (Z.eqb_neq data 0)), (proj2 (Z.eqb_neq size 0)) by lia. cbn [negb].
    rewrite !assert_true, !bind_ret, bind_handle by done. by rewrite decide_True.
  - intros Hb. change (ring_bytes (UartState d h m u)) with (queue h m).
    set (k := Nat.min (Z.to_nat size) (length (queue h m))).
    destruct (receive_run user_callback logged Hq data size d h m u (wf_ring _ Hw) Hb Hd Hs Hap)
      as (tl & m' & d' & Hr & Hok & Hqu & Hby & Hf & _). fold k in Hr, Hqu, Hby, Hf.
    pose proof (wf_rx _ Hw) as Hrx. cbn in Hrx. pose proof (wf_callback _ Hw) as Hcb. cbn in Hcb.
    eexists. split; [exact Hr|]. unfold ring_bytes. cbn [u_h u_mem u_user].
    split; [exact Hby|]. split; [rewrite <- Hqu; by destruct (decide _)|]. split; [exact Hf|]. split.
    + intros E. rewrite !decide_True by done. unfold told. rewrite Hcb. cbn.
      destruct Hrx as [[? ?]|[? _]]; done.
    + intros E. rewrite !decide_False by lia. split; [done|]. split; [|done].
      change (queue (with_tail tl h) m' = []). rewrite Hqu. apply nil_length_inv. rewrite length_drop.
      subst k. unfold ring_bytes in *. cbn in *. lia.
Qed.

Lemma uart_receive_request_spec_witness :
  exists s', UART_TransferReceiveNonBlocking log_callback 0x210 1 W4 = Ok ((kStatus_Success, Some 1), s') /\
    bytes_at (u_mem s') 0x210 1 = [13] /\ ring_bytes s' = [14].
Proof.
  destruct (uart_receive_request_spec (UL := uart_dev_laws true true) log_callback W4 0x210 1) as [_ H].
  - exact log_callback_quiet.
  - exact W4_wf.
  - done.
  - lia.
  - rewrite demo_h4. right. cbn. lia.
  - destruct H as (s' & H1 & H2 & H3 & _); [by rewrite demo_h4|].
    assert (ring_bytes W4 = [13; 14]) as E by by vm_compute. rewrite E in *.
    exists s'. auto.
Defined.

(** The idle notification of the transmitter comes too early.  The handler
    reads the status once, hands the last bytes over, enables the completion
    interrupt, and then tests the completion flag of the status read before:
    from an idle line, the whole of a transfer that fits the transmitter is
    reported complete, and the state set to idle, in the same interrupt that
    wrote its bytes. *)
Theorem uart_tx_idle_reported_early {D} `{UL : UartLaws D}
    (user_callback : status_t -> M (uart_state D (list status_t)) unit) fuel s st d0 :
  Quiet user_callback logged -> wf s -> UART_GetStatusFlags (u_hw s) = Ok (st, d0) ->
  clean_status (c2_of s) st -> has UART_S1_TC_MASK st = true -> has st UART_S1_TDRE_MASK = true ->
  txDataSize (u_h s) = 1 -> txState (u_h s) = kUART_TxBusy ->
  exists s', UART_TransferHandleIRQ user_callback fuel s = Ok (tt, s') /\
    txd (uview (u_hw s')) = txd (uview (u_hw s)) ++ [u_mem s (txData (u_h s))] /\
    txState (u_h s') = kUART_TxIdle /\ exists l, u_user s' = l ++ [kStatus_UART_TxIdle].
Proof.
  intros Hq Hw Hst Hcl Htc Htd H1 Hbusy. destruct s as [d h m u]. cbn [u_hw u_h u_mem u_user] in *.
  destruct (irq_run user_callback logged Hq fuel d h m u st d0 Hst Hcl (wf_ring _ Hw) (wf_rx_size _ Hw)
    (wf_apart _ Hw) (wf_tx_size _ Hw)) as
    (up & rest & n & d' & h1 & m' & u1 & h' & u' & arr & Hr & R & _ & _ & _ & Hn & Htx & Hprog & _ & Hend).
  { destruct (wf_rx _ Hw) as [[E _]|[E _]]; auto. }
  assert (n = 1) as ->.
  { specialize (Hprog Htd). unfold c2_of in *. pose proof (wf_tie _ Hw) as Ht. cbn in Ht.
    specialize (Hprog (Ht ltac:(lia)) ltac:(lia)). lia. }
  exists (UartState d' h' m' u'). split; [exact Hr|]. cbn [u_hw u_h u_mem u_user].
  rewrite Htc in Hend. cbn zeta in Hend. rewrite H1 in Hend. change (c2_after 1 1 (ctl (uview d) C2)) with
    (Z.lor (bic8 (ctl (uview d) C2) UART_C2_TIE_MASK) UART_C2_TCIE_MASK) in Hend.
  pose proof tx_masks as (_ & Hm & _). rewrite has_lor in Hend by lia. cbn [andb] in Hend.
  destruct Hend as (-> & -> & _). split; [|split; [done|]].
  - rewrite Htx. change (bytes_at m' (txData h) (Z.to_nat 1)) with [m' (txData h)]. do 2 f_equal.
    destruct (wf_tx_apart _ Hw (txData h)) as [Ha1 Ha2]; [cbn; lia|]. cbn in Ha1, Ha2.
    apply (rec_frame R); [|exact Ha1]. pose proof (rec_split R). unfold clear_of_request in Ha2. lia.
  - unfold told. pose proof (wf_callback _ Hw) as Hcb. cbn in Hcb. rewrite Hcb. by eexists.
Qed.

Definition V1 := after (UART_TransferSendNonBlocking (F := uart_fields) 0x300 1) W0.
Lemma V1_ok : UART_TransferSendNonBlocking 0x300 1 W0 = Ok (kStatus_Success, V1).
Proof. demo_run_step (UART_TransferSendNonBlocking (D := uart_dev) (U := list status_t) 0x300 1) W0 kStatus_Success. Qed.
Lemma V1_wf : wf (UL := uart_dev_laws true true) V1.
Proof.
  refine (keeps_wf _ _ _ _ (send_keeps (UL := uart_dev_laws true true) 0x300 1 W0 V1 kStatus_Success W0_wf _ _ _ V1_ok)); [done|lia|].
  intros x Hx. unfold clear_of_ring, clear_of_request. cbn. lia.
Qed.

Lemma uart_tx_idle_reported_early_witness :
  exists s', UART_TransferHandleIRQ (X := XD) log_callback 9 V1 = Ok (tt, s') /\
    d_sent (u_hw s') = [0] /\ txState (u_h s') = kUART_TxIdle /\ exists l, u_user s' = l ++ [kStatus_UART_TxIdle].
Proof.
  apply (uart_tx_idle_reported_early (UL := uart_dev_laws true true) log_callback 9 V1 0xC0 (u_hw V1));
    [exact log_callback_quiet|exact V1_wf|by vm_compute|vm_compute; auto|by vm_compute..].
Defined.

(** The ring buffer's indices have 16 bits but its size does not.  With
    more than 2^16 bytes the indices wrap at 2^16 all the same: when 65536
    bytes have been stored in an empty buffer the driver sees it empty again,
    no overrun having been reported, and all of them are lost. *)
Theorem uart_large_ring_loses_data h :
  2 ^ 16 < rxRingBufferSize h < 2 ^ 32 -> rxRingBufferHead h = 0 -> rxRingBufferTail h = 0 ->
  let store_one h := with_head (next_index h (rxRingBufferHead h)) h in
  UART_TransferGetRxRingBufferLength (Nat.iter (Z.to_nat 65536) store_one h) = 0 /\
  forall k, 0 <= k < 65536 ->
    UART_TransferGetRxRingBufferLength (Nat.iter (Z.to_nat k) store_one h) = k /\
    UART_TransferIsRxRingBufferFull (Nat.iter (Z.to_nat k) store_one h) = false.
Proof.
  intros Hs Hh Ht store_one.
  assert (forall k, Nat.iter k store_one h = with_head (Z.of_nat k mod 2 ^ 16) h) as Hit.
  { induction k as [|k IH].
    - change (Z.of_nat 0 mod 2 ^ 16) with 0. rewrite <- Hh. by destruct h.
    - rewrite Nat.iter_succ, IH. unfold store_one, next_index. cbn.
      pose proof (Z.mod_pos_bound (Z.of_nat k) (2 ^ 16) ltac:(lia)).
      rewrite (proj2 (Z.eqb_neq _ _)) by lia. unfold with_head, with_ring. cbn. f_equal.
      unfold wrap. rewrite Z.add_mod_idemp_l by lia. f_equal. lia. }
  split.
  - rewrite Hit, Z2Nat.id by lia. change (65536 mod 2 ^ 16) with 0.
    unfold UART_TransferGetRxRingBufferLength. cbn. by rewrite Ht.
  - intros k Hk. rewrite Hit, Z2Nat.id, Z.mod_small by lia.
    assert (UART_TransferGetRxRingBufferLength (with_head k h) = k) as E.
    { unfold UART_TransferGetRxRingBufferLength. cbn. rewrite Ht.
      rewrite (proj2 (Z.ltb_ge k 0)), Z.sub_0_r, wrap_small by (pow2; lia). done. }
    split; [done|]. unfold UART_TransferIsRxRingBufferFull. rewrite E. cbn.
    rewrite wrap_small by (pow2; lia). apply Z.eqb_neq. lia.
Qed.

Lemma uart_large_ring_loses_data_witness :
  let h := with_ring 0x100 70000 0 0 null_handle in
  let store_one h := with_head (next_index h (rxRingBufferHead h)) h in
  UART_TransferGetRxRingBufferLength (Nat.iter (Z.to_nat 65536) store_one h) = 0.
Proof. apply (uart_large_ring_loses_data (with_ring 0x100 70000 0 0 null_handle)); cbn; lia. Defined.
