(* ===== verification/LinBytes.v ===== *)
(** * The LIN driver: protected identifiers, checksums, timeout counts (drivers/lin)

    The computations of fsl_lin.c that touch no peripheral.  A frame
    identifier of six bits is sent with two parity bits; a frame ends in the
    inverted sum of its bytes, computed with end-around carry, which the
    reference [carry_sum] gives in closed form. *)

From stdpp Require Import base list numbers tactics.
From Stdlib Require Import ZArith Lia.
From S2P Require Import Prelude.

Open Scope Z_scope.
Open Scope prog_scope.

Definition MAKE_PARITY : Z := 0.
Definition CHECK_PARITY : Z := 1.
Definition LIN_TIME_OUT_UNIT_US : Z := 500.

(** ** Parity *)

Definition BIT (A B : Z) : outcome Z :=
  if B <? 8 then Ok (Z.land (Z.shiftr A B) 1) else Err AssertFailed.

Definition LIN_ProcessParity (PID typeAction : Z) : outcome Z :=
  b0 <-! BIT PID 0 ;; b1 <-! BIT PID 1 ;; b2 <-! BIT PID 2 ;; b3 <-! BIT PID 3 ;;
  b4 <-! BIT PID 4 ;; b5 <-! BIT PID 5 ;;
  let p0 := u8 (Z.lxor (u8 (Z.lxor (u8 (Z.lxor b0 b1)) b2)) b4) in
  let p1 := u8 (Z.lnot (u8 (Z.lxor (u8 (Z.lxor (u8 (Z.lxor b1 b3)) b4)) b5))) in
  let parity := u8 (Z.lor (u8 (Z.shiftl p0 6)) (u8 (Z.shiftl p1 7))) in
  Ok (if typeAction =? CHECK_PARITY then
        if negb (Z.land PID 192 =? parity) then 255 else u8 (Z.land PID 63)
      else u8 (Z.lor PID parity)).

(** ** Checksum *)

(** The loop over [n] bytes from [buffer] on. *)
Fixpoint checksum_loop (mem : Z -> Z) (n : nat) (buffer checksum : Z) : Z :=
  match n with
  | O => checksum
  | S n =>
      let c := u16 (checksum + mem buffer) in
      checksum_loop mem n (buffer + 1) (if 255 <? c then u16 (c - 255) else c)
  end.

(** Identifiers 0x3C and 0x3D carry diagnostic frames, whose checksum leaves
    the identifier out. *)
Definition LIN_MakeChecksumByte (mem : Z -> Z) (buffer sizeBuffer PID : Z) : outcome Z :=
  if PID =? 0 then Err AssertFailed else
  let checksum := if negb (60 =? PID) && negb (125 =? PID) then PID else 0 in
  Ok (u8 (Z.lnot (u8 (checksum_loop mem (Z.to_nat sizeBuffer) buffer checksum)))).

(** ** Timeout counts, in units of 500 microseconds *)

Definition LIN_CalcMaxHeaderTimeoutCnt (baudRate : Z) : outcome Z :=
  if negb (baudRate <=? UINT32_MAX / LIN_TIME_OUT_UNIT_US) then Err AssertFailed else
  q <-! udiv (u32 (14 * 2 * 1000000)) (u32 (LIN_TIME_OUT_UNIT_US * baudRate)) ;;
  Ok (u32 (q + 1)).

Definition LIN_CalcMaxResTimeoutCnt (baudRate size : Z) : outcome Z :=
  if negb (baudRate <=? UINT32_MAX / LIN_TIME_OUT_UNIT_US) then Err AssertFailed else
  q <-! udiv (u32 (u32 (14 * (1 + size)) * 1000000)) (u32 (LIN_TIME_OUT_UNIT_US * baudRate)) ;;
  Ok (u32 (q + 1)).

(** ** The identifier *)

(** Parity bits of an identifier, bit by bit. *)
Definition P0 (id : Z) : bool :=
  xorb (xorb (Z.testbit id 0) (Z.testbit id 1)) (xorb (Z.testbit id 2) (Z.testbit id 4)).
Definition P1 (id : Z) : bool :=
  negb (xorb (xorb (Z.testbit id 1) (Z.testbit id 3)) (xorb (Z.testbit id 4) (Z.testbit id 5))).
Definition protected_id (id : Z) : Z := id + 64 * Z.b2z (P0 id) + 128 * Z.b2z (P1 id).

(** A property of all bytes, checked one by one. *)
Lemma all_bytes (P : Z -> bool) :
  forallb P (seqZ 0 256) = true -> forall b, 0 <= b < 256 -> P b = true.
Proof.
  rewrite forallb_forall. intros H b Hb. apply H.
  apply list_elem_of_In, elem_of_seqZ. lia.
Qed.

Definition outcome_eqb (x y : outcome Z) : bool :=
  match x, y with Ok a, Ok b => a =? b | _, _ => false end.

Lemma outcome_eqb_eq x y : outcome_eqb x y = true -> x = y.
Proof. destruct x, y; simpl; try discriminate. by intros ->%Z.eqb_eq. Qed.

Lemma parity_make id :
  0 <= id < 64 -> LIN_ProcessParity id MAKE_PARITY = Ok (protected_id id).
Proof.
  intros Hid. apply outcome_eqb_eq.
  assert (H := all_bytes
    (fun i => if i <? 64 then outcome_eqb (LIN_ProcessParity i MAKE_PARITY) (Ok (protected_id i))
              else true) ltac:(vm_compute; reflexivity) id ltac:(lia)).
  cbv beta in H. by rewrite (proj2 (Z.ltb_lt id 64)) in H by lia.
Qed.

Lemma parity_check pid :
  0 <= pid < 256 ->
  LIN_ProcessParity pid CHECK_PARITY =
    Ok (if pid =? protected_id (pid mod 64) then pid mod 64 else 255).
Proof.
  intros Hid. apply outcome_eqb_eq.
  exact (all_bytes (fun i => outcome_eqb (LIN_ProcessParity i CHECK_PARITY)
    (Ok (if i =? protected_id (i mod 64) then i mod 64 else 255)))
    ltac:(vm_compute; reflexivity) pid Hid).
Qed.

Lemma protected_id_byte id : 0 <= id < 64 -> id <= protected_id id < 256.
Proof. unfold protected_id. intros. destruct (P0 id), (P1 id); simpl; lia. Qed.

(** Identifier 0 has the odd parity bit. *)
Lemma protected_id_range id : 0 <= id < 64 -> 0 < protected_id id < 256.
Proof.
  intros H. assert (Hp := protected_id_byte id H). split; [|lia].
  destruct (Z.eq_dec id 0) as [->|]; [by vm_compute|lia].
Qed.

Lemma protected_id_mod id : 0 <= id < 64 -> protected_id id mod 64 = id.
Proof. unfold protected_id. intros. destruct (P0 id), (P1 id); simpl; zlia. Qed.

(** The identifier byte of a frame is the identifier with its two parity
    bits; checking it gives the identifier back; a received byte is accepted
    iff it is the identifier byte of its low six bits, and otherwise answered
    with 0xFF, which is no identifier.  Any single flipped bit is noticed. *)
Theorem lin_parity_roundtrip (id : Z) (Hid : 0 <= id < 64) :
  LIN_ProcessParity id MAKE_PARITY = Ok (protected_id id) /\
  LIN_ProcessParity (protected_id id) CHECK_PARITY = Ok id /\
  (forall pid, 0 <= pid < 256 ->
    (LIN_ProcessParity pid CHECK_PARITY = Ok id <-> pid = protected_id id) /\
    (pid <> protected_id (pid mod 64) -> LIN_ProcessParity pid CHECK_PARITY = Ok 255)) /\
  (forall k, 0 <= k < 8 ->
    LIN_ProcessParity (Z.lxor (protected_id id) (2 ^ k)) CHECK_PARITY = Ok 255).
Proof.
  assert (Hb := protected_id_byte id Hid). assert (Hm := protected_id_mod id Hid).
  split; [by apply parity_make|]. split.
  { rewrite parity_check, Hm, Z.eqb_refl by lia. done. }
  split.
  - intros pid Hp. rewrite (parity_check pid Hp). split.
    + destruct (Z.eqb_spec pid (protected_id (pid mod 64))) as [E|E].
      * split; [|intros ->; by rewrite Hm]. intros [= Hq]. by rewrite <- Hq.
      * split; [intros [= Hq]; lia|]. intros ->. by rewrite Hm in E.
    + intros E. by rewrite (proj2 (Z.eqb_neq _ _)) by done.
  - intros k Hk.
    assert (H := all_bytes (fun i => if i <? 64 then
        forallb (fun k => outcome_eqb (LIN_ProcessParity (Z.lxor (protected_id i) (2 ^ k)) CHECK_PARITY)
          (Ok 255)) (seqZ 0 8) else true) ltac:(vm_compute; reflexivity) id ltac:(lia)).
    cbv beta in H. rewrite (proj2 (Z.ltb_lt id 64)), forallb_forall in H by lia.
    apply outcome_eqb_eq, H, list_elem_of_In, elem_of_seqZ. lia.
Qed.

Lemma lin_parity_roundtrip_witness :
  protected_id 29 = 221 /\ LIN_ProcessParity 221 CHECK_PARITY = Ok 29 /\
  LIN_ProcessParity (Z.lxor 221 (2 ^ 3)) CHECK_PARITY = Ok 255.
Proof.
  assert (H := lin_parity_roundtrip 29 ltac:(lia)). destruct H as (_ & H1 & _ & H2).
  split; [reflexivity|]. split; [exact H1|exact (H2 3 ltac:(lia))].
Defined.

(** ** The checksum *)

(** [n] bytes of memory from [a] on, and their sum. *)
Fixpoint bytes_of (mem : Z -> Z) (n : nat) (a : Z) : list Z :=
  match n with O => [] | S n => mem a :: bytes_of mem n (a + 1) end.
Definition sum (l : list Z) : Z := foldr Z.add 0 l.

(** Sum with end-around carry: the value is kept in 1..255 once it is not 0,
    by dropping multiples of 255. *)
Definition carry_sum (s : Z) : Z := if s =? 0 then 0 else (s - 1) mod 255 + 1.

(** What enters the sum before the data bytes. *)
Definition checksum_start (PID : Z) : Z := if (PID =? 60) || (PID =? 125) then 0 else PID.

(** The checksum byte of a list of bytes. *)
Definition frame_checksum (PID : Z) (bytes : list Z) : Z :=
  255 - carry_sum (checksum_start PID + sum bytes).

Definition byte (b : Z) : Prop := 0 <= b < 256.

Lemma carry_sum_range s : 0 <= s -> 0 <= carry_sum s < 256.
Proof. unfold carry_sum. intros. destruct (Z.eqb_spec s 0); zlia. Qed.

Lemma carry_sum_byte s : 0 <= s < 256 -> carry_sum s = s.
Proof. unfold carry_sum. intros. destruct (Z.eqb_spec s 0); zlia. Qed.

(** One step of the loop. *)
Lemma carry_sum_step s b :
  0 <= s -> byte b ->
  let c := carry_sum s + b in
  carry_sum (s + b) = if 255 <? c then c - 255 else c.
Proof.
  unfold carry_sum, byte. cbv zeta. intros Hs Hb.
  destruct (Z.eqb_spec s 0), (Z.eqb_spec (s + b) 0), (Z.ltb_spec 255 (0 + b)); try lia;
    try destruct (Z.ltb_spec 255 ((s - 1) mod 255 + 1 + b)); zlia.
Qed.

Lemma sum_nonneg l : Forall byte l -> 0 <= sum l.
Proof. induction 1 as [|b l Hb _ IH]; simpl; [lia|]. unfold byte in Hb. fold (sum l). lia. Qed.

Lemma checksum_loop_spec mem n a s :
  0 <= s -> Forall byte (bytes_of mem n a) ->
  checksum_loop mem n a (carry_sum s) = carry_sum (s + sum (bytes_of mem n a)).
Proof.
  revert a s. induction n as [|n IH]; intros a s Hs Hb.
  - simpl. by rewrite Z.add_0_r.
  - simpl in Hb |- *. inversion Hb as [|? ? Ha Hl]; subst. fold (sum (bytes_of mem n (a + 1))).
    assert (Hc := carry_sum_range s Hs). assert (Hstep := carry_sum_step s (mem a) Hs Ha).
    cbv zeta in Hstep. unfold byte in Ha.
    rewrite (wrap_small 16 (carry_sum s + mem a)) by (pow2; lia).
    replace (if 255 <? carry_sum s + mem a then u16 (carry_sum s + mem a - 255) else carry_sum s + mem a)
      with (carry_sum (s + mem a)).
    + rewrite IH by (done || lia). f_equal. lia.
    + rewrite Hstep. destruct (Z.ltb_spec 255 (carry_sum s + mem a)); [|done].
      symmetry. apply wrap_small. pow2. lia.
Qed.

Lemma checksum_start_range PID : byte PID -> byte (checksum_start PID).
Proof. unfold checksum_start, byte. intros. by destruct (_ || _); [lia|]. Qed.

Lemma lnot_byte c : byte c -> u8 (Z.lnot (u8 c)) = 255 - c.
Proof. unfold byte, wrap, Z.lnot. intros. pow2. rewrite (Z.mod_small c) by lia. zlia. Qed.

Lemma MakeChecksum_ok mem a n PID :
  0 < PID < 256 -> Forall byte (bytes_of mem n a) ->
  LIN_MakeChecksumByte mem a (Z.of_nat n) PID = Ok (frame_checksum PID (bytes_of mem n a)).
Proof.
  intros Hp Hb. unfold LIN_MakeChecksumByte. rewrite (proj2 (Z.eqb_neq PID 0)) by lia.
  assert (Hs : byte (checksum_start PID)) by (apply checksum_start_range; unfold byte; lia).
  replace (if negb (60 =? PID) && negb (125 =? PID) then PID else 0) with (carry_sum (checksum_start PID)).
  - rewrite Nat2Z.id, checksum_loop_spec by (done || (unfold byte in Hs; lia)).
    rewrite lnot_byte; [done|]. apply carry_sum_range. unfold byte in Hs.
    assert (H := sum_nonneg _ Hb). lia.
  - rewrite carry_sum_byte by done. unfold checksum_start.
    rewrite (Z.eqb_sym 60), (Z.eqb_sym 125). by destruct (PID =? 60), (PID =? 125).
Qed.

(** When one byte differs, the checksums agree only for 0x00 against 0xFF. *)
Lemma carry_sum_inj s x y :
  0 <= s -> byte x -> byte y -> x < y ->
  carry_sum (s + x) = carry_sum (s + y) <-> x = 0 /\ y = 255 /\ s <> 0.
Proof.
  unfold carry_sum, byte. intros Hs Hx Hy Hxy.
  destruct (Z.eqb_spec (s + x) 0), (Z.eqb_spec (s + y) 0); split; intros; zlia.
Qed.

Lemma sum_insert l i x y :
  l !! i = Some x -> sum (<[i := y]> l) = sum l - x + y.
Proof.
  revert i. induction l as [|b l IH]; intros [|i] H; simpl in *; try discriminate.
  - injection H as ->. fold (sum l). lia.
  - fold (sum l) (sum (<[i := y]> l)). rewrite (IH i H). lia.
Qed.

(** The checksum of a frame is the inverted sum, with end-around carry,
    of its bytes and, but for diagnostic frames, the identifier byte: a byte
    that completes the sum to a multiple of 255.  Exchanging one data byte for
    another changes it, except 0x00 for 0xFF in a frame with another non-zero
    byte. *)
Theorem lin_checksum_reference (mem : Z -> Z) (a : Z) (n : nat) (PID : Z)
    (Hp : 0 < PID < 256) (Hb : Forall byte (bytes_of mem n a)) :
  let l := bytes_of mem n a in
  LIN_MakeChecksumByte mem a (Z.of_nat n) PID = Ok (frame_checksum PID l) /\
  byte (frame_checksum PID l) /\
  (checksum_start PID + sum l + frame_checksum PID l) mod 255 = 0 /\
  (forall i x y, l !! i = Some x -> byte y -> x < y ->
    (frame_checksum PID (<[i := y]> l) = frame_checksum PID l <->
     x = 0 /\ y = 255 /\ checksum_start PID + sum l <> 0)).
Proof.
  cbv zeta. split; [by apply MakeChecksum_ok|].
  assert (Hs : byte (checksum_start PID)) by (apply checksum_start_range; unfold byte; lia).
  assert (H0 := sum_nonneg _ Hb). unfold frame_checksum.
  set (l := bytes_of mem n a) in *. unfold byte in Hs.
  assert (Hc := carry_sum_range (checksum_start PID + sum l) ltac:(lia)).
  split; [unfold byte; lia|]. split.
  { unfold carry_sum. destruct (Z.eqb_spec (checksum_start PID + sum l) 0); zlia. }
  intros i x y Hi Hy Hxy. rewrite (sum_insert l i x y Hi).
  assert (Hx : byte x) by (eapply Forall_lookup_1; eassumption).
  assert (Hrest : 0 <= sum l - x).
  { replace (sum l - x) with (sum (<[i := 0]> l)) by (rewrite (sum_insert l i x 0 Hi); lia).
    apply sum_nonneg, Forall_insert; [done|]. unfold byte. lia. }
  assert (H := carry_sum_inj (checksum_start PID + (sum l - x)) x y ltac:(lia) Hx Hy Hxy).
  replace (checksum_start PID + (sum l - x) + x) with (checksum_start PID + sum l) in H by lia.
  replace (checksum_start PID + (sum l - x + y)) with (checksum_start PID + (sum l - x) + y) by lia.
  split.
  - intros E. destruct (proj1 H ltac:(lia)) as (-> & -> & Hne). repeat split; lia.
  - intros (-> & -> & Hne). rewrite (proj2 H); [done|]. repeat split; lia.
Qed.

Lemma lin_checksum_reference_witness :
  let mem := fun a => if a =? 0 then 74 else if a =? 1 then 85 else if a =? 2 then 147 else 229 in
  LIN_MakeChecksumByte mem 0 4 60 = Ok 230 /\
  frame_checksum 60 (<[1%nat := 86]> (bytes_of mem 4 0)) <> 230.
Proof.
  intros mem.
  assert (Hb : Forall byte (bytes_of mem 4 0)) by (repeat constructor; vm_compute; discriminate || reflexivity).
  assert (H := lin_checksum_reference mem 0 4 60 ltac:(lia) Hb). cbv zeta in H.
  destruct H as (H1 & _ & _ & H2). split; [exact H1|].
  intros E. destruct (proj1 (H2 1%nat 85 86 eq_refl ltac:(unfold byte; lia) ltac:(lia)) E) as [E1 _].
  discriminate E1.
Defined.
