(* ===== verification/Lin.v ===== *)
(** * The LIN driver over LPUART: node state machine (drivers/lin)

    fsl_lin_lpuart.c and the instance-checked entry points of fsl_lin.c.  The
    state of one instance: the peripheral, the caller's [lin_state_t] and
    [lin_user_config_t] with the two pointer tables that may be NULL, the
    static variables of the auto-baud measurement, and the memory the frame
    buffers live in.  The user's callback and the timer he supplies are
    parameters, as is the choice of features of the chip.

    Enabling and disabling the interrupt line in the interrupt controller is
    left out: a function here runs without interruption.  The driver needs
    the break detection feature to compile, so it is always on. *)

From stdpp Require Import base list numbers tactics.
From Stdlib Require Import ZArith Lia.
From S2P Require Import Prelude Mmio LinBytes.

Open Scope Z_scope.
Open Scope prog_scope.

(** ** Data (fsl_lin.h) *)

Inductive lin_event_id :=
  | LIN_NO_EVENT | LIN_WAKEUP_SIGNAL | LIN_BAUDRATE_ADJUSTED | LIN_RECV_BREAK_FIELD_OK
  | LIN_SYNC_OK | LIN_SYNC_ERROR | LIN_PID_OK | LIN_PID_ERROR | LIN_FRAME_ERROR
  | LIN_READBACK_ERROR | LIN_CHECKSUM_ERROR | LIN_TX_COMPLETED | LIN_RX_COMPLETED
  | LIN_NO_DATA_TIMEOUT | LIN_BUS_ACTIVITY_TIMEOUT | LIN_TIMEOUT_ERROR
  | LIN_LAST_RESPONSE_SHORT_ERROR.
#[export] Instance lin_event_eq_dec : EqDecision lin_event_id.
Proof. solve_decision. Defined.

Inductive lin_status :=
  | LIN_IFC_NOT_SUPPORT | LIN_INITIALIZED | LIN_SUCCESS | LIN_ERROR | LIN_TX_BUSY | LIN_RX_BUSY
  | LIN_BUS_BUSY | LIN_NO_TRANSFER_IN_PROGRESS | LIN_TIMEOUT | LIN_LPUART_STAT_CLOCK_GATED_OFF.

Inductive lin_node_state :=
  | LIN_NODE_STATE_UNINIT | LIN_NODE_STATE_SLEEP_MODE | LIN_NODE_STATE_IDLE
  | LIN_NODE_STATE_SEND_BREAK_FIELD | LIN_NODE_STATE_RECV_SYNC | LIN_NODE_STATE_SEND_PID
  | LIN_NODE_STATE_RECV_PID | LIN_NODE_STATE_RECV_DATA | LIN_NODE_STATE_RECV_DATA_COMPLETED
  | LIN_NODE_STATE_SEND_DATA | LIN_NODE_STATE_SEND_DATA_COMPLETED.
#[export] Instance lin_node_state_eq_dec : EqDecision lin_node_state.
Proof. solve_decision. Defined.

(** [lin_user_config_t]; [nodeFunction] is true for a master. *)
Record lin_user_config := LinUserConfig {
  baudRate : Z; nodeFunction : bool; autobaudEnable : bool;
  timerGetTimeIntervalCallback : bool   (** it is not NULL *)
}.
Definition set_baudRate (v : Z) (c : lin_user_config) : lin_user_config :=
  LinUserConfig v (nodeFunction c) (autobaudEnable c) (timerGetTimeIntervalCallback c).

Definition LIN_GetSlaveDefaultConfig : lin_user_config := LinUserConfig 19200 false true false.
Definition LIN_GetMasterDefaultConfig : lin_user_config := LinUserConfig 19200 true false false.

(** [lin_state_t]; pointers are addresses, [Callback] tells whether one is
    installed. *)
Record lin_state := LinState {
  txBuff : Z; rxBuff : Z; frame_index : Z; cntByte : Z; txSize : Z; rxSize : Z; checkSum : Z;
  isTxBusy : bool; isRxBusy : bool; isBusBusy : bool; isTxBlocking : bool; isRxBlocking : bool;
  Callback : bool; currentId : Z; currentPid : Z;
  currentEventId : lin_event_id; currentNodeState : lin_node_state;
  timeoutCounter : Z; timeoutCounterFlag : bool; baudrateEvalEnable : bool;
  fallingEdgeInterruptCount : Z; linSourceClockFreq : Z; txCompleted : bool; rxCompleted : bool
}.

(** Assignments to its fields. *)
Definition set_txBuff (val : Z) (s : lin_state) : lin_state :=
  let 'LinState _ b c d e f g h i j k l m n o p q r s t u v w x := s in
  LinState val b c d e f g h i j k l m n o p q r s t u v w x.
Definition set_rxBuff (val : Z) (s : lin_state) : lin_state :=
  let 'LinState a _ c d e f g h i j k l m n o p q r s t u v w x := s in
  LinState a val c d e f g h i j k l m n o p q r s t u v w x.
Definition set_frame_index (val : Z) (s : lin_state) : lin_state :=
  let 'LinState a b _ d e f g h i j k l m n o p q r s t u v w x := s in
  LinState a b val d e f g h i j k l m n o p q r s t u v w x.
Definition set_cntByte (val : Z) (s : lin_state) : lin_state :=
  let 'LinState a b c _ e f g h i j k l m n o p q r s t u v w x := s in
  LinState a b c val e f g h i j k l m n o p q r s t u v w x.
Definition set_txSize (val : Z) (s : lin_state) : lin_state :=
  let 'LinState a b c d _ f g h i j k l m n o p q r s t u v w x := s in
  LinState a b c d val f g h i j k l m n o p q r s t u v w x.
Definition set_rxSize (val : Z) (s : lin_state) : lin_state :=
  let 'LinState a b c d e _ g h i j k l m n o p q r s t u v w x := s in
  LinState a b c d e val g h i j k l m n o p q r s t u v w x.
Definition set_checkSum (val : Z) (s : lin_state) : lin_state :=
  let 'LinState a b c d e f _ h i j k l m n o p q r s t u v w x := s in
  LinState a b c d e f val h i j k l m n o p q r s t u v w x.
Definition set_isTxBusy (val : bool) (s : lin_state) : lin_state :=
  let 'LinState a b c d e f g _ i j k l m n o p q r s t u v w x := s in
  LinState a b c d e f g val i j k l m n o p q r s t u v w x.
Definition set_isRxBusy (val : bool) (s : lin_state) : lin_state :=
  let 'LinState a b c d e f g h _ j k l m n o p q r s t u v w x := s in
  LinState a b c d e f g h val j k l m n o p q r s t u v w x.
Definition set_isBusBusy (val : bool) (s : lin_state) : lin_state :=
  let 'LinState a b c d e f g h i _ k l m n o p q r s t u v w x := s in
  LinState a b c d e f g h i val k l m n o p q r s t u v w x.
Definition set_isTxBlocking (val : bool) (s : lin_state) : lin_state :=
  let 'LinState a b c d e f g h i j _ l m n o p q r s t u v w x := s in
  LinState a b c d e f g h i j val l m n o p q r s t u v w x.
Definition set_isRxBlocking (val : bool) (s : lin_state) : lin_state :=
  let 'LinState a b c d e f g h i j k _ m n o p q r s t u v w x := s in
  LinState a b c d e f g h i j k val m n o p q r s t u v w x.
Definition set_Callback (val : bool) (s : lin_state) : lin_state :=
  let 'LinState a b c d e f g h i j k l _ n o p q r s t u v w x := s in
  LinState a b c d e f g h i j k l val n o p q r s t u v w x.
Definition set_currentId (val : Z) (s : lin_state) : lin_state :=
  let 'LinState a b c d e f g h i j k l m _ o p q r s t u v w x := s in
  LinState a b c d e f g h i j k l m val o p q r s t u v w x.
Definition set_currentPid (val : Z) (s : lin_state) : lin_state :=
  let 'LinState a b c d e f g h i j k l m n _ p q r s t u v w x := s in
  LinState a b c d e f g h i j k l m n val p q r s t u v w x.
Definition set_currentEventId (val : lin_event_id) (s : lin_state) : lin_state :=
  let 'LinState a b c d e f g h i j k l m n o _ q r s t u v w x := s in
  LinState a b c d e f g h i j k l m n o val q r s t u v w x.
Definition set_currentNodeState (val : lin_node_state) (s : lin_state) : lin_state :=
  let 'LinState a b c d e f g h i j k l m n o p _ r s t u v w x := s in
  LinState a b c d e f g h i j k l m n o p val r s t u v w x.
Definition set_timeoutCounter (val : Z) (s : lin_state) : lin_state :=
  let 'LinState a b c d e f g h i j k l m n o p q _ s t u v w x := s in
  LinState a b c d e f g h i j k l m n o p q val s t u v w x.
Definition set_timeoutCounterFlag (val : bool) (s : lin_state) : lin_state :=
  let 'LinState a b c d e f g h i j k l m n o p q r _ t u v w x := s in
  LinState a b c d e f g h i j k l m n o p q r val t u v w x.
Definition set_baudrateEvalEnable (val : bool) (s : lin_state) : lin_state :=
  let 'LinState a b c d e f g h i j k l m n o p q r s _ u v w x := s in
  LinState a b c d e f g h i j k l m n o p q r s val u v w x.
Definition set_fallingEdgeInterruptCount (val : Z) (s : lin_state) : lin_state :=
  let 'LinState a b c d e f g h i j k l m n o p q r s t _ v w x := s in
  LinState a b c d e f g h i j k l m n o p q r s t val v w x.
Definition set_linSourceClockFreq (val : Z) (s : lin_state) : lin_state :=
  let 'LinState a b c d e f g h i j k l m n o p q r s t u _ w x := s in
  LinState a b c d e f g h i j k l m n o p q r s t u val w x.
Definition set_txCompleted (val : bool) (s : lin_state) : lin_state :=
  let 'LinState a b c d e f g h i j k l m n o p q r s t u v _ x := s in
  LinState a b c d e f g h i j k l m n o p q r s t u v val x.
Definition set_rxCompleted (val : bool) (s : lin_state) : lin_state :=
  let 'LinState a b c d e f g h i j k l m n o p q r s t u v w _ := s in
  LinState a b c d e f g h i j k l m n o p q r s t u v w val.

(** ** The peripheral *)

Inductive lin_reg := BAUD | STAT | CTRL | DATA | DATA_BYTE | MATCH | MODIR | FIFO | WATER.
#[export] Instance lin_reg_eq_dec : EqDecision lin_reg.
Proof. solve_decision. Defined.

Class LinFields := {
  LPUART_BAUD_LBKDIE_MASK : Z; LPUART_BAUD_RXEDGIE_MASK : Z; LPUART_BAUD_RXEDGIE_SHIFT : Z;
  LPUART_BAUD_BOTHEDGE_MASK : Z; LPUART_BAUD_OSR_MASK : Z; LPUART_BAUD_OSR : Z -> Z;
  LPUART_BAUD_SBR_MASK : Z; LPUART_BAUD_SBR : Z -> Z; LPUART_BAUD_M10_MASK : Z;
  LPUART_BAUD_SBNS_MASK : Z; LPUART_BAUD_SBNS : Z -> Z;
  LPUART_CTRL_TE_MASK : Z; LPUART_CTRL_RE_MASK : Z; LPUART_CTRL_M_MASK : Z;
  LPUART_CTRL_PE_MASK : Z; LPUART_CTRL_PT_MASK : Z; LPUART_CTRL_RIE_MASK : Z;
  LPUART_CTRL_FEIE_MASK : Z;
  LPUART_STAT_TDRE_MASK : Z; LPUART_STAT_TC_MASK : Z; LPUART_STAT_RDRF_MASK : Z;
  LPUART_STAT_LBKDIF_MASK : Z; LPUART_STAT_RXEDGIF_MASK : Z; LPUART_STAT_IDLE_MASK : Z;
  LPUART_STAT_OR_MASK : Z; LPUART_STAT_NF_MASK : Z; LPUART_STAT_FE_MASK : Z;
  LPUART_STAT_PF_MASK : Z; LPUART_STAT_MA1F_MASK : Z; LPUART_STAT_MA2F_MASK : Z;
  LPUART_STAT_LBKDE_MASK : Z; LPUART_STAT_BRK13_MASK : Z;
  LPUART_STAT_RXINV_MASK : Z; LPUART_STAT_RXINV_SHIFT : Z;
  LPUART_FIFO_TXOF_MASK : Z; LPUART_FIFO_RXUF_MASK : Z; LPUART_FIFO_TXOFE_MASK : Z;
  LPUART_FIFO_RXUFE_MASK : Z; LPUART_FIFO_TXEMPT_MASK : Z; LPUART_FIFO_RXEMPT_MASK : Z;
  LPUART_DATA_FRETSC : Z -> Z
}.

(** The feature macros of the chip and the build options. *)
Class LinFeatures := {
  lpuart_has_fifo : bool;              (** FSL_FEATURE_LPUART_HAS_FIFO *)
  lpuart_fifo_size : Z;                (** FSL_FEATURE_LPUART_FIFO_SIZEn *)
  lpuart_has_address_matching : bool;
  lpuart_has_modem : bool;
  FSL_FEATURE_SOC_LPUART_COUNT : Z;
  lin_stack_enabled : bool;            (** FSL_SDK_LIN_STACK_ENABLE *)
  LIN_LPUART_CLOCK_FREQ : Z;
  LIN_LPUART_TRANSMISSION_COMPLETE_TIMEOUT : Z   (** 0: wait for ever *)
}.

Definition kStatus_LPUART_FlagCannotClearManually : status_t := MAKE_STATUS 13 6.

(** ** Baud rate *)

(** The loop over the oversampling ratios: the best difference so far, and
    the ratio and divisor it belongs to. *)
Fixpoint osr_loop (baudRate_Bps srcClock_Hz : Z) (osrs : list Z) (baudDiff osr sbr : Z) : outcome (Z * Z * Z) :=
  match osrs with
  | [] => Ok (baudDiff, osr, sbr)
  | osrTemp :: osrs =>
      q <-! udiv srcClock_Hz (u32 (baudRate_Bps * osrTemp)) ;;
      let sbrTemp := u16 q in
      let sbrTemp := if sbrTemp =? 0 then 1 else sbrTemp in
      calculatedBaud <-! udiv srcClock_Hz (u32 (osrTemp * sbrTemp)) ;;
      let tempDiff := u32 (calculatedBaud - baudRate_Bps) in
      next <-! udiv srcClock_Hz (u32 (osrTemp * u32 (sbrTemp + 1))) ;;
      let nextDiff := u32 (baudRate_Bps - next) in
      let '(tempDiff, sbrTemp) :=
        if nextDiff <? tempDiff then (nextDiff, u16 (sbrTemp + 1)) else (tempDiff, sbrTemp) in
      if tempDiff <=? baudDiff
      then osr_loop baudRate_Bps srcClock_Hz osrs tempDiff osrTemp sbrTemp
      else osr_loop baudRate_Bps srcClock_Hz osrs baudDiff osr sbr
  end.

(** The status, and the values left in [*osr] and [*sbr]. *)
Definition LIN_LPUART_CalculateBaudRate (baudRate_Bps srcClock_Hz osr sbr : Z) : outcome (status_t * Z * Z) :=
  if baudRate_Bps =? 0 then Err AssertFailed else
  q <-! udiv srcClock_Hz baudRate_Bps ;;
  if negb (q / 4 <=? 65535) then Err AssertFailed else
  r <-! osr_loop baudRate_Bps srcClock_Hz (seqZ 4 29) baudRate_Bps osr sbr ;;
  let '(baudDiff, osr, sbr) := r in
  Ok (if u32 (baudRate_Bps / 100 * 3) <=? baudDiff then kStatus_Fail else kStatus_Success, osr, sbr).

(** Ranges of two bit times in nanoseconds for auto-baud (fsl_lin_lpuart.h). *)
Definition AUTOBAUD_BAUDRATE_TOLERANCE : Z := 2.
Definition BIT_RATE_TOLERANCE_UNSYNC : Z := 14.
Definition BIT_DURATION_MAX (rate100 : Z) : Z := u32 (100000 * (100 + AUTOBAUD_BAUDRATE_TOLERANCE)) / rate100.
Definition BIT_DURATION_MIN (rate100 : Z) : Z := u32 (100000 * (100 - AUTOBAUD_BAUDRATE_TOLERANCE)) / rate100.
Definition TWO_BIT_DURATION_MAX (rate100 : Z) : Z := u32 (2 * BIT_DURATION_MAX rate100).
Definition TWO_BIT_DURATION_MIN (rate100 : Z) : Z := u32 (2 * BIT_DURATION_MIN rate100).
Definition AUTOBAUD_BREAK_TIME_MIN : Z := u32 (13 * BIT_DURATION_MIN 192).
Definition in_two_bits (t rate100 : Z) : bool :=
  (TWO_BIT_DURATION_MIN rate100 <=? t) && (t <=? TWO_BIT_DURATION_MAX rate100).

(** The chain of comparisons that selects the master's rate; 0 for none. *)
Definition master_baudrate (twoBitTimeLength : Z) : Z :=
  if in_two_bits twoBitTimeLength 192 then 19200 else
  if in_two_bits twoBitTimeLength 144 then 14400 else
  if in_two_bits twoBitTimeLength 96 then 9600 else
  if in_two_bits twoBitTimeLength 48 then 4800 else
  if in_two_bits twoBitTimeLength 24 then 2400 else 0.

(** The condition that cancels a measurement outside every range. *)
Definition outside_all_rates (t : Z) : bool :=
  (t <? TWO_BIT_DURATION_MIN 192) ||
  ((TWO_BIT_DURATION_MAX 192 <? t) && (t <? TWO_BIT_DURATION_MIN 144)) ||
  ((TWO_BIT_DURATION_MAX 144 <? t) && (t <? TWO_BIT_DURATION_MIN 96)) ||
  ((TWO_BIT_DURATION_MAX 96 <? t) && (t <? TWO_BIT_DURATION_MIN 48)) ||
  ((TWO_BIT_DURATION_MAX 48 <? t) && (t <? TWO_BIT_DURATION_MIN 24)) ||
  (TWO_BIT_DURATION_MAX 24 <? t).

(** ** Register access *)

Section Lpuart.
Context {D : Type} `{!Device lin_reg D} {F : LinFields} {X : LinFeatures}.

Definition kLPUART_TxDataRegEmptyFlag : Z := LPUART_STAT_TDRE_MASK.
Definition kLPUART_TransmissionCompleteFlag : Z := LPUART_STAT_TC_MASK.
Definition kLPUART_RxDataRegFullFlag : Z := LPUART_STAT_RDRF_MASK.
Definition kLPUART_RxOverrunFlag : Z := LPUART_STAT_OR_MASK.
Definition kLPUART_FramingErrorFlag : Z := LPUART_STAT_FE_MASK.
Definition kLPUART_LinBreakFlag : Z := LPUART_STAT_LBKDIF_MASK.
Definition kLPUART_RxActiveEdgeFlag : Z := LPUART_STAT_RXEDGIF_MASK.
Definition kLPUART_LinBreakInterruptEnable : Z := Z.shiftr LPUART_BAUD_LBKDIE_MASK 8.
Definition kLPUART_RxActiveEdgeInterruptEnable : Z := Z.shiftr LPUART_BAUD_RXEDGIE_MASK 8.
Definition kLPUART_RxDataRegFullInterruptEnable : Z := LPUART_CTRL_RIE_MASK.
Definition kLPUART_FramingErrorInterruptEnable : Z := LPUART_CTRL_FEIE_MASK.

Definition baud_enables (mask : Z) : Z :=
  Z.land (u32 (Z.shiftl mask 8)) (Z.lor LPUART_BAUD_LBKDIE_MASK LPUART_BAUD_RXEDGIE_MASK).
Definition fifo_enables (mask : Z) : Z :=
  Z.land (u32 (Z.shiftl mask 8)) (Z.lor LPUART_FIFO_TXOFE_MASK LPUART_FIFO_RXUFE_MASK).
Definition fifo_flags : Z := Z.lor LPUART_FIFO_TXOF_MASK LPUART_FIFO_RXUF_MASK.

Definition LIN_LPUART_EnableInterrupts (mask : Z) : M D unit :=
  set_bits BAUD (baud_enables mask) ;;
  when lpuart_has_fifo (
    x <- rd FIFO ;; wr FIFO (Z.lor (bic32 x fifo_flags) (fifo_enables mask))) ;;
  set_bits CTRL (Z.land mask 4294967040).

Definition LIN_LPUART_DisableInterrupts (mask : Z) : M D unit :=
  clear_bits BAUD (baud_enables mask) ;;
  when lpuart_has_fifo (
    x <- rd FIFO ;; wr FIFO (bic32 (bic32 x fifo_flags) (fifo_enables mask))) ;;
  clear_bits CTRL (Z.land mask 4294967040).

Definition LIN_LPUART_GetStatusFlags : M D Z :=
  temp <- rd STAT ;;
  if lpuart_has_fifo then
    x <- rd FIFO ;;
    ret (Z.lor temp (Z.shiftr (Z.land x (Z.lor (Z.lor (Z.lor LPUART_FIFO_TXEMPT_MASK LPUART_FIFO_RXEMPT_MASK)
      LPUART_FIFO_TXOF_MASK) LPUART_FIFO_RXUF_MASK)) 16))
  else ret temp.

Definition stat_flags : Z :=
  Z.lor (Z.lor (Z.lor (Z.lor (Z.lor LPUART_STAT_RXEDGIF_MASK LPUART_STAT_IDLE_MASK) LPUART_STAT_OR_MASK)
    LPUART_STAT_NF_MASK) LPUART_STAT_FE_MASK) LPUART_STAT_PF_MASK.
Definition match_flags : Z := Z.lor LPUART_STAT_MA2F_MASK LPUART_STAT_MA1F_MASK.
(** [temp &= ~flags; temp |= mask & flags] *)
Definition keep_only (temp flags mask : Z) : Z := Z.lor (bic32 temp flags) (Z.land mask flags).

Definition LIN_LPUART_ClearStatusFlags (mask : Z) : M D status_t :=
  when lpuart_has_fifo (
    temp <- rd FIFO ;; wr FIFO (Z.lor (bic32 temp fifo_flags) (Z.land (u32 (Z.shiftl mask 16)) fifo_flags))) ;;
  temp <- rd STAT ;;
  let temp := keep_only temp LPUART_STAT_LBKDIF_MASK mask in
  let temp := keep_only temp stat_flags mask in
  let temp := if lpuart_has_address_matching then keep_only temp match_flags mask else temp in
  wr STAT temp ;;
  x <- LIN_LPUART_GetStatusFlags ;;
  ret (if negb (Z.land mask x =? 0) then kStatus_LPUART_FlagCannotClearManually else kStatus_Success).

Definition LIN_LPUART_GetRxDataPolarity : M D bool :=
  x <- rd STAT ;; ret (0 <? Z.land (Z.shiftr x LPUART_STAT_RXINV_SHIFT) 1).
Definition LIN_LPUART_SetRxDataPolarity (polarity : bool) : M D unit :=
  x <- rd STAT ;;
  wr STAT (Z.lor (bic32 x LPUART_STAT_RXINV_MASK)
    (u32 (Z.shiftl (if polarity then 1 else 0) LPUART_STAT_RXINV_SHIFT))).
(** A byte written to the lowest byte of the data register. *)
Definition LIN_LPUART_WriteByte (data : Z) : M D unit := wr DATA_BYTE data.
Definition LIN_LPUART_ReadByte : M D Z := x <- rd DATA ;; ret (u8 x).
Definition LIN_LPUART_QueueBreakChar : M D lin_status := wr DATA (LPUART_DATA_FRETSC 1) ;; ret LIN_SUCCESS.

Definition LIN_LPUART_SetBaudRate (osr sbr : Z) : M D unit :=
  oldCtrl <- rd CTRL ;;
  clear_bits CTRL (Z.lor LPUART_CTRL_TE_MASK LPUART_CTRL_RE_MASK) ;;
  temp <- rd BAUD ;;
  let temp := if (3 <? osr) && (osr <? 8) then Z.lor temp LPUART_BAUD_BOTHEDGE_MASK else temp in
  let temp := Z.lor (bic32 temp LPUART_BAUD_OSR_MASK) (LPUART_BAUD_OSR (u32 (osr - 1))) in
  let temp := bic32 temp LPUART_BAUD_SBR_MASK in
  wr BAUD (Z.lor temp (LPUART_BAUD_SBR sbr)) ;;
  wr CTRL oldCtrl.

Definition LIN_LPUART_SetBitCountPerChar : M D unit :=
  clear_bits CTRL LPUART_CTRL_M_MASK ;; clear_bits BAUD LPUART_BAUD_M10_MASK.

(** Break characters are recognised at 13 bits (on) or 10 bits (off). *)
Definition break_detect_on : M D unit := set_bits STAT LPUART_STAT_LBKDE_MASK.
Definition break_detect_off : M D unit := clear_bits STAT LPUART_STAT_LBKDE_MASK.
Definition receive_interrupts : Z :=
  Z.lor kLPUART_RxDataRegFullInterruptEnable kLPUART_FramingErrorInterruptEnable.
End Lpuart.

(** ** The node *)

(** What one instance of the driver works on. *)
Record lin_world (D U : Type) := LinWorld {
  l_hw : D;
  l_st : lin_state; l_st_set : bool;         (** [g_linStatePtr[instance]] is set *)
  l_cfg : lin_user_config; l_cfg_set : bool; (** [g_linUserconfigPtr[instance]] is set *)
  s_previousTwoBitTimeLength : Z; s_wakeupSignal : Z; s_countMeasure : Z; s_timeMeasure : Z;
  l_mem : Z -> Z;                            (** the frame buffers *)
  l_user : U                                 (** what only the callback touches *)
}.
Arguments LinWorld {D U}. Arguments l_hw {D U}. Arguments l_st {D U}. Arguments l_st_set {D U}.
Arguments l_cfg {D U}. Arguments l_cfg_set {D U}. Arguments s_previousTwoBitTimeLength {D U}.
Arguments s_wakeupSignal {D U}. Arguments s_countMeasure {D U}. Arguments s_timeMeasure {D U}.
Arguments l_mem {D U}. Arguments l_user {D U}.

Section World.
Context {D U : Type}.
Abbreviation W := (lin_world D U).
Definition set_hw (v : D) (w : W) : W := let 'LinWorld _ b c d e f g h i j k := w in LinWorld v b c d e f g h i j k.
Definition set_st (v : lin_state) (w : W) : W := let 'LinWorld a _ c d e f g h i j k := w in LinWorld a v c d e f g h i j k.
Definition set_st_set (v : bool) (w : W) : W := let 'LinWorld a b _ d e f g h i j k := w in LinWorld a b v d e f g h i j k.
Definition set_cfg (v : lin_user_config) (w : W) : W := let 'LinWorld a b c _ e f g h i j k := w in LinWorld a b c v e f g h i j k.
Definition set_cfg_set (v : bool) (w : W) : W := let 'LinWorld a b c d _ f g h i j k := w in LinWorld a b c d v f g h i j k.
Definition set_previous (v : Z) (w : W) : W := let 'LinWorld a b c d e _ g h i j k := w in LinWorld a b c d e v g h i j k.
Definition set_wakeup (v : Z) (w : W) : W := let 'LinWorld a b c d e f _ h i j k := w in LinWorld a b c d e f v h i j k.
Definition set_count (v : Z) (w : W) : W := let 'LinWorld a b c d e f g _ i j k := w in LinWorld a b c d e f g v i j k.
Definition set_time (v : Z) (w : W) : W := let 'LinWorld a b c d e f g h _ j k := w in LinWorld a b c d e f g h v j k.
Definition set_mem (v : Z -> Z) (w : W) : W := let 'LinWorld a b c d e f g h i _ k := w in LinWorld a b c d e f g h i v k.
Definition set_user (v : U) (w : W) : W := let 'LinWorld a b c d e f g h i j _ := w in LinWorld a b c d e f g h i j v.
End World.

Section Node.
Context {D U : Type} `{!Device lin_reg D} {F : LinFields} {X : LinFeatures}.
Abbreviation W := (lin_world D U).

Definition on_hw {A} (m : M D A) : M W A :=
  fun w => match m (l_hw w) with Ok (a, d) => Ok (a, set_hw d w) | Err e => Err e end.
(** [g_linStatePtr[instance]] and [g_linUserconfigPtr[instance]] followed. *)
Definition linCurrentState : M W lin_state :=
  fun w => if l_st_set w then Ok (l_st w, w) else Err NullCall.
Definition upd_st (f : lin_state -> lin_state) : M W unit :=
  fun w => if l_st_set w then Ok (tt, set_st (f (l_st w)) w) else Err NullCall.
Definition linUserConfig : M W lin_user_config :=
  fun w => if l_cfg_set w then Ok (l_cfg w, w) else Err NullCall.
Definition load (a : Z) : M W Z := gets (fun w => l_mem w a).
Definition store (a v : Z) : M W unit :=
  modify (fun w => set_mem (fun x => if decide (x = a) then v else l_mem w x) w).

Context (instance : Z) (user_callback : M W unit) (timer_interval : M W Z).

(** [if (linCurrentState->Callback != NULL) linCurrentState->Callback(instance, linCurrentState)] *)
Definition callback : M W unit := st <- linCurrentState ;; when (Callback st) user_callback.
Definition event (e : lin_event_id) : M W unit := upd_st (set_currentEventId e).
Definition node_state (n : lin_node_state) : M W unit := upd_st (set_currentNodeState n).

Definition LIN_LPUART_GotoIdleState : M W lin_status :=
  on_hw (LIN_LPUART_SetRxDataPolarity false) ;;
  on_hw break_detect_on ;;
  on_hw (LIN_LPUART_EnableInterrupts kLPUART_LinBreakInterruptEnable) ;;
  on_hw (LIN_LPUART_EnableInterrupts receive_interrupts) ;;
  on_hw (LIN_LPUART_DisableInterrupts kLPUART_RxActiveEdgeInterruptEnable) ;;
  node_state LIN_NODE_STATE_IDLE ;;
  ret LIN_SUCCESS.

Definition LIN_LPUART_GoToSleepMode : M W lin_status :=
  node_state LIN_NODE_STATE_SLEEP_MODE ;;
  on_hw (LIN_LPUART_SetRxDataPolarity false) ;;
  on_hw (LIN_LPUART_DisableInterrupts kLPUART_LinBreakInterruptEnable) ;;
  on_hw (LIN_LPUART_DisableInterrupts receive_interrupts) ;;
  on_hw (LIN_LPUART_EnableInterrupts kLPUART_RxActiveEdgeInterruptEnable) ;;
  ret LIN_SUCCESS.

(** ** The interrupt handler *)

(** The break flag has been cleared. *)
Definition break_detected : M W unit :=
  st <- linCurrentState ;;
  if decide (currentNodeState st = LIN_NODE_STATE_SLEEP_MODE) then
    LIN_LPUART_GotoIdleState ;; ret tt
  else
    on_hw break_detect_off ;;
    on_hw (LIN_LPUART_DisableInterrupts kLPUART_LinBreakInterruptEnable) ;;
    upd_st (set_isBusBusy true) ;;
    cfg <- linUserConfig ;;
    if nodeFunction cfg then
      st <- linCurrentState ;;
      when (bool_decide (currentNodeState st = LIN_NODE_STATE_SEND_BREAK_FIELD)) (
        node_state LIN_NODE_STATE_SEND_PID ;;
        on_hw (LIN_LPUART_WriteByte 85))
    else
      st <- linCurrentState ;;
      when (bool_decide (currentNodeState st = LIN_NODE_STATE_RECV_DATA)
            || bool_decide (currentNodeState st = LIN_NODE_STATE_SEND_DATA)) (
        event LIN_LAST_RESPONSE_SHORT_ERROR ;;
        callback) ;;
      event LIN_RECV_BREAK_FIELD_OK ;;
      callback ;;
      node_state LIN_NODE_STATE_RECV_SYNC.

Definition LIN_LPUART_ProcessBreakDetect : M W unit :=
  on_hw (LIN_LPUART_ClearStatusFlags kLPUART_LinBreakFlag) ;;
  break_detected.

Definition LIN_LPUART_CheckWakeupSignal : M W unit :=
  polarity <- on_hw LIN_LPUART_GetRxDataPolarity ;;
  cfg <- linUserConfig ;;
  if negb polarity then
    if negb (timerGetTimeIntervalCallback cfg) then ret tt else
    timer_interval ;;
    on_hw (LIN_LPUART_SetRxDataPolarity true)
  else
    on_hw (LIN_LPUART_SetRxDataPolarity false) ;;
    if negb (timerGetTimeIntervalCallback cfg) then throw NullCall else
    wakeupSignalLength <- timer_interval ;;
    when ((150000 <=? wakeupSignalLength) && (wakeupSignalLength <=? 5000000)) (
      event LIN_WAKEUP_SIGNAL ;;
      callback ;;
      LIN_LPUART_GotoIdleState ;; ret tt).

Definition LIN_LPUART_EvalTwoBitTimeLength (twoBitTimeLength : Z) : M W unit :=
  st <- linCurrentState ;;
  when ((fallingEdgeInterruptCount st <? 5) && (0 <? fallingEdgeInterruptCount st)) (
    (if outside_all_rates twoBitTimeLength then
       LIN_LPUART_GotoIdleState ;;
       upd_st (set_fallingEdgeInterruptCount 0)
     else
       when (1 <? fallingEdgeInterruptCount st) (
         w <- get ;;
         let p := s_previousTwoBitTimeLength w / 100 in
         when ((twoBitTimeLength <? u32 ((100 - BIT_RATE_TOLERANCE_UNSYNC) * p))
               || (u32 ((100 + BIT_RATE_TOLERANCE_UNSYNC) * p) <? twoBitTimeLength)) (
           LIN_LPUART_GotoIdleState ;;
           upd_st (set_fallingEdgeInterruptCount 0)))) ;;
    modify (set_previous twoBitTimeLength)) ;;
  upd_st (fun st => set_fallingEdgeInterruptCount (u8 (fallingEdgeInterruptCount st + 1)) st).

(** The wakeup byte for a baud rate. *)
Definition assign_wakeup_signal (baud : Z) : M W unit :=
  modify (set_wakeup (if 10000 <? baud then 128 else 248)).

Definition LIN_LPUART_AutobaudTimerValEval (twoBitTimeLength : Z) : M W unit :=
  st <- linCurrentState ;;
  when (bool_decide (currentNodeState st = LIN_NODE_STATE_RECV_SYNC)) (
    LIN_LPUART_EvalTwoBitTimeLength twoBitTimeLength ;;
    st <- linCurrentState ;;
    when (4 <? fallingEdgeInterruptCount st) (
      let MasterBaudrate := master_baudrate twoBitTimeLength in
      if negb (MasterBaudrate =? 0) then
        cfg <- linUserConfig ;;
        when (negb (baudRate cfg =? MasterBaudrate)) (
          modify (fun w => set_cfg (set_baudRate MasterBaudrate (l_cfg w)) w) ;;
          when lin_stack_enabled (
            r <- lift (LIN_LPUART_CalculateBaudRate MasterBaudrate LIN_LPUART_CLOCK_FREQ 0 0) ;;
            let '(status, osrValue, sbrValue) := r in
            when (status =? kStatus_Success) (on_hw (LIN_LPUART_SetBaudRate osrValue sbrValue))) ;;
          assign_wakeup_signal MasterBaudrate) ;;
        event LIN_BAUDRATE_ADJUSTED ;;
        upd_st (set_baudrateEvalEnable false) ;;
        callback ;;
        node_state LIN_NODE_STATE_RECV_PID ;;
        event LIN_SYNC_OK
      else
        LIN_LPUART_GotoIdleState ;;
        upd_st (set_fallingEdgeInterruptCount 0))).

(** The cases of [LIN_LPUART_ProcessFrameHeader]. *)
Definition header_recv_sync (tmpByte : Z) : M W unit :=
  if tmpByte =? 85 then
    event LIN_SYNC_OK ;;
    node_state LIN_NODE_STATE_RECV_PID
  else
    event LIN_SYNC_ERROR ;;
    callback ;;
    upd_st (set_isBusBusy false) ;;
    LIN_LPUART_GotoIdleState ;; ret tt.

Definition header_send_pid (tmpByte : Z) : M W unit :=
  if tmpByte =? 85 then
    node_state LIN_NODE_STATE_RECV_PID ;;
    st <- linCurrentState ;;
    on_hw (LIN_LPUART_WriteByte (currentPid st))
  else
    event LIN_SYNC_ERROR ;;
    upd_st (set_isBusBusy false) ;;
    node_state LIN_NODE_STATE_IDLE ;;
    callback.

Definition header_recv_pid (tmpByte : Z) : M W unit :=
  cfg <- linUserConfig ;;
  if nodeFunction cfg then
    st <- linCurrentState ;;
    if tmpByte =? currentPid st then
      event LIN_PID_OK ;;
      upd_st (set_isBusBusy false) ;;
      callback
    else
      event LIN_PID_ERROR ;;
      upd_st (set_isBusBusy false) ;;
      node_state LIN_NODE_STATE_IDLE ;;
      callback
  else
    id <- lift (LIN_ProcessParity tmpByte CHECK_PARITY) ;;
    upd_st (set_currentId id) ;;
    upd_st (set_currentPid tmpByte) ;;
    if negb (id =? 255) then
      event LIN_PID_OK ;;
      upd_st (set_isBusBusy false) ;;
      callback
    else
      event LIN_PID_ERROR ;;
      callback ;;
      upd_st (set_isBusBusy false) ;;
      LIN_LPUART_GotoIdleState ;; ret tt.

Definition LIN_LPUART_ProcessFrameHeader (tmpByte : Z) : M W unit :=
  st <- linCurrentState ;;
  match currentNodeState st with
  | LIN_NODE_STATE_RECV_SYNC => header_recv_sync tmpByte
  | LIN_NODE_STATE_SEND_PID => header_send_pid tmpByte
  | LIN_NODE_STATE_RECV_PID => header_recv_pid tmpByte
  | _ => ret tt
  end.

(** The end of a reception, checksum byte included. *)
Definition receive_complete : M W unit :=
  upd_st (fun st => set_rxBuff (rxBuff st - (rxSize st - 1)) st) ;;
  node_state LIN_NODE_STATE_RECV_DATA_COMPLETED ;;
  st <- linCurrentState ;;
  mem <- gets l_mem ;;
  c <- lift (LIN_MakeChecksumByte mem (rxBuff st) (u8 (rxSize st - 1)) (currentPid st)) ;;
  if c =? checkSum st then
    event LIN_RX_COMPLETED ;;
    callback ;;
    st <- linCurrentState ;;
    when (isRxBlocking st) (upd_st (set_rxCompleted true)) ;;
    upd_st (set_isBusBusy false) ;;
    upd_st (set_isRxBusy false) ;;
    st <- linCurrentState ;;
    when (negb (bool_decide (currentNodeState st = LIN_NODE_STATE_SLEEP_MODE))) (
      LIN_LPUART_GotoIdleState ;; ret tt)
  else
    event LIN_CHECKSUM_ERROR ;;
    callback ;;
    upd_st (set_isBusBusy false) ;;
    upd_st (set_isRxBusy false) ;;
    LIN_LPUART_GotoIdleState ;; ret tt.

Definition LIN_LPUART_ProcessReceiveFrameData (tmpByte : Z) : M W unit :=
  st <- linCurrentState ;;
  (if cntByte st + 1 <? rxSize st then
     store (rxBuff st) tmpByte ;;
     upd_st (fun st => set_rxBuff (rxBuff st + 1) st)
   else upd_st (set_checkSum tmpByte)) ;;
  upd_st (fun st => set_cntByte (u8 (cntByte st + 1)) st) ;;
  st <- linCurrentState ;;
  when (cntByte st =? rxSize st) receive_complete.

Definition readback_error : M W unit :=
  event LIN_READBACK_ERROR ;;
  callback ;;
  st <- linCurrentState ;;
  when (negb (isTxBlocking st)) (
    upd_st (set_isBusBusy false) ;;
    upd_st (set_isTxBusy false) ;;
    LIN_LPUART_GotoIdleState ;; ret tt).

(** The next byte, the checksum, or the end of the transmission. *)
Definition send_next : M W unit :=
  st <- linCurrentState ;;
  if cntByte st <? txSize st then
    if txSize st - cntByte st =? 1 then on_hw (LIN_LPUART_WriteByte (checkSum st))
    else b <- load (txBuff st) ;; on_hw (LIN_LPUART_WriteByte b)
  else
    event LIN_TX_COMPLETED ;;
    node_state LIN_NODE_STATE_SEND_DATA_COMPLETED ;;
    on_hw (LIN_LPUART_DisableInterrupts kLPUART_RxDataRegFullFlag) ;;
    callback ;;
    st <- linCurrentState ;;
    when (isTxBlocking st) (upd_st (set_txCompleted true)) ;;
    upd_st (set_isBusBusy false) ;;
    upd_st (set_isTxBusy false) ;;
    LIN_LPUART_GotoIdleState ;; ret tt.

(** The byte that was sent comes back on the single wire of the bus: it is
    compared with what should have been sent.  The data byte is loaded before
    it is known whether the checksum is due, so the load after the last data
    byte lies behind the buffer. *)
Definition LIN_LPUART_ProcessSendFrameData (tmpByte : Z) : M W unit :=
  flags <- on_hw LIN_LPUART_GetStatusFlags ;;
  if negb (has flags kLPUART_TxDataRegEmptyFlag) then readback_error else
  st <- linCurrentState ;;
  let tmpSize := u8 (txSize st - cntByte st) in
  let tmpCheckSumAndSize := (tmpSize =? 1) && negb (checkSum st =? tmpByte) in
  b <- load (txBuff st) ;;
  let tmpBuffAndSize := negb (b =? tmpByte) && negb (tmpSize =? 1) in
  if tmpBuffAndSize || tmpCheckSumAndSize then readback_error else
  upd_st (fun st => set_txBuff (txBuff st + 1) st) ;;
  upd_st (fun st => set_cntByte (u8 (cntByte st + 1)) st) ;;
  send_next.

Definition LIN_LPUART_ProcessFrame (tmpByte : Z) : M W unit :=
  st <- linCurrentState ;;
  match currentNodeState st with
  | LIN_NODE_STATE_RECV_SYNC | LIN_NODE_STATE_SEND_PID | LIN_NODE_STATE_RECV_PID =>
      LIN_LPUART_ProcessFrameHeader tmpByte
  | LIN_NODE_STATE_RECV_DATA => LIN_LPUART_ProcessReceiveFrameData tmpByte
  | LIN_NODE_STATE_SEND_DATA => LIN_LPUART_ProcessSendFrameData tmpByte
  | _ => ret tt
  end.

(** A framing error ends whatever was going on. *)
Definition framing_error : M W unit :=
  event LIN_FRAME_ERROR ;;
  st <- linCurrentState ;;
  when (bool_decide (currentNodeState st = LIN_NODE_STATE_SEND_DATA)) callback ;;
  st <- linCurrentState ;;
  when (negb (isRxBlocking st)) (
    when (bool_decide (currentNodeState st = LIN_NODE_STATE_RECV_DATA)) callback) ;;
  upd_st (set_isBusBusy false) ;;
  LIN_LPUART_GotoIdleState ;; ret tt.

Definition irq_framing_error : M W unit :=
  on_hw (LIN_LPUART_ClearStatusFlags kLPUART_FramingErrorFlag) ;;
  on_hw LIN_LPUART_ReadByte ;;
  framing_error.

Definition LIN_LPUART_IRQHandler : M W unit :=
  baud <- on_hw (rd BAUD) ;;
  let activeEdgeIntState := has baud (Z.shiftl 1 LPUART_BAUD_RXEDGIE_SHIFT) in
  flags <- on_hw LIN_LPUART_GetStatusFlags ;;
  (if has flags kLPUART_LinBreakFlag then LIN_LPUART_ProcessBreakDetect else
   flags <- on_hw LIN_LPUART_GetStatusFlags ;;
   if (Z.land flags kLPUART_RxActiveEdgeFlag =? kLPUART_RxActiveEdgeFlag) && activeEdgeIntState then
     on_hw (LIN_LPUART_ClearStatusFlags kLPUART_RxActiveEdgeFlag) ;;
     st <- linCurrentState ;;
     when (bool_decide (currentNodeState st = LIN_NODE_STATE_SLEEP_MODE)) LIN_LPUART_CheckWakeupSignal
   else
     flags <- on_hw LIN_LPUART_GetStatusFlags ;;
     if has flags kLPUART_FramingErrorFlag then irq_framing_error else
     flags <- on_hw LIN_LPUART_GetStatusFlags ;;
     when (has flags kLPUART_RxDataRegFullFlag) (
       on_hw (LIN_LPUART_ClearStatusFlags kLPUART_RxDataRegFullFlag) ;;
       tmpByte <- on_hw LIN_LPUART_ReadByte ;;
       LIN_LPUART_ProcessFrame tmpByte)) ;;
  flags <- on_hw LIN_LPUART_GetStatusFlags ;;
  when (Z.land flags kLPUART_RxOverrunFlag =? kLPUART_RxOverrunFlag) (
    on_hw (LIN_LPUART_ClearStatusFlags kLPUART_RxOverrunFlag) ;; ret tt).

(** ** Initialisation *)

(** The structure is the caller's; the pointer table is set afterwards, by
    [LIN_Init]. *)
Definition init_st (f : lin_state -> lin_state) : M W unit := modify (fun w => set_st (f (l_st w)) w).

Definition LIN_LPUART_Init (linSourceClockFreq : Z) : M W lin_status :=
  cfg <- gets l_cfg ;;
  assert_ (negb (baudRate cfg =? 0)) ;;
  if linSourceClockFreq =? 0 then ret LIN_LPUART_STAT_CLOCK_GATED_OFF else
  let autobaud := autobaudEnable cfg && negb (nodeFunction cfg) in
  when autobaud (
    modify (fun w => set_cfg (set_baudRate 19200 (l_cfg w)) w) ;;
    init_st (set_fallingEdgeInterruptCount 0) ;;
    init_st (set_baudrateEvalEnable true) ;;
    modify (set_previous 0) ;; modify (set_count 0) ;; modify (set_time 0)) ;;
  on_hw (wr CTRL 0) ;;
  on_hw (wr MATCH 0) ;;
  when lpuart_has_modem (on_hw (wr MODIR 0)) ;;
  when (0 <? lpuart_fifo_size) (on_hw (wr FIFO fifo_flags) ;; on_hw (wr WATER 0)) ;;
  cfg <- gets l_cfg ;;
  r <- lift (LIN_LPUART_CalculateBaudRate (baudRate cfg) linSourceClockFreq 0 0) ;;
  let '(status, osrValue, sbrValue) := r in
  if status =? kStatus_Success then
    on_hw (LIN_LPUART_SetBaudRate osrValue sbrValue) ;;
    on_hw LIN_LPUART_SetBitCountPerChar ;;
    on_hw (clear_bits CTRL LPUART_CTRL_PE_MASK) ;;
    on_hw (clear_bits CTRL LPUART_CTRL_PT_MASK) ;;
    temp <- on_hw (rd BAUD) ;;
    on_hw (wr BAUD (Z.lor (bic32 temp LPUART_BAUD_SBNS_MASK) (LPUART_BAUD_SBNS 0))) ;;
    when (nodeFunction cfg) (on_hw (set_bits STAT LPUART_STAT_BRK13_MASK)) ;;
    on_hw break_detect_on ;;
    on_hw (LIN_LPUART_EnableInterrupts kLPUART_LinBreakInterruptEnable) ;;
    on_hw (LIN_LPUART_EnableInterrupts
      (Z.lor kLPUART_FramingErrorInterruptEnable kLPUART_RxDataRegFullInterruptEnable)) ;;
    init_st (set_currentNodeState LIN_NODE_STATE_IDLE) ;;
    init_st (set_linSourceClockFreq linSourceClockFreq) ;;
    init_st (set_isTxBusy false) ;; init_st (set_isRxBusy false) ;; init_st (set_isBusBusy false) ;;
    init_st (set_isRxBlocking false) ;; init_st (set_isTxBlocking false) ;;
    init_st (set_timeoutCounterFlag false) ;; init_st (set_timeoutCounter 0) ;;
    init_st (set_txCompleted false) ;; init_st (set_rxCompleted false) ;; init_st (set_frame_index 0) ;;
    assign_wakeup_signal (baudRate cfg) ;;
    when (negb autobaud) (on_hw (set_bits CTRL (Z.lor LPUART_CTRL_TE_MASK LPUART_CTRL_RE_MASK))) ;;
    ret LIN_SUCCESS
  else ret LIN_ERROR.

(** The wait for the last character; [false] is the timeout. *)
Fixpoint wait_transmission (fuel : nat) (waitTimes : Z) : M D bool :=
  match fuel with
  | O => throw OutOfFuel
  | S fuel =>
      flags <- LIN_LPUART_GetStatusFlags ;;
      if has flags kLPUART_TransmissionCompleteFlag then ret true else
      if negb (LIN_LPUART_TRANSMISSION_COMPLETE_TIMEOUT =? 0) then
        let waitTimes := u32 (waitTimes - 1) in
        if waitTimes =? 0 then ret false else wait_transmission fuel waitTimes
      else wait_transmission fuel waitTimes
  end.

Definition LIN_LPUART_Deinit (fuel : nat) : M W lin_status :=
  w <- get ;;
  if negb (l_st_set w) then ret LIN_ERROR else
  ok <- on_hw (wait_transmission fuel LIN_LPUART_TRANSMISSION_COMPLETE_TIMEOUT) ;;
  if negb ok then ret LIN_ERROR else
  on_hw (clear_bits CTRL (Z.lor LPUART_CTRL_TE_MASK LPUART_CTRL_RE_MASK)) ;;
  node_state LIN_NODE_STATE_UNINIT ;;
  modify (set_st_set false) ;;
  ret LIN_SUCCESS.

(** ** Requests *)

Definition on_instance {A} (other : A) (m : M W A) : M W A :=
  if instance <? FSL_FEATURE_SOC_LPUART_COUNT then m else ret other.

Definition LIN_SetTimeoutCounter (timeoutValue : Z) : M W unit :=
  on_instance tt (
    upd_st (set_timeoutCounterFlag false) ;;
    upd_st (set_timeoutCounter timeoutValue)).

Definition sleeping (st : lin_state) : bool := bool_decide (currentNodeState st = LIN_NODE_STATE_SLEEP_MODE).

Definition LIN_LPUART_SendFrameDataBlocking (buff size timeoutMSec : Z) : M W lin_status :=
  assert_ (negb (buff =? 0)) ;;
  st <- linCurrentState ;;
  if (8 <? size) || (size =? 0) || sleeping st then ret LIN_ERROR else
  if isBusBusy st then ret LIN_BUS_BUSY else
  mem <- gets l_mem ;;
  c <- lift (LIN_MakeChecksumByte mem buff size (currentPid st)) ;;
  upd_st (set_checkSum c) ;;
  upd_st (set_txBuff buff) ;;
  upd_st (set_txSize (u8 (size + 1))) ;;
  upd_st (set_cntByte 0) ;;
  event LIN_NO_EVENT ;;
  upd_st (set_isBusBusy true) ;;
  upd_st (set_isTxBusy true) ;;
  upd_st (set_isTxBlocking true) ;;
  upd_st (set_txCompleted false) ;;
  on_hw break_detect_off ;;
  LIN_SetTimeoutCounter timeoutMSec ;;
  node_state LIN_NODE_STATE_SEND_DATA ;;
  b <- load buff ;;
  on_hw (LIN_LPUART_WriteByte b) ;;
  ret LIN_SUCCESS.

Definition LIN_LPUART_SendFrameData (buff size : Z) : M W lin_status :=
  assert_ (negb (buff =? 0)) ;;
  st <- linCurrentState ;;
  if (8 <? size) || (size =? 0) || sleeping st then ret LIN_ERROR else
  if isBusBusy st then ret LIN_BUS_BUSY else
  mem <- gets l_mem ;;
  c <- lift (LIN_MakeChecksumByte mem buff size (currentPid st)) ;;
  upd_st (set_checkSum c) ;;
  upd_st (set_txBuff buff) ;;
  upd_st (set_txSize (u8 (size + 1))) ;;
  upd_st (set_cntByte 0) ;;
  node_state LIN_NODE_STATE_SEND_DATA ;;
  event LIN_NO_EVENT ;;
  upd_st (set_isBusBusy true) ;;
  upd_st (set_isTxBusy true) ;;
  on_hw break_detect_off ;;
  b <- load buff ;;
  on_hw (LIN_LPUART_WriteByte b) ;;
  ret LIN_SUCCESS.

(** The status of the transfer, with the bytes left. *)
Definition transfer_status (busy : lin_status) (remaining : Z) (st : lin_state) : lin_status :=
  if bool_decide (currentEventId st = LIN_NO_EVENT) then
    if negb (remaining =? 0) then
      if negb (timeoutCounterFlag st) then busy else LIN_TIMEOUT
    else LIN_SUCCESS
  else if negb lin_stack_enabled && bool_decide (currentEventId st = LIN_TIMEOUT_ERROR) then LIN_TIMEOUT
  else LIN_SUCCESS.

Definition LIN_LPUART_GetTransmitStatus : M W (lin_status * Z) :=
  st <- linCurrentState ;;
  let bytesRemaining := u8 (txSize st - cntByte st) in
  ret (transfer_status LIN_TX_BUSY bytesRemaining st, bytesRemaining).

Definition LIN_LPUART_GetReceiveStatus : M W (lin_status * Z) :=
  st <- linCurrentState ;;
  let bytesRemaining := u8 (rxSize st - cntByte st) in
  ret (transfer_status LIN_RX_BUSY bytesRemaining st, bytesRemaining).

Definition LIN_LPUART_RecvFrmDataBlocking (buff size timeoutMSec : Z) : M W lin_status :=
  assert_ (negb (buff =? 0)) ;;
  st <- linCurrentState ;;
  if (8 <? size) || (size =? 0) || sleeping st then ret LIN_ERROR else
  if isBusBusy st then ret LIN_BUS_BUSY else
  upd_st (set_rxBuff buff) ;;
  upd_st (set_rxSize (u8 (size + 1))) ;;
  upd_st (set_cntByte 0) ;;
  node_state LIN_NODE_STATE_RECV_DATA ;;
  event LIN_NO_EVENT ;;
  upd_st (set_isBusBusy true) ;;
  upd_st (set_isRxBusy true) ;;
  upd_st (set_isRxBlocking true) ;;
  upd_st (set_rxCompleted false) ;;
  on_hw break_detect_off ;;
  LIN_SetTimeoutCounter timeoutMSec ;;
  ret LIN_SUCCESS.

Definition LIN_LPUART_RecvFrmData (buff size : Z) : M W lin_status :=
  assert_ (negb (buff =? 0)) ;;
  st <- linCurrentState ;;
  if (8 <? size) || (size =? 0) || sleeping st then ret LIN_ERROR else
  if isBusBusy st then ret LIN_BUS_BUSY else
  upd_st (set_rxBuff buff) ;;
  upd_st (set_rxSize (u8 (size + 1))) ;;
  upd_st (set_cntByte 0) ;;
  node_state LIN_NODE_STATE_RECV_DATA ;;
  event LIN_NO_EVENT ;;
  upd_st (set_isBusBusy true) ;;
  upd_st (set_isRxBusy true) ;;
  upd_st (set_isRxBlocking false) ;;
  on_hw break_detect_off ;;
  ret LIN_SUCCESS.

Definition LIN_LPUART_AbortTransferData : M W lin_status :=
  st <- linCurrentState ;;
  when (isBusBusy st) (
    LIN_LPUART_GotoIdleState ;;
    upd_st (set_isTxBusy false) ;;
    upd_st (set_isRxBusy false) ;;
    upd_st (set_isBusBusy false)) ;;
  ret LIN_SUCCESS.

Definition LIN_LPUART_SendWakeupSignal : M W lin_status :=
  st <- linCurrentState ;;
  if negb (isBusBusy st) then
    w <- get ;; on_hw (LIN_LPUART_WriteByte (s_wakeupSignal w)) ;; ret LIN_SUCCESS
  else ret LIN_BUS_BUSY.

Definition LIN_LPUART_MasterSendHeader (id : Z) : M W lin_status :=
  cfg <- linUserConfig ;;
  st <- linCurrentState ;;
  if negb (nodeFunction cfg) || (63 <? id) || sleeping st then ret LIN_ERROR else
  if isBusBusy st then ret LIN_BUS_BUSY else
  upd_st (set_currentId id) ;;
  pid <- lift (LIN_ProcessParity id MAKE_PARITY) ;;
  upd_st (set_currentPid pid) ;;
  node_state LIN_NODE_STATE_SEND_BREAK_FIELD ;;
  event LIN_NO_EVENT ;;
  upd_st (set_isBusBusy true) ;;
  on_hw break_detect_on ;;
  on_hw (LIN_LPUART_EnableInterrupts kLPUART_LinBreakInterruptEnable) ;;
  on_hw LIN_LPUART_QueueBreakChar ;;
  ret LIN_SUCCESS.

Definition LIN_LPUART_EnableIRQ : M W lin_status :=
  st <- linCurrentState ;;
  (if sleeping st then on_hw (LIN_LPUART_EnableInterrupts kLPUART_RxActiveEdgeInterruptEnable) else
   on_hw (LIN_LPUART_EnableInterrupts kLPUART_LinBreakInterruptEnable) ;;
   on_hw (LIN_LPUART_EnableInterrupts receive_interrupts)) ;;
  ret LIN_SUCCESS.

Definition LIN_LPUART_DisableIRQ : M W lin_status :=
  st <- linCurrentState ;;
  (if sleeping st then on_hw (LIN_LPUART_DisableInterrupts kLPUART_RxActiveEdgeInterruptEnable) else
   on_hw (LIN_LPUART_DisableInterrupts kLPUART_LinBreakInterruptEnable) ;;
   on_hw (LIN_LPUART_DisableInterrupts receive_interrupts)) ;;
  ret LIN_SUCCESS.

(** The cases of [LIN_LPUART_AutoBaudCapture] by node state. *)
Definition capture_sleep (tmpTime : Z) : M W lin_status :=
  r <- (if (150000 <=? tmpTime) && (tmpTime <=? 5000000) then
          event LIN_WAKEUP_SIGNAL ;; callback ;; LIN_LPUART_GotoIdleState ;; ret LIN_BUS_BUSY
        else ret LIN_ERROR) ;;
  modify (set_count 0) ;;
  ret r.

Definition capture_idle (tmpTime : Z) : M W lin_status :=
  if AUTOBAUD_BREAK_TIME_MIN <=? tmpTime then
    on_hw break_detect_off ;;
    on_hw (LIN_LPUART_DisableInterrupts kLPUART_LinBreakInterruptEnable) ;;
    upd_st (set_isBusBusy true) ;;
    event LIN_RECV_BREAK_FIELD_OK ;;
    callback ;;
    node_state LIN_NODE_STATE_RECV_SYNC ;;
    upd_st (set_fallingEdgeInterruptCount 0) ;;
    modify (set_count 1) ;;
    ret LIN_BUS_BUSY
  else modify (set_count 0) ;; ret LIN_ERROR.

Definition capture_sync : M W lin_status :=
  w <- get ;;
  LIN_LPUART_AutobaudTimerValEval (s_timeMeasure w) ;;
  modify (set_count 0) ;;
  modify (set_time 0) ;;
  st <- linCurrentState ;;
  ret (if decide (currentNodeState st = LIN_NODE_STATE_IDLE) then LIN_ERROR else LIN_BUS_BUSY).

Definition LIN_LPUART_AutoBaudCapture : M W lin_status :=
  st <- linCurrentState ;;
  if baudrateEvalEnable st then
    cfg <- linUserConfig ;;
    if negb (timerGetTimeIntervalCallback cfg) then throw NullCall else
    tmpTime <- timer_interval ;;
    w <- get ;;
    if UINT32_MAX - tmpTime <? s_timeMeasure w then ret LIN_ERROR else
    modify (fun w => set_time (u32 (s_timeMeasure w + tmpTime)) w) ;;
    modify (fun w => set_count (u8 (s_countMeasure w + 1)) w) ;;
    w <- get ;;
    if negb (1 <? s_countMeasure w) then ret LIN_BUS_BUSY else
    st <- linCurrentState ;;
    match currentNodeState st with
    | LIN_NODE_STATE_SLEEP_MODE => capture_sleep tmpTime
    | LIN_NODE_STATE_IDLE => capture_idle tmpTime
    | _ => capture_sync
    end
  else
    when (4 <? fallingEdgeInterruptCount st) (
      on_hw (set_bits CTRL (Z.lor LPUART_CTRL_TE_MASK LPUART_CTRL_RE_MASK)) ;;
      upd_st (set_fallingEdgeInterruptCount 0)) ;;
    ret LIN_SUCCESS.

(** ** The entry points of fsl_lin.c *)

Definition LIN_CalculateBaudrate (baud src osr sbr : Z) : M W (Z * Z) :=
  on_instance (osr, sbr) (
    r <- lift (LIN_LPUART_CalculateBaudRate baud src osr sbr) ;;
    let '(_, osr, sbr) := r in ret (osr, sbr)).
Definition LIN_SetBaudrate (osr sbr : Z) : M W unit := on_instance tt (on_hw (LIN_LPUART_SetBaudRate osr sbr)).

Definition LIN_Init (clockSource : Z) : M W lin_status :=
  on_instance LIN_IFC_NOT_SUPPORT (
    r <- LIN_LPUART_Init clockSource ;;
    modify (set_st_set true) ;;
    modify (set_cfg_set true) ;;
    ret r).

Definition LIN_Deinit (fuel : nat) : M W lin_status :=
  on_instance LIN_IFC_NOT_SUPPORT (
    r <- LIN_LPUART_Deinit fuel ;;
    modify (set_st_set false) ;;
    modify (set_cfg_set false) ;;
    ret r).

(** The previous and the new callback, as far as the driver looks at them:
    whether they are NULL. *)
Definition LIN_InstallCallback (function : bool) : M W bool :=
  on_instance false (
    st <- linCurrentState ;;
    upd_st (set_Callback function) ;;
    ret (Callback st)).

Definition LIN_SendFrameDataBlocking (buff size timeoutMSec : Z) : M W lin_status :=
  on_instance LIN_IFC_NOT_SUPPORT (LIN_LPUART_SendFrameDataBlocking buff size timeoutMSec).
Definition LIN_SendFrameData (buff size : Z) : M W lin_status :=
  on_instance LIN_IFC_NOT_SUPPORT (LIN_LPUART_SendFrameData buff size).
Definition LIN_GetTransmitStatus (remaining : Z) : M W (lin_status * Z) :=
  on_instance (LIN_IFC_NOT_SUPPORT, remaining) LIN_LPUART_GetTransmitStatus.
Definition LIN_ReceiveFrameDataBlocking (buff size timeoutMSec : Z) : M W lin_status :=
  on_instance LIN_IFC_NOT_SUPPORT (LIN_LPUART_RecvFrmDataBlocking buff size timeoutMSec).
Definition LIN_ReceiveFrameData (buff size : Z) : M W lin_status :=
  on_instance LIN_IFC_NOT_SUPPORT (LIN_LPUART_RecvFrmData buff size).
Definition LIN_AbortTransferData : M W lin_status :=
  on_instance LIN_IFC_NOT_SUPPORT LIN_LPUART_AbortTransferData.
Definition LIN_GetReceiveStatus (remaining : Z) : M W (lin_status * Z) :=
  on_instance (LIN_IFC_NOT_SUPPORT, remaining) LIN_LPUART_GetReceiveStatus.
Definition LIN_GoToSleepMode : M W lin_status := on_instance LIN_IFC_NOT_SUPPORT LIN_LPUART_GoToSleepMode.
Definition LIN_GotoIdleState : M W lin_status := on_instance LIN_IFC_NOT_SUPPORT LIN_LPUART_GotoIdleState.
Definition LIN_SendWakeupSignal : M W lin_status :=
  on_instance LIN_IFC_NOT_SUPPORT LIN_LPUART_SendWakeupSignal.
Definition LIN_GetCurrentNodeState : M W lin_node_state :=
  on_instance LIN_NODE_STATE_UNINIT (
    w <- get ;; ret (if l_st_set w then currentNodeState (l_st w) else LIN_NODE_STATE_UNINIT)).

(** The tail of a time-out, for a transmission and for a reception. *)
Definition timeout_expired (blocking : lin_state -> bool) (done : lin_state -> lin_state) : M W unit :=
  upd_st (set_timeoutCounterFlag true) ;;
  callback ;;
  st <- linCurrentState ;;
  when (negb (blocking st)) (upd_st (set_isBusBusy false) ;; upd_st done) ;;
  LIN_GotoIdleState ;; ret tt.

Definition LIN_TimeoutService : M W unit :=
  on_instance tt (
    st <- linCurrentState ;;
    match currentNodeState st with
    | LIN_NODE_STATE_SEND_DATA =>
        if timeoutCounter st =? 0
        then timeout_expired isTxBlocking (fun st => set_txCompleted true (set_isTxBusy false st))
        else upd_st (fun st => set_timeoutCounter (u32 (timeoutCounter st - 1)) st)
    | LIN_NODE_STATE_RECV_DATA =>
        if timeoutCounter st =? 0
        then timeout_expired isRxBlocking (fun st => set_rxCompleted true (set_isRxBusy false st))
        else upd_st (fun st => set_timeoutCounter (u32 (timeoutCounter st - 1)) st)
    | _ => ret tt
    end).

Definition LIN_MasterSendHeader (id : Z) : M W lin_status :=
  on_instance LIN_IFC_NOT_SUPPORT (LIN_LPUART_MasterSendHeader id).
Definition LIN_EnableIRQ : M W lin_status := on_instance LIN_IFC_NOT_SUPPORT LIN_LPUART_EnableIRQ.
Definition LIN_DisableIRQ : M W lin_status := on_instance LIN_IFC_NOT_SUPPORT LIN_LPUART_DisableIRQ.
Definition LIN_IRQHandler : M W unit := on_instance tt LIN_LPUART_IRQHandler.
Definition LIN_AutoBaudCapture : M W lin_status :=
  on_instance LIN_IFC_NOT_SUPPORT LIN_LPUART_AutoBaudCapture.

Definition LIN_SetResponse (buff length timeout : Z) : M W lin_status :=
  LIN_SetTimeoutCounter timeout ;; LIN_SendFrameData buff length.
Definition LIN_RxResponse (buff length timeout : Z) : M W lin_status :=
  LIN_SetTimeoutCounter timeout ;; LIN_ReceiveFrameData buff length.
Definition LIN_IgnoreResponse : M W lin_status := LIN_GotoIdleState.
End Node.
