(* ===== verification/LinNode.v ===== *)
(** * The LIN driver: the LPUART under it, and one interrupt

    The LPUART as its manual describes it ([LinLaws]): the characters handed
    to the transmitter, and what the receiver holds.  The lemmas run the
    register operations and the first steps of the interrupt handler on it,
    up to the state machine that consumes the character. *)

From stdpp Require Import base list numbers tactics.
From Stdlib Require Import ZArith Lia.
From S2P Require Import Prelude Mmio LinBytes Lin.

Open Scope Z_scope.
Open Scope prog_scope.

(** ** The peripheral *)

(** A character on the wire: a break, a byte, a byte with a bad stop bit. *)
Inductive symbol := Break | Byte (b : Z) | Bad (b : Z).
#[export] Instance symbol_eq_dec : EqDecision symbol.
Proof. solve_decision. Defined.

(** Nothing, or a byte: nothing that a write to STAT would clear. *)
Definition quiet_line (l : option symbol) : Prop :=
  match l with None | Some (Byte _) => True | _ => False end.

(** What the header files say about the masks. *)
Class LinMasks `{LinFields} := {
  mask_lbkdif : 0 < LPUART_STAT_LBKDIF_MASK < 2 ^ 32;
  mask_fe : 0 < LPUART_STAT_FE_MASK < 2 ^ 32;
  mask_rxedgie : 0 < LPUART_BAUD_RXEDGIE_MASK < 2 ^ 32;
  mask_rxedgie_shift : Z.shiftl 1 LPUART_BAUD_RXEDGIE_SHIFT = LPUART_BAUD_RXEDGIE_MASK;
  mask_rxinv : u32 (Z.shiftl 1 LPUART_STAT_RXINV_SHIFT) = LPUART_STAT_RXINV_MASK;
  mask_break_fe : Z.land LPUART_STAT_LBKDIF_MASK LPUART_STAT_FE_MASK = 0;
  mask_fe_flags : Z.land stat_flags LPUART_STAT_FE_MASK = LPUART_STAT_FE_MASK;
  mask_break_flags : Z.land stat_flags LPUART_STAT_LBKDIF_MASK = 0;
  mask_match : Z.land match_flags (Z.lor LPUART_STAT_LBKDIF_MASK LPUART_STAT_FE_MASK) = 0;
  mask_control : Z.land (Z.lor LPUART_STAT_RXINV_MASK LPUART_STAT_LBKDE_MASK)
    (Z.lor LPUART_STAT_LBKDIF_MASK LPUART_STAT_FE_MASK) = 0;
  mask_fifo : Z.land (Z.shiftr (Z.lor (Z.lor (Z.lor LPUART_FIFO_TXEMPT_MASK LPUART_FIFO_RXEMPT_MASK)
      LPUART_FIFO_TXOF_MASK) LPUART_FIFO_RXUF_MASK) 16)
    (Z.lor (Z.lor LPUART_STAT_LBKDIF_MASK LPUART_STAT_FE_MASK)
      (Z.lor LPUART_STAT_RDRF_MASK LPUART_STAT_TDRE_MASK)) = 0;
  mask_break_enable :
    Z.land (baud_enables kLPUART_LinBreakInterruptEnable) LPUART_BAUD_RXEDGIE_MASK = 0;
  mask_receive_enable : Z.land (baud_enables receive_interrupts) LPUART_BAUD_RXEDGIE_MASK = 0;
  mask_edge_enable : baud_enables kLPUART_RxActiveEdgeInterruptEnable = LPUART_BAUD_RXEDGIE_MASK;
  mask_lbkdie : 0 < LPUART_BAUD_LBKDIE_MASK < 2 ^ 32;
  mask_rie : 0 < LPUART_CTRL_RIE_MASK < 2 ^ 32;
  mask_feie : 0 < LPUART_CTRL_FEIE_MASK < 2 ^ 32;
  mask_break_edge : Z.land LPUART_BAUD_RXEDGIE_MASK LPUART_BAUD_LBKDIE_MASK = 0;
  mask_break_on : Z.land (baud_enables kLPUART_LinBreakInterruptEnable) LPUART_BAUD_LBKDIE_MASK = LPUART_BAUD_LBKDIE_MASK;
  mask_receive_ctrl : Z.land receive_interrupts 4294967040 = receive_interrupts;
  mask_break_ctrl : Z.land (Z.land kLPUART_LinBreakInterruptEnable 4294967040) receive_interrupts = 0;
  mask_edge_ctrl : Z.land (Z.land kLPUART_RxActiveEdgeInterruptEnable 4294967040) receive_interrupts = 0;
  mask_rdrf_baud : Z.land (baud_enables kLPUART_RxDataRegFullFlag) LPUART_BAUD_LBKDIE_MASK = 0
}.

Lemma has_lor_set x k m : has x m = true -> has (Z.lor x k) m = true.
Proof.
  unfold has. rewrite !negb_true_iff, !Z.eqb_neq, Z.land_lor_distr_l, Z.lor_eq_0_iff. tauto.
Qed.

Lemma has_lor_part x k m : Z.land k m = m -> 0 < m -> has (Z.lor x k) m = true.
Proof.
  unfold has. rewrite negb_true_iff, Z.eqb_neq, Z.land_lor_distr_l, Z.lor_eq_0_iff. intros -> Hm [_ H]. lia.
Qed.

Lemma land_lor_absorb x y : Z.land x (Z.lor x y) = x.
Proof. apply Z.bits_inj'. intros i _. rewrite Z.land_spec, Z.lor_spec. by destruct (Z.testbit x i). Qed.

Lemma land_lor_0 x a b : Z.land x (Z.lor a b) = 0 -> Z.land x a = 0 /\ Z.land x b = 0.
Proof. rewrite Z.land_lor_distr_r. apply Z.lor_eq_0_iff. Qed.

Section Peripheral.
Context {D : Type} `{!Device lin_reg D} {F : LinFields} {X : LinFeatures}.

(** A write to STAT clears the flags written as 1: a break is then gone, a
    bad byte is still to be read. *)
Definition stat_write (v : Z) (l : option symbol) : option symbol :=
  match l with
  | Some Break => if has v LPUART_STAT_LBKDIF_MASK then None else l
  | Some (Bad b) => if has v LPUART_STAT_FE_MASK then Some (Byte b) else l
  | _ => l
  end.

Class LinLaws := {
  sent : D -> list symbol;       (** the characters handed to the transmitter *)
  line : D -> option symbol;     (** what the receiver holds *)
  tx_free : D -> bool;           (** the transmit data register is empty *)
  baud_reg : D -> Z;
  ctrl_reg : D -> Z;
  read_keeps r d : r <> DATA -> snd (reg_read r d) = d;
  read_data d : let d' := snd (reg_read DATA d) in
    sent d' = sent d /\ tx_free d' = tx_free d /\ baud_reg d' = baud_reg d /\ ctrl_reg d' = ctrl_reg d /\ line d' = None;
  read_byte d b : line d = Some (Byte b) -> u8 (fst (reg_read DATA d)) = b;
  stat_break d : has (fst (reg_read STAT d)) LPUART_STAT_LBKDIF_MASK =
    match line d with Some Break => true | _ => false end;
  stat_fe d : has (fst (reg_read STAT d)) LPUART_STAT_FE_MASK =
    match line d with Some (Bad _) => true | _ => false end;
  stat_rdrf d b : line d = Some (Byte b) -> has (fst (reg_read STAT d)) LPUART_STAT_RDRF_MASK = true;
  stat_tdre d : has (fst (reg_read STAT d)) LPUART_STAT_TDRE_MASK = tx_free d;
  baud_read d : fst (reg_read BAUD d) = baud_reg d;
  ctrl_read d : fst (reg_read CTRL d) = ctrl_reg d;
  baud_write r v d : baud_reg (reg_write r v d) = if decide (r = BAUD) then v else baud_reg d;
  ctrl_write r v d : ctrl_reg (reg_write r v d) = if decide (r = CTRL) then v else ctrl_reg d;
  line_write r v d : line (reg_write r v d) = if decide (r = STAT) then stat_write v (line d) else line d;
  sent_write r v d : r <> DATA -> r <> DATA_BYTE ->
    sent (reg_write r v d) = sent d /\ tx_free (reg_write r v d) = tx_free d;
  sent_byte v d : sent (reg_write DATA_BYTE v d) = sent d ++ [Byte (u8 v)];
  sent_break d : sent (reg_write DATA (LPUART_DATA_FRETSC 1) d) = sent d ++ [Break]
}.

Context {L : LinLaws}.

(** The receiver's edge interrupt, used to wake up, is off. *)
Definition edge_off (d : D) : Prop := has (baud_reg d) LPUART_BAUD_RXEDGIE_MASK = false.

(** The interrupts for a character and for a framing error are enabled; the
    one for a break is. *)
Definition hears (d : D) : Prop :=
  has (ctrl_reg d) LPUART_CTRL_RIE_MASK = true /\ has (ctrl_reg d) LPUART_CTRL_FEIE_MASK = true.
Definition break_on (d : D) : Prop := has (baud_reg d) LPUART_BAUD_LBKDIE_MASK = true.

(** The effect of writes to the control registers; [h] and [b] say that the
    receive interrupts, and the break interrupt, are not disabled. *)
Record ctl (h b : bool) (d d' : D) : Prop := {
  ctl_sent : sent d' = sent d;
  ctl_free : tx_free d' = tx_free d;
  ctl_line : quiet_line (line d) -> line d' = line d;
  ctl_edge : edge_off d -> edge_off d';
  ctl_hears : h = true -> hears d -> hears d';
  ctl_break : b = true -> break_on d -> break_on d'
}.

Lemma ctl_refl d : ctl true true d d.
Proof. by split. Qed.

Lemma ctl_trans h1 b1 h2 b2 d1 d2 d3 : ctl h1 b1 d1 d2 -> ctl h2 b2 d2 d3 -> ctl (h1 && h2) (b1 && b2) d1 d3.
Proof.
  intros [S1 F1 L1 E1 H1 B1] [S2 F2 L2 E2 H2 B2].
  split; [congruence|congruence| |auto|intros []%andb_prop; auto|intros []%andb_prop; auto].
  intros Q. specialize (L1 Q). rewrite L2; congruence.
Qed.

Lemma wp_rd r (Q : Z -> D -> Prop) d : r <> DATA -> wp (rd r) Q d <-> Q (fst (reg_read r d)) d.
Proof.
  intros Hr. unfold wp, rd. assert (H := read_keeps r d Hr).
  destruct (reg_read r d) as [v d']. simpl in *. by subst.
Qed.

Lemma wp_wr r v (Q : unit -> D -> Prop) d : wp (wr r v) Q d <-> Q tt (reg_write r v d).
Proof. done. Qed.

Lemma ctl_write r v d :
  r <> BAUD -> r <> CTRL -> r <> DATA -> r <> DATA_BYTE -> ctl true true d (reg_write r v d).
Proof.
  intros Hb Hc H1 H2. destruct (sent_write r v d H1 H2) as [Hs Hf].
  split; [done|done| | | |].
  - intros Q. rewrite line_write. destruct (decide (r = STAT)); [|done].
    by destruct (line d) as [[| |]|].
  - unfold edge_off. by rewrite baud_write, decide_False by done.
  - unfold hears. by rewrite ctrl_write, decide_False by done.
  - unfold break_on. by rewrite baud_write, decide_False by done.
Qed.

Lemma ctl_write_baud b v d :
  (edge_off d -> has v LPUART_BAUD_RXEDGIE_MASK = false) ->
  (b = true -> break_on d -> has v LPUART_BAUD_LBKDIE_MASK = true) -> ctl true b d (reg_write BAUD v d).
Proof.
  intros Hv Hb. destruct (sent_write BAUD v d ltac:(done) ltac:(done)) as [Hs Hf].
  split; [done|done| | | |]; unfold edge_off, hears, break_on.
  - intros _. by rewrite line_write, decide_False by done.
  - rewrite baud_write, decide_True by done. exact Hv.
  - by rewrite ctrl_write, decide_False by done.
  - rewrite baud_write, decide_True by done. exact Hb.
Qed.

Lemma ctl_write_ctrl h v d :
  (h = true -> hears d -> has v LPUART_CTRL_RIE_MASK = true /\ has v LPUART_CTRL_FEIE_MASK = true) ->
  ctl h true d (reg_write CTRL v d).
Proof.
  intros Hv. destruct (sent_write CTRL v d ltac:(done) ltac:(done)) as [Hs Hf].
  split; [done|done| | | |]; unfold edge_off, hears, break_on.
  - intros _. by rewrite line_write, decide_False by done.
  - by rewrite baud_write, decide_False by done.
  - rewrite ctrl_write, decide_True by done. exact Hv.
  - by rewrite baud_write, decide_False by done.
Qed.

(** An operation on control registers only. *)
Definition controls (h b : bool) {A} (m : M D A) : Prop := forall d, wp m (fun _ d' => ctl h b d d') d.

Lemma controls_seq h1 b1 h2 b2 {A B} (m : M D A) (f : A -> M D B) :
  controls h1 b1 m -> (forall a, controls h2 b2 (f a)) -> controls (h1 && h2) (b1 && b2) (bind m f).
Proof.
  intros Hm Hf d. apply wp_bind. eapply wp_mono; [apply Hm|]. intros a d' Hd.
  eapply wp_mono; [apply Hf|]. intros b d'' Hd'. exact (ctl_trans _ _ _ _ _ _ _ Hd Hd').
Qed.

Lemma controls_bind {A B} (m : M D A) (f : A -> M D B) :
  controls true true m -> (forall a, controls true true (f a)) -> controls true true (bind m f).
Proof. exact (controls_seq true true true true m f). Qed.

Lemma controls_ret {A} (a : A) : controls true true (ret a).
Proof. intros d. apply ctl_refl. Qed.

Lemma controls_rd r : r <> DATA -> controls true true (rd r).
Proof. intros Hr d. apply wp_rd; [done|]. apply ctl_refl. Qed.

Lemma controls_wr r v : r <> BAUD -> r <> CTRL -> r <> DATA -> r <> DATA_BYTE -> controls true true (wr r v).
Proof. intros. intros d. by apply ctl_write. Qed.

Lemma controls_when (b : bool) (m : M D unit) : controls true true m -> controls true true (when b m).
Proof. intros. destruct b; [done|]. apply controls_ret. Qed.

Lemma controls_set_baud v : Z.land v LPUART_BAUD_RXEDGIE_MASK = 0 -> controls true true (set_bits BAUD v).
Proof.
  intros Hv d. unfold set_bits. apply wp_bind, wp_rd; [done|]. rewrite baud_read. apply ctl_write_baud.
  - intros E. by rewrite has_lor_keep.
  - intros _ E. by apply has_lor_set.
Qed.

Lemma controls_clear_baud (K : LinMasks) b v :
  (b = true -> Z.land v LPUART_BAUD_LBKDIE_MASK = 0) -> controls true b (clear_bits BAUD v).
Proof.
  intros Hv d. unfold clear_bits. apply wp_bind, wp_rd; [done|]. rewrite baud_read. apply ctl_write_baud.
  - intros E. by apply has_bic_other.
  - intros Hb E. assert (H := mask_lbkdie). by rewrite has_bic_keep by (auto || lia).
Qed.

Lemma controls_set_ctrl v : controls true true (set_bits CTRL v).
Proof.
  intros d. unfold set_bits. apply wp_bind, wp_rd; [done|]. rewrite ctrl_read. apply ctl_write_ctrl.
  intros _ [E1 E2]. by split; apply has_lor_set.
Qed.

Lemma controls_clear_ctrl (K : LinMasks) h v :
  (h = true -> Z.land v receive_interrupts = 0) -> controls h true (clear_bits CTRL v).
Proof.
  intros Hv d. unfold clear_bits. apply wp_bind, wp_rd; [done|]. rewrite ctrl_read. apply ctl_write_ctrl.
  intros Hh [E1 E2]. destruct (land_lor_0 _ _ _ (Hv Hh)) as [H1 H2]. assert (H3 := mask_rie). assert (H4 := mask_feie).
  unfold kLPUART_RxDataRegFullInterruptEnable, kLPUART_FramingErrorInterruptEnable in *.
  by rewrite !has_bic_keep by (done || lia).
Qed.
End Peripheral.

(** [controls] proves that an operation writes control registers only. *)
Ltac controls :=
  repeat first [ apply controls_wr; discriminate | apply controls_rd; discriminate
               | apply controls_ret | apply controls_when
               | apply controls_bind; [|intros ?] ].

#[export] Hint Resolve controls_ret : driver.

Section Operations.
Context {D : Type} `{!Device lin_reg D} {F : LinFields} {X : LinFeatures} {L : LinLaws} {K : LinMasks}.

Lemma controls_enable mask :
  Z.land (baud_enables mask) LPUART_BAUD_RXEDGIE_MASK = 0 -> controls true true (LIN_LPUART_EnableInterrupts mask).
Proof.
  intros. apply controls_bind; [by apply controls_set_baud|intros _].
  apply controls_bind; [controls|intros _; apply controls_set_ctrl].
Qed.

Lemma controls_disable h b mask :
  (b = true -> Z.land (baud_enables mask) LPUART_BAUD_LBKDIE_MASK = 0) ->
  (h = true -> Z.land (Z.land mask 4294967040) receive_interrupts = 0) ->
  controls h b (LIN_LPUART_DisableInterrupts mask).
Proof.
  intros Hb Hh. rewrite <- (andb_true_r b), <- (andb_true_l h).
  apply controls_seq; [by apply controls_clear_baud|intros _].
  rewrite <- (andb_true_l h), <- (andb_true_l true).
  apply controls_seq; [controls|intros _; by apply controls_clear_ctrl].
Qed.

Lemma controls_disable_break : controls true false (LIN_LPUART_DisableInterrupts kLPUART_LinBreakInterruptEnable).
Proof. apply controls_disable; [done|intros _; apply mask_break_ctrl]. Qed.

Lemma controls_disable_edge : controls true true (LIN_LPUART_DisableInterrupts kLPUART_RxActiveEdgeInterruptEnable).
Proof. apply controls_disable; intros _; [rewrite mask_edge_enable; apply mask_break_edge|apply mask_edge_ctrl]. Qed.

Lemma controls_disable_receive : controls false true (LIN_LPUART_DisableInterrupts kLPUART_RxDataRegFullFlag).
Proof. apply controls_disable; [intros _; apply mask_rdrf_baud|done]. Qed.

Lemma controls_fifo (y : Z -> Z) : controls true true (when lpuart_has_fifo (x <- rd FIFO ;; wr FIFO (y x))).
Proof. controls. Qed.

(** After the break interrupt, and the receive interrupts, are enabled. *)
Lemma enable_break_run d :
  wp (LIN_LPUART_EnableInterrupts kLPUART_LinBreakInterruptEnable) (fun _ d' => break_on d') d.
Proof.
  unfold LIN_LPUART_EnableInterrupts, set_bits. apply wp_bind, wp_bind, wp_rd; [done|]. apply wp_wr, wp_bind.
  eapply wp_mono; [exact (controls_fifo _ _)|]. intros [] d2 C2.
  eapply wp_mono; [apply controls_set_ctrl|]. intros [] d3 C3.
  apply (ctl_break _ _ _ _ C3 eq_refl), (ctl_break _ _ _ _ C2 eq_refl).
  unfold break_on. rewrite baud_write, decide_True by done. assert (H := mask_lbkdie).
  apply has_lor_part; [apply mask_break_on|lia].
Qed.

Lemma enable_receive_run d : wp (LIN_LPUART_EnableInterrupts receive_interrupts) (fun _ d' => hears d') d.
Proof.
  unfold LIN_LPUART_EnableInterrupts, set_bits. apply wp_bind, wp_bind, wp_rd; [done|]. apply wp_wr, wp_bind.
  eapply wp_mono; [exact (controls_fifo _ _)|]. intros [] d2 _.
  apply wp_bind, wp_rd; [done|]. apply wp_wr. unfold hears. rewrite ctrl_write, decide_True, mask_receive_ctrl by done.
  assert (H1 := mask_rie). assert (H2 := mask_feie). unfold receive_interrupts, kLPUART_RxDataRegFullInterruptEnable,
    kLPUART_FramingErrorInterruptEnable.
  split; (apply has_lor_part; [|lia]); rewrite Z.land_comm; [|rewrite Z.lor_comm]; apply land_lor_absorb.
Qed.

Lemma controls_flags : controls true true LIN_LPUART_GetStatusFlags.
Proof. unfold LIN_LPUART_GetStatusFlags. apply controls_bind; [controls|intros ?]. destruct lpuart_has_fifo; controls. Qed.

Lemma controls_polarity b : controls true true (LIN_LPUART_SetRxDataPolarity b).
Proof. unfold LIN_LPUART_SetRxDataPolarity. controls. Qed.

Lemma controls_break_on : controls true true break_detect_on.
Proof. unfold break_detect_on, set_bits. controls. Qed.

Lemma controls_break_off : controls true true break_detect_off.
Proof. unfold break_detect_off, clear_bits. controls. Qed.

Lemma controls_clear_flags mask : controls true true (LIN_LPUART_ClearStatusFlags mask).
Proof.
  unfold LIN_LPUART_ClearStatusFlags. apply controls_bind; [controls|intros _].
  apply controls_bind; [controls|intros ?]. apply controls_bind; [controls|intros _].
  apply controls_bind; [apply controls_flags|intros ?]. controls.
Qed.
End Operations.
#[export] Hint Resolve controls_enable controls_disable_break controls_disable_edge controls_disable_receive controls_flags controls_polarity
  controls_break_on controls_break_off controls_clear_flags
  mask_break_enable mask_receive_enable : driver.

(** ** The handler's first steps *)

Section Flags.
Context {D : Type} `{!Device lin_reg D} {F : LinFields} {X : LinFeatures} {L : LinLaws} {K : LinMasks}.

(** What a reading of the status flags tells. *)
Record flags_of (x : Z) (d : D) : Prop := {
  flags_break : has x kLPUART_LinBreakFlag = match line d with Some Break => true | _ => false end;
  flags_fe : has x kLPUART_FramingErrorFlag = match line d with Some (Bad _) => true | _ => false end;
  flags_rdrf b : line d = Some (Byte b) -> has x kLPUART_RxDataRegFullFlag = true;
  flags_tdre : has x kLPUART_TxDataRegEmptyFlag = tx_free d
}.

(** The FIFO's flags are shifted to bits the other flags do not use. *)
Lemma fifo_part x m k : Z.land (Z.shiftr m 16) k = 0 -> Z.land (Z.shiftr (Z.land x m) 16) k = 0.
Proof.
  intros H. rewrite Z.shiftr_land, <- Z.land_assoc, H. apply Z.land_0_r.
Qed.

Lemma wp_flags (Q : Z -> D -> Prop) d :
  (forall x, flags_of x d -> Q x d) -> wp LIN_LPUART_GetStatusFlags Q d.
Proof.
  intros HQ. unfold LIN_LPUART_GetStatusFlags. apply wp_bind, wp_rd; [done|].
  destruct lpuart_has_fifo.
  - apply wp_bind, wp_rd; [done|]. apply HQ.
    assert (H := mask_fifo). apply land_lor_0 in H. destruct H as [[H1 H2]%land_lor_0 [H3 H4]%land_lor_0].
    split; intros; rewrite has_lor_keep by (apply fifo_part; done).
    + apply stat_break.
    + apply stat_fe.
    + by eapply stat_rdrf.
    + apply stat_tdre.
  - apply HQ. split; [apply stat_break|apply stat_fe| |apply stat_tdre].
    intros b. apply stat_rdrf.
Qed.

(** The device after flags were acknowledged, [l] in the receiver. *)
Record acked (l : option symbol) (d d' : D) : Prop := {
  acked_sent : sent d' = sent d;
  acked_free : tx_free d' = tx_free d;
  acked_edge : edge_off d -> edge_off d';
  acked_hears : hears d -> hears d';
  acked_break : break_on d -> break_on d';
  acked_line : line d' = l
}.

(** The device after a character was taken from the receiver, or a break was
    acknowledged. *)
Definition took : D -> D -> Prop := acked None.

Lemma wp_read_byte d b (Q : Z -> D -> Prop) :
  line d = Some (Byte b) -> (forall d', took d d' -> Q b d') -> wp LIN_LPUART_ReadByte Q d.
Proof.
  intros Hb HQ. unfold LIN_LPUART_ReadByte, wp, bind, rd, ret.
  assert (H1 := read_byte d b Hb). assert (H2 := read_data d).
  destruct (reg_read DATA d) as [x d']. simpl in *. destruct H2 as (? & ? & Hr & Hc & ?).
  rewrite H1. apply HQ. split; try done; unfold edge_off, hears, break_on; by rewrite ?Hr, ?Hc.
Qed.

(** [temp &= ~flags; temp |= mask & flags] leaves of [flags] what is in
    [mask], and the rest as it was. *)
Lemma keep_only_in x flags mask m :
  0 <= m < 2 ^ 32 -> Z.land flags m = m -> has (keep_only x flags mask) m = has mask m.
Proof.
  intros Hm Hf. unfold keep_only, has, bic. do 2 f_equal. apply Z.bits_inj'. intros i Hi.
  rewrite Z.land_spec, Z.lor_spec, !Z.land_spec.
  assert (E : Z.testbit (Z.land flags m) i = Z.testbit m i) by by rewrite Hf.
  rewrite Z.land_spec in E. destruct (Z.testbit m i) eqn:Em; [|by rewrite !andb_false_r].
  rewrite andb_true_r in E. rewrite E.
  destruct (Z.lt_ge_cases i 32) as [Hlt|Hge].
  - rewrite wrap_testbit, Z.lnot_spec, E by lia. by destruct (Z.testbit x i), (Z.testbit mask i).
  - rewrite (testbit_above m 32) in Em by lia. done.
Qed.

Lemma keep_only_out x flags mask m :
  0 <= m < 2 ^ 32 -> Z.land flags m = 0 -> has (keep_only x flags mask) m = has x m.
Proof.
  intros Hm Hf. unfold keep_only. rewrite has_lor_keep.
  - by apply has_bic_keep.
  - by rewrite <- Z.land_assoc, Hf, Z.land_0_r.
Qed.

(** The value [LIN_LPUART_ClearStatusFlags] writes to STAT. *)
Definition clear_value (x mask : Z) : Z :=
  let x := keep_only (keep_only x LPUART_STAT_LBKDIF_MASK mask) stat_flags mask in
  if lpuart_has_address_matching then keep_only x match_flags mask else x.

Lemma clear_value_flags x mask :
  has (clear_value x mask) LPUART_STAT_LBKDIF_MASK = has mask LPUART_STAT_LBKDIF_MASK /\
  has (clear_value x mask) LPUART_STAT_FE_MASK = has mask LPUART_STAT_FE_MASK.
Proof.
  assert (Hb := mask_lbkdif). assert (Hf := mask_fe).
  destruct (land_lor_0 _ _ _ mask_match) as [Hm1 Hm2].
  unfold clear_value.
  assert (E1 : has (keep_only (keep_only x LPUART_STAT_LBKDIF_MASK mask) stat_flags mask)
    LPUART_STAT_LBKDIF_MASK = has mask LPUART_STAT_LBKDIF_MASK).
  { rewrite keep_only_out, keep_only_in; [done|lia|apply Z.land_diag|lia|apply mask_break_flags]. }
  assert (E2 : has (keep_only (keep_only x LPUART_STAT_LBKDIF_MASK mask) stat_flags mask)
    LPUART_STAT_FE_MASK = has mask LPUART_STAT_FE_MASK).
  { rewrite keep_only_in; [done|lia|apply mask_fe_flags]. }
  destruct lpuart_has_address_matching; [|done].
  by split; rewrite keep_only_out by (done || lia).
Qed.

(** The flags in [mask] are acknowledged, the others are not. *)
Lemma wp_clear_flags mask d (Q : status_t -> D -> Prop) :
  (forall x d', acked (stat_write mask (line d)) d d' -> Q x d') -> wp (LIN_LPUART_ClearStatusFlags mask) Q d.
Proof.
  intros HQ. unfold LIN_LPUART_ClearStatusFlags. apply wp_bind.
  assert (Hfifo : forall (x : bool) (y : Z -> Z),
    wp (when x (temp <- rd FIFO ;; wr FIFO (y temp))) (fun _ => acked (line d) d) d).
  { intros [] y; [|by split]. apply wp_bind, wp_rd; [done|]. apply wp_wr.
    destruct (sent_write FIFO (y (fst (reg_read FIFO d))) d) as [Hs Hf]; try done.
    split; unfold edge_off, hears, break_on; by rewrite ?baud_write, ?ctrl_write, ?line_write, ?decide_False by done. }
  eapply wp_mono; [exact (Hfifo lpuart_has_fifo (fun temp => Z.lor (bic32 temp fifo_flags)
    (Z.land (u32 (Z.shiftl mask 16)) fifo_flags)))|]. clear Hfifo. intros [] d1 [S1 F1 E1 H1 B1 L1].
  apply wp_bind, wp_rd; [done|]. apply wp_bind, wp_wr.
  fold (clear_value (fst (reg_read STAT d1)) mask).
  apply wp_bind, wp_flags. intros y _. apply wp_ret, HQ.
  destruct (sent_write STAT (clear_value (fst (reg_read STAT d1)) mask) d1) as [S2 F2]; try done.
  split; unfold edge_off, hears, break_on in *; rewrite ?baud_write, ?ctrl_write, ?decide_False by done;
    [congruence|congruence|exact E1|exact H1|exact B1|].
  rewrite line_write, decide_True, L1 by done.
  destruct (clear_value_flags (fst (reg_read STAT d1)) mask) as [C1 C2].
  unfold stat_write. by rewrite C1, C2.
Qed.

(** A break that is pending when the flag is written is gone; a character with
    a framing error is then read like any other. *)
Lemma wp_clear_break d (Q : status_t -> D -> Prop) :
  line d = Some Break -> (forall x d', took d d' -> Q x d') ->
  wp (LIN_LPUART_ClearStatusFlags kLPUART_LinBreakFlag) Q d.
Proof.
  intros Hl HQ. apply wp_clear_flags. intros x d'. rewrite Hl. unfold stat_write, kLPUART_LinBreakFlag.
  assert (H := mask_lbkdif). rewrite <- (Z.lor_0_l LPUART_STAT_LBKDIF_MASK) at 1.
  rewrite has_lor by lia. apply HQ.
Qed.

Lemma wp_clear_fe d b (Q : status_t -> D -> Prop) :
  line d = Some (Bad b) -> (forall x d', acked (Some (Byte b)) d d' -> Q x d') ->
  wp (LIN_LPUART_ClearStatusFlags kLPUART_FramingErrorFlag) Q d.
Proof.
  intros Hl HQ. apply wp_clear_flags. intros x d'. rewrite Hl. unfold stat_write, kLPUART_FramingErrorFlag.
  assert (H := mask_fe). rewrite <- (Z.lor_0_l LPUART_STAT_FE_MASK) at 1.
  rewrite has_lor by lia. apply HQ.
Qed.
End Flags.

(** ** One interrupt *)

Section Interrupt.
Context {D U : Type} `{!Device lin_reg D} {F : LinFields} {X : LinFeatures} {L : LinLaws} {K : LinMasks}.
Abbreviation W := (lin_world D U).
Context (instance : Z) (user_callback : M W unit) (timer_interval : M W Z).
Abbreviation irq := (LIN_LPUART_IRQHandler user_callback timer_interval).

(** An idle node expects a break, and so does the master that has sent one. *)
Definition waits_for_break (st : lin_state) : bool :=
  bool_decide (currentNodeState st = LIN_NODE_STATE_IDLE) ||
  bool_decide (currentNodeState st = LIN_NODE_STATE_SEND_BREAK_FIELD).

(** Initialised, awake as far as the peripheral is concerned, with a callback
    installed, and with the interrupts enabled that its state relies on. *)
Record ready (w : W) : Prop := {
  ready_st : l_st_set w = true;
  ready_cfg : l_cfg_set w = true;
  ready_edge : edge_off (l_hw w);
  ready_callback : Callback (l_st w) = true;
  ready_hears : hears (l_hw w);
  ready_break : waits_for_break (l_st w) = true -> break_on (l_hw w)
}.

Lemma wp_hw {A} (m : M D A) (Q : A -> W -> Prop) w :
  wp m (fun a d => Q a (set_hw d w)) (l_hw w) -> wp (on_hw m) Q w.
Proof. unfold wp, on_hw. by destruct (m (l_hw w)) as [[a d]|]. Qed.

Lemma wp_controls h b {A} (m : M D A) (Q : A -> W -> Prop) w :
  controls h b m -> (forall a d, ctl h b (l_hw w) d -> Q a (set_hw d w)) -> wp (on_hw m) Q w.
Proof.
  intros Hm HQ. apply wp_hw. specialize (Hm (l_hw w)). unfold wp in *.
  destruct (m (l_hw w)) as [[a d]|]; auto.
Qed.

Lemma wp_state (Q : lin_state -> W -> Prop) w :
  l_st_set w = true -> wp linCurrentState Q w <-> Q (l_st w) w.
Proof. intros H. unfold wp, linCurrentState. by rewrite H. Qed.

Lemma wp_upd f (Q : unit -> W -> Prop) w :
  l_st_set w = true -> wp (upd_st f) Q w <-> Q tt (set_st (f (l_st w)) w).
Proof. intros H. unfold wp, upd_st. by rewrite H. Qed.

Lemma wp_config (Q : lin_user_config -> W -> Prop) w :
  l_cfg_set w = true -> wp linUserConfig Q w <-> Q (l_cfg w) w.
Proof. intros H. unfold wp, linUserConfig. by rewrite H. Qed.

Lemma wp_hw_flags (Q : Z -> W -> Prop) w :
  (forall x, flags_of x (l_hw w) -> Q x w) -> wp (on_hw LIN_LPUART_GetStatusFlags) Q w.
Proof.
  intros HQ. apply wp_hw, wp_flags. intros x Hx. destruct w. by apply HQ.
Qed.

(** After the character has been consumed the handler only looks for an
    overrun. *)
Lemma wp_irq_tail (Q : unit -> W -> Prop) w :
  (forall d, ctl true true (l_hw w) d -> Q tt (set_hw d w)) ->
  wp (flags <- on_hw LIN_LPUART_GetStatusFlags ;;
      when (Z.land flags kLPUART_RxOverrunFlag =? kLPUART_RxOverrunFlag) (
        on_hw (LIN_LPUART_ClearStatusFlags kLPUART_RxOverrunFlag) ;; ret tt)) Q w.
Proof.
  intros HQ. apply wp_bind, wp_hw_flags. intros x _. destruct (_ =? _).
  - apply wp_bind, (wp_controls true true); [auto with driver|]. intros _ d Hd. by apply wp_ret, HQ.
  - apply wp_ret. destruct w. exact (HQ _ (ctl_refl _)).
Qed.

(** What happens after a character: [m] consumes it, then the tail. *)
Definition consumed (m : M W unit) (Q : W -> Prop) (w : W) : Prop :=
  wp m (fun _ w' => forall d, ctl true true (l_hw w') d -> Q (set_hw d w')) w.

Lemma edge_test x d : edge_off d -> x = baud_reg d -> has x (Z.shiftl 1 LPUART_BAUD_RXEDGIE_SHIFT) = false.
Proof. intros E ->. rewrite mask_rxedgie_shift. exact E. Qed.

Lemma irq_byte w b (Q : W -> Prop) :
  ready w -> line (l_hw w) = Some (Byte b) ->
  (forall d, took (l_hw w) d ->
    consumed (LIN_LPUART_ProcessFrame user_callback b) Q (set_hw d w)) ->
  wp irq (fun _ => Q) w.
Proof.
  intros [Hst Hcfg He Hcb Hh Hbk] Hl HQ. destruct w as [d st ss cfg cs p wk c t m u]. simpl in *.
  unfold LIN_LPUART_IRQHandler.
  apply wp_bind, wp_hw, wp_rd; [done|]. simpl.
  rewrite (edge_test _ d He (baud_read d)).
  apply wp_bind, wp_hw_flags. intros x1 H1. apply wp_bind.
  rewrite (flags_break _ _ H1). simpl. rewrite Hl.
  apply wp_bind, wp_hw_flags. intros x2 H2. rewrite andb_false_r.
  apply wp_bind, wp_hw_flags. intros x3 H3. rewrite (flags_fe _ _ H3). simpl. rewrite Hl.
  apply wp_bind, wp_hw_flags. intros x4 H4. rewrite (flags_rdrf _ _ H4 b Hl).
  apply wp_bind, (wp_controls true true); [auto with driver|]. intros _ d1 [S1 F1 L1 E1 H5 H6]. simpl in *.
  assert (Hl1 : line d1 = Some (Byte b)) by (rewrite L1; rewrite Hl; done).
  apply wp_bind, wp_hw, (wp_read_byte _ b); [exact Hl1|]. intros d2 [S2 F2 E2 H7 H8 L2]. simpl in *.
  assert (T : took d d2) by (split; [congruence|congruence|auto..|done]).
  eapply wp_mono; [exact (HQ d2 T)|]. simpl. intros [] w' Hw'. by apply wp_irq_tail.
Qed.

Lemma irq_break w (Q : W -> Prop) :
  ready w -> line (l_hw w) = Some Break ->
  consumed (LIN_LPUART_ProcessBreakDetect user_callback) Q w ->
  wp irq (fun _ => Q) w.
Proof.
  intros [Hst Hcfg He Hcb Hh Hbk] Hl HQ. destruct w as [d st ss cfg cs p wk c t m u]. simpl in *.
  unfold LIN_LPUART_IRQHandler.
  apply wp_bind, wp_hw, wp_rd; [done|]. simpl.
  apply wp_bind, wp_hw_flags. intros x1 H1. apply wp_bind.
  rewrite (flags_break _ _ H1). simpl. rewrite Hl.
  eapply wp_mono; [exact HQ|]. simpl. intros [] w' Hw'. by apply wp_irq_tail.
Qed.

(** A framing error: the flag is acknowledged and the character read. *)
Lemma irq_bad w b (Q : W -> Prop) :
  ready w -> line (l_hw w) = Some (Bad b) ->
  (forall d, took (l_hw w) d -> consumed (framing_error user_callback) Q (set_hw d w)) ->
  wp irq (fun _ => Q) w.
Proof.
  intros [Hst Hcfg He Hcb Hh Hbk] Hl HQ. destruct w as [d st ss cfg cs p wk c t m u]. simpl in *.
  unfold LIN_LPUART_IRQHandler.
  apply wp_bind, wp_hw, wp_rd; [done|]. simpl.
  rewrite (edge_test _ d He (baud_read d)).
  apply wp_bind, wp_hw_flags. intros x1 H1. apply wp_bind.
  rewrite (flags_break _ _ H1). simpl. rewrite Hl.
  apply wp_bind, wp_hw_flags. intros x2 H2. rewrite andb_false_r.
  apply wp_bind, wp_hw_flags. intros x3 H3. rewrite (flags_fe _ _ H3). simpl. rewrite Hl.
  unfold irq_framing_error. apply wp_bind, wp_hw, (wp_clear_fe _ b); [done|]. intros _ d1 [S1 F1 E1 H5 H6 L1]. simpl in *.
  apply wp_bind, wp_hw, (wp_read_byte _ b); [exact L1|]. intros d2 [S2 F2 E2 H7 H8 L2]. simpl in *.
  assert (T : took d d2) by (split; [congruence|congruence|auto..|done]).
  eapply wp_mono; [exact (HQ d2 T)|]. simpl. intros [] w' Hw'. by apply wp_irq_tail.
Qed.

(** Going idle writes control registers, and enables the receive and break
    interrupts: [d'] comes after [d]. *)
Record idled (d d' : D) : Prop := {
  idled_sent : sent d' = sent d;
  idled_edge : edge_off d -> edge_off d';
  idled_hears : hears d';
  idled_break : break_on d'
}.

Lemma wp_goto_idle (Q : lin_status -> W -> Prop) w :
  l_st_set w = true ->
  (forall d, idled (l_hw w) d ->
    Q LIN_SUCCESS (set_st (set_currentNodeState LIN_NODE_STATE_IDLE (l_st w)) (set_hw d w))) ->
  wp LIN_LPUART_GotoIdleState Q w.
Proof.
  intros Hss HQ. unfold LIN_LPUART_GotoIdleState.
  destruct w as [d0 st ss cfg cs p wk c t m u]. simpl in *.
  apply wp_bind, (wp_controls true true); [auto with driver|]. intros _ d1 C1. simpl in *.
  apply wp_bind, (wp_controls true true); [auto with driver|]. intros _ d2 C2. simpl in *.
  assert (C3 := controls_enable kLPUART_LinBreakInterruptEnable mask_break_enable d2).
  apply wp_bind, wp_hw. eapply wp_mono; [exact (wp_both _ _ _ _ C3 (enable_break_run d2))|]. intros _ d3 [C3' B3]. simpl in *. clear C3.
  assert (C4 := controls_enable receive_interrupts mask_receive_enable d3).
  apply wp_bind, wp_hw. eapply wp_mono; [exact (wp_both _ _ _ _ C4 (enable_receive_run d3))|]. intros _ d4 [C4' H4]. simpl in *. clear C4.
  apply wp_bind, (wp_controls true true); [auto with driver|]. intros _ d5 C5. simpl in *.
  apply wp_bind, wp_upd; [done|]. apply wp_ret, HQ.
  destruct C1 as [S1 _ _ E1 _ _], C2 as [S2 _ _ E2 _ _], C3' as [S3 _ _ E3 _ _], C4' as [S4 _ _ E4 _ B4], C5 as [S5 _ _ E5 H5 B5].
  split; [congruence|auto 10|auto|auto].
Qed.
End Interrupt.

(** ** A peripheral that obeys the laws

    The LPUART's layout, one character in the receiver, a list of characters
    sent.  The examples run on it. *)

#[export] Instance lpuart_fields : LinFields := {|
  LPUART_BAUD_LBKDIE_MASK := 2 ^ 15; LPUART_BAUD_RXEDGIE_MASK := 2 ^ 14; LPUART_BAUD_RXEDGIE_SHIFT := 14;
  LPUART_BAUD_BOTHEDGE_MASK := 2 ^ 17; LPUART_BAUD_OSR_MASK := Z.shiftl 31 24;
  LPUART_BAUD_OSR x := Z.land (Z.shiftl x 24) (Z.shiftl 31 24);
  LPUART_BAUD_SBR_MASK := 8191; LPUART_BAUD_SBR x := Z.land x 8191; LPUART_BAUD_M10_MASK := 2 ^ 29;
  LPUART_BAUD_SBNS_MASK := 2 ^ 13; LPUART_BAUD_SBNS x := Z.land (Z.shiftl x 13) (2 ^ 13);
  LPUART_CTRL_TE_MASK := 2 ^ 19; LPUART_CTRL_RE_MASK := 2 ^ 18; LPUART_CTRL_M_MASK := 2 ^ 4;
  LPUART_CTRL_PE_MASK := 2; LPUART_CTRL_PT_MASK := 1; LPUART_CTRL_RIE_MASK := 2 ^ 21;
  LPUART_CTRL_FEIE_MASK := 2 ^ 25;
  LPUART_STAT_TDRE_MASK := 2 ^ 23; LPUART_STAT_TC_MASK := 2 ^ 22; LPUART_STAT_RDRF_MASK := 2 ^ 21;
  LPUART_STAT_LBKDIF_MASK := 2 ^ 31; LPUART_STAT_RXEDGIF_MASK := 2 ^ 30; LPUART_STAT_IDLE_MASK := 2 ^ 20;
  LPUART_STAT_OR_MASK := 2 ^ 19; LPUART_STAT_NF_MASK := 2 ^ 18; LPUART_STAT_FE_MASK := 2 ^ 17;
  LPUART_STAT_PF_MASK := 2 ^ 16; LPUART_STAT_MA1F_MASK := 2 ^ 15; LPUART_STAT_MA2F_MASK := 2 ^ 14;
  LPUART_STAT_LBKDE_MASK := 2 ^ 25; LPUART_STAT_BRK13_MASK := 2 ^ 26;
  LPUART_STAT_RXINV_MASK := 2 ^ 28; LPUART_STAT_RXINV_SHIFT := 28;
  LPUART_FIFO_TXOF_MASK := 2 ^ 17; LPUART_FIFO_RXUF_MASK := 2 ^ 16; LPUART_FIFO_TXOFE_MASK := 2 ^ 9;
  LPUART_FIFO_RXUFE_MASK := 2 ^ 8; LPUART_FIFO_TXEMPT_MASK := 2 ^ 23; LPUART_FIFO_RXEMPT_MASK := 2 ^ 22;
  LPUART_DATA_FRETSC x := Z.land (Z.shiftl x 13) (2 ^ 13)
|}.

#[export] Instance lpuart_features : LinFeatures := {|
  lpuart_has_fifo := true; lpuart_fifo_size := 4; lpuart_has_address_matching := true;
  lpuart_has_modem := true; FSL_FEATURE_SOC_LPUART_COUNT := 2; lin_stack_enabled := false;
  LIN_LPUART_CLOCK_FREQ := 48000000; LIN_LPUART_TRANSMISSION_COMPLETE_TIMEOUT := 0
|}.

#[export] Instance lpuart_masks : LinMasks.
Proof. split; vm_compute; repeat split; reflexivity. Defined.

Record lpuart := Lpuart {
  p_regs : lin_reg -> Z; p_line : option symbol; p_sent : list symbol; p_free : bool
}.

(** A character has eight bits. *)
Definition char8 (x : symbol) : symbol :=
  match x with Break => Break | Byte b => Byte (u8 b) | Bad b => Bad (u8 b) end.

Definition stat_controls : Z :=
  Z.lor (Z.lor LPUART_STAT_LBKDE_MASK LPUART_STAT_BRK13_MASK) LPUART_STAT_RXINV_MASK.
Definition lpuart_stat (d : lpuart) : Z :=
  Z.lor (Z.lor (match p_line d with
      | None => 0 | Some Break => LPUART_STAT_LBKDIF_MASK | Some (Byte _) => LPUART_STAT_RDRF_MASK
      | Some (Bad _) => Z.lor LPUART_STAT_RDRF_MASK LPUART_STAT_FE_MASK end)
    (if p_free d then Z.lor LPUART_STAT_TDRE_MASK LPUART_STAT_TC_MASK else 0))
    (Z.land (p_regs d STAT) stat_controls).

Definition lpuart_read (r : lin_reg) (d : lpuart) : Z * lpuart :=
  match r with
  | STAT => (lpuart_stat d, d)
  | DATA => (match p_line d with Some (Byte b) | Some (Bad b) => b | _ => 0 end,
             Lpuart (p_regs d) None (p_sent d) (p_free d))
  | _ => (p_regs d r, d)
  end.

Definition lpuart_write (r : lin_reg) (v : Z) (d : lpuart) : lpuart :=
  match r with
  | STAT => Lpuart (fun_device.(reg_write) STAT v (p_regs d)) (stat_write v (p_line d)) (p_sent d) (p_free d)
  | DATA => Lpuart (p_regs d) (p_line d)
      (p_sent d ++ [if v =? LPUART_DATA_FRETSC 1 then Break else Byte (u8 v)]) false
  | DATA_BYTE => Lpuart (p_regs d) (p_line d) (p_sent d ++ [Byte (u8 v)]) false
  | _ => Lpuart (fun_device.(reg_write) r v (p_regs d)) (p_line d) (p_sent d) (p_free d)
  end.

#[export] Instance lpuart_device : Device lin_reg lpuart :=
  {| reg_read := lpuart_read; reg_write := lpuart_write |}.

Lemma lpuart_flag d m (a : bool) :
  Z.land stat_controls m = 0 ->
  (forall l, has (Z.lor (match l with
      | None => 0 | Some Break => LPUART_STAT_LBKDIF_MASK | Some (Byte _) => LPUART_STAT_RDRF_MASK
      | Some (Bad _) => Z.lor LPUART_STAT_RDRF_MASK LPUART_STAT_FE_MASK end)
    (if p_free d then Z.lor LPUART_STAT_TDRE_MASK LPUART_STAT_TC_MASK else 0)) m = a \/ p_line d <> l) ->
  has (lpuart_stat d) m = a.
Proof.
  intros Hm H. unfold lpuart_stat. rewrite has_lor_keep by by rewrite <- Z.land_assoc, Hm, Z.land_0_r.
  by destruct (H (p_line d)).
Qed.

#[export] Instance lpuart_laws : LinLaws (D := lpuart).
Proof.
  unshelve refine {|
    sent := p_sent; line d := char8 <$> p_line d; tx_free := p_free; baud_reg d := p_regs d BAUD; ctrl_reg d := p_regs d CTRL |}.
  - by intros [] d Hr.
  - done.
  - intros d b. simpl. destruct (p_line d) as [[| |]|]; simpl; intros [= <-]; done.
  - intros d. simpl. apply lpuart_flag; [done|]. intros l.
    destruct (decide (p_line d = l)) as [<-|]; [left|by right].
    by destruct (p_line d) as [[| |]|], (p_free d).
  - intros d. simpl. apply lpuart_flag; [done|]. intros l.
    destruct (decide (p_line d = l)) as [<-|]; [left|by right].
    by destruct (p_line d) as [[| |]|], (p_free d).
  - intros d b. simpl. intros Hl. apply lpuart_flag; [done|]. intros l.
    destruct (decide (p_line d = l)) as [<-|]; [left|by right].
    by destruct (p_line d) as [[| |]|], (p_free d).
  - intros d. simpl. apply lpuart_flag; [done|]. intros l.
    destruct (decide (p_line d = l)) as [<-|]; [left|by right].
    by destruct (p_line d) as [[| |]|], (p_free d).
  - done.
  - done.
  - by intros [] v d.
  - by intros [] v d.
  - intros [] v d; simpl; try done. destruct (p_line d) as [[| |]|]; simpl; try done; by destruct (has v _).
  - by intros [] v d H1 H2.
  - done.
  - done.
Defined.
