(* ===== verification/LinFrames.v ===== *)
(** * The LIN driver: frames on the bus

    On a LIN bus every node hears the single wire, its own characters
    included.  [after] runs a node's interrupt handler over characters that
    arrive, [echo] over the characters the node itself has sent; a character
    whose interrupt is not enabled ([fires]) passes unseen.  The theorems
    follow a frame: the master's header, the response of the publisher, the
    reception by a subscriber, and what happens when something is refused,
    corrupted, late or lost. *)

From stdpp Require Import base list numbers tactics.
From Stdlib Require Import ZArith Lia.
From S2P Require Import Prelude Mmio LinBytes Lin LinNode.

Open Scope Z_scope.
Open Scope prog_scope.

Section Bus.
Context {D U : Type} `{!Device lin_reg D} {F : LinFields} {X : LinFeatures} {L : LinLaws} {K : LinMasks}.
Abbreviation W := (lin_world D U).
Context (instance : Z) (user_callback : M W unit) (timer_interval : M W Z).
Abbreviation irq := (LIN_LPUART_IRQHandler user_callback timer_interval).
Implicit Types w : W.

(** A character arrives: nothing else changes, but for the transmitter, which
    has shifted out what it held. *)
Definition arrives (x : symbol) (d d' : D) : Prop :=
  line d' = Some x /\ sent d' = sent d /\ tx_free d' = true /\ baud_reg d' = baud_reg d /\ ctrl_reg d' = ctrl_reg d.

(** An enabled interrupt source is up once the character has arrived. *)
Definition fires (x : symbol) (d : D) : bool :=
  has (baud_reg d) LPUART_BAUD_RXEDGIE_MASK ||
  match x with
  | Break => has (baud_reg d) LPUART_BAUD_LBKDIE_MASK
  | Byte _ => has (ctrl_reg d) LPUART_CTRL_RIE_MASK
  | Bad _ => has (ctrl_reg d) LPUART_CTRL_RIE_MASK || has (ctrl_reg d) LPUART_CTRL_FEIE_MASK
  end.

(** The node once [x] has arrived and the interrupt, if any, was served. *)
Definition served (x : symbol) (Q : W -> Prop) (w : W) : Prop := forall d, arrives x (l_hw w) d ->
  if fires x d then wp irq (fun _ => Q) (set_hw d w) else Q (set_hw d w).

(** Each character in turn arrives and is handled; then [Q] holds. *)
Fixpoint after (xs : list symbol) (Q : W -> Prop) (w : W) : Prop :=
  match xs with
  | [] => Q w
  | x :: xs => served x (after xs Q) w
  end.

(** [n] times the character sent last comes back and is handled; then [Q]
    holds. *)
Fixpoint echo (n : nat) (Q : W -> Prop) (w : W) : Prop :=
  match n with
  | O => Q w
  | S n => exists l x, sent (l_hw w) = l ++ [x] /\ served x (echo n Q) w
  end.

Lemma served_mono x (P Q : W -> Prop) w : served x P w -> (forall w', P w' -> Q w') -> served x Q w.
Proof.
  intros H HPQ d Hd. specialize (H d Hd). destruct (fires x d); [|by apply HPQ].
  eapply wp_mono; [exact H|]. intros []. exact HPQ.
Qed.

Lemma after_app xs ys (Q : W -> Prop) w : after (xs ++ ys) Q w <-> after xs (after ys Q) w.
Proof.
  revert w. induction xs as [|x xs IH]; intros w; [done|].
  split; intros H; (eapply served_mono; [exact H|]); intros w' Hw'; by apply IH.
Qed.

Lemma after_mono xs (P Q : W -> Prop) w : after xs P w -> (forall w', P w' -> Q w') -> after xs Q w.
Proof.
  revert w. induction xs as [|x xs IH]; intros w H HPQ; [by apply HPQ|].
  eapply served_mono; [exact H|]. intros w' Hw'. by apply IH.
Qed.

Lemma echo_mono n (P Q : W -> Prop) w : echo n P w -> (forall w', P w' -> Q w') -> echo n Q w.
Proof.
  revert w. induction n as [|n IH]; intros w H HPQ; [by apply HPQ|].
  destruct H as (l & x & Hs & H). exists l, x. split; [done|].
  eapply served_mono; [exact H|]. intros w' Hw'. by apply IH.
Qed.

Lemma ready_arrives w x d : ready w -> arrives x (l_hw w) d -> ready (set_hw d w).
Proof.
  intros [R1 R2 R3 R4 R5 R6] (_ & _ & _ & Hb & Hc). destruct w. simpl in *.
  split; unfold edge_off, hears, break_on in *; simpl; by rewrite ?Hb, ?Hc.
Qed.

(** A ready node serves every byte, and a break when it expects one. *)
Lemma ready_served w x (Q : W -> Prop) :
  ready w -> (x = Break -> waits_for_break (l_st w) = true) ->
  (forall d, arrives x (l_hw w) d -> wp irq (fun _ => Q) (set_hw d w)) -> served x Q w.
Proof.
  intros R Hx H d Hd. replace (fires x d) with true; [by apply H|]. symmetry.
  destruct (ready_arrives w x d R Hd) as [_ _ _ _ [H1 H2] H3]. destruct w. simpl in *. unfold fires, break_on in *.
  destruct x; [by rewrite H3, orb_true_r by auto|by rewrite H1, orb_true_r|by rewrite H1, orb_true_r].
Qed.

(** The callback only looks at the event, and updates the application. *)
Context (observe : lin_event_id -> U -> U)
  (callback_observes : forall w,
     user_callback w = Ok (tt, set_user (observe (currentEventId (l_st w)) (l_user w)) w)).

Lemma wp_callback (Q : unit -> W -> Prop) w :
  l_st_set w = true -> Callback (l_st w) = true ->
  Q tt (set_user (observe (currentEventId (l_st w)) (l_user w)) w) -> wp (callback user_callback) Q w.
Proof.
  intros Hs Hc HQ. unfold callback. apply wp_bind, wp_state; [done|]. rewrite Hc.
  unfold wp. by rewrite callback_observes.
Qed.

(** The node after a step from [w]: what was sent, the memory, the
    application, and its state. *)
Record post (w : W) (out : list symbol) (m : Z -> Z) (u : U) (P : lin_state -> Prop) (w' : W) : Prop := {
  post_ready : ready w';
  post_cfg : l_cfg w' = l_cfg w;
  post_mem : l_mem w' = m;
  post_user : l_user w' = u;
  post_sent : sent (l_hw w') = sent (l_hw w) ++ out;
  post_state : P (l_st w')
}.

Lemma post_ctl w out m u P w' d : post w out m u P w' -> ctl true true (l_hw w') d -> post w out m u P (set_hw d w').
Proof.
  intros [[R1 R2 R3 R4 R5 R6] Hc Hm Hu Hs HP] [Hs' Hf Hl He Hh Hb]. destruct w'. simpl in *.
  split; simpl; try done.
  - split; simpl; auto.
  - congruence.
Qed.

Lemma post_trans w w1 w2 out1 out2 m1 m2 u1 u2 P1 P2 :
  post w out1 m1 u1 P1 w1 -> post w1 out2 m2 u2 P2 w2 -> post w (out1 ++ out2) m2 u2 P2 w2.
Proof.
  intros [R1 C1 M1 U1 S1 _] [R2 C2 M2 U2 S2 Q2]. split; try done; [congruence|].
  by rewrite S2, S1, app_assoc.
Qed.

Lemma post_mono w out m u (P P' : lin_state -> Prop) w' :
  post w out m u P w' -> (forall st, P st -> P' st) -> post w out m u P' w'.
Proof. intros [] H. split; auto. Qed.

(** What the device has been through since [d0]: characters sent, the edge
    interrupt still off; [h] and [b] say whether the receive interrupts and the
    break interrupt are as enabled as they were. *)
Record went (h b : bool) (d0 : D) (out : list symbol) (d : D) : Prop := {
  went_sent : sent d = sent d0 ++ out;
  went_edge : edge_off d0 -> edge_off d;
  went_hears : h = true -> hears d0 -> hears d;
  went_on : b = true -> break_on d0 -> break_on d
}.

(** The same, and the break interrupt is enabled. *)
Record settled (d0 : D) (out : list symbol) (d : D) : Prop := {
  settled_sent : sent d = sent d0 ++ out;
  settled_edge : edge_off d0 -> edge_off d;
  settled_hears : hears d0 -> hears d;
  settled_on : break_on d
}.

Lemma went_refl d : went true true d [] d.
Proof. split; [by rewrite app_nil_r|done..]. Qed.

Lemma went_ctl h b h' b' d0 out d d' :
  went h b d0 out d -> ctl h' b' d d' -> went (h && h') (b && b') d0 out d'.
Proof.
  intros [S E H B] [Sc _ _ Ec Hc Bc]. split; [congruence|auto|intros []%andb_prop; auto|intros []%andb_prop; auto].
Qed.

Lemma went_idled h b d0 out d d' : went h b d0 out d -> idled d d' -> settled d0 out d'.
Proof. intros [S E _ _] [Sc Ec Hc Bc]. split; [congruence|auto..]. Qed.

(** A character handed to the transmitter changes nothing else. *)
Lemma went_put h b d0 out d d' x :
  went h b d0 out d -> sent d' = sent d ++ [x] -> baud_reg d' = baud_reg d -> ctrl_reg d' = ctrl_reg d ->
  went h b d0 (out ++ [x]) d'.
Proof.
  intros [S E H B] Hs Hb Hc. split; unfold edge_off, hears, break_on in *; rewrite ?Hb, ?Hc; try done.
  by rewrite Hs, S, app_assoc.
Qed.

Lemma wp_write_byte h b d0 out v (Q : unit -> W -> Prop) w :
  went h b d0 out (l_hw w) ->
  (forall d, went h b d0 (out ++ [Byte (u8 v)]) d -> Q tt (set_hw d w)) -> wp (on_hw (LIN_LPUART_WriteByte v)) Q w.
Proof.
  intros G HQ. apply wp_hw, wp_wr, HQ. apply (went_put _ _ _ _ _ _ _ G); [apply sent_byte| |];
    by rewrite ?baud_write, ?ctrl_write, decide_False by done.
Qed.

(** The break interrupt is enabled and a break sent. *)
Lemma wp_start_break b d0 out (Q : lin_status -> W -> Prop) w :
  went true b d0 out (l_hw w) ->
  (forall d, settled d0 (out ++ [Break]) d -> Q LIN_SUCCESS (set_hw d w)) ->
  wp (on_hw (LIN_LPUART_EnableInterrupts kLPUART_LinBreakInterruptEnable) ;; on_hw LIN_LPUART_QueueBreakChar ;;
      ret LIN_SUCCESS) Q w.
Proof.
  intros [S E H _] HQ. assert (C := controls_enable kLPUART_LinBreakInterruptEnable mask_break_enable (l_hw w)).
  apply wp_bind, wp_hw. eapply wp_mono; [exact (wp_both _ _ _ _ C (enable_break_run (l_hw w)))|].
  intros [] d [[S1 _ _ E1 H1 _] B1]. apply wp_bind, wp_hw, wp_bind, wp_wr, wp_ret, wp_ret.
  replace (l_hw (set_hw d w)) with d by by destruct w.
  replace (set_hw _ (set_hw d w)) with (set_hw (reg_write DATA (LPUART_DATA_FRETSC 1) d) w) by by destruct w.
  apply HQ. split; unfold edge_off, hears, break_on in *; rewrite ?baud_write, ?ctrl_write, ?decide_False by done; auto.
  by rewrite sent_break, S1, S, app_assoc.
Qed.

Lemma arrives_took w x d d' : arrives x (l_hw w) d -> took d d' -> went true true (l_hw w) [] d'.
Proof.
  intros (_ & Hs & _ & Hb & Hc) [S _ E H B _].
  split; unfold edge_off, hears, break_on in *; rewrite <- ?Hb, <- ?Hc; auto. by rewrite app_nil_r, S.
Qed.

Lemma went_post b w out d m u P w' :
  ready w -> went true b (l_hw w) out d -> l_hw w' = d -> l_st_set w' = true -> l_cfg_set w' = true ->
  Callback (l_st w') = true -> l_cfg w' = l_cfg w -> l_mem w' = m -> l_user w' = u ->
  waits_for_break (l_st w') = false -> P (l_st w') -> post w out m u P w'.
Proof.
  intros [R1 R2 R3 R4 R5 R6] [S E H B] Hd H1 H2 H3 H4 H5 H6 H7 H8. split; try done.
  - split; try done; [rewrite Hd; auto|rewrite Hd; auto|by rewrite H7].
  - by rewrite Hd.
Qed.

Lemma settled_post w out d m u P w' :
  ready w -> settled (l_hw w) out d -> l_hw w' = d -> l_st_set w' = true -> l_cfg_set w' = true ->
  Callback (l_st w') = true -> l_cfg w' = l_cfg w -> l_mem w' = m -> l_user w' = u ->
  P (l_st w') -> post w out m u P w'.
Proof.
  intros [R1 R2 R3 R4 R5 R6] [S E H B] Hd H1 H2 H3 H4 H5 H6 H7. split; try done.
  - split; try done; rewrite Hd; auto.
  - by rewrite Hd.
Qed.
End Bus.

(** [lin_step] executes one operation of the driver on a world given field by
    field; [went]-facts about the device are carried along. *)
Ltac lin_step :=
  lazymatch goal with
  | |- wp (bind _ _) _ _ => apply wp_bind
  | |- wp (ret _) _ _ => apply wp_ret
  | |- wp linCurrentState _ _ => apply wp_state; [done|]
  | |- wp linUserConfig _ _ => apply wp_config; [done|]
  | |- wp (upd_st _) _ _ => apply wp_upd; [done|]
  | |- wp (event _) _ _ => apply wp_upd; [done|]
  | |- wp (node_state _) _ _ => apply wp_upd; [done|]
  | |- wp (gets _) _ _ => apply wp_gets
  | |- wp get _ _ => apply wp_get
  | |- wp (modify _) _ _ => apply wp_modify
  | |- wp (load _) _ _ => apply wp_gets
  | |- wp (store _ _) _ _ => apply wp_modify
  | |- wp (callback _) _ _ => eapply wp_callback; [eassumption|done|done|]
  | |- wp LIN_LPUART_GotoIdleState _ _ => apply wp_goto_idle; [done|]; intros ? ?
  | |- wp (on_hw (LIN_LPUART_WriteByte _)) _ _ => eapply wp_write_byte; [eassumption|]; intros ? ?
  | |- wp (on_hw _) _ _ => eapply wp_controls; [solve [eauto with driver]|]; intros ? ? ?
  end; simpl in *;
  repeat match goal with
  | H : went _ _ _ _ ?d, H' : ctl _ _ ?d _ |- _ => apply (went_ctl _ _ _ _ _ _ _ _ H) in H'; clear H; cbn [andb] in H'
  | H : went _ _ _ _ ?d, H' : idled ?d _ |- _ => apply (went_idled _ _ _ _ _ _ H) in H'; clear H
  | H : went _ _ ?a _ ?d, H' : went _ _ ?a _ ?d' |- _ => lazymatch goal with |- context [d] => fail | _ => clear H end
  end.

(** [lin_post R] ends the run of an operation from the ready world [R]. *)
Ltac lin_post R :=
  first [eapply settled_post; [exact R|eassumption|done..|] | eapply went_post; [exact R|eassumption|done..|]].

(** ** Transmission and reception of a response *)

Section Responses.
Context {D U : Type} `{!Device lin_reg D} {F : LinFields} {X : LinFeatures} {L : LinLaws} {K : LinMasks}.
Abbreviation W := (lin_world D U).
Context (instance : Z) (user_callback : M W unit) (timer_interval : M W Z).
Abbreviation irq := (LIN_LPUART_IRQHandler user_callback timer_interval).
Context (observe : lin_event_id -> U -> U)
  (callback_observes : forall w,
     user_callback w = Ok (tt, set_user (observe (currentEventId (l_st w)) (l_user w)) w)).
Implicit Types w : W.
Abbreviation after := (after user_callback timer_interval).
Abbreviation echo := (echo user_callback timer_interval).

(** The bus is free and the node awake: a request is accepted. *)
Definition available (st : lin_state) : Prop :=
  isBusBusy st = false /\ currentNodeState st <> LIN_NODE_STATE_SLEEP_MODE.
(** The node has finished with event [e]. *)
Definition finished (e : lin_event_id) (st : lin_state) : Prop :=
  currentNodeState st = LIN_NODE_STATE_IDLE /\ isBusBusy st = false /\ currentEventId st = e.

(** [k] of [n] bytes at [buf] sent and heard, the next one on its way. *)
Record sending (buf n k cs : Z) (st : lin_state) : Prop := {
  sending_state : currentNodeState st = LIN_NODE_STATE_SEND_DATA;
  sending_cnt : cntByte st = k;
  sending_buff : txBuff st = buf + k;
  sending_size : txSize st = n + 1;
  sending_sum : checkSum st = cs;
  sending_busy : isBusBusy st = true;
  sending_event : currentEventId st = LIN_NO_EVENT
}.

(** [k] of [n] bytes received. *)
Record receiving (buf n k pid : Z) (st : lin_state) : Prop := {
  receiving_state : currentNodeState st = LIN_NODE_STATE_RECV_DATA;
  receiving_cnt : cntByte st = k;
  receiving_buff : rxBuff st = buf + k;
  receiving_size : rxSize st = n + 1;
  receiving_pid : currentPid st = pid;
  receiving_busy : isBusBusy st = true;
  receiving_event : currentEventId st = LIN_NO_EVENT;
  receiving_blocking : isRxBlocking st = false
}.

Lemma size_tests n : 1 <= n <= 8 -> (8 <? n) = false /\ (n =? 0) = false.
Proof. intros. split; [apply Z.ltb_ge|apply Z.eqb_neq]; lia. Qed.

Lemma awake_test st : currentNodeState st <> LIN_NODE_STATE_SLEEP_MODE -> sleeping st = false.
Proof. intros. unfold sleeping. by rewrite bool_decide_false. Qed.

Lemma SendFrameData_run w buf n :
  ready w -> available (l_st w) -> (1 <= n <= 8)%nat -> buf <> 0 -> 0 < currentPid (l_st w) < 256 ->
  Forall byte (bytes_of (l_mem w) n buf) ->
  wp (LIN_LPUART_SendFrameData buf (Z.of_nat n)) (fun r w' => r = LIN_SUCCESS /\
    post w [Byte (l_mem w buf)] (l_mem w) (l_user w)
      (sending buf (Z.of_nat n) 0 (frame_checksum (currentPid (l_st w)) (bytes_of (l_mem w) n buf))) w') w.
Proof.
  intros R [Hbusy Hawake] Hn Hbuf Hpid Hb.
  destruct (size_tests (Z.of_nat n) ltac:(lia)) as [T1 T2].
  assert (Hb0 : byte (l_mem w buf)).
  { destruct n as [|n']; [lia|]. simpl in Hb. by inversion Hb. }
  destruct (R) as [Hst Hcfg He Hcb _ _]. unfold LIN_LPUART_SendFrameData.
  apply wp_bind, wp_assert; [by rewrite (proj2 (Z.eqb_neq buf 0))|].
  apply wp_bind, wp_state; [done|].
  rewrite T1, T2, (awake_test _ Hawake), Hbusy. simpl.
  apply wp_bind, wp_gets. apply wp_bind. eapply wp_lift; [by apply MakeChecksum_ok|].
  destruct w as [d st ss cfg cs p wk c t m u]. destruct st. simpl in *. subst.
  assert (G := went_refl d).
  repeat lin_step. split; [done|].
  rewrite wrap_small in * by exact Hb0.
  lin_post R.
  rewrite (wrap_small 8) by (pow2; lia). split; simpl; (done || lia).
Qed.
Lemma irq_byte_post w d b out m u P :
  ready w -> arrives (Byte b) (l_hw w) d ->
  (forall d', went true true (l_hw w) [] d' -> tx_free d' = true ->
    wp (LIN_LPUART_ProcessFrame user_callback b) (fun _ w' => post w out m u P w') (set_hw d' w)) ->
  wp irq (fun _ w' => post w out m u P w') (set_hw d w).
Proof.
  intros R Ha H. assert (R' := ready_arrives _ _ _ R Ha). destruct (Ha) as (Hl & Hs & Hf & Hb).
  apply (irq_byte user_callback timer_interval (set_hw d w) b); [exact R'|by destruct w|].
  intros d' T. unfold consumed. replace (set_hw d' (set_hw d w)) with (set_hw d' w) by by destruct w.
  replace (l_hw (set_hw d w)) with d in T by by destruct w.
  eapply wp_mono; [apply H|].
  - by apply (arrives_took w (Byte b) d).
  - rewrite (acked_free _ _ _ T). exact Hf.
  - intros [] w' Hw' d'' Hd''. by eapply post_ctl.
Qed.

Lemma frame_send w b (Q : unit -> W -> Prop) :
  l_st_set w = true -> currentNodeState (l_st w) = LIN_NODE_STATE_SEND_DATA ->
  wp (LIN_LPUART_ProcessSendFrameData user_callback b) Q w ->
  wp (LIN_LPUART_ProcessFrame user_callback b) Q w.
Proof.
  intros Hst Hn H. unfold LIN_LPUART_ProcessFrame. apply wp_bind, wp_state; [done|]. by rewrite Hn.
Qed.

(** A byte heard as it was sent: the next one follows, or the checksum. *)
Lemma send_step w d buf n k cs b next :
  ready w -> sending buf n k cs (l_st w) -> 0 <= k < n -> n <= 8 ->
  l_mem w (buf + k) = b -> byte next -> (if k + 1 =? n then cs else l_mem w (buf + (k + 1))) = next ->
  arrives (Byte b) (l_hw w) d ->
  wp irq (fun _ w' => post w [Byte next] (l_mem w) (l_user w) (sending buf n (k + 1) cs) w') (set_hw d w).
Proof.
  intros R [S1 S2 S3 S4 S5 S6 S7] Hk Hn Hb Hbyte Hnext Ha.
  apply (irq_byte_post w d b); [exact R|exact Ha|]. intros d' G Hfree.
  destruct (R) as [Hst Hcfg He Hcb _ _]. destruct w as [d0 st ss cfg cs0 p wk c t m u]. destruct st.
  simpl in *. subst. apply frame_send; [done|done|]. unfold LIN_LPUART_ProcessSendFrameData.
  apply wp_bind, wp_hw_flags. intros x Hx. rewrite (flags_tdre _ _ Hx). simpl. rewrite Hfree. simpl.
  repeat lin_step.
  rewrite (wrap_small 8 (n + 1 - k)) by (pow2; lia).
  rewrite (proj2 (Z.eqb_neq (n + 1 - k) 1)) by lia. rewrite Z.eqb_refl. simpl.
  repeat lin_step. unfold send_next. repeat lin_step.
  rewrite (wrap_small 8 (k + 1)) by (pow2; lia).
  rewrite (proj2 (Z.ltb_lt (k + 1) (n + 1))) by lia.
  destruct (Z.eqb_spec (k + 1) n) as [E|E].
  - rewrite (proj2 (Z.eqb_eq (n + 1 - (k + 1)) 1)) by lia.
    lin_step. rewrite wrap_small in * by exact Hbyte.
    lin_post R. split; simpl; (done || lia).
  - rewrite (proj2 (Z.eqb_neq (n + 1 - (k + 1)) 1)) by lia.
    repeat lin_step. replace (buf + k + 1) with (buf + (k + 1)) in * by lia.
    rewrite wrap_small in * by exact Hbyte.
    lin_post R. split; simpl; (done || lia).
Qed.

(** The checksum heard: the transmission is complete. *)
Lemma send_last w d buf n cs :
  ready w -> sending buf n n cs (l_st w) -> 1 <= n <= 8 -> arrives (Byte cs) (l_hw w) d ->
  wp irq (fun _ w' => post w [] (l_mem w) (observe LIN_TX_COMPLETED (l_user w)) (fun st =>
    finished LIN_TX_COMPLETED st /\ isTxBusy st = false) w') (set_hw d w).
Proof.
  intros R [S1 S2 S3 S4 S5 S6 S7] Hn Ha.
  apply (irq_byte_post w d cs); [exact R|exact Ha|]. intros d' G Hfree.
  destruct (R) as [Hst Hcfg He Hcb _ _]. destruct w as [d0 st ss cfg cs0 p wk c t m u]. destruct st.
  simpl in *. subst. apply frame_send; [done|done|]. unfold LIN_LPUART_ProcessSendFrameData.
  apply wp_bind, wp_hw_flags. intros x Hx. rewrite (flags_tdre _ _ Hx). simpl. rewrite Hfree. simpl.
  repeat lin_step.
  rewrite (wrap_small 8 (n + 1 - n)) by (pow2; lia).
  rewrite (proj2 (Z.eqb_eq (n + 1 - n) 1)) by lia. rewrite Z.eqb_refl, andb_false_r. simpl.
  repeat lin_step. unfold send_next. repeat lin_step.
  rewrite (wrap_small 8 (n + 1)) by (pow2; lia). rewrite Z.ltb_irrefl.
  repeat lin_step. destruct isTxBlocking; repeat lin_step;
    (lin_post R; split; [split; done|done]).
Qed.
Lemma bytes_of_at m n a k : (0 <= k < Z.of_nat n) -> Forall byte (bytes_of m n a) -> byte (m (a + k)).
Proof.
  revert a k. induction n as [|n IH]; intros a k Hk Hb; [lia|]. simpl in Hb. inversion Hb; subst.
  destruct (Z.eq_dec k 0) as [->|Hk0]; [by rewrite Z.add_0_r|].
  replace (a + k) with (a + 1 + (k - 1)) by lia. apply IH; [lia|done].
Qed.

(** What is still to be sent when [j] characters before the checksum are on
    their way or to come. *)
Definition rest_of (m : Z -> Z) (j : nat) (a cs : Z) : list symbol :=
  match j with O => [] | S j => Byte <$> (bytes_of m j (a + 1) ++ [cs]) end.

Lemma send_echo j n w buf cs l :
  ready w -> sending buf n (n - Z.of_nat j) cs (l_st w) -> Z.of_nat j <= n -> 1 <= n <= 8 ->
  (forall k, 0 <= k < n -> byte (l_mem w (buf + k))) -> byte cs ->
  let a := buf + (n - Z.of_nat j) in
  sent (l_hw w) = l ++ [Byte (match j with O => cs | _ => l_mem w a end)] ->
  echo (S j) (fun w' => post w (rest_of (l_mem w) j a cs) (l_mem w) (observe LIN_TX_COMPLETED (l_user w))
    (fun st => finished LIN_TX_COMPLETED st /\ isTxBusy st = false) w') w.
Proof.
  cbv zeta. revert w l. induction j as [|j IH]; intros w l R S Hj Hn Hb Hcs Hl.
  - exists l, (Byte cs). split; [done|]. apply ready_served; [done|done|]. intros d Hd. replace (n - Z.of_nat 0) with n in S by lia.
    by apply (send_last w d buf n cs).
  - exists l, (Byte (l_mem w (buf + (n - Z.of_nat (Datatypes.S j))))). split; [done|]. apply ready_served; [done|done|]. intros d Hd.
    set (k := n - Z.of_nat (Datatypes.S j)) in *.
    set (next := if k + 1 =? n then cs else l_mem w (buf + (k + 1))).
    assert (Hnext : byte next).
    { unfold next. destruct (Z.eqb_spec (k + 1) n); [done|]. apply Hb. lia. }
    eapply wp_mono.
    { by apply (send_step w d buf n k cs (l_mem w (buf + k)) next); try done; lia. }
    intros [] w1 P1. destruct (P1) as [R1 C1 M1 U1 S1 St1].
    replace (k + 1) with (n - Z.of_nat j) in St1 by lia.
    change (echo (Datatypes.S j) (fun w' => post w (rest_of (l_mem w) (Datatypes.S j) (buf + k) cs) (l_mem w)
      (observe LIN_TX_COMPLETED (l_user w)) (fun st => finished LIN_TX_COMPLETED st /\ isTxBusy st = false) w') w1).
    eapply echo_mono.
    + apply (IH w1 (sent (l_hw w))); try done; [lia|by rewrite M1|].
      rewrite S1. do 3 f_equal. unfold next. rewrite M1. destruct j as [|j].
      * by rewrite (proj2 (Z.eqb_eq (k + 1) n)) by lia.
      * rewrite (proj2 (Z.eqb_neq (k + 1) n)) by lia. do 2 f_equal. lia.
    + intros w' P'. rewrite M1, U1 in P'.
      assert (P := post_trans _ _ _ _ _ _ _ _ _ _ _ P1 P'). clear P1 P'.
      replace (rest_of (l_mem w) (Datatypes.S j) (buf + k) cs)
        with ([Byte next] ++ rest_of (l_mem w) j (buf + (n - Z.of_nat j)) cs); [exact P|].
      unfold next. replace (buf + (n - Z.of_nat j)) with (buf + (k + 1)) by lia. destruct j as [|j].
      * by rewrite (proj2 (Z.eqb_eq (k + 1) n)) by lia.
      * rewrite (proj2 (Z.eqb_neq (k + 1) n)) by lia. simpl. by replace (buf + k + 1) with (buf + (k + 1)) by lia.
Qed.

(** ** Reception *)

Lemma RecvFrmData_run w buf n :
  ready w -> available (l_st w) -> (1 <= n <= 8)%nat -> buf <> 0 ->
  wp (LIN_LPUART_RecvFrmData buf (Z.of_nat n)) (fun r w' => r = LIN_SUCCESS /\
    post w [] (l_mem w) (l_user w) (receiving buf (Z.of_nat n) 0 (currentPid (l_st w))) w') w.
Proof.
  intros R [Hbusy Hawake] Hn Hbuf.
  destruct (size_tests (Z.of_nat n) ltac:(lia)) as [T1 T2].
  destruct (R) as [Hst Hcfg He Hcb _ _]. unfold LIN_LPUART_RecvFrmData.
  apply wp_bind, wp_assert; [by rewrite (proj2 (Z.eqb_neq buf 0))|].
  apply wp_bind, wp_state; [done|].
  rewrite T1, T2, (awake_test _ Hawake), Hbusy. simpl.
  destruct w as [d st ss cfg cs p wk c t m u]. destruct st. simpl in *. subst.
  assert (G := went_refl d).
  repeat lin_step. split; [done|].
  lin_post R.
  rewrite (wrap_small 8) by (pow2; lia). split; simpl; (done || lia).
Qed.

Lemma frame_receive w b (Q : unit -> W -> Prop) :
  l_st_set w = true -> currentNodeState (l_st w) = LIN_NODE_STATE_RECV_DATA ->
  wp (LIN_LPUART_ProcessReceiveFrameData user_callback b) Q w ->
  wp (LIN_LPUART_ProcessFrame user_callback b) Q w.
Proof.
  intros Hst Hn H. unfold LIN_LPUART_ProcessFrame. apply wp_bind, wp_state; [done|]. by rewrite Hn.
Qed.

Definition put_byte (m : Z -> Z) (a v : Z) : Z -> Z := fun x => if decide (x = a) then v else m x.

(** A data byte goes to the buffer. *)
Lemma receive_step w d buf n k pid b :
  ready w -> receiving buf n k pid (l_st w) -> 0 <= k < n -> n <= 8 ->
  arrives (Byte b) (l_hw w) d ->
  wp irq (fun _ w' => post w [] (put_byte (l_mem w) (buf + k) b) (l_user w) (receiving buf n (k + 1) pid) w')
    (set_hw d w).
Proof.
  intros R [S1 S2 S3 S4 S5 S6 S7 S8] Hk Hn Ha.
  apply (irq_byte_post w d b); [exact R|exact Ha|]. intros d' G Hfree.
  destruct (R) as [Hst Hcfg He Hcb _ _]. destruct w as [d0 st ss cfg cs0 p wk c t m u]. destruct st.
  simpl in *. subst. apply frame_receive; [done|done|]. unfold LIN_LPUART_ProcessReceiveFrameData.
  repeat lin_step. rewrite (proj2 (Z.ltb_lt (k + 1) (n + 1))) by lia.
  repeat lin_step. rewrite (wrap_small 8) by (pow2; lia).
  rewrite (proj2 (Z.eqb_neq (k + 1) (n + 1))) by lia. lin_step.
  lin_post R. split; simpl; (done || lia).
Qed.

(** The checksum byte decides. *)
Lemma receive_last w d buf (n : nat) pid cs :
  ready w -> receiving buf (Z.of_nat n) (Z.of_nat n) pid (l_st w) -> (1 <= n <= 8)%nat -> 0 < pid < 256 ->
  Forall byte (bytes_of (l_mem w) n buf) ->
  arrives (Byte cs) (l_hw w) d ->
  let e := if frame_checksum pid (bytes_of (l_mem w) n buf) =? cs then LIN_RX_COMPLETED else LIN_CHECKSUM_ERROR in
  wp irq (fun _ w' => post w [] (l_mem w) (observe e (l_user w)) (fun st =>
    finished e st /\ isRxBusy st = false) w') (set_hw d w).
Proof.
  cbv zeta. intros R [S1 S2 S3 S4 S5 S6 S7 S8] Hn Hpid Hb Ha.
  apply (irq_byte_post w d cs); [exact R|exact Ha|]. intros d' G Hfree.
  destruct (R) as [Hst Hcfg He Hcb _ _]. destruct w as [d0 st ss cfg cs0 p wk c t m u]. destruct st.
  simpl in *. subst. apply frame_receive; [done|done|]. unfold LIN_LPUART_ProcessReceiveFrameData.
  repeat lin_step. rewrite (proj2 (Z.ltb_ge (Z.of_nat n + 1) (Z.of_nat n + 1))) by lia.
  repeat lin_step. rewrite (wrap_small 8) by (pow2; lia). rewrite Z.eqb_refl. unfold receive_complete.
  repeat lin_step.
  replace (buf + Z.of_nat n - (Z.of_nat n + 1 - 1)) with buf by lia.
  replace (u8 (Z.of_nat n + 1 - 1)) with (Z.of_nat n) by (rewrite wrap_small; [lia|pow2; lia]).
  eapply wp_lift; [by apply MakeChecksum_ok|].
  destruct (_ =? cs); repeat lin_step;
    (lin_post R; split; [split; done|done]).
Qed.

(** A framing error ends the reception. *)
Lemma receive_bad w d buf n k pid b :
  ready w -> receiving buf n k pid (l_st w) -> arrives (Bad b) (l_hw w) d ->
  wp irq (fun _ w' => post w [] (l_mem w) (observe LIN_FRAME_ERROR (l_user w)) (finished LIN_FRAME_ERROR) w')
    (set_hw d w).
Proof.
  intros R [S1 S2 S3 S4 S5 S6 S7 S8] Ha. assert (R' := ready_arrives _ _ _ R Ha). destruct (Ha) as (Hl & _).
  apply (irq_bad user_callback timer_interval (set_hw d w) b); [exact R'|by destruct w|].
  intros d' T. unfold consumed. replace (set_hw d' (set_hw d w)) with (set_hw d' w) by by destruct w.
  replace (l_hw (set_hw d w)) with d in T by by destruct w. assert (G := arrives_took _ _ _ _ Ha T).
  eapply (wp_mono _ (fun _ w' => post w [] (l_mem w) (observe LIN_FRAME_ERROR (l_user w)) (finished LIN_FRAME_ERROR) w')).
  - clear T. destruct (R) as [Hst Hcfg He Hcb _ _]. destruct w as [d0 st ss cfg cs0 p wk c t m u]. destruct st.
    simpl in *. subst. unfold framing_error. repeat lin_step. lin_post R. by split.
  - intros [] w' Hw' d'' Hd''. by eapply post_ctl.
Qed.

Lemma bytes_of_put_other m a v n b : (a < b \/ b + Z.of_nat n <= a) ->
  bytes_of (put_byte m a v) n b = bytes_of m n b.
Proof.
  revert b. induction n as [|n IH]; intros b H; [done|]. simpl. f_equal.
  - unfold put_byte. by rewrite decide_False by lia.
  - apply IH. lia.
Qed.

Lemma bytes_of_snoc m n a : bytes_of m (S n) a = bytes_of m n a ++ [m (a + Z.of_nat n)].
Proof.
  revert a. induction n as [|n IH]; intros a; [simpl; by rewrite Z.add_0_r|].
  change (bytes_of m (S (S n)) a) with (m a :: bytes_of m (S n) (a + 1)). rewrite IH. simpl.
  do 3 f_equal. f_equal. lia.
Qed.

Lemma length_bytes_of m n a : length (bytes_of m n a) = n.
Proof. revert a. induction n; intros; simpl; auto. Qed.

(** The data bytes of a frame, one after the other. *)
Lemma receive_data bs w (n : nat) buf pid (k : nat) :
  ready w -> receiving buf (Z.of_nat n) (Z.of_nat k) pid (l_st w) -> (k + length bs <= n)%nat -> (n <= 8)%nat ->
  after (Byte <$> bs) (fun w' => exists m, post w [] m (l_user w)
      (receiving buf (Z.of_nat n) (Z.of_nat (k + length bs)) pid) w' /\
    bytes_of m (k + length bs) buf = bytes_of (l_mem w) k buf ++ bs /\
    (forall x, x < buf \/ buf + Z.of_nat n <= x -> m x = l_mem w x)) w.
Proof.
  revert w k. induction bs as [|b bs IH]; intros w k R S Hk Hn.
  - exists (l_mem w). rewrite Nat.add_0_r, app_nil_r. split; [|done].
    split; try done. by rewrite app_nil_r.
  - simpl in Hk |- *. apply ready_served; [done|done|]. intros d Hd.
    eapply wp_mono; [apply (receive_step w d buf (Z.of_nat n) (Z.of_nat k) pid b); (done || lia)|].
    intros [] w1 P1. destruct (P1) as [R1 C1 M1 U1 S1 St1].
    eapply after_mono; [apply (IH w1 (Datatypes.S k)); try done; [|lia]|].
    { by replace (Z.of_nat (Datatypes.S k)) with (Z.of_nat k + 1) by lia. }
    intros w' (m & P' & Hm & Ho). exists m.
    replace (k + Datatypes.S (length bs))%nat with (Datatypes.S k + length bs)%nat by lia.
    rewrite U1 in P'. split; [exact (post_trans _ _ _ _ _ _ _ _ _ _ _ P1 P')|].
    rewrite M1 in Hm, Ho. split.
    + rewrite Hm, bytes_of_snoc, bytes_of_put_other by lia. rewrite <- app_assoc. do 2 f_equal.
      simpl. f_equal. unfold put_byte. by rewrite decide_True.
    + intros x Hx. rewrite Ho by done. unfold put_byte. rewrite decide_False by lia. done.
Qed.
End Responses.

(** ** Headers *)

Section Headers.
Context {D U : Type} `{!Device lin_reg D} {F : LinFields} {X : LinFeatures} {L : LinLaws} {K : LinMasks}.
Abbreviation W := (lin_world D U).
Context (instance : Z) (user_callback : M W unit) (timer_interval : M W Z).
Abbreviation irq := (LIN_LPUART_IRQHandler user_callback timer_interval).
Context (observe : lin_event_id -> U -> U)
  (callback_observes : forall w,
     user_callback w = Ok (tt, set_user (observe (currentEventId (l_st w)) (l_user w)) w)).
Implicit Types w : W.
Abbreviation after := (after user_callback timer_interval).
Abbreviation echo := (echo user_callback timer_interval).

Lemma irq_break_post w d out m u P :
  ready w -> arrives Break (l_hw w) d ->
  (forall d', went true true (l_hw w) [] d' ->
    wp (break_detected user_callback) (fun _ w' => post w out m u P w') (set_hw d' w)) ->
  wp irq (fun _ w' => post w out m u P w') (set_hw d w).
Proof.
  intros R Ha H. assert (R' := ready_arrives _ _ _ R Ha). destruct (Ha) as (Hl & Hs & Hf & Hb).
  apply (irq_break user_callback timer_interval (set_hw d w)); [exact R'|by destruct w|].
  unfold consumed, LIN_LPUART_ProcessBreakDetect.
  apply wp_bind, wp_hw, wp_clear_break; [by destruct w|]. intros _ d' T.
  replace (set_hw d' (set_hw d w)) with (set_hw d' w) by by destruct w.
  replace (l_hw (set_hw d w)) with d in T by by destruct w.
  eapply wp_mono; [apply H; by apply (arrives_took w Break d)|]. intros [] w' Hw' d'' Hd''. by eapply post_ctl.
Qed.

(** The master's node while it sends a header. *)
Record heading (n : lin_node_state) (id : Z) (st : lin_state) : Prop := {
  heading_state : currentNodeState st = n;
  heading_id : currentId st = id;
  heading_pid : currentPid st = protected_id id;
  heading_busy : isBusBusy st = true
}.

(** A header has been seen, with identifier [id]: a response may follow. *)
Record headed (id : Z) (st : lin_state) : Prop := {
  headed_event : currentEventId st = LIN_PID_OK;
  headed_state : currentNodeState st = LIN_NODE_STATE_RECV_PID;
  headed_id : currentId st = id;
  headed_pid : currentPid st = protected_id id;
  headed_free : isBusBusy st = false
}.

Lemma headed_available id st : headed id st -> available st.
Proof. intros [H1 H2 H3 H4 H5]. split; [done|]. by rewrite H2. Qed.

Lemma MasterSendHeader_run w id :
  ready w -> nodeFunction (l_cfg w) = true -> available (l_st w) -> 0 <= id < 64 ->
  wp (LIN_LPUART_MasterSendHeader id) (fun r w' => r = LIN_SUCCESS /\
    post w [Break] (l_mem w) (l_user w) (heading LIN_NODE_STATE_SEND_BREAK_FIELD id) w') w.
Proof.
  intros R Hm [Hbusy Hawake] Hid. destruct (R) as [Hst Hcfg He Hcb _ _].
  unfold LIN_LPUART_MasterSendHeader.
  apply wp_bind, wp_config; [done|]. apply wp_bind, wp_state; [done|].
  rewrite Hm, (awake_test _ Hawake), Hbusy. rewrite (proj2 (Z.ltb_ge 63 id)) by lia. simpl.
  destruct w as [d st ss cfg cs p wk c t m u]. destruct st. simpl in *. subst.
  assert (G := went_refl d).
  repeat lin_step. eapply wp_lift; [by apply parity_make|]. do 5 (lin_step; lin_step).
  eapply wp_start_break; [eassumption|]. intros d1 G1. split; [done|]. lin_post R. split; done.
Qed.

(** Break, synchronisation byte and identifier come back: the master's next
    step each time. *)
Lemma master_break w d id :
  ready w -> nodeFunction (l_cfg w) = true -> heading LIN_NODE_STATE_SEND_BREAK_FIELD id (l_st w) ->
  arrives Break (l_hw w) d ->
  wp irq (fun _ w' => post w [Byte 85] (l_mem w) (l_user w) (heading LIN_NODE_STATE_SEND_PID id) w') (set_hw d w).
Proof.
  intros R Hm [H1 H2 H3 H4] Ha. apply irq_break_post; [done|done|]. intros d' G.
  destruct (R) as [Hst Hcfg He Hcb _ _].
  destruct w as [d0 st ss cfg cs p wk c t m u]. destruct st. simpl in *. subst.
  unfold break_detected. repeat lin_step.
  rewrite Hm. repeat lin_step. replace (u8 85) with 85 in * by done.
  lin_post R. split; done.
Qed.

Lemma frame_header w b (Q : unit -> W -> Prop) :
  l_st_set w = true ->
  (match currentNodeState (l_st w) with
   | LIN_NODE_STATE_RECV_SYNC => wp (header_recv_sync user_callback b) Q w
   | LIN_NODE_STATE_SEND_PID => wp (header_send_pid user_callback b) Q w
   | LIN_NODE_STATE_RECV_PID => wp (header_recv_pid user_callback b) Q w
   | _ => False end) ->
  wp (LIN_LPUART_ProcessFrame user_callback b) Q w.
Proof.
  intros Hst H. unfold LIN_LPUART_ProcessFrame, LIN_LPUART_ProcessFrameHeader.
  apply wp_bind, wp_state; [done|].
  destruct (currentNodeState (l_st w)) eqn:E; try done; apply wp_bind, wp_state; (done || by rewrite E).
Qed.

Lemma master_sync w d id :
  ready w -> heading LIN_NODE_STATE_SEND_PID id (l_st w) -> 0 <= id < 64 ->
  arrives (Byte 85) (l_hw w) d ->
  wp irq (fun _ w' => post w [Byte (protected_id id)] (l_mem w) (l_user w)
    (heading LIN_NODE_STATE_RECV_PID id) w') (set_hw d w).
Proof.
  intros R [H1 H2 H3 H4] Hid Ha. apply (irq_byte_post _ _ w d 85); [done|done|]. intros d' G _.
  destruct (R) as [Hst Hcfg He Hcb _ _].
  destruct w as [d0 st ss cfg cs p wk c t m u]. destruct st. simpl in *. subst.
  apply frame_header; [done|]. simpl. unfold header_send_pid. simpl. repeat lin_step.
  assert (Hp := protected_id_byte _ Hid). rewrite (wrap_small 8 (protected_id id)) in * by (pow2; lia).
  lin_post R. split; done.
Qed.

Lemma master_pid w d id :
  ready w -> nodeFunction (l_cfg w) = true -> heading LIN_NODE_STATE_RECV_PID id (l_st w) ->
  arrives (Byte (protected_id id)) (l_hw w) d ->
  wp irq (fun _ w' => post w [] (l_mem w) (observe LIN_PID_OK (l_user w)) (headed id) w') (set_hw d w).
Proof.
  intros R Hm [H1 H2 H3 H4] Ha. apply (irq_byte_post _ _ w d (protected_id id)); [done|done|]. intros d' G _.
  destruct (R) as [Hst Hcfg He Hcb _ _].
  destruct w as [d0 st ss cfg cs p wk c t m u]. destruct st. simpl in *. subst.
  apply frame_header; [done|]. simpl. unfold header_recv_pid. repeat lin_step. rewrite Hm. repeat lin_step.
  rewrite Z.eqb_refl. repeat lin_step.
  lin_post R. split; done.
Qed.

(** The characters of a header. *)
Definition header_symbols (id : Z) : list symbol := [Break; Byte 85; Byte (protected_id id)].

Lemma master_echo w id l :
  ready w -> nodeFunction (l_cfg w) = true -> heading LIN_NODE_STATE_SEND_BREAK_FIELD id (l_st w) ->
  0 <= id < 64 -> sent (l_hw w) = l ++ [Break] ->
  echo 3 (fun w' => post w [Byte 85; Byte (protected_id id)] (l_mem w) (observe LIN_PID_OK (l_user w))
    (headed id) w') w.
Proof.
  intros R Hm H Hid Hl. exists l, Break. split; [done|].
  apply ready_served; [done|intros _; unfold waits_for_break; by rewrite (heading_state _ _ _ H)|]. intros d Hd.
  eapply wp_mono; [by apply master_break|]. intros [] w1 P1. destruct (P1) as [R1 C1 M1 U1 S1 St1].
  exists (sent (l_hw w)), (Byte 85). split; [done|]. apply ready_served; [done|done|]. intros d1 Hd1.
  eapply wp_mono; [by apply master_sync|]. intros [] w2 P2. destruct (P2) as [R2 C2 M2 U2 S2 St2].
  exists (sent (l_hw w1)), (Byte (protected_id id)). split; [done|]. apply ready_served; [done|done|]. intros d2 Hd2.
  eapply wp_mono; [apply (master_pid w2 d2 id); [done|by rewrite C2, C1|done|done]|]. intros [] w3 P3.
  rewrite M2, M1, U2, U1 in P3.
  exact (post_trans _ _ _ _ _ _ _ _ _ _ _ P1 (post_trans _ _ _ _ _ _ _ _ _ _ _ P2 P3)).
Qed.

(** A slave that hears a break starts over, whatever it was doing. *)
Lemma slave_break w d :
  ready w -> nodeFunction (l_cfg w) = false -> currentNodeState (l_st w) <> LIN_NODE_STATE_SLEEP_MODE ->
  arrives Break (l_hw w) d ->
  let cut := bool_decide (currentNodeState (l_st w) = LIN_NODE_STATE_RECV_DATA)
             || bool_decide (currentNodeState (l_st w) = LIN_NODE_STATE_SEND_DATA) in
  wp irq (fun _ w' => post w [] (l_mem w)
    (observe LIN_RECV_BREAK_FIELD_OK
      (if cut then observe LIN_LAST_RESPONSE_SHORT_ERROR (l_user w) else l_user w))
    (fun st => currentNodeState st = LIN_NODE_STATE_RECV_SYNC /\ isBusBusy st = true) w') (set_hw d w).
Proof.
  intros R Hm Hawake Ha cut. apply irq_break_post; [done|done|]. intros d' G.
  destruct (R) as [Hst Hcfg He Hcb _ _].
  destruct w as [d0 st ss cfg cs p wk c t m u]. destruct st. simpl in *. subst.
  unfold break_detected. repeat lin_step. rewrite decide_False by done. repeat lin_step.
  rewrite Hm. repeat lin_step. fold cut. destruct cut; repeat lin_step;
    (lin_post R; split; done).
Qed.

(** The synchronisation byte. *)
Lemma slave_sync w d b :
  ready w -> currentNodeState (l_st w) = LIN_NODE_STATE_RECV_SYNC -> isBusBusy (l_st w) = true ->
  arrives (Byte b) (l_hw w) d ->
  wp irq (fun _ w' =>
    if b =? 85 then post w [] (l_mem w) (l_user w) (fun st =>
      currentNodeState st = LIN_NODE_STATE_RECV_PID /\ isBusBusy st = true) w'
    else post w [] (l_mem w) (observe LIN_SYNC_ERROR (l_user w)) (finished LIN_SYNC_ERROR) w') (set_hw d w).
Proof.
  intros R Hn Hbusy Ha. destruct (b =? 85) eqn:E;
    (apply (irq_byte_post _ _ w d b); [done|done|]; intros d' G _;
     destruct (R) as [Hst Hcfg He Hcb];
     destruct w as [d0 st ss cfg cs p wk c t m u]; destruct st; simpl in *; subst;
     apply frame_header; [done|]; simpl; unfold header_recv_sync; rewrite E; repeat lin_step;
     (lin_post R; split; done)).
Qed.

(** The identifier byte: accepted with good parity only. *)
Lemma slave_pid w d p :
  ready w -> nodeFunction (l_cfg w) = false -> currentNodeState (l_st w) = LIN_NODE_STATE_RECV_PID ->
  byte p -> arrives (Byte p) (l_hw w) d ->
  wp irq (fun _ w' =>
    if p =? protected_id (p mod 64) then post w [] (l_mem w) (observe LIN_PID_OK (l_user w)) (headed (p mod 64)) w'
    else post w [] (l_mem w) (observe LIN_PID_ERROR (l_user w)) (finished LIN_PID_ERROR) w') (set_hw d w).
Proof.
  intros R Hm Hn Hp Ha. assert (Hc := parity_check p Hp).
  destruct (Z.eqb_spec p (protected_id (p mod 64))) as [E|E];
    (apply (irq_byte_post _ _ w d p); [done|done|]; intros d' G _;
     destruct (R) as [Hst Hcfg He Hcb];
     destruct w as [d0 st ss cfg cs pr wk c t m u]; destruct st; simpl in *; subst;
     apply frame_header; [done|]; simpl; unfold header_recv_pid; lin_step; lin_step; rewrite Hm;
     lin_step; eapply wp_lift; [exact Hc|]; repeat lin_step).
  - rewrite (proj2 (Z.eqb_neq (p mod 64) 255)) by zlia. simpl. repeat lin_step.
    lin_post R. split; done.
  - repeat lin_step. lin_post R. split; done.
Qed.
End Headers.

(** ** Frames *)

Section Frames.
Context {D U : Type} `{!Device lin_reg D} {F : LinFields} {X : LinFeatures} {L : LinLaws} {K : LinMasks}.
Abbreviation W := (lin_world D U).
Context (instance : Z) (user_callback : M W unit) (timer_interval : M W Z).
Context (observe : lin_event_id -> U -> U)
  (callback_observes : forall w,
     user_callback w = Ok (tt, set_user (observe (currentEventId (l_st w)) (l_user w)) w)).
Implicit Types w v : W.
Abbreviation after := (after user_callback timer_interval).
Abbreviation echo := (echo user_callback timer_interval).

Lemma slave_after_break v (Q : W -> Prop) xs :
  ready v -> nodeFunction (l_cfg v) = false -> currentNodeState (l_st v) = LIN_NODE_STATE_IDLE ->
  (forall v', post v [] (l_mem v) (observe LIN_RECV_BREAK_FIELD_OK (l_user v))
     (fun st => currentNodeState st = LIN_NODE_STATE_RECV_SYNC /\ isBusBusy st = true) v' -> after xs Q v') ->
  after (Break :: xs) Q v.
Proof.
  intros R Hm Hn H. apply ready_served; [done|intros _; unfold waits_for_break; by rewrite Hn|]. intros d Hd.
  eapply wp_mono; [apply slave_break; try done; by rewrite Hn|].
  rewrite Hn. simpl. intros [] v' P. by apply H.
Qed.

Lemma slave_after_sync v (Q : W -> Prop) xs :
  ready v -> nodeFunction (l_cfg v) = false -> currentNodeState (l_st v) = LIN_NODE_STATE_IDLE ->
  (forall v', post v [] (l_mem v) (observe LIN_RECV_BREAK_FIELD_OK (l_user v))
     (fun st => currentNodeState st = LIN_NODE_STATE_RECV_PID /\ isBusBusy st = true) v' -> after xs Q v') ->
  after (Break :: Byte 85 :: xs) Q v.
Proof.
  intros R Hm Hn H. apply slave_after_break; [done..|]. intros v1 P1. destruct (P1) as [R1 C1 M1 U1 S1 [T1 B1]].
  apply ready_served; [done|done|]. intros d Hd. eapply wp_mono; [by apply (slave_sync _ _ observe callback_observes v1 d 85)|].
  simpl. intros [] v2 P2. rewrite M1, U1 in P2. apply H. exact (post_trans _ _ _ _ _ _ _ _ _ _ _ P1 P2).
Qed.

Lemma slave_after_pid v p :
  ready v -> nodeFunction (l_cfg v) = false -> currentNodeState (l_st v) = LIN_NODE_STATE_IDLE -> byte p ->
  after [Break; Byte 85; Byte p] (fun v' =>
    let u := observe LIN_RECV_BREAK_FIELD_OK (l_user v) in
    if p =? protected_id (p mod 64) then post v [] (l_mem v) (observe LIN_PID_OK u) (headed (p mod 64)) v'
    else post v [] (l_mem v) (observe LIN_PID_ERROR u) (finished LIN_PID_ERROR) v') v.
Proof.
  intros R Hm Hn Hp. apply slave_after_sync; [done..|]. intros v1 P1. destruct (P1) as [R1 C1 M1 U1 S1 [T1 B1]].
  apply ready_served; [done|done|]. intros d Hd. eapply wp_mono; [apply (slave_pid _ _ observe callback_observes v1 d p); try done; by rewrite C1|].
  intros [] v2 P2. cbv zeta. rewrite M1, U1 in P2.
  destruct (p =? _); exact (post_trans _ _ _ _ _ _ _ _ _ _ _ P1 P2).
Qed.

(** C22: A header reaches every node: the master sends break, synchronisation
    byte and protected identifier, each when the previous one has come back,
    and reports PID_OK; a slave that hears them reports the break and PID_OK,
    with the identifier, and both wait for the response with the bus free.  A
    slave that hears another synchronisation byte, or an identifier byte with
    wrong parity, reports the error and is idle again. *)
Theorem lin_header_recognised w v (id : Z)
    (Rw : ready w) (Hw : nodeFunction (l_cfg w) = true) (Aw : available (l_st w))
    (Rv : ready v) (Hv : nodeFunction (l_cfg v) = false) (Nv : currentNodeState (l_st v) = LIN_NODE_STATE_IDLE)
    (Hid : 0 <= id < 64) :
  wp (LIN_LPUART_MasterSendHeader id) (fun r w1 => r = LIN_SUCCESS /\ echo 3 (fun w2 =>
    post w (header_symbols id) (l_mem w) (observe LIN_PID_OK (l_user w)) (headed id) w2) w1) w /\
  after (header_symbols id) (fun v' =>
    post v [] (l_mem v) (observe LIN_PID_OK (observe LIN_RECV_BREAK_FIELD_OK (l_user v))) (headed id) v') v /\
  (forall p, byte p -> p <> protected_id (p mod 64) -> after [Break; Byte 85; Byte p] (fun v' =>
    post v [] (l_mem v) (observe LIN_PID_ERROR (observe LIN_RECV_BREAK_FIELD_OK (l_user v)))
      (finished LIN_PID_ERROR) v') v) /\
  (forall b, b <> 85 -> after [Break; Byte b] (fun v' =>
    post v [] (l_mem v) (observe LIN_SYNC_ERROR (observe LIN_RECV_BREAK_FIELD_OK (l_user v)))
      (finished LIN_SYNC_ERROR) v') v).
Proof.
  assert (Hp := protected_id_byte id Hid). assert (Hmod := protected_id_mod id Hid). split; [|split; [|split]].
  - eapply wp_mono; [by apply MasterSendHeader_run|]. intros r w1 [-> P1]. split; [done|].
    destruct (P1) as [R1 C1 M1 U1 S1 St1]. eapply echo_mono.
    + apply (master_echo _ _ observe callback_observes w1 id (sent (l_hw w))); try done. by rewrite C1.
    + intros w2 P2. rewrite M1, U1 in P2. exact (post_trans _ _ _ _ _ _ _ _ _ _ _ P1 P2).
  - assert (H := slave_after_pid v (protected_id id) Rv Hv Nv ltac:(unfold byte; lia)).
    rewrite Hmod, Z.eqb_refl in H. exact H.
  - intros p Hbp Hne. assert (H := slave_after_pid v p Rv Hv Nv Hbp).
    rewrite (proj2 (Z.eqb_neq _ _) Hne) in H. exact H.
  - intros b Hb. apply slave_after_break; [done..|]. intros v1 P1. destruct (P1) as [R1 C1 M1 U1 S1 [T1 B1]].
    apply ready_served; [done|done|]. intros d Hd. eapply wp_mono; [by apply (slave_sync _ _ observe callback_observes v1 d b)|].
    rewrite (proj2 (Z.eqb_neq b 85) Hb). intros [] v2 P2. rewrite M1, U1 in P2.
    exact (post_trans _ _ _ _ _ _ _ _ _ _ _ P1 P2).
Qed.

(** The characters of a response. *)
Definition response_symbols (pid : Z) (bytes : list Z) : list symbol :=
  Byte <$> (bytes ++ [frame_checksum pid bytes]).

Lemma send_response w buf n :
  ready w -> available (l_st w) -> (1 <= n <= 8)%nat -> buf <> 0 -> 0 < currentPid (l_st w) < 256 ->
  Forall byte (bytes_of (l_mem w) n buf) ->
  wp (LIN_LPUART_SendFrameData buf (Z.of_nat n)) (fun r w1 => r = LIN_SUCCESS /\ echo (S n) (fun w2 =>
    post w (response_symbols (currentPid (l_st w)) (bytes_of (l_mem w) n buf)) (l_mem w)
      (observe LIN_TX_COMPLETED (l_user w)) (fun st => finished LIN_TX_COMPLETED st /\ isTxBusy st = false) w2)
    w1) w.
Proof.
  intros R A Hn Hbuf Hp Hb.
  assert (Hcs : byte (frame_checksum (currentPid (l_st w)) (bytes_of (l_mem w) n buf))).
  { unfold byte, frame_checksum. assert (H := carry_sum_range (checksum_start (currentPid (l_st w))
      + sum (bytes_of (l_mem w) n buf))). assert (H0 := sum_nonneg _ Hb).
    assert (H1 := checksum_start_range (currentPid (l_st w)) ltac:(unfold byte; lia)).
    unfold byte in H1. lia. }
  eapply wp_mono; [by apply SendFrameData_run|]. intros r w1 [-> P1]. split; [done|].
  destruct (P1) as [R1 C1 M1 U1 S1 St1].
  destruct n as [|n]; [lia|]. eapply echo_mono.
  - apply (send_echo _ _ observe callback_observes (S n) (Z.of_nat (S n)) w1 buf
      (frame_checksum (currentPid (l_st w)) (bytes_of (l_mem w) (S n) buf)) (sent (l_hw w))).
    + done.
    + rewrite Z.sub_diag. exact St1.
    + lia.
    + lia.
    + intros k Hk. rewrite M1. by apply (bytes_of_at (l_mem w) (S n)).
    + exact Hcs.
    + rewrite Z.sub_diag, Z.add_0_r, M1. exact S1.
  - intros w2 P2. rewrite M1, U1, Z.sub_diag, Z.add_0_r in P2.
    exact (post_trans _ _ _ _ _ _ _ _ _ _ _ P1 P2).
Qed.

(** Whatever arrives is stored, and the checksum byte decides. *)
Lemma receive_response v buf bs cs :
  ready v -> available (l_st v) -> (1 <= length bs <= 8)%nat -> buf <> 0 -> 0 < currentPid (l_st v) < 256 ->
  Forall byte bs ->
  let e := if frame_checksum (currentPid (l_st v)) bs =? cs then LIN_RX_COMPLETED else LIN_CHECKSUM_ERROR in
  wp (LIN_LPUART_RecvFrmData buf (Z.of_nat (length bs))) (fun r v1 => r = LIN_SUCCESS /\
    after (Byte <$> (bs ++ [cs])) (fun v2 => exists m,
      post v [] m (observe e (l_user v)) (fun st => finished e st /\ isRxBusy st = false) v2 /\
      bytes_of m (length bs) buf = bs /\
      (forall x, x < buf \/ buf + Z.of_nat (length bs) <= x -> m x = l_mem v x)) v1) v.
Proof.
  cbv zeta. intros R A Hn Hbuf Hp Hb.
  eapply wp_mono; [by apply RecvFrmData_run|]. intros r v1 [-> P1]. split; [done|].
  destruct (P1) as [R1 C1 M1 U1 S1 St1]. rewrite fmap_app. apply after_app. eapply after_mono.
  { apply (receive_data _ _ bs v1 (length bs) buf (currentPid (l_st v)) 0); (done || lia). }
  intros v2 (m & P2 & Hm & Ho). simpl in Hm. destruct (P2) as [R2 C2 M2 U2 S2 St2].
  apply ready_served; [done|done|]. intros d Hd. eapply wp_mono.
  { apply (receive_last _ _ observe callback_observes v2 d buf (length bs) (currentPid (l_st v)) cs);
      try done; by rewrite M2, Hm. }
  rewrite M2, Hm, U2, U1. intros [] v3 P3. exists m. rewrite M1 in Ho. split; [|done].
  exact (post_trans _ _ _ _ _ _ _ _ _ _ _ P1 (post_trans _ _ _ _ _ _ _ _ _ _ _ P2 P3)).
Qed.

(** C21: After a header a response crosses the bus unchanged.  The publisher's
    request is accepted, with LIN_SUCCESS before anything is confirmed, and
    sends exactly its data bytes and their checksum, in order, each when the
    previous one has come back; then it reports TX_COMPLETED and is idle.  The
    subscriber that hears them stores exactly these bytes in its buffer and
    nothing elsewhere, reports RX_COMPLETED and is idle.  The callbacks of both
    only observe: they leave txBuff and txSize, which the handler advances
    itself, alone. *)
Theorem lin_response_delivered w v (id buf rbuf : Z) (n : nat)
    (Rw : ready w) (Hw : headed id (l_st w)) (Rv : ready v) (Hv : headed id (l_st v))
    (Hid : 0 <= id < 64) (Hn : (1 <= n <= 8)%nat) (Hbuf : buf <> 0) (Hrbuf : rbuf <> 0)
    (Hb : Forall byte (bytes_of (l_mem w) n buf)) :
  let data := bytes_of (l_mem w) n buf in
  let wire := response_symbols (protected_id id) data in
  wp (LIN_LPUART_SendFrameData buf (Z.of_nat n)) (fun r w1 => r = LIN_SUCCESS /\ echo (S n) (fun w2 =>
    post w wire (l_mem w) (observe LIN_TX_COMPLETED (l_user w))
      (fun st => finished LIN_TX_COMPLETED st /\ isTxBusy st = false) w2) w1) w /\
  wp (LIN_LPUART_RecvFrmData rbuf (Z.of_nat n)) (fun r v1 => r = LIN_SUCCESS /\ after wire (fun v2 => exists m,
    post v [] m (observe LIN_RX_COMPLETED (l_user v))
      (fun st => finished LIN_RX_COMPLETED st /\ isRxBusy st = false) v2 /\
    bytes_of m n rbuf = data /\
    (forall x, x < rbuf \/ rbuf + Z.of_nat n <= x -> m x = l_mem v x)) v1) v.
Proof.
  assert (Hp := protected_id_range id Hid). cbv zeta. split.
  - rewrite <- (headed_pid _ _ Hw). apply send_response; try done.
    + by eapply headed_available.
    + rewrite (headed_pid _ _ Hw). lia.
  - assert (H := receive_response v rbuf (bytes_of (l_mem w) n buf)
      (frame_checksum (protected_id id) (bytes_of (l_mem w) n buf)) Rv (headed_available _ _ Hv)).
    cbv zeta in H. rewrite length_bytes_of, (headed_pid _ _ Hv), Z.eqb_refl in H. apply H; (done || lia).
Qed.

(** C23: [LIN_LPUART_RecvFrmData] accepts the request and returns at once.
    Then the subscriber stores whatever bytes arrive and accepts them iff the
    last byte is their checksum: RX_COMPLETED, else CHECKSUM_ERROR, with the
    bytes in the buffer in both cases.  A character with a framing error in
    their middle ends the reception with FRAME_ERROR; the bytes before it are
    in the buffer.  In each case the node is idle and the bus free. *)
Theorem lin_reception_verdict v (buf cs : Z) (bs : list Z)
    (R : ready v) (A : available (l_st v)) (Hn : (1 <= length bs <= 8)%nat) (Hbuf : buf <> 0)
    (Hp : 0 < currentPid (l_st v) < 256) (Hb : Forall byte bs) :
  let e := if frame_checksum (currentPid (l_st v)) bs =? cs then LIN_RX_COMPLETED else LIN_CHECKSUM_ERROR in
  wp (LIN_LPUART_RecvFrmData buf (Z.of_nat (length bs))) (fun r v1 => r = LIN_SUCCESS /\
    after (Byte <$> (bs ++ [cs])) (fun v2 => exists m,
      post v [] m (observe e (l_user v)) (fun st => finished e st /\ isRxBusy st = false) v2 /\
      bytes_of m (length bs) buf = bs) v1 /\
    (forall k b, (k <= length bs)%nat -> after ((Byte <$> take k bs) ++ [Bad b]) (fun v2 => exists m,
      post v [] m (observe LIN_FRAME_ERROR (l_user v)) (finished LIN_FRAME_ERROR) v2 /\
      bytes_of m k buf = take k bs) v1)) v.
Proof.
  cbv zeta.
  assert (H1 := receive_response v buf bs cs R A Hn Hbuf Hp Hb). cbv zeta in H1.
  apply wp_inv in H1. destruct H1 as (r & v1 & E & -> & H1).
  assert (H2 := RecvFrmData_run v buf (length bs) R A Hn Hbuf).
  apply wp_inv in H2. destruct H2 as (r' & v1' & E' & -> & P1). rewrite E in E'. injection E' as <-.
  apply (wp_ok _ _ _ _ _ E). split; [done|]. split.
  { eapply after_mono; [exact H1|]. intros v2 (m & P & Hm & _). by exists m. }
  intros k b Hk. destruct (P1) as [R1 C1 M1 U1 S1 St1]. apply after_app. eapply after_mono.
  { apply (receive_data _ _ (take k bs) v1 (length bs) buf (currentPid (l_st v)) 0); try done; [|lia].
    rewrite length_take. lia. }
  intros v2 H2. cbv beta in H2. destruct H2 as (m & P2 & Hm & _). destruct (P2) as [R2 C2 M2 U2 S2 St2].
  apply ready_served; [done|done|]. intros d Hd.
  eapply wp_mono; [by apply (receive_bad _ _ observe callback_observes v2 d _ _ _ _ b R2 St2)|].
  intros [] v3 P3. rewrite M2, U2, U1 in P3. exists m. split.
  - exact (post_trans _ _ _ _ _ _ _ _ _ _ _ P1 (post_trans _ _ _ _ _ _ _ _ _ _ _ P2 P3)).
  - rewrite length_take in Hm. replace (0 + Nat.min k (length bs))%nat with k in Hm by lia. exact Hm.
Qed.
End Frames.

(** ** Two nodes *)

Abbreviation demo_node := (lin_world lpuart (list lin_event_id)).
Definition demo_observe (e : lin_event_id) (u : list lin_event_id) : list lin_event_id := u ++ [e].
Definition demo_callback : M demo_node unit :=
  fun w => Ok (tt, set_user (demo_observe (currentEventId (l_st w)) (l_user w)) w).
Definition demo_timer : M demo_node Z := ret 0.
Definition demo_state (event : lin_event_id) (n : lin_node_state) (id pid : Z) : lin_state :=
  LinState 0 0 0 0 0 0 0 false false false false false true id pid event n 0 false false 0 48000000 false false.
(** The break and receive interrupts are enabled. *)
Definition demo_registers (r : lin_reg) : Z :=
  match r with BAUD => LPUART_BAUD_LBKDIE_MASK | CTRL => receive_interrupts | _ => 0 end.
(** A node with the bytes 1, 2, 3, ... in its memory. *)
Definition demo_world (master : bool) (st : lin_state) : demo_node :=
  LinWorld (Lpuart demo_registers None [] true) st true (LinUserConfig 19200 master false true) true
    0 128 0 0 (fun a => a mod 256) [].
Definition idle_state : lin_state := demo_state LIN_NO_EVENT LIN_NODE_STATE_IDLE 0 0.
Definition headed_state_29 : lin_state := demo_state LIN_PID_OK LIN_NODE_STATE_RECV_PID 29 221.

Lemma demo_ready master st : Callback st = true -> ready (demo_world master st).
Proof. by split. Qed.

Lemma demo_headed : headed 29 headed_state_29.
Proof. by split. Qed.

Lemma lin_header_recognised_witness :
  wp (LIN_LPUART_MasterSendHeader 29) (fun r w1 => r = LIN_SUCCESS /\
    echo demo_callback demo_timer 3 (fun w2 =>
      post (demo_world true idle_state) (header_symbols 29) (l_mem (demo_world true idle_state))
        (demo_observe LIN_PID_OK (l_user (demo_world true idle_state))) (headed 29) w2) w1)
    (demo_world true idle_state) /\
  after demo_callback demo_timer [Break; Byte 85; Byte 29] (fun v' =>
    post (demo_world false idle_state) [] (l_mem (demo_world false idle_state))
      (demo_observe LIN_PID_ERROR (demo_observe LIN_RECV_BREAK_FIELD_OK (l_user (demo_world false idle_state))))
      (finished LIN_PID_ERROR) v') (demo_world false idle_state).
Proof.
  assert (H := lin_header_recognised demo_callback demo_timer demo_observe (fun _ => eq_refl)
    (demo_world true idle_state) (demo_world false idle_state) 29 (demo_ready true idle_state eq_refl) eq_refl
    ltac:(split; [reflexivity|discriminate]) (demo_ready false idle_state eq_refl) eq_refl eq_refl ltac:(lia)).
  destruct H as (H1 & _ & H2 & _). split; [exact H1|].
  exact (H2 29 ltac:(unfold byte; lia) ltac:(vm_compute; discriminate)).
Defined.

Lemma lin_response_delivered_witness :
  wp (LIN_LPUART_SendFrameData 10 4) (fun r w1 => r = LIN_SUCCESS /\
    echo demo_callback demo_timer 5 (fun w2 =>
      post (demo_world true headed_state_29) (response_symbols (protected_id 29)
          (bytes_of (l_mem (demo_world true headed_state_29)) 4 10))
        (l_mem (demo_world true headed_state_29))
        (demo_observe LIN_TX_COMPLETED (l_user (demo_world true headed_state_29)))
        (fun st => finished LIN_TX_COMPLETED st /\ isTxBusy st = false) w2) w1)
    (demo_world true headed_state_29) /\
  response_symbols (protected_id 29) [10; 11; 12; 13] = [Byte 10; Byte 11; Byte 12; Byte 13; Byte 243].
Proof.
  assert (H := lin_response_delivered demo_callback demo_timer demo_observe (fun _ => eq_refl)
    (demo_world true headed_state_29) (demo_world false headed_state_29) 29 10 300 4
    (demo_ready true headed_state_29 eq_refl) demo_headed (demo_ready false headed_state_29 eq_refl) demo_headed
    ltac:(lia) ltac:(lia) ltac:(lia) ltac:(lia)
    ltac:(repeat constructor; vm_compute; discriminate || reflexivity)).
  destruct H as (H1 & _). split; [exact H1|reflexivity].
Defined.

Lemma lin_reception_verdict_witness :
  let v := demo_world false headed_state_29 in
  wp (LIN_LPUART_RecvFrmData 300 2) (fun r v1 => r = LIN_SUCCESS /\
    after demo_callback demo_timer [Byte 7; Byte 8; Byte 14] (fun v2 => exists m,
      post v [] m (demo_observe LIN_CHECKSUM_ERROR (l_user v))
        (fun st => finished LIN_CHECKSUM_ERROR st /\ isRxBusy st = false) v2 /\
      bytes_of m 2 300 = [7; 8]) v1 /\
    after demo_callback demo_timer [Byte 7; Bad 0] (fun v2 => exists m,
      post v [] m (demo_observe LIN_FRAME_ERROR (l_user v)) (finished LIN_FRAME_ERROR) v2 /\
      bytes_of m 1 300 = [7]) v1) v.
Proof.
  assert (H := lin_reception_verdict demo_callback demo_timer demo_observe (fun _ => eq_refl)
    (demo_world false headed_state_29) 300 14 [7; 8] (demo_ready false headed_state_29 eq_refl)
    (headed_available 29 headed_state_29 demo_headed) ltac:(simpl; lia) ltac:(lia) ltac:(simpl; lia)
    ltac:(repeat constructor; vm_compute; discriminate || reflexivity)).
  cbv zeta in H |- *.
  assert (E : (frame_checksum (currentPid (l_st (demo_world false headed_state_29))) [7; 8] =? 14) = false)
    by reflexivity.
  rewrite E in H. eapply wp_mono; [exact H|]. intros r v1 (Hr & H1 & H2). split; [exact Hr|].
  split; [exact H1|]. exact (H2 1%nat 0 ltac:(simpl; lia)).
Defined.
