(* ===== verification/LinLimits.v ===== *)
(** * The LIN driver: refusals, time-outs, and what goes wrong

    Requests that are refused leave everything as it was.  A response that
    does not complete is given up after its time-out.  The blocking requests,
    however, do not block, and after a time-out they leave the bus marked as
    busy for good; and a break that arrives while a frame is being finished is
    lost with the other flags of the status register. *)

From stdpp Require Import base list numbers tactics.
From Stdlib Require Import ZArith Lia.
From S2P Require Import Prelude Mmio LinBytes Lin LinNode LinFrames.

Open Scope Z_scope.
Open Scope prog_scope.

Section Refusals.
Context {D U : Type} `{!Device lin_reg D} {F : LinFields} {X : LinFeatures}.
Abbreviation W := (lin_world D U).
Context (instance : Z).
Implicit Types w : W.

(** Why a transfer request is not accepted. *)
Definition refusal (size : Z) (st : lin_state) : option lin_status :=
  if (8 <? size) || (size =? 0) || sleeping st then Some LIN_ERROR
  else if isBusBusy st then Some LIN_BUS_BUSY else None.

(** A request is refused with LIN_ERROR when the node sleeps, when the
    frame size is not 1 to 8, or when the header's identifier is above 0x3F or
    the node is no master; else with LIN_BUS_BUSY while the bus is busy.  A
    refused request changes nothing: not the node, not the peripheral. *)
Theorem lin_requests_refused w (buf size id timeout : Z) (e : lin_status)
    (Hst : l_st_set w = true) (Hcfg : l_cfg_set w = true) (Hbuf : buf <> 0) :
  (refusal size (l_st w) = Some e ->
    LIN_LPUART_SendFrameData buf size w = Ok (e, w) /\
    LIN_LPUART_SendFrameDataBlocking instance buf size timeout w = Ok (e, w) /\
    LIN_LPUART_RecvFrmData buf size w = Ok (e, w) /\
    LIN_LPUART_RecvFrmDataBlocking instance buf size timeout w = Ok (e, w)) /\
  (nodeFunction (l_cfg w) = false \/ 63 < id \/ currentNodeState (l_st w) = LIN_NODE_STATE_SLEEP_MODE ->
    LIN_LPUART_MasterSendHeader id w = Ok (LIN_ERROR, w)) /\
  (nodeFunction (l_cfg w) = true -> id <= 63 -> currentNodeState (l_st w) <> LIN_NODE_STATE_SLEEP_MODE ->
    isBusBusy (l_st w) = true -> LIN_LPUART_MasterSendHeader id w = Ok (LIN_BUS_BUSY, w)).
Proof.
  assert (Hs : forall (A : Type) (f : lin_state -> M W A), bind linCurrentState f w = f (l_st w) w).
  { intros. apply bind_ok. unfold linCurrentState. by rewrite Hst. }
  assert (Hc : forall (A : Type) (f : lin_user_config -> M W A), bind linUserConfig f w = f (l_cfg w) w).
  { intros. apply bind_ok. unfold linUserConfig. by rewrite Hcfg. }
  split; [|split].
  - unfold refusal, LIN_LPUART_SendFrameData, LIN_LPUART_SendFrameDataBlocking, LIN_LPUART_RecvFrmData,
      LIN_LPUART_RecvFrmDataBlocking.
    rewrite (proj2 (Z.eqb_neq buf 0)) by done. unfold assert_. simpl. rewrite !bind_ret, !Hs.
    destruct (_ || _ || _); [by intros [= <-]|]. by destruct (isBusBusy _); [intros [= <-]|].
  - intros H. unfold LIN_LPUART_MasterSendHeader. rewrite Hc, Hs. unfold sleeping.
    replace (_ || _ || _) with true; [done|]. symmetry. destruct H as [H|[H|H]]; [by rewrite H| |].
    + rewrite (proj2 (Z.ltb_lt 63 id)) by done. by rewrite orb_true_r.
    + by rewrite H, orb_true_r.
  - intros Hm Hid Hn Hb. unfold LIN_LPUART_MasterSendHeader.
    rewrite Hc, Hs, Hm, (awake_test _ Hn), (proj2 (Z.ltb_ge 63 id)), Hb by lia. done.
Qed.
End Refusals.

Lemma lin_requests_refused_witness :
  LIN_LPUART_SendFrameData 10 9 (demo_world true idle_state) = Ok (LIN_ERROR, demo_world true idle_state) /\
  LIN_LPUART_MasterSendHeader 5 (demo_world false idle_state) = Ok (LIN_ERROR, demo_world false idle_state).
Proof.
  split.
  - apply (lin_requests_refused 0 (demo_world true idle_state) 10 9 0 0 LIN_ERROR eq_refl eq_refl ltac:(lia)).
    reflexivity.
  - apply (lin_requests_refused 0 (demo_world false idle_state) 10 9 5 0 LIN_ERROR eq_refl eq_refl ltac:(lia)).
    by left.
Defined.

(** ** Time-outs *)

Section Timeouts.
Context {D U : Type} `{!Device lin_reg D} {F : LinFields} {X : LinFeatures} {L : LinLaws} {K : LinMasks}.
Abbreviation W := (lin_world D U).
Context (instance : Z) (known_instance : instance < FSL_FEATURE_SOC_LPUART_COUNT).
Context (user_callback : M W unit) (observe : lin_event_id -> U -> U)
  (callback_observes : forall w,
     user_callback w = Ok (tt, set_user (observe (currentEventId (l_st w)) (l_user w)) w)).
Implicit Types w : W.

(** [n] periods of the time-out service pass. *)
Fixpoint ticks (n : nat) : M W unit :=
  match n with O => ret tt | S n => LIN_TimeoutService instance user_callback ;; ticks n end.

Lemma on_instance_known {A} (a : A) (m : M W A) : on_instance instance a m = m.
Proof. unfold on_instance. by rewrite (proj2 (Z.ltb_lt _ _) known_instance). Qed.

(** A response on its way, [c] periods left. *)
Record pending (blocking : bool) (c : Z) (st : lin_state) : Prop := {
  pending_state : currentNodeState st = LIN_NODE_STATE_SEND_DATA;
  pending_counter : timeoutCounter st = c;
  pending_flag : timeoutCounterFlag st = false;
  pending_busy : isBusBusy st = true;
  pending_blocking : isTxBlocking st = blocking;
  pending_event : currentEventId st = LIN_NO_EVENT
}.

(** Given up: idle again, but after a blocking request the bus stays busy. *)
Record given_up (blocking : bool) (st : lin_state) : Prop := {
  given_up_state : currentNodeState st = LIN_NODE_STATE_IDLE;
  given_up_flag : timeoutCounterFlag st = true;
  given_up_busy : isBusBusy st = blocking
}.

Lemma tick_waits w blocking c :
  ready w -> pending blocking c (l_st w) -> 0 < c < 2 ^ 32 ->
  wp (LIN_TimeoutService instance user_callback)
    (fun _ w' => post w [] (l_mem w) (l_user w) (pending blocking (c - 1)) w') w.
Proof.
  intros R [P1 P2 P3 P4 P5 P6] Hc. destruct (R) as [Hst Hcfg He Hcb _ _].
  unfold LIN_TimeoutService. rewrite on_instance_known. apply wp_bind, wp_state; [done|]. rewrite P1, P2.
  rewrite (proj2 (Z.eqb_neq c 0)) by lia. apply wp_upd; [done|].
  destruct w as [d st ss cfg cs p wk ct t m u]. destruct st. simpl in *. subst.
  eapply went_post; [exact R|apply went_refl|done..|].
  rewrite wrap_small by (pow2; lia). by split.
Qed.

Lemma tick_gives_up w blocking :
  ready w -> pending blocking 0 (l_st w) ->
  wp (LIN_TimeoutService instance user_callback)
    (fun _ w' => post w [] (l_mem w) (observe LIN_NO_EVENT (l_user w)) (given_up blocking) w') w.
Proof.
  intros R [P1 P2 P3 P4 P5 P6]. destruct (R) as [Hst Hcfg He Hcb _ _].
  unfold LIN_TimeoutService. rewrite on_instance_known. apply wp_bind, wp_state; [done|]. rewrite P1, P2.
  rewrite Z.eqb_refl. unfold timeout_expired, LIN_GotoIdleState. rewrite on_instance_known.
  destruct w as [d st ss cfg cs p wk ct t m u]. destruct st. simpl in *. subst.
  assert (G := went_refl d). repeat lin_step.
  destruct blocking; simpl; repeat lin_step; (lin_post R; by split).
Qed.

Lemma tick_idle w :
  l_st_set w = true -> currentNodeState (l_st w) = LIN_NODE_STATE_IDLE ->
  LIN_TimeoutService instance user_callback w = Ok (tt, w).
Proof.
  intros Hst Hn. unfold LIN_TimeoutService. rewrite on_instance_known.
  erewrite bind_ok by (unfold linCurrentState; by rewrite Hst). by rewrite Hn.
Qed.

Lemma ticks_wait w blocking c k :
  ready w -> pending blocking c (l_st w) -> Z.of_nat k <= c < 2 ^ 32 ->
  wp (ticks k) (fun _ w' => post w [] (l_mem w) (l_user w) (pending blocking (c - Z.of_nat k)) w') w.
Proof.
  revert w c. induction k as [|k IH]; intros w c R P Hk.
  - rewrite Z.sub_0_r. split; try done. by rewrite app_nil_r.
  - simpl. apply wp_bind. eapply wp_mono; [apply tick_waits; (done || lia)|].
    intros [] w1 P1. destruct (P1) as [R1 C1 M1 U1 S1 St1].
    eapply wp_mono; [apply IH; (done || lia)|]. intros [] w2 P2. rewrite M1, U1 in P2.
    replace (c - Z.of_nat (S k)) with (c - 1 - Z.of_nat k) by lia.
    exact (post_trans _ _ _ _ _ _ _ _ _ _ _ P1 P2).
Qed.

Lemma ticks_app n k (Q : unit -> W -> Prop) w :
  wp (ticks n) (fun _ => wp (ticks k) Q) w -> wp (ticks (n + k)) Q w.
Proof.
  revert w. induction n as [|n IH]; intros w H; [exact H|]. simpl in *. apply (proj1 (wp_bind _ _ _ _)) in H. apply wp_bind.
  eapply wp_mono; [exact H|]. intros [] w' H'. by apply IH.
Qed.

Lemma ticks_idle w n :
  l_st_set w = true -> currentNodeState (l_st w) = LIN_NODE_STATE_IDLE -> ticks n w = Ok (tt, w).
Proof.
  intros Hst Hn. induction n as [|n IH]; [done|]. simpl. by rewrite (bind_ok _ _ _ _ _ (tick_idle w Hst Hn)).
Qed.

(** [c] periods of waiting, one that gives up, and then nothing more. *)
Lemma ticks_expire w blocking c n :
  ready w -> pending blocking c (l_st w) -> 0 <= c < 2 ^ 32 ->
  wp (ticks (Z.to_nat c + S n))
    (fun _ w' => post w [] (l_mem w) (observe LIN_NO_EVENT (l_user w)) (given_up blocking) w') w.
Proof.
  intros R P Hc. apply ticks_app. eapply wp_mono; [apply (ticks_wait w blocking c); (done || lia)|].
  intros [] w1 P1. destruct (P1) as [R1 C1 M1 U1 S1 St1].
  rewrite Z2Nat.id, Z.sub_diag in St1 by lia. simpl. apply wp_bind.
  eapply wp_mono; [by apply (tick_gives_up w1 blocking)|]. intros [] w2 P2. rewrite M1, U1 in P2.
  destruct (P2) as [[Hst _ _ _ _ _] _ _ _ _ [Hn _ _]].
  apply (wp_ok _ _ _ _ _ (ticks_idle w2 n Hst Hn)). exact (post_trans _ _ _ _ _ _ _ _ _ _ _ P1 P2).
Qed.

Lemma set_timeout_run w t (Q : unit -> W -> Prop) :
  l_st_set w = true ->
  Q tt (set_st (set_timeoutCounter t (set_timeoutCounterFlag false (l_st w))) w) ->
  wp (LIN_SetTimeoutCounter instance t) Q w.
Proof.
  intros Hst HQ. unfold LIN_SetTimeoutCounter. rewrite on_instance_known.
  apply wp_bind, wp_upd; [done|]. apply wp_upd; [by destruct w|]. by destruct w, l_st.
Qed.

Lemma set_response_run w buf n t :
  ready w -> available (l_st w) -> (1 <= n <= 8)%nat -> buf <> 0 -> 0 < currentPid (l_st w) < 256 ->
  Forall byte (bytes_of (l_mem w) n buf) -> isTxBlocking (l_st w) = false ->
  wp (LIN_SetResponse instance buf (Z.of_nat n) t) (fun r w' => r = LIN_SUCCESS /\
    post w [Byte (l_mem w buf)] (l_mem w) (l_user w) (pending false t) w') w.
Proof.
  intros R [Hbusy Hawake] Hn Hbuf Hpid Hb Hblock.
  destruct (size_tests (Z.of_nat n) ltac:(lia)) as [T1 T2].
  assert (Hb0 : byte (l_mem w buf)).
  { destruct n as [|n']; [lia|]. simpl in Hb. by inversion Hb. }
  destruct (R) as [Hst Hcfg He Hcb _ _]. unfold LIN_SetResponse, LIN_SendFrameData. rewrite on_instance_known.
  apply wp_bind, set_timeout_run; [done|]. unfold LIN_LPUART_SendFrameData.
  destruct w as [d st ss cfg cs p wk c tm m u]. destruct st. simpl in *. subst.
  apply wp_bind, wp_assert; [by rewrite (proj2 (Z.eqb_neq buf 0))|]. lin_step. lin_step.
  rewrite T1, T2, awake_test by done. simpl.
  apply wp_bind, wp_gets. apply wp_bind. eapply wp_lift; [by apply MakeChecksum_ok|].
  assert (G := went_refl d). repeat lin_step. split; [done|].
  rewrite (wrap_small 8 (m buf)) in * by exact Hb0.
  lin_post R. by split.
Qed.

Lemma send_blocking_run w buf n t :
  ready w -> available (l_st w) -> (1 <= n <= 8)%nat -> buf <> 0 -> 0 < currentPid (l_st w) < 256 ->
  Forall byte (bytes_of (l_mem w) n buf) ->
  wp (LIN_LPUART_SendFrameDataBlocking instance buf (Z.of_nat n) t) (fun r w' => r = LIN_SUCCESS /\
    post w [Byte (l_mem w buf)] (l_mem w) (l_user w)
      (fun st => pending true t st /\ isTxBusy st = true /\ txCompleted st = false /\ cntByte st = 0) w') w.
Proof.
  intros R [Hbusy Hawake] Hn Hbuf Hpid Hb.
  destruct (size_tests (Z.of_nat n) ltac:(lia)) as [T1 T2].
  assert (Hb0 : byte (l_mem w buf)).
  { destruct n as [|n']; [lia|]. simpl in Hb. by inversion Hb. }
  destruct (R) as [Hst Hcfg He Hcb _ _]. unfold LIN_LPUART_SendFrameDataBlocking.
  destruct w as [d st ss cfg cs p wk c tm m u]. destruct st. simpl in *. subst.
  apply wp_bind, wp_assert; [by rewrite (proj2 (Z.eqb_neq buf 0))|]. lin_step. lin_step.
  rewrite T1, T2, awake_test by done. simpl.
  apply wp_bind, wp_gets. apply wp_bind. eapply wp_lift; [by apply MakeChecksum_ok|].
  assert (G := went_refl d). repeat lin_step.
  apply set_timeout_run; [done|]. simpl. repeat lin_step. split; [done|].
  rewrite (wrap_small 8 (m buf)) in * by exact Hb0.
  lin_post R. by repeat split.
Qed.

(** A response set with a time-out of [t] periods is waited for through
    [t] calls of the time-out service; the next call gives it up: the
    application is told, the flag is set, the node is idle and the bus free,
    and further calls change nothing. *)
Theorem lin_response_timeout w (buf t : Z) (n k : nat)
    (R : ready w) (A : available (l_st w)) (Hn : (1 <= n <= 8)%nat) (Hbuf : buf <> 0)
    (Hp : 0 < currentPid (l_st w) < 256) (Hb : Forall byte (bytes_of (l_mem w) n buf))
    (Hnb : isTxBlocking (l_st w) = false) (Ht : 0 <= t < 2 ^ 32) :
  wp (LIN_SetResponse instance buf (Z.of_nat n) t) (fun r w1 => r = LIN_SUCCESS /\
    (Z.of_nat k <= t -> wp (ticks k) (fun _ w2 =>
      post w [Byte (l_mem w buf)] (l_mem w) (l_user w) (pending false (t - Z.of_nat k)) w2) w1) /\
    (t < Z.of_nat k -> wp (ticks k) (fun _ w2 =>
      post w [Byte (l_mem w buf)] (l_mem w) (observe LIN_NO_EVENT (l_user w)) (given_up false) w2) w1)) w.
Proof.
  eapply wp_mono; [by apply set_response_run|]. intros r w1 [-> P1]. split; [done|].
  destruct (P1) as [R1 C1 M1 U1 S1 St1]. split; intros Hk.
  - eapply wp_mono; [apply (ticks_wait w1 false t); (done || lia)|]. intros [] w2 P2. rewrite M1, U1 in P2.
    exact (post_trans _ _ _ _ _ _ _ _ _ _ _ P1 P2).
  - replace k with (Z.to_nat t + S (k - Z.to_nat t - 1))%nat by lia.
    eapply wp_mono; [apply (ticks_expire w1 false t); (done || lia)|]. intros [] w2 P2. rewrite M1, U1 in P2.
    exact (post_trans _ _ _ _ _ _ _ _ _ _ _ P1 P2).
Qed.

(** The blocking transmission does not block: it returns LIN_SUCCESS with
    one byte handed over and none confirmed.  When its time-out expires the
    node is idle but the bus stays marked busy, after any further number of
    calls of the time-out service, so that every later request is refused with
    LIN_BUS_BUSY. *)
Theorem lin_blocking_timeout_locks_bus w (buf t id buf' size : Z) (n k : nat)
    (R : ready w) (A : available (l_st w)) (Hn : (1 <= n <= 8)%nat) (Hbuf : buf <> 0)
    (Hp : 0 < currentPid (l_st w) < 256) (Hb : Forall byte (bytes_of (l_mem w) n buf))
    (Ht : 0 <= t < Z.of_nat k) (Ht32 : t < 2 ^ 32)
    (Hm : nodeFunction (l_cfg w) = true) (Hid : id <= 63) (Hbuf' : buf' <> 0) (Hsize : 0 < size <= 8) :
  wp (LIN_LPUART_SendFrameDataBlocking instance buf (Z.of_nat n) t) (fun r w1 =>
    r = LIN_SUCCESS /\ sent (l_hw w1) = sent (l_hw w) ++ [Byte (l_mem w buf)] /\
    isTxBusy (l_st w1) = true /\ txCompleted (l_st w1) = false /\ cntByte (l_st w1) = 0 /\
    wp (ticks k) (fun _ w2 =>
      currentNodeState (l_st w2) = LIN_NODE_STATE_IDLE /\ isBusBusy (l_st w2) = true /\
      LIN_LPUART_MasterSendHeader id w2 = Ok (LIN_BUS_BUSY, w2) /\
      LIN_LPUART_SendFrameData buf' size w2 = Ok (LIN_BUS_BUSY, w2) /\
      LIN_LPUART_RecvFrmData buf' size w2 = Ok (LIN_BUS_BUSY, w2)) w1) w.
Proof.
  eapply wp_mono; [by apply send_blocking_run|]. intros r w1 [-> P1].
  destruct (P1) as [R1 C1 M1 U1 S1 (St1 & Hbusy & Hcompl & Hcnt)]. do 5 (split; [done|]).
  replace k with (Z.to_nat t + S (k - Z.to_nat t - 1))%nat by lia.
  eapply wp_mono; [apply (ticks_expire w1 true t); (done || lia)|]. intros [] w2 P2.
  destruct P2 as [[Hst Hcfg He Hcb _ _] C2 _ _ _ [Hn2 Hf2 Hb2]]. split; [done|]. split; [done|].
  assert (Hs : forall (A : Type) (f : lin_state -> M W A), bind linCurrentState f w2 = f (l_st w2) w2).
  { intros. apply bind_ok. unfold linCurrentState. by rewrite Hst. }
  assert (Hc : forall (A : Type) (f : lin_user_config -> M W A), bind linUserConfig f w2 = f (l_cfg w2) w2).
  { intros. apply bind_ok. unfold linUserConfig. by rewrite Hcfg. }
  assert (Ha : sleeping (l_st w2) = false) by (apply awake_test; by rewrite Hn2).
  destruct (size_tests size ltac:(lia)) as [T1 T2].
  unfold LIN_LPUART_MasterSendHeader, LIN_LPUART_SendFrameData, LIN_LPUART_RecvFrmData, assert_.
  rewrite Hc, !Hs, C2, C1, Hm, Ha, (proj2 (Z.ltb_ge 63 id)), Hb2 by lia.
  rewrite (proj2 (Z.eqb_neq buf' 0)) by done. simpl. rewrite !bind_ret, !Hs, T1, T2, Ha, Hb2. done.
Qed.
End Timeouts.

(** ** A break that is lost *)

#[local] Arguments LinFrames.after : simpl never.

Section LostBreak.
Context {D U : Type} `{!Device lin_reg D} {F : LinFields} {X : LinFeatures} {L : LinLaws} {K : LinMasks}.
Abbreviation W := (lin_world D U).
Context (user_callback : M W unit) (timer_interval : M W Z).
Implicit Types w v : W.

(** Writing STAT back with a control bit changed writes the pending break
    flag back as 1, which clears it. *)
Lemma polarity_drops_break d :
  line d = Some Break -> wp (LIN_LPUART_SetRxDataPolarity false) (fun _ d' => line d' = None) d.
Proof.
  intros Hl. unfold LIN_LPUART_SetRxDataPolarity. apply wp_bind, wp_rd; [done|]. apply wp_wr.
  rewrite line_write, decide_True, Hl by done. unfold stat_write.
  rewrite Z.shiftl_0_l. change (u32 0) with 0. rewrite Z.lor_0_r.
  destruct (land_lor_0 _ _ _ mask_control) as [Hm _]. rewrite Z.land_comm in Hm.
  apply land_lor_0 in Hm. destruct Hm as [Hm _]. assert (H := mask_lbkdif).
  rewrite has_bic_keep by (done || (rewrite Z.land_comm; done) || lia).
  by rewrite stat_break, Hl.
Qed.

(** An idle node ignores bytes. *)
Lemma idle_ignores v b (Q : W -> Prop) :
  ready v -> currentNodeState (l_st v) = LIN_NODE_STATE_IDLE ->
  (forall d, ready (set_hw d v) -> Q (set_hw d v)) -> after user_callback timer_interval [Byte b] Q v.
Proof.
  intros R Hn HQ. apply ready_served; [done|done|]. intros d Ha. assert (R' := ready_arrives v _ d R Ha).
  apply (irq_byte user_callback timer_interval (set_hw d v) b); [done|destruct v; apply Ha|].
  intros d' [S1 F1 E1 H1 B1 L1]. unfold consumed, LIN_LPUART_ProcessFrame.
  apply wp_bind, wp_state; [destruct v; apply R|].
  replace (l_st (set_hw d' (set_hw d v))) with (l_st v) by by destruct v. rewrite Hn. apply wp_ret.
  intros d'' [Sc Fc Lc Ec Hc Bc].
  replace (set_hw d'' (set_hw d' (set_hw d v))) with (set_hw d'' v) by by destruct v. apply HQ.
  destruct R' as [R1 R2 R3 R4 R5 R6], v. simpl in *. split; simpl; auto.
Qed.

(** Going idle loses a pending break. *)
Lemma goto_idle_drops_break v :
  l_st_set v = true -> line (l_hw v) = Some Break -> wp LIN_LPUART_GotoIdleState (fun _ v1 => line (l_hw v1) = None) v.
Proof.
  intros Hst Hl. unfold LIN_LPUART_GotoIdleState. destruct v as [d st ss cfg cs q wk c t m u]. simpl in *. subst.
  apply wp_bind, wp_hw. eapply wp_mono; [exact (polarity_drops_break d Hl)|]. intros [] d1 H1. simpl in *.
  assert (Hk : forall d d', ctl true true d d' -> line d = None -> line d' = None)
    by (intros d0 d' C E; rewrite (ctl_line _ _ _ _ C), E by (by rewrite E); done).
  do 4 (apply wp_bind, (wp_controls true true); [solve [auto with driver]|]; intros _ ? ?; simpl in * ).
  apply wp_bind, wp_upd; [done|]. apply wp_ret. simpl. eauto 10.
Qed.

(** A slave that goes idle, at the end of a frame or after an error, while
    the next break is pending clears its flag unseen: the bytes of the header
    that follows are ignored, and the frame passes without an event. *)
Theorem lin_pending_break_lost v (p : Z)
    (R : ready v) (Hl : line (l_hw v) = Some Break) :
  wp LIN_LPUART_GotoIdleState (fun _ v1 => line (l_hw v1) = None /\
    after user_callback timer_interval [Byte 85; Byte p] (fun v2 =>
      l_st v2 = set_currentNodeState LIN_NODE_STATE_IDLE (l_st v) /\ l_user v2 = l_user v) v1) v.
Proof.
  destruct (R) as [Hst Hcfg He Hcb Hh Hb]. apply wp_both; [by apply goto_idle_drops_break|].
  apply wp_goto_idle; [done|]. intros d [S1 E1 H1 B1].
  assert (R1 : ready (set_st (set_currentNodeState LIN_NODE_STATE_IDLE (l_st v)) (set_hw d v))).
  { destruct v as [d0 st ss cfg cs q wk c t m u]. destruct st. split; simpl in *; auto. }
  refine (proj2 (after_app user_callback timer_interval [Byte 85] [Byte p] _ _) _).
  apply idle_ignores; [exact R1|by destruct v, l_st|]. intros d1 R2.
  apply idle_ignores; [exact R2|by destruct v, l_st|]. intros d2 _. by destruct v.
Qed.
End LostBreak.

(** ** The examples *)

Definition lost_world : demo_node :=
  set_hw (Lpuart demo_registers (Some Break) [] true) (demo_world false idle_state).

Lemma demo_headed_available : available headed_state_29.
Proof. split; [reflexivity|discriminate]. Qed.

Lemma lin_pending_break_lost_witness :
  wp LIN_LPUART_GotoIdleState (fun _ v1 => line (l_hw v1) = None /\
    after demo_callback demo_timer [Byte 85; Byte 221] (fun v2 =>
      l_st v2 = set_currentNodeState LIN_NODE_STATE_IDLE (l_st lost_world) /\ l_user v2 = l_user lost_world) v1)
    lost_world.
Proof.
  apply (lin_pending_break_lost demo_callback demo_timer lost_world 221 ltac:(by split) eq_refl).
Defined.

Lemma lin_response_timeout_witness :
  wp (LIN_SetResponse 0 10 4 3) (fun r w1 => r = LIN_SUCCESS /\
    wp (ticks 0 demo_callback 7) (fun _ w2 =>
      post (demo_world true headed_state_29) [Byte (l_mem (demo_world true headed_state_29) 10)]
        (l_mem (demo_world true headed_state_29))
        (demo_observe LIN_NO_EVENT (l_user (demo_world true headed_state_29))) (given_up false) w2) w1)
    (demo_world true headed_state_29).
Proof.
  assert (H := lin_response_timeout (X := lpuart_features) 0 eq_refl demo_callback demo_observe (fun _ => eq_refl)
    (demo_world true headed_state_29) 10 3 4 7 (demo_ready true headed_state_29 eq_refl) demo_headed_available
    ltac:(lia) ltac:(lia) ltac:(simpl; lia) ltac:(repeat constructor; vm_compute; discriminate || reflexivity)
    eq_refl ltac:(lia)).
  eapply wp_mono; [exact H|]. intros r w1 (Hr & _ & H1). split; [exact Hr|]. apply H1. simpl. lia.
Defined.

Lemma lin_blocking_timeout_locks_bus_witness :
  wp (LIN_LPUART_SendFrameDataBlocking 0 10 4 3) (fun r w1 =>
    r = LIN_SUCCESS /\ sent (l_hw w1) = sent (l_hw (demo_world true headed_state_29))
      ++ [Byte (l_mem (demo_world true headed_state_29) 10)] /\
    isTxBusy (l_st w1) = true /\ txCompleted (l_st w1) = false /\ cntByte (l_st w1) = 0 /\
    wp (ticks 0 demo_callback 100) (fun _ w2 =>
      currentNodeState (l_st w2) = LIN_NODE_STATE_IDLE /\ isBusBusy (l_st w2) = true /\
      LIN_LPUART_MasterSendHeader 29 w2 = Ok (LIN_BUS_BUSY, w2) /\
      LIN_LPUART_SendFrameData 20 2 w2 = Ok (LIN_BUS_BUSY, w2) /\
      LIN_LPUART_RecvFrmData 20 2 w2 = Ok (LIN_BUS_BUSY, w2)) w1) (demo_world true headed_state_29).
Proof.
  apply (lin_blocking_timeout_locks_bus (X := lpuart_features) 0 eq_refl demo_callback demo_observe
    (fun _ => eq_refl) (demo_world true headed_state_29) 10 3 29 20 2 4 100
    (demo_ready true headed_state_29 eq_refl) demo_headed_available
    ltac:(lia) ltac:(lia) ltac:(simpl; lia) ltac:(repeat constructor; vm_compute; discriminate || reflexivity)
    ltac:(lia) ltac:(lia) eq_refl ltac:(lia) ltac:(lia) ltac:(lia)).
Defined.

(** ** Auto-baud *)

Definition supported_rates : list Z := [19200; 14400; 9600; 4800; 2400].

(** A measurement of two bit times, in nanoseconds, is cancelled as out of
    range exactly when it selects no rate.  The selected rate [r] is one of
    the five supported ones and the measurement is within two percent of it;
    conversely every measurement within two percent, but for the rounding of
    the limits to whole nanoseconds, selects its rate. *)
Theorem lin_autobaud_selection (t : Z) :
  (outside_all_rates t = true <-> master_baudrate t = 0) /\
  (forall r, master_baudrate t = r -> r <> 0 ->
    r ∈ supported_rates /\ 98 * 20000000 - 2 * r < t * r <= 102 * 20000000) /\
  (forall r, r ∈ supported_rates -> 98 * 20000000 <= t * r <= 102 * 20000000 - 2 * r ->
    master_baudrate t = r).
Proof.
  assert (Hin : forall r, in_two_bits t r = true <-> TWO_BIT_DURATION_MIN r <= t <= TWO_BIT_DURATION_MAX r).
  { intros r. unfold in_two_bits. rewrite andb_true_iff, !Z.leb_le. done. }
  assert (Hrates : forall r, r ∈ supported_rates <-> r = 19200 \/ r = 14400 \/ r = 9600 \/ r = 4800 \/ r = 2400).
  { intros r. unfold supported_rates. rewrite !elem_of_cons, elem_of_nil. tauto. }
  unfold master_baudrate.
  assert (H1 := Hin 192). assert (H2 := Hin 144). assert (H3 := Hin 96). assert (H4 := Hin 48).
  assert (H5 := Hin 24). clear Hin.
  change (TWO_BIT_DURATION_MIN 192) with 102082 in *. change (TWO_BIT_DURATION_MAX 192) with 106250 in *.
  change (TWO_BIT_DURATION_MIN 144) with 136110 in *. change (TWO_BIT_DURATION_MAX 144) with 141666 in *.
  change (TWO_BIT_DURATION_MIN 96) with 204166 in *. change (TWO_BIT_DURATION_MAX 96) with 212500 in *.
  change (TWO_BIT_DURATION_MIN 48) with 408332 in *. change (TWO_BIT_DURATION_MAX 48) with 425000 in *.
  change (TWO_BIT_DURATION_MIN 24) with 816666 in *. change (TWO_BIT_DURATION_MAX 24) with 850000 in *.
  split; [|split].
  - unfold outside_all_rates.
    change (TWO_BIT_DURATION_MIN 192) with 102082. change (TWO_BIT_DURATION_MAX 192) with 106250.
    change (TWO_BIT_DURATION_MIN 144) with 136110. change (TWO_BIT_DURATION_MAX 144) with 141666.
    change (TWO_BIT_DURATION_MIN 96) with 204166. change (TWO_BIT_DURATION_MAX 96) with 212500.
    change (TWO_BIT_DURATION_MIN 48) with 408332. change (TWO_BIT_DURATION_MAX 48) with 425000.
    change (TWO_BIT_DURATION_MIN 24) with 816666. change (TWO_BIT_DURATION_MAX 24) with 850000.
    destruct (in_two_bits t 192), (in_two_bits t 144), (in_two_bits t 96), (in_two_bits t 48),
      (in_two_bits t 24); split; intros; try done; lia.
  - intros r Hr Hr0. rewrite Hrates.
    destruct (in_two_bits t 192); [lia|]. destruct (in_two_bits t 144); [lia|].
    destruct (in_two_bits t 96); [lia|]. destruct (in_two_bits t 48); [lia|].
    destruct (in_two_bits t 24); lia.
  - intros r Hr Ht. rewrite Hrates in Hr.
    destruct (in_two_bits t 192), (in_two_bits t 144), (in_two_bits t 96), (in_two_bits t 48),
      (in_two_bits t 24); lia.
Qed.

Section Capture.
Context {D U : Type} `{!Device lin_reg D} {F : LinFields} {X : LinFeatures}.
Abbreviation W := (lin_world D U).
Context (user_callback : M W unit).
Implicit Types w : W.

(** Edges are captured; the timer tells the time since the previous one. *)
Fixpoint captures (ts : list Z) : M W unit :=
  match ts with
  | [] => ret tt
  | t :: ts => LIN_LPUART_AutoBaudCapture user_callback (ret t) ;; captures ts
  end.

(** An idle slave that waits for a break to measure the baud rate. *)
Record listening (w : W) : Prop := {
  listening_st : l_st_set w = true;
  listening_cfg : l_cfg_set w = true;
  listening_timer : timerGetTimeIntervalCallback (l_cfg w) = true;
  listening_eval : baudrateEvalEnable (l_st w) = true;
  listening_idle : currentNodeState (l_st w) = LIN_NODE_STATE_IDLE
}.

(** The total of the measured times is so near to overflow that a break does
    not fit any more. *)
Definition saturated (w : W) : Prop :=
  UINT32_MAX - AUTOBAUD_BREAK_TIME_MIN < s_timeMeasure w <= UINT32_MAX.

Lemma capture_saturated w t :
  listening w -> saturated w -> 0 <= t < 2 ^ 32 ->
  wp (LIN_LPUART_AutoBaudCapture user_callback (ret t)) (fun r w' =>
    listening w' /\ saturated w' /\ l_hw w' = l_hw w /\ l_st w' = l_st w /\
    (AUTOBAUD_BREAK_TIME_MIN <= t -> r = LIN_ERROR /\ w' = w)) w.
Proof.
  intros [H1 H2 H3 H4 H5] Hs Ht. unfold LIN_LPUART_AutoBaudCapture, saturated in *.
  change AUTOBAUD_BREAK_TIME_MIN with 663533 in *.
  apply wp_bind, wp_state; [done|]. rewrite H4. apply wp_bind, wp_config; [done|]. rewrite H3. simpl.
  apply wp_bind, wp_ret. apply wp_bind, wp_get.
  destruct (Z.ltb_spec (4294967295 - t) (s_timeMeasure w)); [by apply wp_ret|].
  destruct w as [d st ss cfg cs q wk c tm m u]. simpl in *.
  apply wp_bind, wp_modify. apply wp_bind, wp_modify. apply wp_bind, wp_get. simpl.
  rewrite (wrap_small 32 (tm + t)) by (pow2; lia).
  destruct (1 <? u8 (c + 1)); simpl.
  - apply wp_bind, wp_state; [done|]. simpl. rewrite H5. unfold capture_idle.
    change AUTOBAUD_BREAK_TIME_MIN with 663533. rewrite (proj2 (Z.leb_gt 663533 t)) by lia.
    apply wp_bind, wp_modify, wp_ret. simpl. repeat split; simpl; (done || lia).
  - apply wp_ret. repeat split; simpl; (done || lia).
Qed.

(** The times an idle slave measures are summed and never reset: once a
    break no longer fits below 2^32 nanoseconds (4.29 seconds), every break is
    answered with LIN_ERROR, whatever edges follow; the slave never recognises
    another break and stays idle, its state unchanged. *)
Theorem lin_autobaud_stalls w (ts : list Z) (H : listening w) (Hs : saturated w)
    (Ht : Forall (fun t => 0 <= t < 2 ^ 32) ts) :
  wp (captures ts) (fun _ w' => l_hw w' = l_hw w /\ l_st w' = l_st w /\
    forall t, AUTOBAUD_BREAK_TIME_MIN <= t < 2 ^ 32 ->
      LIN_LPUART_AutoBaudCapture user_callback (ret t) w' = Ok (LIN_ERROR, w')) w.
Proof.
  revert w H Hs. induction Ht as [|t ts Ht Hts IH]; intros w H Hs.
  - apply wp_ret. split; [done|]. split; [done|]. intros t Ht.
    assert (Hw := capture_saturated w t H Hs). change AUTOBAUD_BREAK_TIME_MIN with 663533 in *.
    apply wp_inv in Hw; [|lia]. destruct Hw as (r & w' & E & _ & _ & _ & _ & Hr).
    destruct Hr as [-> ->]; [lia|]. exact E.
  - simpl. apply wp_bind. eapply wp_mono; [by apply capture_saturated|].
    intros r w1 (H1 & Hs1 & Hd & Hst & _). eapply wp_mono; [by apply IH|].
    intros [] w2 (Hd2 & Hst2 & Hr). rewrite Hd2, Hst2. done.
Qed.
End Capture.

(** A slave that waits for its first break while pulses of 100 microseconds
    come once a second. *)
Definition waiting_world : demo_node :=
  set_st (set_baudrateEvalEnable true idle_state) (demo_world false idle_state).
Definition stalled_world : demo_node :=
  match captures demo_callback [1000000000; 100000; 1000000000; 100000; 1000000000; 100000; 1000000000; 100000;
    294000000; 100000] waiting_world with Ok (_, w) => w | Err _ => waiting_world end.

Lemma lin_autobaud_stalls_witness :
  wp (captures demo_callback [1000; 700000; 5000000]) (fun _ w' =>
    l_hw w' = l_hw stalled_world /\ l_st w' = l_st stalled_world /\
    forall t, AUTOBAUD_BREAK_TIME_MIN <= t < 2 ^ 32 ->
      LIN_LPUART_AutoBaudCapture demo_callback (ret t) w' = Ok (LIN_ERROR, w')) stalled_world.
Proof.
  apply lin_autobaud_stalls.
  - split; vm_compute; reflexivity.
  - split; vm_compute; (reflexivity || discriminate).
  - repeat constructor; vm_compute; (reflexivity || discriminate).
Defined.
