(* ===== verification/Glikey.v ===== *)
(** * The GLIKEY driver (drivers/glikey)

    GLIKEY guards write accesses: software walks a state machine of the
    peripheral through steps, each by a code word written to one of two
    control fields, before a write is allowed.  The driver's functions over
    the registers; the peripheral's state machine is visible through STATUS
    only and stays abstract.

    While the registers are locked every operation refuses and touches
    nothing.  But the one that should lock them does so only when they are
    locked already. *)

From stdpp Require Import base list numbers tactics.
From Stdlib Require Import ZArith Lia.
From S2P Require Import Prelude Mmio.

Open Scope Z_scope.
Open Scope prog_scope.

Inductive glikey_reg := CTRL_0 | CTRL_1 | INTR_CTRL | STATUS | VERSION.
#[export] Instance glikey_reg_eq_dec : EqDecision glikey_reg.
Proof. solve_decision. Defined.

Class GlikeyFields := {
  GLIKEY_CTRL_0_WR_EN_0_MASK : Z; GLIKEY_CTRL_0_WR_EN_0_SHIFT : Z;
  GLIKEY_CTRL_0_WRITE_INDEX_MASK : Z; GLIKEY_CTRL_0_WRITE_INDEX : Z -> Z;
  GLIKEY_CTRL_0_SFT_RST_MASK : Z;
  GLIKEY_CTRL_1_WR_EN_1_MASK : Z; GLIKEY_CTRL_1_WR_EN_1_SHIFT : Z;
  GLIKEY_CTRL_1_READ_INDEX_MASK : Z; GLIKEY_CTRL_1_READ_INDEX : Z -> Z;
  GLIKEY_CTRL_1_SFR_LOCK_MASK : Z; GLIKEY_CTRL_1_SFR_LOCK_SHIFT : Z;
  GLIKEY_INTR_CTRL_INT_EN_MASK : Z; GLIKEY_INTR_CTRL_INT_EN : Z -> Z;
  GLIKEY_INTR_CTRL_INT_CLR_MASK : Z; GLIKEY_INTR_CTRL_INT_SET_MASK : Z;
  GLIKEY_STATUS_ERROR_STATUS_MASK : Z; GLIKEY_STATUS_LOCK_STATUS_MASK : Z;
  GLIKEY_STATUS_FSM_STATE_MASK : Z; GLIKEY_STATUS_FSM_STATE_SHIFT : Z
}.

Definition kStatusGroup_GLIKEY : Z := 168.
Definition kStatus_GLIKEY_LockedError : status_t := MAKE_STATUS kStatusGroup_GLIKEY 1.
Definition kStatus_GLIKEY_NotLocked : status_t := MAKE_STATUS kStatusGroup_GLIKEY 2.
Definition kStatus_GLIKEY_Locked : status_t := MAKE_STATUS kStatusGroup_GLIKEY 3.
Definition kStatus_GLIKEY_DisabledError : status_t := MAKE_STATUS kStatusGroup_GLIKEY 4.

(** Code words of the steps, and the states of the peripheral. *)
Definition GLIKEY_CODEWORD_STEP1 : Z := 0xF0C10F3E.
Definition GLIKEY_CODEWORD_STEP2 : Z := 0x0F1DF0E2.
Definition GLIKEY_CODEWORD_STEP3 : Z := 0xF0B00F4F.
Definition GLIKEY_CODEWORD_STEP4 : Z := 0x0F4EF0B1.
Definition GLIKEY_CODEWORD_STEP5 : Z := 0xF0810F7E.
Definition GLIKEY_CODEWORD_STEP6 : Z := 0x0F5DF0A2.
Definition GLIKEY_CODEWORD_STEP7 : Z := 0xF0700F8F.
Definition GLIKEY_CODEWORD_STEP_EN : Z := 0x0FFFF000.
Definition GLIKEY_FSM_INIT : Z := 0x16.
Definition GLIKEY_FSM_LOCKED : Z := 0xC01.
Definition GLIKEY_FSM_WR_EN : Z := 0x1802.
Definition GLIKEY_FSM_SSR_RESET : Z := 0x1005.

Definition GLIKEY_SFR_LOCK : Z := 5.
Definition GLIKEY_SFR_UNLOCK : Z := 10.
Definition WR_EN0 : Z := 0x0F.
Definition WR_EN1 : Z := 0xF0.
Definition WR_EN0_VALUE_SHIFT : Z := 0.
Definition WR_EN1_VALUE_SHIFT : Z := 16.
Definition CTRL_SEL_CODEWORD_SHIFT : Z := 24.
Definition WR_0_INIT : Z := 2.
Definition WR_1_INIT : Z := 0.

Section Glikey.
Context {D : Type} `{!Device glikey_reg D} {F : GlikeyFields}.

(** The field macros: a value shifted to its place and masked. *)
Definition GLIKEY_CTRL_0_WR_EN_0 (x : Z) : Z :=
  Z.land (u32 (Z.shiftl x GLIKEY_CTRL_0_WR_EN_0_SHIFT)) GLIKEY_CTRL_0_WR_EN_0_MASK.
Definition GLIKEY_CTRL_1_WR_EN_1 (x : Z) : Z :=
  Z.land (u32 (Z.shiftl x GLIKEY_CTRL_1_WR_EN_1_SHIFT)) GLIKEY_CTRL_1_WR_EN_1_MASK.
Definition GLIKEY_CTRL_1_SFR_LOCK (x : Z) : Z :=
  Z.land (u32 (Z.shiftl x GLIKEY_CTRL_1_SFR_LOCK_SHIFT)) GLIKEY_CTRL_1_SFR_LOCK_MASK.

Definition Glikey_Internal_Set_WR_0 (value : Z) : M D unit :=
  ctrl0 <- rd CTRL_0 ;;
  wr CTRL_0 (Z.lor (bic32 ctrl0 GLIKEY_CTRL_0_WR_EN_0_MASK) (GLIKEY_CTRL_0_WR_EN_0 value)).

Definition Glikey_Internal_Set_WR_1 (value : Z) : M D unit :=
  ctrl1 <- rd CTRL_1 ;;
  wr CTRL_1 (Z.lor (bic32 ctrl1 GLIKEY_CTRL_1_WR_EN_1_MASK) (GLIKEY_CTRL_1_WR_EN_1 value)).

Definition GLIKEY_GetStatus : M D Z := rd STATUS.
Definition fsm_state : M D Z :=
  x <- GLIKEY_GetStatus ;; ret (Z.shiftr (Z.land x GLIKEY_STATUS_FSM_STATE_MASK) GLIKEY_STATUS_FSM_STATE_SHIFT).

Definition GLIKEY_CheckLock : M D status_t :=
  x <- rd CTRL_1 ;;
  let sfrLock := Z.shiftr (Z.land x GLIKEY_CTRL_1_SFR_LOCK_MASK) GLIKEY_CTRL_1_SFR_LOCK_SHIFT in
  ret (if negb (sfrLock =? GLIKEY_SFR_UNLOCK) then kStatus_GLIKEY_LockedError else kStatus_GLIKEY_NotLocked).

Definition GLIKEY_IsLocked : M D status_t :=
  retCode <- GLIKEY_CheckLock ;;
  ret (if retCode =? kStatus_GLIKEY_NotLocked then kStatus_GLIKEY_NotLocked else kStatus_GLIKEY_Locked).

Definition GLIKEY_GetVersion : M D (status_t * Z) := x <- rd VERSION ;; ret (kStatus_Success, x).

(** [retCode = GLIKEY_CheckLock(base); if (kStatus_GLIKEY_NotLocked != retCode) return retCode;] *)
Definition unless_locked (m : M D status_t) : M D status_t :=
  retCode <- GLIKEY_CheckLock ;;
  if negb (retCode =? kStatus_GLIKEY_NotLocked) then ret retCode else m.

Definition GLIKEY_SyncReset : M D status_t :=
  unless_locked (set_bits CTRL_0 GLIKEY_CTRL_0_SFT_RST_MASK ;; ret kStatus_Success).

Definition GLIKEY_SetIntEnable (value : Z) : M D status_t :=
  unless_locked (wr INTR_CTRL (GLIKEY_INTR_CTRL_INT_EN value) ;; ret kStatus_Success).

Definition GLIKEY_GetIntEnable : M D (status_t * Z) :=
  x <- rd INTR_CTRL ;; ret (kStatus_Success, Z.land x GLIKEY_INTR_CTRL_INT_EN_MASK).

Definition GLIKEY_ClearIntStatus : M D status_t :=
  unless_locked (set_bits INTR_CTRL GLIKEY_INTR_CTRL_INT_CLR_MASK ;; ret kStatus_Success).

Definition GLIKEY_SetIntStatus : M D status_t :=
  unless_locked (set_bits INTR_CTRL GLIKEY_INTR_CTRL_INT_SET_MASK ;; ret kStatus_Success).

Definition GLIKEY_Lock : M D status_t :=
  retCode <- GLIKEY_CheckLock ;;
  when (negb (retCode =? kStatus_GLIKEY_NotLocked)) (
    ctrl1 <- rd CTRL_1 ;;
    wr CTRL_1 (Z.lor (bic32 ctrl1 GLIKEY_CTRL_1_SFR_LOCK_MASK) (GLIKEY_CTRL_1_SFR_LOCK GLIKEY_SFR_LOCK))) ;;
  ret kStatus_Success.

Definition GLIKEY_IsIndexLocked (index : Z) : M D status_t :=
  ctr1Val <- rd CTRL_1 ;;
  wr CTRL_1 (Z.lor (bic32 ctr1Val GLIKEY_CTRL_1_READ_INDEX_MASK) (GLIKEY_CTRL_1_READ_INDEX index)) ;;
  x <- GLIKEY_GetStatus ;;
  if has x GLIKEY_STATUS_ERROR_STATUS_MASK then ret kStatus_Fail else
  x <- GLIKEY_GetStatus ;;
  ret (if negb (has x GLIKEY_STATUS_LOCK_STATUS_MASK) then kStatus_GLIKEY_NotLocked else kStatus_GLIKEY_Locked).

Definition GLIKEY_LockIndex : M D status_t :=
  unless_locked (
    state <- fsm_state ;;
    if state =? GLIKEY_FSM_WR_EN then
      set_bits CTRL_0 (GLIKEY_CTRL_0_WR_EN_0 3) ;; ret kStatus_GLIKEY_Locked
    else ret kStatus_GLIKEY_DisabledError).

(** LOCKED to INIT; the value is the [ctrl0] the rest goes on with, which is
    0 when this part is skipped. *)
Definition leave_locked (index : Z) : M D Z :=
  state <- fsm_state ;;
  if state =? GLIKEY_FSM_LOCKED then
    ctrl0 <- rd CTRL_0 ;;
    let ctrl0 := Z.lor (bic32 ctrl0 GLIKEY_CTRL_0_WRITE_INDEX_MASK) (GLIKEY_CTRL_0_WRITE_INDEX index) in
    let ctrl0 := Z.lor (bic32 ctrl0 GLIKEY_CTRL_0_WR_EN_0_MASK) (GLIKEY_CTRL_0_WR_EN_0 2) in
    wr CTRL_0 ctrl0 ;;
    ctrl1 <- rd CTRL_1 ;;
    wr CTRL_1 (bic32 ctrl1 GLIKEY_CTRL_1_WR_EN_1_MASK) ;;
    ret ctrl0
  else ret 0.

Definition GLIKEY_StartEnable (index : Z) : M D status_t :=
  unless_locked (
    retCode <- GLIKEY_IsIndexLocked index ;;
    if negb (retCode =? kStatus_GLIKEY_NotLocked) then ret retCode else
    ctrl0 <- leave_locked index ;;
    let ctrl0 := Z.lor (bic32 ctrl0 GLIKEY_CTRL_0_WR_EN_0_MASK) (GLIKEY_CTRL_0_WRITE_INDEX index) in
    let ctrl0 := Z.lor ctrl0 (u32 (Z.shiftl 1 GLIKEY_CTRL_0_WR_EN_0_SHIFT)) in
    wr CTRL_0 ctrl0 ;;
    ctrl1 <- rd CTRL_1 ;;
    wr CTRL_1 (bic32 ctrl1 GLIKEY_CTRL_1_WR_EN_1_MASK) ;;
    ret kStatus_Success).

Definition GLIKEY_ContinueEnable (codeword : Z) : M D status_t :=
  unless_locked (
    let select := Z.shiftr codeword CTRL_SEL_CODEWORD_SHIFT in
    if negb (select =? WR_EN1) && negb (select =? WR_EN0) then ret kStatus_Fail else
    (if select =? WR_EN1 then Glikey_Internal_Set_WR_1 (Z.shiftr codeword WR_EN1_VALUE_SHIFT)
     else Glikey_Internal_Set_WR_0 (Z.shiftr codeword WR_EN0_VALUE_SHIFT)) ;;
    x <- GLIKEY_GetStatus ;;
    if has x GLIKEY_STATUS_ERROR_STATUS_MASK then ret kStatus_GLIKEY_DisabledError else
    ret (if negb (Z.land (Z.lxor codeword (Z.shiftr codeword 16)) 0xFFFF =? 0xFFFF)
         then kStatus_Fail else kStatus_Success)).

Definition GLIKEY_EndOperation : M D status_t :=
  unless_locked (
    state <- fsm_state ;;
    if state =? GLIKEY_FSM_LOCKED then
      Glikey_Internal_Set_WR_0 WR_0_INIT ;;
      Glikey_Internal_Set_WR_1 WR_1_INIT ;;
      state <- fsm_state ;;
      ret (if state =? GLIKEY_FSM_LOCKED then kStatus_GLIKEY_Locked else kStatus_Success)
    else if (state =? GLIKEY_FSM_SSR_RESET) || (state =? GLIKEY_FSM_WR_EN) then
      Glikey_Internal_Set_WR_0 WR_0_INIT ;;
      Glikey_Internal_Set_WR_1 WR_1_INIT ;;
      ret kStatus_Success
    else ret kStatus_GLIKEY_DisabledError).

Definition GLIKEY_ResetIndex (index : Z) : M D status_t :=
  unless_locked (
    retCode <- GLIKEY_IsIndexLocked index ;;
    if negb (retCode =? kStatus_GLIKEY_NotLocked) then ret retCode else
    state <- fsm_state ;;
    if state =? GLIKEY_FSM_INIT then
      ctrl0 <- rd CTRL_0 ;;
      wr CTRL_0 (Z.lor (bic32 ctrl0 GLIKEY_CTRL_0_WRITE_INDEX_MASK) (GLIKEY_CTRL_0_WRITE_INDEX index)) ;;
      ret kStatus_Success
    else ret kStatus_GLIKEY_DisabledError).
End Glikey.

(** ** The peripheral *)

Section Laws.
Context {D : Type} `{!Device glikey_reg D} {F : GlikeyFields}.

(** Reading a register has no effect; what a write does to the peripheral,
    its state machine included, is left open. *)
Class GlikeyLaws := {
  field : D -> glikey_reg -> Z;
  glikey_read r d : reg_read r d = (field d r, d)
}.
Context {L : GlikeyLaws}.

Definition sfr_lock (d : D) : Z :=
  Z.shiftr (Z.land (field d CTRL_1) GLIKEY_CTRL_1_SFR_LOCK_MASK) GLIKEY_CTRL_1_SFR_LOCK_SHIFT.

Lemma glikey_bind_rd {A} r (f : Z -> M D A) d : bind (rd r) f d = f (field d r) d.
Proof. apply bind_ok. unfold rd. by rewrite glikey_read. Qed.

Lemma CheckLock_run d : GLIKEY_CheckLock d =
  Ok (if sfr_lock d =? GLIKEY_SFR_UNLOCK then kStatus_GLIKEY_NotLocked else kStatus_GLIKEY_LockedError, d).
Proof. unfold GLIKEY_CheckLock. rewrite glikey_bind_rd. fold (sfr_lock d). by destruct (_ =? _). Qed.

Lemma unless_locked_refuses m d :
  sfr_lock d <> GLIKEY_SFR_UNLOCK -> unless_locked m d = Ok (kStatus_GLIKEY_LockedError, d).
Proof.
  intros H. unfold unless_locked. rewrite (bind_ok _ _ _ _ _ (CheckLock_run d)).
  by rewrite (proj2 (Z.eqb_neq _ _) H).
Qed.

Lemma unless_locked_runs m d : sfr_lock d = GLIKEY_SFR_UNLOCK -> unless_locked m d = m d.
Proof.
  intros H. unfold unless_locked. rewrite (bind_ok _ _ _ _ _ (CheckLock_run d)).
  by rewrite (proj2 (Z.eqb_eq _ _) H).
Qed.

(** C40: While the registers are locked, the nine guarded operations answer
    LockedError and leave the peripheral untouched, whatever their arguments.
    The other two that write are not guarded, and write CTRL_1 once:
    [GLIKEY_Lock] replaces the lock field by the lock code and reports success,
    [GLIKEY_IsIndexLocked] replaces the read index and answers from the status
    that follows.  Everything else only reads. *)
Theorem glikey_locked_refuses (d : D) (x : Z) (H : sfr_lock d <> GLIKEY_SFR_UNLOCK) :
  GLIKEY_IsLocked d = Ok (kStatus_GLIKEY_Locked, d) /\
  Forall (fun op => op d = Ok (kStatus_GLIKEY_LockedError, d))
    [GLIKEY_SyncReset; GLIKEY_SetIntEnable x; GLIKEY_ClearIntStatus; GLIKEY_SetIntStatus; GLIKEY_LockIndex;
     GLIKEY_StartEnable x; GLIKEY_ContinueEnable x; GLIKEY_EndOperation; GLIKEY_ResetIndex x] /\
  GLIKEY_Lock d = Ok (kStatus_Success, reg_write CTRL_1 (Z.lor (bic32 (field d CTRL_1) GLIKEY_CTRL_1_SFR_LOCK_MASK)
    (GLIKEY_CTRL_1_SFR_LOCK GLIKEY_SFR_LOCK)) d) /\
  let d' := reg_write CTRL_1 (Z.lor (bic32 (field d CTRL_1) GLIKEY_CTRL_1_READ_INDEX_MASK) (GLIKEY_CTRL_1_READ_INDEX x)) d in
  GLIKEY_IsIndexLocked x d = Ok (if has (field d' STATUS) GLIKEY_STATUS_ERROR_STATUS_MASK then kStatus_Fail
    else if has (field d' STATUS) GLIKEY_STATUS_LOCK_STATUS_MASK then kStatus_GLIKEY_Locked else kStatus_GLIKEY_NotLocked, d').
Proof.
  split; [|split; [|split]].
  - unfold GLIKEY_IsLocked. rewrite (bind_ok _ _ _ _ _ (CheckLock_run d)).
    by rewrite (proj2 (Z.eqb_neq _ _) H).
  - repeat constructor; by apply unless_locked_refuses.
  - unfold GLIKEY_Lock. rewrite (bind_ok _ _ _ _ _ (CheckLock_run d)), (proj2 (Z.eqb_neq _ _) H).
    change (negb (kStatus_GLIKEY_LockedError =? kStatus_GLIKEY_NotLocked)) with true. cbv beta iota.
    by rewrite bind_assoc, glikey_bind_rd, bind_wr.
  - cbv zeta. unfold GLIKEY_IsIndexLocked, GLIKEY_GetStatus. rewrite glikey_bind_rd, bind_wr, glikey_bind_rd.
    destruct (has _ _); [done|]. rewrite glikey_bind_rd. by destruct (has _ _).
Qed.

(** [GLIKEY_Lock] never locks: on unlocked registers it reports success
    and does nothing, so they stay unlocked and every later operation runs. *)
Theorem glikey_lock_does_not_lock (d : D) (m : M D status_t) (H : sfr_lock d = GLIKEY_SFR_UNLOCK) :
  GLIKEY_Lock d = Ok (kStatus_Success, d) /\
  GLIKEY_IsLocked d = Ok (kStatus_GLIKEY_NotLocked, d) /\
  (GLIKEY_Lock ;; unless_locked m) d = m d.
Proof.
  assert (E : GLIKEY_Lock d = Ok (kStatus_Success, d)).
  { unfold GLIKEY_Lock. rewrite (bind_ok _ _ _ _ _ (CheckLock_run d)).
    by rewrite (proj2 (Z.eqb_eq _ _) H). }
  split; [exact E|]. split.
  - unfold GLIKEY_IsLocked. rewrite (bind_ok _ _ _ _ _ (CheckLock_run d)). by rewrite (proj2 (Z.eqb_eq _ _) H).
  - rewrite (bind_ok _ _ _ _ _ E). by apply unless_locked_runs.
Qed.

(** [XXYZ ^ UUVW == 0xFFFF]: the halves of the code word are complements. *)
Lemma complement_test c :
  0 <= c < 2 ^ 32 ->
  (Z.land (Z.lxor c (Z.shiftr c 16)) 0xFFFF =? 0xFFFF) = (c mod 65536 =? 65535 - c / 65536).
Proof.
  intros Hc. assert (Hhi : 0 <= c / 65536 < 65536) by (pow2; zlia).
  rewrite Z.shiftr_div_pow2 by lia. change (2 ^ 16) with 65536.
  assert (E : Z.land (Z.lxor c (c / 65536)) 0xFFFF = Z.lxor (c mod 65536) (c / 65536)).
  { change 0xFFFF with (Z.ones 16). change 65536 with (2 ^ 16). apply Z.bits_inj'. intros i Hi.
    rewrite Z.land_spec, !Z.lxor_spec. destruct (Z.lt_ge_cases i 16).
    - rewrite Z.ones_spec_low, Z.mod_pow2_bits_low by lia. by rewrite andb_true_r.
    - rewrite Z.ones_spec_high, Z.mod_pow2_bits_high by lia.
      rewrite andb_false_r. by rewrite (testbit_above (c / 2 ^ 16) 16) by (pow2; lia). }
  rewrite E. assert (Hc' : 65535 - c / 65536 = Z.lxor 65535 (c / 65536)).
  { assert (Hd : Z.ldiff (c / 65536) 65535 = 0).
    { apply Z.bits_inj'. intros i Hi. rewrite Z.ldiff_spec, Z.bits_0. change 65535 with (Z.ones 16).
      destruct (Z.lt_ge_cases i 16).
      - rewrite Z.ones_spec_low by lia. by rewrite andb_false_r.
      - by rewrite (testbit_above (c / 65536) 16) by (pow2; lia). }
    rewrite Z.sub_nocarry_ldiff by exact Hd. apply Z.bits_inj'. intros i Hi.
    rewrite Z.ldiff_spec, Z.lxor_spec. assert (H := f_equal (fun x => Z.testbit x i) Hd). cbv beta in H.
    rewrite Z.ldiff_spec, Z.bits_0 in H. by destruct (Z.testbit 65535 i), (Z.testbit (c / 65536) i). }
  rewrite Hc'. apply eq_true_iff_eq. rewrite !Z.eqb_eq. split; intros H.
  - rewrite <- H. by rewrite Z.lxor_assoc, Z.lxor_nilpotent, Z.lxor_0_r.
  - rewrite H. by rewrite Z.lxor_assoc, Z.lxor_nilpotent, Z.lxor_0_r.
Qed.

(** Which field a code word is written to. *)
Definition selected (codeword : Z) : option glikey_reg :=
  if Z.shiftr codeword 24 =? 0xF0 then Some CTRL_1
  else if Z.shiftr codeword 24 =? 0x0F then Some CTRL_0 else None.
(** The device after the field has been replaced by the code word's value. *)
Definition advanced (codeword : Z) (d : D) : D :=
  match selected codeword with
  | Some CTRL_1 => reg_write CTRL_1 (Z.lor (bic32 (field d CTRL_1) GLIKEY_CTRL_1_WR_EN_1_MASK)
      (GLIKEY_CTRL_1_WR_EN_1 (codeword / 65536))) d
  | Some CTRL_0 => reg_write CTRL_0 (Z.lor (bic32 (field d CTRL_0) GLIKEY_CTRL_0_WR_EN_0_MASK)
      (GLIKEY_CTRL_0_WR_EN_0 codeword)) d
  | _ => d
  end.

(** A code word's first byte selects the field it is written to; any other
    byte is refused before anything is written.  The write happens whether or
    not the code word is well-formed, so that a wrong one still reaches the
    peripheral; then an error of the peripheral is reported, and else success
    iff the halves of the code word are complements.  The eight code words of
    the header file are well-formed and alternate between the two fields. *)
Theorem glikey_continue_spec (d : D) (codeword : Z)
    (H : sfr_lock d = GLIKEY_SFR_UNLOCK) (Hc : 0 <= codeword < 2 ^ 32) :
  (selected codeword = None -> GLIKEY_ContinueEnable codeword d = Ok (kStatus_Fail, d)) /\
  (selected codeword <> None ->
    GLIKEY_ContinueEnable codeword d =
      Ok (if has (field (advanced codeword d) STATUS) GLIKEY_STATUS_ERROR_STATUS_MASK then kStatus_GLIKEY_DisabledError
          else if codeword mod 65536 =? 65535 - codeword / 65536 then kStatus_Success else kStatus_Fail,
          advanced codeword d)) /\
  map (fun w => (selected w, w mod 65536 =? 65535 - w / 65536))
      [GLIKEY_CODEWORD_STEP1; GLIKEY_CODEWORD_STEP2; GLIKEY_CODEWORD_STEP3; GLIKEY_CODEWORD_STEP4;
       GLIKEY_CODEWORD_STEP5; GLIKEY_CODEWORD_STEP6; GLIKEY_CODEWORD_STEP7; GLIKEY_CODEWORD_STEP_EN] =
    [(Some CTRL_1, true); (Some CTRL_0, true); (Some CTRL_1, true); (Some CTRL_0, true);
     (Some CTRL_1, true); (Some CTRL_0, true); (Some CTRL_1, true); (Some CTRL_0, true)].
Proof.
  unfold GLIKEY_ContinueEnable. rewrite unless_locked_runs by done.
  unfold WR_EN1, WR_EN0, CTRL_SEL_CODEWORD_SHIFT, WR_EN1_VALUE_SHIFT, WR_EN0_VALUE_SHIFT, advanced, selected.
  rewrite complement_test by done.
  replace (Z.shiftr codeword 16) with (codeword / 65536) by (rewrite Z.shiftr_div_pow2 by lia; done).
  split; [|split; [|reflexivity]].
  - destruct (_ =? 0xF0); [done|]. by destruct (_ =? 0x0F).
  - destruct (_ =? 0xF0); [|destruct (_ =? 0x0F); [|done]]; intros _; simpl.
    + unfold Glikey_Internal_Set_WR_1, GLIKEY_GetStatus. rewrite bind_assoc, glikey_bind_rd, bind_wr, glikey_bind_rd.
      destruct (has _ _); [done|]. by destruct (_ =? _).
    + unfold Glikey_Internal_Set_WR_0, GLIKEY_GetStatus. rewrite Z.shiftr_0_r.
      rewrite bind_assoc, glikey_bind_rd, bind_wr, glikey_bind_rd.
      destruct (has _ _); [done|]. by destruct (_ =? _).
Qed.
End Laws.

(** ** An example *)

#[export] Instance glikey_fields : GlikeyFields := {|
  GLIKEY_CTRL_0_WR_EN_0_MASK := Z.shiftl 3 16; GLIKEY_CTRL_0_WR_EN_0_SHIFT := 16;
  GLIKEY_CTRL_0_WRITE_INDEX_MASK := 255; GLIKEY_CTRL_0_WRITE_INDEX x := Z.land x 255;
  GLIKEY_CTRL_0_SFT_RST_MASK := 2 ^ 18;
  GLIKEY_CTRL_1_WR_EN_1_MASK := Z.shiftl 3 16; GLIKEY_CTRL_1_WR_EN_1_SHIFT := 16;
  GLIKEY_CTRL_1_READ_INDEX_MASK := 255; GLIKEY_CTRL_1_READ_INDEX x := Z.land x 255;
  GLIKEY_CTRL_1_SFR_LOCK_MASK := Z.shiftl 15 18; GLIKEY_CTRL_1_SFR_LOCK_SHIFT := 18;
  GLIKEY_INTR_CTRL_INT_EN_MASK := 1; GLIKEY_INTR_CTRL_INT_EN x := Z.land x 1;
  GLIKEY_INTR_CTRL_INT_CLR_MASK := 2; GLIKEY_INTR_CTRL_INT_SET_MASK := 4;
  GLIKEY_STATUS_ERROR_STATUS_MASK := Z.shiftl 7 2; GLIKEY_STATUS_LOCK_STATUS_MASK := 2;
  GLIKEY_STATUS_FSM_STATE_MASK := Z.shiftl 8191 19; GLIKEY_STATUS_FSM_STATE_SHIFT := 19
|}.

#[export] Instance glikey_laws : GlikeyLaws (D := glikey_reg -> Z).
Proof. by refine {| field d r := d r |}. Defined.

Definition unlocked_regs (r : glikey_reg) : Z :=
  match r with CTRL_1 => Z.shiftl 10 18 | STATUS => Z.shiftl GLIKEY_FSM_INIT 19 | _ => 0 end.
Definition locked_regs (r : glikey_reg) : Z :=
  match r with CTRL_1 => Z.shiftl 5 18 | _ => 0 end.

Lemma locked_regs_locked : sfr_lock (L := glikey_laws) locked_regs <> GLIKEY_SFR_UNLOCK.
Proof. vm_compute. discriminate. Qed.

Lemma unlocked_regs_unlocked : sfr_lock (L := glikey_laws) unlocked_regs = GLIKEY_SFR_UNLOCK.
Proof. reflexivity. Qed.

Lemma step1_range : 0 <= GLIKEY_CODEWORD_STEP1 < 2 ^ 32.
Proof. by vm_compute. Qed.

Lemma step1_selected : selected GLIKEY_CODEWORD_STEP1 <> None.
Proof. vm_compute. discriminate. Qed.

Lemma glikey_locked_refuses_witness :
  GLIKEY_StartEnable 7 locked_regs = Ok (kStatus_GLIKEY_LockedError, locked_regs) /\
  (forall st d', GLIKEY_IsIndexLocked 7 locked_regs = Ok (st, d') -> st = kStatus_GLIKEY_NotLocked /\ d' CTRL_1 = Z.shiftl 5 18 + 7).
Proof.
  destruct (glikey_locked_refuses (L := glikey_laws) locked_regs 7 locked_regs_locked) as (_ & H & _ & H').
  split; [exact (Forall_lookup_1 _ _ 5%nat _ H eq_refl)|].
  intros st d' E. rewrite H' in E. injection E as <- <-. split; vm_compute; reflexivity.
Defined.

Lemma glikey_lock_does_not_lock_witness :
  GLIKEY_Lock unlocked_regs = Ok (kStatus_Success, unlocked_regs) /\
  GLIKEY_IsLocked unlocked_regs = Ok (kStatus_GLIKEY_NotLocked, unlocked_regs).
Proof.
  destruct (glikey_lock_does_not_lock (L := glikey_laws) unlocked_regs GLIKEY_SyncReset unlocked_regs_unlocked) as (H1 & H2 & _). by split.
Defined.

Lemma glikey_continue_spec_witness :
  GLIKEY_ContinueEnable GLIKEY_CODEWORD_STEP1 unlocked_regs =
    Ok (kStatus_Success, advanced GLIKEY_CODEWORD_STEP1 unlocked_regs).
Proof.
  destruct (glikey_continue_spec (L := glikey_laws) unlocked_regs GLIKEY_CODEWORD_STEP1 unlocked_regs_unlocked step1_range)
    as (_ & H & _).
  exact (H step1_selected).
Defined.
