(* ===== verification/Ftfx.v ===== *)
(** * The flash controller layer (drivers/flash/fsl_ftfx_controller)

    The FTFx flash module is driven by commands: the operands are written to
    the FCCOB registers, a write of CCIF to FSTAT launches the command, and
    CCIF reads 1 again when it has finished, with the error flags next to it.
    The functions here check their arguments and cut a request into commands.

    A configuration lives in an array of them ([configs]); a pointer to one is
    [Some i], the null pointer is [None].  Data buffers are addresses of one
    byte memory [mem]; the acceleration RAM (FlexRAM) belongs to the device. *)

From stdpp Require Import base list numbers tactics.
From Stdlib Require Import ZArith Lia.
From S2P Require Import Prelude Mmio.

Open Scope Z_scope.
Open Scope prog_scope.

(** ** Registers and build configuration *)

(** [kFCCOBx[i]] is the i-th word of operands; [FlexRam n a] is an access of
    [n] bytes to the acceleration RAM at address [a]. *)
Inductive ftfx_reg :=
  | FSTAT | FCNFG | FSEC | FCCOBx (i : Z) | FCCOB5 | FCCOB6 | FCCOB7 | FCCOB8 | FCCOB9
  | FPROTL | FPROTH | FPROTSL | FPROTSH | FPROTS | XACCL | XACCH | XACCSL | XACCSH
  | FACSS | FACSN | FACSSS | FACSNS | FDPROT | FEPROT | SIM_FCFG1 | FlexRam (n a : Z).
#[export] Instance ftfx_reg_eq_dec : EqDecision ftfx_reg.
Proof. solve_decision. Defined.

Class FtfxFields := {
  FTFx_FSTAT_CCIF_MASK : Z; FTFx_FSTAT_CCIF_SHIFT : Z; FTFx_FSTAT_RDCOLERR_MASK : Z;
  FTFx_FSTAT_ACCERR_MASK : Z; FTFx_FSTAT_FPVIOL_MASK : Z; FTFx_FSTAT_MGSTAT0_MASK : Z;
  FTFx_FSEC_SEC_MASK : Z; FTFx_FSEC_KEYEN_MASK : Z;
  FTFx_FCNFG_RAMRDY_MASK : Z; FTFx_FCNFG_EEERDY_MASK : Z;
  SIM_FCFG1_DEPART_MASK : Z; SIM_FCFG1_DEPART_SHIFT : Z;
  SIM_FCFG1_EEERAMSIZE_MASK : Z; SIM_FCFG1_EEERAMSIZE_SHIFT : Z;
  SIM_FLASH0_PFSIZE_MASK : Z; SIM_FLASH0_PFSIZE_SHIFT : Z;
  SIM_FLASH1_PFSIZE_MASK : Z; SIM_FLASH1_PFSIZE_SHIFT : Z
}.

(** Which module the device has. *)
Inductive ftfx_variant := FTFA | FTFE | FTFL | FTFC.
#[export] Instance ftfx_variant_eq_dec : EqDecision ftfx_variant.
Proof. solve_decision. Defined.

(** The [FSL_FEATURE_FLASH_*] macros of the device, and the two of the driver. *)
Class FtfxFeatures := {
  FTFx_DRIVER_IS_FLASH_RESIDENT : bool;
  variant : ftfx_variant;
  HAS_FLEX_NVM : bool; HAS_FLEX_NVM_ALIAS : bool; HAS_READ_RESOURCE_CMD : bool;
  HAS_SET_FLEXRAM_FUNCTION_CMD : bool; HAS_SWAP_CONTROL_CMD : bool; HAS_DEPART_FIELD : bool;
  FLEX_RAM_START_ADDRESS : Z; FLEX_RAM_SIZE : Z;
  FLEX_NVM_EEPROM_SIZE_FOR_EEESIZE : list Z;
  FLEX_NVM_DFLASH_SIZE_FOR_DEPART : list Z;
  PFLASH_SWAP_CONTROL_CMD_ADDRESS_ALIGMENT : Z
}.

(** ** Status codes, command numbers and options *)

Definition kStatusGroup_FLASH : Z := 1.
Definition kStatus_FTFx_Success : status_t := MAKE_STATUS kStatusGroup_Generic 0.
Definition kStatus_FTFx_InvalidArgument : status_t := MAKE_STATUS kStatusGroup_Generic 4.
Definition kStatus_FTFx_AlignmentError : status_t := MAKE_STATUS kStatusGroup_FLASH 1.
Definition kStatus_FTFx_AddressError : status_t := MAKE_STATUS kStatusGroup_FLASH 2.
Definition kStatus_FTFx_AccessError : status_t := MAKE_STATUS kStatusGroup_FLASH 3.
Definition kStatus_FTFx_ProtectionViolation : status_t := MAKE_STATUS kStatusGroup_FLASH 4.
Definition kStatus_FTFx_CommandFailure : status_t := MAKE_STATUS kStatusGroup_FLASH 5.
Definition kStatus_FTFx_UnknownProperty : status_t := MAKE_STATUS kStatusGroup_FLASH 6.
Definition kStatus_FTFx_EraseKeyError : status_t := MAKE_STATUS kStatusGroup_FLASH 7.
Definition kStatus_FTFx_PartitionStatusUpdateFailure : status_t := MAKE_STATUS kStatusGroup_FLASH 10.
Definition kStatus_FTFx_SetFlexramAsEepromError : status_t := MAKE_STATUS kStatusGroup_FLASH 11.
Definition kStatus_FTFx_RecoverFlexramAsRamError : status_t := MAKE_STATUS kStatusGroup_FLASH 12.
Definition kStatus_FTFx_CommandNotSupported : status_t := MAKE_STATUS kStatusGroup_FLASH 15.
Definition kStatus_FTFx_SwapSystemNotInUninitialized : status_t := MAKE_STATUS kStatusGroup_FLASH 16.
Definition kStatus_FTFx_SwapIndicatorAddressError : status_t := MAKE_STATUS kStatusGroup_FLASH 17.
Definition kStatus_FTFx_CommandOperationInProgress : status_t := MAKE_STATUS kStatusGroup_FLASH 21.

Definition FTFx_VERIFY_SECTION : Z := 0x01.
Definition FTFx_PROGRAM_CHECK : Z := 0x02.
Definition FTFx_READ_RESOURCE : Z := 0x03.
Definition FTFx_PROGRAM_LONGWORD : Z := 0x06.
Definition FTFx_PROGRAM_PHRASE : Z := 0x07.
Definition FTFx_ERASE_SECTOR : Z := 0x09.
Definition FTFx_PROGRAM_SECTION : Z := 0x0B.
Definition FTFx_VERIFY_ALL_BLOCK : Z := 0x40.
Definition FTFx_READ_ONCE : Z := 0x41.
Definition FTFx_PROGRAM_ONCE : Z := 0x43.
Definition FTFx_ERASE_ALL_BLOCK : Z := 0x44.
Definition FTFx_SECURITY_BY_PASS : Z := 0x45.
Definition FTFx_SWAP_CONTROL : Z := 0x46.
Definition FTFx_ERASE_ALL_BLOCK_UNSECURE : Z := 0x49.
Definition FTFx_VERIFY_ALL_EXECUTE_ONLY_SEGMENT : Z := 0x4A.
Definition FTFx_ERASE_ALL_EXECUTE_ONLY_SEGMENT : Z := 0x4B.
Definition FTFx_PROGRAM_PARTITION : Z := 0x80.
Definition FTFx_SET_FLEXRAM_FUNCTION : Z := 0x81.

Definition FOUR_CHAR_CODE (a b c d : Z) : Z :=
  Z.lor (u32 (Z.shiftl d 24)) (Z.lor (u32 (Z.shiftl c 16)) (Z.lor (u32 (Z.shiftl b 8)) a)).
(** ['k', 'f', 'e', 'k'] *)
Definition kFTFx_ApiEraseKey : Z := FOUR_CHAR_CODE 107 102 101 107.
Definition kFTFx_FsecRegCode_KEYEN_Enabled : Z := 0x80.
Definition kFTFx_FsecRegCode_SEC_Unsecured : Z := 0x02.
Definition kFTFx_PflashConfigAreaStart : Z := 0x400.
Definition kFTFx_PflashConfigAreaEnd : Z := 0x40F.
Definition kFLASH_AccelerationRamSize : Z := 0x400.
Definition kFTFx_ResourceOptionFlashIfr : Z := 0.
Definition kFTFx_ResourceOptionVersionId : Z := 1.
Definition kFTFx_FlexramFuncOptAvailableAsRam : Z := 0xFF.
Definition kFTFx_FlexramFuncOptEepromQuickWriteRecovery : Z := 0xAA.
Definition kFTFx_FlexramFuncOptEepromQuickWriteStatus : Z := 0x77.
Definition kFTFx_FlexramFuncOptAvailableForEepromQuickWrite : Z := 0x55.
Definition kFTFx_FlexramFuncOptAvailableForEeprom : Z := 0x00.
Definition kFTFx_SwapControlOptionIntializeSystem : Z := 0x01.
Definition kFTFx_SwapControlOptionSetInUpdateState : Z := 0x02.
Definition kFTFx_SwapControlOptionSetInCompleteState : Z := 0x04.
Definition kFTFx_SwapControlOptionReportStatus : Z := 0x08.
Definition kFTFx_SwapControlOptionDisableSystem : Z := 0x10.

Inductive ftfx_security_state :=
  | kFTFx_SecurityStateNotSecure | kFTFx_SecurityStateBackdoorEnabled | kFTFx_SecurityStateBackdoorDisabled.

Definition kFTFx_SwapStateUninitialized : Z := 0.
Definition kFTFx_SwapStateReady : Z := 1.
Definition kFTFx_SwapStateUpdate : Z := 2.
Definition kFTFx_SwapStateUpdateErased : Z := 3.
Definition kFTFx_SwapStateComplete : Z := 4.
Definition kFTFx_SwapStateDisabled : Z := 5.
Record ftfx_swap_state_config := {
  flashSwapState : Z; currentSwapBlockStatus : Z; nextSwapBlockStatus : Z
}.
Record ftfx_flexram_eeprom_qw_status := {
  brownoutStatus : Z; recordsRequireMaintenanceCount : Z; sectorEraseCount : Z
}.

(** ** Packing bytes into words, and alignment *)

Definition B1P4 (b : Z) : Z := u32 (Z.shiftl (Z.land b 0xFF) 24).
Definition B1P3 (b : Z) : Z := u32 (Z.shiftl (Z.land b 0xFF) 16).
Definition B1P2 (b : Z) : Z := u32 (Z.shiftl (Z.land b 0xFF) 8).
Definition B1P1 (b : Z) : Z := Z.land b 0xFF.
Definition B2P3 (b : Z) : Z := u32 (Z.shiftl (Z.land b 0xFFFF) 16).
Definition B2P1 (b : Z) : Z := Z.land b 0xFFFF.
Definition B3P1 (b : Z) : Z := Z.land b 0xFFFFFF.
Definition BYTE2WORD_1_3 (x y : Z) : Z := Z.lor (B1P4 x) (B3P1 y).
Definition BYTE2WORD_2_2 (x y : Z) : Z := Z.lor (B2P3 x) (B2P1 y).
Definition BYTE2WORD_1_1_2 (x y z : Z) : Z := Z.lor (Z.lor (B1P4 x) (B1P3 y)) (B2P1 z).
Definition BYTE2WORD_2_1_1 (x y z : Z) : Z := Z.lor (Z.lor (B2P3 x) (B1P2 y)) (B1P1 z).
Definition BYTE2WORD_1_1_1_1 (x y z w : Z) : Z :=
  Z.lor (Z.lor (Z.lor (B1P4 x) (B1P3 y)) (B1P2 z)) (B1P1 w).
Definition ALIGN_DOWN (x a : Z) : Z := bic32 x (u32 (a - 1)).
Definition ALIGN_UP (x a : Z) : Z := ALIGN_DOWN (u32 (u32 (x + a) - 1)) a.

(** ** The configuration *)

Record ftfx_spec_mem := { mem_base : Z; mem_size : Z; mem_count : Z }.
Record ftfx_mem_feature := {
  isIndBlock : Z; hasIndPfsizeReg : Z; hasProtControl : Z; hasIndProtReg : Z;
  hasXaccControl : Z; hasIndXaccReg : Z; ProtRegBits : Z
}.
Record ftfx_mem_desc := {
  flash_type : Z; flash_index : Z; feature : ftfx_mem_feature;
  blockBase : Z; aliasBlockBase : Z; totalSize : Z; sectorSize : Z; blockCount : Z;
  accessSegmentMem : ftfx_spec_mem; protectRegionMem : ftfx_spec_mem
}.
Record ftfx_addr_aligment := {
  sectorCmd : Z; sectionCmd : Z; resourceCmd : Z; checkCmd : Z; swapCtrlCmd : Z; blockWriteUnitSize : Z
}.
Record ftfx_ops_config := { convertedAddress : Z; addrAligment : ftfx_addr_aligment }.
Record ftfx_ifr_desc := {
  has4ByteIdxSupport : Z; has8ByteIdxSupport : Z;
  versionIdStart : Z; versionIdSize : Z; ifrMemSize : Z;
  pflashIfrStart : Z; dflashIfrStart : Z; pflashSwapIfrStart : Z;
  mix8byteIdxStart : Z; mix8byteIdxEnd : Z
}.
Record ftfx_config := {
  flashDesc : ftfx_mem_desc; opsConfig : ftfx_ops_config;
  flexramBlockBase : Z; flexramTotalSize : Z; eepromTotalSize : Z;
  commadAddr : Z; ifrDesc : ftfx_ifr_desc
}.

Definition set_feature (x : ftfx_mem_feature) (d : ftfx_mem_desc) : ftfx_mem_desc :=
  let 'Build_ftfx_mem_desc t i _ b a s z n m p := d in Build_ftfx_mem_desc t i x b a s z n m p.
Definition set_totalSize (x : Z) (d : ftfx_mem_desc) : ftfx_mem_desc :=
  let 'Build_ftfx_mem_desc t i f b a _ z n m p := d in Build_ftfx_mem_desc t i f b a x z n m p.
Definition set_accessSegmentMem (x : ftfx_spec_mem) (d : ftfx_mem_desc) : ftfx_mem_desc :=
  let 'Build_ftfx_mem_desc t i f b a s z n _ p := d in Build_ftfx_mem_desc t i f b a s z n x p.
Definition set_protectRegionMem (x : ftfx_spec_mem) (d : ftfx_mem_desc) : ftfx_mem_desc :=
  let 'Build_ftfx_mem_desc t i f b a s z n m _ := d in Build_ftfx_mem_desc t i f b a s z n m x.
Definition set_type_index (x y : Z) (d : ftfx_mem_desc) : ftfx_mem_desc :=
  let 'Build_ftfx_mem_desc _ _ f b a s z n m p := d in Build_ftfx_mem_desc x y f b a s z n m p.

Definition set_flashDesc (x : ftfx_mem_desc) (c : ftfx_config) : ftfx_config :=
  let 'Build_ftfx_config _ o b s e a i := c in Build_ftfx_config x o b s e a i.
Definition set_opsConfig (x : ftfx_ops_config) (c : ftfx_config) : ftfx_config :=
  let 'Build_ftfx_config d _ b s e a i := c in Build_ftfx_config d x b s e a i.
Definition set_flexram (x y : Z) (c : ftfx_config) : ftfx_config :=
  let 'Build_ftfx_config d o _ _ e a i := c in Build_ftfx_config d o x y e a i.
Definition set_eepromTotalSize (x : Z) (c : ftfx_config) : ftfx_config :=
  let 'Build_ftfx_config d o b s _ a i := c in Build_ftfx_config d o b s x a i.
Definition set_commadAddr (x : Z) (c : ftfx_config) : ftfx_config :=
  let 'Build_ftfx_config d o b s e _ i := c in Build_ftfx_config d o b s e x i.
Definition set_ifrDesc (x : ftfx_ifr_desc) (c : ftfx_config) : ftfx_config :=
  let 'Build_ftfx_config d o b s e a _ := c in Build_ftfx_config d o b s e a x.
Definition set_convertedAddress (x : Z) (c : ftfx_config) : ftfx_config :=
  set_opsConfig (Build_ftfx_ops_config x (addrAligment (opsConfig c))) c.

(** ** The world of a call *)

Record ftfx_world (D : Type) := FtfxWorld {
  f_hw : D;
  configs : list ftfx_config;
  s_ftfxRunCommand : list Z;   (** the static buffer in RAM *)
  f_mem : Z -> Z
}.
Arguments FtfxWorld {D}. Arguments f_hw {D}. Arguments configs {D}.
Arguments s_ftfxRunCommand {D}. Arguments f_mem {D}.

(** The code of [flash_run_command] as the driver holds it. *)
Definition s_ftfxRunCommandFunctionCode : list Z := [0x70012180; 0x420a7802; 0x4770d0fc].

Section World.
Context {D : Type} `{!Device ftfx_reg D}.
Abbreviation W := (ftfx_world D).

Definition on_hw {A} (m : M D A) : M W A :=
  fun w => match m (f_hw w) with
  | Ok (a, d) => Ok (a, FtfxWorld d (configs w) (s_ftfxRunCommand w) (f_mem w))
  | Err e => Err e
  end.

(** [*config], through a pointer that may be null. *)
Definition deref (config : option nat) : M W ftfx_config :=
  match config with
  | None => throw NullDeref
  | Some i => fun w => match configs w !! i with Some c => Ok (c, w) | None => Err OutOfBounds end
  end.
Definition update (config : option nat) (f : ftfx_config -> ftfx_config) : M W unit :=
  match config with
  | None => throw NullDeref
  | Some i => fun w => match configs w !! i with
      | Some c => Ok (tt, FtfxWorld (f_hw w) (<[i := f c]> (configs w)) (s_ftfxRunCommand w) (f_mem w))
      | None => Err OutOfBounds
      end
  end.
Definition is_null (config : option nat) : bool := match config with None => true | Some _ => false end.

Definition load8 (a : Z) : M W Z := gets (fun w => f_mem w a).
Definition store8 (a v : Z) : M W unit :=
  modify (fun w => FtfxWorld (f_hw w) (configs w) (s_ftfxRunCommand w)
    (fun x => if decide (x = a) then v else f_mem w x)).
(** An aligned word access of the (little-endian) processor. *)
Definition load32 (a : Z) : M W Z :=
  gets (fun w => f_mem w a + 256 * f_mem w (a + 1) + 65536 * f_mem w (a + 2) + 16777216 * f_mem w (a + 3)).
Definition load16 (a : Z) : M W Z := gets (fun w => f_mem w a + 256 * f_mem w (a + 1)).
Definition store32 (a v : Z) : M W unit :=
  store8 a (v mod 256) ;; store8 (a + 1) (v / 256 mod 256) ;;
  store8 (a + 2) (v / 65536 mod 256) ;; store8 (a + 3) (v / 16777216 mod 256).

(** [memcpy(dst, src, n)] from data memory into the acceleration RAM. *)
Fixpoint memcpy_to_flexram (n : nat) (dst src : Z) : M W unit :=
  match n with
  | O => ret tt
  | S n => v <- load8 src ;; on_hw (wr (FlexRam 1 dst) v) ;; memcpy_to_flexram n (dst + 1) (src + 1)
  end.
End World.

Arguments deref : simpl never.
Arguments update : simpl never.

(** ** The driver *)

Section Driver.
Context {D : Type} `{!Device ftfx_reg D} {F : FtfxFields} {X : FtfxFeatures}.
Abbreviation W := (ftfx_world D).
(** The address of [s_ftfxRunCommand], how often a status register may be
    polled, and the stack address of a local structure read through a pointer. *)
Context (run_buffer : Z) (polls : nat) (local : Z).

Definition ftfx_init_ifr (config : option nat) : M W unit :=
  c <- deref config ;;
  let i := ifrDesc c in
  let idx := match variant with
    | FTFA => (1, 1, 0x10, 0x13)
    | FTFE => (0, 1, mix8byteIdxStart i, mix8byteIdxEnd i)
    | FTFL => (1, 0, mix8byteIdxStart i, mix8byteIdxEnd i)
    | FTFC => (0, 1, mix8byteIdxStart i, mix8byteIdxEnd i)
    end in
  let '(has4, has8, first8, last8) := idx in
  let ftfe := bool_decide (variant = FTFE) in
  update config (set_ifrDesc {|
    has4ByteIdxSupport := has4; has8ByteIdxSupport := has8;
    versionIdStart := if ftfe then 0x08 else 0x00; versionIdSize := 0x08;
    ifrMemSize := if ftfe then 0x0400 else 0x0100;
    pflashIfrStart := 0;
    dflashIfrStart := if HAS_FLEX_NVM then 0x800000 else dflashIfrStart i;
    pflashSwapIfrStart := if HAS_SWAP_CONTROL_CMD then
      if ftfe then 0x40000 else totalSize (flashDesc c) / 4 else pflashSwapIfrStart i;
    mix8byteIdxStart := first8; mix8byteIdxEnd := last8 |}).

Definition ftfx_copy_run_command_to_ram : M W unit :=
  modify (fun w => FtfxWorld (f_hw w) (configs w) s_ftfxRunCommandFunctionCode (f_mem w)).

Definition FTFx_API_Init (config : option nat) : M W unit :=
  if is_null config then ret tt else
  update config (set_commadAddr 0) ;;
  update config (set_flexram FLEX_RAM_START_ADDRESS FLEX_RAM_SIZE) ;;
  when FTFx_DRIVER_IS_FLASH_RESIDENT (
    update config (set_commadAddr run_buffer) ;;
    ftfx_copy_run_command_to_ram) ;;
  ftfx_init_ifr config.

(** [flash_run_command], as the comment above its code gives it. *)
Definition flash_run_command : M D unit :=
  wr FSTAT FTFx_FSTAT_CCIF_MASK ;; poll_clear polls FSTAT FTFx_FSTAT_CCIF_MASK.

(** A call through the function pointer: it must be the (odd) address of the
    copied code. *)
Definition callFtfxRunCommand (config : option nat) : M W unit :=
  update config (fun c => set_commadAddr (u32 (commadAddr c + 1)) c) ;;
  c <- deref config ;;
  code <- gets s_ftfxRunCommand ;;
  (if (commadAddr c =? run_buffer + 1) && bool_decide (code = s_ftfxRunCommandFunctionCode)
   then on_hw flash_run_command else throw NullCall) ;;
  update config (fun c => set_commadAddr (u32 (commadAddr c - 1)) c).

Definition clear_error_flags : M D unit :=
  wr FSTAT (Z.lor (Z.lor FTFx_FSTAT_RDCOLERR_MASK FTFx_FSTAT_ACCERR_MASK) FTFx_FSTAT_FPVIOL_MASK).

(** The error bits of FSTAT, in the order they are tested. *)
Definition check_error_bits (registerValue : Z) : status_t :=
  if has registerValue FTFx_FSTAT_ACCERR_MASK then kStatus_FTFx_AccessError
  else if has registerValue FTFx_FSTAT_FPVIOL_MASK then kStatus_FTFx_ProtectionViolation
  else if has registerValue FTFx_FSTAT_MGSTAT0_MASK then kStatus_FTFx_CommandFailure
  else kStatus_FTFx_Success.

Definition ftfx_command_sequence (config : option nat) : M W status_t :=
  on_hw clear_error_flags ;;
  (if FTFx_DRIVER_IS_FLASH_RESIDENT then callFtfxRunCommand config else on_hw flash_run_command) ;;
  registerValue <- on_hw (rd FSTAT) ;;
  ret (check_error_bits registerValue).

Definition ftfx_command_sequence_non_blocking (config : option nat) : M W unit :=
  on_hw clear_error_flags ;;
  (if FTFx_DRIVER_IS_FLASH_RESIDENT then callFtfxRunCommand config
   else on_hw (wr FSTAT FTFx_FSTAT_CCIF_MASK)).

(** [kFCCOBx[i] = v] *)
Definition fccob (i v : Z) : M W unit := on_hw (wr (FCCOBx i) v).

Definition ftfx_check_mem_range (c : ftfx_config) (startAddress lengthInBytes alignmentBaseline : Z) : status_t :=
  let d := flashDesc c in
  if negb (Z.land startAddress (u8 (alignmentBaseline - 1)) =? 0)
     || negb (Z.land lengthInBytes (u8 (alignmentBaseline - 1)) =? 0)
  then kStatus_FTFx_AlignmentError
  else if (blockBase d <=? startAddress)
     && (u32 (startAddress + lengthInBytes) <=? u32 (blockBase d + totalSize d))
  then kStatus_FTFx_Success
  else if HAS_FLEX_NVM_ALIAS && (aliasBlockBase d <=? startAddress)
     && (u32 (startAddress + lengthInBytes) <=? u32 (aliasBlockBase d + totalSize d))
  then kStatus_FTFx_Success
  else kStatus_FTFx_AddressError.

Definition ftfx_check_user_key (key : Z) : status_t :=
  if negb (key =? kFTFx_ApiEraseKey) then kStatus_FTFx_EraseKeyError else kStatus_FTFx_Success.

(** [for (i = 0; i < 4; i++) { word |= *readsrc << (i * 8); readsrc++; }] *)
Fixpoint read_bytes (n : nat) (i word readsrc : Z) : M W Z :=
  match n with
  | O => ret word
  | S n => b <- load8 readsrc ;;
      read_bytes n (i + 1) (Z.lor word (u32 (Z.shiftl b (i * 8)))) (readsrc + 1)
  end.
Definition ftfx_read_word_from_byte_address (src : Z) : M W Z :=
  if src mod 4 =? 0 then load32 src else read_bytes 4 0 0 src.

Fixpoint write_bytes (n : nat) (i word writedst : Z) : M W unit :=
  match n with
  | O => ret tt
  | S n => store8 writedst (u8 (Z.land (Z.shiftr word (i * 8)) 0xFF)) ;;
      write_bytes n (i + 1) word (writedst + 1)
  end.
Definition ftfx_write_word_to_byte_address (dst word : Z) : M W unit :=
  if dst mod 4 =? 0 then store32 dst word else write_bytes 4 0 word dst.

Definition ftfx_check_resource_range (c : ftfx_config) (start lengthInBytes alignmentBaseline option : Z) : status_t :=
  let r := ifrDesc c in
  let maxReadbleAddress := u32 (u32 (start + lengthInBytes) - 1) in
  if negb (Z.land start (u32 (alignmentBaseline - 1)) =? 0)
     || negb (Z.land lengthInBytes (u32 (alignmentBaseline - 1)) =? 0)
  then kStatus_FTFx_AlignmentError
  else if option =? kFTFx_ResourceOptionVersionId then
    if negb (start =? versionIdStart r) || negb (lengthInBytes =? versionIdSize r)
    then kStatus_FTFx_InvalidArgument else kStatus_FTFx_Success
  else if option =? kFTFx_ResourceOptionFlashIfr then
    if (pflashIfrStart r <=? start) && (maxReadbleAddress <? u32 (pflashIfrStart r + ifrMemSize r))
    then kStatus_FTFx_Success
    else if HAS_FLEX_NVM && (dflashIfrStart r <=? start)
      && (maxReadbleAddress <? u32 (dflashIfrStart r + ifrMemSize r))
    then kStatus_FTFx_Success
    else if HAS_SWAP_CONTROL_CMD && (pflashSwapIfrStart r <=? start)
      && (maxReadbleAddress <? u32 (pflashSwapIfrStart r + ifrMemSize r))
    then kStatus_FTFx_Success
    else kStatus_FTFx_InvalidArgument
  else kStatus_FTFx_InvalidArgument.

Definition ftfx_check_flexram_function_option (option : Z) : status_t :=
  if negb (option =? kFTFx_FlexramFuncOptAvailableAsRam) && negb (option =? kFTFx_FlexramFuncOptAvailableForEeprom)
     && (if decide (variant = FTFC) then
           negb (option =? kFTFx_FlexramFuncOptEepromQuickWriteRecovery)
           && negb (option =? kFTFx_FlexramFuncOptEepromQuickWriteStatus)
           && negb (option =? kFTFx_FlexramFuncOptAvailableForEepromQuickWrite)
         else true)
  then kStatus_FTFx_InvalidArgument else kStatus_FTFx_Success.

Definition ftfx_check_swap_control_option (option : Z) : status_t :=
  if (option =? kFTFx_SwapControlOptionIntializeSystem) || (option =? kFTFx_SwapControlOptionSetInUpdateState)
     || (option =? kFTFx_SwapControlOptionSetInCompleteState) || (option =? kFTFx_SwapControlOptionReportStatus)
     || (option =? kFTFx_SwapControlOptionDisableSystem)
  then kStatus_FTFx_Success else kStatus_FTFx_InvalidArgument.

(** [if (returnCode != kStatus_FTFx_Success) return returnCode;] *)
Definition or_return (returnCode : status_t) (m : M W status_t) : M W status_t :=
  if negb (returnCode =? kStatus_FTFx_Success) then ret returnCode else m.

(** *** Erasing *)

Fixpoint erase_loop (n : nat) (config : option nat) (sectorSize_ endAddress eraseStart : Z) (returnCode : status_t) : M W status_t :=
  match n with
  | O => throw OutOfFuel
  | S n =>
      if eraseStart <=? endAddress then
        fccob 0 (BYTE2WORD_1_3 FTFx_ERASE_SECTOR eraseStart) ;;
        returnCode <- ftfx_command_sequence config ;;
        if negb (returnCode =? kStatus_FTFx_Success) then ret returnCode
        else erase_loop n config sectorSize_ endAddress (u32 (eraseStart + sectorSize_)) returnCode
      else ret returnCode
  end.

Definition FTFx_CMD_Erase (fuel : nat) (config : option nat) (start lengthInBytes key : Z) : M W status_t :=
  c <- deref config ;;
  let returnCode := ftfx_check_mem_range c start lengthInBytes (sectorCmd (addrAligment (opsConfig c))) in
  or_return returnCode (
    let returnCode := ftfx_check_user_key key in
    or_return returnCode (
      let eraseStart := convertedAddress (opsConfig c) in
      let sectorSize_ := sectorSize (flashDesc c) in
      let endAddress := u32 (u32 (eraseStart + lengthInBytes) - 1) in
      r <- lift (umod endAddress sectorSize_) ;;
      let endAddress := if negb (r =? 0)
        then u32 (u32 (u32 (endAddress / sectorSize_ + 1) * sectorSize_) - 1) else endAddress in
      erase_loop fuel config sectorSize_ endAddress eraseStart returnCode)).

Definition FTFx_CMD_EraseSectorNonBlocking (config : option nat) (start key : Z) : M W status_t :=
  c <- deref config ;;
  let returnCode := ftfx_check_mem_range c start (sectorSize (flashDesc c)) (sectorCmd (addrAligment (opsConfig c))) in
  or_return returnCode (
    let returnCode := ftfx_check_user_key key in
    or_return returnCode (
      fccob 0 (BYTE2WORD_1_3 FTFx_ERASE_SECTOR (convertedAddress (opsConfig c))) ;;
      ftfx_command_sequence_non_blocking config ;;
      ret returnCode)).

(** *** Reading resources *)

Fixpoint read_resource_loop (n : nat) (config : option nat) (option aligmentInBytes readstart destaddress readlengthBytes : Z)
    (returnCode : status_t) : M W status_t :=
  match n with
  | O => throw OutOfFuel
  | S n =>
      if 0 <? readlengthBytes then
        fccob 0 (BYTE2WORD_1_3 FTFx_READ_RESOURCE readstart) ;;
        if negb (aligmentInBytes =? 4) && negb (aligmentInBytes =? 8) then ret kStatus_FTFx_InvalidArgument else
        fccob (if aligmentInBytes =? 4 then 2 else 1) (BYTE2WORD_1_3 option 0xFFFFFF) ;;
        returnCode <- ftfx_command_sequence config ;;
        if negb (returnCode =? kStatus_FTFx_Success) then ret returnCode else
        word <- on_hw (rd (FCCOBx 1)) ;;
        ftfx_write_word_to_byte_address destaddress word ;;
        (when (aligmentInBytes =? 8) (
          word <- on_hw (rd (FCCOBx 2)) ;;
          ftfx_write_word_to_byte_address (destaddress + 4) word)) ;;
        read_resource_loop n config option aligmentInBytes (u32 (readstart + aligmentInBytes))
          (destaddress + aligmentInBytes) (u32 (readlengthBytes - aligmentInBytes)) returnCode
      else ret returnCode
  end.

Definition FTFx_CMD_ReadResource (fuel : nat) (config : option nat) (start dst lengthInBytes option : Z) : M W status_t :=
  if is_null config || (dst =? 0) then ret kStatus_FTFx_InvalidArgument else
  c <- deref config ;;
  let aligmentInBytes := resourceCmd (addrAligment (opsConfig c)) in
  let returnCode := ftfx_check_resource_range c start lengthInBytes aligmentInBytes option in
  or_return returnCode (read_resource_loop fuel config option aligmentInBytes start dst lengthInBytes returnCode).

(** *** FlexNVM partitions *)

(** The partition code and the data set size of the data flash IFR, or of the
    system integration module where resources cannot be read. *)
Definition partition_from_ifr (fuel : nat) (config : option nat) (c : ftfx_config) : M W (option (Z * Z)) :=
  let flexnvmInfoIfrAddr := u32 (dflashIfrStart (ifrDesc c) + ifrMemSize (ifrDesc c) - 8) in
  returnCode <- FTFx_CMD_ReadResource fuel config flexnvmInfoIfrAddr local 8 kFTFx_ResourceOptionFlashIfr ;;
  if negb (returnCode =? kStatus_FTFx_Success) then ret None else
  code <- load8 (local + 4) ;;
  size <- load8 (local + 5) ;;
  ret (Some (code, size)).

Definition partition_from_sim : M W (option (Z * Z)) :=
  x <- on_hw (rd SIM_FCFG1) ;;
  let code := u8 (Z.shiftr (Z.land x SIM_FCFG1_DEPART_MASK) SIM_FCFG1_DEPART_SHIFT) in
  dflashSize <- lift (aget FLEX_NVM_DFLASH_SIZE_FOR_DEPART (Z.land code 0x0F)) ;;
  dflashTotalSize <- lift (aget FLEX_NVM_DFLASH_SIZE_FOR_DEPART 0) ;;
  if dflashSize <? dflashTotalSize then
    x <- on_hw (rd SIM_FCFG1) ;;
    ret (Some (code, u8 (Z.shiftr (Z.land x SIM_FCFG1_EEERAMSIZE_MASK) SIM_FCFG1_EEERAMSIZE_SHIFT)))
  else
    size <- lift (aget FLEX_NVM_EEPROM_SIZE_FOR_EEESIZE 15) ;;
    ret (Some (code, u8 size)).

Definition FTFx_API_UpdateFlexnvmPartitionStatus (fuel : nat) (config : option nat) : M W status_t :=
  if is_null config then ret kStatus_FTFx_InvalidArgument else
  c <- deref config ;;
  readout <- (if HAS_READ_RESOURCE_CMD then partition_from_ifr fuel config c else partition_from_sim) ;;
  match readout with
  | None => ret kStatus_FTFx_PartitionStatusUpdateFailure
  | Some (code, size) =>
      eeprom <- lift (aget FLEX_NVM_EEPROM_SIZE_FOR_EEESIZE (Z.land size 0x0F)) ;;
      update config (set_eepromTotalSize (u16 eeprom)) ;;
      dflash <- lift (aget FLEX_NVM_DFLASH_SIZE_FOR_DEPART (Z.land code 0x0F)) ;;
      update config (fun c => set_flashDesc (set_totalSize dflash (flashDesc c)) c) ;;
      ret kStatus_FTFx_Success
  end.

(** [#if FSL_FEATURE_FLASH_HAS_FLEX_NVM]: after the command has erased the
    data flash IFR. *)
Definition refresh_partition (fuel : nat) (config : option nat) (returnCode : status_t) : M W status_t :=
  if HAS_FLEX_NVM && (returnCode =? kStatus_FTFx_Success) then
    c <- deref config ;;
    if negb (dflashIfrStart (ifrDesc c) =? pflashIfrStart (ifrDesc c))
    then FTFx_API_UpdateFlexnvmPartitionStatus fuel config else ret returnCode
  else ret returnCode.

Definition FTFx_CMD_EraseAll (fuel : nat) (config : option nat) (key : Z) : M W status_t :=
  if is_null config then ret kStatus_FTFx_InvalidArgument else
  fccob 0 (BYTE2WORD_1_3 FTFx_ERASE_ALL_BLOCK 0xFFFFFF) ;;
  or_return (ftfx_check_user_key key) (
    returnCode <- ftfx_command_sequence config ;;
    refresh_partition fuel config returnCode).

Definition FTFx_CMD_EraseAllUnsecure (fuel : nat) (config : option nat) (key : Z) : M W status_t :=
  if is_null config then ret kStatus_FTFx_InvalidArgument else
  fccob 0 (BYTE2WORD_1_3 FTFx_ERASE_ALL_BLOCK_UNSECURE 0xFFFFFF) ;;
  or_return (ftfx_check_user_key key) (
    returnCode <- ftfx_command_sequence config ;;
    refresh_partition fuel config returnCode).

Definition FTFx_CMD_EraseAllExecuteOnlySegments (config : option nat) (key : Z) : M W status_t :=
  if is_null config then ret kStatus_FTFx_InvalidArgument else
  fccob 0 (BYTE2WORD_1_3 FTFx_ERASE_ALL_EXECUTE_ONLY_SEGMENT 0xFFFFFF) ;;
  or_return (ftfx_check_user_key key) (ftfx_command_sequence config).

(** *** Programming *)

Fixpoint program_loop (n : nat) (config : option nat) (unit_ programStart src remainingLength : Z) (returnCode : status_t) : M W status_t :=
  match n with
  | O => throw OutOfFuel
  | S n =>
      if 0 <? remainingLength then
        word <- ftfx_read_word_from_byte_address src ;;
        fccob 1 word ;;
        if negb (unit_ =? 4) && negb (unit_ =? 8) then ret kStatus_FTFx_InvalidArgument else
        (if unit_ =? 4 then fccob 0 (BYTE2WORD_1_3 FTFx_PROGRAM_LONGWORD programStart)
         else
           word <- ftfx_read_word_from_byte_address (src + 4) ;;
           fccob 2 word ;;
           fccob 0 (BYTE2WORD_1_3 FTFx_PROGRAM_PHRASE programStart)) ;;
        returnCode <- ftfx_command_sequence config ;;
        if negb (returnCode =? kStatus_FTFx_Success) then ret returnCode
        else program_loop n config unit_ (u32 (programStart + unit_)) (src + unit_)
               (u32 (remainingLength - unit_)) returnCode
      else ret returnCode
  end.

Definition FTFx_CMD_Program (fuel : nat) (config : option nat) (start src lengthInBytes : Z) : M W status_t :=
  c <- deref config ;;
  let blockWriteUnitSize_ := blockWriteUnitSize (addrAligment (opsConfig c)) in
  if src =? 0 then ret kStatus_FTFx_InvalidArgument else
  let returnCode := ftfx_check_mem_range c start lengthInBytes blockWriteUnitSize_ in
  or_return returnCode (
    program_loop fuel config blockWriteUnitSize_ (convertedAddress (opsConfig c)) src lengthInBytes returnCode).

(** Whether the record [index] of the program-once field has eight bytes. *)
Definition eight_byte_record (c : ftfx_config) (index lengthInBytes : Z) : bool :=
  let i := ifrDesc c in
  if negb (has8ByteIdxSupport i =? 0) then
    if negb (has4ByteIdxSupport i =? 0) then
      ((index =? mix8byteIdxStart i)
       || ((u32 (mix8byteIdxStart i + 1) <=? index) && (index <=? mix8byteIdxEnd i)))
      && (lengthInBytes =? 8)
    else true
  else false.

Definition FTFx_CMD_ProgramOnce (config : option nat) (index src lengthInBytes : Z) : M W status_t :=
  if is_null config || (src =? 0) then ret kStatus_FTFx_InvalidArgument else
  fccob 0 (BYTE2WORD_1_1_2 FTFx_PROGRAM_ONCE index 0xFFFF) ;;
  word <- ftfx_read_word_from_byte_address src ;;
  fccob 1 word ;;
  c <- deref config ;;
  when (eight_byte_record c index lengthInBytes) (
    word <- ftfx_read_word_from_byte_address (src + 4) ;;
    fccob 2 word) ;;
  ftfx_command_sequence config.

Definition FTFx_CMD_SetFlexramFunction (config : option nat) (option : Z) : M W status_t :=
  if is_null config then ret kStatus_FTFx_InvalidArgument else
  or_return (ftfx_check_flexram_function_option option) (
    fccob 0 (BYTE2WORD_1_1_2 FTFx_SET_FLEXRAM_FUNCTION option 0xFFFF) ;;
    ftfx_command_sequence config).

(** The passes over one sector: each copies at most one acceleration RAM of
    data and programs it.  The result is the offset reached. *)
Fixpoint section_passes (n : nat) (config : option nat) (aligmentInBytes programaddress srcaddress : Z)
    (lengthTobeProgrammedOfCurrentSector currentOffset : Z) (returnCode : status_t) : M W (status_t * Z) :=
  match n with
  | O => throw OutOfFuel
  | S n =>
      if 0 <? lengthTobeProgrammedOfCurrentSector then
        let programSizeOfCurrentPass :=
          if kFLASH_AccelerationRamSize <? lengthTobeProgrammedOfCurrentSector
          then kFLASH_AccelerationRamSize else lengthTobeProgrammedOfCurrentSector in
        c <- deref config ;;
        memcpy_to_flexram (Z.to_nat programSizeOfCurrentPass) (flexramBlockBase c) (srcaddress + currentOffset) ;;
        fccob 0 (BYTE2WORD_1_3 FTFx_PROGRAM_SECTION (u32 (programaddress + currentOffset))) ;;
        numberOfPhases <- lift (udiv programSizeOfCurrentPass aligmentInBytes) ;;
        fccob 1 (BYTE2WORD_2_2 numberOfPhases 0xFFFF) ;;
        returnCode <- ftfx_command_sequence config ;;
        if negb (returnCode =? kStatus_FTFx_Success) then ret (returnCode, currentOffset)
        else section_passes n config aligmentInBytes programaddress srcaddress
          (u32 (lengthTobeProgrammedOfCurrentSector - programSizeOfCurrentPass))
          (u32 (currentOffset + programSizeOfCurrentPass)) returnCode
      else ret (returnCode, currentOffset)
  end.

(** The loop over the sectors. *)
Fixpoint section_loop (n : nat) (config : option nat) (sectorSize_ aligmentInBytes programaddress srcaddress lengthInBytes : Z)
    (returnCode : status_t) : M W status_t :=
  match n with
  | O => throw OutOfFuel
  | S n' =>
      if 0 <? lengthInBytes then
        let endAddressOfCurrentSector := ALIGN_UP programaddress sectorSize_ in
        let endAddressOfCurrentSector :=
          if endAddressOfCurrentSector =? programaddress then u32 (endAddressOfCurrentSector + sectorSize_)
          else endAddressOfCurrentSector in
        let lengthTobeProgrammedOfCurrentSector :=
          if endAddressOfCurrentSector <? u32 (lengthInBytes + programaddress)
          then u32 (endAddressOfCurrentSector - programaddress) else lengthInBytes in
        r <- section_passes n config aligmentInBytes programaddress srcaddress
               lengthTobeProgrammedOfCurrentSector 0 returnCode ;;
        let '(returnCode, currentOffset) := r : status_t * Z in
        if negb (returnCode =? kStatus_FTFx_Success) then ret returnCode
        else section_loop n' config sectorSize_ aligmentInBytes (u32 (programaddress + currentOffset))
          (srcaddress + currentOffset) (u32 (lengthInBytes - currentOffset)) returnCode
      else ret returnCode
  end.

Definition FTFx_CMD_ProgramSection (fuel : nat) (config : option nat) (start src lengthInBytes : Z) : M W status_t :=
  c <- deref config ;;
  let aligmentInBytes := sectionCmd (addrAligment (opsConfig c)) in
  if src =? 0 then ret kStatus_FTFx_InvalidArgument else
  let returnCode := ftfx_check_mem_range c start lengthInBytes aligmentInBytes in
  or_return returnCode (
    needSwitchFlexRamMode <- (if HAS_SET_FLEXRAM_FUNCTION_CMD then
        x <- on_hw (rd FCNFG) ;; ret (negb (has x FTFx_FCNFG_RAMRDY_MASK)) else ret false) ;;
    returnCode <- (if needSwitchFlexRamMode : bool
      then FTFx_CMD_SetFlexramFunction config kFTFx_FlexramFuncOptAvailableAsRam else ret returnCode) ;;
    or_return returnCode (
      returnCode <- section_loop fuel config (sectorSize (flashDesc c)) aligmentInBytes
                      (convertedAddress (opsConfig c)) src lengthInBytes returnCode ;;
      or_return returnCode (
        if needSwitchFlexRamMode
        then FTFx_CMD_SetFlexramFunction config kFTFx_FlexramFuncOptAvailableForEeprom else ret returnCode))).

Definition FTFx_CMD_ProgramPartition (config : option nat)
    (option eepromDataSizeCode flexnvmPartitionCode CSEcKeySize SFE : Z) : M W status_t :=
  if is_null config then ret kStatus_FTFx_InvalidArgument else
  fccob 0 (BYTE2WORD_1_1_1_1 FTFx_PROGRAM_PARTITION CSEcKeySize SFE option) ;;
  fccob 1 (BYTE2WORD_1_1_2 eepromDataSizeCode flexnvmPartitionCode 0xFFFF) ;;
  returnCode <- ftfx_command_sequence config ;;
  when HAS_FLEX_NVM (
    update config (set_eepromTotalSize 0xFFFF) ;;
    update config (fun c => set_flashDesc (set_totalSize 0xFFFFFFFF (flashDesc c)) c)) ;;
  ret returnCode.

(** *** Reading *)

Definition FTFx_CMD_ReadOnce (config : option nat) (index dst lengthInBytes : Z) : M W status_t :=
  if is_null config || (dst =? 0) then ret kStatus_FTFx_InvalidArgument else
  fccob 0 (BYTE2WORD_1_1_2 FTFx_READ_ONCE index 0xFFFF) ;;
  returnCode <- ftfx_command_sequence config ;;
  when (returnCode =? kStatus_FTFx_Success) (
    word <- on_hw (rd (FCCOBx 1)) ;;
    ftfx_write_word_to_byte_address dst word ;;
    c <- deref config ;;
    when (eight_byte_record c index lengthInBytes) (
      word <- on_hw (rd (FCCOBx 2)) ;;
      ftfx_write_word_to_byte_address (dst + 4) word)) ;;
  ret returnCode.

(** *** Verification *)

Fixpoint verify_erase_loop (n : nat) (config : option nat) (aligmentInBytes margin blockSize : Z)
    (nextBlockStartAddress erasestart remainingBytes : Z) : M W status_t :=
  match n with
  | O => throw OutOfFuel
  | S n =>
      if negb (remainingBytes =? 0) then
        let verifyLength := u32 (nextBlockStartAddress - erasestart) in
        let verifyLength := if remainingBytes <? verifyLength then remainingBytes else verifyLength in
        numberOfPhrases <- lift (udiv verifyLength aligmentInBytes) ;;
        fccob 0 (BYTE2WORD_1_3 FTFx_VERIFY_SECTION erasestart) ;;
        fccob 1 (BYTE2WORD_2_1_1 numberOfPhrases margin 0xFF) ;;
        returnCode <- ftfx_command_sequence config ;;
        or_return returnCode (
          verify_erase_loop n config aligmentInBytes margin blockSize (u32 (nextBlockStartAddress + blockSize))
            (u32 (erasestart + verifyLength)) (u32 (remainingBytes - verifyLength)))
      else ret kStatus_FTFx_Success
  end.

Definition FTFx_CMD_VerifyErase (fuel : nat) (config : option nat) (start lengthInBytes margin : Z) : M W status_t :=
  c <- deref config ;;
  let aligmentInBytes := sectionCmd (addrAligment (opsConfig c)) in
  or_return (ftfx_check_mem_range c start lengthInBytes aligmentInBytes) (
    let erasestart := convertedAddress (opsConfig c) in
    blockSize <- lift (udiv (totalSize (flashDesc c)) (blockCount (flashDesc c))) ;;
    let nextBlockStartAddress := ALIGN_UP erasestart blockSize in
    let nextBlockStartAddress := if nextBlockStartAddress =? erasestart
      then u32 (nextBlockStartAddress + blockSize) else nextBlockStartAddress in
    verify_erase_loop fuel config aligmentInBytes margin blockSize nextBlockStartAddress erasestart lengthInBytes).

Definition FTFx_CMD_VerifyEraseAll (config : option nat) (margin : Z) : M W status_t :=
  if is_null config then ret kStatus_FTFx_InvalidArgument else
  fccob 0 (BYTE2WORD_1_1_2 FTFx_VERIFY_ALL_BLOCK margin 0xFFFF) ;;
  ftfx_command_sequence config.

Definition FTFx_CMD_VerifyEraseAllExecuteOnlySegments (config : option nat) (margin : Z) : M W status_t :=
  if is_null config then ret kStatus_FTFx_InvalidArgument else
  fccob 0 (BYTE2WORD_1_1_2 FTFx_VERIFY_ALL_EXECUTE_ONLY_SEGMENT margin 0xFFFF) ;;
  ftfx_command_sequence config.

Fixpoint verify_program_loop (n : nat) (config : option nat) (aligmentInBytes margin failedAddress failedData : Z)
    (programstart expectedData programlength : Z) (returnCode : status_t) : M W status_t :=
  match n with
  | O => throw OutOfFuel
  | S n =>
      if negb (programlength =? 0) then
        fccob 0 (BYTE2WORD_1_3 FTFx_PROGRAM_CHECK programstart) ;;
        fccob 1 (BYTE2WORD_1_3 margin 0xFFFFFF) ;;
        word <- ftfx_read_word_from_byte_address expectedData ;;
        fccob 2 word ;;
        returnCode <- ftfx_command_sequence config ;;
        if negb (returnCode =? kStatus_FTFx_Success) then
          when (negb (failedAddress =? 0)) (store32 failedAddress programstart) ;;
          when (negb (failedData =? 0)) (store32 failedData 0) ;;
          ret returnCode
        else verify_program_loop n config aligmentInBytes margin failedAddress failedData
          (u32 (programstart + aligmentInBytes)) (expectedData + aligmentInBytes)
          (u32 (programlength - aligmentInBytes)) returnCode
      else ret returnCode
  end.

Definition FTFx_CMD_VerifyProgram (fuel : nat) (config : option nat)
    (start lengthInBytes expectedData margin failedAddress failedData : Z) : M W status_t :=
  c <- deref config ;;
  let aligmentInBytes := checkCmd (addrAligment (opsConfig c)) in
  if expectedData =? 0 then ret kStatus_FTFx_InvalidArgument else
  let returnCode := ftfx_check_mem_range c start lengthInBytes aligmentInBytes in
  or_return returnCode (
    verify_program_loop fuel config aligmentInBytes margin failedAddress failedData
      (convertedAddress (opsConfig c)) expectedData lengthInBytes returnCode).

(** *** Security, FlexRAM and swap *)

Definition FTFx_CMD_SecurityBypass (config : option nat) (backdoorKey : Z) : M W status_t :=
  if is_null config || (backdoorKey =? 0) then ret kStatus_FTFx_InvalidArgument else
  registerValue <- on_hw (rd FSEC) ;;
  if negb (0x02 =? Z.land registerValue 0x03) then
    fccob 0 (BYTE2WORD_1_3 FTFx_SECURITY_BY_PASS 0xFFFFFF) ;;
    k0 <- load8 backdoorKey ;; k1 <- load8 (backdoorKey + 1) ;;
    k2 <- load8 (backdoorKey + 2) ;; k3 <- load8 (backdoorKey + 3) ;;
    fccob 1 (BYTE2WORD_1_1_1_1 k0 k1 k2 k3) ;;
    k4 <- load8 (backdoorKey + 4) ;; k5 <- load8 (backdoorKey + 5) ;;
    k6 <- load8 (backdoorKey + 6) ;; k7 <- load8 (backdoorKey + 7) ;;
    fccob 2 (BYTE2WORD_1_1_1_1 k4 k5 k6 k7) ;;
    ftfx_command_sequence config
  else ret kStatus_FTFx_Success.

(** [state] tells whether the pointer is not null; the state is the second
    component of the result. *)
Definition FTFx_REG_GetSecurityState (config : option nat) (state : bool) : M W (status_t * option ftfx_security_state) :=
  if is_null config || negb state then ret (kStatus_FTFx_InvalidArgument, None) else
  registerValue <- on_hw (rd FSEC) ;;
  ret (kStatus_FTFx_Success, Some (
    if kFTFx_FsecRegCode_SEC_Unsecured =? Z.land registerValue FTFx_FSEC_SEC_MASK then kFTFx_SecurityStateNotSecure
    else if kFTFx_FsecRegCode_KEYEN_Enabled =? Z.land registerValue FTFx_FSEC_KEYEN_MASK
    then kFTFx_SecurityStateBackdoorEnabled else kFTFx_SecurityStateBackdoorDisabled)).

Definition FTFx_CMD_SetFlexramFunction_QuickWrite (config : option nat) (option qwSize : Z) (returnInfo : bool) :
    M W (status_t * Datatypes.option ftfx_flexram_eeprom_qw_status) :=
  if is_null config then ret (kStatus_FTFx_InvalidArgument, None) else
  let status := ftfx_check_flexram_function_option option in
  if negb (status =? kStatus_FTFx_Success) then ret (status, None) else
  fccob 0 (BYTE2WORD_1_1_2 FTFx_SET_FLEXRAM_FUNCTION option 0xFFFF) ;;
  when (option =? kFTFx_FlexramFuncOptAvailableForEepromQuickWrite) (fccob 1 (BYTE2WORD_2_2 qwSize 0xFFFF)) ;;
  returnCode <- ftfx_command_sequence config ;;
  if returnInfo then
    b5 <- on_hw (rd FCCOB5) ;; b6 <- on_hw (rd FCCOB6) ;; b7 <- on_hw (rd FCCOB7) ;;
    b8 <- on_hw (rd FCCOB8) ;; b9 <- on_hw (rd FCCOB9) ;;
    ret (returnCode, Some {| brownoutStatus := b5;
      recordsRequireMaintenanceCount := u16 (Z.lor (Z.shiftl b6 8) b7);
      sectorEraseCount := u16 (Z.lor (Z.shiftl b8 8) b9) |})
  else ret (returnCode, None).

Definition FTFx_CMD_SwapControl (config : option nat) (address option : Z) (returnInfo : bool) :
    M W (status_t * Datatypes.option ftfx_swap_state_config) :=
  if is_null config || negb returnInfo then ret (kStatus_FTFx_InvalidArgument, None) else
  c <- deref config ;;
  if negb (Z.land address (u32 (PFLASH_SWAP_CONTROL_CMD_ADDRESS_ALIGMENT - 1)) =? 0)
  then ret (kStatus_FTFx_AlignmentError, None)
  else if (totalSize (flashDesc c) / 2 <=? address)
    || ((kFTFx_PflashConfigAreaStart <=? address) && (address <=? kFTFx_PflashConfigAreaEnd))
  then ret (kStatus_FTFx_SwapIndicatorAddressError, None) else
  let returnCode := ftfx_check_swap_control_option option in
  if negb (returnCode =? kStatus_FTFx_Success) then ret (returnCode, None) else
  fccob 0 (BYTE2WORD_1_3 FTFx_SWAP_CONTROL address) ;;
  fccob 1 (BYTE2WORD_1_3 option 0xFFFFFF) ;;
  returnCode <- ftfx_command_sequence config ;;
  b5 <- on_hw (rd FCCOB5) ;; b6 <- on_hw (rd FCCOB6) ;; b7 <- on_hw (rd FCCOB7) ;;
  ret (returnCode, Some {| flashSwapState := b5; currentSwapBlockStatus := b6; nextSwapBlockStatus := b7 |}).
End Driver.
