(* ===== verification/FtfxFlash.v ===== *)
(** * The program flash driver (drivers/flash/fsl_ftfx_flash)

    One or two program flashes share the controller.  The functions find the
    flash an address range lies in, translate the address, and call the
    controller layer; the others answer questions about protection, carry
    out the swap procedure and initialise the configurations.

    [config : bool] tells whether the pointer to the driver's object is not
    null; its array [ftfxConfig] is the [configs] of the world. *)

From stdpp Require Import base list numbers tactics.
From Stdlib Require Import ZArith Lia.
From S2P Require Import Prelude Mmio Ftfx.

Open Scope Z_scope.
Open Scope prog_scope.

(** Features of one flash, [FLASH0_FEATURE_*] and [FLASH1_FEATURE_*]. *)
Record pflash_feature := {
  PFLASH_START_ADDRESS : Z; PFLASH_BLOCK_COUNT : Z; PFLASH_BLOCK_SIZE : Z; PFLASH_BLOCK_SECTOR_SIZE : Z;
  PFLASH_BLOCK_WRITE_UNIT_SIZE : Z; PFLASH_SECTOR_CMD_ADDRESS_ALIGMENT : Z;
  PFLASH_SECTION_CMD_ADDRESS_ALIGMENT : Z; PFLASH_PROTECTION_REGION_COUNT : Z
}.
Class FlashFeatures := {
  FTFx_FLASH_COUNT : nat;
  FLASH0 : pflash_feature; FLASH1 : pflash_feature;
  PFLASH_RESOURCE_CMD_ADDRESS_ALIGMENT : Z; PFLASH_CHECK_CMD_ADDRESS_ALIGMENT : Z;
  HAS_ACCESS_CONTROL : bool;
  FTFx_FLASH0_HAS_HIGH_PROT_REG : bool;
  FTFx_FLASH1_IS_INDEPENDENT_BLOCK : bool; FTFx_FLASH1_HAS_INT_PROT_REG : bool;
  FTFx_FLASH1_HAS_INT_XACC_REG : bool;
  SIM_FLASH_NOT_USED : bool; SIZE_ENCODING_RULE_VERSION_1 : bool
}.

Definition kFTFx_MemTypePflash : Z := 0.
Definition kFTFx_AccessSegmentUnitSize : Z := 256.
Definition kFTFx_MinProtectBlockSize : Z := 1024.
Definition kFLASH_RecordIndexSwapAddr : Z := 0xA1.
Definition kFLASH_RecordIndexSwapEnable : Z := 0xA2.
Definition kFLASH_RecordIndexSwapDisable : Z := 0xA3.

Inductive flash_prot_state :=
  | kFLASH_ProtectionStateUnprotected | kFLASH_ProtectionStateProtected | kFLASH_ProtectionStateMixed.
Inductive flash_xacc_state :=
  | kFLASH_AccessStateUnLimited | kFLASH_AccessStateExecuteOnly | kFLASH_AccessStateMixed.

(** [pflash_prot_status_t] is a union: all its members lie on one word. *)
Definition pflash_prot_status : Type := Z.
Definition protl (s : pflash_prot_status) : Z := s.
Definition proth (s : pflash_prot_status) : Z := s.
Definition protsl (s : pflash_prot_status) : Z := s mod 256.
Definition protsh (s : pflash_prot_status) : Z := s mod 256.
Definition set_protl (v : Z) (s : pflash_prot_status) : pflash_prot_status := v.
Definition set_proth (v : Z) (s : pflash_prot_status) : pflash_prot_status := v.
Definition set_protsl (v : Z) (s : pflash_prot_status) : pflash_prot_status := s - s mod 256 + v.
Definition set_protsh (v : Z) (s : pflash_prot_status) : pflash_prot_status := s - s mod 256 + v.

Definition kFLASH_PropertyPflash0SectorSize : Z := 0x00.
Definition kFLASH_PropertyPflash0TotalSize : Z := 0x01.
Definition kFLASH_PropertyPflash0BlockSize : Z := 0x02.
Definition kFLASH_PropertyPflash0BlockCount : Z := 0x03.
Definition kFLASH_PropertyPflash0BlockBaseAddr : Z := 0x04.
Definition kFLASH_PropertyPflash0FacSupport : Z := 0x05.
Definition kFLASH_PropertyPflash0AccessSegmentSize : Z := 0x06.
Definition kFLASH_PropertyPflash0AccessSegmentCount : Z := 0x07.
Definition kFLASH_PropertyPflash1SectorSize : Z := 0x10.
Definition kFLASH_PropertyPflash1TotalSize : Z := 0x11.
Definition kFLASH_PropertyPflash1BlockSize : Z := 0x12.
Definition kFLASH_PropertyPflash1BlockCount : Z := 0x13.
Definition kFLASH_PropertyPflash1BlockBaseAddr : Z := 0x14.
Definition kFLASH_PropertyPflash1FacSupport : Z := 0x15.
Definition kFLASH_PropertyPflash1AccessSegmentSize : Z := 0x16.
Definition kFLASH_PropertyPflash1AccessSegmentCount : Z := 0x17.
Definition kFLASH_PropertyFlexRamBlockBaseAddr : Z := 0x20.
Definition kFLASH_PropertyFlexRamTotalSize : Z := 0x21.

Section Flash.
Context {D : Type} `{!Device ftfx_reg D} {F : FtfxFields} {X : FtfxFeatures} {P : FlashFeatures}.
Abbreviation W := (ftfx_world D).
Context (run_buffer : Z) (polls : nat) (local : Z).

Definition MAX_FLASH_PROT_REGION_COUNT : Z :=
  if PFLASH_PROTECTION_REGION_COUNT FLASH1 <? PFLASH_PROTECTION_REGION_COUNT FLASH0
  then PFLASH_PROTECTION_REGION_COUNT FLASH0 else PFLASH_PROTECTION_REGION_COUNT FLASH1.
Definition kPFlashDensities : list Z :=
  if SIZE_ENCODING_RULE_VERSION_1
  then [0; 0; 0; 0; 0; 0; 0; 0; 0; 0; 256; 512; 1024; 0; 0; 0]
  else [8; 16; 24; 32; 48; 64; 96; 128; 192; 256; 384; 512; 768; 1024; 1536].
(** [#if (FTFx_FLASH_COUNT > 1U)] *)
Definition two_flashes : bool := (1 <? FTFx_FLASH_COUNT)%nat.

(** [&config->ftfxConfig[i]] *)
Definition ftfxConfig (config : bool) (i : nat) : option nat := if config then Some i else None.

(** *** Ranges and addresses *)

Fixpoint find_flash (n index : nat) (start lengthInBytes : Z) : M W (status_t * Z) :=
  match n with
  | O => ret (kStatus_FTFx_AddressError, 0)
  | S n =>
      c <- deref (Some index) ;;
      if (blockBase (flashDesc c) <=? start)
         && (u32 (start + lengthInBytes) <=? u32 (blockBase (flashDesc c) + totalSize (flashDesc c)))
      then ret (kStatus_FTFx_Success, flash_index (flashDesc c))
      else find_flash n (S index) start lengthInBytes
  end.

(** The second component is [*flashIndex]. *)
Definition flash_check_range_to_get_index (config : bool) (start lengthInBytes : Z) : M W (status_t * Z) :=
  if negb config then ret (kStatus_FTFx_InvalidArgument, 0)
  else find_flash FTFx_FLASH_COUNT 0 start lengthInBytes.

Definition flash_convert_start_address (config : option nat) (start : Z) : M W unit :=
  c <- deref config ;;
  let d := flashDesc c in
  if two_flashes && negb (flash_index d =? 0) && negb (isIndBlock (feature d) =? 0)
  then update config (set_convertedAddress (u32 (u32 (start - blockBase d) + 0x800000)))
  else update config (set_convertedAddress start).

(** What the operations on a range have in common. *)
Definition in_flash (config : bool) (start lengthInBytes : Z) (m : option nat -> M W status_t) : M W status_t :=
  r <- flash_check_range_to_get_index config start lengthInBytes ;;
  let '(returnCode, flashIndex) := r : status_t * Z in
  or_return returnCode (
    let p := ftfxConfig config (Z.to_nat flashIndex) in
    flash_convert_start_address p start ;;
    m p).

Definition FLASH_Erase (fuel : nat) (config : bool) (start lengthInBytes key : Z) : M W status_t :=
  in_flash config start lengthInBytes (fun p => FTFx_CMD_Erase run_buffer polls fuel p start lengthInBytes key).

Definition FLASH_EraseSectorNonBlocking (config : bool) (start key : Z) : M W status_t :=
  in_flash config start (PFLASH_BLOCK_SECTOR_SIZE FLASH0)
    (fun p => FTFx_CMD_EraseSectorNonBlocking run_buffer polls p start key).

Definition FLASH_EraseAll (fuel : nat) (config : bool) (key : Z) : M W status_t :=
  FTFx_CMD_EraseAll run_buffer polls local fuel (ftfxConfig config 0) key.

Definition FLASH_EraseAllUnsecure (fuel : nat) (config : bool) (key : Z) : M W status_t :=
  FTFx_CMD_EraseAllUnsecure run_buffer polls local fuel (ftfxConfig config 0) key.

Definition FLASH_Program (fuel : nat) (config : bool) (start src lengthInBytes : Z) : M W status_t :=
  in_flash config start lengthInBytes (fun p => FTFx_CMD_Program run_buffer polls fuel p start src lengthInBytes).

Definition FLASH_ProgramOnce (config : bool) (index src lengthInBytes : Z) : M W status_t :=
  FTFx_CMD_ProgramOnce run_buffer polls (ftfxConfig config 0) index src lengthInBytes.

Definition FLASH_ProgramSection (fuel : nat) (config : bool) (start src lengthInBytes : Z) : M W status_t :=
  in_flash config start lengthInBytes
    (fun p => FTFx_CMD_ProgramSection run_buffer polls fuel p start src lengthInBytes).

Definition FLASH_ReadResource (fuel : nat) (config : bool) (start dst lengthInBytes option : Z) : M W status_t :=
  FTFx_CMD_ReadResource run_buffer polls fuel (ftfxConfig config 0) start dst lengthInBytes option.

Definition FLASH_ReadOnce (config : bool) (index dst lengthInBytes : Z) : M W status_t :=
  FTFx_CMD_ReadOnce run_buffer polls (ftfxConfig config 0) index dst lengthInBytes.

Definition FLASH_VerifyErase (fuel : nat) (config : bool) (start lengthInBytes margin : Z) : M W status_t :=
  in_flash config start lengthInBytes
    (fun p => FTFx_CMD_VerifyErase run_buffer polls fuel p start lengthInBytes margin).

Definition FLASH_VerifyEraseAll (config : bool) (margin : Z) : M W status_t :=
  FTFx_CMD_VerifyEraseAll run_buffer polls (ftfxConfig config 0) margin.

Definition FLASH_VerifyProgram (fuel : nat) (config : bool)
    (start lengthInBytes expectedData margin failedAddress failedData : Z) : M W status_t :=
  in_flash config start lengthInBytes
    (fun p => FTFx_CMD_VerifyProgram run_buffer polls fuel p start lengthInBytes expectedData margin failedAddress failedData).

Definition FLASH_GetSecurityState (config state : bool) : M W (status_t * option ftfx_security_state) :=
  FTFx_REG_GetSecurityState (ftfxConfig config 0) state.

Definition FLASH_SecurityBypass (config : bool) (backdoorKey : Z) : M W status_t :=
  FTFx_CMD_SecurityBypass run_buffer polls (ftfxConfig config 0) backdoorKey.

Definition FLASH_SetFlexramFunction (config : bool) (option : Z) : M W status_t :=
  FTFx_CMD_SetFlexramFunction run_buffer polls (ftfxConfig config 0) option.

Definition FLASH_GetCommandState : M D status_t :=
  registerValue <- rd FSTAT ;;
  let idleFlag := Z.shiftr (Z.land registerValue FTFx_FSTAT_CCIF_MASK) FTFx_FSTAT_CCIF_SHIFT in
  ret (if idleFlag =? 0 then kStatus_FTFx_CommandOperationInProgress else check_error_bits registerValue).

(** *** The swap procedure *)

(** The swap indicator address in the swap IFR: read as a resource, or as a
    record of the program-once field. *)
Definition swap_indicator_field (fuel : nat) (config : option nat) : M W (status_t * Z) :=
  if HAS_READ_RESOURCE_CMD then
    c <- deref config ;;
    returnCode <- FTFx_CMD_ReadResource run_buffer polls fuel config (pflashSwapIfrStart (ifrDesc c)) local 16
                    kFTFx_ResourceOptionFlashIfr ;;
    x <- load16 local ;;
    ret (returnCode, x)
  else
    returnCode <- FTFx_CMD_ReadOnce run_buffer polls config kFLASH_RecordIndexSwapAddr local 4 ;;
    if negb (returnCode =? kStatus_FTFx_Success) then ret (returnCode, 0) else
    x <- load32 local ;;
    returnCode <- FTFx_CMD_ReadOnce run_buffer polls config kFLASH_RecordIndexSwapEnable local 4 ;;
    if negb (returnCode =? kStatus_FTFx_Success) then ret (returnCode, 0) else
    returnCode <- FTFx_CMD_ReadOnce run_buffer polls config kFLASH_RecordIndexSwapDisable local 4 ;;
    ret (returnCode, u16 x).

Definition flash_validate_swap_indicator_address (fuel : nat) (config : option nat) (address : Z) : M W status_t :=
  r <- swap_indicator_field fuel config ;;
  let '(returnCode, swapIndicatorAddress) := r : status_t * Z in
  or_return returnCode (
    c <- deref config ;;
    if negb (address =? u32 (swapIndicatorAddress * swapCtrlCmd (addrAligment (opsConfig c))))
    then ret kStatus_FTFx_SwapIndicatorAddressError else ret returnCode).

(** What one round does with the reported state: [inr s] returns [s] at once,
    [inl (s, info)] goes on to the end of the round. *)
Definition swap_step (fuel : nat) (config : bool) (p : option nat) (address : Z) (isSetEnable : bool)
    (returnInfo : ftfx_swap_state_config) : M W ((status_t * ftfx_swap_state_config) + status_t) :=
  let control option :=
    r <- FTFx_CMD_SwapControl run_buffer polls p address option true ;;
    let '(returnCode, info) := r : status_t * Datatypes.option ftfx_swap_state_config in
    ret (inl (returnCode, match info with Some i => i | None => returnInfo end)) in
  let state := flashSwapState returnInfo in
  if negb isSetEnable then
    if state =? kFTFx_SwapStateDisabled then ret (inr kStatus_FTFx_Success)
    else if state =? kFTFx_SwapStateUninitialized then control kFTFx_SwapControlOptionDisableSystem
    else ret (inr kStatus_FTFx_SwapSystemNotInUninitialized)
  else if state =? kFTFx_SwapStateUninitialized then control kFTFx_SwapControlOptionIntializeSystem
  else if state =? kFTFx_SwapStateReady then
    returnCode <- flash_validate_swap_indicator_address fuel p address ;;
    if returnCode =? kStatus_FTFx_Success then control kFTFx_SwapControlOptionSetInUpdateState
    else ret (inl (returnCode, returnInfo))
  else if state =? kFTFx_SwapStateUpdate then
    c <- deref p ;;
    returnCode <- FLASH_Erase fuel config (u32 (address + totalSize (flashDesc c) / 2))
      (sectorCmd (addrAligment (opsConfig c))) kFTFx_ApiEraseKey ;;
    ret (inl (returnCode, returnInfo))
  else if state =? kFTFx_SwapStateUpdateErased then control kFTFx_SwapControlOptionSetInCompleteState
  else ret (inl ((if state =? kFTFx_SwapStateComplete then kStatus_FTFx_Success
                  else if state =? kFTFx_SwapStateDisabled then kStatus_FTFx_SwapSystemNotInUninitialized
                  else kStatus_FTFx_InvalidArgument), returnInfo)).

Fixpoint swap_loop (n fuel : nat) (config : bool) (p : option nat) (address : Z) (isSetEnable : bool)
    (returnInfo : ftfx_swap_state_config) : M W status_t :=
  match n with
  | O => throw OutOfFuel
  | S n =>
      r <- FTFx_CMD_SwapControl run_buffer polls p address kFTFx_SwapControlOptionReportStatus true ;;
      let '(returnCode, info) := r : status_t * option ftfx_swap_state_config in
      let returnInfo := match info with Some i => i | None => returnInfo end in
      or_return returnCode (
        r <- swap_step fuel config p address isSetEnable returnInfo ;;
        match r : (status_t * ftfx_swap_state_config) + status_t with
        | inr s => ret s
        | inl (returnCode, returnInfo) =>
            or_return returnCode (
              if (kFTFx_SwapStateComplete =? flashSwapState returnInfo) && isSetEnable then ret returnCode
              else swap_loop n fuel config p address isSetEnable returnInfo)
        end)
  end.

Definition FLASH_Swap (n fuel : nat) (config : bool) (address : Z) (isSetEnable : bool) : M W status_t :=
  r <- flash_check_range_to_get_index config address 1 ;;
  let '(returnCode, flashIndex) := r : status_t * Z in
  or_return returnCode (
    swap_loop n fuel config (ftfxConfig config (Z.to_nat flashIndex)) address isSetEnable
      {| flashSwapState := 0xFFFFFFFF; currentSwapBlockStatus := 0xFFFFFFFF; nextSwapBlockStatus := 0xFFFFFFFF |}).

(** *** Protection *)

(** [flashRegionProtectStatus]: one bit of the protection registers per
    region, for as many regions as the registers describe. *)
Fixpoint read_protection (n : nat) (d : ftfx_mem_desc) (flashRegionProtectStatus : list Z) (regionCounter : Z) :
    M D (status_t * list Z) :=
  match n with
  | O => throw OutOfFuel
  | S n =>
      if regionCounter <? mem_count (protectRegionMem d) then
        if negb two_flashes || (0 =? flash_index d) || negb (hasIndProtReg (feature d) =? 0) then
          if regionCounter <? (if MAX_FLASH_PROT_REGION_COUNT <=? 32 then MAX_FLASH_PROT_REGION_COUNT else 32) then
            x <- rd FPROTL ;;
            l <- lift (aset flashRegionProtectStatus regionCounter (Z.land (Z.shiftr x regionCounter) 1)) ;;
            read_protection n d l (regionCounter + 1)
          else if (MAX_FLASH_PROT_REGION_COUNT =? 64) && (regionCounter <? 64) then
            x <- rd FPROTH ;;
            l <- lift (aset flashRegionProtectStatus regionCounter (Z.land (Z.shiftr x (regionCounter - 32)) 1)) ;;
            read_protection n d l (regionCounter + 1)
          else ret (kStatus_FTFx_Success, flashRegionProtectStatus)
        else if FTFx_FLASH1_HAS_INT_PROT_REG && (1 =? flash_index d) && negb (hasIndProtReg (feature d) =? 0) then
          if regionCounter <? 16 then
            x <- rd FPROTS ;;
            l <- lift (aset flashRegionProtectStatus regionCounter (Z.land (Z.shiftr x regionCounter) 1)) ;;
            read_protection n d l (regionCounter + 1)
          else ret (kStatus_FTFx_Success, flashRegionProtectStatus)
        else ret (kStatus_FTFx_InvalidArgument, flashRegionProtectStatus)
      else ret (kStatus_FTFx_Success, flashRegionProtectStatus)
  end.

(** The walk over the regions: how many were checked, how many of them are
    protected.  [flashRegionAddress] has an element per region and one more;
    the elements behind them are indeterminate, and reading one faults. *)
Fixpoint count_protected (n : nat) (size : Z) (flashRegionAddress flashRegionProtectStatus : list Z)
    (start endAddress regionCounter regionCheckedCounter protectStatusCounter : Z) : outcome (Z * Z) :=
  match n with
  | O => Err OutOfFuel
  | S n =>
      if start <? endAddress then (
        a <-! aget flashRegionAddress regionCounter ;;
        if a <=? start then (
          b <-! aget flashRegionAddress (regionCounter + 1) ;;
          if start <? b then (
            s <-! aget flashRegionProtectStatus regionCounter ;;
            count_protected n size flashRegionAddress flashRegionProtectStatus (u32 (start + size)) endAddress
              (regionCounter + 1) (regionCheckedCounter + 1)
              (if 0 =? s then protectStatusCounter + 1 else protectStatusCounter))
          else count_protected n size flashRegionAddress flashRegionProtectStatus start endAddress
                 (regionCounter + 1) regionCheckedCounter protectStatusCounter)
        else count_protected n size flashRegionAddress flashRegionProtectStatus start endAddress
               (regionCounter + 1) regionCheckedCounter protectStatusCounter)
      else Ok (regionCheckedCounter, protectStatusCounter)
  end.

(** [flashRegionAddress[i] = base + size * i] for [i <= count]; the array has
    room for [MAX_FLASH_PROT_REGION_COUNT + 1]. *)
Definition region_addresses (s : ftfx_spec_mem) : outcome (list Z) :=
  if mem_count s <=? MAX_FLASH_PROT_REGION_COUNT
  then Ok (map (fun i => u32 (mem_base s + u32 (mem_size s * Z.of_nat i))) (seq 0 (S (Z.to_nat (mem_count s)))))
  else Err OutOfBounds.

Definition FLASH_IsProtected (config : bool) (start lengthInBytes : Z) (protection_state : bool) :
    M W (status_t * option flash_prot_state) :=
  if negb protection_state then ret (kStatus_FTFx_InvalidArgument, None) else
  r <- flash_check_range_to_get_index config start lengthInBytes ;;
  let '(returnCode, flashIndex) := r : status_t * Z in
  if negb (returnCode =? kStatus_FTFx_Success) then ret (returnCode, None) else
  c <- deref (ftfxConfig config (Z.to_nat flashIndex)) ;;
  let d := flashDesc c in
  let s := protectRegionMem d in
  if two_flashes && (hasProtControl (feature d) =? 0)
  then ret (kStatus_FTFx_Success, Some kFLASH_ProtectionStateUnprotected) else
  flashRegionAddress <- lift (region_addresses s) ;;
  r <- on_hw (read_protection (S (Z.to_nat (mem_count s))) d
         (repeat 0xFF (Z.to_nat MAX_FLASH_PROT_REGION_COUNT)) 0) ;;
  let '(returnCode, flashRegionProtectStatus) := r : status_t * list Z in
  if negb (returnCode =? kStatus_FTFx_Success) then ret (returnCode, None) else
  r <- lift (count_protected (S (S (Z.to_nat (mem_count s)))) (mem_size s) flashRegionAddress
         flashRegionProtectStatus start (u32 (start + lengthInBytes)) 0 0 0) ;;
  let '(regionCheckedCounter, protectStatusCounter) := r : Z * Z in
  ret (kStatus_FTFx_Success, Some (
    if protectStatusCounter =? 0 then kFLASH_ProtectionStateUnprotected
    else if protectStatusCounter =? regionCheckedCounter then kFLASH_ProtectionStateProtected
    else kFLASH_ProtectionStateMixed)).

(** The walk over the execute-only segments. *)
Fixpoint count_execute_only (n : nat) (d : ftfx_mem_desc) (start endAddress executeOnlySegmentCounter : Z) :
    M D (status_t * Z) :=
  match n with
  | O => throw OutOfFuel
  | S n =>
      if start <? endAddress then
        let s := accessSegmentMem d in
        segmentIndex <- lift (udiv (u32 (start - mem_base s)) (mem_size s)) ;;
        let next xacc segmentIndex :=
          count_execute_only n d (u32 (start + mem_size s)) endAddress
            (if negb (Z.land (wrap 32 (Z.lnot xacc)) (u32 (Z.shiftl 1 segmentIndex)) =? 0)
             then executeOnlySegmentCounter + 1 else executeOnlySegmentCounter) in
        if (0 =? flash_index d) || negb (hasIndXaccReg (feature d) =? 0) then
          if segmentIndex <? 32 then x <- rd XACCL ;; next x segmentIndex
          else if segmentIndex <? mem_count s then x <- rd XACCH ;; next x (segmentIndex - 32)
          else ret (kStatus_FTFx_Success, executeOnlySegmentCounter)
        else if FTFx_FLASH1_HAS_INT_XACC_REG && (flash_index d =? 1) && negb (hasIndXaccReg (feature d) =? 0) then
          if segmentIndex <? 8 then x <- rd XACCSL ;; next x segmentIndex
          else if segmentIndex <? mem_count s then x <- rd XACCSH ;; next x (segmentIndex - 8)
          else ret (kStatus_FTFx_Success, executeOnlySegmentCounter)
        else ret (kStatus_FTFx_InvalidArgument, executeOnlySegmentCounter)
      else ret (kStatus_FTFx_Success, executeOnlySegmentCounter)
  end.

Definition FLASH_IsExecuteOnly (fuel : nat) (config : bool) (start lengthInBytes : Z) (access_state : bool) :
    M W (status_t * option flash_xacc_state) :=
  if negb access_state then ret (kStatus_FTFx_InvalidArgument, None) else
  r <- flash_check_range_to_get_index config start lengthInBytes ;;
  let '(returnCode, flashIndex) := r : status_t * Z in
  if negb (returnCode =? kStatus_FTFx_Success) then ret (returnCode, None) else
  c <- deref (ftfxConfig config (Z.to_nat flashIndex)) ;;
  let d := flashDesc c in
  let size := mem_size (accessSegmentMem d) in
  let endAddress := u32 (start + lengthInBytes) in
  let alignedStartAddress := ALIGN_DOWN start size in
  let alignedEndAddress := ALIGN_UP endAddress size in
  maxSupportedExecuteOnlySegmentCount <- lift (udiv (u32 (alignedEndAddress - alignedStartAddress)) size) ;;
  r <- on_hw (count_execute_only fuel d start endAddress 0) ;;
  let '(returnCode, executeOnlySegmentCounter) := r : status_t * Z in
  if negb (returnCode =? kStatus_FTFx_Success) then ret (returnCode, None) else
  ret (kStatus_FTFx_Success, Some (
    if executeOnlySegmentCounter <? 1 then kFLASH_AccessStateUnLimited
    else if executeOnlySegmentCounter <? maxSupportedExecuteOnlySegmentCount then kFLASH_AccessStateMixed
    else kFLASH_AccessStateExecuteOnly)).

(** [*reg = v; if (v != *reg) return kStatus_FTFx_CommandFailure;] *)
Definition set_and_check (r : ftfx_reg) (v : Z) (m : M W status_t) : M W status_t :=
  on_hw (wr r v) ;;
  x <- on_hw (rd r) ;;
  if negb (v =? x) then ret kStatus_FTFx_CommandFailure else m.

(** [protectStatus]: [None] for the null pointer. *)
Definition FLASH_PflashSetProtection (config : bool) (protectStatus : option pflash_prot_status) : M W status_t :=
  match protectStatus with
  | None => ret kStatus_FTFx_InvalidArgument
  | Some protectStatus =>
      if negb config then ret kStatus_FTFx_InvalidArgument else
      c0 <- deref (Some 0%nat) ;;
      let f0 := feature (flashDesc c0) in
      if negb two_flashes || negb (hasProtControl f0 =? 0) then
        let high :=
          if FTFx_FLASH0_HAS_HIGH_PROT_REG && (ProtRegBits f0 =? 64)
          then set_and_check FPROTH (proth protectStatus) (ret kStatus_FTFx_Success)
          else ret kStatus_FTFx_Success in
        if 32 <=? ProtRegBits f0 then set_and_check FPROTL (protl protectStatus) high else high
      else if FTFx_FLASH1_HAS_INT_PROT_REG then
        c1 <- deref (Some 1%nat) ;;
        let f1 := feature (flashDesc c1) in
        if negb (hasProtControl f1 =? 0) && negb (hasIndProtReg f1 =? 0) && (ProtRegBits f1 =? 16)
        then set_and_check FPROTSL (protsl protectStatus)
               (set_and_check FPROTSH (protsh protectStatus) (ret kStatus_FTFx_Success))
        else ret kStatus_FTFx_Success
      else ret kStatus_FTFx_Success
  end.

(** The second component of the result is [*protectStatus] afterwards. *)
Definition FLASH_PflashGetProtection (config : bool) (protectStatus : option pflash_prot_status) :
    M W (status_t * option pflash_prot_status) :=
  match protectStatus with
  | None => ret (kStatus_FTFx_InvalidArgument, None)
  | Some s =>
      if negb config then ret (kStatus_FTFx_InvalidArgument, Some s) else
      c0 <- deref (Some 0%nat) ;;
      let f0 := feature (flashDesc c0) in
      if negb two_flashes || negb (hasProtControl f0 =? 0) then
        s <- (if 32 <=? ProtRegBits f0 then x <- on_hw (rd FPROTL) ;; ret (set_protl x s) else ret s) ;;
        s <- (if FTFx_FLASH0_HAS_HIGH_PROT_REG && (ProtRegBits f0 =? 64)
              then x <- on_hw (rd FPROTH) ;; ret (set_proth x s) else ret s) ;;
        ret (kStatus_FTFx_Success, Some s)
      else if FTFx_FLASH1_HAS_INT_PROT_REG then
        c1 <- deref (Some 1%nat) ;;
        let f1 := feature (flashDesc c1) in
        if negb (hasProtControl f1 =? 0) && negb (hasIndProtReg f1 =? 0) && (ProtRegBits f0 =? 16) then
          x <- on_hw (rd FPROTSL) ;;
          y <- on_hw (rd FPROTSH) ;;
          ret (kStatus_FTFx_Success, Some (set_protsh y (set_protsl x s)))
        else ret (kStatus_FTFx_Success, Some s)
      else ret (kStatus_FTFx_Success, Some s)
  end.

(** *** Properties *)

(** The properties of one flash, by the low half of the tag. *)
Definition flash_property (c : ftfx_config) (whichProperty : Z) : option (outcome Z) :=
  let d := flashDesc c in
  if whichProperty =? kFLASH_PropertyPflash0SectorSize then Some (Ok (sectorSize d))
  else if whichProperty =? kFLASH_PropertyPflash0TotalSize then Some (Ok (totalSize d))
  else if whichProperty =? kFLASH_PropertyPflash0BlockSize then Some (udiv (totalSize d) (blockCount d))
  else if whichProperty =? kFLASH_PropertyPflash0BlockCount then Some (Ok (blockCount d))
  else if whichProperty =? kFLASH_PropertyPflash0BlockBaseAddr then Some (Ok (blockBase d))
  else if whichProperty =? kFLASH_PropertyPflash0FacSupport then Some (Ok (hasXaccControl (feature d)))
  else if whichProperty =? kFLASH_PropertyPflash0AccessSegmentSize then Some (Ok (mem_size (accessSegmentMem d)))
  else if whichProperty =? kFLASH_PropertyPflash0AccessSegmentCount then Some (Ok (mem_count (accessSegmentMem d)))
  else None.

Definition FLASH_GetProperty (config : bool) (whichProperty : Z) (value : bool) : M W (status_t * option Z) :=
  if negb config || negb value then ret (kStatus_FTFx_InvalidArgument, None) else
  c0 <- deref (Some 0%nat) ;;
  if whichProperty =? kFLASH_PropertyFlexRamBlockBaseAddr
  then ret (kStatus_FTFx_Success, Some (flexramBlockBase c0))
  else if whichProperty =? kFLASH_PropertyFlexRamTotalSize
  then ret (kStatus_FTFx_Success, Some (flexramTotalSize c0))
  else if two_flashes && (0x10 <=? whichProperty) then
    c1 <- deref (Some 1%nat) ;;
    match flash_property c1 (whichProperty - 0x10) with
    | Some o => v <- lift o ;; ret (kStatus_FTFx_Success, Some v)
    | None => ret (kStatus_FTFx_UnknownProperty, None)
    end
  else
    match flash_property c0 whichProperty with
    | Some o => v <- lift o ;; ret (kStatus_FTFx_Success, Some v)
    | None => ret (kStatus_FTFx_UnknownProperty, None)
    end.

(** *** Initialisation *)

Definition flash_init_features (config : option nat) : M W unit :=
  c <- deref config ;;
  let d := flashDesc c in
  let f := feature d in
  let ind := if FTFx_FLASH1_IS_INDEPENDENT_BLOCK then 1 else 0 in
  let '(i, pf, pr, xa) :=
    if negb two_flashes || (flash_index d =? 0) then (1, 1, 1, 1)
    else if flash_index d =? 1 then
      (ind, ind, if FTFx_FLASH1_HAS_INT_PROT_REG then 1 else 0, if FTFx_FLASH1_HAS_INT_XACC_REG then 1 else 0)
    else (isIndBlock f, hasIndPfsizeReg f, hasIndProtReg f, hasIndXaccReg f) in
  update config (set_flashDesc (set_feature {|
    isIndBlock := i; hasIndPfsizeReg := pf; hasProtControl := 1; hasIndProtReg := pr;
    hasXaccControl := if HAS_ACCESS_CONTROL then 1 else 0; hasIndXaccReg := xa;
    ProtRegBits := ProtRegBits f |} d)).

Definition flash_calculate_mem_size (pflashBlockCount pflashBlockSize pfsizeMask pfsizeShift : Z) : M D Z :=
  pfsize <- (if SIM_FLASH_NOT_USED then ret 0xf
             else x <- rd SIM_FCFG1 ;; ret (u8 (Z.shiftr (Z.land x pfsizeMask) pfsizeShift))) ;;
  if pfsize =? 0xf then ret (u32 (pflashBlockCount * pflashBlockSize)) else
  density <- lift (aget kPFlashDensities pfsize) ;;
  ret (u32 (Z.shiftl density 10)).

Definition flash_calculate_prot_segment_size (flashSize segmentCount : Z) : outcome Z :=
  if u32 (segmentCount * kFTFx_MinProtectBlockSize) <? flashSize then udiv flashSize segmentCount
  else Ok kFTFx_MinProtectBlockSize.

Definition flash_opsonfig_Init (flashIndex : nat) : M W unit :=
  let second := two_flashes && (flashIndex =? 1)%nat in
  let p := if second then FLASH1 else FLASH0 in
  let pfsizeMask := if second then SIM_FLASH1_PFSIZE_MASK else SIM_FLASH0_PFSIZE_MASK in
  let pfsizeShift := if second then SIM_FLASH1_PFSIZE_SHIFT else SIM_FLASH0_PFSIZE_SHIFT in
  c <- deref (Some flashIndex) ;;
  let d := flashDesc c in
  size <- (if negb two_flashes
              || (negb (isIndBlock (feature d) =? 0) && negb (hasIndPfsizeReg (feature d) =? 0))
           then on_hw (flash_calculate_mem_size (PFLASH_BLOCK_COUNT p) (PFLASH_BLOCK_SIZE p) pfsizeMask pfsizeShift)
           else ret (u32 (PFLASH_BLOCK_COUNT p * PFLASH_BLOCK_SIZE p))) ;;
  update (Some flashIndex) (fun c =>
    let d := flashDesc c in
    set_opsConfig {| convertedAddress := convertedAddress (opsConfig c);
      addrAligment := {|
        sectorCmd := u8 (PFLASH_SECTOR_CMD_ADDRESS_ALIGMENT p); sectionCmd := u8 (PFLASH_SECTION_CMD_ADDRESS_ALIGMENT p);
        resourceCmd := u8 PFLASH_RESOURCE_CMD_ADDRESS_ALIGMENT; checkCmd := u8 PFLASH_CHECK_CMD_ADDRESS_ALIGMENT;
        swapCtrlCmd := u8 PFLASH_SWAP_CONTROL_CMD_ADDRESS_ALIGMENT;
        blockWriteUnitSize := u8 (PFLASH_BLOCK_WRITE_UNIT_SIZE p) |} |}
    (set_flashDesc {|
      flash_type := flash_type d; flash_index := flash_index d; feature := feature d;
      blockBase := PFLASH_START_ADDRESS p; aliasBlockBase := aliasBlockBase d; totalSize := size;
      sectorSize := PFLASH_BLOCK_SECTOR_SIZE p; blockCount := PFLASH_BLOCK_COUNT p;
      accessSegmentMem := accessSegmentMem d; protectRegionMem := protectRegionMem d |} c)).

Definition flash_access_init (flashIndex : nat) : M W unit :=
  let init target base size_reg count_reg :=
    x <- on_hw (rd size_reg) ;;
    n <- on_hw (rd count_reg) ;;
    update (Some target) (fun c => set_flashDesc (set_accessSegmentMem
      {| mem_base := base; mem_size := u32 (Z.shiftl kFTFx_AccessSegmentUnitSize x); mem_count := n |} (flashDesc c)) c) in
  let target := if FTFx_FLASH1_HAS_INT_XACC_REG then flashIndex else 0%nat in
  if FTFx_FLASH1_HAS_INT_XACC_REG && (flashIndex =? 1)%nat then
    c <- deref (Some flashIndex) ;;
    init target (blockBase (flashDesc c)) FACSSS FACSNS
  else
    c <- deref (Some 0%nat) ;;
    init target (blockBase (flashDesc c)) FACSS FACSN.

Definition set_protect_region (i : nat) (f : ftfx_spec_mem -> ftfx_spec_mem) : M W unit :=
  update (Some i) (fun c => set_flashDesc (set_protectRegionMem (f (protectRegionMem (flashDesc c))) (flashDesc c)) c).

Definition flash_protection_init (flashIndex : nat) : M W unit :=
  let second := two_flashes && (flashIndex =? 1)%nat in
  let pflashProtectionRegionCount := PFLASH_PROTECTION_REGION_COUNT (if second then FLASH1 else FLASH0) in
  c <- deref (Some flashIndex) ;;
  let d := flashDesc c in
  if negb two_flashes || negb (hasIndProtReg (feature d) =? 0) then
    size <- lift (flash_calculate_prot_segment_size (totalSize d) pflashProtectionRegionCount) ;;
    set_protect_region flashIndex (fun _ =>
      {| mem_base := blockBase d; mem_size := size; mem_count := pflashProtectionRegionCount |})
  else
    c0 <- deref (Some 0%nat) ;;
    set_protect_region flashIndex (fun s =>
      {| mem_base := blockBase (flashDesc c0); mem_size := mem_size s;
         mem_count := PFLASH_PROTECTION_REGION_COUNT FLASH0 |}) ;;
    when (flashIndex =? FTFx_FLASH_COUNT - 1)%nat (
      let pflashTotalSize := u32 (Z.of_nat FTFx_FLASH_COUNT * totalSize d) in
      segmentSize <- lift (flash_calculate_prot_segment_size pflashTotalSize (PFLASH_PROTECTION_REGION_COUNT FLASH0)) ;;
      let resize i := set_protect_region i (fun s =>
        {| mem_base := mem_base s; mem_size := segmentSize; mem_count := mem_count s |}) in
      (fix go n := match n with O => ret tt | S n => go n ;; resize n end) FTFx_FLASH_COUNT).

Fixpoint init_loop (n flashIndex : nat) : M W unit :=
  match n with
  | O => ret tt
  | S n =>
      update (Some flashIndex) (fun c =>
        set_flashDesc (set_type_index kFTFx_MemTypePflash (Z.of_nat flashIndex) (flashDesc c)) c) ;;
      flash_init_features (Some flashIndex) ;;
      flash_opsonfig_Init flashIndex ;;
      c <- deref (Some flashIndex) ;;
      when (HAS_ACCESS_CONTROL && negb (hasXaccControl (feature (flashDesc c)) =? 0)) (flash_access_init flashIndex) ;;
      when (negb two_flashes || negb (hasProtControl (feature (flashDesc c)) =? 0)) (flash_protection_init flashIndex) ;;
      FTFx_API_Init run_buffer (Some flashIndex) ;;
      init_loop n (S flashIndex)
  end.

Definition FLASH_Init (config : bool) : M W status_t :=
  if negb config then ret kStatus_FTFx_InvalidArgument else
  init_loop FTFx_FLASH_COUNT 0 ;;
  ret kStatus_FTFx_Success.
End Flash.
