(* ===== verification/FtfxNvm.v ===== *)
(** * The data flash and emulated EEPROM driver (drivers/flash/fsl_ftfx_flexnvm)

    A FlexNVM block is data flash, backup of the emulated EEPROM, or both.
    The data flash functions translate the address and call the controller
    layer; [FLEXNVM_EepromWrite] writes the FlexRAM.  The driver's object has
    one configuration, the first of the world's [configs]. *)

From stdpp Require Import base list numbers tactics.
From Stdlib Require Import ZArith Lia.
From S2P Require Import Prelude Mmio Ftfx.

Open Scope Z_scope.
Open Scope prog_scope.

Class FlexNvmFeatures := {
  FLEX_NVM_BLOCK_WRITE_UNIT_SIZE : Z; FLEX_NVM_SECTOR_CMD_ADDRESS_ALIGMENT : Z;
  FLEX_NVM_SECTION_CMD_ADDRESS_ALIGMENT : Z; FLEX_NVM_RESOURCE_CMD_ADDRESS_ALIGMENT : Z;
  FLEX_NVM_CHECK_CMD_ADDRESS_ALIGMENT : Z; FLEX_NVM_START_ADDRESS : Z; FLEX_NVM_ALIAS_START_ADDRESS : Z;
  FLEX_NVM_BLOCK_SECTOR_SIZE : Z; FLEX_NVM_BLOCK_COUNT : Z
}.

Definition kFTFx_MemTypeFlexnvm : Z := 1.

Definition kFLEXNVM_PropertyDflashSectorSize : Z := 0x00.
Definition kFLEXNVM_PropertyDflashTotalSize : Z := 0x01.
Definition kFLEXNVM_PropertyDflashBlockSize : Z := 0x02.
Definition kFLEXNVM_PropertyDflashBlockCount : Z := 0x03.
Definition kFLEXNVM_PropertyDflashBlockBaseAddr : Z := 0x04.
Definition kFLEXNVM_PropertyAliasDflashBlockBaseAddr : Z := 0x05.
Definition kFLEXNVM_PropertyFlexRamBlockBaseAddr : Z := 0x06.
Definition kFLEXNVM_PropertyFlexRamTotalSize : Z := 0x07.
Definition kFLEXNVM_PropertyEepromTotalSize : Z := 0x08.

Section FlexNvm.
Context {D : Type} `{!Device ftfx_reg D} {F : FtfxFields} {X : FtfxFeatures} {N : FlexNvmFeatures}.
Abbreviation W := (ftfx_world D).
Context (run_buffer : Z) (polls : nat) (local : Z).

(** [&config->ftfxConfig] *)
Definition ftfxConfig (config : bool) : option nat := if config then Some 0%nat else None.

Definition FLEXNVM_Init (fuel : nat) (config : bool) : M W status_t :=
  if negb config then ret kStatus_FTFx_InvalidArgument else
  let p := ftfxConfig config in
  update p (fun c =>
    let d := flashDesc c in
    let a := addrAligment (opsConfig c) in
    set_opsConfig {| convertedAddress := convertedAddress (opsConfig c);
      addrAligment := {|
        sectorCmd := u8 FLEX_NVM_SECTOR_CMD_ADDRESS_ALIGMENT; sectionCmd := u8 FLEX_NVM_SECTION_CMD_ADDRESS_ALIGMENT;
        resourceCmd := u8 FLEX_NVM_RESOURCE_CMD_ADDRESS_ALIGMENT; checkCmd := u8 FLEX_NVM_CHECK_CMD_ADDRESS_ALIGMENT;
        swapCtrlCmd := swapCtrlCmd a; blockWriteUnitSize := u8 FLEX_NVM_BLOCK_WRITE_UNIT_SIZE |} |}
    (set_flashDesc {|
      flash_type := kFTFx_MemTypeFlexnvm; flash_index := 0; feature := feature d;
      blockBase := FLEX_NVM_START_ADDRESS;
      aliasBlockBase := if HAS_FLEX_NVM_ALIAS then FLEX_NVM_ALIAS_START_ADDRESS else aliasBlockBase d;
      totalSize := totalSize d; sectorSize := FLEX_NVM_BLOCK_SECTOR_SIZE; blockCount := FLEX_NVM_BLOCK_COUNT;
      accessSegmentMem := accessSegmentMem d; protectRegionMem := protectRegionMem d |} c)) ;;
  FTFx_API_Init run_buffer p ;;
  FTFx_API_UpdateFlexnvmPartitionStatus run_buffer polls local fuel p.

Definition flexnvm_convert_start_address (config : bool) (start : Z) : M W status_t :=
  if negb config then ret kStatus_FTFx_InvalidArgument else
  let p := ftfxConfig config in
  c <- deref p ;;
  let d := flashDesc c in
  if blockBase d <=? start then
    update p (set_convertedAddress (u32 (u32 (start - blockBase d) + 0x800000))) ;;
    ret kStatus_FTFx_Success
  else if HAS_FLEX_NVM_ALIAS then
    when (aliasBlockBase d <=? start)
      (update p (set_convertedAddress (u32 (u32 (start - aliasBlockBase d) + 0x800000)))) ;;
    ret kStatus_FTFx_Success
  else ret kStatus_FTFx_AddressError.

(** What the data flash operations have in common. *)
Definition in_dflash (config : bool) (start : Z) (m : option nat -> M W status_t) : M W status_t :=
  returnCode <- flexnvm_convert_start_address config start ;;
  or_return returnCode (m (ftfxConfig config)).

Definition FLEXNVM_DflashErase (fuel : nat) (config : bool) (start lengthInBytes key : Z) : M W status_t :=
  in_dflash config start (fun p => FTFx_CMD_Erase run_buffer polls fuel p start lengthInBytes key).

Definition FLEXNVM_EraseAll (fuel : nat) (config : bool) (key : Z) : M W status_t :=
  FTFx_CMD_EraseAll run_buffer polls local fuel (ftfxConfig config) key.

Definition FLEXNVM_EraseAllUnsecure (fuel : nat) (config : bool) (key : Z) : M W status_t :=
  FTFx_CMD_EraseAllUnsecure run_buffer polls local fuel (ftfxConfig config) key.

Definition FLEXNVM_DflashProgram (fuel : nat) (config : bool) (start src lengthInBytes : Z) : M W status_t :=
  in_dflash config start (fun p => FTFx_CMD_Program run_buffer polls fuel p start src lengthInBytes).

Definition FLEXNVM_DflashProgramSection (fuel : nat) (config : bool) (start src lengthInBytes : Z) : M W status_t :=
  in_dflash config start (fun p => FTFx_CMD_ProgramSection run_buffer polls fuel p start src lengthInBytes).

Definition FLEXNVM_ProgramPartition (config : bool) (option eepromDataSizeCode flexnvmPartitionCode : Z) : M W status_t :=
  FTFx_CMD_ProgramPartition run_buffer polls (ftfxConfig config) option eepromDataSizeCode flexnvmPartitionCode 0xFF 0xFF.

Definition FLEXNVM_ProgramPartition_CSE (config : bool)
    (option eepromDataSizeCode flexnvmPartitionCode CSEcKeySize SFE : Z) : M W status_t :=
  FTFx_CMD_ProgramPartition run_buffer polls (ftfxConfig config) option eepromDataSizeCode flexnvmPartitionCode CSEcKeySize SFE.

Definition FLEXNVM_ReadResource (fuel : nat) (config : bool) (start dst lengthInBytes option : Z) : M W status_t :=
  FTFx_CMD_ReadResource run_buffer polls fuel (ftfxConfig config) start dst lengthInBytes option.

Definition FLEXNVM_DflashVerifyErase (fuel : nat) (config : bool) (start lengthInBytes margin : Z) : M W status_t :=
  in_dflash config start (fun p => FTFx_CMD_VerifyErase run_buffer polls fuel p start lengthInBytes margin).

Definition FLEXNVM_VerifyEraseAll (config : bool) (margin : Z) : M W status_t :=
  FTFx_CMD_VerifyEraseAll run_buffer polls (ftfxConfig config) margin.

Definition FLEXNVM_DflashVerifyProgram (fuel : nat) (config : bool)
    (start lengthInBytes expectedData margin failedAddress failedData : Z) : M W status_t :=
  in_dflash config start
    (fun p => FTFx_CMD_VerifyProgram run_buffer polls fuel p start lengthInBytes expectedData margin failedAddress failedData).

Definition FLEXNVM_GetSecurityState (config state : bool) : M W (status_t * option ftfx_security_state) :=
  FTFx_REG_GetSecurityState (ftfxConfig config) state.

Definition FLEXNVM_SecurityBypass (config : bool) (backdoorKey : Z) : M W status_t :=
  FTFx_CMD_SecurityBypass run_buffer polls (ftfxConfig config) backdoorKey.

Definition FLEXNVM_SetFlexramFunction (config : bool) (option : Z) : M W status_t :=
  FTFx_CMD_SetFlexramFunction run_buffer polls (ftfxConfig config) option.

Definition FLEXNVM_SetFlexramFunction_QuickWrite (config : bool) (option qwSize : Z) (returnInfo : bool) :
    M W (status_t * Datatypes.option ftfx_flexram_eeprom_qw_status) :=
  FTFx_CMD_SetFlexramFunction_QuickWrite run_buffer polls (ftfxConfig config) option qwSize returnInfo.

(** *** The emulated EEPROM *)

(** One access: the widest the two addresses and the length allow. *)
Definition eeprom_access (start src lengthInBytes : Z) : Z :=
  if (Z.land start 3 =? 0) && (Z.land src 3 =? 0) && (4 <=? lengthInBytes) then 4
  else if (Z.land start 1 =? 0) && (Z.land src 1 =? 0) && (2 <=? lengthInBytes) then 2
  else 1.

Fixpoint eeprom_loop (n : nat) (start src lengthInBytes : Z) : M W status_t :=
  match n with
  | O => throw OutOfFuel
  | S n =>
      if 0 <? lengthInBytes then
        let k := eeprom_access start src lengthInBytes in
        v <- (if k =? 4 then load32 src else if k =? 2 then load16 src else load8 src) ;;
        on_hw (wr (FlexRam k start) v) ;;
        on_hw (poll_clear polls FCNFG FTFx_FCNFG_EEERDY_MASK) ;;
        x <- on_hw (rd FSTAT) ;;
        if has x FTFx_FSTAT_FPVIOL_MASK then ret kStatus_FTFx_ProtectionViolation
        else eeprom_loop n (u32 (start + k)) (src + k) (u32 (lengthInBytes - k))
      else ret kStatus_FTFx_Success
  end.

Definition FLEXNVM_EepromWrite (fuel : nat) (config : bool) (start src lengthInBytes : Z) : M W status_t :=
  if negb config then ret kStatus_FTFx_InvalidArgument else
  let p := ftfxConfig config in
  c <- deref p ;;
  if (start <? flexramBlockBase c)
     || (u32 (flexramBlockBase c + eepromTotalSize c) <? u32 (start + lengthInBytes))
  then ret kStatus_FTFx_AddressError else
  x <- on_hw (rd FCNFG) ;;
  let needSwitchFlexRamMode := negb (has x FTFx_FCNFG_EEERDY_MASK) in
  returnCode <- (if needSwitchFlexRamMode
    then FTFx_CMD_SetFlexramFunction run_buffer polls p kFTFx_FlexramFuncOptAvailableForEeprom
    else ret kStatus_FTFx_Success) ;;
  if negb (returnCode =? kStatus_FTFx_Success) then ret kStatus_FTFx_SetFlexramAsEepromError else
  s <- eeprom_loop fuel start src lengthInBytes ;;
  if negb (s =? kStatus_FTFx_Success) then ret s else
  if needSwitchFlexRamMode then
    returnCode <- FTFx_CMD_SetFlexramFunction run_buffer polls p kFTFx_FlexramFuncOptAvailableAsRam ;;
    if negb (returnCode =? kStatus_FTFx_Success) then ret kStatus_FTFx_RecoverFlexramAsRamError else ret returnCode
  else ret returnCode.

(** *** Protection and properties *)

(** [(size == 0) || (size == the reserved value)]: no such memory. *)
Definition FLEXNVM_DflashSetProtection (config : bool) (protectStatus : Z) : M W status_t :=
  if negb config then ret kStatus_FTFx_InvalidArgument else
  c <- deref (ftfxConfig config) ;;
  let size := totalSize (flashDesc c) in
  if (size =? 0) || (size =? 0xFFFFFFFF) then ret kStatus_FTFx_CommandNotSupported else
  on_hw (wr FDPROT protectStatus) ;;
  x <- on_hw (rd FDPROT) ;;
  ret (if negb (x =? protectStatus) then kStatus_FTFx_CommandFailure else kStatus_FTFx_Success).

Definition FLEXNVM_DflashGetProtection (config protectStatus : bool) : M W (status_t * option Z) :=
  if negb config || negb protectStatus then ret (kStatus_FTFx_InvalidArgument, None) else
  c <- deref (ftfxConfig config) ;;
  let size := totalSize (flashDesc c) in
  if (size =? 0) || (size =? 0xFFFFFFFF) then ret (kStatus_FTFx_CommandNotSupported, None) else
  x <- on_hw (rd FDPROT) ;;
  ret (kStatus_FTFx_Success, Some x).

Definition FLEXNVM_EepromSetProtection (config : bool) (protectStatus : Z) : M W status_t :=
  if negb config then ret kStatus_FTFx_InvalidArgument else
  c <- deref (ftfxConfig config) ;;
  if (eepromTotalSize c =? 0) || (eepromTotalSize c =? 0xFFFF) then ret kStatus_FTFx_CommandNotSupported else
  on_hw (wr FEPROT protectStatus) ;;
  x <- on_hw (rd FEPROT) ;;
  ret (if negb (x =? protectStatus) then kStatus_FTFx_CommandFailure else kStatus_FTFx_Success).

Definition FLEXNVM_EepromGetProtection (config protectStatus : bool) : M W (status_t * option Z) :=
  if negb config || negb protectStatus then ret (kStatus_FTFx_InvalidArgument, None) else
  c <- deref (ftfxConfig config) ;;
  if (eepromTotalSize c =? 0) || (eepromTotalSize c =? 0xFFFF) then ret (kStatus_FTFx_CommandNotSupported, None) else
  x <- on_hw (rd FEPROT) ;;
  ret (kStatus_FTFx_Success, Some x).

Definition FLEXNVM_GetProperty (config : bool) (whichProperty : Z) (value : bool) : M W (status_t * option Z) :=
  if negb config || negb value then ret (kStatus_FTFx_InvalidArgument, None) else
  c <- deref (ftfxConfig config) ;;
  let d := flashDesc c in
  let property :=
    if whichProperty =? kFLEXNVM_PropertyDflashSectorSize then Some (Ok (sectorSize d))
    else if whichProperty =? kFLEXNVM_PropertyDflashTotalSize then Some (Ok (totalSize d))
    else if whichProperty =? kFLEXNVM_PropertyDflashBlockSize then Some (udiv (totalSize d) (blockCount d))
    else if whichProperty =? kFLEXNVM_PropertyDflashBlockCount then Some (Ok (blockCount d))
    else if whichProperty =? kFLEXNVM_PropertyDflashBlockBaseAddr then Some (Ok (blockBase d))
    else if HAS_FLEX_NVM_ALIAS && (whichProperty =? kFLEXNVM_PropertyAliasDflashBlockBaseAddr)
    then Some (Ok (aliasBlockBase d))
    else if whichProperty =? kFLEXNVM_PropertyFlexRamBlockBaseAddr then Some (Ok (flexramBlockBase c))
    else if whichProperty =? kFLEXNVM_PropertyFlexRamTotalSize then Some (Ok (flexramTotalSize c))
    else if whichProperty =? kFLEXNVM_PropertyEepromTotalSize then Some (Ok (eepromTotalSize c))
    else None in
  match property with
  | Some o => v <- lift o ;; ret (kStatus_FTFx_Success, Some v)
  | None => ret (kStatus_FTFx_UnknownProperty, None)
  end.
End FlexNvm.
