(* ===== verification/FtfxEngine.v ===== *)
(** * The flash module and the command sequence

    What the manual says of the module: operands are storage, a launched
    command works on the flash array and ends with its verdict in FSTAT.
    [exec] is the effect of a command; [FtfxLaws] ties a device to it.
    [command_run] is the command sequence against those laws, and the rest of
    the file is what the loops over commands share. *)

From stdpp Require Import base list numbers tactics.
From Stdlib Require Import ZArith Lia.
From S2P Require Import Prelude Mmio Ftfx.

Open Scope Z_scope.
Open Scope prog_scope.

(** ** Commands and their effects *)

(** The three words of operands. *)
Definition command : Type := Z * Z * Z.
Definition word0 (c : command) : Z := c.1.1.
Definition word1 (c : command) : Z := c.1.2.
Definition word2 (c : command) : Z := c.2.
Definition opcode (c : command) : Z := word0 c / 2 ^ 24.
Definition address (c : command) : Z := word0 c mod 2 ^ 24.
(** The number of phrases of a section command. *)
Definition phrases (c : command) : Z := word1 c / 2 ^ 16.
Definition byte_of (w i : Z) : Z := w / 2 ^ (8 * i) mod 256.

(** What can be observed of the module: the flash array by command address,
    the acceleration RAM by processor address, the operands, the status at
    rest, the commands launched so far, and the other registers. *)
Record ftfx_view := FtfxView {
  v_flash : Z -> Z; v_ram : Z -> Z; v_cob : Z -> Z; v_flags : Z; v_log : list command; v_reg : ftfx_reg -> Z
}.
Definition operands (v : ftfx_view) : command := (v_cob v 0, v_cob v 1, v_cob v 2).
Definition with_flags (f : Z) (v : ftfx_view) : ftfx_view :=
  FtfxView (v_flash v) (v_ram v) (v_cob v) f (v_log v) (v_reg v).
Definition with_cob (i x : Z) (v : ftfx_view) : ftfx_view :=
  FtfxView (v_flash v) (v_ram v) (fun j => if decide (j = i) then x else v_cob v j) (v_flags v) (v_log v) (v_reg v).
Definition with_ram (a x : Z) (v : ftfx_view) : ftfx_view :=
  FtfxView (v_flash v) (fun b => if decide (b = a) then x else v_ram v b) (v_cob v) (v_flags v) (v_log v) (v_reg v).

Section Effects.
Context {F : FtfxFields} (sector phrase ram_base capacity : Z).

Definition failed (v : ftfx_view) : bool :=
  has (v_flags v) FTFx_FSTAT_ACCERR_MASK || has (v_flags v) FTFx_FSTAT_FPVIOL_MASK
  || has (v_flags v) FTFx_FSTAT_MGSTAT0_MASK.

(** Commands that do not change the flash array. *)
Definition leaves_flash (op : Z) : bool :=
  bool_decide (op ∈ [FTFx_VERIFY_SECTION; FTFx_PROGRAM_CHECK; FTFx_READ_RESOURCE; FTFx_VERIFY_ALL_BLOCK;
    FTFx_READ_ONCE; FTFx_PROGRAM_ONCE; FTFx_SECURITY_BY_PASS; FTFx_VERIFY_ALL_EXECUTE_ONLY_SEGMENT;
    FTFx_SET_FLEXRAM_FUNCTION]).

(** The bytes a command may change. *)
Definition targets (c : command) (x : Z) : bool :=
  let a := address c in
  if opcode c =? FTFx_ERASE_SECTOR then (a / sector * sector <=? x) && (x <? a / sector * sector + sector)
  else if opcode c =? FTFx_PROGRAM_LONGWORD then (a <=? x) && (x <? a + 4)
  else if opcode c =? FTFx_PROGRAM_PHRASE then (a <=? x) && (x <? a + 8)
  else if opcode c =? FTFx_PROGRAM_SECTION then (a <=? x) && (x <? a + phrase * phrases c)
  else negb (leaves_flash (opcode c)).

(** What a byte becomes: erased flash reads ones, and programming clears bits. *)
Definition becomes (c : command) (v : ftfx_view) (x : Z) : Z :=
  let i := x - address c in
  if opcode c =? FTFx_PROGRAM_LONGWORD then Z.land (v_flash v x) (byte_of (word1 c) i)
  else if opcode c =? FTFx_PROGRAM_PHRASE then
    Z.land (v_flash v x) (if i <? 4 then byte_of (word1 c) i else byte_of (word2 c) (i - 4))
  else if opcode c =? FTFx_PROGRAM_SECTION then Z.land (v_flash v x) (v_ram v (ram_base + i))
  else 255.

(** The commands whose result is described. *)
Definition has_result (op : Z) : bool :=
  bool_decide (op ∈ [FTFx_ERASE_SECTOR; FTFx_PROGRAM_LONGWORD; FTFx_PROGRAM_PHRASE; FTFx_PROGRAM_SECTION;
    FTFx_ERASE_ALL_BLOCK]).

(** What a successful check has established. *)
Definition checked (c : command) (v : ftfx_view) : Prop :=
  let a := address c in
  if opcode c =? FTFx_VERIFY_SECTION then forall x, a <= x < a + phrase * phrases c -> v_flash v x = 255
  else if opcode c =? FTFx_PROGRAM_CHECK then forall x, a <= x < a + 4 -> v_flash v x = byte_of (word2 c) (x - a)
  else True.

(** A command launched in [v] and finished in [v'].  The data of a refused or
    failed command may be anything, but only where the command works. *)
Record exec (v v' : ftfx_view) : Prop := {
  exec_log : v_log v' = v_log v ++ [operands v];
  exec_frame x : targets (operands v) x = false -> v_flash v' x = v_flash v x;
  exec_done x : failed v' = false -> has_result (opcode (operands v)) = true ->
    targets (operands v) x = true -> v_flash v' x = becomes (operands v) v x;
  exec_checked : failed v' = false -> checked (operands v) v;
  exec_ram : opcode (operands v) <> FTFx_SET_FLEXRAM_FUNCTION -> v_ram v' = v_ram v;
  exec_limit : opcode (operands v) = FTFx_ERASE_SECTOR -> capacity <= address (operands v) < 0x800000 -> failed v' = true
}.
End Effects.

(** ** The device *)

Section Laws.
Context {D : Type} `{!Device ftfx_reg D} {F : FtfxFields}.

Class FtfxLaws := {
  view : D -> ftfx_view;
  busy : D -> nat;      (** status reads until the running command has finished *)
  latency : nat;        (** no command takes longer *)
  sector : Z; phrase : Z; ram_base : Z;
  capacity : Z;         (** the program flash ends here in the command address space *)
  fstat_keeps d : view (reg_read FSTAT d).2 = view d;
  fstat_ticks d : busy (reg_read FSTAT d).2 = Nat.pred (busy d);
  fstat_done d : has (reg_read FSTAT d).1 FTFx_FSTAT_CCIF_MASK = (busy d =? 0)%nat;
  fstat_flags d m : busy d = O ->
    m ∈ [FTFx_FSTAT_ACCERR_MASK; FTFx_FSTAT_FPVIOL_MASK; FTFx_FSTAT_MGSTAT0_MASK] ->
    has (reg_read FSTAT d).1 m = has (v_flags (view d)) m;
  clear_flags d : busy d = O ->
    let d' := reg_write FSTAT (Z.lor (Z.lor FTFx_FSTAT_RDCOLERR_MASK FTFx_FSTAT_ACCERR_MASK) FTFx_FSTAT_FPVIOL_MASK) d in
    busy d' = O /\ exists f, view d' = with_flags f (view d);
  launch d : busy d = O ->
    let d' := reg_write FSTAT FTFx_FSTAT_CCIF_MASK d in
    (busy d' <= latency)%nat /\ exec sector phrase ram_base capacity (view d) (view d');
  write_cob d i x : busy d = O ->
    busy (reg_write (FCCOBx i) x d) = O /\ view (reg_write (FCCOBx i) x d) = with_cob i x (view d);
  write_ram d a x : busy d = O ->
    busy (reg_write (FlexRam 1 a) x d) = O /\ view (reg_write (FlexRam 1 a) x d) = with_ram a x (view d);
  read_plain d r : r <> FSTAT -> (reg_read r d).2 = d;
  read_cob d i : busy d = O -> (reg_read (FCCOBx i) d).1 = v_cob (view d) i;
  read_reg d r : r ∈ [FCNFG; FSEC; FPROTL; FPROTH; FPROTS; XACCL; XACCH; XACCSL; XACCSH] ->
    (reg_read r d).1 = v_reg (view d) r
}.
End Laws.

Section Sequence.
Context {D : Type} `{!Device ftfx_reg D} {F : FtfxFields} {X : FtfxFeatures} {L : FtfxLaws}.
Abbreviation W := (ftfx_world D).
Context (run_buffer : Z) (polls : nat).
Abbreviation exec := (exec sector phrase ram_base capacity).

Definition set_hw (d : D) (w : W) : W := FtfxWorld d (configs w) (s_ftfxRunCommand w) (f_mem w).
Abbreviation vw w := (view (f_hw w)).

(** The module is idle, [config] is the i-th configuration, and the code the
    commands are launched by is where the configuration says. *)
Record ready (i : nat) (c : ftfx_config) (w : W) : Prop := {
  ready_config : configs w !! i = Some c;
  ready_idle : busy (f_hw w) = O;
  ready_code : FTFx_DRIVER_IS_FLASH_RESIDENT = true ->
    commadAddr c = run_buffer /\ 0 <= run_buffer < 2 ^ 32 - 1 /\
    s_ftfxRunCommand w = s_ftfxRunCommandFunctionCode
}.

Lemma ready_hw i c w d : ready i c w -> busy d = O -> ready i c (set_hw d w).
Proof. intros [H1 H2 H3] Hd. by split. Qed.

Lemma set_hw_set_hw d d' w : set_hw d' (set_hw d w) = set_hw d' w.
Proof. done. Qed.

Lemma set_hw_id w : set_hw (f_hw w) w = w.
Proof. by destruct w. Qed.

Lemma wp_on_hw {A} (m : M D A) (Q : A -> W -> Prop) w :
  wp (on_hw m) Q w <-> wp m (fun a d => Q a (set_hw d w)) (f_hw w).
Proof. unfold wp, on_hw. by destruct (m (f_hw w)) as [[a d]|]. Qed.

Lemma wp_deref i c (Q : ftfx_config -> W -> Prop) w :
  configs w !! i = Some c -> wp (deref (Some i)) Q w <-> Q c w.
Proof. intros H. unfold wp, deref. by rewrite H. Qed.

Lemma wp_update i c f (Q : unit -> W -> Prop) w :
  configs w !! i = Some c ->
  wp (update (Some i) f) Q w <-> Q tt (FtfxWorld (f_hw w) (<[i := f c]> (configs w)) (s_ftfxRunCommand w) (f_mem w)).
Proof. intros H. unfold wp, update. by rewrite H. Qed.

(** Polling FSTAT until a command that takes [busy d] reads has finished. *)
Lemma poll_run n d (Q : unit -> D -> Prop) :
  (busy d < n)%nat -> (forall d', busy d' = O -> view d' = view d -> Q tt d') ->
  wp (poll_clear n FSTAT FTFx_FSTAT_CCIF_MASK) Q d.
Proof.
  revert d. induction n as [|n IH]; intros d Hn HQ; [lia|].
  unfold poll_clear. simpl. apply wp_bind, wp_bind. unfold wp at 1, rd. 
  assert (Hk := fstat_keeps d). assert (Ht := fstat_ticks d). assert (Hd := fstat_done d).
  destruct (reg_read FSTAT d) as [x d1]. simpl in *. apply wp_ret. rewrite Hd.
  destruct (Nat.eqb_spec (busy d) 0) as [E|E]; simpl.
  - apply wp_ret, HQ; [lia|done].
  - apply wp_bind, wp_ret. apply IH; [lia|]. intros d' H1 H2. apply HQ; [done|congruence].
Qed.

(** The command sequence: one command is executed with the operands that were
    written, and its verdict is the result. *)
Lemma check_error_bits_flags x f :
  (forall m, m ∈ [FTFx_FSTAT_ACCERR_MASK; FTFx_FSTAT_FPVIOL_MASK; FTFx_FSTAT_MGSTAT0_MASK] -> has x m = has f m) ->
  check_error_bits x = check_error_bits f.
Proof. intros H. unfold check_error_bits. rewrite !H by (rewrite !elem_of_cons; tauto). done. Qed.

Lemma run_command_wp d (Q : unit -> D -> Prop) :
  (latency < polls)%nat -> busy d = O ->
  (forall d', busy d' = O -> exec (view d) (view d') -> Q tt d') ->
  wp (flash_run_command polls) Q d.
Proof.
  intros Hp Hb HQ. unfold flash_run_command. apply wp_bind.
  destruct (launch d Hb) as [H1 H2]. unfold wp at 1, wr. cbv zeta in *.
  apply poll_run; [lia|]. intros d' Hd Hv. apply HQ; [done|]. by rewrite Hv.
Qed.

Lemma clear_flags_wp d (Q : unit -> D -> Prop) :
  busy d = O -> (forall d' f, busy d' = O -> view d' = with_flags f (view d) -> Q tt d') ->
  wp clear_error_flags Q d.
Proof.
  intros Hb HQ. destruct (clear_flags d Hb) as [H1 [f H2]]. unfold wp, clear_error_flags, wr.
  by apply (HQ _ f).
Qed.

Lemma read_status_wp d (Q : Z -> D -> Prop) :
  busy d = O ->
  (forall x d', busy d' = O -> view d' = view d -> check_error_bits x = check_error_bits (v_flags (view d)) -> Q x d') ->
  wp (rd FSTAT) Q d.
Proof.
  intros Hb HQ. unfold wp, rd.
  assert (Hk := fstat_keeps d). assert (Ht := fstat_ticks d). assert (Hf := fstat_flags d).
  destruct (reg_read FSTAT d) as [x d1]. simpl in *. apply HQ; [by rewrite Ht, Hb|done|].
  apply check_error_bits_flags. intros m Hm. by apply Hf.
Qed.

Lemma command_run i c w (Q : status_t -> W -> Prop) :
  (latency < polls)%nat -> ready i c w ->
  (forall d f, busy d = O -> exec (with_flags f (vw w)) (view d) ->
    Q (check_error_bits (v_flags (view d))) (set_hw d w)) ->
  wp (ftfx_command_sequence run_buffer polls (Some i)) Q w.
Proof.
  intros Hp [Hc Hb Hr] HQ. unfold ftfx_command_sequence.
  apply wp_bind, wp_on_hw, clear_flags_wp; [done|]. intros d1 f Hb1 Hv1.
  assert (K : forall d2, busy d2 = O -> exec (view d1) (view d2) ->
    wp (registerValue <- on_hw (rd FSTAT) ;; ret (check_error_bits registerValue)) Q (set_hw d2 w)).
  { intros d2 Hb2 Hv2. apply wp_bind, wp_on_hw, read_status_wp; [done|]. intros x d3 Hb3 Hv3 Hx. simpl in *.
    apply wp_ret. rewrite Hx, set_hw_set_hw. rewrite <- Hv3. apply (HQ d3 f); [done|]. rewrite Hv3, <- Hv1. done. }
  apply wp_bind. destruct FTFx_DRIVER_IS_FLASH_RESIDENT.
  - destruct (Hr eq_refl) as (Ha & Hrange & Hcode).
    unfold callFtfxRunCommand. apply wp_bind, (wp_update _ c); [done|]. simpl.
    set (w1 := FtfxWorld _ _ _ _).
    assert (Hi : (i < length (configs w))%nat) by by apply lookup_lt_Some in Hc.
    assert (H1 : configs w1 !! i = Some (set_commadAddr (u32 (commadAddr c + 1)) c)) by by apply list_lookup_insert_eq.
    apply wp_bind, (wp_deref _ _ _ _ H1). apply wp_bind, wp_gets.
    rewrite Ha, (wrap_small 32 (run_buffer + 1)) by (pow2; lia).
    assert (E : commadAddr (set_commadAddr (run_buffer + 1) c) = run_buffer + 1) by by destruct c.
    rewrite E, Z.eqb_refl. simpl. rewrite Hcode, bool_decide_eq_true_2 by done.
    apply wp_bind, wp_on_hw, run_command_wp; [done|done|]. intros d2 Hb2 Hv2.
    rewrite (wp_update i _ _ _ (set_hw d2 w1) H1). simpl. replace (FtfxWorld _ _ _ _) with (set_hw d2 w); [by apply K|].
    unfold set_hw. f_equal. rewrite list_insert_insert_eq. symmetry. apply list_insert_id. rewrite Hc. f_equal.
    rewrite Ha, (wrap_small 32 (run_buffer + 1)) by (pow2; lia). rewrite E.
    replace (run_buffer + 1 - 1) with run_buffer by lia. rewrite wrap_small by (pow2; lia).
    subst run_buffer. by destruct c.
  - apply wp_on_hw, run_command_wp; [done|done|]. exact K.
Qed.
End Sequence.

(** ** What the loops share *)

(** The packed operands. *)
Lemma BYTE2WORD_1_3_val op a : 0 <= op < 256 -> 0 <= a < 2 ^ 24 -> BYTE2WORD_1_3 op a = op * 2 ^ 24 + a.
Proof.
  intros Ho Ha. unfold BYTE2WORD_1_3, B1P4, B3P1.
  change 0xFF with (Z.ones 8). change 0xFFFFFF with (Z.ones 24). rewrite !land_ones_mod by lia.
  rewrite (Z.mod_small op), (Z.mod_small a) by lia. rewrite wrap_small.
  - by apply lor_pack_shiftl.
  - rewrite Z.shiftl_mul_pow2 by lia. pow2. change (2 ^ 24) with 16777216. lia.
Qed.

Lemma BYTE2WORD_2_2_high n x : 0 <= n < 2 ^ 16 -> BYTE2WORD_2_2 n x / 2 ^ 16 = n.
Proof.
  intros Hn. unfold BYTE2WORD_2_2, B2P3, B2P1.
  change 0xFFFF with (Z.ones 16). rewrite !land_ones_mod by lia. rewrite (Z.mod_small n) by lia.
  rewrite wrap_small by (rewrite Z.shiftl_mul_pow2 by lia; pow2; lia).
  rewrite lor_pack_shiftl by (try lia; apply Z.mod_pos_bound; lia).
  assert (0 <= x mod 2 ^ 16 < 2 ^ 16) by (apply Z.mod_pos_bound; lia). pow2. zlia.
Qed.

Lemma BYTE2WORD_2_1_1_high n x y : 0 <= n < 2 ^ 16 -> BYTE2WORD_2_1_1 n x y / 2 ^ 16 = n.
Proof.
  intros Hn. unfold BYTE2WORD_2_1_1, B2P3, B1P2, B1P1.
  change 0xFFFF with (Z.ones 16). change 0xFF with (Z.ones 8). rewrite !land_ones_mod by lia.
  rewrite (Z.mod_small n) by lia.
  assert (Hx : 0 <= x mod 2 ^ 8 < 2 ^ 8) by (apply Z.mod_pos_bound; lia).
  assert (Hy : 0 <= y mod 2 ^ 8 < 2 ^ 8) by (apply Z.mod_pos_bound; lia).
  rewrite (wrap_small 32 (Z.shiftl n 16)) by (rewrite Z.shiftl_mul_pow2 by lia; pow2; lia).
  rewrite (wrap_small 32 (Z.shiftl _ 8)) by (rewrite Z.shiftl_mul_pow2 by lia; pow2; lia).
  rewrite <- Z.lor_assoc, (lor_pack_shiftl (x mod 2 ^ 8)) by lia.
  rewrite lor_pack_shiftl by (pow2; lia). pow2. zlia.
Qed.

(** The verdict. *)
Definition command_error (s : status_t) : Prop :=
  s = kStatus_FTFx_AccessError \/ s = kStatus_FTFx_ProtectionViolation \/ s = kStatus_FTFx_CommandFailure.

Section Loops.
Context {D : Type} `{!Device ftfx_reg D} {F : FtfxFields} {X : FtfxFeatures} {L : FtfxLaws}.
Abbreviation W := (ftfx_world D).
Abbreviation exec := (exec sector phrase ram_base capacity).

Lemma verdict v :
  (check_error_bits (v_flags v) = kStatus_FTFx_Success /\ failed v = false)
  \/ (command_error (check_error_bits (v_flags v)) /\ failed v = true).
Proof.
  unfold check_error_bits, failed, command_error.
  destruct (has _ FTFx_FSTAT_ACCERR_MASK); [right; split; [by left|done]|].
  destruct (has _ FTFx_FSTAT_FPVIOL_MASK); [right; split; [by right; left|done]|].
  destruct (has _ FTFx_FSTAT_MGSTAT0_MASK); [right; split; [by right; right|done]|by left].
Qed.

Lemma or_return_success (m : M W status_t) : or_return kStatus_FTFx_Success m = m.
Proof. done. Qed.

Lemma or_return_error s (m : M W status_t) : s <> kStatus_FTFx_Success -> or_return s m = ret s.
Proof. intros Hs. unfold or_return. by rewrite (proj2 (Z.eqb_neq _ _) Hs). Qed.

Lemma command_error_not_success s : command_error s -> s <> kStatus_FTFx_Success.
Proof. by intros [->|[->| ->]]. Qed.

(** Operands are written to an idle module. *)
Lemma fccob_run w k x (Q : unit -> W -> Prop) :
  busy (f_hw w) = O ->
  (forall d, busy d = O -> view d = with_cob k x (view (f_hw w)) -> Q tt (set_hw d w)) ->
  wp (fccob k x) Q w.
Proof.
  intros Hb HQ. unfold fccob. rewrite wp_on_hw. unfold wp, wr.
  destruct (write_cob (f_hw w) k x Hb). by apply HQ.
Qed.

(** The work of commands on the bytes from [lo] to [hi]: nothing else changes;
    success means that each of them has become [value]. *)
Record works (lo hi : Z) (value : Z -> Z) (s : status_t) (v v' : ftfx_view) : Prop := {
  works_frame x : ~ (lo <= x < hi) -> v_flash v' x = v_flash v x;
  works_done x : s = kStatus_FTFx_Success -> lo <= x < hi -> v_flash v' x = value x;
  works_status : s = kStatus_FTFx_Success \/ command_error s
}.

Lemma works_trans lo mid hi value s v1 v2 v3 :
  lo <= mid <= hi ->
  works lo mid value kStatus_FTFx_Success v1 v2 -> works mid hi value s v2 v3 -> works lo hi value s v1 v3.
Proof.
  intros Hm [F1 D1 S1] [F2 D2 S2]. split; [| |done].
  - intros x Hx. rewrite F2, F1 by lia. done.
  - intros x Hs Hx. destruct (Z.lt_ge_cases x mid) as [Hlt|Hge].
    + rewrite F2 by lia. apply D1; [done|lia].
    + apply D2; [done|lia].
Qed.

Lemma works_fail lo hi hi' value value' s v v' :
  hi <= hi' -> command_error s -> works lo hi value s v v' -> works lo hi' value' s v v'.
Proof.
  intros Hh Hs [F1 D1 S1]. split; [|by intros x E; apply command_error_not_success in Hs|done].
  intros x Hx. apply F1. lia.
Qed.

Lemma works_nothing lo value s v : s = kStatus_FTFx_Success -> works lo lo value s v v.
Proof. intros Hs. split; [done|lia|by left]. Qed.

(** One command whose targets are exactly the bytes from [lo] to [hi]. *)
Lemma works_command lo hi value f v v' :
  has_result (opcode (operands v)) = true ->
  (forall x, targets sector phrase (operands v) x = true <-> lo <= x < hi) ->
  (forall x, lo <= x < hi -> becomes ram_base (operands v) v x = value x) ->
  exec (with_flags f v) v' -> works lo hi value (check_error_bits (v_flags v')) v v'.
Proof.
  intros Hr Ht Hv [Elog Eframe Edone _ _ _]. split.
  - intros x Hx. apply (Eframe x). change (operands (with_flags f v)) with (operands v).
    apply not_true_is_false. by rewrite Ht.
  - intros x Hs Hx. destruct (verdict v') as [[_ Hf]|[He _]]; [|by apply command_error_not_success in He].
    rewrite Edone; [by apply Hv|done|done|by apply Ht].
  - destruct (verdict v') as [[? _]|[? _]]; [by left|by right].
Qed.
End Loops.
