(* ===== verification/FtfxLoops.v ===== *)
(** * Loops of commands

    Each operation on a range of the flash is a loop of commands over the
    pieces of the range.  For each loop: which commands it launches, in which
    order, and what they do to the flash together. *)

From stdpp Require Import base list numbers tactics.
From Stdlib Require Import ZArith Lia.
From S2P Require Import Prelude Mmio Ftfx FtfxEngine.

Open Scope Z_scope.
Open Scope prog_scope.

(** A command by what it does and where. *)
Definition heading (c : command) : Z * Z := (opcode c, address c).

(** The addresses [a], [a + step], ... *)
Fixpoint headings (op a step : Z) (m : nat) : list (Z * Z) :=
  match m with O => [] | S m => (op, a) :: headings op (a + step) step m end.

(** The commands [l] are the first ones of [expected], all of them on success. *)
Definition launches (expected : list (Z * Z)) (s : status_t) (l : list command) : Prop :=
  map heading l `prefix_of` expected /\ (s = kStatus_FTFx_Success -> map heading l = expected).

Lemma launches_nil s : launches [] s [].
Proof. split; [apply prefix_nil|done]. Qed.

Lemma launches_cons h e s c l : heading c = h -> launches e s l -> launches (h :: e) s (c :: l).
Proof.
  intros Hc [H1 H2]. split; simpl; rewrite Hc; [by apply prefix_cons|]. intros Hs. by rewrite H2.
Qed.

Lemma launches_one h e s c : heading c = h -> s <> kStatus_FTFx_Success -> launches (h :: e) s [c].
Proof. intros Hc Hs. split; [simpl; rewrite Hc; apply prefix_cons, prefix_nil|done]. Qed.

Lemma heading_1_3 op a x y : 0 <= op < 256 -> 0 <= a < 2 ^ 24 -> heading (BYTE2WORD_1_3 op a, x, y) = (op, a).
Proof.
  intros Ho Ha. unfold heading, opcode, address, word0. simpl. rewrite BYTE2WORD_1_3_val by done.
  f_equal; [rewrite Z.div_add_l by lia; rewrite Z.div_small by lia; lia|].
  rewrite Z.add_comm, Z.mod_add by lia. by apply Z.mod_small.
Qed.

(** The data of a call are bytes. *)
Definition bytes (mem : Z -> Z) : Prop := forall a, 0 <= mem a < 256.

Lemma byte_of_sum b0 b1 b2 b3 i :
  0 <= b0 < 256 -> 0 <= b1 < 256 -> 0 <= b2 < 256 -> 0 <= b3 < 256 -> 0 <= i < 4 ->
  byte_of (b0 + 256 * b1 + 65536 * b2 + 16777216 * b3) i =
    if i =? 0 then b0 else if i =? 1 then b1 else if i =? 2 then b2 else b3.
Proof.
  intros H0 H1 H2 H3 Hi. unfold byte_of.
  assert (C : i = 0 \/ i = 1 \/ i = 2 \/ i = 3) by lia.
  destruct C as [->|[->|[->| ->]]]; simpl Z.mul; cbn [Z.eqb Pos.eqb];
    [change (2 ^ 0) with 1|change (2 ^ 8) with 256|change (2 ^ 16) with 65536|change (2 ^ 24) with 16777216]; zlia.
Qed.

Section Loops.
Context {D : Type} `{!Device ftfx_reg D} {F : FtfxFields} {X : FtfxFeatures} {L : FtfxLaws}.
Abbreviation W := (ftfx_world D).
Abbreviation vw w := (view (f_hw w)).
Context (run_buffer : Z) (polls : nat) (Hpolls : (latency < polls)%nat).
Abbreviation ready := (ready run_buffer).

(** One command with the operands the module holds, whose targets are the
    bytes from [lo] to [hi]; [v0] is the view before the operands were written. *)
Lemma issue_run lo hi value i c w v0 (Q : status_t -> W -> Prop) :
  ready i c w -> v_flash (vw w) = v_flash v0 -> v_log (vw w) = v_log v0 ->
  has_result (opcode (operands (vw w))) = true ->
  (forall x, targets sector phrase (operands (vw w)) x = true <-> lo <= x < hi) ->
  (forall x, lo <= x < hi -> becomes ram_base (operands (vw w)) (vw w) x = value x) ->
  (forall d s, busy d = O -> works lo hi value s v0 (view d) ->
    v_log (view d) = v_log v0 ++ [operands (vw w)] -> s = kStatus_FTFx_Success \/ command_error s ->
    (opcode (operands (vw w)) = FTFx_ERASE_SECTOR -> capacity <= address (operands (vw w)) < 0x800000 ->
      command_error s) -> Q s (set_hw d w)) ->
  wp (ftfx_command_sequence run_buffer polls (Some i)) Q w.
Proof.
  intros Hr Hf Hl C1 C2 C3 HQ. apply (command_run _ _ _ c); [done|done|]. intros d f Hb He.
  assert (Hw := works_command _ _ value f _ _ C1 C2 C3 He). apply HQ; [done| | | |].
  - destruct Hw as [W1 W2 W3]. split; [|done|done]. intros x Hx. rewrite <- Hf. by apply W1.
  - rewrite (exec_log _ _ _ _ _ _ He), <- Hl. done.
  - by destruct Hw.
  - intros Ho Ha. assert (Hbad := exec_limit _ _ _ _ _ _ He Ho Ha). destruct (verdict (view d)) as [[_ E]|[? _]]; [congruence|done].
Qed.

(** A step of a loop: the commands launched so far, then one more. *)
Lemma log_step (l0 : list command) c l l' l'' : l' = l0 ++ [c] -> l'' = l' ++ l -> l'' = l0 ++ c :: l.
Proof. intros -> ->. by rewrite <- app_assoc. Qed.

(** *** Erasing *)

Lemma erase_command a x y :
  0 < sector -> 0 <= a < 2 ^ 24 ->
  let c := (BYTE2WORD_1_3 FTFx_ERASE_SECTOR a, x, y) in
  has_result (opcode c) = true /\
  (forall b, targets sector phrase c b = true <-> a / sector * sector <= b < (a / sector + 1) * sector) /\
  (forall v b, becomes ram_base c v b = 255).
Proof.
  intros Hs Ha c. assert (H := heading_1_3 FTFx_ERASE_SECTOR a x y ltac:(unfold FTFx_ERASE_SECTOR; lia) Ha).
  fold c in H. injection H as Ho Had. unfold targets, becomes. rewrite Ho, Had.
  split; [done|]. split; [|done]. intros b. simpl. rewrite andb_true_iff, Z.leb_le, Z.ltb_lt. lia.
Qed.

(** One sector. *)
Lemma erase_pass_run {A} i c w es (k : status_t -> M W A) (Q : A -> W -> Prop) :
  ready i c w -> 0 < sector -> 0 <= es < 2 ^ 24 ->
  (forall d s cmd, busy d = O ->
    works (es / sector * sector) ((es / sector + 1) * sector) (fun _ => 255) s (vw w) (view d) ->
    v_log (view d) = v_log (vw w) ++ [cmd] -> heading cmd = (FTFx_ERASE_SECTOR, es) ->
    s = kStatus_FTFx_Success \/ command_error s -> (capacity <= es < 0x800000 -> command_error s) ->
    wp (k s) Q (set_hw d w)) ->
  wp (fccob 0 (BYTE2WORD_1_3 FTFx_ERASE_SECTOR es) ;;
      returnCode <- ftfx_command_sequence run_buffer polls (Some i) ;; k returnCode) Q w.
Proof.
  intros Hr Hs Ha HQ. rewrite wp_bind. apply fccob_run; [by destruct Hr|]. intros d1 Hb1 Hv1. rewrite wp_bind.
  assert (Ho : operands (view d1) = (BYTE2WORD_1_3 FTFx_ERASE_SECTOR es, v_cob (vw w) 1, v_cob (vw w) 2))
    by by rewrite Hv1.
  destruct (erase_command es (v_cob (vw w) 1) (v_cob (vw w) 2) ltac:(lia) Ha) as (C1 & C2 & C3).
  rewrite <- Ho in C1, C2, C3.
  assert (Hh : heading (operands (view d1)) = (FTFx_ERASE_SECTOR, es))
    by (rewrite Ho; apply heading_1_3; [unfold FTFx_ERASE_SECTOR; lia|done]).
  apply (issue_run (es / sector * sector) ((es / sector + 1) * sector) (fun _ => 255) _ c _ (vw w));
    [by apply ready_hw|cbn [f_hw set_hw]; by rewrite Hv1|cbn [f_hw set_hw]; by rewrite Hv1|done|done|by intros; apply C3|].
  intros d2 s Hb2 Hw Hl Hs2 Hlim. rewrite set_hw_set_hw. apply (HQ _ _ _ Hb2 Hw Hl Hh Hs2).
  cbn [f_hw set_hw] in Hlim. injection Hh as Hop Had. rewrite Hop, Had in Hlim. by apply Hlim.
Qed.

Lemma erase_loop_run (m n i : nat) c w es (Q : status_t -> W -> Prop) :
  (m < n)%nat -> ready i c w -> 0 < sector <= 2 ^ 24 -> 0 <= es ->
  (es / sector + Z.of_nat m) * sector <= 2 ^ 24 ->
  (forall s d l, busy d = O ->
    works (es / sector * sector) ((es / sector + Z.of_nat m) * sector) (fun _ => 255) s (vw w) (view d) ->
    v_log (view d) = v_log (vw w) ++ l ->
    launches (headings FTFx_ERASE_SECTOR es sector m) s l -> Q s (set_hw d w)) ->
  wp (erase_loop run_buffer polls n (Some i) sector ((es / sector + Z.of_nat m) * sector - 1) es kStatus_FTFx_Success) Q w.
Proof.
  revert n w es Q. induction m as [|m IH]; intros n w es Q Hn Hr Hs Hes Hend HQ; (destruct n as [|n]; [lia|]);
    cbn [erase_loop].
  - rewrite (proj2 (Z.leb_gt _ _)) by zlia. apply wp_ret. rewrite <- (set_hw_id w).
    apply (HQ _ _ []); [by destruct Hr|rewrite Z.add_0_r; by apply works_nothing|by rewrite app_nil_r|].
    apply launches_nil.
  - assert (Ha : 0 <= es < 2 ^ 24) by zlia. rewrite (proj2 (Z.leb_le _ _)) by zlia.
    apply (erase_pass_run i c); [done|lia|done|]. intros d2 s cmd Hb2 Hw Hl Hh [->|Herr] _.
    + simpl. rewrite (wrap_small 32) by (pow2; zlia).
      assert (E : (es + sector) / sector = es / sector + 1)
        by (replace (es + sector) with (es + 1 * sector) by lia; apply Z.div_add; lia).
      replace (es / sector + Z.of_nat (S m)) with ((es + sector) / sector + Z.of_nat m) by lia.
      apply IH; [lia|by apply ready_hw|lia|lia|lia|].
      intros s d3 l Hb3 Hw3 Hl3 Hp. apply (HQ s d3 (cmd :: l)); [done| | |].
      * replace (es / sector + Z.of_nat (S m)) with ((es + sector) / sector + Z.of_nat m) by lia.
        apply (works_trans _ ((es / sector + 1) * sector) _ _ _ _ (view d2)); [nia|done|]. by rewrite <- E.
      * exact (log_step _ _ _ _ _ Hl Hl3).
      * by apply launches_cons.
    + rewrite (proj2 (Z.eqb_neq _ _) (command_error_not_success _ Herr)). simpl. apply wp_ret.
      apply (HQ _ d2 [cmd]); [done| |done|].
      * apply (works_fail _ ((es / sector + 1) * sector) _ (fun _ => 255)); [nia|done|done].
      * apply launches_one; [done|by apply command_error_not_success].
Qed.

(** *** Programming *)

(** Both ways of reading a word of the data give its bytes in order. *)
Lemma read_word_run src w (Q : Z -> W -> Prop) :
  bytes (f_mem w) ->
  (forall word, (forall i, 0 <= i < 4 -> byte_of word i = f_mem w (src + i)) -> Q word w) ->
  wp (ftfx_read_word_from_byte_address src) Q w.
Proof.
  clear Hpolls. intros Hm HQ. set (b i := f_mem w (src + i)).
  assert (E : forall i, 0 <= i < 4 -> byte_of (b 0 + 256 * b 1 + 65536 * b 2 + 16777216 * b 3) i = b i).
  { intros i Hi. rewrite byte_of_sum by (try apply Hm; lia).
    assert (C : i = 0 \/ i = 1 \/ i = 2 \/ i = 3) by lia. by destruct C as [->|[->|[->| ->]]]. }
  unfold ftfx_read_word_from_byte_address. destruct (_ =? 0).
  - unfold load32. rewrite wp_gets. apply HQ. intros i Hi. change (f_mem w (src + i)) with (b i). rewrite <- (E i Hi). unfold b. by rewrite Z.add_0_r.
  - cbn [read_bytes]. unfold load8. do 4 (rewrite wp_bind, wp_gets; cbv beta). rewrite wp_ret. apply HQ. intros i Hi. change (f_mem w (src + i)) with (b i). rewrite <- (E i Hi).
    f_equal. unfold b. rewrite Z.add_0_r.
    replace (src + 1 + 1) with (src + 2) by lia. replace (src + 2 + 1) with (src + 3) by lia.
    assert (H0 := Hm src). assert (H1 := Hm (src + 1)). assert (H2 := Hm (src + 2)). assert (H3 := Hm (src + 3)).
    assert (P : forall x y k, 0 <= k -> 0 <= x < 2 ^ k -> 0 <= y < 256 -> 2 ^ k * 256 <= 2 ^ 32 ->
      Z.lor x (u32 (Z.shiftl y k)) = x + y * 2 ^ k).
    { intros x y k Hk Hx Hy Hk2. assert (0 < 2 ^ k) by (apply Z.pow_pos_nonneg; lia).
      rewrite wrap_small by (rewrite Z.shiftl_mul_pow2 by lia; nia).
      rewrite Z.lor_comm, lor_pack_shiftl by lia. lia. }
    simpl Z.mul. rewrite (P 0) by (try (pow2; lia); lia). change (2 ^ 0) with 1.
    rewrite (P _ _ 8), (P _ _ 16), (P _ _ 24) by (change (2 ^ 8) with 256; change (2 ^ 16) with 65536; change (2 ^ 24) with 16777216; change (2 ^ 32) with 4294967296; lia).
    change (2 ^ 8) with 256; change (2 ^ 16) with 65536; change (2 ^ 24) with 16777216. lia.
Qed.

Definition program_op (u : Z) : Z := if u =? 4 then FTFx_PROGRAM_LONGWORD else FTFx_PROGRAM_PHRASE.

Lemma program_command u a w1 w2 mem src :
  u = 4 \/ u = 8 -> 0 <= a < 2 ^ 24 ->
  (forall i, 0 <= i < 4 -> byte_of w1 i = mem (src + i)) ->
  (u = 8 -> forall i, 0 <= i < 4 -> byte_of w2 i = mem (src + 4 + i)) ->
  let c := (BYTE2WORD_1_3 (program_op u) a, w1, w2) in
  has_result (opcode c) = true /\
  (forall x, targets sector phrase c x = true <-> a <= x < a + u) /\
  (forall v x, a <= x < a + u -> becomes ram_base c v x = Z.land (v_flash v x) (mem (src + (x - a)))).
Proof.
  intros Hu Ha H1 H2 c.
  assert (H := heading_1_3 (program_op u) a w1 w2 ltac:(by destruct Hu as [->| ->]) Ha).
  fold c in H. injection H as Ho Had. unfold targets, becomes. rewrite Ho, Had.
  destruct Hu as [->| ->]; simpl; (split; [done|]); (split; [intros x; by rewrite andb_true_iff, Z.leb_le, Z.ltb_lt|]);
    intros v x Hx; change (word1 c) with w1; change (word2 c) with w2.
  - by rewrite H1 by lia.
  - destruct (Z.ltb_spec (x - a) 4); [by rewrite H1 by lia|].
    rewrite H2 by (try done; lia). do 2 f_equal. lia.
Qed.

(** The command for one unit, with its operands in place. *)
Lemma program_issue u i c value w d w1 w2 pa src (Q : status_t -> W -> Prop) :
  u = 4 \/ u = 8 -> ready i c w -> 0 <= pa < 2 ^ 24 -> busy d = O ->
  v_flash (view d) = v_flash (vw w) -> v_log (view d) = v_log (vw w) ->
  operands (view d) = (BYTE2WORD_1_3 (program_op u) pa, w1, w2) ->
  (forall j, 0 <= j < 4 -> byte_of w1 j = f_mem w (src + j)) ->
  (u = 8 -> forall j, 0 <= j < 4 -> byte_of w2 j = f_mem w (src + 4 + j)) ->
  (forall x, pa <= x < pa + u -> Z.land (v_flash (vw w) x) (f_mem w (src + (x - pa))) = value x) ->
  (forall d' s, busy d' = O -> works pa (pa + u) value s (vw w) (view d') ->
    v_log (view d') = v_log (vw w) ++ [operands (view d)] -> heading (operands (view d)) = (program_op u, pa) ->
    s = kStatus_FTFx_Success \/ command_error s -> Q s (set_hw d' w)) ->
  wp (ftfx_command_sequence run_buffer polls (Some i)) Q (set_hw d w).
Proof.
  intros Hu Hr Ha Hb Hf Hl Ho Hw1 Hw2 Hv HQ.
  destruct (program_command u pa w1 w2 (f_mem w) src Hu Ha Hw1 Hw2) as (C1 & C2 & C3). rewrite <- Ho in C1, C2, C3.
  apply (issue_run pa (pa + u) value _ c _ (vw w)); [by apply ready_hw|done|done|done|done| |].
  - intros x Hx. rewrite C3 by done. cbn [f_hw set_hw]. rewrite Hf. by apply Hv.
  - intros d' s Hb' Hw' Hl' Hs' _. rewrite set_hw_set_hw. apply HQ; [done|done|done| |done].
    rewrite Ho. apply heading_1_3; [by destruct Hu as [->| ->]|done].
Qed.

Lemma program_loop_run u (m n i : nat) c value w pa src (Q : status_t -> W -> Prop) :
  u = 4 \/ u = 8 -> (m < n)%nat -> ready i c w -> bytes (f_mem w) -> 0 <= pa -> pa + u * Z.of_nat m <= 2 ^ 24 ->
  (forall x, pa <= x < pa + u * Z.of_nat m -> Z.land (v_flash (vw w) x) (f_mem w (src + (x - pa))) = value x) ->
  (forall s d l, busy d = O -> works pa (pa + u * Z.of_nat m) value s (vw w) (view d) ->
    v_log (view d) = v_log (vw w) ++ l -> launches (headings (program_op u) pa u m) s l -> Q s (set_hw d w)) ->
  wp (program_loop run_buffer polls n (Some i) u pa src (u * Z.of_nat m) kStatus_FTFx_Success) Q w.
Proof.
  intros Hu. revert n w pa src Q.
  induction m as [|m IH]; intros n w pa src Q Hn Hr Hm Hpa Hend Hv HQ; (destruct n as [|n]; [lia|]);
    cbn [program_loop].
  - rewrite (proj2 (Z.ltb_ge _ _)) by lia. apply wp_ret. rewrite <- (set_hw_id w).
    apply (HQ _ _ []); [by destruct Hr| |by rewrite app_nil_r|apply launches_nil].
    replace (pa + u * Z.of_nat 0) with pa by lia. by apply works_nothing.
  - rewrite (proj2 (Z.ltb_lt _ _)) by lia. rewrite wp_bind. apply read_word_run; [done|]. intros w1 Hw1.
    rewrite wp_bind. apply fccob_run; [by destruct Hr|]. intros d1 Hb1 Hv1.
    replace (negb (u =? 4) && negb (u =? 8)) with false by (by destruct Hu as [->| ->]).
    rewrite wp_bind.
    assert (K : forall d2 w2, busy d2 = O ->
      view d2 = with_cob 0 (BYTE2WORD_1_3 (program_op u) pa) (if u =? 4 then view d1 else with_cob 2 w2 (view d1)) ->
      (u = 8 -> forall j, 0 <= j < 4 -> byte_of w2 j = f_mem w (src + 4 + j)) ->
      wp (ftfx_command_sequence run_buffer polls (Some i))
        (fun s => wp (if negb (s =? kStatus_FTFx_Success) then ret s
          else program_loop run_buffer polls n (Some i) u (u32 (pa + u)) (src + u)
                 (u32 (u * Z.of_nat (S m) - u)) s) Q) (set_hw d2 w)).
    { intros d2 w2 Hb2 Hv2 Hw2.
      apply (program_issue u i c value w d2 w1 (if u =? 4 then v_cob (vw w) 2 else w2) pa src); [done|done|lia|done|..];
        [rewrite Hv2; destruct (u =? 4); simpl; by rewrite Hv1|rewrite Hv2; destruct (u =? 4); simpl; by rewrite Hv1
        |rewrite Hv2; destruct (u =? 4); unfold operands; simpl; by rewrite Hv1|done|by intros ->; apply Hw2
        |intros x Hx; apply Hv; lia|].
      intros d3 s Hb3 Hw3 Hl3 Hh [->|Herr].
      + simpl. rewrite (wrap_small 32) by (pow2; lia).
        replace (u * Z.of_nat (S m) - u) with (u * Z.of_nat m) by lia. rewrite (wrap_small 32) by (pow2; lia).
        apply IH; [lia|by apply ready_hw|done|lia|lia| |].
        * intros x Hx. cbn [f_hw set_hw f_mem]. rewrite (works_frame _ _ _ _ _ _ Hw3) by lia.
          rewrite <- (Hv x) by lia. do 2 f_equal. lia.
        * intros s d4 l Hb4 Hw4 Hl4 Hp. apply (HQ s d4 (operands (view d2) :: l));
            [done| |exact (log_step _ _ _ _ _ Hl3 Hl4)|by apply launches_cons].
          replace (pa + u * Z.of_nat (S m)) with (pa + u + u * Z.of_nat m) by lia.
          by apply (works_trans _ (pa + u) _ _ _ _ (view d3)); [lia|done|].
      + rewrite (proj2 (Z.eqb_neq _ _) (command_error_not_success _ Herr)). simpl. apply wp_ret.
        apply (HQ _ d3 [operands (view d2)]); [done| |done|].
        * apply (works_fail _ (pa + u) _ value); [lia|done|done].
        * apply launches_one; [done|by apply command_error_not_success]. }
    destruct Hu as [-> | ->]; cbn [Z.eqb Pos.eqb].
    + apply fccob_run; [done|]. intros d2 Hb2 Hv2. rewrite set_hw_set_hw, wp_bind.
      apply (K d2 0); [done|done|done].
    + rewrite wp_bind. apply read_word_run; [done|]. intros w2 Hw2.
      rewrite wp_bind. apply fccob_run; [done|]. intros d2 Hb2 Hv2. rewrite set_hw_set_hw.
      apply fccob_run; [done|]. intros d3 Hb3 Hv3. rewrite set_hw_set_hw, wp_bind.
      apply (K d3 w2); [done| |]; cbn [f_hw set_hw] in *; [by rewrite Hv3, Hv2|]. intros _. exact Hw2.
Qed.
End Loops.
