(* ===== verification/FtfxSection.v ===== *)
(** * Programming by sections

    [FTFx_CMD_ProgramSection] cuts a range at the sector boundaries and each
    part at the size of the acceleration RAM, copies the data of a piece there
    and launches one command for it. *)

From stdpp Require Import base list numbers tactics.
From Stdlib Require Import ZArith Lia.
From S2P Require Import Prelude Mmio Ftfx FtfxEngine FtfxLoops.

Open Scope Z_scope.
Open Scope prog_scope.

(** *** Alignment *)

Lemma bic_low x k : 0 <= x < 2 ^ 32 -> 0 <= k <= 32 -> bic32 x (u32 (2 ^ k - 1)) = x / 2 ^ k * 2 ^ k.
Proof.
  intros Hx Hk. unfold bic.
  assert (Hp : 0 < 2 ^ k) by (apply Z.pow_pos_nonneg; lia).
  assert (Hle : 2 ^ k <= 2 ^ 32) by (apply Z.pow_le_mono_r; lia).
  rewrite (wrap_small 32 (2 ^ k - 1)) by lia.
  replace (2 ^ k - 1) with (Z.ones k) by (rewrite Z.ones_equiv; lia).
  rewrite <- Z.shiftr_div_pow2, <- Z.shiftl_mul_pow2 by lia. rewrite <- Z.ldiff_ones_r by lia.
  apply Z.bits_inj'. intros i Hi. rewrite Z.land_spec, Z.ldiff_spec.
  destruct (Z.lt_ge_cases i 32) as [Hlt|Hge].
  - rewrite wrap_testbit, Z.lnot_spec by lia. done.
  - by rewrite (testbit_above x 32) by lia.
Qed.

Lemma ALIGN_UP_val x k :
  0 <= x -> 0 <= k <= 32 -> x + 2 ^ k <= 2 ^ 32 -> 0 < x + 2 ^ k < 2 ^ 32 ->
  ALIGN_UP x (2 ^ k) = (x + 2 ^ k - 1) / 2 ^ k * 2 ^ k.
Proof.
  intros Hx Hk Hle Hlt. unfold ALIGN_UP, ALIGN_DOWN.
  assert (Hp : 0 < 2 ^ k) by (apply Z.pow_pos_nonneg; lia).
  rewrite (wrap_small 32 (x + 2 ^ k)), (wrap_small 32 (x + 2 ^ k - 1)) by lia. apply bic_low; lia.
Qed.

(** The boundary after an address, as the code computes it. *)
Lemma next_boundary x k :
  0 <= x -> 0 <= k <= 30 -> x + 2 ^ k + 2 ^ k < 2 ^ 32 ->
  (if ALIGN_UP x (2 ^ k) =? x then u32 (ALIGN_UP x (2 ^ k) + 2 ^ k) else ALIGN_UP x (2 ^ k))
    = (x / 2 ^ k + 1) * 2 ^ k.
Proof.
  intros Hx Hk Hlt. assert (Hp : 0 < 2 ^ k) by (apply Z.pow_pos_nonneg; lia).
  rewrite ALIGN_UP_val by lia. set (s := 2 ^ k) in *.
  assert (Hd := Z.div_mod x s ltac:(lia)). assert (Hm := Z.mod_pos_bound x s Hp).
  destruct (Z.eq_dec (x mod s) 0) as [E|E].
  - assert (Eq : (x + s - 1) / s = x / s) by (symmetry; apply (Z.div_unique _ _ _ (s - 1)); lia).
    rewrite Eq. rewrite (proj2 (Z.eqb_eq _ _)) by lia. rewrite wrap_small by (pow2; lia). lia.
  - assert (Eq : (x + s - 1) / s = x / s + 1) by (symmetry; apply (Z.div_unique _ _ _ (x mod s - 1)); lia).
    rewrite Eq. by rewrite (proj2 (Z.eqb_neq _ _)) by lia.
Qed.

Section Section_.
Context {D : Type} `{!Device ftfx_reg D} {F : FtfxFields} {X : FtfxFeatures} {L : FtfxLaws}.
Abbreviation W := (ftfx_world D).
Abbreviation vw w := (view (f_hw w)).
Context (run_buffer : Z) (polls : nat) (Hpolls : (latency < polls)%nat).
Abbreviation ready := (ready run_buffer).

(** Copying into the acceleration RAM. *)
Lemma memcpy_run n dst src w (Q : unit -> W -> Prop) :
  busy (f_hw w) = O ->
  (forall d, busy d = O -> v_flash (view d) = v_flash (vw w) -> v_log (view d) = v_log (vw w) ->
    (forall b, v_ram (view d) b =
      if (dst <=? b) && (b <? dst + Z.of_nat n) then f_mem w (src + (b - dst)) else v_ram (vw w) b) ->
    Q tt (set_hw d w)) ->
  wp (memcpy_to_flexram n dst src) Q w.
Proof.
  revert dst src w Q. induction n as [|n IH]; intros dst src w Q Hb HQ; simpl.
  - apply wp_ret. rewrite <- (set_hw_id w). apply HQ; [done|done|done|]. intros b.
    destruct (Z.leb_spec dst b), (Z.ltb_spec b (dst + Z.of_nat 0)); simpl; try done; lia.
  - unfold load8. rewrite wp_bind, wp_gets. rewrite wp_bind, wp_on_hw. unfold wp at 1, wr.
    destruct (write_ram (f_hw w) dst (f_mem w src) Hb) as [Hb1 Hv1].
    apply IH; [done|]. intros d Hbd Hf Hl Hr. rewrite set_hw_set_hw. cbn [f_hw set_hw f_mem] in *.
    apply HQ; [done|by rewrite Hf, Hv1|by rewrite Hl, Hv1|]. intros b. rewrite Hr, Hv1. simpl.
    destruct (decide (b = dst)) as [->|Hne].
    + rewrite (proj2 (Z.leb_gt _ _)), (proj2 (Z.leb_le _ _)) by lia. simpl.
      destruct (Z.ltb_spec dst (dst + Z.of_nat (S n))); [f_equal; lia|lia].
    + destruct (Z.leb_spec (dst + 1) b), (Z.leb_spec dst b), (Z.ltb_spec b (dst + 1 + Z.of_nat n)),
        (Z.ltb_spec b (dst + Z.of_nat (S n))); simpl; try done; try lia. f_equal. lia.
Qed.

(** A section command of the size of the acceleration RAM at most that stays
    in one sector. *)
Definition within_sector (c : command) : Prop :=
  opcode c = FTFx_PROGRAM_SECTION /\ 0 < phrase * phrases c <= kFLASH_AccelerationRamSize /\
  address c / sector = (address c + phrase * phrases c - 1) / sector.

Lemma section_command a len y :
  0 < phrase -> 0 <= a < 2 ^ 24 -> (phrase | len) -> 0 < len <= 1024 ->
  let c := (BYTE2WORD_1_3 FTFx_PROGRAM_SECTION a, BYTE2WORD_2_2 (len / phrase) 0xFFFF, y) in
  heading c = (FTFx_PROGRAM_SECTION, a) /\ phrase * phrases c = len /\ has_result (opcode c) = true /\
  (forall x, targets sector phrase c x = true <-> a <= x < a + len) /\
  (forall v x, becomes ram_base c v x = Z.land (v_flash v x) (v_ram v (ram_base + (x - a)))).
Proof.
  intros Hp Ha [q Hq] Hlen c.
  assert (H := heading_1_3 FTFx_PROGRAM_SECTION a (BYTE2WORD_2_2 (len / phrase) 0xFFFF) y
    ltac:(unfold FTFx_PROGRAM_SECTION; lia) Ha). fold c in H.
  assert (Hn : phrase * phrases c = len).
  { unfold phrases. change (word1 c) with (BYTE2WORD_2_2 (len / phrase) 0xFFFF).
    rewrite Hq, Z.div_mul, BYTE2WORD_2_2_high by (try lia; pow2; nia). lia. }
  split; [done|]. split; [done|]. injection H as Ho Had. unfold targets, becomes. rewrite Ho, Had, Hn.
  split; [done|]. split; [|done]. intros x. simpl. by rewrite andb_true_iff, Z.leb_le, Z.ltb_lt.
Qed.

(** One pass: the data of the piece are copied, then programmed. *)
Lemma section_pass_run {A} i c value w pa off src len (k : status_t -> M W A) (Q : A -> W -> Prop) :
  ready i c w -> flexramBlockBase c = ram_base -> 0 < phrase -> (phrase | len) -> 0 < len <= 1024 ->
  0 <= pa + off -> pa + off + len <= 2 ^ 24 -> (pa + off) / sector = (pa + off + len - 1) / sector ->
  (forall x, pa + off <= x < pa + off + len -> Z.land (v_flash (vw w) x) (f_mem w (src + (x - pa))) = value x) ->
  (forall d s cmd, busy d = O -> works (pa + off) (pa + off + len) value s (vw w) (view d) ->
    v_log (view d) = v_log (vw w) ++ [cmd] -> within_sector cmd ->
    s = kStatus_FTFx_Success \/ command_error s -> wp (k s) Q (set_hw d w)) ->
  wp (c <- deref (Some i) ;;
      memcpy_to_flexram (Z.to_nat len) (flexramBlockBase c) (src + off) ;;
      fccob 0 (BYTE2WORD_1_3 FTFx_PROGRAM_SECTION (u32 (pa + off))) ;;
      numberOfPhases <- lift (udiv len phrase) ;;
      fccob 1 (BYTE2WORD_2_2 numberOfPhases 0xFFFF) ;;
      returnCode <- ftfx_command_sequence run_buffer polls (Some i) ;; k returnCode) Q w.
Proof.
  intros Hr Hram Hp Hdiv Hlen Hlo Hhi Hsec Hv HQ. assert (Hc := ready_config _ _ _ _ Hr).
  rewrite wp_bind, (wp_deref _ _ _ _ Hc). rewrite wp_bind. apply memcpy_run; [by destruct Hr|].
  intros d1 Hb1 Hf1 Hl1 Hr1. rewrite wp_bind. apply fccob_run; [done|]. intros d2 Hb2 Hv2. rewrite set_hw_set_hw.
  rewrite wp_bind, (wp_lift _ (len / phrase)) by (apply udiv_ok; lia).
  rewrite wp_bind. apply fccob_run; [done|]. intros d3 Hb3 Hv3. rewrite set_hw_set_hw. cbn [f_hw set_hw] in *.
  rewrite (wrap_small 32) in Hv2 by (pow2; lia). rewrite Hram in Hr1.
  assert (Ho : operands (view d3) = (BYTE2WORD_1_3 FTFx_PROGRAM_SECTION (pa + off),
    BYTE2WORD_2_2 (len / phrase) 0xFFFF, v_cob (view d1) 2)) by by rewrite Hv3, Hv2.
  assert (H3 : v_flash (view d3) = v_flash (vw w) /\ v_log (view d3) = v_log (vw w) /\ v_ram (view d3) = v_ram (view d1)).
  { rewrite Hv3, Hv2. simpl. by rewrite Hf1, Hl1. }
  destruct H3 as (Hf3 & Hl3 & Hram3).
  destruct (section_command (pa + off) len (v_cob (view d1) 2) Hp ltac:(lia) Hdiv Hlen) as (C0 & C1 & C2 & C3 & C4).
  rewrite <- Ho in C0, C1, C2, C3, C4.
  rewrite wp_bind. apply (issue_run run_buffer polls Hpolls (pa + off) (pa + off + len) value _ c _ (vw w));
    [by apply ready_hw|done|done|done|done| |].
  - intros x Hx. rewrite C4. cbn [f_hw set_hw]. rewrite Hf3, Hram3, Hr1, <- (Hv x) by done.
    rewrite (proj2 (Z.leb_le _ _)), (proj2 (Z.ltb_lt _ _)) by lia. simpl. do 2 f_equal. lia.
  - intros d4 s Hb4 Hw4 Hl4 Hs4 _. rewrite set_hw_set_hw. apply (HQ _ _ (operands (view d3))); [done|done|done| |done].
    injection C0 as Hop Had. repeat split; [done|lia|unfold kFLASH_AccelerationRamSize; lia|].
    rewrite Had, C1. done.
Qed.

Lemma section_passes_run n i c value w pa src off rem (Q : status_t * Z -> W -> Prop) :
  ready i c w -> flexramBlockBase c = ram_base -> 0 < phrase -> (phrase | 1024) -> (phrase | rem) ->
  rem <= phrase * Z.of_nat n - phrase -> (0 < n)%nat -> 0 <= rem -> 0 <= off ->
  0 <= pa + off -> pa + off + rem <= 2 ^ 24 -> off + rem < 2 ^ 32 ->
  0 < sector -> (rem = 0 \/ (pa + off) / sector = (pa + off + rem - 1) / sector) ->
  (forall x, pa + off <= x < pa + off + rem -> Z.land (v_flash (vw w) x) (f_mem w (src + (x - pa))) = value x) ->
  (forall d s off' l, busy d = O -> works (pa + off) (pa + off + rem) value s (vw w) (view d) ->
    v_log (view d) = v_log (vw w) ++ l -> Forall within_sector l ->
    (s = kStatus_FTFx_Success -> off' = off + rem) -> Q (s, off') (set_hw d w)) ->
  wp (section_passes run_buffer polls n (Some i) phrase pa src rem off kStatus_FTFx_Success) Q w.
Proof.
  intros Hr Hram Hp H1024 Hrem. revert w off rem Hr Hrem Q.
  induction n as [|n IH]; intros w off rem Hr Hrem Q Hfuel Hn Hrem0 Hoff Hlo Hhi Hoff32 Hs Hsec Hv HQ; [lia|].
  cbn [section_passes]. destruct (Z.ltb_spec 0 rem) as [Hpos|Hz].
  2: { replace rem with 0 in * by lia. apply wp_ret. rewrite <- (set_hw_id w).
       apply (HQ _ _ _ []); [by destruct Hr|rewrite Z.add_0_r; by apply works_nothing|by rewrite app_nil_r|done|lia]. }
  unfold kFLASH_AccelerationRamSize.
  set (p := if 1024 <? rem then 1024 else rem).
  assert (Hpp : 0 < p <= 1024 /\ p <= rem /\ (phrase | p)).
  { unfold p. destruct (Z.ltb_spec 1024 rem); split; [lia|split; [lia|done]|lia|split; [lia|done]]. }
  destruct Hpp as (Hp1 & Hp2 & Hp3).
  assert (Hpge : phrase <= p) by (apply Z.divide_pos_le; [lia|done]).
  assert (Hdiff : (phrase | rem - p)) by by apply Z.divide_sub_r.
  destruct Hsec as [?|Hsec]; [lia|].
  assert (Hm1 : (pa + off) / sector <= (pa + off + p - 1) / sector) by (apply Z.div_le_mono; lia).
  assert (Hm2 : (pa + off + p - 1) / sector <= (pa + off + rem - 1) / sector) by (apply Z.div_le_mono; lia).
  apply (section_pass_run i c value); [done|done|done|done|done|done|lia|lia|intros x Hx; apply Hv; lia|].
  intros d s cmd Hb Hw Hl Hcmd [->|Herr].
  - simpl. rewrite !(wrap_small 32) by (pow2; lia).
    apply IH; [by apply ready_hw|done|nia|nia|lia|lia|lia|lia|lia|lia| | |].
    + destruct (Z.eq_dec (rem - p) 0) as [E|E]; [by left|right].
      rewrite Z.add_assoc. apply Z.le_antisymm; [apply Z.div_le_mono; lia|].
      replace (pa + off + p + (rem - p) - 1) with (pa + off + rem - 1) by lia. rewrite <- Hsec.
      apply Z.div_le_mono; lia.
    + intros x Hx. cbn [f_hw set_hw f_mem]. rewrite (works_frame _ _ _ _ _ _ Hw) by lia. apply Hv. lia.
    + intros d2 s off' l Hb2 Hw2 Hl2 Hwl Hoff'. rewrite set_hw_set_hw.
      apply (HQ d2 s off' (cmd :: l)); [done| |exact (log_step _ _ _ _ _ Hl Hl2)|by constructor|].
      * apply (works_trans _ (pa + off + p) _ _ _ _ (view d)); [lia|done|].
        replace (pa + (off + p)) with (pa + off + p) in Hw2 by lia.
        by replace (pa + off + rem) with (pa + off + p + (rem - p)) by lia.
      * intros Hs'. rewrite Hoff' by done. lia.
  - rewrite (proj2 (Z.eqb_neq _ _) (command_error_not_success _ Herr)). simpl. apply wp_ret.
    apply (HQ _ _ _ [cmd]); [done| |done|by constructor|by intros E; apply command_error_not_success in Herr].
    apply (works_fail _ (pa + off + p) _ value); [lia|done|done].
Qed.

Lemma section_loop_run k n i c value w pa src len (Q : status_t -> W -> Prop) :
  sector = 2 ^ k -> 0 <= k <= 24 -> (phrase | sector) -> (phrase | 1024) -> 0 < phrase ->
  ready i c w -> flexramBlockBase c = ram_base -> (phrase | pa) -> (phrase | len) ->
  len <= phrase * Z.of_nat n - phrase -> (0 < n)%nat -> 0 <= len -> 0 <= pa -> pa + len <= 2 ^ 24 ->
  (forall x, pa <= x < pa + len -> Z.land (v_flash (vw w) x) (f_mem w (src + (x - pa))) = value x) ->
  (forall d s l, busy d = O -> works pa (pa + len) value s (vw w) (view d) ->
    v_log (view d) = v_log (vw w) ++ l -> Forall within_sector l -> Q s (set_hw d w)) ->
  wp (section_loop run_buffer polls n (Some i) sector phrase pa src len kStatus_FTFx_Success) Q w.
Proof.
  intros Hs Hk Hps H1024 Hp Hr Hram. revert w pa src len Hr Q.
  induction n as [|n IH]; intros w pa src len Hr Q Hpa Hlen Hfuel Hn Hlen0 Hpa0 Hend Hv HQ; [lia|].
  cbn [section_loop]. destruct (Z.ltb_spec 0 len) as [Hpos|Hz].
  2: { replace len with 0 in * by lia. apply wp_ret. rewrite <- (set_hw_id w).
       apply (HQ _ _ []); [by destruct Hr|rewrite Z.add_0_r; by apply works_nothing|by rewrite app_nil_r|done]. }
  assert (Hs24 : 0 < sector <= 2 ^ 24) by (rewrite Hs; split; [apply Z.pow_pos_nonneg; lia|apply Z.pow_le_mono_r; lia]).
  rewrite Hs, next_boundary, <- Hs by (rewrite <- ?Hs; change (2 ^ 24) with 16777216 in *; pow2; lia).
  set (b := (pa / sector + 1) * sector).
  assert (Hb : pa < b <= pa + sector) by (unfold b; zlia).
  rewrite (wrap_small 32 (len + pa)), (wrap_small 32 (b - pa)) by (change (2 ^ 24) with 16777216 in *; pow2; lia).
  set (m := if b <? len + pa then b - pa else len).
  assert (Hm : 0 < m <= len /\ pa + m <= b /\ (phrase | m)).
  { unfold m. destruct (Z.ltb_spec b (len + pa)); (split; [lia|split; [lia|]]); [|done].
    apply Z.divide_sub_r; [|done]. unfold b. by apply Z.divide_mul_r. }
  destruct Hm as (Hm1 & Hm2 & Hm3).
  assert (Hmge : phrase <= m) by (apply Z.divide_pos_le; [lia|done]).
  rewrite wp_bind. apply (section_passes_run (S n) i c value); try done; try lia.
  - right. rewrite Z.add_0_r. apply (Z.div_unique _ _ _ (pa mod sector + m - 1)); unfold b in *; zlia.
  - intros x Hx. apply Hv. lia.
  - intros d s off' l Hbd Hw Hl Hwl Hoff. rewrite Z.add_0_r in Hw.
    destruct (works_status _ _ _ _ _ _ Hw) as [->|Herr].
    + rewrite Hoff by done. simpl. rewrite Z.add_0_l, !(wrap_small 32) by (change (2 ^ 24) with 16777216 in *; pow2; lia).
      apply IH; [by apply ready_hw|by apply Z.divide_add_r|by apply Z.divide_sub_r|nia|nia|lia|lia|lia| |].
      * intros x Hx. cbn [f_hw set_hw f_mem]. rewrite (works_frame _ _ _ _ _ _ Hw) by lia.
        rewrite <- (Hv x) by lia. do 2 f_equal. lia.
      * intros d2 s l2 Hb2 Hw2 Hl2 Hwl2. rewrite set_hw_set_hw.
        apply (HQ d2 s (l ++ l2)); [done| |by rewrite app_assoc, <- Hl|by apply Forall_app].
        apply (works_trans _ (pa + m) _ _ _ _ (view d)); [lia|done|].
        by replace (pa + len) with (pa + m + (len - m)) by lia.
    + rewrite (proj2 (Z.eqb_neq _ _) (command_error_not_success _ Herr)). simpl. apply wp_ret.
      apply (HQ _ _ l); [done| |done|done].
      apply (works_fail _ (pa + m) _ value); [lia|done|done].
Qed.
End Section_.
