(* ===== verification/FtfxVerify.v ===== *)
(** * Verification loops

    The two checks: that a range is erased, block by block, and that it holds
    given data, unit by unit. *)

From stdpp Require Import base list numbers tactics.
From Stdlib Require Import ZArith Lia.
From S2P Require Import Prelude Mmio Ftfx FtfxEngine FtfxLoops FtfxSection.

Open Scope Z_scope.
Open Scope prog_scope.

(** A little-endian word stored in memory. *)
Definition put8 (a v : Z) (mem : Z -> Z) : Z -> Z := fun x => if decide (x = a) then v else mem x.
Definition put32 (a v : Z) (mem : Z -> Z) : Z -> Z :=
  put8 (a + 3) (v / 16777216 mod 256) (put8 (a + 2) (v / 65536 mod 256)
    (put8 (a + 1) (v / 256 mod 256) (put8 a (v mod 256) mem))).

(** What a failed check leaves in the caller's variables. *)
Definition note_failure (failedAddress failedData a : Z) (mem : Z -> Z) : Z -> Z :=
  let mem := if failedAddress =? 0 then mem else put32 failedAddress a mem in
  if failedData =? 0 then mem else put32 failedData 0 mem.

Section Verify.
Context {D : Type} `{!Device ftfx_reg D} {F : FtfxFields} {X : FtfxFeatures} {L : FtfxLaws}.
Abbreviation W := (ftfx_world D).
Abbreviation vw w := (view (f_hw w)).
Definition set_mem (m : Z -> Z) (w : W) : W := FtfxWorld (f_hw w) (configs w) (s_ftfxRunCommand w) m.

Lemma store32_run a v w (Q : unit -> W -> Prop) : wp (store32 a v) Q w <-> Q tt (set_mem (put32 a v (f_mem w)) w).
Proof. reflexivity. Qed.

Lemma note_failure_run failedAddress failedData a s w (Q : status_t -> W -> Prop) :
  Q s (set_mem (note_failure failedAddress failedData a (f_mem w)) w) ->
  wp (when (negb (failedAddress =? 0)) (store32 failedAddress a) ;;
      when (negb (failedData =? 0)) (store32 failedData 0) ;; ret s) Q w.
Proof.
  intros HQ. rewrite wp_bind. unfold note_failure in HQ.
  destruct (failedAddress =? 0), (failedData =? 0); cbn [negb].
  - by destruct w.
  - rewrite wp_ret, wp_bind, store32_run. exact HQ.
  - rewrite store32_run, wp_bind, wp_ret. exact HQ.
  - rewrite store32_run, wp_bind, store32_run. exact HQ.
Qed.

Context (run_buffer : Z) (polls : nat) (Hpolls : (latency < polls)%nat).
Abbreviation ready := (ready run_buffer).

(** A command that only checks. *)
Lemma check_run i c w v0 (Q : status_t -> W -> Prop) :
  ready i c w -> v_flash (vw w) = v_flash v0 -> v_log (vw w) = v_log v0 ->
  leaves_flash (opcode (operands (vw w))) = true ->
  (forall d s, busy d = O -> (forall x, v_flash (view d) x = v_flash v0 x) ->
    v_log (view d) = v_log v0 ++ [operands (vw w)] ->
    (s = kStatus_FTFx_Success -> checked phrase (operands (vw w)) (vw w)) ->
    s = kStatus_FTFx_Success \/ command_error s -> Q s (set_hw d w)) ->
  wp (ftfx_command_sequence run_buffer polls (Some i)) Q w.
Proof.
  intros Hr Hf Hl Hleaves HQ. apply (command_run _ _ _ c); [done|done|]. intros d f Hb He. apply HQ; [done| | | |].
  - intros x. rewrite (exec_frame _ _ _ _ _ _ He), <- Hf; [done|].
    change (operands (with_flags f (vw w))) with (operands (vw w)). unfold targets.
    destruct (_ =? FTFx_ERASE_SECTOR) eqn:E1; [apply Z.eqb_eq in E1; by rewrite E1 in Hleaves|].
    destruct (_ =? FTFx_PROGRAM_LONGWORD) eqn:E2; [apply Z.eqb_eq in E2; by rewrite E2 in Hleaves|].
    destruct (_ =? FTFx_PROGRAM_PHRASE) eqn:E3; [apply Z.eqb_eq in E3; by rewrite E3 in Hleaves|].
    destruct (_ =? FTFx_PROGRAM_SECTION) eqn:E4; [apply Z.eqb_eq in E4; by rewrite E4 in Hleaves|].
    by rewrite Hleaves.
  - rewrite (exec_log _ _ _ _ _ _ He), <- Hl. done.
  - intros Hs. destruct (verdict (view d)) as [[_ Hn]|[He' _]]; [|by apply command_error_not_success in He'].
    exact (exec_checked _ _ _ _ _ _ He Hn).
  - destruct (verdict (view d)) as [[? _]|[? _]]; [by left|by right].
Qed.

(** *** Erased *)

(** A check that stays in one block. *)
Definition within_block (bs : Z) (c : command) : Prop :=
  opcode c = FTFx_VERIFY_SECTION /\ 0 < phrase * phrases c /\ address c / bs = (address c + phrase * phrases c - 1) / bs.

(** One check of [m] bytes at [es]. *)
Lemma verify_pass_run {A} bs i c margin w es m (k : status_t -> M W A) (Q : A -> W -> Prop) :
  0 < phrase -> (phrase | m) -> 0 < m < phrase * 2 ^ 16 -> 0 <= es -> es + m <= 2 ^ 24 ->
  es / bs = (es + m - 1) / bs -> ready i c w ->
  (forall d s cmd, busy d = O -> (forall x, v_flash (view d) x = v_flash (vw w) x) ->
    v_log (view d) = v_log (vw w) ++ [cmd] -> within_block bs cmd ->
    (s = kStatus_FTFx_Success -> forall x, es <= x < es + m -> v_flash (vw w) x = 255) ->
    s = kStatus_FTFx_Success \/ command_error s -> wp (k s) Q (set_hw d w)) ->
  wp (numberOfPhrases <- lift (udiv m phrase) ;;
      fccob 0 (BYTE2WORD_1_3 FTFx_VERIFY_SECTION es) ;;
      fccob 1 (BYTE2WORD_2_1_1 numberOfPhrases margin 0xFF) ;;
      returnCode <- ftfx_command_sequence run_buffer polls (Some i) ;; k returnCode) Q w.
Proof.
  intros Hp Hm Hm16 Hes Hend Hsame Hr HQ. change (2 ^ 24) with 16777216 in *. change (2 ^ 16) with 65536 in *.
  assert (Hq : 0 <= m / phrase < 2 ^ 16).
  { change (2 ^ 16) with 65536. split; [apply Z.div_pos; lia|]. apply Z.div_lt_upper_bound; lia. }
  rewrite wp_bind, (wp_lift _ (m / phrase)) by (apply udiv_ok; lia).
  rewrite wp_bind. apply fccob_run; [by destruct Hr|]. intros d1 Hb1 Hv1.
  rewrite wp_bind. apply fccob_run; [done|]. intros d2 Hb2 Hv2. rewrite set_hw_set_hw. cbn [f_hw set_hw] in Hv2.
  assert (Ho : operands (view d2) = (BYTE2WORD_1_3 FTFx_VERIFY_SECTION es, BYTE2WORD_2_1_1 (m / phrase) margin 0xFF,
    v_cob (vw w) 2)) by by rewrite Hv2, Hv1.
  assert (Hh : heading (operands (view d2)) = (FTFx_VERIFY_SECTION, es))
    by (rewrite Ho; apply heading_1_3; [unfold FTFx_VERIFY_SECTION; lia|change (2 ^ 24) with 16777216; lia]).
  injection Hh as Hop Had.
  assert (Hph : phrase * phrases (operands (view d2)) = m).
  { rewrite Ho. unfold phrases. change (word1 _) with (BYTE2WORD_2_1_1 (m / phrase) margin 0xFF).
    rewrite BYTE2WORD_2_1_1_high by done. destruct Hm as [q ->]. rewrite Z.div_mul by lia. lia. }
  rewrite wp_bind. apply (check_run _ c _ (vw w)); [by apply ready_hw|cbn [f_hw set_hw]; by rewrite Hv2, Hv1|cbn [f_hw set_hw]; by rewrite Hv2, Hv1|cbn [f_hw set_hw]; by rewrite Hop|].
  intros d3 s Hb3 Hf3 Hl3 Hc Hs3. rewrite set_hw_set_hw. cbn [f_hw set_hw] in *.
  apply (HQ _ _ (operands (view d2))); [done|done|done| | |done].
  - split; [done|]. rewrite Hph, Had. split; [lia|done].
  - intros Hs x Hx. specialize (Hc Hs). unfold checked in Hc. rewrite Hop, Had, Hph in Hc. simpl in Hc.
    specialize (Hc x Hx). by rewrite Hv2, Hv1 in Hc.
Qed.

Lemma verify_erase_loop_run bs n i c margin w es rem next (Q : status_t -> W -> Prop) :
  0 < phrase -> 0 < bs <= 2 ^ 24 -> (phrase | bs) -> bs < phrase * 2 ^ 16 ->
  ready i c w -> (phrase | es) -> (phrase | rem) -> rem <= phrase * Z.of_nat n - phrase -> (0 < n)%nat ->
  0 <= rem -> 0 <= es -> es + rem <= 2 ^ 24 -> next = (es / bs + 1) * bs ->
  (forall d s l, busy d = O -> (forall x, v_flash (view d) x = v_flash (vw w) x) ->
    v_log (view d) = v_log (vw w) ++ l -> Forall (within_block bs) l ->
    (s = kStatus_FTFx_Success -> forall x, es <= x < es + rem -> v_flash (vw w) x = 255) ->
    s = kStatus_FTFx_Success \/ command_error s -> Q s (set_hw d w)) ->
  wp (verify_erase_loop run_buffer polls n (Some i) phrase margin bs next es rem) Q w.
Proof.
  intros Hp Hbs Hdiv Hlim. revert w es rem next Q.
  induction n as [|n IH]; intros w es rem next Q Hr Hes Hrem Hfuel Hn Hrem0 Hes0 Hend -> HQ; [lia|].
  cbn [verify_erase_loop]. destruct (Z.eqb_spec rem 0) as [->|Hpos]; cbn [negb].
  { apply wp_ret. rewrite <- (set_hw_id w). apply (HQ _ _ []); [by destruct Hr|done|by rewrite app_nil_r|done|lia|by left]. }
  set (b := (es / bs + 1) * bs). assert (Hb : es < b <= es + bs) by (unfold b; zlia).
  change (2 ^ 24) with 16777216 in *. change (2 ^ 16) with 65536 in *. rewrite (wrap_small 32 (b - es)) by (pow2; lia).
  set (m := if rem <? b - es then rem else b - es).
  assert (Hm : 0 < m <= rem /\ es + m <= b /\ (phrase | m)).
  { unfold m. destruct (Z.ltb_spec rem (b - es)); (split; [lia|split; [lia|]]); [done|].
    apply Z.divide_sub_r; [|done]. unfold b. by apply Z.divide_mul_r. }
  destruct Hm as (Hm1 & Hm2 & Hm3). assert (Hmge : phrase <= m) by (apply Z.divide_pos_le; [lia|done]).
  apply (verify_pass_run bs i c); [done|done|change (2 ^ 16) with 65536; lia|done|change (2 ^ 24) with 16777216; lia| |done|].
  { apply (Z.div_unique _ _ _ (es mod bs + m - 1)); unfold b in *; zlia. }
  intros d3 s cmd Hb3 Hf3 Hl3 Hwb Hfm Hs3. unfold or_return. destruct Hs3 as [->|Herr].
  - specialize (Hfm eq_refl). simpl. rewrite !(wrap_small 32) by (pow2; lia).
    destruct (Z.eq_dec m rem) as [Heq|Hne].
    + (* the range is exhausted: the boundary does not matter any more *)
      replace (rem - m) with 0 by lia. destruct n as [|n]; [lia|]. cbn [verify_erase_loop Z.eqb negb].
      apply wp_ret. apply (HQ _ _ [cmd]); [done|done|done|by constructor| |by left].
      intros _ x Hx. apply Hfm. lia.
    + assert (Hmb : es + m = b) by (unfold m in *; destruct (Z.ltb_spec rem (b - es)); lia).
      apply IH; [by apply ready_hw|by apply Z.divide_add_r|by apply Z.divide_sub_r|nia|nia|lia|lia|lia| |].
      * assert (E : (es + m) / bs = es / bs + 1) by (rewrite Hmb; unfold b; apply Z.div_mul; lia). rewrite E. unfold b. lia.
      * intros d4 s l Hb4 Hf4 Hl4 Hwl Hs4 Hst. rewrite set_hw_set_hw. cbn [f_hw set_hw] in *.
        apply (HQ _ _ (cmd :: l)); [done|intros x; by rewrite Hf4|exact (log_step _ _ _ _ _ Hl3 Hl4)|by constructor| |done].
        intros E x Hx. destruct (Z.lt_ge_cases x (es + m)); [apply Hfm; lia|].
        rewrite <- Hf3. apply Hs4; [done|lia].
  - rewrite (proj2 (Z.eqb_neq _ _) (command_error_not_success _ Herr)). simpl. apply wp_ret.
    apply (HQ _ _ [cmd]); [done|done|done|by constructor| |by right].
    intros E. by apply command_error_not_success in Herr.
Qed.

(** *** Programmed *)

(** One check of a unit against the data. *)
Lemma check_pass_run {A} i c margin w pa data (k : status_t -> M W A) (Q : A -> W -> Prop) :
  bytes (f_mem w) -> 0 <= pa < 2 ^ 24 -> ready i c w ->
  (forall d s cmd, busy d = O -> (forall x, v_flash (view d) x = v_flash (vw w) x) ->
    v_log (view d) = v_log (vw w) ++ [cmd] -> heading cmd = (FTFx_PROGRAM_CHECK, pa) ->
    (s = kStatus_FTFx_Success -> forall x, pa <= x < pa + 4 -> v_flash (vw w) x = f_mem w (data + (x - pa))) ->
    s = kStatus_FTFx_Success \/ command_error s -> wp (k s) Q (set_hw d w)) ->
  wp (fccob 0 (BYTE2WORD_1_3 FTFx_PROGRAM_CHECK pa) ;;
      fccob 1 (BYTE2WORD_1_3 margin 0xFFFFFF) ;;
      word <- ftfx_read_word_from_byte_address data ;;
      fccob 2 word ;;
      returnCode <- ftfx_command_sequence run_buffer polls (Some i) ;; k returnCode) Q w.
Proof.
  intros Hm Hpa Hr HQ.
  rewrite wp_bind. apply fccob_run; [by destruct Hr|]. intros d1 Hb1 Hv1.
  rewrite wp_bind. apply fccob_run; [done|]. intros d2 Hb2 Hv2. rewrite set_hw_set_hw. cbn [f_hw set_hw] in Hv2.
  rewrite wp_bind. apply read_word_run; [done|]. intros word Hword. cbn [f_mem set_hw] in Hword.
  rewrite wp_bind. apply fccob_run; [done|]. intros d3 Hb3 Hv3. rewrite set_hw_set_hw. cbn [f_hw set_hw] in Hv3.
  assert (Ho : operands (view d3) = (BYTE2WORD_1_3 FTFx_PROGRAM_CHECK pa, BYTE2WORD_1_3 margin 0xFFFFFF, word))
    by by rewrite Hv3, Hv2, Hv1.
  assert (Hh : heading (operands (view d3)) = (FTFx_PROGRAM_CHECK, pa))
    by (rewrite Ho; apply heading_1_3; [unfold FTFx_PROGRAM_CHECK; lia|done]).
  assert (Hop := f_equal fst Hh). assert (Had := f_equal snd Hh). cbn [fst snd heading] in Hop, Had.
  rewrite wp_bind. apply (check_run _ c _ (vw w)); [by apply ready_hw|cbn [f_hw set_hw]; by rewrite Hv3, Hv2, Hv1
    |cbn [f_hw set_hw]; by rewrite Hv3, Hv2, Hv1|cbn [f_hw set_hw]; by rewrite Hop|].
  intros d4 s Hb4 Hf4 Hl4 Hc Hs4. rewrite set_hw_set_hw. cbn [f_hw set_hw] in *.
  apply (HQ _ _ (operands (view d3))); [done|done|done|done| |done].
  intros Hs x Hx. specialize (Hc Hs). unfold checked in Hc. 
  assert (Hw2 : word2 (operands (view d3)) = word) by by rewrite Ho. rewrite Hop, Had, Hw2 in Hc. simpl in Hc.
  specialize (Hc x Hx). rewrite Hword in Hc by lia. by rewrite Hv3, Hv2, Hv1 in Hc.
Qed.

Lemma verify_program_loop_run margin fa fd (m n i : nat) c w pa data (Q : status_t -> W -> Prop) :
  (m < n)%nat -> ready i c w -> bytes (f_mem w) -> 0 <= pa -> pa + 4 * Z.of_nat m <= 2 ^ 24 ->
  (forall d s l w', busy d = O -> (forall x, v_flash (view d) x = v_flash (vw w) x) ->
    v_log (view d) = v_log (vw w) ++ l -> launches (headings FTFx_PROGRAM_CHECK pa 4 m) s l ->
    (s = kStatus_FTFx_Success /\ w' = set_hw d w /\
       (forall x, pa <= x < pa + 4 * Z.of_nat m -> v_flash (vw w) x = f_mem w (data + (x - pa)))
     \/ command_error s /\ exists k, (k < m)%nat /\
       w' = set_mem (note_failure fa fd (pa + 4 * Z.of_nat k) (f_mem w)) (set_hw d w) /\
       (forall x, pa <= x < pa + 4 * Z.of_nat k -> v_flash (vw w) x = f_mem w (data + (x - pa)))) ->
    Q s w') ->
  wp (verify_program_loop run_buffer polls n (Some i) 4 margin fa fd pa data (4 * Z.of_nat m) kStatus_FTFx_Success) Q w.
Proof.
  revert n w pa data Q. induction m as [|m IH]; intros n w pa data Q Hn Hr Hm Hpa Hend HQ; (destruct n as [|n]; [lia|]);
    cbn [verify_program_loop].
  - apply wp_ret. apply (HQ (f_hw w) _ [] w); [by destruct Hr|done|by rewrite app_nil_r|apply launches_nil|].
    left. split; [done|]. split; [by rewrite set_hw_id|lia].
  - rewrite (proj2 (Z.eqb_neq _ _)) by lia. cbn [negb]. change (2 ^ 24) with 16777216 in *.
    apply (check_pass_run i c); [done|change (2 ^ 24) with 16777216; lia|done|].
    intros d s cmd Hb Hf Hl Hh Hfm [->|Herr].
    + simpl. rewrite !(wrap_small 32) by (pow2; lia).
      replace (4 * Z.of_nat (S m) - 4) with (4 * Z.of_nat m) by lia.
      apply IH; [lia|by apply ready_hw|done|lia|lia|].
      intros d2 s l w' Hb2 Hf2 Hl2 Hp Hs. cbn [f_hw set_hw f_mem] in *.
      assert (Hdone : forall n, (forall x, pa + 4 <= x < pa + 4 + n -> v_flash (view d) x = f_mem w (data + 4 + (x - (pa + 4)))) ->
        forall x, pa <= x < pa + 4 + n -> v_flash (vw w) x = f_mem w (data + (x - pa))).
      { intros p Hpre x Hx. destruct (Z.lt_ge_cases x (pa + 4)); [apply Hfm; [done|lia]|].
        rewrite <- Hf, Hpre by lia. f_equal. lia. }
      apply (HQ d2 s (cmd :: l)); [done|intros x; by rewrite Hf2|exact (log_step _ _ _ _ _ Hl Hl2)|by apply launches_cons|].
      destruct Hs as [(Hs & -> & Hx)|(Hs & j & Hj & -> & Hx)]; [left|right].
      * split; [done|]. split; [by rewrite set_hw_set_hw|].
        replace (pa + 4 * Z.of_nat (S m)) with (pa + 4 + 4 * Z.of_nat m) by lia. by apply Hdone.
      * split; [done|]. exists (S j). split; [lia|].
        replace (pa + 4 * Z.of_nat (S j)) with (pa + 4 + 4 * Z.of_nat j) by lia. split; [done|]. by apply Hdone.
    + rewrite (proj2 (Z.eqb_neq _ _) (command_error_not_success _ Herr)). cbn [negb].
      apply note_failure_run. apply (HQ d s [cmd]); [done|done|done| |].
      * apply launches_one; [done|by apply command_error_not_success].
      * right. split; [done|]. exists O. split; [lia|]. rewrite Z.mul_0_r, Z.add_0_r. split; [done|lia].
Qed.
End Verify.
