(* ===== verification/FtfxOps.v ===== *)
(** * The operations on ranges of the program flash

    [driver_ok] ties the configurations to the module: sector size, section
    unit, acceleration RAM, the size of the command address space.  For the
    operations of fsl_ftfx_flash.c on a range that lies in one flash: what
    they launch, what becomes of the flash, and that they keep [driver_ok]. *)

From stdpp Require Import base list numbers tactics.
From Stdlib Require Import ZArith Lia.
From S2P Require Import Prelude Mmio Ftfx FtfxFlash FtfxEngine FtfxLoops FtfxSection FtfxVerify.

Open Scope Z_scope.
Open Scope prog_scope.

Section Ops.
Context {D : Type} `{!Device ftfx_reg D} {F : FtfxFields} {X : FtfxFeatures} {L : FtfxLaws} {P : FlashFeatures}.
Abbreviation W := (ftfx_world D).
Abbreviation vw w := (view (f_hw w)).
Context (run_buffer : Z) (polls : nat).

(** The address a command uses for a processor address of a flash. *)
Definition translated (c : ftfx_config) (start : Z) : Z :=
  let d := flashDesc c in
  if two_flashes && negb (flash_index d =? 0) && negb (isIndBlock (feature d) =? 0)
  then start - blockBase d + 0x800000 else start.

Definition block_size (c : ftfx_config) : Z := totalSize (flashDesc c) / blockCount (flashDesc c).

(** The i-th configuration describes the module. *)
Record fits (i : nat) (c : ftfx_config) : Prop := {
  fits_index : flash_index (flashDesc c) = Z.of_nat i;
  fits_base : 0 <= blockBase (flashDesc c) < 2 ^ 31 /\ 0 <= totalSize (flashDesc c);
  fits_space start : blockBase (flashDesc c) <= start <= blockBase (flashDesc c) + totalSize (flashDesc c) ->
    0 <= translated c start <= 2 ^ 24;
  fits_aligned : (sector | translated c (blockBase (flashDesc c))) /\ (sector | blockBase (flashDesc c));
  fits_sector : sectorSize (flashDesc c) = sector;
  fits_erase : exists j, 1 <= j <= 7 /\ sectorCmd (addrAligment (opsConfig c)) = 2 ^ j /\ (2 ^ j | sector);
  fits_unit : blockWriteUnitSize (addrAligment (opsConfig c)) = 4 \/ blockWriteUnitSize (addrAligment (opsConfig c)) = 8;
  fits_section : sectionCmd (addrAligment (opsConfig c)) = phrase;
  fits_check : checkCmd (addrAligment (opsConfig c)) = 4;
  fits_ram : flexramBlockBase c = ram_base;
  fits_blocks : 0 < blockCount (flashDesc c) /\ (phrase | block_size c) /\ block_size c < phrase * 2 ^ 16 /\
    exists j, 0 <= j <= 24 /\ block_size c = 2 ^ j
}.

(** The module's own geometry. *)
Definition module_ok : Prop :=
  (exists k, 3 <= k <= 24 /\ sector = 2 ^ k) /\ (exists j, 0 <= j <= 7 /\ phrase = 2 ^ j) /\
  (phrase | sector) /\ (phrase | 1024).

Record driver_ok (w : W) : Prop := {
  ok_module : module_ok;
  ok_count : length (configs w) = FTFx_FLASH_COUNT;
  ok_ready i c : configs w !! i = Some c -> ready run_buffer i c w;
  ok_fits i c : configs w !! i = Some c -> fits i c
}.

(** The range lies in the i-th flash, and in no earlier one. *)
Record lies_in (w : W) (i : nat) (c : ftfx_config) (start len : Z) : Prop := {
  in_config : configs w !! i = Some c;
  in_range : blockBase (flashDesc c) <= start /\ 0 <= len /\
    start + len <= blockBase (flashDesc c) + totalSize (flashDesc c);
  in_first j c' : (j < i)%nat -> configs w !! j = Some c' ->
    ~ (blockBase (flashDesc c') <= start /\ start + len <= blockBase (flashDesc c') + totalSize (flashDesc c'))
}.

(** The world once the address has been translated. *)
Definition converted (i : nat) (c : ftfx_config) (start : Z) (w : W) : W :=
  FtfxWorld (f_hw w) (<[i := set_convertedAddress (translated c start) c]> (configs w)) (s_ftfxRunCommand w) (f_mem w).

Lemma desc_converted x c : flashDesc (set_convertedAddress x c) = flashDesc c.
Proof. by destruct c. Qed.

Lemma fits_converted i c x : fits i c -> fits i (set_convertedAddress x c).
Proof. intros [H1 H2 H3 H4 H5 H6 H7 H8 H9 H10 H11]. destruct c as [d [? a] ? ? ? ? ?]. by split. Qed.

Lemma fits_end i c : fits i c -> blockBase (flashDesc c) + totalSize (flashDesc c) < 2 ^ 32.
Proof.
  intros Hf. pow2. destruct (fits_base _ _ Hf) as [_ Hsize].
  assert (H1 := fits_space _ _ Hf (blockBase (flashDesc c) + totalSize (flashDesc c)) ltac:(lia)).
  assert (H0 := fits_base _ _ Hf). unfold translated in H1. change (2 ^ 24) with 16777216 in *. change (2 ^ 31) with 2147483648 in *.
  destruct (_ && _); lia.
Qed.

Lemma ok_converted i c start w :
  driver_ok w -> configs w !! i = Some c -> driver_ok (converted i c start w).
Proof.
  intros [H1 H2 H3 H4] Hc. assert (Hi : (i < length (configs w))%nat) by by apply lookup_lt_Some in Hc.
  split; [done|unfold converted; cbn [configs]; by rewrite length_insert| |].
  - intros j c' Hj. cbn [converted configs] in Hj. destruct (decide (i = j)) as [<-|Hne].
    + rewrite list_lookup_insert_eq in Hj by done. injection Hj as <-.
      destruct (H3 i c Hc) as [R1 R2 R3]. split; [cbn [converted configs]; by rewrite list_lookup_insert_eq|done|].
      intros E. destruct (R3 E) as (A & B & C). split; [|done]. by destruct c.
    + rewrite list_lookup_insert_ne in Hj by done. destruct (H3 j c' Hj) as [R1 R2 R3].
      split; [cbn [converted configs]; by rewrite list_lookup_insert_ne|done|done].
  - intros j c' Hj. cbn [converted configs] in Hj. destruct (decide (i = j)) as [<-|Hne].
    + rewrite list_lookup_insert_eq in Hj by done. injection Hj as <-. apply fits_converted. by apply H4.
    + rewrite list_lookup_insert_ne in Hj by done. by apply H4.
Qed.

Lemma ok_hw w d : driver_ok w -> busy d = O -> driver_ok (set_hw d w).
Proof.
  intros [H1 H2 H3 H4] Hd. split; [done|done| |by intros i c; apply H4].
  intros i c Hc. apply ready_hw; [by apply H3|done].
Qed.

(** *** Finding the flash *)

Lemma find_flash_run n i0 w start len i c (Q : status_t * Z -> W -> Prop) :
  driver_ok w -> lies_in w i c start len -> (i0 <= i < i0 + n)%nat -> Q (kStatus_FTFx_Success, Z.of_nat i) w ->
  wp (find_flash n i0 start len) Q w.
Proof.
  intros Hok [Hc Hr Hfirst] Hi HQ. revert i0 Hi. induction n as [|n IH]; intros i0 Hi; [lia|]. cbn [find_flash].
  destruct (configs w !! i0) as [c0|] eqn:E0.
  2: { apply lookup_ge_None in E0. apply lookup_lt_Some in Hc. lia. }
  rewrite wp_bind, (wp_deref _ _ _ _ E0). cbv beta.
  assert (Hf := ok_fits _ Hok _ _ E0). assert (Hend := fits_end _ _ Hf). assert (Hb := fits_base _ _ Hf).
  assert (Hendc := fits_end _ _ (ok_fits _ Hok _ _ Hc)). assert (Hbc := fits_base _ _ (ok_fits _ Hok _ _ Hc)).
  change (2 ^ 31) with 2147483648 in *. pow2.
  destruct (decide (i0 = i)) as [->|Hne].
  - assert (c0 = c) as -> by congruence.
    rewrite !(wrap_small 32) by (pow2; lia). rewrite !(proj2 (Z.leb_le _ _)) by lia. simpl.
    by rewrite wp_ret, (fits_index _ _ Hf).
  - assert (Hn := Hfirst i0 c0 ltac:(lia) E0).
    destruct (Z.leb_spec (blockBase (flashDesc c0)) start); [|apply IH; lia].
    rewrite (wrap_small 32 (start + len)) by (pow2; lia).
    rewrite (wrap_small 32 (blockBase (flashDesc c0) + _)) by (pow2; lia).
    rewrite (proj2 (Z.leb_gt _ _)) by lia. simpl. apply IH. lia.
Qed.

Lemma find_flash_none n i0 w start len (Q : status_t * Z -> W -> Prop) :
  driver_ok w -> (i0 + n <= length (configs w))%nat -> 0 <= start -> start + len < 2 ^ 32 -> 0 <= len ->
  (forall i c, configs w !! i = Some c ->
    ~ (blockBase (flashDesc c) <= start /\ start + len <= blockBase (flashDesc c) + totalSize (flashDesc c))) ->
  Q (kStatus_FTFx_AddressError, 0) w -> wp (find_flash n i0 start len) Q w.
Proof.
  intros Hok Hn Hs Hlt Hlen Hout HQ. revert i0 Hn. induction n as [|n IH]; intros i0 Hn; [done|]. cbn [find_flash].
  destruct (configs w !! i0) as [c0|] eqn:E0; [|apply lookup_ge_None in E0; lia].
  rewrite wp_bind, (wp_deref _ _ _ _ E0). cbv beta.
  assert (Hf := ok_fits _ Hok _ _ E0). assert (Hend := fits_end _ _ Hf). assert (Hb := fits_base _ _ Hf).
  assert (Hn0 := Hout i0 c0 E0). pow2.
  destruct (Z.leb_spec (blockBase (flashDesc c0)) start); [|apply IH; lia].
  rewrite !(wrap_small 32) by (pow2; lia). rewrite (proj2 (Z.leb_gt _ _)) by lia. simpl. apply IH. lia.
Qed.

Lemma convert_run i c start w (Q : unit -> W -> Prop) :
  driver_ok w -> configs w !! i = Some c ->
  blockBase (flashDesc c) <= start <= blockBase (flashDesc c) + totalSize (flashDesc c) ->
  Q tt (converted i c start w) -> wp (flash_convert_start_address (Some i) start) Q w.
Proof.
  intros Hok Hc Hr HQ. unfold flash_convert_start_address. rewrite wp_bind, (wp_deref _ _ _ _ Hc). cbv zeta beta.
  assert (Hf := ok_fits _ Hok _ _ Hc). assert (Hs := fits_space _ _ Hf start Hr). assert (Hend := fits_end _ _ Hf).
  unfold converted, translated in *. destruct (_ && _).
  - rewrite (wp_update _ _ _ _ _ Hc). change (2 ^ 24) with 16777216 in *.
    rewrite (wrap_small 32 (start - _)), (wrap_small 32 (_ + 0x800000)) by (pow2; lia). exact HQ.
  - rewrite (wp_update _ _ _ _ _ Hc). exact HQ.
Qed.

(** An operation on a range of the i-th flash is the controller's operation
    after the translation. *)
Lemma in_flash_run i c start len w (m : option nat -> M W status_t) (Q : status_t -> W -> Prop) :
  driver_ok w -> lies_in w i c start len -> wp (m (Some i)) Q (converted i c start w) ->
  wp (in_flash true start len m) Q w.
Proof.
  intros Hok Hin HQ. unfold in_flash, flash_check_range_to_get_index. cbn [negb]. rewrite wp_bind.
  assert (Hc := in_config _ _ _ _ _ Hin). assert (Hi : (i < length (configs w))%nat) by by apply lookup_lt_Some in Hc.
  assert (Hcount := ok_count _ Hok). assert (Hr := in_range _ _ _ _ _ Hin).
  apply (find_flash_run _ _ _ _ _ i c); [done|done|lia|]. unfold or_return. simpl. rewrite Nat2Z.id, wp_bind.
  apply (convert_run i c); [done|done|lia|done].
Qed.

(** *** The range check of the controller layer *)

Lemma aligned_test x j : 0 <= j <= 7 -> (Z.land x (u8 (2 ^ j - 1)) =? 0) = (x mod 2 ^ j =? 0).
Proof.
  intros Hj. assert (1 <= 2 ^ j <= 2 ^ 7) by (split; [apply (Z.pow_le_mono_r 2 0 j); lia|apply Z.pow_le_mono_r; lia]).
  change (2 ^ 7) with 128 in *. rewrite (wrap_small 8) by (pow2; lia).
  replace (2 ^ j - 1) with (Z.ones j) by (rewrite Z.ones_equiv; lia). by rewrite Z.land_ones by lia.
Qed.

Lemma check_mem_range_ok i c start len j :
  fits i c -> 0 <= j <= 7 -> (2 ^ j | start) -> (2 ^ j | len) ->
  blockBase (flashDesc c) <= start -> 0 <= len -> start + len <= blockBase (flashDesc c) + totalSize (flashDesc c) ->
  ftfx_check_mem_range c start len (2 ^ j) = kStatus_FTFx_Success.
Proof.
  intros Hf Hj [a Ha] [b Hb] Hlo Hlen Hhi. unfold ftfx_check_mem_range. cbv zeta.
  assert (0 < 2 ^ j) by (apply Z.pow_pos_nonneg; lia).
  rewrite !aligned_test by done. rewrite Ha, Hb, !Z.mod_mul by lia. simpl. rewrite <- Ha, <- Hb.
  assert (Hend := fits_end _ _ Hf). assert (Hbs := fits_base _ _ Hf). pow2.
  rewrite !(wrap_small 32) by (pow2; lia). by rewrite !(proj2 (Z.leb_le _ _)) by lia.
Qed.

Lemma check_mem_range_misaligned c start len j :
  0 <= j <= 7 -> ~ ((2 ^ j | start) /\ (2 ^ j | len)) ->
  ftfx_check_mem_range c start len (2 ^ j) = kStatus_FTFx_AlignmentError.
Proof.
  intros Hj Hn. unfold ftfx_check_mem_range. cbv zeta. assert (0 < 2 ^ j) by (apply Z.pow_pos_nonneg; lia).
  rewrite !aligned_test by done.
  destruct (Z.eqb_spec (start mod 2 ^ j) 0) as [E1|E1], (Z.eqb_spec (len mod 2 ^ j) 0) as [E2|E2]; try done.
  exfalso. apply Hn. split; apply Z.mod_divide; lia.
Qed.

Lemma translated_converted x c start : translated (set_convertedAddress x c) start = translated c start.
Proof. unfold translated. by rewrite desc_converted. Qed.

Lemma translated_shift c start :
  translated c start = translated c (blockBase (flashDesc c)) + (start - blockBase (flashDesc c)).
Proof. unfold translated. destruct (_ && _); lia. Qed.

Lemma translated_divide i c d start : fits i c -> (d | sector) -> (d | start) -> (d | translated c start).
Proof.
  intros Hf Hs Hst. destruct (fits_aligned _ _ Hf) as [H1 H2]. rewrite translated_shift.
  apply Z.divide_add_r; [by transitivity sector|]. apply Z.divide_sub_r; [done|by transitivity sector].
Qed.

Lemma lies_in_converted i c start a len w d :
  lies_in w i c start len ->
  lies_in (set_hw d (converted i c a w)) i (set_convertedAddress (translated c a) c) start len.
Proof.
  intros [H1 H2 H3]. assert (Hi : (i < length (configs w))%nat) by by apply lookup_lt_Some in H1.
  split; [by apply list_lookup_insert_eq|by rewrite desc_converted|].
  intros j c' Hj Hc. cbn in Hc. rewrite list_lookup_insert_ne in Hc by lia. by apply (H3 j).
Qed.

(** *** Erasing *)

(** The bytes of the sectors a range touches. *)
Definition first_sector (c : ftfx_config) (start : Z) : Z := translated c start / sector.
Definition sectors (c : ftfx_config) (start len : Z) : Z :=
  (translated c start + len - 1) / sector - first_sector c start + 1.
Definition touched_lo (c : ftfx_config) (start : Z) : Z := first_sector c start * sector.
Definition touched_hi (c : ftfx_config) (start len : Z) : Z := (first_sector c start + sectors c start len) * sector.

Lemma two_divides j : 1 <= j -> (2 | 2 ^ j).
Proof. intros Hj. exists (2 ^ (j - 1)). rewrite Z.mul_comm, <- Z.pow_succ_r by lia. f_equal. lia. Qed.

Lemma sector_range : module_ok -> 8 <= sector <= 2 ^ 24 /\ (2 | sector).
Proof.
  intros [(k & Hk & ->) _]. split.
  - split; [apply (Z.pow_le_mono_r 2 3 k); lia|apply Z.pow_le_mono_r; lia].
  - apply two_divides. lia.
Qed.

(** Every operation starts the same way: the translated address is in the
    configuration, the range check succeeds, and the range is in the command
    address space. *)
Lemma enter i c start len w :
  driver_ok w -> lies_in w i c start len ->
  exists c1, c1 = set_convertedAddress (translated c start) c /\
    configs (converted i c start w) !! i = Some c1 /\
    ready run_buffer i c1 (converted i c start w) /\ fits i c1 /\
    flashDesc c1 = flashDesc c /\ addrAligment (opsConfig c1) = addrAligment (opsConfig c) /\
    convertedAddress (opsConfig c1) = translated c start /\
    0 <= translated c start /\ translated c start + len <= 2 ^ 24 /\
    (forall j, 0 <= j <= 7 -> (2 ^ j | start) -> (2 ^ j | len) ->
      ftfx_check_mem_range c1 start len (2 ^ j) = kStatus_FTFx_Success).
Proof.
  intros Hok Hin. assert (Hc := in_config _ _ _ _ _ Hin). assert (Hf := ok_fits _ Hok _ _ Hc).
  destruct (in_range _ _ _ _ _ Hin) as (R1 & R2 & R3).
  assert (Hok' := ok_converted i c start w Hok Hc).
  set (c1 := set_convertedAddress (translated c start) c).
  assert (Hc1 : configs (converted i c start w) !! i = Some c1)
    by (apply list_lookup_insert_eq; by apply lookup_lt_Some in Hc).
  assert (E1 : flashDesc c1 = flashDesc c) by apply desc_converted.
  assert (Hf1 := ok_fits _ Hok' _ _ Hc1).
  assert (Ha := fits_space _ _ Hf start ltac:(lia)). assert (Hae := fits_space _ _ Hf (start + len) ltac:(lia)).
  rewrite (translated_shift c (start + len)) in Hae. assert (Es := translated_shift c start).
  exists c1. split_and!; [done|done|by apply (ok_ready _ Hok')|done|done|by destruct c as [? [? ?] ? ? ? ? ?]
    |by destruct c as [? [? ?] ? ? ? ? ?]|lia|lia|].
  intros j Hj H1 H2. by apply (check_mem_range_ok i); rewrite ?E1.
Qed.

(** The last address the erase loop goes to. *)
Lemma erase_end a len :
  module_ok -> 0 <= a -> 0 < len -> a + len <= 2 ^ 24 -> (2 | a + len) ->
  let e := u32 (u32 (a + len) - 1) in
  e mod sector <> 0 /\ u32 (u32 (u32 (e / sector + 1) * sector) - 1) = ((a + len - 1) / sector + 1) * sector - 1 /\
  ((a + len - 1) / sector + 1) * sector <= 2 ^ 24 /\ a / sector <= (a + len - 1) / sector.
Proof.
  intros Hm Ha Hlen Hend H2. destruct (sector_range Hm) as [Hs H2s]. change (2 ^ 24) with 16777216 in *. cbv zeta.
  rewrite (wrap_small 32 (a + len)), (wrap_small 32 (a + len - 1)) by (pow2; lia). set (e := a + len - 1).
  assert (Hodd : e mod sector <> 0).
  { intros E0. apply Z.mod_divide in E0; [|lia].
    assert (H1 : (2 | a + len - e)) by (apply Z.divide_sub_r; [done|by transitivity sector]).
    replace (a + len - e) with 1 in H1 by (unfold e; lia). apply Z.divide_1_r_nonneg in H1; lia. }
  assert (H0 : 0 <= e / sector <= e).
  { split; [apply Z.div_pos; unfold e; lia|apply Z.div_le_upper_bound; [lia|]; unfold e; nia]. }
  assert (Hpow : (e / sector + 1) * sector <= 16777216).
  { destruct Hm as [(k & Hk & Ek) _].
    assert (Hk24 : 16777216 = 2 ^ (24 - k) * sector) by (rewrite Ek, <- Z.pow_add_r by lia; replace (24 - k + k) with 24 by lia; done).
    assert (Hlt : e / sector < 2 ^ (24 - k)) by (apply Z.div_lt_upper_bound; [lia|]; unfold e in *; lia). nia. }
  assert (Hpos : 0 < (e / sector + 1) * sector) by (apply Z.mul_pos_pos; lia).
  split; [done|]. split; [|split; [done|apply Z.div_le_mono; unfold e; lia]].
  rewrite (wrap_small 32 (e / sector + 1)), (wrap_small 32 (_ * sector)), (wrap_small 32 (_ - 1)) by (pow2; unfold e in *; lia).
  done.
Qed.

Context (Hpolls : (latency < polls)%nat).

Lemma erase_run fuel i c start len w (Q : status_t -> W -> Prop) :
  driver_ok w -> lies_in w i c start len -> 0 < len ->
  (sectorCmd (addrAligment (opsConfig c)) | start) -> (sectorCmd (addrAligment (opsConfig c)) | len) ->
  sectors c start len < Z.of_nat fuel ->
  (forall s d l, busy d = O ->
    works (touched_lo c start) (touched_hi c start len) (fun _ => 255) s (vw w) (view d) ->
    v_log (view d) = v_log (vw w) ++ l ->
    launches (headings FTFx_ERASE_SECTOR (translated c start) sector (Z.to_nat (sectors c start len))) s l ->
    Q s (set_hw d (converted i c start w))) ->
  wp (FLASH_Erase run_buffer polls fuel true start len kFTFx_ApiEraseKey) Q w.
Proof.
  intros Hok Hin Hlen Ha1 Ha2 Hfuel HQ. apply (in_flash_run i c); [done|done|].
  assert (Hm := ok_module _ Hok). destruct (fits_erase _ _ (ok_fits _ Hok _ _ (in_config _ _ _ _ _ Hin))) as (j & Hj & Ej & Hjs).
  assert (Hf := ok_fits _ Hok _ _ (in_config _ _ _ _ _ Hin)).
  destruct (enter _ _ _ _ _ Hok Hin) as (c1 & _ & Hc1 & Hr1 & Hf1 & E1 & E2 & E3 & Ha0 & Hae & Hcheck).
  rewrite Ej in Ha1, Ha2. set (a := translated c start) in *.
  assert (H2a : (2 | a + len)).
  { assert (H2j : (2 | 2 ^ j)) by (apply two_divides; lia). apply Z.divide_add_r; [|by transitivity (2 ^ j)].
    apply (translated_divide i); [done|by apply sector_range|by transitivity (2 ^ j)]. }
  destruct (erase_end a len Hm Ha0 Hlen Hae H2a) as (He1 & He2 & He3 & He4).
  unfold FTFx_CMD_Erase. rewrite wp_bind, (wp_deref _ _ _ _ Hc1). cbv zeta beta. rewrite E1, E2, E3, Ej.
  rewrite Hcheck, or_return_success by (done || lia).
  change (ftfx_check_user_key _) with kStatus_FTFx_Success. rewrite or_return_success, (fits_sector _ _ Hf).
  rewrite wp_bind, (wp_lift _ (u32 (u32 (a + len) - 1) mod sector)) by (apply umod_ok; destruct (sector_range Hm); lia).
  rewrite (proj2 (Z.eqb_neq _ _) He1). cbn [negb]. rewrite He2.
  assert (Hn : sectors c start len = (a + len - 1) / sector - a / sector + 1) by done.
  replace ((a + len - 1) / sector + 1) with (a / sector + Z.of_nat (Z.to_nat (sectors c start len))) in * by lia.
  apply (erase_loop_run run_buffer polls Hpolls _ _ i c1); [lia|done|destruct (sector_range Hm); lia|done|done|].
  intros s d l Hb Hw Hl Hp. rewrite Z2Nat.id in Hw by lia. by apply (HQ s d l).
Qed.

(** *** Programming *)

(** What programming makes of a byte: bits are only cleared. *)
Definition programmed (c : ftfx_config) (start src : Z) (w : W) (x : Z) : Z :=
  Z.land (v_flash (vw w) x) (f_mem w (src + (x - translated c start))).

Lemma program_run fuel i c start src len w (Q : status_t -> W -> Prop) :
  let u := blockWriteUnitSize (addrAligment (opsConfig c)) in
  driver_ok w -> lies_in w i c start len -> bytes (f_mem w) -> src <> 0 -> (u | start) -> (u | len) ->
  len / u < Z.of_nat fuel ->
  (forall s d l, busy d = O ->
    works (translated c start) (translated c start + len) (programmed c start src w) s (vw w) (view d) ->
    v_log (view d) = v_log (vw w) ++ l ->
    launches (headings (program_op u) (translated c start) u (Z.to_nat (len / u))) s l ->
    Q s (set_hw d (converted i c start w))) ->
  wp (FLASH_Program run_buffer polls fuel true start src len) Q w.
Proof.
  intros u Hok Hin Hm Hsrc Hu1 Hu2 Hfuel HQ. apply (in_flash_run i c); [done|done|].
  assert (Hf := ok_fits _ Hok _ _ (in_config _ _ _ _ _ Hin)).
  destruct (enter _ _ _ _ _ Hok Hin) as (c1 & _ & Hc1 & Hr1 & Hf1 & E1 & E2 & E3 & Ha0 & Hae & Hcheck).
  destruct (in_range _ _ _ _ _ Hin) as (_ & Hlen & _).
  assert (Hu : u = 4 \/ u = 8) by apply (fits_unit _ _ Hf).
  unfold FTFx_CMD_Program. rewrite wp_bind, (wp_deref _ _ _ _ Hc1). cbv zeta beta. rewrite E2, E3. fold u.
  rewrite (proj2 (Z.eqb_neq _ _) Hsrc).
  assert (Hch : ftfx_check_mem_range c1 start len u = kStatus_FTFx_Success).
  { destruct Hu as [E|E]; rewrite E in *; [apply (Hcheck 2)|apply (Hcheck 3)]; done || lia. }
  rewrite Hch, or_return_success.
  assert (Hlu : len = u * Z.of_nat (Z.to_nat (len / u))).
  { destruct Hu2 as [q Hq]. rewrite Hq, Z.div_mul by lia. rewrite Z2Nat.id by nia. lia. }
  assert (Hn : (Z.to_nat (len / u) < fuel)%nat).
  { assert (0 <= len / u) by (apply Z.div_pos; lia). lia. }
  clear Hfuel.
  set (m := Z.to_nat (len / u)) in *. clearbody m. subst len. apply (program_loop_run run_buffer polls Hpolls u _ _ i c1 (programmed c start src w));
    [done|lia|done|done|done|lia|done|].
  intros s d l Hb Hw Hl Hp. by apply (HQ s d l).
Qed.

(** A change of the FlexRAM's function leaves the flash alone. *)
Lemma flexram_run i c w v0 option (Q : status_t -> W -> Prop) :
  option = kFTFx_FlexramFuncOptAvailableAsRam \/ option = kFTFx_FlexramFuncOptAvailableForEeprom ->
  ready run_buffer i c w -> v_flash (vw w) = v_flash v0 -> v_log (vw w) = v_log v0 ->
  (forall d s cmd, busy d = O -> (forall x, v_flash (view d) x = v_flash v0 x) ->
    v_log (view d) = v_log v0 ++ [cmd] -> opcode cmd = FTFx_SET_FLEXRAM_FUNCTION ->
    s = kStatus_FTFx_Success \/ command_error s -> Q s (set_hw d w)) ->
  wp (FTFx_CMD_SetFlexramFunction run_buffer polls (Some i) option) Q w.
Proof.
  intros Ho Hr Hf Hl HQ. unfold FTFx_CMD_SetFlexramFunction. cbn [is_null].
  assert (E : ftfx_check_flexram_function_option option = kStatus_FTFx_Success).
  { unfold ftfx_check_flexram_function_option. by destruct Ho as [->| ->]. }
  rewrite E, or_return_success, wp_bind. apply fccob_run; [by destruct Hr|]. intros d1 Hb1 Hv1.
  assert (Hop : opcode (operands (view d1)) = FTFx_SET_FLEXRAM_FUNCTION).
  { rewrite Hv1. by destruct Ho as [->| ->]. }
  apply (check_run run_buffer polls Hpolls _ c _ v0); [by apply ready_hw|cbn [f_hw set_hw]; by rewrite Hv1
    |cbn [f_hw set_hw]; by rewrite Hv1|cbn [f_hw set_hw]; by rewrite Hop|].
  intros d s Hb Hfd Hld _ Hs. rewrite set_hw_set_hw. by apply (HQ _ _ (operands (view d1))).
Qed.

(** The commands of a section programming: the sections, and the changes of
    the FlexRAM's function before and after them. *)
Definition section_or_switch (c : command) : Prop :=
  within_sector c \/ opcode c = FTFx_SET_FLEXRAM_FUNCTION.

Section SectionPhase.
Context (fuel i : nat) (c1 : ftfx_config) (value : Z -> Z) (start src len : Z) (w : W) (Q : status_t -> W -> Prop).
Abbreviation a := (convertedAddress (opsConfig c1)).
Hypotheses (Hm : module_ok) (Hf : fits i c1) (Hr : ready run_buffer i c1 w) (Hby : bytes (f_mem w)) (Hsrc : src <> 0)
  (Hpa : (phrase | a)) (Hpl : (phrase | len)) (Hfuel : len <= phrase * Z.of_nat fuel - phrase)
  (Hlen : 0 <= len) (Ha : 0 <= a) (Hend : a + len <= 2 ^ 24)
  (Hcheck : ftfx_check_mem_range c1 start len phrase = kStatus_FTFx_Success)
  (Hv : forall x, a <= x < a + len -> Z.land (v_flash (vw w) x) (f_mem w (src + (x - a))) = value x)
  (HQ : forall s d l, busy d = O -> works a (a + len) value s (vw w) (view d) ->
    v_log (view d) = v_log (vw w) ++ l -> Forall section_or_switch l -> Q s (set_hw d w)).

(** The sections, after switches [l0] that left the flash alone, and the
    switch back. *)
Lemma section_body_run (b : bool) d l0 :
  busy d = O -> (forall x, v_flash (view d) x = v_flash (vw w) x) ->
  v_log (view d) = v_log (vw w) ++ l0 -> Forall section_or_switch l0 ->
  wp (returnCode <- section_loop run_buffer polls fuel (Some i) sector phrase a src len kStatus_FTFx_Success ;;
      or_return returnCode (if b then FTFx_CMD_SetFlexramFunction run_buffer polls (Some i) kFTFx_FlexramFuncOptAvailableForEeprom
        else ret returnCode)) Q (set_hw d w).
Proof.
  intros Hb Hfd Hld Hl0. rewrite wp_bind. destruct Hm as ((k & Hk & Ek) & (j & Hj & Ej) & Hps & H1024).
  assert (Hp0 : 0 < phrase) by (rewrite Ej; apply Z.pow_pos_nonneg; lia).
  assert (Hfu : (0 < fuel)%nat) by (destruct fuel; lia).
  apply (section_loop_run run_buffer polls Hpolls k fuel i c1 value); try done; try lia; [by apply ready_hw|apply (fits_ram _ _ Hf)| |].
  { intros x Hx. cbn [f_hw set_hw f_mem]. rewrite Hfd. by apply Hv. }
  intros d2 s l Hb2 Hw2 Hl2 Hwl. rewrite set_hw_set_hw. cbn [f_hw set_hw] in *.
  assert (Hw : works a (a + len) value s (vw w) (view d2)).
  { destruct Hw2 as [W1 W2 W3]. split; [|done|done]. intros x Hx. by rewrite W1, Hfd. }
  assert (Hl : v_log (view d2) = v_log (vw w) ++ (l0 ++ l)) by by rewrite Hl2, Hld, app_assoc.
  assert (Hall : Forall section_or_switch (l0 ++ l)).
  { apply Forall_app. split; [done|]. eapply Forall_impl; [|exact Hwl]. intros ? ?. by left. }
  destruct (works_status _ _ _ _ _ _ Hw) as [->|Herr].
  - rewrite or_return_success. destruct b; [|apply wp_ret; by apply (HQ _ _ (l0 ++ l))].
    apply (flexram_run i c1 _ (view d2)); [by right|by apply ready_hw|done|done|].
    intros d3 s cmd Hb3 Hf3 Hl3 Hcmd Hs3. rewrite set_hw_set_hw. apply (HQ _ _ ((l0 ++ l) ++ [cmd])); [done| | |].
    + destruct Hw as [W1 W2 W3]. split; [|intros x _ Hx; by rewrite Hf3, W2|done]. intros x Hx. by rewrite Hf3, W1.
    + by rewrite Hl3, Hl, <- !app_assoc.
    + apply Forall_app. split; [done|]. constructor; [by right|done].
  - rewrite or_return_error by (by apply command_error_not_success). apply wp_ret. by apply (HQ _ _ (l0 ++ l)).
Qed.

Lemma section_phase_run : wp (FTFx_CMD_ProgramSection run_buffer polls fuel (Some i) start src len) Q w.
Proof.
  unfold FTFx_CMD_ProgramSection. rewrite wp_bind, (wp_deref _ _ _ _ (ready_config _ _ _ _ Hr)). cbv zeta beta.
  rewrite (fits_section _ _ Hf), (proj2 (Z.eqb_neq _ _) Hsrc), Hcheck, or_return_success, (fits_sector _ _ Hf).
  rewrite wp_bind. destruct HAS_SET_FLEXRAM_FUNCTION_CMD.
  - rewrite wp_bind, wp_on_hw. unfold wp at 1, rd. assert (Hrd := read_plain (f_hw w) FCNFG ltac:(done)).
    destruct (reg_read FCNFG (f_hw w)) as [x d]. simpl in Hrd. subst d. rewrite set_hw_id, wp_ret, wp_bind.
    destruct (negb (has x FTFx_FCNFG_RAMRDY_MASK)).
    + apply (flexram_run i c1 _ (vw w)); [by left|done|done|done|].
      intros d s cmd Hb Hfd Hld Hcmd [->|Herr].
      * rewrite or_return_success. apply (section_body_run true d [cmd]); [done|done|done|]. constructor; [by right|done].
      * rewrite or_return_error by (by apply command_error_not_success). apply wp_ret.
        apply (HQ _ _ [cmd]); [done| |done|constructor; [by right|done]].
        split; [by intros; apply Hfd|intros x0 E; by apply command_error_not_success in Herr|by right].
    + rewrite wp_ret, or_return_success. rewrite <- (set_hw_id w).
      apply (section_body_run false (f_hw w) []); [by destruct Hr|done|by rewrite app_nil_r|done].
  - rewrite wp_ret, wp_bind, wp_ret, or_return_success. rewrite <- (set_hw_id w).
    apply (section_body_run false (f_hw w) []); [by destruct Hr|done|by rewrite app_nil_r|done].
Qed.
End SectionPhase.

Lemma section_run fuel i c start src len w (Q : status_t -> W -> Prop) :
  driver_ok w -> lies_in w i c start len -> bytes (f_mem w) -> src <> 0 -> (phrase | start) -> (phrase | len) ->
  len <= phrase * Z.of_nat fuel - phrase ->
  (forall s d l, busy d = O ->
    works (translated c start) (translated c start + len) (programmed c start src w) s (vw w) (view d) ->
    v_log (view d) = v_log (vw w) ++ l -> Forall section_or_switch l ->
    Q s (set_hw d (converted i c start w))) ->
  wp (FLASH_ProgramSection run_buffer polls fuel true start src len) Q w.
Proof.
  intros Hok Hin Hm Hsrc Hp1 Hp2 Hfuel HQ. apply (in_flash_run i c); [done|done|].
  assert (Hf := ok_fits _ Hok _ _ (in_config _ _ _ _ _ Hin)).
  destruct (enter _ _ _ _ _ Hok Hin) as (c1 & _ & Hc1 & Hr1 & Hf1 & E1 & E2 & E3 & Ha0 & Hae & Hcheck).
  destruct (in_range _ _ _ _ _ Hin) as (_ & Hlen & _). destruct (ok_module _ Hok) as (_ & (j & Hj & Ej) & Hps & _).
  apply (section_phase_run fuel i c1 (programmed c start src w)); rewrite ?E3; try done.
  - by apply (ok_module _ Hok).
  - by apply (translated_divide i).
  - rewrite Ej in *. by apply Hcheck.
Qed.

(** *** Verifying *)

Lemma verify_erase_run fuel i c start len margin w (Q : status_t -> W -> Prop) :
  driver_ok w -> lies_in w i c start len -> (phrase | start) -> (phrase | len) ->
  len <= phrase * Z.of_nat fuel - phrase ->
  (forall s d l, busy d = O -> (forall x, v_flash (view d) x = v_flash (vw w) x) ->
    v_log (view d) = v_log (vw w) ++ l -> Forall (within_block (block_size c)) l ->
    (s = kStatus_FTFx_Success -> forall x, translated c start <= x < translated c start + len -> v_flash (vw w) x = 255) ->
    s = kStatus_FTFx_Success \/ command_error s -> Q s (set_hw d (converted i c start w))) ->
  wp (FLASH_VerifyErase run_buffer polls fuel true start len margin) Q w.
Proof.
  intros Hok Hin Hp1 Hp2 Hfuel HQ. apply (in_flash_run i c); [done|done|].
  assert (Hf := ok_fits _ Hok _ _ (in_config _ _ _ _ _ Hin)).
  destruct (enter _ _ _ _ _ Hok Hin) as (c1 & _ & Hc1 & Hr1 & Hf1 & E1 & E2 & E3 & Ha0 & Hae & Hcheck).
  destruct (in_range _ _ _ _ _ Hin) as (_ & Hlen & _). destruct (ok_module _ Hok) as (_ & (j & Hj & Ej) & Hps & _).
  destruct (fits_blocks _ _ Hf) as (Hbc & Hbp & Hb16 & jb & Hjb & Ejb).
  assert (Hp0 : 0 < phrase) by (rewrite Ej; apply Z.pow_pos_nonneg; lia).
  assert (Hbs : 0 < block_size c <= 2 ^ 24) by (rewrite Ejb; split; [apply Z.pow_pos_nonneg; lia|apply Z.pow_le_mono_r; lia]).
  unfold FTFx_CMD_VerifyErase. rewrite wp_bind, (wp_deref _ _ _ _ Hc1). cbv zeta beta. rewrite E1, E2, E3.
  rewrite (fits_section _ _ Hf).
  assert (Hch : ftfx_check_mem_range c1 start len phrase = kStatus_FTFx_Success) by (rewrite Ej in *; by apply Hcheck).
  rewrite Hch, or_return_success, wp_bind, (wp_lift _ (block_size c)) by (apply udiv_ok; lia).
  cbv beta zeta. rewrite Ejb. rewrite next_boundary by (change (2 ^ 24) with 16777216 in *; pow2; rewrite <- ?Ejb; lia).
  rewrite <- Ejb.
  apply (verify_erase_loop_run run_buffer polls Hpolls (block_size c) fuel i c1);
    [done|done|done|done|done|by apply (translated_divide i)|done|done|destruct fuel; lia|done|done|done|done|].
  intros d s l Hb Hfd Hl Hwl Hs Hst. by apply (HQ s d l).
Qed.

Lemma verify_program_run fuel i c start len data margin fa fd w (Q : status_t -> W -> Prop) :
  driver_ok w -> lies_in w i c start len -> bytes (f_mem w) -> data <> 0 -> (4 | start) -> (4 | len) ->
  len / 4 < Z.of_nat fuel ->
  (forall s w' d, busy d = O -> (forall x, v_flash (view d) x = v_flash (vw w) x) ->
    (s = kStatus_FTFx_Success /\ w' = set_hw d (converted i c start w) /\
       (forall x, translated c start <= x < translated c start + len ->
          v_flash (vw w) x = f_mem w (data + (x - translated c start)))
     \/ command_error s /\ exists k, 0 <= k < len / 4 /\
       w' = set_mem (note_failure fa fd (translated c start + 4 * k) (f_mem w)) (set_hw d (converted i c start w)) /\
       (forall x, translated c start <= x < translated c start + 4 * k ->
          v_flash (vw w) x = f_mem w (data + (x - translated c start)))) -> Q s w') ->
  wp (FLASH_VerifyProgram run_buffer polls fuel true start len data margin fa fd) Q w.
Proof.
  intros Hok Hin Hm Hdata H1 H2 Hfuel HQ. apply (in_flash_run i c); [done|done|].
  assert (Hf := ok_fits _ Hok _ _ (in_config _ _ _ _ _ Hin)).
  destruct (enter _ _ _ _ _ Hok Hin) as (c1 & _ & Hc1 & Hr1 & Hf1 & E1 & E2 & E3 & Ha0 & Hae & Hcheck).
  destruct (in_range _ _ _ _ _ Hin) as (_ & Hlen & _).
  unfold FTFx_CMD_VerifyProgram. rewrite wp_bind, (wp_deref _ _ _ _ Hc1). cbv zeta beta. rewrite E2, E3.
  rewrite (fits_check _ _ Hf), (proj2 (Z.eqb_neq _ _) Hdata).
  rewrite (Hcheck 2 ltac:(lia) H1 H2 : ftfx_check_mem_range c1 start len 4 = _), or_return_success.
  destruct H2 as [q ->]. rewrite Z.div_mul in * by lia.
  replace (q * 4) with (4 * Z.of_nat (Z.to_nat q)) by lia.
  apply (verify_program_loop_run run_buffer polls Hpolls margin fa fd _ _ i c1); [lia|done|done|done|lia|].
  intros d s l w' Hb Hfd Hl Hp Hs. apply (HQ s w' d); [done|done|].
  replace (4 * Z.of_nat (Z.to_nat q)) with (q * 4) in Hs by lia.
  destruct Hs as [Hs|(Hs & k & Hk & -> & Hx)]; [by left|right]. split; [done|]. exists (Z.of_nat k).
  split; [lia|]. by split.
Qed.
End Ops.
