(* ===== verification/FtfxDevice.v ===== *)
(** * A flash module to run the driver on

    A module of 16 KB with sectors of 1 KB and phrases of 8 bytes that carries
    out each command as [exec] describes, and the configuration of a device
    that has it.  The witnesses run on it. *)

From stdpp Require Import base list numbers tactics.
From Stdlib Require Import ZArith Lia.
From S2P Require Import Prelude Mmio Ftfx FtfxFlash FtfxEngine.

Open Scope Z_scope.

#[export] Instance ftfx_fields : FtfxFields := {|
  FTFx_FSTAT_CCIF_MASK := 0x80; FTFx_FSTAT_CCIF_SHIFT := 7; FTFx_FSTAT_RDCOLERR_MASK := 0x40;
  FTFx_FSTAT_ACCERR_MASK := 0x20; FTFx_FSTAT_FPVIOL_MASK := 0x10; FTFx_FSTAT_MGSTAT0_MASK := 0x01;
  FTFx_FSEC_SEC_MASK := 0x03; FTFx_FSEC_KEYEN_MASK := 0xC0;
  FTFx_FCNFG_RAMRDY_MASK := 0x02; FTFx_FCNFG_EEERDY_MASK := 0x01;
  SIM_FCFG1_DEPART_MASK := 0xF00; SIM_FCFG1_DEPART_SHIFT := 8;
  SIM_FCFG1_EEERAMSIZE_MASK := 0xF0000; SIM_FCFG1_EEERAMSIZE_SHIFT := 16;
  SIM_FLASH0_PFSIZE_MASK := 0xF000000; SIM_FLASH0_PFSIZE_SHIFT := 24;
  SIM_FLASH1_PFSIZE_MASK := 0; SIM_FLASH1_PFSIZE_SHIFT := 0
|}.

#[export] Instance ftfx_features : FtfxFeatures := {|
  FTFx_DRIVER_IS_FLASH_RESIDENT := true; variant := FTFE;
  HAS_FLEX_NVM := false; HAS_FLEX_NVM_ALIAS := false; HAS_READ_RESOURCE_CMD := true;
  HAS_SET_FLEXRAM_FUNCTION_CMD := true; HAS_SWAP_CONTROL_CMD := true; HAS_DEPART_FIELD := true;
  FLEX_RAM_START_ADDRESS := 0x14000000; FLEX_RAM_SIZE := 0x1000;
  FLEX_NVM_EEPROM_SIZE_FOR_EEESIZE := repeat 0xFFFF 16; FLEX_NVM_DFLASH_SIZE_FOR_DEPART := repeat 0xFFFFFFFF 16;
  PFLASH_SWAP_CONTROL_CMD_ADDRESS_ALIGMENT := 16
|}.

Definition flash0 : pflash_feature := {|
  PFLASH_START_ADDRESS := 0; PFLASH_BLOCK_COUNT := 2; PFLASH_BLOCK_SIZE := 0x2000; PFLASH_BLOCK_SECTOR_SIZE := 0x400;
  PFLASH_BLOCK_WRITE_UNIT_SIZE := 8; PFLASH_SECTOR_CMD_ADDRESS_ALIGMENT := 16;
  PFLASH_SECTION_CMD_ADDRESS_ALIGMENT := 8; PFLASH_PROTECTION_REGION_COUNT := 8
|}.
#[export] Instance flash_features : FlashFeatures := {|
  FTFx_FLASH_COUNT := 1; FLASH0 := flash0; FLASH1 := flash0;
  PFLASH_RESOURCE_CMD_ADDRESS_ALIGMENT := 8; PFLASH_CHECK_CMD_ADDRESS_ALIGMENT := 4;
  HAS_ACCESS_CONTROL := false; FTFx_FLASH0_HAS_HIGH_PROT_REG := false;
  FTFx_FLASH1_IS_INDEPENDENT_BLOCK := false; FTFx_FLASH1_HAS_INT_PROT_REG := false;
  FTFx_FLASH1_HAS_INT_XACC_REG := false; SIM_FLASH_NOT_USED := true; SIZE_ENCODING_RULE_VERSION_1 := false
|}.

Definition dev_size : Z := 0x4000.
Definition dev_sector : Z := 0x400.
Definition dev_phrase : Z := 8.
Definition dev_ram : Z := 0x14000000.

(** [n] consecutive bytes satisfy [p]. *)
Definition all_bytes (a n : Z) (p : Z -> bool) : bool := forallb (fun i => p (a + Z.of_nat i)) (seq 0 (Z.to_nat n)).

Lemma all_bytes_spec a n p : all_bytes a n p = true -> forall x, a <= x < a + n -> p x = true.
Proof.
  unfold all_bytes. rewrite forallb_forall. intros H x Hx.
  specialize (H (Z.to_nat (x - a))). rewrite Z2Nat.id in H by lia. replace (a + (x - a)) with x in H by lia.
  apply H, in_seq. lia.
Qed.

(** The bytes a command needs. *)
Definition extent (c : command) : Z :=
  if opcode c =? FTFx_ERASE_SECTOR then 1
  else if opcode c =? FTFx_PROGRAM_LONGWORD then 4
  else if opcode c =? FTFx_PROGRAM_PHRASE then 8
  else if opcode c =? FTFx_PROGRAM_CHECK then 4
  else if (opcode c =? FTFx_PROGRAM_SECTION) || (opcode c =? FTFx_VERIFY_SECTION) then dev_phrase * phrases c
  else 0.
Definition legal (c : command) : bool :=
  ((opcode c =? FTFx_SET_FLEXRAM_FUNCTION) || (opcode c =? FTFx_ERASE_ALL_BLOCK))
  || (0 <? extent c) && (address c + extent c <=? dev_size)
     && ((address c / dev_sector =? (address c + extent c - 1) / dev_sector) || (opcode c =? FTFx_VERIFY_SECTION)).

Definition check_result (c : command) (v : ftfx_view) : bool :=
  if opcode c =? FTFx_VERIFY_SECTION
  then all_bytes (address c) (dev_phrase * phrases c) (fun x => v_flash v x =? 255)
  else if opcode c =? FTFx_PROGRAM_CHECK
  then all_bytes (address c) 4 (fun x => v_flash v x =? byte_of (word2 c) (x - address c))
  else true.

Definition run_command (v : ftfx_view) : ftfx_view :=
  let c := operands v in
  if legal c then
    if check_result c v then
      FtfxView (fun x => if targets dev_sector dev_phrase c x then becomes dev_ram c v x else v_flash v x)
        (v_ram v) (v_cob v) 0 (v_log v ++ [c]) (v_reg v)
    else FtfxView (v_flash v) (v_ram v) (v_cob v) 1 (v_log v ++ [c]) (v_reg v)
  else FtfxView (v_flash v) (v_ram v) (v_cob v) 0x20 (v_log v ++ [c]) (v_reg v).

Lemma run_command_exec v : exec dev_sector dev_phrase dev_ram dev_size v (run_command v).
Proof.
  unfold run_command. destruct (legal (operands v)) eqn:El; [destruct (check_result (operands v) v) eqn:E|]; split;
    try done; cbn [v_flash v_flags failed].
  - intros x ->. done.
  - intros x _ _ ->. done.
  - intros _. unfold checked, check_result in *. destruct (opcode (operands v) =? FTFx_VERIFY_SECTION).
    + intros x Hx. apply Z.eqb_eq. exact (all_bytes_spec _ _ _ E x Hx).
    + destruct (opcode (operands v) =? FTFx_PROGRAM_CHECK); [|done].
      intros x Hx. apply Z.eqb_eq. exact (all_bytes_spec _ _ _ E x Hx).
  - intros Ho Ha. exfalso. unfold legal, extent in El. rewrite Ho in El. simpl in El.
    apply andb_prop in El as [El _]. apply Z.leb_le in El. lia.
Qed.

Record ftfx_dev := FtfxDev { dev_view : ftfx_view; dev_busy : nat }.

#[export] Instance ftfx_device : Device ftfx_reg ftfx_dev := {
  reg_read r d :=
    match r with
    | FSTAT => ((if (dev_busy d =? 0)%nat then Z.lor (v_flags (dev_view d)) 0x80 else 0), FtfxDev (dev_view d) (Nat.pred (dev_busy d)))
    | FCCOBx i => (v_cob (dev_view d) i, d)
    | _ => (v_reg (dev_view d) r, d)
    end;
  reg_write r v d :=
    match r with
    | FSTAT => if v =? 0x80 then FtfxDev (run_command (dev_view d)) 2 else FtfxDev (with_flags 0 (dev_view d)) (dev_busy d)
    | FCCOBx i => FtfxDev (with_cob i v (dev_view d)) (dev_busy d)
    | FlexRam 1 a => FtfxDev (with_ram a v (dev_view d)) (dev_busy d)
    | _ => d
    end
}.

#[export] Instance ftfx_laws : FtfxLaws (D := ftfx_dev).
Proof.
  refine {| view := dev_view; busy := dev_busy; latency := 2; sector := dev_sector; phrase := dev_phrase; ram_base := dev_ram; capacity := dev_size |}.
  - done.
  - done.
  - intros d. simpl. destruct (dev_busy d =? 0)%nat; [|done]. by apply (has_lor (v_flags (dev_view d)) 0x80).
  - intros d m Hb Hm. simpl. rewrite Hb. simpl. apply has_lor_keep.
    rewrite !elem_of_cons in Hm. destruct Hm as [->|[->|[->|Hm]]]; [done|done|done|by apply elem_of_nil in Hm].
  - intros d Hb. simpl. split; [done|by exists 0].
  - intros d Hb. simpl. split; [done|apply run_command_exec].
  - done.
  - done.
  - intros d r Hr. by destruct r.
  - done.
  - intros d r Hr. destruct r; try done; rewrite !elem_of_cons, elem_of_nil in Hr; intuition discriminate.
Defined.

(** Address of the code in RAM, a few polls, and the world before
    [FLASH_Init]: a flash in use, its fourth region protected, and a
    configuration of zeros. *)
Definition dev_run_buffer : Z := 0x1FFF0100.
Definition dev_polls : nat := 3.
Definition no_mem : ftfx_spec_mem := {| mem_base := 0; mem_size := 0; mem_count := 0 |}.
Definition zero_config : ftfx_config := {|
  flashDesc := {| flash_type := 0; flash_index := 0;
    feature := {| isIndBlock := 0; hasIndPfsizeReg := 0; hasProtControl := 0; hasIndProtReg := 0;
      hasXaccControl := 0; hasIndXaccReg := 0; ProtRegBits := 0 |};
    blockBase := 0; aliasBlockBase := 0; totalSize := 0; sectorSize := 0; blockCount := 0;
    accessSegmentMem := no_mem; protectRegionMem := no_mem |};
  opsConfig := {| convertedAddress := 0; addrAligment := {| sectorCmd := 0; sectionCmd := 0; resourceCmd := 0;
    checkCmd := 0; swapCtrlCmd := 0; blockWriteUnitSize := 0 |} |};
  flexramBlockBase := 0; flexramTotalSize := 0; eepromTotalSize := 0; commadAddr := 0;
  ifrDesc := {| has4ByteIdxSupport := 0; has8ByteIdxSupport := 0; versionIdStart := 0; versionIdSize := 0;
    ifrMemSize := 0; pflashIfrStart := 0; dflashIfrStart := 0; pflashSwapIfrStart := 0;
    mix8byteIdxStart := 0; mix8byteIdxEnd := 0 |}
|}.
(** Data for the examples: the byte at [a] is [a mod 256]. *)
Definition dev_world : ftfx_world ftfx_dev :=
  FtfxWorld (FtfxDev (FtfxView (fun x => x mod 251) (fun _ => 0) (fun _ => 0) 0 [] (fun _ => 0xF7)) 0)
    [zero_config] [] (fun a => a mod 256).
