(* ===== verification/FtfxInit.v ===== *)
(** * Initialising the flash driver

    [FLASH_Init] on a part with one flash: from the macros of the device
    header it builds a configuration that satisfies [driver_ok]. *)

From stdpp Require Import base list numbers tactics.
From Stdlib Require Import ZArith Lia.
From S2P Require Import Prelude Mmio Ftfx FtfxFlash FtfxEngine FtfxLoops FtfxSection FtfxVerify FtfxOps FtfxDevice.

Open Scope Z_scope.
Open Scope prog_scope.

Section Init.
Context {D : Type} `{!Device ftfx_reg D} {F : FtfxFields} {X : FtfxFeatures} {L : FtfxLaws} {P : FlashFeatures}.
Abbreviation W := (ftfx_world D).
Abbreviation vw w := (view (f_hw w)).
Context (run_buffer : Z).

(** The size of the flash, in bytes. *)
Definition flash_bytes : Z := PFLASH_BLOCK_COUNT FLASH0 * PFLASH_BLOCK_SIZE FLASH0.

(** The header of a part with one flash describes the module. *)
Record header_ok : Prop := {
  header_module : module_ok;
  header_one : FTFx_FLASH_COUNT = 1%nat;
  header_fixed : SIM_FLASH_NOT_USED = true;
  header_base : 0 <= PFLASH_START_ADDRESS FLASH0 /\ PFLASH_START_ADDRESS FLASH0 + flash_bytes <= 2 ^ 24;
  header_aligned : (sector | PFLASH_START_ADDRESS FLASH0);
  header_sector : PFLASH_BLOCK_SECTOR_SIZE FLASH0 = sector;
  header_erase : exists j, 1 <= j <= 7 /\ PFLASH_SECTOR_CMD_ADDRESS_ALIGMENT FLASH0 = 2 ^ j /\ (2 ^ j | sector);
  header_unit : PFLASH_BLOCK_WRITE_UNIT_SIZE FLASH0 = 4 \/ PFLASH_BLOCK_WRITE_UNIT_SIZE FLASH0 = 8;
  header_section : PFLASH_SECTION_CMD_ADDRESS_ALIGMENT FLASH0 = phrase;
  header_check : PFLASH_CHECK_CMD_ADDRESS_ALIGMENT = 4;
  header_ram : FLEX_RAM_START_ADDRESS = ram_base;
  header_blocks : 0 < PFLASH_BLOCK_COUNT FLASH0 /\ (phrase | PFLASH_BLOCK_SIZE FLASH0) /\
    PFLASH_BLOCK_SIZE FLASH0 < phrase * 2 ^ 16 /\ exists j, 0 <= j <= 24 /\ PFLASH_BLOCK_SIZE FLASH0 = 2 ^ j;
  header_regions : 0 < PFLASH_PROTECTION_REGION_COUNT FLASH0 < 2 ^ 16;
  header_code : FTFx_DRIVER_IS_FLASH_RESIDENT = true -> 0 <= run_buffer < 2 ^ 32 - 1
}.

(** What the initialisation makes of a configuration, as far as the
    operations look at it: first the layout, then the rest. *)
Record sized (bits : Z) (c : ftfx_config) : Prop := {
  init_bits : ProtRegBits (feature (flashDesc c)) = bits;
  init_index : flash_index (flashDesc c) = 0;
  init_base : blockBase (flashDesc c) = PFLASH_START_ADDRESS FLASH0;
  init_size : totalSize (flashDesc c) = flash_bytes;
  init_sector : sectorSize (flashDesc c) = PFLASH_BLOCK_SECTOR_SIZE FLASH0;
  init_count : blockCount (flashDesc c) = PFLASH_BLOCK_COUNT FLASH0;
  init_alignment : addrAligment (opsConfig c) = {|
    sectorCmd := u8 (PFLASH_SECTOR_CMD_ADDRESS_ALIGMENT FLASH0); sectionCmd := u8 (PFLASH_SECTION_CMD_ADDRESS_ALIGMENT FLASH0);
    resourceCmd := u8 PFLASH_RESOURCE_CMD_ADDRESS_ALIGMENT; checkCmd := u8 PFLASH_CHECK_CMD_ADDRESS_ALIGMENT;
    swapCtrlCmd := u8 PFLASH_SWAP_CONTROL_CMD_ADDRESS_ALIGMENT;
    blockWriteUnitSize := u8 (PFLASH_BLOCK_WRITE_UNIT_SIZE FLASH0) |}
}.
Record initialised (bits : Z) (c : ftfx_config) : Prop := {
  init_sized : sized bits c;
  init_ram : flexramBlockBase c = FLEX_RAM_START_ADDRESS;
  init_code : FTFx_DRIVER_IS_FLASH_RESIDENT = true -> commadAddr c = run_buffer;
  init_regions : protectRegionMem (flashDesc c) = {| mem_base := PFLASH_START_ADDRESS FLASH0;
    mem_size := Z.max (flash_bytes / PFLASH_PROTECTION_REGION_COUNT FLASH0) kFTFx_MinProtectBlockSize;
    mem_count := PFLASH_PROTECTION_REGION_COUNT FLASH0 |}
}.

Lemma initialised_fits bits c : header_ok -> initialised bits c -> fits 0 c.
Proof.
  intros [Hm H1 H2 H3 H4 H5 H6 H7 H8 H9 H10 (Hb1 & Hb2 & Hb3 & jb & Hj & Ejb) H12 H13] [[_ I1 I2 I3 I4 I5 I6] I7 I8 I9].
  destruct Hm as (_ & (jp & Hjp & Ejp) & _). change (2 ^ 24) with 16777216 in *.
  assert (Hp : 0 < phrase <= 128).
  { rewrite Ejp. split; [apply Z.pow_pos_nonneg; lia|]. apply (Z.pow_le_mono_r 2 jp 7); lia. }
  assert (Hbs : block_size c = PFLASH_BLOCK_SIZE FLASH0).
  { unfold block_size. rewrite I3, I5. unfold flash_bytes. rewrite Z.mul_comm. apply Z.div_mul. lia. }
  assert (Hbs0 : 0 < PFLASH_BLOCK_SIZE FLASH0) by (rewrite Ejb; apply Z.pow_pos_nonneg; lia).
  assert (Ht : forall x, translated c x = x) by (intros x; unfold translated; by rewrite I1, andb_false_r).
  split; rewrite ?I1, ?I2, ?I3, ?I4, ?I5, ?I6, ?I7, ?Hbs, ?Ht; cbn [sectorCmd sectionCmd checkCmd blockWriteUnitSize]; try done.
  - change (2 ^ 31) with 2147483648. unfold flash_bytes in *. nia.
  - intros start Hs. rewrite Ht. lia.
  - destruct H6 as (j & Hjj & -> & Hd). exists j. split; [done|split; [|done]]. apply wrap_small.
    assert (2 ^ j <= 2 ^ 7) by (apply Z.pow_le_mono_r; lia). change (2 ^ 7) with 128 in *. pow2.
    assert (0 < 2 ^ j) by (apply Z.pow_pos_nonneg; lia). lia.
  - destruct H7 as [-> | ->]; [by left|by right].
  - rewrite H8. apply wrap_small. pow2. lia.
  - by rewrite H9.
  - split_and!; [done|done|done|by exists jb].
Qed.

Lemma segment_size_run size n : 0 <= size < 2 ^ 32 -> 0 < n < 2 ^ 16 ->
  flash_calculate_prot_segment_size size n = Ok (Z.max (size / n) kFTFx_MinProtectBlockSize).
Proof.
  intros Hs Hn. unfold flash_calculate_prot_segment_size, kFTFx_MinProtectBlockSize. pow2.
  rewrite wrap_small by (pow2; lia). destruct (Z.ltb_spec (n * 1024) size).
  - rewrite udiv_ok by lia. f_equal. rewrite Z.max_l; [done|]. apply Z.div_le_lower_bound; lia.
  - f_equal. rewrite Z.max_r; [done|]. apply Z.div_le_upper_bound; lia.
Qed.

(** The world with another single configuration. *)
Definition only (c : ftfx_config) (w : W) : W := FtfxWorld (f_hw w) [c] (s_ftfxRunCommand w) (f_mem w).

Lemma update_only f c w (Q : unit -> W -> Prop) : wp (update (Some 0%nat) f) Q (only c w) <-> Q tt (only (f c) w).
Proof. done. Qed.
Lemma deref_only c w (Q : ftfx_config -> W -> Prop) : wp (deref (Some 0%nat)) Q (only c w) <-> Q c (only c w).
Proof. done. Qed.

Lemma read_only r c w (Q : Z -> W -> Prop) :
  r <> FSTAT -> (forall x, Q x (only c w)) -> wp (on_hw (rd r)) Q (only c w).
Proof.
  intros Hr HQ. rewrite wp_on_hw. unfold wp, rd. cbn [f_hw only].
  assert (H := read_plain (f_hw w) r Hr). destruct (reg_read r (f_hw w)) as [x d]. simpl in H. subst d. apply HQ.
Qed.

Lemma init_ifr_run c w (Q : unit -> W -> Prop) :
  (forall i, Q tt (only (set_ifrDesc i c) w)) -> wp (ftfx_init_ifr (Some 0%nat)) Q (only c w).
Proof.
  intros HQ. unfold ftfx_init_ifr. rewrite wp_bind, deref_only. cbv zeta beta.
  destruct variant; cbv iota beta; rewrite update_only; apply HQ.
Qed.

Lemma api_init_run c w (Q : unit -> W -> Prop) :
  (forall c' code, flashDesc c' = flashDesc c -> addrAligment (opsConfig c') = addrAligment (opsConfig c) ->
    flexramBlockBase c' = FLEX_RAM_START_ADDRESS ->
    (FTFx_DRIVER_IS_FLASH_RESIDENT = true -> commadAddr c' = run_buffer /\ code = s_ftfxRunCommandFunctionCode) ->
    Q tt (FtfxWorld (f_hw w) [c'] code (f_mem w))) ->
  wp (FTFx_API_Init run_buffer (Some 0%nat)) Q (only c w).
Proof.
  intros HQ. unfold FTFx_API_Init. cbn [is_null]. destruct c as [d o b z e k i].
  rewrite wp_bind, update_only, wp_bind, update_only, wp_bind. destruct FTFx_DRIVER_IS_FLASH_RESIDENT.
  - rewrite wp_bind, update_only. unfold ftfx_copy_run_command_to_ram. rewrite wp_modify.
    apply (init_ifr_run _ (FtfxWorld (f_hw w) [] s_ftfxRunCommandFunctionCode (f_mem w))). intros i'. by apply HQ.
  - rewrite wp_ret. apply init_ifr_run. intros i'. by apply HQ.
Qed.

Lemma access_init_run c w (Q : unit -> W -> Prop) :
  (forall s, Q tt (only (set_flashDesc (set_accessSegmentMem s (flashDesc c)) c) w)) ->
  wp (flash_access_init 0) Q (only c w).
Proof.
  intros HQ. unfold flash_access_init. rewrite andb_false_r.
  replace (if FTFx_FLASH1_HAS_INT_XACC_REG then 0%nat else 0%nat) with 0%nat by by destruct FTFx_FLASH1_HAS_INT_XACC_REG.
  rewrite wp_bind, deref_only, wp_bind. apply read_only; [done|]. intros x. rewrite wp_bind.
  apply read_only; [done|]. intros n. rewrite update_only. apply HQ.
Qed.

Lemma protection_init_run c w (Q : unit -> W -> Prop) :
  header_ok -> totalSize (flashDesc c) = flash_bytes ->
  Q tt (only (set_flashDesc (set_protectRegionMem {| mem_base := blockBase (flashDesc c);
    mem_size := Z.max (flash_bytes / PFLASH_PROTECTION_REGION_COUNT FLASH0) kFTFx_MinProtectBlockSize;
    mem_count := PFLASH_PROTECTION_REGION_COUNT FLASH0 |} (flashDesc c)) c) w) ->
  wp (flash_protection_init 0) Q (only c w).
Proof.
  intros Hh Hs HQ. unfold flash_protection_init, two_flashes. rewrite (header_one Hh). cbn [Nat.ltb Nat.leb andb negb orb].
  rewrite wp_bind, deref_only, Hs. cbv zeta beta. destruct (header_base Hh) as [Hb1 Hb2].
  destruct (header_blocks Hh) as (Hc & Hp & Hb3 & j & Hj & Ej).
  assert (Hb0 : 0 < PFLASH_BLOCK_SIZE FLASH0) by (rewrite Ej; apply Z.pow_pos_nonneg; lia).
  rewrite wp_bind, (wp_lift _ _ _ _ (segment_size_run flash_bytes _ ltac:(unfold flash_bytes in *; change (2 ^ 24) with 16777216 in *; pow2; nia) (header_regions Hh))).
  exact HQ.
Qed.

Lemma features_run c w (Q : unit -> W -> Prop) :
  header_ok ->
  (forall f, hasProtControl f = 1 -> ProtRegBits f = ProtRegBits (feature (flashDesc c)) -> Q tt (only (set_flashDesc (set_feature f (flashDesc c)) c) w)) ->
  wp (flash_init_features (Some 0%nat)) Q (only c w).
Proof.
  intros Hh HQ. unfold flash_init_features, two_flashes. rewrite (header_one Hh). cbn [Nat.ltb Nat.leb andb negb orb].
  rewrite wp_bind, deref_only. cbv zeta beta iota. rewrite update_only. by apply HQ.
Qed.

Lemma bytes_fit : header_ok -> 0 < flash_bytes <= 2 ^ 24.
Proof.
  intros Hh. destruct (header_base Hh) as [Hb1 Hb2]. destruct (header_blocks Hh) as (Hc & Hp & Hb3 & j & Hj & Ej).
  assert (0 < PFLASH_BLOCK_SIZE FLASH0) by (rewrite Ej; apply Z.pow_pos_nonneg; lia).
  split; [unfold flash_bytes; nia|lia].
Qed.

Lemma opsconfig_run c w (Q : unit -> W -> Prop) :
  header_ok ->
  flash_index (flashDesc c) = 0 -> (forall c', sized (ProtRegBits (feature (flashDesc c))) c' -> Q tt (only c' w)) ->
  wp (flash_opsonfig_Init 0) Q (only c w).
Proof.
  intros Hh Hi HQ. unfold flash_opsonfig_Init, two_flashes. rewrite (header_one Hh). cbn [Nat.ltb Nat.leb andb negb orb].
  assert (Hfit := bytes_fit Hh). change (2 ^ 24) with 16777216 in *.
  rewrite wp_bind, deref_only. cbv zeta beta. unfold flash_calculate_mem_size. rewrite (header_fixed Hh).
  rewrite wp_bind, wp_on_hw, wp_bind, wp_ret. change (0xf =? 0xf) with true. cbv iota. rewrite wp_ret.
  change (set_hw _ _) with (only c w). rewrite update_only. destruct c as [d o b z e k i].
  apply HQ. split; try done. apply wrap_small. fold flash_bytes. pow2. lia.
Qed.

Lemma after_init w c bits code :
  header_ok -> busy (f_hw w) = O -> initialised bits c ->
  (FTFx_DRIVER_IS_FLASH_RESIDENT = true -> code = s_ftfxRunCommandFunctionCode) ->
  driver_ok run_buffer (FtfxWorld (f_hw w) [c] code (f_mem w)).
Proof.
  intros Hh Hb Hi Hcode. split; [by apply header_module|by rewrite (header_one Hh)| |].
  - intros i c' Hc. destruct i as [|i]; [|done]. injection Hc as <-. split; [done|done|].
    intros E. split_and!; [by apply (init_code _ _ Hi)|by apply header_code|by apply header_code|by apply Hcode].
  - intros i c' Hc. destruct i as [|i]; [|done]. injection Hc as <-. by apply (initialised_fits bits).
Qed.

(** [FLASH_Init] accepts the part, writes nothing to the module and leaves
    the driver in a state the operations can start from. *)
Lemma init_run c w (Q : status_t -> W -> Prop) :
  header_ok -> configs w = [c] -> busy (f_hw w) = O ->
  (forall c' code, initialised (ProtRegBits (feature (flashDesc c))) c' -> driver_ok run_buffer (FtfxWorld (f_hw w) [c'] code (f_mem w)) ->
    Q kStatus_FTFx_Success (FtfxWorld (f_hw w) [c'] code (f_mem w))) ->
  wp (FLASH_Init run_buffer true) Q w.
Proof.
  intros Hh Hc Hb HQ. assert (Hw : w = only c w) by (destruct w; cbn in *; by subst). rewrite Hw at 1.
  unfold FLASH_Init. cbn [negb]. rewrite (header_one Hh). cbn [init_loop].
  rewrite !wp_bind, update_only, wp_bind. apply features_run; [done|]. intros f Hf Hbits.
  rewrite wp_bind. apply opsconfig_run; [done|by destruct c as [[] ? ? ? ? ? ?]|]. intros c1 Hs1.
  replace (ProtRegBits _) with (ProtRegBits (feature (flashDesc c))) in Hs1 by (symmetry; etrans; [|etrans; [exact Hbits|]]; by destruct c as [[] ? ? ? ? ? ?]).
  set (bits := ProtRegBits _) in *. rewrite wp_bind, deref_only, wp_bind.
  assert (K : forall c2, sized bits c2 ->
    wp ((when (negb two_flashes || negb (hasProtControl (feature (flashDesc c1)) =? 0)) (flash_protection_init 0)) ;;
      FTFx_API_Init run_buffer (Some 0%nat) ;; ret tt) (fun _ => wp (ret kStatus_FTFx_Success) Q) (only c2 w)).
  { intros c2 Hs2. unfold two_flashes. rewrite (header_one Hh). cbn [Nat.ltb Nat.leb negb orb].
    rewrite wp_bind. apply protection_init_run; [done|by destruct Hs2|]. rewrite wp_bind. apply api_init_run.
    intros c' code E1 E2 E3 E4. rewrite !wp_ret. rewrite (init_base _ _ Hs2) in E1.
    assert (Hi : initialised bits c').
    { split; [|done|by intros; apply E4|rewrite E1; by destruct c2 as [[] ? ? ? ? ? ?]].
      destruct Hs2. split; rewrite ?E1, ?E2; by destruct c2 as [[] ? ? ? ? ? ?]. }
    apply HQ; [done|]. apply (after_init _ _ bits); [done|done|done|by intros; apply E4]. }
  destruct (HAS_ACCESS_CONTROL && _).
  - apply access_init_run. intros s. apply K. destruct Hs1. split; by destruct c1 as [[] ? ? ? ? ? ?].
  - rewrite wp_ret. by apply K.
Qed.

(** [FLASH_Init] on a part with one flash accepts it, does not touch the
    module, and establishes what the operations start from: the configuration
    describes the flash of the device header, every range of that flash is
    found, and the properties that are reported are the header's. *)
Theorem flash_init_establishes c w (Hh : header_ok) (Hc : configs w = [c]) (Hb : busy (f_hw w) = O) :
  wp (FLASH_Init run_buffer true) (fun s w' =>
    s = kStatus_FTFx_Success /\ f_hw w' = f_hw w /\ f_mem w' = f_mem w /\ driver_ok run_buffer w' /\
    exists c', configs w' = [c'] /\
      (forall start len, PFLASH_START_ADDRESS FLASH0 <= start -> 0 <= len ->
        start + len <= PFLASH_START_ADDRESS FLASH0 + flash_bytes -> lies_in w' 0 c' start len) /\
      FLASH_GetProperty true kFLASH_PropertyPflash0SectorSize true w' = Ok ((kStatus_FTFx_Success, Some sector), w') /\
      FLASH_GetProperty true kFLASH_PropertyPflash0TotalSize true w' = Ok ((kStatus_FTFx_Success, Some flash_bytes), w') /\
      FLASH_GetProperty true kFLASH_PropertyPflash0BlockSize true w'
        = Ok ((kStatus_FTFx_Success, Some (PFLASH_BLOCK_SIZE FLASH0)), w')) w.
Proof.
  apply (init_run c); [done|done|done|]. intros c' code [[I0 I1 I2 I3 I4 I5 I6] I7 I8 I9] Hok.
  split_and!; [done|done|done|done|]. exists c'. split; [done|]. split.
  { intros start len H1 H2 H3. split; [done|rewrite I2, I3; lia|intros j c2 Hj; lia]. }
  assert (G : forall p v, p = 0 \/ p = 1 \/ p = 2 -> flash_property c' p = Some (Ok v) ->
    FLASH_GetProperty true p true (FtfxWorld (f_hw w) [c'] code (f_mem w))
    = Ok ((kStatus_FTFx_Success, Some v), FtfxWorld (f_hw w) [c'] code (f_mem w))).
  { intros p v Hp Hv. unfold FLASH_GetProperty, two_flashes. rewrite (header_one Hh). cbn [negb orb andb Nat.ltb Nat.leb].
    unfold bind. change (deref (Some 0%nat) _) with (Ok (c', FtfxWorld (f_hw w) [c'] code (f_mem w))).
    cbv iota beta. rewrite Hv. by destruct Hp as [->|[->| ->]]. }
  destruct (header_blocks Hh) as (Hbc & _).
  split_and!; apply G; try tauto; unfold flash_property; simpl.
  - by rewrite I4, (header_sector Hh).
  - by rewrite I3.
  - rewrite I3, I5, udiv_ok by lia. unfold flash_bytes. do 2 f_equal. rewrite Z.mul_comm. apply Z.div_mul. lia.
Qed.

(** [FLASH_PflashSetProtection] decides by [ProtRegBits] which registers it
    writes, and [FLASH_Init] does not set that field: after the initialisation
    of a zeroed configuration a request to protect regions is answered with
    success, and nothing is written. *)
Theorem flash_set_protection_does_nothing c w request
  (Hh : header_ok) (Hc : configs w = [c]) (Hb : busy (f_hw w) = O) (Hz : ProtRegBits (feature (flashDesc c)) = 0) :
  wp (FLASH_Init run_buffer true ;; FLASH_PflashSetProtection true (Some request)) (fun s w' =>
    s = kStatus_FTFx_Success /\ f_hw w' = f_hw w) w.
Proof.
  rewrite wp_bind. apply (init_run c); [done|done|done|]. intros c' code [[I0 _ _ _ _ _ _] _ _ _] Hok.
  unfold FLASH_PflashSetProtection, two_flashes. rewrite (header_one Hh). cbn [negb orb Nat.ltb Nat.leb].
  rewrite wp_bind, (wp_deref 0 c') by done. cbv zeta beta. rewrite I0, Hz. change (32 <=? 0) with false.
  change (0 =? 64) with false. rewrite andb_false_r. cbv iota. by rewrite wp_ret.
Qed.
End Init.

(** ** The example module *)

Definition dev_ready : ftfx_world ftfx_dev :=
  match FLASH_Init dev_run_buffer true dev_world with Ok (_, w) => w | Err _ => dev_world end.
Definition dev_config : ftfx_config := match configs dev_ready with c :: _ => c | [] => zero_config end.

Lemma dev_module : module_ok (L := ftfx_laws).
Proof.
  unfold module_ok. simpl. split; [by exists 10|]. split; [by exists 3|]. split; [by exists 128|by exists 128].
Qed.

Lemma dev_header : header_ok (L := ftfx_laws) dev_run_buffer.
Proof.
  split; simpl; try done.
  - exact dev_module.
  - by exists 0.
  - exists 4. split_and!; [done|done|done|by exists 64].
  - by right.
  - split_and!; [done|by exists 1024|done|by exists 13].
Qed.

Lemma dev_ready_ok : driver_ok (L := ftfx_laws) dev_run_buffer dev_ready.
Proof.
  assert (H : wp (FLASH_Init dev_run_buffer true) (fun _ w' => driver_ok (L := ftfx_laws) dev_run_buffer w') dev_world).
  { apply (init_run dev_run_buffer zero_config); [exact dev_header|done|done|]. intros c' code _ Hok. exact Hok. }
  unfold dev_ready. unfold wp in H. destruct (FLASH_Init dev_run_buffer true dev_world) as [[s w]|]; [exact H|done].
Qed.

Lemma flash_init_establishes_witness :
  wp (FLASH_Init dev_run_buffer true) (fun s w' => s = kStatus_FTFx_Success /\
    driver_ok (L := ftfx_laws) dev_run_buffer w' /\ exists c', lies_in w' 0 c' 0x800 0x400) dev_world.
Proof.
  eapply wp_mono; [exact (flash_init_establishes (L := ftfx_laws) dev_run_buffer zero_config dev_world dev_header eq_refl eq_refl)|].
  intros s w' (Hs & _ & _ & Hok & c' & _ & Hin & _). split; [done|split; [done|]]. exists c'. apply Hin; vm_compute; congruence.
Defined.

Lemma flash_set_protection_does_nothing_witness :
  wp (FLASH_Init dev_run_buffer true ;; FLASH_PflashSetProtection true (Some 0)) (fun s w' =>
    s = kStatus_FTFx_Success /\ v_reg (dev_view (f_hw w')) FPROTL = 0xF7) dev_world.
Proof.
  eapply wp_mono; [exact (flash_set_protection_does_nothing (L := ftfx_laws) dev_run_buffer zero_config dev_world 0 dev_header eq_refl eq_refl eq_refl)|].
  intros s w' [Hs Hw]. split; [done|]. by rewrite Hw.
Defined.

(** A range of the example flash. *)
Lemma dev_range start len : 0 <= start -> 0 <= len -> start + len <= dev_size -> lies_in dev_ready 0 dev_config start len.
Proof.
  intros H1 H2 H3. split; [done| |intros j c Hj; lia].
  change (blockBase (flashDesc dev_config)) with 0. change (totalSize (flashDesc dev_config)) with dev_size. lia.
Qed.
