(* ===== verification/FtfxProtect.v ===== *)
(** * Which regions a protection query looks at

    [FLASH_IsProtected] walks from the start of the range in steps of one
    region.  Its verdict is exact when the range starts at a region; when it
    does not, the last region the range reaches is not looked at. *)

From stdpp Require Import base list numbers tactics.
From Stdlib Require Import ZArith Lia.
From S2P Require Import Prelude Mmio Ftfx FtfxFlash FtfxEngine FtfxLoops FtfxSection FtfxVerify FtfxOps FtfxDevice FtfxInit.

Open Scope Z_scope.
Open Scope prog_scope.

(** The bit of a region in the protection registers; a protected region reads 0. *)
Definition region_bit (v : ftfx_view) (r : Z) : Z :=
  if r <? 32 then Z.land (Z.shiftr (v_reg v FPROTL) r) 1 else Z.land (Z.shiftr (v_reg v FPROTH) (r - 32)) 1.
Definition protected_region (v : ftfx_view) (r : Z) : bool := 0 =? region_bit v r.

(** The verdict on a list of regions. *)
Definition protection_verdict (p : Z -> bool) (l : list Z) : flash_prot_state :=
  if forallb (fun r => negb (p r)) l then kFLASH_ProtectionStateUnprotected
  else if forallb p l then kFLASH_ProtectionStateProtected else kFLASH_ProtectionStateMixed.

(** The regions a range overlaps, and those the walk from [start] looks at. *)
Definition overlaps (s : ftfx_spec_mem) (start len r : Z) : bool :=
  (start <? mem_base s + mem_size s * (r + 1)) && (mem_base s + mem_size s * r <? start + len).
Definition steps (s : ftfx_spec_mem) (len : Z) : Z := (len + mem_size s - 1) / mem_size s.
Definition examined (s : ftfx_spec_mem) (start len : Z) : list Z :=
  seqZ ((start - mem_base s) / mem_size s) (steps s len).

(** How many of [m] regions from [q] on are protected. *)
Definition count_in (p : Z -> bool) (q m : Z) : Z := Z.of_nat (length (List.filter p (seqZ q m))).

Lemma count_in_step p q m : 0 < m -> count_in p q m = (if p q then 1 else 0) + count_in p (q + 1) (m - 1).
Proof.
  intros Hm. unfold count_in. rewrite seqZ_cons by lia. simpl. replace (Z.succ q) with (q + 1) by lia.
  replace (Z.pred m) with (m - 1) by lia. destruct (p q); simpl; lia.
Qed.

Lemma count_in_nothing p q m : m <= 0 -> count_in p q m = 0.
Proof. intros Hm. unfold count_in. by rewrite seqZ_nil. Qed.

Lemma count_verdict p q m : 0 <= m ->
  (if count_in p q m =? 0 then kFLASH_ProtectionStateUnprotected
   else if count_in p q m =? m then kFLASH_ProtectionStateProtected else kFLASH_ProtectionStateMixed)
  = protection_verdict p (seqZ q m).
Proof.
  intros Hm. unfold protection_verdict, count_in.
  assert (Hlen : length (seqZ q m) = Z.to_nat m) by apply length_seqZ.
  assert (H0 : forall l, forallb (fun r => negb (p r)) l = (Z.of_nat (length (List.filter p l)) =? 0)).
  { induction l as [|r l IH]; [done|]. simpl. destruct (p r); simpl; [done|exact IH]. }
  assert (H1 : forall l, forallb p l = (length (List.filter p l) =? length l)%nat).
  { induction l as [|r l IH]; [done|]. simpl. destruct (p r) eqn:E; simpl; [exact IH|].
    symmetry. apply Nat.eqb_neq. assert (length (List.filter p l) <= length l)%nat by apply List.filter_length_le. lia. }
  rewrite H0, H1, Hlen. destruct (_ =? 0); [done|].
  set (k := length _). destruct (Z.eqb_spec (Z.of_nat k) m), (Nat.eqb_spec k (Z.to_nat m)); (done || lia).
Qed.

Lemma not_all_yes {A} (p : A -> bool) l : forallb p l = false -> exists x, x ∈ l /\ p x = false.
Proof.
  induction l as [|x l IH]; simpl; [done|]. intros H. apply andb_false_iff in H as [H|H]; [exists x; split; [by left|done]|].
  destruct (IH H) as (y & Hy & Hp). exists y. split; [by right|done].
Qed.

Section Protect.
Context {D : Type} `{!Device ftfx_reg D} {F : FtfxFields} {X : FtfxFeatures} {L : FtfxLaws} {P : FlashFeatures}.
Abbreviation W := (ftfx_world D).
Abbreviation vw w := (view (f_hw w)).

(** The regions the registers describe. *)
Record regions_ok (s : ftfx_spec_mem) : Prop := {
  regions_size : 0 <= mem_base s /\ 0 < mem_size s;
  regions_count : 0 <= mem_count s <= MAX_FLASH_PROT_REGION_COUNT;
  regions_space : mem_base s + mem_size s * (mem_count s + 1) < 2 ^ 32;
  regions_bits : mem_count s <= 32 \/ MAX_FLASH_PROT_REGION_COUNT = 64
}.

(** Reading the bits. *)
Lemma read_protection_run n d l rc h (Q : status_t * list Z -> D -> Prop) :
  regions_ok (protectRegionMem d) -> (negb two_flashes || (0 =? flash_index d) || negb (hasIndProtReg (feature d) =? 0)) = true ->
  busy h = O -> 0 <= rc <= mem_count (protectRegionMem d) -> mem_count (protectRegionMem d) - rc < Z.of_nat n ->
  Z.of_nat (length l) = MAX_FLASH_PROT_REGION_COUNT ->
  (forall r, 0 <= r < rc -> l !! Z.to_nat r = Some (region_bit (view h) r)) ->
  (forall l', (forall r, 0 <= r < mem_count (protectRegionMem d) -> l' !! Z.to_nat r = Some (region_bit (view h) r)) ->
    Q (kStatus_FTFx_Success, l') h) ->
  wp (read_protection n d l rc) Q h.
Proof.
  intros [_ Hcount _ Hbits] Hbr Hb. revert l rc. induction n as [|n IH]; intros l rc Hrc Hn Hl Hdone HQ; [lia|].
  cbn [read_protection]. destruct (Z.ltb_spec rc (mem_count (protectRegionMem d))) as [Hlt|Hge].
  2: { rewrite wp_ret. apply HQ. intros r Hr. apply Hdone. lia. }
  rewrite Hbr.
  assert (Hstep : forall reg, reg ∈ [FPROTL; FPROTH] -> forall k,
    Z.land (Z.shiftr (v_reg (view h) reg) k) 1 = region_bit (view h) rc ->
    wp (x <- rd reg ;; l' <- lift (aset l rc (Z.land (Z.shiftr x k) 1)) ;; read_protection n d l' (rc + 1)) Q h).
  { intros reg Hreg k Hk. rewrite wp_bind. unfold wp at 1, rd.
    assert (Hne : reg <> FSTAT) by (rewrite !elem_of_cons, elem_of_nil in Hreg; by destruct Hreg as [->|[->|?]]).
    assert (H1 := read_plain h reg Hne).
    assert (H2 : (reg_read reg h).1 = v_reg (view h) reg).
    { apply read_reg. rewrite !elem_of_cons in *. tauto. }
    destruct (reg_read reg h) as [x h']. simpl in *. subst h' x.
    rewrite wp_bind, (wp_lift _ _ _ _ (aset_ok l rc _ ltac:(lia))). apply IH; [lia|lia|by rewrite length_insert| |done].
    intros r Hr. destruct (decide (r = rc)) as [->|Hne']; [rewrite list_lookup_insert_eq by lia; by rewrite Hk|].
    rewrite list_lookup_insert_ne by lia. apply Hdone. lia. }
  unfold region_bit in Hstep. destruct (Z.leb_spec MAX_FLASH_PROT_REGION_COUNT 32) as [Hm|Hm].
  - rewrite (proj2 (Z.ltb_lt _ _)) by lia. apply Hstep; [by left|]. by rewrite (proj2 (Z.ltb_lt rc 32)) by lia.
  - destruct (Z.ltb_spec rc 32) as [H32|H32]; [apply Hstep; [by left|done]|].
    assert (E : MAX_FLASH_PROT_REGION_COUNT = 64) by lia. rewrite E, (proj2 (Z.ltb_lt rc 64)) by lia. simpl.
    apply Hstep; [right; by left|done].
Qed.

(** Walking over the regions. *)
Lemma walk_run s addrs bits p n start end_ rc ch pr q m :
  regions_ok s ->
  (forall r, 0 <= r <= mem_count s -> addrs !! Z.to_nat r = Some (mem_base s + mem_size s * r)) ->
  (forall r, 0 <= r < mem_count s -> exists b, bits !! Z.to_nat r = Some b /\ p r = (0 =? b)) ->
  mem_base s + mem_size s * q <= start < mem_base s + mem_size s * (q + 1) ->
  (m = 0 /\ end_ <= start \/ 0 < m /\ mem_size s * (m - 1) < end_ - start <= mem_size s * m) ->
  0 <= rc <= q -> q + m <= mem_count s -> q - rc + m < Z.of_nat n ->
  count_protected n (mem_size s) addrs bits start end_ rc ch pr = Ok (ch + m, pr + count_in p q m).
Proof.
  intros [[Hb0 Hsz] Hc Hspace _] Ha Hbits. revert start rc ch pr q m.
  induction n as [|n IH]; intros start rc ch pr q m Hstart Hm Hrc Hqm Hn; [lia|]. cbn [count_protected]. pow2.
  destruct Hm as [[-> He]|[Hm He]].
  - rewrite (proj2 (Z.ltb_ge _ _)) by lia. by rewrite count_in_nothing, !Z.add_0_r by lia.
  - rewrite (proj2 (Z.ltb_lt _ _)) by nia. unfold obind.
    rewrite (aget_ok addrs rc _ ltac:(lia) (Ha rc ltac:(lia))), (aget_ok addrs (rc + 1) _ ltac:(lia) (Ha (rc + 1) ltac:(lia))).
    rewrite (proj2 (Z.leb_le _ _)) by nia.
    destruct (decide (rc = q)) as [->|Hne].
    + rewrite (proj2 (Z.ltb_lt _ _)) by lia. destruct (Hbits q ltac:(lia)) as (b & Hbq & Hpq).
      rewrite (aget_ok bits q b ltac:(lia) Hbq). rewrite (wrap_small 32 (start + _)) by (pow2; nia).
      rewrite (IH _ _ _ _ (q + 1) (m - 1)); [|lia| |lia|lia|lia].
      * rewrite (count_in_step p q m), Hpq by lia. destruct (0 =? b); do 2 f_equal; lia.
      * destruct (decide (m = 1)) as [->|]; [left; lia|right; nia].
    + rewrite (proj2 (Z.ltb_ge _ _)) by nia. apply IH; lia.
Qed.

Lemma region_addresses_run s :
  regions_ok s -> exists l, region_addresses s = Ok l /\
    forall r, 0 <= r <= mem_count s -> l !! Z.to_nat r = Some (mem_base s + mem_size s * r).
Proof.
  intros [[Hb Hsz] Hc Hspace _]. unfold region_addresses. rewrite (proj2 (Z.leb_le _ _)) by lia.
  eexists. split; [done|]. intros r Hr. pow2.
  rewrite list_lookup_fmap, lookup_seq_lt by lia. simpl. rewrite Z2Nat.id by lia. f_equal.
  rewrite (wrap_small 32 (mem_size s * r)), wrap_small by (pow2; nia). done.
Qed.

Context (run_buffer : Z).
Abbreviation driver_ok := (driver_ok run_buffer).

(** The protection registers speak of this flash. *)
Definition has_protection (c : ftfx_config) : bool :=
  (negb two_flashes || negb (hasProtControl (feature (flashDesc c)) =? 0)) &&
  (negb two_flashes || (0 =? flash_index (flashDesc c)) || negb (hasIndProtReg (feature (flashDesc c)) =? 0)).

Lemma steps_spec s len : 0 < mem_size s -> 0 <= len ->
  steps s len = 0 /\ len = 0 \/ 0 < steps s len /\ mem_size s * (steps s len - 1) < len <= mem_size s * steps s len.
Proof.
  intros Hs Hl. unfold steps. destruct (decide (len = 0)) as [->|Hne].
  - left. split; [|done]. apply Z.div_small. lia.
  - right. set (m := (len + mem_size s - 1) / mem_size s).
    assert (H := Z.div_mod (len + mem_size s - 1) (mem_size s) ltac:(lia)). fold m in H.
    assert (H2 := Z.mod_pos_bound (len + mem_size s - 1) (mem_size s) Hs). split; [|lia].
    apply Z.lt_le_trans with 1; [lia|]. apply Z.div_le_lower_bound; lia.
Qed.

Lemma is_protected_run i c start len w (Q : status_t * option flash_prot_state -> W -> Prop) :
  let s := protectRegionMem (flashDesc c) in
  driver_ok w -> lies_in w i c start len -> regions_ok s -> has_protection c = true -> mem_base s <= start ->
  (start - mem_base s) / mem_size s + steps s len <= mem_count s ->
  Q (kStatus_FTFx_Success, Some (protection_verdict (protected_region (vw w)) (examined s start len))) w ->
  wp (FLASH_IsProtected true start len true) Q w.
Proof.
  intros s Hok Hin Hs Hp Hlo Hcover HQ. apply andb_prop in Hp as [Hp1 Hp2].
  assert (Hc := in_config _ _ _ _ _ Hin). assert (Hi : (i < length (configs w))%nat) by by apply lookup_lt_Some in Hc.
  assert (Hcount := ok_count _ _ Hok). destruct (in_range _ _ _ _ _ Hin) as (R1 & R2 & R3).
  assert (Hend := fits_end _ _ (ok_fits _ _ Hok _ _ Hc)).
  assert (Hbase := fits_base _ _ (ok_fits _ _ Hok _ _ Hc)). change (2 ^ 31) with 2147483648 in Hbase. pow2.
  unfold FLASH_IsProtected, flash_check_range_to_get_index. cbn [negb]. rewrite wp_bind.
  apply (find_flash_run run_buffer _ _ _ _ _ i c); [done|done|lia|]. cbv iota beta.
  change (kStatus_FTFx_Success =? kStatus_FTFx_Success) with true. cbn [negb]. unfold ftfxConfig.
  rewrite Nat2Z.id, wp_bind, (wp_deref _ _ _ _ Hc). cbv zeta beta. fold s.
  replace (two_flashes && _) with false by (destruct two_flashes; [|done]; by destruct (hasProtControl _ =? 0)).
  destruct (region_addresses_run s Hs) as (addrs & Ea & Ha). rewrite wp_bind, (wp_lift _ _ _ _ Ea), wp_bind, wp_on_hw.
  assert (Hc0 := regions_count _ Hs). assert (Hsz := regions_size _ Hs).
  assert (Hb : busy (f_hw w) = 0%nat) by by apply (ready_idle _ _ _ _ (ok_ready _ _ Hok _ _ Hc)).
  apply read_protection_run; [done|done|done|fold s; lia|fold s; lia|rewrite repeat_length; lia|lia|].
  intros bits Hbits. cbv iota beta. change (kStatus_FTFx_Success =? kStatus_FTFx_Success) with true. cbn [negb].
  fold s in Hbits. rewrite set_hw_id, (wrap_small 32 (start + len)) by (pow2; lia).
  set (q := (start - mem_base s) / mem_size s) in *. set (m := steps s len) in *.
  assert (Hq : 0 <= q) by (apply Z.div_pos; lia).
  assert (Hm := steps_spec s len ltac:(lia) R2). fold m in Hm.
  assert (Hstart : mem_base s + mem_size s * q <= start < mem_base s + mem_size s * (q + 1)).
  { assert (H1 := Z.div_mod (start - mem_base s) (mem_size s) ltac:(lia)). fold q in H1.
    assert (H2 := Z.mod_pos_bound (start - mem_base s) (mem_size s) ltac:(lia)). lia. }
  assert (Hwalk := walk_run s addrs bits (protected_region (vw w)) (S (S (Z.to_nat (mem_count s)))) start (start + len) 0 0 0 q m Hs Ha).
  rewrite wp_bind, (wp_lift _ _ _ _ (Hwalk ltac:(intros r Hr; eexists; split; [by apply Hbits|done]) Hstart ltac:(lia) ltac:(lia) ltac:(lia) ltac:(lia))).
  cbv iota beta. rewrite wp_ret, !Z.add_0_l, count_verdict by lia. exact HQ.
Qed.

(** The regions a range overlaps, when it starts at a region. *)
Lemma examined_aligned s start len r :
  0 < mem_size s -> 0 <= len -> (mem_size s | start - mem_base s) ->
  r ∈ examined s start len <-> overlaps s start len r = true /\ 0 < len.
Proof.
  intros Hs Hl [q Hq]. unfold examined, overlaps. rewrite Hq, Z.div_mul, elem_of_seqZ, andb_true_iff, !Z.ltb_lt by lia.
  destruct (steps_spec s len Hs Hl) as [[-> ->]|[H1 H2]]; [lia|]. nia.
Qed.

(** [FLASH_IsProtected] on a range that starts at a region: unprotected when
    no region the range overlaps is protected, protected when all are, mixed
    otherwise; nothing is changed. *)
Theorem flash_is_protected_spec i c start len w
  (Hok : driver_ok w) (Hin : lies_in w i c start len) (Hlen : 0 < len) (Hs : regions_ok (protectRegionMem (flashDesc c)))
  (Hp : has_protection c = true) (Hlo : mem_base (protectRegionMem (flashDesc c)) <= start)
  (Ha : (mem_size (protectRegionMem (flashDesc c)) | start - mem_base (protectRegionMem (flashDesc c))))
  (Hhi : start + len <= mem_base (protectRegionMem (flashDesc c))
     + mem_size (protectRegionMem (flashDesc c)) * mem_count (protectRegionMem (flashDesc c))) :
  wp (FLASH_IsProtected true start len true) (fun '(s, state) w' => s = kStatus_FTFx_Success /\ w' = w /\
    let touched r := overlaps (protectRegionMem (flashDesc c)) start len r = true in
    let p r := protected_region (vw w) r = true in
    match state with
    | Some kFLASH_ProtectionStateUnprotected => forall r, touched r -> ~ p r
    | Some kFLASH_ProtectionStateProtected => forall r, touched r -> p r
    | Some kFLASH_ProtectionStateMixed => (exists r, touched r /\ p r) /\ (exists r, touched r /\ ~ p r)
    | None => False
    end) w.
Proof.
  set (s := protectRegionMem (flashDesc c)) in *. assert (Hsz := regions_size _ Hs).
  apply (is_protected_run i c); [done|done|done|done|done| |].
  - fold s. destruct Ha as [q Hq]. rewrite Hq, Z.div_mul by lia. destruct (steps_spec s len) as [[-> ?]|[H1 H2]]; [lia..|]. nia.
  - split; [done|split; [done|]]. cbv zeta. unfold protection_verdict. fold s.
    assert (He : forall r, overlaps s start len r = true <-> r ∈ examined s start len).
    { intros r. rewrite examined_aligned; [intuition|lia|lia|done]. }
    destruct (forallb (fun r => negb _) _) eqn:E1; [|destruct (forallb (protected_region (vw w)) _) eqn:E2].
    + intros r Hr Hpr. apply He, list_elem_of_In in Hr. rewrite forallb_forall in E1. apply E1 in Hr. by rewrite Hpr in Hr.
    + intros r Hr. apply He, list_elem_of_In in Hr. rewrite forallb_forall in E2. by apply E2.
    + split; [apply not_all_yes in E1 as (r & Hr & Hx)|apply not_all_yes in E2 as (r & Hr & Hx)]; exists r;
        (split; [by apply He|]); [by apply negb_false_iff|by rewrite Hx].
Qed.

(** A range of one region's length that starts inside region [q] reaches into
    region [q + 1]; [FLASH_IsProtected] calls it unprotected when [q] is, even
    though [q + 1] is protected. *)
Theorem flash_is_protected_misses_region i c start q w
  (Hok : driver_ok w) (Hin : lies_in w i c start (mem_size (protectRegionMem (flashDesc c))))
  (Hs : regions_ok (protectRegionMem (flashDesc c))) (Hp : has_protection c = true)
  (Hq : 0 <= q < mem_count (protectRegionMem (flashDesc c)))
  (Hst : mem_base (protectRegionMem (flashDesc c)) + mem_size (protectRegionMem (flashDesc c)) * q < start
    < mem_base (protectRegionMem (flashDesc c)) + mem_size (protectRegionMem (flashDesc c)) * (q + 1))
  (Hpq : protected_region (vw w) q = false) (Hpq1 : protected_region (vw w) (q + 1) = true) :
  overlaps (protectRegionMem (flashDesc c)) start (mem_size (protectRegionMem (flashDesc c))) (q + 1) = true /\
  wp (FLASH_IsProtected true start (mem_size (protectRegionMem (flashDesc c))) true) (fun '(s, state) _ =>
    s = kStatus_FTFx_Success /\ state = Some kFLASH_ProtectionStateUnprotected) w.
Proof.
  set (s := protectRegionMem (flashDesc c)) in *. assert (Hsz := regions_size _ Hs).
  assert (Eq : (start - mem_base s) / mem_size s = q) by (symmetry; apply (Z.div_unique_pos _ _ _ (start - mem_base s - mem_size s * q)); lia).
  assert (Em : steps s (mem_size s) = 1) by (symmetry; apply (Z.div_unique_pos _ _ _ (mem_size s - 1)); lia).
  split; [unfold overlaps; rewrite andb_true_iff, !Z.ltb_lt; nia|].
  apply (is_protected_run i c); [done|done|done|done|fold s; nia|fold s; rewrite Eq, Em; lia|].
  split; [done|]. fold s. unfold examined. rewrite Eq, Em. rewrite seqZ_cons, seqZ_nil by lia.
  unfold protection_verdict. simpl. by rewrite Hpq.
Qed.
End Protect.

(** ** Instances *)

Lemma dev_regions : protectRegionMem (flashDesc dev_config) = {| mem_base := 0; mem_size := 0x800; mem_count := 8 |}.
Proof. reflexivity. Qed.

Lemma dev_regions_ok : regions_ok (protectRegionMem (flashDesc dev_config)).
Proof. rewrite dev_regions. split; simpl; [lia|vm_compute; intuition congruence|vm_compute; reflexivity|lia]. Qed.

Lemma flash_is_protected_spec_witness :
  wp (FLASH_IsProtected true 0x1000 0x1000 true) (fun '(s, state) w' =>
    s = kStatus_FTFx_Success /\ state = Some kFLASH_ProtectionStateMixed) dev_ready.
Proof.
  assert (H := flash_is_protected_spec (L := ftfx_laws) dev_run_buffer 0 dev_config 0x1000 0x1000 dev_ready dev_ready_ok
    (dev_range 0x1000 0x1000 ltac:(lia) ltac:(lia) ltac:(unfold dev_size; lia)) ltac:(lia) dev_regions_ok eq_refl).
  rewrite dev_regions in H. cbn [mem_base mem_size mem_count] in H.
  specialize (H ltac:(lia) ltac:(by exists 2) ltac:(lia)).
  eapply wp_mono; [exact H|]. intros [s state] w' (-> & _ & Hx). split; [done|].
  destruct state as [[]|]; [exfalso; exact (Hx 3 eq_refl eq_refl)|exfalso; assert (E := Hx 2 eq_refl); by vm_compute in E|done|done].
Defined.

Lemma flash_is_protected_misses_region_witness :
  wp (FLASH_IsProtected true 0x1010 0x800 true) (fun '(s, state) _ =>
    s = kStatus_FTFx_Success /\ state = Some kFLASH_ProtectionStateUnprotected) dev_ready /\
  protected_region (dev_view (f_hw dev_ready)) 3 = true.
Proof.
  split; [|reflexivity].
  assert (H := flash_is_protected_misses_region (L := ftfx_laws) dev_run_buffer 0 dev_config 0x1010 2 dev_ready dev_ready_ok).
  rewrite dev_regions in H. cbn [mem_base mem_size mem_count] in H.
  apply H; [apply dev_range; unfold dev_size; lia|rewrite <- dev_regions; exact dev_regions_ok|done|lia|lia|done|done].
Defined.
