(* ===== verification/FtfxLimits.v ===== *)
(** * What the flash operations refuse, and what they do not

    The refusals of the operations on ranges, which leave the module alone;
    and two behaviours at the edges of their arguments that a caller has to
    know of: an erase of no bytes, and ranges that wrap. *)

From stdpp Require Import base list numbers tactics.
From Stdlib Require Import ZArith Lia.
From S2P Require Import Prelude Mmio Ftfx FtfxFlash FtfxEngine FtfxLoops FtfxSection FtfxVerify FtfxOps FtfxDevice FtfxInit.

Open Scope Z_scope.
Open Scope prog_scope.

Section Limits.
Context {D : Type} `{!Device ftfx_reg D} {F : FtfxFields} {X : FtfxFeatures} {L : FtfxLaws} {P : FlashFeatures}.
Abbreviation W := (ftfx_world D).
Abbreviation vw w := (view (f_hw w)).
Context (run_buffer : Z) (polls : nat).
Abbreviation ready := (ready run_buffer).
Abbreviation driver_ok := (driver_ok run_buffer).

(** ** Refusals *)

(** A call of one of the operations on a range. *)
Inductive flash_call :=
  | CallErase (start len key : Z)
  | CallProgram (start src len : Z)
  | CallProgramSection (start src len : Z)
  | CallVerifyErase (start len margin : Z)
  | CallVerifyProgram (start len data margin failedAddress failedData : Z).

Definition call_run (fuel : nat) (config : bool) (k : flash_call) : M W status_t :=
  match k with
  | CallErase a n key => FLASH_Erase run_buffer polls fuel config a n key
  | CallProgram a src n => FLASH_Program run_buffer polls fuel config a src n
  | CallProgramSection a src n => FLASH_ProgramSection run_buffer polls fuel config a src n
  | CallVerifyErase a n margin => FLASH_VerifyErase run_buffer polls fuel config a n margin
  | CallVerifyProgram a n data margin fa fd => FLASH_VerifyProgram run_buffer polls fuel config a n data margin fa fd
  end.

Definition call_range (k : flash_call) : Z * Z :=
  match k with
  | CallErase a n _ | CallProgram a _ n | CallProgramSection a _ n | CallVerifyErase a n _
  | CallVerifyProgram a n _ _ _ _ => (a, n)
  end.
Definition call_null (k : flash_call) : bool :=
  match k with
  | CallProgram _ p _ | CallProgramSection _ p _ | CallVerifyProgram _ _ p _ _ _ => p =? 0
  | _ => false
  end.
Definition call_locked (k : flash_call) : bool :=
  match k with CallErase _ _ key => negb (key =? kFTFx_ApiEraseKey) | _ => false end.
Definition call_unit (k : flash_call) (c : ftfx_config) : Z :=
  let g := addrAligment (opsConfig c) in
  match k with
  | CallErase _ _ _ => sectorCmd g
  | CallProgram _ _ _ => blockWriteUnitSize g
  | CallProgramSection _ _ _ | CallVerifyErase _ _ _ => sectionCmd g
  | CallVerifyProgram _ _ _ _ _ _ => checkCmd g
  end.

Definition holds_range (a n : Z) (c : ftfx_config) : Prop :=
  blockBase (flashDesc c) <= a /\ a + n <= blockBase (flashDesc c) + totalSize (flashDesc c).
#[local] Instance holds_range_dec a n c : Decision (holds_range a n c) := _.

(** Why a call is refused, if it is. *)
Definition refusal (config : bool) (k : flash_call) (l : list ftfx_config) : option status_t :=
  let '(a, n) := call_range k in
  if negb config then Some kStatus_FTFx_InvalidArgument else
  match list_find (holds_range a n) l with
  | None => Some kStatus_FTFx_AddressError
  | Some (_, c) =>
      if call_null k then Some kStatus_FTFx_InvalidArgument
      else if negb ((a mod call_unit k c =? 0) && (n mod call_unit k c =? 0)) then Some kStatus_FTFx_AlignmentError
      else if call_locked k then Some kStatus_FTFx_EraseKeyError else None
  end.

(** Each operation is a body behind the search for the flash. *)
Definition call_body (fuel : nat) (k : flash_call) (p : option nat) : M W status_t :=
  match k with
  | CallErase a n key => FTFx_CMD_Erase run_buffer polls fuel p a n key
  | CallProgram a src n => FTFx_CMD_Program run_buffer polls fuel p a src n
  | CallProgramSection a src n => FTFx_CMD_ProgramSection run_buffer polls fuel p a src n
  | CallVerifyErase a n margin => FTFx_CMD_VerifyErase run_buffer polls fuel p a n margin
  | CallVerifyProgram a n data margin fa fd => FTFx_CMD_VerifyProgram run_buffer polls fuel p a n data margin fa fd
  end.

Lemma call_in_flash fuel config k :
  call_run fuel config k = in_flash config (call_range k).1 (call_range k).2 (call_body fuel k).
Proof. by destruct k. Qed.

Lemma call_unit_power k i c : module_ok -> fits i c -> exists j, 0 <= j <= 7 /\ call_unit k c = 2 ^ j.
Proof.
  intros (_ & Hp & _) Hf. assert (Hu : forall u, u = 4 \/ u = 8 -> exists j, 0 <= j <= 7 /\ u = 2 ^ j).
  { intros u [->| ->]; [by exists 2|by exists 3]. }
  destruct k; simpl.
  - destruct (fits_erase _ _ Hf) as (j & Hj & -> & _). exists j. split; [lia|done].
  - apply Hu, (fits_unit _ _ Hf).
  - rewrite (fits_section _ _ Hf). done.
  - rewrite (fits_section _ _ Hf). done.
  - rewrite (fits_check _ _ Hf). apply Hu. by left.
Qed.

(** The body's own refusals. *)
Lemma body_refuses fuel k i c w (Q : status_t -> W -> Prop) s :
  configs w !! i = Some c ->
  (call_null k = true /\ s = kStatus_FTFx_InvalidArgument \/
   call_null k = false /\
     (ftfx_check_mem_range c (call_range k).1 (call_range k).2 (call_unit k c) = kStatus_FTFx_AlignmentError /\
        s = kStatus_FTFx_AlignmentError \/
      ftfx_check_mem_range c (call_range k).1 (call_range k).2 (call_unit k c) = kStatus_FTFx_Success /\
        call_locked k = true /\ s = kStatus_FTFx_EraseKeyError)) ->
  Q s w -> wp (call_body fuel k (Some i)) Q w.
Proof.
  intros Hc H HQ. destruct k; simpl in *;
    unfold FTFx_CMD_Erase, FTFx_CMD_Program, FTFx_CMD_ProgramSection, FTFx_CMD_VerifyErase, FTFx_CMD_VerifyProgram;
    rewrite wp_bind, (wp_deref _ _ _ _ Hc); cbv zeta beta;
    (destruct H as [[En ->]|[En [[Er ->]|(Er & El & ->)]]]; try done; try rewrite En; try rewrite Er; try exact HQ).
  rewrite or_return_success. unfold ftfx_check_user_key. rewrite El. exact HQ.
Qed.

(** C39: A call that is refused gets the reason for an answer; the module is not
    touched, and neither is the caller's memory. *)
Theorem flash_refuses fuel config k w s
  (Hok : driver_ok w) (Hr : 0 <= (call_range k).1 /\ 0 <= (call_range k).2 /\ (call_range k).1 + (call_range k).2 < 2 ^ 32)
  (Hs : refusal config k (configs w) = Some s) :
  wp (call_run fuel config k) (fun s' w' =>
    s' = s /\ f_hw w' = f_hw w /\ f_mem w' = f_mem w /\ driver_ok w') w.
Proof.
  rewrite call_in_flash. unfold refusal in Hs. destruct (call_range k) as [a n] eqn:Er. simpl in *.
  destruct config; [|by injection Hs as <-]. simpl in Hs.
  destruct (list_find (holds_range a n) (configs w)) as [[i c]|] eqn:Ef.
  - apply list_find_Some in Ef as (Hc & Hh & Hfirst).
    assert (Hin : lies_in w i c a n).
    { split; [done|unfold holds_range in Hh; lia|]. intros j c' Hj Hc'. by apply (Hfirst j c'). }
    apply (in_flash_run run_buffer i c); [done|done|].
    destruct (enter run_buffer _ _ _ _ _ Hok Hin) as (c1 & -> & Hc1 & _ & Hf1 & E1 & E2 & _ & _ & _ & Hcheck).
    assert (Eu : call_unit k (set_convertedAddress (translated c a) c) = call_unit k c) by (destruct k; simpl; by rewrite E2).
    destruct (call_unit_power k _ _ (ok_module _ _ Hok) Hf1) as (j & Hj & Ej).
    apply (body_refuses fuel k i _ _ _ s Hc1); [|split_and!; try done; by apply ok_converted].
    rewrite Er. simpl. rewrite Ej. rewrite <- Eu, Ej in Hs.
    destruct (call_null k); [left; by injection Hs as <-|right; split; [done|]].
    assert (H0 : 0 < 2 ^ j) by (apply Z.pow_pos_nonneg; lia).
    destruct (Z.eqb_spec (a mod 2 ^ j) 0) as [A1|A1]; [destruct (Z.eqb_spec (n mod 2 ^ j) 0) as [A2|A2]|]; simpl in Hs.
    + right. split; [apply Hcheck; [done|by apply Z.mod_divide; lia..]|]. destruct (call_locked k); [|done]. by injection Hs as <-.
    + left. injection Hs as <-. split; [|done]. apply check_mem_range_misaligned; [done|]. intros [_ H]. apply Z.mod_divide in H; lia.
    + left. injection Hs as <-. split; [|done]. apply check_mem_range_misaligned; [done|]. intros [H _]. apply Z.mod_divide in H; lia.
  - injection Hs as <-. unfold in_flash, flash_check_range_to_get_index. cbn [negb]. rewrite wp_bind.
    apply (find_flash_none run_buffer); [done|rewrite (ok_count _ _ Hok); lia|lia|lia|lia| |by split_and!].
    intros i c Hc. apply list_find_None in Ef. rewrite Forall_lookup in Ef. by apply (Ef i c).
Qed.

(** ** Erasing nothing *)

(** An erase up to the last address the processor has runs until a command fails. *)
Record erased_until_failure (lo : Z) (m : nat) (s : status_t) (l : list command) (v v' : ftfx_view) : Prop := {
  until_status : command_error s;
  until_log : v_log v' = v_log v ++ l;
  until_launched : l <> [] /\ map heading l `prefix_of` headings FTFx_ERASE_SECTOR lo sector (S m);
  until_erased x : lo <= x < lo + (Z.of_nat (length l) - 1) * sector -> v_flash v' x = 255;
  until_frame x : ~ (lo <= x < lo + Z.of_nat (S m) * sector) -> v_flash v' x = v_flash v x
}.

Context (Hpolls : (latency < polls)%nat).

Lemma erase_all_run m n i c w es (Q : status_t -> W -> Prop) :
  (m < n)%nat -> ready i c w -> 0 < sector -> 0 <= es -> (sector | es) ->
  es + Z.of_nat m * sector = capacity -> capacity < 0x800000 -> sector <= 0x800000 ->
  (forall d s l, busy d = O -> erased_until_failure es m s l (vw w) (view d) -> Q s (set_hw d w)) ->
  wp (erase_loop run_buffer polls n (Some i) sector 0xFFFFFFFF es kStatus_FTFx_Success) Q w.
Proof.
  revert n w es Q. induction m as [|m IH]; intros n w es Q Hn Hr Hs Hes [q Hq] Hcap Hlt Hs8 HQ;
    (destruct n as [|n]; [lia|]); cbn [erase_loop]; rewrite (proj2 (Z.leb_le _ _)) by lia;
    (apply (erase_pass_run run_buffer polls Hpolls i c); [done|done|change (2 ^ 24) with 16777216; lia|]);
    intros d s cmd Hb Hw Hl Hh Hst Hlim.
  all: assert (Eq : es / sector = q) by (rewrite Hq; apply Z.div_mul; lia); rewrite Eq in Hw.
  all: assert (Kerr : forall mm, command_error s -> erased_until_failure es mm s [cmd] (vw w) (view d)) by
    (intros mm He; split; [done|done|split; [done|simpl; rewrite Hh; apply prefix_cons, prefix_nil]|simpl; lia
     |intros x Hx; apply (works_frame _ _ _ _ _ _ Hw); nia]).
  - assert (He : command_error s) by (apply Hlim; lia).
    rewrite (proj2 (Z.eqb_neq _ _) (command_error_not_success _ He)). simpl. apply wp_ret, (HQ _ _ [cmd]); [done|by apply Kerr].
  - destruct Hst as [->|He].
    + simpl. rewrite (wrap_small 32) by (pow2; nia). apply IH; [lia|by apply ready_hw|done|lia| |lia|done|done|].
      { exists (q + 1). lia. }
      intros d2 s l Hb2 [U1 U2 [U3 U4] U5 U6]. rewrite set_hw_set_hw. cbn [f_hw set_hw] in *. apply (HQ _ _ (cmd :: l)); [done|]. split.
      * done.
      * exact (log_step _ _ _ _ _ Hl U2).
      * split; [done|]. simpl. rewrite Hh. by apply prefix_cons.
      * intros x Hx. cbn [length] in Hx. destruct (Z.lt_ge_cases x (es + sector)) as [Hlo|Hhi]; [|apply U5; lia].
        rewrite U6 by lia. apply (works_done _ _ _ _ _ _ Hw); [done|lia].
      * intros x Hx. rewrite U6 by lia. apply (works_frame _ _ _ _ _ _ Hw). nia.
    + rewrite (proj2 (Z.eqb_neq _ _) (command_error_not_success _ He)). simpl. apply wp_ret, (HQ _ _ [cmd]); [done|by apply Kerr].
Qed.

(** ** Ranges that wrap *)

(** The end of a range is computed in 32 bits: a length close to 2^32 passes
    the range check of a flash at address 0. *)
Lemma wrapped_range_accepted i c start len j :
  fits i c -> blockBase (flashDesc c) = 0 -> 0 <= j <= 7 -> (2 ^ j | start) -> (2 ^ j | len) ->
  0 <= start -> 2 ^ 32 <= start + len <= 2 ^ 32 + totalSize (flashDesc c) ->
  ftfx_check_mem_range c start len (2 ^ j) = kStatus_FTFx_Success.
Proof.
  intros Hf Hb Hj [a Ha] [b Hl] Hs Hr. unfold ftfx_check_mem_range. cbv zeta.
  assert (0 < 2 ^ j) by (apply Z.pow_pos_nonneg; lia). rewrite !aligned_test by done.
  rewrite Ha, Hl, !Z.mod_mul by lia. simpl. rewrite <- Ha, <- Hl.
  assert (Hend := fits_end _ _ Hf). rewrite Hb in *. pow2.
  replace (u32 (start + len)) with (start + len - 2 ^ 32).
  2: { symmetry. unfold wrap. pow2. symmetry. apply (Z.mod_unique_pos _ _ 1); lia. }
  pow2. rewrite (wrap_small 32 (0 + _)) by (pow2; lia). by rewrite !(proj2 (Z.leb_le _ _)) by lia.
Qed.

(** Where the erase of no bytes at address 0 ends. *)
Lemma no_bytes_end : module_ok ->
  u32 (u32 (0 + 0) - 1) mod sector <> 0 /\
  u32 (u32 (u32 (u32 (u32 (0 + 0) - 1) / sector + 1) * sector) - 1) = 0xFFFFFFFF.
Proof.
  intros [(k & Hk & ->) _]. change (u32 (u32 (0 + 0) - 1)) with (2 ^ 32 - 1).
  assert (H1 : 0 < 2 ^ k) by (apply Z.pow_pos_nonneg; lia).
  assert (H8 : 2 ^ 3 <= 2 ^ k) by (apply Z.pow_le_mono_r; lia).
  assert (E : 2 ^ 32 = 2 ^ (32 - k) * 2 ^ k) by (rewrite <- Z.pow_add_r by lia; f_equal; lia).
  assert (H2 : 0 < 2 ^ (32 - k)) by (apply Z.pow_pos_nonneg; lia).
  assert (Ed : (2 ^ 32 - 1) / 2 ^ k = 2 ^ (32 - k) - 1).
  { symmetry. apply (Z.div_unique _ _ _ (2 ^ k - 1)); [left; lia|nia]. }
  split.
  - rewrite Z.mod_eq, Ed by lia. change (2 ^ 3) with 8 in H8. nia.
  - rewrite Ed. replace (2 ^ (32 - k) - 1 + 1) with (2 ^ (32 - k)) by lia.
    rewrite (wrap_small 32 (2 ^ (32 - k))) by (split; [lia|apply Z.pow_lt_mono_r; lia]).
    rewrite <- E. reflexivity.
Qed.

(** [FLASH_Erase] asked to erase no bytes at address 0 computes an end
    address of 0xFFFFFFFF: it erases one sector after the other from the first
    one on, until a command fails -- at the end of the flash at the latest --
    and then reports that failure. *)
Theorem flash_erase_nothing_erases_all fuel i c w
  (Hok : driver_ok w) (Hin : lies_in w i c 0 0) (Hat : translated c 0 = 0)
  (Hcap : exists m, capacity = Z.of_nat m * sector /\ (m < fuel)%nat) (Hlt : capacity < 0x800000) (Hs : sector <= 0x800000) :
  wp (FLASH_Erase run_buffer polls fuel true 0 0 kFTFx_ApiEraseKey) (fun s w' =>
    exists l, erased_until_failure 0 (Z.to_nat (capacity / sector)) s l (vw w) (vw w')) w.
Proof.
  apply (in_flash_run run_buffer i c); [done|done|]. assert (Hm := ok_module _ _ Hok).
  assert (Hf := ok_fits _ _ Hok _ _ (in_config _ _ _ _ _ Hin)). destruct (fits_erase _ _ Hf) as (j & Hj & Ej & _).
  destruct (enter run_buffer _ _ _ _ _ Hok Hin) as (c1 & _ & Hc1 & Hr1 & Hf1 & E1 & E2 & E3 & Ha0 & Hae & Hcheck).
  destruct (sector_range Hm) as [Hsr _]. destruct (no_bytes_end Hm) as [N1 N2].
  unfold FTFx_CMD_Erase. rewrite wp_bind, (wp_deref _ _ _ _ Hc1). cbv zeta beta. rewrite E1, E2, E3, Ej, Hat.
  rewrite Hcheck, or_return_success by (solve [lia | by exists 0]).
  change (ftfx_check_user_key _) with kStatus_FTFx_Success. rewrite or_return_success, (fits_sector _ _ Hf).
  rewrite wp_bind, (wp_lift _ (u32 (u32 (0 + 0) - 1) mod sector)) by (apply umod_ok; lia).
  rewrite (proj2 (Z.eqb_neq _ _) N1). cbn [negb]. rewrite N2. destruct Hcap as (m & Em & Hmf).
  apply (erase_all_run m _ i c1); [done|done|lia|lia|by exists 0|lia|done|done|].
  intros d s l Hb Hu. exists l. rewrite Em, Z.div_mul, Nat2Z.id by lia. exact Hu.
Qed.
End Limits.

(** ** Instances *)

Lemma flash_refuses_witness :
  wp (call_run dev_run_buffer dev_polls 4 true (CallErase 0x800 0x400 0)) (fun s w' =>
    s = kStatus_FTFx_EraseKeyError /\ f_hw w' = f_hw dev_ready) dev_ready /\
  wp (call_run dev_run_buffer dev_polls 4 true (CallProgram 0x3FF8 0x20000 0x10)) (fun s w' =>
    s = kStatus_FTFx_AddressError /\ f_hw w' = f_hw dev_ready) dev_ready /\
  wp (call_run dev_run_buffer dev_polls 4 true (CallVerifyProgram 0x802 8 0x20000 1 0 0)) (fun s w' =>
    s = kStatus_FTFx_AlignmentError /\ f_hw w' = f_hw dev_ready) dev_ready.
Proof.
  split; [|split].
  - eapply wp_mono; [apply (flash_refuses (L := ftfx_laws) dev_run_buffer dev_polls 4 true
      (CallErase 0x800 0x400 0) dev_ready kStatus_FTFx_EraseKeyError dev_ready_ok); [simpl; lia|vm_compute; reflexivity]|].
    intros s w' (Hs & Hw & _). done.
  - eapply wp_mono; [apply (flash_refuses (L := ftfx_laws) dev_run_buffer dev_polls 4 true
      (CallProgram 0x3FF8 0x20000 0x10) dev_ready kStatus_FTFx_AddressError dev_ready_ok); [simpl; lia|vm_compute; reflexivity]|].
    intros s w' (Hs & Hw & _). done.
  - eapply wp_mono; [apply (flash_refuses (L := ftfx_laws) dev_run_buffer dev_polls 4 true
      (CallVerifyProgram 0x802 8 0x20000 1 0 0) dev_ready kStatus_FTFx_AlignmentError dev_ready_ok); [simpl; lia|vm_compute; reflexivity]|].
    intros s w' (Hs & Hw & _). done.
Defined.

Definition erase_nothing_summary : option (status_t * Z * nat) :=
  match FLASH_Erase dev_run_buffer dev_polls 20 true 0 0 kFTFx_ApiEraseKey dev_ready with
  | Ok (s, w') => Some (s, v_flash (dev_view (f_hw w')) 0x3FFF, length (v_log (dev_view (f_hw w'))))
  | Err _ => None
  end.

(** Sixteen sectors are erased; the seventeenth command is refused. *)
Lemma flash_erase_nothing_erases_all_witness :
  wp (FLASH_Erase dev_run_buffer dev_polls 20 true 0 0 kFTFx_ApiEraseKey) (fun s w' => command_error s) dev_ready /\
  erase_nothing_summary = Some (kStatus_FTFx_AccessError, 255, 17%nat).
Proof.
  split; [|vm_compute; reflexivity].
  eapply wp_mono; [apply (flash_erase_nothing_erases_all (L := ftfx_laws) dev_run_buffer dev_polls
    ltac:(vm_compute; lia) 20 0 dev_config dev_ready dev_ready_ok)|].
  - apply dev_range; unfold dev_size; lia.
  - done.
  - exists 16%nat. split; [done|lia].
  - done.
  - done.
  - intros s w' (l & [Hs _ _ _ _]). exact Hs.
Defined.
