(* ===== verification/FtfxUpdate.v ===== *)
(** * What the flash operations promise

    Erasing, programming and verifying through fsl_ftfx_flash.c, from a state
    that satisfies [driver_ok]; the composition of the three; sections against
    single units; and the initialisation that establishes [driver_ok]. *)

From stdpp Require Import base list numbers tactics.
From Stdlib Require Import ZArith Lia.
From S2P Require Import Prelude Mmio Ftfx FtfxFlash FtfxEngine FtfxLoops FtfxSection FtfxVerify FtfxOps FtfxDevice FtfxInit.

Open Scope Z_scope.
Open Scope prog_scope.

Section Update.
Context {D : Type} `{!Device ftfx_reg D} {F : FtfxFields} {X : FtfxFeatures} {L : FtfxLaws} {P : FlashFeatures}.
Abbreviation W := (ftfx_world D).
Abbreviation vw w := (view (f_hw w)).
Context (run_buffer : Z) (polls : nat) (Hpolls : (latency < polls)%nat).
Abbreviation driver_ok := (driver_ok run_buffer).
Abbreviation FLASH_Erase := (FLASH_Erase run_buffer polls).
Abbreviation FLASH_Program := (FLASH_Program run_buffer polls).
Abbreviation FLASH_ProgramSection := (FLASH_ProgramSection run_buffer polls).
Abbreviation FLASH_VerifyErase := (FLASH_VerifyErase run_buffer polls).
Abbreviation FLASH_VerifyProgram := (FLASH_VerifyProgram run_buffer polls).

Lemma ok_after i c start w d :
  driver_ok w -> configs w !! i = Some c -> busy d = O -> driver_ok (set_hw d (converted i c start w)).
Proof. intros Hok Hc Hd. apply ok_hw; [by apply ok_converted|done]. Qed.

(** C9: [FLASH_Erase] on a range of one flash launches one erase command per
    sector the range touches, in order, until one fails.  Whatever the outcome,
    no byte outside those sectors changes; on success every byte inside reads
    255, and otherwise the result is the verdict of the failed command. *)
Theorem flash_erase_spec fuel i c start len w
  (Hok : driver_ok w) (Hin : lies_in w i c start len) (Hlen : 0 < len)
  (Hstart : (sectorCmd (addrAligment (opsConfig c)) | start)) (Hl : (sectorCmd (addrAligment (opsConfig c)) | len))
  (Hfuel : sectors c start len < Z.of_nat fuel) :
  wp (FLASH_Erase fuel true start len kFTFx_ApiEraseKey) (fun s w' =>
    driver_ok w' /\ f_mem w' = f_mem w /\
    works (touched_lo c start) (touched_hi c start len) (fun _ => 255) s (vw w) (vw w') /\
    exists l, v_log (vw w') = v_log (vw w) ++ l /\
      launches (headings FTFx_ERASE_SECTOR (translated c start) sector (Z.to_nat (sectors c start len))) s l) w.
Proof.
  apply (erase_run run_buffer polls Hpolls fuel i c); [done..|]. intros s d l Hb Hw Hlog Hp.
  split; [apply ok_after; [done|by destruct Hin|done]|]. split; [done|]. split; [done|]. by exists l.
Qed.

(** C10: [FLASH_ProgramSection] programs like [FLASH_Program]: from the same
    state, when both succeed, the whole flash array is the same afterwards;
    and each section command stays within one sector and within the
    acceleration RAM. *)
Theorem flash_section_equals_program fuel1 fuel2 i c start src len w
  (Hok : driver_ok w) (Hin : lies_in w i c start len) (Hm : bytes (f_mem w)) (Hsrc : src <> 0)
  (Hu1 : (blockWriteUnitSize (addrAligment (opsConfig c)) | start))
  (Hu2 : (blockWriteUnitSize (addrAligment (opsConfig c)) | len))
  (Hp1 : (phrase | start)) (Hp2 : (phrase | len))
  (Hf1 : len / blockWriteUnitSize (addrAligment (opsConfig c)) < Z.of_nat fuel1)
  (Hf2 : len <= phrase * Z.of_nat fuel2 - phrase) :
  wp (FLASH_Program fuel1 true start src len) (fun s1 w1 =>
    wp (FLASH_ProgramSection fuel2 true start src len) (fun s2 w2 =>
      (s1 = kStatus_FTFx_Success -> s2 = kStatus_FTFx_Success -> forall x, v_flash (vw w1) x = v_flash (vw w2) x) /\
      exists l, v_log (vw w2) = v_log (vw w) ++ l /\ Forall section_or_switch l) w) w.
Proof.
  apply (program_run run_buffer polls Hpolls fuel1 i c); [done..|]. intros s1 d1 l1 Hb1 Hw1 _ _.
  apply (section_run run_buffer polls Hpolls fuel2 i c); [done..|]. intros s2 d2 l2 Hb2 Hw2 Hl2 Hall2.
  split; [|by exists l2]. intros Hs1 Hs2 x. cbn [f_hw set_hw].
  destruct (decide (translated c start <= x < translated c start + len)) as [Hx|Hx].
  - by rewrite (works_done _ _ _ _ _ _ Hw1), (works_done _ _ _ _ _ _ Hw2).
  - by rewrite (works_frame _ _ _ _ _ _ Hw1), (works_frame _ _ _ _ _ _ Hw2).
Qed.

(** The sectors a range touches contain it. *)
Lemma touched_covers c start len x :
  0 < sector -> translated c start <= x < translated c start + len -> touched_lo c start <= x < touched_hi c start len.
Proof.
  intros Hs Hx. unfold touched_lo, touched_hi, sectors, first_sector.
  assert (translated c start / sector * sector <= translated c start) by (rewrite Z.mul_comm; apply Z.mul_div_le; lia).
  set (e := translated c start + len - 1).
  assert (e < (e / sector + 1) * sector).
  { clear - Hs. clearbody e. zlia. }
  replace (translated c start / sector + (e / sector - translated c start / sector + 1)) with (e / sector + 1) by lia.
  unfold e in *. lia.
Qed.

(** C8: Erase, program, verify: if the first two calls succeed, or if the
    verification does, the range holds the data byte for byte; and whatever
    the outcome, nothing outside the sectors of the range has changed. *)
Theorem flash_update_roundtrip fuel i c start src len margin w
  (Hok : driver_ok w) (Hin : lies_in w i c start len) (Hlen : 0 < len) (Hm : bytes (f_mem w)) (Hsrc : src <> 0)
  (Hstart : (sectorCmd (addrAligment (opsConfig c)) | start)) (Hl : (sectorCmd (addrAligment (opsConfig c)) | len))
  (Hu1 : (blockWriteUnitSize (addrAligment (opsConfig c)) | start))
  (Hu2 : (blockWriteUnitSize (addrAligment (opsConfig c)) | len))
  (Hf : sectors c start len < Z.of_nat fuel /\ len < Z.of_nat fuel) :
  wp (s1 <- FLASH_Erase fuel true start len kFTFx_ApiEraseKey ;;
      s2 <- FLASH_Program fuel true start src len ;;
      s3 <- FLASH_VerifyProgram fuel true start len src margin 0 0 ;;
      ret (s1, s2, s3)) (fun '(s1, s2, s3) w' =>
    (s1 = kStatus_FTFx_Success /\ s2 = kStatus_FTFx_Success \/ s3 = kStatus_FTFx_Success ->
      forall x, translated c start <= x < translated c start + len ->
        v_flash (vw w') x = f_mem w (src + (x - translated c start))) /\
    (forall x, ~ (touched_lo c start <= x < touched_hi c start len) -> v_flash (vw w') x = v_flash (vw w) x)) w.
Proof.
  destruct Hf as [Hf1 Hf2]. assert (Hc := in_config _ _ _ _ _ Hin).
  assert (Hu := fits_unit _ _ (ok_fits _ _ Hok _ _ Hc)).
  assert (Hs := sector_range (ok_module _ _ Hok)).
  rewrite wp_bind. apply (erase_run run_buffer polls Hpolls fuel i c); [done..|]. intros s1 d1 l1 Hb1 Hw1 _ _.
  set (w1 := set_hw d1 _). set (c1 := set_convertedAddress (translated c start) c).
  assert (Hok1 : driver_ok w1) by by apply ok_after.
  assert (Hin1 : lies_in w1 i c1 start len) by by apply lies_in_converted.
  assert (Ea : addrAligment (opsConfig c1) = addrAligment (opsConfig c)) by by destruct c as [? [? ?] ? ? ? ? ?].
  assert (Et : translated c1 start = translated c start) by apply translated_converted.
  rewrite wp_bind. apply (program_run run_buffer polls Hpolls fuel i c1); rewrite ?Ea, ?Et; try done.
  { apply (Z.le_lt_trans _ len); [|done]. apply Z.div_le_upper_bound; lia. }
  intros s2 d2 l2 Hb2 Hw2 _ _. set (w2 := set_hw d2 _). set (c2 := set_convertedAddress (translated c1 start) c1).
  assert (Hok2 : driver_ok w2) by (apply ok_after; [done|by destruct Hin1|done]).
  assert (Hin2 : lies_in w2 i c2 start len) by by apply lies_in_converted.
  assert (Et2 : translated c2 start = translated c start) by (unfold c2; by rewrite translated_converted).
  assert (H4 : (4 | start) /\ (4 | len)).
  { destruct Hu as [E|E]; rewrite E in *; [done|]. split; (transitivity 8; [by exists 2|done]). }
  rewrite wp_bind. apply (verify_program_run run_buffer polls Hpolls fuel i c2); try done; try apply H4.
  { apply (Z.le_lt_trans _ len); [|done]. apply Z.div_le_upper_bound; lia. }
  intros s3 w3 d3 Hb3 Hf3 H3. rewrite wp_ret.
  assert (Ev : view (f_hw w3) = view d3).
  { destruct H3 as [(_ & -> & _)|(_ & k & _ & -> & _)]; done. }
  rewrite Ev. split.
  - intros [[-> ->]| ->] x Hx; rewrite Hf3; cbn [f_hw set_hw w2].
    2: { destruct H3 as [(_ & _ & Hv)|(He & _)]; [|by apply command_error_not_success in He].
         rewrite Et2 in Hv. by apply Hv. }
    rewrite (works_done _ _ _ _ _ _ Hw2) by done. unfold programmed. rewrite Et. cbn [f_hw f_mem set_hw w1 converted].
    rewrite (works_done _ _ _ _ _ _ Hw1) by (solve [done | apply touched_covers; [lia|done]]).
    change 255 with (Z.ones 8). rewrite Z.land_comm, Z.land_ones by lia. apply Z.mod_small, Hm.
  - intros x Hx. rewrite Hf3. cbn [f_hw set_hw w2].
    rewrite (works_frame _ _ _ _ _ _ Hw2); [by apply (works_frame _ _ _ _ _ _ Hw1)|].
    intros Hx2. apply Hx. apply touched_covers; [lia|done].
Qed.

(** [FLASH_VerifyErase] changes no byte, asks only about ranges within one
    block, and when it succeeds every byte of the range reads 255. *)
Theorem flash_verify_erase_sound fuel i c start len margin w
  (Hok : driver_ok w) (Hin : lies_in w i c start len) (Hp1 : (phrase | start)) (Hp2 : (phrase | len))
  (Hfuel : len <= phrase * Z.of_nat fuel - phrase) :
  wp (FLASH_VerifyErase fuel true start len margin) (fun s w' =>
    driver_ok w' /\ f_mem w' = f_mem w /\ (forall x, v_flash (vw w') x = v_flash (vw w) x) /\
    (s = kStatus_FTFx_Success -> forall x, translated c start <= x < translated c start + len -> v_flash (vw w') x = 255) /\
    (exists l, v_log (vw w') = v_log (vw w) ++ l /\ Forall (within_block (block_size c)) l)) w.
Proof.
  apply (verify_erase_run run_buffer polls Hpolls fuel i c); [done..|]. intros s d l Hb Hfd Hl Hall Hs _.
  split_and!; [apply ok_after; [done|by destruct Hin|done]|done|done| |by exists l].
  intros E x Hx. cbn [f_hw set_hw]. rewrite Hfd. by apply Hs.
Qed.
End Update.

(** ** Instances *)

Abbreviation dev_ok := (driver_ok (L := ftfx_laws) dev_run_buffer).

Lemma dev_latency : (latency (FtfxLaws := ftfx_laws) < dev_polls)%nat.
Proof. vm_compute. lia. Qed.

Lemma dev_divides q d n : n = q * d -> (d | n).
Proof. by exists q. Qed.

Lemma dev_mem a : f_mem dev_ready a = a mod 256.
Proof. done. Qed.

Lemma dev_translated a : translated dev_config a = a.
Proof. done. Qed.

Lemma dev_bytes : bytes (f_mem dev_ready).
Proof. intros a. rewrite dev_mem. apply Z.mod_pos_bound. lia. Qed.

Lemma flash_erase_spec_witness :
  wp (FLASH_Erase dev_run_buffer dev_polls 4 true 0x800 0x800 kFTFx_ApiEraseKey) (fun s w' =>
    dev_ok w' /\ (forall x, ~ (0x800 <= x < 0x1000) -> v_flash (dev_view (f_hw w')) x = x mod 251) /\
    (s = kStatus_FTFx_Success -> forall x, 0x800 <= x < 0x1000 -> v_flash (dev_view (f_hw w')) x = 255)) dev_ready.
Proof.
  eapply wp_mono.
  - apply (flash_erase_spec (L := ftfx_laws) dev_run_buffer dev_polls dev_latency 4 0 dev_config 0x800 0x800 dev_ready dev_ready_ok).
    + apply dev_range; unfold dev_size; lia.
    + lia.
    + by apply (dev_divides 128).
    + by apply (dev_divides 128).
    + vm_compute. reflexivity.
  - intros s w' (Hok & _ & [W1 W2 _] & _). split; [exact Hok|]. split; [exact W1|]. intros Hs x Hx. by apply W2.
Defined.

Lemma section_demo_1 : answer (FLASH_Program dev_run_buffer dev_polls 200 true 0x3E0 0x20001 0x60) dev_ready = Some 0.
Proof. vm_compute. reflexivity. Qed.
Lemma section_demo_2 : answer (FLASH_ProgramSection dev_run_buffer dev_polls 20 true 0x3E0 0x20001 0x60) dev_ready = Some 0.
Proof. vm_compute. reflexivity. Qed.

Lemma flash_section_equals_program_witness :
  wp (FLASH_Program dev_run_buffer dev_polls 200 true 0x3E0 0x20001 0x60) (fun s1 w1 =>
    wp (FLASH_ProgramSection dev_run_buffer dev_polls 20 true 0x3E0 0x20001 0x60) (fun s2 w2 =>
      s1 = kStatus_FTFx_Success /\ s2 = kStatus_FTFx_Success /\
      forall x, v_flash (dev_view (f_hw w1)) x = v_flash (dev_view (f_hw w2)) x) dev_ready) dev_ready.
Proof.
  assert (H := flash_section_equals_program (L := ftfx_laws) dev_run_buffer dev_polls dev_latency 200 20 0 dev_config
    0x3E0 0x20001 0x60 dev_ready dev_ready_ok (dev_range 0x3E0 0x60 ltac:(lia) ltac:(lia) ltac:(unfold dev_size; lia)) dev_bytes
    ltac:(lia) (dev_divides 124 8 _ eq_refl) (dev_divides 12 8 _ eq_refl) (dev_divides 124 8 _ eq_refl)
    (dev_divides 12 8 _ eq_refl) eq_refl ltac:(change (phrase (FtfxLaws := ftfx_laws)) with 8; lia)).
  eapply wp_mono; [apply (wp_answer _ 0 _ _ section_demo_1 H)|]. intros s1 w1 [-> H2].
  eapply wp_mono; [apply (wp_answer _ 0 _ _ section_demo_2 H2)|]. intros s2 w2 [-> [H3 _]].
  split; [done|split; [done|]]. by apply H3.
Defined.

Lemma update_demo :
  answer (s1 <- FLASH_Erase dev_run_buffer dev_polls 20 true 0x810 0x10 kFTFx_ApiEraseKey ;;
      s2 <- FLASH_Program dev_run_buffer dev_polls 20 true 0x810 0x20001 0x10 ;;
      s3 <- FLASH_VerifyProgram dev_run_buffer dev_polls 20 true 0x810 0x10 0x20001 1 0 0 ;;
      ret (s1, s2, s3)) dev_ready = Some (0, 0, 0).
Proof. vm_compute. reflexivity. Qed.

Lemma flash_update_roundtrip_witness :
  wp (s1 <- FLASH_Erase dev_run_buffer dev_polls 20 true 0x810 0x10 kFTFx_ApiEraseKey ;;
      s2 <- FLASH_Program dev_run_buffer dev_polls 20 true 0x810 0x20001 0x10 ;;
      s3 <- FLASH_VerifyProgram dev_run_buffer dev_polls 20 true 0x810 0x10 0x20001 1 0 0 ;;
      ret (s1, s2, s3)) (fun _ w' =>
    forall x, 0x810 <= x < 0x820 -> v_flash (dev_view (f_hw w')) x = (x - 0x810 + 0x20001) mod 256) dev_ready.
Proof.
  assert (H := flash_update_roundtrip (L := ftfx_laws) dev_run_buffer dev_polls dev_latency 20 0 dev_config
    0x810 0x20001 0x10 1 dev_ready dev_ready_ok (dev_range 0x810 0x10 ltac:(lia) ltac:(lia) ltac:(unfold dev_size; lia))
    ltac:(lia) dev_bytes ltac:(lia) (dev_divides 129 16 _ eq_refl) (dev_divides 1 16 _ eq_refl)
    (dev_divides 258 8 _ eq_refl) (dev_divides 2 8 _ eq_refl) (conj eq_refl eq_refl)).
  rewrite !dev_translated in H. eapply wp_mono; [apply (wp_answer _ _ _ _ update_demo H)|].
  intros s w' [-> [Hx _]] x Hr. specialize (Hx (or_introl (conj eq_refl eq_refl)) x Hr).
  change (v_flash (dev_view (f_hw w')) x = f_mem dev_ready (0x20001 + (x - 0x810))) in Hx.
  rewrite Hx, dev_mem. f_equal. lia.
Defined.

(** The example module after a mass erase. *)
Definition dev_blank : ftfx_world ftfx_dev :=
  set_hw (FtfxDev (FtfxView (fun _ => 255) (fun _ => 0) (fun _ => 0) 0 [] (fun _ => 0xF7)) 0) dev_ready.

Lemma dev_blank_ok : dev_ok dev_blank.
Proof. apply ok_hw; [exact dev_ready_ok|done]. Qed.

Lemma dev_blank_range : lies_in dev_blank 0 dev_config 0x1FF0 0x20.
Proof. split; [done|vm_compute; intuition congruence|intros j c Hj; lia]. Qed.

Lemma verify_demo : answer (FLASH_VerifyErase dev_run_buffer dev_polls 8 true 0x1FF0 0x20 1) dev_blank = Some 0.
Proof. vm_compute. reflexivity. Qed.

Lemma flash_verify_erase_sound_witness :
  wp (FLASH_VerifyErase dev_run_buffer dev_polls 8 true 0x1FF0 0x20 1) (fun s w' =>
    s = kStatus_FTFx_Success /\ dev_ok w' /\ forall x, 0x1FF0 <= x < 0x2010 -> v_flash (dev_view (f_hw w')) x = 255) dev_blank.
Proof.
  assert (H := flash_verify_erase_sound (L := ftfx_laws) dev_run_buffer dev_polls dev_latency 8 0 dev_config 0x1FF0 0x20 1
    dev_blank dev_blank_ok dev_blank_range (dev_divides 1022 8 _ eq_refl) (dev_divides 4 8 _ eq_refl)
    ltac:(change (phrase (FtfxLaws := ftfx_laws)) with 8; lia)).
  eapply wp_mono; [apply (wp_answer _ _ _ _ verify_demo H)|]. intros s w' [-> (Hok & _ & _ & Hx & _)].
  split; [done|split; [exact Hok|]]. by apply Hx.
Defined.
