(* ===== verification/Sha.v ===== *)
(** * The SHA driver (drivers/sha)

    The peripheral hashes 64-byte blocks: CTRL starts a new hash, sixteen
    words written to INDATA (and its aliases) are a block, MEMADDR and MEMCTRL
    make the engine fetch blocks by itself, DIGEST holds the result.  The
    driver's context collects bytes until a block is full, counts them, and
    pads the message at the end.

    There is one context; [s_shaCtx] tells whether the static pointer is set
    to it, and a context pointer or a data pointer may be null (0). *)

From stdpp Require Import base list numbers tactics.
From Stdlib Require Import ZArith Lia.
From S2P Require Import Prelude Bytes Mmio.

Open Scope Z_scope.
Open Scope prog_scope.

Inductive sha_reg :=
  | CTRL | STATUS | INTENSET | INTENCLR | MEMCTRL | MEMADDR
  | INDATA (i : Z) | ALIAS (i : Z) | DIGEST (i : Z).
#[export] Instance sha_reg_eq_dec : EqDecision sha_reg.
Proof. solve_decision. Defined.

(** Masks and shifts of the device header, and its features; [SRAM] is base
    and size of SRAMX and of SRAM0, where the header defines them. *)
Class ShaFields := {
  SHA_STATUS_WAITING_MASK : Z; SHA_STATUS_DIGEST_MASK : Z; SHA_STATUS_ERROR_MASK : Z;
  SHA_INTENCLR_DIGEST_MASK : Z; SHA_INTENCLR_ERROR_MASK : Z;
  SHA_CTRL_MODE : Z -> Z; SHA_CTRL_NEW : Z -> Z;
  SHA_MEMCTRL_MASTER : Z -> Z; SHA_MEMCTRL_COUNT : Z -> Z; SHA_MEMADDR_BASEADDR : Z -> Z
}.
Class ShaFeatures := {
  SHA_ALIAS_DATA : bool;
  SHA_HAS_MEMADDR_DMA : bool;
  SRAM : option ((Z * Z) * (Z * Z))
}.

Definition SHA_BLOCK_SIZE : Z := 64.
Definition MAX_HASH_CHUNK : Z := 2048 - 1.
Definition SHA_CTX_SIZE : Z := 22.

Definition kSHA_HashInit : Z := 1.
Definition kSHA_HashUpdate : Z := 2.
Definition kSHA_HashDone : Z := 3.
Definition kSHA_HashError : Z := 4.
Definition kSHA_OutLenSha1 : Z := 20.
Definition kSHA_OutLenSha256 : Z := 32.
Definition kSHA_Sha1 : Z := 0.
Definition kSHA_Sha256 : Z := 1.

(** [blk] by its bytes. *)
Record sha_ctx := {
  blk : list Z; blksz : Z; algo : Z; state : Z; fullMessageSize : Z; remainingBlcks : Z;
  hashCallback : Z; userData : Z
}.
Definition set_blk (x : list Z) (c : sha_ctx) : sha_ctx :=
  {| blk := x; blksz := blksz c; algo := algo c; state := state c; fullMessageSize := fullMessageSize c;
     remainingBlcks := remainingBlcks c; hashCallback := hashCallback c; userData := userData c |}.
Definition set_blksz (x : Z) (c : sha_ctx) : sha_ctx :=
  {| blk := blk c; blksz := x; algo := algo c; state := state c; fullMessageSize := fullMessageSize c;
     remainingBlcks := remainingBlcks c; hashCallback := hashCallback c; userData := userData c |}.
Definition set_algo (x : Z) (c : sha_ctx) : sha_ctx :=
  {| blk := blk c; blksz := blksz c; algo := x; state := state c; fullMessageSize := fullMessageSize c;
     remainingBlcks := remainingBlcks c; hashCallback := hashCallback c; userData := userData c |}.
Definition set_state (x : Z) (c : sha_ctx) : sha_ctx :=
  {| blk := blk c; blksz := blksz c; algo := algo c; state := x; fullMessageSize := fullMessageSize c;
     remainingBlcks := remainingBlcks c; hashCallback := hashCallback c; userData := userData c |}.
Definition set_fullMessageSize (x : Z) (c : sha_ctx) : sha_ctx :=
  {| blk := blk c; blksz := blksz c; algo := algo c; state := state c; fullMessageSize := x;
     remainingBlcks := remainingBlcks c; hashCallback := hashCallback c; userData := userData c |}.
Definition set_remainingBlcks (x : Z) (c : sha_ctx) : sha_ctx :=
  {| blk := blk c; blksz := blksz c; algo := algo c; state := state c; fullMessageSize := fullMessageSize c;
     remainingBlcks := x; hashCallback := hashCallback c; userData := userData c |}.
Definition set_hashCallback (x y : Z) (c : sha_ctx) : sha_ctx :=
  {| blk := blk c; blksz := blksz c; algo := algo c; state := state c; fullMessageSize := fullMessageSize c;
     remainingBlcks := remainingBlcks c; hashCallback := x; userData := y |}.

(** A context of zero words, as [SHA_Finish] leaves it. *)
Definition zero_ctx : sha_ctx :=
  {| blk := repeat 0 64; blksz := 0; algo := 0; state := 0; fullMessageSize := 0; remainingBlcks := 0;
     hashCallback := 0; userData := 0 |}.

(** ** Bytes and words *)

(** The words of consecutive bytes, on the little-endian processor. *)
Fixpoint words_of (l : list Z) : list Z :=
  match l with
  | a :: b :: c :: d :: t => a + 256 * b + 65536 * c + 16777216 * d :: words_of t
  | _ => []
  end.
Definition bytes_of (w : Z) : list Z := [w mod 256; w / 256 mod 256; w / 65536 mod 256; w / 16777216 mod 256].

Definition swap_bytes (x : Z) : Z :=
  Z.lor (Z.lor (Z.lor (u32 (Z.shiftl (Z.land x 0x000000ff) 24)) (u32 (Z.shiftl (Z.land x 0x0000ff00) 8)))
    (Z.shiftr (Z.land x 0x00ff0000) 8)) (Z.shiftr (Z.land x 0xff000000) 24).

(** [memcpy(&b[offset], src, n)] into a 64-byte block, for the bytes [src]. *)
Definition blk_copy (b : list Z) (offset : Z) (src : list Z) : outcome (list Z) :=
  if (0 <=? offset) && (offset + Z.of_nat (length src) <=? SHA_BLOCK_SIZE)
  then Ok (take (Z.to_nat offset) b ++ src ++ drop (Z.to_nat offset + length src) b) else Err OutOfBounds.

Record sha_world (D : Type) := ShaWorld {
  sh_hw : D; sh_ctx : sha_ctx; s_shaCtx : bool; sh_mem : Z -> Z;
  sh_irq : bool;      (** the interrupt is enabled at the interrupt controller *)
  sh_clock : bool;    (** the clock gate *)
  sh_resets : nat     (** resets of the peripheral *)
}.
Arguments ShaWorld {D}. Arguments sh_hw {D}. Arguments sh_ctx {D}. Arguments s_shaCtx {D}. Arguments sh_mem {D}.
Arguments sh_irq {D}. Arguments sh_clock {D}. Arguments sh_resets {D}.

Section Driver.
Context {D : Type} `{!Device sha_reg D} {F : ShaFields} {X : ShaFeatures}.
Abbreviation W := (sha_world D).
(** How often STATUS may be polled, and the application's callbacks. *)
Context (polls : nat) (hash_callback : Z -> status_t -> Z -> M W unit).

Definition on_sha {A} (m : M D A) : M W A :=
  fun w => match m (sh_hw w) with
  | Ok (a, d) => Ok (a, ShaWorld d (sh_ctx w) (s_shaCtx w) (sh_mem w) (sh_irq w) (sh_clock w) (sh_resets w))
  | Err e => Err e
  end.
Definition ctx_ {A} (f : sha_ctx -> A) : M W A := gets (fun w => f (sh_ctx w)).
Definition upd (f : sha_ctx -> sha_ctx) : M W unit :=
  modify (fun w => ShaWorld (sh_hw w) (f (sh_ctx w)) (s_shaCtx w) (sh_mem w) (sh_irq w) (sh_clock w) (sh_resets w)).
Definition fetch (a n : Z) : M W (list Z) := gets (fun w => bytes_at (sh_mem w) a n).
Definition store (a : Z) (l : list Z) : M W unit :=
  modify (fun w => ShaWorld (sh_hw w) (sh_ctx w) (s_shaCtx w) (mem_write a l (sh_mem w))
    (sh_irq w) (sh_clock w) (sh_resets w)).

(** [dst[i] = src[0]; dst[i + 1] = src[1]; ...] *)
Fixpoint write_words (dst : Z -> sha_reg) (i : Z) (src : list Z) : M D unit :=
  match src with [] => ret tt | w :: src => wr (dst i) w ;; write_words dst (i + 1) src end.

Definition sha_ldm_stm_16_words (src : list Z) : M D unit :=
  if SHA_ALIAS_DATA then
    write_words INDATA 0 (take 1 src) ;; write_words ALIAS 0 (take 7 (drop 1 src)) ;;
    let src := drop 8 src in
    write_words INDATA 0 (take 1 src) ;; write_words ALIAS 0 (take 7 (drop 1 src))
  else
    write_words INDATA 0 (take 8 src) ;;
    let src := drop 8 src in
    write_words INDATA 0 (take 8 src).

Definition sha_check_input_alg (a : Z) : status_t :=
  if negb (a =? kSHA_Sha1) && negb (a =? kSHA_Sha256) then kStatus_InvalidArgument else kStatus_Success.

Definition sha_check_memory_boundry (message messageSize : Z) : status_t :=
  match SRAM with
  | Some ((SRAMX_BASE, SRAMX_SIZE), (SRAM0_BASE, SRAM0_SIZE)) =>
      if (u32 (SRAMX_BASE + SRAMX_SIZE) <? u32 (message + messageSize)) && (message <? SRAM0_BASE) then kStatus_Fail
      else if u32 (SRAM0_BASE + SRAM0_SIZE) <? u32 (message + messageSize) then kStatus_Fail
      else if negb (Z.land message 3 =? 0) then kStatus_Fail
      else kStatus_Success
  | None => kStatus_Fail
  end.

(** [base], [ctx]: whether the pointers are not null. *)
Definition sha_check_input_args (base ctx : bool) (a : Z) : status_t :=
  if negb (kStatus_Success =? sha_check_input_alg a) then kStatus_InvalidArgument
  else if negb ctx || negb base then kStatus_InvalidArgument else kStatus_Success.

Definition sha_check_context (ctx : bool) (message : Z) : M W status_t :=
  if (0 =? message) || negb ctx then ret kStatus_InvalidArgument else
  a <- ctx_ algo ;;
  ret (if negb (kStatus_Success =? sha_check_input_alg a) then kStatus_InvalidArgument else kStatus_Success).

Definition sha_engine_init : M W unit :=
  a <- ctx_ algo ;;
  let shaCtrl := if kSHA_Sha1 =? a then Z.lor (SHA_CTRL_MODE 1) (SHA_CTRL_NEW 1)
                 else Z.lor (SHA_CTRL_MODE 2) (SHA_CTRL_NEW 1) in
  on_sha (wr CTRL shaCtrl).

(** [while (0U == (base->STATUS & mask)) {}] *)
Definition wait_status (mask : Z) : M D unit := poll_clear polls STATUS mask.

(** The words are the same whether [blk] is aligned or copied first. *)
Definition sha_one_block (blk : list Z) : M W unit :=
  on_sha (wait_status SHA_STATUS_WAITING_MASK) ;;
  on_sha (sha_ldm_stm_16_words (words_of blk)).

(** The bytes that complete the internal block; the rest of the message. *)
Definition fill_block (message messageSize : Z) : M W (Z * Z) :=
  n <- ctx_ blksz ;;
  if negb (n =? 0) then
    let toCopy := u32 (SHA_BLOCK_SIZE - n) in
    src <- fetch message toCopy ;;
    b <- ctx_ blk ;;
    b <- lift (blk_copy b n src) ;;
    upd (set_blk b) ;;
    sha_one_block b ;;
    ret (message + toCopy, u32 (messageSize - toCopy))
  else ret (message, messageSize).

(** The incomplete block at the end of the message. *)
Definition keep_rest (message messageSize : Z) : M W status_t :=
  src <- fetch message messageSize ;;
  b <- ctx_ blk ;;
  b <- lift (blk_copy b 0 src) ;;
  upd (set_blk b) ;;
  upd (set_blksz messageSize) ;;
  upd (set_state kSHA_HashDone) ;;
  ret kStatus_Success.

(** Each round takes a block off the message, so [n] rounds are enough for
    fewer than [n] blocks. *)
Fixpoint full_blocks (n : nat) (message messageSize : Z) : M W (Z * Z) :=
  match n with
  | O => throw OutOfFuel
  | S n =>
      if SHA_BLOCK_SIZE <=? messageSize then
        b <- fetch message SHA_BLOCK_SIZE ;;
        sha_one_block b ;;
        full_blocks n (message + SHA_BLOCK_SIZE) (u32 (messageSize - SHA_BLOCK_SIZE))
      else ret (message, messageSize)
  end.

Definition sha_process_message_data (message messageSize : Z) : M W status_t :=
  r <- fill_block message messageSize ;;
  let '(message, messageSize) := r : Z * Z in
  r <- full_blocks (S (Z.to_nat (messageSize / SHA_BLOCK_SIZE))) message messageSize ;;
  let '(message, messageSize) := r : Z * Z in
  keep_rest message messageSize.

(** Interrupts are masked between the block and the start of the engine. *)
Definition sha_process_message_data_master (message messageSize : Z) : M W status_t :=
  r <- fill_block message messageSize ;;
  let '(message, messageSize) := r : Z * Z in
  r <- (if SHA_BLOCK_SIZE <=? messageSize then
      on_sha (wait_status SHA_STATUS_WAITING_MASK) ;;
      b <- fetch message SHA_BLOCK_SIZE ;;
      sha_one_block b ;;
      let message := message + SHA_BLOCK_SIZE in
      let messageSize := u32 (messageSize - SHA_BLOCK_SIZE) in
      let blkNum := Z.shiftr messageSize 6 in
      let blkBytes := u32 (blkNum * 64) in
      on_sha (wr MEMADDR (SHA_MEMADDR_BASEADDR message)) ;;
      on_sha (wr MEMCTRL (Z.lor (SHA_MEMCTRL_MASTER 1) (SHA_MEMCTRL_COUNT blkNum))) ;;
      on_sha (wait_status SHA_STATUS_DIGEST_MASK) ;;
      ret (message + blkBytes, u32 (messageSize - blkBytes))
    else ret (message, messageSize)) ;;
  let '(message, messageSize) := r : Z * Z in
  keep_rest message messageSize.

(** [lastBlock.w[15] = v] *)
Definition with_length (v : Z) (b : list Z) : list Z := take 60 b ++ bytes_of v.

Definition sha_finalize : M W status_t :=
  let lastBlock := repeat 0 64 in
  n <- ctx_ blksz ;;
  size <- ctx_ fullMessageSize ;;
  let len := swap_bytes (u32 (8 * size)) in
  b <- ctx_ blk ;;
  (if n <=? 55 then
    lastBlock <- lift (blk_copy lastBlock 0 (take (Z.to_nat n) b)) ;;
    lastBlock <- lift (aset lastBlock n 0x80) ;;
    sha_one_block (with_length len lastBlock)
  else
    lastBlock <- (if n <? SHA_BLOCK_SIZE then
        b <- lift (aset b n 0x80) ;;
        upd (set_blk (take (Z.to_nat (n + 1)) b ++ repeat 0 (Z.to_nat (SHA_BLOCK_SIZE - (n + 1))))) ;;
        ret lastBlock
      else lift (aset lastBlock 0 0x80)) ;;
    b <- ctx_ blk ;;
    sha_one_block b ;;
    sha_one_block (with_length len lastBlock)) ;;
  on_sha (wait_status SHA_STATUS_DIGEST_MASK) ;;
  ret kStatus_Success.

Fixpoint read_digest (n : nat) (i : Z) : M D (list Z) :=
  match n with
  | O => ret []
  | S n => x <- rd (DIGEST i) ;; l <- read_digest n (i + 1) ;; ret (swap_bytes x :: l)
  end.

Definition sha_get_digest (output outputSize : Z) : M W unit :=
  digest <- on_sha (read_digest 8 0) ;;
  let outputSize := if 32 <? outputSize then 32 else outputSize in
  store output (take (Z.to_nat outputSize) (flat_map bytes_of digest)).

(** ** The functions of the interface *)

Definition SHA_Init (base ctx : bool) (a : Z) : M W status_t :=
  let status := sha_check_input_args base ctx a in
  if negb (status =? kStatus_Success) then ret status else
  upd (set_algo a) ;;
  upd (set_blksz 0) ;;
  b <- ctx_ blk ;;
  upd (set_blk (bytes_of 0 ++ drop 4 b)) ;;
  upd (set_state kSHA_HashInit) ;;
  upd (set_fullMessageSize 0) ;;
  ret status.

Definition SHA_Update (ctx : bool) (message messageSize : Z) : M W status_t :=
  if messageSize =? 0 then ret kStatus_Success else
  status <- sha_check_context ctx message ;;
  if negb (kStatus_Success =? status) then
    (if ctx then upd (set_state kSHA_HashError) else throw NullDeref) ;; ret status
  else
  upd (fun c => set_fullMessageSize (u32 (fullMessageSize c + messageSize)) c) ;;
  n <- ctx_ blksz ;;
  if u32 (n + messageSize) <=? SHA_BLOCK_SIZE then
    src <- fetch message messageSize ;;
    b <- ctx_ blk ;;
    b <- lift (blk_copy b n src) ;;
    upd (set_blk b) ;;
    upd (set_blksz (u32 (n + messageSize))) ;;
    ret status
  else
    s <- ctx_ state ;;
    when (s =? kSHA_HashInit) (sha_engine_init ;; upd (set_state kSHA_HashUpdate)) ;;
    if SHA_HAS_MEMADDR_DMA && (kStatus_Success =? sha_check_memory_boundry message messageSize)
    then sha_process_message_data_master message messageSize
    else sha_process_message_data message messageSize.

(** A call through the context's function pointer. *)
Definition call_callback (status : status_t) : M W unit :=
  f <- ctx_ hashCallback ;;
  u <- ctx_ userData ;;
  if f =? 0 then throw NullCall else hash_callback f status u.

(** As many blocks as one run of the engine is given. *)
Definition next_blocks (remaining : Z) : Z := if MAX_HASH_CHUNK <=? remaining then MAX_HASH_CHUNK - 1 else remaining.

Definition SHA_SetCallback (callback data : Z) : M W unit :=
  modify (fun w => ShaWorld (sh_hw w) (sh_ctx w) true (sh_mem w) (sh_irq w) (sh_clock w) (sh_resets w)) ;;
  upd (set_hashCallback callback data) ;;
  modify (fun w => ShaWorld (sh_hw w) (sh_ctx w) (s_shaCtx w) (sh_mem w) true (sh_clock w) (sh_resets w)).

Definition SHA_UpdateNonBlocking (ctx : bool) (input inputSize : Z) : M W status_t :=
  if inputSize =? 0 then ret kStatus_Success else
  if negb (Z.land input 3 =? 0) then ret kStatus_Fail else
  status <- sha_check_context ctx input ;;
  if negb (kStatus_Success =? status) then ret status else
  upd (set_fullMessageSize inputSize) ;;
  upd (set_remainingBlcks (inputSize / SHA_BLOCK_SIZE)) ;;
  upd (set_blksz (inputSize mod SHA_BLOCK_SIZE)) ;;
  n <- ctx_ blksz ;;
  remaining <- ctx_ remainingBlcks ;;
  when ((0 <? n) && (n <=? SHA_BLOCK_SIZE)) (
    src <- fetch (input + u32 (SHA_BLOCK_SIZE * remaining)) n ;;
    b <- ctx_ blk ;;
    b <- lift (blk_copy b 0 src) ;;
    upd (set_blk b)) ;;
  let numBlocks := next_blocks remaining in
  upd (set_remainingBlcks (u32 (remaining - numBlocks))) ;;
  (if 0 <? numBlocks then
    upd (set_state kSHA_HashUpdate) ;;
    sha_engine_init ;;
    on_sha (wr INTENSET (Z.lor SHA_STATUS_DIGEST_MASK SHA_STATUS_ERROR_MASK)) ;;
    on_sha (wr MEMADDR (SHA_MEMADDR_BASEADDR input)) ;;
    on_sha (wr MEMCTRL (Z.lor (SHA_MEMCTRL_MASTER 1) (SHA_MEMCTRL_COUNT numBlocks)))
  else call_callback status) ;;
  ret status.

Definition SHA_DriverIRQHandler : M W unit :=
  x <- on_sha (rd STATUS) ;;
  c <- gets s_shaCtx ;;
  if negb c then throw NullDeref else
  let finish status := f <- ctx_ hashCallback ;; when (negb (f =? 0)) (call_callback status) in
  if negb (has x SHA_STATUS_ERROR_MASK) then
    remaining <- ctx_ remainingBlcks ;;
    if 0 <? remaining then
      let numBlocks := next_blocks remaining in
      upd (set_remainingBlcks (u32 (remaining - numBlocks))) ;;
      on_sha (wr MEMCTRL (Z.lor (SHA_MEMCTRL_MASTER 1) (SHA_MEMCTRL_COUNT numBlocks)))
    else
      on_sha (wr INTENCLR (Z.lor SHA_INTENCLR_DIGEST_MASK SHA_INTENCLR_ERROR_MASK)) ;;
      on_sha (wr MEMCTRL (SHA_MEMCTRL_MASTER 0)) ;;
      finish kStatus_Success
  else finish kStatus_Fail.

(** The loop of [SHA_Finish]: before the k-th reading of the state the
    interrupt handler may run, [preempt k] tells when.  [Some false] stands
    for the error return. *)
Fixpoint wait_done (preempt : nat -> bool) (fuel k : nat) (tempState : Z) : M W bool :=
  match fuel with
  | O => throw OutOfFuel
  | S fuel =>
      if negb (tempState =? kSHA_HashDone) then
        if tempState =? kSHA_HashError then ret false else
        (when (preempt k) SHA_DriverIRQHandler) ;;
        s <- ctx_ state ;;
        wait_done preempt fuel (S k) s
      else ret true
  end.

(** [outputSize]: [None] for the null pointer; the second component of the
    result is [*outputSize] afterwards. *)
Definition SHA_Finish (preempt : nat -> bool) (fuel : nat) (ctx : bool) (output : Z) (outputSize : option Z) :
    M W (status_t * option Z) :=
  status <- sha_check_context ctx output ;;
  if negb (kStatus_Success =? status) then ret (status, outputSize) else
  tempState <- ctx_ state ;;
  ok <- (if tempState =? kSHA_HashInit then sha_engine_init ;; ret true
         else tempState <- ctx_ state ;; wait_done preempt fuel 0 tempState) ;;
  if negb (ok : bool) then ret (kStatus_Fail, outputSize) else
  a <- ctx_ algo ;;
  let algOutSize := if a =? kSHA_Sha1 then kSHA_OutLenSha1 else if a =? kSHA_Sha256 then kSHA_OutLenSha256 else 0 in
  status <- sha_finalize ;;
  let '(algOutSize, outputSize) := match outputSize with
    | Some n => if algOutSize <? n then (algOutSize, Some algOutSize) else (n, Some n)
    | None => (algOutSize, None)
    end in
  sha_get_digest output algOutSize ;;
  upd (fun _ => zero_ctx) ;;
  ret (status, outputSize).

Definition SHA_ClkInit : M W unit :=
  modify (fun w => ShaWorld (sh_hw w) (sh_ctx w) (s_shaCtx w) (sh_mem w) (sh_irq w) true (S (sh_resets w))).
Definition SHA_ClkDeinit : M W unit :=
  modify (fun w => ShaWorld (sh_hw w) (sh_ctx w) (s_shaCtx w) (sh_mem w) (sh_irq w) false (S (sh_resets w))).
End Driver.
