(* ===== verification/ShaEngine.v ===== *)
(** * The hash engine, and feeding it

    What the manual says of the peripheral ([ShaLaws]): a new hash starts with
    an empty input; each word written to a data register is appended to the
    input; the engine can be made to fetch blocks itself; the DIGEST registers
    are a function of the algorithm and the input.  Then what the driver's
    loops feed to it. *)

From stdpp Require Import base list numbers tactics.
From Stdlib Require Import ZArith Lia.
From S2P Require Import Prelude Bytes Mmio Sha.

Open Scope Z_scope.
Open Scope prog_scope.

(** The input: words written by the processor, and blocks of 64 bytes fetched
    from an address. *)
Inductive item := Word (w : Z) | Blocks (a n : Z).
Definition is_word (x : item) : bool := match x with Word _ => true | Blocks _ _ => false end.
(** The words written so far; sixteen of them are a block. *)
Definition nwords (l : list item) : nat := length (List.filter is_word l).

Lemma nwords_app l1 l2 : nwords (l1 ++ l2) = (nwords l1 + nwords l2)%nat.
Proof. unfold nwords. by rewrite List.filter_app, length_app. Qed.

Lemma nwords_words l : nwords (map Word l) = length l.
Proof. induction l as [|w l IH]; [done|]. unfold nwords in *. simpl. by rewrite IH. Qed.

Section Laws.
Context {D : Type} `{!Device sha_reg D} {F : ShaFields} {X : ShaFeatures}.

(** The registers that take data. *)
Definition is_data (r : sha_reg) : bool :=
  match r with
  | INDATA i => if SHA_ALIAS_DATA then i =? 0 else (0 <=? i) && (i <? 8)
  | ALIAS i => SHA_ALIAS_DATA && (0 <=? i) && (i <? 7)
  | _ => false
  end.

Class ShaLaws := {
  stream : D -> list item;
  mode : D -> Z;
  memaddr : D -> Z;
  busy : D -> nat;      (** status reads until the engine waits for data *)
  latency : nat;
  digest : Z -> list item -> Z -> Z;
  status_keeps d : stream (reg_read STATUS d).2 = stream d /\ mode (reg_read STATUS d).2 = mode d;
  status_keeps_address d : memaddr (reg_read STATUS d).2 = memaddr d;
  status_ticks d : busy (reg_read STATUS d).2 = Nat.pred (busy d);
  status_waiting d : has (reg_read STATUS d).1 SHA_STATUS_WAITING_MASK = (busy d =? 0)%nat;
  status_digest d : stream d <> [] -> has (reg_read STATUS d).1 SHA_STATUS_DIGEST_MASK = (busy d =? 0)%nat;
  start_hash d m : m = 1 \/ m = 2 ->
    let d' := reg_write CTRL (Z.lor (SHA_CTRL_MODE m) (SHA_CTRL_NEW 1)) d in
    stream d' = [] /\ mode d' = m /\ (busy d' <= latency)%nat;
  feed_word d r v : is_data r = true -> busy d = O ->
    let d' := reg_write r v d in
    stream d' = stream d ++ [Word v] /\ mode d' = mode d /\ (busy d' <= latency)%nat /\
    (Nat.modulo (nwords (stream d')) 16 <> 0%nat -> busy d' = O);
  set_address d v :
    let d' := reg_write MEMADDR v d in
    stream d' = stream d /\ mode d' = mode d /\ busy d' = busy d /\ memaddr d' = v;
  fetch_blocks d n : 0 <= n ->
    let d' := reg_write MEMCTRL (Z.lor (SHA_MEMCTRL_MASTER 1) (SHA_MEMCTRL_COUNT n)) d in
    stream d' = stream d ++ [Blocks (memaddr d) (n mod 2 ^ 11)] /\ mode d' = mode d /\ (busy d' <= latency)%nat /\
    memaddr d' = memaddr d + 64 * (n mod 2 ^ 11);
  stop_master d :
    let d' := reg_write MEMCTRL (SHA_MEMCTRL_MASTER 0) d in stream d' = stream d /\ mode d' = mode d /\ busy d' = busy d;
  interrupts_keep d r v : r = INTENSET \/ r = INTENCLR ->
    stream (reg_write r v d) = stream d /\ mode (reg_write r v d) = mode d /\ busy (reg_write r v d) = busy d;
  read_digest_reg d i : busy d = O -> 0 <= i < 8 ->
    reg_read (DIGEST i) d = (digest (mode d) (stream d) i, d);
  digest_word m l i : 0 <= digest m l i < 2 ^ 32;
  base_address a : 0 <= a < 2 ^ 32 -> a mod 4 = 0 -> SHA_MEMADDR_BASEADDR a = a
}.
End Laws.

(** ** Bytes and words *)

Lemma words_of_app l1 l2 q : length l1 = (4 * q)%nat -> words_of (l1 ++ l2) = words_of l1 ++ words_of l2.
Proof.
  revert l1. induction q as [|q IH]; intros l1 Hl.
  - by destruct l1.
  - destruct l1 as [|a [|b [|c [|d t]]]]; simpl in Hl; try lia. simpl. f_equal. apply IH. lia.
Qed.

Lemma length_words_of l q : length l = (4 * q)%nat -> length (words_of l) = q.
Proof.
  revert l. induction q as [|q IH]; intros l Hl.
  - by destruct l.
  - destruct l as [|a [|b [|c [|d t]]]]; simpl in Hl; try lia. simpl. f_equal. apply IH. lia.
Qed.

(** The four bytes of a word in the other order. *)
Definition be32 (x : Z) : list Z := [x / 2 ^ 24 mod 256; x / 2 ^ 16 mod 256; x / 2 ^ 8 mod 256; x mod 256].

Lemma land_byte x k : 0 <= k -> Z.land x (Z.shiftl 255 k) = Z.shiftl (x / 2 ^ k mod 256) k.
Proof.
  intros Hk. change 256 with (2 ^ 8). rewrite <- Z.land_ones, <- Z.shiftr_div_pow2, Z.shiftl_land by lia.
  change (Z.ones 8) with 255. apply Z.bits_inj'. intros n Hn. rewrite !Z.land_spec.
  destruct (Z.ltb_spec n k).
  - by rewrite (Z.shiftl_spec_low 255), !andb_false_r by lia.
  - rewrite (Z.shiftl_spec (Z.shiftr x k)), Z.shiftr_spec by lia. by replace (n - k + k) with n by lia.
Qed.

Lemma swap_bytes_val x : 0 <= x < 2 ^ 32 ->
  swap_bytes x = (((x mod 256 * 256 + x / 2 ^ 8 mod 256) * 256 + x / 2 ^ 16 mod 256) * 256 + x / 2 ^ 24 mod 256).
Proof.
  intros Hx. unfold swap_bytes.
  change 0x0000ff00 with (Z.shiftl 255 8). change 0x00ff0000 with (Z.shiftl 255 16). change 0xff000000 with (Z.shiftl 255 24).
  rewrite !land_byte by lia. change 255 with (Z.ones 8). rewrite Z.land_ones by lia. change (2 ^ 8) with 256.
  assert (H0 := Z.mod_pos_bound x 256 ltac:(lia)). assert (H1 := Z.mod_pos_bound (x / 256) 256 ltac:(lia)).
  assert (H2 := Z.mod_pos_bound (x / 2 ^ 16) 256 ltac:(lia)). assert (H3 := Z.mod_pos_bound (x / 2 ^ 24) 256 ltac:(lia)).
  set (b0 := x mod 256) in *. set (b1 := x / 256 mod 256) in *. set (b2 := x / 2 ^ 16 mod 256) in *.
  set (b3 := x / 2 ^ 24 mod 256) in *. clearbody b0 b1 b2 b3. clear Hx.
  rewrite !Z.shiftr_div_pow2, !Z.shiftl_mul_pow2 by lia.
  change (2 ^ 24) with 16777216. change (2 ^ 16) with 65536. change (2 ^ 8) with 256.
  rewrite !(wrap_small 32) by (pow2; lia).
  replace (b2 * 65536 / 256) with (b2 * 256) by (apply (Z.div_unique_exact _ 256); lia).
  rewrite (Z.div_mul b3) by lia.
  replace (b0 * 16777216) with (b0 * 2 ^ 24) by (change (2 ^ 24) with 16777216; lia).
  rewrite (lor_pack b0 (b1 * 256 * 256) 24) by (change (2 ^ 24) with 16777216; lia).
  replace (b0 * 2 ^ 24 + b1 * 256 * 256) with ((b0 * 256 + b1) * 2 ^ 16) by (change (2 ^ 24) with 16777216; change (2 ^ 16) with 65536; lia).
  rewrite (lor_pack (b0 * 256 + b1) (b2 * 256) 16) by (change (2 ^ 16) with 65536; lia).
  replace ((b0 * 256 + b1) * 2 ^ 16 + b2 * 256) with (((b0 * 256 + b1) * 256 + b2) * 2 ^ 8) by (change (2 ^ 16) with 65536; change (2 ^ 8) with 256; lia).
  rewrite lor_pack by (change (2 ^ 8) with 256; lia). change (2 ^ 8) with 256. lia.
Qed.

Lemma bytes_of_swap x : 0 <= x < 2 ^ 32 -> bytes_of (swap_bytes x) = be32 x.
Proof.
  intros Hx. rewrite swap_bytes_val by done. unfold bytes_of, be32.
  assert (H0 := Z.mod_pos_bound x 256 ltac:(lia)). assert (H1 := Z.mod_pos_bound (x / 2 ^ 8) 256 ltac:(lia)).
  assert (H2 := Z.mod_pos_bound (x / 2 ^ 16) 256 ltac:(lia)). assert (H3 := Z.mod_pos_bound (x / 2 ^ 24) 256 ltac:(lia)).
  set (b0 := x mod 256) in *. set (b1 := x / 2 ^ 8 mod 256) in *. set (b2 := x / 2 ^ 16 mod 256) in *.
  set (b3 := x / 2 ^ 24 mod 256) in *. clearbody b0 b1 b2 b3. clear Hx.
  repeat f_equal; zlia.
Qed.

(** ** What the loops feed *)

Section Feeding.
Context {D : Type} `{!Device sha_reg D} {F : ShaFields} {X : ShaFeatures} {L : ShaLaws}.
Abbreviation W := (sha_world D).

Definition set_sha (d : D) (w : W) : W :=
  ShaWorld d (sh_ctx w) (s_shaCtx w) (sh_mem w) (sh_irq w) (sh_clock w) (sh_resets w).
Definition with_ctx (c : sha_ctx) (w : W) : W :=
  ShaWorld (sh_hw w) c (s_shaCtx w) (sh_mem w) (sh_irq w) (sh_clock w) (sh_resets w).

Lemma wp_on_sha {A} (m : M D A) (Q : A -> W -> Prop) w :
  wp (on_sha m) Q w <-> wp m (fun a d => Q a (set_sha d w)) (sh_hw w).
Proof. unfold wp, on_sha. by destruct (m (sh_hw w)) as [[a d]|]. Qed.
Lemma wp_ctx {A} (f : sha_ctx -> A) (Q : A -> W -> Prop) w : wp (ctx_ f) Q w <-> Q (f (sh_ctx w)) w.
Proof. done. Qed.
Lemma wp_upd_ctx f (Q : unit -> W -> Prop) w : wp (upd f) Q w <-> Q tt (with_ctx (f (sh_ctx w)) w).
Proof. done. Qed.
Lemma wp_fetch a n (Q : list Z -> W -> Prop) w : wp (fetch a n) Q w <-> Q (bytes_at (sh_mem w) a n) w.
Proof. done. Qed.
Lemma set_sha_set d d' w : set_sha d' (set_sha d w) = set_sha d' w.
Proof. done. Qed.
Lemma set_sha_id w : set_sha (sh_hw w) w = w.
Proof. by destruct w. Qed.

(** The engine holds input [l] of a hash with algorithm [m]. *)
Definition holds (l : list item) (m : Z) (d : D) : Prop := stream d = l /\ mode d = m /\ (busy d <= latency)%nat.

Lemma wait_run mask n d (Q : unit -> D -> Prop) :
  (forall d', stream d' = stream d -> has (reg_read STATUS d').1 mask = (busy d' =? 0)%nat) ->
  (busy d < n)%nat ->
  (forall d', stream d' = stream d -> mode d' = mode d -> busy d' = O -> Q tt d') ->
  wp (poll_clear n STATUS mask) Q d.
Proof.
  revert d. induction n as [|n IH]; intros d Hm Hn HQ; [lia|].
  unfold poll_clear. simpl. apply wp_bind, wp_bind. unfold wp at 1, rd.
  assert (Hk := status_keeps d). assert (Ht := status_ticks d). assert (Hd := Hm d eq_refl).
  destruct (reg_read STATUS d) as [x d1]. simpl in *. destruct Hk as [Hk1 Hk2]. apply wp_ret. rewrite Hd.
  destruct (Nat.eqb_spec (busy d) 0) as [E|E]; simpl.
  - apply wp_ret, HQ; [done|done|lia].
  - apply wp_bind, wp_ret. apply IH; [|lia|].
    + intros d' H. apply Hm. congruence.
    + intros d' H1 H2 H3. apply HQ; congruence.
Qed.

(** Words written to consecutive data registers, within one block. *)
Lemma write_words_run dst src : forall i l m d (Q : unit -> D -> Prop),
  (forall j, i <= j < i + Z.of_nat (length src) -> is_data (dst j) = true) ->
  holds l m d -> busy d = O -> (nwords l mod 16 + length src <= 16)%nat ->
  (forall d', holds (l ++ map Word src) m d' ->
    ((nwords l mod 16 + length src < 16)%nat -> busy d' = O) -> Q tt d') ->
  wp (write_words dst i src) Q d.
Proof.
  induction src as [|v src IH]; intros i l m d Q Hr Hh Hb Hlen HQ; cbn [write_words].
  - apply wp_ret, HQ; [by rewrite app_nil_r|done].
  - apply wp_bind. unfold wp at 1, wr.
    destruct Hh as (H1 & H2 & H3).
    destruct (feed_word d (dst i) v) as (E1 & E2 & E3 & E4); [apply Hr; cbn [length]; lia|done|].
    cbv zeta in *. set (d1 := reg_write (dst i) v d) in *. cbn [length] in Hlen.
    assert (Hn : nwords (l ++ [Word v]) = S (nwords l)) by (rewrite nwords_app; unfold nwords at 2; simpl; lia).
    assert (Hh1 : holds (l ++ [Word v]) m d1) by (split; [by rewrite E1, H1|split; [congruence|done]]).
    assert (Hdm := Nat.div_mod_eq (nwords l) 16). assert (Hmb := Nat.mod_upper_bound (nwords l) 16 ltac:(lia)).
    rewrite E1, H1, Hn in E4.
    destruct src as [|v2 src].
    + apply wp_ret, HQ; [done|]. cbn [length]. intros Hlt. apply E4.
      replace (S (nwords l)) with (S (nwords l mod 16) + (nwords l / 16) * 16)%nat by lia.
      rewrite Nat.Div0.mod_add, Nat.mod_small by lia. lia.
    + assert (Hmod : (S (nwords l) mod 16 = S (nwords l mod 16))%nat).
      { cbn [length] in Hlen. replace (S (nwords l)) with (S (nwords l mod 16) + (nwords l / 16) * 16)%nat by lia.
        rewrite Nat.Div0.mod_add, Nat.mod_small by lia. lia. }
      apply (IH (i + 1) (l ++ [Word v]) m); [| done | apply E4; rewrite Hmod; lia | rewrite Hn, Hmod; cbn [length] in *; lia | ].
      * intros j Hj. apply Hr. cbn [length] in *. lia.
      * intros d' Hd' Hb'. apply HQ; [by rewrite <- app_assoc in Hd'|]. intros Hlt. apply Hb'. rewrite Hn, Hmod. cbn [length] in *. lia.
Qed.

(** The registers of a run of words are data registers; the words of a block
    so far. *)
Ltac data Ea := intros ? ?; cbn [length] in *; unfold is_data; rewrite Ea; simpl; lia.
Ltac words Hadd := rewrite ?nwords_app, ?nwords_words, ?length_app; cbn [length app]; rewrite ?Hadd by lia.

(** Sixteen words. *)
Lemma stm_run src l m d (Q : unit -> D -> Prop) :
  length src = 16%nat -> holds l m d -> busy d = O -> (nwords l mod 16 = 0)%nat ->
  (forall d', holds (l ++ map Word src) m d' -> Q tt d') -> wp (sha_ldm_stm_16_words src) Q d.
Proof.
  intros Hlen Hh Hb Hmod HQ. do 17 (destruct src as [|? src]; [try discriminate Hlen|]); [|discriminate Hlen].
  assert (Hadd : forall k, (k < 16)%nat -> ((nwords l + k) mod 16 = k)%nat).
  { intros k Hk. rewrite <- Nat.Div0.add_mod_idemp_l, Hmod. by apply Nat.mod_small. }
  unfold sha_ldm_stm_16_words. destruct SHA_ALIAS_DATA eqn:Ea; cbn [take drop firstn skipn]; rewrite wp_bind.
  - apply (write_words_run _ _ 0 l m); [data Ea|done|done|rewrite Hmod; cbn [length]; lia|].
    intros d1 H1 B1. rewrite Hmod in B1. rewrite wp_bind.
    apply (write_words_run _ _ 0 _ m _ _) with (2 := H1); [data Ea|apply B1; cbn [length]; lia|words Hadd; lia|].
    intros d2 H2 B2. rewrite <- app_assoc, <- map_app in H2. rewrite wp_bind. revert B2. words Hadd. intros B2.
    apply (write_words_run _ _ 0 _ m _ _) with (2 := H2); [data Ea|apply B2; lia|words Hadd; lia|].
    intros d3 H3 B3. rewrite <- app_assoc, <- map_app in H3. revert B3. words Hadd. intros B3.
    apply (write_words_run _ _ 0 _ m _ _) with (2 := H3); [data Ea|apply B3; lia|words Hadd; lia|].
    intros d4 H4 _. apply HQ. rewrite <- !app_assoc, <- !map_app in H4. exact H4.
  - apply (write_words_run _ _ 0 l m); [data Ea|done|done|rewrite Hmod; cbn [length]; lia|].
    intros d1 H1 B1. rewrite Hmod in B1.
    apply (write_words_run _ _ 0 _ m _ _) with (2 := H1); [data Ea|apply B1; cbn [length]; lia|words Hadd; lia|].
    intros d2 H2 _. apply HQ. rewrite <- app_assoc, <- map_app in H2. exact H2.
Qed.

Context (polls : nat) (Hpolls : (latency < polls)%nat).

Lemma wait_waiting l m d (Q : unit -> D -> Prop) :
  holds l m d -> (forall d', holds l m d' -> busy d' = O -> Q tt d') -> wp (wait_status polls SHA_STATUS_WAITING_MASK) Q d.
Proof.
  intros (H1 & H2 & H3) HQ. apply wait_run; [by intros; apply status_waiting|lia|].
  intros d' E1 E2 E3. apply HQ; [split; [congruence|split; [congruence|lia]]|done].
Qed.

Lemma wait_digest l m d (Q : unit -> D -> Prop) :
  l <> [] -> holds l m d -> (forall d', holds l m d' -> busy d' = O -> Q tt d') ->
  wp (wait_status polls SHA_STATUS_DIGEST_MASK) Q d.
Proof.
  intros Hl (H1 & H2 & H3) HQ. apply wait_run; [intros d' E; apply status_digest; congruence|lia|].
  intros d' E1 E2 E3. apply HQ; [split; [congruence|split; [congruence|lia]]|done].
Qed.

End Feeding.
