(* ===== verification/ShaHash.v ===== *)
(** * Hashing a message in pieces

    The reference: the padded message of the Secure Hash Standard, and the
    digest as a string of bytes.  The invariant of the context ([hashing]):
    what the engine has been fed ([fed_to]: words written by the processor and
    blocks it has fetched) and what the buffer holds is the message so far.
    Whatever the pieces, the result is the digest of their concatenation. *)

From stdpp Require Import base list numbers tactics.
From Stdlib Require Import ZArith Lia.
From S2P Require Import Prelude Bytes Mmio Sha ShaEngine.

Open Scope Z_scope.
Open Scope prog_scope.

(** ** The reference *)

Definition be64 (x : Z) : list Z := be32 (x / 2 ^ 32) ++ be32 (x mod 2 ^ 32).

(** A one bit, zeros up to 56 bytes modulo 64, and the length in bits. *)
Definition pad (msg : list Z) : list Z :=
  let n := Z.of_nat (length msg) in msg ++ [0x80] ++ repeat 0 (Z.to_nat ((55 - n) mod 64)) ++ be64 (8 * n).

Definition mode_of (a : Z) : Z := if a =? kSHA_Sha1 then 1 else 2.
Definition digest_len (a : Z) : Z := if a =? kSHA_Sha1 then kSHA_OutLenSha1 else kSHA_OutLenSha256.

Lemma be32_small x : 0 <= x < 2 ^ 32 -> be64 x = repeat 0 4 ++ be32 x.
Proof. intros Hx. unfold be64. by rewrite Z.div_small, Z.mod_small by lia. Qed.

(** The padding, by the number of bytes in the last block. *)
Lemma pad_eq fed q c :
  length fed = (64 * q)%nat -> Z.of_nat (length (fed ++ c)) < 2 ^ 29 ->
  pad (fed ++ c) = fed ++ c ++ [0x80] ++ repeat 0 (Z.to_nat (4 + (55 - Z.of_nat (length c)) mod 64)) ++
    be32 (8 * Z.of_nat (length (fed ++ c))).
Proof.
  intros Hf Hl. unfold pad. rewrite be32_small by (change (2 ^ 29) with 536870912 in *; change (2 ^ 32) with 4294967296; lia).
  rewrite <- !app_assoc. do 3 f_equal. rewrite (app_assoc (repeat 0 _)), <- repeat_app.
  f_equal. f_equal. rewrite length_app, Hf.
  replace (55 - Z.of_nat (64 * q + length c)) with (55 - Z.of_nat (length c) + (- Z.of_nat q) * 64) by lia.
  rewrite Z.mod_add by lia. assert (H := Z.mod_pos_bound (55 - Z.of_nat (length c)) 64 ltac:(lia)). lia.
Qed.

Lemma bytes_of_swaps (f : Z -> Z) l :
  (forall k, 0 <= f k < 2 ^ 32) ->
  flat_map bytes_of (map (fun k => swap_bytes (f (0 + Z.of_nat k))) l) = flat_map (fun k => be32 (f (Z.of_nat k))) l.
Proof.
  intros Hf. induction l as [|k l IH]; [done|]. cbn [map flat_map]. rewrite IH. f_equal. by apply bytes_of_swap.
Qed.

(** The block that holds the length. *)
Lemma last_block_run c v :
  (length c <= 55)%nat ->
  exists l1 l2, blk_copy (repeat 0 64) 0 c = Ok l1 /\ aset l1 (Z.of_nat (length c)) 0x80 = Ok l2 /\
    with_length v l2 = c ++ [0x80] ++ repeat 0 (59 - length c) ++ bytes_of v.
Proof.
  intros Hc. exists (c ++ repeat 0 (64 - length c)), (c ++ 0x80 :: repeat 0 (63 - length c)).
  assert (E64 : repeat 0 (64 - length c) = 0 :: repeat 0 (63 - length c)).
  { by replace (64 - length c)%nat with (S (63 - length c)) by lia. }
  split; [|split].
  - unfold blk_copy, SHA_BLOCK_SIZE. rewrite (proj2 (Z.leb_le _ _)) by lia. rewrite (proj2 (Z.leb_le _ _)) by lia. cbn [andb].
    change (Z.to_nat 0) with 0%nat. rewrite take_0, app_nil_l, Nat.add_0_l. do 2 f_equal.
    replace 64%nat with (length c + (64 - length c))%nat at 1 by lia. rewrite repeat_app, drop_app_length'; [done|by rewrite repeat_length].
  - rewrite aset_ok by (rewrite length_app, repeat_length; lia). rewrite Nat2Z.id, E64. f_equal.
    by rewrite <- (Nat.add_0_r (length c)) at 1; rewrite insert_app_r.
  - unfold with_length. replace (63 - length c)%nat with ((59 - length c) + 4)%nat by lia. rewrite repeat_app.
    change (0x80 :: repeat 0 (59 - length c) ++ repeat 0 4) with ([0x80] ++ repeat 0 (59 - length c) ++ repeat 0 4).
    rewrite !app_assoc. rewrite take_app_length'; [done|]. rewrite !length_app, repeat_length. cbn [length]. lia.
Qed.

(** The block that ends with the one bit, when the length does not fit. *)
Lemma one_bit_block b n :
  length b = 64%nat -> 0 <= n < 64 ->
  take (Z.to_nat (n + 1)) (<[Z.to_nat n:=0x80]> b) ++ repeat 0 (Z.to_nat (64 - (n + 1))) =
  take (Z.to_nat n) b ++ [0x80] ++ repeat 0 (63 - Z.to_nat n).
Proof.
  intros Hb Hn. replace (Z.to_nat (n + 1)) with (S (Z.to_nat n)) by lia.
  rewrite (take_S_r _ _ 0x80) by (apply list_lookup_insert_eq; lia). rewrite take_insert_ge by lia.
  rewrite <- app_assoc. by replace (Z.to_nat (64 - (n + 1))) with (63 - Z.to_nat n)%nat by lia.
Qed.

Section Hash.
Context {D : Type} `{!Device sha_reg D} {F : ShaFields} {X : ShaFeatures} {L : ShaLaws}.
Abbreviation W := (sha_world D).

(** The digest of a message as the engine computes it from the padded message. *)
Definition sha_of (a : Z) (msg : list Z) : list Z :=
  flat_map (fun i => be32 (digest (mode_of a) (map Word (words_of (pad msg))) (Z.of_nat i))) (seq 0 8).

Definition is_byte (x : Z) : Prop := 0 <= x < 256.

Lemma engine_init_run a w (Q : unit -> W -> Prop) :
  algo (sh_ctx w) = a -> (a = kSHA_Sha1 \/ a = kSHA_Sha256) ->
  (forall d, holds [] (mode_of a) d -> Q tt (set_sha d w)) -> wp sha_engine_init Q w.
Proof.
  intros Ha Halg HQ. unfold sha_engine_init. rewrite wp_bind, wp_ctx, Ha, wp_on_sha.
  destruct Halg as [-> | ->]; cbn; unfold wp, wr; apply HQ; unfold holds; apply start_hash; auto.
Qed.

(** [w'] is a state reached by hashing: only the engine and the context may differ. *)
Definition same_rest (w w' : W) : Prop :=
  sh_mem w' = sh_mem w /\ s_shaCtx w' = s_shaCtx w /\ sh_irq w' = sh_irq w /\ sh_clock w' = sh_clock w /\ sh_resets w' = sh_resets w.

Lemma check_context_run (ctx : bool) message a w (Q : status_t -> W -> Prop) :
  algo (sh_ctx w) = a -> (a = kSHA_Sha1 \/ a = kSHA_Sha256) -> ctx = true -> message <> 0 ->
  Q kStatus_Success w -> wp (sha_check_context ctx message) Q w.
Proof.
  intros Ha Halg -> Hm HQ. unfold sha_check_context. rewrite (proj2 (Z.eqb_neq 0 message)) by lia. cbn [orb negb].
  rewrite wp_bind, wp_ctx, wp_ret, Ha. by destruct Halg as [-> | ->].
Qed.

Lemma blk_copy_run b off src :
  length b = 64%nat -> 0 <= off -> off + Z.of_nat (length src) <= 64 ->
  exists b', blk_copy b off src = Ok b' /\ length b' = 64%nat /\
    take (Z.to_nat off + length src) b' = take (Z.to_nat off) b ++ src.
Proof.
  intros Hb Ho Hs. unfold blk_copy, SHA_BLOCK_SIZE. rewrite !(proj2 (Z.leb_le _ _)) by lia. simpl.
  eexists. split; [done|]. split.
  - rewrite !length_app, length_take, length_drop. lia.
  - rewrite app_assoc. rewrite take_app_le by (rewrite length_app, length_take; lia). apply take_ge.
    rewrite length_app, length_take. lia.
Qed.

Context (polls : nat) (Hpolls : (latency < polls)%nat) (hash_callback : Z -> status_t -> Z -> M W unit).

Lemma one_block_run b l m w (Q : unit -> W -> Prop) :
  length b = 64%nat -> holds l m (sh_hw w) -> (nwords l mod 16 = 0)%nat ->
  (forall d, holds (l ++ map Word (words_of b)) m d -> Q tt (set_sha d w)) -> wp (sha_one_block polls b) Q w.
Proof.
  intros Hb Hh Hm HQ. unfold sha_one_block. rewrite wp_bind, wp_on_sha.
  apply (wait_waiting polls Hpolls l m); [done|]. intros d1 H1 B1. rewrite wp_on_sha.
  apply (stm_run _ l m); [by apply length_words_of|done|done|done|]. intros d2 H2. rewrite set_sha_set. by apply HQ.
Qed.

(** The first block by the processor, the others by the engine. *)
Abbreviation master_blocks polls message size := (
      on_sha (wait_status polls SHA_STATUS_WAITING_MASK) ;;
      b <- fetch message SHA_BLOCK_SIZE ;;
      sha_one_block polls b ;;
      let message' := message + SHA_BLOCK_SIZE in
      let messageSize := u32 (size - SHA_BLOCK_SIZE) in
      let blkNum := Z.shiftr messageSize 6 in
      let blkBytes := u32 (blkNum * 64) in
      on_sha (wr MEMADDR (SHA_MEMADDR_BASEADDR message')) ;;
      on_sha (wr MEMCTRL (Z.lor (SHA_MEMCTRL_MASTER 1) (SHA_MEMCTRL_COUNT blkNum))) ;;
      on_sha (wait_status polls SHA_STATUS_DIGEST_MASK) ;;
      ret (message' + blkBytes, u32 (messageSize - blkBytes))).
Lemma master_blocks_run message size l m w (Q : Z * Z -> W -> Prop) :
  64 <= size < 2 ^ 32 -> (nwords l mod 16 = 0)%nat -> holds l m (sh_hw w) ->
  (forall d, let blocks := (size - 64) / 64 in
    holds (l ++ map Word (words_of (bytes_at (sh_mem w) message 64)) ++
      [Blocks (SHA_MEMADDR_BASEADDR (message + 64)) (blocks mod 2 ^ 11)]) m d ->
    Q (message + 64 + 64 * blocks, size - 64 - 64 * blocks) (set_sha d w)) ->
  wp (master_blocks polls message size) Q w.
Proof.
  clear hash_callback. intros Hs Hl Hh HQ. change (2 ^ 32) with 4294967296 in Hs. unfold SHA_BLOCK_SIZE.
  rewrite wp_bind, wp_on_sha. apply (wait_waiting polls Hpolls l m); [done|]. intros d0 H0 _.
  rewrite wp_bind, wp_fetch, wp_bind. cbn [sh_mem set_sha].
  apply (one_block_run _ l m); [by rewrite bytes_at_length|done|done|]. intros d1 H1. cbv zeta.
  rewrite (wrap_small 32 (size - 64)) by (pow2; lia). rewrite Z.shiftr_div_pow2 by lia. change (2 ^ 6) with 64.
  set (blocks := (size - 64) / 64) in *. assert (Hbl : 0 <= blocks /\ 64 * blocks <= size - 64) by (unfold blocks; zlia).
  rewrite (wrap_small 32 (blocks * 64)) by (pow2; lia). rewrite wp_bind, wp_on_sha. unfold wp at 1, wr.
  cbn [sh_hw set_sha]. destruct (set_address d1 (SHA_MEMADDR_BASEADDR (message + 64))) as (K1 & K2 & K3 & K4).
  set (d2 := reg_write MEMADDR _ d1) in *. rewrite wp_bind, wp_on_sha. unfold wp at 1, wr.
  destruct (fetch_blocks d2 blocks ltac:(lia)) as (K5 & K6 & K7 & _).
  cbn [sh_hw set_sha]. set (d3 := reg_write MEMCTRL _ d2) in *. rewrite wp_bind, wp_on_sha.
  destruct H1 as (E1 & E2 & E3). rewrite K1, K4, E1 in K5.
  apply (wait_digest polls Hpolls (stream d3) m); [rewrite K5; by intros []%app_eq_nil|split; [done|split; [|done]]|].
  { cbn [sh_hw set_sha]. rewrite K6, K2. exact E2. }
  intros d4 H4 _. rewrite wp_ret, (wrap_small 32) by (pow2; lia). rewrite !(Z.mul_comm blocks 64).
  apply (HQ d4). rewrite K5, <- app_assoc in H4. exact H4.
Qed.

Lemma set_blk_id c : set_blk (blk c) c = c.
Proof. by destruct c. Qed.
Lemma set_state_id c : set_state (state c) c = c.
Proof. by destruct c. Qed.
Lemma with_ctx_id (w : W) : with_ctx (sh_ctx w) w = w.
Proof. by destruct w. Qed.

(** The internal block is completed and hashed, if it holds anything. *)
Lemma fill_block_items message size l m w (Q : Z * Z -> W -> Prop) :
  let n := blksz (sh_ctx w) in
  length (blk (sh_ctx w)) = 64%nat -> 0 <= n <= 64 -> 64 < n + size -> size < 2 ^ 32 ->
  (nwords l mod 16 = 0)%nat -> holds l m (sh_hw w) ->
  (forall d b' k, 0 <= k <= size -> k < 64 -> length b' = 64%nat ->
    (exists c, length (take (Z.to_nat n) (blk (sh_ctx w)) ++ bytes_at (sh_mem w) message k) = (64 * c)%nat) ->
    holds (l ++ map Word (words_of (take (Z.to_nat n) (blk (sh_ctx w)) ++ bytes_at (sh_mem w) message k))) m d ->
    Q (message + k, size - k) (set_sha d (with_ctx (set_blk b' (sh_ctx w)) w))) ->
  wp (fill_block polls message size) Q w.
Proof.
  clear hash_callback. intros n Hb Hn Hsize Hs32 Hm Hh HQ. unfold fill_block. rewrite wp_bind, wp_ctx. fold n.
  change (2 ^ 32) with 4294967296 in *.
  destruct (Z.eqb_spec n 0) as [E|E]; cbn [negb].
  - rewrite wp_ret. specialize (HQ (sh_hw w) (blk (sh_ctx w)) 0). rewrite E in HQ. change (Z.to_nat 0) with 0%nat in HQ.
    rewrite take_0, Z.add_0_r, Z.sub_0_r, set_blk_id, with_ctx_id, set_sha_id, bytes_at_nothing in HQ by lia.
    cbn [app words_of map] in HQ. rewrite app_nil_r in HQ. apply HQ; [lia|lia|done|by exists 0%nat|done].
  - unfold SHA_BLOCK_SIZE. rewrite (wrap_small 32 (64 - n)) by (pow2; lia).
    rewrite wp_bind, wp_fetch, wp_bind, wp_ctx.
    destruct (blk_copy_run (blk (sh_ctx w)) n (bytes_at (sh_mem w) message (64 - n)) Hb) as (b' & Eb & Hlb & Ht);
      [lia|rewrite bytes_at_length; lia|].
    rewrite wp_bind, (wp_lift _ _ _ _ Eb), wp_bind, wp_upd_ctx, wp_bind.
    rewrite bytes_at_length in Ht. replace (Z.to_nat n + Z.to_nat (64 - n))%nat with 64%nat in Ht by lia.
    rewrite take_ge in Ht by lia. apply (one_block_run _ l m); [done|done|done|].
    intros d Hd. rewrite Ht in Hd. rewrite wp_ret, (wrap_small 32) by (pow2; lia).
    apply HQ; [lia|lia|done| |done]. exists 1%nat. by rewrite <- Ht.
Qed.

(** ** What the engine has been fed

    The engine reads the memory [mem] of the message, which nobody writes to
    during the hash.  It reaches only two of the memories, at word addresses. *)

Definition in_sram (a n : Z) : Prop :=
  match SRAM with
  | Some ((SRAMX_BASE, SRAMX_SIZE), (SRAM0_BASE, SRAM0_SIZE)) =>
      SRAMX_BASE <= a /\ a + n <= SRAMX_BASE + SRAMX_SIZE \/ SRAM0_BASE <= a /\ a + n <= SRAM0_BASE + SRAM0_SIZE
  | None => False
  end.

Definition item_words (mem : Z -> Z) (x : item) : list Z :=
  match x with Word v => [v] | Blocks a n => words_of (bytes_at mem a (64 * n)) end.
Definition fetchable (x : item) : Prop :=
  match x with Word _ => True | Blocks a n => n = 0 \/ a mod 4 = 0 /\ in_sram a (64 * n) end.

(** The digest is a function of the words of the input, whoever wrote them. *)
Definition engine_reads (mem : Z -> Z) : Prop := forall m l i, Forall fetchable l ->
  digest m l i = digest m (map Word (flat_map (item_words mem) l)) i.

Section Fed.
Context (mem : Z -> Z).

(** The engine has been fed the bytes [fed], in blocks. *)
Definition fed_to (fed : list Z) (m : Z) (d : D) : Prop := exists l,
  holds l m d /\ (nwords l mod 16 = 0)%nat /\ Forall fetchable l /\ flat_map (item_words mem) l = words_of fed.

Lemma words_items l : flat_map (item_words mem) (map Word l) = l.
Proof. induction l as [|v l IH]; [done|]. cbn. by rewrite IH. Qed.

Lemma fetchable_words l : Forall fetchable (map Word l).
Proof. induction l as [|v l IH]; [constructor|]. by constructor. Qed.

Lemma nwords_blocks l b : (nwords l mod 16 = 0)%nat -> (exists c, length b = 64 * c)%nat ->
  (nwords (l ++ map Word (words_of b)) mod 16 = 0)%nat.
Proof.
  intros Hl [c Hc]. rewrite nwords_app, nwords_words, (length_words_of b (c * 16)) by lia. rewrite Nat.Div0.mod_add. exact Hl.
Qed.

(** More blocks from the processor. *)
Lemma fed_more l fed q b m d :
  length fed = (64 * q)%nat -> (exists c, length b = 64 * c)%nat -> (nwords l mod 16 = 0)%nat -> Forall fetchable l ->
  flat_map (item_words mem) l = words_of fed -> holds (l ++ map Word (words_of b)) m d -> fed_to (fed ++ b) m d.
Proof.
  intros Hf Hb Hl Hfl E H. exists (l ++ map Word (words_of b)). split; [done|]. split; [by apply nwords_blocks|]. split.
  - apply Forall_app. split; [done|apply fetchable_words].
  - by rewrite flat_map_app, E, words_items, (words_of_app fed b (16 * q)) by lia.
Qed.

Lemma one_fed_run b fed q m w (Q : unit -> W -> Prop) :
  length b = 64%nat -> length fed = (64 * q)%nat -> fed_to fed m (sh_hw w) ->
  (forall d, fed_to (fed ++ b) m d -> Q tt (set_sha d w)) -> wp (sha_one_block polls b) Q w.
Proof.
  clear hash_callback. intros Hb Hf (l & Hh & Hl & Hfl & E) HQ. apply (one_block_run _ l m); [done..|].
  intros d Hd. apply HQ, (fed_more l fed q); [done|exists 1%nat; lia|done..].
Qed.

Lemma fed_nothing m d : holds [] m d -> fed_to [] m d.
Proof. intros H. exists []. split; [done|split; [done|split; [constructor|done]]]. Qed.

Lemma full_blocks_run n : forall message size fed q m w (Q : Z * Z -> W -> Prop),
  0 <= size < 2 ^ 32 -> size / 64 < Z.of_nat n -> length fed = (64 * q)%nat ->
  fed_to fed m (sh_hw w) ->
  (forall d, let k := 64 * (size / 64) in
    fed_to (fed ++ bytes_at (sh_mem w) message k) m d ->
    Q (message + k, size - k) (set_sha d w)) ->
  wp (full_blocks polls n message size) Q w.
Proof.
  clear hash_callback.
  induction n as [|n IH]; intros message size fed q m w Q Hs Hn Hf Hh HQ; cbn [full_blocks]; [zlia|].
  unfold SHA_BLOCK_SIZE. destruct (Z.leb_spec 64 size) as [Hle|Hlt].
  - rewrite wp_bind, wp_fetch, wp_bind.
    apply (one_fed_run _ fed q m); [by rewrite bytes_at_length|done|done|].
    intros d1 H1. rewrite wrap_small by (pow2; lia).
    assert (E : size / 64 = (size - 64) / 64 + 1).
    { replace size with (size - 64 + 1 * 64) at 1 by lia. rewrite Z.div_add; lia. }
    apply (IH _ _ (fed ++ bytes_at (sh_mem w) message 64) (S q) m); [lia|lia|rewrite length_app, bytes_at_length; lia|done|].
    cbv zeta. intros d2 H2. rewrite set_sha_set. rewrite <- app_assoc in H2. cbn [sh_mem set_sha] in H2.
    rewrite <- bytes_at_split in H2 by zlia. specialize (HQ d2). cbv zeta in HQ. rewrite E in HQ.
    replace (64 * ((size - 64) / 64 + 1)) with (64 + 64 * ((size - 64) / 64)) in HQ by lia.
    replace (message + 64 + 64 * ((size - 64) / 64)) with (message + (64 + 64 * ((size - 64) / 64))) by lia.
    replace (size - 64 - 64 * ((size - 64) / 64)) with (size - (64 + 64 * ((size - 64) / 64))) by lia.
    by apply HQ.
  - rewrite wp_ret. rewrite Z.div_small in HQ by lia. specialize (HQ (sh_hw w)). cbv zeta in HQ.
    change (64 * 0) with 0 in HQ. rewrite Z.add_0_r, Z.sub_0_r, set_sha_id in HQ. apply HQ.
    by rewrite bytes_at_nothing, app_nil_r by lia.
Qed.

Lemma fill_block_run message size fed q m w (Q : Z * Z -> W -> Prop) :
  let n := blksz (sh_ctx w) in
  length (blk (sh_ctx w)) = 64%nat -> 0 <= n <= 64 -> 64 < n + size -> size < 2 ^ 29 ->
  length fed = (64 * q)%nat -> fed_to fed m (sh_hw w) ->
  (forall d b' k, 0 <= k <= size -> k < 64 -> length b' = 64%nat ->
    (exists q', length (fed ++ take (Z.to_nat n) (blk (sh_ctx w)) ++ bytes_at (sh_mem w) message k) = (64 * q')%nat) ->
    fed_to (fed ++ take (Z.to_nat n) (blk (sh_ctx w)) ++ bytes_at (sh_mem w) message k) m d ->
    Q (message + k, size - k) (set_sha d (with_ctx (set_blk b' (sh_ctx w)) w))) ->
  wp (fill_block polls message size) Q w.
Proof.
  clear hash_callback. intros n Hb Hn Hsize Hs29 Hf (l & Hh & Hl & Hfl & E) HQ. change (2 ^ 29) with 536870912 in *.
  apply (fill_block_items _ _ l m); [done|done|done|change (2 ^ 32) with 4294967296; lia|done|done|].
  intros d b' k Hk Hk64 Hb' [c Hc] Hd. apply HQ; [done|done|done| |].
  - exists (q + c)%nat. fold n in Hc. rewrite length_app, Hc. lia.
  - apply (fed_more l fed q); [done|by exists c|done..].
Qed.

Lemma in_sram_part a n a' n' : in_sram a n -> a <= a' -> a' + n' <= a + n -> in_sram a' n'.
Proof. unfold in_sram. destruct SRAM as [[[bx sx] [b0 s0]]|]; [lia|done]. Qed.

(** One block by the processor and at most 2047 by the engine. *)
Lemma master_fed_run message size fed q m w (Q : Z * Z -> W -> Prop) :
  64 <= size <= 2 ^ 17 -> sh_mem w = mem -> length fed = (64 * q)%nat -> fed_to fed m (sh_hw w) ->
  message mod 4 = 0 -> in_sram message size -> 0 <= message -> message + size <= 2 ^ 32 ->
  (forall d, let k := 64 * (size / 64) in
    fed_to (fed ++ bytes_at (sh_mem w) message k) m d -> Q (message + k, size - k) (set_sha d w)) ->
  wp (master_blocks polls message size) Q w.
Proof.
  clear hash_callback. intros Hs Hmem Hf (l & Hh & Hl & Hfl & E) Hal Hin Hm Htop HQ.
  change (2 ^ 17) with 131072 in *. change (2 ^ 32) with 4294967296 in *.
  apply (master_blocks_run _ _ l m); [change (2 ^ 32) with 4294967296; lia|done|done|]. cbv zeta. intros d Hd.
  assert (Eq : (size - 64) / 64 = size / 64 - 1) by zlia. assert (Hq : 1 <= size / 64 <= 2048 /\ 64 * (size / 64) <= size) by zlia.
  specialize (HQ d). cbv zeta in HQ. rewrite Eq in *. set (blocks := size / 64 - 1) in *.
  replace (64 * (size / 64)) with (64 + 64 * blocks) in HQ by lia.
  replace (message + (64 + 64 * blocks)) with (message + 64 + 64 * blocks) in HQ by lia.
  replace (size - (64 + 64 * blocks)) with (size - 64 - 64 * blocks) in HQ by lia. apply HQ. clear HQ.
  rewrite (Z.mod_small blocks) in Hd by (change (2 ^ 11) with 2048; lia). rewrite bytes_at_split, Hmem by lia. rewrite Hmem in Hd.
  assert (Hbase : blocks = 0 \/ SHA_MEMADDR_BASEADDR (message + 64) = message + 64 /\ (message + 64) mod 4 = 0 /\
    in_sram (message + 64) (64 * blocks)).
  { destruct (Z.eq_dec blocks 0) as [|Hne]; [by left|right]. assert (Ha : (message + 64) mod 4 = 0) by zlia.
    split; [apply base_address; [change (2 ^ 32) with 4294967296; lia|done]|]. split; [done|].
    apply (in_sram_part message size); [done|lia|lia]. }
  eexists. split; [exact Hd|]. split; [|split].
  - rewrite app_assoc, nwords_app, Nat.add_0_r. apply nwords_blocks; [done|]. exists 1%nat. by rewrite bytes_at_length.
  - rewrite !Forall_app. split; [done|]. split; [apply fetchable_words|]. constructor; [|constructor]. cbn [fetchable].
    destruct Hbase as [?|(-> & ? & ?)]; [by left|by right].
  - rewrite app_assoc, !flat_map_app, E, words_items. cbn [flat_map item_words]. rewrite app_nil_r, app_assoc.
    rewrite (words_of_app _ (bytes_at mem (message + 64) _) (16 * (q + 1))) by (rewrite length_app, bytes_at_length; lia).
    rewrite (words_of_app fed _ (16 * q)) by lia. f_equal.
    destruct Hbase as [->|(-> & _)]; [by rewrite !bytes_at_nothing by lia|done].
Qed.

(** The rest of a message that fills no block is kept. *)
Lemma keep_rest_run message size w (Q : status_t -> W -> Prop) :
  length (blk (sh_ctx w)) = 64%nat -> 0 <= size <= 64 ->
  (forall b', length b' = 64%nat -> take (Z.to_nat size) b' = bytes_at (sh_mem w) message size ->
    Q kStatus_Success (with_ctx (set_state kSHA_HashDone (set_blksz size (set_blk b' (sh_ctx w)))) w)) ->
  wp (keep_rest message size) Q w.
Proof.
  clear hash_callback. intros Hb Hs HQ. unfold keep_rest. rewrite wp_bind, wp_fetch, wp_bind, wp_ctx.
  destruct (blk_copy_run (blk (sh_ctx w)) 0 (bytes_at (sh_mem w) message size) Hb) as (b2 & Eb & Hlb & Ht);
    [lia|rewrite bytes_at_length; lia|].
  rewrite wp_bind, (wp_lift _ b2) by exact Eb. rewrite wp_bind, wp_upd_ctx, wp_bind, wp_upd_ctx, wp_bind, wp_upd_ctx, wp_ret.
  rewrite bytes_at_length in Ht. change (Z.to_nat 0) with 0%nat in Ht. rewrite take_0, Nat.add_0_l, app_nil_l in Ht. by apply HQ.
Qed.

(** A large piece: its blocks are in the engine, the rest in the context. *)
Definition processed (message size : Z) (fed : list Z) (m : Z) (w : W) (Q : status_t -> W -> Prop) : Prop :=
  forall d b' sz' fed' q', length b' = 64%nat -> 0 <= sz' <= 64 -> length fed' = (64 * q')%nat ->
    fed' ++ take (Z.to_nat sz') b' =
      (fed ++ take (Z.to_nat (blksz (sh_ctx w))) (blk (sh_ctx w))) ++ bytes_at (sh_mem w) message size ->
    fed_to fed' m d ->
    Q kStatus_Success (set_sha d (with_ctx (set_state kSHA_HashDone (set_blksz sz' (set_blk b' (sh_ctx w)))) w)).

Lemma processed_rest message size fed m w Q b1 d1 d2 k fed1 q1 :
  let k2 := 64 * ((size - k) / 64) in
  processed message size fed m w Q -> length b1 = 64%nat -> 0 <= k <= size -> length fed1 = (64 * q1)%nat ->
  fed1 = fed ++ take (Z.to_nat (blksz (sh_ctx w))) (blk (sh_ctx w)) ++ bytes_at (sh_mem w) message k ->
  fed_to (fed1 ++ bytes_at (sh_mem w) (message + k) k2) m d2 ->
  wp (keep_rest (message + k + k2) (size - k - k2)) Q (set_sha d2 (set_sha d1 (with_ctx (set_blk b1 (sh_ctx w)) w))).
Proof.
  clear hash_callback. intros k2 HQ Hb1 Hk Hq1 Efed H2.
  assert (Hk2 : 0 <= k2 <= size - k /\ size - k - k2 < 64) by (unfold k2; zlia).
  apply keep_rest_run; [done|lia|]. intros b2 Hlb Ht. cbn [sh_mem set_sha with_ctx] in Ht.
  refine (HQ d2 b2 (size - k - k2) (fed1 ++ bytes_at (sh_mem w) (message + k) k2) (q1 + Z.to_nat ((size - k) / 64))%nat Hlb _ _ _ H2); [lia| |].
  - rewrite length_app, bytes_at_length. unfold k2. rewrite Hq1. zlia.
  - rewrite Ht, Efed, <- !app_assoc.
    rewrite <- (bytes_at_split _ (message + k) k2), <- (bytes_at_split _ message k) by lia.
    by replace (k + (k2 + (size - k - k2))) with size by lia.
Qed.

Lemma process_run message size fed q m w (Q : status_t -> W -> Prop) :
  let n := blksz (sh_ctx w) in
  length (blk (sh_ctx w)) = 64%nat -> 0 <= n <= 64 -> 64 < n + size -> size < 2 ^ 29 ->
  length fed = (64 * q)%nat -> fed_to fed m (sh_hw w) -> processed message size fed m w Q ->
  wp (sha_process_message_data polls message size) Q w.
Proof.
  clear hash_callback. intros n Hb Hn Hsize Hs29 Hf Hh HQ. unfold sha_process_message_data. rewrite wp_bind.
  apply (fill_block_run message size fed q m); [done..|]. intros d1 b1 k Hk _ Hb1 [q1 Hq1] H1. fold n in Hq1, H1.
  change (2 ^ 29) with 536870912 in *. cbv iota beta. rewrite wp_bind.
  apply (full_blocks_run _ _ _ _ q1 m) with (4 := H1); [pow2; lia| |done|].
  { unfold SHA_BLOCK_SIZE. rewrite Nat2Z.inj_succ, Z2Nat.id by (apply Z.div_pos; lia).
    assert ((size - k) / 64 <= size / 64) by (apply Z.div_le_mono; lia). lia. }
  cbv zeta. intros d2 H2. cbn [sh_mem set_sha with_ctx] in H2. cbv iota beta.
  by apply (processed_rest message size fed m w Q b1 d1 d2 k _ q1) with (6 := H2).
Qed.

Lemma process_master_run message size fed q m w (Q : status_t -> W -> Prop) :
  let n := blksz (sh_ctx w) in
  length (blk (sh_ctx w)) = 64%nat -> 0 <= n <= 64 -> 64 < n + size -> size <= 2 ^ 17 ->
  (message - n) mod 4 = 0 -> in_sram message size -> 0 <= message -> message + size <= 2 ^ 32 -> sh_mem w = mem ->
  length fed = (64 * q)%nat -> fed_to fed m (sh_hw w) -> processed message size fed m w Q ->
  wp (sha_process_message_data_master polls message size) Q w.
Proof.
  clear hash_callback. intros n Hb Hn Hsize Hs17 Hal Hin Hm Htop Hmem Hf Hh HQ. change (2 ^ 17) with 131072 in *.
  unfold sha_process_message_data_master. rewrite wp_bind.
  apply (fill_block_run message size fed q m); [done|done|done|change (2 ^ 29) with 536870912; lia|done|done|].
  intros d1 b1 k Hk Hk64 Hb1 [q1 Hq1] H1. fold n in Hq1, H1. cbv iota beta. rewrite wp_bind. unfold SHA_BLOCK_SIZE at 1.
  assert (Hlen := Hq1). rewrite !length_app, length_take, bytes_at_length in Hlen.
  destruct (Z.leb_spec 64 (size - k)) as [Hle|Hlt].
  - apply (master_fed_run _ _ _ q1 m) with (4 := H1); [change (2 ^ 17) with 131072; lia|done|done| | |lia| |].
    + rewrite Hb in Hlen. zlia.
    + apply (in_sram_part message size); [done|lia|lia].
    + lia.
    + cbv zeta. intros d2 H2. cbn [sh_mem set_sha with_ctx] in H2. cbv iota beta.
      by apply (processed_rest message size fed m w Q b1 d1 d2 k _ q1) with (6 := H2).
  - rewrite wp_ret. cbv iota beta. assert (E : (size - k) / 64 = 0) by (apply Z.div_small; lia).
    pose proof (processed_rest message size fed m w Q b1 d1 d1 k _ q1 HQ Hb1 Hk Hq1 eq_refl) as H. cbv zeta in H.
    rewrite E in H. change (64 * 0) with 0 in H. rewrite Z.add_0_r, Z.sub_0_r, (bytes_at_nothing _ (message + k)), app_nil_r in H by lia.
    by apply H.
Qed.

(** [msg] is the message so far. *)
Record hashing (a : Z) (msg : list Z) (w : W) : Prop := {
  hashing_algo : algo (sh_ctx w) = a /\ (a = kSHA_Sha1 \/ a = kSHA_Sha256);
  hashing_blk : length (blk (sh_ctx w)) = 64%nat;
  hashing_size : 0 <= blksz (sh_ctx w) <= 64;
  hashing_full : fullMessageSize (sh_ctx w) = Z.of_nat (length msg) /\ Z.of_nat (length msg) < 2 ^ 29;
  hashing_split : exists fed q, msg = fed ++ take (Z.to_nat (blksz (sh_ctx w))) (blk (sh_ctx w)) /\
    length fed = (64 * q)%nat /\
    (state (sh_ctx w) = kSHA_HashInit /\ fed = [] \/
     state (sh_ctx w) = kSHA_HashDone /\ fed_to fed (mode_of a) (sh_hw w))
}.

(** The blocks of a piece go through the processor: the engine cannot read the
    memory of the message. *)
Definition by_processor (message size : Z) : Prop :=
  SHA_HAS_MEMADDR_DMA && (kStatus_Success =? sha_check_memory_boundry message size) = false.

(** The engine can fetch the blocks of the piece that comes after [before]
    bytes: they are at word addresses of its memories, and fit in COUNT. *)
Definition by_engine (before message size : Z) : Prop :=
  (message - before) mod 4 = 0 /\ in_sram message size /\ size <= 2 ^ 17 /\ 0 <= message /\ message + size <= 2 ^ 32.

Lemma hash_update_run message size a msg w (Q : status_t -> W -> Prop) :
  hashing a msg w -> message <> 0 -> 0 <= size -> Z.of_nat (length msg) + size < 2 ^ 29 ->
  by_processor message size \/ by_engine (Z.of_nat (length msg)) message size -> sh_mem w = mem ->
  (forall w', hashing a (msg ++ bytes_at (sh_mem w) message size) w' -> same_rest w w' -> Q kStatus_Success w') ->
  wp (SHA_Update polls true message size) Q w.
Proof.
  clear hash_callback. intros H Hm Hs Hlen Hp Hmem HQ. destruct H as [[Ha Halg] Hb Hn [Hf Hmsg] (fed & q & Esplit & Hfed & Hst)].
  change (2 ^ 29) with 536870912 in *. unfold SHA_Update. destruct (Z.eqb_spec size 0) as [->|Hne].
  { rewrite wp_ret. apply HQ; [|done]. rewrite bytes_at_nothing, app_nil_r by lia. split; eauto. }
  rewrite wp_bind. apply (check_context_run _ _ a); [done..|]. cbn [negb Z.eqb kStatus_Success]. rewrite Z.eqb_refl. cbn [negb].
  rewrite wp_bind, wp_upd_ctx. cbn [sh_ctx with_ctx]. rewrite Hf, (wrap_small 32) by (pow2; lia).
  set (w1 := with_ctx _ w). rewrite wp_bind, wp_ctx. cbn [w1 sh_ctx with_ctx set_fullMessageSize blksz].
  rewrite (wrap_small 32) by (pow2; lia). unfold SHA_BLOCK_SIZE at 1.
  assert (Hfull : Z.of_nat (length msg) + size = Z.of_nat (length (msg ++ bytes_at (sh_mem w) message size)))
    by (rewrite length_app, bytes_at_length; lia).
  destruct (Z.leb_spec (blksz (sh_ctx w) + size) 64) as [Hsmall|Hlarge].
  - rewrite wp_bind, wp_fetch, wp_bind, wp_ctx.
    destruct (blk_copy_run (blk (sh_ctx w)) (blksz (sh_ctx w)) (bytes_at (sh_mem w) message size) Hb) as (b' & Eb & Hlb & Ht);
      [lia|rewrite bytes_at_length; lia|].
    rewrite wp_bind, (wp_lift _ b') by exact Eb. rewrite wp_bind, wp_upd_ctx, wp_bind, wp_upd_ctx, wp_ret. apply HQ; [|done].
    rewrite bytes_at_length in Ht.
    split; cbn [sh_ctx with_ctx set_fullMessageSize set_blk set_blksz blksz blk algo state fullMessageSize sh_hw]; [done|done|lia|split; [exact Hfull|rewrite <- Hfull; exact Hlen]|].
    exists fed, q. split; [|split; [done|by destruct Hst as [[? ?]|[? ?]]; auto]].
    rewrite Esplit at 1. rewrite <- app_assoc. f_equal. rewrite <- Ht. f_equal. lia.
  - assert (Hpost : forall d s, processed message size fed (mode_of a) (set_sha d (with_ctx (set_state s (sh_ctx w1)) w1)) Q).
    { intros d s d' b' sz' fed' q' Hb' Hsz' Hq' Efed Hd'. apply HQ; [|done].
      split; [done|done|done|split; [exact Hfull|rewrite <- Hfull; exact Hlen]|]. exists fed', q'. split; [|split; [done|by right]].
      rewrite Esplit. symmetry. exact Efed. }
    assert (Hproc : forall d s, fed_to fed (mode_of a) d ->
      wp (if SHA_HAS_MEMADDR_DMA && (kStatus_Success =? sha_check_memory_boundry message size)
          then sha_process_message_data_master polls message size
          else sha_process_message_data polls message size) Q (set_sha d (with_ctx (set_state s (sh_ctx w1)) w1))).
    { intros d s Hd. destruct (SHA_HAS_MEMADDR_DMA && _) eqn:E.
      - destruct Hp as [Hp|(Hal & Hin & H17 & H0 & Htop)]; [by rewrite Hp in E|].
        apply (process_master_run _ _ fed q (mode_of a)); [done|done|done|done| |done|done|done|done|done|done|done].
        apply (f_equal (fun l => Z.of_nat (length l))) in Esplit. rewrite length_app, length_take in Esplit.
        change (blksz _) with (blksz (sh_ctx w)). zlia.
      - apply (process_run _ _ fed q (mode_of a)); [done|done|done|change (2 ^ 29) with 536870912; lia|done|done|done]. }
    rewrite wp_bind, wp_ctx. cbn [w1 sh_ctx with_ctx set_fullMessageSize state].
    fold w1. rewrite wp_bind. destruct Hst as [[-> ->]|[-> Hd]].
    + rewrite (Z.eqb_refl kSHA_HashInit), wp_bind. apply (engine_init_run a); [done..|]. intros d Hd.
      rewrite wp_upd_ctx. by apply Hproc, fed_nothing.
    + change (kSHA_HashDone =? kSHA_HashInit) with false. rewrite wp_ret.
      specialize (Hproc (sh_hw w1) (state (sh_ctx w1)) Hd). by rewrite set_state_id, with_ctx_id, set_sha_id in Hproc.
Qed.

Lemma finish_run msg m w (Q : status_t -> W -> Prop) :
  fed_to (pad msg) m (sh_hw w) ->
  (forall d, fed_to (pad msg) m d -> busy d = O -> Q kStatus_Success (set_sha d w)) ->
  wp (on_sha (wait_status polls SHA_STATUS_DIGEST_MASK) ;; ret kStatus_Success) Q w.
Proof.
  clear hash_callback. intros (l & Hh & Hl & Hfl & E) HQ. rewrite wp_bind, wp_on_sha.
  assert (Hne : l <> []) by (intros ->; destruct msg as [|a [|b [|c [|d t]]]]; discriminate E).
  apply (wait_digest polls Hpolls l m); [done|done|].
  intros d Hd Bd. rewrite wp_ret. apply HQ; [by exists l|done].
Qed.

Lemma length_be32 x : length (be32 x) = 4%nat.
Proof. done. Qed.

(** The padding takes a second block. *)
Lemma two_blocks_run fed q m msg last w (Q : status_t -> W -> Prop) :
  length (blk (sh_ctx w)) = 64%nat -> length last = 64%nat -> length fed = (64 * q)%nat ->
  fed_to fed m (sh_hw w) -> pad msg = fed ++ blk (sh_ctx w) ++ last ->
  (forall d, fed_to (pad msg) m d -> busy d = O -> Q kStatus_Success (set_sha d w)) ->
  wp ((b <- ctx_ blk ;; sha_one_block polls b ;; sha_one_block polls last) ;;
      on_sha (wait_status polls SHA_STATUS_DIGEST_MASK) ;; ret kStatus_Success) Q w.
Proof.
  clear hash_callback. intros Hb Hl Hfed Hh Hp HQ. rewrite wp_bind, wp_bind, wp_ctx, wp_bind.
  apply (one_fed_run _ fed q m); [done|done|done|]. intros d Hd.
  assert (Hfed2 : length (fed ++ blk (sh_ctx w)) = (64 * S q)%nat) by (rewrite length_app; lia).
  apply (one_fed_run _ (fed ++ blk (sh_ctx w)) (S q) m); [done|done|done|].
  intros d2 Hd2. rewrite <- app_assoc, <- Hp in Hd2. apply (finish_run _ m) with (1 := Hd2). intros d3 Hd3 Bd3. rewrite !set_sha_set. by apply HQ.
Qed.

(** The end of the message and its padding are hashed. *)
Lemma finalize_run msg fed q m w (Q : status_t -> W -> Prop) :
  let n := blksz (sh_ctx w) in
  length (blk (sh_ctx w)) = 64%nat -> 0 <= n <= 64 -> fullMessageSize (sh_ctx w) = Z.of_nat (length msg) ->
  Z.of_nat (length msg) < 2 ^ 29 -> msg = fed ++ take (Z.to_nat n) (blk (sh_ctx w)) -> length fed = (64 * q)%nat ->
  fed_to fed m (sh_hw w) ->
  (forall w', same_rest w w' -> fed_to (pad msg) m (sh_hw w') -> busy (sh_hw w') = O -> Q kStatus_Success w') ->
  wp (sha_finalize polls) Q w.
Proof.
  clear hash_callback. intros n Hb Hn Hfull Hlen Hmsg Hfed Hh HQ. unfold sha_finalize.
  rewrite wp_bind, wp_ctx, wp_bind, wp_ctx, wp_bind, wp_ctx. fold n.
  set (c := take (Z.to_nat n) (blk (sh_ctx w))) in *.
  assert (Hc : length c = Z.to_nat n) by (unfold c; rewrite length_take; lia).
  rewrite Hfull. assert (Hp := pad_eq fed q c Hfed). rewrite <- Hmsg in Hp. specialize (Hp Hlen). rewrite Hc, Z2Nat.id in Hp by lia.
  change (2 ^ 29) with 536870912 in *. rewrite (wrap_small 32) by (pow2; lia).
  assert (Hbe := bytes_of_swap (8 * Z.of_nat (length msg)) ltac:(pow2; lia)).
  set (len := 8 * Z.of_nat (length msg)) in *.
  destruct (Z.leb_spec n 55) as [H55|H55].
  - destruct (last_block_run c (swap_bytes len)) as (l1 & l2 & E1 & E2 & E3); [lia|].
    rewrite Hc, Z2Nat.id in E2 by lia. rewrite Hbe in E3.
    rewrite wp_bind, wp_bind, (wp_lift _ l1) by exact E1. rewrite wp_bind, (wp_lift _ l2) by exact E2.
    apply (one_fed_run _ fed q m); [|done|done|].
    { rewrite E3, !length_app, repeat_length, length_be32, Hc. cbn [length]. lia. }
    intros d Hd. rewrite E3 in Hd. apply (finish_run msg m).
    + rewrite Hp. rewrite Z.mod_small by lia.
      replace (Z.to_nat (4 + (55 - n))) with (59 - Z.to_nat n)%nat by lia. by rewrite Hc in Hd.
    + intros d' Hd' Bd'. rewrite set_sha_set. by apply HQ.
  - assert (Hlast : forall l, length l = 64%nat -> with_length (swap_bytes len) l = take 60 l ++ be32 len)
      by (intros; unfold with_length; by rewrite Hbe).
    assert (Hrest : forall w' last, same_rest w w' -> length (blk (sh_ctx w')) = 64%nat -> length last = 64%nat ->
      fed_to fed m (sh_hw w') -> pad msg = fed ++ blk (sh_ctx w') ++ with_length (swap_bytes len) last ->
      wp ((b <- ctx_ blk ;; sha_one_block polls b ;; sha_one_block polls (with_length (swap_bytes len) last)) ;;
        on_sha (wait_status polls SHA_STATUS_DIGEST_MASK) ;; ret kStatus_Success) Q w').
    { intros w' last Hsame Hb' Hl' Hh' Hp'. apply (two_blocks_run fed q m msg) with (5 := Hp'); [done| |done|done|].
      - rewrite Hlast, length_app, length_take, length_be32 by done. lia.
      - intros d Hd Bd. by apply HQ. }
    rewrite wp_bind, wp_bind. unfold SHA_BLOCK_SIZE at 1. destruct (Z.ltb_spec n 64) as [H64|H64].
    + rewrite wp_bind, (wp_lift _ _ _ _ (aset_ok (blk (sh_ctx w)) n 0x80 ltac:(lia))), wp_bind, wp_upd_ctx, wp_ret.
      rewrite <- wp_bind. apply Hrest; [done| |done|done|].
      * cbn. unfold SHA_BLOCK_SIZE. rewrite one_bit_block, !length_app, repeat_length, length_take by (done || lia). cbn [length]. lia.
      * rewrite Hlast by done. cbn. unfold SHA_BLOCK_SIZE. rewrite one_bit_block by (done || lia). fold c. rewrite Hp, <- !app_assoc.
        assert (E : (55 - n) mod 64 = 119 - n) by (symmetry; apply (Z.mod_unique _ _ (-1)); lia). rewrite E.
        replace (Z.to_nat (4 + (119 - n))) with ((63 - Z.to_nat n) + 60)%nat by lia. by rewrite repeat_app, <- app_assoc.
    + rewrite (wp_lift _ _ _ _ (aset_ok (repeat 0 64) 0 0x80 ltac:(cbn; lia))), <- wp_bind. apply Hrest; [done|done|done|done|].
      rewrite Hlast by done. assert (E : n = 64) by lia. rewrite Hp, E. unfold c. by rewrite take_ge by lia.
Qed.

Lemma read_digest_run n : forall i d (Q : list Z -> D -> Prop),
  busy d = O -> 0 <= i -> i + Z.of_nat n <= 8 ->
  Q (map (fun k => swap_bytes (digest (mode d) (stream d) (i + Z.of_nat k))) (seq 0 n)) d -> wp (read_digest n i) Q d.
Proof.
  clear hash_callback. induction n as [|n IH]; intros i d Q Hb Hi Hn HQ; cbn [read_digest]; [by rewrite wp_ret|].
  rewrite wp_bind. unfold wp at 1, rd. rewrite (read_digest_reg d i) by lia. rewrite wp_bind. apply IH; [done|lia|lia|].
  rewrite wp_ret. cbn [seq map] in HQ. rewrite Z.add_0_r in HQ. rewrite <- seq_shift, map_map in HQ.
  erewrite map_ext; [exact HQ|]. intros k. cbn beta. do 2 f_equal. lia.
Qed.

Lemma get_digest_run a msg output n w (Q : unit -> W -> Prop) :
  engine_reads mem -> fed_to (pad msg) (mode_of a) (sh_hw w) -> busy (sh_hw w) = O -> 0 <= n <= 32 ->
  (forall w', sh_ctx w' = sh_ctx w -> sh_mem w' = mem_write output (take (Z.to_nat n) (sha_of a msg)) (sh_mem w) -> Q tt w') ->
  wp (sha_get_digest output n) Q w.
Proof.
  clear hash_callback. intros Hreads (l & (H1 & H2 & _) & _ & Hfl & E) Hb Hn HQ. unfold sha_get_digest. rewrite wp_bind, wp_on_sha.
  apply read_digest_run; [done|lia|lia|]. rewrite (proj2 (Z.ltb_ge 32 n)) by lia. apply HQ; [done|]. cbn [sh_mem set_sha].
  rewrite H1, H2. unfold sha_of. rewrite <- bytes_of_swaps by (intros; apply digest_word).
  do 3 f_equal. apply map_ext. intros k. by rewrite Hreads, E.
Qed.

Lemma hash_init_run a w (Q : status_t -> W -> Prop) :
  (a = kSHA_Sha1 \/ a = kSHA_Sha256) -> length (blk (sh_ctx w)) = 64%nat ->
  (forall w', hashing a [] w' -> same_rest w w' -> Q kStatus_Success w') -> wp (SHA_Init true true a) Q w.
Proof.
  clear hash_callback. intros Halg Hb HQ. unfold SHA_Init.
  assert (E : sha_check_input_args true true a = kStatus_Success) by (by destruct Halg as [-> | ->]).
  rewrite E, Z.eqb_refl. cbn [negb]. autorewrite with wp. unfold wp, upd, ctx_, modify, gets, ret.
  apply HQ; [|done]. split; cbn [sh_ctx set_algo set_blksz set_blk set_state set_fullMessageSize algo blk blksz fullMessageSize length];
    [done| |lia|done|].
  - rewrite length_app, length_drop. cbn [bytes_of length]. lia.
  - exists [], 0%nat. split; [done|]. split; [done|by left].
Qed.

(** The length of the digest that is written. *)
Definition written (a : Z) (outputSize : option Z) : Z :=
  match outputSize with Some n => Z.min n (digest_len a) | None => digest_len a end.

(** The memory with the digest written. *)
Definition digested (a : Z) (msg : list Z) (output : Z) (outputSize : option Z) (mem : Z -> Z) : Z -> Z :=
  mem_write output (take (Z.to_nat (written a outputSize)) (sha_of a msg)) mem.

Lemma digest_len_bound a : 20 <= digest_len a <= 32.
Proof. unfold digest_len, kSHA_OutLenSha1, kSHA_OutLenSha256. destruct (a =? kSHA_Sha1); lia. Qed.

Lemma written_eq a outputSize :
  match outputSize with
  | Some n => if digest_len a <? n then (digest_len a, Some (digest_len a)) else (n, Some n)
  | None => (digest_len a, None)
  end = (written a outputSize, (fun _ => written a outputSize) <$> outputSize).
Proof.
  destruct outputSize as [n|]; [|done]. cbn [written fmap option_fmap option_map].
  destruct (Z.ltb_spec (digest_len a) n); [by rewrite Z.min_r by lia|by rewrite Z.min_l by lia].
Qed.

(** What [SHA_Finish] does once the message is in the engine. *)
Lemma digest_run a msg fed q output outputSize w (Q : status_t * option Z -> W -> Prop) :
  engine_reads mem -> hashing a msg w -> msg = fed ++ take (Z.to_nat (blksz (sh_ctx w))) (blk (sh_ctx w)) -> length fed = (64 * q)%nat ->
  fed_to fed (mode_of a) (sh_hw w) -> (forall n, outputSize = Some n -> 0 <= n) ->
  (forall w', sh_ctx w' = zero_ctx -> sh_mem w' = digested a msg output outputSize (sh_mem w) ->
    Q (kStatus_Success, (fun _ => written a outputSize) <$> outputSize) w') ->
  wp (a <- ctx_ algo ;;
      let algOutSize := if a =? kSHA_Sha1 then kSHA_OutLenSha1 else if a =? kSHA_Sha256 then kSHA_OutLenSha256 else 0 in
      status <- sha_finalize polls ;;
      let '(algOutSize, outputSize) := match outputSize with
        | Some n => if algOutSize <? n then (algOutSize, Some algOutSize) else (n, Some n)
        | None => (algOutSize, None)
        end in
      sha_get_digest output algOutSize ;; upd (fun _ => zero_ctx) ;; ret (status, outputSize)) Q w.
Proof.
  clear hash_callback. intros Hreads [[Ha Halg] Hb Hn [Hf Hmsg] _] Esplit Hfed Hd Hout HQ. rewrite wp_bind, wp_ctx, Ha, wp_bind.
  replace (if a =? kSHA_Sha1 then kSHA_OutLenSha1 else if a =? kSHA_Sha256 then kSHA_OutLenSha256 else 0) with (digest_len a)
    by (by destruct Halg as [-> | ->]).
  apply (finalize_run msg fed q (mode_of a)); [done..|]. intros w1 (Hm & _) Hd1 Bd1.
  rewrite written_eq, wp_bind. apply (get_digest_run a msg); [done|done|done| |].
  { assert (Hdl := digest_len_bound a). destruct outputSize as [n|]; cbn [written]; [specialize (Hout n eq_refl)|]; lia. }
  intros w2 Hc2 Hm2. rewrite wp_bind, wp_upd_ctx, wp_ret. apply HQ; [done|]. cbn [sh_mem with_ctx]. by rewrite Hm2, Hm.
Qed.

(** Before the first block the engine is free. *)
Lemma hashing_engine a msg w d : hashing a msg w -> state (sh_ctx w) = kSHA_HashInit -> hashing a msg (set_sha d w).
Proof.
  clear hash_callback. intros [? ? ? ? (fed & q & E1 & E2 & [[? ->]|[E3 _]])] E4; [|by rewrite E3 in E4].
  split; [done..|]. exists [], q. split; [done|split; [done|by left]].
Qed.

Lemma finish_hash_run a msg preempt fuel output outputSize w (Q : status_t * option Z -> W -> Prop) :
  engine_reads mem -> hashing a msg w -> output <> 0 -> (0 < fuel)%nat -> (forall n, outputSize = Some n -> 0 <= n) ->
  (forall w', sh_ctx w' = zero_ctx -> sh_mem w' = digested a msg output outputSize (sh_mem w) ->
    Q (kStatus_Success, (fun _ => written a outputSize) <$> outputSize) w') ->
  wp (SHA_Finish polls hash_callback preempt fuel true output outputSize) Q w.
Proof.
  intros Hreads H Ho Hfuel Hout HQ. destruct fuel as [|fuel]; [lia|]. assert (H' := H).
  destruct H as [[Ha Halg] _ _ _ (fed & q & Esplit & Hfed & Hst)].
  unfold SHA_Finish. rewrite wp_bind. apply (check_context_run _ _ a); [done..|]. rewrite Z.eqb_refl. cbn [negb].
  rewrite wp_bind, wp_ctx, wp_bind. destruct Hst as [[E ->]|[E Hd]]; rewrite E.
  - rewrite (Z.eqb_refl kSHA_HashInit), wp_bind. apply (engine_init_run a); [done..|]. intros d Hd. rewrite wp_ret.
    apply (digest_run a msg [] q); [done|by apply hashing_engine|done|done|by apply fed_nothing|done..].
  - change (kSHA_HashDone =? kSHA_HashInit) with false. rewrite wp_bind, wp_ctx, E. cbn [wait_done].
    rewrite (Z.eqb_refl kSHA_HashDone). cbn [negb]. rewrite wp_ret. by apply (digest_run a msg fed q).
Qed.

(** The pieces of a message: addresses and lengths. *)
Fixpoint updates (chunks : list (Z * Z)) : M W status_t :=
  match chunks with
  | [] => ret kStatus_Success
  | (message, size) :: chunks =>
      st <- SHA_Update polls true message size ;;
      if negb (st =? kStatus_Success) then ret st else updates chunks
  end.
Definition message_of (mem : Z -> Z) (chunks : list (Z * Z)) : list Z := flat_map (fun '(a, n) => bytes_at mem a n) chunks.

(** Each piece, after [before] bytes, goes through the processor or is one
    that the engine can fetch. *)
Fixpoint pieces (before : Z) (chunks : list (Z * Z)) : Prop :=
  match chunks with
  | [] => True
  | (m, n) :: chunks => m <> 0 /\ 0 <= n /\ (by_processor m n \/ by_engine before m n) /\ pieces (before + n) chunks
  end.

Lemma updates_run chunks : forall a msg w (Q : status_t -> W -> Prop),
  hashing a msg w -> sh_mem w = mem -> pieces (Z.of_nat (length msg)) chunks ->
  Z.of_nat (length (msg ++ message_of mem chunks)) < 2 ^ 29 ->
  (forall w', hashing a (msg ++ message_of mem chunks) w' -> sh_mem w' = mem -> Q kStatus_Success w') ->
  wp (updates chunks) Q w.
Proof.
  clear hash_callback. induction chunks as [|[m n] chunks IH]; intros a msg w Q H Hmem Hch Hlen HQ; cbn [updates].
  - rewrite wp_ret. apply HQ; [|done]. by rewrite app_nil_r.
  - destruct Hch as (Hm & Hn & Hp & Hch). rewrite wp_bind. cbn [message_of flat_map] in *.
    fold (message_of mem chunks) in *. rewrite app_assoc in Hlen, HQ.
    assert (Hl := Hlen). rewrite !length_app, bytes_at_length in Hl.
    apply (hash_update_run m n a msg); [done|done|done|lia|done|done|].
    intros w1 H1 (Hm1 & _). rewrite Z.eqb_refl. cbn [negb]. rewrite Hmem in *.
    apply (IH a (msg ++ bytes_at mem m n)); [done|done| |done|done].
    rewrite length_app, bytes_at_length. by replace (Z.of_nat (length msg + Z.to_nat n)) with (Z.of_nat (length msg) + n) by lia.
Qed.
End Fed.

Definition sha_hash (preempt : nat -> bool) (fuel : nat) (a : Z) (chunks : list (Z * Z)) (output : Z) (outputSize : option Z) :
    M W (status_t * option Z) :=
  st <- SHA_Init true true a ;;
  if negb (st =? kStatus_Success) then ret (st, outputSize) else
  st <- updates chunks ;;
  if negb (st =? kStatus_Success) then ret (st, outputSize) else
  SHA_Finish polls hash_callback preempt fuel true output outputSize.

(** C1: [SHA_Init], a call of [SHA_Update] for each piece of a message and
    [SHA_Finish] write the digest of the padded concatenation of the pieces,
    leave the rest of the memory alone, report the length and clear the
    context - whatever interrupts happen, whatever the sizes of the pieces and
    however they fall on the blocks.  The message is shorter than 2^29 bytes,
    and a piece may go through the processor or through the engine's own
    memory accesses, which take one of at most 128 KB (beyond that COUNT
    overflows) whose blocks are at word addresses of the engine's memories. *)
Theorem sha_hash_of_message a chunks preempt fuel output outputSize w :
  a = kSHA_Sha1 \/ a = kSHA_Sha256 -> length (blk (sh_ctx w)) = 64%nat ->
  engine_reads (sh_mem w) -> pieces 0 chunks ->
  Z.of_nat (length (message_of (sh_mem w) chunks)) < 2 ^ 29 ->
  output <> 0 -> (0 < fuel)%nat -> (forall n, outputSize = Some n -> 0 <= n) ->
  wp (sha_hash preempt fuel a chunks output outputSize) (fun r w' =>
    r = (kStatus_Success, (fun _ => written a outputSize) <$> outputSize) /\ sh_ctx w' = zero_ctx /\
    sh_mem w' = digested a (message_of (sh_mem w) chunks) output outputSize (sh_mem w)) w.
Proof.
  intros Halg Hb Hreads Hch Hlen Ho Hfuel Hout. unfold sha_hash. rewrite wp_bind.
  apply (hash_init_run (sh_mem w) a); [done|done|]. intros w1 H1 (Hm1 & _). rewrite Z.eqb_refl. cbn [negb]. rewrite wp_bind.
  apply (updates_run (sh_mem w) chunks a []); [done|done|done|done|]. intros w2 H2 Hm2. rewrite Z.eqb_refl. cbn [negb].
  apply (finish_hash_run (sh_mem w) a (message_of (sh_mem w) chunks)); [done|done|done|done|done|].
  intros w3 Hc3 Hm3. by rewrite Hm3, Hm2.
Qed.
End Hash.
