(* ===== verification/ShaAsync.v ===== *)
(** * Hashing by interrupts, and by the engine's own memory accesses

    [SHA_UpdateNonBlocking] gives the engine at most 2046 blocks and the
    interrupt handler the next ones: together they cover the message
    ([covers]), and the callback comes when it is over.  But the context never
    says so, and [SHA_Finish] waits for that.  The blocking path through the
    engine's memory accesses has no such limit on the number of blocks. *)

From stdpp Require Import base list numbers tactics.
From Stdlib Require Import ZArith Lia.
From S2P Require Import Prelude Bytes Mmio Sha ShaEngine ShaHash.

Open Scope Z_scope.
Open Scope prog_scope.

(** [l] fetches [n] blocks from [a] on, in order, each run within the COUNT
    field. *)
Fixpoint covers (a n : Z) (l : list item) : Prop :=
  match l with
  | [] => n = 0
  | Blocks a' m :: l => a' = a /\ 0 < m < MAX_HASH_CHUNK /\ covers (a + 64 * m) (n - m) l
  | Word _ :: _ => False
  end.

Lemma covers_snoc l : forall a n m, covers a n l -> 0 < m < MAX_HASH_CHUNK -> covers a (n + m) (l ++ [Blocks (a + 64 * n) m]).
Proof.
  induction l as [|[w|a' k] l IH]; intros a n m; cbn [covers app].
  - intros -> Hm. split; [lia|]. split; [done|lia].
  - done.
  - intros (-> & Hk & H) Hm. split; [done|]. split; [done|].
    replace (a + 64 * n) with (a + 64 * k + 64 * (n - k)) by lia. replace (n + m - k) with (n - k + m) by lia. by apply IH.
Qed.

Lemma next_blocks_bound r : 0 < r -> 0 < next_blocks r < MAX_HASH_CHUNK /\ next_blocks r <= r.
Proof. intros Hr. unfold next_blocks, MAX_HASH_CHUNK. destruct (Z.leb_spec (2048 - 1) r); lia. Qed.

(** The bytes of an input. *)
Definition item_bytes (x : item) : Z := match x with Word _ => 4 | Blocks _ n => 64 * n end.
Definition input_bytes (l : list item) : Z := fold_right (fun x n => item_bytes x + n) 0 l.

Lemma input_bytes_app l1 l2 : input_bytes (l1 ++ l2) = input_bytes l1 + input_bytes l2.
Proof. induction l1 as [|x l1 IH]; [done|]. cbn [app input_bytes fold_right]. fold (input_bytes (l1 ++ l2)) (input_bytes l1). lia. Qed.

Lemma input_bytes_words l : input_bytes (map Word l) = 4 * Z.of_nat (length l).
Proof. induction l as [|x l IH]; [done|]. cbn [map input_bytes fold_right item_bytes length]. fold (input_bytes (map Word l)). lia. Qed.

Section Async.
Context {D : Type} `{!Device sha_reg D} {F : ShaFields} {X : ShaFeatures} {L : ShaLaws}.
Abbreviation W := (sha_world D).
Context (polls : nat) (hash_callback : Z -> status_t -> Z -> M W unit).

(** [k] interrupts. *)
Fixpoint interrupts (k : nat) : M W unit :=
  match k with O => ret tt | S k => SHA_DriverIRQHandler hash_callback ;; interrupts k end.

(** The engine has been given the first blocks of a message of [n] blocks at
    [a]; [remainingBlcks] says how many are left. *)
Record fetching (a n : Z) (w : W) : Prop := {
  fetching_ctx : s_shaCtx w = true;
  fetching_left : 0 <= remainingBlcks (sh_ctx w) <= n /\ n < 2 ^ 26;
  fetching_stream : covers a (n - remainingBlcks (sh_ctx w)) (stream (sh_hw w));
  fetching_address : memaddr (sh_hw w) = a + 64 * (n - remainingBlcks (sh_ctx w))
}.

(** Only the engine and the number of blocks left change. *)
Definition only_blocks_left (w w' : W) : Prop :=
  sh_ctx w' = set_remainingBlcks (remainingBlcks (sh_ctx w')) (sh_ctx w) /\ sh_mem w' = sh_mem w.

Section NoFault.
(** The engine has no bus errors. *)
Context (no_fault : forall d, has (reg_read STATUS d).1 SHA_STATUS_ERROR_MASK = false).

(** Blocks left: the next run is started. *)
Lemma isr_more_run a n w (Q : unit -> W -> Prop) :
  fetching a n w -> 0 < remainingBlcks (sh_ctx w) ->
  (forall w', fetching a n w' -> only_blocks_left w w' ->
    remainingBlcks (sh_ctx w') = remainingBlcks (sh_ctx w) - next_blocks (remainingBlcks (sh_ctx w)) -> Q tt w') ->
  wp (SHA_DriverIRQHandler hash_callback) Q w.
Proof.
  intros [Hc [Hr Hn] Hs Ha] Hpos HQ. unfold SHA_DriverIRQHandler. rewrite wp_bind, wp_on_sha. unfold wp at 1, rd.
  assert (Hk := status_keeps (sh_hw w)). assert (Hka := status_keeps_address (sh_hw w)). assert (Hno := no_fault (sh_hw w)).
  destruct (reg_read STATUS (sh_hw w)) as [x d1]. cbn [fst snd] in *. destruct Hk as [Hk1 Hk2].
  rewrite wp_bind, wp_gets. cbn [s_shaCtx set_sha]. rewrite Hc, Hno. cbn [negb]. rewrite wp_bind, wp_ctx. cbn [sh_ctx set_sha].
  rewrite (proj2 (Z.ltb_lt _ _) Hpos). set (r := remainingBlcks (sh_ctx w)) in *.
  destruct (next_blocks_bound r Hpos) as [Hm Hmr]. rewrite wp_bind, wp_upd_ctx, wp_on_sha. unfold wp, wr.
  change (2 ^ 26) with 67108864 in *. rewrite (wrap_small 32) by (pow2; lia).
  destruct (fetch_blocks d1 (next_blocks r) ltac:(lia)) as (E1 & E2 & E3 & E4).
  unfold MAX_HASH_CHUNK in Hm. rewrite (Z.mod_small (next_blocks r)) in E1, E4 by (change (2 ^ 11) with 2048; lia).
  rewrite Hk1, Hka, Ha in E1. rewrite Hka, Ha in E4. apply HQ; [|done|done].
  split; cbn [s_shaCtx set_sha with_ctx sh_ctx set_remainingBlcks remainingBlcks sh_hw]; [done|split; [lia|exact Hn]| |].
  - rewrite E1. replace (n - (r - next_blocks r)) with (n - r + next_blocks r) by lia. by apply covers_snoc.
  - rewrite E4. lia.
Qed.

Lemma only_blocks_left_trans w1 w2 w3 : only_blocks_left w1 w2 -> only_blocks_left w2 w3 -> only_blocks_left w1 w3.
Proof. intros [E1 E2] [E3 E4]. split; [|congruence]. rewrite E3, E1. done. Qed.

(** As many interrupts as there are runs left. *)
Lemma interrupts_run k : forall a n w (Q : unit -> W -> Prop),
  fetching a n w ->
  2046 * (Z.of_nat k - 1) < remainingBlcks (sh_ctx w) <= 2046 * Z.of_nat k ->
  (forall w', fetching a n w' -> only_blocks_left w w' -> remainingBlcks (sh_ctx w') = 0 -> Q tt w') ->
  wp (interrupts k) Q w.
Proof.
  induction k as [|k IH]; intros a n w Q H Hr HQ; cbn [interrupts].
  - assert (H0 := fetching_left _ _ _ H). rewrite wp_ret. apply HQ; [done| |lia]. split; [|done]. by destruct (sh_ctx w).
  - rewrite wp_bind. apply (isr_more_run a n); [done|lia|]. intros w1 H1 K1 E1. apply (IH a n); [done| |].
    + rewrite E1. unfold next_blocks, MAX_HASH_CHUNK. destruct (Z.leb_spec (2048 - 1) (remainingBlcks (sh_ctx w))); lia.
    + intros w2 H2 K2 E2. apply HQ; [done| |done]. by apply (only_blocks_left_trans w w1).
Qed.

(** Nothing left: the engine is stopped, and the callback called. *)
Lemma isr_last_run w :
  s_shaCtx w = true -> remainingBlcks (sh_ctx w) = 0 -> hashCallback (sh_ctx w) <> 0 ->
  exists d, stream d = stream (sh_hw w) /\
    SHA_DriverIRQHandler hash_callback w =
    hash_callback (hashCallback (sh_ctx w)) kStatus_Success (userData (sh_ctx w)) (set_sha d w).
Proof.
  destruct w as [hw c sc mem irq clk res]. cbn [s_shaCtx sh_ctx sh_hw]. intros -> Hr Hf.
  assert (Hk := status_keeps hw). assert (Hno := no_fault hw). set (d1 := (reg_read STATUS hw).2) in *.
  destruct (interrupts_keep d1 INTENCLR (Z.lor SHA_INTENCLR_DIGEST_MASK SHA_INTENCLR_ERROR_MASK)) as (E1 & _); [by right|].
  set (d2 := reg_write INTENCLR _ d1) in *. destruct (stop_master d2) as (E2 & _).
  exists (reg_write MEMCTRL (SHA_MEMCTRL_MASTER 0) d2). split; [destruct Hk; congruence|]. subst d2 d1.
  unfold SHA_DriverIRQHandler, on_sha, ctx_, gets, bind, rd, wr, call_callback.
  cbn [sh_hw sh_ctx s_shaCtx sh_mem sh_irq sh_clock sh_resets]. destruct (reg_read STATUS hw) as [x d1]. cbn [fst snd] in *.
  rewrite Hno. cbn. rewrite Hr. cbn. rewrite (proj2 (Z.eqb_neq _ _) Hf).
  unfold bind, ctx_, gets. cbn. by rewrite (proj2 (Z.eqb_neq _ _) Hf).
Qed.

(** The first run is started. *)
Lemma async_start_run a input size w (Q : status_t -> W -> Prop) :
  algo (sh_ctx w) = a -> (a = kSHA_Sha1 \/ a = kSHA_Sha256) -> length (blk (sh_ctx w)) = 64%nat -> s_shaCtx w = true ->
  input <> 0 -> Z.land input 3 = 0 -> 64 <= size < 2 ^ 32 ->
  (forall w', fetching (SHA_MEMADDR_BASEADDR input) (size / 64) w' ->
    remainingBlcks (sh_ctx w') = size / 64 - next_blocks (size / 64) ->
    state (sh_ctx w') = kSHA_HashUpdate -> algo (sh_ctx w') = a -> fullMessageSize (sh_ctx w') = size -> blksz (sh_ctx w') = size mod 64 ->
    take (Z.to_nat (size mod 64)) (blk (sh_ctx w')) = bytes_at (sh_mem w) (input + 64 * (size / 64)) (size mod 64) ->
    hashCallback (sh_ctx w') = hashCallback (sh_ctx w) -> userData (sh_ctx w') = userData (sh_ctx w) -> sh_mem w' = sh_mem w ->
    Q kStatus_Success w') ->
  wp (SHA_UpdateNonBlocking hash_callback true input size) Q w.
Proof.
  intros Ha Halg Hb Hsc Hi Hal Hs HQ. unfold SHA_UpdateNonBlocking.
  rewrite (proj2 (Z.eqb_neq size 0)), Hal by lia. change (negb (0 =? 0)) with false. cbv iota. rewrite wp_bind.
  apply (check_context_run _ _ a); [done..|]. rewrite (Z.eqb_refl kStatus_Success). cbn [negb].
  rewrite wp_bind, wp_upd_ctx, wp_bind, wp_upd_ctx, wp_bind, wp_upd_ctx, wp_bind, wp_ctx, wp_bind, wp_ctx. unfold SHA_BLOCK_SIZE.
  change (2 ^ 32) with 4294967296 in Hs. assert (Hq : 1 <= size / 64 < 2 ^ 26) by (change (2 ^ 26) with 67108864; zlia).
  set (c := set_blksz _ _). set (w1 := with_ctx _ _).
  change (blksz (sh_ctx w1)) with (size mod 64). change (remainingBlcks (sh_ctx w1)) with (size / 64). rewrite wp_bind.
  eapply wp_mono with (P := fun _ w' => exists b, w' = with_ctx (set_blk b c) w /\
    take (Z.to_nat (size mod 64)) b = bytes_at (sh_mem w) (input + 64 * (size / 64)) (size mod 64)).
  { assert (Hmod := Z.mod_pos_bound size 64 ltac:(lia)). destruct (Z.ltb_spec 0 (size mod 64)) as [Hm|Hm]; cbn [andb].
    - rewrite (proj2 (Z.leb_le _ 64)) by lia.
      rewrite wp_bind, wp_fetch, wp_bind, wp_ctx. change (sh_mem w1) with (sh_mem w). change (blk (sh_ctx w1)) with (blk (sh_ctx w)).
      rewrite (wrap_small 32) by (pow2; zlia).
      destruct (blk_copy_run (blk (sh_ctx w)) 0 (bytes_at (sh_mem w) (input + 64 * (size / 64)) (size mod 64)) Hb) as (b' & Eb & Hlb & Ht);
        [lia|rewrite bytes_at_length; lia|].
      rewrite wp_bind, (wp_lift _ b') by exact Eb. rewrite wp_upd_ctx. exists b'. split; [done|].
      rewrite bytes_at_length in Ht. rewrite take_0, app_nil_l in Ht. exact Ht.
    - rewrite wp_ret. exists (blk (sh_ctx w)). split; [by destruct (sh_ctx w)|]. assert (E : size mod 64 = 0) by lia. by rewrite E. }
  intros _ w' (b & -> & Ht). cbv zeta. destruct (next_blocks_bound (size / 64) ltac:(lia)) as [Hm Hmr].
  assert (Hmod : next_blocks (size / 64) mod 2 ^ 11 = next_blocks (size / 64))
    by (unfold MAX_HASH_CHUNK in Hm; apply Z.mod_small; change (2 ^ 11) with 2048; lia).
  rewrite (proj2 (Z.ltb_lt 0 (next_blocks _))) by lia. cbv iota.
  change (2 ^ 26) with 67108864 in Hq. rewrite (wrap_small 32) by (pow2; lia).
  rewrite wp_bind, wp_upd_ctx, wp_bind, wp_bind, wp_upd_ctx, wp_bind. apply (engine_init_run a); [done|done|]. intros d Hd.
  rewrite wp_bind, wp_on_sha. unfold wp at 1, wr. rewrite wp_bind.
  destruct (interrupts_keep d INTENSET (Z.lor SHA_STATUS_DIGEST_MASK SHA_STATUS_ERROR_MASK)) as (K1 & _); [by left|].
  set (d1 := reg_write INTENSET _ d) in *. rewrite wp_on_sha. unfold wp at 1, wr.
  destruct (set_address d1 (SHA_MEMADDR_BASEADDR input)) as (K2 & _ & _ & K3).
  set (d2 := reg_write MEMADDR _ d1) in *. rewrite wp_on_sha. unfold wp at 1, wr.
  destruct (fetch_blocks d2 (next_blocks (size / 64)) ltac:(lia)) as (K4 & _ & _ & K5).
  set (d3 := reg_write MEMCTRL _ d2) in *. rewrite wp_ret. destruct Hd as (K0 & _). rewrite Hmod, K3 in *. rewrite K2, K1, K0 in K4.
  apply HQ; try done. split; cbn [s_shaCtx set_sha with_ctx sh_ctx set_state set_remainingBlcks remainingBlcks sh_hw];
    [done|split; [lia|exact (proj2 Hq)]| |].
  - refine (eq_rect_r (covers _ _) _ K4). cbn [app covers]. split; [done|]. split; [done|lia].
  - refine (eq_trans K5 _). lia.
Qed.

(** C28: the interrupt-driven hash of a message of [n] full blocks takes
    [(n - 1) / 2046] interrupts to give the engine all of them: in order, each
    once, never more than the COUNT field holds; the rest of the message waits
    in the context, and nothing is reported (whatever the callback is, it is
    not called).  The next interrupt calls it, with success. *)
Theorem sha_nonblocking_covers_message a input size w :
  algo (sh_ctx w) = a -> a = kSHA_Sha1 \/ a = kSHA_Sha256 -> length (blk (sh_ctx w)) = 64%nat -> s_shaCtx w = true ->
  hashCallback (sh_ctx w) <> 0 ->
  input <> 0 -> Z.land input 3 = 0 -> 64 <= size < 2 ^ 32 ->
  wp (SHA_UpdateNonBlocking hash_callback true input size ;; interrupts (Z.to_nat ((size / 64 - 1) / 2046)))
    (fun _ w' =>
      covers (SHA_MEMADDR_BASEADDR input) (size / 64) (stream (sh_hw w')) /\
      fullMessageSize (sh_ctx w') = size /\ blksz (sh_ctx w') = size mod 64 /\
      take (Z.to_nat (size mod 64)) (blk (sh_ctx w')) = bytes_at (sh_mem w) (input + 64 * (size / 64)) (size mod 64) /\
      exists d, stream d = stream (sh_hw w') /\
        SHA_DriverIRQHandler hash_callback w' =
        hash_callback (hashCallback (sh_ctx w)) kStatus_Success (userData (sh_ctx w)) (set_sha d w')) w.
Proof.
  intros Ha Halg Hb Hsc Hf Hi Hal Hs. rewrite wp_bind. apply (async_start_run a); [done..|].
  intros w1 H1 Hr Hst Ha1 Hfull Hsz Ht Hcb Hud Hm. change (2 ^ 32) with 4294967296 in Hs.
  assert (Hq : 1 <= size / 64) by zlia. apply (interrupts_run _ _ _ _ _ H1).
  - rewrite Hr, Z2Nat.id by (apply Z.div_pos; lia). unfold next_blocks, MAX_HASH_CHUNK. destruct (Z.leb_spec (2048 - 1) (size / 64)); zlia.
  - intros w2 H2 [E2 E3] E4. rewrite E4 in E2. destruct H2 as [Hsc2 _ Hcov _]. rewrite E4, Z.sub_0_r in Hcov.
    rewrite <- Hcb, <- Hud. split; [done|].
    assert (Hk : forall (A : Type) (f : sha_ctx -> A), f (sh_ctx w2) = f (set_remainingBlcks 0 (sh_ctx w1))) by (intros; congruence).
    split; [by rewrite (Hk _ fullMessageSize)|]. split; [by rewrite (Hk _ blksz)|]. split; [by rewrite (Hk _ blk)|].
    rewrite <- (Hk _ hashCallback : _ = hashCallback (sh_ctx w1)), <- (Hk _ userData : _ = userData (sh_ctx w1)).
    apply isr_last_run; [done|done|]. rewrite (Hk _ hashCallback). cbn. by rewrite Hcb.
Qed.
End NoFault.

(** ** Waiting for the end *)

(** The application's callback does not write to the context. *)
Definition keeps_state (m : M W unit) : Prop := forall w w', m w = Ok (tt, w') -> state (sh_ctx w') = state (sh_ctx w).

Lemma keeps_state_bind {A} (m : M W A) (f : A -> M W unit) :
  (forall w a w', m w = Ok (a, w') -> state (sh_ctx w') = state (sh_ctx w)) -> (forall a, keeps_state (f a)) -> keeps_state (bind m f).
Proof.
  intros Hm Hf w w'. unfold bind. destruct (m w) as [[a w1]|] eqn:E; [|done]. intros H.
  rewrite (Hf a _ _ H). by apply Hm in E.
Qed.

Lemma keeps_on_sha {A} (m : M D A) w a w' : on_sha m w = Ok (a, w') -> state (sh_ctx w') = state (sh_ctx w).
Proof. unfold on_sha. destruct (m (sh_hw w)) as [[b d]|]; [|done]. by intros [= _ <-]. Qed.

Lemma keeps_gets {A} (f : W -> A) w a w' : gets f w = Ok (a, w') -> state (sh_ctx w') = state (sh_ctx w).
Proof. by intros [= _ <-]. Qed.

Section Callback.
Context (Hcb : forall f st u, keeps_state (hash_callback f st u)).

(** The interrupt handler never changes the state of the hash. *)
Lemma isr_keeps_state : keeps_state (SHA_DriverIRQHandler hash_callback).
Proof.
  assert (Hcall : forall st, keeps_state (call_callback hash_callback st)).
  { intros st. apply keeps_state_bind; [apply keeps_gets|]. intros f. apply keeps_state_bind; [apply keeps_gets|]. intros u.
    destruct (f =? 0); [done|apply Hcb]. }
  assert (Hfin : forall st, keeps_state (f <- ctx_ hashCallback ;; when (negb (f =? 0)) (call_callback hash_callback st))).
  { intros st. apply keeps_state_bind; [apply keeps_gets|]. intros f. destruct (negb (f =? 0)); [apply Hcall|by intros ? ? [= <-]]. }
  apply keeps_state_bind; [apply keeps_on_sha|]. intros x. apply keeps_state_bind; [apply keeps_gets|]. intros c.
  destruct (negb c); [done|]. destruct (negb (has x SHA_STATUS_ERROR_MASK)); [|apply Hfin].
  apply keeps_state_bind; [apply keeps_gets|]. intros r. destruct (0 <? r).
  - apply keeps_state_bind; [by intros ? ? ? [= _ <-]|]. intros _ w w' H. by apply keeps_on_sha in H.
  - apply keeps_state_bind; [apply keeps_on_sha|]. intros _. apply keeps_state_bind; [apply keeps_on_sha|]. intros _. apply Hfin.
Qed.

Lemma wait_never preempt fuel : forall k w,
  state (sh_ctx w) = kSHA_HashUpdate -> forall r, wait_done hash_callback preempt fuel k kSHA_HashUpdate w <> Ok r.
Proof.
  induction fuel as [|fuel IH]; intros k w Hw r; cbn [wait_done]; [done|].
  change (kSHA_HashUpdate =? kSHA_HashDone) with false. change (kSHA_HashUpdate =? kSHA_HashError) with false. cbn [negb].
  unfold bind at 1. destruct ((when (preempt k) (SHA_DriverIRQHandler hash_callback)) w) as [[[] w1]|] eqn:E; [|done].
  assert (Hw1 : state (sh_ctx w1) = kSHA_HashUpdate).
  { rewrite <- Hw. destruct (preempt k); [by apply isr_keeps_state in E|by injection E as <-]. }
  unfold bind, ctx_, gets. rewrite Hw1. by apply IH.
Qed.

(** [SHA_Finish] after an interrupt-driven hash of a block or more never
    returns: the state stays kSHA_HashUpdate whatever interrupts happen and
    however many (the handler reports the end to the callback, not to the
    context), and the loop waits for kSHA_HashDone or kSHA_HashError. *)
Theorem sha_finish_never_returns a input size output outputSize preempt fuel w :
  algo (sh_ctx w) = a -> a = kSHA_Sha1 \/ a = kSHA_Sha256 -> length (blk (sh_ctx w)) = 64%nat -> s_shaCtx w = true ->
  input <> 0 -> Z.land input 3 = 0 -> 64 <= size < 2 ^ 32 -> output <> 0 ->
  exists w1, SHA_UpdateNonBlocking hash_callback true input size w = Ok (kStatus_Success, w1) /\
    forall r, SHA_Finish polls hash_callback preempt fuel true output outputSize w1 <> Ok r.
Proof.
  intros Ha Halg Hb Hsc Hi Hal Hs Ho.
  destruct (wp_inv (SHA_UpdateNonBlocking hash_callback true input size)
    (fun st w1 => st = kStatus_Success /\ state (sh_ctx w1) = kSHA_HashUpdate /\ algo (sh_ctx w1) = a) w) as (st & w1 & E & -> & Hst & Ha1).
  { by apply (async_start_run a). }
  exists w1. split; [done|]. intros r Hr. revert Hr. unfold SHA_Finish, bind at 1.
  assert (Hc : sha_check_context true output w1 = Ok (kStatus_Success, w1)).
  { unfold sha_check_context. rewrite (proj2 (Z.eqb_neq 0 output)) by lia. cbn. unfold bind, ctx_, gets. rewrite Ha1. by destruct Halg as [-> | ->]. }
  rewrite Hc, Z.eqb_refl. cbn [negb]. unfold bind at 1, ctx_ at 1, gets at 1. rewrite Hst.
  change (kSHA_HashUpdate =? kSHA_HashInit) with false. cbv iota. unfold bind at 1 2, ctx_ at 1, gets at 1. rewrite Hst.
  destruct (wait_done _ _ _ _ _ w1) as [r1|] eqn:E1; [|done]. by apply wait_never in E1.
Qed.
End Callback.

(** ** The blocking path through the engine's memory accesses *)

Lemma words_bytes l q : length l = (4 * q)%nat -> input_bytes (map Word (words_of l)) = Z.of_nat (length l).
Proof. intros Hl. rewrite input_bytes_words, (length_words_of l q) by done. lia. Qed.

(** a large update through the engine's memory accesses: the buffer and
    one block go through the processor, the rest is one run of the engine,
    whose number of blocks is cut to the eleven bits of COUNT (the
    interrupt-driven path never asks for more than 2046).  So a message of
    2048 blocks more loses 128 KB of input, and the status is success. *)
Theorem sha_master_update_feeds (Hpolls : (latency < polls)%nat) message size l m w :
  let n := blksz (sh_ctx w) in
  length (blk (sh_ctx w)) = 64%nat -> 0 <= n <= 64 -> 128 <= size < 2 ^ 32 ->
  (nwords l mod 16 = 0)%nat -> holds l m (sh_hw w) ->
  wp (sha_process_message_data_master polls message size) (fun st w' => exists k,
    let blocks := (size - k) / 64 - 1 in
    0 <= k < 64 /\ (n + k) mod 64 = 0 /\ st = kStatus_Success /\
    stream (sh_hw w') = l ++ map Word (words_of (take (Z.to_nat n) (blk (sh_ctx w)) ++ bytes_at (sh_mem w) message (k + 64))) ++
      [Blocks (SHA_MEMADDR_BASEADDR (message + k + 64)) (blocks mod 2 ^ 11)] /\
    blksz (sh_ctx w') = (size - k) mod 64 /\
    take (Z.to_nat ((size - k) mod 64)) (blk (sh_ctx w')) =
      bytes_at (sh_mem w) (message + size - (size - k) mod 64) ((size - k) mod 64) /\
    input_bytes (stream (sh_hw w')) + blksz (sh_ctx w') = input_bytes l + n + size - 131072 * (blocks / 2048)) w.
Proof.
  clear hash_callback. intros n Hb Hn Hs Hl Hh. change (2 ^ 32) with 4294967296 in Hs. unfold sha_process_message_data_master. rewrite wp_bind.
  apply (fill_block_items polls Hpolls _ _ l m); [done|done|lia|change (2 ^ 32) with 4294967296; lia|done|done|].
  intros d1 b1 k Hk Hk64 Hb1 [c Hc] H1. fold n in Hc, H1. cbv iota beta. rewrite wp_bind. unfold SHA_BLOCK_SIZE at 1.
  rewrite (proj2 (Z.leb_le 64 (size - k))) by lia.
  set (l1 := l ++ map Word _) in *.
  assert (Hl1 : (nwords l1 mod 16 = 0)%nat).
  { unfold l1. rewrite nwords_app, nwords_words, (length_words_of _ (c * 16)) by lia.
    rewrite Nat.Div0.mod_add. exact Hl. }
  apply (master_blocks_run polls Hpolls _ _ l1 m); [change (2 ^ 32) with 4294967296; lia|done|done|]. cbv zeta. cbn [sh_mem set_sha with_ctx].
  intros d2 (H2 & _). set (blocks := (size - k - 64) / 64) in *. cbv iota beta.
  assert (Hbl : 0 <= blocks /\ (size - k) mod 64 = size - k - 64 - 64 * blocks /\ blocks = (size - k) / 64 - 1) by (unfold blocks; zlia).
  destruct Hbl as (Hbl & Hmod & Hq). unfold keep_rest. rewrite wp_bind, wp_fetch, wp_bind, wp_ctx. cbn [sh_ctx sh_mem set_sha with_ctx set_blk blk].
  assert (Hmb := Z.mod_pos_bound (size - k) 64 ltac:(lia)). rewrite <- Hmod.
  destruct (blk_copy_run b1 0 (bytes_at (sh_mem w) (message + k + 64 + 64 * blocks) ((size - k) mod 64)) Hb1) as (b2 & Eb & Hlb & Ht);
    [lia|rewrite bytes_at_length; lia|].
  rewrite wp_bind, (wp_lift _ b2) by exact Eb. rewrite wp_bind, wp_upd_ctx, wp_bind, wp_upd_ctx, wp_bind, wp_upd_ctx, wp_ret.
  exists k. rewrite <- Hq. cbv zeta. cbn [sh_hw sh_ctx set_sha with_ctx blk blksz set_blk set_blksz set_state].
  rewrite bytes_at_length, take_0, app_nil_l, Nat.add_0_l in Ht.
  split; [lia|]. split; [rewrite length_app, length_take, bytes_at_length in Hc; zlia|]. split; [done|].
  rewrite H2. unfold l1. rewrite <- app_assoc. split.
  { f_equal. rewrite bytes_at_split by lia. rewrite (app_assoc (take _ _)), (words_of_app _ (bytes_at _ (message + k) 64) (16 * c)) by lia.
    rewrite map_app, <- app_assoc. done. }
  split; [done|]. split.
  { rewrite Ht. f_equal. lia. }
  rewrite !input_bytes_app, (words_bytes _ (16 * c)), (words_bytes (bytes_at _ _ 64) 16), Hc, bytes_at_length
    by (rewrite ?bytes_at_length; lia || done).
  rewrite length_app, length_take, bytes_at_length in Hc. cbn [input_bytes fold_right item_bytes].
  change (2 ^ 11) with 2048. zlia.
Qed.
End Async.
