(* ===== verification/ShaDevice.v ===== *)
(** * A hash engine to run the driver on

    The peripheral with the two algorithms of the Secure Hash Standard written
    out, two status reads of latency after each block; the memory it fetches
    blocks from is full of the letter a.  The witness hashes messages on it
    whose digests are known. *)

From stdpp Require Import base list numbers tactics.
From Stdlib Require Import ZArith Lia.
From S2P Require Import Prelude Bytes Mmio Sha ShaEngine ShaHash ShaAsync.

Open Scope Z_scope.

#[export] Instance sha_fields : ShaFields := {|
  SHA_STATUS_WAITING_MASK := 1; SHA_STATUS_DIGEST_MASK := 2; SHA_STATUS_ERROR_MASK := 4;
  SHA_INTENCLR_DIGEST_MASK := 2; SHA_INTENCLR_ERROR_MASK := 4;
  SHA_CTRL_MODE x := Z.land x 3; SHA_CTRL_NEW x := Z.land (Z.shiftl x 4) 0x10;
  SHA_MEMCTRL_MASTER x := Z.land x 1; SHA_MEMCTRL_COUNT x := Z.land (Z.shiftl x 16) 0x7FF0000;
  SHA_MEMADDR_BASEADDR x := u32 x
|}.
#[export] Instance sha_features : ShaFeatures := {|
  SHA_ALIAS_DATA := true; SHA_HAS_MEMADDR_DMA := true; SRAM := Some ((0x04000000, 0x8000), (0x20000000, 0x20000))
|}.

(** ** The algorithms *)

Definition rol (n x : Z) : Z := Z.lor (u32 (Z.shiftl x n)) (Z.shiftr x (32 - n)).
Definition ror (n x : Z) : Z := rol (32 - n) x.
Definition not32 (x : Z) : Z := 4294967295 - x.
Definition ch (x y z : Z) : Z := Z.lxor (Z.land x y) (Z.land (not32 x) z).
Definition maj (x y z : Z) : Z := Z.lxor (Z.lxor (Z.land x y) (Z.land x z)) (Z.land y z).
Definition at_ (l : list Z) (i : nat) : Z := nth i l 0.

(** The constants of SHA-256, from their definition: 32 bits of the fractional
    parts of the cube roots and square roots of the first primes. *)
Definition primes : list Z :=
  List.filter (fun p => forallb (fun d => negb (p mod Z.of_nat d =? 0)) (seq 2 (Z.to_nat p - 2))) (map Z.of_nat (seq 2 310)).
(** The largest [r] of at most [n] more bits below [r] whose cube is within [x]. *)
Fixpoint cube_root (n : nat) (r x : Z) : Z :=
  match n with
  | O => r
  | S n => let r' := r + 2 ^ Z.of_nat n in cube_root n (if r' * r' * r' <=? x then r' else r) x
  end.
Definition sha256_K : list Z :=
  Eval vm_compute in map (fun p => u32 (cube_root 35 0 (p * 2 ^ 96))) primes.
Definition sha256_H : list Z := Eval vm_compute in map (fun p => u32 (Z.sqrt (p * 2 ^ 64))) (take 8 primes).
Definition sha1_H : list Z := [0x67452301; 0xefcdab89; 0x98badcfe; 0x10325476; 0xc3d2e1f0].

(** The message schedule, latest word first. *)
Definition sha256_next (w : list Z) : Z :=
  let s0 := let x := at_ w 14 in Z.lxor (Z.lxor (ror 7 x) (ror 18 x)) (Z.shiftr x 3) in
  let s1 := let x := at_ w 1 in Z.lxor (Z.lxor (ror 17 x) (ror 19 x)) (Z.shiftr x 10) in
  u32 (at_ w 15 + s0 + at_ w 6 + s1).
Definition sha1_next (w : list Z) : Z :=
  rol 1 (Z.lxor (Z.lxor (at_ w 2) (at_ w 7)) (Z.lxor (at_ w 13) (at_ w 15))).
Fixpoint schedule (next : list Z -> Z) (n : nat) (w : list Z) : list Z :=
  match n with O => rev w | S n => schedule next n (next w :: w) end.

Definition sha256_round (s : list Z) (kw : Z * Z) : list Z :=
  match s with
  | [a; b; c; d; e; f; g; h] =>
      let s1 := Z.lxor (Z.lxor (ror 6 e) (ror 11 e)) (ror 25 e) in
      let t1 := h + s1 + ch e f g + fst kw + snd kw in
      let s0 := Z.lxor (Z.lxor (ror 2 a) (ror 13 a)) (ror 22 a) in
      [u32 (t1 + s0 + maj a b c); a; b; c; u32 (d + t1); e; f; g]
  | _ => s
  end.
Definition sha1_round (s : list Z) (tw : nat * Z) : list Z :=
  match s with
  | [a; b; c; d; e] =>
      let '(f, k) := if (fst tw <? 20)%nat then (ch b c d, 0x5a827999)
        else if (fst tw <? 40)%nat then (Z.lxor (Z.lxor b c) d, 0x6ed9eba1)
        else if (fst tw <? 60)%nat then (maj b c d, 0x8f1bbcdc)
        else (Z.lxor (Z.lxor b c) d, 0xca62c1d6) in
      [u32 (rol 5 a + f + e + k + snd tw); a; rol 30 b; c; d]
  | _ => s
  end.
Definition add_state (s t : list Z) : list Z := map (fun '(x, y) => u32 (x + y)) (combine s t).

(** Sixteen words of a block into the state. *)
Definition compress (m : Z) (s block : list Z) : list Z :=
  let w := rev (map swap_bytes block) in
  if m =? 1 then add_state s (fold_left sha1_round (combine (seq 0 80) (schedule sha1_next 64 w)) s)
  else add_state s (fold_left sha256_round (combine sha256_K (schedule sha256_next 48 w)) s).

Fixpoint hash_blocks (n : nat) (m : Z) (s words : list Z) : list Z :=
  match n with O => s | S n => hash_blocks n m (compress m s (take 16 words)) (drop 16 words) end.
Definition message_a : Z -> Z := fun _ => 97.
Definition hash_items (m : Z) (l : list item) : list Z :=
  let words := flat_map (item_words message_a) l in
  hash_blocks (Nat.div (length words) 16) m (if m =? 1 then sha1_H else sha256_H) words.

(** ** The device *)

Record sha_dev := { dv_stream : list item; dv_mode : Z; dv_addr : Z; dv_busy : nat }.
Definition dev_start (v : Z) (d : sha_dev) : sha_dev :=
  if Z.testbit v 4 then {| dv_stream := []; dv_mode := Z.land v 3; dv_addr := dv_addr d; dv_busy := 0 |} else d.
Definition dev_feed (v : Z) (d : sha_dev) : sha_dev :=
  let l := dv_stream d ++ [Word v] in
  {| dv_stream := l; dv_mode := dv_mode d; dv_addr := dv_addr d;
     dv_busy := if (Nat.modulo (nwords l) 16 =? 0)%nat then 2 else 0 |}.
Definition dev_master (v : Z) (d : sha_dev) : sha_dev :=
  if Z.testbit v 0 then
    {| dv_stream := dv_stream d ++ [Blocks (dv_addr d) (Z.land (Z.shiftr v 16) 0x7FF)]; dv_mode := dv_mode d;
       dv_addr := dv_addr d + 64 * Z.land (Z.shiftr v 16) 0x7FF; dv_busy := 2 |}
  else d.

#[export] Instance sha_device : Device sha_reg sha_dev := {|
  reg_read r d :=
    match r with
    | STATUS => (if (dv_busy d =? 0)%nat then 3 else 0,
        {| dv_stream := dv_stream d; dv_mode := dv_mode d; dv_addr := dv_addr d; dv_busy := Nat.pred (dv_busy d) |})
    | DIGEST i => (u32 (nth (Z.to_nat i) (hash_items (dv_mode d) (dv_stream d)) 0), d)
    | _ => (0, d)
    end;
  reg_write r v d :=
    match r with
    | CTRL => dev_start v d
    | INDATA _ | ALIAS _ => dev_feed v d
    | MEMADDR => {| dv_stream := dv_stream d; dv_mode := dv_mode d; dv_addr := v; dv_busy := dv_busy d |}
    | MEMCTRL => dev_master v d
    | _ => d
    end
|}.

Lemma count_field n : 0 <= n ->
  let v := Z.lor (SHA_MEMCTRL_MASTER 1) (SHA_MEMCTRL_COUNT n) in
  Z.testbit v 0 = true /\ Z.land (Z.shiftr v 16) 0x7FF = n mod 2 ^ 11.
Proof.
  intros Hn v. unfold v. cbn [SHA_MEMCTRL_MASTER SHA_MEMCTRL_COUNT sha_fields]. split; [by rewrite Z.lor_spec|].
  change (Z.land 1 1) with 1. rewrite Z.shiftr_lor, Z.shiftr_land, Z.shiftr_shiftl_l by lia.
  change (Z.shiftr 1 16) with 0. change (Z.shiftr 0x7FF0000 16) with (Z.ones 11). change 0x7FF with (Z.ones 11).
  rewrite Z.lor_0_l, Z.shiftl_0_r, !Z.land_ones by lia. by rewrite Z.mod_mod.
Qed.

#[export] Program Instance sha_laws : @ShaLaws sha_dev sha_device sha_fields sha_features := {|
  stream := dv_stream; mode := dv_mode; memaddr := dv_addr; busy := dv_busy; latency := 2;
  digest m l i := u32 (nth (Z.to_nat i) (hash_items m l) 0)
|}.
Next Obligation. done. Qed.
Next Obligation. done. Qed.
Next Obligation. done. Qed.
Next Obligation. intros d. cbn. by destruct (dv_busy d =? 0)%nat. Qed.
Next Obligation. intros d _. cbn. by destruct (dv_busy d =? 0)%nat. Qed.
Next Obligation. intros d m [-> | ->]; (split; [reflexivity|]); (split; [reflexivity|]); apply Nat.le_0_l. Qed.
Next Obligation.
  intros d r v Hr Hb. assert (E : reg_write r v d = dev_feed v d) by (by destruct r). rewrite E. unfold dev_feed.
  cbn [dv_stream dv_mode dv_addr dv_busy]. split; [done|]. split; [done|].
  destruct (Nat.eqb_spec (Nat.modulo (nwords (dv_stream d ++ [Word v])) 16) 0) as [E0|E0]; split; intros; lia || done.
Qed.
Next Obligation. done. Qed.
Next Obligation.
  intros d n Hn. destruct (count_field n Hn) as [E1 E2]. cbn [reg_write sha_device]. unfold dev_master.
  cbv zeta in *. rewrite E1, E2. cbn. split; [done|]. split; [done|]. split; [lia|done].
Qed.
Next Obligation. done. Qed.
Next Obligation. by intros d r v [-> | ->]. Qed.
Next Obligation. done. Qed.
Next Obligation. intros m l i. apply (wrap_bound 32). lia. Qed.
Next Obligation. intros a Ha _. by apply (wrap_small 32). Qed.

(** ** Messages whose digests are known *)

Definition w_start : sha_world sha_dev :=
  ShaWorld {| dv_stream := []; dv_mode := 0; dv_addr := 0; dv_busy := 0 |} zero_ctx false message_a false true 1.
Definition no_callback : Z -> status_t -> Z -> M (sha_world sha_dev) unit := fun _ _ _ => ret tt.
Definition chunks_a : list (Z * Z) := [(0x20000001, 3); (0x20000101, 5); (0x20000200, 190); (0x20000303, 2)].

(** The engine agrees with the standard's test vector. *)
Example abc_256 : sha_of kSHA_Sha256 [97; 98; 99] =
  [186; 120; 22; 191; 143; 1; 207; 234; 65; 65; 64; 222; 93; 174; 34; 35; 176; 3; 97; 163; 150; 23; 122; 156; 180; 16; 255; 97; 242; 0; 21; 173].
Proof. by vm_compute. Qed.
Example abc_1 : take 20 (sha_of kSHA_Sha1 [97; 98; 99]) =
  [169; 153; 62; 54; 71; 6; 129; 106; 186; 62; 37; 113; 120; 80; 194; 108; 156; 208; 216; 157].
Proof. by vm_compute. Qed.

Lemma dev_polls : (@latency _ _ _ _ sha_laws < 3)%nat.
Proof. exact (le_n 3). Qed.

Lemma dev_reads : engine_reads (L := sha_laws) message_a.
Proof. intros m l i _. cbn [digest sha_laws]. unfold hash_items. by rewrite words_items. Qed.

(** Three pieces go through the processor (two are not at word addresses), one
    through the engine. *)
Lemma chunks_a_ok : pieces 0 chunks_a.
Proof.
  split; [done|split; [lia|split; [by left|]]]. split; [done|split; [lia|split; [by left|]]].
  split; [done|split; [lia|split; [right|]]].
  - split; [reflexivity|]. split; [right; split; vm_compute; congruence|]. repeat split; vm_compute; congruence.
  - split; [done|split; [lia|split; [by left|done]]].
Qed.

(** 200 times the letter a, in four pieces. *)
Lemma sha_hash_of_message_witness :
  wp (sha_hash 3 no_callback (fun _ => false) 1 kSHA_Sha256 chunks_a 0x20001000 (Some 64)) (fun r w' =>
    r = (kStatus_Success, Some 32) /\ sh_ctx w' = zero_ctx /\
    bytes_at (sh_mem w') 0x20001000 33 =
      [194; 169; 8; 217; 143; 93; 249; 135; 173; 228; 27; 95; 206; 33; 48; 103; 239; 188; 194; 30; 242; 36; 2; 18; 164; 30; 84; 181; 231; 194; 138; 229; 97]) w_start.
Proof.
  eapply wp_mono.
  - apply (sha_hash_of_message (L := sha_laws) 3 dev_polls no_callback kSHA_Sha256 chunks_a (fun _ => false) 1 0x20001000 (Some 64) w_start);
      [by right|reflexivity|exact dev_reads|exact chunks_a_ok|vm_compute; reflexivity|done|lia|by intros ? [= <-]].
  - cbv beta. intros r w' (-> & Hc & Hm). rewrite Hm. split; [reflexivity|]. split; [exact Hc|]. vm_compute. reflexivity.
Defined.

(** ** Hashing by interrupts *)

Definition w_async : sha_world sha_dev :=
  ShaWorld {| dv_stream := []; dv_mode := 0; dv_addr := 0; dv_busy := 0 |}
    (set_hashCallback 1 7 (set_state kSHA_HashInit (set_algo kSHA_Sha256 zero_ctx))) true message_a true true 1.

Lemma dev_no_fault (d : sha_dev) : has (reg_read STATUS d).1 SHA_STATUS_ERROR_MASK = false.
Proof. cbn. by destruct (dv_busy d =? 0)%nat. Qed.

(** 5000 blocks and 10 bytes: two interrupts. *)
Lemma sha_nonblocking_covers_message_witness :
  wp (SHA_UpdateNonBlocking no_callback true 0x20000000 320010 ;; interrupts no_callback 2)
    (fun _ w' => covers 0x20000000 5000 (stream (sh_hw w')) /\ blksz (sh_ctx w') = 10) w_async.
Proof.
  eapply wp_mono.
  - apply (sha_nonblocking_covers_message (L := sha_laws) no_callback dev_no_fault kSHA_Sha256 0x20000000 320010 w_async);
      [reflexivity|by right|reflexivity|reflexivity|done|done|reflexivity|split; vm_compute; congruence].
  - cbv beta. intros _ w' (H1 & _ & H2 & _). split; [exact H1|exact H2].
Defined.

Lemma sha_finish_never_returns_witness :
  exists w1, SHA_UpdateNonBlocking no_callback true 0x20000000 64 w_async = Ok (kStatus_Success, w1) /\
    forall r, SHA_Finish 3 no_callback Nat.even 1000 true 0x20001000 None w1 <> Ok r.
Proof.
  apply (sha_finish_never_returns (L := sha_laws) 3 no_callback) with (a := kSHA_Sha256);
    [by intros ? ? ? ? ? [= <-]|reflexivity|by right|reflexivity|reflexivity|done|reflexivity|split; vm_compute; congruence|done].
Defined.

(** 2050 blocks and 5 bytes: 133 bytes are hashed. *)
Lemma sha_master_update_feeds_witness :
  wp (sha_process_message_data_master 3 0x20000000 131205) (fun st w' =>
    st = kStatus_Success /\ input_bytes (stream (sh_hw w')) + blksz (sh_ctx w') = 133) w_start.
Proof.
  eapply wp_mono.
  - apply (sha_master_update_feeds (L := sha_laws) 3 dev_polls 0x20000000 131205 [] 0 w_start);
      [reflexivity|split; vm_compute; congruence|split; vm_compute; congruence|reflexivity|].
    split; [reflexivity|split; [reflexivity|apply Nat.le_0_l]].
  - cbv beta zeta. intros st w' (k & Hk & Hmod & Hst & _ & _ & _ & H). change (blksz (sh_ctx w_start)) with 0 in Hmod.
    rewrite Z.add_0_l, Z.mod_small in Hmod by exact Hk. subst k. split; [exact Hst|exact H].
Defined.
