(* ===== verification/I2c.v ===== *)
(** * The I2C driver (drivers/i2c)

    A master transfer is a start, the slave's address, an optional command
    ("subaddress") most significant byte first, a repeated start when data is
    to be read after a command, the data, and a stop.  The driver performs it
    either polling ([I2C_MasterTransferBlocking]) or byte by byte from the
    interrupt handler, with a state machine in the handle.  The slave side is
    driven by interrupts or polled.

    The world has the peripheral, the two handles, the memory the data
    pointers point to, and the state of the application.  Delays that only
    spend time are left out. *)

From stdpp Require Import base list numbers tactics.
From Stdlib Require Import ZArith Lia.
From S2P Require Import Prelude Bytes Mmio.

Open Scope Z_scope.
Open Scope prog_scope.

Inductive i2c_reg := A1 | F_ | C1 | S_ | D_ | C2 | FLT | RA | SMB | S2.
#[export] Instance i2c_reg_eq_dec : EqDecision i2c_reg.
Proof. solve_decision. Defined.

(** Fields of the device header and features of the chip. *)
Class I2cFields := {
  I2C_C1_IICEN_MASK : Z; I2C_C1_IICIE_MASK : Z; I2C_C1_MST_MASK : Z; I2C_C1_TX_MASK : Z; I2C_C1_TXAK_MASK : Z;
  I2C_C1_RSTA_MASK : Z; I2C_C1_WUEN_MASK : Z; I2C_C1_DMAEN_MASK : Z; I2C_C1_IICEN : Z -> Z; I2C_C1_WUEN : Z -> Z;
  I2C_S_RXAK_MASK : Z; I2C_S_IICIF_MASK : Z; I2C_S_SRW_MASK : Z; I2C_S_ARBL_MASK : Z; I2C_S_BUSY_MASK : Z;
  I2C_S_IAAS_MASK : Z; I2C_S_TCF_MASK : Z;
  I2C_FLT_STOPF_MASK : Z; I2C_FLT_STARTF_MASK : Z; I2C_FLT_STOPIE_MASK : Z; I2C_FLT_SSIE_MASK : Z; I2C_FLT_SHEN_MASK : Z;
  I2C_FLT_FLT_MASK : Z; I2C_FLT_SHEN : Z -> Z; I2C_FLT_FLT : Z -> Z;
  I2C_F_MULT_MASK : Z; I2C_F_MULT : Z -> Z; I2C_F_ICR : Z -> Z;
  I2C_C2_RMEN_MASK : Z; I2C_C2_SBRC_MASK : Z; I2C_C2_GCAEN_MASK : Z; I2C_C2_SBRC : Z -> Z; I2C_C2_GCAEN : Z -> Z;
  I2C_SMB_FACK_MASK : Z; I2C_S2_EMPTY_MASK : Z; I2C_S2_DFEN_MASK : Z; I2C_S2_DFEN : Z -> Z
}.
Class I2cFeatures := {
  HAS_START_STOP_DETECT : bool; HAS_STOP_DETECT : bool; HAS_STOP_HOLD_OFF : bool;
  HAS_DOUBLE_BUFFER_ENABLE : bool; HAS_DOUBLE_BUFFERING : bool;
  I2C_MASTER_FACK_CONTROL : bool;
  I2C_RETRY_TIMES : Z      (** 0: wait for ever *)
}.

Definition kStatusGroup_I2C : Z := 11.
Definition kStatus_I2C_Busy : status_t := MAKE_STATUS kStatusGroup_I2C 0.
Definition kStatus_I2C_Nak : status_t := MAKE_STATUS kStatusGroup_I2C 2.
Definition kStatus_I2C_ArbitrationLost : status_t := MAKE_STATUS kStatusGroup_I2C 3.
Definition kStatus_I2C_Timeout : status_t := MAKE_STATUS kStatusGroup_I2C 4.
Definition kStatus_I2C_Addr_Nak : status_t := MAKE_STATUS kStatusGroup_I2C 5.

Inductive i2c_direction := kI2C_Write | kI2C_Read.
Definition is_read (d : i2c_direction) : bool := match d with kI2C_Read => true | kI2C_Write => false end.
Definition kI2C_TransferNoStartFlag : Z := 0x1.
Definition kI2C_TransferRepeatedStartFlag : Z := 0x2.
Definition kI2C_TransferNoStopFlag : Z := 0x4.

Inductive i2c_transfer_states :=
  kIdleState | kCheckAddressState | kSendCommandState | kSendDataState | kReceiveDataBeginState | kReceiveDataState.
#[export] Instance i2c_transfer_states_eq_dec : EqDecision i2c_transfer_states.
Proof. solve_decision. Defined.

Record i2c_master_transfer := Transfer {
  flags : Z; slaveAddress : Z; direction : i2c_direction; subaddress : Z; subaddressSize : Z; data : Z; dataSize : Z
}.
Definition with_subaddressSize x t := Transfer (flags t) (slaveAddress t) (direction t) (subaddress t) x (data t) (dataSize t).
Definition with_data x n t := Transfer (flags t) (slaveAddress t) (direction t) (subaddress t) (subaddressSize t) x n.
Definition transfer_null : i2c_master_transfer := Transfer 0 0 kI2C_Write 0 0 0 0.
Record i2c_master_handle := Master {
  transfer : i2c_master_transfer; transferSize : Z; state : i2c_transfer_states;
  completionCallback : bool   (** not null *)
}.
Definition with_state s h := Master (transfer h) (transferSize h) s (completionCallback h).
Definition with_transfer t h := Master t (transferSize h) (state h) (completionCallback h).

(** Slave events. *)
Definition kI2C_SlaveAddressMatchEvent : Z := 0x01.
Definition kI2C_SlaveTransmitEvent : Z := 0x02.
Definition kI2C_SlaveReceiveEvent : Z := 0x04.
Definition kI2C_SlaveStartEvent : Z := 0x10.
Definition kI2C_SlaveCompletionEvent : Z := 0x20.
Definition kI2C_SlaveGenaralcallEvent : Z := 0x40.
Record i2c_slave_transfer := SlaveTransfer { event : Z; sdata : Z; sdataSize : Z; completionStatus : status_t; transferredCount : Z }.
Record i2c_slave_handle := Slave { isBusy : bool; stransfer : i2c_slave_transfer; eventMask : Z; scallback : bool }.
Definition slave_transfer_null : i2c_slave_transfer := SlaveTransfer 0 0 0 0 0.
Definition with_event e x := SlaveTransfer e (sdata x) (sdataSize x) (completionStatus x) (transferredCount x).
Definition with_completion s x := SlaveTransfer (event x) (sdata x) (sdataSize x) s (transferredCount x).
Definition with_count n x := SlaveTransfer (event x) (sdata x) (sdataSize x) (completionStatus x) n.
Definition with_sdata p n x := SlaveTransfer (event x) p n (completionStatus x) (transferredCount x).
Definition with_busy b h := Slave b (stransfer h) (eventMask h) (scallback h).
Definition with_stransfer x h := Slave (isBusy h) x (eventMask h) (scallback h).
Definition with_eventMask m h := Slave (isBusy h) (stransfer h) m (scallback h).

Inductive i2c_slave_address_mode := kI2C_Address7bit | kI2C_RangeMatch.
Record i2c_master_config := MasterConfig {
  enableMaster : bool; enableStopHold : bool; enableDoubleBuffering : bool; baudRate_Bps : Z; glitchFilterWidth : Z
}.
Record i2c_slave_config := SlaveConfig {
  enableSlave : bool; enableGeneralCall : bool; enableWakeUp : bool; s_enableDoubleBuffering : bool; enableBaudRateCtl : bool;
  s_slaveAddress : Z; upperAddress : Z; addressingMode : i2c_slave_address_mode; sclStopHoldTime_ns : Z
}.

Record i2c_world (D A : Type) := I2cWorld {
  i_hw : D; g_baudrate : Z; i_master : i2c_master_handle; i_slave : i2c_slave_handle; i_mem : Z -> Z; i_app : A;
  i_xfer_left : Z   (** [subaddressSize] of the structure a polled transfer was called with *)
}.
Arguments I2cWorld {D A}. Arguments i_hw {D A}. Arguments g_baudrate {D A}. Arguments i_master {D A}.
Arguments i_slave {D A}. Arguments i_mem {D A}. Arguments i_app {D A}. Arguments i_xfer_left {D A}.

(** ** Clock dividers *)

Definition s_i2cDividerTable : list Z :=
  [20; 22; 24; 26; 28; 30; 34; 40; 28; 32; 36; 40; 44; 48; 56; 68;
   48; 56; 64; 72; 80; 88; 104; 128; 80; 96; 112; 128; 144; 160; 192; 240;
   160; 192; 224; 256; 288; 320; 384; 480; 320; 384; 448; 512; 576; 640; 768; 960;
   640; 768; 896; 1024; 1152; 1280; 1536; 1920; 1280; 1536; 1792; 2048; 2304; 2560; 3072; 3840].

(** The best setting so far: error, MULT, ICR. *)
Record setting := Setting { bestError : Z; bestMult : Z; bestIcr : Z }.
Definition abs_error (wanted computed : Z) : Z :=
  if computed <? wanted then u32 (wanted - computed) else u32 (computed - wanted).

(** [error mult divider] is the error of a setting. *)
Fixpoint scan_table (error : Z -> outcome Z) (l : list Z) (mult i : Z) (best : setting) : outcome setting :=
  match l with
  | [] => Ok best
  | d :: l =>
      absError <-! error d ;;
      if absError <? bestError best then
        if absError =? 0 then Ok (Setting absError mult i) else scan_table error l mult (i + 1) (Setting absError mult i)
      else scan_table error l mult (i + 1) best
  end.
Fixpoint scan_mult (error : Z -> Z -> outcome Z) (mults : list Z) (best : setting) : outcome setting :=
  match mults with
  | [] => Ok best
  | mult :: mults =>
      if bestError best =? 0 then Ok best else
      best <-! scan_table (error (u32 (Z.shiftl 1 mult))) s_i2cDividerTable mult 0 best ;;
      scan_mult error mults best
  end.
Definition baud_error (baudRate srcClock multiplier divider : Z) : outcome Z :=
  computedRate <-! udiv srcClock (u32 (multiplier * divider)) ;; Ok (abs_error baudRate computedRate).
Definition hold_error (holdTime srcClock multiplier divider : Z) : outcome Z :=
  t <-! udiv (u64 (u64 (multiplier * divider) * 500000000)) srcClock ;; Ok (abs_error holdTime (u32 t)).
Definition best_setting (error : Z -> Z -> outcome Z) : outcome setting := scan_mult error [0; 1; 2] (Setting UINT32_MAX 0 0).

Section Driver.
Context {D A : Type} `{!Device i2c_reg D} {F : I2cFields} {X : I2cFeatures}.
Abbreviation W := (i2c_world D A).
(** [fuel]: how often a flag is looked at when the driver waits for ever. *)
Context (fuel : nat) (callback : status_t -> M W unit) (slave_callback : M W unit).

Definition on_i2c {B} (m : M D B) : M W B :=
  fun w => match m (i_hw w) with Ok (b, d) => Ok (b, I2cWorld d (g_baudrate w) (i_master w) (i_slave w) (i_mem w) (i_app w) (i_xfer_left w)) | Err e => Err e end.
Definition handle : M W i2c_master_handle := gets i_master.
Definition upd (f : i2c_master_handle -> i2c_master_handle) : M W unit :=
  modify (fun w => I2cWorld (i_hw w) (g_baudrate w) (f (i_master w)) (i_slave w) (i_mem w) (i_app w) (i_xfer_left w)).
Definition slave : M W i2c_slave_handle := gets i_slave.
Definition upd_slave (f : i2c_slave_handle -> i2c_slave_handle) : M W unit :=
  modify (fun w => I2cWorld (i_hw w) (g_baudrate w) (i_master w) (f (i_slave w)) (i_mem w) (i_app w) (i_xfer_left w)).
Definition load (p : Z) : M W Z := gets (fun w => i_mem w p).
Definition store (p v : Z) : M W unit :=
  modify (fun w => I2cWorld (i_hw w) (g_baudrate w) (i_master w) (i_slave w) (mem_write p [v] (i_mem w)) (i_app w) (i_xfer_left w)).
Definition set_left (n : Z) : M W unit :=
  modify (fun w => I2cWorld (i_hw w) (g_baudrate w) (i_master w) (i_slave w) (i_mem w) (i_app w) n).

(** ** Flags and waiting *)

Definition HAS_STOP : bool := HAS_START_STOP_DETECT || HAS_STOP_DETECT.
Definition kI2C_StopDetectFlag : Z := Z.shiftl I2C_FLT_STOPF_MASK 8.
Definition kI2C_StartDetectFlag : Z := Z.shiftl I2C_FLT_STARTF_MASK 8.
Definition kClearFlags : Z :=
  if HAS_START_STOP_DETECT then Z.lor (Z.lor (Z.lor I2C_S_ARBL_MASK I2C_S_IICIF_MASK) kI2C_StartDetectFlag) kI2C_StopDetectFlag
  else if HAS_STOP_DETECT then Z.lor (Z.lor I2C_S_ARBL_MASK I2C_S_IICIF_MASK) kI2C_StopDetectFlag
  else Z.lor I2C_S_ARBL_MASK I2C_S_IICIF_MASK.
Definition kI2C_GlobalInterruptEnable : Z := I2C_C1_IICIE_MASK.
Definition kIrqFlags : Z :=
  if HAS_START_STOP_DETECT then Z.lor kI2C_GlobalInterruptEnable I2C_FLT_SSIE_MASK
  else if HAS_STOP_DETECT then Z.lor kI2C_GlobalInterruptEnable I2C_FLT_STOPIE_MASK
  else kI2C_GlobalInterruptEnable.

(** [while (((R & mask) != 0) != want && waitTimes != 0) waitTimes--;]: whether
    [waitTimes] is left. *)
Fixpoint retry_loop (waitTimes : nat) (r : i2c_reg) (mask : Z) (want : bool) : M D bool :=
  x <- rd r ;;
  if eqb (has x mask) want then ret (negb (waitTimes =? 0)%nat)
  else match waitTimes with O => ret false | S n => retry_loop n r mask want end.
Fixpoint forever_loop (fuel : nat) (r : i2c_reg) (mask : Z) (want : bool) : M D bool :=
  match fuel with
  | O => throw OutOfFuel
  | S n => x <- rd r ;; if eqb (has x mask) want then ret true else forever_loop n r mask want
  end.
Definition wait_reg (r : i2c_reg) (mask : Z) (want : bool) : M W bool :=
  on_i2c (if I2C_RETRY_TIMES =? 0 then forever_loop fuel r mask want else retry_loop (Z.to_nat I2C_RETRY_TIMES) r mask want).
(** Waits for a flag of the status register and goes on, or times out. *)
Definition wait_then {B} (timeout : B) (mask : Z) (k : M W B) : M W B :=
  ok <- wait_reg S_ mask true ;; if negb ok then ret timeout else k.

Definition I2C_MasterGetStatusFlags : M D Z :=
  statusFlags <- rd S_ ;;
  statusFlags <- (if HAS_STOP then
      x <- rd FLT ;; ret (if has x I2C_FLT_STOPF_MASK then Z.lor statusFlags kI2C_StopDetectFlag else statusFlags)
    else ret statusFlags) ;;
  if HAS_START_STOP_DETECT then
    x <- rd FLT ;; ret (if has x I2C_FLT_STARTF_MASK then Z.lor statusFlags kI2C_StartDetectFlag else statusFlags)
  else ret statusFlags.
Definition I2C_MasterClearStatusFlags (statusMask : Z) : M D unit :=
  when (HAS_START_STOP_DETECT && (Z.land statusMask kI2C_StartDetectFlag =? kI2C_StartDetectFlag))
    (set_bits FLT (u8 (Z.shiftr statusMask 8))) ;;
  when (HAS_STOP && (Z.land statusMask kI2C_StopDetectFlag =? kI2C_StopDetectFlag))
    (set_bits FLT (u8 (Z.shiftr statusMask 8))) ;;
  wr S_ (u8 statusMask).
Definition I2C_Enable (enable : bool) : M D unit :=
  if enable then set_bits C1 I2C_C1_IICEN_MASK else clear_bits8 C1 I2C_C1_IICEN_MASK.

Definition I2C_EnableDMA (enable : bool) : M D unit :=
  if enable then set_bits C1 I2C_C1_DMAEN_MASK else clear_bits8 C1 I2C_C1_DMAEN_MASK.

Definition I2C_EnableInterrupts (mask : Z) : M D unit :=
  when (has mask kI2C_GlobalInterruptEnable) (set_bits C1 I2C_C1_IICIE_MASK) ;;
  when (HAS_STOP_DETECT && has mask I2C_FLT_STOPIE_MASK) (
    fltReg <- rd FLT ;; wr FLT (u8 (Z.lor (bic8 fltReg I2C_FLT_STOPF_MASK) I2C_FLT_STOPIE_MASK))) ;;
  when (HAS_START_STOP_DETECT && has mask I2C_FLT_SSIE_MASK) (
    fltReg <- rd FLT ;;
    wr FLT (u8 (Z.lor (bic8 fltReg (Z.lor I2C_FLT_STOPF_MASK I2C_FLT_STARTF_MASK)) I2C_FLT_SSIE_MASK))).
Definition I2C_DisableInterrupts (mask : Z) : M D unit :=
  when (has mask kI2C_GlobalInterruptEnable) (clear_bits8 C1 I2C_C1_IICIE_MASK) ;;
  when (HAS_STOP_DETECT && has mask I2C_FLT_STOPIE_MASK) (clear_bits8 FLT (Z.lor I2C_FLT_STOPIE_MASK I2C_FLT_STOPF_MASK)) ;;
  when (HAS_START_STOP_DETECT && has mask I2C_FLT_SSIE_MASK)
    (clear_bits8 FLT (Z.lor (Z.lor I2C_FLT_SSIE_MASK I2C_FLT_STOPF_MASK) I2C_FLT_STARTF_MASK)).

(** ** Configuration *)

Definition set_frequency (s : setting) : M D unit := wr F_ (Z.lor (I2C_F_MULT (bestMult s)) (I2C_F_ICR (bestIcr s))).
Definition I2C_SetHoldTime (sclStopHoldTime sourceClock_Hz : Z) : M D unit :=
  s <- lift (best_setting (hold_error sclStopHoldTime sourceClock_Hz)) ;; set_frequency s.
Definition I2C_MasterSetBaudRate (baudRate srcClock_Hz : Z) : M W unit :=
  s <- lift (best_setting (baud_error baudRate srcClock_Hz)) ;;
  when I2C_MASTER_FACK_CONTROL (modify (fun w => I2cWorld (i_hw w) baudRate (i_master w) (i_slave w) (i_mem w) (i_app w) (i_xfer_left w))) ;;
  on_i2c (set_frequency s).

(** [FLT] at reset of the module: the flags are cleared. *)
Definition reset_module : M D unit :=
  wr A1 0 ;; wr F_ 0 ;; wr C1 0 ;; wr S_ 0xFF ;; wr C2 0 ;;
  (if HAS_START_STOP_DETECT then wr FLT 0x50 else when HAS_STOP_DETECT (wr FLT 0x40)) ;;
  wr RA 0.
Definition bool_bit (b : bool) : Z := if b then 1 else 0.

Definition I2C_MasterInit (c : i2c_master_config) (srcClock_Hz : Z) : M W unit :=
  assert_ (negb (srcClock_Hz =? 0)) ;;
  on_i2c (reset_module ;; clear_bits8 C1 I2C_C1_IICEN_MASK ;; I2C_MasterClearStatusFlags kClearFlags) ;;
  I2C_MasterSetBaudRate (baudRate_Bps c) srcClock_Hz ;;
  on_i2c (
    fltReg <- rd FLT ;;
    let fltReg := if HAS_STOP_HOLD_OFF then u8 (Z.lor (bic8 fltReg I2C_FLT_SHEN_MASK) (I2C_FLT_SHEN (bool_bit (enableStopHold c)))) else fltReg in
    let fltReg := u8 (Z.lor (bic8 fltReg I2C_FLT_FLT_MASK) (I2C_FLT_FLT (glitchFilterWidth c))) in
    wr FLT fltReg ;;
    wr C1 (u8 (I2C_C1_IICEN (bool_bit (enableMaster c)))) ;;
    when HAS_DOUBLE_BUFFER_ENABLE (s2Reg <- rd S2 ;; wr S2 (u8 (Z.lor (bic8 s2Reg I2C_S2_DFEN_MASK) (I2C_S2_DFEN (bool_bit (enableDoubleBuffering c))))))).
Definition I2C_MasterDeinit : M D unit := I2C_Enable false.
Definition I2C_MasterGetDefaultConfig : i2c_master_config := MasterConfig true false HAS_DOUBLE_BUFFER_ENABLE 100000 0.

Definition I2C_SlaveInit (c : i2c_slave_config) (srcClock_Hz : Z) : M D unit :=
  reset_module ;;
  match addressingMode c with
  | kI2C_Address7bit => wr A1 (u8 (Z.shiftl (s_slaveAddress c) 1))
  | kI2C_RangeMatch =>
      assert_ (s_slaveAddress c <? upperAddress c) ;;
      wr A1 (u8 (Z.shiftl (s_slaveAddress c) 1)) ;; wr RA (u8 (Z.shiftl (upperAddress c) 1)) ;;
      set_bits C2 I2C_C2_RMEN_MASK
  end ;;
  tmpReg <- rd C1 ;;
  wr C1 (u8 (Z.lor (Z.lor (bic8 tmpReg I2C_C1_WUEN_MASK) (I2C_C1_WUEN (bool_bit (enableWakeUp c)))) (I2C_C1_IICEN (bool_bit (enableSlave c))))) ;;
  tmpReg <- rd C2 ;;
  wr C2 (u8 (Z.lor (Z.lor (bic8 tmpReg (Z.lor I2C_C2_SBRC_MASK I2C_C2_GCAEN_MASK)) (I2C_C2_SBRC (bool_bit (enableBaudRateCtl c))))
    (I2C_C2_GCAEN (bool_bit (enableGeneralCall c))))) ;;
  when HAS_DOUBLE_BUFFER_ENABLE (tmpReg <- rd S2 ;; wr S2 (u8 (Z.lor (bic8 tmpReg I2C_S2_DFEN_MASK) (I2C_S2_DFEN (bool_bit (s_enableDoubleBuffering c)))))) ;;
  I2C_SetHoldTime (sclStopHoldTime_ns c) srcClock_Hz.
Definition I2C_SlaveDeinit : M D unit := I2C_Enable false.
Definition I2C_SlaveGetDefaultConfig : i2c_slave_config :=
  SlaveConfig true false false HAS_DOUBLE_BUFFER_ENABLE false 0 0 kI2C_Address7bit 4000.

(** ** Signals *)

Definition address_byte (address : Z) (d : i2c_direction) : Z := u8 (Z.lor (u32 (Z.shiftl address 1)) (if is_read d then 1 else 0)).
(** With double buffering, the data register must be empty first. *)
Definition send_address (address : Z) (d : i2c_direction) : M W status_t :=
  ok <- (if HAS_DOUBLE_BUFFERING then wait_reg S2 I2C_S2_EMPTY_MASK true else ret true) ;;
  if negb ok then ret kStatus_I2C_Timeout else
  on_i2c (wr D_ (address_byte address d)) ;; ret kStatus_Success.

Definition I2C_MasterStart (address : Z) (d : i2c_direction) : M W status_t :=
  statusFlags <- on_i2c I2C_MasterGetStatusFlags ;;
  if has statusFlags I2C_S_BUSY_MASK then ret kStatus_I2C_Busy else
  on_i2c (set_bits C1 (Z.lor I2C_C1_MST_MASK I2C_C1_TX_MASK)) ;;
  send_address address d.

Definition I2C_MasterRepeatedStart (address : Z) (d : i2c_direction) : M W status_t :=
  statusFlags <- on_i2c I2C_MasterGetStatusFlags ;;
  c1 <- on_i2c (rd C1) ;;
  if negb (has c1 I2C_C1_MST_MASK) && has statusFlags I2C_S_BUSY_MASK then ret kStatus_I2C_Busy else
  on_i2c (
    savedMult <- rd F_ ;;
    wr F_ (bic8 savedMult I2C_F_MULT_MASK) ;;
    set_bits C1 (Z.lor I2C_C1_RSTA_MASK I2C_C1_TX_MASK) ;;
    wr F_ savedMult) ;;
  send_address address d.

Definition I2C_MasterStop : M W status_t :=
  on_i2c (clear_bits8 C1 (Z.lor (Z.lor I2C_C1_MST_MASK I2C_C1_TX_MASK) I2C_C1_TXAK_MASK)) ;;
  ok <- wait_reg S_ I2C_S_BUSY_MASK false ;;
  ret (if ok : bool then kStatus_Success else kStatus_I2C_Timeout).

Definition I2C_CheckAndClearError (status : Z) : M W status_t :=
  if has status I2C_S_ARBL_MASK then on_i2c (wr S_ I2C_S_ARBL_MASK) ;; ret kStatus_I2C_ArbitrationLost
  else ret (if has status I2C_S_RXAK_MASK then kStatus_I2C_Nak else kStatus_Success).

Definition clear_pending : M W unit := on_i2c (wr S_ I2C_S_IICIF_MASK).
Definition read_data : M W Z := on_i2c (rd D_).

Definition I2C_MasterAckByte : M W unit :=
  on_i2c (clear_bits8 C1 I2C_C1_TXAK_MASK) ;;
  g <- gets g_baudrate ;; _ <- lift (udiv 1000000 g) ;;
  _ <- read_data ;; ret tt.
(** The next byte received is the last: it is not acknowledged. *)
Definition nack_last : M W unit :=
  on_i2c (set_bits C1 I2C_C1_TXAK_MASK) ;;
  when I2C_MASTER_FACK_CONTROL (on_i2c (clear_bits8 SMB I2C_SMB_FACK_MASK)).
Definition begin_receive : M W unit :=
  when I2C_MASTER_FACK_CONTROL (on_i2c (set_bits SMB I2C_SMB_FACK_MASK)) ;;
  on_i2c (clear_bits8 C1 (Z.lor I2C_C1_TX_MASK I2C_C1_TXAK_MASK)) ;;
  _ <- read_data ;; ret tt.

(** ** Polled transfers *)

Definition no_stop (flags : Z) : bool := has flags kI2C_TransferNoStopFlag.

(** [n] is [txSize] before the test of the loop. *)
Fixpoint write_loop (n : nat) (txBuff : Z) : M W status_t :=
  match n with
  | O => ret kStatus_Success
  | S n =>
      b <- load txBuff ;;
      on_i2c (wr D_ b) ;;
      wait_then kStatus_I2C_Timeout I2C_S_IICIF_MASK (
        statusFlags <- on_i2c (rd S_) ;;
        clear_pending ;;
        let lost := has statusFlags I2C_S_ARBL_MASK in
        let nak := has statusFlags I2C_S_RXAK_MASK && negb (n =? 0)%nat in
        when lost (on_i2c (wr S_ I2C_S_ARBL_MASK)) ;;
        when nak (on_i2c (wr S_ I2C_S_RXAK_MASK)) ;;
        if nak then ret kStatus_I2C_Nak else if lost then ret kStatus_I2C_ArbitrationLost else write_loop n (txBuff + 1))
  end.

Definition I2C_MasterWriteBlocking (txBuff txSize flags : Z) : M W status_t :=
  wait_then kStatus_I2C_Timeout I2C_S_TCF_MASK (
    clear_pending ;;
    on_i2c (set_bits C1 I2C_C1_TX_MASK) ;;
    result <- write_loop (Z.to_nat txSize) txBuff ;;
    if result =? kStatus_I2C_Timeout then ret result else
    if ((result =? kStatus_Success) && negb (no_stop flags)) || (result =? kStatus_I2C_Nak) then
      clear_pending ;; I2C_MasterStop
    else ret result).

(** [result] is that of the stop, when there was one. *)
Fixpoint read_loop (n : nat) (rxBuff flags : Z) (result : status_t) : M W status_t :=
  match n with
  | O => ret result
  | S n =>
      wait_then kStatus_I2C_Timeout I2C_S_IICIF_MASK (
        result <- (if (n =? 0)%nat then
            if negb (no_stop flags) then I2C_MasterStop else on_i2c (set_bits C1 I2C_C1_TX_MASK) ;; ret result
          else ret result) ;;
        clear_pending ;;
        b <- read_data ;;
        store rxBuff b ;;
        when (I2C_MASTER_FACK_CONTROL && negb (n =? 0)%nat) I2C_MasterAckByte ;;
        when (n =? 1)%nat nack_last ;;
        read_loop n (rxBuff + 1) flags result)
  end.

Definition I2C_MasterReadBlocking (rxBuff rxSize flags : Z) : M W status_t :=
  wait_then kStatus_I2C_Timeout I2C_S_TCF_MASK (
    clear_pending ;;
    begin_receive ;;
    when (rxSize =? 1) nack_last ;;
    read_loop (Z.to_nat rxSize) rxBuff flags kStatus_Success).

(** A byte on its way: waits for its end and looks at the result; a refused
    byte stops the bus and becomes [nak]. *)
Definition byte_sent (nak : status_t) (k : M W status_t) : M W status_t :=
  wait_then kStatus_I2C_Timeout I2C_S_IICIF_MASK (
    s <- on_i2c (rd S_) ;;
    result <- I2C_CheckAndClearError s ;;
    if negb (result =? kStatus_Success) then
      if result =? kStatus_I2C_Nak then I2C_MasterStop ;; ret nak else ret result
    else k).

Definition command_byte (t : i2c_master_transfer) (left : Z) : Z := u8 (Z.shiftr (subaddress t) (8 * left)).
Fixpoint command_loop (n : nat) (t : i2c_master_transfer) (k : M W status_t) : M W status_t :=
  match n with
  | O => k
  | S n =>
      clear_pending ;;
      set_left (Z.of_nat n) ;;
      on_i2c (wr D_ (command_byte t (Z.of_nat n))) ;;
      byte_sent kStatus_I2C_Nak (command_loop n t k)
  end.

Definition transfer_data (t : i2c_master_transfer) : M W status_t :=
  match direction t with
  | kI2C_Write =>
      if 0 <? dataSize t then I2C_MasterWriteBlocking (data t) (dataSize t) (flags t)
      else if negb (no_stop (flags t)) then I2C_MasterStop else ret kStatus_Success
  | kI2C_Read => if 0 <? dataSize t then I2C_MasterReadBlocking (data t) (dataSize t) (flags t) else ret kStatus_Success
  end.

(** The direction of the first address byte. *)
Definition first_direction (t : i2c_master_transfer) : i2c_direction :=
  if (0 <? subaddressSize t) && is_read (direction t) then kI2C_Write else direction t.

(** After the address: the command, the second address when there is one, the
    data. *)
Definition after_address (t : i2c_master_transfer) : M W status_t :=
  if subaddressSize t =? 0 then transfer_data t else
  command_loop (Z.to_nat (subaddressSize t)) t (
    match direction t with
    | kI2C_Read =>
        clear_pending ;;
        result <- I2C_MasterRepeatedStart (slaveAddress t) kI2C_Read ;;
        if negb (result =? kStatus_Success) then ret result else byte_sent kStatus_I2C_Addr_Nak (transfer_data t)
    | kI2C_Write => transfer_data t
    end).

(** [subaddressSize] of [*xfer] is counted down as the command is sent. *)
Definition I2C_MasterTransferBlocking (t : i2c_master_transfer) : M W status_t :=
  set_left (subaddressSize t) ;;
  on_i2c (I2C_MasterClearStatusFlags kClearFlags) ;;
  wait_then kStatus_I2C_Timeout I2C_S_TCF_MASK (
    let d := first_direction t in
    if has (flags t) kI2C_TransferNoStartFlag then
      if is_read d then ret kStatus_InvalidArgument else after_address t
    else
      result <- (if has (flags t) kI2C_TransferRepeatedStartFlag then I2C_MasterRepeatedStart (slaveAddress t) d
                 else I2C_MasterStart (slaveAddress t) d) ;;
      if negb (result =? kStatus_Success) then ret result else byte_sent kStatus_I2C_Addr_Nak (after_address t)).

(** ** Interrupt-driven master transfers *)

Definition I2C_MasterTransferCreateHandle (hasCallback : bool) : M W unit :=
  upd (fun _ => Master transfer_null 0 kIdleState hasCallback).

(** Sends the next byte of data, or is done. *)
Definition send_next : M W (status_t * bool) :=
  h <- handle ;;
  let t := transfer h in
  if 0 <? dataSize t then
    b <- load (data t) ;;
    on_i2c (wr D_ b) ;;
    upd (with_transfer (with_data (data t + 1) (u32 (dataSize t - 1)) t)) ;;
    ret (kStatus_Success, false)
  else ret (kStatus_Success, true).

(** The state after the slave has acknowledged its address. *)
Definition addressed (t : i2c_master_transfer) : i2c_transfer_states :=
  if 0 <? subaddressSize t then kSendCommandState
  else match direction t with kI2C_Write => kSendDataState | kI2C_Read => kReceiveDataBeginState end.

Definition receive_next : M W (status_t * bool) :=
  h <- handle ;;
  let t := transfer h in
  let left := u32 (dataSize t - 1) in
  upd (with_transfer (with_data (data t) left t)) ;;
  if dataSize t =? 0 then ret (kStatus_Success, false) else
  result <- (if left =? 0 then
      if negb (no_stop (flags t)) then I2C_MasterStop else on_i2c (set_bits C1 I2C_C1_TX_MASK) ;; ret kStatus_Success
    else ret kStatus_Success) ;;
  tmpdata <- read_data ;;
  store (data t) tmpdata ;;
  upd (with_transfer (with_data (data t + 1) left t)) ;;
  when (I2C_MASTER_FACK_CONTROL && negb (left =? 0)) I2C_MasterAckByte ;;
  when (left =? 1) nack_last ;;
  ret (result, left =? 0).

(** What a state does when the last byte went well: the result and [*isDone]. *)
Definition master_step : M W (status_t * bool) :=
  h <- handle ;;
  let t := transfer h in
  match state h with
  | kSendCommandState =>
      if negb (subaddressSize t =? 0) then
        let left := u8 (subaddressSize t - 1) in
        upd (with_transfer (with_subaddressSize left t)) ;;
        on_i2c (wr D_ (command_byte t left)) ;;
        ret (kStatus_Success, false)
      else
      match direction t with
      | kI2C_Write =>
          when (0 <? dataSize t) (upd (with_state kSendDataState)) ;;
          send_next
      | kI2C_Read =>
          result <- I2C_MasterRepeatedStart (slaveAddress t) kI2C_Read ;;
          upd (with_state kReceiveDataBeginState) ;;
          ret (result, false)
      end
  | kSendDataState => send_next
  | kReceiveDataBeginState =>
      begin_receive ;;
      when (dataSize t =? 1) nack_last ;;
      upd (with_state kReceiveDataState) ;;
      ret (kStatus_Success, false)
  | kReceiveDataState => receive_next
  | kIdleState | kCheckAddressState => throw AssertFailed
  end.
Definition I2C_MasterTransferRunStateMachine : M W (status_t * bool) :=
  statusFlags <- on_i2c (rd S_) ;;
  h <- handle ;;
  let tmpDataSize := dataSize (transfer h) in
  let ignoreNak := (bool_decide (state h = kSendDataState) && (tmpDataSize =? 0))
    || (bool_decide (state h = kReceiveDataState) && (tmpDataSize =? 1)) in
  result <- I2C_CheckAndClearError statusFlags ;;
  let result := if (result =? kStatus_I2C_Nak) && ignoreNak then kStatus_Success else result in
  result <- (if decide (state h = kCheckAddressState) then
      if has statusFlags I2C_S_RXAK_MASK then ret kStatus_I2C_Addr_Nak
      else upd (with_state (addressed (transfer h))) ;; ret result
    else ret result) ;;
  if negb (result =? kStatus_Success) then ret (result, false) else
  master_step.

(** A transfer ends with [result]. *)
Definition transfer_over (result : status_t) : M W unit :=
  h <- handle ;;
  result <- (if negb (no_stop (flags (transfer h))) || (result =? kStatus_I2C_Nak) || (result =? kStatus_I2C_Addr_Nak) then
      c1 <- on_i2c (rd C1) ;;
      if has c1 I2C_C1_MST_MASK then
        r <- I2C_MasterStop ;; ret (if negb (r =? kStatus_Success) then kStatus_I2C_Timeout else result)
      else ret result
    else ret result) ;;
  upd (with_state kIdleState) ;;
  on_i2c (I2C_DisableInterrupts kI2C_GlobalInterruptEnable) ;;
  h <- handle ;;
  when (completionCallback h) (callback result).
Definition I2C_MasterTransferHandleIRQ : M W unit :=
  clear_pending ;;
  res <- I2C_MasterTransferRunStateMachine ;;
  let '(result, isDone) := res : status_t * bool in
  if isDone || negb (result =? kStatus_Success) then transfer_over result else ret tt.

Definition I2C_InitTransferStateMachine (t : i2c_master_transfer) : M W status_t :=
  upd (fun h => Master t (dataSize t) (state h) (completionCallback h)) ;;
  let d := first_direction t in
  upd (with_state kCheckAddressState) ;;
  on_i2c (I2C_MasterClearStatusFlags kClearFlags) ;;
  if has (flags t) kI2C_TransferNoStartFlag then
    if negb (0 <? subaddressSize t) && is_read d then ret kStatus_InvalidArgument else
    upd (with_state (if 0 <? subaddressSize t then kSendCommandState else kSendDataState)) ;;
    wait_then kStatus_I2C_Timeout I2C_S_TCF_MASK (I2C_MasterTransferHandleIRQ ;; ret kStatus_Success)
  else if has (flags t) kI2C_TransferRepeatedStartFlag then I2C_MasterRepeatedStart (slaveAddress t) d
  else I2C_MasterStart (slaveAddress t) d.

Definition I2C_MasterTransferNonBlocking (t : i2c_master_transfer) : M W status_t :=
  h <- handle ;;
  if negb (bool_decide (state h = kIdleState)) then ret kStatus_I2C_Busy else
  result <- I2C_InitTransferStateMachine t ;;
  when (result =? kStatus_Success) (on_i2c (I2C_EnableInterrupts kI2C_GlobalInterruptEnable)) ;;
  ret result.

Definition I2C_MasterTransferAbort : M W status_t :=
  on_i2c (I2C_DisableInterrupts kI2C_GlobalInterruptEnable) ;;
  upd (with_state kIdleState) ;;
  c1 <- on_i2c (rd C1) ;;
  if negb (has c1 I2C_C1_MST_MASK) then ret kStatus_I2C_Busy else
  h <- handle ;;
  let read := is_read (direction (transfer h)) in
  when read (on_i2c (set_bits C1 I2C_C1_TXAK_MASK)) ;;
  wait_then kStatus_I2C_Timeout I2C_S_IICIF_MASK (
    clear_pending ;;
    on_i2c (clear_bits8 C1 (Z.lor (Z.lor I2C_C1_MST_MASK I2C_C1_TX_MASK) I2C_C1_TXAK_MASK)) ;;
    when read (_ <- read_data ;; ret tt) ;;
    ret kStatus_Success).

Definition I2C_MasterTransferGetCount : M W Z := gets (fun w => u32 (transferSize (i_master w) - dataSize (transfer (i_master w)))).

(** ** The slave *)

Definition wait_start : M D unit :=
  poll_clear fuel FLT I2C_FLT_STARTF_MASK ;; set_bits FLT I2C_FLT_STARTF_MASK ;; wr S_ I2C_S_IICIF_MASK.

Definition I2C_SlaveWriteBlocking (txBuff txSize : Z) : M W status_t :=
  when HAS_START_STOP_DETECT (on_i2c wait_start) ;;
  wait_then kStatus_I2C_Timeout I2C_S_IAAS_MASK (
    _ <- read_data ;;
    result <- I2C_MasterWriteBlocking txBuff txSize kI2C_TransferNoStopFlag ;;
    on_i2c (clear_bits8 C1 (Z.lor I2C_C1_TX_MASK I2C_C1_TXAK_MASK)) ;;
    _ <- read_data ;;
    ret result).

Fixpoint slave_read_loop (n : nat) (rxBuff : Z) : M W status_t :=
  match n with
  | O => ret kStatus_Success
  | S n =>
      wait_then kStatus_I2C_Timeout I2C_S_IICIF_MASK (
        clear_pending ;;
        b <- read_data ;;
        store rxBuff b ;;
        slave_read_loop n (rxBuff + 1))
  end.
Definition I2C_SlaveReadBlocking (rxBuff rxSize : Z) : M W status_t :=
  when HAS_START_STOP_DETECT (on_i2c wait_start) ;;
  wait_then kStatus_I2C_Timeout I2C_S_IAAS_MASK (
    wait_then kStatus_I2C_Timeout I2C_S_IICIF_MASK (
      _ <- read_data ;;
      clear_pending ;;
      on_i2c (clear_bits8 C1 I2C_C1_TX_MASK) ;;
      slave_read_loop (Z.to_nat rxSize) rxBuff)).

Definition I2C_SlaveTransferCreateHandle (hasCallback : bool) : M W unit :=
  upd_slave (fun _ => Slave false slave_transfer_null 0 hasCallback).

Definition I2C_SlaveTransferNonBlocking (events : Z) : M W status_t :=
  h <- slave ;;
  if isBusy h then ret kStatus_I2C_Busy else
  on_i2c (I2C_DisableInterrupts kIrqFlags) ;;
  upd_slave (with_stransfer slave_transfer_null) ;;
  upd_slave (with_busy true) ;;
  upd_slave (with_eventMask (Z.lor (Z.lor (Z.lor events kI2C_SlaveTransmitEvent) kI2C_SlaveReceiveEvent) kI2C_SlaveGenaralcallEvent)) ;;
  on_i2c (I2C_MasterClearStatusFlags kClearFlags ;; I2C_EnableInterrupts kIrqFlags) ;;
  ret kStatus_Success.

Definition I2C_SlaveTransferAbort : M W unit :=
  h <- slave ;;
  when (isBusy h) (
    on_i2c (I2C_DisableInterrupts kIrqFlags) ;;
    upd_slave (with_stransfer slave_transfer_null) ;;
    upd_slave (with_busy false)).

(** The status and [*count]. *)
Definition I2C_SlaveTransferGetCount : M W (status_t * Z) :=
  h <- slave ;;
  ret (if negb (isBusy h) then (kStatus_NoTransferInProgress, 0) else (kStatus_Success, transferredCount (stransfer h))).

Definition put_event (e : Z) : M W unit := upd_slave (fun h => with_stransfer (with_event e (stransfer h)) h).
(** Calls the callback, if there is one and the event is enabled. *)
Definition report : M W unit :=
  h <- slave ;; when (has (eventMask h) (event (stransfer h)) && scallback h) slave_callback.
(** The same for the events that are always enabled. *)
Definition ask_buffer (e : Z) : M W unit :=
  put_event e ;;
  h <- slave ;; when (scallback h) slave_callback ;;
  upd_slave (fun h => with_stransfer (with_count 0 (stransfer h)) h).
Definition complete (s : status_t) : M W unit :=
  upd_slave (fun h => with_stransfer (with_completion s (with_event kI2C_SlaveCompletionEvent (stransfer h))) h) ;;
  upd_slave (with_busy false) ;;
  report.
Definition out_of_data (x : i2c_slave_transfer) : bool := (sdata x =? 0) || (sdataSize x =? 0).
Definition listen : M W unit :=
  on_i2c (clear_bits8 C1 (Z.lor I2C_C1_TX_MASK I2C_C1_TXAK_MASK)) ;; _ <- read_data ;; ret tt.

Definition slave_receive : M W unit :=
  h <- slave ;;
  when (out_of_data (stransfer h)) (ask_buffer kI2C_SlaveReceiveEvent) ;;
  b <- read_data ;;
  h <- slave ;;
  let x := stransfer h in
  when (negb (sdataSize x =? 0)) (
    store (sdata x) b ;;
    upd_slave (with_stransfer (with_count (u32 (transferredCount x + 1)) (with_sdata (sdata x + 1) (u32 (sdataSize x - 1)) x))) ;;
    when ((u32 (sdataSize x - 1) =? 0) && negb HAS_STOP) (complete kStatus_Success)).

Definition slave_transmit : M W unit :=
  h <- slave ;;
  when (out_of_data (stransfer h)) (ask_buffer kI2C_SlaveTransmitEvent) ;;
  h <- slave ;;
  let x := stransfer h in
  if negb (sdataSize x =? 0) then
    b <- load (sdata x) ;;
    on_i2c (wr D_ b) ;;
    upd_slave (with_stransfer (with_count (u32 (transferredCount x + 1)) (with_sdata (sdata x + 1) (u32 (sdataSize x - 1)) x)))
  else
    listen ;;
    when (negb HAS_STOP) (complete kStatus_Success).

(** The address was matched: whether there is data to send. *)
Definition slave_addressed (status : Z) : M W bool :=
  upd_slave (with_busy true) ;;
  put_event kI2C_SlaveAddressMatchEvent ;;
  doTransmit <- (if has status I2C_S_SRW_MASK then on_i2c (set_bits C1 I2C_C1_TX_MASK) ;; ret true
    else
      on_i2c (clear_bits8 C1 (Z.lor I2C_C1_TX_MASK I2C_C1_TXAK_MASK)) ;;
      b <- read_data ;;
      when (b =? 0) (put_event kI2C_SlaveGenaralcallEvent) ;;
      ret false) ;;
  report ;;
  ret doTransmit.

Definition slave_stop_detected : M W unit :=
  on_i2c (I2C_MasterClearStatusFlags kI2C_StopDetectFlag) ;;
  clear_pending ;;
  h <- slave ;;
  when (isBusy h) (complete kStatus_Success).
Definition slave_start_detected : M W unit :=
  on_i2c (I2C_MasterClearStatusFlags kI2C_StartDetectFlag) ;;
  clear_pending ;;
  put_event kI2C_SlaveStartEvent ;;
  report.

Definition slave_byte (status : Z) : M W unit :=
  clear_pending ;;
  doTransmit <- (
    if has status I2C_S_RXAK_MASK then
      listen ;;
      h <- slave ;;
      (if negb (sdataSize (stransfer h) =? 0) then complete kStatus_I2C_Nak
       else when (negb HAS_STOP) (complete kStatus_Success)) ;;
      ret false
    else if has status I2C_S_IAAS_MASK then slave_addressed status
    else if has status I2C_S_TCF_MASK then
      if has status I2C_S_SRW_MASK then ret true else slave_receive ;; ret false
    else _ <- read_data ;; ret false) ;;
  when (doTransmit : bool) slave_transmit.

Definition I2C_SlaveTransferHandleIRQ : M W unit :=
  status <- on_i2c I2C_MasterGetStatusFlags ;;
  let status := u16 status in
  let stop := HAS_STOP && has status kI2C_StopDetectFlag in
  let start := HAS_START_STOP_DETECT && has status kI2C_StartDetectFlag in
  let addressed := has status I2C_S_IAAS_MASK in
  when stop slave_stop_detected ;;
  if stop && negb addressed then ret tt else
  when start slave_start_detected ;;
  if start && negb addressed then ret tt else
  slave_byte status.

Definition I2C_TransferCommonIRQHandler : M W unit :=
  tmpS <- on_i2c (rd S_) ;;
  tmpC1 <- on_i2c (rd C1) ;;
  if has tmpC1 I2C_C1_MST_MASK || has tmpS I2C_S_ARBL_MASK then I2C_MasterTransferHandleIRQ else I2C_SlaveTransferHandleIRQ.
End Driver.
