(* ===== verification/I2cBus.v ===== *)
(** * The bus

    What the manual says of the peripheral as a master: [step]s of a machine
    whose log is what happens on the bus.  The other side of the bus is an
    environment: it answers each byte sent, supplies each byte read, and
    decides how long everything takes, all depending on what has happened so
    far.  [I2cLaws] ties a device to this machine; the rest of the file is the
    effect of the driver's signals on it. *)

From stdpp Require Import base list numbers tactics.
From Stdlib Require Import ZArith Lia.
From S2P Require Import Prelude Bytes Mmio I2c.

Open Scope Z_scope.
Open Scope prog_scope.

(** ** Events and the environment *)

Inductive response := Ack | Nak | Lost.
(** [Sent x a]: the byte [x] was sent, and acknowledged if [a]; [Got x a]: it
    was received, and acknowledged if [a]. *)
Inductive bus_event := Start | Restart | Sent (x : Z) (a : bool) | Arbitration (x : Z) | Got (x : Z) (a : bool) | Stop.
Abbreviation trace := (list bus_event).

Record environment := Environment {
  answers : trace -> Z -> response;   (** to the next byte sent *)
  supplies : trace -> Z;              (** the next byte read *)
  lasts : trace -> nat                (** how often the status is read until what is under way is over *)
}.

Inductive activity := Quiet | Sending (x : Z) | Receiving | Stopping.
#[export] Instance activity_eq_dec : EqDecision activity.
Proof. solve_decision. Defined.

Record bus := Bus {
  b_log : trace; b_c1 : Z; b_busy : bool; b_act : activity; b_wait : nat;
  b_if : bool; b_arbl : bool; b_rxak : bool; b_data : Z
}.
Definition set_log l b := Bus l (b_c1 b) (b_busy b) (b_act b) (b_wait b) (b_if b) (b_arbl b) (b_rxak b) (b_data b).
Definition set_c1 x b := Bus (b_log b) x (b_busy b) (b_act b) (b_wait b) (b_if b) (b_arbl b) (b_rxak b) (b_data b).
Definition set_busy x b := Bus (b_log b) (b_c1 b) x (b_act b) (b_wait b) (b_if b) (b_arbl b) (b_rxak b) (b_data b).
Definition set_act x n b := Bus (b_log b) (b_c1 b) (b_busy b) x n (b_if b) (b_arbl b) (b_rxak b) (b_data b).
Definition set_if x b := Bus (b_log b) (b_c1 b) (b_busy b) (b_act b) (b_wait b) x (b_arbl b) (b_rxak b) (b_data b).
Definition set_arbl x b := Bus (b_log b) (b_c1 b) (b_busy b) (b_act b) (b_wait b) (b_if b) x (b_rxak b) (b_data b).
Definition set_rxak x b := Bus (b_log b) (b_c1 b) (b_busy b) (b_act b) (b_wait b) (b_if b) (b_arbl b) x (b_data b).
Definition set_byte x b := Bus (b_log b) (b_c1 b) (b_busy b) (b_act b) (b_wait b) (b_if b) (b_arbl b) (b_rxak b) x.
Definition log (e : bus_event) (b : bus) : bus := set_log (b_log b ++ [e]) b.

Section Machine.
Context {F : I2cFields} (env : environment).

Definition master (b : bus) : bool := has (b_c1 b) I2C_C1_MST_MASK.
Definition transmits (b : bus) : bool := has (b_c1 b) I2C_C1_TX_MASK.
Definition nacks (b : bus) : bool := has (b_c1 b) I2C_C1_TXAK_MASK.

(** What is under way comes to its end.  Losing arbitration makes the
    peripheral a slave. *)
Definition finish (b : bus) : bus :=
  let b' := set_act Quiet 0 b in
  match b_act b with
  | Quiet => b
  | Sending x =>
      match answers env (b_log b) x with
      | Ack => set_if true (set_rxak false (log (Sent x true) b'))
      | Nak => set_if true (set_rxak true (log (Sent x false) b'))
      | Lost => set_if true (set_arbl true (set_rxak false (set_c1 (bic8 (b_c1 b) I2C_C1_MST_MASK) (log (Arbitration x) b'))))
      end
  | Receiving =>
      let x := supplies env (b_log b) in
      set_if true (set_rxak (nacks b) (set_byte x (log (Got x (negb (nacks b))) b')))
  | Stopping => set_busy false b'
  end.
(** The status is read. *)
Definition poll (b : bus) : bus :=
  match b_wait b with O => finish b | S n => set_act (b_act b) n b end.

Definition begin (a : activity) (b : bus) : bus := set_act a (lasts env (b_log b)) b.
Definition write_c1 (v : Z) (b : bus) : bus :=
  let b' := set_c1 (bic8 v I2C_C1_RSTA_MASK) b in
  match master b, has v I2C_C1_MST_MASK with
  | false, true => set_busy true (log Start b')
  | true, false => begin Stopping (log Stop b')
  | true, true => if has v I2C_C1_RSTA_MASK then log Restart b' else b'
  | false, false => b'
  end.
Definition write_d (x : Z) (b : bus) : bus := if master b && transmits b then begin (Sending x) b else b.
(** Reading the data register starts the reception of the next byte. *)
Definition read_d (b : bus) : bus :=
  if master b && negb (transmits b) && bool_decide (b_act b = Quiet) then begin Receiving b else b.
Definition write_s (v : Z) (b : bus) : bus :=
  let b := if has v I2C_S_IICIF_MASK then set_if false b else b in
  if has v I2C_S_ARBL_MASK then set_arbl false b else b.

(** The flags of the status register. *)
Definition transferring (b : bus) : bool := match b_act b with Sending _ | Receiving => true | _ => false end.
End Machine.

(** ** The device *)

(** The positions of the bits, from the manual. *)
Class I2cMasks {F : I2cFields} := {
  mask_iicie : I2C_C1_IICIE_MASK = 2 ^ 6; mask_mst : I2C_C1_MST_MASK = 2 ^ 5; mask_tx : I2C_C1_TX_MASK = 2 ^ 4;
  mask_txak : I2C_C1_TXAK_MASK = 2 ^ 3; mask_rsta : I2C_C1_RSTA_MASK = 2 ^ 2;
  mask_tcf : I2C_S_TCF_MASK = 2 ^ 7; mask_busy : I2C_S_BUSY_MASK = 2 ^ 5; mask_arbl : I2C_S_ARBL_MASK = 2 ^ 4;
  mask_iicif : I2C_S_IICIF_MASK = 2 ^ 1; mask_rxak : I2C_S_RXAK_MASK = 2 ^ 0;
  mask_stopf : I2C_FLT_STOPF_MASK = 2 ^ 6; mask_startf : I2C_FLT_STARTF_MASK = 2 ^ 4
}.

Class I2cLaws {D : Type} `{!Device i2c_reg D} {F : I2cFields} := {
  env : environment;
  view : D -> bus;
  status_reads d : let b := poll env (view d) in
    view (reg_read S_ d).2 = b /\
    has (reg_read S_ d).1 I2C_S_TCF_MASK = negb (transferring b) /\ has (reg_read S_ d).1 I2C_S_BUSY_MASK = b_busy b /\
    has (reg_read S_ d).1 I2C_S_IICIF_MASK = b_if b /\ has (reg_read S_ d).1 I2C_S_ARBL_MASK = b_arbl b /\
    has (reg_read S_ d).1 I2C_S_RXAK_MASK = b_rxak b;
  status_writes v d : view (reg_write S_ v d) = write_s v (view d);
  control_reads d : reg_read C1 d = (b_c1 (view d), (reg_read C1 d).2) /\ view (reg_read C1 d).2 = view d;
  control_writes v d : view (reg_write C1 v d) = write_c1 env v (view d);
  data_reads d : (reg_read D_ d).1 = b_data (view d) /\ view (reg_read D_ d).2 = read_d env (view d);
  data_writes v d : view (reg_write D_ v d) = write_d env v (view d);
  other_reads r d : r ∉ [S_; C1; D_] -> view (reg_read r d).2 = view d;
  other_writes r v d : r ∉ [S_; C1; D_] -> view (reg_write r v d) = view d;
  (** the data register is free when no byte is under way *)
  buffer_empty d : transferring (view d) = false -> has (reg_read S2 d).1 I2C_S2_EMPTY_MASK = true;
  elapse : D -> D;                    (** time passes until what is under way is over *)
  elapses d : view (elapse d) = finish env (view d)
}.

(** ** What a transfer is on the bus *)

Section Reference.
Context (env : environment).

(** Bytes sent one after the other, until one is refused. *)
Fixpoint sends (l : trace) (xs : list Z) : trace * response :=
  match xs with
  | [] => (l, Ack)
  | x :: xs =>
      match answers env l x with
      | Ack => sends (l ++ [Sent x true]) xs
      | Nak => (l ++ [Sent x false], Nak)
      | Lost => (l ++ [Arbitration x], Lost)
      end
  end.
(** The same for data: the slave may refuse the last byte. *)
Fixpoint sends_data (l : trace) (xs : list Z) : trace * response :=
  match xs with
  | [] => (l, Ack)
  | x :: xs =>
      match answers env l x with
      | Ack => sends_data (l ++ [Sent x true]) xs
      | Nak => (l ++ [Sent x false], match xs with [] => Ack | _ => Nak end)
      | Lost => (l ++ [Arbitration x], Lost)
      end
  end.
(** [n] bytes received, all but the last one acknowledged. *)
Fixpoint obtains (l : trace) (n : nat) : trace * list Z :=
  match n with
  | O => (l, [])
  | S n => let x := supplies env l in let '(l, xs) := obtains (l ++ [Got x (negb (n =? 0)%nat)]) n in (l, x :: xs)
  end.

(** The bus at the end: free, kept for the next transfer, or taken by another
    master. *)
Inductive ownership := Released | Held | Taken.
Record result := Result { r_trace : trace; r_status : status_t; r_bytes : list Z; r_bus : ownership }.
(** A refused byte stops the transfer with the status [nak]; a lost
    arbitration ends it. *)
Definition if_sent (nak : status_t) (lr : trace * response) (k : trace -> result) : result :=
  match lr.2 with
  | Ack => k lr.1
  | Nak => Result (lr.1 ++ [Stop]) nak [] Released
  | Lost => Result lr.1 kStatus_I2C_ArbitrationLost [] Taken
  end.
Definition close (flags : Z) (l : trace) (xs : list Z) : result :=
  if no_stop flags then Result l kStatus_Success xs Held else Result (l ++ [Stop]) kStatus_Success xs Released.
(** The command, most significant byte first. *)
Fixpoint big_endian (n : nat) (x : Z) : list Z :=
  match n with
  | O => []
  | S n => (x / 256 ^ Z.of_nat n) mod 256 :: big_endian n x
  end.
Definition command (t : i2c_master_transfer) : list Z := big_endian (Z.to_nat (subaddressSize t)) (subaddress t).
(** An address and, in the lowest bit, the direction. *)
Definition on_bus (address : Z) (d : i2c_direction) : Z := (2 * address + (if is_read d then 1 else 0)) mod 256.

(** [data_nak] and [second_nak]: what a refused byte of data and a refused
    second address are reported as. *)
Context (data_nak second_nak : status_t).
Definition data_phase (t : i2c_master_transfer) (payload : list Z) (l : trace) : result :=
  match direction t with
  | kI2C_Write => if_sent data_nak (sends_data l payload) (fun l => close (flags t) l [])
  | kI2C_Read => let '(l, xs) := obtains l (Z.to_nat (dataSize t)) in close (flags t) l xs
  end.
Definition after_command (t : i2c_master_transfer) (payload : list Z) (l : trace) : result :=
  match direction t with
  | kI2C_Write => data_phase t payload l
  | kI2C_Read => if_sent second_nak (sends (l ++ [Restart]) [on_bus (slaveAddress t) kI2C_Read]) (data_phase t payload)
  end.
Definition transact (t : i2c_master_transfer) (payload : list Z) (l : trace) : result :=
  let signal := if has (flags t) kI2C_TransferRepeatedStartFlag then Restart else Start in
  if_sent kStatus_I2C_Addr_Nak (sends (l ++ [signal]) [on_bus (slaveAddress t) (first_direction t)]) (fun l =>
    if subaddressSize t =? 0 then data_phase t payload l
    else if_sent kStatus_I2C_Nak (sends l (command t)) (after_command t payload)).
End Reference.

Lemma obtains_next env l n : obtains env l (S n) =
  let '(l', xs) := obtains env (l ++ [Got (supplies env l) (negb (n =? 0)%nat)]) n in (l', supplies env l :: xs).
Proof. done. Qed.

Lemma close_bytes fl l xs ys : r_status (close fl l xs) = r_status (close fl l ys).
Proof. unfold close. by destruct (no_stop fl). Qed.

Lemma command_byte_spec t n : command_byte t (Z.of_nat n) = (subaddress t / 256 ^ Z.of_nat n) mod 256.
Proof. unfold command_byte, wrap. rewrite Z.shiftr_div_pow2, Z.pow_mul_r by lia. done. Qed.
Lemma address_byte_spec a d : address_byte a d = on_bus a d.
Proof.
  unfold address_byte, on_bus, wrap. rewrite Z.shiftl_mul_pow2 by lia. change (2 ^ 32) with (2 * 2 ^ 31). rewrite (Z.mul_comm a), Z.mul_mod_distr_l by lia.
  set (x := a mod 2 ^ 31). assert (Hx : (2 * x) mod 256 = (2 * a) mod 256) by (unfold x; zlia).
  assert (E : Z.lor (2 * x) (if is_read d then 1 else 0) = 2 * x + (if is_read d then 1 else 0)).
  { destruct (is_read d); [|by rewrite Z.lor_0_r, Z.add_0_r]. assert (H := Z.add_lor_land (2 * x) 1). rewrite (Z.land_ones _ 1) in H by lia. change (2 ^ 1) with 2 in H. zlia. }
  change (2 ^ 8) with 256. rewrite E, Z.add_mod, Hx, <- Z.add_mod; lia.
Qed.
