(* ===== verification/I2cSignals.v ===== *)
(** * The driver's signals on the bus

    The state of the bus between two signals ([rests]), while a byte is under
    way ([works]), and how each signal of the driver leads from one to the
    other. *)

From stdpp Require Import base list numbers tactics.
From Stdlib Require Import ZArith Lia.
From S2P Require Import Prelude Bytes Mmio I2c I2cBus.

Open Scope Z_scope.
Open Scope prog_scope.

(** A register is not one of those with a meaning for the bus. *)
Ltac other := by apply (bool_decide_unpack _).

Section Signals.
Context {D A : Type} `{!Device i2c_reg D} {F : I2cFields} {X : I2cFeatures} {MK : I2cMasks} {L : I2cLaws (D := D)}.
Abbreviation W := (i2c_world D A).

(** How often the driver looks at a flag, and an environment that needs less. *)
Definition waits (fuel : nat) : nat := if I2C_RETRY_TIMES =? 0 then fuel else Z.to_nat I2C_RETRY_TIMES.
Context (fuel : nat) (patient : forall l, (lasts env l < waits fuel)%nat).

Definition vw (w : W) : bus := view (i_hw w).
Definition with_hw (d : D) (w : W) : W := I2cWorld d (g_baudrate w) (i_master w) (i_slave w) (i_mem w) (i_app w) (i_xfer_left w).
Definition with_master (h : i2c_master_handle) (w : W) : W := I2cWorld (i_hw w) (g_baudrate w) h (i_slave w) (i_mem w) (i_app w) (i_xfer_left w).
Definition with_mem (m : Z -> Z) (w : W) : W := I2cWorld (i_hw w) (g_baudrate w) (i_master w) (i_slave w) m (i_app w) (i_xfer_left w).
Definition with_left (n : Z) (w : W) : W := I2cWorld (i_hw w) (g_baudrate w) (i_master w) (i_slave w) (i_mem w) (i_app w) n.

Lemma wp_on_i2c {B} (m : M D B) (Q : B -> W -> Prop) w : wp (on_i2c m) Q w <-> wp m (fun b d => Q b (with_hw d w)) (i_hw w).
Proof. unfold wp, on_i2c. by destruct (m (i_hw w)) as [[b d]|]. Qed.
Lemma wp_handle (Q : i2c_master_handle -> W -> Prop) w : wp handle Q w <-> Q (i_master w) w.
Proof. done. Qed.
Lemma wp_upd_master f (Q : unit -> W -> Prop) w : wp (upd f) Q w <-> Q tt (with_master (f (i_master w)) w).
Proof. done. Qed.
Lemma wp_load p (Q : Z -> W -> Prop) w : wp (load p) Q w <-> Q (i_mem w p) w.
Proof. done. Qed.
Lemma wp_store p v (Q : unit -> W -> Prop) w : wp (store p v) Q w <-> Q tt (with_mem (mem_write p [v] (i_mem w)) w).
Proof. done. Qed.
Lemma wp_set_left n (Q : unit -> W -> Prop) w : wp (set_left n) Q w <-> Q tt (with_left n w).
Proof. done. Qed.

(** ** Waiting *)

(** The flag [mask] of the status register is [f] of the bus. *)
Definition shows (mask : Z) (f : bus -> bool) : Prop := forall d, has (reg_read S_ d).1 mask = f (poll env (view d)).
Lemma shows_tcf : shows I2C_S_TCF_MASK (fun b => negb (transferring b)).
Proof. intros d. apply (status_reads d). Qed.
Lemma shows_busy : shows I2C_S_BUSY_MASK b_busy.
Proof. intros d. apply (status_reads d). Qed.
Lemma shows_if : shows I2C_S_IICIF_MASK b_if.
Proof. intros d. apply (status_reads d). Qed.

(** What is under way takes [b_wait] more looks; until then the flag is not
    as wanted, then it is. *)
Definition comes (f : bus -> bool) (want : bool) (b : bus) : Prop :=
  (b_act b = Quiet -> b_wait b = O) /\ (forall k, (k < b_wait b)%nat -> f (set_act (b_act b) k b) = negb want) /\ f (finish env b) = want.

Lemma comes_next f want b k : comes f want b -> b_wait b = S k ->
  f (poll env b) = negb want /\ comes f want (poll env b) /\ finish env (poll env b) = finish env b /\ b_wait (poll env b) = k.
Proof.
  intros (H1 & H2 & H3) Hk. unfold poll. rewrite Hk. assert (Hq : b_act b <> Quiet) by (intros Hq; specialize (H1 Hq); lia).
  assert (E : finish env (set_act (b_act b) k b) = finish env b) by (destruct b as [? ? ? [| | |] ? ? ? ? ?]; done).
  split; [apply H2; lia|]. split; [|done]. split; [done|]. rewrite E. split; [|done]. intros j Hj. apply H2. cbn [set_act b_wait] in Hj. lia.
Qed.

Lemma comes_last f want b : comes f want b -> b_wait b = O -> f (poll env b) = want /\ poll env b = finish env b.
Proof. intros (_ & _ & H) E. unfold poll. by rewrite E. Qed.

Lemma forever_run mask want f n : forall d (Q : bool -> D -> Prop), shows mask f -> comes f want (view d) -> (b_wait (view d) < n)%nat ->
  (forall d', view d' = finish env (view d) -> Q true d') -> wp (forever_loop n S_ mask want) Q d.
Proof.
  induction n as [|n IH]; intros d Q Hs Hc Hn HQ; [lia|]. cbn [forever_loop]. rewrite wp_bind. unfold wp at 1, rd.
  destruct (status_reads d) as (Hv & _). assert (Hm := Hs d). destruct (reg_read S_ d) as [x d']. cbn [fst snd] in *. rewrite Hm.
  destruct (b_wait (view d)) as [|k] eqn:Hk.
  - destruct (comes_last _ _ _ Hc Hk) as [E1 E2]. rewrite E1, eqb_reflx, wp_ret. apply HQ. congruence.
  - destruct (comes_next _ _ _ _ Hc Hk) as (E1 & E2 & E3 & E4). rewrite E1, (eqb_negb1 want). cbn [negb].
    apply IH; [done|by rewrite Hv|by rewrite Hv, E4; lia|]. intros d2 Hd2. apply HQ. congruence.
Qed.

Lemma retry_run mask want f n : forall d (Q : bool -> D -> Prop), shows mask f -> comes f want (view d) -> (b_wait (view d) < n)%nat ->
  (forall d', view d' = finish env (view d) -> Q true d') -> wp (retry_loop n S_ mask want) Q d.
Proof.
  induction n as [|n IH]; intros d Q Hs Hc Hn HQ; [lia|]. cbn [retry_loop]. rewrite wp_bind. unfold wp at 1, rd.
  destruct (status_reads d) as (Hv & _). assert (Hm := Hs d). destruct (reg_read S_ d) as [x d']. cbn [fst snd] in *. rewrite Hm.
  destruct (b_wait (view d)) as [|k] eqn:Hk.
  - destruct (comes_last _ _ _ Hc Hk) as [E1 E2]. rewrite E1, eqb_reflx, wp_ret. apply HQ. congruence.
  - destruct (comes_next _ _ _ _ Hc Hk) as (E1 & E2 & E3 & E4). rewrite E1, (eqb_negb1 want).
    apply IH; [done|by rewrite Hv|by rewrite Hv, E4; lia|]. intros d2 Hd2. apply HQ. congruence.
Qed.

Lemma wait_flag_run mask want f (w : W) (Q : bool -> W -> Prop) : shows mask f -> comes f want (vw w) -> (b_wait (vw w) < waits fuel)%nat ->
  (forall d, view d = finish env (vw w) -> Q true (with_hw d w)) -> wp (wait_reg fuel S_ mask want) Q w.
Proof.
  unfold wait_reg, waits. intros Hs Hc Hn HQ. rewrite wp_on_i2c. destruct (_ =? 0); [by eapply forever_run|by eapply retry_run].
Qed.

(** ** Between and during bytes *)

Definition irq (b : bus) : bool := has (b_c1 b) I2C_C1_IICIE_MASK.
Definition restarts (b : bus) : bool := has (b_c1 b) I2C_C1_RSTA_MASK.

(** Nothing is under way: whether we are the master, transmit, take
    interrupts; the pending flag, the missing acknowledgement. *)
Record rests (l : trace) (m t i f r : bool) (b : bus) : Prop := {
  re_log : b_log b = l; re_act : b_act b = Quiet; re_wait : b_wait b = O;
  re_master : master b = m; re_tx : transmits b = t; re_irq : irq b = i; re_rsta : restarts b = false;
  re_if : b_if b = f; re_rxak : b_rxak b = r; re_arbl : b_arbl b = false; re_busy : b_busy b = m
}.
(** Arbitration was lost. *)
Record lost (l : trace) (i : bool) (b : bus) : Prop := {
  lo_log : b_log b = l; lo_act : b_act b = Quiet; lo_wait : b_wait b = O; lo_master : master b = false; lo_irq : irq b = i;
  lo_rsta : restarts b = false; lo_rxak : b_rxak b = false; lo_arbl : b_arbl b = true
}.
(** A byte is under way. *)
Record works (l : trace) (a : activity) (i : bool) (b : bus) : Prop := {
  wo_log : b_log b = l; wo_act : b_act b = a; wo_wait : (b_wait b < waits fuel)%nat;
  wo_master : master b = true; wo_tx : transmits b = negb (bool_decide (a = Receiving)); wo_irq : irq b = i; wo_rsta : restarts b = false;
  wo_if : b_if b = false; wo_arbl : b_arbl b = false; wo_busy : b_busy b = true
}.

(** [c1bits] turns tests of C1 and S into tests of bits. *)
Ltac c1bits :=
  unfold master, transmits, nacks, irq, restarts in *; cbn [b_c1 set_c1 set_log log set_busy set_act begin set_if set_arbl set_rxak set_byte] in *;
  rewrite ?mask_mst, ?mask_tx, ?mask_txak, ?mask_rsta, ?mask_iicie in *; rewrite ?has_pow2 in * by lia;
  rewrite ?bic_testbit, ?Z.lor_spec, ?Z.pow2_bits_eqb by lia; cbn [Z.eqb Pos.eqb orb andb negb];
  rewrite ?orb_true_r, ?orb_false_r, ?andb_false_r, ?andb_true_r.

Lemma finish_sent l x i b : works l (Sending x) i b ->
  match answers env l x with
  | Ack => rests (l ++ [Sent x true]) true true i true false (finish env b)
  | Nak => rests (l ++ [Sent x false]) true true i true true (finish env b)
  | Lost => lost (l ++ [Arbitration x]) i (finish env b)
  end.
Proof.
  intros [W1 W2 W3 W4 W5 W6 W7 W9 W10 W11]. unfold finish. rewrite W2, W1. destruct (answers env l x); split; try done.
  - cbn. by rewrite W1.
  - cbn. by rewrite W1.
  - cbn. by rewrite W1.
  - c1bits. done.
  - c1bits. done.
  - revert W7. c1bits. intros; done.
Qed.

Lemma finish_got l i k b : works l Receiving i b -> nacks b = k ->
  rests (l ++ [Got (supplies env l) (negb k)]) true false i true k (finish env b) /\ b_data (finish env b) = supplies env l /\ nacks (finish env b) = k.
Proof.
  intros [W1 W2 W3 W4 W5 W6 W7 W9 W10 W11] W8. unfold finish. rewrite W2, W1, W8. split; [|done]. split; try done. cbn. by rewrite W1.
Qed.

Lemma works_done l a i b : works l a i b -> a <> Quiet -> a <> Stopping ->
  b_if (finish env b) = true /\ irq (finish env b) = i /\ b_act (finish env b) = Quiet /\ b_wait (finish env b) = O /\
  master (finish env b) || b_arbl (finish env b) = true.
Proof.
  intros [W1 W2 W3 W4 W5 W6 W7 W9 W10 W11] Ha Hs. unfold finish. rewrite W2. destruct a; try done.
  - destruct (answers _ _ _); cbn; rewrite ?orb_true_r; repeat split; try done.
    + change (master b || b_arbl b = true). by rewrite W4.
    + change (master b || b_arbl b = true). by rewrite W4.
    + revert W6. c1bits. done.
  - cbn. repeat split; try done. change (master b || b_arbl b = true). by rewrite W4.
Qed.

Lemma works_comes l a i b : works l a i b -> a <> Quiet -> a <> Stopping -> comes b_if true b.
Proof.
  intros [W1 W2 W3 W4 W5 W6 W7 W9 W10 W11] Ha Hs. split; [congruence|]. split; [by intros; rewrite W2|]. unfold finish. rewrite W2.
  destruct a; try done. by destruct (answers _ _ _).
Qed.

(** ** Waiting for the end of a byte *)

Lemma wait_byte {B} l a i (to : B) (m : M W B) (w : W) (Q : B -> W -> Prop) : works l a i (vw w) -> a <> Quiet -> a <> Stopping ->
  (forall d, view d = finish env (vw w) -> wp m Q (with_hw d w)) -> wp (wait_then fuel to I2C_S_IICIF_MASK m) Q w.
Proof.
  intros HW Ha Hs HQ. unfold wait_then. rewrite wp_bind. eapply wait_flag_run; [apply shows_if|by eapply works_comes|apply HW|].
  intros d Hd. cbn [negb]. by apply HQ.
Qed.

Lemma wait_complete {B} l m t i f r (to : B) (k : M W B) (w : W) (Q : B -> W -> Prop) : rests l m t i f r (vw w) ->
  (forall d, view d = vw w -> wp k Q (with_hw d w)) -> wp (wait_then fuel to I2C_S_TCF_MASK k) Q w.
Proof.
  intros [R1 R2 R3 R4 R5 R6 R7 R8 R9 R10 R11] HQ. assert (Ef : finish env (vw w) = vw w) by (unfold finish; by rewrite R2).
  unfold wait_then. rewrite wp_bind. eapply wait_flag_run; [apply shows_tcf| | |].
  - split; [done|]. rewrite R3. split; [intros; lia|]. rewrite Ef. unfold transferring. by rewrite R2.
  - rewrite R3. assert (H := patient []). lia.
  - intros d Hd. cbn [negb]. apply HQ. by rewrite Hd.
Qed.

(** ** Registers *)

Lemma read_status {B} l m t i f r (k : Z -> M W B) (w : W) (Q : B -> W -> Prop) : rests l m t i f r (vw w) ->
  (forall s d, view d = vw w -> has s I2C_S_RXAK_MASK = r -> has s I2C_S_ARBL_MASK = false -> has s I2C_S_BUSY_MASK = m -> wp (k s) Q (with_hw d w)) ->
  wp (s <- on_i2c (rd S_) ;; k s) Q w.
Proof.
  intros [R1 R2 R3 R4 R5 R6 R7 R8 R9 R10 R11] HQ. rewrite wp_bind, wp_on_i2c. unfold wp at 1, rd.
  destruct (status_reads (i_hw w)) as (H1 & H2 & H3 & H4 & H5 & H6).
  assert (E : poll env (view (i_hw w)) = vw w) by (unfold poll, finish; fold (vw w); by rewrite R3, R2). rewrite E in *.
  destruct (reg_read S_ (i_hw w)) as [s d]. cbn [fst snd] in *. apply HQ; congruence.
Qed.

Lemma read_status_lost {B} l i (k : Z -> M W B) (w : W) (Q : B -> W -> Prop) : lost l i (vw w) ->
  (forall s d, view d = vw w -> has s I2C_S_RXAK_MASK = false -> has s I2C_S_ARBL_MASK = true -> wp (k s) Q (with_hw d w)) ->
  wp (s <- on_i2c (rd S_) ;; k s) Q w.
Proof.
  intros [R1 R2 R3 R4 R5 RR R7 R8] HQ. rewrite wp_bind, wp_on_i2c. unfold wp at 1, rd.
  destruct (status_reads (i_hw w)) as (H1 & H2 & H3 & H4 & H5 & H6).
  assert (E : poll env (view (i_hw w)) = vw w) by (unfold poll, finish; fold (vw w); by rewrite R3, R2). rewrite E in *.
  destruct (reg_read S_ (i_hw w)) as [s d]. cbn [fst snd] in *. apply HQ; congruence.
Qed.

(** At rest, whatever happened last. *)
Definition quiet_at (l : trace) (b : bus) : Prop := b_log b = l /\ b_act b = Quiet.
Lemma rests_quiet l m t i f r b : rests l m t i f r b -> quiet_at l b.
Proof. intros []. by split. Qed.

Lemma c1_read {B} (k : Z -> M W B) (w : W) (Q : B -> W -> Prop) : (forall d, view d = vw w -> wp (k (b_c1 (vw w))) Q (with_hw d w)) ->
  wp (x <- on_i2c (rd C1) ;; k x) Q w.
Proof.
  intros HQ. rewrite wp_bind, wp_on_i2c. unfold wp at 1, rd. destruct (control_reads (i_hw w)) as [H1 H2]. rewrite H1. by apply HQ.
Qed.
Lemma hw_set m d (Q : unit -> D -> Prop) : (forall d', view d' = write_c1 env (Z.lor (b_c1 (view d)) m) (view d) -> Q tt d') -> wp (set_bits C1 m) Q d.
Proof.
  intros HQ. unfold set_bits. rewrite wp_bind. unfold wp at 1, rd. destruct (control_reads d) as [H1 H2]. rewrite H1.
  unfold wp, wr. apply HQ. by rewrite control_writes, H2.
Qed.
Lemma hw_clear m d (Q : unit -> D -> Prop) : (forall d', view d' = write_c1 env (bic8 (b_c1 (view d)) m) (view d) -> Q tt d') -> wp (clear_bits8 C1 m) Q d.
Proof.
  intros HQ. unfold clear_bits8. rewrite wp_bind. unfold wp at 1, rd. destruct (control_reads d) as [H1 H2]. rewrite H1.
  unfold wp, wr. apply HQ. by rewrite control_writes, H2.
Qed.
Lemma c1_set m (w : W) (Q : unit -> W -> Prop) : (forall d, view d = write_c1 env (Z.lor (b_c1 (vw w)) m) (vw w) -> Q tt (with_hw d w)) ->
  wp (on_i2c (set_bits C1 m)) Q w.
Proof. intros HQ. rewrite wp_on_i2c. by apply hw_set. Qed.
Lemma c1_clear m (w : W) (Q : unit -> W -> Prop) : (forall d, view d = write_c1 env (bic8 (b_c1 (vw w)) m) (vw w) -> Q tt (with_hw d w)) ->
  wp (on_i2c (clear_bits8 C1 m)) Q w.
Proof. intros HQ. rewrite wp_on_i2c. by apply hw_clear. Qed.

Lemma clear_pending_data l m t i f r (w : W) (Q : unit -> W -> Prop) : rests l m t i f r (vw w) ->
  (forall d, rests l m t i false r (view d) -> b_data (view d) = b_data (vw w) -> nacks (view d) = nacks (vw w) -> Q tt (with_hw d w)) -> wp clear_pending Q w.
Proof.
  intros [R1 R2 R3 R4 R5 R6 R7 R8 R9 R10 R11] HQ. unfold clear_pending. rewrite wp_on_i2c. unfold wp, wr. apply HQ; rewrite status_writes;
    unfold write_s; rewrite mask_iicif, mask_arbl, !has_pow2, !Z.pow2_bits_eqb by lia; cbn [Z.eqb Pos.eqb]; [by split|done|done].
Qed.
Lemma clear_pending_run l m t i f r (w : W) (Q : unit -> W -> Prop) : rests l m t i f r (vw w) ->
  (forall d, rests l m t i false r (view d) -> Q tt (with_hw d w)) -> wp clear_pending Q w.
Proof. intros HR HQ. apply (clear_pending_data _ _ _ _ _ _ _ _ HR). auto. Qed.

Lemma send_run l t i f r x (w : W) (Q : unit -> W -> Prop) : rests l true t i f r (vw w) -> t = true -> f = false ->
  (forall d, works l (Sending x) i (view d) -> Q tt (with_hw d w)) -> wp (on_i2c (wr D_ x)) Q w.
Proof.
  intros [R1 R2 R3 R4 R5 R6 R7 R8 R9 R10 R11] -> -> HQ. rewrite wp_on_i2c. unfold wp, wr. apply HQ. rewrite data_writes.
  unfold write_d. fold (vw w). rewrite R4, R5. cbn [andb]. split; try done. cbn. rewrite R1. apply patient.
Qed.

Lemma write_on m (b : bus) : master b = true -> restarts b = false -> has m I2C_C1_RSTA_MASK = false -> write_c1 env (Z.lor (b_c1 b) m) b = set_c1 (bic8 (Z.lor (b_c1 b) m) I2C_C1_RSTA_MASK) b.
Proof.
  intros H1 H2 H3. unfold write_c1. rewrite H1. assert (has (Z.lor (b_c1 b) m) I2C_C1_MST_MASK = true) as ->.
  { revert H1 H3. c1bits. by intros ->. }
  assert (has (Z.lor (b_c1 b) m) I2C_C1_RSTA_MASK = false) as ->; [|done]. revert H2 H3. c1bits. by intros -> ->.
Qed.

(** Of the control register only the interrupt enable is changed. *)
Definition same_but_irq (i : bool) (b b' : bus) : Prop :=
  exists c, b' = set_c1 c b /\ irq b' = i /\ master b' = master b /\ transmits b' = transmits b /\ nacks b' = nacks b /\ restarts b' = false.

Lemma write_c1_same v (b : bus) : has v I2C_C1_MST_MASK = master b -> has v I2C_C1_RSTA_MASK = false -> write_c1 env v b = set_c1 (bic8 v I2C_C1_RSTA_MASK) b.
Proof. intros H1 H2. unfold write_c1. rewrite H1, H2. by destruct (master b). Qed.

Lemma irq_cleared (b : bus) : restarts b = false -> same_but_irq false b (write_c1 env (bic8 (b_c1 b) I2C_C1_IICIE_MASK) b).
Proof.
  intros H. rewrite write_c1_same; [|c1bits; done|revert H; c1bits; intros; by rewrite ?H]. eexists. split; [done|]. repeat split; c1bits; done.
Qed.
Lemma irq_set (b : bus) : restarts b = false -> same_but_irq true b (write_c1 env (Z.lor (b_c1 b) I2C_C1_IICIE_MASK) b).
Proof.
  intros H. rewrite write_c1_same; [|c1bits; done|revert H; c1bits; intros; by rewrite ?H]. eexists. split; [done|]. repeat split; c1bits; done.
Qed.

(** ** Start, repeated start, stop *)

Lemma go_master l t i r (w : W) (Q : unit -> W -> Prop) : rests l false t i false r (vw w) ->
  (forall d, rests (l ++ [Start]) true true i false r (view d) -> Q tt (with_hw d w)) ->
  wp (on_i2c (set_bits C1 (Z.lor I2C_C1_MST_MASK I2C_C1_TX_MASK))) Q w.
Proof.
  intros [R1 R2 R3 R4 R5 R6 R7 R8 R9 R10 R11] HQ. apply c1_set. intros d Hd. apply HQ. rewrite Hd. unfold write_c1. rewrite R4.
  assert (has (Z.lor (b_c1 (vw w)) (Z.lor I2C_C1_MST_MASK I2C_C1_TX_MASK)) I2C_C1_MST_MASK = true) as -> by (c1bits; done).
  split; try done; cbn; try (by rewrite R1); c1bits; done.
Qed.

Lemma go_restart l t i r (w : W) (Q : unit -> W -> Prop) : rests l true t i false r (vw w) ->
  (forall d, rests (l ++ [Restart]) true true i false r (view d) -> Q tt (with_hw d w)) ->
  wp (on_i2c (set_bits C1 (Z.lor I2C_C1_RSTA_MASK I2C_C1_TX_MASK))) Q w.
Proof.
  intros [R1 R2 R3 R4 R5 R6 R7 R8 R9 R10 R11] HQ. apply c1_set. intros d Hd. apply HQ. rewrite Hd. unfold write_c1. rewrite R4.
  assert (has (Z.lor (b_c1 (vw w)) (Z.lor I2C_C1_RSTA_MASK I2C_C1_TX_MASK)) I2C_C1_MST_MASK = true) as -> by (revert R4; c1bits; by intros ->).
  assert (has (Z.lor (b_c1 (vw w)) (Z.lor I2C_C1_RSTA_MASK I2C_C1_TX_MASK)) I2C_C1_RSTA_MASK = true) as -> by (c1bits; done).
  split; try done; cbn; try (by rewrite R1); c1bits; done.
Qed.

(** A register without a meaning for the bus is read or written. *)
Lemma other_read {B} r (k : Z -> M D B) d (Q : B -> D -> Prop) : r ∉ [S_; C1; D_] ->
  (forall x d', view d' = view d -> wp (k x) Q d') -> wp (x <- rd r ;; k x) Q d.
Proof. intros Hr HQ. rewrite wp_bind. unfold wp at 1, rd. assert (H := other_reads r d Hr). destruct (reg_read r d). by apply HQ. Qed.

Lemma other_update r m d (Q : unit -> D -> Prop) : r ∉ [S_; C1; D_] -> (forall d', view d' = view d -> Q tt d') -> wp (set_bits r m) Q d.
Proof.
  intros Hr HQ. unfold set_bits. apply other_read; [done|]. intros x d' Hd. unfold wp, wr. apply HQ. by rewrite other_writes.
Qed.

Lemma other_write r v d (Q : unit -> D -> Prop) : r ∉ [S_; C1; D_] -> (forall d', view d' = view d -> Q tt d') -> wp (wr r v) Q d.
Proof. intros Hr HQ. unfold wp, wr. apply HQ. by rewrite other_writes. Qed.
Lemma other_when (b : bool) m d (Q : unit -> D -> Prop) : (forall P : unit -> D -> Prop, (forall d', view d' = view d -> P tt d') -> wp m P d) ->
  (forall d', view d' = view d -> Q tt d') -> wp (when b m) Q d.
Proof. intros Hm HQ. destruct b; [by apply Hm|]. rewrite wp_ret. by apply HQ. Qed.

Lemma disable_run (w : W) (Q : unit -> W -> Prop) : restarts (vw w) = false -> (forall d, same_but_irq false (vw w) (view d) -> Q tt (with_hw d w)) ->
  wp (on_i2c (I2C_DisableInterrupts kI2C_GlobalInterruptEnable)) Q w.
Proof.
  intros HR HQ. unfold I2C_DisableInterrupts. assert (has kI2C_GlobalInterruptEnable kI2C_GlobalInterruptEnable = true) as ->.
  { unfold kI2C_GlobalInterruptEnable. by rewrite mask_iicie, has_pow2, Z.pow2_bits_true by lia. }
  rewrite wp_on_i2c, wp_bind. apply hw_clear. intros d1 H1. rewrite wp_bind.
  assert (Hf : forall m d (P : unit -> D -> Prop), (forall d', view d' = view d -> P tt d') -> wp (clear_bits8 FLT m) P d).
  { intros m d P HP. unfold clear_bits8. apply other_read; [other|]. intros x d' Hd'. apply other_write; [other|]. intros d2 Hd2. apply HP. congruence. }
  apply other_when; [apply Hf|]. intros d2 H2. apply other_when; [apply Hf|]. intros d3 H3. apply (HQ d3). rewrite H3, H2, H1. by apply irq_cleared.
Qed.
Lemma enable_run (w : W) (Q : unit -> W -> Prop) : restarts (vw w) = false -> (forall d, same_but_irq true (vw w) (view d) -> Q tt (with_hw d w)) ->
  wp (on_i2c (I2C_EnableInterrupts kI2C_GlobalInterruptEnable)) Q w.
Proof.
  intros HR HQ. unfold I2C_EnableInterrupts. assert (has kI2C_GlobalInterruptEnable kI2C_GlobalInterruptEnable = true) as ->.
  { unfold kI2C_GlobalInterruptEnable. by rewrite mask_iicie, has_pow2, Z.pow2_bits_true by lia. }
  rewrite wp_on_i2c, wp_bind. apply hw_set. intros d1 H1. rewrite wp_bind.
  assert (Hf : forall g d (P : unit -> D -> Prop), (forall d', view d' = view d -> P tt d') -> wp (x <- rd FLT ;; wr FLT (g x)) P d).
  { intros g d P HP. apply other_read; [other|]. intros x d' Hd'. apply other_write; [other|]. intros d2 Hd2. apply HP. congruence. }
  apply other_when; [apply Hf|]. intros d2 H2. apply other_when; [apply Hf|]. intros d3 H3. apply (HQ d3). rewrite H3, H2, H1. by apply irq_set.
Qed.

Lemma flag_kept (b : bool) s k : Z.testbit k 5 = false -> has (if b then Z.lor s k else s) I2C_S_BUSY_MASK = has s I2C_S_BUSY_MASK.
Proof. intros Hk. rewrite mask_busy, !has_pow2 by lia. destruct b; [|done]. by rewrite Z.lor_spec, Hk, orb_false_r. Qed.

Lemma get_status_any {B} (k : Z -> M W B) (w : W) (Q : B -> W -> Prop) :
  (forall s d, view d = poll env (vw w) -> has s I2C_S_BUSY_MASK = b_busy (view d) -> wp (k s) Q (with_hw d w)) -> wp (s <- on_i2c I2C_MasterGetStatusFlags ;; k s) Q w.
Proof.
  intros HQ. rewrite wp_bind, wp_on_i2c. unfold I2C_MasterGetStatusFlags. rewrite wp_bind.
  assert (H : forall s d, view d = poll env (vw w) -> has s I2C_S_BUSY_MASK = b_busy (view d) -> wp (if HAS_START_STOP_DETECT then
    x <- rd FLT ;; ret (if has x I2C_FLT_STARTF_MASK then Z.lor s kI2C_StartDetectFlag else s) else ret s) (fun s d => wp (k s) Q (with_hw d w)) d).
  { intros s d Hd Hs. destruct HAS_START_STOP_DETECT; [|rewrite wp_ret; by apply HQ]. apply other_read; [other|]. intros x d' Hd'. rewrite wp_ret.
    apply HQ; [congruence|]. rewrite flag_kept; [by rewrite Hd'|]. unfold kI2C_StartDetectFlag. rewrite mask_startf. done. }
  unfold wp at 1, rd. destruct (status_reads (i_hw w)) as (H1 & _ & H3 & _). fold (vw w) in *.
  destruct (reg_read S_ (i_hw w)) as [s d]. cbn [fst snd] in *. rewrite <- H1 in H3. rewrite wp_bind. destruct HAS_STOP; [|rewrite wp_ret; by apply H].
  apply other_read; [other|]. intros x d' Hd'. rewrite wp_ret. apply H; [congruence|]. rewrite flag_kept; [by rewrite Hd'|].
  unfold kI2C_StopDetectFlag. rewrite mask_stopf. done.
Qed.
Lemma get_status {B} l m t i f r (k : Z -> M W B) (w : W) (Q : B -> W -> Prop) : rests l m t i f r (vw w) ->
  (forall s d, view d = vw w -> has s I2C_S_BUSY_MASK = m -> wp (k s) Q (with_hw d w)) -> wp (s <- on_i2c I2C_MasterGetStatusFlags ;; k s) Q w.
Proof.
  intros [R1 R2 R3 R4 R5 R6 R7 R8 R9 R10 R11] HQ. apply get_status_any. intros s d Hd Hs.
  assert (E : poll env (vw w) = vw w) by (unfold poll, finish; by rewrite R3, R2). rewrite E in Hd. apply HQ; congruence.
Qed.

Lemma clear_flags_any (w : W) (Q : unit -> W -> Prop) :
  (forall d, view d = set_arbl false (set_if false (vw w)) -> Q tt (with_hw d w)) -> wp (on_i2c (I2C_MasterClearStatusFlags kClearFlags)) Q w.
Proof.
  intros HQ. rewrite wp_on_i2c. unfold I2C_MasterClearStatusFlags.
  assert (H1 : forall (b : bool) x d (P : unit -> D -> Prop), view d = vw w -> (forall d', view d' = vw w -> P tt d') -> wp (when b (set_bits FLT x)) P d).
  { intros b x d P Hd HP. destruct b; [|rewrite wp_ret; by apply HP]. apply other_update; [other|]. intros d' Hd'. apply HP. congruence. }
  assert (H2 : has (u8 kClearFlags) I2C_S_IICIF_MASK = true /\ has (u8 kClearFlags) I2C_S_ARBL_MASK = true).
  { unfold kClearFlags, kI2C_StartDetectFlag, kI2C_StopDetectFlag. rewrite mask_iicif, mask_arbl, mask_startf, mask_stopf, !has_pow2, !wrap_testbit by lia.
    by destruct HAS_START_STOP_DETECT, HAS_STOP_DETECT. }
  destruct H2 as [H2 H3]. rewrite wp_bind. apply H1; [done|]. intros d Hd. rewrite wp_bind. apply H1; [done|]. intros d' Hd'. unfold wp, wr. apply HQ.
  rewrite status_writes, Hd'. unfold write_s. by rewrite H2, H3.
Qed.
Lemma clear_flags_run l m t i f r (w : W) (Q : unit -> W -> Prop) : rests l m t i f r (vw w) ->
  (forall d, rests l m t i false r (view d) -> Q tt (with_hw d w)) -> wp (on_i2c (I2C_MasterClearStatusFlags kClearFlags)) Q w.
Proof.
  intros [R1 R2 R3 R4 R5 R6 R7 R8 R9 R10 R11] HQ. apply clear_flags_any. intros d Hd. apply HQ. rewrite Hd. by split.
Qed.

Lemma send_address_run l i r a dir (w : W) (Q : status_t -> W -> Prop) : rests l true true i false r (vw w) ->
  (forall d, works l (Sending (on_bus a dir)) i (view d) -> Q kStatus_Success (with_hw d w)) -> wp (send_address fuel a dir) Q w.
Proof.
  intros HR HQ. unfold send_address. rewrite address_byte_spec, wp_bind.
  assert (H : forall d, view d = vw w -> wp (if negb true then ret kStatus_I2C_Timeout else on_i2c (wr D_ (on_bus a dir)) ;; ret kStatus_Success) Q (with_hw d w)).
  { intros d Hd. cbn [negb]. rewrite wp_bind. eapply (send_run _ _ _ _ _ _ (with_hw d w)); [unfold vw; cbn [i_hw with_hw]; rewrite Hd; exact HR|done|done|].
    intros d' Hd'. rewrite wp_ret. by apply HQ. }
  destruct HAS_DOUBLE_BUFFERING; [|rewrite wp_ret; by apply (H (i_hw w))].
  unfold wait_reg. rewrite wp_on_i2c. assert (He := buffer_empty (i_hw w)). fold (vw w) in He. unfold transferring in He. rewrite (re_act _ _ _ _ _ _ _ HR) in He.
  specialize (He eq_refl). assert (Ho := other_reads S2 (i_hw w) ltac:(other)). assert (Hp := patient []). unfold waits in Hp.
  destruct (_ =? 0); [destruct fuel as [|n]; [lia|]; cbn [forever_loop]|destruct (Z.to_nat I2C_RETRY_TIMES) as [|n]; [lia|]; cbn [retry_loop]];
    rewrite wp_bind; unfold wp at 1, rd; destruct (reg_read S2 (i_hw w)) as [x d]; cbn [fst snd] in *; rewrite He; cbn [eqb]; rewrite wp_ret;
    by apply H.
Qed.

Lemma master_start_run l t i r a dir (w : W) (Q : status_t -> W -> Prop) : rests l false t i false r (vw w) ->
  (forall d, works (l ++ [Start]) (Sending (on_bus a dir)) i (view d) -> Q kStatus_Success (with_hw d w)) -> wp (I2C_MasterStart fuel a dir) Q w.
Proof.
  intros HR HQ. unfold I2C_MasterStart. apply (get_status _ _ _ _ _ _ _ _ _ HR). intros s d Hd ->. rewrite wp_bind.
  apply (go_master l t i r (with_hw d w)); [unfold vw; cbn [i_hw with_hw]; rewrite Hd; exact HR|]. intros d' HR'.
  by apply (send_address_run _ _ _ _ _ (with_hw d' (with_hw d w)) _ HR').
Qed.

Lemma restart_run l t i r a dir (w : W) (Q : status_t -> W -> Prop) : rests l true t i false r (vw w) ->
  (forall d, works (l ++ [Restart]) (Sending (on_bus a dir)) i (view d) -> Q kStatus_Success (with_hw d w)) ->
  wp (I2C_MasterRepeatedStart fuel a dir) Q w.
Proof.
  intros HR HQ. unfold I2C_MasterRepeatedStart. apply (get_status _ _ _ _ _ _ _ _ _ HR). intros s d Hd _. apply c1_read. intros d1 Hd1.
  assert (Hm : has (b_c1 (vw (with_hw d w))) I2C_C1_MST_MASK = true) by (unfold vw; cbn [i_hw with_hw]; rewrite Hd; apply HR). rewrite Hm. cbn [negb andb].
  rewrite wp_bind, wp_on_i2c. apply other_read; [other|]. intros x d2 Hd2. rewrite wp_bind. unfold wp at 1, wr.
  rewrite wp_bind. set (w2 := with_hw (reg_write F_ (bic8 x I2C_F_MULT_MASK) d2) w).
  assert (HR2 : rests l true t i false r (vw w2)).
  { unfold vw, w2. cbn [i_hw with_hw]. rewrite other_writes by other. rewrite Hd2. cbn [i_hw with_hw]. rewrite Hd1. unfold vw. cbn [i_hw with_hw]. by rewrite Hd. }
  assert (HG := go_restart l t i r w2 (fun _ w3 => wp (send_address fuel a dir) Q (with_hw (reg_write F_ x (i_hw w3)) w3)) HR2).
  rewrite wp_on_i2c in HG. apply HG. intros d3 HR3. refine (send_address_run _ _ _ _ _ _ _ _ _).
  - unfold vw. cbn [i_hw with_hw]. rewrite other_writes by other. exact HR3.
  - exact HQ.
Qed.

Lemma stop_data l t i f r (w : W) (Q : status_t -> W -> Prop) : rests l true t i f r (vw w) ->
  (forall d, rests (l ++ [Stop]) false false i f r (view d) -> b_data (view d) = b_data (vw w) -> Q kStatus_Success (with_hw d w)) -> wp (I2C_MasterStop fuel) Q w.
Proof.
  intros [R1 R2 R3 R4 R5 R6 R7 R8 R9 R10 R11] HQ. unfold I2C_MasterStop. rewrite wp_bind. apply c1_clear. intros d Hd. rewrite wp_bind.
  assert (Hv : vw (with_hw d w) = begin env Stopping (log Stop (set_c1 (bic8 (bic8 (b_c1 (vw w)) (Z.lor (Z.lor I2C_C1_MST_MASK I2C_C1_TX_MASK) I2C_C1_TXAK_MASK)) I2C_C1_RSTA_MASK) (vw w)))).
  { unfold vw at 1. cbn [i_hw with_hw]. rewrite Hd. unfold write_c1. rewrite R4.
    assert (has (bic8 (b_c1 (vw w)) (Z.lor (Z.lor I2C_C1_MST_MASK I2C_C1_TX_MASK) I2C_C1_TXAK_MASK)) I2C_C1_MST_MASK = false) as ->; [|done]. c1bits. done. }
  apply (wait_flag_run _ _ b_busy); [apply shows_busy| | |].
  - rewrite Hv. split; [done|]. split; [by intros; cbn; rewrite R11|done].
  - rewrite Hv. apply patient.
  - intros d' Hd'. rewrite wp_ret. apply HQ; rewrite Hd', Hv; [|done]. split; try done; cbn; try (by rewrite R1); c1bits; done.
Qed.
Lemma stop_run l t i f r (w : W) (Q : status_t -> W -> Prop) : rests l true t i f r (vw w) ->
  (forall d, rests (l ++ [Stop]) false false i f r (view d) -> Q kStatus_Success (with_hw d w)) -> wp (I2C_MasterStop fuel) Q w.
Proof. intros HR HQ. apply (stop_data _ _ _ _ _ _ _ HR). auto. Qed.

Lemma set_tx_data l t i f r (w : W) (Q : unit -> W -> Prop) : rests l true t i f r (vw w) ->
  (forall d, rests l true true i f r (view d) -> b_data (view d) = b_data (vw w) -> Q tt (with_hw d w)) -> wp (on_i2c (set_bits C1 I2C_C1_TX_MASK)) Q w.
Proof.
  intros [R1 R2 R3 R4 R5 R6 R7 R8 R9 R10 R11] HQ. apply c1_set. intros d Hd. rewrite write_on in Hd; [|done|done|c1bits; done].
  apply HQ; rewrite Hd; [|done]. split; try done; revert R4 R6; c1bits; intros; done.
Qed.

(** Another master has the bus. *)
Definition taken (l : trace) (i : bool) (b : bus) : Prop := quiet_at l b /\ master b = false /\ irq b = i /\ restarts b = false.
(** The bus as a transfer leaves it. *)
Definition left_as (i : bool) (x : result) (b : bus) : Prop :=
  match r_bus x with
  | Released => exists t f r, rests (r_trace x) false t i f r b
  | Held => exists f r, rests (r_trace x) true true i f r b
  | Taken => taken (r_trace x) i b
  end.

(** ** Errors *)

Lemma check_rests s r (w : W) (Q : status_t -> W -> Prop) : has s I2C_S_RXAK_MASK = r -> has s I2C_S_ARBL_MASK = false ->
  Q (if r then kStatus_I2C_Nak else kStatus_Success) w -> wp (I2C_CheckAndClearError s) Q w.
Proof. intros H1 H2 HQ. unfold I2C_CheckAndClearError. rewrite H2, wp_ret, H1. exact HQ. Qed.

Lemma write_s_kept v b : b_log (write_s v b) = b_log b /\ b_act (write_s v b) = b_act b /\ b_c1 (write_s v b) = b_c1 b.
Proof. unfold write_s. destruct (has v I2C_S_IICIF_MASK), (has v I2C_S_ARBL_MASK); repeat split. Qed.

Lemma check_lost s l i (w : W) (Q : status_t -> W -> Prop) : lost l i (vw w) -> has s I2C_S_ARBL_MASK = true ->
  (forall d, taken l i (view d) -> Q kStatus_I2C_ArbitrationLost (with_hw d w)) ->
  wp (I2C_CheckAndClearError s) Q w.
Proof.
  intros [R1 R2 R3 R4 R5 RR R7 R8] H2 HQ. unfold I2C_CheckAndClearError. rewrite H2, wp_bind, wp_on_i2c. unfold wp at 1, wr. rewrite wp_ret.
  destruct (write_s_kept I2C_S_ARBL_MASK (vw w)) as (E1 & E2 & E3). apply HQ. rewrite status_writes. fold (vw w). split; [split; [by rewrite E1|by rewrite E2]|split].
  - unfold master. rewrite E3. exact R4.
  - split; [unfold irq|unfold restarts]; by rewrite E3.
Qed.

Lemma wr_status v (w : W) (Q : unit -> W -> Prop) : (forall d, view d = write_s v (vw w) -> Q tt (with_hw d w)) -> wp (on_i2c (wr S_ v)) Q w.
Proof. intros HQ. rewrite wp_on_i2c. unfold wp, wr. apply HQ. by rewrite status_writes. Qed.
Lemma write_s_rxak b : write_s I2C_S_RXAK_MASK b = b.
Proof. unfold write_s. by rewrite mask_iicif, mask_arbl, mask_rxak, !has_pow2, !Z.pow2_bits_eqb by lia. Qed.
Lemma with_hw_same (w : W) : with_hw (i_hw w) w = w.
Proof. by destruct w. Qed.

(** ** Receiving *)

(** A byte is being received: whether it will be acknowledged. *)
Definition receives (l : trace) (i ack : bool) (b : bus) : Prop := works l Receiving i b /\ nacks b = negb ack.

Lemma read_begins l i f r (w : W) (Q : Z -> W -> Prop) : rests l true false i f r (vw w) -> f = false ->
  (forall d, receives l i (negb (nacks (vw w))) (view d) -> Q (b_data (vw w)) (with_hw d w)) -> wp read_data Q w.
Proof.
  intros [R1 R2 R3 R4 R5 R6 R7 R8 R9 R10 R11] -> HQ. unfold read_data. rewrite wp_on_i2c. unfold wp, rd. destruct (data_reads (i_hw w)) as [H1 H2].
  destruct (reg_read D_ (i_hw w)) as [x d]. cbn [fst snd] in *. rewrite H1. fold (vw w) in *. apply HQ. rewrite H2. unfold read_d. rewrite R4, R5, R2.
  cbn [andb negb]. rewrite bool_decide_true by done. split; [|by rewrite negb_involutive]. split; try done. cbn. rewrite R1. apply patient.
Qed.

(** Not as a master that receives: only the register is read. *)
Lemma read_plain l m t i f r (w : W) (Q : Z -> W -> Prop) : rests l m t i f r (vw w) -> m && negb t = false ->
  (forall d, rests l m t i f r (view d) -> Q (b_data (vw w)) (with_hw d w)) -> wp read_data Q w.
Proof.
  intros HR Hm HQ. unfold read_data. rewrite wp_on_i2c. unfold wp, rd. destruct (data_reads (i_hw w)) as [H1 H2].
  destruct (reg_read D_ (i_hw w)) as [x d]. cbn [fst snd] in *. rewrite H1. fold (vw w) in *. apply HQ. rewrite H2. unfold read_d.
  rewrite (re_master _ _ _ _ _ _ _ HR), (re_tx _ _ _ _ _ _ _ HR), Hm. exact HR.
Qed.

Lemma nack_last_run (no_fack : I2C_MASTER_FACK_CONTROL = false) l i k (w : W) (Q : unit -> W -> Prop) : receives l i k (vw w) ->
  (forall d, receives l i false (view d) -> Q tt (with_hw d w)) -> wp nack_last Q w.
Proof.
  intros [[W1 W2 W3 W4 W5 W6 W7 W9 W10 W11] Hk] HQ. unfold nack_last. rewrite no_fack, wp_bind. apply c1_set. intros d Hd. rewrite wp_ret.
  apply HQ. rewrite write_on in Hd; [|done|done|c1bits; done]. rewrite Hd. split; [split; try done|]; revert W4 W5 W6; c1bits; intros; done.
Qed.

Lemma begin_receive_run (no_fack : I2C_MASTER_FACK_CONTROL = false) l t i f r (w : W) (Q : unit -> W -> Prop) : rests l true t i f r (vw w) -> f = false ->
  (forall d, receives l i true (view d) -> Q tt (with_hw d w)) -> wp begin_receive Q w.
Proof.
  intros [R1 R2 R3 R4 R5 R6 R7 R8 R9 R10 R11] -> HQ. unfold begin_receive. rewrite no_fack, wp_bind, wp_ret, wp_bind. apply c1_clear. intros d Hd.
  set (m := Z.lor I2C_C1_TX_MASK I2C_C1_TXAK_MASK) in *.
  assert (Hv : view d = set_c1 (bic8 (bic8 (b_c1 (vw w)) m) I2C_C1_RSTA_MASK) (vw w)).
  { rewrite Hd. unfold write_c1. rewrite R4. assert (has (bic8 (b_c1 (vw w)) m) I2C_C1_MST_MASK = true) as -> by (revert R4; unfold m; c1bits; intros; done).
    assert (has (bic8 (b_c1 (vw w)) m) I2C_C1_RSTA_MASK = false) as ->; [|done]. revert R7; unfold m; c1bits; intros; done. }
  assert (HR : rests l true false i false r (vw (with_hw d w))).
  { unfold vw at 1. cbn [i_hw with_hw]. rewrite Hv. split; try done; revert R4 R6; unfold m; c1bits; intros; done. }
  rewrite wp_bind. apply (read_begins _ _ _ _ _ _ HR); [done|]. intros d2 H2. rewrite wp_ret. apply (HQ d2).
  assert (nacks (vw (with_hw d w)) = false) as E; [|by rewrite E in H2]. unfold vw at 1. cbn [i_hw with_hw]. rewrite Hv. unfold m. c1bits. done.
Qed.
End Signals.
