(* ===== verification/I2cPolled.v ===== *)
(** * Polled transfers

    [I2C_MasterTransferBlocking] does on the bus what [transact] says, for any
    environment; but a byte of data that is refused is reported as a
    success. *)

From stdpp Require Import base list numbers tactics.
From Stdlib Require Import ZArith Lia.
From S2P Require Import Prelude Bytes Mmio I2c I2cBus I2cSignals.

Open Scope Z_scope.
Open Scope prog_scope.

Section Polled.
Context {D A : Type} `{!Device i2c_reg D} {F : I2cFields} {X : I2cFeatures} {MK : I2cMasks} {L : I2cLaws (D := D)}.
Abbreviation W := (i2c_world D A).
Context (fuel : nat) (patient : forall l, (lasts env l < waits fuel)%nat).
Context (no_fack : I2C_MASTER_FACK_CONTROL = false).

(** A byte under way ends in one of three ways. *)
Lemma byte_sent_run l x i nak k (w : W) (Q : status_t -> W -> Prop) : works fuel l (Sending x) i (vw w) ->
  match answers env l x with
  | Ack => forall d, rests (l ++ [Sent x true]) true true i true false (view d) -> wp k Q (with_hw d w)
  | Nak => forall d t f r, rests ((l ++ [Sent x false]) ++ [Stop]) false t i f r (view d) -> Q nak (with_hw d w)
  | Lost => forall d, taken (l ++ [Arbitration x]) i (view d) -> Q kStatus_I2C_ArbitrationLost (with_hw d w)
  end -> wp (byte_sent fuel nak k) Q w.
Proof.
  intros HW HQ. unfold byte_sent. apply (wait_byte _ _ _ _ _ _ _ _ HW); [done|done|]. intros d Hd. assert (HF := finish_sent fuel _ _ _ _ HW).
  rewrite <- Hd in HF. destruct (answers env l x).
  - apply (read_status _ _ _ _ _ _ _ (with_hw d w) _ HF). intros s d2 Hd2 Hr Ha _. rewrite wp_bind. apply (check_rests _ _ _ _ Hr Ha).
    apply (HQ d2). rewrite Hd2. exact HF.
  - apply (read_status _ _ _ _ _ _ _ (with_hw d w) _ HF). intros s d2 Hd2 Hr Ha _. rewrite wp_bind. apply (check_rests _ _ _ _ Hr Ha).
    change (wp (I2C_MasterStop fuel ;; ret nak) Q (with_hw d2 (with_hw d w))). rewrite wp_bind.
    refine (stop_run fuel patient _ _ _ _ _ _ _ _ _); [unfold vw; cbn [i_hw with_hw]; rewrite Hd2; exact HF|]. intros d3 H3. rewrite wp_ret.
    by eapply (HQ d3).
  - apply (read_status_lost _ _ _ (with_hw d w) _ HF). intros s d2 Hd2 Hr Ha. rewrite wp_bind.
    apply (check_lost s (l ++ [Arbitration x]) i); [unfold vw; cbn [i_hw with_hw]; rewrite Hd2; exact HF|done|]. intros d3 H3.
    change (wp (ret kStatus_I2C_ArbitrationLost) Q (with_hw d3 (with_hw d2 (with_hw d w)))). rewrite wp_ret. by apply (HQ d3).
Qed.

(** ** Data *)


Lemma i2c_write_loop_run n : forall l i r p (w : W) (Q : status_t -> W -> Prop), rests l true true i false r (vw w) ->
  (match sends_data env l (bytes_at (i_mem w) p (Z.of_nat n)) with
   | (l', Ack) => forall d r', rests l' true true i false r' (view d) -> Q kStatus_Success (with_hw d w)
   | (l', Nak) => forall d, rests l' true true i false true (view d) -> Q kStatus_I2C_Nak (with_hw d w)
   | (l', Lost) => forall d, taken l' i (view d) -> Q kStatus_I2C_ArbitrationLost (with_hw d w)
   end) -> wp (write_loop fuel n p) Q w.
Proof.
  induction n as [|n IH]; intros l i r p w Q HR HQ; cbn [write_loop].
  - rewrite wp_ret, <- (with_hw_same w). apply (HQ (i_hw w) r HR).
  - rewrite bytes_at_next in HQ. cbn [sends_data] in HQ. rewrite wp_bind, wp_load, wp_bind. set (x := i_mem w p) in *.
    apply (send_run fuel patient _ _ _ _ _ _ _ _ HR); [done|done|]. intros d HW.
    apply (wait_byte fuel _ _ _ _ _ (with_hw d w) _ HW); [done|done|]. intros d1 Hd1. assert (HF := finish_sent fuel _ _ _ _ HW).
    change (view d) with (vw (with_hw d w)) in HF. rewrite <- Hd1 in HF. change (view d1) with (vw (with_hw d1 w)) in HF. destruct (answers env l x).
    + apply (read_status _ _ _ _ _ _ _ (with_hw d1 w) _ HF). intros s d2 Hd2 Hr Ha _. rewrite wp_bind. rewrite <- Hd2 in HF.
      apply (clear_pending_run _ _ _ _ _ _ (with_hw d2 w) _ HF). intros d3 H3. rewrite Hr, Ha. cbn [andb]. rewrite !wp_bind, !wp_ret.
      exact (IH (l ++ [Sent x true]) i false (p + 1) (with_hw d3 w) Q H3 HQ).
    + apply (read_status _ _ _ _ _ _ _ (with_hw d1 w) _ HF). intros s d2 Hd2 Hr Ha _. rewrite wp_bind. rewrite <- Hd2 in HF.
      apply (clear_pending_run _ _ _ _ _ _ (with_hw d2 w) _ HF). intros d3 H3. rewrite Hr, Ha. cbn [andb]. rewrite wp_bind, wp_ret.
      destruct n as [|n]; cbn [Nat.eqb negb].
      * rewrite wp_bind, wp_ret. cbn [write_loop]. rewrite wp_ret. by apply (HQ d3 true).
      * rewrite wp_bind. apply wr_status. rewrite write_s_rxak. intros d4 H4. rewrite wp_ret. rewrite bytes_at_next in HQ. apply (HQ d4). rewrite H4. exact H3.
    + apply (read_status_lost _ _ _ (with_hw d1 w) _ HF). intros s d2 Hd2 Hr Ha. rewrite wp_bind. rewrite Hr, Ha. cbn [andb].
      apply wr_status. intros d3 H3. rewrite wp_bind. apply wr_status. intros d4 H4. rewrite wp_bind, !wp_ret. apply (HQ d4).
      rewrite H4. unfold vw; cbn [i_hw with_hw]. rewrite H3. unfold vw; cbn [i_hw with_hw]. rewrite Hd2.
      destruct (write_s_kept I2C_S_ARBL_MASK (write_s I2C_S_IICIF_MASK (view d1))) as (E1 & E2 & E5), (write_s_kept I2C_S_IICIF_MASK (view d1)) as (E3 & E4 & E6).
      change (vw (with_hw d1 w)) with (view d1). unfold taken, quiet_at, master, irq, restarts. rewrite E1, E2, E3, E4, E5, E6. repeat split; apply HF.
Qed.

Lemma wp_stop l t i f r (w : W) (Q : status_t -> W -> Prop) : rests l true t i f r (vw w) ->
  (forall d, rests (l ++ [Stop]) false false i false r (view d) -> Q kStatus_Success (with_hw d w)) -> wp (clear_pending ;; I2C_MasterStop fuel) Q w.
Proof.
  intros HR HQ. rewrite wp_bind. apply (clear_pending_run _ _ _ _ _ _ _ _ HR). intros d H.
  by apply (stop_run fuel patient _ _ _ _ _ (with_hw d w) _ H).
Qed.

Lemma write_blocking_run l t i f r p n fl (w : W) (Q : status_t -> W -> Prop) : rests l true t i f r (vw w) ->
  let x := if_sent kStatus_Success (sends_data env l (bytes_at (i_mem w) p n)) (fun l => close fl l []) in
  (forall d, left_as i x (view d) -> Q (r_status x) (with_hw d w)) -> wp (I2C_MasterWriteBlocking fuel p n fl) Q w.
Proof.
  intros HR x HQ. unfold I2C_MasterWriteBlocking. apply (wait_complete fuel patient _ _ _ _ _ _ _ _ _ _ HR). intros d1 H1. rewrite wp_bind.
  rewrite <- H1 in HR. apply (clear_pending_run _ _ _ _ _ _ (with_hw d1 w) _ HR). intros d2 H2. rewrite wp_bind.
  apply (set_tx_data _ _ _ _ _ (with_hw d2 w) _ H2). intros d3 H3 _. rewrite wp_bind.
  apply (i2c_write_loop_run _ _ _ _ _ (with_hw d3 w) _ H3). cbn [i_mem with_hw]. unfold bytes_at at 1. rewrite Nat2Z.id. fold (bytes_at (i_mem w) p n).
  unfold x, if_sent in HQ. destruct (sends_data env l (bytes_at (i_mem w) p n)) as [l' [| |]]; cbn [fst snd] in HQ.
  - intros d r' H4. unfold close in *.
    destruct (no_stop fl); cbn [negb andb orb].
    + change (wp (ret kStatus_Success) Q (with_hw d w)). rewrite wp_ret. apply (HQ d). by exists false, r'.
    + apply (wp_stop _ _ _ _ _ (with_hw d w) _ H4). intros d5 H5. apply (HQ d5). by eexists _, _, _.
  - intros d H4. apply (wp_stop _ _ _ _ _ (with_hw d w) _ H4). intros d5 H5. apply (HQ d5). by eexists _, _, _.
  - intros d H4. by apply (HQ d).
Qed.

Lemma last_byte_run s l m t i f r p (w : W) (Q : status_t -> W -> Prop) : rests l m t i f r (vw w) -> m && negb t = false ->
  (forall d, rests l m t i false r (view d) -> Q s (with_mem (mem_write p [b_data (vw w)] (i_mem w)) (with_hw d w))) ->
  wp (clear_pending ;; b <- read_data ;; store p b ;; when (I2C_MASTER_FACK_CONTROL && false) I2C_MasterAckByte ;; ret tt ;; ret s) Q w.
Proof.
  intros HR Hm HQ. rewrite wp_bind. apply (clear_pending_data _ _ _ _ _ _ _ _ HR). intros d H Hd _. rewrite wp_bind.
  apply (read_plain _ _ _ _ _ _ (with_hw d w) _ H Hm). intros d2 H2. rewrite wp_bind, wp_store, andb_false_r, !wp_bind, !wp_ret.
  change (vw (with_hw d w)) with (view d). rewrite Hd. by apply (HQ d2).
Qed.

Lemma read_loop_next n p fl s : read_loop (D := D) (A := A) fuel (S n) p fl s =
  wait_then fuel kStatus_I2C_Timeout I2C_S_IICIF_MASK (
    result <- (if (n =? 0)%nat then
        if negb (no_stop fl) then I2C_MasterStop fuel else on_i2c (set_bits C1 I2C_C1_TX_MASK) ;; ret s
      else ret s) ;;
    clear_pending ;;
    b <- read_data ;;
    store p b ;;
    when (I2C_MASTER_FACK_CONTROL && negb (n =? 0)%nat) I2C_MasterAckByte ;;
    when (n =? 1)%nat nack_last ;;
    read_loop fuel n (p + 1) fl result).
Proof. done. Qed.

Lemma i2c_read_loop_run n : forall l i p fl (w : W) (Q : status_t -> W -> Prop), receives fuel l i (negb (n =? 0)%nat) (vw w) ->
  (let '(l', xs) := obtains env l (S n) in let x := close fl l' xs in
   forall d m, left_as i x (view d) -> (forall y, m y = mem_write p xs (i_mem w) y) -> Q (r_status x) (with_mem m (with_hw d w))) ->
  wp (read_loop fuel (S n) p fl kStatus_Success) Q w.
Proof.
  induction n as [|n IH]; intros l i p fl w Q [HW Hk] HQ; rewrite read_loop_next; rewrite obtains_next in HQ; set (x := supplies env l) in *;
    (apply (wait_byte fuel _ _ _ _ _ w _ HW); [done|done|]; intros d1 H1; destruct (finish_got fuel _ _ _ _ HW Hk) as (HF & HD & HN); rewrite <- H1 in *;
     change (view d1) with (vw (with_hw d1 w)) in *; cbn [Nat.eqb negb andb] in *); rewrite wp_bind.
  - cbn [obtains Nat.eqb negb] in HQ. unfold close in HQ. destruct (no_stop fl); cbn [negb r_status] in *.
    + rewrite wp_bind. apply (set_tx_data _ _ _ _ _ (with_hw d1 w) _ HF). intros d2 H2 E2. rewrite wp_ret.
      apply (last_byte_run _ _ _ _ _ _ _ _ (with_hw d2 w) _ H2); [done|]. change (vw (with_hw d2 w)) with (view d2). rewrite E2, HD.
      intros d3 H3. apply (HQ d3); [by exists false, true|done].
    + apply (stop_data fuel patient _ _ _ _ _ (with_hw d1 w) _ HF). intros d2 H2 E2.
      apply (last_byte_run _ _ _ _ _ _ _ _ (with_hw d2 w) _ H2); [done|]. change (vw (with_hw d2 w)) with (view d2). rewrite E2, HD.
      intros d3 H3. apply (HQ d3); [by eexists _, _, _|done].
  - rewrite wp_ret, wp_bind. apply (clear_pending_data _ _ _ _ _ _ (with_hw d1 w) _ HF). intros d2 H2 E2 N2. rewrite wp_bind.
    apply (read_begins fuel patient _ _ _ _ (with_hw d2 w) _ H2); [done|]. change (vw (with_hw d2 w)) with (view d2). rewrite E2, N2, HD, HN. intros d3 H3.
    rewrite wp_bind, wp_store, no_fack. cbn [andb]. rewrite wp_bind, wp_ret. set (w3 := with_mem _ _). fold x in H3, w3.
    assert (HT : forall d, receives fuel (l ++ [Got x true]) i (negb (n =? 0)%nat) (view d) -> wp (read_loop fuel (S n) (p + 1) fl kStatus_Success) Q (with_hw d w3)).
    { intros d Hr. apply (IH _ i (p + 1) fl (with_hw d w3) Q Hr). cbn [Nat.eqb negb] in HQ. destruct (obtains env (l ++ [Got x true]) (S n)) as [l' xs]. intros d' m Hl Hm.
      rewrite (close_bytes fl l' xs (x :: xs)) in *. apply (HQ d' m).
      - revert Hl. unfold close. by destruct (no_stop fl).
      - intros y. rewrite Hm. apply mem_write_next. }
    rewrite wp_bind. destruct n as [|n]; cbn [Nat.eqb].
    + apply (nack_last_run fuel no_fack _ _ _ w3 _ H3). intros d4 H4. by apply HT.
    + rewrite wp_ret. rewrite <- (with_hw_same w3). by apply HT.
Qed.

Lemma read_blocking_run l t i f r p n fl (w : W) (Q : status_t -> W -> Prop) : rests l true t i f r (vw w) -> 0 < n ->
  (let '(l', xs) := obtains env l (Z.to_nat n) in let x := close fl l' xs in
   forall d m, left_as i x (view d) -> (forall y, m y = mem_write p xs (i_mem w) y) -> Q (r_status x) (with_mem m (with_hw d w))) ->
  wp (I2C_MasterReadBlocking fuel p n fl) Q w.
Proof.
  intros HR Hn HQ. unfold I2C_MasterReadBlocking. apply (wait_complete fuel patient _ _ _ _ _ _ _ _ _ _ HR). intros d1 H1. rewrite wp_bind.
  rewrite <- H1 in HR. apply (clear_pending_run _ _ _ _ _ _ (with_hw d1 w) _ HR). intros d2 H2. rewrite wp_bind.
  apply (begin_receive_run fuel patient no_fack _ _ _ _ _ (with_hw d2 w) _ H2); [done|]. intros d3 H3. rewrite wp_bind.
  assert (E : Z.to_nat n = S (Z.to_nat (n - 1))) by lia. rewrite E in *.
  assert (Hn1 : (Z.to_nat (n - 1) =? 0)%nat = (n =? 1)) by (destruct (Nat.eqb_spec (Z.to_nat (n - 1)) 0), (Z.eqb_spec n 1); lia).
  destruct (n =? 1) eqn:E1.
  - apply (nack_last_run fuel no_fack _ _ _ (with_hw d3 w) _ H3). intros d4 H4. apply (i2c_read_loop_run _ l i p fl (with_hw d4 w) Q); [by rewrite Hn1|exact HQ].
  - rewrite wp_ret. apply (i2c_read_loop_run _ l i p fl (with_hw d3 w) Q); [by rewrite Hn1|exact HQ].
Qed.

(** ** Phases *)

(** [Q] holds of all that a transfer may leave that does [x]. *)
Definition finishes (w : W) (i : bool) (p : Z) (x : result) (Q : status_t -> W -> Prop) : Prop :=
  forall d m n, left_as i x (view d) -> (forall y, m y = mem_write p (r_bytes x) (i_mem w) y) -> (r_status x = kStatus_Success -> n = 0) ->
    Q (r_status x) (with_left n (with_mem m (with_hw d w))).

(** Nothing was received. *)
Lemma finishes_plain (w : W) i p x Q d : finishes w i p x Q -> r_bytes x = [] -> (r_status x = kStatus_Success -> i_xfer_left w = 0) ->
  left_as i x (view d) -> Q (r_status x) (with_hw d w).
Proof.
  intros HF Hb Hs Hl. apply (HF d (i_mem w) (i_xfer_left w) Hl); [|done]. intros y. by rewrite Hb, mem_write_nothing.
Qed.

Lemma byte_phase l x xs i nak p K k (w : W) (Q : status_t -> W -> Prop) : works fuel l (Sending x) i (vw w) -> nak <> kStatus_Success ->
  finishes w i p (if_sent nak (sends env l (x :: xs)) K) Q ->
  (forall d, rests (l ++ [Sent x true]) true true i true false (view d) -> finishes w i p (if_sent nak (sends env (l ++ [Sent x true]) xs) K) Q -> wp k Q (with_hw d w)) ->
  wp (byte_sent fuel nak k) Q w.
Proof.
  intros HW Hnak HF HK. apply (byte_sent_run _ _ _ _ _ _ _ HW). cbn [sends] in HF. destruct (answers env l x); unfold if_sent in HF at 1; cbn [fst snd] in HF.
  - auto.
  - intros d t f r H. refine (finishes_plain _ _ _ _ _ d HF _ _ _); [done|done|by eexists _, _, _].
  - intros d H. by refine (finishes_plain _ _ _ _ _ d HF _ _ _).
Qed.

Lemma sends_data_plain l xs fl : r_bytes (if_sent kStatus_Success (sends_data env l xs) (fun l => close fl l [])) = [].
Proof. unfold if_sent, close. destruct (sends_data env l xs) as [l' [| |]]; cbn [fst snd]; [by destruct (no_stop fl)|done|done]. Qed.

Lemma transfer_data_run t l i f r (w : W) (Q : status_t -> W -> Prop) : rests l true true i f r (vw w) -> i_xfer_left w = 0 ->
  0 <= dataSize t -> (direction t = kI2C_Read -> 0 < dataSize t) ->
  finishes w i (data t) (data_phase env kStatus_Success t (bytes_at (i_mem w) (data t) (dataSize t)) l) Q -> wp (transfer_data fuel t) Q w.
Proof.
  intros HR HL Hn Hr HF. unfold transfer_data. unfold data_phase in HF. destruct (direction t).
  - destruct (Z.ltb_spec 0 (dataSize t)).
    + apply (write_blocking_run _ _ _ _ _ _ _ _ _ _ HR). intros d Hd. refine (finishes_plain _ _ _ _ _ d HF _ _ Hd); [apply sends_data_plain|done].
    + rewrite bytes_at_nothing in HF by done. cbn [sends_data if_sent fst snd] in HF. unfold close in HF. destruct (no_stop (flags t)); cbn [negb].
      * rewrite wp_ret, <- with_hw_same. refine (finishes_plain _ _ _ _ _ _ HF _ _ _); [done|done|by eexists _, _].
      * apply (stop_run fuel patient _ _ _ _ _ _ _ HR). intros d Hd. refine (finishes_plain _ _ _ _ _ _ HF _ _ _); [done|done|by eexists _, _, _].
  - specialize (Hr eq_refl). rewrite (proj2 (Z.ltb_lt _ _)) by done. apply (read_blocking_run _ _ _ _ _ _ _ _ _ _ HR Hr).
    destruct (obtains env l (Z.to_nat (dataSize t))) as [l' xs]. intros x d m Hd Hm. apply (HF d m (i_xfer_left w) Hd); [|done].
    intros y. rewrite Hm. unfold x, close. by destruct (no_stop (flags t)).
Qed.

Lemma command_loop_run n : forall t l i f r p K k (w : W) (Q : status_t -> W -> Prop), rests l true true i f r (vw w) -> i_xfer_left w = Z.of_nat n ->
  finishes w i p (if_sent kStatus_I2C_Nak (sends env l (big_endian n (subaddress t))) K) Q ->
  (forall d l' f r, rests l' true true i f r (view d) -> finishes w i p (K l') Q -> wp k Q (with_left 0 (with_hw d w))) ->
  wp (command_loop fuel n t k) Q w.
Proof.
  induction n as [|n IH]; intros t l i f r p K k w Q HR HL HF HK; cbn [command_loop].
  - assert (E : with_left 0 (with_hw (i_hw w) w) = w) by (destruct w; cbn in HL; by subst). rewrite <- E. by eapply HK.
  - rewrite wp_bind. apply (clear_pending_run _ _ _ _ _ _ _ _ HR). intros d1 H1. rewrite wp_bind, wp_set_left, wp_bind.
    set (w1 := with_left (Z.of_nat n) (with_hw d1 w)). apply (send_run fuel patient l true i false r _ w1 _ H1); [done|done|]. intros d2 H2.
    rewrite command_byte_spec in H2. cbn [big_endian] in HF. set (cmd := big_endian _ _) in HF. apply (byte_phase l _ cmd i _ p K _ (with_hw d2 w1) Q H2); [done|exact HF|].
    intros d3 H3 HF3. exact (IH t _ i _ _ p K k (with_hw d3 w1) Q H3 eq_refl HF3 HK).
Qed.

Abbreviation payload t w := (bytes_at (i_mem w) (data t) (dataSize t)).
(** A transfer the driver can do. *)
Definition proper (t : i2c_master_transfer) : Prop := 0 <= subaddressSize t /\ 0 <= dataSize t /\ (direction t = kI2C_Read -> 0 < dataSize t).

Lemma after_address_run t l i f r (w : W) (Q : status_t -> W -> Prop) : rests l true true i f r (vw w) -> i_xfer_left w = subaddressSize t -> proper t ->
  finishes w i (data t) (if subaddressSize t =? 0 then data_phase env kStatus_Success t (payload t w) l
    else if_sent kStatus_I2C_Nak (sends env l (command t)) (after_command env kStatus_Success kStatus_I2C_Addr_Nak t (payload t w))) Q ->
  wp (after_address fuel t) Q w.
Proof.
  intros HR HL (Hs & Hd & Hr) HF. unfold after_address. destruct (Z.eqb_spec (subaddressSize t) 0) as [E|E].
  - eapply transfer_data_run; [exact HR|congruence|exact Hd|exact Hr|exact HF].
  - refine (command_loop_run _ t l i f r _ _ _ w Q HR _ HF _); [lia|]. intros d l' f' r' HR' HF'. unfold after_command in HF'.
    set (w1 := with_left 0 (with_hw d w)). destruct (direction t) eqn:Ed.
    + by refine (transfer_data_run t l' i f' r' w1 Q HR' _ Hd _ HF'); [|rewrite Ed].
    + rewrite wp_bind. apply (clear_pending_run _ _ _ _ _ _ w1 _ HR'). intros d2 H2. rewrite wp_bind.
      apply (restart_run fuel patient _ _ _ _ _ _ (with_hw d2 w1) _ H2). intros d3 H3.
      apply (byte_phase _ _ [] i _ (data t) (data_phase env kStatus_Success t (payload t w)) _ (with_hw d3 w1) Q H3); [done|exact HF'|].
      intros d4 H4 HF4. by refine (transfer_data_run t _ i _ _ (with_hw d4 w1) Q H4 _ Hd _ HF4); [|rewrite Ed].
Qed.

Lemma transfer_blocking_run t l tx f r (w : W) (Q : status_t -> W -> Prop) : has (flags t) kI2C_TransferNoStartFlag = false -> proper t ->
  rests l (has (flags t) kI2C_TransferRepeatedStartFlag) tx false f r (vw w) ->
  finishes w false (data t) (transact env kStatus_Success kStatus_I2C_Addr_Nak t (payload t w) l) Q -> wp (I2C_MasterTransferBlocking fuel t) Q w.
Proof.
  intros Hns Hp HR HF. unfold I2C_MasterTransferBlocking. rewrite wp_bind, wp_set_left, wp_bind.
  set (w1 := with_left (subaddressSize t) w). apply (clear_flags_run _ _ _ _ _ _ w1 _ HR). intros d1 H1.
  apply (wait_complete fuel patient _ _ _ _ _ _ _ _ (with_hw d1 w1) _ H1). intros d2 H2. change (vw (with_hw d1 w1)) with (view d1) in H2. rewrite <- H2 in H1.
  rewrite Hns. set (w2 := with_hw d2 w1). unfold transact in HF. rewrite wp_bind.
  set (K := fun l => if subaddressSize t =? 0 then _ else _) in HF.
  assert (HB : forall l' d, works fuel l' (Sending (on_bus (slaveAddress t) (first_direction t))) false (view d) ->
    finishes (with_hw d w1) false (data t) (if_sent kStatus_I2C_Addr_Nak (sends env l' [on_bus (slaveAddress t) (first_direction t)]) K) Q ->
    wp (byte_sent fuel kStatus_I2C_Addr_Nak (after_address fuel t)) Q (with_hw d w1)).
  { intros l' d Hw HF'. eapply (byte_phase l' _ [] _ _ _ K _ (with_hw d w1)); [exact Hw|done|exact HF'|]. intros d' H' HF2.
    by eapply (after_address_run t _ _ _ _ (with_hw d' w1)). }
  destruct (has (flags t) kI2C_TransferRepeatedStartFlag).
  - apply (restart_run fuel patient _ _ _ _ _ _ w2 _ H1). intros d3 H3. by apply (HB _ d3 H3).
  - apply (master_start_run fuel patient _ _ _ _ _ _ w2 _ H1). intros d3 H3. by apply (HB _ d3 H3).
Qed.

(** The same on the bus, and the same status, except that the refusal of a
    byte of data written is [kStatus_I2C_Nak] in [y] and a success in [x]. *)
Definition nak_hidden (t : i2c_master_transfer) (x y : result) : Prop :=
  r_trace x = r_trace y /\ r_bytes x = r_bytes y /\ r_bus x = r_bus y /\
  (r_status x = r_status y \/ direction t = kI2C_Write /\ r_status x = kStatus_Success /\ r_status y = kStatus_I2C_Nak).
Lemma nak_hidden_refl t x : nak_hidden t x x.
Proof. repeat split. by left. Qed.
Lemma nak_hidden_sent t nak lr K K' : (forall l, nak_hidden t (K l) (K' l)) -> nak_hidden t (if_sent nak lr K) (if_sent nak lr K').
Proof. intros H. unfold if_sent. destruct lr.2; [apply H|apply nak_hidden_refl..]. Qed.
Lemma transact_nak_hidden t p l :
  nak_hidden t (transact env kStatus_Success kStatus_I2C_Addr_Nak t p l) (transact env kStatus_I2C_Nak kStatus_I2C_Addr_Nak t p l).
Proof.
  assert (HD : forall l, nak_hidden t (data_phase env kStatus_Success t p l) (data_phase env kStatus_I2C_Nak t p l)).
  { intros l'. unfold data_phase. destruct (direction t) eqn:E; [|destruct (obtains _ _ _); apply nak_hidden_refl].
    unfold if_sent. destruct (sends_data _ _ _).2; [apply nak_hidden_refl| |apply nak_hidden_refl]. repeat split. by right. }
  apply nak_hidden_sent. intros l1. destruct (_ =? 0); [apply HD|]. apply nak_hidden_sent. intros l2. unfold after_command.
  destruct (direction t); [apply HD|]. by apply nak_hidden_sent.
Qed.

(** C5: A polled transfer does on the bus what [transact] says, whatever the
    environment does: the start (or repeated start), address, command, second
    address and data, in order; it stops at the first byte refused or lost,
    stores exactly the bytes received and leaves the bus free, kept or lost to
    another master accordingly.  It returns the status that belongs to the
    outcome, with one exception: where the documentation promises
    [kStatus_I2C_Nak] for a byte of data refused before the last one, the code
    returns [kStatus_Success]. *)
Theorem i2c_blocking_transaction t l tx f r (w : W) : has (flags t) kI2C_TransferNoStartFlag = false -> proper t ->
  rests l (has (flags t) kI2C_TransferRepeatedStartFlag) tx false f r (vw w) ->
  let x := transact env kStatus_Success kStatus_I2C_Addr_Nak t (payload t w) l in
  let documented := transact env kStatus_I2C_Nak kStatus_I2C_Addr_Nak t (payload t w) l in
  nak_hidden t x documented /\
  exists d m n, I2C_MasterTransferBlocking fuel t w = Ok (r_status x, with_left n (with_mem m (with_hw d w))) /\ left_as false x (view d)
    /\ (forall y, m y = mem_write (data t) (r_bytes x) (i_mem w) y) /\ (r_status x = kStatus_Success -> n = 0).
Proof.
  intros Hns Hp HR x documented. split; [apply transact_nak_hidden|].
  assert (H := transfer_blocking_run t l tx f r w (fun s w' => exists d m n, s = r_status x /\ w' = with_left n (with_mem m (with_hw d w))
    /\ left_as false x (view d) /\ (forall y, m y = mem_write (data t) (r_bytes x) (i_mem w) y) /\ (r_status x = kStatus_Success -> n = 0)) Hns Hp HR).
  unfold wp in H. destruct (I2C_MasterTransferBlocking fuel t w) as [[s w']|].
  - destruct H as (d & m & n & -> & -> & H1 & H2 & H3); [|by exists d, m, n]. intros d m n Hl Hm Hn. by exists d, m, n.
  - exfalso. apply H. intros d m n Hl Hm Hn. by exists d, m, n.
Qed.

(** A polled write that is refused a byte before the last one stops the
    bus and reports success: the result of the stop replaces the refusal. *)
Theorem i2c_nak_reported_as_success p n fl l t i f r l' (w : W) : rests l true t i f r (vw w) -> sends_data env l (bytes_at (i_mem w) p n) = (l', Nak) ->
  exists d, I2C_MasterWriteBlocking fuel p n fl w = Ok (kStatus_Success, with_hw d w) /\ b_log (view d) = l' ++ [Stop].
Proof.
  intros HR HN. assert (H := write_blocking_run l t i f r p n fl w (fun s w' => exists d, s = kStatus_Success /\ w' = with_hw d w /\ b_log (view d) = l' ++ [Stop]) HR).
  rewrite HN in H. unfold wp in H. cbn [if_sent fst snd r_status] in H.
  destruct (I2C_MasterWriteBlocking fuel p n fl w) as [[s w']|].
  - destruct H as (d & -> & -> & H); [|by exists d]. intros d (? & ? & ? & []). by exists d.
  - exfalso. apply H. intros d (? & ? & ? & []). by exists d.
Qed.
End Polled.
