(* ===== verification/I2cIrq.v ===== *)
(** * Interrupt-driven transfers

    [I2C_MasterTransferNonBlocking] sends the start; from then on the device
    raises an interrupt whenever a byte is over and the handler does the next
    step.  [serve] lets time pass and the interrupts happen.  The outcome on
    the bus is again [transact]'s, a refused byte of data reported as such,
    and the callback is called exactly once. *)

From stdpp Require Import base list numbers tactics.
From Stdlib Require Import ZArith Lia.
From S2P Require Import Prelude Bytes Mmio I2c I2cBus I2cSignals.

Open Scope Z_scope.
Open Scope prog_scope.

Section Irq.
Context {D A : Type} `{!Device i2c_reg D} {F : I2cFields} {X : I2cFeatures} {MK : I2cMasks} {L : I2cLaws (D := D)}.
Abbreviation W := (i2c_world D A).
Context (fuel : nat) (patient : forall l, (lasts env l < waits fuel)%nat).
Context (no_fack : I2C_MASTER_FACK_CONTROL = false).
Context (callback : status_t -> M W unit) (slave_callback : M W unit).
(** The callback only changes what the application keeps. *)
Definition with_app (a : A) (w : W) : W := I2cWorld (i_hw w) (g_baudrate w) (i_master w) (i_slave w) (i_mem w) a (i_xfer_left w).
Context (note : status_t -> A -> A) (notes : forall s w, callback s w = Ok (tt, with_app (note s (i_app w)) w)).

(** What is under way ends; an enabled interrupt is taken. *)
Definition interrupt : M W unit :=
  modify (fun w => with_hw (elapse (i_hw w)) w) ;;
  b <- gets vw ;;
  when (irq b && b_if b) (I2C_TransferCommonIRQHandler fuel callback slave_callback).
Fixpoint serve (n : nat) : M W unit :=
  match n with O => ret tt | S n => interrupt ;; serve n end.
(** After [k] interrupts, and then for good, [Q] holds. *)
Definition served (k : nat) (Q : W -> Prop) (w : W) : Prop := forall n, (k <= n)%nat -> wp (serve n) (fun _ => Q) w.

Lemma served_next k Q w : wp interrupt (fun _ => served k Q) w -> served (S k) Q w.
Proof.
  intros H [|n] Hn; [lia|]. cbn [serve]. rewrite wp_bind. eapply wp_mono; [exact H|]. intros [] w' Hw'. apply Hw'. lia.
Qed.
Lemma served_more j k Q w : (j <= k)%nat -> served j Q w -> served k Q w.
Proof. intros Hj H n Hn. apply H. lia. Qed.

Lemma wp_more {B} j k Q (m : M W B) w : (j <= k)%nat -> wp m (fun _ => served j Q) w -> wp m (fun _ => served k Q) w.
Proof. intros Hj H. eapply wp_mono; [exact H|]. intros b w' Hw'. by eapply served_more. Qed.

(** ** Enabling and disabling the interrupt *)

Lemma rests_irq l m t i i' f r b b' : rests l m t i f r b -> same_but_irq i' b b' -> rests l m t i' f r b'.
Proof. intros [R1 R2 R3 R4 R5 R6 R7 R8 R9 R10 R11] (c & -> & H1 & H2 & H3 & H4 & H5). split; try done; congruence. Qed.
Lemma taken_irq l i i' b b' : taken l i b -> same_but_irq i' b b' -> taken l i' b'.
Proof. intros ([T1 T2] & T3 & T4 & T5) (c & -> & H1 & H2 & H3 & H4 & H5). split; [done|]. repeat split; congruence. Qed.
Lemma works_irq l a i i' b b' : works fuel l a i b -> same_but_irq i' b b' -> works fuel l a i' b'.
Proof. intros [W1 W2 W3 W4 W5 W6 W7 W9 W10 W11] (c & -> & H1 & H2 & H3 & H4 & H5). split; try done; congruence. Qed.

(** ** The end of a transfer *)

Definition told (h : i2c_master_handle) (s : status_t) (a : A) : A := if completionCallback h then note s a else a.
(** The world after a transfer, but for the peripheral. *)
Definition ended (s : status_t) (d : D) (w : W) : W :=
  with_app (told (i_master w) s (i_app w)) (with_master (with_state kIdleState (i_master w)) (with_hw d w)).

Lemma settle_run s (w : W) (Q : unit -> W -> Prop) : restarts (vw w) = false -> (forall d, same_but_irq false (vw w) (view d) -> Q tt (ended s d w)) ->
  wp (upd (with_state kIdleState) ;; on_i2c (I2C_DisableInterrupts kI2C_GlobalInterruptEnable) ;; h <- handle ;; when (completionCallback h) (callback s)) Q w.
Proof.
  intros HR HQ. rewrite wp_bind, wp_upd_master, wp_bind. apply disable_run; [exact HR|]. intros d Hd. rewrite wp_bind, wp_handle.
  specialize (HQ d Hd). unfold ended, told in HQ. cbn [i_master with_hw with_master with_state completionCallback] in *.
  destruct (completionCallback (i_master w)); [|by rewrite wp_ret]. unfold wp. rewrite notes. exact HQ.
Qed.

(** Whether the handler asks for a stop. *)
Definition wants_stop (h : i2c_master_handle) (s : status_t) : bool :=
  negb (no_stop (flags (transfer h))) || (s =? kStatus_I2C_Nak) || (s =? kStatus_I2C_Addr_Nak).

Lemma over_stop s l tx f r (w : W) (Q : unit -> W -> Prop) : rests l true tx true f r (vw w) -> wants_stop (i_master w) s = true ->
  (forall d, rests (l ++ [Stop]) false false false f r (view d) -> Q tt (ended s d w)) -> wp (transfer_over fuel callback s) Q w.
Proof.
  intros HR Hs HQ. unfold transfer_over. rewrite wp_bind, wp_handle. fold (wants_stop (i_master w) s). rewrite Hs, wp_bind.
  apply c1_read. intros d1 H1. fold (master (vw w)). rewrite (re_master _ _ _ _ _ _ _ HR), wp_bind. rewrite <- H1 in HR.
  apply (stop_run fuel patient _ _ _ _ _ (with_hw d1 w) _ HR). intros d2 H2. change (negb (kStatus_Success =? kStatus_Success)) with false.
  rewrite wp_ret. cbv iota. apply (settle_run s (with_hw d2 w)); [apply H2|]. intros d3 H3. apply HQ. eapply rests_irq; [exact H2|exact H3].
Qed.

Lemma over_plain s (w : W) (Q : unit -> W -> Prop) : restarts (vw w) = false -> wants_stop (i_master w) s && master (vw w) = false ->
  (forall d, same_but_irq false (vw w) (view d) -> Q tt (ended s d w)) -> wp (transfer_over fuel callback s) Q w.
Proof.
  intros HR Hs HQ. unfold transfer_over. rewrite wp_bind, wp_handle. fold (wants_stop (i_master w) s). rewrite wp_bind.
  destruct (wants_stop (i_master w) s); cbn [andb] in Hs.
  - apply c1_read. intros d1 H1. fold (master (vw w)). rewrite Hs, wp_ret.
    apply (settle_run s (with_hw d1 w)); change (vw (with_hw d1 w)) with (view d1); rewrite H1; [exact HR|exact HQ].
  - rewrite wp_ret. by apply settle_run.
Qed.

(** ** The handler *)

Lemma interrupt_run l a (w : W) (P : W -> Prop) : works fuel l a true (vw w) -> a <> Quiet -> a <> Stopping ->
  (forall d, view d = finish env (vw w) -> wp (I2C_MasterTransferHandleIRQ fuel callback) (fun _ => P) (with_hw d w)) -> wp interrupt (fun _ => P) w.
Proof.
  intros HW Ha Hs HP. destruct (works_done fuel _ _ _ _ HW Ha Hs) as (E1 & E2 & E3 & E4 & E5). unfold interrupt. rewrite wp_bind.
  unfold wp at 1, modify. rewrite wp_bind. unfold wp at 1, gets.
  assert (Hv : vw (with_hw (elapse (i_hw w)) w) = finish env (vw w)) by apply elapses. rewrite Hv, E1, E2. cbn [andb].
  unfold I2C_TransferCommonIRQHandler. rewrite wp_bind, wp_on_i2c. unfold wp at 1, rd. cbn [i_hw with_hw].
  destruct (status_reads (elapse (i_hw w))) as (S1 & _ & _ & _ & S5 & _). rewrite elapses in *. fold (vw w) in *.
  assert (Ep : poll env (finish env (vw w)) = finish env (vw w)) by (unfold poll; rewrite E4; unfold finish at 1; by rewrite E3). rewrite Ep in *.
  destruct (reg_read S_ (elapse (i_hw w))) as [s d1]. cbn [fst snd] in *. apply c1_read. intros d2 H2.
  change (vw (with_hw d1 (with_hw (elapse (i_hw w)) w))) with (view d1) in *. rewrite S1 in *. fold (master (finish env (vw w))). rewrite S5, E5. by apply HP.
Qed.

(** A missing acknowledgement that does not matter. *)
Definition ignored (h : i2c_master_handle) : bool :=
  (bool_decide (state h = kSendDataState) && (dataSize (transfer h) =? 0)) || (bool_decide (state h = kReceiveDataState) && (dataSize (transfer h) =? 1)).

Lemma run_ok l m tx i f r (w : W) (Q : status_t * bool -> W -> Prop) : rests l m tx i f r (vw w) -> r && negb (ignored (i_master w)) = false ->
  state (i_master w) <> kCheckAddressState -> (forall d, view d = vw w -> wp (master_step fuel) Q (with_hw d w)) ->
  wp (I2C_MasterTransferRunStateMachine fuel) Q w.
Proof.
  intros HR Hi Hs HQ. unfold I2C_MasterTransferRunStateMachine. apply (read_status _ _ _ _ _ _ _ w _ HR). intros s d Hd Hr Ha _.
  rewrite wp_bind, wp_handle, wp_bind. cbn [i_master with_hw]. fold (ignored (i_master w)). apply (check_rests _ r _ _ Hr Ha). rewrite decide_False by done.
  destruct r; cbn [andb] in Hi; [apply negb_false_iff in Hi; rewrite Hi|]; rewrite wp_bind, wp_ret; by apply HQ.
Qed.

Lemma run_addressed l m tx i f (w : W) (Q : status_t * bool -> W -> Prop) : rests l m tx i f false (vw w) -> state (i_master w) = kCheckAddressState ->
  (forall d, view d = vw w -> wp (master_step fuel) Q (with_master (with_state (addressed (transfer (i_master w))) (i_master w)) (with_hw d w))) ->
  wp (I2C_MasterTransferRunStateMachine fuel) Q w.
Proof.
  intros HR Hs HQ. unfold I2C_MasterTransferRunStateMachine. apply (read_status _ _ _ _ _ _ _ w _ HR). intros s d Hd Hr Ha _.
  rewrite wp_bind, wp_handle, wp_bind. cbn [i_master with_hw]. apply (check_rests _ false _ _ Hr Ha). rewrite decide_True by done.
  rewrite Hr, !wp_bind, wp_upd_master, wp_ret. by apply HQ.
Qed.

(** The status of a refused byte. *)
Definition nak_status (h : i2c_master_handle) : status_t := if decide (state h = kCheckAddressState) then kStatus_I2C_Addr_Nak else kStatus_I2C_Nak.
Lemma run_nak l m tx i f (w : W) (Q : status_t * bool -> W -> Prop) : rests l m tx i f true (vw w) -> ignored (i_master w) = false ->
  (forall d, view d = vw w -> Q (nak_status (i_master w), false) (with_hw d w)) -> wp (I2C_MasterTransferRunStateMachine fuel) Q w.
Proof.
  intros HR Hi HQ. unfold I2C_MasterTransferRunStateMachine. apply (read_status _ _ _ _ _ _ _ w _ HR). intros s d Hd Hr Ha _.
  rewrite wp_bind, wp_handle, wp_bind. cbn [i_master with_hw]. fold (ignored (i_master w)). apply (check_rests _ true _ _ Hr Ha). rewrite Hi, Hr.
  unfold nak_status in HQ. destruct (decide (state (i_master w) = kCheckAddressState)); rewrite wp_bind, wp_ret;
    [change (wp (ret (kStatus_I2C_Addr_Nak, false)) Q (with_hw d w))|change (wp (ret (kStatus_I2C_Nak, false)) Q (with_hw d w))]; rewrite wp_ret; by apply HQ.
Qed.

Lemma run_lost l i (w : W) (Q : status_t * bool -> W -> Prop) : lost l i (vw w) ->
  (forall d s, taken l i (view d) -> Q (kStatus_I2C_ArbitrationLost, false) (with_master (with_state s (i_master w)) (with_hw d w))) ->
  wp (I2C_MasterTransferRunStateMachine fuel) Q w.
Proof.
  intros HR HQ. unfold I2C_MasterTransferRunStateMachine. apply (read_status_lost _ _ _ w _ HR). intros s d Hd Hr Ha. rewrite <- Hd in HR.
  rewrite wp_bind, wp_handle, wp_bind. apply (check_lost s l i (with_hw d w) _ HR Ha). intros d2 H2. rewrite wp_bind. cbn [i_master with_hw].
  assert (Hk : forall s w', wp (if negb (kStatus_I2C_ArbitrationLost =? kStatus_Success) then ret (kStatus_I2C_ArbitrationLost, false) else master_step fuel) Q (with_master s w')
    <-> Q (kStatus_I2C_ArbitrationLost, false) (with_master s w')) by done.
  destruct (decide (state (i_master w) = kCheckAddressState)).
  - rewrite Hr, wp_bind, wp_upd_master, wp_ret. change ((kStatus_I2C_ArbitrationLost =? kStatus_I2C_Nak) && _) with false. by apply Hk, HQ.
  - rewrite wp_ret. change ((kStatus_I2C_ArbitrationLost =? kStatus_I2C_Nak) && _) with false.
    assert (E : with_hw d2 (with_hw d w) = with_master (with_state (state (i_master w)) (i_master w)) (with_hw d2 w)) by (destruct w as [? ? [] ? ? ? ?]; done).
    rewrite E. by apply Hk, HQ.
Qed.

(** ** The phases of a transfer *)

Section Phases.
Context (w0 : W) (t : i2c_master_transfer) (Q : W -> Prop).

(** The world in the course of the transfer. *)
Definition cur (d : D) (m : Z -> Z) (h : i2c_master_handle) : W := with_master h (with_mem m (with_hw d w0)).
Definition ours (h : i2c_master_handle) : Prop :=
  completionCallback h = completionCallback (i_master w0) /\ flags (transfer h) = flags t /\ slaveAddress (transfer h) = slaveAddress t.

(** [Q] holds of all that a transfer may leave that does [x], its bytes stored
    from [p] on in [m]. *)
Definition completes (p : Z) (m : Z -> Z) (x : result) : Prop :=
  forall d m' h, left_as false x (view d) -> (forall y, m' y = mem_write p (r_bytes x) m y) -> state h = kIdleState ->
    Q (with_app (told (i_master w0) (r_status x) (i_app w0)) (cur d m' h)).

Lemma idle_served d m h a : b_act (view d) = Quiet -> irq (view d) = false -> (forall d', view d' = view d -> Q (with_app a (cur d' m h))) ->
  served 0 Q (with_app a (cur d m h)).
Proof.
  intros H1 H2 HQ n _. revert d H1 H2 HQ. induction n as [|n IH]; intros d H1 H2 HQ; cbn [serve].
  - rewrite wp_ret. by apply HQ.
  - rewrite wp_bind. unfold interrupt. rewrite wp_bind. unfold wp at 1, modify. rewrite wp_bind. unfold wp at 1, gets.
    set (d1 := elapse d). assert (Hv : view d1 = view d) by (unfold d1; rewrite elapses; unfold finish; by rewrite H1).
    change (vw _) with (view d1). rewrite Hv, H2. cbn [andb]. rewrite wp_ret. change (wp (serve n) (fun _ => Q) (with_app a (cur d1 m h))).
    by apply IH; rewrite Hv.
Qed.

Lemma left_as_idle x b : left_as false x b -> b_act b = Quiet /\ irq b = false.
Proof.
  unfold left_as, taken, quiet_at. destruct (r_bus x); [intros (? & ? & ? & [])|intros (? & ? & [])|intros ((? & ?) & ? & ? & ?)]; done.
Qed.
Lemma left_as_same x d d' : left_as false x (view d) -> view d' = view d -> left_as false x (view d').
Proof. by intros H ->. Qed.

Lemma completes_ended k p m x s d0 d m' h : completes p m x -> s = r_status x -> left_as false x (view d) -> (forall y, m' y = mem_write p (r_bytes x) m y) ->
  ours h -> served k Q (ended s d (cur d0 m' h)).
Proof.
  intros HC -> Hl Hm [Hcb _]. apply (served_more 0); [lia|]. destruct (left_as_idle _ _ Hl) as [H1 H2]. unfold ended. cbn [i_master i_app cur with_master with_mem with_hw].
  unfold told. rewrite Hcb. apply (idle_served d m' (with_state kIdleState h)); [exact H1|exact H2|]. intros d' Hd'. apply (HC d' m'); [by eapply left_as_same|done|done].
Qed.

(** A byte is refused. *)
Lemma nak_irq k l x d m p h : works fuel l (Sending x) true (view d) -> answers env l x = Nak -> ignored h = false -> ours h ->
  completes p m (Result ((l ++ [Sent x false]) ++ [Stop]) (nak_status h) [] Released) -> wp interrupt (fun _ => served k Q) (cur d m h).
Proof.
  intros HW Ha Hi Ho HC. apply (interrupt_run _ _ (cur d m h) _ HW); [done..|]. intros d1 H1. assert (HF := finish_sent fuel _ _ _ _ HW). rewrite Ha in HF.
  unfold I2C_MasterTransferHandleIRQ. rewrite wp_bind. change (view d) with (vw (cur d m h)) in HF. rewrite <- H1 in HF.
  apply (clear_pending_run _ _ _ _ _ _ (with_hw d1 (cur d m h)) _ HF). intros d2 H2. rewrite wp_bind.
  apply (run_nak _ _ _ _ _ (with_hw d2 (with_hw d1 (cur d m h))) _ H2); [exact Hi|]. intros d3 H3. change (vw _) with (view d2) in H3. rewrite <- H3 in H2.
  assert (E : negb (nak_status h =? kStatus_Success) = true) by (unfold nak_status; by destruct (decide _)). change (i_master _) with h. rewrite E. cbn [orb].
  apply (over_stop _ _ _ _ _ (cur d3 m h) _ H2).
  - unfold wants_stop, nak_status. destruct (decide _); cbn; by rewrite ?orb_true_r.
  - intros d4 H4. eapply completes_ended; [exact HC|done|by eexists _, _, _| |exact Ho]. intros y. by rewrite mem_write_nothing.
Qed.

(** The bus is lost. *)
Lemma lost_irq k l x d m p h : works fuel l (Sending x) true (view d) -> answers env l x = Lost -> ours h ->
  completes p m (Result (l ++ [Arbitration x]) kStatus_I2C_ArbitrationLost [] Taken) -> wp interrupt (fun _ => served k Q) (cur d m h).
Proof.
  intros HW Ha Ho HC. apply (interrupt_run _ _ (cur d m h) _ HW); [done..|]. intros d1 H1. assert (HF := finish_sent fuel _ _ _ _ HW). rewrite Ha in HF.
  unfold I2C_MasterTransferHandleIRQ. rewrite wp_bind. change (view d) with (vw (cur d m h)) in HF. rewrite <- H1 in HF.
  apply wr_status. intros d2 H2. rewrite wp_bind.
  assert (HF2 : lost (l ++ [Arbitration x]) true (view d2)).
  { rewrite H2. change (vw _) with (view d1). revert HF. unfold write_s. rewrite mask_iicif, mask_arbl, !has_pow2, !Z.pow2_bits_eqb by lia. cbn [Z.eqb Pos.eqb]. intros []. by split. }
  apply (run_lost _ _ (with_hw d2 (with_hw d1 (cur d m h))) _ HF2). intros d3 s H3. change (i_master _) with h.
  apply (over_plain _ (cur d3 m (with_state s h))); [apply H3|rewrite andb_comm; change (vw _) with (view d3); by destruct H3 as (_ & -> & _)|]. intros d4 H4.
  eapply completes_ended; [exact HC|done|by eapply taken_irq| |exact Ho]. intros y. by rewrite mem_write_nothing.
Qed.

(** What the handler does after its state machine. *)
Definition conclude (res : status_t * bool) : M W unit :=
  let '(result, isDone) := res in if isDone || negb (result =? kStatus_Success) then transfer_over fuel callback result else ret tt.

(** A byte is acknowledged, or its refusal ignored. *)
Lemma ok_irq l x (r : bool) d m h (P : W -> Prop) : works fuel l (Sending x) true (view d) -> answers env l x = (if r then Nak else Ack) -> r && negb (ignored h) = false ->
  state h <> kCheckAddressState ->
  (forall d, rests (l ++ [Sent x (negb r)]) true true true false r (view d) -> wp (res <- master_step fuel ;; conclude res) (fun _ => P) (cur d m h)) ->
  wp interrupt (fun _ => P) (cur d m h).
Proof.
  intros HW Ha Hi Hs HP. apply (interrupt_run _ _ (cur d m h) _ HW); [done..|]. intros d1 H1. assert (HF := finish_sent fuel _ _ _ _ HW). rewrite Ha in HF.
  unfold I2C_MasterTransferHandleIRQ. rewrite wp_bind. change (view d) with (vw (cur d m h)) in HF. rewrite <- H1 in HF.
  assert (HF' : rests (l ++ [Sent x (negb r)]) true true true true r (view d1)) by by destruct r.
  apply (clear_pending_run _ _ _ _ _ _ (with_hw d1 (cur d m h)) _ HF'). intros d2 H2. rewrite wp_bind.
  apply (run_ok _ _ _ _ _ _ (with_hw d2 (with_hw d1 (cur d m h))) _ H2 Hi Hs). intros d3 H3. change (vw _) with (view d2) in H3. rewrite <- H3 in H2.
  specialize (HP d3 H2). rewrite wp_bind in HP. exact HP.
Qed.
(** The address is acknowledged. *)
Lemma addressed_irq l x d m h (P : W -> Prop) : works fuel l (Sending x) true (view d) -> answers env l x = Ack -> state h = kCheckAddressState ->
  (forall d, rests (l ++ [Sent x true]) true true true false false (view d) ->
    wp (res <- master_step fuel ;; conclude res) (fun _ => P) (cur d m (with_state (addressed (transfer h)) h))) ->
  wp interrupt (fun _ => P) (cur d m h).
Proof.
  intros HW Ha Hs HP. apply (interrupt_run _ _ (cur d m h) _ HW); [done..|]. intros d1 H1. assert (HF := finish_sent fuel _ _ _ _ HW). rewrite Ha in HF.
  unfold I2C_MasterTransferHandleIRQ. rewrite wp_bind. change (view d) with (vw (cur d m h)) in HF. rewrite <- H1 in HF.
  apply (clear_pending_run _ _ _ _ _ _ (with_hw d1 (cur d m h)) _ HF). intros d2 H2. rewrite wp_bind.
  apply (run_addressed _ _ _ _ _ (with_hw d2 (with_hw d1 (cur d m h))) _ H2 Hs). intros d3 H3. change (vw _) with (view d2) in H3. rewrite <- H3 in H2.
  specialize (HP d3 H2). rewrite wp_bind in HP. exact HP.
Qed.

(** *** Sending data *)

Lemma done_run k l p m r d h : rests l true true true false r (view d) -> ours h -> completes p m (close (flags t) l []) ->
  wp (transfer_over fuel callback kStatus_Success) (fun _ => served k Q) (cur d m h).
Proof.
  intros HR Ho HC. assert (Hw : wants_stop (i_master (cur d m h)) kStatus_Success = negb (no_stop (flags t))).
  { unfold wants_stop. change (i_master _) with h. destruct Ho as (_ & -> & _). by destruct (no_stop _). }
  unfold close in HC. destruct (no_stop (flags t)); cbn [negb] in Hw.
  - apply over_plain; [apply HR|by rewrite Hw|]. intros d1 H1. eapply completes_ended; [exact HC|done| |by intros; rewrite mem_write_nothing|exact Ho].
    eexists _, _. eapply rests_irq; [exact HR|exact H1].
  - apply (over_stop _ _ _ _ _ (cur d m h) _ HR Hw). intros d1 H1. eapply completes_ended; [exact HC|done|by eexists _, _, _|by intros; rewrite mem_write_nothing|exact Ho].
Qed.

Lemma next_last k l p m r d h : rests l true true true false r (view d) -> dataSize (transfer h) = 0 -> ours h -> completes p m (close (flags t) l []) ->
  wp (res <- send_next ;; conclude res) (fun _ => served k Q) (cur d m h).
Proof.
  intros HR Hn Ho HC. rewrite wp_bind. unfold send_next. rewrite wp_bind, wp_handle. change (i_master _) with h. rewrite Hn, Z.ltb_irrefl, wp_ret.
  change (wp (transfer_over fuel callback kStatus_Success) (fun _ => served k Q) (cur d m h)). by eapply done_run.
Qed.
Lemma next_byte n l m r d h (P : W -> Prop) : rests l true true true false r (view d) -> dataSize (transfer h) = Z.of_nat (S n) -> Z.of_nat (S n) < 2 ^ 32 ->
  (forall d, works fuel l (Sending (m (data (transfer h)))) true (view d) ->
    P (cur d m (with_transfer (with_data (data (transfer h) + 1) (Z.of_nat n) (transfer h)) h))) ->
  wp (res <- send_next ;; conclude res) (fun _ => P) (cur d m h).
Proof.
  intros HR Hn Hb HP. rewrite wp_bind. unfold send_next. rewrite wp_bind, wp_handle. change (i_master _) with h.
  rewrite (proj2 (Z.ltb_lt _ _)) by lia. rewrite wp_bind, wp_load, wp_bind. apply (send_run fuel patient _ _ _ _ _ _ (cur d m h) _ HR); [done..|].
  intros d1 H1. rewrite wp_bind, wp_upd_master, wp_ret. replace (u32 (dataSize (transfer h) - 1)) with (Z.of_nat n) by (rewrite Hn, wrap_small; lia).
  by apply HP.
Qed.

(** The handler is in the state [Hs] says. *)
Ltac in_state Hs := rewrite wp_bind; unfold master_step at 1; rewrite wp_bind, wp_handle; cbn [i_master cur with_master]; rewrite Hs.

Lemma data_step d m h (P : unit -> W -> Prop) : state h = kSendDataState ->
  wp (res <- send_next ;; conclude res) P (cur d m h) -> wp (res <- master_step fuel ;; conclude res) P (cur d m h).
Proof. intros Hs H. in_state Hs. by rewrite wp_bind in H. Qed.

(** A byte of data is under way, [n] follow. *)
Lemma sending_served n : forall l x p m d h, works fuel l (Sending x) true (view d) -> state h = kSendDataState -> ours h ->
  dataSize (transfer h) = Z.of_nat n -> Z.of_nat n < 2 ^ 32 ->
  completes p m (if_sent kStatus_I2C_Nak (sends_data env l (x :: bytes_at m (data (transfer h)) (Z.of_nat n))) (fun l => close (flags t) l [])) ->
  served (S n) Q (cur d m h).
Proof.
  induction n as [|n IH]; intros l x p m d h HW Hs Ho Hn Hb HC; apply served_next.
  - assert (Hi : ignored h = true) by (unfold ignored; by rewrite Hs, Hn). cbn [sends_data bytes_at seq map Z.to_nat Z.of_nat] in HC.
    destruct (answers env l x) eqn:Ha.
    + apply (ok_irq l x false _ _ _ _ HW Ha); [done|by rewrite Hs|]. intros d1 H1. apply (data_step _ _ _ _ Hs). by eapply next_last.
    + apply (ok_irq l x true _ _ _ _ HW Ha); [by rewrite Hi|by rewrite Hs|]. intros d1 H1. apply (data_step _ _ _ _ Hs). by eapply next_last.
    + eapply lost_irq; [exact HW|exact Ha|exact Ho|exact HC].
  - assert (Hi : ignored h = false) by (unfold ignored; by rewrite Hs, Hn). rewrite bytes_at_next in HC. cbn [sends_data] in HC.
    destruct (answers env l x) eqn:Ha.
    + apply (ok_irq l x false _ _ _ _ HW Ha); [done|by rewrite Hs|]. intros d1 H1. apply (data_step _ _ _ _ Hs).
      apply (next_byte n _ _ _ _ _ _ H1 Hn Hb). intros d2 H2. eapply IH; [exact H2|done|exact Ho|done|lia|exact HC].
    + eapply nak_irq; [exact HW|exact Ha|exact Hi|exact Ho|]. unfold nak_status. rewrite Hs. exact HC.
    + eapply lost_irq; [exact HW|exact Ha|exact Ho|exact HC].
Qed.

(** All data is to be sent. *)
Lemma send_served n l p m r d h : rests l true true true false r (view d) -> state h = kSendDataState -> ours h ->
  dataSize (transfer h) = Z.of_nat n -> Z.of_nat n < 2 ^ 32 ->
  completes p m (if_sent kStatus_I2C_Nak (sends_data env l (bytes_at m (data (transfer h)) (Z.of_nat n))) (fun l => close (flags t) l [])) ->
  wp (res <- send_next ;; conclude res) (fun _ => served n Q) (cur d m h).
Proof.
  intros HR Hs Ho Hn Hb HC. destruct n as [|n].
  - by eapply next_last.
  - rewrite bytes_at_next in HC. apply (next_byte n _ _ _ _ _ _ HR Hn Hb). intros d2 H2. eapply sending_served; [exact H2|done|exact Ho|done|lia|exact HC].
Qed.

(** *** Receiving data *)

Lemma got_irq l ack d m h (P : W -> Prop) : receives fuel l true ack (view d) -> negb ack && negb (ignored h) = false -> state h <> kCheckAddressState ->
  (forall d, rests (l ++ [Got (supplies env l) ack]) true false true false (negb ack) (view d) -> b_data (view d) = supplies env l -> nacks (view d) = negb ack ->
    wp (res <- master_step fuel ;; conclude res) (fun _ => P) (cur d m h)) -> wp interrupt (fun _ => P) (cur d m h).
Proof.
  intros [HW Hk] Hi Hs HP. apply (interrupt_run _ _ (cur d m h) _ HW); [done..|]. intros d1 H1.
  destruct (finish_got fuel _ _ _ _ HW Hk) as (HF & HD & HN). rewrite negb_involutive in HF.
  unfold I2C_MasterTransferHandleIRQ. rewrite wp_bind. change (view d) with (vw (cur d m h)) in *. rewrite <- H1 in *.
  apply (clear_pending_data _ _ _ _ _ _ (with_hw d1 (cur d m h)) _ HF). intros d2 H2 E2 N2. rewrite wp_bind.
  change (vw (with_hw d1 (cur d m h))) with (view d1) in *. rewrite HD in E2. rewrite HN in N2.
  apply (run_ok _ _ _ _ _ _ (with_hw d2 (with_hw d1 (cur d m h))) _ H2 Hi Hs). intros d3 H3. change (vw _) with (view d2) in H3. rewrite <- H3 in *.
  specialize (HP d3 H2 E2 N2). rewrite wp_bind in HP. exact HP.
Qed.

(** What the handler does with a byte. *)
Definition take (result : status_t) (left : Z) (tr : i2c_master_transfer) : M W (status_t * bool) :=
  tmpdata <- read_data ;;
  store (data tr) tmpdata ;;
  upd (with_transfer (with_data (data tr + 1) left tr)) ;;
  when (I2C_MASTER_FACK_CONTROL && negb (left =? 0)) I2C_MasterAckByte ;;
  when (left =? 1) nack_last ;;
  ret (result, left =? 0).

Lemma take_last k x l mm tx r p m d h tr : rests l mm tx true false r (view d) -> mm && negb tx = false -> mm && negb (no_stop (flags t)) = false -> ours h ->
  flags tr = flags t -> slaveAddress tr = slaveAddress t -> completes p m x -> r_status x = kStatus_Success -> r_bytes x = [b_data (view d)] -> p = data tr ->
  (forall d', rests l mm tx false false r (view d') -> left_as false x (view d')) ->
  wp (res <- take kStatus_Success 0 tr ;; conclude res) (fun _ => served k Q) (cur d m h).
Proof.
  intros HR Hm1 Hm2 Ho Hf Ha HC Hs Hb -> Hl. rewrite wp_bind. unfold take. rewrite wp_bind. apply (read_plain _ _ _ _ _ _ (cur d m h) _ HR Hm1). intros d1 H1.
  rewrite wp_bind, wp_store, wp_bind, wp_upd_master, no_fack. cbn [andb Z.eqb]. rewrite wp_bind, wp_ret, wp_bind, wp_ret, wp_ret.
  set (h' := with_transfer (with_data (data tr + 1) 0 tr) h). set (m' := mem_write (data tr) [b_data (view d)] m). assert (Ho' : ours h') by (destruct Ho; by split).
  change (wp (transfer_over fuel callback kStatus_Success) (fun _ => served k Q) (cur d1 m' h')).
  apply over_plain; [apply H1| |].
  - unfold wants_stop. change (vw _) with (view d1). change (flags (transfer (i_master (cur d1 m' h')))) with (flags tr).
    rewrite Hf, (re_master _ _ _ _ _ _ _ H1). destruct mm; [|apply andb_false_r]. destruct (no_stop (flags t)); done.
  - intros d2 H2. eapply completes_ended; [exact HC|done| | |exact Ho'].
    + apply Hl. eapply rests_irq; [exact H1|exact H2].
    + intros y. by rewrite Hb.
Qed.

Lemma take_more n l v m d h tr (P : W -> Prop) : rests l true false true false false (view d) -> nacks (view d) = false ->
  (forall d, receives fuel l true (negb (n =? 0)%nat) (view d) ->
    P (cur d (mem_write (data tr) [v] m) (with_transfer (with_data (data tr + 1) (Z.of_nat (S n)) tr) h))) -> b_data (view d) = v ->
  wp (res <- take kStatus_Success (Z.of_nat (S n)) tr ;; conclude res) (fun _ => P) (cur d m h).
Proof.
  intros HR HN HP Hb. rewrite wp_bind. unfold take. rewrite wp_bind. apply (read_begins fuel patient _ _ _ _ (cur d m h) _ HR); [done|].
  change (vw (cur d m h)) with (view d). rewrite HN, Hb. intros d1 H1. rewrite wp_bind, wp_store, wp_bind, wp_upd_master, no_fack. cbn [andb]. rewrite wp_bind, wp_ret, wp_bind.
  set (w1 := with_master _ _). destruct n as [|n].
  - apply (nack_last_run fuel no_fack _ _ _ w1 _ H1). intros d2 H2. rewrite wp_ret. change (wp (ret tt) (fun _ => P) (with_hw d2 w1)). rewrite wp_ret. by apply (HP d2).
  - assert (E0 : (Z.of_nat (S (S n)) =? 0) = false) by (apply Z.eqb_neq; lia). assert (E1 : (Z.of_nat (S (S n)) =? 1) = false) by (apply Z.eqb_neq; lia).
    rewrite E0, E1, !wp_ret.
    change (wp (ret tt) (fun _ => P) w1). rewrite wp_ret. by apply (HP d1).
Qed.

Lemma completes_next p m l x xs : completes p m (close (flags t) l (x :: xs)) -> completes (p + 1) (mem_write p [x] m) (close (flags t) l xs).
Proof.
  intros HC d m' h Hl Hm Hs. rewrite (close_bytes _ _ xs (x :: xs)). apply HC; [|..|exact Hs].
  - revert Hl. unfold close. by destruct (no_stop _).
  - intros y. rewrite Hm. revert y. unfold close. destruct (no_stop _); intros y; apply mem_write_next.
Qed.

Lemma receiving_step d m h (P : unit -> W -> Prop) : state h = kReceiveDataState -> 1 <= dataSize (transfer h) < 2 ^ 32 ->
  (let left := dataSize (transfer h) - 1 in
   wp (res <- (result <- (if left =? 0 then
        if negb (no_stop (flags (transfer h))) then I2C_MasterStop fuel else on_i2c (set_bits C1 I2C_C1_TX_MASK) ;; ret kStatus_Success
      else ret kStatus_Success) ;; take result left (transfer h)) ;; conclude res) P (cur d m (with_transfer (with_data (data (transfer h)) left (transfer h)) h))) ->
  wp (res <- master_step fuel ;; conclude res) P (cur d m h).
Proof.
  intros Hs Hn H. in_state Hs. unfold receive_next. rewrite wp_bind, wp_handle, wp_bind, wp_upd_master. change (i_master _) with h.
  rewrite (proj2 (Z.eqb_neq _ _)) by lia. rewrite wrap_small by lia. by rewrite wp_bind in H.
Qed.

(** [S n] bytes are still to come, the first one is under way. *)
Lemma receiving_served n : forall l m d h, receives fuel l true (negb (n =? 0)%nat) (view d) -> state h = kReceiveDataState -> ours h ->
  dataSize (transfer h) = Z.of_nat (S n) -> Z.of_nat (S n) < 2 ^ 32 ->
  (let '(l', xs) := obtains env l (S n) in completes (data (transfer h)) m (close (flags t) l' xs)) -> served (S n) Q (cur d m h).
Proof.
  induction n as [|n IH]; intros l m d h HR Hs Ho Hn Hb HC; apply served_next; rewrite obtains_next in HC; set (x := supplies env l) in *;
    apply (got_irq _ _ _ _ _ _ HR); try (unfold ignored; by rewrite Hs, Hn); try (by rewrite Hs); intros d1 H1 E1 N1;
    apply (receiving_step _ _ _ _ Hs); try lia; cbv zeta; rewrite Hn.
  - change (Z.of_nat 1 - 1) with 0. set (h' := with_transfer (with_data _ 0 _) h). cbn [Z.eqb]. destruct Ho as (Ho1 & Ho2 & Ho3). assert (Ho' : ours h') by by split.
    cbn [obtains Nat.eqb negb] in *. unfold close in HC. rewrite Ho2, wp_bind, wp_bind. destruct (no_stop (flags t)) eqn:Hst; cbn [negb].
    + rewrite wp_bind. apply (set_tx_data _ _ _ _ _ (cur d1 m h') _ H1). intros d2 H2 E2. change (vw (cur d1 m h')) with (view d1) in E2. rewrite wp_ret.
      rewrite <- (wp_bind (take _ _ _) conclude). eapply (take_last _ _ _ true true true _ m d2 h'); try done; try (by rewrite Hst); [by rewrite E2, E1|].
      intros d3 H3. by eexists _, _.
    + apply (stop_data fuel patient _ _ _ _ _ (cur d1 m h') _ H1). intros d2 H2 E2. change (vw (cur d1 m h')) with (view d1) in E2.
      rewrite <- (wp_bind (take _ _ _) conclude). eapply (take_last _ _ _ false false true _ m d2 h'); try done; [by rewrite E2, E1|].
      intros d3 H3. by eexists _, _, _.
  - replace (Z.of_nat (S (S n)) - 1) with (Z.of_nat (S n)) by lia. set (h' := with_transfer (with_data _ _ _) h). rewrite (proj2 (Z.eqb_neq _ _)) by lia. rewrite wp_bind, wp_bind, wp_ret, <- wp_bind.
    apply (take_more n _ x m d1 h' (transfer h) _ H1 N1); [|exact E1]. intros d2 H2. eapply IH; [exact H2|done|by destruct Ho|done|lia|].
    fold x. cbn [Nat.eqb negb] in HC |- *. destruct (obtains env (l ++ [Got x true]) (S n)) as [l' xs]. by apply completes_next.
Qed.
Lemma begin_step n l m r d h : rests l true true true false r (view d) -> state h = kReceiveDataBeginState -> ours h ->
  dataSize (transfer h) = Z.of_nat (S n) -> Z.of_nat (S n) < 2 ^ 32 ->
  (let '(l', xs) := obtains env l (S n) in completes (data (transfer h)) m (close (flags t) l' xs)) ->
  wp (res <- master_step fuel ;; conclude res) (fun _ => served (S n) Q) (cur d m h).
Proof.
  intros HR Hs Ho Hn Hb HC. in_state Hs. rewrite wp_bind. apply (begin_receive_run fuel patient no_fack _ _ _ _ _ (cur d m h) _ HR); [done|]. intros d1 H1.
  assert (HS : forall d, receives fuel l true (negb (n =? 0)%nat) (view d) -> served (S n) Q (cur d m (with_state kReceiveDataState h))).
  { intros d2 H2. apply (receiving_served n _ _ _ _ H2); [done|destruct Ho; by split|exact Hn|exact Hb|exact HC]. }
  rewrite wp_bind. change (transfer _) with (transfer h). rewrite Hn. destruct n as [|n].
  - apply (nack_last_run fuel no_fack _ _ _ (with_hw d1 (cur d m h)) _ H1). intros d2 H2. rewrite wp_bind, wp_upd_master, wp_ret. by apply (HS d2).
  - rewrite (proj2 (Z.eqb_neq _ _)) by lia. rewrite wp_ret, wp_bind, wp_upd_master, wp_ret. by apply (HS d1).
Qed.

(** *** The transfer *)

Context (bounded : 0 <= dataSize t < 2 ^ 32) (nonempty : direction t = kI2C_Read -> 0 < dataSize t).
(** The state for the data phase. *)
Definition data_state : i2c_transfer_states := match direction t with kI2C_Write => kSendDataState | kI2C_Read => kReceiveDataBeginState end.
(** [k] bytes of the command are left. *)
Definition at_command (k : nat) (h : i2c_master_handle) : Prop :=
  completionCallback h = completionCallback (i_master w0) /\ transfer h = with_subaddressSize (Z.of_nat k) t.
Lemma at_command_ours k h : at_command k h -> ours h.
Proof. intros [H1 H2]. split; [done|]. by rewrite H2. Qed.

Lemma data_run l m r d h : rests l true true true false r (view d) -> state h = data_state -> at_command 0 h ->
  completes (data t) m (data_phase env kStatus_I2C_Nak t (bytes_at m (data t) (dataSize t)) l) ->
  wp (res <- master_step fuel ;; conclude res) (fun _ => served (Z.to_nat (dataSize t)) Q) (cur d m h).
Proof.
  intros HR Hs Ha HC. assert (Ho := at_command_ours _ _ Ha). destruct Ha as [_ Ht]. unfold data_state in Hs. unfold data_phase in HC.
  assert (En : dataSize (transfer h) = Z.of_nat (Z.to_nat (dataSize t))) by (rewrite Ht; cbn [dataSize with_subaddressSize]; lia).
  assert (Ed : data (transfer h) = data t) by by rewrite Ht. destruct (direction t).
  - apply data_step; [exact Hs|]. eapply send_served; [exact HR|exact Hs|exact Ho|exact En|lia|]. rewrite Ed, Z2Nat.id by lia. exact HC.
  - specialize (nonempty eq_refl). assert (E : Z.to_nat (dataSize t) = S (Z.to_nat (dataSize t - 1))) by lia. rewrite E in *.
    eapply begin_step; [exact HR|exact Hs|exact Ho|exact En|lia|]. rewrite Ed. destruct (obtains env l _). exact HC.
Qed.

Lemma second_address_run l m d h : works fuel (l ++ [Restart]) (Sending (on_bus (slaveAddress t) kI2C_Read)) true (view d) ->
  direction t = kI2C_Read -> state h = kReceiveDataBeginState -> at_command 0 h ->
  completes (data t) m (if_sent kStatus_I2C_Nak (sends env (l ++ [Restart]) [on_bus (slaveAddress t) kI2C_Read])
    (data_phase env kStatus_I2C_Nak t (bytes_at m (data t) (dataSize t)))) ->
  served (S (Z.to_nat (dataSize t))) Q (cur d m h).
Proof.
  intros HW Hd Hs Ha HC. assert (Ho := at_command_ours _ _ Ha). assert (Hi : ignored h = false) by (unfold ignored; by rewrite Hs).
  apply served_next. cbn [sends] in HC. destruct (answers env _ _) eqn:He.
  - apply (ok_irq _ _ false _ _ _ _ HW He); [done|by rewrite Hs|]. intros d1 H1. apply (data_run _ _ _ _ _ H1); [by unfold data_state; rewrite Hd|exact Ha|exact HC].
  - eapply nak_irq; [exact HW|exact He|exact Hi|exact Ho|]. unfold nak_status. rewrite Hs. exact HC.
  - eapply lost_irq; [exact HW|exact He|exact Ho|exact HC].
Qed.

Abbreviation bytes m := (bytes_at m (data t) (dataSize t)).
Abbreviation size := (Z.to_nat (dataSize t)).
Lemma command_done l m r d h : rests l true true true false r (view d) -> state h = kSendCommandState -> at_command 0 h ->
  completes (data t) m (after_command env kStatus_I2C_Nak kStatus_I2C_Nak t (bytes m) l) ->
  wp (res <- master_step fuel ;; conclude res) (fun _ => served (S size) Q) (cur d m h).
Proof.
  intros HR Hs Ha HC. assert (Ho := at_command_ours _ _ Ha). assert (Ht := proj2 Ha). in_state Hs. rewrite Ht. cbn [subaddressSize with_subaddressSize Z.of_nat Z.eqb negb].
  unfold after_command in HC. change (direction (with_subaddressSize _ _)) with (direction t).
  destruct (direction t) as [|] eqn:Hd in HC |- *.
  - unfold data_phase in HC. rewrite Hd in HC. assert (En : dataSize (transfer h) = Z.of_nat size) by (rewrite Ht; cbn [dataSize with_subaddressSize]; lia).
    change (Z.of_nat 0 =? 0) with true. cbn [negb]. change (dataSize (with_subaddressSize _ _)) with (dataSize t). rewrite wp_bind. destruct (Z.ltb_spec 0 (dataSize t)).
    + rewrite wp_upd_master, <- wp_bind. apply (wp_more size); [lia|].
      apply (send_served size l (data t) m r d (with_state kSendDataState h) HR); [done|exact Ho|exact En|lia|].
      change (data (transfer (with_state kSendDataState h))) with (data (transfer h)). rewrite Ht, Z2Nat.id by lia. exact HC.
    + rewrite wp_ret, <- wp_bind. eapply next_last; [exact HR|rewrite Ht; cbn [dataSize with_subaddressSize]; lia|exact Ho|].
      rewrite bytes_at_nothing in HC by done. exact HC.
  - change (Z.of_nat 0 =? 0) with true. cbn [negb]. rewrite wp_bind. apply (restart_run fuel patient _ _ _ _ _ _ (cur d m h) _ HR). intros d1 H1. rewrite wp_bind, wp_upd_master, wp_ret.
    change (wp (ret tt) (fun _ => served (S size) Q) (cur d1 m (with_state kReceiveDataBeginState h))). rewrite wp_ret.
    by apply (second_address_run l m d1 (with_state kReceiveDataBeginState h)).
Qed.

Lemma commands_run k : forall l m r d h, Z.of_nat k < 256 -> rests l true true true false r (view d) -> state h = kSendCommandState -> at_command k h ->
  completes (data t) m (if_sent kStatus_I2C_Nak (sends env l (big_endian k (subaddress t)))
    (after_command env kStatus_I2C_Nak kStatus_I2C_Nak t (bytes m))) ->
  wp (res <- master_step fuel ;; conclude res) (fun _ => served (k + S size) Q) (cur d m h).
Proof.
  induction k as [|k IH]; intros l m r d h Hk HR Hs Ha HC; [by eapply command_done|].
  assert (Ht := proj2 Ha). assert (Hi : ignored (with_transfer (with_subaddressSize (Z.of_nat k) t) h) = false) by (unfold ignored; cbn [state with_transfer]; by rewrite Hs).
  in_state Hs. rewrite Ht. cbn [subaddressSize with_subaddressSize]. rewrite (proj2 (Z.eqb_neq _ _)) by lia. cbn [negb].
  replace (u8 (Z.of_nat (S k) - 1)) with (Z.of_nat k) by (rewrite wrap_small; lia). rewrite wp_bind, wp_upd_master, wp_bind.
  set (h' := with_transfer (with_subaddressSize (Z.of_nat k) t) h). assert (Ha' : at_command k h') by (split; [apply Ha|done]).
  apply (send_run fuel patient _ _ _ _ _ _ (cur d m h') _ HR); [done..|]. intros d1 HW. rewrite wp_ret.
  change (wp (ret tt) (fun _ => served (S k + S size) Q) (cur d1 m h')). rewrite wp_ret. cbn [Nat.add]. apply served_next.
  rewrite command_byte_spec in HW. cbn [big_endian sends] in HC. destruct (answers env _ _) eqn:He.
  - apply (ok_irq _ _ false _ _ _ _ HW He); [done|cbn; by rewrite Hs|]. intros d2 H2. eapply IH; [lia|exact H2|exact Hs|exact Ha'|exact HC].
  - eapply nak_irq; [exact HW|exact He|exact Hi|by eapply at_command_ours|]. unfold nak_status. change (state h') with (state h). rewrite Hs. exact HC.
  - eapply lost_irq; [exact HW|exact He|by eapply at_command_ours|exact HC].
Qed.

Lemma address_served l m d h : 0 <= subaddressSize t < 256 -> works fuel l (Sending (on_bus (slaveAddress t) (first_direction t))) true (view d) ->
  state h = kCheckAddressState -> at_command (Z.to_nat (subaddressSize t)) h ->
  completes (data t) m (if_sent kStatus_I2C_Addr_Nak (sends env l [on_bus (slaveAddress t) (first_direction t)]) (fun l =>
    if subaddressSize t =? 0 then data_phase env kStatus_I2C_Nak t (bytes m) l
    else if_sent kStatus_I2C_Nak (sends env l (command t)) (after_command env kStatus_I2C_Nak kStatus_I2C_Nak t (bytes m)))) ->
  served (S (Z.to_nat (subaddressSize t) + S size)) Q (cur d m h).
Proof.
  intros Hsub HW Hs Ha HC. assert (Ho := at_command_ours _ _ Ha). assert (Hi : ignored h = false) by (unfold ignored; by rewrite Hs).
  apply served_next. cbn [sends] in HC. destruct (answers env _ _) eqn:He.
  - apply (addressed_irq _ _ _ _ _ _ HW He Hs). intros d1 H1. unfold addressed. assert (Ht := proj2 Ha).
    assert (Es : subaddressSize (transfer h) = subaddressSize t) by (rewrite Ht; cbn [subaddressSize with_subaddressSize]; lia). rewrite Es.
    unfold if_sent at 1 in HC. cbn [fst snd] in HC. destruct (Z.eqb_spec (subaddressSize t) 0) as [E0|E0].
    + rewrite E0, Z.ltb_irrefl. rewrite E0 in Ha. apply (wp_more size); [lia|].
      apply (data_run _ _ _ _ _ H1); [|exact Ha|exact HC]. unfold data_state. cbn [state with_state]. by rewrite Ht.
    + rewrite (proj2 (Z.ltb_lt _ _)) by lia. apply (commands_run (Z.to_nat (subaddressSize t)) _ _ _ _ _ ltac:(lia) H1); [done|exact Ha|exact HC].
  - eapply nak_irq; [exact HW|exact He|exact Hi|exact Ho|]. unfold nak_status. rewrite Hs. exact HC.
  - eapply lost_irq; [exact HW|exact He|exact Ho|exact HC].
Qed.
End Phases.

(** ** The start *)

Definition signal (t : i2c_master_transfer) : bus_event := if has (flags t) kI2C_TransferRepeatedStartFlag then Restart else Start.
(** The handle a transfer starts with. *)
Definition started (t : i2c_master_transfer) (h : i2c_master_handle) : i2c_master_handle := Master t (dataSize t) kCheckAddressState (completionCallback h).

Lemma nonblocking_run t l tx f r (w : W) (P : status_t -> W -> Prop) : has (flags t) kI2C_TransferNoStartFlag = false -> state (i_master w) = kIdleState ->
  rests l (has (flags t) kI2C_TransferRepeatedStartFlag) tx false f r (vw w) ->
  (forall d, works fuel (l ++ [signal t]) (Sending (on_bus (slaveAddress t) (first_direction t))) true (view d) ->
    P kStatus_Success (with_master (started t (i_master w)) (with_hw d w))) -> wp (I2C_MasterTransferNonBlocking fuel callback t) P w.
Proof.
  intros Hns Hs HR HP. unfold I2C_MasterTransferNonBlocking. rewrite wp_bind, wp_handle, Hs, bool_decide_true by done. cbn [negb].
  rewrite wp_bind. unfold I2C_InitTransferStateMachine. rewrite wp_bind, wp_upd_master, wp_bind, wp_upd_master, wp_bind.
  set (w1 := with_master (started t (i_master w)) w). refine (clear_flags_run _ _ _ _ _ _ w1 _ HR _). intros d1 H1. rewrite Hns.
  assert (HS : forall d, works fuel (l ++ [signal t]) (Sending (on_bus (slaveAddress t) (first_direction t))) false (view d) ->
    wp (when (kStatus_Success =? kStatus_Success) (on_i2c (I2C_EnableInterrupts kI2C_GlobalInterruptEnable)) ;; ret kStatus_Success) P (with_hw d w1)).
  { intros d Hd. rewrite wp_bind. apply enable_run; [apply Hd|]. intros d2 H2. rewrite wp_ret. apply (HP d2). eapply works_irq; [exact Hd|exact H2]. }
  unfold signal in HS. destruct (has (flags t) kI2C_TransferRepeatedStartFlag).
  - apply (restart_run fuel patient _ _ _ _ _ _ (with_hw d1 w1) _ H1). intros d2 H2. by apply (HS d2).
  - apply (master_start_run fuel patient _ _ _ _ _ _ (with_hw d1 w1) _ H1). intros d2 H2. by apply (HS d2).
Qed.

(** What an interrupt-driven transfer that does [x] leaves. *)
Definition complete_with (w : W) (t : i2c_master_transfer) (x : result) (w' : W) : Prop :=
  exists d m h, w' = with_app (told (i_master w) (r_status x) (i_app w)) (with_master h (with_mem m (with_hw d w))) /\ left_as false x (view d) /\
    (forall y, m y = mem_write (data t) (r_bytes x) (i_mem w) y) /\ state h = kIdleState.

Lemma interrupt_transfer_run t l tx f r (w : W) : has (flags t) kI2C_TransferNoStartFlag = false -> 0 <= subaddressSize t < 256 -> 0 <= dataSize t < 2 ^ 32 ->
  (direction t = kI2C_Read -> 0 < dataSize t) -> state (i_master w) = kIdleState -> rests l (has (flags t) kI2C_TransferRepeatedStartFlag) tx false f r (vw w) ->
  wp (I2C_MasterTransferNonBlocking fuel callback t) (fun s w1 => s = kStatus_Success /\ served (S (Z.to_nat (subaddressSize t) + S (Z.to_nat (dataSize t))))
    (complete_with w t (transact env kStatus_I2C_Nak kStatus_I2C_Nak t (bytes_at (i_mem w) (data t) (dataSize t)) l)) w1) w.
Proof.
  intros Hns Hsub Hd Hr Hs HR. apply (nonblocking_run t l tx f r w _ Hns Hs HR). intros d HW. split; [done|].
  set (Q := complete_with w t _). apply (address_served w t Q Hd Hr (l ++ [signal t]) (i_mem w) d (started t (i_master w)) Hsub HW); [done| |].
  - split; [done|]. unfold started. cbn [transfer]. rewrite Z2Nat.id by lia. by destruct t.
  - intros d' m' h Hl Hm Hst. by exists d', m', h.
Qed.

(** C6: An interrupt-driven transfer succeeds to start and, however the
    environment answers, is over after as many interrupts as it has bytes (and
    an address or two): on the bus it has done what [transact] says, a refused
    byte being reported as such, exactly the bytes received are stored, the
    handle is idle again, the interrupt disabled, and the callback has been
    called exactly once with the status; further interrupts change nothing. *)
Theorem i2c_interrupt_transaction t l tx f r (w : W) : has (flags t) kI2C_TransferNoStartFlag = false -> 0 <= subaddressSize t < 256 -> 0 <= dataSize t < 2 ^ 32 ->
  (direction t = kI2C_Read -> 0 < dataSize t) -> state (i_master w) = kIdleState -> rests l (has (flags t) kI2C_TransferRepeatedStartFlag) tx false f r (vw w) ->
  exists w1, I2C_MasterTransferNonBlocking fuel callback t w = Ok (kStatus_Success, w1) /\
    forall n, (2 + Z.to_nat (subaddressSize t) + Z.to_nat (dataSize t) <= n)%nat -> exists w', serve n w1 = Ok (tt, w') /\
      complete_with w t (transact env kStatus_I2C_Nak kStatus_I2C_Nak t (bytes_at (i_mem w) (data t) (dataSize t)) l) w'.
Proof.
  intros Hns Hsub Hd Hr Hs HR. assert (H := interrupt_transfer_run t l tx f r w Hns Hsub Hd Hr Hs HR). unfold wp in H.
  destruct (I2C_MasterTransferNonBlocking fuel callback t w) as [[s w1]|]; [|done]. destruct H as [-> H]. exists w1. split; [done|]. intros n Hn.
  specialize (H n ltac:(lia)). unfold wp in H. destruct (serve n w1) as [[[] w']|]; [|done]. by exists w'.
Qed.
End Irq.
