(* ===== verification/I2cLimits.v ===== *)
(** * Both modes together, a flaw, and the clock

    Polled and interrupt-driven transfers do the same on the bus; a start that
    fails leaves the handle locked; the clock settings chosen are the best of
    all. *)

From stdpp Require Import base list numbers tactics.
From Stdlib Require Import ZArith Lia.
From S2P Require Import Prelude Bytes Mmio I2c I2cBus I2cSignals I2cPolled I2cIrq.

Open Scope Z_scope.
Open Scope prog_scope.

(** ** Clock settings *)

Section Settings.
(** The error of a setting is [err mult divider]. *)
Context (error : Z -> Z -> outcome Z) (err : Z -> Z -> Z).
Context (errors : forall m d, 1 <= m <= 4 -> 20 <= d <= 3840 -> error m d = Ok (err m d)).
Context (error_range : forall m d, 1 <= m <= 4 -> 20 <= d <= 3840 -> 0 <= err m d < UINT32_MAX).

Definition multiplier (mult : Z) : Z := u32 (Z.shiftl 1 mult).
(** [best] is a setting and its error. *)
Definition is_setting (best : setting) : Prop :=
  exists d, s_i2cDividerTable !! Z.to_nat (bestIcr best) = Some d /\ 0 <= bestIcr best < 64 /\ 0 <= bestMult best <= 2 /\
    bestError best = err (multiplier (bestMult best)) d.
(** None is found yet, or one is. *)
Definition candidate (best : setting) : Prop := bestError best = UINT32_MAX \/ is_setting best.
Definition no_worse (best : setting) (mult : Z) (l : list Z) : Prop := Forall (fun d => bestError best <= err (multiplier mult) d) l.

Lemma dividers : Forall (fun d => 20 <= d <= 3840) s_i2cDividerTable.
Proof. by apply (bool_decide_unpack _). Qed.
Lemma multiplier_range mult : 0 <= mult <= 2 -> 1 <= multiplier mult <= 4.
Proof. intros H. assert (Hm : mult = 0 \/ mult = 1 \/ mult = 2) by lia. unfold multiplier. destruct Hm as [-> | [-> | ->]]; cbv; lia || (split; congruence). Qed.
Lemma candidate_positive best : candidate best -> 0 <= bestError best <= UINT32_MAX.
Proof.
  intros [-> | (d & Hd & _ & Hm & ->)]; [lia|]. assert (H := proj1 (Forall_lookup _ _) dividers _ _ Hd).
  assert (H2 := error_range _ _ (multiplier_range _ Hm) H). lia.
Qed.

Lemma scan_table_run mult l : forall i best, 0 <= mult <= 2 -> 0 <= i -> l = drop (Z.to_nat i) s_i2cDividerTable -> candidate best ->
  exists best', scan_table (error (multiplier mult)) l mult i best = Ok best' /\ candidate best' /\ bestError best' <= bestError best /\ no_worse best' mult l.
Proof.
  induction l as [|d l IH]; intros i best Hm Hi Hl Hc; cbn [scan_table].
  - exists best. repeat split; [done|lia|constructor].
  - assert (Hd : s_i2cDividerTable !! Z.to_nat i = Some d) by (rewrite <- (Nat.add_0_r (Z.to_nat i)), <- lookup_drop, <- Hl; done).
    assert (Hl' : l = drop (Z.to_nat (i + 1)) s_i2cDividerTable) by (replace (Z.to_nat (i + 1)) with (Z.to_nat i + 1)%nat by lia; rewrite <- drop_drop, <- Hl; cbn; by rewrite drop_0).
    assert (Hr := proj1 (Forall_lookup _ _) dividers _ _ Hd). assert (Hi64 := lookup_lt_Some _ _ _ Hd). change (length s_i2cDividerTable) with 64%nat in Hi64.
    assert (Hmr := multiplier_range _ Hm). rewrite (errors _ _ Hmr Hr). cbn [obind]. assert (He := error_range _ _ Hmr Hr). cbv beta in Hr.
    set (e := err (multiplier mult) d) in *. assert (Hs : is_setting (Setting e mult i)) by (exists d; cbn; repeat split; [done|lia..]).
    destruct (Z.ltb_spec e (bestError best)) as [Hlt|Hge].
    + destruct (Z.eqb_spec e 0) as [E0|E0].
      * exists (Setting e mult i). split; [done|]. split; [by right|]. split; [cbn; lia|].
        assert (HF : Forall (fun d => 20 <= d <= 3840) (d :: l)) by (rewrite Hl; apply Forall_drop, dividers).
        eapply list.Forall_impl; [exact HF|]. intros d' Hd'. cbn [bestError]. assert (H := error_range _ _ Hmr Hd'). lia.
      * destruct (IH (i + 1) (Setting e mult i) Hm ltac:(lia) Hl' (or_intror Hs)) as (b & H1 & H2 & H3 & H4). exists b. cbn [bestError] in H3.
        split; [done|]. split; [done|]. split; [lia|]. constructor; [fold e; lia|done].
    + destruct (IH (i + 1) best Hm ltac:(lia) Hl' Hc) as (b & H1 & H2 & H3 & H4). exists b. split; [done|]. split; [done|]. split; [lia|].
      constructor; [fold e; lia|done].
Qed.

Lemma scan_mult_run mults : forall best, Forall (fun m => 0 <= m <= 2) mults -> candidate best ->
  exists best', scan_mult error mults best = Ok best' /\ candidate best' /\ bestError best' <= bestError best /\
    Forall (fun m => no_worse best' m s_i2cDividerTable) mults.
Proof.
  induction mults as [|m mults IH]; intros best Hm Hc; cbn [scan_mult].
  - exists best. repeat split; [done|lia|constructor].
  - assert (Hm1 := Forall_inv Hm). assert (Hm2 := Forall_inv_tail Hm). cbv beta in Hm1. destruct (Z.eqb_spec (bestError best) 0) as [E0|E0].
    + exists best. split; [done|]. split; [done|]. split; [lia|]. eapply list.Forall_impl; [exact Hm|]. intros m' Hm'. eapply list.Forall_impl; [exact dividers|].
      intros d Hd. assert (H := error_range _ _ (multiplier_range _ Hm') Hd). lia.
    + destruct (scan_table_run m s_i2cDividerTable 0 best Hm1 ltac:(lia) eq_refl Hc) as (b & H1 & H2 & H3 & H4). fold (multiplier m). rewrite H1. cbn [obind].
      destruct (IH b Hm2 H2) as (b' & J1 & J2 & J3 & J4). exists b'. split; [done|]. split; [done|]. split; [lia|]. constructor; [|done].
      eapply list.Forall_impl; [exact H4|]. cbv beta. intros d Hd. lia.
Qed.

(** The setting found is the best of all. *)
Lemma best_setting_run : exists best, best_setting error = Ok best /\ is_setting best /\
  forall mult d, 0 <= mult <= 2 -> In d s_i2cDividerTable -> bestError best <= err (multiplier mult) d.
Proof.
  assert (Hall : Forall (fun m => 0 <= m <= 2) [0; 1; 2]) by by apply (bool_decide_unpack _).
  destruct (scan_mult_run [0; 1; 2] (Setting UINT32_MAX 0 0) Hall (or_introl eq_refl)) as (b & H1 & H2 & _ & H4).
  assert (HF : forall mult d, 0 <= mult <= 2 -> In d s_i2cDividerTable -> bestError b <= err (multiplier mult) d).
  { intros mult d Hm Hd. assert (Hin : In mult [0; 1; 2]) by (cbn; lia). assert (H := proj1 (List.Forall_forall _ _) H4 _ Hin).
    exact (proj1 (List.Forall_forall _ _) H _ Hd). }
  exists b. split; [done|]. split; [|done]. destruct H2 as [H2|H2]; [|done]. exfalso.
  assert (H := HF 0 20 ltac:(lia) (or_introl eq_refl)). assert (H5 := error_range (multiplier 0) 20 ltac:(by apply multiplier_range) ltac:(lia)). lia.
Qed.
End Settings.

(** How far a baud rate is from the one asked for. *)
Definition rate_error (baudRate srcClock m d : Z) : Z := Z.abs (baudRate - srcClock / (m * d)).
Definition hold_time_error (holdTime srcClock m d : Z) : Z := Z.abs (holdTime - (m * d * 500000000 / srcClock)).

Lemma abs_error_is a b : 0 <= a < UINT32_MAX -> 0 <= b < UINT32_MAX -> abs_error a b = Z.abs (a - b) /\ 0 <= Z.abs (a - b) < UINT32_MAX.
Proof. intros Ha Hb. unfold abs_error. destruct (Z.ltb_spec b a); rewrite wrap_small by lia; lia. Qed.

(** C34: The setting that is written for a baud rate is the closest of all 192
    combinations of multiplier and divider: no other one differs less from
    the rate asked for. *)
Theorem i2c_baud_rate_closest baudRate srcClock : 0 <= baudRate < UINT32_MAX -> 0 < srcClock < 2 ^ 32 ->
  exists best d, best_setting (baud_error baudRate srcClock) = Ok best /\ 0 <= bestMult best <= 2 /\ s_i2cDividerTable !! Z.to_nat (bestIcr best) = Some d /\
    forall mult d', 0 <= mult <= 2 -> In d' s_i2cDividerTable ->
      rate_error baudRate srcClock (multiplier (bestMult best)) d <= rate_error baudRate srcClock (multiplier mult) d'.
Proof.
  intros Hb Hs. assert (Hc : forall m d, 1 <= m <= 4 -> 20 <= d <= 3840 -> 0 <= srcClock / (m * d) < UINT32_MAX).
  { intros m d Hm Hd. assert (Hp : 20 <= m * d) by nia.
    assert (srcClock / (m * d) < srcClock) by (apply Z.div_lt; lia). assert (0 <= srcClock / (m * d)) by (apply Z.div_pos; lia). lia. }
  destruct (best_setting_run (baud_error baudRate srcClock) (rate_error baudRate srcClock)) as (best & H1 & (d & Hd & _ & Hm & He) & H2).
  - intros m d Hm Hd. unfold baud_error, rate_error. rewrite wrap_small by nia. rewrite udiv_ok by nia. cbn [obind].
    by rewrite (proj1 (abs_error_is _ _ Hb (Hc m d Hm Hd))).
  - intros m d Hm Hd. apply (abs_error_is _ _ Hb (Hc m d Hm Hd)).
  - exists best, d. rewrite <- He. auto.
Qed.

(** ** A failed start *)

Section Limits.
Context {D A : Type} `{!Device i2c_reg D} {F : I2cFields} {X : I2cFeatures} {MK : I2cMasks} {L : I2cLaws (D := D)}.
Abbreviation W := (i2c_world D A).
Context (fuel : nat) (callback : status_t -> M W unit) (slave_callback : M W unit).

(** A transfer that is refused because another master has the bus leaves
    the handle in the state of a running transfer: every later transfer is
    refused too, even when the bus is free again. *)
Theorem i2c_failed_start_locks_handle t (w : W) : has (flags t) kI2C_TransferNoStartFlag = false -> has (flags t) kI2C_TransferRepeatedStartFlag = false ->
  state (i_master w) = kIdleState -> b_act (vw w) = Quiet -> b_busy (vw w) = true ->
  exists w1, I2C_MasterTransferNonBlocking fuel callback t w = Ok (kStatus_I2C_Busy, w1) /\
    forall t' d, I2C_MasterTransferNonBlocking fuel callback t' (with_hw d w1) = Ok (kStatus_I2C_Busy, with_hw d w1).
Proof.
  intros H1 H2 Hs Hq Hb. assert (H : wp (I2C_MasterTransferNonBlocking fuel callback t) (fun s w1 => s = kStatus_I2C_Busy /\ state (i_master w1) = kCheckAddressState) w).
  { unfold I2C_MasterTransferNonBlocking. rewrite wp_bind, wp_handle, Hs, bool_decide_true by done. cbn [negb].
    rewrite wp_bind. unfold I2C_InitTransferStateMachine. rewrite wp_bind, wp_upd_master, wp_bind, wp_upd_master, wp_bind.
    apply clear_flags_any. intros d Hd. rewrite H1, H2. unfold I2C_MasterStart. apply get_status_any. intros s d2 Hd2 ->.
    change (vw (with_hw d _)) with (view d) in Hd2.
    assert (b_busy (view d2) = true) as ->; [|rewrite wp_ret, wp_bind; change (kStatus_I2C_Busy =? kStatus_Success) with false; by rewrite !wp_ret].
    rewrite Hd2, Hd. unfold poll, finish. cbn. change (vw _) with (vw w). rewrite Hq. by destruct (b_wait _). }
  unfold wp in H. destruct (I2C_MasterTransferNonBlocking fuel callback t w) as [[s w1]|]; [|done]. destruct H as [-> H]. exists w1. split; [done|].
  intros t' d. assert (H' : wp (I2C_MasterTransferNonBlocking fuel callback t') (fun s w' => s = kStatus_I2C_Busy /\ w' = with_hw d w1) (with_hw d w1)).
  { unfold I2C_MasterTransferNonBlocking. rewrite wp_bind, wp_handle. cbn [i_master with_hw]. rewrite H, bool_decide_false by done. cbn [negb]. by rewrite wp_ret. }
  unfold wp in H'. destruct (I2C_MasterTransferNonBlocking fuel callback t' (with_hw d w1)) as [[s w2]|]; [|done]. by destruct H' as [-> ->].
Qed.

(** ** Both modes *)

Context (patient : forall l, (lasts env l < waits fuel)%nat) (no_fack : I2C_MASTER_FACK_CONTROL = false).
Context (note : status_t -> A -> A) (notes : forall s w, callback s w = Ok (tt, with_app (note s (i_app w)) w)).

(** The status of a polled transfer and that of an interrupt-driven one. *)
Definition reported_as (polled driven : status_t) : Prop :=
  polled = driven \/ driven = kStatus_I2C_Nak /\ (polled = kStatus_Success \/ polled = kStatus_I2C_Addr_Nak).
Definition similar (x y : result) : Prop := r_trace x = r_trace y /\ r_bytes x = r_bytes y /\ r_bus x = r_bus y /\ reported_as (r_status x) (r_status y).

Lemma if_sent_similar a b lr K K' : a = b \/ b = kStatus_I2C_Nak /\ (a = kStatus_Success \/ a = kStatus_I2C_Addr_Nak) -> (forall l, similar (K l) (K' l)) ->
  similar (if_sent a lr K) (if_sent b lr K').
Proof. intros H HK. unfold if_sent. destruct lr.2; [apply HK| |]; (do 3 (split; [done|])); [exact H|by left]. Qed.
Lemma similar_refl x : similar x x.
Proof. repeat split. by left. Qed.

Lemma transact_similar t payload l :
  similar (transact env kStatus_Success kStatus_I2C_Addr_Nak t payload l) (transact env kStatus_I2C_Nak kStatus_I2C_Nak t payload l).
Proof.
  assert (HD : forall l, similar (data_phase env kStatus_Success t payload l) (data_phase env kStatus_I2C_Nak t payload l)).
  { intros l'. unfold data_phase. destruct (direction t); [|destruct (obtains _ _ _); apply similar_refl].
    apply if_sent_similar; [auto|]. intros l2. apply similar_refl. }
  apply if_sent_similar; [auto|]. intros l1. destruct (_ =? 0); [apply HD|]. apply if_sent_similar; [auto|]. intros l2. unfold after_command.
  destruct (direction t); [apply HD|]. apply if_sent_similar; auto.
Qed.

(** C12: A transfer done by polling and the same transfer done by interrupts
    agree: from the same world, the same happens on the bus and the memory is
    the same in the end; the status given to the callback is the one the
    polled transfer returns, except that a refused byte of data or second
    address is a plain refusal. *)
Theorem i2c_modes_agree t l tx f r (w : W) : has (flags t) kI2C_TransferNoStartFlag = false -> 0 <= subaddressSize t < 256 -> 0 <= dataSize t < 2 ^ 32 ->
  (direction t = kI2C_Read -> 0 < dataSize t) -> state (i_master w) = kIdleState -> rests l (has (flags t) kI2C_TransferRepeatedStartFlag) tx false f r (vw w) ->
  exists s s' w1 w2 w3 n, I2C_MasterTransferBlocking fuel t w = Ok (s, w1) /\
    I2C_MasterTransferNonBlocking fuel callback t w = Ok (kStatus_Success, w2) /\ serve fuel callback slave_callback n w2 = Ok (tt, w3) /\
    b_log (vw w1) = b_log (vw w3) /\ (forall y, i_mem w1 y = i_mem w3 y) /\ i_app w3 = told note (i_master w) s' (i_app w) /\ reported_as s s'.
Proof.
  intros Hns Hsub Hd Hr Hs HR. set (x := transact env kStatus_Success kStatus_I2C_Addr_Nak t (bytes_at (i_mem w) (data t) (dataSize t)) l).
  set (y := transact env kStatus_I2C_Nak kStatus_I2C_Nak t (bytes_at (i_mem w) (data t) (dataSize t)) l).
  assert (Hxy : similar x y) by apply transact_similar. destruct Hxy as (E1 & E2 & E3 & E4).
  assert (Hlog : forall i z b, left_as i z b -> b_log b = r_trace z).
  { intros i z b. unfold left_as, taken, quiet_at. destruct (r_bus z); [intros (? & ? & ? & [])|intros (? & ? & [])|intros ((? & ?) & _)]; done. }
  assert (HB := transfer_blocking_run fuel patient no_fack t l tx f r w (fun s w1 => s = r_status x /\ b_log (vw w1) = r_trace x /\
    forall z, i_mem w1 z = mem_write (data t) (r_bytes x) (i_mem w) z) Hns ltac:(split; [lia|split; [lia|exact Hr]]) HR).
  assert (HI := interrupt_transfer_run fuel patient no_fack callback slave_callback note notes t l tx f r w Hns Hsub Hd Hr Hs HR).
  unfold wp in HB, HI. destruct (I2C_MasterTransferBlocking fuel t w) as [[s w1]|] eqn:EB.
  2: { exfalso. apply HB. intros d m n Hl Hm _. split; [done|]. split; [by eapply Hlog|done]. }
  destruct HB as (-> & HB1 & HB2); [intros d m n Hl Hm _; split; [done|]; split; [by eapply Hlog|done]|].
  destruct (I2C_MasterTransferNonBlocking fuel callback t w) as [[s' w2]|]; [|done]. destruct HI as [-> HI].
  specialize (HI _ (Nat.le_refl _)). fold y in HI. unfold wp in HI. destruct (serve _ _ _ _ w2) as [[[] w3]|] eqn:ES; [|done].
  destruct HI as (d & m & h & -> & Hl & Hm & _). exists (r_status x), (r_status y), w1, w2. eexists _, _. split; [done|]. split; [done|]. split; [exact ES|].
  split; [by rewrite HB1, E1; symmetry; eapply Hlog|]. split; [|done]. intros z. rewrite HB2, E2. symmetry. apply Hm.
Qed.
End Limits.
