(* ===== verification/I2cDevice.v ===== *)
(** * An I2C peripheral

    A peripheral with the bits of a Kinetis device and a memory device on its
    bus, for which the laws hold; transfers on it. *)

From stdpp Require Import base list numbers tactics.
From Stdlib Require Import ZArith Lia.
From S2P Require Import Prelude Bytes Mmio I2c I2cBus I2cSignals I2cPolled I2cIrq I2cLimits.

Open Scope Z_scope.
Open Scope prog_scope.

Definition field (pos mask x : Z) : Z := Z.land (Z.shiftl x pos) mask.
#[export] Instance kinetis_fields : I2cFields := {|
  I2C_C1_IICEN_MASK := 0x80; I2C_C1_IICIE_MASK := 0x40; I2C_C1_MST_MASK := 0x20; I2C_C1_TX_MASK := 0x10; I2C_C1_TXAK_MASK := 0x8;
  I2C_C1_RSTA_MASK := 0x4; I2C_C1_WUEN_MASK := 0x2; I2C_C1_DMAEN_MASK := 0x1; I2C_C1_IICEN := field 7 0x80; I2C_C1_WUEN := field 1 0x2;
  I2C_S_RXAK_MASK := 0x1; I2C_S_IICIF_MASK := 0x2; I2C_S_SRW_MASK := 0x4; I2C_S_ARBL_MASK := 0x10; I2C_S_BUSY_MASK := 0x20;
  I2C_S_IAAS_MASK := 0x40; I2C_S_TCF_MASK := 0x80;
  I2C_FLT_STOPF_MASK := 0x40; I2C_FLT_STARTF_MASK := 0x10; I2C_FLT_STOPIE_MASK := 0x20; I2C_FLT_SSIE_MASK := 0x20; I2C_FLT_SHEN_MASK := 0x80;
  I2C_FLT_FLT_MASK := 0xF; I2C_FLT_SHEN := field 7 0x80; I2C_FLT_FLT := field 0 0xF;
  I2C_F_MULT_MASK := 0xC0; I2C_F_MULT := field 6 0xC0; I2C_F_ICR := field 0 0x3F;
  I2C_C2_RMEN_MASK := 0x8; I2C_C2_SBRC_MASK := 0x10; I2C_C2_GCAEN_MASK := 0x80; I2C_C2_SBRC := field 4 0x10; I2C_C2_GCAEN := field 7 0x80;
  I2C_SMB_FACK_MASK := 0x80; I2C_S2_EMPTY_MASK := 0x1; I2C_S2_DFEN_MASK := 0x4; I2C_S2_DFEN := field 2 0x4
|}.
#[export] Instance kinetis_masks : I2cMasks.
Proof. by split. Qed.

Section Device.
Context (e : environment).

Record i2c_dev := I2cDev { dv_bus : bus; dv_regs : i2c_reg -> Z }.

Definition pack (b : bool) (k : Z) : Z := if b then 2 ^ k else 0.
Definition status_value (b : bus) : Z :=
  Z.lor (pack (negb (transferring b)) 7) (Z.lor (pack (b_busy b) 5) (Z.lor (pack (b_arbl b) 4) (Z.lor (pack (b_if b) 1) (pack (b_rxak b) 0)))).
Definition dev_read (r : i2c_reg) (d : i2c_dev) : Z * i2c_dev :=
  match r with
  | S_ => let b := poll e (dv_bus d) in (status_value b, I2cDev b (dv_regs d))
  | C1 => (b_c1 (dv_bus d), d)
  | D_ => (b_data (dv_bus d), I2cDev (read_d e (dv_bus d)) (dv_regs d))
  | S2 => (1, d)
  | _ => (dv_regs d r, d)
  end.
Definition dev_write (r : i2c_reg) (v : Z) (d : i2c_dev) : i2c_dev :=
  match r with
  | S_ => I2cDev (write_s v (dv_bus d)) (dv_regs d)
  | C1 => I2cDev (write_c1 e v (dv_bus d)) (dv_regs d)
  | D_ => I2cDev (write_d e v (dv_bus d)) (dv_regs d)
  | _ => I2cDev (dv_bus d) (fun q => if decide (q = r) then v else dv_regs d q)
  end.
#[local] Instance dev_device : Device i2c_reg i2c_dev := {| reg_read := dev_read; reg_write := dev_write |}.

Lemma pack_bit b k j : 0 <= k -> 0 <= j -> Z.testbit (pack b k) j = b && (j =? k).
Proof. intros Hk Hj. unfold pack. destruct b; [|by rewrite Z.bits_0]. rewrite Z.pow2_bits_eqb by done. by rewrite Z.eqb_sym. Qed.

Lemma status_bits b : has (status_value b) 0x80 = negb (transferring b) /\ has (status_value b) 0x20 = b_busy b /\ has (status_value b) 0x2 = b_if b /\
  has (status_value b) 0x10 = b_arbl b /\ has (status_value b) 0x1 = b_rxak b.
Proof.
  change 0x80 with (2 ^ 7). change 0x20 with (2 ^ 5). change 0x10 with (2 ^ 4). change 0x2 with (2 ^ 1). change 0x1 with (2 ^ 0).
  rewrite !has_pow2 by lia. unfold status_value. rewrite !Z.lor_spec, !pack_bit by lia. cbn [Z.eqb Pos.eqb].
  by rewrite ?andb_true_r, ?andb_false_r, ?orb_false_r.
Qed.

Lemma other_cases r : r ∉ [S_; C1; D_] -> r <> S_ /\ r <> C1 /\ r <> D_.
Proof. intros H. repeat split; intros ->; apply H; by apply (bool_decide_unpack _). Qed.

Definition dev_laws : I2cLaws (D := i2c_dev).
Proof.
  refine {| env := e; view := dv_bus; elapse := fun d => I2cDev (finish e (dv_bus d)) (dv_regs d) |}; try done.
  - intros d. split; [done|]. apply status_bits.
  - intros r d H%other_cases. destruct r; try done; by destruct H as (? & ? & ?).
  - intros r v d H%other_cases. destruct r; try done; by destruct H as (? & ? & ?).
Defined.
End Device.

(** ** Transfers with a memory device *)

(** A device that refuses the byte 255, supplies 7, 8, 9, ... and takes its
    time. *)
Definition memory_device : environment := {|
  answers := fun l x => if x =? 255 then Nak else if x =? 254 then Lost else Ack;
  supplies := fun l => 7 + Z.of_nat (length l);
  lasts := fun l => (length l mod 3)%nat
|}.
#[local] Instance the_device : Device i2c_reg i2c_dev := dev_device memory_device.
Definition the_laws : I2cLaws (D := i2c_dev) := dev_laws memory_device.
(** The interrupt-driven slave events and the double buffer of the chip are
    there; no address control and no retry limit. *)
#[local] Instance the_features : I2cFeatures := {|
  HAS_START_STOP_DETECT := true; HAS_STOP_DETECT := false; HAS_STOP_HOLD_OFF := true; HAS_DOUBLE_BUFFER_ENABLE := true; HAS_DOUBLE_BUFFERING := true;
  I2C_MASTER_FACK_CONTROL := false; I2C_RETRY_TIMES := 0
|}.

(** The application keeps the statuses it is told. *)
Abbreviation app := (list status_t).
Definition note_status (s : status_t) (a : app) : app := a ++ [s].
Definition on_complete (s : status_t) : M (i2c_world i2c_dev app) unit := modify (fun w => with_app (note_status s (i_app w)) w).
Definition on_slave : M (i2c_world i2c_dev app) unit := ret tt.

Definition idle_bus : bus := Bus [] 0x80 false Quiet 0 false false false 0.
Definition busy_bus : bus := Bus [] 0x80 true Quiet 0 false false false 0.
Definition memory (x : Z) : Z := if x =? 0x102 then 255 else x mod 100.
Definition world_on (b : bus) : i2c_world i2c_dev app :=
  I2cWorld (I2cDev b (fun _ => 0)) 100000 (Master transfer_null 0 kIdleState true) (Slave false slave_transfer_null 0 false) memory [] 0.

(** Reads four bytes from a two-byte address of the memory device; writes
    four of which the third is refused. *)
Definition read_four : i2c_master_transfer := Transfer 0 0x50 kI2C_Read 0x1234 2 0x200 4.
Definition write_four : i2c_master_transfer := Transfer 0 0x50 kI2C_Write 0x1234 1 0x100 4.

Lemma device_patient l : (lasts memory_device l < 3)%nat.
Proof. apply Nat.mod_upper_bound. done. Qed.
Lemma waits_are_enough l : (lasts (@env _ _ _ the_laws) l < waits 3)%nat.
Proof. exact (device_patient l). Qed.
Lemma idle_rests : rests [] false false false false false (vw (L := the_laws) (world_on idle_bus)).
Proof. by split. Qed.
Lemma reads_some (t : i2c_master_transfer) : 0 < dataSize t -> direction t = kI2C_Read -> 0 < dataSize t.
Proof. done. Qed.

Lemma i2c_blocking_transaction_witness :
  exists w', I2C_MasterTransferBlocking 3 read_four (world_on idle_bus) = Ok (kStatus_Success, w') /\
    bytes_at (i_mem w') 0x200 4 = [13; 14; 15; 16] /\ i_xfer_left w' = 0 /\
    b_log (dv_bus (i_hw w')) = [Start; Sent 0xA0 true; Sent 0x12 true; Sent 0x34 true; Restart; Sent 0xA1 true;
      Got 13 true; Got 14 true; Got 15 true; Got 16 false; Stop].
Proof.
  destruct (i2c_blocking_transaction (L := the_laws) 3 waits_are_enough eq_refl read_four [] false false false (world_on idle_bus)) as (_ & d & m & n & H1 & H2 & H3 & H4);
    [reflexivity|split; [done|split; done]|exact idle_rests|].
  eexists. split; [exact H1|]. split; [|split].
  - erewrite bytes_at_agree by (intros x _; apply H3). vm_compute. reflexivity.
  - by apply H4.
  - destruct H2 as (? & ? & ? & [H2 _ _ _ _ _ _ _ _ _ _]). exact H2.
Defined.

Lemma i2c_interrupt_transaction_witness :
  exists w1, I2C_MasterTransferNonBlocking 3 on_complete write_four (world_on idle_bus) = Ok (kStatus_Success, w1) /\
    forall n, (7 <= n)%nat -> exists w', serve (L := the_laws) 3 on_complete on_slave n w1 = Ok (tt, w') /\
      i_app w' = [kStatus_I2C_Nak] /\ state (i_master w') = kIdleState /\
      b_log (dv_bus (i_hw w')) = [Start; Sent 0xA0 true; Sent 0x34 true; Sent 56 true; Sent 57 true; Sent 255 false; Stop].
Proof.
  destruct (i2c_interrupt_transaction (L := the_laws) 3 waits_are_enough eq_refl on_complete on_slave note_status (fun s w => eq_refl)
    write_four [] false false false (world_on idle_bus)) as (w1 & H1 & H2); [reflexivity|done|done|done|reflexivity|exact idle_rests|].
  exists w1. split; [exact H1|]. intros n Hn. destruct (H2 n Hn) as (w' & H3 & d & m & h & -> & H4 & _ & H5).
  eexists. split; [exact H3|]. split; [reflexivity|]. split; [exact H5|]. destruct H4 as (? & ? & ? & [H4 _ _ _ _ _ _ _ _ _ _]). exact H4.
Defined.

(** The third of four bytes is refused. *)
Definition sending_bus : bus := Bus [Start; Sent 0xA0 true] (Z.lor 0x80 0x30) true Quiet 0 false false false 0.
Lemma i2c_nak_reported_as_success_witness :
  exists d, I2C_MasterWriteBlocking 3 0x100 4 0 (world_on sending_bus) = Ok (kStatus_Success, with_hw d (world_on sending_bus)) /\
    b_log (dv_bus d) = [Start; Sent 0xA0 true; Sent 56 true; Sent 57 true; Sent 255 false; Stop].
Proof.
  apply (i2c_nak_reported_as_success (L := the_laws) 3 waits_are_enough 0x100 4 0 [Start; Sent 0xA0 true] true false false false
    [Start; Sent 0xA0 true; Sent 56 true; Sent 57 true; Sent 255 false]); [by split|vm_compute; reflexivity].
Defined.

Lemma i2c_failed_start_locks_handle_witness :
  exists w1, I2C_MasterTransferNonBlocking 3 on_complete write_four (world_on busy_bus) = Ok (kStatus_I2C_Busy, w1) /\
    forall t' d, I2C_MasterTransferNonBlocking 3 on_complete t' (with_hw d w1) = Ok (kStatus_I2C_Busy, with_hw d w1).
Proof. by apply (i2c_failed_start_locks_handle (L := the_laws) 3 on_complete write_four (world_on busy_bus)). Defined.

Lemma i2c_modes_agree_witness :
  exists s s' w1 w2 w3 n, I2C_MasterTransferBlocking 3 write_four (world_on idle_bus) = Ok (s, w1) /\
    I2C_MasterTransferNonBlocking 3 on_complete write_four (world_on idle_bus) = Ok (kStatus_Success, w2) /\
    serve (L := the_laws) 3 on_complete on_slave n w2 = Ok (tt, w3) /\ b_log (dv_bus (i_hw w1)) = b_log (dv_bus (i_hw w3)) /\
    (forall y, i_mem w1 y = i_mem w3 y) /\ i_app w3 = [s'] /\ reported_as s s'.
Proof.
  apply (i2c_modes_agree (L := the_laws) 3 on_complete on_slave waits_are_enough eq_refl note_status (fun s w => eq_refl) write_four [] false false false
    (world_on idle_bus)); [reflexivity|done|done|done|reflexivity|exact idle_rests].
Defined.

(** 100 kHz from 60 MHz: the error is 0 with multiplier 1. *)
Lemma i2c_baud_rate_closest_witness :
  exists best d, best_setting (baud_error 100000 60000000) = Ok best /\ 0 <= bestMult best <= 2 /\ s_i2cDividerTable !! Z.to_nat (bestIcr best) = Some d /\
    forall mult d', 0 <= mult <= 2 -> In d' s_i2cDividerTable ->
      rate_error 100000 60000000 (multiplier (bestMult best)) d <= rate_error 100000 60000000 (multiplier mult) d'.
Proof. by apply (i2c_baud_rate_closest 100000 60000000). Defined.

(** A zero-length read by interrupts asks for 2^32 bytes. *)
Definition read_none : i2c_master_transfer := Transfer 0 0x50 kI2C_Read 0 0 0x200 0.
Example i2c_empty_read_wraps :
  match (I2C_MasterTransferNonBlocking 3 on_complete read_none ;; serve (L := the_laws) 3 on_complete on_slave 3 ;; handle) (world_on idle_bus) with
  | Ok (h, w) => dataSize (transfer h) = UINT32_MAX /\ state h = kReceiveDataState /\ i_app w = []
  | Err _ => False
  end.
Proof. vm_compute. repeat split. Qed.
