(* ===== verification/Semaphores.v ===== *)
(** * Hardware semaphores (drivers/sema42, drivers/sema4, drivers/rdc_sema42)

    A gate is a register that the processors of a chip share: a processor that
    writes its own number to a free gate locks it, and only it can write the 0
    that frees it.  The three drivers write, and read back to see whether they
    have won.  Between any two accesses of one processor the others may do
    anything the hardware lets them do. *)

From stdpp Require Import base list numbers tactics relations.
From Stdlib Require Import ZArith Lia.
From S2P Require Import Prelude Mmio.

Open Scope Z_scope.
Open Scope prog_scope.

(** ** The drivers *)

(** The loop of the three [Lock] functions: [count] tries, or for ever. *)
Fixpoint spin_counted {D} (try_lock : M D status_t) (poll_count : nat) : M D status_t :=
  match poll_count with
  | O => ret kStatus_Timeout
  | S n => s <- try_lock ;; if s =? kStatus_Success then ret kStatus_Success else spin_counted try_lock n
  end.
Fixpoint spin_forever {D} (fuel : nat) (try_lock : M D status_t) : M D status_t :=
  match fuel with
  | O => throw OutOfFuel
  | S n => s <- try_lock ;; if s =? kStatus_Success then ret kStatus_Success else spin_forever n try_lock
  end.
Definition spin {D} (fuel : nat) (count : Z) (try_lock : M D status_t) : M D status_t :=
  if count =? 0 then spin_forever fuel try_lock else spin_counted try_lock (Z.to_nat count).

Module Sema42.
Inductive sema42_reg := GATE (i : Z) | RSTGT_R | RSTGT_W.
Class Sema42Fields := {
  FSL_FEATURE_SEMA42_GATE_COUNT : Z; SEMA42_BUSY_POLL_COUNT : Z;
  SEMA42_RSTGT_R_RSTGSM_MASK : Z; SEMA42_RSTGT_W_RSTGDP : Z -> Z; SEMA42_RSTGT_W_RSTGTN : Z -> Z
}.
Definition kStatusGroup_SEMA42 : Z := 16.
Definition kStatus_SEMA42_Busy : status_t := MAKE_STATUS kStatusGroup_SEMA42 0.
Definition kStatus_SEMA42_Reseting : status_t := MAKE_STATUS kStatusGroup_SEMA42 1.
Definition SEMA42_GATE_NUM_RESET_ALL : Z := 64.
Definition SEMA42_GATE_RESET_PATTERN_1 : Z := 0xE2.
Definition SEMA42_GATE_RESET_PATTERN_2 : Z := 0x1D.
(** The gates are in the order 3, 2, 1, 0, 7, 6, ... *)
Definition SEMA42_GATEn (n : Z) : sema42_reg := GATE (Z.lxor n 3).

Section Driver.
Context {D : Type} `{!Device sema42_reg D} {F : Sema42Fields}.

Definition SEMA42_TryLock (gateNum procNum : Z) : M D status_t :=
  assert_ (gateNum <? FSL_FEATURE_SEMA42_GATE_COUNT) ;;
  if procNum <? 0xFE then
    let procNum := u8 (procNum + 1) in
    wr (SEMA42_GATEn gateNum) procNum ;;
    x <- rd (SEMA42_GATEn gateNum) ;;
    ret (if negb (procNum =? x) then kStatus_SEMA42_Busy else kStatus_Success)
  else ret kStatus_InvalidArgument.
Definition SEMA42_Lock (fuel : nat) (gateNum procNum : Z) : M D status_t :=
  spin fuel SEMA42_BUSY_POLL_COUNT (SEMA42_TryLock gateNum procNum).
Definition SEMA42_Unlock (gateNum : Z) : M D unit :=
  assert_ (gateNum <? FSL_FEATURE_SEMA42_GATE_COUNT) ;; wr (SEMA42_GATEn gateNum) 0.
Definition SEMA42_GetGateStatus (gateNum : Z) : M D Z :=
  assert_ (gateNum <? FSL_FEATURE_SEMA42_GATE_COUNT) ;; rd (SEMA42_GATEn gateNum).
Definition SEMA42_ResetGate (gateNum : Z) : M D status_t :=
  assert_ (negb ((gateNum <? SEMA42_GATE_NUM_RESET_ALL) && (FSL_FEATURE_SEMA42_GATE_COUNT <=? gateNum))) ;;
  x <- rd RSTGT_R ;;
  if has x SEMA42_RSTGT_R_RSTGSM_MASK then ret kStatus_SEMA42_Reseting else
  wr RSTGT_W (SEMA42_RSTGT_W_RSTGDP SEMA42_GATE_RESET_PATTERN_1) ;;
  wr RSTGT_W (Z.lor (SEMA42_RSTGT_W_RSTGDP SEMA42_GATE_RESET_PATTERN_2) (SEMA42_RSTGT_W_RSTGTN gateNum)) ;;
  ret kStatus_Success.
Definition SEMA42_ResetAllGates : M D status_t := SEMA42_ResetGate SEMA42_GATE_NUM_RESET_ALL.
End Driver.
End Sema42.

Module Sema4.
Inductive sema4_reg := GATE (i : Z) | RSTGT | RSTNTF | CPINE (proc : Z) | CPNTF (proc : Z).
(** [__REV] and [__RBIT] are instructions of the processor. *)
Class Sema4Fields := {
  FSL_FEATURE_SEMA4_GATE_COUNT : Z; SEMA4_BUSY_POLL_COUNT : Z;
  SEMA4_RSTGT_RSTGSM_RSTGMS_RSTGDP : Z -> Z; SEMA4_RSTGT_RSTGTN : Z -> Z;
  SEMA4_RSTNTF_RSTNSM_RSTNMS_RSTNDP : Z -> Z; SEMA4_RSTNTF_RSTNTN : Z -> Z;
  __REV : Z -> Z; __RBIT : Z -> Z
}.
Definition SEMA4_GATE_NUM_RESET_ALL : Z := 64.
Definition SEMA4_GATE_RESET_PATTERN_1 : Z := 0xE2.
Definition SEMA4_GATE_RESET_PATTERN_2 : Z := 0x1D.
Definition SEMA4_GATE_IRQ_RESET_PATTERN_1 : Z := 0x47.
Definition SEMA4_GATE_IRQ_RESET_PATTERN_2 : Z := 0xB8.
Definition SEMA4_RSTGT_RSTNSM_MASK : Z := 0x30.
Definition SEMA4_RSTNTF_RSTNSM_MASK : Z := 0x30.
Definition SEMA4_GATEn (n : Z) : sema4_reg := GATE n.

Section Driver.
Context {D : Type} `{!Device sema4_reg D} {F : Sema4Fields}.

Definition SEMA4_TryLock (gateNum procNum : Z) : M D status_t :=
  assert_ (gateNum <? FSL_FEATURE_SEMA4_GATE_COUNT) ;;
  if procNum <? 0xFE then
    let procNum := u8 (procNum + 1) in
    wr (SEMA4_GATEn gateNum) procNum ;;
    x <- rd (SEMA4_GATEn gateNum) ;;
    ret (if negb (procNum =? x) then kStatus_Fail else kStatus_Success)
  else ret kStatus_InvalidArgument.
Definition SEMA4_Lock (fuel : nat) (gateNum procNum : Z) : M D status_t :=
  spin fuel SEMA4_BUSY_POLL_COUNT (SEMA4_TryLock gateNum procNum).
Definition SEMA4_Unlock (gateNum : Z) : M D unit :=
  assert_ (gateNum <? FSL_FEATURE_SEMA4_GATE_COUNT) ;; wr (SEMA4_GATEn gateNum) 0.
(** -1 when it is free. *)
Definition SEMA4_GetLockProc (gateNum : Z) : M D Z :=
  assert_ (gateNum <? FSL_FEATURE_SEMA4_GATE_COUNT) ;; x <- rd (SEMA4_GATEn gateNum) ;; ret (x - 1).
Definition SEMA4_ResetGate (gateNum : Z) : M D status_t :=
  assert_ (negb ((gateNum <? SEMA4_GATE_NUM_RESET_ALL) && (FSL_FEATURE_SEMA4_GATE_COUNT <=? gateNum))) ;;
  x <- rd RSTGT ;;
  if has x SEMA4_RSTGT_RSTNSM_MASK then ret kStatus_Fail else
  wr RSTGT (SEMA4_RSTGT_RSTGSM_RSTGMS_RSTGDP SEMA4_GATE_RESET_PATTERN_1) ;;
  wr RSTGT (Z.lor (SEMA4_RSTGT_RSTGSM_RSTGMS_RSTGDP SEMA4_GATE_RESET_PATTERN_2) (SEMA4_RSTGT_RSTGTN gateNum)) ;;
  ret kStatus_Success.
Definition SEMA4_ResetAllGates : M D status_t := SEMA4_ResetGate SEMA4_GATE_NUM_RESET_ALL.
Definition SEMA4_ResetGateNotify (gateNum : Z) : M D status_t :=
  assert_ (negb ((gateNum <? SEMA4_GATE_NUM_RESET_ALL) && (FSL_FEATURE_SEMA4_GATE_COUNT <=? gateNum))) ;;
  x <- rd RSTNTF ;;
  if has x SEMA4_RSTNTF_RSTNSM_MASK then ret kStatus_Fail else
  wr RSTNTF (SEMA4_RSTNTF_RSTNSM_RSTNMS_RSTNDP SEMA4_GATE_IRQ_RESET_PATTERN_1) ;;
  wr RSTNTF (Z.lor (SEMA4_RSTNTF_RSTNSM_RSTNMS_RSTNDP SEMA4_GATE_IRQ_RESET_PATTERN_2) (SEMA4_RSTNTF_RSTNTN gateNum)) ;;
  ret kStatus_Success.
Definition SEMA4_ResetAllGateNotify : M D status_t := SEMA4_ResetGateNotify SEMA4_GATE_NUM_RESET_ALL.
(** The bits of the mask in the order of the register. *)
Definition notify_mask (mask : Z) : Z := u16 (Z.land (__REV (__RBIT mask)) 0xFFFF).
Definition SEMA4_EnableGateNotifyInterrupt (procNum mask : Z) : M D unit := x <- rd (CPINE procNum) ;; wr (CPINE procNum) (u16 (Z.lor x (notify_mask mask))).
Definition SEMA4_DisableGateNotifyInterrupt (procNum mask : Z) : M D unit := x <- rd (CPINE procNum) ;; wr (CPINE procNum) (bic 16 x (notify_mask mask)).
Definition SEMA4_GetGateNotifyStatus (procNum : Z) : M D Z := x <- rd (CPNTF procNum) ;; ret (__REV (__RBIT x)).
End Driver.
End Sema4.

Module RdcSema42.
Inductive rdc_sema42_reg := GATE (i : Z) | RSTGT_R | RSTGT_W.
Class RdcSema42Fields := {
  RDC_SEMA42_GATE_COUNT : Z; RDC_SEMAPHORE_GATE_GTFSM_MASK : Z; RDC_SEMAPHORE_GATE_GTFSM_SHIFT : Z; RDC_SEMAPHORE_GATE_LDOM_MASK : Z;
  RDC_SEMAPHORE_GATE_LDOM_SHIFT : Z; RDC_SEMAPHORE_GATE_LDOM : Z -> Z; RDC_SEMAPHORE_GATE_GTFSM : Z -> Z;
  RDC_SEMAPHORE_RSTGT_R_RSTGSM_MASK : Z; RDC_SEMAPHORE_RSTGT_W_RSTGDP : Z -> Z; RDC_SEMAPHORE_RSTGT_W_RSTGTN : Z -> Z
}.
Definition RDC_SEMA42_GATE_NUM_RESET_ALL : Z := 64.
Definition RDC_SEMA42_GATE_RESET_PATTERN_1 : Z := 0xE2.
Definition RDC_SEMA42_GATE_RESET_PATTERN_2 : Z := 0x1D.
Definition RDC_SEMA42_GATEn (n : Z) : rdc_sema42_reg := GATE n.

Section Driver.
Context {D : Type} `{!Device rdc_sema42_reg D} {F : RdcSema42Fields}.

Definition RDC_SEMA42_TryLock (gateNum masterIndex domainId : Z) : M D status_t :=
  assert_ (gateNum <? RDC_SEMA42_GATE_COUNT) ;;
  assert_ (masterIndex <? Z.shiftr RDC_SEMAPHORE_GATE_GTFSM_MASK RDC_SEMAPHORE_GATE_GTFSM_SHIFT) ;;
  let masterIndex := u8 (masterIndex + 1) in
  let regGate := u8 (Z.lor (RDC_SEMAPHORE_GATE_LDOM domainId) (RDC_SEMAPHORE_GATE_GTFSM masterIndex)) in
  wr (RDC_SEMA42_GATEn gateNum) masterIndex ;;
  x <- rd (RDC_SEMA42_GATEn gateNum) ;;
  ret (if negb (regGate =? x) then kStatus_Fail else kStatus_Success).
Definition RDC_SEMA42_Lock (fuel : nat) (gateNum masterIndex domainId : Z) : M D unit :=
  _ <- spin_forever fuel (RDC_SEMA42_TryLock gateNum masterIndex domainId) ;; ret tt.
Definition RDC_SEMA42_Unlock (gateNum : Z) : M D unit := assert_ (gateNum <? RDC_SEMA42_GATE_COUNT) ;; wr (RDC_SEMA42_GATEn gateNum) 0.
Definition RDC_SEMA42_GetLockMasterIndex (gateNum : Z) : M D Z :=
  assert_ (gateNum <? RDC_SEMA42_GATE_COUNT) ;;
  regGate <- rd (RDC_SEMA42_GATEn gateNum) ;; ret (u8 (Z.land regGate RDC_SEMAPHORE_GATE_GTFSM_MASK) - 1).
Definition RDC_SEMA42_GetLockDomainID (gateNum : Z) : M D Z :=
  assert_ (gateNum <? RDC_SEMA42_GATE_COUNT) ;;
  regGate <- rd (RDC_SEMA42_GATEn gateNum) ;;
  ret (if Z.land regGate RDC_SEMAPHORE_GATE_GTFSM_MASK =? 0 then -1
       else u8 (Z.shiftr (Z.land regGate RDC_SEMAPHORE_GATE_LDOM_MASK) RDC_SEMAPHORE_GATE_LDOM_SHIFT)).
Definition RDC_SEMA42_ResetGate (gateNum : Z) : M D status_t :=
  x <- rd RSTGT_R ;;
  if has x RDC_SEMAPHORE_RSTGT_R_RSTGSM_MASK then ret kStatus_Fail else
  wr RSTGT_W (RDC_SEMAPHORE_RSTGT_W_RSTGDP RDC_SEMA42_GATE_RESET_PATTERN_1) ;;
  wr RSTGT_W (Z.lor (RDC_SEMAPHORE_RSTGT_W_RSTGDP RDC_SEMA42_GATE_RESET_PATTERN_2) (RDC_SEMAPHORE_RSTGT_W_RSTGTN gateNum)) ;;
  ret kStatus_Success.
Definition RDC_SEMA42_ResetAllGates : M D status_t := RDC_SEMA42_ResetGate RDC_SEMA42_GATE_NUM_RESET_ALL.
End Driver.
End RdcSema42.
