(* ===== verification/Mutex.v ===== *)
(** * Mutual exclusion with hardware semaphores

    What the manual says of a gate ([GateHw]), what a driver promises with it
    ([TryLocks]), what follows for its users, and that the three drivers keep
    the promise. *)

From stdpp Require Import base list numbers tactics relations.
From Stdlib Require Import ZArith Lia.
From S2P Require Import Prelude Mmio Semaphores.

Open Scope Z_scope.
Open Scope prog_scope.

(** ** Gates *)

(** What each gate holds: 0, or the key of the processor that has it. *)
Abbreviation gate_state := (Z -> Z).
Definition hold (n v : Z) (g : gate_state) : gate_state := fun i => if i =? n then v else g i.
(** What processors with keys [who] may do to the gates. *)
Inductive move (who : Z -> Prop) (g : gate_state) : gate_state -> Prop :=
  | locks n k : who k -> k <> 0 -> g n = 0 -> move who g (hold n k g)
  | unlocks n k : who k -> g n = k -> move who g (hold n 0 g).
Definition moves (who : Z -> Prop) : gate_state -> gate_state -> Prop := rtc (move who).
(** The processor with the key [k] writes [v] to gate [n]. *)
Definition written (k n v : Z) (g : gate_state) : gate_state :=
  if g n =? 0 then (if v =? k then hold n k g else g) else if (g n =? k) && (v =? 0) then hold n 0 g else g.

(** One processor's view of the semaphore unit: it has the key [me], other
    processors with keys [others] may act before each access. *)
Class GateHw {R D : Type} `{!Device R D} (gate : Z -> R) := {
  gates : D -> gate_state;
  me : Z; others : Z -> Prop; shown : Z -> Z;
  me_nonzero : me <> 0;
  me_apart : ~ others me;
  shown_own k : shown k = shown me -> k = me;
  gate_reads n d : exists g, moves others (gates d) g /\ (reg_read (gate n) d).1 = shown (g n) /\ gates (reg_read (gate n) d).2 = g;
  gate_writes n v d : exists g, moves others (gates d) g /\ gates (reg_write (gate n) v d) = written me n v g
}.

Lemma hold_same n v g : hold n v g n = v.
Proof. unfold hold. by rewrite Z.eqb_refl. Qed.
Lemma hold_other n m v g : m <> n -> hold n v g m = g m.
Proof. intros H. unfold hold. by rewrite (proj2 (Z.eqb_neq _ _)). Qed.

(** A gate is kept as long as its holder does nothing. *)
Lemma held_kept who n k g g' : moves who g g' -> ~ who k -> k <> 0 -> g n = k -> g' n = k.
Proof.
  intros H Hw Hk. induction H as [|g g1 g2 H1 H2 IH]; [done|]. intros Hg. apply IH. destruct H1 as [m j Hj Hj0 Hm|m j Hj Hm].
  - destruct (decide (n = m)) as [->|E]; [congruence|]. by rewrite hold_other.
  - destruct (decide (n = m)) as [->|E]; [congruence|]. by rewrite hold_other.
Qed.
(** Nobody gets the gate of a processor that does nothing. *)
Lemma not_given who n k g g' : moves who g g' -> ~ who k -> k <> 0 -> g' n = k -> g n = k.
Proof.
  intros H Hw Hk. induction H as [|g g1 g2 H1 H2 IH]; [done|]. intros Hg. specialize (IH Hg). destruct H1 as [m j Hj Hj0 Hm|m j Hj Hm].
  - destruct (decide (n = m)) as [->|E]; [rewrite hold_same in IH; congruence|]. by rewrite hold_other in IH.
  - destruct (decide (n = m)) as [->|E]; [rewrite hold_same in IH; congruence|]. by rewrite hold_other in IH.
Qed.
Lemma moves_weaken (who who' : Z -> Prop) g g' : (forall k, who k -> who' k) -> moves who g g' -> moves who' g g'.
Proof. intros Hw H. induction H as [|g g1 g2 H1 H2 IH]; [done|]. eapply rtc_l; [|exact IH]. destruct H1; [apply locks|eapply unlocks]; eauto. Qed.

(** ** What a driver promises *)

(** One try: the others act, the gate is taken if it is free, the others act;
    it is a success if and only if the gate is then ours. *)
Definition tried (who : Z -> Prop) (k n : Z) (s : status_t) (g g' : gate_state) : Prop :=
  exists g1, moves who g g1 /\ moves who (written k n k g1) g' /\ (s = kStatus_Success <-> g' n = k).
Class TryLocks {D : Type} (content : D -> gate_state) (key : Z) (who : Z -> Prop) (try_lock : Z -> M D status_t) (valid : Z -> Prop) : Prop := {
  try_lock_spec n d : valid n -> wp (try_lock n) (fun s d' => tried who key n s (content d) (content d')) d;
  key_nonzero : key <> 0; key_apart : ~ who key
}.

Section Promise.
Context {D : Type} (content : D -> gate_state) (key : Z) (who : Z -> Prop) (try_lock : Z -> M D status_t) (valid : Z -> Prop).
Context `{T : !TryLocks content key who try_lock valid}.

(** While another processor has the gate and does nothing, a try fails and
    the gate stays with it. *)
Lemma try_while_held k n d : valid n -> k <> 0 -> k <> key -> ~ who k -> content d n = k ->
  wp (try_lock n) (fun s d' => s <> kStatus_Success /\ content d' n = k) d.
Proof.
  intros Hv Hk Hkk Hw Hd. eapply wp_mono; [by apply try_lock_spec|]. intros s d' (g1 & H1 & H2 & H3).
  assert (E1 : g1 n = k) by by eapply held_kept. assert (E2 : content d' n = k).
  { eapply held_kept; [exact H2|done|done|]. unfold written. rewrite E1. rewrite (proj2 (Z.eqb_neq _ _)) by done.
    rewrite (proj2 (Z.eqb_neq _ _)) by done. by cbn [andb]. }
  split; [|done]. intros Hs%H3. congruence.
Qed.

(** A gate that is free and that nobody else wants is taken; so is one's own. *)
Lemma try_when_free n d : valid n -> (forall k, ~ who k) -> content d n = 0 \/ content d n = key ->
  wp (try_lock n) (fun s d' => s = kStatus_Success /\ content d' n = key) d.
Proof.
  intros Hv Hw Hd. assert (Hm : forall g g', moves who g g' -> g' = g) by (intros g g' H; destruct H as [|? ? ? [m j Hj|m j Hj] _]; [done|by destruct (Hw j)..]).
  eapply wp_mono; [by apply try_lock_spec|]. intros s d' (g1 & ->%Hm & E2%Hm & H3). assert (E : content d' n = key); [|by split; [apply H3|]].
  rewrite E2. unfold written. destruct (Z.eqb_spec (content d n) 0) as [E0|E0].
  - rewrite Z.eqb_refl. apply hold_same.
  - destruct Hd as [Hd|Hd]; [done|]. assert (Hz := key_nonzero). rewrite (proj2 (Z.eqb_neq key 0)) by done. by rewrite andb_false_r.
Qed.

Lemma spin_counted_spec c : forall n d, valid n ->
  wp (spin_counted (try_lock n) c) (fun s d' => (s = kStatus_Success /\ content d' n = key) \/ (s = kStatus_Timeout /\ (content d' n <> key \/ c = O))) d.
Proof.
  induction c as [|c IH]; intros n d Hv; cbn [spin_counted].
  - rewrite wp_ret. auto.
  - rewrite wp_bind. eapply wp_mono; [by apply try_lock_spec|]. intros s d' (g1 & _ & _ & H3). destruct (Z.eqb_spec s kStatus_Success) as [E|E].
    + rewrite wp_ret. left. split; [done|]. by apply H3.
    + destruct c as [|c]; [cbn [spin_counted]; rewrite wp_ret; right; split; [done|]; left; by intros H%H3|].
      eapply wp_mono; [by apply IH|]. intros s' d2 [H|[H [H'|H']]]; auto; done.
Qed.
Lemma spin_spec fuel c n d : valid n -> 0 < c ->
  wp (spin fuel c (try_lock n)) (fun s d' => (s = kStatus_Success /\ content d' n = key) \/ (s = kStatus_Timeout /\ content d' n <> key)) d.
Proof.
  intros Hv Hc. unfold spin. rewrite (proj2 (Z.eqb_neq c 0)) by lia. eapply wp_mono; [by apply spin_counted_spec|].
  intros s d' [H|[H [H'|H']]]; [auto..|]. lia.
Qed.
End Promise.

(** A try that never succeeds keeps the loop going. *)
Lemma spin_refused {D} fuel c (try_lock : M D status_t) (d : D) s : (forall d, try_lock d = Ok (s, d)) -> s <> kStatus_Success -> 0 <= c ->
  spin fuel c try_lock d = (if c =? 0 then Err OutOfFuel else Ok (kStatus_Timeout, d)).
Proof.
  intros Ht Hs Hc. unfold spin. destruct (c =? 0).
  - induction fuel as [|n IH]; [done|]. cbn [spin_forever]. unfold bind. rewrite Ht. by rewrite (proj2 (Z.eqb_neq _ _)).
  - induction (Z.to_nat c) as [|n IH]; [done|]. cbn [spin_counted]. unfold bind. rewrite Ht. by rewrite (proj2 (Z.eqb_neq _ _)).
Qed.

(** ** The drivers keep it *)

(** A write of one's key and a read. *)
Lemma write_read {R D} `{!Device R D} (gate : Z -> R) {H : GateHw gate} {B} n (f : Z -> B) (Q : B -> D -> Prop) d :
  (forall x d', (exists g1, moves others (gates d) g1 /\ moves others (written me n me g1) (gates d') /\ (x = shown me <-> gates d' n = me)) -> Q (f x) d') ->
  wp (wr (gate n) me ;; x <- rd (gate n) ;; ret (f x)) Q d.
Proof.
  intros HQ. rewrite wp_bind. unfold wp at 1, wr. set (d1 := reg_write _ _ _). rewrite wp_bind. unfold wp at 1, rd.
  destruct (gate_writes n me d) as (g1 & H1 & H2). destruct (gate_reads n d1) as (g2 & H3 & H4 & H5). fold d1 in H2. rewrite H2 in H3.
  destruct (reg_read (gate n) d1) as [x d2]. cbn [fst snd] in *. rewrite wp_ret. apply HQ. exists g1. rewrite H5. split; [done|]. split; [done|].
  rewrite H4. split; [apply shown_own|]. by intros ->.
Qed.

Section Drivers42.
Import Sema42.
Context {D : Type} `{!Device sema42_reg D} {F : Sema42Fields} {H : GateHw (D := D) SEMA42_GATEn} (p : Z).
#[export] Instance sema42_keeps (Hp : 0 <= p < 0xFE) (Hme : me = p + 1) (Hs : shown me = me) :
  TryLocks (D := D) gates me others (fun n => SEMA42_TryLock n p) (fun n => n < FSL_FEATURE_SEMA42_GATE_COUNT).
Proof.
  split; [|apply me_nonzero|apply me_apart]. intros n d Hv. cbv beta in Hv. unfold SEMA42_TryLock. rewrite wp_bind, wp_assert by by apply Z.ltb_lt.
  rewrite (proj2 (Z.ltb_lt _ _)) by lia. replace (u8 (p + 1)) with me by (rewrite wrap_small; lia). cbv zeta.
  apply (write_read SEMA42_GATEn n (fun x => if negb (me =? x) then kStatus_SEMA42_Busy else kStatus_Success)). intros x d' (g1 & H1 & H2 & H3).
  exists g1. split; [done|]. split; [done|]. rewrite <- H3, Hs. destruct (Z.eqb_spec me x) as [E|E]; cbn [negb]; split; intros; by subst.
Qed.
End Drivers42.

Section Drivers4.
Import Sema4.
Context {D : Type} `{!Device sema4_reg D} {F : Sema4Fields} {H : GateHw (D := D) SEMA4_GATEn} (p : Z).
#[export] Instance sema4_keeps (Hp : 0 <= p < 0xFE) (Hme : me = p + 1) (Hs : shown me = me) :
  TryLocks (D := D) gates me others (fun n => SEMA4_TryLock n p) (fun n => n < FSL_FEATURE_SEMA4_GATE_COUNT).
Proof.
  split; [|apply me_nonzero|apply me_apart]. intros n d Hv. cbv beta in Hv. unfold SEMA4_TryLock. rewrite wp_bind, wp_assert by by apply Z.ltb_lt.
  rewrite (proj2 (Z.ltb_lt _ _)) by lia. replace (u8 (p + 1)) with me by (rewrite wrap_small; lia). cbv zeta.
  apply (write_read SEMA4_GATEn n (fun x => if negb (me =? x) then kStatus_Fail else kStatus_Success)). intros x d' (g1 & H1 & H2 & H3).
  exists g1. split; [done|]. split; [done|]. rewrite <- H3, Hs. destruct (Z.eqb_spec me x) as [E|E]; cbn [negb]; split; intros; by subst.
Qed.
End Drivers4.

Section DriversRdc.
Import RdcSema42.
Context {D : Type} `{!Device rdc_sema42_reg D} {F : RdcSema42Fields} {H : GateHw (D := D) RDC_SEMA42_GATEn} (p domainId : Z).
#[export] Instance rdc_sema42_keeps (Hp : 0 <= p < 0xFF) (Hi : p < Z.shiftr RDC_SEMAPHORE_GATE_GTFSM_MASK RDC_SEMAPHORE_GATE_GTFSM_SHIFT) (Hme : me = p + 1)
  (Hs : shown me = u8 (Z.lor (RDC_SEMAPHORE_GATE_LDOM domainId) (RDC_SEMAPHORE_GATE_GTFSM me))) :
  TryLocks (D := D) gates me others (fun n => RDC_SEMA42_TryLock n p domainId) (fun n => n < RDC_SEMA42_GATE_COUNT).
Proof.
  split; [|apply me_nonzero|apply me_apart]. intros n d Hv. cbv beta in Hv. unfold RDC_SEMA42_TryLock. rewrite wp_bind, wp_assert by by apply Z.ltb_lt.
  rewrite wp_bind, wp_assert by by apply Z.ltb_lt. replace (u8 (p + 1)) with me by (rewrite wrap_small; lia). cbv zeta. rewrite <- Hs.
  apply (write_read RDC_SEMA42_GATEn n (fun x => if negb (shown me =? x) then kStatus_Fail else kStatus_Success)). intros x d' (g1 & H1 & H2 & H3).
  exists g1. split; [done|]. split; [done|]. rewrite <- H3. destruct (Z.eqb_spec (shown me) x) as [E|E]; cbn [negb]; split; intros; by subst.
Qed.
End DriversRdc.

(** ** Two processors *)

Section TwoProcessors.
Import Sema42.
Context {F : Sema42Fields} {D1 D2 : Type} `{!Device sema42_reg D1, !Device sema42_reg D2}.
Context {H1 : GateHw (D := D1) SEMA42_GATEn} {H2 : GateHw (D := D2) SEMA42_GATEn} (p q : Z).
(** The gates as the first and as the second processor sees them. *)
Abbreviation gates1 := (gates (GateHw := H1)).
Abbreviation gates2 := (gates (GateHw := H2)).
Abbreviation me1 := (me (GateHw := H1)).
Abbreviation me2 := (me (GateHw := H2)).
Context (Hp : 0 <= p < 0xFE) (Hq : 0 <= q < 0xFE) (Hme1 : me1 = p + 1) (Hme2 : me2 = q + 1).
Context (Hs1 : shown (GateHw := H1) me1 = me1) (Hs2 : shown (GateHw := H2) me2 = me2).

(** C18: Once a try of a processor has succeeded, and until that processor
    does something again, a try of any other processor fails, whatever all the
    others do in between and meanwhile; the gate stays with the first one. *)
Theorem sema42_mutual_exclusion n d1 d1' d2 : n < FSL_FEATURE_SEMA42_GATE_COUNT -> p <> q ->
  SEMA42_TryLock n p d1 = Ok (kStatus_Success, d1') -> moves (fun k => k <> p + 1) (gates1 d1') (gates2 d2) -> ~ others (GateHw := H2) (p + 1) ->
  exists s d2', SEMA42_TryLock n q d2 = Ok (s, d2') /\ s <> kStatus_Success /\ gates2 d2' n = p + 1.
Proof.
  intros Hn Hpq HT Hm Ho. assert (T1 := sema42_keeps p Hp Hme1 Hs1). assert (T2 := sema42_keeps q Hq Hme2 Hs2).
  assert (E1 : gates1 d1' n = p + 1).
  { assert (HW := try_lock_spec (TryLocks := T1) n d1 Hn). unfold wp in HW. rewrite HT in HW. destruct HW as (g1 & _ & _ & HW). rewrite <- Hme1. by apply HW. }
  assert (E2 : gates2 d2 n = p + 1) by (eapply held_kept; [exact Hm|auto|lia|done]).
  assert (HW := try_while_held gates2 me2 others (fun n => SEMA42_TryLock n q) _ (T := T2) (p + 1) n d2 Hn ltac:(lia) ltac:(lia) Ho E2). unfold wp in HW.
  destruct (SEMA42_TryLock n q d2) as [[s d2']|]; [|done]. by exists s, d2'.
Qed.

(** C37: When the holder unlocks the gate and nobody else touches it, the
    next try of another processor succeeds. *)
Theorem sema42_handover n d1 : n < FSL_FEATURE_SEMA42_GATE_COUNT -> gates1 d1 n = p + 1 -> (forall k, ~ others (GateHw := H2) k) ->
  exists d1', SEMA42_Unlock n d1 = Ok (tt, d1') /\ gates1 d1' n = 0 /\
    forall d2, gates2 d2 n = gates1 d1' n -> exists d2', SEMA42_TryLock n q d2 = Ok (kStatus_Success, d2') /\ gates2 d2' n = q + 1.
Proof.
  intros Hn Hd Hnone. assert (HW : wp (SEMA42_Unlock n) (fun _ d1' => gates1 d1' n = 0) d1).
  { unfold SEMA42_Unlock. rewrite wp_bind, wp_assert by by apply Z.ltb_lt. unfold wp, wr. destruct (gate_writes (GateHw := H1) n 0 d1) as (g & Hm & ->).
    assert (E : g n = me1). { rewrite Hme1. eapply held_kept; [exact Hm|rewrite <- Hme1; apply me_apart|lia|done]. }
    unfold written. rewrite E. rewrite (proj2 (Z.eqb_neq _ 0)) by lia. rewrite Z.eqb_refl. apply hold_same. }
  unfold wp in HW. destruct (SEMA42_Unlock n d1) as [[[] d1']|]; [|done]. exists d1'. split; [done|]. split; [done|]. intros d2 Hsee.
  assert (T2 := sema42_keeps q Hq Hme2 Hs2). assert (H0 : gates2 d2 n = 0) by congruence.
  assert (HT := try_when_free gates2 me2 others (fun n => SEMA42_TryLock n q) _ (T := T2) n d2 Hn Hnone (or_introl H0)). unfold wp in HT.
  destruct (SEMA42_TryLock n q d2) as [[s d2']|]; [|done]. destruct HT as [-> HT]. exists d2'. by rewrite <- Hme2.
Qed.

(** With a limit on its tries, locking always comes back: with success
    and the gate, or with a timeout and without it. *)
Theorem sema42_lock_answers fuel n d : n < FSL_FEATURE_SEMA42_GATE_COUNT -> 0 < SEMA42_BUSY_POLL_COUNT ->
  exists s d', SEMA42_Lock fuel n p d = Ok (s, d') /\
    ((s = kStatus_Success /\ gates1 d' n = p + 1) \/ (s = kStatus_Timeout /\ gates1 d' n <> p + 1)).
Proof.
  intros Hn Hc. assert (T1 := sema42_keeps p Hp Hme1 Hs1).
  assert (HW := spin_spec gates1 me1 others (fun n => SEMA42_TryLock n p) _ (T := T1) fuel SEMA42_BUSY_POLL_COUNT n d Hn Hc). unfold wp in HW. rewrite Hme1 in HW.
  unfold SEMA42_Lock. destruct (spin fuel SEMA42_BUSY_POLL_COUNT (SEMA42_TryLock n p) d) as [[s d']|]; [|done]. by exists s, d'.
Qed.
End TwoProcessors.

(** Locking with a processor number that [SEMA42_TryLock] does not accept
    never says so: without a limit on the tries it never returns, also when
    the gate is free, and with one it reports a timeout. *)
Theorem sema42_lock_ignores_invalid {D : Type} `{!Device Sema42.sema42_reg D} {F : Sema42.Sema42Fields} fuel n p (d : D) :
  n < Sema42.FSL_FEATURE_SEMA42_GATE_COUNT -> 0xFE <= p -> 0 <= Sema42.SEMA42_BUSY_POLL_COUNT ->
  Sema42.SEMA42_Lock fuel n p d = (if Sema42.SEMA42_BUSY_POLL_COUNT =? 0 then Err OutOfFuel else Ok (kStatus_Timeout, d)).
Proof.
  intros Hn Hp Hc. unfold Sema42.SEMA42_Lock. apply (spin_refused fuel _ _ d kStatus_InvalidArgument); [|done|exact Hc]. intros d'.
  unfold Sema42.SEMA42_TryLock, bind, assert_. rewrite (proj2 (Z.ltb_lt _ _)) by done. rewrite (proj2 (Z.ltb_ge _ _)) by done. done.
Qed.

(** ** A unit with two processors *)

Import Sema42.
#[local] Instance unit_fields : Sema42Fields := {|
  FSL_FEATURE_SEMA42_GATE_COUNT := 16; SEMA42_BUSY_POLL_COUNT := 3; SEMA42_RSTGT_R_RSTGSM_MASK := 0x30;
  SEMA42_RSTGT_W_RSTGDP := fun x => Z.shiftl x 8; SEMA42_RSTGT_W_RSTGTN := fun x => x
|}.

Section Unit.
(** The keys of this processor and of the other one; whether that one does
    anything. *)
Context (mine other : Z) (busy : bool) (Hmine : mine <> 0) (Hother : mine <> other).

(** The gates, and what the other processor writes before each access. *)
Record sema_dev := SemaDev { sd_gates : gate_state; sd_script : list (list (Z * Z)) }.
Fixpoint acts (l : list (Z * Z)) (g : gate_state) : gate_state :=
  match l with [] => g | (n, v) :: l => acts l (written other n v g) end.
Definition gate_of (r : sema42_reg) : option Z := match r with GATE i => Some (Z.lxor i 3) | _ => None end.
Definition before (d : sema_dev) : sema_dev :=
  match sd_script d with [] => d | l :: ls => SemaDev (if busy then acts l (sd_gates d) else sd_gates d) ls end.
Definition sema_read (r : sema42_reg) (d : sema_dev) : Z * sema_dev :=
  match gate_of r with Some n => let d := before d in (sd_gates d n, d) | None => (0, d) end.
Definition sema_write (r : sema42_reg) (v : Z) (d : sema_dev) : sema_dev :=
  match gate_of r with Some n => let d := before d in SemaDev (written mine n v (sd_gates d)) (sd_script d) | None => d end.
#[local] Instance sema_device : Device sema42_reg sema_dev := {| reg_read := sema_read; reg_write := sema_write |}.

Lemma written_moves n v g : busy = true -> other <> 0 -> moves (fun k => busy = true /\ k = other) g (written other n v g).
Proof.
  intros Hb H0. unfold written. destruct (Z.eqb_spec (g n) 0) as [E|E].
  - destruct (Z.eqb_spec v other); [|done]. apply rtc_once. by apply locks.
  - destruct (Z.eqb_spec (g n) other) as [E2|E2]; cbn [andb]; [|done]. destruct (v =? 0); [|done]. apply rtc_once. by eapply unlocks.
Qed.
Lemma acts_moves l : forall g, busy = true -> other <> 0 -> moves (fun k => busy = true /\ k = other) g (acts l g).
Proof.
  induction l as [|[n v] l IH]; intros g Hb H0; [done|]. cbn [acts]. etrans; [by apply written_moves|by apply IH].
Qed.
Lemma before_moves d : other <> 0 -> moves (fun k => busy = true /\ k = other) (sd_gates d) (sd_gates (before d)).
Proof. intros H0. unfold before. destruct (sd_script d); [done|]. cbn. destruct busy eqn:Hb at 2; [by apply acts_moves|done]. Qed.
Lemma gate_of_gate n : gate_of (SEMA42_GATEn n) = Some n.
Proof. unfold gate_of, SEMA42_GATEn. by rewrite Z.lxor_assoc, Z.lxor_nilpotent, Z.lxor_0_r. Qed.

Definition sema_hw (H0 : other <> 0) : GateHw (D := sema_dev) SEMA42_GATEn.
Proof.
  refine {| gates := sd_gates; me := mine; others := fun k => busy = true /\ k = other; shown := fun k => k |}; try done.
  - by intros [_ ?].
  - intros n d. cbn [reg_read sema_device]. unfold sema_read. rewrite gate_of_gate. exists (sd_gates (before d)). split; [by apply before_moves|done].
  - intros n v d. cbn [reg_write sema_device]. unfold sema_write. rewrite gate_of_gate. exists (sd_gates (before d)). split; [by apply before_moves|done].
Defined.
End Unit.

(** Processor 0, with key 1, and processor 1, with key 2. *)
Definition hw0 : GateHw (Device0 := sema_device 1 2 true) SEMA42_GATEn.
Proof. by apply sema_hw. Defined.
Definition hw1 (busy : bool) : GateHw (Device0 := sema_device 2 1 busy) SEMA42_GATEn.
Proof. by apply sema_hw. Defined.
Definition no_gates : gate_state := fun _ => 0.

(** Processor 1 writes to gate 5 right after processor 0 has taken it. *)
Definition dev0 : sema_dev := SemaDev no_gates [[]; [(5, 2); (5, 0)]].
Definition dev0' : sema_dev := SemaDev (hold 5 1 no_gates) [].
Lemma sema42_mutual_exclusion_witness :
  exists s d', SEMA42_TryLock (Device0 := sema_device 2 1 false) 5 1 dev0' = Ok (s, d') /\ s <> kStatus_Success /\ sd_gates d' 5 = 1.
Proof.
  apply (sema42_mutual_exclusion (H1 := hw0) (H2 := hw1 false) 0 1 ltac:(lia) ltac:(lia) eq_refl eq_refl eq_refl eq_refl 5 dev0 dev0' dev0');
    [done|done|reflexivity|done|by intros [? _]].
Defined.

Lemma sema42_handover_witness :
  exists d1', SEMA42_Unlock (Device0 := sema_device 1 2 true) 5 dev0' = Ok (tt, d1') /\ sd_gates d1' 5 = 0 /\
    forall d2, sd_gates d2 5 = sd_gates d1' 5 ->
      exists d2', SEMA42_TryLock (Device0 := sema_device 2 1 false) 5 1 d2 = Ok (kStatus_Success, d2') /\ sd_gates d2' 5 = 2.
Proof.
  apply (sema42_handover (H1 := hw0) (H2 := hw1 false) 0 1 ltac:(lia) ltac:(lia) eq_refl eq_refl eq_refl 5 dev0');
    [done|reflexivity|by intros k [? _]].
Defined.

(** Processor 1 has the gate and gives it back before the third try. *)
Definition dev_late : sema_dev := SemaDev (hold 5 2 no_gates) [[]; []; []; []; [(5, 0)]].
Lemma sema42_lock_answers_witness :
  exists s d', SEMA42_Lock (Device0 := sema_device 1 2 true) 0 5 0 dev_late = Ok (s, d') /\
    ((s = kStatus_Success /\ sd_gates d' 5 = 1) \/ (s = kStatus_Timeout /\ sd_gates d' 5 <> 1)).
Proof. by apply (sema42_lock_answers (H1 := hw0) 0 ltac:(lia) eq_refl eq_refl 0 5 dev_late). Defined.
Example lock_at_last : exists d', SEMA42_Lock (Device0 := sema_device 1 2 true) 0 5 0 dev_late = Ok (kStatus_Success, d').
Proof. eexists. reflexivity. Qed.

Lemma sema42_lock_ignores_invalid_witness :
  SEMA42_Lock (Device0 := sema_device 1 2 true) 0 5 0xFE (SemaDev no_gates []) = Ok (kStatus_Timeout, SemaDev no_gates []).
Proof. exact (sema42_lock_ignores_invalid (Device0 := sema_device 1 2 true) 0 5 0xFE (SemaDev no_gates []) ltac:(done) ltac:(done) ltac:(done)). Defined.
