(* ===== verification/Usdhc.v ===== *)
(** * The SD host controller driver (drivers/usdhc)

    A transfer is a command, and blocks of data that go through the data port
    (word by word, polled or from the interrupt handler) or are moved by the
    controller's DMA engine, which follows a table of descriptors in memory
    (ADMA1, ADMA2).  Scatter-gather transfers chain the tables of several
    buffers.

    The world has the peripheral, the memory as 32-bit words, the handle and
    the state of the application.  The structures a call gets by pointer are
    values here: they are returned changed, and the handle has its own copy.
    Without FSL_SDK_ENABLE_DRIVER_CACHE_CONTROL; pointers have 32 bits. *)

From stdpp Require Import base list numbers tactics.
From Stdlib Require Import ZArith Lia.
From S2P Require Import Prelude Mmio.

Open Scope Z_scope.
Open Scope prog_scope.

(** ** Registers and fields *)

Inductive usdhc_reg :=
  | DS_ADDR | BLK_ATT | CMD_ARG | CMD_XFR_TYP | CMD_RSP0 | CMD_RSP1 | CMD_RSP2 | CMD_RSP3 | DATA_BUFF_ACC_PORT | PRES_STATE
  | PROT_CTRL | SYS_CTRL | INT_STATUS | INT_STATUS_EN | INT_SIGNAL_EN | AUTOCMD12_ERR_STATUS | HOST_CTRL_CAP | WTMK_LVL
  | MIX_CTRL | FORCE_EVENT | ADMA_ERR_STATUS | ADMA_SYS_ADDR | CLK_TUNE_CTRL_STATUS | STROBE_DLL_CTRL | STROBE_DLL_STATUS
  | VEND_SPEC | MMC_BOOT | VEND_SPEC2 | TUNING_CTRL.
#[export] Instance usdhc_reg_eq_dec : EqDecision usdhc_reg.
Proof. solve_decision. Defined.

(** Fields of the device header. *)
Class UsdhcFields := {
  USDHC_BLK_ATT_BLKSIZE_MASK : Z; USDHC_BLK_ATT_BLKSIZE : Z -> Z; USDHC_BLK_ATT_BLKCNT_MASK : Z; USDHC_BLK_ATT_BLKCNT_SHIFT : Z;
  USDHC_BLK_ATT_BLKCNT : Z -> Z;
  USDHC_CMD_XFR_TYP_CMDINX_MASK : Z; USDHC_CMD_XFR_TYP_CMDINX_SHIFT : Z; USDHC_CMD_XFR_TYP_CMDTYP_MASK : Z; USDHC_CMD_XFR_TYP_CMDTYP : Z -> Z;
  USDHC_CMD_XFR_TYP_CICEN_MASK : Z; USDHC_CMD_XFR_TYP_CCCEN_MASK : Z; USDHC_CMD_XFR_TYP_RSPTYP_MASK : Z; USDHC_CMD_XFR_TYP_RSPTYP : Z -> Z;
  USDHC_CMD_XFR_TYP_DPSEL_MASK : Z;
  USDHC_PRES_STATE_CIHB_MASK : Z; USDHC_PRES_STATE_CDIHB_MASK : Z; USDHC_PRES_STATE_SDSTB_MASK : Z; USDHC_PRES_STATE_CINST_MASK : Z; USDHC_PRES_STATE_RTR_MASK : Z;
  USDHC_PROT_CTRL_SABGREQ_MASK : Z; USDHC_PROT_CTRL_CREQ_MASK : Z; USDHC_PROT_CTRL_RD_DONE_NO_8CLK_MASK : Z; USDHC_PROT_CTRL_EMODE_MASK : Z;
  USDHC_PROT_CTRL_EMODE : Z -> Z; USDHC_PROT_CTRL_DMASEL_MASK : Z; USDHC_PROT_CTRL_DMASEL : Z -> Z; USDHC_PROT_CTRL_BURST_LEN_EN_MASK : Z;
  USDHC_PROT_CTRL_BURST_LEN_EN : Z -> Z; USDHC_PROT_CTRL_DTW_MASK : Z; USDHC_PROT_CTRL_DTW_SHIFT : Z; USDHC_PROT_CTRL_DTW : Z -> Z; USDHC_PROT_CTRL_D3CD_MASK : Z;
  USDHC_SYS_CTRL_RSTA_MASK : Z; USDHC_SYS_CTRL_RSTC_MASK : Z; USDHC_SYS_CTRL_RSTD_MASK : Z; USDHC_SYS_CTRL_RSTT_MASK : Z; USDHC_SYS_CTRL_INITA_MASK : Z;
  USDHC_SYS_CTRL_IPP_RST_N_MASK : Z; USDHC_SYS_CTRL_DTOCV_MASK : Z; USDHC_SYS_CTRL_DTOCV : Z -> Z;
  USDHC_SYS_CTRL_DVS_MASK : Z; USDHC_SYS_CTRL_DVS_SHIFT : Z; USDHC_SYS_CTRL_DVS : Z -> Z;
  USDHC_SYS_CTRL_SDCLKFS_MASK : Z; USDHC_SYS_CTRL_SDCLKFS_SHIFT : Z; USDHC_SYS_CTRL_SDCLKFS : Z -> Z;
  USDHC_INT_STATUS_CC_MASK : Z; USDHC_INT_STATUS_TC_MASK : Z; USDHC_INT_STATUS_BGE_MASK : Z; USDHC_INT_STATUS_DINT_MASK : Z; USDHC_INT_STATUS_BWR_MASK : Z;
  USDHC_INT_STATUS_BRR_MASK : Z; USDHC_INT_STATUS_CINS_MASK : Z; USDHC_INT_STATUS_CRM_MASK : Z; USDHC_INT_STATUS_CINT_MASK : Z; USDHC_INT_STATUS_RTE_MASK : Z;
  USDHC_INT_STATUS_TP_MASK : Z; USDHC_INT_STATUS_TNE_MASK : Z; USDHC_INT_STATUS_CTOE_MASK : Z; USDHC_INT_STATUS_CCE_MASK : Z; USDHC_INT_STATUS_CEBE_MASK : Z;
  USDHC_INT_STATUS_CIE_MASK : Z; USDHC_INT_STATUS_DTOE_MASK : Z; USDHC_INT_STATUS_DCE_MASK : Z; USDHC_INT_STATUS_DEBE_MASK : Z; USDHC_INT_STATUS_AC12E_MASK : Z;
  USDHC_INT_STATUS_DMAE_MASK : Z; USDHC_INT_SIGNAL_EN_CCIEN_MASK : Z;
  USDHC_AUTOCMD12_ERR_STATUS_EXECUTE_TUNING_MASK : Z; USDHC_AUTOCMD12_ERR_STATUS_SMP_CLK_SEL_MASK : Z;
  USDHC_HOST_CTRL_CAP_MBL_MASK : Z; USDHC_HOST_CTRL_CAP_MBL_SHIFT : Z; USDHC_HOST_CTRL_CAP_ADMAS_MASK : Z; USDHC_HOST_CTRL_CAP_HSS_MASK : Z;
  USDHC_HOST_CTRL_CAP_DMAS_MASK : Z; USDHC_HOST_CTRL_CAP_SRS_MASK : Z; USDHC_HOST_CTRL_CAP_VS33_MASK : Z; USDHC_HOST_CTRL_CAP_VS30_MASK : Z;
  USDHC_HOST_CTRL_CAP_VS18_MASK : Z; USDHC_HOST_CTRL_CAP_DDR50_SUPPORT_MASK : Z; USDHC_HOST_CTRL_CAP_SDR104_SUPPORT_MASK : Z;
  USDHC_HOST_CTRL_CAP_SDR50_SUPPORT_MASK : Z; USDHC_HOST_CTRL_CAP_USE_TUNING_SDR50_MASK : Z;
  USDHC_HOST_CTRL_CAP_TIME_COUNT_RETUNING_MASK : Z; USDHC_HOST_CTRL_CAP_TIME_COUNT_RETUNING : Z -> Z;
  USDHC_WTMK_LVL_RD_WML_MASK : Z; USDHC_WTMK_LVL_RD_WML_SHIFT : Z; USDHC_WTMK_LVL_RD_WML : Z -> Z; USDHC_WTMK_LVL_WR_WML_MASK : Z; USDHC_WTMK_LVL_WR_WML_SHIFT : Z;
  USDHC_WTMK_LVL_WR_WML : Z -> Z; USDHC_WTMK_LVL_RD_BRST_LEN_MASK : Z; USDHC_WTMK_LVL_RD_BRST_LEN : Z -> Z; USDHC_WTMK_LVL_WR_BRST_LEN_MASK : Z;
  USDHC_WTMK_LVL_WR_BRST_LEN : Z -> Z;
  USDHC_MIX_CTRL_DMAEN_MASK : Z; USDHC_MIX_CTRL_BCEN_MASK : Z; USDHC_MIX_CTRL_AC12EN_MASK : Z; USDHC_MIX_CTRL_DDR_EN_MASK : Z; USDHC_MIX_CTRL_DTDSEL_MASK : Z;
  USDHC_MIX_CTRL_DTDSEL : Z -> Z; USDHC_MIX_CTRL_MSBSEL_MASK : Z; USDHC_MIX_CTRL_NIBBLE_POS_MASK : Z; USDHC_MIX_CTRL_NIBBLE_POS : Z -> Z; USDHC_MIX_CTRL_AC23EN_MASK : Z;
  USDHC_MIX_CTRL_EXE_TUNE_MASK : Z; USDHC_MIX_CTRL_SMP_CLK_SEL_MASK : Z; USDHC_MIX_CTRL_AUTO_TUNE_EN_MASK : Z; USDHC_MIX_CTRL_FBCLK_SEL_MASK : Z;
  USDHC_MIX_CTRL_HS400_MODE_MASK : Z;
  USDHC_CLK_TUNE_CTRL_STATUS_DLY_CELL_SET_PRE_MASK : Z; USDHC_CLK_TUNE_CTRL_STATUS_DLY_CELL_SET_PRE_SHIFT : Z; USDHC_CLK_TUNE_CTRL_STATUS_DLY_CELL_SET_PRE : Z -> Z;
  USDHC_CLK_TUNE_CTRL_STATUS_DLY_CELL_SET_OUT_MASK : Z; USDHC_CLK_TUNE_CTRL_STATUS_DLY_CELL_SET_OUT_SHIFT : Z; USDHC_CLK_TUNE_CTRL_STATUS_DLY_CELL_SET_OUT : Z -> Z;
  USDHC_CLK_TUNE_CTRL_STATUS_DLY_CELL_SET_POST_MASK : Z; USDHC_CLK_TUNE_CTRL_STATUS_DLY_CELL_SET_POST_SHIFT : Z; USDHC_CLK_TUNE_CTRL_STATUS_DLY_CELL_SET_POST : Z -> Z;
  USDHC_CLK_TUNE_CTRL_STATUS_PRE_ERR_MASK : Z; USDHC_CLK_TUNE_CTRL_STATUS_NXT_ERR_MASK : Z;
  STROBE_DLL_CTRL_RESET_MASK : Z; STROBE_DLL_CTRL_ENABLE_MASK : Z; STROBE_DLL_CTRL_SLV_OVERRIDE_MASK : Z; STROBE_DLL_CTRL_SLV_OVERRIDE_VAL_MASK : Z;
  STROBE_DLL_CTRL_SLV_OVERRIDE_VAL : Z -> Z; STROBE_DLL_CTRL_SLV_UPDATE_INT : Z -> Z; STROBE_DLL_CTRL_SLV_DLY_TARGET_MASK : Z;
  STROBE_DLL_CTRL_SLV_DLY_TARGET_SHIFT : Z; STROBE_DLL_CTRL_SLV_DLY_TARGET : Z -> Z; STROBE_DLL_STS_LOCK_MASK : Z;
  USDHC_VEND_SPEC_EXT_DMA_EN_MASK : Z; USDHC_VEND_SPEC_FRC_SDCLK_ON_MASK : Z; USDHC_VEND_SPEC_VSELECT_MASK : Z;
  USDHC_VEND_SPEC2_ACMD23_ARGU2_EN_MASK : Z; USDHC_VEND_SPEC2_TUNING_CMD_EN_MASK : Z; USDHC_VEND_SPEC2_TUNING_BIT_EN_MASK : Z;
  USDHC_VEND_SPEC2_TUNING_BIT_EN : Z -> Z; USDHC_VEND_SPEC2_TUNING_8bit_EN_MASK : Z; USDHC_VEND_SPEC2_TUNING_1bit_EN_MASK : Z;
  USDHC_MMC_BOOT_DTOCV_ACK_MASK : Z; USDHC_MMC_BOOT_DTOCV_ACK_SHIFT : Z; USDHC_MMC_BOOT_DTOCV_ACK : Z -> Z; USDHC_MMC_BOOT_BOOT_MODE_MASK : Z;
  USDHC_MMC_BOOT_BOOT_MODE : Z -> Z; USDHC_MMC_BOOT_BOOT_ACK_MASK : Z; USDHC_MMC_BOOT_BOOT_EN_MASK : Z; USDHC_MMC_BOOT_AUTO_SABG_EN_MASK : Z;
  USDHC_MMC_BOOT_BOOT_BLK_CNT_MASK : Z; USDHC_MMC_BOOT_BOOT_BLK_CNT_SHIFT : Z; USDHC_MMC_BOOT_BOOT_BLK_CNT : Z -> Z;
  USDHC_TUNING_CTRL_STD_TUNING_EN_MASK : Z; USDHC_TUNING_CTRL_TUNING_START_TAP_MASK : Z; USDHC_TUNING_CTRL_TUNING_START_TAP : Z -> Z;
  USDHC_TUNING_CTRL_TUNING_STEP_MASK : Z; USDHC_TUNING_CTRL_TUNING_STEP : Z -> Z; USDHC_TUNING_CTRL_TUNING_COUNTER_MASK : Z; USDHC_TUNING_CTRL_TUNING_COUNTER : Z -> Z
}.
(** Features of the chip and the build.  Without SDR50 the tuning flags are 0. *)
Class UsdhcFeatures := {
  HAS_SDR50_MODE : bool; HAS_SDR104_MODE : bool; HAS_EXT_DMA : bool; HAS_NO_RW_BURST_LEN : bool; HAS_NO_VS18 : bool;
  ENABLE_SCATTER_GATHER_TRANSFER : bool;
  USDHC_ADDR_CPU_2_DMA : Z -> Z;
  s_usdhcBootDummy : Z   (** its address *)
}.

Definition ors : list Z -> Z := foldr Z.lor 0.

Definition kStatusGroup_USDHC : Z := 65.
Definition kStatus_USDHC_BusyTransferring : status_t := MAKE_STATUS kStatusGroup_USDHC 0.
Definition kStatus_USDHC_PrepareAdmaDescriptorFailed : status_t := MAKE_STATUS kStatusGroup_USDHC 1.
Definition kStatus_USDHC_SendCommandFailed : status_t := MAKE_STATUS kStatusGroup_USDHC 2.
Definition kStatus_USDHC_TransferDataFailed : status_t := MAKE_STATUS kStatusGroup_USDHC 3.
Definition kStatus_USDHC_DMADataAddrNotAlign : status_t := MAKE_STATUS kStatusGroup_USDHC 4.
Definition kStatus_USDHC_ReTuningRequest : status_t := MAKE_STATUS kStatusGroup_USDHC 5.
Definition kStatus_USDHC_TuningError : status_t := MAKE_STATUS kStatusGroup_USDHC 6.
Definition kStatus_USDHC_NotSupport : status_t := MAKE_STATUS kStatusGroup_USDHC 7.
Definition kStatus_USDHC_TransferDataComplete : status_t := MAKE_STATUS kStatusGroup_USDHC 8.
Definition kStatus_USDHC_SendCommandSuccess : status_t := MAKE_STATUS kStatusGroup_USDHC 9.
Definition kStatus_USDHC_TransferDMAComplete : status_t := MAKE_STATUS kStatusGroup_USDHC 10.

Definition kUSDHC_CommandOnly : Z := 1.
Definition kUSDHC_CommandAndTxData : Z := 2.
Definition kUSDHC_CommandAndRxData : Z := 4.
Definition kUSDHC_DataWithAutoCmd12 : Z := 8.
Definition kUSDHC_DataWithAutoCmd23 : Z := 16.
Definition kUSDHC_BootData : Z := 32.
Definition kUSDHC_BootDataContinuous : Z := 64.

(** ** Data *)

Inductive usdhc_transfer_direction := kUSDHC_TransferDirectionReceive | kUSDHC_TransferDirectionSend.
Inductive usdhc_dma_mode := kUSDHC_DmaModeSimple | kUSDHC_DmaModeAdma1 | kUSDHC_DmaModeAdma2 | kUSDHC_ExternalDMA.
#[export] Instance usdhc_dma_mode_eq_dec : EqDecision usdhc_dma_mode.
Proof. solve_decision. Defined.
Inductive usdhc_card_command_type := kCARD_CommandTypeNormal | kCARD_CommandTypeSuspend | kCARD_CommandTypeResume | kCARD_CommandTypeAbort | kCARD_CommandTypeEmpty.
#[export] Instance usdhc_card_command_type_eq_dec : EqDecision usdhc_card_command_type.
Proof. solve_decision. Defined.
Inductive usdhc_card_response_type :=
  | kCARD_ResponseTypeNone | kCARD_ResponseTypeR1 | kCARD_ResponseTypeR1b | kCARD_ResponseTypeR2 | kCARD_ResponseTypeR3
  | kCARD_ResponseTypeR4 | kCARD_ResponseTypeR5 | kCARD_ResponseTypeR5b | kCARD_ResponseTypeR6 | kCARD_ResponseTypeR7.
#[export] Instance usdhc_card_response_type_eq_dec : EqDecision usdhc_card_response_type.
Proof. solve_decision. Defined.
Definition direction_value (d : usdhc_transfer_direction) : Z := match d with kUSDHC_TransferDirectionReceive => 1 | kUSDHC_TransferDirectionSend => 0 end.
Definition mode_value (m : usdhc_dma_mode) : Z :=
  match m with kUSDHC_DmaModeSimple => 0 | kUSDHC_DmaModeAdma1 => 1 | kUSDHC_DmaModeAdma2 => 2 | kUSDHC_ExternalDMA => 3 end.

Definition kUSDHC_TransferDataNormal : Z := 0.
Definition kUSDHC_TransferDataTuning : Z := 1.
Definition kUSDHC_TransferDataBoot : Z := 2.
Definition kUSDHC_TransferDataBootcontinous : Z := 3.

Record usdhc_command := Command {
  index : Z; argument : Z; type : usdhc_card_command_type; responseType : usdhc_card_response_type;
  response : list Z; responseErrorFlags : Z; flags : Z
}.
Record usdhc_data := Data {
  enableAutoCommand12 : bool; enableAutoCommand23 : bool; enableIgnoreError : bool; dataType : Z; blockSize : Z; blockCount : Z;
  rxData : Z; txData : Z
}.
Record usdhc_adma_config := AdmaConfig { dmaMode : usdhc_dma_mode; burstLen : Z; admaTable : Z; admaTableWords : Z }.
(** A buffer of a scatter-gather list. *)
Record usdhc_scatter_gather_data_list := Buffer { dataAddr : Z; bufferSize : Z }.
Record usdhc_scatter_gather_data := SgData {
  sg_enableAutoCommand12 : bool; sg_enableAutoCommand23 : bool; sg_enableIgnoreError : bool; dataDirection : usdhc_transfer_direction;
  sg_dataType : Z; sg_blockSize : Z; sgData : usdhc_scatter_gather_data_list; dataList : list usdhc_scatter_gather_data_list
}.
Record usdhc_config := UsdhcConfig { dataTimeout : Z; endianMode : Z; readWatermarkLevel : Z; writeWatermarkLevel : Z; readBurstLen : Z; writeBurstLen : Z }.
Record usdhc_capability := Capability { maxBlockLength : Z; maxBlockCount : Z; cap_flags : Z }.
Record usdhc_boot_config := BootConfig {
  ackTimeoutCount : Z; bootMode : Z; boot_blockCount : Z; boot_blockSize : Z; enableBootAck : bool; enableAutoStopAtBlockGap : bool
}.
Definition with_flags x c := Command (index c) (argument c) (type c) (responseType c) (response c) (responseErrorFlags c) x.
Definition with_response x c := Command (index c) (argument c) (type c) (responseType c) x (responseErrorFlags c) (flags c).
Definition with_blockSize x d :=
  Data (enableAutoCommand12 d) (enableAutoCommand23 d) (enableIgnoreError d) (dataType d) x (blockCount d) (rxData d) (txData d).

(** What the handle points to; [sg] in a build with scatter-gather transfers,
    [data] in one without. *)
Record usdhc_handle := Handle { data : option usdhc_data; sg : option usdhc_scatter_gather_data; command : option usdhc_command; transferredWords : Z }.
Definition with_data x h := Handle x (sg h) (command h) (transferredWords h).
Definition with_sg x h := Handle (data h) x (command h) (transferredWords h).
Definition with_command x h := Handle (data h) (sg h) x (transferredWords h).
Definition with_words x h := Handle (data h) (sg h) (command h) x.

Abbreviation memory := (Z -> Z).
Record usdhc_world (D A : Type) := UsdhcWorld { u_hw : D; u_mem : memory; u_handle : usdhc_handle; u_app : A }.
Arguments UsdhcWorld {D A}. Arguments u_hw {D A}. Arguments u_mem {D A}. Arguments u_handle {D A}. Arguments u_app {D A}.
(** The callbacks; [None] is a null pointer. *)
Record usdhc_transfer_callback (W : Type) := Callbacks {
  CardInserted : option (M W unit); CardRemoved : option (M W unit); SdioInterrupt : option (M W unit); BlockGap : option (M W unit);
  TransferComplete : option (status_t -> M W unit); ReTuning : option (M W unit)
}.
Arguments Callbacks {W}. Arguments CardInserted {W}. Arguments CardRemoved {W}. Arguments SdioInterrupt {W}. Arguments BlockGap {W}.
Arguments TransferComplete {W}. Arguments ReTuning {W}.

(** ** Clock dividers *)

(** [while (MAX_CLKFS % prescaler != 0 || prescaler == 1) prescaler++;] *)
Fixpoint round_prescaler (max_clkfs : Z) (fuel : nat) (prescaler : Z) : outcome Z :=
  match fuel with
  | O => Err OutOfFuel
  | S fuel =>
      r <-! umod max_clkfs prescaler ;;
      if negb (r =? 0) || (prescaler =? 1) then round_prescaler max_clkfs fuel (u32 (prescaler + 1)) else Ok prescaler
  end.
(** The tuning of the divisor; [None] is the early [return 0]. *)
Fixpoint tune_divisor (max_dvs max_clkfs : Z) (fuel : nat) (totalDiv divisor prescaler : Z) : outcome (option (Z * Z)) :=
  match fuel with
  | O => Err OutOfFuel
  | S fuel =>
      if u32 (divisor * prescaler) <? totalDiv then
        let divisor := u32 (divisor + 1) in
        if max_dvs <? divisor then
          let prescaler := u32 (Z.shiftl prescaler 1) in
          if max_clkfs <? prescaler then Ok None
          else divisor <-! udiv totalDiv prescaler ;; tune_divisor max_dvs max_clkfs fuel totalDiv divisor prescaler
        else tune_divisor max_dvs max_clkfs fuel totalDiv divisor prescaler
      else Ok (Some (divisor, prescaler))
  end.
(** The loops take less than 256 rounds. *)
Definition pick_divisors (max_dvs max_clkfs totalDiv : Z) : outcome (option (Z * Z)) :=
  if max_dvs <? totalDiv then
    prescaler <-! udiv totalDiv max_dvs ;;
    prescaler <-! round_prescaler max_clkfs 256 prescaler ;;
    divisor <-! udiv totalDiv prescaler ;;
    tune_divisor max_dvs max_clkfs 256 totalDiv divisor prescaler
  else if negb (totalDiv mod 2 =? 0) && negb (totalDiv =? 1) then Ok (Some (totalDiv, 1))
  else Ok (Some (1, totalDiv)).

(** ** Flags *)

Section Flags.
Context {F : UsdhcFields} {X : UsdhcFeatures}.
Definition kUSDHC_CommandInhibitFlag : Z := USDHC_PRES_STATE_CIHB_MASK.
Definition kUSDHC_DataInhibitFlag : Z := USDHC_PRES_STATE_CDIHB_MASK.
Definition kUSDHC_CardInsertedFlag : Z := USDHC_PRES_STATE_CINST_MASK.
Definition kUSDHC_DataCompleteFlag : Z := USDHC_INT_STATUS_TC_MASK.
Definition kUSDHC_BlockGapEventFlag : Z := USDHC_INT_STATUS_BGE_MASK.
Definition kUSDHC_DmaCompleteFlag : Z := USDHC_INT_STATUS_DINT_MASK.
Definition kUSDHC_BufferWriteReadyFlag : Z := USDHC_INT_STATUS_BWR_MASK.
Definition kUSDHC_BufferReadReadyFlag : Z := USDHC_INT_STATUS_BRR_MASK.
Definition kUSDHC_CardInsertionFlag : Z := USDHC_INT_STATUS_CINS_MASK.
Definition kUSDHC_CardInterruptFlag : Z := USDHC_INT_STATUS_CINT_MASK.
Definition kUSDHC_ReTuningEventFlag : Z := if HAS_SDR50_MODE then USDHC_INT_STATUS_RTE_MASK else 0.
Definition kUSDHC_TuningPassFlag : Z := if HAS_SDR50_MODE then USDHC_INT_STATUS_TP_MASK else 0.
Definition kUSDHC_TuningErrorFlag : Z := if HAS_SDR50_MODE then USDHC_INT_STATUS_TNE_MASK else 0.
Definition kUSDHC_DataTimeoutFlag : Z := USDHC_INT_STATUS_DTOE_MASK.
Definition kUSDHC_DmaErrorFlag : Z := USDHC_INT_STATUS_DMAE_MASK.
Definition kUSDHC_CommandErrorFlag : Z := ors [USDHC_INT_STATUS_CTOE_MASK; USDHC_INT_STATUS_CCE_MASK; USDHC_INT_STATUS_CEBE_MASK; USDHC_INT_STATUS_CIE_MASK].
Definition kUSDHC_DataErrorFlag : Z := ors [USDHC_INT_STATUS_DTOE_MASK; USDHC_INT_STATUS_DCE_MASK; USDHC_INT_STATUS_DEBE_MASK; USDHC_INT_STATUS_AC12E_MASK].
Definition kUSDHC_ErrorFlag : Z := ors [kUSDHC_CommandErrorFlag; kUSDHC_DataErrorFlag; kUSDHC_DmaErrorFlag].
Definition kUSDHC_DataFlag : Z := ors [kUSDHC_DataCompleteFlag; kUSDHC_BufferWriteReadyFlag; kUSDHC_BufferReadReadyFlag; kUSDHC_DataErrorFlag].
Definition kUSDHC_DataDMAFlag : Z := ors [kUSDHC_DataCompleteFlag; kUSDHC_DataErrorFlag; kUSDHC_DmaErrorFlag].
Definition kUSDHC_CommandFlag : Z := ors [kUSDHC_CommandErrorFlag; USDHC_INT_STATUS_CC_MASK].
Definition kUSDHC_CardDetectFlag : Z := ors [kUSDHC_CardInsertionFlag; USDHC_INT_STATUS_CRM_MASK].
Definition kUSDHC_SDR104TuningFlag : Z := ors [kUSDHC_TuningErrorFlag; kUSDHC_TuningPassFlag; kUSDHC_ReTuningEventFlag].
Definition kUSDHC_AllInterruptFlags : Z :=
  ors [kUSDHC_BlockGapEventFlag; kUSDHC_CardInterruptFlag; kUSDHC_CommandFlag; kUSDHC_DataFlag; kUSDHC_ErrorFlag; kUSDHC_SDR104TuningFlag; kUSDHC_DmaCompleteFlag].
Definition kUSDHC_CommandTypeAbortFlag : Z := USDHC_CMD_XFR_TYP_CMDTYP 3.
Definition kUSDHC_ResponseLength136Flag : Z := USDHC_CMD_XFR_TYP_RSPTYP 1.
Definition kUSDHC_ResponseLength48Flag : Z := USDHC_CMD_XFR_TYP_RSPTYP 2.
Definition kUSDHC_ResponseLength48BusyFlag : Z := USDHC_CMD_XFR_TYP_RSPTYP 3.
Definition kUSDHC_EnableCrcCheckFlag : Z := USDHC_CMD_XFR_TYP_CCCEN_MASK.
Definition kUSDHC_EnableIndexCheckFlag : Z := USDHC_CMD_XFR_TYP_CICEN_MASK.
Definition kUSDHC_DataPresentFlag : Z := USDHC_CMD_XFR_TYP_DPSEL_MASK.
Definition USDHC_MAX_BLOCK_COUNT : Z := Z.shiftr USDHC_BLK_ATT_BLKCNT_MASK USDHC_BLK_ATT_BLKCNT_SHIFT.
Definition USDHC_MAX_DVS : Z := u32 (Z.shiftr USDHC_SYS_CTRL_DVS_MASK USDHC_SYS_CTRL_DVS_SHIFT + 1).
Definition USDHC_MAX_CLKFS : Z := u32 (Z.shiftr USDHC_SYS_CTRL_SDCLKFS_MASK USDHC_SYS_CTRL_SDCLKFS_SHIFT + 1).

(** The frequency and its divisor and prescaler. *)
Definition clock_setting (srcClock_Hz busClock_Hz : Z) : outcome (option (Z * Z * Z)) :=
  totalDiv <-! udiv srcClock_Hz busClock_Hz ;;
  if u32 (USDHC_MAX_CLKFS * USDHC_MAX_DVS) <? totalDiv then Ok None
  else if negb (totalDiv =? 0) then
    rate <-! udiv srcClock_Hz totalDiv ;;
    let totalDiv := if busClock_Hz <? rate then u32 (totalDiv + 1) else totalDiv in
    picked <-! pick_divisors USDHC_MAX_DVS USDHC_MAX_CLKFS totalDiv ;;
    match picked with
    | None => Ok None
    | Some (divisor, prescaler) =>
        nearest <-! udiv (srcClock_Hz / (if divisor =? 0 then 1 else divisor)) prescaler ;;
        Ok (Some (divisor, prescaler, nearest))
    end
  else Ok (Some (0, 0, srcClock_Hz)).
End Flags.

(** ** The peripheral *)

Section Config.
Context {D : Type} `{!Device usdhc_reg D} {F : UsdhcFields} {X : UsdhcFeatures}.
(** [fuel]: how often a flag is looked at when the driver waits for ever. *)
Context (fuel : nat).

(** [base->R = (base->R & ~mask) | bits] *)
Definition set_field (r : usdhc_reg) (mask bits : Z) : M D unit := x <- rd r ;; wr r (Z.lor (bic32 x mask) bits).
Definition switch (r : usdhc_reg) (mask : Z) (enable : bool) : M D unit := if enable then set_bits r mask else clear_bits r mask.

Definition USDHC_EnableInternalDMA (enable : bool) : M D unit :=
  if enable then set_bits MIX_CTRL USDHC_MIX_CTRL_DMAEN_MASK
  else clear_bits MIX_CTRL USDHC_MIX_CTRL_DMAEN_MASK ;; clear_bits PROT_CTRL USDHC_PROT_CTRL_DMASEL_MASK.
Definition USDHC_EnableInterruptStatus (mask : Z) : M D unit := set_bits INT_STATUS_EN mask.
Definition USDHC_DisableInterruptStatus (mask : Z) : M D unit := clear_bits INT_STATUS_EN mask.
Definition USDHC_EnableInterruptSignal (mask : Z) : M D unit := set_bits INT_SIGNAL_EN mask.
Definition USDHC_DisableInterruptSignal (mask : Z) : M D unit := clear_bits INT_SIGNAL_EN mask.
Definition USDHC_GetEnabledInterruptStatusFlags : M D Z := intStatus <- rd INT_STATUS ;; x <- rd INT_SIGNAL_EN ;; ret (Z.land intStatus x).
Definition USDHC_GetInterruptStatusFlags : M D Z := rd INT_STATUS.
Definition USDHC_ClearInterruptStatusFlags (mask : Z) : M D unit := wr INT_STATUS mask.
Definition USDHC_GetAutoCommand12ErrorStatusFlags : M D Z := rd AUTOCMD12_ERR_STATUS.
Definition USDHC_GetAdmaErrorStatusFlags : M D Z := x <- rd ADMA_ERR_STATUS ;; ret (Z.land x 0xF).
Definition USDHC_GetPresentStatusFlags : M D Z := rd PRES_STATE.
Definition USDHC_ForceClockOn (enable : bool) : M D unit := switch VEND_SPEC USDHC_VEND_SPEC_FRC_SDCLK_ON_MASK enable.
Definition USDHC_AssertHardwareReset (high : bool) : M D unit := switch SYS_CTRL USDHC_SYS_CTRL_IPP_RST_N_MASK high.
Definition USDHC_SetDataBusWidth (width : Z) : M D unit := set_field PROT_CTRL USDHC_PROT_CTRL_DTW_MASK (USDHC_PROT_CTRL_DTW width).
Definition USDHC_WriteData (x : Z) : M D unit := wr DATA_BUFF_ACC_PORT x.
Definition USDHC_ReadData : M D Z := rd DATA_BUFF_ACC_PORT.
Definition USDHC_EnableWakeupEvent (mask : Z) (enable : bool) : M D unit := switch PROT_CTRL mask enable.
Definition USDHC_CardDetectByData3 (enable : bool) : M D unit := switch PROT_CTRL USDHC_PROT_CTRL_D3CD_MASK enable.
Definition USDHC_DetectCardInsert : M D bool := x <- rd PRES_STATE ;; ret (has x kUSDHC_CardInsertedFlag).
Definition USDHC_EnableSdioControl (mask : Z) (enable : bool) : M D unit := switch PROT_CTRL mask enable.
Definition USDHC_SetContinueRequest : M D unit := set_bits PROT_CTRL USDHC_PROT_CTRL_CREQ_MASK.
Definition USDHC_RequestStopAtBlockGap (enable : bool) : M D unit := switch PROT_CTRL USDHC_PROT_CTRL_SABGREQ_MASK enable.
Definition USDHC_EnableMmcBoot (enable : bool) : M D unit := switch MMC_BOOT USDHC_MMC_BOOT_BOOT_EN_MASK enable.
Definition USDHC_SetForceEvent (mask : Z) : M D unit := wr FORCE_EVENT mask.
Definition UDSHC_SelectVoltage (en18v : bool) : M D unit := switch VEND_SPEC USDHC_VEND_SPEC_VSELECT_MASK en18v.
Definition USDHC_RequestTuningForSDR50 : M D bool := x <- rd HOST_CTRL_CAP ;; ret (has x USDHC_HOST_CTRL_CAP_USE_TUNING_SDR50_MASK).
Definition USDHC_RequestReTuning : M D bool := x <- rd PRES_STATE ;; ret (has x USDHC_PRES_STATE_RTR_MASK).
Definition USDHC_EnableAutoTuning (enable : bool) : M D unit := switch MIX_CTRL USDHC_MIX_CTRL_AUTO_TUNE_EN_MASK enable.
Definition USDHC_SetRetuningTimer (counter : Z) : M D unit :=
  clear_bits HOST_CTRL_CAP USDHC_HOST_CTRL_CAP_TIME_COUNT_RETUNING_MASK ;; set_bits HOST_CTRL_CAP (USDHC_HOST_CTRL_CAP_TIME_COUNT_RETUNING counter).
Definition USDHC_GetTuningDelayStatus : M D Z := x <- rd CLK_TUNE_CTRL_STATUS ;; ret (Z.shiftr x 16).
Definition USDHC_SetStandardTuningCounter (counter : Z) : M D unit :=
  set_field TUNING_CTRL USDHC_TUNING_CTRL_TUNING_COUNTER_MASK (USDHC_TUNING_CTRL_TUNING_COUNTER counter).
Definition USDHC_GetExecuteStdTuningStatus : M D Z := x <- rd AUTOCMD12_ERR_STATUS ;; ret (Z.land x USDHC_AUTOCMD12_ERR_STATUS_EXECUTE_TUNING_MASK).
Definition USDHC_CheckStdTuningResult : M D Z := x <- rd AUTOCMD12_ERR_STATUS ;; ret (Z.land x USDHC_AUTOCMD12_ERR_STATUS_SMP_CLK_SEL_MASK).
Definition tuning_errors : Z := Z.lor USDHC_CLK_TUNE_CTRL_STATUS_NXT_ERR_MASK USDHC_CLK_TUNE_CTRL_STATUS_PRE_ERR_MASK.
Definition USDHC_CheckTuningError : M D Z := x <- rd CLK_TUNE_CTRL_STATUS ;; ret (Z.land x tuning_errors).
Definition USDHC_EnableHS400Mode (enable : bool) : M D unit := switch MIX_CTRL USDHC_MIX_CTRL_HS400_MODE_MASK enable.
Definition USDHC_ResetStrobeDLL : M D unit := set_bits STROBE_DLL_CTRL STROBE_DLL_CTRL_RESET_MASK.
Definition USDHC_EnableStrobeDLL (enable : bool) : M D unit := switch STROBE_DLL_CTRL STROBE_DLL_CTRL_ENABLE_MASK enable.
Definition USDHC_SetStrobeDllOverride (delayTaps : Z) : M D unit :=
  x <- rd STROBE_DLL_CTRL ;;
  wr STROBE_DLL_CTRL (Z.land x (Z.lor STROBE_DLL_CTRL_ENABLE_MASK STROBE_DLL_CTRL_SLV_OVERRIDE_VAL_MASK)) ;;
  set_bits STROBE_DLL_CTRL (Z.lor STROBE_DLL_CTRL_SLV_OVERRIDE_MASK (STROBE_DLL_CTRL_SLV_OVERRIDE_VAL delayTaps)).
Definition USDHC_GetStrobeDLLStatus : M D Z := rd STROBE_DLL_STATUS.

(** Clock gate and reset line are left out. *)
Definition USDHC_Init (config : usdhc_config) : M D unit :=
  assert_ ((1 <=? writeWatermarkLevel config) && (writeWatermarkLevel config <=? 128)) ;;
  assert_ ((1 <=? readWatermarkLevel config) && (readWatermarkLevel config <=? 128)) ;;
  assert_ (HAS_NO_RW_BURST_LEN || (writeBurstLen config <=? 16)) ;;
  set_bits SYS_CTRL (ors [USDHC_SYS_CTRL_RSTA_MASK; USDHC_SYS_CTRL_RSTC_MASK; USDHC_SYS_CTRL_RSTD_MASK]) ;;
  proctl <- rd PROT_CTRL ;;
  wml <- rd WTMK_LVL ;;
  sysctl <- rd SYS_CTRL ;;
  let proctl := Z.lor (bic32 proctl (Z.lor USDHC_PROT_CTRL_EMODE_MASK USDHC_PROT_CTRL_DMASEL_MASK)) (USDHC_PROT_CTRL_EMODE (endianMode config)) in
  let levels := Z.lor (USDHC_WTMK_LVL_RD_WML (readWatermarkLevel config)) (USDHC_WTMK_LVL_WR_WML (writeWatermarkLevel config)) in
  let wml :=
    if HAS_NO_RW_BURST_LEN then Z.lor (bic32 wml (Z.lor USDHC_WTMK_LVL_RD_WML_MASK USDHC_WTMK_LVL_WR_WML_MASK)) levels
    else Z.lor (bic32 wml (ors [USDHC_WTMK_LVL_RD_WML_MASK; USDHC_WTMK_LVL_WR_WML_MASK; USDHC_WTMK_LVL_RD_BRST_LEN_MASK; USDHC_WTMK_LVL_WR_BRST_LEN_MASK]))
      (ors [levels; USDHC_WTMK_LVL_RD_BRST_LEN (readBurstLen config); USDHC_WTMK_LVL_WR_BRST_LEN (writeBurstLen config)]) in
  let sysctl := Z.lor (bic32 sysctl USDHC_SYS_CTRL_DTOCV_MASK) (USDHC_SYS_CTRL_DTOCV (dataTimeout config)) in
  wr SYS_CTRL sysctl ;;
  wr WTMK_LVL wml ;;
  wr PROT_CTRL proctl ;;
  when HAS_EXT_DMA (clear_bits VEND_SPEC USDHC_VEND_SPEC_EXT_DMA_EN_MASK) ;;
  clear_bits MIX_CTRL (Z.lor USDHC_MIX_CTRL_DMAEN_MASK USDHC_MIX_CTRL_DDR_EN_MASK) ;;
  wr INT_STATUS_EN kUSDHC_AllInterruptFlags ;;
  wr INT_SIGNAL_EN 0 ;;
  wr INT_STATUS kUSDHC_AllInterruptFlags.

(** [while (R & mask) { if (timeout == 0) break; timeout--; }]: what is left
    of [timeout]. *)
Fixpoint wait_clear (timeout : nat) (r : usdhc_reg) (mask : Z) : M D nat :=
  x <- rd r ;;
  if has x mask then match timeout with O => ret 0%nat | S n => wait_clear n r mask end else ret timeout.
Definition USDHC_Reset (mask timeout : Z) : M D bool :=
  let resets := Z.lor (ors [USDHC_SYS_CTRL_RSTA_MASK; USDHC_SYS_CTRL_RSTC_MASK; USDHC_SYS_CTRL_RSTD_MASK]) (if HAS_SDR50_MODE then USDHC_SYS_CTRL_RSTT_MASK else 0) in
  set_bits SYS_CTRL (Z.land mask resets) ;;
  left <- wait_clear (Z.to_nat timeout) SYS_CTRL mask ;; ret (negb (left =? 0)%nat).
Definition USDHC_SetCardActive (timeout : Z) : M D bool :=
  set_bits SYS_CTRL USDHC_SYS_CTRL_INITA_MASK ;;
  left <- wait_clear (Z.to_nat timeout) SYS_CTRL USDHC_SYS_CTRL_INITA_MASK ;; ret (negb (left =? 0)%nat).

Definition USDHC_GetCapability : M D usdhc_capability :=
  htCapability <- rd HOST_CTRL_CAP ;;
  let maxBlockLength := Z.shiftr (Z.land htCapability USDHC_HOST_CTRL_CAP_MBL_MASK) USDHC_HOST_CTRL_CAP_MBL_SHIFT in
  let reported := ors [USDHC_HOST_CTRL_CAP_ADMAS_MASK; USDHC_HOST_CTRL_CAP_HSS_MASK; USDHC_HOST_CTRL_CAP_DMAS_MASK; USDHC_HOST_CTRL_CAP_SRS_MASK;
    USDHC_HOST_CTRL_CAP_VS33_MASK; USDHC_HOST_CTRL_CAP_VS30_MASK; (if HAS_NO_VS18 then 0 else USDHC_HOST_CTRL_CAP_VS18_MASK); USDHC_HOST_CTRL_CAP_DDR50_SUPPORT_MASK] in
  ret (Capability (u32 (Z.shiftl 512 maxBlockLength)) USDHC_MAX_BLOCK_COUNT
    (ors [Z.land htCapability reported; (if HAS_SDR104_MODE then USDHC_HOST_CTRL_CAP_SDR104_SUPPORT_MASK else 0);
      (if HAS_SDR50_MODE then USDHC_HOST_CTRL_CAP_SDR50_SUPPORT_MASK else 0); USDHC_HOST_CTRL_CAP_MBL_SHIFT; Z.shiftl USDHC_HOST_CTRL_CAP_MBL_SHIFT 1])).

Definition USDHC_SetSdClock (srcClock_Hz busClock_Hz : Z) : M D Z :=
  assert_ (negb (srcClock_Hz =? 0)) ;;
  assert_ (negb (busClock_Hz =? 0)) ;;
  let busClock_Hz := if srcClock_Hz <? busClock_Hz then srcClock_Hz else busClock_Hz in
  setting <- lift (clock_setting srcClock_Hz busClock_Hz) ;;
  match setting with
  | None => ret 0
  | Some (divisor, prescaler, nearestFrequency) =>
      let divisor := if negb (divisor =? 0) then u32 (divisor - 1) else divisor in
      let prescaler := if negb (prescaler =? 0) then Z.shiftr prescaler 1 else prescaler in
      set_field SYS_CTRL (Z.lor USDHC_SYS_CTRL_DVS_MASK USDHC_SYS_CTRL_SDCLKFS_MASK)
        (Z.lor (USDHC_SYS_CTRL_DVS divisor) (USDHC_SYS_CTRL_SDCLKFS prescaler)) ;;
      poll_clear fuel PRES_STATE USDHC_PRES_STATE_SDSTB_MASK ;;
      ret nearestFrequency
  end.

Definition USDHC_EnableDDRMode (enable : bool) (nibblePos : Z) : M D unit :=
  x <- rd SYS_CTRL ;;
  let prescaler := Z.shiftr (Z.land x USDHC_SYS_CTRL_SDCLKFS_MASK) USDHC_SYS_CTRL_SDCLKFS_SHIFT in
  (if enable then
     clear_bits MIX_CTRL USDHC_MIX_CTRL_NIBBLE_POS_MASK ;;
     set_bits MIX_CTRL (Z.lor USDHC_MIX_CTRL_DDR_EN_MASK (USDHC_MIX_CTRL_NIBBLE_POS nibblePos))
   else clear_bits MIX_CTRL USDHC_MIX_CTRL_DDR_EN_MASK) ;;
  let prescaler := if enable then Z.shiftr prescaler 1 else if prescaler =? 0 then 1 else u32 (Z.shiftl prescaler 1) in
  set_field SYS_CTRL USDHC_SYS_CTRL_SDCLKFS_MASK (USDHC_SYS_CTRL_SDCLKFS prescaler).

(** The size and number of blocks. *)
Definition set_blocks (size count : Z) : M D unit :=
  set_field BLK_ATT (Z.lor USDHC_BLK_ATT_BLKSIZE_MASK USDHC_BLK_ATT_BLKCNT_MASK) (Z.lor (USDHC_BLK_ATT_BLKSIZE size) (USDHC_BLK_ATT_BLKCNT count)).
Definition USDHC_SetMmcBootConfig (config : usdhc_boot_config) : M D unit :=
  assert_ (ackTimeoutCount config <=? Z.shiftr USDHC_MMC_BOOT_DTOCV_ACK_MASK USDHC_MMC_BOOT_DTOCV_ACK_SHIFT) ;;
  assert_ (boot_blockCount config <=? Z.shiftr USDHC_MMC_BOOT_BOOT_BLK_CNT_MASK USDHC_MMC_BOOT_BOOT_BLK_CNT_SHIFT) ;;
  mmcboot <- rd MMC_BOOT ;;
  let mmcboot := Z.lor (bic32 mmcboot (ors [USDHC_MMC_BOOT_DTOCV_ACK_MASK; USDHC_MMC_BOOT_BOOT_MODE_MASK; USDHC_MMC_BOOT_BOOT_BLK_CNT_MASK]))
    (Z.lor (USDHC_MMC_BOOT_DTOCV_ACK (ackTimeoutCount config)) (USDHC_MMC_BOOT_BOOT_MODE (bootMode config))) in
  let mmcboot := if enableBootAck config then Z.lor mmcboot USDHC_MMC_BOOT_BOOT_ACK_MASK else mmcboot in
  let mmcboot := if enableAutoStopAtBlockGap config
    then ors [mmcboot; USDHC_MMC_BOOT_AUTO_SABG_EN_MASK; USDHC_MMC_BOOT_BOOT_BLK_CNT (u32 (USDHC_MAX_BLOCK_COUNT - boot_blockCount config))] else mmcboot in
  set_blocks (boot_blockSize config) (if enableAutoStopAtBlockGap config then USDHC_MAX_BLOCK_COUNT else boot_blockCount config) ;;
  wr MMC_BOOT mmcboot.

Definition USDHC_SetDataConfig (dataDirection : usdhc_transfer_direction) (blockCount blockSize : Z) : M D unit :=
  assert_ (blockCount <=? USDHC_MAX_BLOCK_COUNT) ;;
  mixCtrl <- rd MIX_CTRL ;;
  set_blocks blockSize blockCount ;;
  wr MIX_CTRL (Z.lor (bic32 mixCtrl (ors [USDHC_MIX_CTRL_MSBSEL_MASK; USDHC_MIX_CTRL_BCEN_MASK; USDHC_MIX_CTRL_DTDSEL_MASK]))
    (Z.lor (USDHC_MIX_CTRL_DTDSEL (direction_value dataDirection)) (if 1 <? blockCount then USDHC_MIX_CTRL_MSBSEL_MASK else 0))).

(** ** Tuning *)

Definition USDHC_EnableManualTuning (enable : bool) : M D unit :=
  if enable then
    clear_bits TUNING_CTRL USDHC_TUNING_CTRL_STD_TUNING_EN_MASK ;;
    clear_bits MIX_CTRL USDHC_MIX_CTRL_AUTO_TUNE_EN_MASK ;;
    set_bits MIX_CTRL (Z.lor USDHC_MIX_CTRL_EXE_TUNE_MASK USDHC_MIX_CTRL_SMP_CLK_SEL_MASK)
  else clear_bits MIX_CTRL USDHC_MIX_CTRL_EXE_TUNE_MASK.
(** Loads delays and looks whether the hardware takes them. *)
Definition load_delay (mask bits : Z) : M D status_t :=
  set_field CLK_TUNE_CTRL_STATUS mask bits ;;
  x <- rd CLK_TUNE_CTRL_STATUS ;; ret (if has x tuning_errors then kStatus_Fail else kStatus_Success).
Definition USDHC_AdjustDelayForManualTuning (delay : Z) : M D status_t :=
  load_delay USDHC_CLK_TUNE_CTRL_STATUS_DLY_CELL_SET_PRE_MASK (USDHC_CLK_TUNE_CTRL_STATUS_DLY_CELL_SET_PRE delay).
Definition USDHC_SetTuningDelay (preDelay outDelay postDelay : Z) : M D status_t :=
  assert_ (preDelay <=? Z.shiftr USDHC_CLK_TUNE_CTRL_STATUS_DLY_CELL_SET_PRE_MASK USDHC_CLK_TUNE_CTRL_STATUS_DLY_CELL_SET_PRE_SHIFT) ;;
  assert_ (outDelay <=? Z.shiftr USDHC_CLK_TUNE_CTRL_STATUS_DLY_CELL_SET_OUT_MASK USDHC_CLK_TUNE_CTRL_STATUS_DLY_CELL_SET_OUT_SHIFT) ;;
  assert_ (postDelay <=? Z.shiftr USDHC_CLK_TUNE_CTRL_STATUS_DLY_CELL_SET_POST_MASK USDHC_CLK_TUNE_CTRL_STATUS_DLY_CELL_SET_POST_SHIFT) ;;
  load_delay (ors [USDHC_CLK_TUNE_CTRL_STATUS_DLY_CELL_SET_PRE_MASK; USDHC_CLK_TUNE_CTRL_STATUS_DLY_CELL_SET_OUT_MASK; USDHC_CLK_TUNE_CTRL_STATUS_DLY_CELL_SET_POST_MASK])
    (ors [USDHC_CLK_TUNE_CTRL_STATUS_DLY_CELL_SET_PRE preDelay; USDHC_CLK_TUNE_CTRL_STATUS_DLY_CELL_SET_OUT outDelay; USDHC_CLK_TUNE_CTRL_STATUS_DLY_CELL_SET_POST postDelay]).
Definition USDHC_EnableStandardTuning (tuningStartTap step : Z) (enable : bool) : M D unit :=
  let execute := Z.lor USDHC_AUTOCMD12_ERR_STATUS_EXECUTE_TUNING_MASK USDHC_AUTOCMD12_ERR_STATUS_SMP_CLK_SEL_MASK in
  if enable then
    set_bits MIX_CTRL USDHC_MIX_CTRL_FBCLK_SEL_MASK ;;
    set_field TUNING_CTRL (Z.lor USDHC_TUNING_CTRL_TUNING_START_TAP_MASK USDHC_TUNING_CTRL_TUNING_STEP_MASK)
      (ors [USDHC_TUNING_CTRL_TUNING_START_TAP tuningStartTap; USDHC_TUNING_CTRL_TUNING_STEP step; USDHC_TUNING_CTRL_STD_TUNING_EN_MASK]) ;;
    set_bits AUTOCMD12_ERR_STATUS execute
  else
    clear_bits TUNING_CTRL USDHC_TUNING_CTRL_STD_TUNING_EN_MASK ;;
    clear_bits AUTOCMD12_ERR_STATUS execute.
Definition USDHC_ConfigStrobeDLL (delayTarget updateInterval : Z) : M D unit :=
  assert_ (delayTarget <=? Z.shiftr STROBE_DLL_CTRL_SLV_DLY_TARGET_MASK STROBE_DLL_CTRL_SLV_DLY_TARGET_SHIFT) ;;
  set_bits STROBE_DLL_CTRL STROBE_DLL_CTRL_RESET_MASK ;;
  wr STROBE_DLL_CTRL 0 ;;
  set_bits STROBE_DLL_CTRL (ors [STROBE_DLL_CTRL_ENABLE_MASK; STROBE_DLL_CTRL_SLV_UPDATE_INT updateInterval; STROBE_DLL_CTRL_SLV_DLY_TARGET delayTarget]) ;;
  while_ fuel (x <- USDHC_GetStrobeDLLStatus ;; ret (negb (Z.land x STROBE_DLL_STS_LOCK_MASK =? STROBE_DLL_STS_LOCK_MASK))) (ret tt).
Definition USDHC_EnableAutoTuningForCmdAndData : M D unit :=
  x <- rd PROT_CTRL ;;
  let busWidth := Z.shiftr (Z.land x USDHC_PROT_CTRL_DTW_MASK) USDHC_PROT_CTRL_DTW_SHIFT in
  set_bits VEND_SPEC2 USDHC_VEND_SPEC2_TUNING_CMD_EN_MASK ;;
  if negb (USDHC_VEND_SPEC2_TUNING_BIT_EN_MASK =? 0) then
    clear_bits VEND_SPEC2 USDHC_VEND_SPEC2_TUNING_BIT_EN_MASK ;;
    set_bits VEND_SPEC2 (USDHC_VEND_SPEC2_TUNING_BIT_EN (if busWidth =? 0 then 2 else if busWidth =? 1 then 0 else 1))
  else if busWidth =? 0 then
    clear_bits VEND_SPEC2 USDHC_VEND_SPEC2_TUNING_8bit_EN_MASK ;; set_bits VEND_SPEC2 USDHC_VEND_SPEC2_TUNING_1bit_EN_MASK
  else if busWidth =? 1 then
    clear_bits VEND_SPEC2 USDHC_VEND_SPEC2_TUNING_8bit_EN_MASK ;; clear_bits VEND_SPEC2 USDHC_VEND_SPEC2_TUNING_1bit_EN_MASK
  else set_bits VEND_SPEC2 USDHC_VEND_SPEC2_TUNING_8bit_EN_MASK ;; clear_bits VEND_SPEC2 USDHC_VEND_SPEC2_TUNING_1bit_EN_MASK.
End Config.
