(* ===== verification/UsdhcTransfer.v ===== *)
(** * Transfers of the SD host controller

    The descriptor tables, the data port, and the blocking and the
    interrupt-driven transfers of fsl_usdhc.c. *)

From stdpp Require Import base list numbers tactics.
From Stdlib Require Import ZArith Lia.
From S2P Require Import Prelude Mmio Usdhc.

Open Scope Z_scope.
Open Scope prog_scope.

(** ** Descriptor tables *)

Definition USDHC_ADMA1_ADDRESS_ALIGN : Z := 4096.
Definition USDHC_ADMA2_ADDRESS_ALIGN : Z := 4.
Definition USDHC_ADMA1_DESCRIPTOR_LENGTH_SHIFT : Z := 12.
Definition USDHC_ADMA1_DESCRIPTOR_MAX_LENGTH_PER_ENTRY : Z := 0xFFFF + 1 - 4096.
Definition kUSDHC_Adma1DescriptorEndFlag : Z := Z.shiftl 1 1.
Definition kUSDHC_Adma1DescriptorInterrupFlag : Z := Z.shiftl 1 2.
Definition kUSDHC_Adma1DescriptorTypeTransfer : Z := Z.lor (Z.shiftl 1 5) (Z.shiftl 1 0).
Definition kUSDHC_Adma1DescriptorTypeSetLength : Z := Z.lor (Z.shiftl 1 4) (Z.shiftl 1 0).
Definition USDHC_ADMA2_DESCRIPTOR_LENGTH_SHIFT : Z := 16.
Definition USDHC_ADMA2_DESCRIPTOR_MAX_LENGTH_PER_ENTRY : Z := 0xFFFF - 3.
Definition kUSDHC_Adma2DescriptorValidFlag : Z := Z.shiftl 1 0.
Definition kUSDHC_Adma2DescriptorEndFlag : Z := Z.shiftl 1 1.
Definition kUSDHC_Adma2DescriptorInterruptFlag : Z := Z.shiftl 1 2.
Definition kUSDHC_Adma2DescriptorTypeTransfer : Z := Z.lor (Z.shiftl 1 5) (Z.shiftl 1 0).
Definition kUSDHC_AdmaDescriptorSingleFlag : Z := 0.
Definition kUSDHC_AdmaDescriptorMultipleFlag : Z := 1.

(** Word [i] of a table, word [i] of a buffer. *)
Definition word (base i : Z) : Z := u32 (base + 4 * i).
Definition put_word (a v : Z) : M memory unit := modify (fun mem x => if x =? a then v else mem x).
Definition get_word (a : Z) : M memory Z := gets (fun mem => mem a).
Definition or_word (a v : Z) : M memory unit := x <- get_word a ;; put_word a (Z.lor x v).
Definition and_word (a v : Z) : M memory unit := x <- get_word a ;; put_word a (Z.land x v).

(** Sizes are made a multiple of a word. *)
Definition word_aligned (n : Z) : Z := if negb (n mod 4 =? 0) then u32 (n + (4 - n mod 4)) else n.
Definition entries_needed (dataBytes max : Z) : Z := if dataBytes mod max =? 0 then dataBytes / max else dataBytes / max + 1.

Fixpoint adma1_loop (n : nat) (table i data dataBytes : Z) : M memory unit :=
  match n with
  | O => ret tt
  | S n =>
      let dmaBufferLen := if USDHC_ADMA1_DESCRIPTOR_MAX_LENGTH_PER_ENTRY <? dataBytes then USDHC_ADMA1_DESCRIPTOR_MAX_LENGTH_PER_ENTRY else dataBytes in
      put_word (word table i) (u32 (Z.shiftl dmaBufferLen USDHC_ADMA1_DESCRIPTOR_LENGTH_SHIFT)) ;;
      or_word (word table i) kUSDHC_Adma1DescriptorTypeSetLength ;;
      put_word (word table (u32 (i + 1))) data ;;
      or_word (word table (u32 (i + 1))) (Z.lor kUSDHC_Adma1DescriptorTypeTransfer kUSDHC_Adma1DescriptorInterrupFlag) ;;
      adma1_loop n table (u32 (i + 2)) (u32 (data + dmaBufferLen)) (u32 (dataBytes - dmaBufferLen))
  end.
Definition USDHC_SetADMA1Descriptor (admaTable admaTableWords data dataBytes flags : Z) : M memory status_t :=
  assert_ (negb (admaTable =? 0)) ;;
  assert_ (negb (data =? 0)) ;;
  let maxEntries := u32 (admaTableWords * 4) / 4 in
  if negb (data mod USDHC_ADMA1_ADDRESS_ALIGN =? 0) then ret kStatus_USDHC_DMADataAddrNotAlign
  else if flags =? kUSDHC_AdmaDescriptorMultipleFlag then ret kStatus_USDHC_NotSupport
  else
    let dataBytes := word_aligned dataBytes in
    let miniEntries := u32 (Z.shiftl (entries_needed dataBytes USDHC_ADMA1_DESCRIPTOR_MAX_LENGTH_PER_ENTRY) 1) in
    if maxEntries <? miniEntries then ret kStatus_OutOfRange
    else
      adma1_loop (Z.to_nat (miniEntries / 2)) admaTable 0 data dataBytes ;;
      or_word (word admaTable (u32 (miniEntries - 1))) kUSDHC_Adma1DescriptorEndFlag ;;
      ret kStatus_Success.

Section Adma2.
Context {X : UsdhcFeatures}.
Fixpoint adma2_loop (n : nat) (table i data dataBytes : Z) : M memory unit :=
  match n with
  | O => ret tt
  | S n =>
      let dmaBufferLen :=
        if USDHC_ADMA2_DESCRIPTOR_MAX_LENGTH_PER_ENTRY <? dataBytes then USDHC_ADMA2_DESCRIPTOR_MAX_LENGTH_PER_ENTRY
        else if dataBytes =? 0 then 4 else dataBytes in
      put_word (word table (2 * i + 1)) (if dataBytes =? 0 then s_usdhcBootDummy else data) ;;
      put_word (word table (2 * i)) (u32 (Z.shiftl dmaBufferLen USDHC_ADMA2_DESCRIPTOR_LENGTH_SHIFT)) ;;
      or_word (word table (2 * i)) (if dataBytes =? 0 then 0 else Z.lor kUSDHC_Adma2DescriptorTypeTransfer kUSDHC_Adma2DescriptorInterruptFlag) ;;
      adma2_loop n table (u32 (i + 1)) (u32 (data + dmaBufferLen)) (if negb (dataBytes =? 0) then u32 (dataBytes - dmaBufferLen) else dataBytes)
  end.
(** The first entry from [i] on that is not valid, [i + n] if there is none. *)
Fixpoint first_invalid (n : nat) (table i : Z) : M memory Z :=
  match n with
  | O => ret i
  | S n =>
      attribute <- get_word (word table (2 * i)) ;;
      if Z.land attribute kUSDHC_Adma2DescriptorValidFlag =? 0 then ret i else first_invalid n table (i + 1)
  end.
Definition USDHC_SetADMA2Descriptor (admaTable admaTableWords data dataBytes flags : Z) : M memory status_t :=
  assert_ (negb (admaTable =? 0)) ;;
  assert_ (negb (data =? 0)) ;;
  let maxEntries := u32 (admaTableWords * 4) / 8 in
  if negb (data mod USDHC_ADMA2_ADDRESS_ALIGN =? 0) then ret kStatus_USDHC_DMADataAddrNotAlign
  else
    let dataBytes := word_aligned dataBytes in
    let miniEntries := entries_needed dataBytes USDHC_ADMA2_DESCRIPTOR_MAX_LENGTH_PER_ENTRY in
    let multiple := flags =? kUSDHC_AdmaDescriptorMultipleFlag in
    startEntries <- (if multiple then first_invalid (Z.to_nat maxEntries) admaTable 0 else ret 0) ;;
    let miniEntries := if multiple then u32 (miniEntries + 1) else miniEntries in
    if maxEntries <? u32 (miniEntries + startEntries) then ret kStatus_OutOfRange
    else
      adma2_loop (Z.to_nat miniEntries) admaTable startEntries data dataBytes ;;
      (if multiple then or_word (word admaTable (2 * u32 (startEntries + 1))) kUSDHC_Adma2DescriptorTypeTransfer
       else or_word (word admaTable (2 * u32 (startEntries + miniEntries - 1))) kUSDHC_Adma2DescriptorEndFlag) ;;
      ret kStatus_Success.

(** The tables of the buffers of a scatter-gather transfer, one behind the
    other; the status and the total size. *)
Fixpoint sg_tables (adma1 : bool) (x : usdhc_scatter_gather_data_list) (more : list usdhc_scatter_gather_data_list) (table words total : Z) : M memory (status_t * Z) :=
  error <- (if adma1 then USDHC_SetADMA1Descriptor table words (dataAddr x) (bufferSize x) 0
            else USDHC_SetADMA2Descriptor table words (dataAddr x) (bufferSize x) 0) ;;
  if negb (error =? kStatus_Success) then ret (kStatus_USDHC_PrepareAdmaDescriptorFailed, total)
  else
    let total := u32 (total + bufferSize x) in
    match more with
    | [] => ret (error, total)
    | y :: more =>
        let miniEntries := entries_needed (bufferSize x) (if adma1 then USDHC_ADMA1_DESCRIPTOR_MAX_LENGTH_PER_ENTRY else USDHC_ADMA2_DESCRIPTOR_MAX_LENGTH_PER_ENTRY) in
        (if adma1 then and_word (word table (u32 (miniEntries * 2 - 1))) (u32 (Z.lnot kUSDHC_Adma1DescriptorEndFlag))
         else and_word (word table (u32 (miniEntries * 2 - 2))) (u32 (Z.lnot kUSDHC_Adma2DescriptorEndFlag))) ;;
        sg_tables adma1 y more (word table (miniEntries * 2)) (u32 (words - miniEntries * 2)) total
    end.
End Adma2.

(** ** The driver *)

Section Driver.
Context {D A : Type} `{!Device usdhc_reg D} {F : UsdhcFields} {X : UsdhcFeatures}.
Abbreviation W := (usdhc_world D A).
Context (fuel : nat) (callback : usdhc_transfer_callback W).

Definition with_hw (d : D) (w : W) : W := UsdhcWorld d (u_mem w) (u_handle w) (u_app w).
Definition with_mem (m : memory) (w : W) : W := UsdhcWorld (u_hw w) m (u_handle w) (u_app w).
Definition with_handle (h : usdhc_handle) (w : W) : W := UsdhcWorld (u_hw w) (u_mem w) h (u_app w).
Definition on_hw {B} (m : M D B) : M W B := fun w => match m (u_hw w) with Ok (b, d) => Ok (b, with_hw d w) | Err e => Err e end.
Definition on_mem {B} (m : M memory B) : M W B := fun w => match m (u_mem w) with Ok (b, x) => Ok (b, with_mem x w) | Err e => Err e end.
Definition handle : M W usdhc_handle := gets u_handle.
Definition upd (f : usdhc_handle -> usdhc_handle) : M W unit := modify (fun w => with_handle (f (u_handle w)) w).
Definition load (a : Z) : M W Z := on_mem (get_word a).
Definition store (a v : Z) : M W unit := on_mem (put_word a v).

Definition USDHC_SetTransferConfig (transferFlags blockSize blockCount : Z) : M D status_t :=
  mixCtrl <- rd MIX_CTRL ;;
  if has transferFlags kUSDHC_CommandOnly then
    s <- rd PRES_STATE ;;
    if has s kUSDHC_CommandInhibitFlag then ret kStatus_USDHC_BusyTransferring
    else
      wr MIX_CTRL (bic32 mixCtrl (ors [USDHC_MIX_CTRL_MSBSEL_MASK; USDHC_MIX_CTRL_BCEN_MASK; USDHC_MIX_CTRL_DTDSEL_MASK;
        USDHC_MIX_CTRL_AC12EN_MASK; USDHC_MIX_CTRL_AC23EN_MASK])) ;;
      ret kStatus_Success
  else if has transferFlags kUSDHC_BootDataContinuous then
    clear_bits PROT_CTRL USDHC_PROT_CTRL_SABGREQ_MASK ;; set_bits PROT_CTRL USDHC_PROT_CTRL_CREQ_MASK ;; ret kStatus_Success
  else
    s <- rd PRES_STATE ;;
    if has s kUSDHC_DataInhibitFlag then ret kStatus_USDHC_BusyTransferring
    else if USDHC_MAX_BLOCK_COUNT <? blockCount then ret kStatus_InvalidArgument
    else
      let mixCtrl := bic32 mixCtrl (ors [USDHC_MIX_CTRL_MSBSEL_MASK; USDHC_MIX_CTRL_BCEN_MASK; USDHC_MIX_CTRL_DTDSEL_MASK; USDHC_MIX_CTRL_AC12EN_MASK]) in
      let mixCtrl := if has transferFlags kUSDHC_CommandAndRxData then Z.lor mixCtrl USDHC_MIX_CTRL_DTDSEL_MASK else mixCtrl in
      let mixCtrl := if 1 <? blockCount then ors [mixCtrl; USDHC_MIX_CTRL_MSBSEL_MASK; USDHC_MIX_CTRL_BCEN_MASK;
        (if has transferFlags kUSDHC_DataWithAutoCmd12 then USDHC_MIX_CTRL_AC12EN_MASK else 0)] else mixCtrl in
      mixCtrl <- (if has transferFlags kUSDHC_DataWithAutoCmd23 then
          set_bits VEND_SPEC2 USDHC_VEND_SPEC2_ACMD23_ARGU2_EN_MASK ;; wr DS_ADDR blockCount ;; ret (Z.lor mixCtrl USDHC_MIX_CTRL_AC23EN_MASK)
        else clear_bits VEND_SPEC2 USDHC_VEND_SPEC2_ACMD23_ARGU2_EN_MASK ;; ret (bic32 mixCtrl USDHC_MIX_CTRL_AC23EN_MASK)) ;;
      mixCtrl <- (if negb (has transferFlags kUSDHC_BootData) then set_blocks blockSize blockCount ;; ret mixCtrl
        else set_bits PROT_CTRL USDHC_PROT_CTRL_RD_DONE_NO_8CLK_MASK ;; ret (ors [mixCtrl; USDHC_MIX_CTRL_MSBSEL_MASK; USDHC_MIX_CTRL_BCEN_MASK])) ;;
      wr MIX_CTRL mixCtrl ;; ret kStatus_Success.

(** *** Commands *)

Definition high_byte (x : Z) : Z := Z.shiftr (Z.land x 0xFF000000) 24.
Definition is_response (l : list usdhc_card_response_type) (c : usdhc_command) : bool := bool_decide (responseType c ∈ l).
Definition USDHC_ReceiveCommandResponse (c : usdhc_command) : M D (status_t * usdhc_command) :=
  response0 <- rd CMD_RSP0 ;;
  response1 <- rd CMD_RSP1 ;;
  response2 <- rd CMD_RSP2 ;;
  c <- (if is_response [kCARD_ResponseTypeNone] c then ret c
    else if is_response [kCARD_ResponseTypeR2] c then
      response3 <- rd CMD_RSP3 ;;
      ret (with_response [u32 (Z.shiftl response0 8); Z.lor (u32 (Z.shiftl response1 8)) (high_byte response0);
        Z.lor (u32 (Z.shiftl response2 8)) (high_byte response1); Z.lor (u32 (Z.shiftl response3 8)) (high_byte response2)] c)
    else ret (with_response (<[0%nat := response0]> (response c)) c)) ;;
  ret (if negb (responseErrorFlags c =? 0)
      && is_response [kCARD_ResponseTypeR1; kCARD_ResponseTypeR1b; kCARD_ResponseTypeR6; kCARD_ResponseTypeR5] c
      && has (responseErrorFlags c) (nth 0 (response c) 0)
    then kStatus_USDHC_SendCommandFailed else kStatus_Success, c).

Definition USDHC_SendCommand (c : usdhc_command) : M D unit :=
  xferType <- rd CMD_XFR_TYP ;;
  s <- rd PRES_STATE ;;
  when ((Z.land s kUSDHC_CommandInhibitFlag =? 0) && negb (bool_decide (type c = kCARD_CommandTypeEmpty))) (
    let expected :=
      if is_response [kCARD_ResponseTypeR1; kCARD_ResponseTypeR5; kCARD_ResponseTypeR6; kCARD_ResponseTypeR7] c
      then ors [kUSDHC_ResponseLength48Flag; kUSDHC_EnableCrcCheckFlag; kUSDHC_EnableIndexCheckFlag]
      else if is_response [kCARD_ResponseTypeR1b; kCARD_ResponseTypeR5b] c
      then ors [kUSDHC_ResponseLength48BusyFlag; kUSDHC_EnableCrcCheckFlag; kUSDHC_EnableIndexCheckFlag]
      else if is_response [kCARD_ResponseTypeR2] c then ors [kUSDHC_ResponseLength136Flag; kUSDHC_EnableCrcCheckFlag]
      else if is_response [kCARD_ResponseTypeR3; kCARD_ResponseTypeR4] c then kUSDHC_ResponseLength48Flag else 0 in
    let abort := if bool_decide (type c = kCARD_CommandTypeAbort) then kUSDHC_CommandTypeAbortFlag else 0 in
    let flags := ors [flags c; expected; abort] in
    let selected := ors [USDHC_CMD_XFR_TYP_CMDTYP_MASK; USDHC_CMD_XFR_TYP_CICEN_MASK; USDHC_CMD_XFR_TYP_CCCEN_MASK;
      USDHC_CMD_XFR_TYP_RSPTYP_MASK; USDHC_CMD_XFR_TYP_DPSEL_MASK] in
    let xferType := ors [bic32 xferType (Z.lor USDHC_CMD_XFR_TYP_CMDINX_MASK selected);
      Z.land (u32 (Z.shiftl (index c) USDHC_CMD_XFR_TYP_CMDINX_SHIFT)) USDHC_CMD_XFR_TYP_CMDINX_MASK; Z.land flags selected] in
    wr CMD_ARG (argument c) ;;
    wr CMD_XFR_TYP xferType) ;;
  when (bool_decide (type c = kCARD_CommandTypeEmpty)) (clear_bits INT_SIGNAL_EN USDHC_INT_SIGNAL_EN_CCIEN_MASK).

(** [while (!(interruptStatus & mask)) interruptStatus = GetInterruptStatusFlags();] *)
Fixpoint wait_flags (n : nat) (mask interruptStatus : Z) : M D Z :=
  if has interruptStatus mask then ret interruptStatus
  else match n with O => throw OutOfFuel | S n => s <- USDHC_GetInterruptStatusFlags ;; wait_flags n mask s end.

Definition USDHC_WaitCommandDone (c : usdhc_command) (pollingCmdDone : bool) : M D (status_t * usdhc_command) :=
  if pollingCmdDone then
    interruptStatus <- wait_flags fuel kUSDHC_CommandFlag 0 ;;
    r <- (if has interruptStatus kUSDHC_CommandErrorFlag then ret (kStatus_Fail, c) else USDHC_ReceiveCommandResponse c) ;;
    USDHC_ClearInterruptStatusFlags kUSDHC_CommandFlag ;; ret r
  else ret (kStatus_Success, c).

(** *** The data port *)

Definition total_words (d : usdhc_data) : Z := u32 (blockCount d * blockSize d) / 4.
Definition align_blocks (d : usdhc_data) : usdhc_data := with_blockSize (word_aligned (blockSize d)) d.
(** The words that can be moved at this time. *)
Definition words_now (watermark total transferred : Z) : Z :=
  if total <=? watermark then total
  else if (watermark <? total) && (watermark <=? u32 (total - transferred)) then watermark
  else u32 (total - transferred).
Fixpoint read_words (n : nat) (rxData transferred : Z) : M W Z :=
  match n with
  | O => ret transferred
  | S n => x <- on_hw USDHC_ReadData ;; store (word rxData transferred) x ;; read_words n rxData (u32 (transferred + 1))
  end.
Fixpoint write_words (n : nat) (txData transferred : Z) : M W Z :=
  match n with
  | O => ret transferred
  | S n => x <- load (word txData transferred) ;; on_hw (USDHC_WriteData x) ;; write_words n txData (u32 (transferred + 1))
  end.
Definition USDHC_ReadDataPort (d : usdhc_data) (transferredWords : Z) : M W (usdhc_data * Z) :=
  x <- on_hw (rd WTMK_LVL) ;;
  let readWatermark := Z.shiftr (Z.land x USDHC_WTMK_LVL_RD_WML_MASK) USDHC_WTMK_LVL_RD_WML_SHIFT in
  mix <- on_hw (rd MIX_CTRL) ;;
  if has mix USDHC_MIX_CTRL_DMAEN_MASK then ret (d, transferredWords)
  else
    let d := align_blocks d in
    n <- read_words (Z.to_nat (words_now readWatermark (total_words d) transferredWords)) (rxData d) transferredWords ;;
    ret (d, n).
Definition USDHC_WriteDataPort (d : usdhc_data) (transferredWords : Z) : M W (usdhc_data * Z) :=
  x <- on_hw (rd WTMK_LVL) ;;
  let writeWatermark := Z.shiftr (Z.land x USDHC_WTMK_LVL_WR_WML_MASK) USDHC_WTMK_LVL_WR_WML_SHIFT in
  mix <- on_hw (rd MIX_CTRL) ;;
  if has mix USDHC_MIX_CTRL_DMAEN_MASK then ret (d, transferredWords)
  else
    let d := align_blocks d in
    n <- write_words (Z.to_nat (words_now writeWatermark (total_words d) transferredWords)) (txData d) transferredWords ;;
    ret (d, n).

(** One round of the polled loops: what the flags say; [None] is to go on. *)
Definition port_error (d : usdhc_data) (interruptStatus : Z) : M D (option status_t) :=
  if HAS_SDR50_MODE && has interruptStatus kUSDHC_TuningErrorFlag then
    USDHC_ClearInterruptStatusFlags kUSDHC_TuningErrorFlag ;; ret (Some kStatus_USDHC_TuningError)
  else if has interruptStatus kUSDHC_DataErrorFlag then
    USDHC_ClearInterruptStatusFlags kUSDHC_DataErrorFlag ;; ret (if enableIgnoreError d then None else Some kStatus_Fail)
  else ret None.
Definition is_tuning (d : usdhc_data) : bool := dataType d =? kUSDHC_TransferDataTuning.
(** [n] rounds; a tuning block ends the function at once ([true]). *)
Fixpoint read_port_loop (n : nat) (d : usdhc_data) (transferred : Z) : M W (status_t * bool * usdhc_data) :=
  if negb (transferred <? total_words d) then ret (kStatus_Success, false, d)
  else match n with
  | O => throw OutOfFuel
  | S n =>
      interruptStatus <- on_hw (wait_flags fuel (ors [kUSDHC_BufferReadReadyFlag; kUSDHC_DataErrorFlag; kUSDHC_TuningErrorFlag]) 0) ;;
      if is_tuning d && has interruptStatus kUSDHC_BufferReadReadyFlag then
        on_hw (USDHC_ClearInterruptStatusFlags kUSDHC_BufferReadReadyFlag) ;; ret (kStatus_Success, true, d)
      else
        error <- on_hw (port_error d interruptStatus) ;;
        match error with
        | Some e => ret (e, false, d)
        | None =>
            r <- USDHC_ReadDataPort d transferred ;;
            on_hw (USDHC_ClearInterruptStatusFlags kUSDHC_BufferReadReadyFlag) ;;
            read_port_loop n r.1 r.2
        end
  end.
Definition USDHC_ReadByDataPortBlocking (d : usdhc_data) : M W (status_t * usdhc_data) :=
  r <- read_port_loop fuel (align_blocks d) 0 ;;
  let '(error, tuned, d) := r in
  when (negb tuned) (on_hw (USDHC_ClearInterruptStatusFlags kUSDHC_DataCompleteFlag)) ;;
  ret (error, d).

(** The status with which the loop ends, its error and the last flags;
    a tuning error ends the function at once ([true]). *)
Fixpoint write_port_loop (n : nat) (d : usdhc_data) (transferred : Z) : M W (status_t * bool * usdhc_data * Z) :=
  if negb (transferred <? total_words d) then ret (kStatus_Success, false, d, 0)
  else match n with
  | O => throw OutOfFuel
  | S n =>
      interruptStatus <- on_hw (wait_flags fuel (ors [kUSDHC_BufferWriteReadyFlag; kUSDHC_DataErrorFlag; kUSDHC_TuningErrorFlag]) 0) ;;
      error <- on_hw (port_error d interruptStatus) ;;
      match error with
      | Some e => ret (e, e =? kStatus_USDHC_TuningError, d, interruptStatus)
      | None =>
          r <- USDHC_WriteDataPort d transferred ;;
          on_hw (USDHC_ClearInterruptStatusFlags kUSDHC_BufferWriteReadyFlag) ;;
          write_port_loop n r.1 r.2
      end
  end.
Definition USDHC_WriteByDataPortBlocking (d : usdhc_data) : M W (status_t * usdhc_data) :=
  r <- write_port_loop fuel (align_blocks d) 0 ;;
  let '(error, tuning, d, interruptStatus) := r in
  if tuning : bool then ret (error, d)
  else
    interruptStatus <- on_hw (wait_flags fuel (Z.lor kUSDHC_DataCompleteFlag kUSDHC_DataErrorFlag) interruptStatus) ;;
    let error := if has interruptStatus kUSDHC_DataErrorFlag && negb (enableIgnoreError d) then kStatus_Fail else error in
    on_hw (USDHC_ClearInterruptStatusFlags (Z.lor kUSDHC_DataCompleteFlag kUSDHC_DataErrorFlag)) ;;
    ret (error, d).

Definition is_bootcontinous (d : usdhc_data) : bool := dataType d =? kUSDHC_TransferDataBootcontinous.
(** [*rxData = s_usdhcBootDummy] *)
Definition load_dummy (d : usdhc_data) : M W unit := x <- load s_usdhcBootDummy ;; store (rxData d) x.
Definition USDHC_TransferDataBlocking (d : usdhc_data) (enDMA : bool) : M W (status_t * usdhc_data) :=
  if enDMA then
    interruptStatus <- on_hw (wait_flags fuel (Z.lor kUSDHC_DataDMAFlag kUSDHC_TuningErrorFlag) 0) ;;
    let error :=
      if HAS_SDR50_MODE && has interruptStatus kUSDHC_TuningErrorFlag then kStatus_USDHC_TuningError
      else if has interruptStatus (Z.lor kUSDHC_DataErrorFlag kUSDHC_DmaErrorFlag)
        && (negb (enableIgnoreError d) || has interruptStatus kUSDHC_DataTimeoutFlag)
      then kStatus_USDHC_TransferDataFailed else kStatus_Success in
    when (is_bootcontinous d && (error =? kStatus_Success)) (load_dummy d) ;;
    on_hw (USDHC_ClearInterruptStatusFlags (Z.lor kUSDHC_DataDMAFlag kUSDHC_TuningErrorFlag)) ;;
    ret (error, d)
  else if negb (rxData d =? 0) then USDHC_ReadByDataPortBlocking d else USDHC_WriteByDataPortBlocking d.

(** *** DMA *)

Definition table_ok (c : usdhc_adma_config) : bool := negb (admaTable c =? 0) && (Z.land 3 (admaTable c) =? 0).
Definition USDHC_SetInternalDmaConfig (c : usdhc_adma_config) (dataAddr : Z) (enAutoCmd23 : bool) : M D status_t :=
  assert_ (negb (dataAddr =? 0)) ;;
  assert_ (table_ok c) ;;
  when HAS_EXT_DMA (clear_bits VEND_SPEC USDHC_VEND_SPEC_EXT_DMA_EN_MASK) ;;
  if bool_decide (dmaMode c = kUSDHC_DmaModeSimple) && negb (dataAddr mod USDHC_ADMA2_ADDRESS_ALIGN =? 0) then ret kStatus_USDHC_DMADataAddrNotAlign
  else
    (if bool_decide (dmaMode c = kUSDHC_DmaModeSimple) then
       if enAutoCmd23 then wr ADMA_SYS_ADDR (USDHC_ADDR_CPU_2_DMA dataAddr) else wr DS_ADDR (USDHC_ADDR_CPU_2_DMA dataAddr)
     else wr DS_ADDR 0 ;; wr ADMA_SYS_ADDR (USDHC_ADDR_CPU_2_DMA (admaTable c))) ;;
    (if HAS_NO_RW_BURST_LEN then
       clear_bits PROT_CTRL USDHC_PROT_CTRL_DMASEL_MASK ;; set_bits PROT_CTRL (USDHC_PROT_CTRL_DMASEL (mode_value (dmaMode c)))
     else
       clear_bits PROT_CTRL (Z.lor USDHC_PROT_CTRL_DMASEL_MASK USDHC_PROT_CTRL_BURST_LEN_EN_MASK) ;;
       set_bits PROT_CTRL (Z.lor (USDHC_PROT_CTRL_DMASEL (mode_value (dmaMode c))) (USDHC_PROT_CTRL_BURST_LEN_EN (burstLen c)))) ;;
    set_bits MIX_CTRL USDHC_MIX_CTRL_DMAEN_MASK ;;
    ret kStatus_Success.

Definition USDHC_SetAdmaTableConfig (c : usdhc_adma_config) (d : usdhc_data) (flags : Z) : M W status_t :=
  assert_ (table_ok c) ;;
  let bootDummyOffset := if is_bootcontinous d then 4 else 0 in
  let data := USDHC_ADDR_CPU_2_DMA (u32 ((if rxData d =? 0 then txData d else rxData d) + bootDummyOffset)) in
  let size := u32 (blockSize d * blockCount d - bootDummyOffset) in
  error <- (if HAS_EXT_DMA && bool_decide (dmaMode c = kUSDHC_ExternalDMA) then
      on_hw (set_bits VEND_SPEC USDHC_VEND_SPEC_EXT_DMA_EN_MASK) ;; ret kStatus_Fail
    else if bool_decide (dmaMode c = kUSDHC_DmaModeSimple) then ret kStatus_Success
    else if bool_decide (dmaMode c = kUSDHC_DmaModeAdma1) then on_mem (USDHC_SetADMA1Descriptor (admaTable c) (admaTableWords c) data size flags)
    else on_mem (USDHC_SetADMA2Descriptor (admaTable c) (admaTableWords c) data size flags)) ;;
  if negb (bool_decide (dmaMode c = kUSDHC_ExternalDMA)) && (error =? kStatus_Success) && negb (is_bootcontinous d)
  then on_hw (USDHC_SetInternalDmaConfig c data (enableAutoCommand23 d)) else ret error.

(** *** Transfers *)

Definition transfer_flags (auto12 auto23 : bool) (tx : bool) (kind : Z) : Z :=
  ors [(if auto12 then kUSDHC_DataWithAutoCmd12 else 0); (if auto23 then kUSDHC_DataWithAutoCmd23 else 0);
    (if tx then kUSDHC_CommandAndTxData else kUSDHC_CommandAndRxData);
    (if kind =? kUSDHC_TransferDataBoot then kUSDHC_BootData else 0);
    (if kind =? kUSDHC_TransferDataBootcontinous then kUSDHC_BootDataContinuous else 0)].
Definition data_flags (d : usdhc_data) : Z :=
  transfer_flags (enableAutoCommand12 d) (enableAutoCommand23 d) (negb (txData d =? 0)) (dataType d).
Definition data_present (d : option usdhc_data) (c : usdhc_command) : usdhc_command :=
  match d with Some _ => with_flags (Z.lor (flags c) kUSDHC_DataPresentFlag) c | None => c end.
(** The beginning of both kinds of transfer: a re-tuning request ends it. *)
Definition retuning_requested : M D bool :=
  if HAS_SDR50_MODE then
    s <- USDHC_GetInterruptStatusFlags ;;
    if has s kUSDHC_ReTuningEventFlag then USDHC_ClearInterruptStatusFlags kUSDHC_ReTuningEventFlag ;; ret true else ret false
  else ret false.
(** Prepares the DMA; whether it is used. *)
Definition prepare_dma (c : option usdhc_adma_config) (d : option usdhc_data) : M W bool :=
  error <- match d, c with
    | Some d, Some c =>
        if negb (is_tuning d) then
          USDHC_SetAdmaTableConfig c d (if has (dataType d) kUSDHC_TransferDataBoot then kUSDHC_AdmaDescriptorMultipleFlag else kUSDHC_AdmaDescriptorSingleFlag)
        else ret kStatus_Fail
    | _, _ => ret kStatus_Fail
    end ;;
  if negb (error =? kStatus_Success) then on_hw (USDHC_EnableInternalDMA false) ;; ret false else ret true.
Definition config_transfer (d : option usdhc_data) : M D status_t :=
  match d with
  | Some d => USDHC_SetTransferConfig (data_flags d) (blockSize d) (blockCount d)
  | None => USDHC_SetTransferConfig kUSDHC_CommandOnly 0 0
  end.

Definition USDHC_TransferBlocking (c : option usdhc_adma_config) (d : option usdhc_data) (cmd : usdhc_command) : M W (status_t * option usdhc_data * usdhc_command) :=
  r <- on_hw retuning_requested ;;
  if r : bool then ret (kStatus_USDHC_ReTuningRequest, d, cmd)
  else
    enDMA <- prepare_dma c d ;;
    let cmd := data_present d cmd in
    error <- on_hw (config_transfer d) ;;
    if negb (error =? kStatus_Success) then ret (error, d, cmd)
    else
      on_hw (USDHC_SendCommand cmd) ;;
      r <- on_hw (USDHC_WaitCommandDone cmd (match d with None => true | Some d => dataType d =? kUSDHC_TransferDataNormal end)) ;;
      let '(error, cmd) := r in
      if negb (error =? kStatus_Success) then ret (kStatus_USDHC_SendCommandFailed, d, cmd)
      else match d with
      | Some d => r <- USDHC_TransferDataBlocking d enDMA ;; ret (r.1, Some r.2, cmd)
      | None => ret (kStatus_Success, None, cmd)
      end.

Definition clear_and_signal (mask : Z) : M D unit := USDHC_ClearInterruptStatusFlags mask ;; USDHC_EnableInterruptSignal mask.
Definition USDHC_TransferNonBlocking (c : option usdhc_adma_config) (d : option usdhc_data) (cmd : usdhc_command) : M W status_t :=
  r <- on_hw retuning_requested ;;
  if r : bool then ret kStatus_USDHC_ReTuningRequest
  else
    upd (fun h => with_words 0 (with_data d (with_command (Some cmd) h))) ;;
    enDMA <- prepare_dma c d ;;
    let cmd := data_present d cmd in
    upd (with_command (Some cmd)) ;;
    error <- on_hw (config_transfer d) ;;
    if negb (error =? kStatus_Success) then ret error
    else
      on_hw (match d with
        | Some d => clear_and_signal (ors [(if enDMA : bool then kUSDHC_DataDMAFlag else kUSDHC_DataFlag); kUSDHC_CommandFlag;
            (if is_bootcontinous d then kUSDHC_DmaCompleteFlag else 0)])
        | None => clear_and_signal kUSDHC_CommandFlag
        end) ;;
      on_hw (USDHC_SendCommand cmd) ;;
      ret kStatus_Success.

(** *** Scatter-gather transfers *)

Definition is_adma1 (c : usdhc_adma_config) : bool := bool_decide (dmaMode c = kUSDHC_DmaModeAdma1).
Definition start_adma (c : usdhc_adma_config) : M D unit :=
  wr DS_ADDR 0 ;; wr ADMA_SYS_ADDR (admaTable c) ;;
  clear_bits PROT_CTRL USDHC_PROT_CTRL_DMASEL_MASK ;; set_bits PROT_CTRL (USDHC_PROT_CTRL_DMASEL (mode_value (dmaMode c))) ;;
  set_bits MIX_CTRL USDHC_MIX_CTRL_DMAEN_MASK.
Definition USDHC_SetScatterGatherAdmaTableConfig (c : usdhc_adma_config) (d : usdhc_scatter_gather_data) (totalTransferSize : Z) : M W (status_t * Z) :=
  assert_ (table_ok c) ;;
  r <- on_mem (sg_tables (is_adma1 c) (sgData d) (dataList d) (admaTable c) (admaTableWords c) totalTransferSize) ;;
  if negb (r.1 =? kStatus_Success) then ret r
  else
    on_hw (start_adma c) ;; ret r.

Definition sg_flags (d : usdhc_scatter_gather_data) : Z :=
  transfer_flags (sg_enableAutoCommand12 d) (sg_enableAutoCommand23 d)
    (match dataDirection d with kUSDHC_TransferDirectionSend => true | kUSDHC_TransferDirectionReceive => false end) kUSDHC_TransferDataNormal.
Definition USDHC_TransferScatterGatherADMANonBlocking (c : usdhc_adma_config) (d : option usdhc_scatter_gather_data) (cmd : usdhc_command) : M W status_t :=
  s <- on_hw (rd PRES_STATE) ;;
  if has s kUSDHC_CommandInhibitFlag then ret kStatus_USDHC_BusyTransferring
  else
    upd (fun h => with_words 0 (with_sg d (with_command (Some cmd) h))) ;;
    match d with
    | None =>
        error <- on_hw (USDHC_SetTransferConfig kUSDHC_CommandOnly 0 0) ;;
        if negb (error =? kStatus_Success) then ret error
        else on_hw (clear_and_signal kUSDHC_CommandFlag) ;; on_hw (USDHC_SendCommand cmd) ;; ret kStatus_Success
    | Some d =>
        if dataAddr (sgData d) =? 0 then ret kStatus_InvalidArgument
        else
          let enDMA := negb (sg_dataType d =? kUSDHC_TransferDataTuning) in
          r <- (if enDMA then USDHC_SetScatterGatherAdmaTableConfig c d 0 else ret (kStatus_Success, 0)) ;;
          if negb (r.1 =? kStatus_Success) then ret kStatus_USDHC_PrepareAdmaDescriptorFailed
          else
            blockCount <- lift (udiv r.2 (sg_blockSize d)) ;;
            let cmd := with_flags (Z.lor (flags cmd) kUSDHC_DataPresentFlag) cmd in
            upd (with_command (Some cmd)) ;;
            error <- on_hw (USDHC_SetTransferConfig (sg_flags d) (sg_blockSize d) blockCount) ;;
            if negb (error =? kStatus_Success) then ret error
            else
              on_hw (clear_and_signal (Z.lor (if enDMA then Z.lor kUSDHC_DataDMAFlag kUSDHC_DmaCompleteFlag else kUSDHC_DataFlag) kUSDHC_CommandFlag)) ;;
              on_hw (USDHC_SendCommand cmd) ;;
              ret kStatus_Success
    end.

(** *** Interrupts *)

Definition call (f : option (M W unit)) : M W unit := match f with Some m => m | None => ret tt end.
Definition complete (s : status_t) : M W unit := match TransferComplete callback with Some f => f s | None => ret tt end.
Definition USDHC_TransferHandleCardDetect (interruptFlags : Z) : M W unit :=
  if has interruptFlags kUSDHC_CardInsertionFlag then call (CardInserted callback) else call (CardRemoved callback).
Definition USDHC_TransferHandleCommand (interruptFlags : Z) : M W unit :=
  h <- handle ;;
  match command h with
  | None => throw AssertFailed
  | Some c =>
      (if has interruptFlags kUSDHC_CommandErrorFlag then complete kStatus_USDHC_SendCommandFailed
       else
         r <- on_hw (USDHC_ReceiveCommandResponse c) ;;
         upd (with_command (Some r.2)) ;;
         complete (if negb (r.1 =? kStatus_Success) then kStatus_USDHC_SendCommandFailed else kStatus_USDHC_SendCommandSuccess)) ;;
      on_hw (USDHC_DisableInterruptSignal kUSDHC_CommandFlag) ;;
      upd (with_command None)
  end.

(** The end of a data interrupt: [None] is still busy. *)
Definition finish_data (signals : Z) (forget : usdhc_handle -> usdhc_handle) (status : option status_t) : M W unit :=
  match status, TransferComplete callback with
  | Some s, Some f => f s ;; on_hw (USDHC_DisableInterruptSignal signals) ;; upd forget
  | _, _ => ret tt
  end.
Definition data_failed (ignore : bool) (interruptFlags : Z) : bool := negb ignore && has interruptFlags (Z.lor kUSDHC_DataErrorFlag kUSDHC_DmaErrorFlag).
(** Build with scatter-gather transfers. *)
Definition handle_sg_data (interruptFlags : Z) : M W unit :=
  h <- handle ;;
  match sg h with
  | None => throw AssertFailed
  | Some d =>
      finish_data (ors [kUSDHC_DataFlag; kUSDHC_DataDMAFlag; kUSDHC_DmaCompleteFlag]) (with_sg None)
        (if data_failed (sg_enableIgnoreError d) interruptFlags then Some kStatus_USDHC_TransferDataFailed
         else if has interruptFlags kUSDHC_BufferReadReadyFlag then
           if sg_dataType d =? kUSDHC_TransferDataTuning then Some kStatus_USDHC_TransferDataComplete else None
         else if has interruptFlags kUSDHC_DataCompleteFlag then Some kStatus_USDHC_TransferDataComplete
         else if has interruptFlags kUSDHC_DmaCompleteFlag then Some kStatus_USDHC_TransferDMAComplete else None)
  end.
(** Build without. *)
Definition handle_data (interruptFlags : Z) : M W unit :=
  h <- handle ;;
  match data h with
  | None => throw AssertFailed
  | Some d =>
      status <- (if data_failed (enableIgnoreError d) interruptFlags then ret (Some kStatus_USDHC_TransferDataFailed)
        else if has interruptFlags kUSDHC_BufferReadReadyFlag then
          if is_tuning d then ret (Some kStatus_USDHC_TransferDataComplete)
          else r <- USDHC_ReadDataPort d (transferredWords h) ;; upd (fun h => with_words r.2 (with_data (Some r.1) h)) ;; ret None
        else if has interruptFlags kUSDHC_BufferWriteReadyFlag then
          r <- USDHC_WriteDataPort d (transferredWords h) ;; upd (fun h => with_words r.2 (with_data (Some r.1) h)) ;; ret None
        else
          when (has interruptFlags kUSDHC_DmaCompleteFlag && is_bootcontinous d) (load_dummy d) ;;
          ret (if has interruptFlags kUSDHC_DataCompleteFlag then Some kStatus_USDHC_TransferDataComplete else None)) ;;
      finish_data (Z.lor kUSDHC_DataFlag kUSDHC_DataDMAFlag) (with_data None) status
  end.
Definition USDHC_TransferHandleData (interruptFlags : Z) : M W unit :=
  if ENABLE_SCATTER_GATHER_TRANSFER then handle_sg_data interruptFlags else handle_data interruptFlags.
Definition USDHC_TransferHandleSdioInterrupt : M W unit := call (SdioInterrupt callback).
Definition USDHC_TransferHandleBlockGap : M W unit := call (BlockGap callback).
Definition USDHC_TransferHandleReTuning (interruptFlags : Z) : M W unit :=
  match ReTuning callback with
  | None => throw AssertFailed
  | Some f => when (has interruptFlags kUSDHC_TuningErrorFlag) f
  end.
Definition USDHC_TransferHandleIRQ : M W unit :=
  interruptFlags <- on_hw USDHC_GetEnabledInterruptStatusFlags ;;
  when (has interruptFlags kUSDHC_CardDetectFlag) (USDHC_TransferHandleCardDetect interruptFlags) ;;
  when (has interruptFlags kUSDHC_CommandFlag) (USDHC_TransferHandleCommand interruptFlags) ;;
  when (has interruptFlags kUSDHC_DataFlag) (USDHC_TransferHandleData interruptFlags) ;;
  when (has interruptFlags kUSDHC_CardInterruptFlag) USDHC_TransferHandleSdioInterrupt ;;
  when (has interruptFlags kUSDHC_BlockGapEventFlag) USDHC_TransferHandleBlockGap ;;
  when (HAS_SDR50_MODE && has interruptFlags kUSDHC_SDR104TuningFlag) (USDHC_TransferHandleReTuning interruptFlags) ;;
  on_hw (USDHC_ClearInterruptStatusFlags interruptFlags).
(** The interrupt is enabled in the interrupt controller. *)
Definition USDHC_TransferCreateHandle : M W unit := upd (fun _ => Handle None None None 0).
End Driver.
