(* ===== verification/UsdhcAdma.v ===== *)
(** * Descriptor tables

    What the ADMA engine makes of a table ([adma1_run], [adma2_run], as the
    header's tables of actions say), what a format of descriptors promises to
    the code that builds tables ([AdmaFormat]), that the driver's two formats
    keep it, and what follows for scatter-gather transfers. *)

From stdpp Require Import base list numbers tactics.
From Stdlib Require Import ZArith Lia.
From S2P Require Import Prelude Mmio Usdhc UsdhcTransfer.

Open Scope Z_scope.
Open Scope prog_scope.

(** ** The engine *)

Definition action (attribute : Z) : Z := Z.land (Z.shiftr attribute 4) 3.
Definition valid (attribute : Z) : bool := has attribute 1.
Definition ends (attribute : Z) : bool := has attribute 2.
(** The pieces of memory (address, bytes) the engine moves, in order, from the
    entry at [p] on; [None]: it meets an invalid entry, or does not stop.
    Action 2 transfers, 3 goes on elsewhere. *)
Fixpoint adma2_run (fuel : nat) (mem : memory) (p : Z) : option (list (Z * Z)) :=
  match fuel with
  | O => None
  | S fuel =>
      let a := mem p in
      let address := mem (p + 4) in
      let moved := if action a =? 2 then [(address, Z.shiftr a 16)] else [] in
      if negb (valid a) then None
      else if ends a then Some moved
      else option_map (app moved) (adma2_run fuel mem (if action a =? 3 then address else p + 8))
  end.
(** ADMA1: action 1 sets the length of the following transfers. *)
Fixpoint adma1_run (fuel : nat) (length : Z) (mem : memory) (p : Z) : option (list (Z * Z)) :=
  match fuel with
  | O => None
  | S fuel =>
      let a := mem p in
      let address := Z.shiftl (Z.shiftr a 12) 12 in
      let length := if action a =? 1 then Z.land (Z.shiftr a 12) 0xFFFF else length in
      let moved := if action a =? 2 then [(address, length)] else [] in
      if negb (valid a) then None
      else if ends a then Some moved
      else option_map (app moved) (adma1_run fuel length mem (if action a =? 3 then address else p + 4))
  end.

(** ** Pieces of a buffer *)

(** [n] bytes at [a] in [k] pieces of at most [max]. *)
Fixpoint pieces (k : nat) (max a n : Z) : list (Z * Z) :=
  match k with
  | O => []
  | S k => (a, Z.min max n) :: pieces k max (a + Z.min max n) (n - Z.min max n)
  end.
(** The words of a piece, and of several. *)
Definition words_of (piece : Z * Z) : list Z := map (fun i => piece.1 + 4 * Z.of_nat i) (seq 0 (Z.to_nat (piece.2 / 4))).
Definition all_words (l : list (Z * Z)) : list Z := concat (map words_of l).
(** The number of bytes rounded up to words. *)
Definition whole_words (n : Z) : Z := 4 * ((n + 3) / 4).
Definition needed (max n : Z) : nat := Z.to_nat ((whole_words n + max - 1) / max).

Lemma words_of_split a n m : 0 <= n -> n mod 4 = 0 -> 0 <= m -> words_of (a, n + m) = words_of (a, n) ++ words_of (a + n, m).
Proof.
  intros Hn H4 Hm. unfold words_of. cbn [fst snd]. replace ((n + m) / 4) with (n / 4 + m / 4) by zlia.
  rewrite Z2Nat.inj_add, seq_app, map_app by zlia. f_equal. rewrite Nat.add_0_l. apply list_eq. intros i. rewrite !list_lookup_fmap.
  destruct (decide (i < Z.to_nat (m / 4))%nat) as [Hi|Hi].
  - rewrite !lookup_seq_lt by lia. simpl. f_equal. zlia.
  - rewrite !lookup_seq_ge by lia. done.
Qed.

(** The pieces are the buffer. *)
Lemma pieces_cover max : 0 < max -> max mod 4 = 0 -> forall k a n, 0 <= n -> n <= Z.of_nat k * max -> all_words (pieces k max a n) = words_of (a, n).
Proof.
  intros Hm H4 k. induction k as [|k IH]; intros a n Hn Hk; cbn [pieces].
  - assert (n = 0) as -> by lia. done.
  - unfold all_words. cbn [map concat]. fold (all_words (pieces k max (a + Z.min max n) (n - Z.min max n))).
    destruct (Z.le_ge_cases max n) as [H|H].
    + rewrite Z.min_l by lia. rewrite IH by lia. rewrite <- words_of_split by lia. by replace (max + (n - max)) with n by lia.
    + rewrite Z.min_r by lia. rewrite IH by lia. replace (n - n) with 0 by lia. unfold words_of at 2. cbn. by rewrite app_nil_r.
Qed.

Lemma needed_enough max n : 0 < max -> 0 <= n -> whole_words n <= Z.of_nat (needed max n) * max.
Proof.
  intros Hm Hn. unfold needed. assert (0 <= whole_words n) by (unfold whole_words; zlia).
  assert (0 <= (whole_words n + max - 1) / max) by (apply Z.div_pos; lia). rewrite Z2Nat.id by lia.
  assert (H1 := Z.div_mod (whole_words n + max - 1) max ltac:(lia)). assert (H2 := Z.mod_pos_bound (whole_words n + max - 1) max Hm). lia.
Qed.
Lemma needed_tight max n k : 0 < max -> 0 < n -> needed max n = S k -> Z.of_nat k * max < whole_words n.
Proof.
  intros Hm Hn. unfold needed. assert (0 < whole_words n) by (unfold whole_words; zlia). intros Hk.
  assert (H1 := Z.div_mod (whole_words n + max - 1) max ltac:(lia)). assert (H2 := Z.mod_pos_bound (whole_words n + max - 1) max Hm).
  assert (E : (whole_words n + max - 1) / max = Z.of_nat k + 1) by lia. rewrite E in H1. lia.
Qed.
Lemma needed_some max n : 0 < max -> 0 < n -> needed max n <> O.
Proof. intros Hm Hn E. assert (H := needed_enough max n Hm ltac:(lia)). rewrite E in H. unfold whole_words in H. zlia. Qed.

Lemma word_aligned_spec n : 0 <= n <= 2 ^ 32 - 4 -> word_aligned n = whole_words n.
Proof.
  intros Hn. unfold word_aligned, whole_words. destruct (Z.eqb_spec (n mod 4) 0); cbn [negb]; [zlia|].
  rewrite wrap_small by (pow2; zlia). zlia.
Qed.
Lemma entries_needed_spec max n : 0 < max -> max mod 4 = 0 -> 0 <= n -> entries_needed (whole_words n) max = Z.of_nat (needed max n).
Proof.
  intros Hm H4 Hn. unfold entries_needed, needed. assert (0 <= whole_words n) by (unfold whole_words; zlia). set (x := whole_words n) in *. clearbody x.
  assert (0 <= (x + max - 1) / max) by (apply Z.div_pos; lia). rewrite Z2Nat.id by lia.
  assert (H1 := Z.div_mod x max ltac:(lia)). assert (H2 := Z.mod_pos_bound x max Hm). destruct (Z.eqb_spec (x mod max) 0) as [E|E].
  - apply Z.div_unique with (max - 1); lia.
  - apply Z.div_unique with (x mod max - 1); lia.
Qed.
(** The number of entries does not depend on the rounding. *)
Lemma entries_needed_raw max n : 0 < max -> max mod 4 = 0 -> 0 <= n -> entries_needed n max = Z.of_nat (needed max n).
Proof.
  intros Hm H4 Hn. rewrite <- entries_needed_spec by done. unfold entries_needed.
  assert (Hx : exists q, max = 4 * q) by (exists (max / 4); zlia). destruct Hx as [q ->].
  assert (H1 := Z.div_mod n (4 * q) ltac:(lia)). assert (H2 := Z.mod_pos_bound n (4 * q) Hm). set (k := n / (4 * q)) in *. set (r := n mod (4 * q)) in *.
  assert (Hw : whole_words n = 4 * q * k + whole_words r) by (unfold whole_words; rewrite H1; replace (4 * q * k + r + 3) with (r + 3 + q * k * 4) by ring; rewrite Z.div_add by lia; ring).
  assert (Hr : 0 <= whole_words r <= 4 * q) by (unfold whole_words; zlia). assert (Hr0 : r = 0 <-> whole_words r = 0) by (unfold whole_words; zlia).
  destruct (Z.eqb_spec r 0) as [E0|E0].
  - assert (whole_words r = 0) by tauto. rewrite <- (Z.mod_unique (whole_words n) (4 * q) k 0), <- (Z.div_unique (whole_words n) (4 * q) k 0) by lia. done.
  - destruct (Z.eq_dec (whole_words r) (4 * q)) as [Ef|Ef].
    + rewrite <- (Z.mod_unique (whole_words n) (4 * q) (k + 1) 0), <- (Z.div_unique (whole_words n) (4 * q) (k + 1) 0) by lia. done.
    + rewrite <- (Z.mod_unique (whole_words n) (4 * q) k (whole_words r)), <- (Z.div_unique (whole_words n) (4 * q) k (whole_words r)) by lia.
      rewrite (proj2 (Z.eqb_neq (whole_words r) 0)) by tauto. done.
Qed.

(** ** Formats *)

(** The pieces [l] stored from [p] on, two words each; [last]: the table ends
    with them. *)
Fixpoint holds (entry : Z * Z -> bool -> Z * Z) (mem : memory) (p : Z) (l : list (Z * Z)) (last : bool) : Prop :=
  match l with
  | [] => True
  | x :: l => (mem p, mem (p + 4)) = entry x (last && match l with [] => true | _ => false end) /\ holds entry mem (p + 8) l last
  end.
(** Memory outside [[a, b)] is the same. *)
Definition same_outside (a b : Z) (mem mem' : memory) : Prop := forall x, x < a \/ b <= x -> mem' x = mem x.

Class AdmaFormat := {
  max_bytes : Z;
  align : Z;
  entry : Z * Z -> bool -> Z * Z;
  engine : nat -> memory -> Z -> option (list (Z * Z));
  describe : Z -> Z -> Z -> Z -> M memory status_t;
  unend : Z -> Z -> M memory unit;
  max_positive : 0 < max_bytes;
  max_words : max_bytes mod 4 = 0;
  (** The engine moves the pieces of a table that holds pieces of buffers. *)
  engine_runs mem p l : l <> [] -> Forall (fun x => x.1 mod align = 0 /\ 0 <= x.1 < 2 ^ 32 /\ 0 < x.2 <= max_bytes) l ->
    holds entry mem p l true -> engine (2 * length l) mem p = Some l;
  align_max : 0 < align /\ (align | max_bytes);
  describe_spec table words a n mem :
    0 < table -> 0 <= words -> table + 4 * words <= 2 ^ 32 -> 0 < a -> a mod align = 0 -> 0 < n <= 2 ^ 32 - 4 -> a + whole_words n < 2 ^ 32 ->
    let k := needed max_bytes n in
    if words <? 2 * Z.of_nat k then describe table words a n mem = Ok (kStatus_OutOfRange, mem)
    else exists mem', describe table words a n mem = Ok (kStatus_Success, mem') /\
      holds entry mem' table (pieces k max_bytes a (whole_words n)) true /\ same_outside table (table + 8 * Z.of_nat k) mem mem';
  unend_spec table l mem : 0 < table -> l <> [] -> table + 8 * Z.of_nat (length l) <= 2 ^ 32 ->
    Forall (fun x => x.1 mod align = 0 /\ 0 <= x.1 < 2 ^ 32 /\ 0 < x.2 <= max_bytes) l -> holds entry mem table l true ->
    exists mem', unend table (Z.of_nat (length l)) mem = Ok (tt, mem') /\
      holds entry mem' table l false /\ same_outside table (table + 8 * Z.of_nat (length l)) mem mem'
}.

(** Flags in the low bits of a word. *)
Lemma or_flags x n c f : 0 <= n -> 0 <= c < 2 ^ n -> 0 <= f < 2 ^ n -> Z.lor (x * 2 ^ n + c) f = x * 2 ^ n + Z.lor c f.
Proof.
  intros Hn Hc Hf. rewrite <- (lor_pack x c) by lia. rewrite <- Z.lor_assoc. apply lor_pack; [done|].
  assert (E : Z.lor c f = Z.lor c f mod 2 ^ n); [|rewrite E; apply Z.mod_pos_bound; lia].
  rewrite <- Z.land_ones, Z.land_lor_distr_l, !Z.land_ones, !Z.mod_small by lia. done.
Qed.
Lemma clear_flag x n c : 2 <= n <= 32 -> 0 <= c < 2 ^ n -> 0 <= x * 2 ^ n + c < 2 ^ 32 -> Z.land (x * 2 ^ n + c) (u32 (Z.lnot 2)) = x * 2 ^ n + Z.land c (u32 (Z.lnot 2)).
Proof.
  intros Hn Hc Hx. assert (Hm : 0 <= Z.land c (u32 (Z.lnot 2)) < 2 ^ n).
  { assert (E : Z.land c (u32 (Z.lnot 2)) = Z.land c (u32 (Z.lnot 2)) mod 2 ^ n); [|rewrite E; apply Z.mod_pos_bound; lia].
    rewrite <- Z.land_ones by lia. rewrite <- Z.land_assoc, (Z.land_comm (u32 _)), Z.land_assoc, Z.land_ones, Z.mod_small by lia. done. }
  rewrite <- (lor_pack x c), <- (lor_pack x) by lia. rewrite Z.land_lor_distr_l. f_equal.
  apply Z.bits_inj'. intros i Hi. rewrite Z.land_spec. destruct (Z.testbit (x * 2 ^ n) i) eqn:E; [|done]. cbn [andb].
  assert (n <= i) by (destruct (Z.lt_ge_cases i n) as [H|H]; [by rewrite Z.mul_pow2_bits_low in E by lia|done]).
  assert (i < 32). { destruct (Z.lt_ge_cases i 32) as [H1|H1]; [done|]. exfalso. rewrite (testbit_above _ 32) in E; [done| |lia].
    split; [|lia]. assert (0 <= x); [|apply Z.mul_nonneg_nonneg; lia]. destruct (Z.lt_ge_cases x 0); [|done]. assert (x * 2 ^ n <= -1 * 2 ^ n) by (apply Z.mul_le_mono_nonneg_r; lia). lia. }
  rewrite wrap_testbit, Z.lnot_spec by lia. rewrite (testbit_above 2 2 i); [done|by cbn|lia].
Qed.

Lemma word_in base i : 0 <= base + 4 * i < 2 ^ 32 -> word base i = base + 4 * i.
Proof. intros H. unfold word. by apply wrap_small. Qed.

(** Storing a word. *)
Definition stored (a v : Z) (mem : memory) : memory := fun x => if x =? a then v else mem x.
Lemma stored_same a v mem : stored a v mem a = v.
Proof. unfold stored. by rewrite Z.eqb_refl. Qed.
Lemma stored_other a v mem x : x <> a -> stored a v mem x = mem x.
Proof. intros H. unfold stored. by rewrite (proj2 (Z.eqb_neq _ _)). Qed.
Lemma put_word_run {B} a v (f : unit -> M memory B) mem : bind (put_word a v) f mem = f tt (stored a v mem).
Proof. done. Qed.
Lemma or_word_run a v mem : or_word a v mem = Ok (tt, stored a (Z.lor (mem a) v) mem).
Proof. done. Qed.
Lemma and_word_run a v mem : and_word a v mem = Ok (tt, stored a (Z.land (mem a) v) mem).
Proof. done. Qed.
Lemma bind_or_word {B} a v (f : unit -> M memory B) mem : bind (or_word a v) f mem = f tt (stored a (Z.lor (mem a) v) mem).
Proof. done. Qed.

Section Holds.
Context (entry : Z * Z -> bool -> Z * Z).
Lemma holds_same mem mem' l : forall p last, (forall x, p <= x < p + 8 * Z.of_nat (length l) -> mem' x = mem x) -> holds entry mem p l last -> holds entry mem' p l last.
Proof.
  induction l as [|x l IH]; intros p last Hm H; [done|]. cbn [holds length] in *. destruct H as [H1 H2]. split.
  - rewrite !Hm by lia. done.
  - eapply IH; [|exact H2]. intros y Hy. apply Hm. lia.
Qed.
Lemma holds_front mem l : forall p x, holds entry mem p (l ++ [x]) true -> holds entry mem p l false.
Proof.
  induction l as [|y l IH]; intros p x H; cbn [holds app] in *; [done|]. destruct H as [H1 H2]. split; [rewrite H1; by destruct l|by eapply IH].
Qed.
Lemma holds_prefix mem l1 l2 : forall p, holds entry mem p (l1 ++ l2) false -> holds entry mem p l1 false.
Proof.
  induction l1 as [|y l1 IH]; intros p H; cbn [holds app] in *; [done|]. destruct H as [H1 H2]. split; [exact H1|by eapply IH].
Qed.
Lemma holds_final mem l : forall p x last, holds entry mem p (l ++ [x]) last -> (mem (p + 8 * Z.of_nat (length l)), mem (p + 8 * Z.of_nat (length l) + 4)) = entry x last.
Proof.
  induction l as [|y l IH]; intros p x last H; cbn [holds app length] in *.
  - replace (p + 8 * Z.of_nat 0) with p by lia. destruct H as [H _]. by rewrite andb_true_r in H.
  - destruct H as [_ H2]. replace (p + 8 * Z.of_nat (S (length l))) with (p + 8 + 8 * Z.of_nat (length l)) by lia. by apply IH.
Qed.
Lemma holds_snoc mem l : forall p x last, holds entry mem p l false -> (mem (p + 8 * Z.of_nat (length l)), mem (p + 8 * Z.of_nat (length l) + 4)) = entry x last ->
  holds entry mem p (l ++ [x]) last.
Proof.
  induction l as [|y l IH]; intros p x last H Hx; cbn [holds app length] in *.
  - replace (p + 8 * Z.of_nat 0) with p in Hx by lia. rewrite andb_true_r. done.
  - destruct H as [H1 H2]. split; [rewrite H1; destruct l; cbn; by rewrite ?andb_false_r|]. apply IH; [done|].
    replace (p + 8 + 8 * Z.of_nat (length l)) with (p + 8 * Z.of_nat (S (length l))) by lia. done.
Qed.
Lemma holds_app mem l1 l2 : forall p last, l2 <> [] -> holds entry mem p l1 false -> holds entry mem (p + 8 * Z.of_nat (length l1)) l2 last -> holds entry mem p (l1 ++ l2) last.
Proof.
  induction l1 as [|x l1 IH]; intros p last Hl H1 H2; cbn [holds app length] in *.
  - by replace (p + 8 * Z.of_nat 0) with p in H2 by lia.
  - destruct H1 as [H1 H3]. split; [rewrite H1; destruct l1; [destruct l2; [done|]|]; cbn; by rewrite ?andb_false_r|]. apply IH; [done|done|].
    replace (p + 8 + 8 * Z.of_nat (length l1)) with (p + 8 * Z.of_nat (S (length l1))) by lia. done.
Qed.
End Holds.
Lemma pieces_length k max : forall a n, length (pieces k max a n) = k.
Proof. induction k as [|k IH]; intros; cbn; [done|]. by rewrite IH. Qed.

Lemma same_outside_trans a b c mem mem1 mem2 : a <= b <= c -> same_outside a b mem mem1 -> same_outside b c mem1 mem2 -> same_outside a c mem mem2.
Proof. intros H H1 H2 x Hx. rewrite H2, H1 by lia. done. Qed.

(** A loop that stores one piece per round stores them all. *)
Section Loop.
Context (entry : Z * Z -> bool -> Z * Z) (max al table : Z) (loop : nat -> Z -> Z -> Z -> M memory unit).
Context (Hmax : 0 < max) (Hal : 0 < al) (Hdiv : (al | max)) (loop_end : forall i a n mem, loop 0 i a n mem = Ok (tt, mem)).
Context (loop_step : forall k i a n mem, 0 <= i -> table + 8 * (i + 1 + Z.of_nat k) <= 2 ^ 32 -> 0 < a -> a mod al = 0 -> 0 < n -> n < 2 ^ 32 -> a + n < 2 ^ 32 ->
  exists mem1, loop (S k) i a n mem = loop k (i + 1) (a + Z.min max n) (n - Z.min max n) mem1 /\
    (mem1 (table + 8 * i), mem1 (table + 8 * i + 4)) = entry (a, Z.min max n) false /\ same_outside (table + 8 * i) (table + 8 * i + 8) mem mem1).
Lemma loop_holds k : forall i a n mem, 0 <= i -> table + 8 * (i + Z.of_nat k) <= 2 ^ 32 -> 0 < a -> (k <> 0%nat -> a mod al = 0) -> a + n < 2 ^ 32 ->
  (forall j, k = S j -> Z.of_nat j * max < n) ->
  exists mem', loop k i a n mem = Ok (tt, mem') /\ holds entry mem' (table + 8 * i) (pieces k max a n) false /\
    same_outside (table + 8 * i) (table + 8 * (i + Z.of_nat k)) mem mem'.
Proof.
  induction k as [|k IH]; intros i a n mem Hi Ht Ha Ha' Hn Hk; [by exists mem; rewrite loop_end|].
  assert (H0 := Hk k eq_refl). assert (0 <= Z.of_nat k * max) by lia.
  destruct (loop_step k i a n mem Hi ltac:(lia) Ha (Ha' ltac:(done)) ltac:(lia) ltac:(lia) Hn) as (mem1 & E1 & E2 & E3).
  destruct (IH (i + 1) (a + Z.min max n) (n - Z.min max n) mem1) as (mem' & F1 & F2 & F3); [lia..| |lia| |].
  { intros Hk0. rewrite Z.min_l by nia. rewrite Z.add_mod, Ha', (proj2 (Z.mod_divide max al ltac:(lia)) Hdiv) by (done || lia). by rewrite Z.mod_0_l by lia. }
  { intros j ->. nia. }
  exists mem'. rewrite E1. split; [done|]. replace (table + 8 * (i + 1)) with (table + 8 * i + 8) in * by lia. split.
  - cbn [pieces holds]. split; [cbn [andb]; rewrite <- E2, !F3 by lia; done|done].
  - intros x Hx. rewrite F3, E3 by lia. done.
Qed.
End Loop.

(** ** ADMA2 *)

Definition entry2 (x : Z * Z) (last : bool) : Z * Z := (x.2 * 2 ^ 16 + (if last then 0x27 else 0x25), x.1).

Section Adma2.
Context {X : UsdhcFeatures}.
Abbreviation max2 := USDHC_ADMA2_DESCRIPTOR_MAX_LENGTH_PER_ENTRY.

Lemma adma2_step table k i a n mem : 0 < table -> 0 <= i -> table + 8 * (i + 1 + Z.of_nat k) <= 2 ^ 32 -> 0 < a -> a mod 4 = 0 -> 0 < n -> n < 2 ^ 32 -> a + n < 2 ^ 32 ->
  exists mem1, adma2_loop (S k) table i a n mem = adma2_loop k table (i + 1) (a + Z.min max2 n) (n - Z.min max2 n) mem1 /\
    (mem1 (table + 8 * i), mem1 (table + 8 * i + 4)) = entry2 (a, Z.min max2 n) false /\ same_outside (table + 8 * i) (table + 8 * i + 8) mem mem1.
Proof.
  intros Ht Hi Hk Ha _ Hn Hn' Han. pow2. cbn [adma2_loop]. rewrite (proj2 (Z.eqb_neq n 0)) by lia. cbn [negb].
  replace (if max2 <? n then max2 else n) with (Z.min max2 n) by (destruct (Z.ltb_spec max2 n); lia). unfold max2. set (l := Z.min _ n).
  assert (Hl : 0 < l < 65536 /\ l <= n) by lia. rewrite !word_in by (pow2; lia).
  replace (table + 4 * (2 * i)) with (table + 8 * i) by lia. replace (table + 4 * (2 * i + 1)) with (table + 8 * i + 4) by lia.
  rewrite !put_word_run, bind_or_word. rewrite stored_same. unfold USDHC_ADMA2_DESCRIPTOR_LENGTH_SHIFT. rewrite Z.shiftl_mul_pow2 by lia.
  rewrite !wrap_small by (pow2; lia). change (Z.lor kUSDHC_Adma2DescriptorTypeTransfer kUSDHC_Adma2DescriptorInterruptFlag) with 0x25.
  rewrite lor_pack by done. eexists. split; [done|]. split.
  - rewrite stored_same, !stored_other by lia. by rewrite stored_same.
  - intros x Hx. rewrite !stored_other by lia. done.
Qed.

Definition adma2_describe (table words a n : Z) : M memory status_t := USDHC_SetADMA2Descriptor table words a n kUSDHC_AdmaDescriptorSingleFlag.
Definition adma2_unend (table k : Z) : M memory unit := and_word (word table (u32 (k * 2 - 2))) (u32 (Z.lnot kUSDHC_Adma2DescriptorEndFlag)).

Lemma entry2_read x last : 0 <= x.2 < 2 ^ 16 -> valid (entry2 x last).1 = true /\ ends (entry2 x last).1 = last /\ action (entry2 x last).1 = 2 /\ Z.shiftr (entry2 x last).1 16 = x.2.
Proof.
  intros Hx. unfold entry2, valid, ends, action, has. cbn [fst snd]. set (c := if last then _ else _). assert (Hc : c = 0x27 \/ c = 0x25) by (destruct last; auto).
  assert (E : forall m, 0 <= m < 2 ^ 16 -> Z.land (x.2 * 2 ^ 16 + c) m = Z.land c m).
  { intros m Hm. rewrite <- (lor_pack x.2 c) by (destruct Hc as [-> | ->]; done). rewrite Z.land_lor_distr_l.
    replace (Z.land (x.2 * 2 ^ 16) m) with 0; [done|]. symmetry. apply Z.bits_inj'. intros i Hi. rewrite Z.land_spec, Z.bits_0.
    destruct (Z.lt_ge_cases i 16); [by rewrite Z.mul_pow2_bits_low by lia|by rewrite (testbit_above m 16), andb_false_r by lia]. }
  rewrite !E by done. split; [by destruct Hc as [-> | ->]|]. split; [by destruct last|]. rewrite !Z.shiftr_div_pow2 by lia. pow2. split.
  - change 3 with (Z.ones 2). rewrite Z.land_ones by lia. change (2 ^ 4) with 16. change (2 ^ 2) with 4. destruct Hc as [-> | ->]; zlia.
  - destruct Hc as [-> | ->]; zlia.
Qed.

Lemma adma2_engine_runs mem l : forall p fuel, l <> [] -> Forall (fun x => x.1 mod 4 = 0 /\ 0 <= x.1 < 2 ^ 32 /\ 0 < x.2 <= max2) l -> holds entry2 mem p l true ->
  adma2_run (length l + fuel) mem p = Some l.
Proof.
  induction l as [|[a n] l IH]; intros p fuel Hl HF H; [done|]. apply Forall_cons_1 in HF as [(_ & Ha & Hn) HF]. destruct H as [H1 H2].
  cbn [length Nat.add adma2_run]. unfold max2 in Hn. cbn [fst snd] in *.
  set (last := true && _) in H1. destruct (entry2_read (a, n) last) as (R1 & R2 & R3 & R4); [cbn; lia|]. rewrite <- H1 in R1, R2, R3, R4. cbn [fst snd] in *.
  rewrite R1, R2, R3, R4. cbn [negb]. change (2 =? 2) with true. change (2 =? 3) with false. cbv iota.
  unfold entry2 in H1. cbn [fst snd] in H1. injection H1 as _ ->. subst last. destruct l as [|y l]; [done|]. cbn [andb]. by rewrite IH.
Qed.

Lemma needed_bound max n : 4 <= max -> 0 < n <= 2 ^ 32 - 4 -> 0 < Z.of_nat (needed max n) < 2 ^ 31.
Proof.
  intros Hm Hn. pow2. assert (H0 := needed_some max n ltac:(lia) ltac:(lia)). destruct (needed max n) as [|k] eqn:E; [done|].
  assert (H := needed_tight max n k ltac:(lia) ltac:(lia) E). assert (whole_words n <= 4294967292) by (unfold whole_words; zlia).
  change (2 ^ 31) with 2147483648. nia.
Qed.
Lemma needed_rounds max n : 0 < max -> 0 < n -> forall j, needed max n = S j -> Z.of_nat j * max < whole_words n.
Proof. intros Hm Hn j Hj. by apply needed_tight. Qed.
Lemma whole_words_positive n : 0 < n -> 0 < whole_words n.
Proof. unfold whole_words. zlia. Qed.

Lemma pieces_last max : forall k a n, pieces (S k) max a n <> [].
Proof. done. Qed.
(** Pieces of an aligned buffer are what the engine can move. *)
Lemma pieces_ok al max : 0 < al -> 0 < max -> (al | max) -> forall k a n, 0 < a -> (k <> 0%nat -> a mod al = 0) -> a + n < 2 ^ 32 -> (forall j, k = S j -> Z.of_nat j * max < n) ->
  Forall (fun x : Z * Z => x.1 mod al = 0 /\ 0 <= x.1 < 2 ^ 32 /\ 0 < x.2 <= max) (pieces k max a n).
Proof.
  intros Hal Hm Hd k. induction k as [|k IH]; intros a n Ha Ha' Hn Hk; cbn [pieces]; [constructor|].
  assert (H0 := Hk k eq_refl). assert (0 <= Z.of_nat k * max) by lia. constructor; [cbn [fst snd]; split; [by apply Ha'|lia]|].
  apply IH; [lia| |lia|intros j ->; nia]. intros Hk0. rewrite Z.min_l by nia.
  rewrite Z.add_mod, Ha', (proj2 (Z.mod_divide max al ltac:(lia)) Hd) by (done || lia). by rewrite Z.mod_0_l by lia.
Qed.
(** The piece at the end of the table. *)
Lemma end_table entry table l mem mem1 k : l <> [] -> length l = k -> holds entry mem table l false ->
  (forall x, x ∈ l -> (mem (table + 8 * (Z.of_nat k - 1)), mem (table + 8 * (Z.of_nat k - 1) + 4)) = entry x false ->
    (mem1 (table + 8 * (Z.of_nat k - 1)), mem1 (table + 8 * (Z.of_nat k - 1) + 4)) = entry x true) ->
  same_outside (table + 8 * (Z.of_nat k - 1)) (table + 8 * Z.of_nat k) mem mem1 -> holds entry mem1 table l true.
Proof.
  intros Hl Hk H Hx Hs. destruct (exists_last Hl) as (l0 & x & ->). rewrite length_app in Hk. cbn in Hk. apply holds_snoc.
  - eapply holds_same; [|eapply (holds_prefix entry); exact H]. intros y Hy. apply Hs. lia.
  - replace (Z.of_nat (length l0)) with (Z.of_nat k - 1) by lia. apply Hx; [apply elem_of_app; right; by apply list_elem_of_singleton|]. replace (Z.of_nat k - 1) with (Z.of_nat (length l0)) by lia.
    by apply (holds_final entry mem l0 table x).
Qed.

Lemma adma2_describe_spec table words a n mem :
  0 < table -> 0 <= words -> table + 4 * words <= 2 ^ 32 -> 0 < a -> a mod 4 = 0 -> 0 < n <= 2 ^ 32 - 4 -> a + whole_words n < 2 ^ 32 ->
  let k := needed max2 n in
  if words <? 2 * Z.of_nat k then adma2_describe table words a n mem = Ok (kStatus_OutOfRange, mem)
  else exists mem', adma2_describe table words a n mem = Ok (kStatus_Success, mem') /\
    holds entry2 mem' table (pieces k max2 a (whole_words n)) true /\ same_outside table (table + 8 * Z.of_nat k) mem mem'.
Proof.
  intros Ht Hw Htw Ha Hal Hn Han k. assert (Hk := needed_bound max2 n ltac:(done) Hn). fold k in Hk. pow2. change (2 ^ 31) with 2147483648 in Hk.
  unfold adma2_describe, USDHC_SetADMA2Descriptor. rewrite !assert_true by (apply negb_true_iff, Z.eqb_neq; lia). rewrite !bind_ret.
  unfold USDHC_ADMA2_ADDRESS_ALIGN. rewrite Hal. cbn [negb Z.eqb]. change (kUSDHC_AdmaDescriptorSingleFlag =? kUSDHC_AdmaDescriptorMultipleFlag) with false.
  cbv iota zeta. rewrite bind_ret. rewrite word_aligned_spec, entries_needed_spec by (try done; pow2; lia). fold k.
  rewrite (wrap_small 32 (words * 4)), (wrap_small 32 (Z.of_nat k + 0)) by (pow2; lia). rewrite Z.add_0_r.
  replace (words * 4 / 8 <? Z.of_nat k) with (words <? 2 * Z.of_nat k) by (destruct (Z.ltb_spec words (2 * Z.of_nat k)), (Z.ltb_spec (words * 4 / 8) (Z.of_nat k)); zlia).
  destruct (Z.ltb_spec words (2 * Z.of_nat k)) as [Hs|Hs]; [done|]. rewrite Nat2Z.id, Z.add_0_l. rewrite (wrap_small 32 (Z.of_nat k - 1)) by (pow2; lia).
  assert (Hstep := fun k i a n mem => adma2_step table k i a n mem Ht).
  destruct (loop_holds entry2 max2 4 table (fun k i a n => adma2_loop k table i a n) ltac:(done) ltac:(done) ltac:(by exists 16383) ltac:(done) Hstep k 0 a (whole_words n) mem)
    as (mem1 & E1 & E2 & E3); [done|pow2; lia|done|done|pow2; lia|by apply needed_rounds; [done|lia]|].
  rewrite (bind_ok _ _ _ _ _ E1), bind_or_word. rewrite word_in by (pow2; lia). replace (4 * (2 * (Z.of_nat k - 1))) with (8 * (Z.of_nat k - 1)) by lia.
  replace (table + 8 * 0) with table in * by lia. rewrite Z.add_0_l in E3. set (q := table + 8 * (Z.of_nat k - 1)). eexists. split; [done|]. split.
  - apply (end_table entry2 table _ mem1 _ k); [destruct k; [lia|done]|apply pieces_length|exact E2| |].
    + fold q. intros x Hx [= H1 H2]. rewrite stored_same, stored_other, H1, H2 by lia. unfold entry2.
      change (kUSDHC_Adma2DescriptorEndFlag) with 2. by rewrite or_flags by done.
    + fold q. intros y Hy. by rewrite stored_other by lia.
  - intros y Hy. rewrite stored_other by lia. apply E3. lia.
Qed.

Lemma adma2_unend_spec table l mem : 0 < table -> l <> [] -> table + 8 * Z.of_nat (length l) <= 2 ^ 32 ->
  Forall (fun x => x.1 mod 4 = 0 /\ 0 <= x.1 < 2 ^ 32 /\ 0 < x.2 <= max2) l -> holds entry2 mem table l true ->
  exists mem', adma2_unend table (Z.of_nat (length l)) mem = Ok (tt, mem') /\
    holds entry2 mem' table l false /\ same_outside table (table + 8 * Z.of_nat (length l)) mem mem'.
Proof.
  intros Ht Hl Hlen HF H. pow2. destruct (exists_last Hl) as (l0 & x & ->). rewrite length_app in *. cbn [length] in *.
  apply Forall_app in HF as [_ HF]. apply Forall_cons_1 in HF as [(_ & _ & Hx) _]. unfold max2 in Hx.
  unfold adma2_unend. rewrite (wrap_small 32) by (pow2; lia). rewrite word_in by (pow2; lia). rewrite and_word_run.
  replace (table + 4 * (Z.of_nat (length l0 + 1) * 2 - 2)) with (table + 8 * Z.of_nat (length l0)) by lia. eexists. split; [done|]. split.
  - apply holds_snoc; [eapply holds_same; [|by eapply holds_front]; intros y Hy; apply stored_other; lia|].
    assert (HE := holds_final _ _ _ _ _ _ H). injection HE as H1 H2. rewrite stored_same, stored_other, H1, H2 by lia.
    unfold entry2. change (kUSDHC_Adma2DescriptorEndFlag) with 2. rewrite clear_flag by (pow2; lia). done.
  - intros y Hy. apply stored_other. lia.
Qed.

#[export] Instance adma2_format : AdmaFormat.
Proof.
  refine (Build_AdmaFormat max2 4 entry2 adma2_run adma2_describe adma2_unend _ _ _ _ adma2_describe_spec adma2_unend_spec); [done|done| |].
  - intros mem p l Hl HF H. replace (2 * length l)%nat with (length l + length l)%nat by lia. by apply adma2_engine_runs.
  - split; [done|]. by exists 16383.
Defined.
End Adma2.

(** ** ADMA1 *)

Definition entry1 (x : Z * Z) (last : bool) : Z * Z := (x.2 * 2 ^ 12 + 0x11, x.1 + (if last then 0x27 else 0x25)).
Abbreviation max1 := USDHC_ADMA1_DESCRIPTOR_MAX_LENGTH_PER_ENTRY.

Lemma aligned_page a : a mod 4096 = 0 -> exists b, a = b * 2 ^ 12.
Proof. intros H. exists (a / 4096). change (2 ^ 12) with 4096. zlia. Qed.

Lemma adma1_step table k i a n mem : 0 < table -> 0 <= i -> table + 8 * (i + 1 + Z.of_nat k) <= 2 ^ 32 -> 0 < a -> a mod 4096 = 0 -> 0 < n -> n < 2 ^ 32 -> a + n < 2 ^ 32 ->
  exists mem1, adma1_loop (S k) table (2 * i) a n mem = adma1_loop k table (2 * (i + 1)) (a + Z.min max1 n) (n - Z.min max1 n) mem1 /\
    (mem1 (table + 8 * i), mem1 (table + 8 * i + 4)) = entry1 (a, Z.min max1 n) false /\ same_outside (table + 8 * i) (table + 8 * i + 8) mem mem1.
Proof.
  intros Ht Hi Hk Ha Hal Hn Hn' Han. destruct (aligned_page a Hal) as [b ->]. pow2. cbn [adma1_loop].
  replace (if max1 <? n then max1 else n) with (Z.min max1 n) by (destruct (Z.ltb_spec max1 n); lia). unfold max1. set (l := Z.min _ n).
  assert (Hl : 0 < l < 65536 /\ l <= n) by lia. rewrite (wrap_small 32 (2 * i + 1)), (wrap_small 32 (2 * i + 2)) by (pow2; lia). rewrite !word_in by (pow2; lia).
  replace (table + 4 * (2 * i)) with (table + 8 * i) by lia. replace (table + 4 * (2 * i + 1)) with (table + 8 * i + 4) by lia.
  rewrite put_word_run, bind_or_word, put_word_run, bind_or_word. rewrite !stored_same. unfold USDHC_ADMA1_DESCRIPTOR_LENGTH_SHIFT. rewrite Z.shiftl_mul_pow2 by lia.
  change (Z.lor kUSDHC_Adma1DescriptorTypeTransfer kUSDHC_Adma1DescriptorInterrupFlag) with 0x25. change kUSDHC_Adma1DescriptorTypeSetLength with 0x11.
  rewrite (wrap_small 32 (l * 2 ^ 12)), (wrap_small 32 (_ + l)), (wrap_small 32 (n - l)) by (pow2; change (2 ^ 12) with 4096; lia).
  rewrite !lor_pack by done. replace (2 * (i + 1)) with (2 * i + 2) by lia. eexists. split; [done|]. split.
  - rewrite stored_same, !stored_other by lia. by rewrite stored_same.
  - intros x Hx. rewrite !stored_other by lia. done.
Qed.

Definition adma1_describe (table words a n : Z) : M memory status_t := USDHC_SetADMA1Descriptor table words a n kUSDHC_AdmaDescriptorSingleFlag.
Definition adma1_unend (table k : Z) : M memory unit := and_word (word table (u32 (k * 2 - 1))) (u32 (Z.lnot kUSDHC_Adma1DescriptorEndFlag)).

(** Fields of a word with flags below bit 12. *)
Lemma page_fields b c : 0 <= c < 2 ^ 12 -> (forall m, 0 <= m < 2 ^ 12 -> Z.land (b * 2 ^ 12 + c) m = Z.land c m) /\ Z.shiftr (b * 2 ^ 12 + c) 12 = b /\ action (b * 2 ^ 12 + c) = action c.
Proof.
  intros Hc. change (2 ^ 12) with 4096 in Hc. split; [|split].
  - intros m Hm. rewrite <- (lor_pack b c) by (change (2 ^ 12) with 4096; lia). rewrite Z.land_lor_distr_l.
    replace (Z.land (b * 2 ^ 12) m) with 0; [done|]. symmetry. apply Z.bits_inj'. intros i Hi. rewrite Z.land_spec, Z.bits_0.
    destruct (Z.lt_ge_cases i 12); [by rewrite Z.mul_pow2_bits_low by lia|by rewrite (testbit_above m 12), andb_false_r by lia].
  - rewrite Z.shiftr_div_pow2 by lia. change (2 ^ 12) with 4096. zlia.
  - unfold action. rewrite !Z.shiftr_div_pow2 by lia. change 3 with (Z.ones 2). rewrite !Z.land_ones by lia. change (2 ^ 4) with 16. change (2 ^ 2) with 4. change (2 ^ 12) with 4096. zlia.
Qed.

Lemma adma1_engine_runs mem l : forall p fuel len, l <> [] -> Forall (fun x => x.1 mod 4096 = 0 /\ 0 <= x.1 < 2 ^ 32 /\ 0 < x.2 <= max1) l -> holds entry1 mem p l true ->
  adma1_run (2 * length l + fuel) len mem p = Some l.
Proof.
  induction l as [|[a n] l IH]; intros p fuel len Hl HF H; [done|]. apply Forall_cons_1 in HF as [(Hal & Ha & Hn) HF]. destruct H as [H1 H2].
  cbn [fst snd] in *. unfold max1 in Hn. destruct (aligned_page a Hal) as [b ->].
  replace (2 * length ((b * 2 ^ 12, n)%Z :: l) + fuel)%nat with (S (S (2 * length l + fuel))) by (cbn [length]; lia).
  set (last := true && _) in H1. unfold entry1 in H1. cbn [fst snd] in H1. injection H1 as H3 H4. cbn [adma1_run]. unfold valid, ends, has. rewrite H3.
  destruct (page_fields n 0x11 ltac:(done)) as (F1 & F2 & F3). rewrite !F1, F2, F3 by done. change (Z.land 17 1) with 1. change (Z.land 17 2) with 0. change (action 17) with 1.
  cbn [Z.eqb Pos.eqb negb app option_map]. assert (En : Z.land n 0xFFFF = n) by (change 0xFFFF with (Z.ones 16); rewrite Z.land_ones, Z.mod_small by (pow2; lia); done).
  set (c := if last then 0x27 else 0x25). assert (Hc : c = 0x27 \/ c = 0x25) by (unfold c; destruct last; auto).
  destruct (page_fields b c) as (G1 & G2 & G3); [by destruct Hc as [-> | ->]|]. rewrite H4. fold c. rewrite !G1, G2, G3 by done. rewrite En, Z.shiftl_mul_pow2 by lia.
  replace (action c) with 2 by (destruct Hc as [-> | ->]; done). replace (Z.land c 1) with 1 by (destruct Hc as [-> | ->]; done).
  cbn [Z.eqb Pos.eqb negb]. replace (negb (Z.land c 2 =? 0)) with last by (unfold c; destruct last; done). replace (p + 4 + 4) with (p + 8) by lia.
  destruct l as [|y l]; [by subst last|]. subst last. cbn [andb]. by rewrite IH.
Qed.

Lemma adma1_describe_spec table words a n mem :
  0 < table -> 0 <= words -> table + 4 * words <= 2 ^ 32 -> 0 < a -> a mod 4096 = 0 -> 0 < n <= 2 ^ 32 - 4 -> a + whole_words n < 2 ^ 32 ->
  let k := needed max1 n in
  if words <? 2 * Z.of_nat k then adma1_describe table words a n mem = Ok (kStatus_OutOfRange, mem)
  else exists mem', adma1_describe table words a n mem = Ok (kStatus_Success, mem') /\
    holds entry1 mem' table (pieces k max1 a (whole_words n)) true /\ same_outside table (table + 8 * Z.of_nat k) mem mem'.
Proof.
  intros Ht Hw Htw Ha Hal Hn Han k. assert (Hk := needed_bound max1 n ltac:(done) Hn). fold k in Hk. pow2. change (2 ^ 31) with 2147483648 in Hk.
  unfold adma1_describe, USDHC_SetADMA1Descriptor. rewrite !assert_true by (apply negb_true_iff, Z.eqb_neq; lia). rewrite !bind_ret.
  unfold USDHC_ADMA1_ADDRESS_ALIGN. rewrite Hal. cbn [negb Z.eqb]. change (kUSDHC_AdmaDescriptorSingleFlag =? kUSDHC_AdmaDescriptorMultipleFlag) with false.
  cbv iota zeta. rewrite word_aligned_spec, entries_needed_spec by (try done; pow2; lia). fold k.
  rewrite Z.shiftl_mul_pow2 by lia. change (2 ^ 1) with 2. rewrite (wrap_small 32 (words * 4)), (wrap_small 32 (Z.of_nat k * 2)) by (pow2; lia). rewrite !Z.div_mul by lia.
  replace (words <? Z.of_nat k * 2) with (words <? 2 * Z.of_nat k) by (f_equal; lia).
  destruct (Z.ltb_spec words (2 * Z.of_nat k)) as [Hs|Hs]; [replace (words * 4 / 4 <? Z.of_nat k * 2) with true by (symmetry; apply Z.ltb_lt; zlia); done|].
  replace (words * 4 / 4 <? Z.of_nat k * 2) with false by (symmetry; apply Z.ltb_ge; zlia). rewrite Nat2Z.id. rewrite (wrap_small 32 (Z.of_nat k * 2 - 1)) by (pow2; lia).
  assert (Hstep := fun k i a n mem => adma1_step table k i a n mem Ht).
  destruct (loop_holds entry1 max1 4096 table (fun k i a n => adma1_loop k table (2 * i) a n) ltac:(done) ltac:(done) ltac:(by exists 15) ltac:(done) Hstep k 0 a (whole_words n) mem)
    as (mem1 & E1 & E2 & E3); [done|pow2; lia|done|done|pow2; lia|by apply needed_rounds; [done|lia]|].
  rewrite (bind_ok _ _ _ _ _ E1), bind_or_word. rewrite word_in by (pow2; lia). replace (table + 4 * (Z.of_nat k * 2 - 1)) with (table + 8 * (Z.of_nat k - 1) + 4) by lia.
  replace (table + 8 * 0) with table in * by lia. rewrite Z.add_0_l in E3. set (q := table + 8 * (Z.of_nat k - 1)). eexists. split; [done|]. split.
  - apply (end_table entry1 table _ mem1 _ k); [destruct k; [lia|done]|apply pieces_length|exact E2| |].
    + fold q. intros x Hx [= H1 H2]. rewrite stored_same, stored_other, H1, H2 by lia. unfold entry1. f_equal. change (kUSDHC_Adma1DescriptorEndFlag) with 2.
      assert (HP := pieces_ok 4096 max1 ltac:(done) ltac:(done) ltac:(by exists 15) k a (whole_words n) Ha (fun _ => Hal) ltac:(pow2; lia) ltac:(apply needed_rounds; [done|lia])).
      rewrite Forall_forall in HP. destruct (aligned_page x.1) as [b Hb]; [exact (proj1 (HP x (proj1 (list_elem_of_In _ _) Hx)))|]. rewrite Hb. by rewrite or_flags by done.
    + fold q. intros y Hy. by rewrite stored_other by lia.
  - intros y Hy. rewrite stored_other by lia. apply E3. lia.
Qed.

Lemma adma1_unend_spec table l mem : 0 < table -> l <> [] -> table + 8 * Z.of_nat (length l) <= 2 ^ 32 ->
  Forall (fun x => x.1 mod 4096 = 0 /\ 0 <= x.1 < 2 ^ 32 /\ 0 < x.2 <= max1) l -> holds entry1 mem table l true ->
  exists mem', adma1_unend table (Z.of_nat (length l)) mem = Ok (tt, mem') /\
    holds entry1 mem' table l false /\ same_outside table (table + 8 * Z.of_nat (length l)) mem mem'.
Proof.
  intros Ht Hl Hlen HF H. pow2. destruct (exists_last Hl) as (l0 & x & ->). rewrite length_app in *. cbn [length] in *.
  apply Forall_app in HF as [_ HF]. apply Forall_cons_1 in HF as [(Hp & Hx & _) _]. destruct (aligned_page _ Hp) as [b Hb].
  unfold adma1_unend. rewrite (wrap_small 32) by (pow2; lia). rewrite word_in by (pow2; lia). rewrite and_word_run.
  replace (table + 4 * (Z.of_nat (length l0 + 1) * 2 - 1)) with (table + 8 * Z.of_nat (length l0) + 4) by lia. eexists. split; [done|]. split.
  - apply holds_snoc; [eapply holds_same; [|by eapply holds_front]; intros y Hy; apply stored_other; lia|].
    assert (HE := holds_final _ _ _ _ _ _ H). injection HE as H1 H2. rewrite stored_same, stored_other, H1, H2 by lia.
    unfold entry1. change (kUSDHC_Adma1DescriptorEndFlag) with 2. rewrite Hb, clear_flag; [done|done|done|].
    rewrite <- Hb. change (2 ^ 32) with 4294967296. clear - Hx Hb. change (2 ^ 12) with 4096 in Hb. lia.
  - intros y Hy. apply stored_other. lia.
Qed.

#[export] Instance adma1_format : AdmaFormat.
Proof.
  refine (Build_AdmaFormat max1 4096 entry1 (fun fuel => adma1_run fuel 0) adma1_describe adma1_unend _ _ _ _ adma1_describe_spec adma1_unend_spec); [done|done| |].
  - intros mem p l Hl HF H. replace (2 * length l)%nat with (2 * length l + 0)%nat by lia. by apply adma1_engine_runs.
  - split; [done|]. by exists 15.
Defined.
