(* ===== verification/UsdhcScatter.v ===== *)
(** * Scatter-gather transfers

    The tables of several buffers, one behind the other with the end flags of
    all but the last taken back, proved against the interface of a descriptor
    format; and what the tables become when there is nothing to transfer. *)

From stdpp Require Import base list numbers tactics.
From Stdlib Require Import ZArith Lia.
From S2P Require Import Prelude Mmio Usdhc UsdhcTransfer UsdhcAdma.

Open Scope Z_scope.
Open Scope prog_scope.

(** The words of a buffer, and of several. *)
Definition buffer_words (x : usdhc_scatter_gather_data_list) : list Z := words_of (dataAddr x, whole_words (bufferSize x)).
Definition sizes (l : list usdhc_scatter_gather_data_list) : Z := foldr (fun x n => bufferSize x + n) 0 l.

Section Format.
Context `{Fm : AdmaFormat}.

(** What the driver asks of a buffer: aligned, not empty, below the top of the
    address space. *)
Definition buffer_ok (x : usdhc_scatter_gather_data_list) : Prop :=
  0 < dataAddr x /\ dataAddr x mod align = 0 /\ 0 < bufferSize x <= 2 ^ 32 - 4 /\ dataAddr x + whole_words (bufferSize x) < 2 ^ 32.
Definition buffer_pieces (x : usdhc_scatter_gather_data_list) : list (Z * Z) :=
  pieces (needed max_bytes (bufferSize x)) max_bytes (dataAddr x) (whole_words (bufferSize x)).
Definition sg_pieces (l : list usdhc_scatter_gather_data_list) : list (Z * Z) := concat (map buffer_pieces l).
Definition sg_entries (l : list usdhc_scatter_gather_data_list) : Z := Z.of_nat (length (sg_pieces l)).
Abbreviation movable := (fun x : Z * Z => x.1 mod align = 0 /\ 0 <= x.1 < 2 ^ 32 /\ 0 < x.2 <= max_bytes).

Lemma buffer_movable x : buffer_ok x -> Forall movable (buffer_pieces x).
Proof.
  intros (H1 & H2 & H3 & H4). destruct align_max as [Ha Hd]. apply pieces_ok; [done|exact max_positive|done|done|done|done|].
  apply needed_rounds; [exact max_positive|lia].
Qed.
Lemma sg_movable l : Forall buffer_ok l -> Forall movable (sg_pieces l).
Proof. induction 1 as [|x l H _ IH]; cbn; [constructor|]. apply Forall_app. split; [by apply buffer_movable|done]. Qed.
Lemma buffer_some x : buffer_ok x -> buffer_pieces x <> [].
Proof.
  intros (_ & _ & H & _). unfold buffer_pieces. assert (Hn := needed_some max_bytes (bufferSize x) max_positive ltac:(lia)).
  by destruct (needed max_bytes (bufferSize x)).
Qed.
Lemma buffer_covers x : buffer_ok x -> all_words (buffer_pieces x) = buffer_words x.
Proof.
  intros (_ & _ & H & _). apply pieces_cover; [exact max_positive|exact max_words|unfold whole_words; zlia|apply needed_enough; [exact max_positive|lia]].
Qed.
Lemma sg_covers l : Forall buffer_ok l -> all_words (sg_pieces l) = concat (map buffer_words l).
Proof.
  induction 1 as [|x l H _ IH]; [done|]. unfold sg_pieces, all_words in *. cbn [map concat]. rewrite map_app, concat_app, IH. f_equal. by apply buffer_covers.
Qed.
Lemma sg_entries_next x l : sg_entries (x :: l) = Z.of_nat (length (buffer_pieces x)) + sg_entries l.
Proof. unfold sg_entries, sg_pieces. cbn [map concat]. rewrite length_app. lia. Qed.
Lemma sg_some x l : buffer_ok x -> sg_pieces (x :: l) <> [].
Proof. intros H. unfold sg_pieces. cbn. assert (Hb := buffer_some x H). by destruct (buffer_pieces x). Qed.

(** [sg_tables] in terms of the interface. *)
Fixpoint tables (x : usdhc_scatter_gather_data_list) (more : list usdhc_scatter_gather_data_list) (table words total : Z) : M memory (status_t * Z) :=
  error <- describe table words (dataAddr x) (bufferSize x) ;;
  if negb (error =? kStatus_Success) then ret (kStatus_USDHC_PrepareAdmaDescriptorFailed, total)
  else
    let total := u32 (total + bufferSize x) in
    match more with
    | [] => ret (error, total)
    | y :: more =>
        let k := entries_needed (bufferSize x) max_bytes in
        unend table k ;; tables y more (word table (k * 2)) (u32 (words - k * 2)) total
    end.

Lemma sizes_next x l : sizes (x :: l) = bufferSize x + sizes l.
Proof. done. Qed.
Lemma sizes_positive l : Forall buffer_ok l -> 0 <= sizes l.
Proof. unfold sizes. induction 1 as [|x l (_ & _ & H & _) _ IH]; cbn [foldr]; lia. Qed.
Lemma describe_ok x table words mem : buffer_ok x -> 0 < table -> 0 <= words -> table + 4 * words <= 2 ^ 32 ->
  let k := Z.of_nat (length (buffer_pieces x)) in
  if words <? 2 * k then describe table words (dataAddr x) (bufferSize x) mem = Ok (kStatus_OutOfRange, mem)
  else exists mem', describe table words (dataAddr x) (bufferSize x) mem = Ok (kStatus_Success, mem') /\
    holds entry mem' table (buffer_pieces x) true /\ same_outside table (table + 8 * k) mem mem'.
Proof. intros (Ha & Hal & Hn & Han) Ht Hw Htw. unfold buffer_pieces. rewrite pieces_length. by apply describe_spec. Qed.
Lemma entries_of x : buffer_ok x -> entries_needed (bufferSize x) max_bytes = Z.of_nat (length (buffer_pieces x)).
Proof. intros (_ & _ & H & _). unfold buffer_pieces. rewrite pieces_length. apply entries_needed_raw; [exact max_positive|exact max_words|lia]. Qed.

(** The tables of the first buffer do not fit. *)
Lemma tables_refused more x table words total mem : buffer_ok x -> 0 < table -> 0 <= words -> table + 4 * words <= 2 ^ 32 ->
  words < 2 * Z.of_nat (length (buffer_pieces x)) -> tables x more table words total mem = Ok ((kStatus_USDHC_PrepareAdmaDescriptorFailed, total), mem).
Proof.
  intros Hx Ht Hw Htw Hs. assert (HD := describe_ok x table words mem Hx Ht Hw Htw). cbv zeta in HD. rewrite (proj2 (Z.ltb_lt _ _) Hs) in HD.
  by destruct more; cbn [tables]; rewrite (bind_ok _ _ _ _ _ HD).
Qed.

Lemma tables_run more : forall x table words total mem,
  0 < table -> 0 <= words -> table + 4 * words < 2 ^ 32 -> Forall buffer_ok (x :: more) -> 0 <= total -> total + sizes (x :: more) < 2 ^ 32 ->
  exists s n mem', tables x more table words total mem = Ok ((s, n), mem') /\ same_outside table (table + 4 * words) mem mem' /\
    if words <? 2 * sg_entries (x :: more) then s = kStatus_USDHC_PrepareAdmaDescriptorFailed
    else s = kStatus_Success /\ n = total + sizes (x :: more) /\ holds entry mem' table (sg_pieces (x :: more)) true.
Proof.
  induction more as [|y more IH]; intros x table words total mem Ht Hw Htw HF Hto Hts; apply Forall_cons_1 in HF as [Hx HF];
    assert (Hpos : 0 < bufferSize x <= 2 ^ 32 - 4) by apply Hx; assert (Hsz := sizes_positive _ HF); assert (HD := describe_ok x table words mem Hx Ht Hw ltac:(lia)); cbv zeta in HD;
    assert (HR := tables_refused); rewrite sg_entries_next; set (k := Z.of_nat (length (buffer_pieces x))) in *; rewrite (sizes_next x) in *;
    (destruct (Z.ltb_spec words (2 * k)) as [Hs|Hs];
      [eexists _, _, mem; split; [apply HR; (done || lia)|]; split; [done|]; rewrite (proj2 (Z.ltb_lt _ _)); [done|unfold sg_entries; lia]|]);
    destruct HD as (mem1 & E1 & E2 & E3); cbn [tables]; rewrite (bind_ok _ _ _ _ _ E1); change (negb (kStatus_Success =? kStatus_Success)) with false; cbv iota.
  - eexists _, _, mem1. split; [done|]. split; [intros z Hz; apply E3; lia|]. unfold sg_entries, sg_pieces. change (sizes []) with 0. cbn [map concat length]. rewrite app_nil_r.
    rewrite (proj2 (Z.ltb_ge _ _)) by lia. split; [done|]. split; [rewrite wrap_small; lia|exact E2].
  - cbv zeta. rewrite entries_of by done. fold k.
    destruct (unend_spec table (buffer_pieces x) mem1 Ht (buffer_some x Hx) ltac:(fold k; lia) (buffer_movable x Hx) E2) as (mem2 & F1 & F2 & F3).
    fold k in F1, F3. rewrite (bind_ok _ _ _ _ _ F1). rewrite word_in by (pow2; lia).
    rewrite (wrap_small 32 (words - _)), (wrap_small 32 (total + _)) by (pow2; lia). replace (table + 4 * (k * 2)) with (table + 8 * k) by lia.
    destruct (IH y (table + 8 * k) (words - k * 2) (total + bufferSize x) mem2) as (s & n & mem' & G1 & G2 & G3); [lia..|done|lia|lia|].
    exists s, n, mem'. split; [exact G1|]. split; [intros z Hz; rewrite G2, F3, E3 by lia; done|].
    replace (words <? 2 * (k + sg_entries (y :: more))) with (words - k * 2 <? 2 * sg_entries (y :: more))
      by (destruct (Z.ltb_spec (words - k * 2) (2 * sg_entries (y :: more))), (Z.ltb_spec words (2 * (k + sg_entries (y :: more)))); lia).
    destruct (_ <? _); [done|]. destruct G3 as (-> & -> & G3). split; [done|]. split; [lia|].
    apply (holds_app entry mem' (buffer_pieces x) (sg_pieces (y :: more))); [apply sg_some; by apply Forall_cons_1 in HF as [HF _]| |exact G3].
    eapply holds_same; [|exact F2]. fold k. intros z Hz. apply G2. lia.
Qed.

(** The engine follows the tables through all buffers. *)
Lemma tables_engine x more table words total mem :
  0 < table -> 0 <= words -> table + 4 * words < 2 ^ 32 -> Forall buffer_ok (x :: more) -> 0 <= total -> total + sizes (x :: more) < 2 ^ 32 ->
  exists s n mem', tables x more table words total mem = Ok ((s, n), mem') /\ same_outside table (table + 4 * words) mem mem' /\
    if words <? 2 * sg_entries (x :: more) then s = kStatus_USDHC_PrepareAdmaDescriptorFailed
    else s = kStatus_Success /\ n = total + sizes (x :: more) /\
      exists moved, engine (2 * length moved) mem' table = Some moved /\ all_words moved = concat (map buffer_words (x :: more)).
Proof.
  intros Ht Hw Htw HF Hto Hts. destruct (tables_run more x table words total mem Ht Hw Htw HF Hto Hts) as (s & n & mem' & H1 & H2 & H3).
  exists s, n, mem'. split; [done|]. split; [done|]. destruct (_ <? _); [done|]. destruct H3 as (-> & -> & H3). split; [done|]. split; [done|].
  exists (sg_pieces (x :: more)). split; [|by apply sg_covers]. apply engine_runs; [apply sg_some; by apply Forall_cons_1 in HF as [HF _]|by apply sg_movable|done].
Qed.
End Format.

(** ** The driver's formats *)

Section Driver.
Context {D A : Type} `{!Device usdhc_reg D} {F : UsdhcFields} {X : UsdhcFeatures}.
Abbreviation W := (usdhc_world D A).
Definition format (adma1 : bool) : AdmaFormat := if adma1 then adma1_format else adma2_format.

Lemma sg_tables_format adma1 more : forall x table words total mem, sg_tables adma1 x more table words total mem = tables (Fm := format adma1) x more table words total mem.
Proof.
  induction more as [|y more IH]; intros x table words total mem; cbn [sg_tables tables]; [by destruct adma1|]. cbv zeta. unfold bind. destruct adma1.
  - change (USDHC_SetADMA1Descriptor table words (dataAddr x) (bufferSize x) 0) with (describe (AdmaFormat := format true) table words (dataAddr x) (bufferSize x)).
    destruct (describe _ _ _ _ mem) as [[e m]|]; [|done]. destruct (negb _); [done|].
    change (and_word _ _ m) with (unend (AdmaFormat := format true) table (entries_needed (bufferSize x) max1) m).
    change (max_bytes (AdmaFormat := format true)) with max1. destruct (unend _ _ m) as [[[] m']|]; [|done]. apply IH.
  - change (USDHC_SetADMA2Descriptor table words (dataAddr x) (bufferSize x) 0) with (describe (AdmaFormat := format false) table words (dataAddr x) (bufferSize x)).
    destruct (describe _ _ _ _ mem) as [[e m]|]; [|done]. destruct (negb _); [done|].
    change (and_word _ _ m) with (unend (AdmaFormat := format false) table (entries_needed (bufferSize x) USDHC_ADMA2_DESCRIPTOR_MAX_LENGTH_PER_ENTRY) m).
    change (max_bytes (AdmaFormat := format false)) with USDHC_ADMA2_DESCRIPTOR_MAX_LENGTH_PER_ENTRY. destruct (unend _ _ m) as [[[] m']|]; [|done]. apply IH.
Qed.

(** Starting the engine does not fail. *)
Lemma engine_start (c : usdhc_adma_config) (d : D) : exists d', start_adma c d = Ok (tt, d').
Proof.
  unfold start_adma, bind, clear_bits, set_bits, rd, bind, wr. repeat (cbv beta iota; match goal with |- context [reg_read ?r ?d] => destruct (reg_read r d) end).
  cbv beta iota. by eexists.
Qed.

(** C13: The tables of a scatter-gather transfer make the engine move exactly
    the words of the buffers, in order, and nothing outside the memory of the
    tables is written; if the buffers need more entries than there is room
    for, the call says so and the engine is not started. *)
Theorem usdhc_scatter_gather_table (c : usdhc_adma_config) (d : usdhc_scatter_gather_data) (w : W) :
  let Fm := format (is_adma1 c) in let l := sgData d :: dataList d in let table := admaTable c in let words := admaTableWords c in
  0 < table -> table mod 4 = 0 -> 0 <= words -> table + 4 * words < 2 ^ 32 -> Forall buffer_ok l -> sizes l < 2 ^ 32 ->
  exists s n w', USDHC_SetScatterGatherAdmaTableConfig c d 0 w = Ok ((s, n), w') /\ same_outside table (table + 4 * words) (u_mem w) (u_mem w') /\
    if words <? 2 * sg_entries l then s = kStatus_USDHC_PrepareAdmaDescriptorFailed /\ u_hw w' = u_hw w
    else s = kStatus_Success /\ n = sizes l /\
      exists moved, engine (2 * length moved) (u_mem w') table = Some moved /\ all_words moved = concat (map buffer_words l).
Proof.
  intros Fm l table words Ht H4 Hw Htw HF Hts. destruct (tables_engine (Fm := Fm) (sgData d) (dataList d) table words 0 (u_mem w) Ht Hw Htw HF ltac:(done) Hts)
    as (s & n & mem' & H1 & H2 & H3). unfold USDHC_SetScatterGatherAdmaTableConfig.
  assert (Htab : table_ok c = true). { unfold table_ok. rewrite Z.land_comm, land3_mod4. fold table. rewrite H4, (proj2 (Z.eqb_neq table 0)) by lia. done. }
  rewrite assert_true, bind_ret by done. assert (E : on_mem (D := D) (A := A) (sg_tables (is_adma1 c) (sgData d) (dataList d) table words 0) w = Ok ((s, n), with_mem mem' w))
    by (unfold on_mem; rewrite sg_tables_format; fold Fm; by rewrite H1). rewrite (bind_ok _ _ _ _ _ E). cbn [fst]. fold l in H3. destruct (words <? _).
  - subst s. cbn [Z.eqb negb]. by exists kStatus_USDHC_PrepareAdmaDescriptorFailed, n, (with_mem mem' w).
  - destruct H3 as (-> & -> & H3). change (negb (kStatus_Success =? kStatus_Success)) with false. cbv iota. destruct (engine_start c (u_hw w)) as (d' & Hd).
    assert (E2 : on_hw (D := D) (A := A) (start_adma c) (with_mem mem' w) = Ok (tt, with_hw d' (with_mem mem' w))) by (unfold on_hw; cbn [u_hw with_mem]; by rewrite Hd).
    rewrite (bind_ok _ _ _ _ _ E2). by eexists _, _, _.
Qed.
End Driver.

(** A table for no bytes is reported as a success, but its entries are
    untouched: the end flag goes into memory in front of the table. *)
Theorem usdhc_empty_table_corrupts `{X : UsdhcFeatures} adma1 table words a (mem : memory) :
  8 <= table -> 0 <= words -> table + 4 * words < 2 ^ 32 -> 0 < a -> a mod 4096 = 0 ->
  exists mem', describe (AdmaFormat := format adma1) table words a 0 mem = Ok (kStatus_Success, mem') /\
    let p := table - (if adma1 : bool then 4 else 8) in mem' p = Z.lor (mem p) 2 /\ forall x, x <> p -> mem' x = mem x.
Proof.
  intros Ht Hw Htw Ha Hal. pow2. destruct adma1; cbn [describe format adma1_format adma2_format]; unfold adma1_describe, adma2_describe, USDHC_SetADMA1Descriptor, USDHC_SetADMA2Descriptor;
    rewrite !assert_true by (apply negb_true_iff, Z.eqb_neq; lia); rewrite !bind_ret; unfold USDHC_ADMA1_ADDRESS_ALIGN, USDHC_ADMA2_ADDRESS_ALIGN.
  - rewrite (wrap_small 32 (words * 4)) by (pow2; lia). change (word_aligned 0) with 0. cbv zeta. rewrite Hal. change (u32 (Z.shiftl (entries_needed 0 max1) 1)) with 0. rewrite (proj2 (Z.ltb_ge _ 0)) by zlia. change (word table (u32 (0 - 1))) with (word table UINT32_MAX).
    assert (E : word table UINT32_MAX = table - 4) by (unfold word, wrap; pow2; zlia). rewrite E.
    exists (stored (table - 4) (Z.lor (mem (table - 4)) 2) mem). split; [done|]. split; [apply stored_same|]. intros x Hx. by apply stored_other.
  - replace (a mod 4) with 0 by zlia. change (kUSDHC_AdmaDescriptorSingleFlag =? kUSDHC_AdmaDescriptorMultipleFlag) with false. change (negb (0 =? 0)) with false. cbv iota zeta. rewrite bind_ret. change (word_aligned 0) with 0.
    change (entries_needed 0 USDHC_ADMA2_DESCRIPTOR_MAX_LENGTH_PER_ENTRY) with 0. change (u32 (0 + 0)) with 0. rewrite (wrap_small 32 (words * 4)) by (pow2; lia). rewrite (proj2 (Z.ltb_ge _ 0)) by zlia. change (u32 (0 + 0 - 1)) with UINT32_MAX.
    assert (E : word table (2 * UINT32_MAX) = table - 8) by (unfold word, wrap; pow2; zlia). rewrite E.
    exists (stored (table - 8) (Z.lor (mem (table - 8)) 2) mem). split; [done|]. split; [apply stored_same|]. intros x Hx. by apply stored_other.
Qed.
