(* ===== verification/UsdhcClock.v ===== *)
(** * The SD bus clock

    Which clock [USDHC_SetSdClock] sets: the fastest one that is not above the
    one asked for, except for fifteen ratios for which the fields of the
    register cannot hold the divisor or the prescaler the code picks. *)

From stdpp Require Import base list numbers tactics.
From Stdlib Require Import ZArith Lia.
From S2P Require Import Prelude Mmio Usdhc.

Open Scope Z_scope.
Open Scope prog_scope.

(** ** Dividers *)

(** What the fields DVS and SDCLKFS divide the source clock by; of SDCLKFS at
    most one bit may be set. *)
Definition divider (dvs fs : Z) : Z := (dvs + 1) * (if fs =? 0 then 1 else 2 * fs).
Definition prescalers : list Z := [0; 1; 2; 4; 8; 16; 32; 64; 128].
Definition fits (dvs fs : Z) : Prop := 0 <= dvs < 16 /\ fs ∈ prescalers.
(** The divider the code looks for, and the ones for which it picks a setting
    the register cannot hold. *)
Definition total_divider (src bus : Z) : Z := let q := src / bus in if bus <? src / q then q + 1 else q.
Definition unfit : list Z := [6; 10; 12; 14; 34; 36; 38; 40; 42; 44; 46; 68; 72; 76; 136].

(** The prescaler the first loop ends with. *)
Definition next_prescaler (q : Z) : Z :=
  if q <=? 2 then 2 else if q <=? 4 then 4 else if q <=? 8 then 8 else if q <=? 16 then 16 else if q <=? 32 then 32
  else if q <=? 64 then 64 else if q <=? 128 then 128 else 256.
Definition pick (td : Z) : outcome (option (Z * Z)) :=
  if 16 <? td then let p := next_prescaler (td / 16) in tune_divisor 16 256 256 td (td / p) p
  else if negb (td mod 2 =? 0) && negb (td =? 1) then Ok (Some (td, 1)) else Ok (Some (1, td)).
(** The setting is exact, or it is the next one with a prescaler as small as
    possible. *)
Definition good_pick (td : Z) : bool :=
  match pick td with
  | Ok (Some (d, p)) =>
      (0 <? d) && (d <? 2 ^ 32) && (0 <? p) &&
      (existsb (Z.eqb td) unfit ||
        ((d <=? 16) && existsb (Z.eqb p) [1; 2; 4; 8; 16; 32; 64; 128; 256] &&
         ((d * p =? td) || ((td <=? d * p) && ((d - 1) * p <? td) && (8 * p <? td)))))
  | Ok None => td =? 4097
  | Err _ => false
  end.
Lemma picks_are_good : forallb (fun n => good_pick (Z.of_nat n)) (seq 1 4097) = true.
Proof. vm_compute. reflexivity. Qed.
Lemma rounds_are_good : forallb (fun n => match round_prescaler 256 256 (Z.of_nat n) with Ok p => p =? next_prescaler (Z.of_nat n) | _ => false end) (seq 1 256) = true.
Proof. vm_compute. reflexivity. Qed.

Lemma forall_seq (f : nat -> bool) n x : forallb f (seq 1 n) = true -> 1 <= x <= Z.of_nat n -> f (Z.to_nat x) = true.
Proof. intros H Hx. rewrite forallb_forall in H. apply H, in_seq. lia. Qed.
Lemma pick_divisors_pick td : 1 <= td <= 4097 -> pick_divisors 16 256 td = pick td.
Proof.
  intros Ht. unfold pick_divisors, pick. destruct (Z.ltb_spec 16 td); [|done]. rewrite udiv_ok by done. unfold obind at 1.
  assert (HR := forall_seq _ _ (td / 16) rounds_are_good ltac:(zlia)). cbv beta in HR. rewrite Z2Nat.id in HR by zlia.
  destruct (round_prescaler 256 256 (td / 16)) as [p|]; [|done]. apply Z.eqb_eq in HR as ->. unfold obind at 1.
  rewrite udiv_ok; [done|]. unfold next_prescaler. repeat case_match; done.
Qed.

Lemma existsb_in x l : existsb (Z.eqb x) l = true <-> x ∈ l.
Proof.
  rewrite existsb_exists, list_elem_of_In. split; [by intros (y & H & ->%Z.eqb_eq)|]. intros H. exists x. by rewrite Z.eqb_refl.
Qed.

(** A divisor and prescaler that fit, and what the fields divide by then. *)
Lemma fits_fields d p : 0 < d <= 16 -> p ∈ [1; 2; 4; 8; 16; 32; 64; 128; 256] -> fits (d - 1) (Z.shiftr p 1) /\ divider (d - 1) (Z.shiftr p 1) = d * p.
Proof.
  intros Hd Hp. unfold fits, divider. replace (d - 1 + 1) with d by lia. repeat (apply elem_of_cons in Hp as [->|Hp]); [..|by apply not_elem_of_nil in Hp];
    match goal with |- context [Z.shiftr ?p 1] => let v := eval vm_compute in (Z.shiftr p 1) in change (Z.shiftr p 1) with v end;
    (split; [split; [lia|by apply existsb_in]|cbn [Z.eqb]; lia]).
Qed.
(** No setting that fits has a divider in between. *)
Lemma pick_least td d p dvs fs : 0 < d <= 16 -> p ∈ [1; 2; 4; 8; 16; 32; 64; 128; 256] -> d * p = td \/ (td <= d * p /\ (d - 1) * p < td /\ 8 * p < td) ->
  fits dvs fs -> td <= divider dvs fs -> d * p <= divider dvs fs.
Proof.
  intros Hd Hp [Ht|(H1 & H2 & H3)] [Hf Hfs] Hle; [lia|]. unfold divider, prescalers in *.
  repeat (apply elem_of_cons in Hfs as [->|Hfs]); [..|by apply not_elem_of_nil in Hfs]; cbn [Z.eqb] in *;
    repeat (apply elem_of_cons in Hp as [->|Hp]); try (by apply not_elem_of_nil in Hp); lia.
Qed.

Lemma total_divider_spec src bus : 0 < bus <= src ->
  let td := total_divider src bus in 1 <= td <= src / bus + 1 /\ src / td <= bus /\ forall e, 0 < e < td -> e * bus < src.
Proof.
  intros Hb td. unfold td, total_divider. set (q := src / bus). assert (H1 := Z.div_mod src bus ltac:(lia)). assert (H2 := Z.mod_pos_bound src bus ltac:(lia)).
  fold q in H1. set (r := src mod bus) in *. assert (Hq : 1 <= q) by (apply Z.div_le_lower_bound; lia). assert (H3 := Z.div_mod src q ltac:(lia)). assert (H4 := Z.mod_pos_bound src q ltac:(lia)).
  destruct (Z.ltb_spec bus (src / q)) as [H|H]; (split; [lia|]).
  - assert (Hr : q <= r) by nia. split; [apply Z.div_le_upper_bound; nia|]. intros e He. nia.
  - split; [done|]. intros e He. nia.
Qed.

(** ** The register *)

Definition dvs_of (sysctl : Z) : Z := Z.land (Z.shiftr sysctl 4) 15.
Definition fs_of (sysctl : Z) : Z := Z.land (Z.shiftr sysctl 8) 255.
Definition rest_of (sysctl : Z) : Z := Z.land sysctl (Z.lnot 0xFFF0).
Definition written (s dvs fs : Z) : Z := Z.lor (bic32 s (Z.lor 0xF0 0xFF00)) (Z.lor (Z.land (Z.shiftl dvs 4) 0xF0) (Z.land (Z.shiftl fs 8) 0xFF00)).
Lemma written_testbit s dvs fs i : 0 <= s < 2 ^ 32 -> 0 <= i -> Z.testbit (written s dvs fs) i =
  if i <? 4 then Z.testbit s i else if i <? 8 then Z.testbit dvs (i - 4) else if i <? 16 then Z.testbit fs (i - 8) else Z.testbit s i.
Proof.
  intros Hs Hi. unfold written. rewrite !Z.lor_spec, !Z.land_spec, !Z.shiftl_spec by lia. change 0xF0 with (Z.ones 8 - Z.ones 4). change 0xFF00 with (Z.ones 16 - Z.ones 8).
  assert (Hm : forall a b, 0 <= a <= b -> Z.testbit (Z.ones b - Z.ones a) i = (a <=? i) && (i <? b)).
  { intros a b Hab. replace (Z.ones b - Z.ones a) with (Z.shiftl (Z.ones (b - a)) a).
    - rewrite Z.shiftl_spec by lia. destruct (Z.leb_spec a i); cbn [andb]; [|by rewrite Z.testbit_neg_r by lia].
      rewrite Z.testbit_ones by lia. destruct (Z.ltb_spec i b), (Z.leb_spec 0 (i - a)), (Z.ltb_spec (i - a) (b - a)); done || lia.
    - rewrite Z.shiftl_mul_pow2, !Z.ones_equiv by lia. rewrite <- !Z.sub_1_r. rewrite Z.mul_sub_distr_r, <- Z.pow_add_r by lia. replace (b - a + a) with b by lia. lia. }
  destruct (Z.lt_ge_cases i 32) as [H32|H32].
  - rewrite bic_testbit by lia. rewrite Z.lor_spec, !Hm by lia.
    repeat match goal with |- context [Z.leb ?a ?b] => destruct (Z.leb_spec a b) | |- context [Z.ltb ?a ?b] => destruct (Z.ltb_spec a b) end; try lia; cbn [andb orb negb];
      rewrite ?andb_true_r, ?andb_false_r, ?orb_false_r; done.
  - rewrite !Hm by lia. unfold bic. rewrite Z.land_spec, wrap_testbit_high, andb_false_r by lia. rewrite (testbit_above s 32) by lia.
    repeat match goal with |- context [Z.leb ?a ?b] => destruct (Z.leb_spec a b) | |- context [Z.ltb ?a ?b] => destruct (Z.ltb_spec a b) end; try lia; cbn [andb orb negb];
      rewrite ?andb_true_r, ?andb_false_r, ?orb_false_r; done.
Qed.
Lemma written_fields s dvs fs : 0 <= s < 2 ^ 32 -> 0 <= dvs -> 0 <= fs < 256 ->
  dvs_of (written s dvs fs) = dvs mod 16 /\ fs_of (written s dvs fs) = fs /\ rest_of (written s dvs fs) = rest_of s.
Proof.
  intros Hs Hd Hf. split; [|split].
  - change 16 with (2 ^ 4). rewrite <- Z.land_ones by lia. apply Z.bits_inj'. intros i Hi. unfold dvs_of. rewrite !Z.land_spec, Z.shiftr_spec by lia.
    change 15 with (Z.ones 4). rewrite !Z.testbit_ones by lia. rewrite written_testbit by lia.
    destruct (Z.ltb_spec i 4); [|by rewrite !andb_false_r]. rewrite (proj2 (Z.ltb_ge (i + 4) 4)), (proj2 (Z.ltb_lt (i + 4) 8)) by lia. by replace (i + 4 - 4) with i by lia.
  - rewrite <- (Z.mod_small fs (2 ^ 8)) at 2 by done. rewrite <- Z.land_ones by lia. apply Z.bits_inj'. intros i Hi. unfold fs_of. rewrite !Z.land_spec, Z.shiftr_spec by lia.
    change 255 with (Z.ones 8). rewrite !Z.testbit_ones by lia. rewrite written_testbit by lia.
    destruct (Z.ltb_spec i 8); [|by rewrite !andb_false_r]. rewrite (proj2 (Z.ltb_ge (i + 8) 4)), (proj2 (Z.ltb_ge (i + 8) 8)), (proj2 (Z.ltb_lt (i + 8) 16)) by lia.
    by replace (i + 8 - 8) with i by lia.
  - apply Z.bits_inj'. intros i Hi. unfold rest_of. rewrite !Z.land_spec, written_testbit by lia. rewrite Z.lnot_spec by lia.
    change 0xFFF0 with (Z.shiftl (Z.ones 12) 4). rewrite Z.shiftl_spec by lia. destruct (Z.ltb_spec i 4); [done|].
    rewrite Z.testbit_ones by lia. destruct (Z.ltb_spec i 16); [|by rewrite (proj2 (Z.ltb_ge i 8)) by lia].
    rewrite (proj2 (Z.leb_le 0 (i - 4))), (proj2 (Z.ltb_lt (i - 4) 12)) by lia. by rewrite !andb_false_r.
Qed.

(** What the manual says of the clock: the register, its fields, and that the
    clock is stable after at most [latency] looks. *)
Class SdClockLaws {D : Type} `{!Device usdhc_reg D} {F : UsdhcFields} := {
  sysctl : D -> Z;
  settles : D -> nat;
  latency : nat;
  dvs_mask : USDHC_SYS_CTRL_DVS_MASK = 0xF0; dvs_shift : USDHC_SYS_CTRL_DVS_SHIFT = 4;
  dvs_field x : USDHC_SYS_CTRL_DVS x = Z.land (Z.shiftl x 4) 0xF0;
  fs_mask : USDHC_SYS_CTRL_SDCLKFS_MASK = 0xFF00; fs_shift : USDHC_SYS_CTRL_SDCLKFS_SHIFT = 8;
  fs_field x : USDHC_SYS_CTRL_SDCLKFS x = Z.land (Z.shiftl x 8) 0xFF00;
  sysctl_width d : 0 <= sysctl d < 2 ^ 32;
  sysctl_read d : (reg_read SYS_CTRL d).1 = sysctl d /\ sysctl (reg_read SYS_CTRL d).2 = sysctl d;
  sysctl_write v d : 0 <= v < 2 ^ 32 -> sysctl (reg_write SYS_CTRL v d) = v /\ (settles (reg_write SYS_CTRL v d) <= latency)%nat;
  state_read d : has (reg_read PRES_STATE d).1 USDHC_PRES_STATE_SDSTB_MASK = (settles d =? 0)%nat /\
    sysctl (reg_read PRES_STATE d).2 = sysctl d /\ settles (reg_read PRES_STATE d).2 = Nat.pred (settles d)
}.

Lemma written_width s dvs fs : 0 <= s < 2 ^ 32 -> 0 <= written s dvs fs < 2 ^ 32.
Proof.
  intros Hs. assert (E : written s dvs fs = written s dvs fs mod 2 ^ 32); [|rewrite E; by apply Z.mod_pos_bound].
  apply Z.bits_inj'. intros i Hi. destruct (Z.lt_ge_cases i 32); [by rewrite Z.mod_pow2_bits_low by lia|].
  rewrite Z.mod_pow2_bits_high, written_testbit by lia. rewrite (proj2 (Z.ltb_ge i 4)), (proj2 (Z.ltb_ge i 8)), (proj2 (Z.ltb_ge i 16)) by lia.
  by apply (testbit_above s 32).
Qed.

Section Clock.
Context {D : Type} `{L : SdClockLaws D} {X : UsdhcFeatures} (fuel : nat).

Lemma clock_stable n : forall d (Q : unit -> D -> Prop), (settles d < n)%nat -> (forall d', sysctl d' = sysctl d -> Q tt d') -> wp (poll_clear n PRES_STATE USDHC_PRES_STATE_SDSTB_MASK) Q d.
Proof.
  induction n as [|n IH]; intros d Q Hn HQ; [lia|]. unfold poll_clear. cbn [while_]. rewrite wp_bind, wp_bind. unfold wp at 1, rd.
  destruct (state_read d) as (H1 & H2 & H3). destruct (reg_read PRES_STATE d) as [x d']. cbn [fst snd] in *. rewrite wp_ret, H1.
  destruct (settles d) as [|m] eqn:E; cbn [Nat.eqb negb]; [rewrite wp_ret; by apply HQ|]. rewrite wp_bind, wp_ret. apply IH; [rewrite H3; cbn; lia|]. intros d2 Hd2. apply HQ. congruence.
Qed.

Definition picked (src : Z) (p : option (Z * Z)) : option (Z * Z * Z) := match p with Some (d, p) => Some (d, p, src / d / p) | None => None end.
Lemma clock_setting_run src bus : 0 < bus <= src -> src < 2 ^ 32 ->
  (src / bus <= 4096 -> exists p, pick (total_divider src bus) = Ok p /\ clock_setting src bus = Ok (picked src p)) /\ (4096 < src / bus -> clock_setting src bus = Ok None).
Proof.
  intros Hb Hs. unfold clock_setting. assert (EM : USDHC_MAX_DVS = 16) by (unfold USDHC_MAX_DVS; by rewrite dvs_mask, dvs_shift).
  assert (EC : USDHC_MAX_CLKFS = 256) by (unfold USDHC_MAX_CLKFS; by rewrite fs_mask, fs_shift). rewrite EM, EC.
  rewrite udiv_ok by lia. cbn [obind]. change (u32 (256 * 16)) with 4096. set (q := src / bus). assert (Hq : 1 <= q) by (apply Z.div_le_lower_bound; lia). split; intros H.
  - rewrite (proj2 (Z.ltb_ge 4096 q)) by done. rewrite (proj2 (Z.eqb_neq q 0)) by lia. cbn [negb]. rewrite udiv_ok by lia. cbn [obind].
    replace (if bus <? src / q then u32 (q + 1) else q) with (total_divider src bus) by (unfold total_divider; fold q; rewrite (wrap_small 32 (q + 1)) by (pow2; lia); done).
    assert (Ht := total_divider_spec src bus Hb). cbv zeta in Ht. fold q in Ht. set (td := total_divider src bus) in *. rewrite pick_divisors_pick by lia.
    assert (HG := forall_seq _ _ td picks_are_good ltac:(lia)). cbv beta in HG. rewrite Z2Nat.id in HG by lia. unfold good_pick in HG.
    destruct (pick td) as [[[d p]|]|]; [|by eexists|done]. exists (Some (d, p)). split; [done|]. cbn [obind].
    apply andb_prop in HG as [[[Hd _]%andb_prop Hp]%andb_prop _]. apply Z.ltb_lt in Hd, Hp. rewrite (proj2 (Z.eqb_neq d 0)), udiv_ok by lia. done.
  - by rewrite (proj2 (Z.ltb_lt 4096 q)).
Qed.

(** What a call does: nothing and 0, or the fields of the picked setting. *)
Lemma set_clock_run src bus d : 0 < src < 2 ^ 32 -> 0 < bus < 2 ^ 32 -> (latency < fuel)%nat -> let td := total_divider src (Z.min src bus) in
  exists n d', USDHC_SetSdClock fuel src bus d = Ok (n, d') /\
    if 4096 <? td then n = 0 /\ d' = d
    else exists dv p, pick td = Ok (Some (dv, p)) /\ n = src / dv / p /\ sysctl d' = written (sysctl d) (dv - 1) (Z.shiftr p 1).
Proof.
  intros Hs Hb Hf td. set (bus' := Z.min src bus) in *. assert (Hb' : 0 < bus' <= src) by lia. assert (HT := total_divider_spec src bus' Hb'). cbv zeta in HT. fold td in HT.
  unfold USDHC_SetSdClock. rewrite !assert_true by (apply negb_true_iff, Z.eqb_neq; lia). rewrite !bind_ret. cbv zeta.
  replace (if src <? bus then src else bus) with bus' by (unfold bus'; destruct (Z.ltb_spec src bus); lia). destruct (clock_setting_run src bus' Hb' ltac:(lia)) as [C1 C2].
  assert (Hq : total_divider src bus' <= 4096 -> src / bus' <= 4096) by (unfold total_divider; destruct (_ <? _); lia). fold td in Hq.
  destruct (Z.lt_ge_cases 4096 (src / bus')) as [Hc|Hc].
  - rewrite (C2 Hc), bind_lift. exists 0, d. split; [done|]. rewrite (proj2 (Z.ltb_lt 4096 td)) by lia. done.
  - destruct (C1 Hc) as (p & Hp & ->). fold td in Hp. rewrite bind_lift. assert (HG := forall_seq _ _ td picks_are_good ltac:(lia)). cbv beta in HG. rewrite Z2Nat.id in HG by lia.
    unfold good_pick in HG. rewrite Hp in HG. destruct p as [[dv p]|]; cbn [picked].
    + apply andb_prop in HG as [[[Hd Hd']%andb_prop Hp']%andb_prop _]. apply Z.ltb_lt in Hd, Hd', Hp'.
      rewrite (proj2 (Z.eqb_neq dv 0)), (proj2 (Z.eqb_neq p 0)) by lia. cbn [negb]. rewrite (wrap_small 32 (dv - 1)) by (pow2; lia).
      assert (HW : wp (set_field SYS_CTRL (Z.lor USDHC_SYS_CTRL_DVS_MASK USDHC_SYS_CTRL_SDCLKFS_MASK) (Z.lor (USDHC_SYS_CTRL_DVS (dv - 1)) (USDHC_SYS_CTRL_SDCLKFS (Z.shiftr p 1))) ;;
          poll_clear fuel PRES_STATE USDHC_PRES_STATE_SDSTB_MASK ;; ret (src / dv / p))
        (fun n d' => n = src / dv / p /\ sysctl d' = written (sysctl d) (dv - 1) (Z.shiftr p 1)) d).
      { rewrite wp_bind. unfold set_field. rewrite wp_bind. unfold wp at 1, rd. destruct (sysctl_read d) as [R1 R2]. destruct (reg_read SYS_CTRL d) as [x d1]. cbn [fst snd] in *. subst x.
        rewrite dvs_mask, fs_mask, dvs_field, fs_field. fold (written (sysctl d) (dv - 1) (Z.shiftr p 1)). set (v := written _ _ _). unfold wp at 1, wr.
        destruct (sysctl_write v d1) as [W1 W2]; [apply written_width, sysctl_width|]. rewrite wp_bind. apply clock_stable; [lia|]. intros d2 Hd2. rewrite wp_ret. split; [done|congruence]. }
      apply wp_inv in HW as (n & d' & E & -> & E2). exists (src / dv / p), d'. split; [exact E|].
      assert (H4 : td <= 4096). { destruct (Z.lt_ge_cases 4096 td); [|lia]. exfalso. assert (td = 4097) as E4 by lia. rewrite E4 in Hp. by vm_compute in Hp. }
      rewrite (proj2 (Z.ltb_ge 4096 td)) by done. by exists dv, p.
    + apply Z.eqb_eq in HG. exists 0, d. split; [done|]. by rewrite (proj2 (Z.ltb_lt 4096 td)) by lia.
Qed.

(** C35: The clock set is the fastest the register can express that is not
    above the one asked for, to the Hz, and its frequency is returned; other
    fields of the register are kept.  A clock that is too slow for the
    dividers is refused with 0 and nothing is written. *)
Theorem usdhc_clock_closest src bus d : 0 < src < 2 ^ 32 -> 0 < bus < 2 ^ 32 -> (latency < fuel)%nat ->
  let asked := Z.min src bus in let td := total_divider src asked in td ∉ unfit ->
  exists n d', USDHC_SetSdClock fuel src bus d = Ok (n, d') /\
    if 4096 <? td then n = 0 /\ d' = d
    else let dvs := dvs_of (sysctl d') in let fs := fs_of (sysctl d') in
      fits dvs fs /\ n = src / divider dvs fs /\ n <= asked /\ rest_of (sysctl d') = rest_of (sysctl d) /\
      forall dvs' fs', fits dvs' fs' -> divider dvs' fs' < divider dvs fs -> divider dvs' fs' * asked < src.
Proof.
  intros Hs Hb Hf asked td Hu. destruct (set_clock_run src bus d Hs Hb Hf) as (n & d' & E & H). fold asked in H. fold td in H. exists n, d'. split; [exact E|].
  destruct (Z.ltb_spec 4096 td) as [H4|H4]; [done|]. destruct H as (dv & p & Hp & -> & ->).
  assert (HT := total_divider_spec src asked ltac:(lia)). cbv zeta in HT. fold td in HT. destruct HT as (T1 & T2 & T3).
  assert (HG := forall_seq _ _ td picks_are_good ltac:(lia)). cbv beta in HG. rewrite Z2Nat.id in HG by lia. unfold good_pick in HG. rewrite Hp in HG.
  apply andb_prop in HG as [[[Hd _]%andb_prop _]%andb_prop HG]. apply orb_prop in HG as [HG%existsb_in|HG]; [done|].
  apply andb_prop in HG as [[H16 Hpp]%andb_prop HG]. apply Z.ltb_lt in Hd. apply Z.leb_le in H16. apply existsb_in in Hpp.
  assert (HG' : dv * p = td \/ (td <= dv * p /\ (dv - 1) * p < td /\ 8 * p < td)) by lia.
  destruct (fits_fields dv p ltac:(lia) Hpp) as [F1 F2]. assert (Hfs : 0 <= Z.shiftr p 1 < 256).
  { destruct F1 as [_ F1]. unfold prescalers in F1. rewrite !elem_of_cons, elem_of_nil in F1. lia. }
  destruct (written_fields (sysctl d) (dv - 1) (Z.shiftr p 1) (sysctl_width d) ltac:(lia) Hfs) as (W1 & W2 & W3). cbv zeta. rewrite W1, W2, W3, (Z.mod_small (dv - 1)) by lia.
  split; [done|]. rewrite F2. assert (Hp0 : 0 < p) by (repeat (apply elem_of_cons in Hpp as [->|Hpp]; [lia|]); by apply not_elem_of_nil in Hpp).
  rewrite Z.div_div by lia. split; [done|]. split; [|split; [done|]].
  - etransitivity; [|exact T2]. apply Z.div_le_compat_l; lia.
  - intros dvs' fs' Hfit Hlt. apply T3. split; [|].
    + destruct Hfit as [Hf1 Hf2]. unfold divider. unfold prescalers in Hf2. rewrite !elem_of_cons, elem_of_nil in Hf2. destruct (Z.eqb_spec fs' 0); nia.
    + destruct (Z.lt_ge_cases (divider dvs' fs') td) as [|Hge]; [done|]. assert (HL := pick_least td dv p dvs' fs' ltac:(lia) Hpp HG' Hfit Hge). lia.
Qed.

(** What the picked setting of an unfit ratio becomes in the register. *)
Definition misfit (td : Z) : bool :=
  match pick td with
  | Ok (Some (dv, p)) => (0 <? dv) && (0 <? p) && (dv * p =? td) && (0 <=? Z.shiftr p 1) && (Z.shiftr p 1 <? 256) &&
      (negb (existsb (Z.eqb (Z.shiftr p 1)) prescalers) || (3 * divider ((dv - 1) mod 16) (Z.shiftr p 1) <? td))
  | _ => false
  end.
Lemma unfit_misfit : forallb misfit unfit = true.
Proof. vm_compute. reflexivity. Qed.

(** For the remaining ratios the frequency asked for is reported, but the
    register has more than one bit of the prescaler set, or the divisor was
    cut to its field and the clock is more than three times too fast. *)
Theorem usdhc_clock_unfit src bus d : 0 < src < 2 ^ 32 -> 0 < bus < 2 ^ 32 -> (latency < fuel)%nat ->
  let asked := Z.min src bus in let td := total_divider src asked in td ∈ unfit ->
  exists n d', USDHC_SetSdClock fuel src bus d = Ok (n, d') /\ n = src / td /\
    let dvs := dvs_of (sysctl d') in let fs := fs_of (sysctl d') in fs ∉ prescalers \/ 3 * divider dvs fs < td.
Proof.
  intros Hs Hb Hf asked td Hu. destruct (set_clock_run src bus d Hs Hb Hf) as (n & d' & E & H). fold asked in H. fold td in H. exists n, d'. split; [exact E|].
  assert (HM := unfit_misfit). rewrite forallb_forall in HM. specialize (HM td (proj1 (list_elem_of_In _ _) Hu)).
  assert (H4 : td <= 4096). { clear - Hu. unfold unfit in Hu. rewrite !elem_of_cons, elem_of_nil in Hu. lia. }
  rewrite (proj2 (Z.ltb_ge 4096 td)) in H by done. destruct H as (dv & p & Hp & -> & ->). unfold misfit in HM. rewrite Hp in HM.
  apply andb_prop in HM as [[[[[M1 M2]%andb_prop M3]%andb_prop M4]%andb_prop M5]%andb_prop M6].
  destruct (written_fields (sysctl d) (dv - 1) (Z.shiftr p 1) (sysctl_width d) ltac:(lia) ltac:(lia)) as (W1 & W2 & _). cbv zeta. rewrite W1, W2.
  rewrite Z.div_div by lia. split; [f_equal; lia|]. apply orb_prop in M6 as [M6|M6]; [left|right; lia]. intros Hi%existsb_in. by rewrite Hi in M6.
Qed.
End Clock.
