(* ===== verification/UsdhcPort.v ===== *)
(** * The data port of the SD host controller

    Reading a transfer word by word, polled: [USDHC_ReadByDataPortBlocking]
    stores the words of the card, whatever the watermark, and comes to an end
    when the controller answers.  What the interrupt handler does with a DMA
    error, which no handler is called for. *)

From stdpp Require Import base list numbers tactics.
From Stdlib Require Import ZArith Lia.
From S2P Require Import Prelude Mmio Usdhc UsdhcTransfer.

Open Scope Z_scope.
Open Scope prog_scope.

(** The words read so far, the words in the buffer, and the looks until it is
    announced. *)
Record port := Port { p_taken : Z; p_filled : Z; p_soon : nat }.

(** What the manual says of the port while a card sends [card_total] words:
    the flag announces as many words as the watermark says, or the last ones,
    after at most [port_latency] looks; writing the flags back starts anew. *)
Class SdPortLaws {D : Type} `{!Device usdhc_reg D} {F : UsdhcFields} {X : UsdhcFeatures} := {
  card : Z -> Z;
  card_total : Z;
  level : Z;
  port_latency : nat;
  port_view : D -> port;
  level_positive : 0 < level < 2 ^ 32;
  level_read d : Z.shiftr (Z.land (reg_read WTMK_LVL d).1 USDHC_WTMK_LVL_RD_WML_MASK) USDHC_WTMK_LVL_RD_WML_SHIFT = level /\
    port_view (reg_read WTMK_LVL d).2 = port_view d;
  mix_read d : has (reg_read MIX_CTRL d).1 USDHC_MIX_CTRL_DMAEN_MASK = false /\ port_view (reg_read MIX_CTRL d).2 = port_view d;
  flags_read d : let x := (reg_read INT_STATUS d).1 in let p := port_view d in let p' := port_view (reg_read INT_STATUS d).2 in
    has x kUSDHC_DataErrorFlag = false /\ has x kUSDHC_TuningErrorFlag = false /\ has x kUSDHC_BufferReadReadyFlag = (p_soon p =? 0)%nat /\
    p_taken p' = p_taken p /\ p_soon p' = Nat.pred (p_soon p) /\ (p_soon p = 0%nat -> Z.min level (card_total - p_taken p) <= p_filled p');
  port_read d : let p := port_view d in 0 < p_filled p ->
    (reg_read DATA_BUFF_ACC_PORT d).1 = card (p_taken p) /\ port_view (reg_read DATA_BUFF_ACC_PORT d).2 = Port (p_taken p + 1) (p_filled p - 1) (p_soon p);
  flags_write v d : let p := port_view (reg_write INT_STATUS v d) in p_taken p = p_taken (port_view d) /\ (p_soon p <= port_latency)%nat
}.

Lemma has_either x a b : has x (Z.lor a b) = has x a || has x b.
Proof.
  unfold has. rewrite Z.land_lor_distr_r. destruct (Z.eqb_spec (Z.land x a) 0) as [E|E], (Z.eqb_spec (Z.land x b) 0) as [E2|E2]; cbn [negb orb];
    rewrite ?E, ?E2, ?Z.lor_0_l; [done|by apply negb_true_iff, Z.eqb_neq|..]; apply negb_true_iff, Z.eqb_neq; intros [H1 H2]%Z.lor_eq_0_iff; done.
Qed.

Section Port.
Context {D A : Type} `{L : SdPortLaws D} (fuel : nat).
Abbreviation W := (usdhc_world D A).
Abbreviation pv w := (port_view (u_hw w)).
Context (waits : (port_latency < fuel)%nat).

(** The memory when [n] words have been stored. *)
Definition received (rxData n : Z) (mem : memory) : memory :=
  fun a => if (rxData <=? a) && (a <? rxData + 4 * n) && ((a - rxData) mod 4 =? 0) then card ((a - rxData) / 4) else mem a.
(** What the loop keeps. *)
Definition reading (rxData : Z) (w0 : W) (n : Z) (w : W) : Prop :=
  p_taken (pv w) = n /\ (forall a, u_mem w a = received rxData n (u_mem w0) a) /\ u_handle w = u_handle w0 /\ u_app w = u_app w0.

Lemma received_next rx n mem a : 0 <= n -> (if a =? rx + 4 * n then card n else received rx n mem a) = received rx (n + 1) mem a.
Proof.
  intros Hn. unfold received. destruct (Z.eqb_spec a (rx + 4 * n)) as [->|Ha].
  - replace (rx + 4 * n - rx) with (n * 4) by lia. rewrite Z.mod_mul, Z.div_mul, (proj2 (Z.leb_le _ _)), (proj2 (Z.ltb_lt _ _)) by lia. done.
  - destruct (Z.eqb_spec ((a - rx) mod 4) 0) as [Hm|_]; [|by rewrite !andb_false_r]. rewrite !andb_true_r.
    destruct (Z.ltb_spec a (rx + 4 * n)), (Z.ltb_spec a (rx + 4 * (n + 1))); try done; zlia.
Qed.

Lemma wp_on_peripheral {B} (m : M D B) (Q : B -> W -> Prop) (w : W) : wp m (fun b d => Q b (with_hw d w)) (u_hw w) -> wp (on_hw m) Q w.
Proof. unfold wp, on_hw. by destruct (m (u_hw w)) as [[b d]|]. Qed.

Lemma wait_announced n : forall (d : D) (Q : Z -> D -> Prop), (p_soon (port_view d) < n)%nat ->
  (forall x d', has x kUSDHC_DataErrorFlag = false -> has x kUSDHC_TuningErrorFlag = false -> p_taken (port_view d') = p_taken (port_view d) ->
     Z.min level (card_total - p_taken (port_view d)) <= p_filled (port_view d') -> Q x d') ->
  wp (wait_flags n (ors [kUSDHC_BufferReadReadyFlag; kUSDHC_DataErrorFlag; kUSDHC_TuningErrorFlag]) 0) Q d.
Proof.
  assert (HG : forall n x0 (d : D) (Q : Z -> D -> Prop), (p_soon (port_view d) < n)%nat -> has x0 (ors [kUSDHC_BufferReadReadyFlag; kUSDHC_DataErrorFlag; kUSDHC_TuningErrorFlag]) = false ->
    (forall x d', has x kUSDHC_DataErrorFlag = false -> has x kUSDHC_TuningErrorFlag = false -> p_taken (port_view d') = p_taken (port_view d) ->
       Z.min level (card_total - p_taken (port_view d)) <= p_filled (port_view d') -> Q x d') ->
    wp (wait_flags n (ors [kUSDHC_BufferReadReadyFlag; kUSDHC_DataErrorFlag; kUSDHC_TuningErrorFlag]) x0) Q d).
  { clear n. induction n as [|n IH]; intros x0 d Q Hn H0 HQ; [lia|]. cbn [wait_flags]. rewrite H0, wp_bind. unfold wp at 1, USDHC_GetInterruptStatusFlags, rd.
    destruct (flags_read d) as (H1 & H2 & H3 & H4 & H5 & H6). destruct (reg_read INT_STATUS d) as [x d'] eqn:E. cbn [fst snd] in *.
    assert (Hx : has x (ors [kUSDHC_BufferReadReadyFlag; kUSDHC_DataErrorFlag; kUSDHC_TuningErrorFlag]) = (p_soon (port_view d) =? 0)%nat).
    { unfold ors. cbn [foldr]. rewrite !has_either, H1, H2, H3. replace (has x 0) with false by (unfold has; by rewrite Z.land_0_r). by rewrite !orb_false_r. }
    destruct (p_soon (port_view d)) as [|m] eqn:Es.
    - destruct n; cbn [wait_flags]; rewrite Hx; cbn [Nat.eqb]; rewrite wp_ret; apply HQ; auto.
    - apply IH; [rewrite H5; cbn; lia|exact Hx|]. intros y d2 G1 G2 G3 G4. apply HQ; [done|done|congruence|]. by rewrite <- H4. }
  intros d Q Hn HQ. apply HG; [done| |done]. unfold has. by rewrite Z.land_0_l.
Qed.

Lemma reading_words rx w0 m : forall k (w : W) (Q : Z -> W -> Prop), 0 <= k -> k + Z.of_nat m < 2 ^ 32 -> 0 <= rx -> rx + 4 * (k + Z.of_nat m) <= 2 ^ 32 ->
  reading rx w0 k w -> Z.of_nat m <= p_filled (pv w) ->
  (forall w', reading rx w0 (k + Z.of_nat m) w' -> p_soon (pv w') = p_soon (pv w) -> Q (k + Z.of_nat m) w') -> wp (read_words m rx k) Q w.
Proof.
  induction m as [|m IH]; intros k w Q Hk Hkm Hrx Htop HR Hf HQ; cbn [read_words]; [rewrite wp_ret; change (Z.of_nat 0) with 0 in HQ; rewrite Z.add_0_r in HQ; by apply HQ|].
  destruct HR as (R1 & R2 & R3 & R4). rewrite wp_bind. apply wp_on_peripheral. unfold wp at 1, USDHC_ReadData, rd. assert (Hp : 0 < p_filled (pv w)) by lia. destruct (port_read (u_hw w) Hp) as [P1 P2].
  destruct (reg_read DATA_BUFF_ACC_PORT (u_hw w)) as [x d]. cbn [fst snd] in *. subst x. rewrite R1 in *. rewrite wp_bind.
  unfold wp at 1, store, on_mem, put_word, modify, word. cbv beta iota. cbn [u_mem with_hw]. rewrite (wrap_small 32 (k + 1)), (wrap_small 32 (rx + 4 * k)) by (pow2; lia).
  assert (HS : p_soon (port_view d) = p_soon (pv w)) by (by rewrite P2).
  apply IH; [lia|lia|done|lia| |cbn [u_hw with_mem with_hw]; rewrite P2; cbn; lia|].
  - split; [cbn [u_hw with_mem with_hw]; by rewrite P2|]. split; [|done]. intros a. cbn [u_mem with_mem]. rewrite <- received_next by done. by destruct (a =? _).
  - replace (k + 1 + Z.of_nat m) with (k + Z.of_nat (S m)) by lia. intros w' H1 H2. apply HQ; [done|]. rewrite H2. exact HS.
Qed.

(** One reading of the port takes a watermark of words, or the last ones. *)
Lemma reading_port d w0 k (w : W) (Q : usdhc_data * Z -> W -> Prop) : let da := align_blocks d in align_blocks da = da ->
  total_words da = card_total -> card_total < 2 ^ 30 -> 0 <= rxData d -> rxData d + 4 * card_total <= 2 ^ 32 ->
  0 <= k < card_total -> reading (rxData d) w0 k w -> Z.min level (card_total - k) <= p_filled (pv w) -> (k = 0 \/ level < card_total) ->
  (forall w' k', reading (rxData d) w0 k' w' -> k < k' <= card_total -> k' = card_total \/ level < card_total -> Q (da, k') w') ->
  wp (USDHC_ReadDataPort da k) Q w.
Proof.
  intros da Hal Ht Htop Hrx Hm Hk HR Hf Hl HQ. assert (HL := level_positive). unfold USDHC_ReadDataPort. rewrite wp_bind. apply wp_on_peripheral. unfold wp at 1, rd.
  destruct (level_read (u_hw w)) as [L1 L2]. destruct (reg_read WTMK_LVL (u_hw w)) as [x d1]. cbn [fst snd] in *. cbv zeta. rewrite L1, wp_bind. apply wp_on_peripheral. unfold wp at 1, rd. cbn [u_hw with_hw].
  destruct (mix_read d1) as [M1 M2]. destruct (reg_read MIX_CTRL d1) as [y d2]. cbn [fst snd] in *. rewrite M1, Hal, Ht, wp_bind. change (rxData da) with (rxData d).
  assert (HN : words_now level card_total k = Z.min level (card_total - k)). { unfold words_now. rewrite (wrap_small 32 (card_total - k)) by (pow2; lia).
    destruct (Z.leb_spec card_total level), (Z.ltb_spec level card_total), (Z.leb_spec level (card_total - k)); cbn [andb]; lia. }
  rewrite HN. set (m := Z.min level (card_total - k)) in *. destruct HR as (R1 & R2 & R3 & R4).
  apply (reading_words (rxData d) w0); [lia|lia|done|lia| |cbn [u_hw with_hw]; rewrite M2, L2; lia|].
  - split; [|done]. cbn [u_hw with_hw]. by rewrite M2, L2.
  - rewrite Z2Nat.id by lia. intros w' H1 _. rewrite wp_ret. apply HQ; [done|lia|lia].
Qed.

Lemma reading_loop d w0 n : forall k (w : W) (Q : status_t * bool * usdhc_data -> W -> Prop), let da := align_blocks d in align_blocks da = da -> is_tuning d = false ->
  total_words da = card_total -> card_total < 2 ^ 30 -> 0 <= rxData d -> rxData d + 4 * card_total <= 2 ^ 32 ->
  0 <= k <= card_total -> card_total - k <= Z.of_nat n -> reading (rxData d) w0 k w -> (p_soon (pv w) <= port_latency)%nat -> k = 0 \/ k = card_total \/ level < card_total ->
  (forall w', reading (rxData d) w0 card_total w' -> Q (kStatus_Success, false, da) w') -> wp (read_port_loop fuel n da k) Q w.
Proof.
  induction n as [|n IH]; intros k w Q da Hal Htu Ht Htop Hrx Hm Hk Hn HR Hs Hl HQ; cbn [read_port_loop]; rewrite Ht; destruct (Z.ltb_spec k card_total) as [Hkt|Hkt]; cbn [negb]; try lia;
    try (rewrite wp_ret; apply HQ; by replace card_total with k by lia).
  rewrite wp_bind. apply wp_on_peripheral, wait_announced; [lia|]. intros x d' E1 E2 E3 E4. change (is_tuning da) with (is_tuning d). rewrite Htu. cbn [andb].
  unfold port_error at 1. rewrite E1, E2, andb_false_r. cbv iota. rewrite wp_bind. apply wp_on_peripheral. rewrite wp_ret. rewrite wp_bind. destruct HR as (R1 & R2 & R3 & R4). rewrite R1 in *.
  apply (reading_port d w0); [done|done|done|done|done|lia|split; [cbn [u_hw with_hw]; congruence|done]|done|lia|].
  intros w1 k1 H1 H2 H3. cbn [fst snd]. rewrite wp_bind. apply wp_on_peripheral. unfold wp at 1, USDHC_ClearInterruptStatusFlags, wr.
  destruct (flags_write kUSDHC_BufferReadReadyFlag (u_hw w1)) as [F1 F2]. destruct H1 as (S1 & S2 & S3 & S4).
  apply IH; [done|done|done|done|done|done|lia|lia| |done|lia|done]. split; [cbn [u_hw with_hw]; congruence|done].
Qed.

(** C14: A polled read of a transfer ends, and has stored the words of the
    card in order, with any watermark; memory outside the buffer and the
    handle are untouched.  The size of a block has been rounded up to words. *)
Theorem usdhc_polled_read (d : usdhc_data) (w : W) : total_words (align_blocks d) = card_total -> card_total < 2 ^ 30 -> (Z.to_nat card_total <= fuel)%nat -> 0 <= blockSize d < 2 ^ 32 - 3 ->
  is_tuning d = false -> 0 <= rxData d -> rxData d + 4 * card_total <= 2 ^ 32 -> p_taken (port_view (u_hw w)) = 0 -> (p_soon (port_view (u_hw w)) <= port_latency)%nat ->
  exists w', USDHC_ReadByDataPortBlocking fuel d w = Ok ((kStatus_Success, align_blocks d), w') /\
    (forall a, u_mem w' a = received (rxData d) card_total (u_mem w) a) /\ p_taken (port_view (u_hw w')) = card_total /\ u_handle w' = u_handle w /\ u_app w' = u_app w.
Proof.
  intros Ht Htop Hf Hb Htu Hrx Hm H0 Hs. assert (Hal : align_blocks (align_blocks d) = align_blocks d).
  { unfold align_blocks, with_blockSize. cbn [blockSize enableAutoCommand12 enableAutoCommand23 enableIgnoreError dataType blockCount rxData txData]. f_equal. unfold word_aligned.
    destruct (Z.eqb_spec (blockSize d mod 4) 0) as [E|E]; cbn [negb]; [by rewrite E|]. rewrite wrap_small by (pow2; zlia). replace ((_ + _) mod 4) with 0 by zlia. done. }
  assert (Hpos : 0 <= card_total) by (rewrite <- Ht; unfold total_words; assert (HB := wrap_bound 32 (blockCount (align_blocks d) * blockSize (align_blocks d)) ltac:(done)); zlia).
  assert (HW : wp (USDHC_ReadByDataPortBlocking fuel d) (fun r w' => r = (kStatus_Success, align_blocks d) /\ reading (rxData d) w card_total w') w).
  { unfold USDHC_ReadByDataPortBlocking. rewrite wp_bind. apply (reading_loop d w fuel 0); [done|done|done|done|done|done|lia|lia| |done|lia|].
    - split; [done|]. split; [|done]. intros a. unfold received. destruct (Z.leb_spec (rxData d) a), (Z.ltb_spec a (rxData d + 4 * 0)); done || lia.
    - intros w1 (S1 & S2 & S3 & S4). cbv beta iota. rewrite wp_bind. apply wp_on_peripheral. unfold wp at 1, USDHC_ClearInterruptStatusFlags, wr. rewrite wp_ret. split; [done|].
      destruct (flags_write kUSDHC_DataCompleteFlag (u_hw w1)) as [F1 F2]. split; [cbn [u_hw with_hw]; congruence|done]. }
  apply wp_inv in HW as (r & w' & E & -> & H1 & H2 & H3 & H4). by exists w'.
Qed.
End Port.

(** ** DMA errors *)

(** The DMA error has a bit of its own among the interrupt flags. *)
Class DmaErrorBit {F : UsdhcFields} := {
  dma_error_some : USDHC_INT_STATUS_DMAE_MASK <> 0;
  dma_error_apart : Forall (fun m => Z.land USDHC_INT_STATUS_DMAE_MASK m = 0)
    [USDHC_INT_STATUS_CC_MASK; USDHC_INT_STATUS_TC_MASK; USDHC_INT_STATUS_BGE_MASK; USDHC_INT_STATUS_DINT_MASK; USDHC_INT_STATUS_BWR_MASK;
     USDHC_INT_STATUS_BRR_MASK; USDHC_INT_STATUS_CINS_MASK; USDHC_INT_STATUS_CRM_MASK; USDHC_INT_STATUS_CINT_MASK; USDHC_INT_STATUS_RTE_MASK;
     USDHC_INT_STATUS_TP_MASK; USDHC_INT_STATUS_TNE_MASK; USDHC_INT_STATUS_CTOE_MASK; USDHC_INT_STATUS_CCE_MASK; USDHC_INT_STATUS_CEBE_MASK;
     USDHC_INT_STATUS_CIE_MASK; USDHC_INT_STATUS_DTOE_MASK; USDHC_INT_STATUS_DCE_MASK; USDHC_INT_STATUS_DEBE_MASK; USDHC_INT_STATUS_AC12E_MASK]
}.

Section Errors.
Context {D A : Type} `{!Device usdhc_reg D} {F : UsdhcFields} {X : UsdhcFeatures} {B : DmaErrorBit} (fuel : nat) (callback : usdhc_transfer_callback (usdhc_world D A)).

Lemma dma_error_none ms : Forall (fun m => has kUSDHC_DmaErrorFlag m = false) ms -> has kUSDHC_DmaErrorFlag (ors ms) = false.
Proof. intros H. induction H as [|m ms Hm _ IH]; [unfold has, ors; cbn; by rewrite Z.land_0_r|]. unfold ors in *. cbn [foldr]. by rewrite has_either, Hm, IH. Qed.
(** None of the flags that the interrupt handler looks for is the DMA error. *)
Lemma dma_error_others : Forall (fun m => has kUSDHC_DmaErrorFlag m = false)
  [kUSDHC_CardDetectFlag; kUSDHC_CommandFlag; kUSDHC_DataFlag; kUSDHC_CardInterruptFlag; kUSDHC_BlockGapEventFlag; kUSDHC_SDR104TuningFlag; kUSDHC_TuningErrorFlag].
Proof.
  assert (H := dma_error_apart). assert (H0 : has kUSDHC_DmaErrorFlag 0 = false) by (unfold has; by rewrite Z.land_0_r).
  eapply Forall_impl in H; [|intros m Hm; exact (proj2 (negb_false_iff _) (proj2 (Z.eqb_eq _ 0) Hm))]. rewrite !Forall_cons_iff in H.
  unfold kUSDHC_CardDetectFlag, kUSDHC_CommandFlag, kUSDHC_DataFlag, kUSDHC_SDR104TuningFlag, kUSDHC_CommandErrorFlag, kUSDHC_DataErrorFlag,
    kUSDHC_ReTuningEventFlag, kUSDHC_TuningPassFlag, kUSDHC_TuningErrorFlag.
  destruct HAS_SDR50_MODE; repeat first [apply Forall_cons | apply Forall_nil | apply dma_error_none | apply H | exact H0].
Qed.

(** C36: When a DMA error is all that the controller reports, a polled
    transfer fails, but the interrupt handler, with the interrupt enabled,
    only writes the flag back to acknowledge it: no callback is called, and
    the handle still waits for its data. *)
Theorem usdhc_dma_error_unreported (d : usdhc_data) (w : usdhc_world D A) :
  let (x, d1) := reg_read INT_STATUS (u_hw w) in
  let (y, d2) := reg_read INT_SIGNAL_EN d1 in
  x = kUSDHC_DmaErrorFlag -> Z.land kUSDHC_DmaErrorFlag y = kUSDHC_DmaErrorFlag -> enableIgnoreError d = false -> (0 < fuel)%nat ->
  (exists w', USDHC_TransferDataBlocking fuel d true w = Ok ((kStatus_USDHC_TransferDataFailed, d), w')) /\
  USDHC_TransferHandleIRQ callback w = Ok (tt, with_hw (reg_write INT_STATUS kUSDHC_DmaErrorFlag d2) w).
Proof.
  destruct (reg_read INT_STATUS (u_hw w)) as [x d1] eqn:E1. destruct (reg_read INT_SIGNAL_EN d1) as [y d2] eqn:E2. intros -> Hy Hi Hf.
  assert (HD := dma_error_others). rewrite !Forall_cons_iff in HD. destruct HD as (H1 & H2 & H3 & H4 & H5 & H6 & H7 & _).
  assert (Hx : has kUSDHC_DmaErrorFlag kUSDHC_DmaErrorFlag = true)
    by (unfold has; rewrite Z.land_diag; apply negb_true_iff, Z.eqb_neq, dma_error_some). split.
  - assert (HA : has kUSDHC_DmaErrorFlag (Z.lor kUSDHC_DataDMAFlag kUSDHC_TuningErrorFlag) = true).
    { rewrite has_either. unfold kUSDHC_DataDMAFlag, ors. cbn [foldr]. rewrite !has_either, Hx. by rewrite !orb_true_r. }
    unfold USDHC_TransferDataBlocking. destruct fuel as [|n]; [lia|]. cbn [wait_flags]. unfold has at 1. rewrite Z.land_0_l. change (negb (0 =? 0)) with false. cbv iota.
    assert (HW : wait_flags n (Z.lor kUSDHC_DataDMAFlag kUSDHC_TuningErrorFlag) kUSDHC_DmaErrorFlag d1 = Ok (kUSDHC_DmaErrorFlag, d1))
      by (destruct n; cbn [wait_flags]; by rewrite HA).
    unfold on_hw at 1, bind at 1, bind at 1, USDHC_GetInterruptStatusFlags, rd. rewrite E1, HW.
    cbv beta iota. rewrite H7, andb_false_r, has_either, Hx, orb_true_r, Hi. cbn [negb andb orb]. rewrite ?andb_false_r. by eexists.
  - unfold USDHC_TransferHandleIRQ, USDHC_GetEnabledInterruptStatusFlags, on_hw at 1, bind at 1, bind at 1, rd at 1. rewrite E1.
    unfold bind at 1, rd. rewrite E2. cbn [ret]. cbv beta iota. unfold ret at 1. cbv beta iota. rewrite Hy, H1, H2, H3, H4, H5, H6, andb_false_r. cbv iota.
    rewrite !bind_ret. by destruct w.
Qed.
End Errors.
