(* ===== verification/UsdhcDevice.v ===== *)
(** * An SD host controller

    The bits of an i.MX RT device, and a controller with a card that sends
    words, for which the laws of the clock and of the data port hold. *)

From stdpp Require Import base list numbers tactics.
From Stdlib Require Import ZArith Lia.
From S2P Require Import Prelude Mmio Usdhc UsdhcTransfer UsdhcAdma UsdhcScatter UsdhcClock UsdhcPort.

Open Scope Z_scope.
Open Scope prog_scope.

Definition field (pos mask x : Z) : Z := Z.land (Z.shiftl x pos) mask.
#[export] Instance imxrt_fields : UsdhcFields := {|
  USDHC_BLK_ATT_BLKSIZE_MASK := 0x1FFF; USDHC_BLK_ATT_BLKSIZE := field 0 0x1FFF; USDHC_BLK_ATT_BLKCNT_MASK := 0xFFFF0000; USDHC_BLK_ATT_BLKCNT_SHIFT := 16;
  USDHC_BLK_ATT_BLKCNT := field 16 0xFFFF0000; USDHC_CMD_XFR_TYP_CMDINX_MASK := 0x3F000000; USDHC_CMD_XFR_TYP_CMDINX_SHIFT := 24;
  USDHC_CMD_XFR_TYP_CMDTYP_MASK := 0xC00000; USDHC_CMD_XFR_TYP_CMDTYP := field 22 0xC00000; USDHC_CMD_XFR_TYP_CICEN_MASK := 0x100000;
  USDHC_CMD_XFR_TYP_CCCEN_MASK := 0x80000; USDHC_CMD_XFR_TYP_RSPTYP_MASK := 0x30000; USDHC_CMD_XFR_TYP_RSPTYP := field 16 0x30000;
  USDHC_CMD_XFR_TYP_DPSEL_MASK := 0x200000; USDHC_PRES_STATE_CIHB_MASK := 0x1; USDHC_PRES_STATE_CDIHB_MASK := 0x2; USDHC_PRES_STATE_SDSTB_MASK := 0x8;
  USDHC_PRES_STATE_CINST_MASK := 0x10000; USDHC_PRES_STATE_RTR_MASK := 0x1000; USDHC_PROT_CTRL_SABGREQ_MASK := 0x10000; USDHC_PROT_CTRL_CREQ_MASK := 0x20000;
  USDHC_PROT_CTRL_RD_DONE_NO_8CLK_MASK := 0x100000; USDHC_PROT_CTRL_EMODE_MASK := 0x30; USDHC_PROT_CTRL_EMODE := field 4 0x30; USDHC_PROT_CTRL_DMASEL_MASK := 0x300;
  USDHC_PROT_CTRL_DMASEL := field 8 0x300; USDHC_PROT_CTRL_BURST_LEN_EN_MASK := 0x38000000; USDHC_PROT_CTRL_BURST_LEN_EN := field 27 0x38000000;
  USDHC_PROT_CTRL_DTW_MASK := 0x6; USDHC_PROT_CTRL_DTW_SHIFT := 1; USDHC_PROT_CTRL_DTW := field 1 0x6; USDHC_PROT_CTRL_D3CD_MASK := 0x8;
  USDHC_SYS_CTRL_RSTA_MASK := 0x1000000; USDHC_SYS_CTRL_RSTC_MASK := 0x2000000; USDHC_SYS_CTRL_RSTD_MASK := 0x4000000; USDHC_SYS_CTRL_RSTT_MASK := 0x10000000;
  USDHC_SYS_CTRL_INITA_MASK := 0x8000000; USDHC_SYS_CTRL_IPP_RST_N_MASK := 0x800000; USDHC_SYS_CTRL_DTOCV_MASK := 0xF0000; USDHC_SYS_CTRL_DTOCV := field 16 0xF0000;
  USDHC_SYS_CTRL_DVS_MASK := 0xF0; USDHC_SYS_CTRL_DVS_SHIFT := 4; USDHC_SYS_CTRL_DVS := field 4 0xF0; USDHC_SYS_CTRL_SDCLKFS_MASK := 0xFF00;
  USDHC_SYS_CTRL_SDCLKFS_SHIFT := 8; USDHC_SYS_CTRL_SDCLKFS := field 8 0xFF00; USDHC_INT_STATUS_CC_MASK := 0x1; USDHC_INT_STATUS_TC_MASK := 0x2;
  USDHC_INT_STATUS_BGE_MASK := 0x4; USDHC_INT_STATUS_DINT_MASK := 0x8; USDHC_INT_STATUS_BWR_MASK := 0x10; USDHC_INT_STATUS_BRR_MASK := 0x20;
  USDHC_INT_STATUS_CINS_MASK := 0x40; USDHC_INT_STATUS_CRM_MASK := 0x80; USDHC_INT_STATUS_CINT_MASK := 0x100; USDHC_INT_STATUS_RTE_MASK := 0x1000;
  USDHC_INT_STATUS_TP_MASK := 0x4000; USDHC_INT_STATUS_TNE_MASK := 0x4000000; USDHC_INT_STATUS_CTOE_MASK := 0x10000; USDHC_INT_STATUS_CCE_MASK := 0x20000;
  USDHC_INT_STATUS_CEBE_MASK := 0x40000; USDHC_INT_STATUS_CIE_MASK := 0x80000; USDHC_INT_STATUS_DTOE_MASK := 0x100000; USDHC_INT_STATUS_DCE_MASK := 0x200000;
  USDHC_INT_STATUS_DEBE_MASK := 0x400000; USDHC_INT_STATUS_AC12E_MASK := 0x1000000; USDHC_INT_STATUS_DMAE_MASK := 0x10000000; USDHC_INT_SIGNAL_EN_CCIEN_MASK := 0x1;
  USDHC_AUTOCMD12_ERR_STATUS_EXECUTE_TUNING_MASK := 0x400000; USDHC_AUTOCMD12_ERR_STATUS_SMP_CLK_SEL_MASK := 0x800000; USDHC_HOST_CTRL_CAP_MBL_MASK := 0x70000;
  USDHC_HOST_CTRL_CAP_MBL_SHIFT := 16; USDHC_HOST_CTRL_CAP_ADMAS_MASK := 0x100000; USDHC_HOST_CTRL_CAP_HSS_MASK := 0x200000; USDHC_HOST_CTRL_CAP_DMAS_MASK := 0x400000;
  USDHC_HOST_CTRL_CAP_SRS_MASK := 0x800000; USDHC_HOST_CTRL_CAP_VS33_MASK := 0x1000000; USDHC_HOST_CTRL_CAP_VS30_MASK := 0x2000000;
  USDHC_HOST_CTRL_CAP_VS18_MASK := 0x4000000; USDHC_HOST_CTRL_CAP_DDR50_SUPPORT_MASK := 0x4; USDHC_HOST_CTRL_CAP_SDR104_SUPPORT_MASK := 0x2;
  USDHC_HOST_CTRL_CAP_SDR50_SUPPORT_MASK := 0x1; USDHC_HOST_CTRL_CAP_USE_TUNING_SDR50_MASK := 0x2000; USDHC_HOST_CTRL_CAP_TIME_COUNT_RETUNING_MASK := 0xF00;
  USDHC_HOST_CTRL_CAP_TIME_COUNT_RETUNING := field 8 0xF00; USDHC_WTMK_LVL_RD_WML_MASK := 0xFF; USDHC_WTMK_LVL_RD_WML_SHIFT := 0; USDHC_WTMK_LVL_RD_WML := field 0 0xFF;
  USDHC_WTMK_LVL_WR_WML_MASK := 0xFF0000; USDHC_WTMK_LVL_WR_WML_SHIFT := 16; USDHC_WTMK_LVL_WR_WML := field 16 0xFF0000; USDHC_WTMK_LVL_RD_BRST_LEN_MASK := 0x1F00;
  USDHC_WTMK_LVL_RD_BRST_LEN := field 8 0x1F00; USDHC_WTMK_LVL_WR_BRST_LEN_MASK := 0x1F000000; USDHC_WTMK_LVL_WR_BRST_LEN := field 24 0x1F000000;
  USDHC_MIX_CTRL_DMAEN_MASK := 0x1; USDHC_MIX_CTRL_BCEN_MASK := 0x2; USDHC_MIX_CTRL_AC12EN_MASK := 0x4; USDHC_MIX_CTRL_DDR_EN_MASK := 0x8;
  USDHC_MIX_CTRL_DTDSEL_MASK := 0x10; USDHC_MIX_CTRL_DTDSEL := field 4 0x10; USDHC_MIX_CTRL_MSBSEL_MASK := 0x20; USDHC_MIX_CTRL_NIBBLE_POS_MASK := 0x40;
  USDHC_MIX_CTRL_NIBBLE_POS := field 6 0x40; USDHC_MIX_CTRL_AC23EN_MASK := 0x80; USDHC_MIX_CTRL_EXE_TUNE_MASK := 0x400000; USDHC_MIX_CTRL_SMP_CLK_SEL_MASK := 0x800000;
  USDHC_MIX_CTRL_AUTO_TUNE_EN_MASK := 0x1000000; USDHC_MIX_CTRL_FBCLK_SEL_MASK := 0x2000000; USDHC_MIX_CTRL_HS400_MODE_MASK := 0x4000000;
  USDHC_CLK_TUNE_CTRL_STATUS_DLY_CELL_SET_PRE_MASK := 0x7F00; USDHC_CLK_TUNE_CTRL_STATUS_DLY_CELL_SET_PRE_SHIFT := 8;
  USDHC_CLK_TUNE_CTRL_STATUS_DLY_CELL_SET_PRE := field 8 0x7F00; USDHC_CLK_TUNE_CTRL_STATUS_DLY_CELL_SET_OUT_MASK := 0xF0;
  USDHC_CLK_TUNE_CTRL_STATUS_DLY_CELL_SET_OUT_SHIFT := 4; USDHC_CLK_TUNE_CTRL_STATUS_DLY_CELL_SET_OUT := field 4 0xF0;
  USDHC_CLK_TUNE_CTRL_STATUS_DLY_CELL_SET_POST_MASK := 0xF; USDHC_CLK_TUNE_CTRL_STATUS_DLY_CELL_SET_POST_SHIFT := 0;
  USDHC_CLK_TUNE_CTRL_STATUS_DLY_CELL_SET_POST := field 0 0xF; USDHC_CLK_TUNE_CTRL_STATUS_PRE_ERR_MASK := 0x8000; USDHC_CLK_TUNE_CTRL_STATUS_NXT_ERR_MASK := 0x80000000;
  STROBE_DLL_CTRL_RESET_MASK := 0x2; STROBE_DLL_CTRL_ENABLE_MASK := 0x1; STROBE_DLL_CTRL_SLV_OVERRIDE_MASK := 0x100; STROBE_DLL_CTRL_SLV_OVERRIDE_VAL_MASK := 0xFE00;
  STROBE_DLL_CTRL_SLV_OVERRIDE_VAL := field 9 0xFE00; STROBE_DLL_CTRL_SLV_UPDATE_INT := field 20 0xFF00000; STROBE_DLL_CTRL_SLV_DLY_TARGET_MASK := 0x78;
  STROBE_DLL_CTRL_SLV_DLY_TARGET_SHIFT := 3; STROBE_DLL_CTRL_SLV_DLY_TARGET := field 3 0x78; STROBE_DLL_STS_LOCK_MASK := 0x3; USDHC_VEND_SPEC_EXT_DMA_EN_MASK := 0x1;
  USDHC_VEND_SPEC_FRC_SDCLK_ON_MASK := 0x100; USDHC_VEND_SPEC_VSELECT_MASK := 0x2; USDHC_VEND_SPEC2_ACMD23_ARGU2_EN_MASK := 0x1000;
  USDHC_VEND_SPEC2_TUNING_CMD_EN_MASK := 0x40; USDHC_VEND_SPEC2_TUNING_BIT_EN_MASK := 0x30; USDHC_VEND_SPEC2_TUNING_BIT_EN := field 4 0x30;
  USDHC_VEND_SPEC2_TUNING_8bit_EN_MASK := 0x10; USDHC_VEND_SPEC2_TUNING_1bit_EN_MASK := 0x20; USDHC_MMC_BOOT_DTOCV_ACK_MASK := 0xF; USDHC_MMC_BOOT_DTOCV_ACK_SHIFT := 0;
  USDHC_MMC_BOOT_DTOCV_ACK := field 0 0xF; USDHC_MMC_BOOT_BOOT_MODE_MASK := 0x20; USDHC_MMC_BOOT_BOOT_MODE := field 5 0x20; USDHC_MMC_BOOT_BOOT_ACK_MASK := 0x10;
  USDHC_MMC_BOOT_BOOT_EN_MASK := 0x40; USDHC_MMC_BOOT_AUTO_SABG_EN_MASK := 0x80; USDHC_MMC_BOOT_BOOT_BLK_CNT_MASK := 0xFFFF0000; USDHC_MMC_BOOT_BOOT_BLK_CNT_SHIFT := 16;
  USDHC_MMC_BOOT_BOOT_BLK_CNT := field 16 0xFFFF0000; USDHC_TUNING_CTRL_STD_TUNING_EN_MASK := 0x1000000; USDHC_TUNING_CTRL_TUNING_START_TAP_MASK := 0x7F;
  USDHC_TUNING_CTRL_TUNING_START_TAP := field 0 0x7F; USDHC_TUNING_CTRL_TUNING_STEP_MASK := 0x70000; USDHC_TUNING_CTRL_TUNING_STEP := field 16 0x70000;
  USDHC_TUNING_CTRL_TUNING_COUNTER_MASK := 0xFF00; USDHC_TUNING_CTRL_TUNING_COUNTER := field 8 0xFF00
|}.
#[export] Instance imxrt_features : UsdhcFeatures := {|
  HAS_SDR50_MODE := true; HAS_SDR104_MODE := true; HAS_EXT_DMA := true; HAS_NO_RW_BURST_LEN := false; HAS_NO_VS18 := false;
  ENABLE_SCATTER_GATHER_TRANSFER := false; USDHC_ADDR_CPU_2_DMA := fun a => a; s_usdhcBootDummy := 0x80
|}.

(** ** The controller *)

Record sd_dev := SdDev { sd_regs : usdhc_reg -> Z; sd_settle : nat; sd_port : port }.
Definition watermark : Z := 3.
Definition card_words : Z := 7.
(** The words of the card; a look at the flags fills the buffer. *)
Definition sent (i : Z) : Z := 100 + i.
Definition fill (p : port) : port :=
  match p_soon p with
  | O => Port (p_taken p) (Z.min watermark (card_words - p_taken p)) 0
  | S n => Port (p_taken p) (p_filled p) n
  end.
Definition sd_read (r : usdhc_reg) (d : sd_dev) : Z * sd_dev :=
  match r with
  | PRES_STATE => (if (sd_settle d =? 0)%nat then 8 else 0, SdDev (sd_regs d) (Nat.pred (sd_settle d)) (sd_port d))
  | INT_STATUS => (if (p_soon (sd_port d) =? 0)%nat then 0x20 else 0, SdDev (sd_regs d) (sd_settle d) (fill (sd_port d)))
  | DATA_BUFF_ACC_PORT => let p := sd_port d in (sent (p_taken p), SdDev (sd_regs d) (sd_settle d) (Port (p_taken p + 1) (p_filled p - 1) (p_soon p)))
  | WTMK_LVL => (watermark, d)
  | MIX_CTRL => (0, d)
  | _ => (u32 (sd_regs d r), d)
  end.
Definition sd_write (r : usdhc_reg) (v : Z) (d : sd_dev) : sd_dev :=
  match r with
  | SYS_CTRL => SdDev (fun q => if decide (q = r) then v else sd_regs d q) 5 (sd_port d)
  | INT_STATUS => SdDev (sd_regs d) (sd_settle d) (Port (p_taken (sd_port d)) (p_filled (sd_port d)) 2)
  | _ => SdDev (fun q => if decide (q = r) then v else sd_regs d q) (sd_settle d) (sd_port d)
  end.
#[export] Instance sd_device : Device usdhc_reg sd_dev := {| reg_read := sd_read; reg_write := sd_write |}.

Definition clock_laws : SdClockLaws (D := sd_dev).
Proof.
  refine {| sysctl := fun d => u32 (sd_regs d SYS_CTRL); settles := sd_settle; latency := 5 |}; try done.
  - intros d. by apply wrap_bound.
  - intros v d Hv. split; [|done]. cbn. by rewrite wrap_small.
  - intros d. split; [|done]. cbn. by destruct (sd_settle d).
Defined.
Definition port_laws : SdPortLaws (D := sd_dev).
Proof.
  refine {| card := sent; card_total := card_words; level := watermark; port_latency := 2; port_view := sd_port |}; try done.
  intros d. cbn. unfold fill. repeat split; by destruct (p_soon (sd_port d)).
Defined.

Definition start : sd_dev := SdDev (fun _ => 0x8080800F) 0 (Port 0 0 1).
Definition idle : usdhc_handle := Handle None None None 0.
Definition sd_world : usdhc_world sd_dev unit := UsdhcWorld start (fun _ => 0) idle tt.

(** 400 kHz from 198 MHz for the identification of a card. *)
Lemma usdhc_clock_closest_witness : exists n d', USDHC_SetSdClock 10 198000000 400000 start = Ok (n, d') /\ 0 < n <= 400000 /\ rest_of (sysctl (SdClockLaws := clock_laws) d') = 0x8080000F.
Proof.
  destruct (usdhc_clock_closest (L := clock_laws) 10 198000000 400000 start) as (n & d' & E & H); [lia|lia|cbn; lia| |].
  { apply (bool_decide_unpack _). vm_compute. exact I. }
  exists n, d'. split; [exact E|]. cbv iota in H. destruct H as (_ & _ & H1 & H2 & _). split; [|exact H2]. split; [|exact H1].
  vm_compute in E. injection E as <- _. done.
Defined.
(** 1 MHz from 34 MHz. *)
Lemma usdhc_clock_unfit_witness : exists n d', USDHC_SetSdClock 10 34000000 1000000 start = Ok (n, d') /\ n = 1000000 /\
  let dvs := dvs_of (sysctl (SdClockLaws := clock_laws) d') in let fs := fs_of (sysctl (SdClockLaws := clock_laws) d') in fs ∉ prescalers \/ 3 * divider dvs fs < 34.
Proof.
  destruct (usdhc_clock_unfit (L := clock_laws) 10 34000000 1000000 start) as (n & d' & E & -> & H); [lia|lia|cbn; lia| |].
  { apply (bool_decide_unpack _). vm_compute. exact I. }
  exists 1000000, d'. split; [exact E|]. split; [reflexivity|exact H].
Defined.

(** ** Tables *)

Definition adma (mode : usdhc_dma_mode) (table words : Z) : usdhc_adma_config := AdmaConfig mode 0 table words.
Definition gather : usdhc_scatter_gather_data := SgData true false false kUSDHC_TransferDirectionSend 0 512 (Buffer 0x10000 510) [Buffer 0x20000 70000].
Lemma usdhc_scatter_gather_table_witness : exists n w', USDHC_SetScatterGatherAdmaTableConfig (adma kUSDHC_DmaModeAdma2 0x1000 6) gather 0 sd_world = Ok ((kStatus_Success, n), w') /\ n = 70510 /\
  exists moved, adma2_run (2 * length moved) (u_mem w') 0x1000 = Some moved /\ all_words moved = buffer_words (Buffer 0x10000 510) ++ buffer_words (Buffer 0x20000 70000) ++ [].
Proof.
  destruct (usdhc_scatter_gather_table (adma kUSDHC_DmaModeAdma2 0x1000 6) gather sd_world) as (s & n & w' & E & _ & H);
    [done|done|done|done|repeat constructor; (lia || done)|done|].
  destruct H as (-> & -> & moved & H1 & H2). exists 70510, w'. split; [exact E|]. split; [done|]. exists moved. split; [exact H1|exact H2].
Defined.
Lemma usdhc_empty_table_corrupts_witness : exists mem', USDHC_SetADMA2Descriptor 0x1000 8 0x10000 0 0 (fun _ => 0) = Ok (kStatus_Success, mem') /\ mem' 0xFF8 = 2.
Proof.
  destruct (usdhc_empty_table_corrupts false 0x1000 8 0x10000 (fun _ => 0)) as (mem' & E & H & _); [lia|lia|done|lia|done|].
  by exists mem'.
Defined.

(** ** The data port *)

(** A block of 26 bytes: seven words. *)
Definition block : usdhc_data := Data false false false 0 26 1 0x4000 0.
Lemma usdhc_polled_read_witness : exists w', USDHC_ReadByDataPortBlocking 10 block sd_world = Ok ((kStatus_Success, align_blocks block), w') /\ u_mem w' 0x4000 = 100 /\ u_mem w' 0x4018 = 106 /\ u_mem w' 0x401C = 0.
Proof.
  destruct (usdhc_polled_read (L := port_laws) 10 ltac:(cbn; lia) block sd_world) as (w' & E & H & _); [reflexivity|done| | |done|done|done|done|cbn; lia|].
  { change (7 <= 10)%nat. lia. }
  { by split. }
  exists w'. rewrite !H. split; [exact E|]. split; [reflexivity|]. split; reflexivity.
Defined.

(** A controller that reads as what was written, with a DMA error pending. *)
Definition plain_device : Device usdhc_reg (usdhc_reg -> Z) := {| reg_read := fun r d => (d r, d); reg_write := fun r v d q => if decide (q = r) then v else d q |}.
Definition dma_error : usdhc_reg -> Z := fun r => if decide (r = INT_STATUS) then 0x10000000 else if decide (r = INT_SIGNAL_EN) then UINT32_MAX else 0.
Definition waiting : usdhc_world (usdhc_reg -> Z) unit := UsdhcWorld dma_error (fun _ => 0) (Handle (Some block) None None 0) tt.
Definition note : usdhc_transfer_callback (usdhc_world (usdhc_reg -> Z) unit) := Callbacks None None None None (Some (fun _ => ret tt)) (Some (ret tt)).
#[export] Instance dma_error_bit : DmaErrorBit.
Proof. split; [done|]. by repeat constructor. Defined.
Lemma usdhc_dma_error_unreported_witness : (exists w', USDHC_TransferDataBlocking (Device0 := plain_device) 3 block true waiting = Ok ((kStatus_USDHC_TransferDataFailed, block), w')) /\
  exists w', USDHC_TransferHandleIRQ (Device0 := plain_device) note waiting = Ok (tt, w') /\ data (u_handle w') = Some block /\ u_hw w' INT_STATUS = 0x10000000.
Proof.
  destruct (usdhc_dma_error_unreported (Device0 := plain_device) 3 note block waiting) as [H1 H2]; [done|done|done|lia|].
  split; [exact H1|]. eexists. split; [exact H2|done].
Defined.
