(* ===== verification/Flexcan.v ===== *)
(** * The CAN controller driver (drivers/flexcan)

    The controller has message buffers: four words with a code that says
    whether the buffer waits for a frame, holds one or sends one.  A legacy
    receive FIFO may take the place of the first buffers.  A bit of the CAN bus
    is made of time quanta, whose numbers the driver computes from the bit
    rate.

    The build modelled: without CAN FD, enhanced FIFO, pretended networking,
    memory error control, high resolution time stamps and workarounds for
    errata, with at most 64 message buffers, assertions enabled; the bit timing
    is modelled for all builds. *)

From stdpp Require Import base list numbers tactics.
From Stdlib Require Import ZArith Lia.
From S2P Require Import Prelude Mmio.

Open Scope Z_scope.
Open Scope prog_scope.

(** ** Registers and fields *)

Inductive can_reg :=
  | MCR | CTRL1 | TIMER | RXMGMASK | RX14MASK | RX15MASK | ECR | ESR1 | IMASK2 | IMASK1 | IFLAG2 | IFLAG1 | CTRL2 | RXFGMASK | RXFIR
  | CBT | EPRS | ENCBT | MB_CS (i : Z) | MB_ID (i : Z) | MB_WORD0 (i : Z) | MB_WORD1 (i : Z) | RXIMR (i : Z).
#[export] Instance can_reg_eq_dec : EqDecision can_reg.
Proof. solve_decision. Defined.

(** Fields of the device header. *)
Class CanFields := {
  CAN_MCR_MDIS_MASK : Z; CAN_MCR_FRZ_MASK : Z; CAN_MCR_RFEN_MASK : Z; CAN_MCR_HALT_MASK : Z; CAN_MCR_WAKMSK_MASK : Z; CAN_MCR_SOFTRST_MASK : Z;
  CAN_MCR_FRZACK_MASK : Z; CAN_MCR_SUPV_MASK : Z; CAN_MCR_SLFWAK_MASK : Z; CAN_MCR_LPMACK_MASK : Z; CAN_MCR_WAKSRC_MASK : Z; CAN_MCR_DOZE_MASK : Z;
  CAN_MCR_SRXDIS_MASK : Z; CAN_MCR_IRMQ_MASK : Z; CAN_MCR_WRNEN_MASK : Z; CAN_MCR_IDAM_MASK : Z; CAN_MCR_IDAM : Z -> Z; CAN_MCR_MAXMB_MASK : Z;
  CAN_MCR_MAXMB_SHIFT : Z; CAN_MCR_MAXMB : Z -> Z;
  CAN_CTRL1_PRESDIV_MASK : Z; CAN_CTRL1_PRESDIV_SHIFT : Z; CAN_CTRL1_PRESDIV : Z -> Z; CAN_CTRL1_RJW_MASK : Z; CAN_CTRL1_RJW_SHIFT : Z; CAN_CTRL1_RJW : Z -> Z;
  CAN_CTRL1_PSEG1_MASK : Z; CAN_CTRL1_PSEG1_SHIFT : Z; CAN_CTRL1_PSEG1 : Z -> Z; CAN_CTRL1_PSEG2_MASK : Z; CAN_CTRL1_PSEG2_SHIFT : Z; CAN_CTRL1_PSEG2 : Z -> Z;
  CAN_CTRL1_PROPSEG_MASK : Z; CAN_CTRL1_PROPSEG_SHIFT : Z; CAN_CTRL1_PROPSEG : Z -> Z;
  CAN_CTRL1_LPB_MASK : Z; CAN_CTRL1_TSYN_MASK : Z; CAN_CTRL1_LOM_MASK : Z; CAN_CTRL1_CLKSRC_MASK : Z; CAN_CTRL1_SMP_MASK : Z;
  CAN_CTRL1_BOFFMSK_MASK : Z; CAN_CTRL1_ERRMSK_MASK : Z; CAN_CTRL1_TWRNMSK_MASK : Z; CAN_CTRL1_RWRNMSK_MASK : Z;
  CAN_CTRL2_RFFN_MASK : Z; CAN_CTRL2_RFFN_SHIFT : Z; CAN_CTRL2_RFFN : Z -> Z; CAN_CTRL2_MRP_MASK : Z; CAN_CTRL2_RRS_MASK : Z; CAN_CTRL2_EACEN_MASK : Z;
  CAN_CTRL2_TASD : Z -> Z; CAN_CTRL2_BTE_MASK : Z;
  CAN_CBT_EPRESDIV_MASK : Z; CAN_CBT_EPRESDIV_SHIFT : Z; CAN_CBT_EPRESDIV : Z -> Z; CAN_CBT_ERJW_MASK : Z; CAN_CBT_ERJW : Z -> Z;
  CAN_CBT_EPSEG1_MASK : Z; CAN_CBT_EPSEG1_SHIFT : Z; CAN_CBT_EPSEG1 : Z -> Z; CAN_CBT_EPSEG2_MASK : Z; CAN_CBT_EPSEG2_SHIFT : Z; CAN_CBT_EPSEG2 : Z -> Z;
  CAN_CBT_EPROPSEG_MASK : Z; CAN_CBT_EPROPSEG_SHIFT : Z; CAN_CBT_EPROPSEG : Z -> Z; CAN_CBT_BTF_MASK : Z;
  CAN_ENCBT_NRJW : Z -> Z; CAN_ENCBT_NTSEG1_MASK : Z; CAN_ENCBT_NTSEG1_SHIFT : Z; CAN_ENCBT_NTSEG1 : Z -> Z;
  CAN_ENCBT_NTSEG2_MASK : Z; CAN_ENCBT_NTSEG2_SHIFT : Z; CAN_ENCBT_NTSEG2 : Z -> Z; CAN_EPRS_ENPRESDIV_MASK : Z; CAN_EPRS_ENPRESDIV_SHIFT : Z; CAN_EPRS_ENPRESDIV : Z -> Z;
  CAN_FDCBT_FPROPSEG_MASK : Z; CAN_FDCBT_FPROPSEG_SHIFT : Z; CAN_FDCBT_FPSEG1_MASK : Z; CAN_FDCBT_FPSEG1_SHIFT : Z; CAN_FDCBT_FPSEG2_MASK : Z; CAN_FDCBT_FPSEG2_SHIFT : Z;
  CAN_FDCBT_FPRESDIV_MASK : Z; CAN_FDCBT_FPRESDIV_SHIFT : Z; CAN_EDCBT_DTSEG1_MASK : Z; CAN_EDCBT_DTSEG1_SHIFT : Z; CAN_EDCBT_DTSEG2_MASK : Z; CAN_EDCBT_DTSEG2_SHIFT : Z;
  CAN_EPRS_EDPRESDIV_MASK : Z; CAN_EPRS_EDPRESDIV_SHIFT : Z;
  CAN_CS_CODE_MASK : Z; CAN_CS_CODE_SHIFT : Z; CAN_CS_CODE : Z -> Z; CAN_CS_SRR_MASK : Z; CAN_CS_IDE_MASK : Z; CAN_CS_RTR_MASK : Z;
  CAN_CS_DLC_MASK : Z; CAN_CS_DLC_SHIFT : Z; CAN_CS_DLC : Z -> Z; CAN_CS_TIME_STAMP_MASK : Z; CAN_CS_TIME_STAMP_SHIFT : Z;
  CAN_ID_STD_MASK : Z; CAN_ID_EXT_MASK : Z; CAN_RXFIR_IDHIT_MASK : Z; CAN_ECR_TXERRCNT_MASK : Z; CAN_ECR_TXERRCNT_SHIFT : Z; CAN_ECR_RXERRCNT_MASK : Z; CAN_ECR_RXERRCNT_SHIFT : Z;
  CAN_ESR1_TWRNINT_MASK : Z; CAN_ESR1_RWRNINT_MASK : Z; CAN_ESR1_BOFFINT_MASK : Z; CAN_ESR1_ERRINT_MASK : Z; CAN_ESR1_WAKINT_MASK : Z;
  CAN_IFLAG1_BUF5I_MASK : Z; CAN_IFLAG1_BUF6I_MASK : Z; CAN_IFLAG1_BUF7I_MASK : Z; CAN_IFLAG1_BUF7I_SHIFT : Z
}.
(** The register that holds the bit timing: of a build or an instance without
    CAN FD, with it, and with it and enhanced bit timing registers. *)
Inductive timing_register := InCTRL1 | InCBT | InENCBT.
(** Features of the chip and the build. *)
Class CanFeatures := {
  MESSAGE_BUFFER_MAX_NUMBER : Z; CAN_WORD1_COUNT : Z; TIMING_REGISTER : timing_register;
  HAS_DOZE : bool; HAS_SLFWAK : bool; HAS_SUPV : bool; HAS_GLITCH_FILTER : bool; HAS_CLKSRC : bool; ENTER_FREEZE_MODE : bool;
  FLEXCAN_POLLING_TIMEOUT : Z; FLEXCAN_MODULE_TIMEOUT : Z
}.

Definition kStatusGroup_FLEXCAN : Z := 53.
Definition kStatus_FLEXCAN_TxBusy : status_t := MAKE_STATUS kStatusGroup_FLEXCAN 0.
Definition kStatus_FLEXCAN_TxIdle : status_t := MAKE_STATUS kStatusGroup_FLEXCAN 1.
Definition kStatus_FLEXCAN_TxSwitchToRx : status_t := MAKE_STATUS kStatusGroup_FLEXCAN 2.
Definition kStatus_FLEXCAN_RxBusy : status_t := MAKE_STATUS kStatusGroup_FLEXCAN 3.
Definition kStatus_FLEXCAN_RxIdle : status_t := MAKE_STATUS kStatusGroup_FLEXCAN 4.
Definition kStatus_FLEXCAN_RxOverflow : status_t := MAKE_STATUS kStatusGroup_FLEXCAN 5.
Definition kStatus_FLEXCAN_RxFifoBusy : status_t := MAKE_STATUS kStatusGroup_FLEXCAN 6.
Definition kStatus_FLEXCAN_RxFifoIdle : status_t := MAKE_STATUS kStatusGroup_FLEXCAN 7.
Definition kStatus_FLEXCAN_RxFifoOverflow : status_t := MAKE_STATUS kStatusGroup_FLEXCAN 8.
Definition kStatus_FLEXCAN_RxFifoWarning : status_t := MAKE_STATUS kStatusGroup_FLEXCAN 9.
Definition kStatus_FLEXCAN_ErrorStatus : status_t := MAKE_STATUS kStatusGroup_FLEXCAN 11.
Definition kStatus_FLEXCAN_WakeUp : status_t := MAKE_STATUS kStatusGroup_FLEXCAN 12.
Definition kStatus_FLEXCAN_UnHandled : status_t := MAKE_STATUS kStatusGroup_FLEXCAN 13.
Definition kStatus_FLEXCAN_RxRemote : status_t := MAKE_STATUS kStatusGroup_FLEXCAN 14.

Definition ors : list Z -> Z := foldr Z.lor 0.

(** ** Data *)

Inductive flexcan_frame_format := kFLEXCAN_FrameFormatStandard | kFLEXCAN_FrameFormatExtend.
#[export] Instance flexcan_frame_format_eq_dec : EqDecision flexcan_frame_format.
Proof. solve_decision. Defined.
Inductive flexcan_frame_type := kFLEXCAN_FrameTypeData | kFLEXCAN_FrameTypeRemote.
#[export] Instance flexcan_frame_type_eq_dec : EqDecision flexcan_frame_type.
Proof. solve_decision. Defined.
Inductive flexcan_rx_fifo_filter_type := kFLEXCAN_RxFifoFilterTypeA | kFLEXCAN_RxFifoFilterTypeB | kFLEXCAN_RxFifoFilterTypeC | kFLEXCAN_RxFifoFilterTypeD.
Definition filter_type_value (t : flexcan_rx_fifo_filter_type) : Z :=
  match t with kFLEXCAN_RxFifoFilterTypeA => 0 | kFLEXCAN_RxFifoFilterTypeB => 1 | kFLEXCAN_RxFifoFilterTypeC => 2 | kFLEXCAN_RxFifoFilterTypeD => 3 end.

Record flexcan_frame := Frame { timestamp : Z; length : Z; type : flexcan_frame_type; format : flexcan_frame_format; idhit : Z; id : Z; dataWord0 : Z; dataWord1 : Z }.
Record flexcan_timing_config := Timing {
  preDivider : Z; rJumpwidth : Z; phaseSeg1 : Z; phaseSeg2 : Z; propSeg : Z;
  fpreDivider : Z; frJumpwidth : Z; fphaseSeg1 : Z; fphaseSeg2 : Z; fpropSeg : Z
}.
Record flexcan_rx_mb_config := RxMbConfig { mb_id : Z; mb_format : flexcan_frame_format; mb_type : flexcan_frame_type }.
Record flexcan_rx_fifo_config := RxFifoConfig { idFilterTable : list Z; idFilterNum : Z; idFilterType : flexcan_rx_fifo_filter_type; priorityHigh : bool }.
Record flexcan_config := CanConfig {
  bitRate : Z; clkSrc : bool; wakeupFiltered : bool; maxMbNum : Z; enableLoopBack : bool; enableTimerSync : bool; enableSelfWakeup : bool;
  enableIndividMask : bool; disableSelfReception : bool; enableListenOnlyMode : bool; enableSupervisorMode : bool; enableDoze : bool;
  enableRemoteRequestFrameStored : bool; timingConfig : flexcan_timing_config
}.
Definition no_timing : flexcan_timing_config := Timing 0 0 0 0 0 0 0 0 0 0.
Definition with_preDivider x c := Timing x (rJumpwidth c) (phaseSeg1 c) (phaseSeg2 c) (propSeg c) (fpreDivider c) (frJumpwidth c) (fphaseSeg1 c) (fphaseSeg2 c) (fpropSeg c).
Definition with_nominal p r s1 s2 s c := Timing p r s1 s2 s (fpreDivider c) (frJumpwidth c) (fphaseSeg1 c) (fphaseSeg2 c) (fpropSeg c).
Definition with_fpreDivider x c := Timing (preDivider c) (rJumpwidth c) (phaseSeg1 c) (phaseSeg2 c) (propSeg c) x (frJumpwidth c) (fphaseSeg1 c) (fphaseSeg2 c) (fpropSeg c).
Definition with_fsegments r s1 s2 s c := Timing (preDivider c) (rJumpwidth c) (phaseSeg1 c) (phaseSeg2 c) (propSeg c) (fpreDivider c) r s1 s2 s.

(** ** Bit timing *)

Definition IDEAL_SP_LOW : Z := 750.
Definition IDEAL_SP_MID : Z := 800.
Definition IDEAL_SP_HIGH : Z := 875.
Definition IDEAL_SP_FACTOR : Z := 1000.
Definition IDEAL_DATA_SP_1 : Z := 800.
Definition IDEAL_DATA_SP_2 : Z := 750.
Definition IDEAL_DATA_SP_3 : Z := 700.
Definition IDEAL_DATA_SP_4 : Z := 625.
Definition IDEAL_NOMINAL_SP : Z := 800.
Definition MIN_TIME_SEGMENT2 : Z := 2.
Definition MAX_CAN_BITRATE : Z := 1000000.
Definition MAX_CANFD_BITRATE : Z := 8000000.

Section Timing.
Context {F : CanFields}.
Definition MAX_PROPSEG : Z := Z.shiftr CAN_CTRL1_PROPSEG_MASK CAN_CTRL1_PROPSEG_SHIFT.
Definition MAX_PSEG1 : Z := Z.shiftr CAN_CTRL1_PSEG1_MASK CAN_CTRL1_PSEG1_SHIFT.
Definition MAX_PSEG2 : Z := Z.shiftr CAN_CTRL1_PSEG2_MASK CAN_CTRL1_PSEG2_SHIFT.
Definition MAX_RJW : Z := Z.shiftr CAN_CTRL1_RJW_MASK CAN_CTRL1_RJW_SHIFT.
Definition MAX_PRESDIV : Z := Z.shiftr CAN_CTRL1_PRESDIV_MASK CAN_CTRL1_PRESDIV_SHIFT.
Definition CTRL1_MAX_TIME_QUANTA : Z := u32 (1 + MAX_PROPSEG + 1 + MAX_PSEG1 + 1 + MAX_PSEG2 + 1).
Definition CTRL1_MIN_TIME_QUANTA : Z := 8.
Definition MAX_EPROPSEG : Z := Z.shiftr CAN_CBT_EPROPSEG_MASK CAN_CBT_EPROPSEG_SHIFT.
Definition MAX_EPSEG1 : Z := Z.shiftr CAN_CBT_EPSEG1_MASK CAN_CBT_EPSEG1_SHIFT.
Definition MAX_EPSEG2 : Z := Z.shiftr CAN_CBT_EPSEG2_MASK CAN_CBT_EPSEG2_SHIFT.
Definition MAX_EPRESDIV : Z := Z.shiftr CAN_CBT_EPRESDIV_MASK CAN_CBT_EPRESDIV_SHIFT.
Definition CBT_MAX_TIME_QUANTA : Z := u32 (1 + MAX_EPROPSEG + 1 + MAX_EPSEG1 + 1 + MAX_EPSEG2 + 1).
Definition CBT_MIN_TIME_QUANTA : Z := 8.
Definition MAX_NTSEG1 : Z := Z.shiftr CAN_ENCBT_NTSEG1_MASK CAN_ENCBT_NTSEG1_SHIFT.
Definition MAX_NTSEG2 : Z := Z.shiftr CAN_ENCBT_NTSEG2_MASK CAN_ENCBT_NTSEG2_SHIFT.
Definition MAX_ENPRESDIV : Z := Z.shiftr CAN_EPRS_ENPRESDIV_MASK CAN_EPRS_ENPRESDIV_SHIFT.
Definition ENCBT_MAX_TIME_QUANTA : Z := u32 (1 + MAX_NTSEG1 + 1 + MAX_NTSEG2 + 1).
Definition ENCBT_MIN_TIME_QUANTA : Z := 8.
Definition MAX_FPROPSEG : Z := Z.shiftr CAN_FDCBT_FPROPSEG_MASK CAN_FDCBT_FPROPSEG_SHIFT.
Definition MAX_FPSEG1 : Z := Z.shiftr CAN_FDCBT_FPSEG1_MASK CAN_FDCBT_FPSEG1_SHIFT.
Definition MAX_FPSEG2 : Z := Z.shiftr CAN_FDCBT_FPSEG2_MASK CAN_FDCBT_FPSEG2_SHIFT.
Definition MAX_FPRESDIV : Z := Z.shiftr CAN_FDCBT_FPRESDIV_MASK CAN_FDCBT_FPRESDIV_SHIFT.
Definition FDCBT_MAX_TIME_QUANTA : Z := u32 (1 + MAX_FPROPSEG + 0 + MAX_FPSEG1 + 1 + MAX_FPSEG2 + 1).
Definition FDCBT_MIN_TIME_QUANTA : Z := 5.
Definition MAX_DTSEG1 : Z := Z.shiftr CAN_EDCBT_DTSEG1_MASK CAN_EDCBT_DTSEG1_SHIFT.
Definition MAX_DTSEG2 : Z := Z.shiftr CAN_EDCBT_DTSEG2_MASK CAN_EDCBT_DTSEG2_SHIFT.
Definition MAX_EDPRESDIV : Z := Z.shiftr CAN_EPRS_EDPRESDIV_MASK CAN_EPRS_EDPRESDIV_SHIFT.
Definition EDCBT_MAX_TIME_QUANTA : Z := u32 (1 + MAX_DTSEG1 + 1 + MAX_DTSEG2 + 1).
Definition EDCBT_MIN_TIME_QUANTA : Z := 5.

Context (kind : timing_register).
Definition seg1Max : Z := u32 (match kind with InCTRL1 => MAX_PSEG1 + 1 | InCBT => MAX_EPSEG1 + 1 | InENCBT => MAX_NTSEG2 + 1 end).
Definition proSegMax : Z := u32 (match kind with InCTRL1 => MAX_PROPSEG + 1 | InCBT => MAX_EPROPSEG + 1 | InENCBT => MAX_NTSEG1 - MAX_NTSEG2 end).
Definition ideal_sp (bitRate : Z) : Z := if bitRate =? 1000000 then IDEAL_SP_LOW else if 800000 <=? bitRate then IDEAL_SP_MID else IDEAL_SP_HIGH.

(** The segments between the sample point and the rest: [(propSeg, phaseSeg1)]
    for [seg1Temp] quanta. *)
Definition split_seg1 (seg1Temp phaseSeg2 proSegMax : Z) : Z * Z :=
  if u32 (phaseSeg2 + proSegMax) <? seg1Temp then (proSegMax, u32 (seg1Temp - proSegMax)) else (u32 (seg1Temp - phaseSeg2), phaseSeg2).
(** [phaseSeg2] and [seg1Temp], for a [phaseSeg2] that may be too short. *)
Definition fit_seg1 (tqNum phaseSeg2 seg1Max proSegMax : Z) : Z * Z :=
  if u32 (seg1Max + proSegMax) <? u32 (tqNum - phaseSeg2 - 1)
  then (u32 (tqNum - 1 - u32 (seg1Max + proSegMax)), u32 (seg1Max + proSegMax)) else (phaseSeg2, u32 (tqNum - phaseSeg2 - 1)).
Definition FLEXCAN_GetSegments (bitRate tqNum : Z) (c : flexcan_timing_config) : outcome flexcan_timing_config :=
  if negb (0 <? tqNum) then Err AssertFailed
  else
    let sp := ideal_sp bitRate in
    if negb (tqNum <? 0xFFFFFFFF / sp) then Err AssertFailed
    else
      let phaseSeg2 := u32 (tqNum - u32 (tqNum * sp) / IDEAL_SP_FACTOR) in
      let phaseSeg2 := if phaseSeg2 <? MIN_TIME_SEGMENT2 then MIN_TIME_SEGMENT2 else phaseSeg2 in
      let phaseSeg2 := match kind with InCBT => if MAX_EPSEG2 + 1 <? phaseSeg2 then MAX_EPSEG2 + 1 else phaseSeg2 | _ => phaseSeg2 end in
      let '(phaseSeg2, seg1Temp) := fit_seg1 tqNum phaseSeg2 seg1Max proSegMax in
      let '(propSeg, phaseSeg1) := split_seg1 seg1Temp phaseSeg2 proSegMax in
      let rJumpwidth := if phaseSeg2 <? phaseSeg1 then phaseSeg2 else phaseSeg1 in
      let rJumpwidth := match kind with InCTRL1 => if MAX_RJW + 1 <? rJumpwidth then MAX_RJW + 1 else rJumpwidth | _ => rJumpwidth end in
      Ok (with_nominal (preDivider c) (u32 (rJumpwidth - 1)) (u32 (phaseSeg1 - 1)) (u32 (phaseSeg2 - 1)) (u32 (propSeg - 1)) c).

Definition max_quanta : Z := match kind with InCTRL1 => CTRL1_MAX_TIME_QUANTA | InCBT => CBT_MAX_TIME_QUANTA | InENCBT => ENCBT_MAX_TIME_QUANTA end.
Definition min_quanta : Z := match kind with InCTRL1 => CTRL1_MIN_TIME_QUANTA | InCBT => CBT_MIN_TIME_QUANTA | InENCBT => ENCBT_MIN_TIME_QUANTA end.
(** The limit of the pre-divider for CBT is the one of CTRL1. *)
Definition pdivMAX : Z := match kind with InENCBT => MAX_ENPRESDIV | _ => MAX_PRESDIV end.

(** [do { ... } while (--tqNum >= tqMin)] over the numbers of quanta:
    [segments] is the timing for a number of quanta. *)
Section Search.
Context (segments : Z -> flexcan_timing_config -> outcome flexcan_timing_config) (tqMin pdivMAX : Z).
Fixpoint search_timing (n : nat) (bitRate sourceClock_Hz tqNum spTemp : Z) (fgRet : bool) (best : flexcan_timing_config) : outcome (bool * flexcan_timing_config) :=
  match n with
  | O => Err OutOfFuel
  | S n =>
      let next spTemp fgRet best :=
        let tqNum := u32 (tqNum - 1) in
        if tqMin <=? tqNum then search_timing n bitRate sourceClock_Hz tqNum spTemp fgRet best else Ok (fgRet, best) in
      let clk := u32 (bitRate * tqNum) in
      if sourceClock_Hz <? clk then next spTemp fgRet best
      else
        q <-! udiv sourceClock_Hz clk ;;
        if negb (u32 (q * clk) =? sourceClock_Hz) then next spTemp fgRet best
        else if pdivMAX <? u32 (q - 1) then Ok (fgRet, best)
        else
          c <-! segments tqNum (with_preDivider (u32 (q - 1)) no_timing) ;;
          let sp := u32 (u32 (phaseSeg2 c + 1) * 1000) / tqNum in
          if sp <? spTemp then next sp true (with_nominal (preDivider c) (rJumpwidth c) (phaseSeg1 c) (phaseSeg2 c) (propSeg c) best)
          else next spTemp true best
  end.
End Search.
(** At most as many rounds as there are numbers of quanta. *)
Definition FLEXCAN_CalculateImprovedTimingValues (bitRate sourceClock_Hz : Z) (pTimingConfig : flexcan_timing_config) : outcome (bool * flexcan_timing_config) :=
  if negb (bitRate <=? MAX_CAN_BITRATE) then Err AssertFailed
  else search_timing (FLEXCAN_GetSegments bitRate) min_quanta pdivMAX (Z.to_nat max_quanta) bitRate sourceClock_Hz max_quanta 1000 false pTimingConfig.
End Timing.

(** *** CAN FD *)

Section FdTiming.
Context {F : CanFields}.
(** Enhanced bit timing registers. *)
Context (enhanced : bool).
Definition fseg1Max : Z := u32 (if enhanced then MAX_DTSEG2 + 1 else MAX_FPSEG1 + 1).
Definition fproSegMax : Z := u32 (if enhanced then MAX_DTSEG1 - MAX_DTSEG2 else MAX_FPROPSEG).
Definition fseg2Max : Z := u32 (if enhanced then MAX_DTSEG2 + 1 else MAX_FPSEG2 + 1).
Definition FLEXCAN_FDGetSegments (bitRateFD tqNum : Z) (c : flexcan_timing_config) : outcome flexcan_timing_config :=
  if negb (0 <? tqNum) then Err AssertFailed
  else
    let sp := if bitRateFD <=? 1000000 then IDEAL_DATA_SP_1 else if bitRateFD <=? 2000000 then IDEAL_DATA_SP_2 else if bitRateFD <=? 4000000 then IDEAL_DATA_SP_3 else IDEAL_DATA_SP_4 in
    if negb (tqNum <? 0xFFFFFFFF / sp) then Err AssertFailed
    else
      let seg2 := u32 (tqNum - u32 (tqNum * sp) / IDEAL_SP_FACTOR) in
      let seg2 := if seg2 <? MIN_TIME_SEGMENT2 then MIN_TIME_SEGMENT2 else if fseg2Max <? seg2 then fseg2Max else seg2 in
      let '(seg2, seg1Temp) := fit_seg1 tqNum seg2 fseg1Max fproSegMax in
      let '(prop, seg1) :=
        if u32 (seg2 + fproSegMax) <? seg1Temp then (fproSegMax, u32 (seg1Temp - fproSegMax))
        else if seg2 <? seg1Temp then (u32 (seg1Temp - seg2), seg2)
        else (0, seg1Temp) in
      let rjw := if seg2 <? seg1 then seg2 else seg1 in
      Ok (with_fsegments (u32 (rjw - 1)) (u32 (seg1 - 1)) (u32 (seg2 - 1)) prop c).

Definition fd_kind : timing_register := if enhanced then InENCBT else InCBT.
Definition nominal_segments (tqNum : Z) (c : flexcan_timing_config) : outcome flexcan_timing_config :=
  let seg2 := u32 (tqNum - u32 (tqNum * IDEAL_NOMINAL_SP) / IDEAL_SP_FACTOR) in
  let '(seg2, seg1Temp) := fit_seg1 tqNum seg2 (seg1Max fd_kind) (proSegMax fd_kind) in
  let '(prop, seg1) := split_seg1 seg1Temp seg2 (proSegMax fd_kind) in
  let rjw := if seg2 <? seg1 then seg2 else seg1 in
  Ok (with_nominal (preDivider c) (u32 (rjw - 1)) (u32 (seg1 - 1)) (u32 (seg2 - 1)) (u32 (prop - 1)) c).
Definition FLEXCAN_CalculateImprovedNominalTimingValues (bitRate sourceClock_Hz : Z) (pTimingConfig : flexcan_timing_config) : outcome (bool * flexcan_timing_config) :=
  if negb (bitRate <=? MAX_CAN_BITRATE) then Err AssertFailed
  else search_timing nominal_segments (min_quanta fd_kind) (pdivMAX fd_kind) (Z.to_nat (max_quanta fd_kind)) bitRate sourceClock_Hz (max_quanta fd_kind) 1000 false pTimingConfig.

Definition fmax_quanta : Z := if enhanced then EDCBT_MAX_TIME_QUANTA else FDCBT_MAX_TIME_QUANTA.
Definition fmin_quanta : Z := if enhanced then EDCBT_MIN_TIME_QUANTA else FDCBT_MIN_TIME_QUANTA.
Definition fpdivMAX : Z := if enhanced then MAX_EDPRESDIV else MAX_FPRESDIV.
Fixpoint search_fd (n : nat) (bitRate bitRateFD sourceClock_Hz tqTemp : Z) (fgRet : bool) (c : flexcan_timing_config) : outcome (bool * flexcan_timing_config) :=
  match n with
  | O => Err OutOfFuel
  | S n =>
      let next fgRet c :=
        let tqTemp := u32 (tqTemp - 1) in
        if fmin_quanta <=? tqTemp then search_fd n bitRate bitRateFD sourceClock_Hz tqTemp fgRet c else Ok (fgRet, c) in
      let clk := u32 (bitRateFD * tqTemp) in
      if sourceClock_Hz <? clk then next fgRet c
      else
        q <-! udiv sourceClock_Hz clk ;;
        if negb (u32 (q * clk) =? sourceClock_Hz) then next fgRet c
        else
          let c := with_fpreDivider (u32 (q - 1)) c in
          if fpdivMAX <? fpreDivider c then Ok (fgRet, c)
          else
            c <-! FLEXCAN_FDGetSegments bitRateFD tqTemp c ;;
            source <-! udiv sourceClock_Hz (u32 (fpreDivider c + 1)) ;;
            r <-! FLEXCAN_CalculateImprovedNominalTimingValues bitRate source c ;;
            let '(found, c) := r in
            if found : bool then
              if preDivider c =? 0 then Ok (true, with_preDivider (fpreDivider c) c)
              else next true (with_preDivider (u32 (u32 (u32 (preDivider c + 1) * u32 (fpreDivider c + 1)) - 1)) c)
            else next fgRet c
  end.
Definition FLEXCAN_FDCalculateImprovedTimingValues (bitRate bitRateFD sourceClock_Hz : Z) (c : flexcan_timing_config) : outcome (bool * flexcan_timing_config) :=
  if negb ((bitRate <=? MAX_CANFD_BITRATE) && (bitRateFD <=? MAX_CANFD_BITRATE) && (bitRate <=? bitRateFD)) then Err AssertFailed
  else if negb (bitRate =? bitRateFD) then search_fd (Z.to_nat fmax_quanta) bitRate bitRateFD sourceClock_Hz fmax_quanta false c
  else
    r <-! FLEXCAN_CalculateImprovedNominalTimingValues bitRate sourceClock_Hz c ;;
    let '(found, c) := r in
    Ok (if found : bool then (true, with_fsegments 0 0 0 0 (with_fpreDivider 0 c)) else (false, c)).
End FdTiming.
