(* ===== verification/FlexcanBuffers.v ===== *)
(** * The message buffers of the CAN controller

    Module control, configuration, and what is written to and read from
    message buffers and the receive FIFO (fsl_flexcan.c and the functions of
    fsl_flexcan.h).

    The build modelled leaves the module's clock to the application
    (FSL_SDK_DISABLE_DRIVER_CLOCK_CONTROL); enabling and disabling message
    buffer interrupts is done with interrupts masked, hence is one step for
    handlers. *)

From stdpp Require Import base list numbers tactics.
From Stdlib Require Import ZArith Lia.
From S2P Require Import Prelude Mmio Flexcan.

Open Scope Z_scope.
Open Scope prog_scope.

Definition kFLEXCAN_RxMbInactive : Z := 0x0.
Definition kFLEXCAN_RxMbFull : Z := 0x2.
Definition kFLEXCAN_RxMbEmpty : Z := 0x4.
Definition kFLEXCAN_RxMbOverrun : Z := 0x6.
Definition kFLEXCAN_RxMbBusy : Z := 0x8.
Definition kFLEXCAN_RxMbRanswer : Z := 0xA.
Definition kFLEXCAN_TxMbInactive : Z := 0x8.
Definition kFLEXCAN_TxMbAbort : Z := 0x9.
Definition kFLEXCAN_TxMbDataOrRemote : Z := 0xC.
Definition kFLEXCAN_TxMbTanswer : Z := 0xE.

Section Buffers.
Context {D : Type} `{!Device can_reg D} {F : CanFields} {X : CanFeatures}.
(** Rounds for waits without a limit. *)
Context (fuel : nat).

Definition kFLEXCAN_RxFifoFrameAvlFlag : Z := CAN_IFLAG1_BUF5I_MASK.
Definition kFLEXCAN_RxFifoWarningFlag : Z := CAN_IFLAG1_BUF6I_MASK.
Definition kFLEXCAN_RxFifoOverflowFlag : Z := CAN_IFLAG1_BUF7I_MASK.
Definition FLEXCAN_ERROR_AND_STATUS_INT_FLAG : Z := ors [CAN_ESR1_TWRNINT_MASK; CAN_ESR1_RWRNINT_MASK; CAN_ESR1_BOFFINT_MASK; CAN_ESR1_ERRINT_MASK].
Definition FLEXCAN_WAKE_UP_FLAG : Z := if HAS_SLFWAK then CAN_ESR1_WAKINT_MASK else 0.

(** [while (!cond) { if (--timeout == 0) return kStatus_Timeout; }]; a limit
    of 0 is none. *)
Fixpoint wait_for (n : nat) (limit : Z) (cond : M D bool) (timeout : Z) : M D bool :=
  match n with
  | O => throw OutOfFuel
  | S n =>
      ok <- cond ;;
      if ok : bool then ret true
      else if limit =? 0 then wait_for n limit cond timeout
      else let timeout := u32 (timeout - 1) in if timeout =? 0 then ret false else wait_for n limit cond timeout
  end.
Definition wait_limited (limit : Z) (cond : M D bool) : M D bool :=
  wait_for (if limit =? 0 then fuel else Z.to_nat limit) limit cond limit.
Definition wait_bit (r : can_reg) (mask : Z) (want : bool) : M D bool :=
  wait_limited FLEXCAN_MODULE_TIMEOUT (x <- rd r ;; ret (eqb (has x mask) want)).
Definition finished (ok : bool) : status_t := if ok then kStatus_Success else kStatus_Timeout.

(** ** Module control *)

Definition FLEXCAN_EnterFreezeMode : M D status_t :=
  set_bits MCR CAN_MCR_FRZ_MASK ;; set_bits MCR CAN_MCR_HALT_MASK ;;
  ok <- wait_bit MCR CAN_MCR_FRZACK_MASK true ;; ret (finished ok).
Definition FLEXCAN_ExitFreezeMode : M D status_t :=
  clear_bits MCR CAN_MCR_HALT_MASK ;; clear_bits MCR CAN_MCR_FRZ_MASK ;;
  ok <- wait_bit MCR CAN_MCR_FRZACK_MASK false ;; ret (finished ok).
Definition FLEXCAN_Enable (enable : bool) : M D status_t :=
  if enable then
    clear_bits MCR CAN_MCR_MDIS_MASK ;;
    ok <- wait_bit MCR CAN_MCR_LPMACK_MASK false ;; ret (finished ok)
  else
    when ENTER_FREEZE_MODE (FLEXCAN_EnterFreezeMode ;; ret tt) ;;
    set_bits MCR CAN_MCR_MDIS_MASK ;;
    ok <- wait_bit MCR CAN_MCR_LPMACK_MASK true ;; ret (finished ok).
(** What a configuration function does in freeze mode. *)
Definition frozen (m : M D unit) : M D unit := FLEXCAN_EnterFreezeMode ;; m ;; FLEXCAN_ExitFreezeMode ;; ret tt.

(** Word [k] of message buffer [i]. *)
Definition mb_word (i k : Z) : can_reg := if k =? 0 then MB_CS i else if k =? 1 then MB_ID i else if k =? 2 then MB_WORD0 i else MB_WORD1 i.
(** [m] words are left, the next is [p]. *)
Fixpoint flexcan_memset (m : nat) (p c : Z) : M D unit :=
  match m with
  | O => ret tt
  | S m => wr (mb_word (p / 4) (p mod 4)) c ;; flexcan_memset m (p + 1) c
  end.
(** [i] is of type [int8_t]. *)
Fixpoint reset_masks (n : nat) (i : Z) : M D unit :=
  match n with
  | O => throw OutOfFuel
  | S n =>
      if i <? MESSAGE_BUFFER_MAX_NUMBER then
        if i <? 0 then throw OutOfBounds
        else wr (RXIMR i) 0x3FFFFFFF ;; reset_masks n (u8 (i + 1 + 128) - 128)
      else ret tt
  end.
Definition FLEXCAN_Reset : M D status_t :=
  x <- rd MCR ;; assert_ (negb (has x CAN_MCR_MDIS_MASK)) ;;
  when HAS_DOZE (clear_bits MCR CAN_MCR_DOZE_MASK) ;;
  ok <- wait_bit MCR CAN_MCR_LPMACK_MASK false ;;
  if negb ok then ret kStatus_Timeout else
  set_bits MCR CAN_MCR_SOFTRST_MASK ;;
  ok <- wait_bit MCR CAN_MCR_SOFTRST_MASK false ;;
  if negb ok then ret kStatus_Timeout else
  set_bits MCR (ors [CAN_MCR_WRNEN_MASK; if HAS_GLITCH_FILTER then CAN_MCR_WAKSRC_MASK else 0; CAN_MCR_MAXMB (u32 (MESSAGE_BUFFER_MAX_NUMBER - 1))]) ;;
  wr CTRL1 CAN_CTRL1_SMP_MASK ;;
  wr CTRL2 (ors [CAN_CTRL2_TASD 0x16; CAN_CTRL2_RRS_MASK; CAN_CTRL2_EACEN_MASK]) ;;
  flexcan_memset (Z.to_nat (4 * CAN_WORD1_COUNT)) 0 0 ;;
  reset_masks 256 0 ;;
  wr RXMGMASK 0x3FFFFFFF ;; wr RX14MASK 0x3FFFFFFF ;; wr RX15MASK 0x3FFFFFFF ;; wr RXFGMASK 0x3FFFFFFF ;;
  ret kStatus_Success.

(** A build with enhanced bit timing writes the bit timing once, one with CBT
    until it reads back. *)
Definition cbt_timing (c : flexcan_timing_config) : Z :=
  ors [CAN_CBT_EPRESDIV (preDivider c); CAN_CBT_ERJW (rJumpwidth c); CAN_CBT_EPSEG1 (phaseSeg1 c); CAN_CBT_EPSEG2 (phaseSeg2 c); CAN_CBT_EPROPSEG (propSeg c)].
Fixpoint write_cbt (n : nat) (c : flexcan_timing_config) : M D unit :=
  match n with
  | O => throw OutOfFuel
  | S n =>
      wr CBT (Z.lor CAN_CBT_BTF_MASK (cbt_timing c)) ;;
      x <- rd CBT ;;
      if negb (cbt_timing c =? Z.land x (ors [CAN_CBT_EPRESDIV_MASK; CAN_CBT_ERJW_MASK; CAN_CBT_EPSEG1_MASK; CAN_CBT_EPSEG2_MASK; CAN_CBT_EPROPSEG_MASK]))
      then write_cbt n c else ret tt
  end.
Definition ctrl1_timing (c : flexcan_timing_config) : Z :=
  ors [CAN_CTRL1_PRESDIV (preDivider c); CAN_CTRL1_RJW (rJumpwidth c); CAN_CTRL1_PSEG1 (phaseSeg1 c); CAN_CTRL1_PSEG2 (phaseSeg2 c); CAN_CTRL1_PROPSEG (propSeg c)].
Definition FLEXCAN_SetTimingConfig (c : flexcan_timing_config) : M D unit := frozen (
  match TIMING_REGISTER with
  | InENCBT =>
      set_bits CTRL2 CAN_CTRL2_BTE_MASK ;;
      x <- rd EPRS ;; wr EPRS (Z.lor (bic32 x CAN_EPRS_ENPRESDIV_MASK) (CAN_EPRS_ENPRESDIV (preDivider c))) ;;
      wr ENCBT (ors [CAN_ENCBT_NRJW (rJumpwidth c); CAN_ENCBT_NTSEG1 (u32 (phaseSeg1 c + propSeg c + 1)); CAN_ENCBT_NTSEG2 (phaseSeg2 c)])
  | InCBT => write_cbt fuel c
  | InCTRL1 =>
      clear_bits CTRL1 (ors [CAN_CTRL1_PRESDIV_MASK; CAN_CTRL1_RJW_MASK; CAN_CTRL1_PSEG1_MASK; CAN_CTRL1_PSEG2_MASK; CAN_CTRL1_PROPSEG_MASK]) ;;
      set_bits CTRL1 (ctrl1_timing c)
  end).
Definition FLEXCAN_SetBitRate (sourceClock_Hz bitRate_Bps : Z) (timingCfg : flexcan_timing_config) : M D status_t :=
  r <- lift (FLEXCAN_CalculateImprovedTimingValues TIMING_REGISTER bitRate_Bps sourceClock_Hz timingCfg) ;;
  if r.1 then FLEXCAN_SetTimingConfig r.2 ;; ret kStatus_Success else ret kStatus_Fail.

(** [value | mask] or [value & ~mask] *)
Definition choose (b : bool) (mask value : Z) : Z := if b then Z.lor value mask else bic32 value mask.
(** The limit of the pre-divider that [FLEXCAN_Init] checks. *)
Definition maxDivider : Z := match TIMING_REGISTER with InENCBT => MAX_ENPRESDIV | InCBT => MAX_EPRESDIV | InCTRL1 => MAX_PRESDIV end.
Definition time_quanta_rate (c : flexcan_config) : Z :=
  let t := timingConfig c in u32 (bitRate c * u32 (1 + (phaseSeg1 t + 1) + (phaseSeg2 t + 1) + (propSeg t + 1))).
Definition FLEXCAN_Init (c : flexcan_config) (sourceClock_Hz : Z) : M D unit :=
  assert_ ((0 <? maxMbNum c) && (maxMbNum c <=? u8 MESSAGE_BUFFER_MAX_NUMBER)) ;;
  let tqFre := time_quanta_rate c in
  assert_ (negb (bitRate c =? 0) && (bitRate c <=? 1000000) && (tqFre <=? sourceClock_Hz)) ;;
  assert_ (sourceClock_Hz <=? u32 (tqFre * maxDivider)) ;;
  when HAS_CLKSRC (
    FLEXCAN_Enable false ;;
    x <- rd CTRL1 ;; wr CTRL1 (choose (clkSrc c) CAN_CTRL1_CLKSRC_MASK x)) ;;
  FLEXCAN_Enable true ;;
  FLEXCAN_Reset ;;
  ctrl1Temp <- rd CTRL1 ;; ctrl2Temp <- rd CTRL2 ;; mcrTemp <- rd MCR ;;
  let ctrl1Temp := choose (enableLoopBack c) CAN_CTRL1_LPB_MASK ctrl1Temp in
  let ctrl1Temp := choose (enableTimerSync c) CAN_CTRL1_TSYN_MASK ctrl1Temp in
  let ctrl1Temp := choose (enableListenOnlyMode c) CAN_CTRL1_LOM_MASK ctrl1Temp in
  let ctrl2Temp := choose (enableRemoteRequestFrameStored c) CAN_CTRL2_RRS_MASK ctrl2Temp in
  let mcrTemp := if HAS_SUPV then choose (enableSupervisorMode c) CAN_MCR_SUPV_MASK mcrTemp else mcrTemp in
  let mcrTemp := Z.lor (bic32 mcrTemp CAN_MCR_MAXMB_MASK) (CAN_MCR_MAXMB (u32 (maxMbNum c - 1))) in
  let mcrTemp := if HAS_SLFWAK then choose (enableSelfWakeup c) CAN_MCR_SLFWAK_MASK mcrTemp else mcrTemp in
  let mcrTemp := if HAS_GLITCH_FILTER then choose (wakeupFiltered c) CAN_MCR_WAKSRC_MASK mcrTemp else mcrTemp in
  let mcrTemp := choose (enableIndividMask c) CAN_MCR_IRMQ_MASK mcrTemp in
  let mcrTemp := choose (disableSelfReception c) CAN_MCR_SRXDIS_MASK mcrTemp in
  let mcrTemp := if HAS_DOZE then choose (enableDoze c) CAN_MCR_DOZE_MASK mcrTemp else mcrTemp in
  wr CTRL1 ctrl1Temp ;; wr CTRL2 ctrl2Temp ;; wr MCR mcrTemp ;;
  q <- lift (udiv sourceClock_Hz tqFre) ;;
  FLEXCAN_SetTimingConfig (with_preDivider (if maxDivider <? u32 (q - 1) then maxDivider else u32 (q - 1)) (timingConfig c)).
Definition FLEXCAN_Deinit : M D unit := FLEXCAN_Reset ;; FLEXCAN_Enable false ;; ret tt.
Definition FLEXCAN_GetDefaultConfig : flexcan_config :=
  CanConfig 1000000 false false 16 false true false false false false true false true
    (match TIMING_REGISTER with InCTRL1 => Timing 0 1 1 1 4 0 0 0 0 0 | _ => Timing 0 1 1 1 4 0 1 1 1 0 end).

Definition FLEXCAN_SetRxMbGlobalMask (mask : Z) : M D unit := frozen (wr RXMGMASK mask ;; wr RX14MASK mask ;; wr RX15MASK mask).
Definition FLEXCAN_SetRxFifoGlobalMask (mask : Z) : M D unit := frozen (wr RXFGMASK mask).
(** [assert(mbIdx <= (base->MCR & CAN_MCR_MAXMB_MASK))] *)
Definition assert_in_use (mbIdx : Z) : M D unit := x <- rd MCR ;; assert_ (mbIdx <=? Z.land x CAN_MCR_MAXMB_MASK).
Definition FLEXCAN_SetRxIndividualMask (maskIdx mask : Z) : M D unit := assert_in_use maskIdx ;; frozen (wr (RXIMR maskIdx) mask).

(** ** Configuration of message buffers *)

Definition FLEXCAN_IsMbOccupied (mbIdx : Z) : M D bool :=
  x <- rd MCR ;;
  if has x CAN_MCR_RFEN_MASK then
    c <- rd CTRL2 ;;
    let lastOccupiedMb := u8 (Z.shiftr (Z.land c CAN_CTRL2_RFFN_MASK) CAN_CTRL2_RFFN_SHIFT) in
    ret (mbIdx <=? u8 ((lastOccupiedMb + 1) * 2 + 5))
  else ret false.
Definition assert_free (mbIdx : Z) : M D unit := b <- FLEXCAN_IsMbOccupied mbIdx ;; assert_ (negb b).
Definition FLEXCAN_SetMbID (mbIdx id : Z) : M D unit := wr (MB_ID mbIdx) id.

Definition FLEXCAN_SetTxMbConfig (mbIdx : Z) (enable : bool) : M D unit :=
  assert_in_use mbIdx ;; assert_free mbIdx ;;
  wr (MB_CS mbIdx) (if enable then CAN_CS_CODE kFLEXCAN_TxMbInactive else 0) ;;
  wr (MB_ID mbIdx) 0 ;; wr (MB_WORD0 mbIdx) 0 ;; wr (MB_WORD1 mbIdx) 0.
Definition is_extended (f : flexcan_frame_format) : bool := bool_decide (f = kFLEXCAN_FrameFormatExtend).
Definition is_remote (t : flexcan_frame_type) : bool := bool_decide (t = kFLEXCAN_FrameTypeRemote).
(** [None] is a null pointer, allowed to disable the buffer. *)
Definition FLEXCAN_SetRxMbConfig (mbIdx : Z) (pRxMbConfig : option flexcan_rx_mb_config) (enable : bool) : M D unit :=
  assert_in_use mbIdx ;; assert_ (bool_decide (is_Some pRxMbConfig) || negb enable) ;; assert_free mbIdx ;;
  wr (MB_CS mbIdx) 0 ;; wr (MB_ID mbIdx) 0 ;; wr (MB_WORD0 mbIdx) 0 ;; wr (MB_WORD1 mbIdx) 0 ;;
  match pRxMbConfig with
  | Some c =>
      when enable (
        wr (MB_ID mbIdx) (mb_id c) ;;
        wr (MB_CS mbIdx) (ors [if is_extended (mb_format c) then CAN_CS_IDE_MASK else 0;
          if is_remote (mb_type c) then CAN_CS_RTR_MASK else 0; CAN_CS_CODE kFLEXCAN_RxMbEmpty]))
  | None => ret tt
  end.
(** The control word of a frame. *)
Definition frame_cs (code : Z) (f : flexcan_frame) : Z :=
  ors [if is_extended (format f) then Z.lor CAN_CS_SRR_MASK CAN_CS_IDE_MASK else 0;
       if is_remote (type f) then CAN_CS_RTR_MASK else 0; CAN_CS_CODE code; CAN_CS_DLC (length f)].
(** Inactivates the buffer, fills it and activates it. *)
Definition load_frame (mbIdx code : Z) (f : flexcan_frame) : M D unit :=
  x <- rd (MB_CS mbIdx) ;; wr (MB_CS mbIdx) (Z.lor (bic32 x CAN_CS_CODE_MASK) (CAN_CS_CODE kFLEXCAN_TxMbInactive)) ;;
  wr (MB_ID mbIdx) (id f) ;;
  wr (MB_WORD0 mbIdx) (dataWord0 f) ;; wr (MB_WORD1 mbIdx) (dataWord1 f) ;;
  wr (MB_CS mbIdx) (frame_cs code f).
Definition FLEXCAN_SetRemoteResponseMbConfig (mbIdx : Z) (f : flexcan_frame) : M D unit :=
  assert_in_use mbIdx ;; assert_ (length f <=? 8) ;; assert_free mbIdx ;;
  load_frame mbIdx kFLEXCAN_RxMbRanswer f.

(** The filters of the receive FIFO are kept in message buffers from 6 on. *)
Definition filters_words (rffn : Z) : Z := u8 (6 + (rffn + 1) * 2).
(** The first [i <= 0xF] with room for the filters; [None]: none has. *)
Fixpoint find_rffn (n : nat) (i idFilterNum : Z) : option Z :=
  match n with
  | O => None
  | S n => if idFilterNum <=? 8 * (i + 1) then Some i else find_rffn n (i + 1) idFilterNum
  end.
(** [m] words are left, word [k] of buffer [i] is next and filter [j]. *)
Fixpoint copy_filters (m : nat) (p j : Z) (table : list Z) (idFilterNum : Z) : M D unit :=
  match m with
  | O => ret tt
  | S m =>
      v <- (if j <? idFilterNum then lift (aget table j) else ret 0xFFFFFFFF) ;;
      wr (mb_word (p / 4) (p mod 4)) v ;;
      copy_filters m (p + 1) (u8 (j + 1)) table idFilterNum
  end.
Fixpoint disable_buffers (m : nat) (i : Z) : M D unit :=
  match m with
  | O => ret tt
  | S m => FLEXCAN_SetRxMbConfig i None false ;; disable_buffers m (i + 1)
  end.
Definition FLEXCAN_SetRxFifoConfig (pRxFifoConfig : option flexcan_rx_fifo_config) (enable : bool) : M D unit :=
  assert_ (bool_decide (is_Some pRxFifoConfig) || negb enable) ;;
  let maxMbIdx := u32 (MESSAGE_BUFFER_MAX_NUMBER - 1) in
  FLEXCAN_EnterFreezeMode ;;
  match enable, pRxFifoConfig with
  | true, None => throw NullDeref
  | true, Some c =>
      assert_ (idFilterNum c <=? 128) ;; assert_ (idFilterNum c <=? u32 ((maxMbIdx - 5) * 4)) ;;
      x <- rd MCR ;;
      let setupMbIdx := Z.shiftr (Z.land x CAN_MCR_MAXMB_MASK) CAN_MCR_MAXMB_SHIFT in
      assert_ (7 <=? setupMbIdx) ;;
      rffn <- match find_rffn 16 0 (idFilterNum c) with
        | Some rffn =>
            assert_ (0 <=? setupMbIdx - 7 - 2 * rffn) ;;
            y <- rd CTRL2 ;; wr CTRL2 (Z.lor (bic32 y CAN_CTRL2_RFFN_MASK) (CAN_CTRL2_RFFN rffn)) ;; ret rffn
        | None => ret 0
        end ;;
      let numMbOccupy := filters_words rffn in
      assert_ (numMbOccupy <=? maxMbIdx + 1) ;;
      copy_filters (Z.to_nat (4 * (numMbOccupy - 6))) (4 * 6) 0 (idFilterTable c) (idFilterNum c) ;;
      x <- rd MCR ;; wr MCR (Z.lor (bic32 x CAN_MCR_IDAM_MASK) (CAN_MCR_IDAM (filter_type_value (idFilterType c)))) ;;
      y <- rd CTRL2 ;; wr CTRL2 (if priorityHigh c then bic32 y CAN_CTRL2_MRP_MASK else Z.lor y CAN_CTRL2_MRP_MASK) ;;
      set_bits MCR CAN_MCR_RFEN_MASK
  | false, _ =>
      y <- rd CTRL2 ;;
      let numMbOccupy := filters_words (u8 (Z.shiftr (Z.land y CAN_CTRL2_RFFN_MASK) CAN_CTRL2_RFFN_SHIFT)) in
      assert_ (numMbOccupy <=? maxMbIdx + 1) ;;
      clear_bits MCR CAN_MCR_RFEN_MASK ;;
      disable_buffers (Z.to_nat numMbOccupy) 0
  end ;;
  FLEXCAN_ExitFreezeMode ;; ret tt.

(** ** Flags and interrupts *)

Definition FLEXCAN_GetStatusFlags : M D Z := rd ESR1.
Definition FLEXCAN_ClearStatusFlags (mask : Z) : M D unit := wr ESR1 mask.
Definition FLEXCAN_GetBusErrCount : M D (Z * Z) :=
  x <- rd ECR ;; y <- rd ECR ;;
  ret (u8 (Z.shiftr (Z.land x CAN_ECR_TXERRCNT_MASK) CAN_ECR_TXERRCNT_SHIFT), u8 (Z.shiftr (Z.land y CAN_ECR_RXERRCNT_MASK) CAN_ECR_RXERRCNT_SHIFT)).
(** More than 32 message buffers: their flags take two registers. *)
Definition wide : bool := 32 <? MESSAGE_BUFFER_MAX_NUMBER.
Definition read_pair (r1 r2 : can_reg) : M D Z :=
  x <- rd r1 ;; if wide then y <- rd r2 ;; ret (Z.lor x (u64 (Z.shiftl y 32))) else ret x.
Definition FLEXCAN_GetMbStatusFlags (mask : Z) : M D Z := x <- read_pair IFLAG1 IFLAG2 ;; ret (Z.land x mask).
Definition FLEXCAN_ClearMbStatusFlags (mask : Z) : M D unit :=
  wr IFLAG1 (u32 (Z.land mask 0xFFFFFFFF)) ;; when wide (wr IFLAG2 (u32 (Z.shiftr mask 32))).
Definition FLEXCAN_EnableMbInterrupts (mask : Z) : M D unit :=
  set_bits IMASK1 (u32 (Z.land mask 0xFFFFFFFF)) ;; when wide (set_bits IMASK2 (u32 (Z.shiftr mask 32))).
Definition FLEXCAN_DisableMbInterrupts (mask : Z) : M D unit :=
  clear_bits IMASK1 (u32 (Z.land mask 0xFFFFFFFF)) ;; when wide (clear_bits IMASK2 (u32 (Z.shiftr mask 32))).
Definition kFLEXCAN_WakeUpInterruptEnable : Z := if HAS_SLFWAK then CAN_MCR_WAKMSK_MASK else 0.
Definition ctrl1_interrupts : Z := ors [CAN_CTRL1_BOFFMSK_MASK; CAN_CTRL1_ERRMSK_MASK; CAN_CTRL1_RWRNMSK_MASK; CAN_CTRL1_TWRNMSK_MASK].
Definition FLEXCAN_EnableInterrupts (mask : Z) : M D unit :=
  when HAS_SLFWAK (set_bits MCR (Z.land mask kFLEXCAN_WakeUpInterruptEnable)) ;;
  set_bits CTRL1 (Z.land mask ctrl1_interrupts).
Definition FLEXCAN_DisableInterrupts (mask : Z) : M D unit :=
  when HAS_SLFWAK (clear_bits MCR (Z.land mask kFLEXCAN_WakeUpInterruptEnable)) ;;
  clear_bits CTRL1 (Z.land mask ctrl1_interrupts).

(** ** Frames *)

(** Bit [mbIdx] of the flags. *)
Definition mb_bit (mbIdx : Z) : Z := u64 (Z.shiftl 1 mbIdx).
Definition time_stamp_of (cs : Z) : Z := u16 (Z.shiftr (Z.land cs CAN_CS_TIME_STAMP_MASK) CAN_CS_TIME_STAMP_SHIFT).
Definition FLEXCAN_WriteTxMb (mbIdx : Z) (f : flexcan_frame) : M D status_t :=
  assert_in_use mbIdx ;; assert_ (length f <=? 8) ;; assert_free mbIdx ;;
  x <- rd (MB_CS mbIdx) ;;
  if negb (CAN_CS_CODE kFLEXCAN_TxMbDataOrRemote =? Z.land x CAN_CS_CODE_MASK) then
    load_frame mbIdx kFLEXCAN_TxMbDataOrRemote f ;; ret kStatus_Success
  else ret kStatus_Fail.
(** The frame of words [cs], [i], [w0] and [w1]; [hit] is kept or read. *)
Definition frame_of (cs i w0 w1 hit : Z) : flexcan_frame :=
  Frame (time_stamp_of cs) (wrap 4 (Z.shiftr (Z.land cs CAN_CS_DLC_MASK) CAN_CS_DLC_SHIFT))
    (if has cs CAN_CS_RTR_MASK then kFLEXCAN_FrameTypeRemote else kFLEXCAN_FrameTypeData)
    (if has cs CAN_CS_IDE_MASK then kFLEXCAN_FrameFormatExtend else kFLEXCAN_FrameFormatStandard)
    hit (wrap 29 (Z.land i (Z.lor CAN_ID_EXT_MASK CAN_ID_STD_MASK))) w0 w1.
(** The frame read, if any, over what [pRxFrame] holds. *)
Definition FLEXCAN_ReadRxMb (mbIdx : Z) (pRxFrame : flexcan_frame) : M D (status_t * flexcan_frame) :=
  assert_in_use mbIdx ;; assert_free mbIdx ;;
  cs <- rd (MB_CS mbIdx) ;;
  let rx_code := Z.shiftr (Z.land cs CAN_CS_CODE_MASK) CAN_CS_CODE_SHIFT in
  if (kFLEXCAN_RxMbFull =? rx_code) || (kFLEXCAN_RxMbOverrun =? rx_code) then
    i <- rd (MB_ID mbIdx) ;; w0 <- rd (MB_WORD0 mbIdx) ;; w1 <- rd (MB_WORD1 mbIdx) ;;
    rd TIMER ;;
    ret (if kFLEXCAN_RxMbFull =? rx_code then kStatus_Success else kStatus_FLEXCAN_RxOverflow, frame_of cs i w0 w1 (idhit pRxFrame))
  else rd TIMER ;; ret (kStatus_Fail, pRxFrame).
Definition FLEXCAN_ReadRxFifo (pRxFrame : flexcan_frame) : M D (status_t * flexcan_frame) :=
  x <- rd MCR ;;
  if has x CAN_MCR_RFEN_MASK then
    cs <- rd (MB_CS 0) ;; i <- rd (MB_ID 0) ;; w0 <- rd (MB_WORD0 0) ;; w1 <- rd (MB_WORD1 0) ;; h <- rd RXFIR ;;
    rd TIMER ;;
    ret (kStatus_Success, frame_of cs i w0 w1 (wrap 9 (u16 (Z.land h CAN_RXFIR_IDHIT_MASK))))
  else ret (kStatus_Fail, pRxFrame).

(** ** Blocking transfers *)

Definition with_timestamp (t : Z) (f : flexcan_frame) : flexcan_frame :=
  Frame t (length f) (type f) (format f) (idhit f) (id f) (dataWord0 f) (dataWord1 f).
Definition wait_flag (mask : Z) : M D bool := wait_limited FLEXCAN_POLLING_TIMEOUT (x <- FLEXCAN_GetMbStatusFlags mask ;; ret (negb (x =? 0))).
Definition FLEXCAN_TransferSendBlocking (mbIdx : Z) (f : flexcan_frame) : M D (status_t * flexcan_frame) :=
  s <- FLEXCAN_WriteTxMb mbIdx f ;;
  if kStatus_Success =? s then
    ok <- wait_flag (mb_bit mbIdx) ;;
    if negb ok then ret (kStatus_Timeout, f) else
    FLEXCAN_ClearMbStatusFlags (mb_bit mbIdx) ;;
    cs <- rd (MB_CS mbIdx) ;;
    ret (kStatus_Success, with_timestamp (time_stamp_of cs) f)
  else ret (kStatus_Fail, f).
Definition FLEXCAN_TransferReceiveBlocking (mbIdx : Z) (f : flexcan_frame) : M D (status_t * flexcan_frame) :=
  ok <- wait_flag (mb_bit mbIdx) ;;
  if negb ok then ret (kStatus_Timeout, f) else
  FLEXCAN_ClearMbStatusFlags (mb_bit mbIdx) ;;
  FLEXCAN_ReadRxMb mbIdx f.
Definition FLEXCAN_TransferReceiveFifoBlocking (f : flexcan_frame) : M D (status_t * flexcan_frame) :=
  ok <- wait_flag kFLEXCAN_RxFifoFrameAvlFlag ;;
  if negb ok then ret (kStatus_Timeout, f) else
  r <- FLEXCAN_ReadRxFifo f ;;
  FLEXCAN_ClearMbStatusFlags kFLEXCAN_RxFifoFrameAvlFlag ;;
  ret r.
End Buffers.
