(* ===== verification/FlexcanTransfer.v ===== *)
(** * Interrupt-driven transfers of the CAN controller

    The handle of fsl_flexcan.c, the calls that start and abort transfers and
    the interrupt handlers. *)

From stdpp Require Import base list numbers tactics.
From Stdlib Require Import ZArith Lia.
From S2P Require Import Prelude Mmio Flexcan FlexcanBuffers.

Open Scope Z_scope.
Open Scope prog_scope.

Inductive flexcan_state := kFLEXCAN_StateIdle | kFLEXCAN_StateRxData | kFLEXCAN_StateRxRemote | kFLEXCAN_StateTxData | kFLEXCAN_StateTxRemote | kFLEXCAN_StateRxFifo.
#[export] Instance flexcan_state_eq_dec : EqDecision flexcan_state.
Proof. solve_decision. Defined.

(** Frames are in a memory of frames; address 0 is the null pointer. *)
Record flexcan_mb_transfer := MbTransfer { mb_frame : Z; mbIdx : Z }.
Record flexcan_fifo_transfer := FifoTransfer { fifo_frame : Z; frameNum : Z }.
Record flexcan_handle := Handle {
  has_callback : bool; mbFrameBuf : Z -> Z; rxFifoFrameBuf : Z; rxFifoFrameNum : Z; rxFifoTransferTotalNum : Z;
  mbState : Z -> flexcan_state; rxFifoState : flexcan_state; mb_timestamp : Z -> Z
}.
Definition put_at {A} (i : Z) (x : A) (f : Z -> A) : Z -> A := fun j => if j =? i then x else f j.
Definition with_mbFrameBuf i x h := Handle (has_callback h) (put_at i x (mbFrameBuf h)) (rxFifoFrameBuf h) (rxFifoFrameNum h) (rxFifoTransferTotalNum h) (mbState h) (rxFifoState h) (mb_timestamp h).
Definition with_fifo b n t h := Handle (has_callback h) (mbFrameBuf h) b n t (mbState h) (rxFifoState h) (mb_timestamp h).
Definition with_mbState i x h := Handle (has_callback h) (mbFrameBuf h) (rxFifoFrameBuf h) (rxFifoFrameNum h) (rxFifoTransferTotalNum h) (put_at i x (mbState h)) (rxFifoState h) (mb_timestamp h).
Definition with_rxFifoState x h := Handle (has_callback h) (mbFrameBuf h) (rxFifoFrameBuf h) (rxFifoFrameNum h) (rxFifoTransferTotalNum h) (mbState h) x (mb_timestamp h).
Definition with_mb_timestamp i x h := Handle (has_callback h) (mbFrameBuf h) (rxFifoFrameBuf h) (rxFifoFrameNum h) (rxFifoTransferTotalNum h) (mbState h) (rxFifoState h) (put_at i x (mb_timestamp h)).

Record can_world (D A : Type) := CanWorld { c_hw : D; c_handle : flexcan_handle; c_frames : Z -> flexcan_frame; c_app : A }.
Arguments CanWorld {D A}. Arguments c_hw {D A}. Arguments c_handle {D A}. Arguments c_frames {D A}. Arguments c_app {D A}.

Section Transfer.
Context {D A : Type} `{!Device can_reg D} {F : CanFields} {X : CanFeatures}.
Abbreviation W := (can_world D A).
Context (fuel : nat).

Definition with_hw (d : D) (w : W) : W := CanWorld d (c_handle w) (c_frames w) (c_app w).
Definition with_handle (h : flexcan_handle) (w : W) : W := CanWorld (c_hw w) h (c_frames w) (c_app w).
Definition with_frames (m : Z -> flexcan_frame) (w : W) : W := CanWorld (c_hw w) (c_handle w) m (c_app w).
Definition with_app (a : A) (w : W) : W := CanWorld (c_hw w) (c_handle w) (c_frames w) a.
Definition on_can {B} (m : M D B) : M W B := fun w => match m (c_hw w) with Ok (b, d) => Ok (b, with_hw d w) | Err e => Err e end.
Definition handle : M W flexcan_handle := gets c_handle.
Definition upd (f : flexcan_handle -> flexcan_handle) : M W unit := modify (fun w => with_handle (f (c_handle w)) w).
(** [*p] *)
Definition load (p : Z) : M W flexcan_frame := if p =? 0 then throw NullDeref else gets (fun w => c_frames w p).
Definition store (p : Z) (f : flexcan_frame) : M W unit := if p =? 0 then throw NullDeref else modify (fun w => with_frames (put_at p f (c_frames w)) w).
(** Reading a frame into [*p], which the function asserts not to be null. *)
Definition read_into (p : Z) (m : flexcan_frame -> M D (status_t * flexcan_frame)) : M W status_t :=
  assert_ (negb (p =? 0)) ;; f <- load p ;; r <- on_can (m f) ;; store p r.2 ;; ret r.1.

Definition event_interrupts : Z := Z.lor ctrl1_interrupts kFLEXCAN_WakeUpInterruptEnable.
Definition no_handle (callback : bool) : flexcan_handle := Handle callback (fun _ => 0) 0 0 0 (fun _ => kFLEXCAN_StateIdle) kFLEXCAN_StateIdle (fun _ => 0).
Definition FLEXCAN_TransferCreateHandle (callback : bool) : M W unit :=
  upd (fun _ => no_handle callback) ;;
  on_can (if callback then FLEXCAN_EnableInterrupts event_interrupts else FLEXCAN_DisableInterrupts event_interrupts).

(** ** Starting transfers *)

Definition mb_checks (mbIdx : Z) : M W unit := on_can (assert_in_use mbIdx ;; assert_free mbIdx).
Definition FLEXCAN_TransferSendNonBlocking (x : flexcan_mb_transfer) : M W status_t :=
  mb_checks (mbIdx x) ;;
  h <- handle ;;
  if bool_decide (mbState h (mbIdx x) = kFLEXCAN_StateIdle) then
    f <- load (mb_frame x) ;;
    upd (with_mbState (mbIdx x) (if is_remote (type f) then kFLEXCAN_StateTxRemote else kFLEXCAN_StateTxData)) ;;
    s <- on_can (FLEXCAN_WriteTxMb (mbIdx x) f) ;;
    if kStatus_Success =? s then on_can (FLEXCAN_EnableMbInterrupts (mb_bit (mbIdx x))) ;; ret kStatus_Success
    else upd (with_mbState (mbIdx x) kFLEXCAN_StateIdle) ;; ret kStatus_Fail
  else ret kStatus_FLEXCAN_TxBusy.
Definition FLEXCAN_TransferReceiveNonBlocking (x : flexcan_mb_transfer) : M W status_t :=
  mb_checks (mbIdx x) ;;
  h <- handle ;;
  if bool_decide (mbState h (mbIdx x) = kFLEXCAN_StateIdle) then
    upd (with_mbState (mbIdx x) kFLEXCAN_StateRxData) ;;
    upd (with_mbFrameBuf (mbIdx x) (mb_frame x)) ;;
    on_can (FLEXCAN_EnableMbInterrupts (mb_bit (mbIdx x))) ;;
    ret kStatus_Success
  else ret kStatus_FLEXCAN_RxBusy.
Definition FLEXCAN_TransferReceiveFifoNonBlocking (x : flexcan_fifo_transfer) : M W status_t :=
  h <- handle ;;
  if bool_decide (rxFifoState h = kFLEXCAN_StateIdle) then
    upd (with_rxFifoState kFLEXCAN_StateRxFifo) ;;
    upd (with_fifo (fifo_frame x) (frameNum x) (frameNum x)) ;;
    let irqMask := Z.lor kFLEXCAN_RxFifoOverflowFlag kFLEXCAN_RxFifoWarningFlag in
    on_can (FLEXCAN_EnableMbInterrupts (if frameNum x <? 5 then Z.lor irqMask kFLEXCAN_RxFifoFrameAvlFlag else irqMask)) ;;
    ret kStatus_Success
  else ret kStatus_FLEXCAN_RxFifoBusy.
(** [None]: [*count] is left. *)
Definition FLEXCAN_TransferGetReceiveFifoCount : M W (status_t * option Z) :=
  h <- handle ;;
  ret (if bool_decide (rxFifoState h = kFLEXCAN_StateIdle) then (kStatus_NoTransferInProgress, None)
       else (kStatus_Success, Some (u32 (rxFifoTransferTotalNum h - rxFifoFrameNum h)))).
Definition FLEXCAN_GetTimeStamp (mbIdx : Z) : M W Z := h <- handle ;; ret (mb_timestamp h mbIdx).

(** ** Aborting transfers *)

Definition FLEXCAN_TransferAbortSend (mbIdx : Z) : M W unit :=
  mb_checks mbIdx ;;
  on_can (FLEXCAN_DisableMbInterrupts (mb_bit mbIdx)) ;;
  cs <- on_can (rd (MB_CS mbIdx)) ;;
  upd (with_mb_timestamp mbIdx (time_stamp_of cs)) ;;
  on_can (FLEXCAN_SetTxMbConfig mbIdx true) ;;
  upd (with_mbState mbIdx kFLEXCAN_StateIdle).
Definition FLEXCAN_TransferAbortReceive (mbIdx : Z) : M W unit :=
  mb_checks mbIdx ;;
  on_can (FLEXCAN_DisableMbInterrupts (mb_bit mbIdx)) ;;
  upd (with_mbFrameBuf mbIdx 0) ;;
  upd (with_mbState mbIdx kFLEXCAN_StateIdle).
Definition fifo_interrupts : Z := ors [kFLEXCAN_RxFifoOverflowFlag; kFLEXCAN_RxFifoWarningFlag; kFLEXCAN_RxFifoFrameAvlFlag].
Definition FLEXCAN_TransferAbortReceiveFifo : M W unit :=
  x <- on_can (rd MCR) ;;
  when (has x CAN_MCR_RFEN_MASK) (
    on_can (FLEXCAN_DisableMbInterrupts fifo_interrupts) ;;
    upd (with_fifo 0 0 0)) ;;
  upd (with_rxFifoState kFLEXCAN_StateIdle).

(** ** Interrupts *)

Definition FLEXCAN_CheckUnhandleInterruptEvents : M W bool :=
  s <- on_can FLEXCAN_GetStatusFlags ;;
  if has s (Z.lor FLEXCAN_ERROR_AND_STATUS_INT_FLAG FLEXCAN_WAKE_UP_FLAG) then ret true
  else
    m1 <- on_can (rd IMASK1) ;; f1 <- on_can (rd IFLAG1) ;;
    if wide then
      m2 <- on_can (rd IMASK2) ;; f2 <- on_can (rd IFLAG2) ;;
      ret (has (Z.lor m1 (u64 (Z.shiftl m2 32))) (Z.lor f1 (u64 (Z.shiftl f2 32))))
    else ret (has m1 f1).

(** A frame of the FIFO goes to the buffer, its time stamp to entry [i]; then
    the buffer moves on. *)
Definition take_frame (i : Z) : M W status_t :=
  h <- handle ;;
  status <- read_into (rxFifoFrameBuf h) FLEXCAN_ReadRxFifo ;;
  h <- handle ;; f <- load (rxFifoFrameBuf h) ;;
  upd (with_mb_timestamp i (timestamp f)) ;;
  upd (fun h => with_fifo (rxFifoFrameBuf h + 1) (u32 (rxFifoFrameNum h - 1)) (rxFifoTransferTotalNum h) h) ;;
  ret status.
(** [n] of five frames are left to take. *)
Fixpoint take_frames (n : nat) (i : Z) : M W unit :=
  match n with
  | O => ret tt
  | S n => take_frame i ;; on_can (FLEXCAN_ClearMbStatusFlags kFLEXCAN_RxFifoFrameAvlFlag) ;; take_frames n (i + 1)
  end.
Definition FLEXCAN_SubHandlerForLegacyRxFIFO (result : Z) : M W status_t :=
  let flag := u32 (Z.shiftl 1 result) in
  if flag =? kFLEXCAN_RxFifoOverflowFlag then ret kStatus_FLEXCAN_RxFifoOverflow
  else if flag =? kFLEXCAN_RxFifoWarningFlag then
    h <- handle ;;
    available <- (if 5 <? rxFifoFrameNum h then x <- on_can (rd IFLAG1) ;; ret (has x kFLEXCAN_RxFifoFrameAvlFlag) else ret false) ;;
    if available : bool then
      take_frames 5 0 ;;
      h <- handle ;;
      when (rxFifoFrameNum h <? 5) (on_can (FLEXCAN_EnableMbInterrupts kFLEXCAN_RxFifoFrameAvlFlag)) ;;
      ret kStatus_FLEXCAN_RxFifoBusy
    else ret kStatus_FLEXCAN_RxFifoWarning
  else if flag =? kFLEXCAN_RxFifoFrameAvlFlag then
    h <- handle ;;
    when (0 <? rxFifoFrameNum h) (take_frame 0 ;; ret tt) ;;
    h <- handle ;;
    if rxFifoFrameNum h =? 0 then FLEXCAN_TransferAbortReceiveFifo ;; ret kStatus_FLEXCAN_RxFifoIdle
    else ret kStatus_FLEXCAN_RxFifoBusy
  else ret kStatus_FLEXCAN_UnHandled.

Definition FLEXCAN_SubHandlerForMB (result : Z) : M W status_t :=
  assert_ (result <? CAN_WORD1_COUNT) ;;
  h <- handle ;;
  match mbState h result with
  | kFLEXCAN_StateRxData =>
      status <- read_into (mbFrameBuf h result) (FLEXCAN_ReadRxMb (u8 result)) ;;
      status <- (if (kStatus_Success =? status) || (kStatus_FLEXCAN_RxOverflow =? status) then
          h <- handle ;; f <- load (mbFrameBuf h result) ;;
          upd (with_mb_timestamp result (timestamp f)) ;;
          ret (if kStatus_Success =? status then kStatus_FLEXCAN_RxIdle else status)
        else ret status) ;;
      FLEXCAN_TransferAbortReceive (u8 result) ;;
      ret status
  | kFLEXCAN_StateRxRemote => FLEXCAN_TransferAbortReceive (u8 result) ;; ret kStatus_FLEXCAN_RxRemote
  | kFLEXCAN_StateTxData => FLEXCAN_TransferAbortSend (u8 result) ;; ret kStatus_FLEXCAN_TxIdle
  | kFLEXCAN_StateTxRemote => upd (with_mbState result kFLEXCAN_StateRxRemote) ;; ret kStatus_FLEXCAN_TxSwitchToRx
  | _ => ret kStatus_FLEXCAN_UnHandled
  end.

(** The first of [n] bits from bit [j] on that is set. *)
Fixpoint first_bit (n : nat) (j flags : Z) : option Z :=
  match n with
  | O => None
  | S n => if has flags (u32 (Z.shiftl 1 j)) then Some j else first_bit n (j + 1) flags
  end.
(** The words of flags from word [i] on, [n] of them: the outer loop goes on
    when the inner one has found a bit. *)
Fixpoint find_mb (n : nat) (i startMbIdx endMbIdx : Z) (intflag : Z -> Z) (result : Z) : Z :=
  match n with
  | O => result
  | S n =>
      let bitStart := if i =? startMbIdx / 32 then startMbIdx mod 32 else 0 in
      let bitEnd := if i =? endMbIdx / 32 then endMbIdx mod 32 else 31 in
      find_mb n (i + 1) startMbIdx endMbIdx intflag
        (if intflag i =? 0 then result
         else match first_bit (Z.to_nat (bitEnd - bitStart + 1)) bitStart (intflag i) with Some j => i * 32 + j | None => result end)
  end.
(** The status and [*pResult]. *)
Definition FLEXCAN_SubHandlerForDataTransfered (startMbIdx endMbIdx : Z) : M W (status_t * Z) :=
  m1 <- on_can (rd IMASK1) ;; f1 <- on_can (rd IFLAG1) ;;
  second <- (if wide then m2 <- on_can (rd IMASK2) ;; f2 <- on_can (rd IFLAG2) ;; ret (Z.land m2 f2) else ret 0) ;;
  let intflag i := if i =? 0 then Z.land m1 f1 else if i =? 1 then second else 0 in
  let result := find_mb (Z.to_nat (endMbIdx / 32 - startMbIdx / 32 + 1)) (startMbIdx / 32) startMbIdx endMbIdx intflag 0xFF in
  if result <? MESSAGE_BUFFER_MAX_NUMBER then
    h <- handle ;;
    fifo <- (if bool_decide (rxFifoState h <> kFLEXCAN_StateIdle) && (result <=? CAN_IFLAG1_BUF7I_SHIFT)
             then x <- on_can (rd MCR) ;; ret (has x CAN_MCR_RFEN_MASK) else ret false) ;;
    status <- (if fifo : bool then FLEXCAN_SubHandlerForLegacyRxFIFO result else FLEXCAN_SubHandlerForMB result) ;;
    on_can (FLEXCAN_ClearMbStatusFlags (mb_bit result)) ;;
    ret (status, result)
  else ret (kStatus_FLEXCAN_UnHandled, result).

Section Handlers.
Context (callback : status_t -> Z -> M W unit).
Definition call_back (status : status_t) (result : Z) : M W unit := h <- handle ;; when (has_callback h) (callback status result).

Definition handle_event (mbNum : Z) : M W (status_t * Z * Z) :=
  result <- on_can FLEXCAN_GetStatusFlags ;;
  if has result FLEXCAN_ERROR_AND_STATUS_INT_FLAG then
    on_can (FLEXCAN_ClearStatusFlags FLEXCAN_ERROR_AND_STATUS_INT_FLAG) ;; ret (kStatus_FLEXCAN_ErrorStatus, result, mbNum)
  else if has result FLEXCAN_WAKE_UP_FLAG then
    on_can (FLEXCAN_ClearStatusFlags FLEXCAN_WAKE_UP_FLAG) ;; ret (kStatus_FLEXCAN_WakeUp, result, mbNum)
  else
    r <- FLEXCAN_SubHandlerForDataTransfered 0 (u32 (MESSAGE_BUFFER_MAX_NUMBER - 1)) ;;
    ret (r.1, r.2, r.2).
(** [do { ... } while (FLEXCAN_CheckUnhandleInterruptEvents(base))] *)
Fixpoint handle_events (n : nat) (mbNum : Z) : M W unit :=
  match n with
  | O => throw OutOfFuel
  | S n =>
      e <- handle_event mbNum ;;
      call_back e.1.1 e.1.2 ;;
      again <- FLEXCAN_CheckUnhandleInterruptEvents ;;
      if again : bool then handle_events n e.2 else ret tt
  end.
Definition FLEXCAN_TransferHandleIRQ : M W unit := handle_events fuel 0xFF.

Definition mb_pending : M W bool :=
  m1 <- on_can (rd IMASK1) ;; f1 <- on_can (rd IFLAG1) ;;
  if has m1 f1 then ret true
  else if wide then m2 <- on_can (rd IMASK2) ;; f2 <- on_can (rd IFLAG2) ;; ret (has m2 f2) else ret false.
Fixpoint handle_mbs (n : nat) (startMbIdx endMbIdx : Z) : M W unit :=
  match n with
  | O => throw OutOfFuel
  | S n =>
      r <- FLEXCAN_SubHandlerForDataTransfered startMbIdx endMbIdx ;;
      call_back r.1 r.2 ;;
      again <- mb_pending ;;
      if again : bool then handle_mbs n startMbIdx endMbIdx else ret tt
  end.
Definition FLEXCAN_MbHandleIRQ (startMbIdx endMbIdx : Z) : M W unit := handle_mbs fuel startMbIdx endMbIdx.
Definition FLEXCAN_BusoffErrorHandleIRQ : M W unit :=
  statusReg <- on_can (rd ESR1) ;; reg <- on_can (rd CTRL1) ;;
  let enableInt := Z.lor (u32 (Z.shiftl (Z.land reg (Z.lor CAN_CTRL1_TWRNMSK_MASK CAN_CTRL1_RWRNMSK_MASK)) 6))
    (Z.shiftr (Z.land reg (Z.lor CAN_CTRL1_ERRMSK_MASK CAN_CTRL1_BOFFMSK_MASK)) 13) in
  when (has statusReg enableInt) (
    on_can (wr ESR1 FLEXCAN_ERROR_AND_STATUS_INT_FLAG) ;;
    call_back kStatus_FLEXCAN_ErrorStatus statusReg).
End Handlers.
End Transfer.
