(* ===== verification/FlexcanTiming.v ===== *)
(** * The bit timing of the CAN controller

    [FLEXCAN_CalculateImprovedTimingValues] finds a timing exactly if the
    registers can hold one (the CBT register: one with a divider that CTRL1
    could hold), its bit rate is the one asked for, and no such timing samples
    later without sampling after the point that CiA recommends. *)

From stdpp Require Import base list numbers tactics.
From Stdlib Require Import ZArith Lia.
From S2P Require Import Prelude Mmio Flexcan FlexcanBuffers.

Open Scope Z_scope.
Open Scope prog_scope.

(** The widths of the timing fields. *)
Class CanTimingLaws {F : CanFields} := {
  law_propseg : MAX_PROPSEG = 7; law_pseg1 : MAX_PSEG1 = 7; law_pseg2 : MAX_PSEG2 = 7; law_rjw : MAX_RJW = 3; law_presdiv : MAX_PRESDIV = 255;
  law_epropseg : MAX_EPROPSEG = 63; law_epseg1 : MAX_EPSEG1 = 31; law_epseg2 : MAX_EPSEG2 = 31; law_epresdiv : MAX_EPRESDIV = 1023;
  law_ntseg1 : MAX_NTSEG1 = 255; law_ntseg2 : MAX_NTSEG2 = 127; law_enpresdiv : MAX_ENPRESDIV = 1023
}.

(** ** The search over the numbers of quanta *)

Section Search.
Context (segments : Z -> flexcan_timing_config -> outcome flexcan_timing_config) (tqMin tqMax pdivMAX : Z).
Context (bitRate source : Z) (rate : 0 < bitRate <= 1000000) (clocked : 0 <= source < 2 ^ 32) (few : 0 < tqMin /\ tqMax <= 1000) (divides : 0 <= pdivMAX).
(** The segments of a number of quanta. *)
Context (rj s1 s2 p : Z -> Z).
Definition timing_for (t d : Z) (best : flexcan_timing_config) : flexcan_timing_config := with_nominal d (rj t) (s1 t) (s2 t) (p t) best.
Context (segmented : forall t c, tqMin <= t <= tqMax -> segments t c = Ok (timing_for t (preDivider c) c) /\ 0 <= s2 t < t).

(** With [t] quanta and the divider [d] the bit rate is exact. *)
Definition exact (t d : Z) : Prop := bitRate * t * (d + 1) = source /\ 0 <= d <= pdivMAX.
(** The part of the bit after the sample point, in permille. *)
Definition share (t : Z) : Z := (s2 t + 1) * 1000 / t.

(** What the search gives, of the numbers up to [tq]. *)
Definition searched (tq spTemp : Z) (fg : bool) (best : flexcan_timing_config) (r : bool * flexcan_timing_config) : Prop :=
  (r.1 = true <-> fg = true \/ exists t d, tqMin <= t <= tq /\ exact t d) /\
  ((r.2 = best /\ forall t d, tqMin <= t <= tq -> exact t d -> spTemp <= share t) \/
   exists t d, tqMin <= t <= tq /\ exact t d /\ r.2 = timing_for t d best /\ share t < spTemp /\
     forall t' d', tqMin <= t' <= tq -> exact t' d' -> share t <= share t').

Lemma exact_same t d d' : tqMin <= t -> exact t d -> exact t d' -> d = d'.
Proof using rate few. unfold exact. intros Ht [H1 _] [H2 _]. assert (0 < bitRate * t) by nia.
  assert (d + 1 = d' + 1) by (apply (Z.mul_reg_l _ _ (bitRate * t)); lia). lia.
Qed.
(** The number of quanta [tq] is skipped. *)
Lemma searched_skip tq spTemp fg best r : (forall d, ~ exact tq d) -> searched (tq - 1) spTemp fg best r -> searched tq spTemp fg best r.
Proof using Type.
  intros Hn [H1 H2].
  assert (Hle : forall t d, tqMin <= t <= tq -> exact t d -> tqMin <= t <= tq - 1).
  { intros t d Ht He. assert (t <> tq) by (intros ->; by apply (Hn d)). lia. }
  split.
  - rewrite H1. split; (intros [?|(t & d & Ht & He)]; [by left|right; exists t, d]).
    + split; [lia|done].
    + split; [by apply (Hle t d)|done].
  - destruct H2 as [[H2 H3]|(t & d & Ht & He & H2 & H3 & H4)]; [left|right; exists t, d].
    + split; [done|]. intros t d Ht He. apply (H3 t d); [by apply (Hle t d)|done].
    + repeat split; try done; try lia; try apply He. intros t' d' Ht' He'. apply (H4 t' d'); [by apply (Hle t' d')|done].
Qed.
Lemma searched_none tq spTemp fg best : (forall t d, tqMin <= t <= tq -> ~ exact t d) -> searched tq spTemp fg best (fg, best).
Proof using Type.
  intros Hn. split; cbn [fst snd].
  - split; [by left|]. intros [?|(t & d & Ht & He)]; [done|]. by destruct (Hn t d).
  - left. split; [done|]. intros t d Ht He. by destruct (Hn t d).
Qed.
(** [tq] is better than all before it, or not. *)
Lemma searched_take tq spTemp fg best r d : tqMin <= tq -> exact tq d -> share tq < spTemp ->
  searched (tq - 1) (share tq) true (timing_for tq d best) r -> searched tq spTemp fg best r.
Proof using rate few.
  intros Ht He Hs [H1 H2]. split.
  - rewrite H1. split; [|by left]. intros _. right. exists tq, d. split; [lia|done].
  - right. destruct H2 as [[H2 H3]|(t & d1 & Ht1 & He1 & H2 & H3 & H4)].
    + exists tq, d. repeat split; try done; try lia; try apply He. intros t' d' Ht' He'.
      destruct (decide (t' = tq)) as [->|]; [lia|]. apply (H3 t' d'); [lia|done].
    + exists t, d1. repeat split; try done; try lia; try apply He1. intros t' d' Ht' He'.
      destruct (decide (t' = tq)) as [->|]; [lia|]. apply (H4 t' d'); [lia|done].
Qed.
Lemma searched_leave tq spTemp fg best r d : tqMin <= tq -> exact tq d -> spTemp <= share tq ->
  searched (tq - 1) spTemp true best r -> searched tq spTemp fg best r.
Proof using Type.
  intros Ht He Hs [H1 H2]. split.
  - rewrite H1. split; [|by left]. intros _. right. exists tq, d. split; [lia|done].
  - destruct H2 as [[H2 H3]|(t & d1 & Ht1 & He1 & H2 & H3 & H4)]; [left|right].
    + split; [done|]. intros t d1 Ht1 He1. destruct (decide (t = tq)) as [->|]; [lia|]. apply (H3 t d1); [lia|done].
    + exists t, d1. repeat split; try done; try lia; try apply He1. intros t' d' Ht' He'.
      destruct (decide (t' = tq)) as [->|]; [lia|]. apply (H4 t' d'); [lia|done].
Qed.

Lemma share_exact t : tqMin <= t <= tqMax -> u32 (u32 (s2 t + 1) * 1000) / t = share t.
Proof using segmented few. intros Ht. destruct (segmented t no_timing Ht) as [_ H]. unfold share. by ws. Qed.

(** Fewer quanta need a larger divider. *)
Lemma too_large t : tqMin <= t -> bitRate * t * (source / (bitRate * t)) = source -> pdivMAX < source / (bitRate * t) - 1 ->
  forall t' d', tqMin <= t' <= t -> ~ exact t' d'.
Proof using rate few divides clocked.
  intros Ht Hq Hp t' d' Ht' [He Hd]. set (q := source / (bitRate * t)) in *.
  assert (bitRate * t' * (d' + 1) <= bitRate * t * (pdivMAX + 1)) by (apply Z.mul_le_mono_nonneg; nia).
  assert (0 < bitRate * t) by nia. nia.
Qed.

Lemma search_run n tq spTemp fg best : tqMin <= tq <= tqMax -> (Z.to_nat (tq - tqMin) < n)%nat ->
  exists r, search_timing segments tqMin pdivMAX n bitRate source tq spTemp fg best = Ok r /\ searched tq spTemp fg best r.
Proof using segmented rate few clocked divides.
  revert tq spTemp fg best. induction n as [|n IH]; intros tq spTemp fg best Ht Hn; [lia|]. cbn [search_timing].
  assert (Hnext : forall sp fg best, exists r, (if tqMin <=? u32 (tq - 1) then search_timing segments tqMin pdivMAX n bitRate source (u32 (tq - 1)) sp fg best
     else Ok (fg, best)) = Ok r /\ searched (tq - 1) sp fg best r).
  { intros sp fg' best'. ws. destruct (Z.leb_spec tqMin (tq - 1)); [apply IH; lia|]. eexists. split; [done|]. apply searched_none. intros t d Ht'. lia. }
  assert (Hc : 0 < bitRate * tq <= 1000000000) by nia. cbv zeta.
  assert (Hu : u32 (bitRate * tq) = bitRate * tq) by (ws; lia). rewrite Hu.
  assert (Hskip : (forall d, ~ exact tq d) -> exists r, (if tqMin <=? u32 (tq - 1) then search_timing segments tqMin pdivMAX n bitRate source (u32 (tq - 1)) spTemp fg best
     else Ok (fg, best)) = Ok r /\ searched tq spTemp fg best r).
  { intros Hno. destruct (Hnext spTemp fg best) as (r & -> & Hr). exists r. split; [done|]. by apply searched_skip. }
  destruct (Z.ltb_spec source (bitRate * tq)) as [Hlt|Hge].
  { apply Hskip. intros d [He Hd]. nia. }
  rewrite udiv_ok by lia. cbn [obind]. set (q := source / (bitRate * tq)).
  assert (Hq : 0 < q < 2 ^ 32) by (unfold q; split; [apply Z.div_str_pos; lia|apply Z.div_lt_upper_bound; nia]).
  assert (Hm : q * (bitRate * tq) <= source) by (unfold q; rewrite Z.mul_comm; apply Z.mul_div_le; lia).
  rewrite (wrap_small 32 (q * (bitRate * tq))), (wrap_small 32 (q - 1)) by lia.
  destruct (Z.eqb_spec (q * (bitRate * tq)) source) as [Heq|Hne]; cbn [negb].
  2:{ apply Hskip. intros d [He Hd]. apply Hne. unfold q. rewrite <- He, (Z.mul_comm (bitRate * tq) (d + 1)), Z.div_mul by lia. lia. }
  destruct (Z.ltb_spec pdivMAX (q - 1)) as [Hbig|Hsmall].
  { eexists. split; [done|]. apply searched_none. apply too_large; fold q; lia. }
  assert (He : exact tq (q - 1)) by (unfold exact; nia).
  destruct (segmented tq (with_preDivider (q - 1) no_timing) Ht) as [-> _]. cbn [obind phaseSeg2 timing_for with_nominal].
  rewrite (share_exact tq Ht). cbn [preDivider rJumpwidth phaseSeg1 phaseSeg2 propSeg with_preDivider].
  destruct (Z.ltb_spec (share tq) spTemp) as [Hs|Hs].
  - destruct (Hnext (share tq) true (timing_for tq (q - 1) best)) as (r & Hr & HS). exists r. split; [exact Hr|]. by apply (searched_take _ _ _ _ _ (q - 1)); try lia.
  - destruct (Hnext spTemp true best) as (r & Hr & HS). exists r. split; [exact Hr|]. by apply (searched_leave _ _ _ _ _ (q - 1)); try lia.
Qed.
End Search.

(** ** The segments of a number of quanta *)

Section Segments.
Context {F : CanFields} {L : CanTimingLaws}.

(** The time quanta of a bit, and of its part after the sample point. *)
Definition quanta (c : flexcan_timing_config) : Z := 1 + (propSeg c + 1) + (phaseSeg1 c + 1) + (phaseSeg2 c + 1).
Definition after_sample (c : flexcan_timing_config) : Z := (phaseSeg2 c + 1) * 1000 / quanta c.
(** The sample point is at [sp] permille of the bit or earlier. *)
Definition samples_by (sp : Z) (c : flexcan_timing_config) : Prop := 1000 * (quanta c - (phaseSeg2 c + 1)) <= sp * quanta c.
(** The fields have room for the segments. *)
Definition segments_held (kind : timing_register) (c : flexcan_timing_config) : Prop :=
  0 <= propSeg c /\ 0 <= phaseSeg1 c /\ 1 <= phaseSeg2 c /\
  match kind with
  | InCTRL1 => propSeg c <= MAX_PROPSEG /\ phaseSeg1 c <= MAX_PSEG1 /\ phaseSeg2 c <= MAX_PSEG2
  | InCBT => propSeg c <= MAX_EPROPSEG /\ phaseSeg1 c <= MAX_EPSEG1 /\ phaseSeg2 c <= MAX_EPSEG2
  | InENCBT => phaseSeg1 c + propSeg c + 1 <= MAX_NTSEG1 /\ phaseSeg2 c <= MAX_NTSEG2
  end.
Definition jump_held (kind : timing_register) (c : flexcan_timing_config) : Prop :=
  0 <= rJumpwidth c <= Z.min (phaseSeg1 c) (phaseSeg2 c) /\ (kind = InCTRL1 -> rJumpwidth c <= MAX_RJW).

Lemma limits kind : match kind with
  | InCTRL1 => seg1Max kind = 8 /\ proSegMax kind = 8 /\ max_quanta kind = 25
  | InCBT => seg1Max kind = 32 /\ proSegMax kind = 64 /\ max_quanta kind = 129
  | InENCBT => seg1Max kind = 128 /\ proSegMax kind = 128 /\ max_quanta kind = 385
  end /\ min_quanta kind = 8.
Proof.
  unfold seg1Max, proSegMax, max_quanta, CTRL1_MAX_TIME_QUANTA, CBT_MAX_TIME_QUANTA, ENCBT_MAX_TIME_QUANTA.
  rewrite law_propseg, law_pseg1, law_pseg2, law_epropseg, law_epseg1, law_epseg2, law_ntseg1, law_ntseg2. by destruct kind.
Qed.
Lemma ideal_cases b : ideal_sp b = 750 \/ ideal_sp b = 800 \/ ideal_sp b = 875.
Proof. unfold ideal_sp, IDEAL_SP_LOW, IDEAL_SP_MID, IDEAL_SP_HIGH. destruct (_ =? _); [|destruct (_ <=? _)]; auto. Qed.

(** The rest of the configuration is kept. *)
Lemma segments_only kind b t c : FLEXCAN_GetSegments kind b t c =
  match FLEXCAN_GetSegments kind b t no_timing with
  | Ok x => Ok (with_nominal (preDivider c) (rJumpwidth x) (phaseSeg1 x) (phaseSeg2 x) (propSeg x) c) | Err e => Err e end.
Proof.
  unfold FLEXCAN_GetSegments. cbv zeta. destruct (negb (0 <? t)); [done|]. destruct (negb (t <? _)); [done|].
  destruct (fit_seg1 _ _ _ _) as [a d]. by destruct (split_seg1 d a (proSegMax kind)) as [e f].
Qed.

(** [segs] runs the computation of the segments, case by case. *)
Ltac segs :=
  repeat first
    [ progress ws
    | match goal with |- context [if ?a <? ?b then _ else _] =>
        lazymatch a with context [if _ then _ else _] => fail | _ => idtac end;
        lazymatch b with context [if _ then _ else _] => fail | _ => idtac end;
        destruct (Z.ltb_spec a b) end
    | progress cbv beta iota ].

(** The later part is as short as it can be. *)
Definition shortest (kind : timing_register) (sp t : Z) (c : flexcan_timing_config) : Prop :=
  forall c', quanta c' = t -> segments_held kind c' -> samples_by sp c' -> phaseSeg2 c <= phaseSeg2 c'.
Definition good_segments (kind : timing_register) (sp t : Z) (c : flexcan_timing_config) : Prop :=
  quanta c = t /\ segments_held kind c /\ jump_held kind c /\ shortest kind sp t c /\
  (samples_by sp c \/ kind = InCBT /\ phaseSeg2 c = MAX_EPSEG2).

Lemma get_segments kind b t : min_quanta kind <= t <= max_quanta kind ->
  exists c, FLEXCAN_GetSegments kind b t no_timing = Ok c /\ good_segments kind (ideal_sp b) t c.
Proof.
  intros Ht. destruct (limits kind) as [HL Hmin]. rewrite Hmin in Ht. unfold FLEXCAN_GetSegments.
  assert (Hsp := ideal_cases b). generalize dependent (ideal_sp b). intros sp Hsp.
  rewrite (proj2 (Z.ltb_lt 0 t)) by lia. cbn [negb].
  assert (Hfew : t < 0xFFFFFFFF / sp) 
    by (apply Z.le_succ_l, Z.div_le_lower_bound; destruct kind, HL as (_ & _ & HL); rewrite HL in Ht; lia).
  rewrite (proj2 (Z.ltb_lt t _)) by exact Hfew. cbn [negb]. unfold MIN_TIME_SEGMENT2, IDEAL_SP_FACTOR, fit_seg1, split_seg1.
  assert (Hw : exists w, u32 (t - u32 (t * sp) / 1000) = w /\ 1000 * (t - w) <= t * sp < 1000 * (t - w) + 1000 /\ 0 <= w <= t).
  { assert (t <= 385) by (destruct kind, HL as (_ & _ & HL); lia). exists (t - t * sp / 1000). destruct Hsp as [-> | [-> | ->]]; ws; rewrite wrap_small by (pow2; zlia); zlia. }
  destruct Hw as (w & Hw & Hw1 & Hw2). unfold good_segments, shortest, samples_by. rewrite Hw. clear Hw Hfew.
  unfold quanta, segments_held, jump_held.
  rewrite law_propseg, law_pseg1, law_pseg2, law_epropseg, law_epseg1, law_epseg2, law_ntseg1, law_ntseg2, law_rjw.
  destruct kind; destruct HL as (-> & -> & HL); rewrite HL in Ht; destruct Hsp as [Hsp | [Hsp | Hsp]]; rewrite Hsp in *; segs.
  all: eexists; (split; [reflexivity|]); cbn [quanta propSeg phaseSeg1 phaseSeg2 rJumpwidth with_nominal no_timing preDivider].
  all: repeat split; try done; try lia; try (intros; lia).
  all: first [left; lia | right; split; [done|lia]].
Qed.

(** ** The timing found *)

(** The divider field of a register. *)
Definition divider_max (kind : timing_register) : Z :=
  match kind with InCTRL1 => MAX_PRESDIV | InCBT => MAX_EPRESDIV | InENCBT => MAX_ENPRESDIV end.
(** A timing that the registers hold, with the bit rate asked for. *)
Definition fits_registers (kind : timing_register) (c : flexcan_timing_config) : Prop :=
  segments_held kind c /\ 0 <= preDivider c <= divider_max kind /\ min_quanta kind <= quanta c <= max_quanta kind.
Definition exact_rate (bitRate source : Z) (c : flexcan_timing_config) : Prop := bitRate * quanta c * (preDivider c + 1) = source.
(** A timing among those the search goes through: for the CBT register, the
    dividers that CTRL1 can hold. *)
Definition searchable (kind : timing_register) (c : flexcan_timing_config) : Prop :=
  segments_held kind c /\ 0 <= preDivider c <= pdivMAX kind /\ min_quanta kind <= quanta c <= max_quanta kind.
Lemma searchable_fits kind c : searchable kind c <-> fits_registers kind c /\ (kind = InCBT -> preDivider c <= MAX_PRESDIV).
Proof.
  unfold searchable, fits_registers, divider_max, pdivMAX. rewrite law_presdiv, law_epresdiv, law_enpresdiv.
  split; [intros (H1 & H2 & H3)|intros ((H1 & H2 & H3) & H4)].
  - split; [|by destruct kind; [| |]; intros; (discriminate || apply H2)]. split; [exact H1|]. split; [|exact H3]. destruct kind; lia.
  - split; [exact H1|]. split; [|exact H3]. destruct kind; try exact H2. specialize (H4 eq_refl). lia.
Qed.

Definition segments_of (kind : timing_register) (b t : Z) : flexcan_timing_config :=
  match FLEXCAN_GetSegments kind b t no_timing with Ok c => c | Err _ => no_timing end.
Lemma segments_of_good kind b t : min_quanta kind <= t <= max_quanta kind -> good_segments kind (ideal_sp b) t (segments_of kind b t).
Proof. intros Ht. unfold segments_of. by destruct (get_segments kind b t Ht) as (c & -> & H). Qed.
Lemma good_short kind sp t c : 0 < t -> good_segments kind sp t c -> 0 <= phaseSeg2 c < t.
Proof. intros Ht (Hq & (H1 & H2 & H3 & _) & _). unfold quanta in Hq. lia. Qed.
Lemma pdiv_bounds kind : 0 <= pdivMAX kind.
Proof. unfold pdivMAX. rewrite law_presdiv, law_enpresdiv. by destruct kind. Qed.
Lemma quanta_bounds kind : 0 < min_quanta kind <= max_quanta kind /\ max_quanta kind <= 1000.
Proof. destruct (limits kind) as [H ->]. destruct kind; destruct H as (_ & _ & ->); lia. Qed.

(** A timing that fits exists for a number of quanta if the divider fits. *)
Lemma divider_fits kind bitRate source t d : min_quanta kind <= t <= max_quanta kind -> exact (pdivMAX kind) bitRate source t d ->
  exists c, searchable kind c /\ exact_rate bitRate source c.
Proof.
  intros Ht [He Hd]. destruct (segments_of_good kind bitRate t Ht) as (Hq & Hh & _). set (c := segments_of kind bitRate t) in *.
  exists (with_preDivider d c). unfold searchable, exact_rate, segments_held. change (quanta (with_preDivider d c)) with (quanta c).
  rewrite Hq. cbn [preDivider with_preDivider propSeg phaseSeg1 phaseSeg2]. by repeat split; try apply Hh; lia.
Qed.

(** The search, in terms of the dividers it goes through. *)
Lemma timing_searched kind bitRate source c0 : 0 < bitRate <= MAX_CAN_BITRATE -> 0 <= source < 2 ^ 32 ->
  exists found c, FLEXCAN_CalculateImprovedTimingValues kind bitRate source c0 = Ok (found, c) /\
    (found = true <-> exists c', searchable kind c' /\ exact_rate bitRate source c') /\
    if found : bool then
      searchable kind c /\ exact_rate bitRate source c /\ jump_held kind c /\
      (samples_by (ideal_sp bitRate) c \/ kind = InCBT /\ phaseSeg2 c = MAX_EPSEG2) /\
      (forall c', searchable kind c' -> exact_rate bitRate source c' -> samples_by (ideal_sp bitRate) c' -> after_sample c <= after_sample c')
    else c = c0.
Proof.
  intros Hb Hs. unfold FLEXCAN_CalculateImprovedTimingValues. rewrite (proj2 (Z.leb_le _ _)) by apply Hb. cbn [negb].
  destruct (quanta_bounds kind) as [Hm Hx]. set (sg := segments_of kind bitRate).
  assert (Hseg : forall t c, min_quanta kind <= t <= max_quanta kind -> FLEXCAN_GetSegments kind bitRate t c =
    Ok (timing_for (fun t => rJumpwidth (sg t)) (fun t => phaseSeg1 (sg t)) (fun t => phaseSeg2 (sg t)) (fun t => propSeg (sg t)) t (preDivider c) c) /\ 0 <= phaseSeg2 (sg t) < t).
  { intros tq c Ht. split; [|apply (good_short kind (ideal_sp bitRate)), segments_of_good; lia]. rewrite segments_only. unfold timing_for, sg, segments_of.
    by destruct (get_segments kind bitRate tq Ht) as (x & -> & _). }
  assert (Hgood : forall t, min_quanta kind <= t <= max_quanta kind -> good_segments kind (ideal_sp bitRate) t (sg t)) by (intros t Ht; by apply segments_of_good).
  clearbody sg.
  assert (Hq0 : min_quanta kind <= max_quanta kind <= max_quanta kind) by lia.
  assert (Hn : (Z.to_nat (max_quanta kind - min_quanta kind) < Z.to_nat (max_quanta kind))%nat) by lia.
  destruct (search_run _ _ _ _ bitRate source Hb Hs (conj (proj1 Hm) Hx) (pdiv_bounds kind) _ _ _ _ Hseg (Z.to_nat (max_quanta kind)) (max_quanta kind) 1000 false c0
    Hq0 Hn) as ([found c] & Hr & H1 & H2).
  exists found, c. split; [exact Hr|]. cbn [fst snd] in H1, H2.
  assert (Hiff : found = true <-> exists c', searchable kind c' /\ exact_rate bitRate source c').
  { rewrite H1. split.
    - intros [?|(t & d & Ht & He)]; [done|]. by apply (divider_fits kind bitRate source t d).
    - intros (c' & (_ & Hd & Hq) & He). right. exists (quanta c'), (preDivider c'). by split. }
  split; [exact Hiff|]. destruct H2 as [[-> H2]|(t & d & Ht & [He Hd] & -> & _ & H2)]; cycle 1.
  - rewrite (proj2 H1) by (right; exists t, d; split; [done|by split]). destruct (Hgood t Ht) as (Gq & Gh & Gj & Gs & Gp).
    unfold searchable, exact_rate, after_sample. change (quanta (timing_for _ _ _ _ t d c0)) with (quanta (sg t)). rewrite Gq.
    split; [split; [exact Gh|split; [exact Hd|exact Ht]]|]. split; [exact He|]. split; [exact Gj|]. split; [exact Gp|].
    intros c' (Fh & Fd & Fq) Fe Fs. etransitivity; [exact (H2 (quanta c') (preDivider c') Fq (conj Fe Fd))|].
    destruct (Hgood (quanta c') Fq) as (_ & _ & _ & Gs' & _). unfold share.
    apply Z.div_le_mono; [lia|]. assert (H := Gs' c' eq_refl Fh Fs). lia.
  - destruct found; [|done]. exfalso. destruct (proj1 Hiff eq_refl) as (c' & (_ & Hd & Hq) & He).
    assert (H := H2 _ _ Hq (conj He Hd)). assert (0 <= phaseSeg2 (sg (quanta c')) < quanta c') as Hg by (apply (good_short kind (ideal_sp bitRate)), Hgood; lia).
    destruct (Hgood (quanta c') Hq) as (Gq & (G1 & G2 & _) & _). unfold share in H.
    assert ((phaseSeg2 (sg (quanta c')) + 1) * 1000 / quanta c' < 1000); [|lia]. apply Z.div_lt_upper_bound; [lia|]. unfold quanta at 1 in Gq. lia.
Qed.

(** C16: for a bit rate up to 1 Mbit/s and any source clock,
    [FLEXCAN_CalculateImprovedTimingValues] succeeds exactly if the registers
    can hold a timing with precisely that bit rate and clock; with the CBT
    register, however, exactly if they can hold one whose pre-divider CTRL1
    could hold as well, since the search goes no further than that.  The timing
    it then gives has precisely the bit rate, fits the registers, has a jump
    width of at most either segment and samples at the CiA sample point or
    earlier (unless CBT's second segment is at its largest), and no timing that
    the registers can hold (with CBT: with such a pre-divider) with that rate
    and that sample point samples later by a permille.  Otherwise the
    configuration is left as it was. *)
Theorem flexcan_timing_exact kind bitRate source c0 : 0 < bitRate <= MAX_CAN_BITRATE -> 0 <= source < 2 ^ 32 ->
  let possible c := fits_registers kind c /\ exact_rate bitRate source c /\ (kind = InCBT -> preDivider c <= MAX_PRESDIV) in
  exists found c, FLEXCAN_CalculateImprovedTimingValues kind bitRate source c0 = Ok (found, c) /\
    (found = true <-> exists c', possible c') /\
    if found : bool then
      possible c /\ jump_held kind c /\ (samples_by (ideal_sp bitRate) c \/ kind = InCBT /\ phaseSeg2 c = MAX_EPSEG2) /\
      (forall c', possible c' -> samples_by (ideal_sp bitRate) c' -> after_sample c <= after_sample c')
    else c = c0.
Proof.
  intros Hb Hs possible. destruct (timing_searched kind bitRate source c0 Hb Hs) as (found & c & Hr & Hiff & H).
  assert (HP : forall c, possible c <-> searchable kind c /\ exact_rate bitRate source c) by (intros x; unfold possible; rewrite searchable_fits; tauto).
  exists found, c. split; [exact Hr|]. split.
  - rewrite Hiff. by split; intros (c' & H'); exists c'; apply HP.
  - destruct found; [|exact H]. destruct H as (H1 & H2 & H3 & H4 & H5). split; [by apply HP|]. split; [exact H3|]. split; [exact H4|].
    intros c' Hc'. apply HP in Hc' as [Hc1 Hc2]. by apply H5.
Qed.
End Segments.
