(* ===== verification/FlexcanFifo.v ===== *)
(** * Receiving through the FIFO of the CAN controller

    [FifoLaws] is the contract of the receive FIFO: six frames deep, a flag
    for a frame available, one set when the fifth frame comes and one for a
    frame lost.  [fifo_state] is an abstract receiver; the handler refines it:
    frames are stored in the order of arrival and the transfer ends after the
    last one, unless its length is a multiple of five: then it never ends. *)

From stdpp Require Import base list numbers tactics.
From Stdlib Require Import ZArith Lia.
From S2P Require Import Prelude Mmio Flexcan FlexcanBuffers FlexcanTransfer.

Open Scope Z_scope.
Open Scope prog_scope.

(** ** The FIFO *)

(** A frame in the FIFO: the words of buffer 0 and the filter it hit. *)
Record rx_entry := Entry { e_cs : Z; e_id : Z; e_word0 : Z; e_word1 : Z; e_hit : Z }.
Record fifo_view := FifoView { v_queue : list rx_entry; v_warning : bool; v_overflow : bool; v_mask1 : Z; v_mask2 : Z; v_mcr : Z; v_esr : Z }.
Definition flag_bit (b : bool) (i : Z) : Z := if b then 2 ^ i else 0.
Definition available (v : fifo_view) : bool := match v_queue v with [] => false | _ => true end.
Definition iflag1 (v : fifo_view) : Z := Z.lor (flag_bit (available v) 5) (Z.lor (flag_bit (v_warning v) 6) (flag_bit (v_overflow v) 7)).
(** Writing ones clears flags; clearing the first gives way to the next frame. *)
Definition clear_flags (x : Z) (v : fifo_view) : fifo_view :=
  FifoView (if Z.testbit x 5 then tail (v_queue v) else v_queue v) (v_warning v && negb (Z.testbit x 6)) (v_overflow v && negb (Z.testbit x 7))
    (v_mask1 v) (v_mask2 v) (v_mcr v) (v_esr v).
Definition with_mask1 x v := FifoView (v_queue v) (v_warning v) (v_overflow v) x (v_mask2 v) (v_mcr v) (v_esr v).
Definition with_mask2 x v := FifoView (v_queue v) (v_warning v) (v_overflow v) (v_mask1 v) x (v_mcr v) (v_esr v).
(** A frame arrives. *)
Definition receive (e : rx_entry) (v : fifo_view) : fifo_view :=
  if (List.length (v_queue v) <? 6)%nat
  then FifoView (v_queue v ++ [e]) (v_warning v || (List.length (v_queue v) =? 4)%nat) (v_overflow v) (v_mask1 v) (v_mask2 v) (v_mcr v) (v_esr v)
  else FifoView (v_queue v) (v_warning v) true (v_mask1 v) (v_mask2 v) (v_mcr v) (v_esr v).

Class FifoLaws {D : Type} `{!Device can_reg D} {F : CanFields} {X : CanFeatures} := {
  view : D -> fifo_view;
  arrive : rx_entry -> D -> D;
  fifo_read r d : view (reg_read r d).2 = view d;
  fifo_mcr d : (reg_read MCR d).1 = v_mcr (view d);
  fifo_esr d : (reg_read ESR1 d).1 = v_esr (view d);
  fifo_mask1 d : (reg_read IMASK1 d).1 = v_mask1 (view d);
  fifo_mask2 d : (reg_read IMASK2 d).1 = v_mask2 (view d);
  fifo_flags d : (reg_read IFLAG1 d).1 = iflag1 (view d);
  fifo_head d e q : v_queue (view d) = e :: q ->
    (reg_read (MB_CS 0) d).1 = e_cs e /\ (reg_read (MB_ID 0) d).1 = e_id e /\ (reg_read (MB_WORD0 0) d).1 = e_word0 e /\
    (reg_read (MB_WORD1 0) d).1 = e_word1 e /\ (reg_read RXFIR d).1 = e_hit e;
  fifo_clear x d : view (reg_write IFLAG1 x d) = clear_flags x (view d);
  fifo_clear2 x d : view (reg_write IFLAG2 x d) = view d;
  fifo_set_mask1 x d : view (reg_write IMASK1 x d) = with_mask1 x (view d);
  fifo_set_mask2 x d : view (reg_write IMASK2 x d) = with_mask2 x (view d);
  fifo_arrive e d : view (arrive e d) = receive e (view d);
  fifo_bit5 : CAN_IFLAG1_BUF5I_MASK = 2 ^ 5; fifo_bit6 : CAN_IFLAG1_BUF6I_MASK = 2 ^ 6; fifo_bit7 : CAN_IFLAG1_BUF7I_MASK = 2 ^ 7;
  fifo_shift7 : CAN_IFLAG1_BUF7I_SHIFT = 7;
  fifo_buffers : 8 <= MESSAGE_BUFFER_MAX_NUMBER <= 64
}.

(** ** The abstract receiver *)

(** Of the frames received in order, [taken] are stored. *)
Record fifo_state := FifoState { received : list rx_entry; taken : nat; warned : bool; lost : bool; told : list (status_t * Z) }.
Inductive fifo_event := Arrive (e : rx_entry) | Interrupt.

Section Receiver.
Context (n : nat).
Definition left_over (g : fifo_state) : nat := n - taken g.
Definition waiting (g : fifo_state) : nat := List.length (received g) - taken g.
(** The interrupt to serve, by the bit of its flag. *)
Definition pending (g : fifo_state) : option Z :=
  if (left_over g =? 0)%nat then None
  else if (left_over g <? 5)%nat && (0 <? waiting g)%nat then Some 5
  else if warned g then Some 6 else if lost g then Some 7 else None.
Definition serve_one (g : fifo_state) (bit : Z) : fifo_state * status_t :=
  if bit =? 5 then
    (FifoState (received g) (S (taken g)) (warned g) (lost g) (told g), if (left_over g =? 1)%nat then kStatus_FLEXCAN_RxFifoIdle else kStatus_FLEXCAN_RxFifoBusy)
  else if bit =? 6 then
    if (5 <? left_over g)%nat then (FifoState (received g) (5 + taken g) false (lost g) (told g), kStatus_FLEXCAN_RxFifoBusy)
    else (FifoState (received g) (taken g) false (lost g) (told g), kStatus_FLEXCAN_RxFifoWarning)
  else (FifoState (received g) (taken g) (warned g) false (told g), kStatus_FLEXCAN_RxFifoOverflow).
Definition note_told (s : status_t * Z) (g : fifo_state) : fifo_state := FifoState (received g) (taken g) (warned g) (lost g) (told g ++ [s]).
Fixpoint serve_all (m : nat) (g : fifo_state) : fifo_state :=
  match m, pending g with
  | S m, Some bit => serve_all m (note_told ((serve_one g bit).2, bit) (serve_one g bit).1)
  | _, _ => g
  end.
Definition fifo_step (g : fifo_state) (ev : fifo_event) : fifo_state :=
  match ev with
  | Arrive e =>
      if (waiting g <? 6)%nat then FifoState (received g ++ [e]) (taken g) (warned g || (waiting g =? 4)%nat) (lost g) (told g)
      else FifoState (received g) (taken g) (warned g) true (told g)
  | Interrupt => serve_all 9 g
  end.
Definition fifo_run (es : list fifo_event) (g : fifo_state) : fifo_state := foldl fifo_step g es.
Definition fifo_start : fifo_state := FifoState [] 0 false false [].

(** What holds between events, however they come. *)
Record fifo_ok (g : fifo_state) : Prop := {
  ok_waiting : (taken g <= List.length (received g) <= taken g + 6)%nat;
  ok_taken : (taken g <= n)%nat;
  ok_warned : warned g = true -> (5 < left_over g)%nat -> (5 <= waiting g)%nat
}.
Lemma ok_start : fifo_ok fifo_start.
Proof. split; cbn; try lia; done. Qed.
Lemma ok_note s g : fifo_ok g -> fifo_ok (note_told s g).
Proof. by intros []. Qed.
Definition measure (g : fifo_state) : nat := waiting g + (if warned g then 1 else 0) + (if lost g then 1 else 0).
Lemma serve_one_ok g bit : fifo_ok g -> pending g = Some bit ->
  fifo_ok (serve_one g bit).1 /\ (measure (serve_one g bit).1 < measure g)%nat /\ received (serve_one g bit).1 = received g /\ told (serve_one g bit).1 = told g.
Proof.
  intros [H1 H2 H3]. unfold pending, measure, left_over, waiting in *.
  destruct (Nat.eqb_spec (n - taken g) 0); [done|].
  destruct (Nat.ltb_spec (n - taken g) 5); destruct (Nat.ltb_spec 0 (List.length (received g) - taken g)); cbn [andb].
  1: { intros [= <-]. cbn -[Nat.sub Nat.add]. split; [|split; [lia|done]]. split; unfold left_over, waiting; cbn -[Nat.sub Nat.add]; try lia. }
  all: destruct (warned g) eqn:Ew; [|destruct (lost g) eqn:El; [|done]]; intros [= <-]; unfold serve_one, left_over; cbn -[Nat.sub Nat.add Nat.ltb].
  all: try destruct (Nat.ltb_spec 5 (n - taken g)); (split; [split|split; [|done]]); unfold left_over, waiting; cbn -[Nat.sub Nat.add]; rewrite ?Ew; try done; try lia.
  all: try (specialize (H3 eq_refl); lia).
Qed.
Lemma serve_all_ok m g : fifo_ok g -> fifo_ok (serve_all m g).
Proof.
  revert g. induction m as [|m IH]; intros g Hg; cbn [serve_all]; [done|].
  destruct (pending g) as [b|] eqn:Hp; [|done]. by apply IH, ok_note, serve_one_ok.
Qed.
Lemma step_ok g ev : fifo_ok g -> fifo_ok (fifo_step g ev).
Proof.
  intros Hg. destruct ev as [e|]; [|by apply serve_all_ok]. destruct Hg as [H1 H2 H3]. unfold fifo_step, waiting in *.
  destruct (Nat.ltb_spec (List.length (received g) - taken g) 6); [|by split].
  split; unfold left_over, waiting in *; cbn -[Nat.sub Nat.add] in *; rewrite ?length_app; cbn -[Nat.sub Nat.add]; try lia.
  intros Hw Hl. destruct (warned g); [specialize (H3 eq_refl Hl); lia|]. cbn [orb] in Hw. apply Nat.eqb_eq in Hw. lia.
Qed.
Lemma fifo_run_ok es g : fifo_ok g -> fifo_ok (fifo_run es g).
Proof. revert g. induction es as [|ev es IH]; intros g Hg; [done|]. by apply IH, step_ok. Qed.
(** Nine rounds are enough: nothing is pending after them. *)
Lemma serve_all_done m g : fifo_ok g -> (measure g < m)%nat -> pending (serve_all m g) = None.
Proof.
  revert g. induction m as [|m IH]; intros g Hg Hm; [lia|]. cbn [serve_all]. destruct (pending g) as [b|] eqn:Hp; [|done].
  destruct (serve_one_ok g b Hg Hp) as (H1 & H2 & _). apply IH; [by apply ok_note|]. change (measure (note_told _ ?x)) with (measure x). lia.
Qed.
Lemma measure_small g : fifo_ok g -> (measure g < 9)%nat.
Proof. intros [H1 _ _]. unfold measure, waiting. destruct (warned g), (lost g); lia. Qed.

(** While at least five frames are left they are taken by fives, on the warning. *)
Record by_fives (g : fifo_state) : Prop := {
  fives_taken : (5 <= left_over g)%nat -> (taken g mod 5 = 0)%nat;
  fives_warned : (5 < left_over g)%nat -> (5 <= waiting g)%nat -> warned g = true
}.
Lemma fives_next k : (k mod 5 = 0)%nat -> ((5 + k) mod 5 = 0)%nat.
Proof. intros H. rewrite (Nat.add_comm 5), <- (Nat.mul_1_l 5) at 1. by rewrite Nat.Div0.mod_add. Qed.
Lemma serve_one_fives g bit : fifo_ok g -> by_fives g -> pending g = Some bit -> by_fives (serve_one g bit).1.
Proof.
  intros [H1 H2 _] [F1 F2]. unfold pending, left_over, waiting in *.
  destruct (Nat.eqb_spec (n - taken g) 0); [done|].
  destruct (Nat.ltb_spec (n - taken g) 5); destruct (Nat.ltb_spec 0 (List.length (received g) - taken g)); cbn [andb].
  1: { intros [= <-]. split; unfold left_over, waiting; cbn -[Nat.sub Nat.add Nat.modulo]; lia. }
  all: destruct (warned g) eqn:Ew; [|destruct (lost g) eqn:El; [|done]]; intros [= <-]; unfold serve_one, left_over; cbn -[Nat.sub Nat.add Nat.ltb Nat.modulo].
  all: try destruct (Nat.ltb_spec 5 (n - taken g)); split; unfold left_over, waiting; cbn -[Nat.sub Nat.add Nat.modulo]; try done; try lia; auto.
  all: intros; apply fives_next, F1; lia.
Qed.
Lemma serve_all_fives m g : fifo_ok g -> by_fives g -> by_fives (serve_all m g).
Proof.
  revert g. induction m as [|m IH]; intros g Hg Hf; cbn [serve_all]; [done|]. destruct (pending g) as [b|] eqn:Hp; [|done].
  apply IH; [by apply ok_note, serve_one_ok|]. by destruct (serve_one_fives g b Hg Hf Hp).
Qed.
Lemma step_fives g ev : fifo_ok g -> by_fives g -> by_fives (fifo_step g ev).
Proof.
  intros Hg Hf. destruct ev as [e|]; [|by apply serve_all_fives]. destruct Hf as [F1 F2]. unfold fifo_step.
  destruct (Nat.ltb_spec (waiting g) 6); [|by split]. split; [exact F1|]. unfold left_over, waiting in *. cbn [received taken warned].
  rewrite length_app. cbn -[Nat.sub Nat.add]. intros H1 H2. destruct (warned g); [done|]. cbn [orb]. apply Nat.eqb_eq.
  destruct (Nat.ltb_spec 4 (List.length (received g) - taken g)); [by specialize (F2 H1 ltac:(lia))|lia].
Qed.

(** *** Transfers that are not a multiple of five *)

Definition arrivals (es : list fifo_event) : list rx_entry := flat_map (fun ev => match ev with Arrive e => [e] | Interrupt => [] end) es.
(** Interrupts are served in time: after at most two arrivals ([room] now). *)
Fixpoint paced (room : nat) (es : list fifo_event) : Prop :=
  match es with [] => True | Arrive _ :: es => (0 < room)%nat /\ paced (room - 1) es | Interrupt :: es => paced 2 es end.
(** Of the frames [got], all are received as long as the transfer goes on. *)
Record in_order (got : list rx_entry) (room : nat) (g : fifo_state) : Prop := {
  io_taken : take (taken g) (received g) = take (taken g) got;
  io_received : left_over g <> 0%nat -> received g = got /\ (waiting g + room <= 6)%nat
}.
Context (odd : (n mod 5 <> 0)%nat).

Lemma served_rest got g : fifo_ok g -> by_fives g -> (left_over g <> 0%nat -> received g = got) -> pending g = None ->
  (left_over g <> 0%nat -> (waiting g <= 4)%nat) /\ ((n <= List.length got)%nat -> left_over g = 0%nat).
Proof using odd.
  intros [H1 H2 _] [F1 F2] Hr. unfold pending. destruct (Nat.eqb_spec (left_over g) 0) as [|Hn]; [done|].
  assert (H5 : left_over g <> 5%nat).
  { intros H5. apply odd. unfold left_over in *. replace n with (5 + taken g)%nat by lia. apply fives_next, F1. lia. }
  destruct (Nat.ltb_spec (left_over g) 5); destruct (Nat.ltb_spec 0 (waiting g)); cbn [andb]; try done.
  all: destruct (warned g) eqn:Ew; [done|]; destruct (lost g); [done|]; intros _.
  all: destruct (Nat.ltb_spec 4 (waiting g)); [specialize (F2 ltac:(lia) ltac:(lia)); done|].
  all: split; [lia|]; intros Hl; specialize (Hr Hn); rewrite <- Hr in Hl; unfold left_over, waiting in *; lia.
Qed.
Lemma serve_one_prefix g bit got : fifo_ok g -> pending g = Some bit -> take (taken g) (received g) = take (taken g) got ->
  (left_over g <> 0%nat -> received g = got) -> take (taken (serve_one g bit).1) (received g) = take (taken (serve_one g bit).1) got.
Proof using Type.
  intros _ Hp _ Hr. rewrite Hr; [done|]. unfold pending in Hp. by destruct (Nat.eqb_spec (left_over g) 0).
Qed.
Lemma serve_all_prefix m g got : fifo_ok g -> take (taken g) (received g) = take (taken g) got -> (left_over g <> 0%nat -> received g = got) ->
  take (taken (serve_all m g)) (received (serve_all m g)) = take (taken (serve_all m g)) got /\ (left_over (serve_all m g) <> 0%nat -> received (serve_all m g) = got).
Proof using Type.
  revert g. induction m as [|m IH]; intros g Hg H1 H2; cbn [serve_all]; [done|]. destruct (pending g) as [b|] eqn:Hp; [|done].
  destruct (serve_one_ok g b Hg Hp) as (K1 & _ & K2 & _). apply IH; [by apply ok_note| |].
  - cbn [received taken note_told]. rewrite K2. by apply serve_one_prefix.
  - cbn [received taken note_told]. rewrite K2. intros _. apply H2. unfold pending in Hp. by destruct (Nat.eqb_spec (left_over g) 0).
Qed.
Lemma step_order got room g ev : fifo_ok g -> by_fives g -> in_order got room g -> paced room [ev] ->
  in_order (got ++ arrivals [ev]) (match ev with Arrive _ => room - 1 | Interrupt => 2 end) (fifo_step g ev).
Proof using odd.
  intros Hg Hf [O1 O2] Hp. destruct ev as [e|]; cbn [arrivals flat_map app].
  - assert (Hl := ok_waiting _ Hg). assert (Ht : take (taken g) (received g) = take (taken g) (got ++ [e])).
    { rewrite O1. rewrite take_app_le; [done|]. assert (List.length (take (taken g) (received g)) = List.length (take (taken g) got)) as Hlen by by rewrite O1.
      rewrite !length_take in Hlen. lia. }
    unfold fifo_step. destruct (Nat.ltb_spec (waiting g) 6).
    + split; cbn [received taken]; [rewrite take_app_le by lia; exact Ht|]. intros Hn. destruct (O2 Hn) as [Hrec Hr]. split; [by rewrite Hrec|].
      destruct Hp as [Hp _]. unfold waiting in *. cbn [received taken]. rewrite length_app. cbn. lia.
    + split; [exact Ht|]. intros Hn. destruct (O2 Hn). destruct Hp as [Hp _]. lia.
  - rewrite app_nil_r. unfold fifo_step. destruct (serve_all_prefix 9 g got Hg O1 (fun H => proj1 (O2 H))) as [P1 P2]. split; [exact P1|]. intros Hn.
    split; [by apply P2|]. destruct (served_rest got (serve_all 9 g)) as [R1 _]; [by apply serve_all_ok|by apply serve_all_fives|exact P2|by apply serve_all_done, measure_small|].
    specialize (R1 Hn). lia.
Qed.
Lemma run_order es : forall got room g, fifo_ok g -> by_fives g -> in_order got room g -> paced room es ->
  by_fives (fifo_run es g) /\ exists room', in_order (got ++ arrivals es) room' (fifo_run es g).
Proof using odd.
  induction es as [|ev es IH]; intros got room g Hg Hf Ho Hp; [rewrite app_nil_r; eauto|].
  assert (Hp1 : paced room [ev]) by (destruct ev; [by destruct Hp|done]).
  assert (Hs := step_order got room g ev Hg Hf Ho Hp1).
  destruct (IH (got ++ arrivals [ev]) _ (fifo_step g ev) (step_ok g ev Hg) (step_fives g ev Hg Hf) Hs) as [I1 [r I2]].
  - destruct ev; [by destruct Hp|done].
  - split; [exact I1|]. exists r. rewrite <- app_assoc in I2. unfold arrivals in *. by rewrite <- flat_map_app in I2.
Qed.

Lemma start_fives : by_fives fifo_start.
Proof. split; [done|]. cbn. lia. Qed.
Lemma start_order : in_order [] 2 fifo_start.
Proof. split; [done|]. intros _. split; [done|]. cbn. lia. Qed.
(** Under a paced schedule the first frames are stored in order, and all of
    them once an interrupt is served after the last. *)
Lemma paced_prefix es : paced 2 es -> let g := fifo_run es fifo_start in
  take (taken g) (received g) = take (taken g) (arrivals es) /\ (taken g <= List.length (arrivals es))%nat.
Proof using odd.
  intros Hp. destruct (run_order es [] 2 fifo_start ok_start start_fives start_order Hp) as [_ [r [O1 O2]]]. cbv zeta. cbn [app] in O1.
  split; [exact O1|]. assert (Hk := ok_waiting _ (fifo_run_ok es fifo_start ok_start)).
  assert (List.length (take (taken (fifo_run es fifo_start)) (received (fifo_run es fifo_start))) =
    List.length (take (taken (fifo_run es fifo_start)) (arrivals es))) as Hlen by by rewrite O1. rewrite !length_take in Hlen. lia.
Qed.
Lemma paced_ends es : paced 2 es -> (n <= List.length (arrivals es))%nat -> left_over (fifo_run (es ++ [Interrupt]) fifo_start) = 0%nat.
Proof using odd.
  intros Hp Hn. destruct (run_order es [] 2 fifo_start ok_start start_fives start_order Hp) as [Hf [r [O1 O2]]]. cbn [app] in O1, O2.
  unfold fifo_run. rewrite foldl_app. cbn [foldl fifo_step]. fold (fifo_run es fifo_start). set (g := fifo_run es fifo_start) in *.
  assert (Hg : fifo_ok g) by apply fifo_run_ok, ok_start.
  destruct (serve_all_prefix 9 g (arrivals es) Hg O1 (fun H => proj1 (O2 H))) as [_ P2].
  destruct (served_rest (arrivals es) (serve_all 9 g)) as [_ R2];
    [by apply serve_all_ok|by apply serve_all_fives|exact P2|by apply serve_all_done, measure_small|by apply R2].
Qed.
End Receiver.

(** *** What the callback is told *)

Fixpoint idle_told (l : list (status_t * Z)) : nat :=
  match l with [] => 0 | s :: l => (if decide (s.1 = kStatus_FLEXCAN_RxFifoIdle) then 1 else 0) + idle_told l end%nat.
Lemma idle_told_app l s : idle_told (l ++ [s]) = (idle_told l + if decide (s.1 = kStatus_FLEXCAN_RxFifoIdle) then 1 else 0)%nat.
Proof. induction l as [|x l IH]; cbn [app idle_told]; [lia|]. rewrite IH. lia. Qed.

Section Told.
Context (n : nat) (some : (0 < n)%nat).
Definition told_end (g : fifo_state) : Prop := idle_told (told g) = if (left_over n g =? 0)%nat then 1%nat else 0%nat.
Lemma serve_one_told g bit : told_end g -> pending n g = Some bit -> told_end (note_told ((serve_one n g bit).2, bit) (serve_one n g bit).1).
Proof.
  unfold told_end, pending. intros Ht. cbn [told note_told]. change (left_over n (note_told _ ?x)) with (left_over n x).
  destruct (Nat.eqb_spec (left_over n g) 0); [done|]. unfold left_over in *. rewrite idle_told_app.
  destruct (Nat.ltb_spec (n - taken g) 5) as [H5|H5]; destruct (Nat.ltb_spec 0 (waiting g)); cbn [andb].
  1: { intros [= <-]. cbn -[Nat.sub idle_told]. unfold left_over. rewrite Ht.
    destruct (Nat.eqb_spec (n - taken g) 1), (Nat.eqb_spec (n - S (taken g)) 0); try lia; done. }
  all: destruct (warned g); [|destruct (lost g); [|done]]; intros [= <-]; unfold serve_one, left_over; cbn -[Nat.sub Nat.add Nat.ltb Nat.eqb idle_told].
  all: try destruct (Nat.ltb_spec 5 (n - taken g)); cbn -[Nat.sub Nat.add Nat.eqb idle_told]; rewrite Ht; try (destruct (Nat.eqb_spec (n - taken g) 0); [lia|done]).
  all: destruct (Nat.eqb_spec (n - (5 + taken g)) 0); [lia|done].
Qed.
Lemma run_told es g : told_end g -> told_end (fifo_run n es g).
Proof.
  revert g. induction es as [|ev es IH]; intros g Hg; [done|]. apply IH. destruct ev as [e|]; unfold fifo_step.
  - by destruct (waiting g <? 6)%nat.
  - generalize 9%nat. intros m. revert g Hg. induction m as [|m IHm]; intros g Hg; cbn [serve_all]; [done|].
    destruct (pending n g) as [b|] eqn:Hp; [|done]. by apply IHm, serve_one_told.
Qed.
Lemma start_told : told_end fifo_start.
Proof using some. unfold told_end, left_over. cbn. destruct (Nat.eqb_spec (n - 0) 0); [lia|done]. Qed.

(** A multiple of five: five frames are always left. *)
Definition stuck (g : fifo_state) : Prop := (taken g mod 5 = 0)%nat /\ (5 <= left_over n g)%nat.
Context (even : (n mod 5 = 0)%nat).
Lemma serve_one_stuck g bit : stuck g -> pending n g = Some bit -> stuck (serve_one n g bit).1.
Proof using even some.
  unfold stuck, pending, left_over. intros [H1 H2]. destruct (Nat.eqb_spec (n - taken g) 0); [done|].
  destruct (Nat.ltb_spec (n - taken g) 5); [lia|]. cbn [andb].
  destruct (warned g); [|destruct (lost g); [|done]]; intros [= <-]; unfold serve_one, left_over; [|done].
  change (6 =? 5) with false. change (6 =? 6) with true. cbv iota.
  destruct (Nat.ltb_spec 5 (n - taken g)); [|done]. cbn [fst taken]. split; [by apply fives_next|].
  assert (n = 5 * (n / 5))%nat by (assert (Hd := Nat.div_mod_eq n 5); lia).
  assert (taken g = 5 * (taken g / 5))%nat by (assert (Hd := Nat.div_mod_eq (taken g) 5); lia). lia.
Qed.
Lemma run_stuck es g : stuck g -> stuck (fifo_run n es g).
Proof using even some.
  revert g. induction es as [|ev es IH]; intros g Hg; [done|]. apply IH. destruct ev as [e|]; unfold fifo_step.
  - by destruct (waiting g <? 6)%nat.
  - generalize 9%nat. intros m. revert g Hg. induction m as [|m IHm]; intros g Hg; cbn [serve_all]; [done|].
    destruct (pending n g) as [b|] eqn:Hp; [|done]. apply IHm. by destruct (serve_one_stuck g b Hg Hp).
Qed.
Lemma start_stuck : stuck fifo_start.
Proof using even some. split; [done|]. unfold left_over. cbn [taken fifo_start]. assert (Hd := Nat.div_mod_eq n 5). lia. Qed.
End Told.
