(* ===== verification/FlexcanReceive.v ===== *)
(** * The receive handler refines the abstract receiver

    Whatever frames arrive and whenever the interrupt is served,
    [FLEXCAN_TransferHandleIRQ] does what [fifo_state] does. *)

From stdpp Require Import base list numbers tactics.
From Stdlib Require Import ZArith Lia.
From S2P Require Import Prelude Mmio Flexcan FlexcanBuffers FlexcanTransfer FlexcanFifo.

Open Scope Z_scope.
Open Scope prog_scope.

(** A list of frames stored from address [p] on. *)
Definition frames_from (p : Z) (l : list flexcan_frame) (m : Z -> flexcan_frame) : Z -> flexcan_frame :=
  fun a => if p <=? a then match l !! Z.to_nat (a - p) with Some f => f | None => m a end else m a.
Lemma frames_snoc p l f m a : frames_from p (l ++ [f]) m a = put_at (p + Z.of_nat (List.length l)) f (frames_from p l m) a.
Proof.
  unfold frames_from, put_at. destruct (Z.eqb_spec a (p + Z.of_nat (List.length l))) as [->|Hne].
  - rewrite (proj2 (Z.leb_le p _)) by lia. replace (Z.to_nat _) with (List.length l) by lia. by rewrite list_lookup_middle.
  - destruct (Z.leb_spec p a); [|done]. destruct (decide (Z.to_nat (a - p) < List.length l)%nat).
    + by rewrite lookup_app_l.
    + rewrite (lookup_ge_None_2 l) by lia. rewrite lookup_ge_None_2; [done|]. rewrite length_app. cbn. lia.
Qed.

Section Refinement.
Context {D A : Type} `{!Device can_reg D} {F : CanFields} {X : CanFeatures} {L : FifoLaws (D := D)}.
Abbreviation W := (can_world D A).
Context (callback : status_t -> Z -> M W unit) (note : status_t * Z -> A -> A).
Context (notes : forall s i w, callback s i w = Ok (tt, with_app (note (s, i) (c_app w)) w)).
(** The controller runs with the FIFO and no error is reported. *)
Context (mcr esr : Z) (fifo_on : has mcr CAN_MCR_RFEN_MASK = true)
  (calm : has esr FLEXCAN_ERROR_AND_STATUS_INT_FLAG = false) (awake : has esr FLEXCAN_WAKE_UP_FLAG = false)
  (quiet : has esr (Z.lor FLEXCAN_ERROR_AND_STATUS_INT_FLAG FLEXCAN_WAKE_UP_FLAG) = false).

(** ** Registers *)

Lemma wp_on_can {B} (m : M D B) Q (w : W) : wp (on_can m) Q w <-> wp m (fun b d => Q b (with_hw d w)) (c_hw w).
Proof. unfold wp, on_can. by destruct (m (c_hw w)) as [[b d]|]. Qed.
Lemma can_wp_handle Q (w : W) : wp handle Q w <-> Q (c_handle w) w.
Proof. done. Qed.
Lemma can_wp_upd f Q (w : W) : wp (upd f) Q w <-> Q tt (with_handle (f (c_handle w)) w).
Proof. done. Qed.
Lemma can_wp_load a Q (w : W) : a <> 0 -> Q (c_frames w a) w -> wp (load a) Q w.
Proof. intros Ha HQ. unfold load. by rewrite (proj2 (Z.eqb_neq a 0)). Qed.
Lemma can_wp_store a f Q (w : W) : a <> 0 -> Q tt (with_frames (put_at a f (c_frames w)) w) -> wp (store a f) Q w.
Proof. intros Ha HQ. unfold store. by rewrite (proj2 (Z.eqb_neq a 0)). Qed.

Lemma can_rd_run r (Q : Z -> D -> Prop) d : (forall d', view d' = view d -> Q (reg_read r d).1 d') -> wp (rd r) Q d.
Proof. intros HQ. unfold wp, rd. assert (H := fifo_read r d). destruct (reg_read r d) as [v d']. by apply HQ. Qed.
Lemma read_fifo_run f e q (Q : status_t * flexcan_frame -> D -> Prop) d : has (v_mcr (view d)) CAN_MCR_RFEN_MASK = true -> v_queue (view d) = e :: q ->
  (forall d', view d' = view d -> Q (kStatus_Success, frame_of (e_cs e) (e_id e) (e_word0 e) (e_word1 e) (wrap 9 (u16 (Z.land (e_hit e) CAN_RXFIR_IDHIT_MASK)))) d') ->
  wp (FLEXCAN_ReadRxFifo f) Q d.
Proof.
  intros Hm Hq HQ. unfold FLEXCAN_ReadRxFifo. rewrite wp_bind. apply can_rd_run. intros d1 H1. rewrite fifo_mcr, Hm.
  assert (Hh : forall d', view d' = view d -> v_queue (view d') = e :: q) by (intros d' ->; exact Hq).
  rewrite wp_bind. apply can_rd_run. intros d2 H2. rewrite wp_bind. apply can_rd_run. intros d3 H3. rewrite wp_bind. apply can_rd_run. intros d4 H4.
  rewrite wp_bind. apply can_rd_run. intros d5 H5. rewrite wp_bind. apply can_rd_run. intros d6 H6. rewrite wp_bind. apply can_rd_run. intros d7 H7. rewrite wp_ret.
  assert (E1 := Hh d1 H1). assert (E2 := Hh d2 ltac:(congruence)). assert (E3 := Hh d3 ltac:(congruence)). assert (E4 := Hh d4 ltac:(congruence)).
  assert (E5 := Hh d5 ltac:(congruence)).
  rewrite (proj1 (fifo_head d1 e q E1)), (proj1 (proj2 (fifo_head d2 e q E2))), (proj1 (proj2 (proj2 (fifo_head d3 e q E3)))),
    (proj1 (proj2 (proj2 (proj2 (fifo_head d4 e q E4))))), (proj2 (proj2 (proj2 (proj2 (fifo_head d5 e q E5))))). apply HQ. congruence.
Qed.
Lemma low_word x : 0 <= x < 2 ^ 32 -> u32 (Z.land x 0xFFFFFFFF) = x.
Proof. intros Hx. change 0xFFFFFFFF with (Z.ones 32). rewrite Z.land_ones by lia. unfold wrap. rewrite Z.mod_mod by lia. by apply Z.mod_small. Qed.
Lemma high_word x : 0 <= x < 2 ^ 32 -> u32 (Z.shiftr x 32) = 0.
Proof. intros Hx. rewrite Z.shiftr_div_pow2 by lia. by rewrite Z.div_small. Qed.
Lemma clear_run x (Q : unit -> D -> Prop) d : 0 <= x < 2 ^ 32 -> (forall d', view d' = clear_flags x (view d) -> Q tt d') -> wp (FLEXCAN_ClearMbStatusFlags x) Q d.
Proof.
  intros Hx HQ. unfold FLEXCAN_ClearMbStatusFlags. rewrite low_word by done. rewrite wp_bind. unfold wp at 1, wr.
  destruct wide; (apply HQ; by rewrite ?fifo_clear2, fifo_clear).
Qed.
Lemma mask2_same v : v_mask2 v = 0 -> with_mask2 0 v = v.
Proof. destruct v. cbn. by intros ->. Qed.
Lemma set_run r x (Q : unit -> D -> Prop) d : (forall d', view d' = view d -> Q tt (reg_write r (Z.lor (reg_read r d).1 x) d')) -> wp (set_bits r x) Q d.
Proof. intros HQ. unfold set_bits. rewrite wp_bind. apply can_rd_run. exact HQ. Qed.
Lemma clear_bits_run r x (Q : unit -> D -> Prop) d : (forall d', view d' = view d -> Q tt (reg_write r (bic32 (reg_read r d).1 x) d')) -> wp (clear_bits r x) Q d.
Proof. intros HQ. unfold clear_bits. rewrite wp_bind. apply can_rd_run. exact HQ. Qed.
Lemma can_enable_run x (Q : unit -> D -> Prop) d : 0 <= x < 2 ^ 32 -> v_mask2 (view d) = 0 ->
  (forall d', view d' = with_mask1 (Z.lor (v_mask1 (view d)) x) (view d) -> Q tt d') -> wp (FLEXCAN_EnableMbInterrupts x) Q d.
Proof.
  intros Hx H2 HQ. unfold FLEXCAN_EnableMbInterrupts. rewrite low_word, high_word by done. rewrite wp_bind. apply set_run. intros d1 H1. rewrite fifo_mask1.
  destruct wide; [|rewrite wp_ret; apply HQ; by rewrite fifo_set_mask1, H1]. apply set_run. intros d2 Hd2. apply HQ.
  rewrite fifo_set_mask2, fifo_mask2, Hd2, fifo_set_mask1, H1. cbn [v_mask2 with_mask1]. rewrite H2. by apply mask2_same.
Qed.
Lemma can_disable_run x (Q : unit -> D -> Prop) d : 0 <= x < 2 ^ 32 -> v_mask2 (view d) = 0 ->
  (forall d', view d' = with_mask1 (bic32 (v_mask1 (view d)) x) (view d) -> Q tt d') -> wp (FLEXCAN_DisableMbInterrupts x) Q d.
Proof.
  intros Hx H2 HQ. unfold FLEXCAN_DisableMbInterrupts. rewrite low_word, high_word by done. rewrite wp_bind. apply clear_bits_run. intros d1 H1. rewrite fifo_mask1.
  destruct wide; [|rewrite wp_ret; apply HQ; by rewrite fifo_set_mask1, H1]. apply clear_bits_run. intros d2 Hd2. apply HQ.
  rewrite fifo_set_mask2, fifo_mask2, Hd2, fifo_set_mask1, H1. cbn [v_mask2 with_mask1]. rewrite H2. by apply mask2_same.
Qed.

(** ** Taking frames *)

Context (p : Z) (n : nat) (w0 : W) (placed : 0 < p) (small : Z.of_nat n < 2 ^ 32).
Definition entry_frame (e : rx_entry) : flexcan_frame :=
  frame_of (e_cs e) (e_id e) (e_word0 e) (e_word1 e) (wrap 9 (u16 (Z.land (e_hit e) CAN_RXFIR_IDHIT_MASK))).
(** Of the frames [l], [k] are stored; [tl] is what the callback was told. *)
Record at_ (l : list rx_entry) (k : nat) (q : list rx_entry) (wn ov : bool) (m1 : Z) (tl : list (status_t * Z)) (running : bool) (w : W) : Prop := {
  at_view : view (c_hw w) = FifoView q wn ov m1 0 mcr esr;
  at_callback : has_callback (c_handle w) = true;
  at_handle : if running then rxFifoState (c_handle w) = kFLEXCAN_StateRxFifo /\ rxFifoFrameBuf (c_handle w) = p + Z.of_nat k /\
      rxFifoFrameNum (c_handle w) = Z.of_nat (n - k) /\ rxFifoTransferTotalNum (c_handle w) = Z.of_nat n
    else rxFifoState (c_handle w) = kFLEXCAN_StateIdle;
  at_frames a : c_frames w a = frames_from p (entry_frame <$> take k l) (c_frames w0) a;
  at_app : c_app w = foldl (fun a s => note s a) (c_app w0) tl
}.

(** Only the peripheral changes. *)
Lemma at_hw l k q wn ov m1 tl b w d q' wn' ov' m1' : at_ l k q wn ov m1 tl b w -> view d = FifoView q' wn' ov' m1' 0 mcr esr ->
  at_ l k q' wn' ov' m1' tl b (with_hw d w).
Proof using Type. intros [H1 H2 H3 H4 H5] Hd. by split. Qed.

Lemma take_frame_run i l k e q wn ov m1 tl (w : W) (Q : status_t -> W -> Prop) : at_ l k (e :: q) wn ov m1 tl true w -> l !! k = Some e -> (k < n)%nat ->
  (forall w', at_ l (S k) (e :: q) wn ov m1 tl true w' -> Q kStatus_Success w') -> wp (take_frame i) Q w.
Proof using placed small fifo_on.
  intros Hat Hl Hk HQ. destruct (at_handle _ _ _ _ _ _ _ _ _ Hat) as (S1 & S2 & S3 & S4). unfold take_frame, read_into.
  rewrite wp_bind, can_wp_handle, S2, wp_bind, wp_bind. assert (Hp : p + Z.of_nat k <> 0) by lia. rewrite wp_assert by by rewrite (proj2 (Z.eqb_neq _ _) Hp).
  rewrite wp_bind. apply can_wp_load; [exact Hp|]. rewrite wp_bind, wp_on_can.
  apply (read_fifo_run _ e q); [by rewrite (at_view _ _ _ _ _ _ _ _ _ Hat)|by rewrite (at_view _ _ _ _ _ _ _ _ _ Hat)|]. intros d Hd. fold (entry_frame e).
  rewrite wp_bind. apply can_wp_store; [exact Hp|]. rewrite wp_ret, wp_bind, can_wp_handle. cbn [c_handle with_frames with_hw]. rewrite S2, wp_bind.
  apply can_wp_load; [exact Hp|]. rewrite wp_bind, can_wp_upd, wp_bind, can_wp_upd, wp_ret. apply HQ. destruct Hat as [A1 A2 A3 A4 A5].
  split; cbn [c_hw c_handle c_frames c_app with_handle with_frames with_hw with_fifo with_mb_timestamp has_callback rxFifoState rxFifoFrameBuf rxFifoFrameNum rxFifoTransferTotalNum].
  - congruence.
  - exact A2.
  - rewrite S2, S3. split; [done|]. split; [lia|]. split; [|done]. rewrite wrap_small by lia. lia.
  - intros a. rewrite (take_S_r l k e Hl), fmap_app. change (entry_frame <$> [e]) with [entry_frame e]. rewrite frames_snoc, length_fmap, length_take.
    rewrite Nat.min_l by (apply lookup_lt_Some in Hl; lia). unfold put_at. destruct (a =? p + Z.of_nat k); [done|apply A4].
  - exact A5.
Qed.
Lemma clear5_run l k e q wn ov m1 tl b (w : W) (Q : unit -> W -> Prop) : at_ l k (e :: q) wn ov m1 tl b w ->
  (forall w', at_ l k q wn ov m1 tl b w' -> Q tt w') -> wp (on_can (FLEXCAN_ClearMbStatusFlags (2 ^ 5))) Q w.
Proof using Type.
  intros Hat HQ. rewrite wp_on_can. apply clear_run; [done|]. intros d Hd. apply HQ. eapply at_hw; [exact Hat|]. rewrite Hd, (at_view _ _ _ _ _ _ _ _ _ Hat).
  unfold clear_flags. cbn [v_queue v_warning v_overflow v_mask1 v_mask2 v_mcr v_esr]. change (Z.testbit (2 ^ 5) 5) with true. change (Z.testbit (2 ^ 5) 6) with false.
  change (Z.testbit (2 ^ 5) 7) with false. by rewrite !andb_true_r.
Qed.
Lemma take_frames_run m i l k wn ov m1 tl (w : W) (Q : unit -> W -> Prop) : at_ l k (drop k l) wn ov m1 tl true w -> (k + m <= List.length l)%nat -> (k + m <= n)%nat ->
  (forall w', at_ l (m + k) (drop (m + k) l) wn ov m1 tl true w' -> Q tt w') -> wp (take_frames m i) Q w.
Proof using placed small fifo_on.
  revert i k w. induction m as [|m IH]; intros i k w Hat Hl Hn HQ; cbn [take_frames]; [rewrite wp_ret; by apply HQ|].
  destruct (lookup_lt_is_Some_2 l k ltac:(lia)) as [e He]. rewrite (drop_S l e k He) in Hat.
  rewrite wp_bind. apply (take_frame_run _ l k e (drop (S k) l) wn ov m1 tl); [exact Hat|exact He|lia|]. intros w1 H1.
  rewrite wp_bind. unfold kFLEXCAN_RxFifoFrameAvlFlag. rewrite fifo_bit5. apply (clear5_run _ _ _ _ _ _ _ _ _ _ _ H1). intros w2 H2.
  apply (IH _ (S k)); [exact H2|lia..|]. intros w3 H3. rewrite <- Nat.add_succ_comm in H3. by apply HQ.
Qed.

(** ** The handler *)

(** The FIFO interrupts enabled when [r] frames are left. *)
Definition mask_of (r : nat) : Z := if (r =? 0)%nat then 0 else if (r <? 5)%nat then 224 else 192.
Definition sim (g : fifo_state) (w : W) : Prop :=
  at_ (received g) (taken g) (drop (taken g) (received g)) (warned g) (lost g) (mask_of (left_over n g)) (told g) (negb (left_over n g =? 0)%nat) w.
(** The bits of the flags that are enabled. *)
Definition enabled_flags (g : fifo_state) : Z := Z.land (mask_of (left_over n g)) (Z.lor (flag_bit (0 <? waiting g)%nat 5) (Z.lor (flag_bit (warned g) 6) (flag_bit (lost g) 7))).

Lemma sim_flags g w : sim g w -> iflag1 (view (c_hw w)) = Z.lor (flag_bit (0 <? waiting g)%nat 5) (Z.lor (flag_bit (warned g) 6) (flag_bit (lost g) 7)).
Proof using Type.
  intros H. rewrite (at_view _ _ _ _ _ _ _ _ _ H). unfold iflag1. cbn [v_queue v_warning v_overflow]. do 2 f_equal. unfold available, waiting. cbn [v_queue].
  rewrite <- length_drop. by destruct (drop (taken g) (received g)).
Qed.
Lemma enabled_pending g : negb (enabled_flags g =? 0) = bool_decide (is_Some (pending n g)) /\
  forall m second, find_mb (S m) 0 0 (u32 (MESSAGE_BUFFER_MAX_NUMBER - 1)) (fun i => if i =? 0 then enabled_flags g else if i =? 1 then second else 0) 0xFF =
    find_mb m 1 0 (u32 (MESSAGE_BUFFER_MAX_NUMBER - 1)) (fun i => if i =? 0 then enabled_flags g else if i =? 1 then second else 0) (default 0xFF (pending n g)).
Proof using L.
  assert (Hb := fifo_buffers). assert (He : exists r, Z.to_nat ((if 0 =? u32 (MESSAGE_BUFFER_MAX_NUMBER - 1) / 32 then u32 (MESSAGE_BUFFER_MAX_NUMBER - 1) mod 32 else 31) - 0 + 1) = (8 + r)%nat).
  { rewrite wrap_small by (pow2; lia). destruct (Z.eqb_spec 0 ((MESSAGE_BUFFER_MAX_NUMBER - 1) / 32)).
    - exists (Z.to_nat ((MESSAGE_BUFFER_MAX_NUMBER - 1) mod 32 - 7)). zlia.
    - by exists 24%nat. }
  destruct He as [r He]. cbn [find_mb]. change (0 =? 0) with true. change (0 =? 0 / 32) with true. change (0 mod 32) with 0. cbv iota zeta. rewrite He.
  unfold enabled_flags, pending, mask_of. destruct (left_over n g =? 0)%nat; [by split|].
  destruct (left_over n g <? 5)%nat, (0 <? waiting g)%nat, (warned g), (lost g); by split.
Qed.

Lemma status_run (Q : Z -> W -> Prop) g w : sim g w -> (forall w', sim g w' -> Q esr w') -> wp (on_can FLEXCAN_GetStatusFlags) Q w.
Proof using Type.
  intros Hs HQ. rewrite wp_on_can. apply can_rd_run. intros d Hd. rewrite fifo_esr. assert (Hv := at_view _ _ _ _ _ _ _ _ _ Hs). rewrite Hv. apply HQ.
  eapply at_hw; [exact Hs|]. by rewrite Hd.
Qed.
Lemma can_read_run r (Q : Z -> W -> Prop) g w : sim g w -> (forall d', sim g (with_hw d' w) -> Q (reg_read r (c_hw w)).1 (with_hw d' w)) -> wp (on_can (rd r)) Q w.
Proof using Type.
  intros Hs HQ. rewrite wp_on_can. apply can_rd_run. intros d Hd. apply HQ. eapply at_hw; [exact Hs|]. by rewrite Hd, (at_view _ _ _ _ _ _ _ _ _ Hs).
Qed.
Lemma high_apart m y : 0 <= m < 2 ^ 32 -> Z.land m (u64 (Z.shiftl y 32)) = 0.
Proof.
  intros Hm. apply Z.bits_inj'. intros i Hi. rewrite Z.land_spec, Z.bits_0. destruct (Z.lt_ge_cases i 32).
  - rewrite wrap_testbit, Z.shiftl_spec_low by lia. apply andb_false_r.
  - by rewrite (testbit_above m 32) by lia.
Qed.
Lemma mask_range r : 0 <= mask_of r < 2 ^ 32.
Proof. unfold mask_of. by destruct (r =? 0)%nat, (r <? 5)%nat. Qed.
Lemma can_check_run (Q : bool -> W -> Prop) g w : sim g w -> (forall w', sim g w' -> Q (bool_decide (is_Some (pending n g))) w') -> wp FLEXCAN_CheckUnhandleInterruptEvents Q w.
Proof using L quiet.
  intros Hs HQ. unfold FLEXCAN_CheckUnhandleInterruptEvents. rewrite wp_bind. apply (status_run _ g w Hs). intros w1 H1. rewrite quiet.
  rewrite wp_bind. apply (can_read_run _ _ g w1 H1). intros d2 H2. rewrite wp_bind. apply (can_read_run _ _ g _ H2). intros d3 H3.
  rewrite fifo_mask1, fifo_flags, (sim_flags g _ H2), (at_view _ _ _ _ _ _ _ _ _ H1). cbn [v_mask1].
  assert (Hp := proj1 (enabled_pending g)). unfold enabled_flags in Hp. destruct wide.
  - rewrite wp_bind. apply (can_read_run _ _ g _ H3). intros d4 H4. rewrite wp_bind. apply (can_read_run _ _ g _ H4). intros d5 H5. rewrite wp_ret.
    rewrite fifo_mask2, (at_view _ _ _ _ _ _ _ _ _ H3). cbn [v_mask2]. change (u64 (Z.shiftl 0 32)) with 0. rewrite Z.lor_0_r. unfold has.
    rewrite Z.land_lor_distr_r, (high_apart _ _ (mask_range _)), Z.lor_0_r, Hp. by apply HQ.
  - rewrite wp_ret. unfold has. rewrite Hp. by apply HQ.
Qed.

(** The flag [bit] is cleared after the frames are taken. *)
Definition before_clear (g : fifo_state) (bit : Z) (w : W) : Prop :=
  forall d, view d = clear_flags (2 ^ bit) (view (c_hw w)) -> sim (serve_one n g bit).1 (with_hw d w).
Lemma served_available g w : fifo_ok n g -> sim g w -> (left_over n g < 5)%nat -> left_over n g <> 0%nat -> (0 < waiting g)%nat ->
  wp (FLEXCAN_SubHandlerForLegacyRxFIFO 5) (fun s w' => s = (serve_one n g 5).2 /\ before_clear g 5 w') w.
Proof using placed small fifo_on.
  intros Hg Hs Hl Hn Hw. unfold FLEXCAN_SubHandlerForLegacyRxFIFO, kFLEXCAN_RxFifoOverflowFlag, kFLEXCAN_RxFifoWarningFlag, kFLEXCAN_RxFifoFrameAvlFlag.
  rewrite fifo_bit5, fifo_bit6, fifo_bit7. change (u32 (Z.shiftl 1 5)) with (2 ^ 5). change (2 ^ 5 =? 2 ^ 7) with false. change (2 ^ 5 =? 2 ^ 6) with false.
  change (2 ^ 5 =? 2 ^ 5) with true. cbv iota zeta. unfold before_clear, sim, serve_one, left_over, waiting in *. change (5 =? 5) with true. cbv iota.
  rewrite (proj2 (Nat.eqb_neq (n - taken g) 0)) in Hs by lia. cbn [negb fst snd] in *.
  destruct (lookup_lt_is_Some_2 (received g) (taken g) ltac:(lia)) as [e He]. rewrite (drop_S _ e _ He) in Hs.
  rewrite wp_bind, can_wp_handle. destruct (at_handle _ _ _ _ _ _ _ _ _ Hs) as (S1 & S2 & S3 & S4). rewrite S3, (proj2 (Z.ltb_lt 0 _)) by lia.
  rewrite wp_bind, wp_bind. apply (take_frame_run _ _ _ e _ _ _ _ _ _ _ Hs He ltac:(lia)). intros w1 H1. rewrite wp_ret, wp_bind, can_wp_handle.
  destruct (at_handle _ _ _ _ _ _ _ _ _ H1) as (T1 & T2 & T3 & T4). rewrite T3. unfold mask_of in H1.
  rewrite (proj2 (Nat.eqb_neq (n - taken g) 0)), (proj2 (Nat.ltb_lt (n - taken g) 5)) in H1 by lia.
  assert (Hpop : forall d m1, view d = clear_flags (2 ^ 5) (FifoView (e :: drop (S (taken g)) (received g)) (warned g) (lost g) m1 0 mcr esr) ->
    view d = FifoView (drop (S (taken g)) (received g)) (warned g) (lost g) m1 0 mcr esr).
  { intros d m1 ->. unfold clear_flags. cbn [v_queue v_warning v_overflow v_mask1 v_mask2 v_mcr v_esr]. change (Z.testbit (2 ^ 5) 5) with true.
    change (Z.testbit (2 ^ 5) 6) with false. change (Z.testbit (2 ^ 5) 7) with false. by rewrite !andb_true_r. }
  destruct (Nat.eqb_spec (n - taken g) 1) as [E1|E1].
  - rewrite (proj2 (Z.eqb_eq (Z.of_nat (n - S (taken g))) 0)) by lia. rewrite wp_bind. unfold FLEXCAN_TransferAbortReceiveFifo. rewrite wp_bind, wp_on_can.
    apply can_rd_run. intros d2 H2. rewrite fifo_mcr, (at_view _ _ _ _ _ _ _ _ _ H1). cbn [v_mcr]. rewrite fifo_on, wp_bind, wp_bind, wp_on_can.
    unfold fifo_interrupts, kFLEXCAN_RxFifoOverflowFlag, kFLEXCAN_RxFifoWarningFlag, kFLEXCAN_RxFifoFrameAvlFlag. rewrite fifo_bit5, fifo_bit6, fifo_bit7.
    change (ors [2 ^ 7; 2 ^ 6; 2 ^ 5]) with 224. cbn [c_hw with_hw]. assert (Hv := at_view _ _ _ _ _ _ _ _ _ H1). rewrite <- H2 in Hv.
    apply can_disable_run; [done|by rewrite Hv|]. intros d3 H3. rewrite can_wp_upd, can_wp_upd, wp_ret. split; [done|]. intros d4 H4.
    cbn [c_hw with_handle with_hw] in H4. rewrite H3, Hv in H4. change (bic32 _ 224) with 0 in H4.
    change (with_mask1 0 _) with (FifoView (e :: drop (S (taken g)) (received g)) (warned g) (lost g) 0 0 mcr esr) in H4.
    unfold sim, left_over. cbn [received taken warned lost told]. assert (E0 : (n - S (taken g) = 0)%nat) by lia. rewrite E0. destruct H1 as [A1 A2 A3 A4 A5]. split; try done. by apply Hpop.
  - rewrite (proj2 (Z.eqb_neq (Z.of_nat (n - S (taken g))) 0)) by lia. rewrite wp_ret. split; [done|]. intros d Hd.
    rewrite (at_view _ _ _ _ _ _ _ _ _ H1) in Hd. unfold sim, left_over. cbn [received taken warned lost told]. unfold mask_of.
    rewrite (proj2 (Nat.eqb_neq (n - S (taken g)) 0)), (proj2 (Nat.ltb_lt (n - S (taken g)) 5)) by lia. eapply at_hw; [exact H1|]. by apply Hpop.
Qed.

Lemma clear6 q wn ov m1 : clear_flags (2 ^ 6) (FifoView q wn ov m1 0 mcr esr) = FifoView q false ov m1 0 mcr esr.
Proof using Type.
  unfold clear_flags. cbn [v_queue v_warning v_overflow v_mask1 v_mask2 v_mcr v_esr]. change (Z.testbit (2 ^ 6) 5) with false. change (Z.testbit (2 ^ 6) 6) with true.
  change (Z.testbit (2 ^ 6) 7) with false. by rewrite andb_false_r, andb_true_r.
Qed.
Lemma clear7 q wn ov m1 : clear_flags (2 ^ 7) (FifoView q wn ov m1 0 mcr esr) = FifoView q wn false m1 0 mcr esr.
Proof using Type.
  unfold clear_flags. cbn [v_queue v_warning v_overflow v_mask1 v_mask2 v_mcr v_esr]. change (Z.testbit (2 ^ 7) 5) with false. change (Z.testbit (2 ^ 7) 6) with false.
  change (Z.testbit (2 ^ 7) 7) with true. by rewrite andb_false_r, andb_true_r.
Qed.
Lemma served_overflow g w : sim g w -> left_over n g <> 0%nat ->
  wp (FLEXCAN_SubHandlerForLegacyRxFIFO 7) (fun s w' => s = (serve_one n g 7).2 /\ before_clear g 7 w') w.
Proof using Type.
  intros Hs Hn. unfold FLEXCAN_SubHandlerForLegacyRxFIFO, kFLEXCAN_RxFifoOverflowFlag. rewrite fifo_bit7. change (u32 (Z.shiftl 1 7)) with (2 ^ 7).
  change (2 ^ 7 =? 2 ^ 7) with true. cbv iota zeta. rewrite wp_ret. split; [done|]. intros d Hd. unfold sim in *.
  rewrite (at_view _ _ _ _ _ _ _ _ _ Hs), clear7 in Hd. eapply at_hw; [exact Hs|exact Hd].
Qed.
Lemma served_five g w : fifo_ok n g -> sim g w -> warned g = true -> (5 < left_over n g)%nat ->
  wp (take_frames 5 0 ;; h <- handle ;; when (rxFifoFrameNum h <? 5) (on_can (FLEXCAN_EnableMbInterrupts (2 ^ 5))) ;; ret kStatus_FLEXCAN_RxFifoBusy)
    (fun s w' => s = kStatus_FLEXCAN_RxFifoBusy /\ before_clear g 6 w') w.
Proof using placed small fifo_on.
  intros Hg Hs Hw Hl. assert (H5 := ok_warned n g Hg Hw Hl). unfold before_clear, sim, serve_one, left_over, waiting in *.
  change (6 =? 5) with false. change (6 =? 6) with true. rewrite (proj2 (Nat.ltb_lt 5 (n - taken g))) by lia. cbv iota. cbn [fst received taken warned lost told].
  rewrite (proj2 (Nat.eqb_neq (n - taken g) 0)) in Hs by lia. cbn [negb] in Hs. unfold mask_of in *.
  rewrite (proj2 (Nat.eqb_neq (n - taken g) 0)), (proj2 (Nat.ltb_ge (n - taken g) 5)) in Hs by lia.
  rewrite (proj2 (Nat.eqb_neq (n - (5 + taken g)) 0)) by lia. cbn [negb].
  rewrite wp_bind. apply (take_frames_run 5 0 _ _ _ _ _ _ _ _ Hs); [lia..|]. intros w1 H1. rewrite wp_bind, can_wp_handle, wp_bind.
  destruct (at_handle _ _ _ _ _ _ _ _ _ H1) as (S1 & S2 & S3 & S4). rewrite S3.
  destruct (Nat.ltb_spec (n - (5 + taken g)) 5).
  - rewrite (proj2 (Z.ltb_lt _ 5)) by lia. rewrite wp_on_can. assert (Hv := at_view _ _ _ _ _ _ _ _ _ H1). apply can_enable_run; [done|by rewrite Hv|].
    intros d Hd. rewrite wp_ret. split; [done|]. intros d' Hd'. cbn [c_hw with_hw] in Hd'. rewrite Hd, Hv in Hd'.
    change (with_mask1 (Z.lor (v_mask1 (FifoView ?a ?b ?c 192 0 mcr esr)) (2 ^ 5)) (FifoView ?a ?b ?c 192 0 mcr esr)) with (FifoView a b c 224 0 mcr esr) in Hd'.
    rewrite clear6 in Hd'. eapply (at_hw _ _ _ _ _ _ _ _ w1); [exact H1|exact Hd'].
  - rewrite (proj2 (Z.ltb_ge _ 5)) by lia. rewrite !wp_ret. split; [done|]. intros d Hd. rewrite (at_view _ _ _ _ _ _ _ _ _ H1), clear6 in Hd.
    eapply at_hw; [exact H1|exact Hd].
Qed.
Lemma served_warning g w : fifo_ok n g -> sim g w -> warned g = true -> left_over n g <> 0%nat ->
  wp (FLEXCAN_SubHandlerForLegacyRxFIFO 6) (fun s w' => s = (serve_one n g 6).2 /\ before_clear g 6 w') w.
Proof using placed small fifo_on.
  intros Hg Hs Hw Hn. unfold FLEXCAN_SubHandlerForLegacyRxFIFO, kFLEXCAN_RxFifoOverflowFlag, kFLEXCAN_RxFifoWarningFlag, kFLEXCAN_RxFifoFrameAvlFlag.
  rewrite fifo_bit5, fifo_bit6, fifo_bit7. change (u32 (Z.shiftl 1 6)) with (2 ^ 6). change (2 ^ 6 =? 2 ^ 7) with false.
  change (2 ^ 6 =? 2 ^ 6) with true. cbv iota zeta. rewrite wp_bind, can_wp_handle, wp_bind.
  assert (Hr := at_handle _ _ _ _ _ _ _ _ _ Hs). rewrite (proj2 (Nat.eqb_neq _ _) Hn) in Hr. destruct Hr as (S1 & S2 & S3 & S4). rewrite S3. fold (left_over n g).
  unfold serve_one. change (6 =? 5) with false. change (6 =? 6) with true. cbv iota. destruct (Nat.ltb_spec 5 (left_over n g)) as [H5|H5]; cbn [snd].
  - rewrite (proj2 (Z.ltb_lt 5 _)) by lia. rewrite wp_bind. apply (can_read_run _ _ g w Hs). intros d Hd. rewrite wp_ret, fifo_flags, (sim_flags g w Hs).
    rewrite (proj2 (Nat.ltb_lt 0 (waiting g))) by (assert (Ho := ok_warned n g Hg Hw H5); lia).
    replace (has _ (2 ^ 5)) with true by by destruct (warned g), (lost g). by apply served_five.
  - rewrite (proj2 (Z.ltb_ge 5 _)) by lia. rewrite !wp_ret. split; [done|]. intros d Hd. unfold serve_one.
    change (6 =? 5) with false. change (6 =? 6) with true. rewrite (proj2 (Nat.ltb_ge 5 (left_over n g))) by lia. cbv iota. cbn [fst].
    rewrite (at_view _ _ _ _ _ _ _ _ _ Hs), clear6 in Hd. eapply at_hw; [exact Hs|exact Hd].
Qed.
Lemma served_fifo g b w : fifo_ok n g -> sim g w -> pending n g = Some b ->
  (b = 5 \/ b = 6 \/ b = 7) /\ wp (FLEXCAN_SubHandlerForLegacyRxFIFO b) (fun s w' => s = (serve_one n g b).2 /\ before_clear g b w') w.
Proof using placed small fifo_on.
  intros Hg Hs. unfold pending. destruct (Nat.eqb_spec (left_over n g) 0); [done|].
  destruct (Nat.ltb_spec (left_over n g) 5); destruct (Nat.ltb_spec 0 (waiting g)); cbn [andb].
  1: intros [= <-]; split; [by left|by apply served_available].
  all: destruct (warned g) eqn:Ew; [|destruct (lost g) eqn:El; [|done]]; intros [= <-].
  all: split; [auto|]; first [exact (served_warning g w Hg Hs Ew ltac:(assumption)) | exact (served_overflow g w Hs ltac:(assumption))].
Qed.

Lemma transfered_run g b w : fifo_ok n g -> sim g w -> pending n g = Some b ->
  wp (FLEXCAN_SubHandlerForDataTransfered 0 (u32 (MESSAGE_BUFFER_MAX_NUMBER - 1))) (fun r w' => r = ((serve_one n g b).2, b) /\ sim (serve_one n g b).1 w') w.
Proof using placed small fifo_on.
  intros Hg Hs Hp. unfold FLEXCAN_SubHandlerForDataTransfered. rewrite wp_bind. apply (can_read_run _ _ g w Hs). intros d1 H1.
  rewrite wp_bind. apply (can_read_run _ _ g _ H1). intros d2 H2. rewrite fifo_mask1, fifo_flags, (sim_flags g _ H1), (at_view _ _ _ _ _ _ _ _ _ Hs).
  cbn [v_mask1]. fold (enabled_flags g). rewrite wp_bind.
  assert (Hsecond : forall Q : Z -> W -> Prop, (forall w', sim g w' -> Q 0 w') ->
    wp (if wide then m2 <- on_can (rd IMASK2) ;; f2 <- on_can (rd IFLAG2) ;; ret (Z.land m2 f2) else ret 0) Q (with_hw d2 (with_hw d1 w))).
  { intros Q HQ. destruct wide; [|rewrite wp_ret; by apply HQ]. rewrite wp_bind. apply (can_read_run _ _ g _ H2). intros d3 H3. rewrite wp_bind.
    apply (can_read_run _ _ g _ H3). intros d4 H4. rewrite fifo_mask2, (at_view _ _ _ _ _ _ _ _ _ H2), wp_ret. by apply HQ. }
  apply Hsecond. intros w4 H4. destruct (enabled_pending g) as [_ Hfind].
  assert (Hres : find_mb (Z.to_nat (u32 (MESSAGE_BUFFER_MAX_NUMBER - 1) / 32 - 0 / 32 + 1)) (0 / 32) 0 (u32 (MESSAGE_BUFFER_MAX_NUMBER - 1))
    (fun i => if i =? 0 then enabled_flags g else if i =? 1 then 0 else 0) 0xFF = b).
  { assert (Hb := fifo_buffers). rewrite wrap_small at 1 by (pow2; lia). change (0 / 32) with 0.
    assert (Hm : exists m, Z.to_nat ((MESSAGE_BUFFER_MAX_NUMBER - 1) / 32 - 0 + 1) = S m /\ (m = 0 \/ m = 1)%nat).
    { exists (Z.to_nat ((MESSAGE_BUFFER_MAX_NUMBER - 1) / 32)). zlia. }
    destruct Hm as (m & -> & Hm). rewrite (Hfind m 0), Hp. by destruct Hm as [-> | ->]. }
  cbv zeta. rewrite Hres. destruct (served_fifo g b w4 Hg H4 Hp) as [Hb Hserve]. assert (Hmax := fifo_buffers). rewrite (proj2 (Z.ltb_lt b _)) by lia.
  rewrite wp_bind, can_wp_handle, wp_bind. assert (Hr := at_handle _ _ _ _ _ _ _ _ _ H4).
  assert (Hn : left_over n g <> 0%nat) by (unfold pending in Hp; by destruct (Nat.eqb_spec (left_over n g) 0)).
  rewrite (proj2 (Nat.eqb_neq _ _) Hn) in Hr. destruct Hr as [S1 _]. rewrite S1, fifo_shift7, (proj2 (Z.leb_le b 7)) by lia.
  change (bool_decide (kFLEXCAN_StateRxFifo <> kFLEXCAN_StateIdle) && true) with true. cbv iota. rewrite wp_bind. apply (can_read_run _ _ g _ H4). intros d5 H5.
  rewrite fifo_mcr, (at_view _ _ _ _ _ _ _ _ _ H4), wp_ret. cbn [v_mcr]. rewrite fifo_on, wp_bind.
  eapply wp_mono; [apply (served_fifo g b _ Hg H5 Hp)|]. intros s w6 [-> H6]. rewrite wp_bind, wp_on_can.
  assert (Hbit : mb_bit b = 2 ^ b /\ 0 <= 2 ^ b < 2 ^ 32) by by destruct Hb as [-> | [-> | ->]]. destruct Hbit as [-> Hbit].
  apply clear_run; [exact Hbit|]. intros d7 H7. rewrite wp_ret. split; [done|]. by apply H6.
Qed.
Lemma event_run g b mb w : fifo_ok n g -> sim g w -> pending n g = Some b ->
  wp (e <- handle_event mb ;; call_back callback e.1.1 e.1.2 ;; ret e.2) (fun _ w' => sim (note_told ((serve_one n g b).2, b) (serve_one n g b).1) w') w.
Proof using placed small fifo_on calm awake notes.
  intros Hg Hs Hp. unfold handle_event. rewrite wp_bind, wp_bind. apply (status_run _ g w Hs). intros w1 H1. rewrite calm, awake, wp_bind.
  eapply wp_mono; [exact (transfered_run g b w1 Hg H1 Hp)|]. intros r w2 [-> H2]. rewrite wp_ret, wp_bind. cbn [fst snd]. unfold call_back.
  rewrite wp_bind, can_wp_handle, (at_callback _ _ _ _ _ _ _ _ _ H2). unfold wp at 1. rewrite notes. rewrite wp_ret. destruct H2 as [A1 A2 A3 A4 A5].
  split; try done. cbn [c_app with_app told note_told]. rewrite foldl_app. cbn [foldl]. by rewrite A5.
Qed.
Lemma serve_all_none m g : pending n g = None -> serve_all n m g = g.
Proof using Type. intros Hp. destruct m; cbn [serve_all]; [done|]. by rewrite Hp. Qed.
Lemma handler_run m m' g mb w : fifo_ok n g -> sim g w -> is_Some (pending n g) -> (measure g < m)%nat -> (measure g < m')%nat ->
  wp (handle_events callback m mb) (fun _ w' => sim (serve_all n m' g) w') w.
Proof using placed small fifo_on calm awake quiet notes.
  revert m' g mb w. induction m as [|m IH]; intros m' g mb w Hg Hs [b Hp] Hm Hm'; [lia|]. destruct m' as [|m']; [lia|]. cbn [handle_events serve_all].
  rewrite Hp. destruct (serve_one_ok n g b Hg Hp) as (G1 & G2 & _). set (g1 := note_told ((serve_one n g b).2, b) (serve_one n g b).1).
  assert (G3 : measure g1 = measure (serve_one n g b).1) by done. rewrite wp_bind. assert (He := event_run g b mb w Hg Hs Hp). rewrite wp_bind in He.
  eapply wp_mono; [exact He|]. intros e w1 H1. rewrite wp_bind in H1. rewrite wp_bind. eapply wp_mono; [exact H1|]. intros [] w2 H2. rewrite wp_ret in H2.
  rewrite wp_bind. apply (can_check_run _ g1 w2 H2). intros w3 H3. destruct (pending n g1) as [b1|] eqn:Hp1.
  - change (bool_decide (is_Some (Some b1))) with true. cbv iota. apply IH; [by apply ok_note|exact H3|by eexists|lia..].
  - change (bool_decide (is_Some None)) with false. cbv iota. rewrite wp_ret. by rewrite serve_all_none.
Qed.

(** ** The start *)

(** The handle is ready for a FIFO transfer, the FIFO empty, no interrupt of
    message buffers enabled. *)
Record ready : Prop := {
  ready_view : view (c_hw w0) = FifoView [] false false 0 0 mcr esr;
  ready_callback : has_callback (c_handle w0) = true;
  ready_state : rxFifoState (c_handle w0) = kFLEXCAN_StateIdle
}.
Context (idle : ready) (some : (0 < n)%nat).
Definition transfer : flexcan_fifo_transfer := FifoTransfer p (Z.of_nat n).
Lemma begin_run : wp (FLEXCAN_TransferReceiveFifoNonBlocking transfer) (fun s w => s = kStatus_Success /\ sim fifo_start w) w0.
Proof using idle some.
  destruct idle as [R1 R2 R3]. unfold FLEXCAN_TransferReceiveFifoNonBlocking. rewrite wp_bind, can_wp_handle, R3.
  change (bool_decide (kFLEXCAN_StateIdle = kFLEXCAN_StateIdle)) with true. cbv iota. rewrite wp_bind, can_wp_upd, wp_bind, can_wp_upd. cbv zeta. rewrite wp_bind, wp_on_can.
  cbn [c_hw c_handle with_handle fifo_frame frameNum transfer]. unfold kFLEXCAN_RxFifoOverflowFlag, kFLEXCAN_RxFifoWarningFlag, kFLEXCAN_RxFifoFrameAvlFlag.
  rewrite fifo_bit5, fifo_bit6, fifo_bit7.
  assert (Hm : (if Z.of_nat n <? 5 then Z.lor (Z.lor (2 ^ 7) (2 ^ 6)) (2 ^ 5) else Z.lor (2 ^ 7) (2 ^ 6)) = mask_of n).
  { unfold mask_of. rewrite (proj2 (Nat.eqb_neq n 0)) by lia. by destruct (Z.ltb_spec (Z.of_nat n) 5), (Nat.ltb_spec n 5); try lia. }
  rewrite Hm. apply can_enable_run; [apply mask_range|by rewrite R1|]. intros d Hd. rewrite wp_ret. split; [done|]. rewrite R1 in Hd.
  unfold sim, left_over. cbn [received taken warned lost told fifo_start]. rewrite Nat.sub_0_r, (proj2 (Nat.eqb_neq n 0)) by lia.
  split; cbn [c_hw c_handle c_frames c_app with_hw with_handle]; try done.
  - cbn [negb with_fifo with_rxFifoState rxFifoState rxFifoFrameBuf rxFifoFrameNum rxFifoTransferTotalNum c_handle with_handle]. split; [done|]. split; [lia|]. split; [lia|done].
  - intros a. unfold frames_from. cbn. by destruct (p <=? a).
Qed.
(** ** A run *)

Context (fuel : nat) (enough : (9 <= fuel)%nat).
Definition happen (ev : fifo_event) : M W unit :=
  match ev with
  | Arrive e => modify (fun w => with_hw (arrive e (c_hw w)) w)
  | Interrupt => v <- gets (fun w => view (c_hw w)) ;; if has (v_mask1 v) (iflag1 v) then FLEXCAN_TransferHandleIRQ fuel callback else ret tt
  end.
Fixpoint happens (es : list fifo_event) : M W unit := match es with [] => ret tt | ev :: es => happen ev ;; happens es end.

Lemma happen_run ev g w : fifo_ok n g -> sim g w -> wp (happen ev) (fun _ => sim (fifo_step n g ev)) w.
Proof using placed small fifo_on calm awake quiet notes enough some.
  intros Hg Hs. destruct ev as [e|]; unfold happen, fifo_step.
  - rewrite wp_modify. assert (Hv := at_view _ _ _ _ _ _ _ _ _ Hs). assert (Hr := fifo_arrive e (c_hw w)). rewrite Hv in Hr. unfold receive in Hr. cbn [v_queue] in Hr.
    rewrite length_drop in Hr. fold (waiting g) in Hr. destruct (Nat.ltb_spec (waiting g) 6); (eapply (at_hw _ _ _ _ _ _ _ _ w); [|exact Hr || (rewrite Hr; cbn; by rewrite drop_app_le by apply Hg)]).
    + destruct Hs as [A1 A2 A3 A4 A5]. split; try done. intros a. rewrite A4. cbn [taken received]. rewrite take_app_le; [done|]. apply Hg.
    + exact Hs.
  - rewrite wp_bind, wp_gets. rewrite (sim_flags g w Hs), (at_view _ _ _ _ _ _ _ _ _ Hs). cbn [v_mask1].
    assert (Hp := proj1 (enabled_pending g)). unfold enabled_flags in Hp. unfold has. rewrite Hp. destruct (pending n g) as [b|] eqn:Eb.
    + change (bool_decide (is_Some (Some b))) with true. cbv iota. assert (Hm := measure_small n g Hg). apply handler_run; [exact Hg|exact Hs|by rewrite Eb|lia..].
    + change (bool_decide (is_Some None)) with false. cbv iota. rewrite wp_ret. by rewrite serve_all_none.
Qed.
Lemma happens_run es g w : fifo_ok n g -> sim g w -> wp (happens es) (fun _ => sim (fifo_run n es g)) w.
Proof using placed small fifo_on calm awake quiet notes enough some.
  revert g w. induction es as [|ev es IH]; intros g w Hg Hs; cbn [happens]; [by rewrite wp_ret|]. rewrite wp_bind.
  eapply wp_mono; [exact (happen_run ev g w Hg Hs)|]. intros [] w1 H1. by apply IH; [apply step_ok|].
Qed.


(** C15: a FIFO transfer of [n] frames, [n] not a multiple of five, with at
    most two frames arriving between chances to serve the interrupt.  However
    they interleave, after any events the first frames to have arrived are
    stored in the application's array in order and nothing else is written;
    the handle says how many are left.  Once an interrupt is served after the
    last frame all [n] are stored, the handle is idle again and the callback
    has been told so exactly once (before, never). *)
Theorem flexcan_fifo_receives es : (n mod 5 <> 0)%nat -> paced 2 es ->
  wp (s <- FLEXCAN_TransferReceiveFifoNonBlocking transfer ;; happens es ;; ret s) (fun s w => exists k tl,
    s = kStatus_Success /\ (k <= n)%nat /\ (k <= List.length (arrivals es))%nat /\
    (forall a, c_frames w a = frames_from p (entry_frame <$> take k (arrivals es)) (c_frames w0) a) /\
    c_app w = foldl (fun a s => note s a) (c_app w0) tl /\ idle_told tl = (if (k =? n)%nat then 1 else 0)%nat /\
    (if (k =? n)%nat then rxFifoState (c_handle w) = kFLEXCAN_StateIdle
     else rxFifoState (c_handle w) = kFLEXCAN_StateRxFifo /\ rxFifoFrameNum (c_handle w) = Z.of_nat (n - k)) /\
    ((exists es', es = es' ++ [Interrupt] /\ (n <= List.length (arrivals es'))%nat) -> k = n)) w0.
Proof using placed small fifo_on calm awake quiet notes enough idle some.
  intros Hn Hp. rewrite wp_bind. eapply wp_mono; [exact begin_run|]. intros s w [-> Hs]. rewrite wp_bind.
  eapply wp_mono; [exact (happens_run es fifo_start w (ok_start n) Hs)|]. intros [] w' H. rewrite wp_ret.
  assert (Hg := fifo_run_ok n es fifo_start (ok_start n)). destruct (paced_prefix n Hn es Hp) as [P1 P2]. assert (Ht := run_told n some es fifo_start (start_told n some)).
  set (g := fifo_run n es fifo_start) in *. exists (taken g), (told g). destruct H as [H1 H2 H3 H4 H5]. rewrite P1 in H4.
  assert (Hk := ok_taken n g Hg). assert (E : (taken g =? n)%nat = (left_over n g =? 0)%nat).
  { unfold left_over. destruct (Nat.eqb_spec (taken g) n), (Nat.eqb_spec (n - taken g) 0); lia || done. }
  rewrite E. split; [done|]. split; [exact Hk|]. split; [exact P2|]. split; [exact H4|]. split; [exact H5|]. split; [exact Ht|]. split.
  - destruct (left_over n g =? 0)%nat; cbn [negb] in H3; [exact H3|]. by destruct H3 as (? & _ & ? & _).
  - intros (es' & -> & Hl). assert (Hp' : paced 2 es').
    { clear -Hp. revert Hp. generalize 2%nat. induction es' as [|[e|] es' IH]; intros r; cbn [app paced]; [done|intros [? ?]; split; auto|auto]. }
    assert (Hz := paced_ends n Hn es' Hp' Hl). fold g in Hz. unfold left_over in Hz. lia.
Qed.
(** a FIFO transfer of a multiple of five frames never ends: whatever
    arrives and whenever interrupts are served, five or more frames are left,
    the handle is busy and the callback is never told that it is idle. *)
Theorem flexcan_fifo_never_ends es : (n mod 5 = 0)%nat ->
  wp (s <- FLEXCAN_TransferReceiveFifoNonBlocking transfer ;; happens es ;; ret s) (fun s w => exists tl,
    s = kStatus_Success /\ rxFifoState (c_handle w) = kFLEXCAN_StateRxFifo /\ 5 <= rxFifoFrameNum (c_handle w) /\
    c_app w = foldl (fun a s => note s a) (c_app w0) tl /\ idle_told tl = 0%nat) w0.
Proof using placed small fifo_on calm awake quiet notes enough idle some.
  intros Hn. rewrite wp_bind. eapply wp_mono; [exact begin_run|]. intros s w [-> Hs]. rewrite wp_bind.
  eapply wp_mono; [exact (happens_run es fifo_start w (ok_start n) Hs)|]. intros [] w' H. rewrite wp_ret.
  destruct (run_stuck n some Hn es fifo_start (start_stuck n some Hn)) as [_ H5]. assert (Ht := run_told n some es fifo_start (start_told n some)).
  set (g := fifo_run n es fifo_start) in *. exists (told g). unfold told_end in Ht. unfold left_over in *.
  destruct H as [A1 A2 A3 A4 A5]. unfold left_over in A3. destruct (Nat.eqb_spec (n - taken g) 0); [lia|]. cbn [negb] in A3. destruct A3 as (S1 & _ & S3 & _).
  split; [done|]. split; [exact S1|]. split; [lia|]. by split.
Qed.
End Refinement.
