(* ===== verification/FlexcanFrames.v ===== *)
(** * Frames through message buffers

    A frame written to a message buffer, carried over the bus and read from a
    buffer of another controller is the same frame; and the interrupt handler
    of a range of buffers never returns while a buffer outside has an
    interrupt pending. *)

From stdpp Require Import base list numbers tactics.
From Stdlib Require Import ZArith Lia.
From S2P Require Import Prelude Mmio Flexcan FlexcanBuffers FlexcanTransfer.

Open Scope Z_scope.
Open Scope prog_scope.

(** The layout of the words of a message buffer. *)
Class CanFrameLaws {F : CanFields} := {
  cs_code_mask : CAN_CS_CODE_MASK = 0xF000000; cs_code_shift : CAN_CS_CODE_SHIFT = 24; cs_code x : CAN_CS_CODE x = Z.land (u32 (Z.shiftl x 24)) 0xF000000;
  cs_srr : CAN_CS_SRR_MASK = 0x400000; cs_ide : CAN_CS_IDE_MASK = 0x200000; cs_rtr : CAN_CS_RTR_MASK = 0x100000;
  cs_dlc_mask : CAN_CS_DLC_MASK = 0xF0000; cs_dlc_shift : CAN_CS_DLC_SHIFT = 16; cs_dlc x : CAN_CS_DLC x = Z.land (u32 (Z.shiftl x 16)) 0xF0000;
  cs_time_mask : CAN_CS_TIME_STAMP_MASK = 0xFFFF; cs_time_shift : CAN_CS_TIME_STAMP_SHIFT = 0;
  id_std : CAN_ID_STD_MASK = 0x1FFC0000; id_ext : CAN_ID_EXT_MASK = 0x3FFFF
}.

Section Frames.
Context {D : Type} `{!Device can_reg D} {F : CanFields} {X : CanFeatures} {L : CanFrameLaws} {P : PlainRegs can_reg D}.

Definition frame_wf (f : flexcan_frame) : Prop :=
  0 <= length f <= 8 /\ 0 <= id f < 2 ^ 29 /\ (format f = kFLEXCAN_FrameFormatStandard -> Z.land (id f) CAN_ID_STD_MASK = id f).
(** Buffer [i] may be used: it exists and is not part of the FIFO. *)
Definition usable (i : Z) (d : D) : Prop := i <= Z.land (view d MCR) CAN_MCR_MAXMB_MASK /\ FLEXCAN_IsMbOccupied i d = Ok (false, d).
Definition mb_view (i : Z) (d : D) : Z * Z * Z * Z := (view d (MB_CS i), view d (MB_ID i), view d (MB_WORD0 i), view d (MB_WORD1 i)).

(** The first [n] of the four bytes of the word [w], the others of [x]; the
    first byte is the highest one. *)
Definition first_bytes (n w x : Z) : Z := let m := Z.ones (8 * (4 - n)) in Z.lor (Z.ldiff w m) (Z.land x m).
(** What the bus carries of the words of the sending buffer, and what the
    receiving controller adds: its code and the time.  Of a standard frame 11
    bits of identifier are carried; of a data frame as many bytes as the length
    code says, at most eight, and of a remote frame none: the other bytes of
    the buffer are arbitrary. *)
Definition carried_bytes (cs : Z) : Z := if has cs CAN_CS_RTR_MASK then 0 else Z.min 8 (Z.shiftr (Z.land cs CAN_CS_DLC_MASK) CAN_CS_DLC_SHIFT).
Definition carried (words : Z * Z * Z * Z) (code time : Z) (noise : Z * Z) : Z * Z * Z * Z :=
  let '(cs, i, w0, w1) := words in
  (Z.lor (Z.lor (Z.land cs (ors [CAN_CS_SRR_MASK; CAN_CS_IDE_MASK; CAN_CS_RTR_MASK; CAN_CS_DLC_MASK])) (CAN_CS_CODE code)) time,
   Z.land i (if has cs CAN_CS_IDE_MASK then Z.lor CAN_ID_EXT_MASK CAN_ID_STD_MASK else CAN_ID_STD_MASK),
   first_bytes (Z.min 4 (carried_bytes cs)) w0 noise.1, first_bytes (Z.max 0 (carried_bytes cs - 4)) w1 noise.2).
(** Byte [k] of a frame's data. *)
Definition data_byte (f : flexcan_frame) (k : Z) : Z :=
  Z.land (if k <? 4 then Z.shiftr (dataWord0 f) (8 * (3 - k)) else Z.shiftr (dataWord1 f) (8 * (7 - k))) 0xFF.
(** The same frame up to the time and the filter, and with the same data. *)
Record same_frame (f g : flexcan_frame) : Prop := {
  same_length : length g = length f;
  same_type : type g = type f;
  same_format : format g = format f;
  same_id : id g = id f;
  same_data : type f = kFLEXCAN_FrameTypeData -> forall k, 0 <= k < length f -> data_byte g k = data_byte f k
}.

Lemma first_bytes_keep n w x k : 0 <= k < n -> n <= 4 -> Z.land (Z.shiftr (first_bytes n w x) (8 * (3 - k))) 0xFF = Z.land (Z.shiftr w (8 * (3 - k))) 0xFF.
Proof.
  intros Hk Hn. apply Z.bits_inj'. intros i Hi. rewrite !Z.land_spec, !Z.shiftr_spec by lia. f_equal.
  unfold first_bytes. rewrite Z.lor_spec, Z.ldiff_spec, Z.land_spec, Z.ones_spec_high by lia. by rewrite andb_false_r, orb_false_r, andb_true_r.
Qed.
(** Bytes that were carried are there. *)
Lemma carried_data f g x : dataWord0 g = first_bytes (Z.min 4 (length f)) (dataWord0 f) x.1 -> dataWord1 g = first_bytes (Z.max 0 (length f - 4)) (dataWord1 f) x.2 ->
  length f <= 8 -> forall k, 0 <= k < length f -> data_byte g k = data_byte f k.
Proof.
  intros E0 E1 Hl k Hk. unfold data_byte. rewrite E0, E1. destruct (Z.ltb_spec k 4); [apply first_bytes_keep; lia|].
  replace (7 - k) with (3 - (k - 4)) by lia. apply first_bytes_keep; lia.
Qed.

Lemma in_use_run {B} i (k : M D B) Q d : usable i d -> wp (assert_in_use i ;; k) Q d <-> wp k Q d.
Proof. intros [H1 _]. unfold assert_in_use. rewrite wp_bind, wp_bind. unfold wp at 1. rewrite rd_plain. by rewrite wp_assert by by apply Z.leb_le. Qed.
Lemma buffer_free_run {B} i (k : M D B) Q d : usable i d -> wp (assert_free i ;; k) Q d <-> wp k Q d.
Proof. intros [_ H2]. unfold assert_free. rewrite wp_bind, wp_bind. unfold wp at 1. rewrite H2. by rewrite wp_assert. Qed.
Lemma wr_run r v (Q : unit -> D -> Prop) d : wp (wr r v) Q d <-> Q tt (reg_write r v d).
Proof. done. Qed.
Lemma buffer_rd_run r (Q : Z -> D -> Prop) d : wp (rd r) Q d <-> Q (view d r) d.
Proof. unfold wp. by rewrite rd_plain. Qed.

(** Writing a frame. *)
Lemma load_run i code f (Q : unit -> D -> Prop) d :
  (forall d', mb_view i d' = (frame_cs code f, id f, dataWord0 f, dataWord1 f) ->
    (forall r, r <> MB_CS i -> r <> MB_ID i -> r <> MB_WORD0 i -> r <> MB_WORD1 i -> view d' r = view d r) -> Q tt d') -> wp (load_frame i code f) Q d.
Proof.
  intros HQ. unfold load_frame. rewrite wp_bind, buffer_rd_run, !wp_bind, wr_run, wp_bind, wr_run, wp_bind, wr_run, wp_bind, wr_run, wr_run.
  apply HQ.
  - unfold mb_view. rewrite !plain_write. by repeat first [rewrite decide_True by done | rewrite decide_False by congruence].
  - intros r H1 H2 H3 H4. rewrite !plain_write. by repeat rewrite decide_False by congruence.
Qed.
Definition sending (i : Z) (d : D) : Prop := Z.land (view d (MB_CS i)) CAN_CS_CODE_MASK = CAN_CS_CODE kFLEXCAN_TxMbDataOrRemote.
Lemma write_run i f (Q : status_t -> D -> Prop) d : usable i d -> length f <= 8 -> ~ sending i d ->
  (forall d', mb_view i d' = (frame_cs kFLEXCAN_TxMbDataOrRemote f, id f, dataWord0 f, dataWord1 f) -> Q kStatus_Success d') ->
  wp (FLEXCAN_WriteTxMb i f) Q d.
Proof.
  intros Hu Hf Hs HQ. unfold FLEXCAN_WriteTxMb. rewrite in_use_run, wp_bind, wp_assert, buffer_free_run by by try apply Z.leb_le.
  rewrite wp_bind, buffer_rd_run. rewrite (proj2 (Z.eqb_neq (CAN_CS_CODE kFLEXCAN_TxMbDataOrRemote) (Z.land (view d (MB_CS i)) CAN_CS_CODE_MASK))) by by intros E; apply Hs.
  cbn [negb]. rewrite wp_bind. apply load_run. intros d' Hv _. rewrite wp_ret. by apply HQ.
Qed.

(** A control word with a time stamp. *)
Lemma time_low c t m : 0 <= t < 2 ^ 16 -> (2 ^ 16 | m) -> Z.land (Z.lor c t) m = Z.land c m.
Proof.
  intros Ht [k ->]. rewrite Z.land_lor_distr_l. assert (Z.land t (k * 2 ^ 16) = 0) as ->; [|by rewrite Z.lor_0_r].
  apply Z.bits_inj'. intros i Hi. rewrite Z.land_spec, Z.bits_0. destruct (Z.lt_ge_cases i 16).
  - rewrite Z.mul_pow2_bits_low by lia. apply andb_false_r.
  - by rewrite (testbit_above t 16) by lia.
Qed.
Lemma time_high c t : 0 <= t < 2 ^ 16 -> Z.land c 0xFFFF = 0 -> Z.land (Z.lor c t) 0xFFFF = t.
Proof.
  intros Ht Hc. rewrite Z.land_lor_distr_l, Hc, Z.lor_0_l. change 0xFFFF with (Z.ones 16). rewrite Z.land_ones by lia. by apply Z.mod_small.
Qed.

(** Reading a buffer. *)
Lemma buffer_read_run i f0 (Q : status_t * flexcan_frame -> D -> Prop) d cs w w0 w1 (overrun : bool) : usable i d -> mb_view i d = (cs, w, w0, w1) ->
  Z.shiftr (Z.land cs CAN_CS_CODE_MASK) CAN_CS_CODE_SHIFT = (if overrun then kFLEXCAN_RxMbOverrun else kFLEXCAN_RxMbFull) ->
  Q (if overrun then kStatus_FLEXCAN_RxOverflow else kStatus_Success, frame_of cs w w0 w1 (idhit f0)) d -> wp (FLEXCAN_ReadRxMb i f0) Q d.
Proof.
  intros Hu Hv Hc HQ. unfold FLEXCAN_ReadRxMb. rewrite in_use_run, buffer_free_run by done. rewrite wp_bind, buffer_rd_run. unfold mb_view in Hv. injection Hv as -> E1 E2 E3.
  cbv zeta. rewrite Hc. replace (_ || _) with true by by destruct overrun. rewrite wp_bind, buffer_rd_run, wp_bind, buffer_rd_run, wp_bind, buffer_rd_run, wp_bind, buffer_rd_run, wp_ret.
  rewrite E1, E2, E3. by destruct overrun.
Qed.

(** The control word read is that of the frame sent. *)
Lemma received_frame f t noise (overrun : bool) h : frame_wf f -> 0 <= t < 2 ^ 16 ->
  let code := if overrun then kFLEXCAN_RxMbOverrun else kFLEXCAN_RxMbFull in
  let '(cs, i, w0, w1) := carried (frame_cs kFLEXCAN_TxMbDataOrRemote f, id f, dataWord0 f, dataWord1 f) code t noise in
  Z.shiftr (Z.land cs CAN_CS_CODE_MASK) CAN_CS_CODE_SHIFT = code /\
  frame_of cs i w0 w1 h = Frame t (length f) (type f) (format f) h (id f)
    (first_bytes (Z.min 4 (if is_remote (type f) then 0 else length f)) (dataWord0 f) noise.1)
    (first_bytes (Z.max 0 ((if is_remote (type f) then 0 else length f) - 4)) (dataWord1 f) noise.2).
Proof.
  intros (Hl & Hi & Hs) Ht. unfold carried, carried_bytes, frame_of, time_stamp_of, frame_cs, has. cbv zeta.
  rewrite id_std in *. rewrite id_ext, cs_code_mask, cs_code_shift, !cs_code, cs_srr, cs_ide, cs_rtr, cs_dlc_mask, cs_dlc_shift, cs_dlc, cs_time_mask, cs_time_shift.
  rewrite !(time_low _ t 0xF000000), !(time_low _ t 0xF0000), !(time_low _ t 0x200000), !(time_low _ t 0x100000) by (try exact Ht; by apply Z.mod_divide).
  assert (Hlen : exists n, (n <= 8)%nat /\ length f = Z.of_nat n) by (exists (Z.to_nat (length f)); lia). destruct Hlen as (n & Hn & ->).
  assert (Hid : forall x, 0 <= x < 2 ^ 29 -> wrap 29 (Z.land (Z.land x 0x1FFFFFFF) 0x1FFFFFFF) = x).
  { intros x Hx. change 0x1FFFFFFF with (Z.ones 29). rewrite !Z.land_ones by lia. unfold wrap. rewrite !Z.mod_mod by lia. by apply Z.mod_small. }
  rewrite Z.shiftr_0_r, time_high; [|exact Ht|do 9 (destruct n; [by destruct (format f), (type f), overrun|]); lia].
  rewrite (wrap_small 16 t) by exact Ht.
  change (Z.lor 0x3FFFF 0x1FFC0000) with 0x1FFFFFFF.
  assert (Hid2 : format f = kFLEXCAN_FrameFormatStandard -> wrap 29 (Z.land (Z.land (id f) 0x1FFC0000) 0x1FFFFFFF) = id f).
  { intros E. rewrite (Hs E). rewrite <- (Hid (id f) Hi) at 2. change 0x1FFFFFFF with (Z.ones 29). rewrite !Z.land_ones by lia. by rewrite Z.mod_mod by lia. }
  do 9 (destruct n as [|n]; [clear Hn; destruct (format f), (type f), overrun; (split; [reflexivity|]);
    first [exact (f_equal (fun x => Frame t _ _ _ h x _ _) (Hid (id f) Hi)) | exact (f_equal (fun x => Frame t _ _ _ h x _ _) (Hid2 eq_refl))]|]). lia.
Qed.

(** C17: [FLEXCAN_WriteTxMb] on a buffer that is not sending succeeds and
    leaves the frame's words there, and when another controller's buffer holds
    what the bus carries of it (marked full or overrun, with a time stamp, and
    anything in the bytes that the length code leaves out),
    [FLEXCAN_ReadRxMb] there gives the frame that was sent: identifier, format,
    type, length and, unless it is a remote frame, every byte of its data.  The
    status tells a full buffer from an overrun one. *)
Theorem flexcan_frame_carried i j f f0 d1 d2 t noise (overrun : bool) : usable i d1 -> ~ sending i d1 -> usable j d2 -> frame_wf f -> 0 <= t < 2 ^ 16 ->
  wp (FLEXCAN_WriteTxMb i f) (fun s d1' => s = kStatus_Success /\
    mb_view i d1' = (frame_cs kFLEXCAN_TxMbDataOrRemote f, id f, dataWord0 f, dataWord1 f) /\
    (mb_view j d2 = carried (mb_view i d1') (if overrun then kFLEXCAN_RxMbOverrun else kFLEXCAN_RxMbFull) t noise ->
     wp (FLEXCAN_ReadRxMb j f0) (fun r _ => r.1 = (if overrun then kStatus_FLEXCAN_RxOverflow else kStatus_Success) /\
       same_frame f r.2 /\ timestamp r.2 = t /\ idhit r.2 = idhit f0) d2)) d1.
Proof.
  intros Hi Hs Hj Hf Ht. apply write_run; [done|apply Hf|done|]. intros d1' Hv. split; [done|]. split; [done|]. rewrite Hv. intros Hw.
  assert (Hr := received_frame f t noise overrun (idhit f0) Hf Ht). cbv zeta in Hr. rewrite <- Hw in Hr.
  destruct (mb_view j d2) as [[[cs x] w0] w1] eqn:E. destruct Hr as [H1 H2]. apply (buffer_read_run j f0 _ d2 cs x w0 w1 overrun Hj E H1). rewrite H2.
  split; [done|]. split; [|done]. split; [done..|]. intros Hd. rewrite Hd. apply (carried_data _ _ noise); [done|done|apply Hf].
Qed.
(** A buffer that is sending is left alone. *)
Lemma write_busy i f (d : D) : usable i d -> length f <= 8 -> sending i d -> FLEXCAN_WriteTxMb i f d = Ok (kStatus_Fail, d).
Proof.
  intros Hu Hf Hs. assert (H : wp (FLEXCAN_WriteTxMb i f) (fun s d' => s = kStatus_Fail /\ d' = d) d).
  { unfold FLEXCAN_WriteTxMb. rewrite in_use_run, wp_bind, wp_assert, buffer_free_run by by try apply Z.leb_le. rewrite wp_bind, buffer_rd_run, Hs, Z.eqb_refl. cbn [negb]. by rewrite wp_ret. }
  unfold wp in H. destruct (FLEXCAN_WriteTxMb i f d) as [[s d']|]; [|done]. by destruct H as [-> ->].
Qed.

(** ** Interrupts of a range of buffers *)

Lemma no_first_bit n j flags : 0 <= j -> j + Z.of_nat n <= 32 -> (forall i, j <= i < j + Z.of_nat n -> Z.testbit flags i = false) -> first_bit n j flags = None.
Proof.
  revert j. induction n as [|n IH]; intros j Hj Hn Hb; [done|]. cbn [first_bit]. rewrite Z.shiftl_1_l, wrap_small, has_pow2 by (try (split; [|apply Z.pow_lt_mono_r]); lia).
  rewrite Hb by lia. apply IH; [lia..|]. intros i Hi. apply Hb. lia.
Qed.
Lemma no_mb s e intflag r : 0 <= s <= e -> e < 64 -> (forall i, s <= i <= e -> Z.testbit (intflag (i / 32)) (i mod 32) = false) ->
  find_mb (Z.to_nat (e / 32 - s / 32 + 1)) (s / 32) s e intflag r = r.
Proof.
  intros Hs He Hb. assert (H : forall n w, s / 32 <= w -> w + Z.of_nat n <= e / 32 + 1 -> find_mb n w s e intflag r = r).
  { induction n as [|n IH]; intros w Hw Hn; [done|]. cbn [find_mb]. cbv zeta. destruct (Z.eqb_spec (intflag w) 0); [apply IH; lia|].
    rewrite no_first_bit; [apply IH; lia|..].
    - destruct (w =? s / 32); zlia.
    - destruct (Z.eqb_spec w (s / 32)), (Z.eqb_spec w (e / 32)); zlia.
    - intros i Hi. assert (Hir : s <= 32 * w + i <= e /\ 0 <= i < 32).
      { destruct (Z.eqb_spec w (s / 32)), (Z.eqb_spec w (e / 32)); zlia. }
      assert (Hx := Hb (32 * w + i) (proj1 Hir)). replace ((32 * w + i) / 32) with w in Hx by zlia. by replace ((32 * w + i) mod 32) with i in Hx by zlia. }
  apply H; zlia.
Qed.
End Frames.

Section Range.
Context {D A : Type} `{!Device can_reg D} {F : CanFields} {X : CanFeatures} {P : PlainRegs can_reg D}.
Abbreviation W := (can_world D A).
Context (callback : status_t -> Z -> M W unit) (note : status_t * Z -> A -> A).
Context (notes : forall s i w, callback s i w = Ok (tt, with_app (note (s, i) (c_app w)) w)).

(** The enabled interrupts of message buffers that are pending, by words. *)
Definition pending_flags (d : D) (w : Z) : Z :=
  if w =? 0 then Z.land (view d IMASK1) (view d IFLAG1) else if w =? 1 then if wide then Z.land (view d IMASK2) (view d IFLAG2) else 0 else 0.
Lemma read_ok r (w : W) : on_can (rd r) w = Ok (view (c_hw w) r, w).
Proof. unfold on_can. rewrite rd_plain. by destruct w. Qed.
Lemma nothing_found s e (w : W) : 0 <= s <= e -> e < 64 -> MESSAGE_BUFFER_MAX_NUMBER <= 64 ->
  (forall i, s <= i <= e -> Z.testbit (pending_flags (c_hw w) (i / 32)) (i mod 32) = false) ->
  FLEXCAN_SubHandlerForDataTransfered s e w = Ok ((kStatus_FLEXCAN_UnHandled, 0xFF), w).
Proof using P.
  intros Hs He Hmax Hnone. unfold FLEXCAN_SubHandlerForDataTransfered. rewrite (bind_ok _ _ _ _ _ (read_ok IMASK1 w)), (bind_ok _ _ _ _ _ (read_ok IFLAG1 w)).
  assert (Hsecond : (if wide then m2 <- on_can (rd IMASK2) ;; f2 <- on_can (rd IFLAG2) ;; ret (Z.land m2 f2) else ret 0) w = Ok (pending_flags (c_hw w) 1, w)).
  { unfold pending_flags. change (1 =? 0) with false. change (1 =? 1) with true. cbv iota. destruct wide; [|done].
    by rewrite (bind_ok _ _ _ _ _ (read_ok IMASK2 w)), (bind_ok _ _ _ _ _ (read_ok IFLAG2 w)). }
  rewrite (bind_ok _ _ _ _ _ Hsecond). cbv zeta. rewrite no_mb; [|done..|].
  - rewrite (proj2 (Z.ltb_ge 0xFF _)) by lia. done.
  - intros i Hi. rewrite <- (Hnone i Hi) at 1. unfold pending_flags. destruct (i / 32 =? 0); [done|]. by destruct (i / 32 =? 1).
Qed.
Lemma still_pending (w : W) : pending_flags (c_hw w) 0 <> 0 \/ pending_flags (c_hw w) 1 <> 0 -> mb_pending w = Ok (true, w).
Proof using P.
  intros Hsome. unfold mb_pending. rewrite (bind_ok _ _ _ _ _ (read_ok IMASK1 w)), (bind_ok _ _ _ _ _ (read_ok IFLAG1 w)). unfold pending_flags in Hsome.
  change (0 =? 0) with true in Hsome. change (1 =? 0) with false in Hsome. change (1 =? 1) with true in Hsome. cbv iota in Hsome. unfold has.
  destruct (Z.eqb_spec (Z.land (view (c_hw w) IMASK1) (view (c_hw w) IFLAG1)) 0); cbn [negb]; [|done]. destruct Hsome as [|Hsome]; [done|].
  destruct wide; [|done]. rewrite (bind_ok _ _ _ _ _ (read_ok IMASK2 w)), (bind_ok _ _ _ _ _ (read_ok IFLAG2 w)). by rewrite (proj2 (Z.eqb_neq _ _) Hsome).
Qed.
(** [FLEXCAN_MbHandleIRQ] for the buffers from [s] to [e] does not
    return if an interrupt is pending that belongs to a buffer outside the
    range and none inside: it looks at the flags of all buffers to see whether
    there is more to do, finds nothing to do in its range, and goes round
    again, however many rounds it is given. *)
Theorem flexcan_mb_irq_never_returns fuel s e (w : W) : 0 <= s <= e -> e < 64 -> MESSAGE_BUFFER_MAX_NUMBER <= 64 ->
  (forall i, s <= i <= e -> Z.testbit (pending_flags (c_hw w) (i / 32)) (i mod 32) = false) ->
  (pending_flags (c_hw w) 0 <> 0 \/ pending_flags (c_hw w) 1 <> 0) ->
  FLEXCAN_MbHandleIRQ fuel callback s e w = Err OutOfFuel.
Proof using notes P.
  intros Hs He Hmax Hnone Hsome. unfold FLEXCAN_MbHandleIRQ. generalize dependent w. induction fuel as [|n IH]; intros w Hnone Hsome; [done|].
  cbn [handle_mbs]. rewrite (bind_ok _ _ _ _ _ (nothing_found s e w Hs He Hmax Hnone)). cbn [fst snd]. unfold call_back. rewrite bind_assoc.
  change (bind handle ?f w) with (f (c_handle w) w). cbv beta. destruct (has_callback (c_handle w)); cycle 1.
  - rewrite bind_ret, (bind_ok _ _ _ _ _ (still_pending w Hsome)). by apply IH.
  - rewrite (bind_ok _ _ _ _ _ (notes _ _ w)). set (w' := with_app _ w). change (pending_flags (c_hw w)) with (pending_flags (c_hw w')) in *.
    rewrite (bind_ok _ _ _ _ _ (still_pending w' Hsome)). by apply IH.
Qed.
End Range.
