(* ===== verification/FlexcanDevice.v ===== *)
(** * A CAN controller

    The fields of a controller with 64 message buffers, a controller with a
    receive FIFO for which the laws hold, and transfers on it. *)

From stdpp Require Import base list numbers tactics.
From Stdlib Require Import ZArith Lia.
From S2P Require Import Prelude Mmio Flexcan FlexcanBuffers FlexcanTransfer FlexcanTiming FlexcanFifo FlexcanReceive FlexcanFrames.

Open Scope Z_scope.
Open Scope prog_scope.

Definition field_mask (pos width : Z) : Z := Z.shiftl (Z.ones width) pos.
Definition field (pos width x : Z) : Z := Z.land (u32 (Z.shiftl x pos)) (field_mask pos width).
#[export] Instance imx_fields : CanFields := {|
  CAN_MCR_MDIS_MASK := field_mask 31 1; CAN_MCR_FRZ_MASK := field_mask 30 1; CAN_MCR_RFEN_MASK := field_mask 29 1;
  CAN_MCR_HALT_MASK := field_mask 28 1; CAN_MCR_WAKMSK_MASK := field_mask 26 1; CAN_MCR_SOFTRST_MASK := field_mask 25 1;
  CAN_MCR_FRZACK_MASK := field_mask 24 1; CAN_MCR_SUPV_MASK := field_mask 23 1; CAN_MCR_SLFWAK_MASK := field_mask 22 1;
  CAN_MCR_LPMACK_MASK := field_mask 20 1; CAN_MCR_WAKSRC_MASK := field_mask 19 1; CAN_MCR_DOZE_MASK := field_mask 18 1;
  CAN_MCR_SRXDIS_MASK := field_mask 17 1; CAN_MCR_IRMQ_MASK := field_mask 16 1; CAN_MCR_WRNEN_MASK := field_mask 21 1;
  CAN_MCR_IDAM_MASK := field_mask 8 2; CAN_MCR_IDAM := field 8 2; CAN_MCR_MAXMB_MASK := field_mask 0 7; CAN_MCR_MAXMB_SHIFT := 0;
  CAN_MCR_MAXMB := field 0 7; CAN_CTRL1_PRESDIV_MASK := field_mask 24 8; CAN_CTRL1_PRESDIV_SHIFT := 24; CAN_CTRL1_PRESDIV := field 24 8;
  CAN_CTRL1_RJW_MASK := field_mask 22 2; CAN_CTRL1_RJW_SHIFT := 22; CAN_CTRL1_RJW := field 22 2; CAN_CTRL1_PSEG1_MASK := field_mask 19 3;
  CAN_CTRL1_PSEG1_SHIFT := 19; CAN_CTRL1_PSEG1 := field 19 3; CAN_CTRL1_PSEG2_MASK := field_mask 16 3; CAN_CTRL1_PSEG2_SHIFT := 16;
  CAN_CTRL1_PSEG2 := field 16 3; CAN_CTRL1_PROPSEG_MASK := field_mask 0 3; CAN_CTRL1_PROPSEG_SHIFT := 0; CAN_CTRL1_PROPSEG := field 0 3;
  CAN_CTRL1_LPB_MASK := field_mask 12 1; CAN_CTRL1_TSYN_MASK := field_mask 5 1; CAN_CTRL1_LOM_MASK := field_mask 3 1;
  CAN_CTRL1_CLKSRC_MASK := field_mask 13 1; CAN_CTRL1_SMP_MASK := field_mask 7 1; CAN_CTRL1_BOFFMSK_MASK := field_mask 15 1;
  CAN_CTRL1_ERRMSK_MASK := field_mask 14 1; CAN_CTRL1_TWRNMSK_MASK := field_mask 11 1; CAN_CTRL1_RWRNMSK_MASK := field_mask 10 1;
  CAN_CTRL2_RFFN_MASK := field_mask 24 4; CAN_CTRL2_RFFN_SHIFT := 24; CAN_CTRL2_RFFN := field 24 4; CAN_CTRL2_MRP_MASK := field_mask 18 1;
  CAN_CTRL2_RRS_MASK := field_mask 17 1; CAN_CTRL2_EACEN_MASK := field_mask 16 1; CAN_CTRL2_TASD := field 19 5; CAN_CTRL2_BTE_MASK := field_mask 13 1;
  CAN_CBT_EPRESDIV_MASK := field_mask 21 10; CAN_CBT_EPRESDIV_SHIFT := 21; CAN_CBT_EPRESDIV := field 21 10; CAN_CBT_ERJW_MASK := field_mask 16 5;
  CAN_CBT_ERJW := field 16 5; CAN_CBT_EPSEG1_MASK := field_mask 5 5; CAN_CBT_EPSEG1_SHIFT := 5; CAN_CBT_EPSEG1 := field 5 5;
  CAN_CBT_EPSEG2_MASK := field_mask 0 5; CAN_CBT_EPSEG2_SHIFT := 0; CAN_CBT_EPSEG2 := field 0 5; CAN_CBT_EPROPSEG_MASK := field_mask 10 6;
  CAN_CBT_EPROPSEG_SHIFT := 10; CAN_CBT_EPROPSEG := field 10 6; CAN_CBT_BTF_MASK := field_mask 31 1; CAN_ENCBT_NRJW := field 22 7;
  CAN_ENCBT_NTSEG1_MASK := field_mask 0 8; CAN_ENCBT_NTSEG1_SHIFT := 0; CAN_ENCBT_NTSEG1 := field 0 8; CAN_ENCBT_NTSEG2_MASK := field_mask 12 7;
  CAN_ENCBT_NTSEG2_SHIFT := 12; CAN_ENCBT_NTSEG2 := field 12 7; CAN_EPRS_ENPRESDIV_MASK := field_mask 0 10; CAN_EPRS_ENPRESDIV_SHIFT := 0;
  CAN_EPRS_ENPRESDIV := field 0 10; CAN_FDCBT_FPROPSEG_MASK := field_mask 10 5; CAN_FDCBT_FPROPSEG_SHIFT := 10;
  CAN_FDCBT_FPSEG1_MASK := field_mask 5 3; CAN_FDCBT_FPSEG1_SHIFT := 5; CAN_FDCBT_FPSEG2_MASK := field_mask 0 3; CAN_FDCBT_FPSEG2_SHIFT := 0;
  CAN_FDCBT_FPRESDIV_MASK := field_mask 20 10; CAN_FDCBT_FPRESDIV_SHIFT := 20; CAN_EDCBT_DTSEG1_MASK := field_mask 0 5; CAN_EDCBT_DTSEG1_SHIFT := 0;
  CAN_EDCBT_DTSEG2_MASK := field_mask 12 4; CAN_EDCBT_DTSEG2_SHIFT := 12; CAN_EPRS_EDPRESDIV_MASK := field_mask 16 10; CAN_EPRS_EDPRESDIV_SHIFT := 16;
  CAN_CS_CODE_MASK := field_mask 24 4; CAN_CS_CODE_SHIFT := 24; CAN_CS_CODE := field 24 4; CAN_CS_SRR_MASK := field_mask 22 1;
  CAN_CS_IDE_MASK := field_mask 21 1; CAN_CS_RTR_MASK := field_mask 20 1; CAN_CS_DLC_MASK := field_mask 16 4; CAN_CS_DLC_SHIFT := 16;
  CAN_CS_DLC := field 16 4; CAN_CS_TIME_STAMP_MASK := field_mask 0 16; CAN_CS_TIME_STAMP_SHIFT := 0; CAN_ID_STD_MASK := field_mask 18 11;
  CAN_ID_EXT_MASK := field_mask 0 18; CAN_RXFIR_IDHIT_MASK := field_mask 0 9; CAN_ECR_TXERRCNT_MASK := field_mask 0 8; CAN_ECR_TXERRCNT_SHIFT := 0;
  CAN_ECR_RXERRCNT_MASK := field_mask 8 8; CAN_ECR_RXERRCNT_SHIFT := 8; CAN_ESR1_TWRNINT_MASK := field_mask 17 1;
  CAN_ESR1_RWRNINT_MASK := field_mask 16 1; CAN_ESR1_BOFFINT_MASK := field_mask 2 1; CAN_ESR1_ERRINT_MASK := field_mask 1 1;
  CAN_ESR1_WAKINT_MASK := field_mask 0 1; CAN_IFLAG1_BUF5I_MASK := field_mask 5 1; CAN_IFLAG1_BUF6I_MASK := field_mask 6 1;
  CAN_IFLAG1_BUF7I_MASK := field_mask 7 1; CAN_IFLAG1_BUF7I_SHIFT := 7|}.
#[export] Instance imx_timing : CanTimingLaws.
Proof. by split. Qed.
#[export] Instance imx_frames : CanFrameLaws.
Proof. by split. Qed.
Definition imx_features (buffers : Z) (t : timing_register) : CanFeatures :=
  {| MESSAGE_BUFFER_MAX_NUMBER := buffers; CAN_WORD1_COUNT := buffers; TIMING_REGISTER := t; HAS_DOZE := false; HAS_SLFWAK := true; HAS_SUPV := true;
     HAS_GLITCH_FILTER := true; HAS_CLKSRC := true; ENTER_FREEZE_MODE := false; FLEXCAN_POLLING_TIMEOUT := 0; FLEXCAN_MODULE_TIMEOUT := 0 |}.
#[export] Instance imx : CanFeatures := imx_features 64 InCTRL1.

(** ** A controller with a receive FIFO *)

Record can_dev := CanDev { dv_fifo : fifo_view; dv_regs : can_reg -> Z }.
Definition with_fifo_view (v : fifo_view) (d : can_dev) : can_dev := CanDev v (dv_regs d).
Definition no_entry : rx_entry := Entry 0 0 0 0 0.
Definition head_of (d : can_dev) : rx_entry := match v_queue (dv_fifo d) with e :: _ => e | [] => no_entry end.
Definition can_read (r : can_reg) (d : can_dev) : Z :=
  match r with
  | MCR => v_mcr (dv_fifo d) | ESR1 => v_esr (dv_fifo d) | IMASK1 => v_mask1 (dv_fifo d) | IMASK2 => v_mask2 (dv_fifo d) | IFLAG1 => iflag1 (dv_fifo d)
  | MB_CS 0 => e_cs (head_of d) | MB_ID 0 => e_id (head_of d) | MB_WORD0 0 => e_word0 (head_of d) | MB_WORD1 0 => e_word1 (head_of d) | RXFIR => e_hit (head_of d)
  | _ => dv_regs d r
  end.
Definition can_write (r : can_reg) (v : Z) (d : can_dev) : can_dev :=
  match r with
  | IFLAG1 => with_fifo_view (clear_flags v (dv_fifo d)) d
  | IMASK1 => with_fifo_view (with_mask1 v (dv_fifo d)) d
  | IMASK2 => with_fifo_view (with_mask2 v (dv_fifo d)) d
  | _ => CanDev (dv_fifo d) (fun q => if decide (q = r) then v else dv_regs d q)
  end.
#[export] Instance can_device : Device can_reg can_dev := {| reg_read r d := (can_read r d, d); reg_write := can_write |}.
#[export] Instance can_laws : FifoLaws (D := can_dev).
Proof.
  refine {| view := dv_fifo; arrive := fun e d => with_fifo_view (receive e (dv_fifo d)) d |}; try done.
  intros d e q Hq. unfold reg_read, can_device, can_read, head_of. cbn [fst]. by rewrite Hq.
Defined.

(** The application keeps what the callback told it. *)
Abbreviation log := (list (status_t * Z)).
Definition remember (s : status_t * Z) (a : log) : log := a ++ [s].
Definition on_event {D} (s : status_t) (i : Z) : M (can_world D log) unit := modify (fun w => with_app (remember (s, i) (c_app w)) w).
Definition running_mcr : Z := Z.lor CAN_MCR_RFEN_MASK 63.
Definition can_idle : can_world can_dev log :=
  CanWorld (CanDev (FifoView [] false false 0 0 running_mcr 0) (fun _ => 0)) (no_handle true) (fun _ => Frame 0 0 kFLEXCAN_FrameTypeData kFLEXCAN_FrameFormatStandard 0 0 0 0) [].
Lemma can_ready : ready running_mcr 0 can_idle.
Proof. by split. Qed.
(** The [i]th frame: its number is its data. *)
Definition entry (i : Z) : rx_entry := Entry 0x2080000 (Z.shiftl 0x123 18) i (i + 100) 0.
(** Seven frames, the interrupt late every other time. *)
Definition until_seven : list fifo_event :=
  [Arrive (entry 1); Arrive (entry 2); Interrupt; Arrive (entry 3); Arrive (entry 4); Interrupt; Arrive (entry 5); Arrive (entry 6); Interrupt; Arrive (entry 7)].
Definition seven : list fifo_event := until_seven ++ [Interrupt].

Lemma flexcan_fifo_receives_witness : wp (s <- FLEXCAN_TransferReceiveFifoNonBlocking (transfer 1000 7) ;; happens on_event 9 seven ;; ret s)
  (fun s w => exists tl, c_app w = foldl (fun a s => remember s a) [] tl /\ idle_told tl = 1%nat /\ rxFifoState (c_handle w) = kFLEXCAN_StateIdle /\
     forall a, c_frames w a = frames_from 1000 (entry_frame <$> map entry [1; 2; 3; 4; 5; 6; 7]) (c_frames can_idle) a) can_idle.
Proof.
  assert (H := flexcan_fifo_receives on_event remember (fun _ _ _ => eq_refl) running_mcr 0 eq_refl eq_refl eq_refl eq_refl 1000 7 can_idle ltac:(lia) ltac:(lia)
    can_ready ltac:(lia) 9 ltac:(lia) seven ltac:(done) ltac:(cbn; lia)).
  eapply wp_mono; [exact H|]. intros s w (k & tl & _ & _ & _ & H1 & H2 & H3 & H4 & H5).
  assert (k = 7%nat) as -> by (apply H5; exists until_seven; split; [reflexivity|cbn; lia]).
  exists tl. split; [exact H2|]. split; [exact H3|]. split; [exact H4|exact H1].
Defined.

Lemma flexcan_fifo_never_ends_witness : wp (s <- FLEXCAN_TransferReceiveFifoNonBlocking (transfer 1000 5) ;; happens on_event 9 (seven ++ seven) ;; ret s)
  (fun s w => exists tl, s = kStatus_Success /\ rxFifoState (c_handle w) = kFLEXCAN_StateRxFifo /\ 5 <= rxFifoFrameNum (c_handle w) /\
     c_app w = foldl (fun a s => remember s a) [] tl /\ idle_told tl = 0%nat) can_idle.
Proof.
  exact (flexcan_fifo_never_ends on_event remember (fun _ _ _ => eq_refl) running_mcr 0 eq_refl eq_refl eq_refl eq_refl 1000 5 can_idle ltac:(lia) ltac:(lia)
    can_ready ltac:(lia) 9 ltac:(lia) (seven ++ seven) eq_refl).
Defined.

(** ** Bit timing *)

Lemma flexcan_timing_exact_witness : exists c, FLEXCAN_CalculateImprovedTimingValues InCTRL1 500000 80000000 no_timing = Ok (true, c) /\
  fits_registers InCTRL1 c /\ exact_rate 500000 80000000 c /\ samples_by 875 c /\
  forall c', fits_registers InCTRL1 c' -> exact_rate 500000 80000000 c' -> samples_by 875 c' -> after_sample c <= after_sample c'.
Proof.
  destruct (flexcan_timing_exact InCTRL1 500000 80000000 no_timing) as (found & c & H1 & _ & H3); [unfold MAX_CAN_BITRATE; lia|lia|].
  assert (Hf : found = true). { vm_compute in H1. by injection H1. } subst found. exists c. split; [exact H1|]. cbv iota in H3.
  destruct H3 as ((H3 & H4 & _) & _ & H5 & H6).
  split; [exact H3|]. split; [exact H4|]. split; [destruct H5 as [H5|[H5 _]]; [exact H5|discriminate H5]|].
  intros c' F1 F2. apply H6. split; [exact F1|]. split; [exact F2|discriminate].
Defined.
(** With the CBT register, 40 MHz and 1 kbit/s there is a timing that the
    register holds, which the search does not find: it stops at the largest
    divider of CTRL1. *)
Lemma flexcan_cbt_divider : FLEXCAN_CalculateImprovedTimingValues InCBT 1000 40000000 no_timing = Ok (false, no_timing) /\
  exists c, fits_registers InCBT c /\ exact_rate 1000 40000000 c /\ samples_by 875 c.
Proof.
  split; [by vm_compute|]. exists (Timing 399 0 24 24 48 0 0 0 0 0). unfold fits_registers, divider_max, segments_held, exact_rate, samples_by, quanta.
  destruct (limits InCBT) as [(_ & _ & ->) ->]. cbn [propSeg phaseSeg1 phaseSeg2 preDivider]. rewrite law_epropseg, law_epseg1, law_epseg2, law_epresdiv. lia.
Qed.

(** ** Configuration *)

(** The check of [FLEXCAN_Init] that a divider is large enough overflows: 50
    kbit/s in 84 quanta at 42 MHz needs a divider of 10 and is refused. *)
Lemma flexcan_init_refuses (d : can_dev) :
  let c := CanConfig 50000 false false 16 false true false false false false true false true (Timing 0 1 10 10 60 0 0 0 0 0) in
  FLEXCAN_Init (X := imx_features 64 InCBT) 1 c 42000000 d = Err AssertFailed /\ exact_rate 50000 42000000 (with_preDivider 9 (timingConfig c)).
Proof. by split. Qed.
(** With 128 buffers the [int8_t] index of [FLEXCAN_Reset] runs out of the
    array of masks. *)
Lemma reset_overruns k (d : can_dev) : (k <= 127)%nat -> reset_masks (X := imx_features 128 InCTRL1) (2 + k) (127 - Z.of_nat k) d = Err OutOfBounds.
Proof.
  revert d. induction k as [|k IH]; intros d Hk; [done|]. assert (E : forall n i, 0 <= i < 128 ->
    reset_masks (X := imx_features 128 InCTRL1) (S n) i d = reset_masks (X := imx_features 128 InCTRL1) n (u8 (i + 1 + 128) - 128) (reg_write (RXIMR i) 0x3FFFFFFF d)).
  { intros n i Hi. cbn [reset_masks]. change (@MESSAGE_BUFFER_MAX_NUMBER (imx_features 128 InCTRL1)) with 128.
    by rewrite (proj2 (Z.ltb_lt i 128)), (proj2 (Z.ltb_ge i 0)) by lia. }
  change (2 + S k)%nat with (S (2 + k)). rewrite E by lia. rewrite wrap_small by lia. replace (_ - 128) with (127 - Z.of_nat k) by lia. apply IH. lia.
Qed.
(** Of buffers 0 and 32 pending together, 32 is served first. *)
Lemma flexcan_lowest_not_first : find_mb 2 0 0 63 (fun i => 1) 0xFF = 32.
Proof. done. Qed.

(** ** Frames *)

(** A frame with three bytes of data; the receiving buffer holds other bytes
    behind them. *)
Definition sample : flexcan_frame := Frame 0 3 kFLEXCAN_FrameTypeData kFLEXCAN_FrameFormatStandard 0 (Z.shiftl 0x123 18) 0x01020304 0x05060708.
Definition sender : can_reg -> Z := fun r => match r with MCR => 63 | _ => 0 end.
Definition receiver : can_reg -> Z := fun r =>
  match r with MCR => 63 | MB_CS 9 => 0x2030000 + 777 | MB_ID 9 => Z.shiftl 0x123 18 | MB_WORD0 9 => 0x010203AA | MB_WORD1 9 => 0xBBCCDDEE | _ => 0 end.
Lemma flexcan_frame_carried_witness : wp (FLEXCAN_WriteTxMb 8 sample) (fun s d => s = kStatus_Success /\
  wp (FLEXCAN_ReadRxMb 9 sample) (fun r _ => r.1 = kStatus_Success /\ length r.2 = 3 /\ timestamp r.2 = 777 /\ data_byte r.2 2 = 3) receiver) sender.
Proof.
  assert (Hw : frame_wf sample) by by repeat split.
  assert (H := flexcan_frame_carried 8 9 sample sample sender receiver 777 (0xAA, 0xBBCCDDEE) false ltac:(by split) ltac:(done) ltac:(by split) Hw ltac:(lia)).
  eapply wp_mono; [exact H|]. intros s d (-> & Hd & H'). split; [done|]. eapply wp_mono; [apply H'; rewrite Hd; reflexivity|].
  intros r _ (-> & Hs & -> & _). rewrite (same_length _ _ Hs). repeat split. rewrite (same_data _ _ Hs) by (done || (cbn; lia)). reflexivity.
Defined.

(** Buffer 0 has an interrupt pending while the handler of buffers 16 to 31
    runs. *)
Definition one_pending : can_reg -> Z := fun r => match r with MCR => 63 | IMASK1 => 1 | IFLAG1 => 1 | _ => 0 end.
Lemma flexcan_mb_irq_never_returns_witness fuel :
  FLEXCAN_MbHandleIRQ fuel on_event 16 31 (CanWorld one_pending (no_handle true) (fun _ => sample) []) = Err OutOfFuel.
Proof.
  apply (flexcan_mb_irq_never_returns on_event remember (fun _ _ _ => eq_refl)); [lia|lia|done| |by left].
  intros i Hi. assert (i / 32 = 0) as -> by zlia. replace (i mod 32) with i by zlia. change (pending_flags _ 0) with (2 ^ 0). apply Z.pow2_bits_false. lia.
Defined.
