(* ===== verification/Enet.v ===== *)
(** * The Ethernet driver: descriptors and frames (drivers/enet)

    The MAC's DMA engine and the driver share rings of buffer descriptors in
    memory.  A receive descriptor belongs to the engine while its EMPTY bit is
    set, a transmit descriptor while its READY bit is set.  The handle keeps
    for each ring the next index to use, and, for transmission, how far the
    descriptors have been reclaimed and the contexts of the frames under way.

    The handle has one record per ring; the functions select one by [ringId],
    which is fixed here: the state is that of one ring.  A pointer to a
    descriptor is its index.  Cache maintenance calls are left out. *)

From stdpp Require Import base list numbers tactics.
From Stdlib Require Import ZArith Lia.
From S2P Require Import Prelude Bytes Mmio.

Open Scope Z_scope.
Open Scope prog_scope.

Inductive enet_reg :=
  | EIR | EIMR | ECR | RDAR | RDAR1 | RDAR2 | TDAR | TDAR1 | TDAR2 | RCR | MMFR | MSCR
  | PALR | PAUR | GAUR | GALR | ATCR | ATVR.
#[export] Instance enet_reg_eq_dec : EqDecision enet_reg.
Proof. solve_decision. Defined.

Definition ENET_BUFFDESCRIPTOR_RX_EMPTY_MASK : Z := 0x8000.
Definition ENET_BUFFDESCRIPTOR_RX_WRAP_MASK : Z := 0x2000.
Definition ENET_BUFFDESCRIPTOR_RX_LAST_MASK : Z := 0x0800.
Definition ENET_BUFFDESCRIPTOR_RX_MISS_MASK : Z := 0x0100.
Definition ENET_BUFFDESCRIPTOR_RX_LENVLIOLATE_MASK : Z := 0x0020.
Definition ENET_BUFFDESCRIPTOR_RX_NOOCTET_MASK : Z := 0x0010.
Definition ENET_BUFFDESCRIPTOR_RX_CRC_MASK : Z := 0x0004.
Definition ENET_BUFFDESCRIPTOR_RX_OVERRUN_MASK : Z := 0x0002.
Definition ENET_BUFFDESCRIPTOR_RX_TRUNC_MASK : Z := 0x0001.
Definition ENET_BUFFDESCRIPTOR_TX_READY_MASK : Z := 0x8000.
Definition ENET_BUFFDESCRIPTOR_TX_WRAP_MASK : Z := 0x2000.
Definition ENET_BUFFDESCRIPTOR_TX_LAST_MASK : Z := 0x0800.
Definition ENET_BUFFDESCRIPTOR_TX_TRANMITCRC_MASK : Z := 0x0400.
Definition ENET_BUFFDESCRIPTOR_RX_INTERRUPT_MASK : Z := 0x0080.
Definition ENET_BUFFDESCRIPTOR_RX_COLLISION_MASK : Z := 0x0200.
Definition ENET_BUFFDESCRIPTOR_RX_PHYERR_MASK : Z := 0x0400.
Definition ENET_BUFFDESCRIPTOR_RX_MACERR_MASK : Z := 0x8000.
Definition ENET_BUFFDESCRIPTOR_TX_ERR_MASK : Z := 0x8000.
Definition ENET_BUFFDESCRIPTOR_TX_UNDERFLOWERR_MASK : Z := 0x2000.
Definition ENET_BUFFDESCRIPTOR_TX_EXCCOLLISIONERR_MASK : Z := 0x1000.
Definition ENET_BUFFDESCRIPTOR_TX_LATECOLLISIONERR_MASK : Z := 0x0400.
Definition ENET_BUFFDESCRIPTOR_TX_OVERFLOWERR_MASK : Z := 0x0200.
Definition ENET_BUFFDESCRIPTOR_TX_INTERRUPT_MASK : Z := 0x4000.
Definition ENET_BUFFDESCRIPTOR_TX_TIMESTAMP_MASK : Z := 0x2000.
Definition ENET_BUFFDESCRIPTOR_TX_PROTOCHECKSUM_MASK : Z := 0x1000.
Definition ENET_BUFFDESCRIPTOR_TX_IPCHECKSUM_MASK : Z := 0x0800.
Definition ENET_BUFFDESCRIPTOR_TX_USETXLAUNCHTIME_MASK : Z := 0x0100.
Definition ENET_BD_FTYPE (n : Z) : Z := Z.land (u32 (Z.shiftl n 4)) 0x00F0.
Definition ENET_BUFFDESCRIPTOR_RX_ERR_MASK : Z :=
  Z.lor (Z.lor (Z.lor (Z.lor ENET_BUFFDESCRIPTOR_RX_TRUNC_MASK ENET_BUFFDESCRIPTOR_RX_OVERRUN_MASK)
    ENET_BUFFDESCRIPTOR_RX_LENVLIOLATE_MASK) ENET_BUFFDESCRIPTOR_RX_NOOCTET_MASK) ENET_BUFFDESCRIPTOR_RX_CRC_MASK.
Definition ENET_BUFFDESCRIPTOR_RX_EXT_ERR_MASK : Z :=
  Z.lor (Z.lor ENET_BUFFDESCRIPTOR_RX_MACERR_MASK ENET_BUFFDESCRIPTOR_RX_PHYERR_MASK) ENET_BUFFDESCRIPTOR_RX_COLLISION_MASK.
Definition ENET_FRAME_CRC_LEN : Z := 4.
Definition ENET_RX_MIN_BUFFERSIZE : Z := 256.

Definition kStatusGroup_ENET : Z := 40.
Definition kStatus_ENET_InitMemoryFail : status_t := MAKE_STATUS kStatusGroup_ENET 0.
Definition kStatus_ENET_RxFrameError : status_t := MAKE_STATUS kStatusGroup_ENET 1.
Definition kStatus_ENET_RxFrameFail : status_t := MAKE_STATUS kStatusGroup_ENET 2.
Definition kStatus_ENET_RxFrameEmpty : status_t := MAKE_STATUS kStatusGroup_ENET 3.
Definition kStatus_ENET_RxFrameDrop : status_t := MAKE_STATUS kStatusGroup_ENET 4.
Definition kStatus_ENET_TxFrameOverLen : status_t := MAKE_STATUS kStatusGroup_ENET 5.
Definition kStatus_ENET_TxFrameBusy : status_t := MAKE_STATUS kStatusGroup_ENET 6.
Definition kStatus_ENET_TxFrameFail : status_t := MAKE_STATUS kStatusGroup_ENET 7.

(** Fields of the device header; features; the platform's address mapping. *)
Class EnetFields := {
  ENET_RCR_MAX_FL_MASK : Z; ENET_RCR_MAX_FL_SHIFT : Z; ENET_RCR_PROM_MASK : Z;
  ENET_RDAR_RDAR_MASK : Z; ENET_ECR_ETHEREN_MASK : Z; ENET_EIR_MII_MASK : Z;
  ENET_ATCR_CAPTURE_MASK : Z; ENET_PAUR_PADDR2_MASK : Z; ENET_PAUR_PADDR2_SHIFT : Z;
  kENET_TxFrameInterrupt : Z; kENET_TxBufferInterrupt : Z; kENET_RxFrameInterrupt : Z; kENET_RxBufferInterrupt : Z;
  kENET_TsTimerInterrupt : Z; kENET_TsAvailInterrupt : Z; kENET_WakeupInterrupt : Z;
  ENET_errMask : Z;                       (** the error interrupts but the wakeup *)
  ENET_ECR_SLEEP_MAGIC_MASK : Z;          (** [ENET_ECR_SLEEP_MASK | ENET_ECR_MAGICEN_MASK] *)
  ENET_TxInterrupts : Z -> Z; ENET_RxInterrupts : Z -> Z;   (** those of a ring *)
  ENET_MMFR_write : Z -> Z -> Z -> Z; ENET_MMFR_read : Z -> Z -> Z; ENET_MMFR_DATA_MASK : Z; ENET_MMFR_DATA_SHIFT : Z
}.
Class EnetFeatures := {
  ENHANCEDBUFFERDESCRIPTOR_MODE : bool; HAS_AVB : bool; ENET_QUEUE : Z; HAS_ERRATA_007885 : bool;
  MDIO_TIMEOUT_COUNT : option Z;
  dma2local : Z -> Z; local2dma : Z -> Z
}.

(** ** Descriptors, rings, handle *)

(** The fields the driver uses. *)
Record enet_rx_bd := RxBd { rx_length : Z; rx_control : Z; rx_buffer : Z; rx_controlExtend1 : Z; rx_timestamp : Z }.
Record enet_tx_bd := TxBd {
  tx_length : Z; tx_control : Z; tx_buffer : Z; tx_controlExtend0 : Z; tx_controlExtend1 : Z;
  tx_launchLow : Z; tx_launchHigh : Z; tx_timestamp : Z
}.
Definition set_rx_length x d := RxBd x (rx_control d) (rx_buffer d) (rx_controlExtend1 d) (rx_timestamp d).
Definition set_rx_control x d := RxBd (rx_length d) x (rx_buffer d) (rx_controlExtend1 d) (rx_timestamp d).
Definition set_rx_buffer x d := RxBd (rx_length d) (rx_control d) x (rx_controlExtend1 d) (rx_timestamp d).
Definition set_rx_controlExtend1 x d := RxBd (rx_length d) (rx_control d) (rx_buffer d) x (rx_timestamp d).
Definition set_tx_length x d := TxBd x (tx_control d) (tx_buffer d) (tx_controlExtend0 d) (tx_controlExtend1 d) (tx_launchLow d) (tx_launchHigh d) (tx_timestamp d).
Definition set_tx_control x d := TxBd (tx_length d) x (tx_buffer d) (tx_controlExtend0 d) (tx_controlExtend1 d) (tx_launchLow d) (tx_launchHigh d) (tx_timestamp d).
Definition set_tx_buffer x d := TxBd (tx_length d) (tx_control d) x (tx_controlExtend0 d) (tx_controlExtend1 d) (tx_launchLow d) (tx_launchHigh d) (tx_timestamp d).
Definition set_tx_controlExtend1 x d := TxBd (tx_length d) (tx_control d) (tx_buffer d) (tx_controlExtend0 d) x (tx_launchLow d) (tx_launchHigh d) (tx_timestamp d).
Definition set_tx_launch x y d := TxBd (tx_length d) (tx_control d) (tx_buffer d) (tx_controlExtend0 d) (tx_controlExtend1 d) x y (tx_timestamp d).

Record enet_frame_info := FrameInfo { fi_context : Z; isTsAvail : bool; ts_second : Z; ts_nanosecond : Z }.
Record enet_rx_ring := RxRing { rxBd : list enet_rx_bd; rxGenIdx : Z; rxRingLen : Z; rxBuffSizeAlign : Z }.
Record enet_tx_ring := TxRing {
  txBd : list enet_tx_bd; txGenIdx : Z; txConsumIdx : Z; txDescUsed : Z; txRingLen : Z; txBuffSizeAlign : Z
}.
Record enet_dirty_ring := DirtyRing { txDirty : list enet_frame_info; dGenIdx : Z; dConsumIdx : Z; dRingLen : Z; isFull : bool }.
Record enet_handle := Handle {
  h_rx : enet_rx_ring; h_tx : enet_tx_ring; h_dirty : enet_dirty_ring; txReclaimEnable : bool;
  txBdDirtyStatic : Z; msTimerSecond : Z; multicastCount : list Z;
  zeroCopy : bool;       (** [rxBuffAlloc] and [rxBuffFree] are not null *)
  hasCallback : bool     (** [callback] is not null *)
}.

Definition set_rx r h := Handle r (h_tx h) (h_dirty h) (txReclaimEnable h) (txBdDirtyStatic h) (msTimerSecond h) (multicastCount h) (zeroCopy h) (hasCallback h).
Definition set_tx r h := Handle (h_rx h) r (h_dirty h) (txReclaimEnable h) (txBdDirtyStatic h) (msTimerSecond h) (multicastCount h) (zeroCopy h) (hasCallback h).
Definition set_dirty r h := Handle (h_rx h) (h_tx h) r (txReclaimEnable h) (txBdDirtyStatic h) (msTimerSecond h) (multicastCount h) (zeroCopy h) (hasCallback h).
Definition set_reclaim b h := Handle (h_rx h) (h_tx h) (h_dirty h) b (txBdDirtyStatic h) (msTimerSecond h) (multicastCount h) (zeroCopy h) (hasCallback h).
Definition set_dirty_static x h := Handle (h_rx h) (h_tx h) (h_dirty h) (txReclaimEnable h) x (msTimerSecond h) (multicastCount h) (zeroCopy h) (hasCallback h).
Definition set_second x h := Handle (h_rx h) (h_tx h) (h_dirty h) (txReclaimEnable h) (txBdDirtyStatic h) x (multicastCount h) (zeroCopy h) (hasCallback h).
Definition set_multicast x h := Handle (h_rx h) (h_tx h) (h_dirty h) (txReclaimEnable h) (txBdDirtyStatic h) (msTimerSecond h) x (zeroCopy h) (hasCallback h).
Definition set_rx_gen x r := RxRing (rxBd r) x (rxRingLen r) (rxBuffSizeAlign r).
Definition set_rx_bds x r := RxRing x (rxGenIdx r) (rxRingLen r) (rxBuffSizeAlign r).
Definition set_tx_bds x r := TxRing x (txGenIdx r) (txConsumIdx r) (txDescUsed r) (txRingLen r) (txBuffSizeAlign r).
Definition set_tx_gen x r := TxRing (txBd r) x (txConsumIdx r) (txDescUsed r) (txRingLen r) (txBuffSizeAlign r).
Definition set_tx_consum x r := TxRing (txBd r) (txGenIdx r) x (txDescUsed r) (txRingLen r) (txBuffSizeAlign r).
Definition set_tx_used x r := TxRing (txBd r) (txGenIdx r) (txConsumIdx r) x (txRingLen r) (txBuffSizeAlign r).
Definition set_infos x r := DirtyRing x (dGenIdx r) (dConsumIdx r) (dRingLen r) (isFull r).
Definition set_d_gen x r := DirtyRing (txDirty r) x (dConsumIdx r) (dRingLen r) (isFull r).
Definition set_d_consum x r := DirtyRing (txDirty r) (dGenIdx r) x (dRingLen r) (isFull r).
Definition set_full x r := DirtyRing (txDirty r) (dGenIdx r) (dConsumIdx r) (dRingLen r) x.

Record enet_buffer_struct := BufferStruct { bs_buffer : Z; bs_length : Z }.
Record enet_tx_config_struct := TxConfig {
  intEnable : bool; tsEnable : bool; autoProtocolChecksum : bool; autoIPChecksum : bool; AVBFrameType : Z;
  tltEnable : bool; tltLow : Z; tltHigh : Z
}.
Record enet_tx_frame_struct := TxFrame { txBuffArray : list enet_buffer_struct; txConfig : enet_tx_config_struct; tf_context : Z }.
Record enet_rx_frame_struct := RxFrame {
  rxBuffArray : list enet_buffer_struct; totLen : Z; promiscuous : bool; rf_timestamp : Z; rxFrameError : Z
}.
Definition set_buff_array x f := RxFrame x (totLen f) (promiscuous f) (rf_timestamp f) (rxFrameError f).
Definition set_totLen x f := RxFrame (rxBuffArray f) x (promiscuous f) (rf_timestamp f) (rxFrameError f).
Definition set_promiscuous x f := RxFrame (rxBuffArray f) (totLen f) x (rf_timestamp f) (rxFrameError f).
Definition set_timestamp x f := RxFrame (rxBuffArray f) (totLen f) (promiscuous f) x (rxFrameError f).
Definition set_frameError x f := RxFrame (rxBuffArray f) (totLen f) (promiscuous f) (rf_timestamp f) x.

Inductive enet_event := kENET_RxEvent | kENET_TxEvent | kENET_ErrEvent | kENET_WakeUpEvent | kENET_TimeStampEvent | kENET_TimeStampAvailEvent.

(** [A] is the state of the application: its pool of buffers, its records. *)
Record enet_world (D A : Type) := EnetWorld { e_hw : D; e_h : enet_handle; e_mem : Z -> Z; e_app : A }.
Arguments EnetWorld {D A}. Arguments e_hw {D A}. Arguments e_h {D A}. Arguments e_mem {D A}. Arguments e_app {D A}.
