(* ===== verification/EnetFrames.v ===== *)
(** * Sending and receiving frames (drivers/enet)

    The initialisation of the rings, the copying interface ([ENET_SendFrame],
    [ENET_GetRxFrameSize], [ENET_ReadFrame]), the zero-copy interface
    ([ENET_StartTxFrame], [ENET_GetRxFrame]) and the reclaiming of transmit
    descriptors, each as the code has it. *)

From stdpp Require Import base list numbers tactics.
From Stdlib Require Import ZArith Lia.
From S2P Require Import Prelude Bytes Mmio Enet.

Open Scope Z_scope.
Open Scope prog_scope.

Definition ENET_IncreaseIndex (index max : Z) : outcome Z :=
  if index <? max then let index := u16 (index + 1) in Ok (if max <=? index then 0 else index) else Err AssertFailed.

Definition ENET_TxDirtyRingAvailable (r : enet_dirty_ring) : bool := negb (isFull r).

Section Driver.
Context {D A : Type} `{!Device enet_reg D} {F : EnetFields} {X : EnetFeatures}.
Abbreviation W := (enet_world D A).
(** The ring, and the functions of the application. *)
Context (ringId : Z) (rxBuffAlloc : M A Z) (rxBuffFree : Z -> M A unit)
  (callback : enet_event -> option enet_frame_info -> M W unit).

(** ** The state *)

Definition on_enet {B} (m : M D B) : M W B :=
  fun w => match m (e_hw w) with Ok (b, d) => Ok (b, EnetWorld d (e_h w) (e_mem w) (e_app w)) | Err e => Err e end.
Definition on_app {B} (m : M A B) : M W B :=
  fun w => match m (e_app w) with Ok (b, a) => Ok (b, EnetWorld (e_hw w) (e_h w) (e_mem w) a) | Err e => Err e end.
Definition hand {B} (f : enet_handle -> B) : M W B := gets (fun w => f (e_h w)).
Definition upd_h (f : enet_handle -> enet_handle) : M W unit :=
  modify (fun w => EnetWorld (e_hw w) (f (e_h w)) (e_mem w) (e_app w)).
Definition upd_rx (f : enet_rx_ring -> enet_rx_ring) : M W unit := upd_h (fun h => set_rx (f (h_rx h)) h).
Definition upd_tx (f : enet_tx_ring -> enet_tx_ring) : M W unit := upd_h (fun h => set_tx (f (h_tx h)) h).
Definition upd_dirty (f : enet_dirty_ring -> enet_dirty_ring) : M W unit := upd_h (fun h => set_dirty (f (h_dirty h)) h).
(** [memcpy] between two places in memory. *)
Definition copy (dst src n : Z) : M W unit :=
  modify (fun w => EnetWorld (e_hw w) (e_h w) (mem_write dst (bytes_at (e_mem w) src n) (e_mem w)) (e_app w)).

(** A descriptor, and a store to one of its fields. *)
Definition rx_desc (i : Z) : M W enet_rx_bd := l <- hand (fun h => rxBd (h_rx h)) ;; lift (aget l i).
Definition rx_put (i : Z) (f : enet_rx_bd -> enet_rx_bd) : M W unit :=
  l <- hand (fun h => rxBd (h_rx h)) ;; d <- lift (aget l i) ;; l <- lift (aset l i (f d)) ;; upd_rx (set_rx_bds l).
Definition tx_desc (i : Z) : M W enet_tx_bd := l <- hand (fun h => txBd (h_tx h)) ;; lift (aget l i).
Definition tx_put (i : Z) (f : enet_tx_bd -> enet_tx_bd) : M W unit :=
  l <- hand (fun h => txBd (h_tx h)) ;; d <- lift (aget l i) ;; l <- lift (aset l i (f d)) ;; upd_tx (set_tx_bds l).

(** [control |= m] and [control &= m] *)
Definition or_rx_control (m : Z) (d : enet_rx_bd) : enet_rx_bd := set_rx_control (Z.lor (rx_control d) m) d.
Definition and_rx_control (m : Z) (d : enet_rx_bd) : enet_rx_bd := set_rx_control (Z.land (rx_control d) m) d.
Definition or_tx_control (m : Z) (d : enet_tx_bd) : enet_tx_bd := set_tx_control (Z.lor (tx_control d) m) d.

Definition ENET_FRAME_TX_LEN_LIMITATION : M D Z :=
  x <- rd RCR ;; ret (u32 (Z.shiftr (Z.land x ENET_RCR_MAX_FL_MASK) ENET_RCR_MAX_FL_SHIFT - ENET_FRAME_CRC_LEN)).

Definition ENET_ActiveReadRing : M D unit :=
  assert_ (ringId <? ENET_QUEUE) ;;
  if ringId =? 0 then wr RDAR ENET_RDAR_RDAR_MASK
  else if (1 <? ENET_QUEUE) && (ringId =? 1) then wr RDAR1 ENET_RDAR_RDAR_MASK
  else if (1 <? ENET_QUEUE) && (ringId =? 2) then wr RDAR2 ENET_RDAR_RDAR_MASK
  else throw AssertFailed.

(** The erratum's delay: up to four reads. *)
Fixpoint read_until_zero (n : nat) (r : enet_reg) : M D unit :=
  match n with O => ret tt | S n => x <- rd r ;; if x =? 0 then ret tt else read_until_zero n r end.

Definition ENET_ActiveSendRing : M D unit :=
  assert_ (ringId <? ENET_QUEUE) ;;
  let r := if (1 <? ENET_QUEUE) && (ringId =? 1) then TDAR1
           else if (1 <? ENET_QUEUE) && (ringId =? 2) then TDAR2 else TDAR in
  when HAS_ERRATA_007885 (read_until_zero 4 r) ;;
  wr r 0.

(** ** Initialisation *)

(** The transmit descriptors of a ring; [buffer] is 0 for none. *)
Fixpoint tx_init_loop (n : nat) (count txBuffer : Z) (hasBuffer : bool) : M W unit :=
  match n with
  | O => throw OutOfFuel
  | S n =>
      t <- hand h_tx ;;
      if negb (count <? txRingLen t) then ret tt else
      when hasBuffer (tx_put count (set_tx_buffer (u32 (txBuffer + count * txBuffSizeAlign t)))) ;;
      tx_put count (set_tx_length 0) ;;
      tx_put count (set_tx_control ENET_BUFFDESCRIPTOR_TX_TRANMITCRC_MASK) ;;
      when (count =? txRingLen t - 1) (tx_put count (or_tx_control ENET_BUFFDESCRIPTOR_TX_WRAP_MASK)) ;;
      when ENHANCEDBUFFERDESCRIPTOR_MODE (
        tx_put count (fun d => set_tx_controlExtend1 (Z.lor (tx_controlExtend1 d) ENET_BUFFDESCRIPTOR_TX_INTERRUPT_MASK) d) ;;
        when HAS_AVB (tx_put count (fun d => set_tx_controlExtend1 (Z.lor (tx_controlExtend1 d) (u16 (ENET_BD_FTYPE ringId))) d))) ;;
      tx_init_loop n (u16 (count + 1)) txBuffer hasBuffer
  end.

Definition ENET_SetTxBufferDescriptors (txBufferAlign : Z) : M W unit :=
  t <- hand h_tx ;;
  let hasBuffer := negb (txBufferAlign =? 0) in
  when hasBuffer (assert_ (local2dma txBufferAlign + txRingLen t * txBuffSizeAlign t - 1 <=? UINT32_MAX)) ;;
  tx_init_loop (S (Z.to_nat (txRingLen t))) 0 (local2dma txBufferAlign) hasBuffer.

(** [rxInterrupt]: whether the configuration enables a receive interrupt of
    this ring. *)
Fixpoint rx_init_loop (n : nat) (count rxBufferAlign : Z) (rxInterrupt : bool) : M W status_t :=
  match n with
  | O => throw OutOfFuel
  | S n =>
      r <- hand h_rx ;;
      if negb (count <? rxRingLen r) then ret kStatus_Success else
      z <- hand zeroCopy ;;
      rxBuffer <- (if negb z then ret (u32 (rxBufferAlign + count * rxBuffSizeAlign r)) else on_app rxBuffAlloc) ;;
      if z && (rxBuffer =? 0) then ret kStatus_ENET_InitMemoryFail else
      assert_ (rxBuffer + rxBuffSizeAlign r - 1 <=? UINT32_MAX) ;;
      rx_put count (set_rx_buffer (u32 (local2dma rxBuffer))) ;;
      rx_put count (set_rx_length 0) ;;
      rx_put count (set_rx_control ENET_BUFFDESCRIPTOR_RX_EMPTY_MASK) ;;
      when (count =? rxRingLen r - 1) (rx_put count (or_rx_control ENET_BUFFDESCRIPTOR_RX_WRAP_MASK)) ;;
      when ENHANCEDBUFFERDESCRIPTOR_MODE (
        rx_put count (fun d => set_rx_controlExtend1
          (if rxInterrupt then Z.lor (rx_controlExtend1 d) ENET_BUFFDESCRIPTOR_RX_INTERRUPT_MASK else 0) d)) ;;
      rx_init_loop n (u16 (count + 1)) rxBufferAlign rxInterrupt
  end.

Definition ENET_SetRxBufferDescriptors (rxBufferAlign : Z) (rxInterrupt : bool) : M W status_t :=
  r <- hand h_rx ;;
  assert_ (ENET_RX_MIN_BUFFERSIZE <=? rxBuffSizeAlign r) ;;
  z <- hand zeroCopy ;;
  if negb (rxBufferAlign =? 0) || z then rx_init_loop (S (Z.to_nat (rxRingLen r))) 0 rxBufferAlign rxInterrupt
  else ret kStatus_Success.

Fixpoint rx_free_loop (n : nat) (index : Z) : M W unit :=
  match n with
  | O => throw OutOfFuel
  | S n =>
      d <- rx_desc index ;;
      when (negb (rx_buffer d =? 0)) (
        on_app (rxBuffFree (dma2local (rx_buffer d))) ;;
        rx_put index (set_rx_buffer 0) ;;
        rx_put index (and_rx_control ENET_BUFFDESCRIPTOR_RX_WRAP_MASK)) ;;
      len <- hand (fun h => rxRingLen (h_rx h)) ;;
      index <- lift (ENET_IncreaseIndex index len) ;;
      if negb (index =? 0) then rx_free_loop n index else ret tt
  end.

Definition ENET_RxBufferFreeAll : M W unit :=
  z <- hand zeroCopy ;;
  assert_ z ;;
  len <- hand (fun h => rxRingLen (h_rx h)) ;;
  rx_free_loop (S (Z.to_nat len)) 0.

(** ** Receiving *)

Definition ENET_GetRxErrBeforeReadFrame_at (i : Z) (stats : list Z) : M W (list Z) :=
  d <- rx_desc i ;;
  let c := rx_control d in
  let e := rx_controlExtend1 d in
  let bump (b : bool) (x : Z) := if b then u32 (x + 1) else x in
  ret (match stats with
  | [trunc; overrun; lenGreater; align; fcs; mac; phy; collision] =>
      [bump (has c ENET_BUFFDESCRIPTOR_RX_TRUNC_MASK) trunc; bump (has c ENET_BUFFDESCRIPTOR_RX_OVERRUN_MASK) overrun;
       bump (has c ENET_BUFFDESCRIPTOR_RX_LENVLIOLATE_MASK) lenGreater; bump (has c ENET_BUFFDESCRIPTOR_RX_NOOCTET_MASK) align;
       bump (has c ENET_BUFFDESCRIPTOR_RX_CRC_MASK) fcs;
       bump (ENHANCEDBUFFERDESCRIPTOR_MODE && has e ENET_BUFFDESCRIPTOR_RX_MACERR_MASK) mac;
       bump (ENHANCEDBUFFERDESCRIPTOR_MODE && has e ENET_BUFFDESCRIPTOR_RX_PHYERR_MASK) phy;
       bump (ENHANCEDBUFFERDESCRIPTOR_MODE && has e ENET_BUFFDESCRIPTOR_RX_COLLISION_MASK) collision]
  | _ => stats
  end).

(** The next descriptor by the WRAP bit, not by the ring's length. *)
Fixpoint rx_err_loop (n : nat) (cur cmp : Z) (stats : list Z) : M W (list Z) :=
  match n with
  | O => throw OutOfFuel
  | S n =>
      d <- rx_desc cur ;;
      if has (rx_control d) ENET_BUFFDESCRIPTOR_RX_LAST_MASK then ENET_GetRxErrBeforeReadFrame_at cur stats else
      let cur := if has (rx_control d) ENET_BUFFDESCRIPTOR_RX_WRAP_MASK then 0 else cur + 1 in
      if negb (cur =? cmp) then rx_err_loop n cur cmp stats else ret stats
  end.

Definition ENET_GetRxErrBeforeReadFrame (stats : list Z) : M W (list Z) :=
  assert_ (ringId <? ENET_QUEUE) ;;
  r <- hand h_rx ;;
  rx_err_loop (S (length (rxBd r))) (rxGenIdx r) (rxGenIdx r) stats.

Fixpoint rx_size_loop (n : nat) (index : Z) : M W (status_t * Z) :=
  match n with
  | O => throw OutOfFuel
  | S n =>
      d <- rx_desc index ;;
      if rx_length d =? 0 then ret (kStatus_ENET_RxFrameError, 0) else
      if Z.land (rx_control d) (Z.lor ENET_BUFFDESCRIPTOR_RX_LAST_MASK ENET_BUFFDESCRIPTOR_RX_EMPTY_MASK)
           =? ENET_BUFFDESCRIPTOR_RX_LAST_MASK then
        if has (rx_control d) ENET_BUFFDESCRIPTOR_RX_ERR_MASK then ret (kStatus_ENET_RxFrameError, 0)
        else if ENHANCEDBUFFERDESCRIPTOR_MODE && has (rx_controlExtend1 d) ENET_BUFFDESCRIPTOR_RX_EXT_ERR_MASK
        then ret (kStatus_ENET_RxFrameError, 0)
        else ret (kStatus_Success, rx_length d)
      else
      r <- hand h_rx ;;
      index <- lift (ENET_IncreaseIndex index (rxRingLen r)) ;;
      if negb (index =? rxGenIdx r) then rx_size_loop n index else ret (kStatus_ENET_RxFrameEmpty, 0)
  end.

(** The status and [*length]. *)
Definition ENET_GetRxFrameSize : M W (status_t * Z) :=
  assert_ (ringId <? ENET_QUEUE) ;;
  r <- hand h_rx ;;
  d <- rx_desc (rxGenIdx r) ;;
  if has (rx_control d) ENET_BUFFDESCRIPTOR_RX_EMPTY_MASK then ret (kStatus_ENET_RxFrameEmpty, 0)
  else rx_size_loop (S (Z.to_nat (rxRingLen r))) (rxGenIdx r).

(** Gives the current descriptor back to the engine and goes to the next. *)
Definition rearm : M W unit :=
  r <- hand h_rx ;;
  rx_put (rxGenIdx r) (and_rx_control ENET_BUFFDESCRIPTOR_RX_WRAP_MASK) ;;
  rx_put (rxGenIdx r) (or_rx_control ENET_BUFFDESCRIPTOR_RX_EMPTY_MASK) ;;
  r <- hand h_rx ;;
  i <- lift (ENET_IncreaseIndex (rxGenIdx r) (rxRingLen r)) ;;
  upd_rx (set_rx_gen i).

Definition ENET_UpdateReadBuffers : M W unit :=
  assert_ (ringId <? ENET_QUEUE) ;;
  rearm ;;
  on_enet ENET_ActiveReadRing.

Fixpoint read_skip_loop (n : nat) (index : Z) : M W unit :=
  match n with
  | O => throw OutOfFuel
  | S n =>
      r <- hand h_rx ;;
      d <- rx_desc (rxGenIdx r) ;;
      ENET_UpdateReadBuffers ;;
      if has (rx_control d) ENET_BUFFDESCRIPTOR_RX_LAST_MASK then ret tt else
      r <- hand h_rx ;;
      if negb (index =? rxGenIdx r) then read_skip_loop n index else ret tt
  end.

(** [ts]: what the time stamp pointer, when not null, finally points to. *)
Fixpoint read_copy_loop (n : nat) (data length offset : Z) (ts : option Z) : M W (status_t * option Z) :=
  match n with
  | O => throw OutOfFuel
  | S n =>
      r <- hand h_rx ;;
      d <- rx_desc (rxGenIdx r) ;;
      let address := dma2local (rx_buffer d) in
      let dest := data + offset in
      if has (rx_control d) ENET_BUFFDESCRIPTOR_RX_LAST_MASK then
        if length =? rx_length d then
          copy dest address (u32 (rx_length d - offset)) ;;
          let ts := match ts with
            | Some t => Some (if ENHANCEDBUFFERDESCRIPTOR_MODE then rx_timestamp d else t) | None => None end in
          ENET_UpdateReadBuffers ;;
          ret (kStatus_Success, ts)
        else ENET_UpdateReadBuffers ;; ret (kStatus_Success, ts)
      else if length <=? offset then ret (kStatus_ENET_RxFrameFail, ts)
      else
        copy dest address (rxBuffSizeAlign r) ;;
        ENET_UpdateReadBuffers ;;
        read_copy_loop n data length (u32 (offset + rxBuffSizeAlign r)) ts
  end.

(** The rounds: one per descriptor of the frame; when no descriptor is the
    last of a frame the offset reaches the length first. *)
Definition ENET_ReadFrame (data length : Z) (ts : option Z) : M W (status_t * option Z) :=
  assert_ (ringId <? ENET_QUEUE) ;;
  r <- hand h_rx ;;
  if data =? 0 then read_skip_loop (S (Z.to_nat (rxRingLen r))) (rxGenIdx r) ;; ret (kStatus_Success, ts)
  else read_copy_loop (S (S (Z.to_nat length))) data length 0 ts.

Definition ENET_GetRxFrameErr (d : enet_rx_bd) : status_t * Z :=
  let result := if has (rx_control d) ENET_BUFFDESCRIPTOR_RX_ERR_MASK then kStatus_ENET_RxFrameError
    else if ENHANCEDBUFFERDESCRIPTOR_MODE && has (rx_controlExtend1 d) ENET_BUFFDESCRIPTOR_RX_EXT_ERR_MASK
    then kStatus_ENET_RxFrameError else kStatus_Success in
  (result, if negb (result =? kStatus_Success)
           then Z.lor (rx_control d) (if ENHANCEDBUFFERDESCRIPTOR_MODE then u32 (Z.shiftl (rx_controlExtend1 d) 16) else 0)
           else 0).

(** Looks for the end of the frame: the status, and the frame with its error
    word. *)
Fixpoint rx_find_last (n : nat) (index : Z) (f : enet_rx_frame_struct) : M W (status_t * enet_rx_frame_struct) :=
  match n with
  | O => throw OutOfFuel
  | S n =>
      d <- rx_desc index ;;
      if has (rx_control d) ENET_BUFFDESCRIPTOR_RX_EMPTY_MASK then ret (kStatus_ENET_RxFrameEmpty, f) else
      if has (rx_control d) ENET_BUFFDESCRIPTOR_RX_LAST_MASK then
        let '(result, e) := ENET_GetRxFrameErr d in ret (result, set_frameError e f)
      else if rx_length d =? 0 then
        rx_put index (or_rx_control ENET_BUFFDESCRIPTOR_RX_LAST_MASK) ;; ret (kStatus_ENET_RxFrameError, f)
      else
      r <- hand h_rx ;;
      index <- lift (ENET_IncreaseIndex index (rxRingLen r)) ;;
      if index =? rxGenIdx r then ret (kStatus_ENET_RxFrameEmpty, f) else rx_find_last n index f
  end.

(** Drops the descriptors up to the end of the frame. *)
Fixpoint rx_drop_loop (n : nat) : M W unit :=
  match n with
  | O => throw OutOfFuel
  | S n =>
      r <- hand h_rx ;;
      d <- rx_desc (rxGenIdx r) ;;
      rearm ;;
      if has (rx_control d) ENET_BUFFDESCRIPTOR_RX_LAST_MASK then ret tt else rx_drop_loop n
  end.

(** [while (index-- != 0U) rxBuffFree(rxBuffArray[index].buffer)] *)
Fixpoint free_parts (index : nat) (f : enet_rx_frame_struct) : M W unit :=
  match index with
  | O => ret tt
  | S index => b <- lift (aget (rxBuffArray f) (Z.of_nat index)) ;; on_app (rxBuffFree (bs_buffer b)) ;; free_parts index f
  end.

Fixpoint rx_take_loop (n : nat) (index : nat) (buffLen : Z) (f : enet_rx_frame_struct) : M W (status_t * enet_rx_frame_struct) :=
  match n with
  | O => throw OutOfFuel
  | S n =>
      newBuff <- on_app rxBuffAlloc ;;
      r <- hand h_rx ;;
      if negb (newBuff =? 0) then
        assert_ (newBuff + rxBuffSizeAlign r - 1 <=? UINT32_MAX) ;;
        d <- rx_desc (rxGenIdx r) ;;
        let address := dma2local (rx_buffer d) in
        let last := has (rx_control d) ENET_BUFFDESCRIPTOR_RX_LAST_MASK in
        let len := if last then u16 (rx_length d - buffLen) else rx_length d in
        l <- lift (aset (rxBuffArray f) (Z.of_nat index) (BufferStruct address len)) ;;
        let f := set_buff_array l f in
        f <- (if last then
            rcr <- on_enet (rd RCR) ;;
            let f := set_promiscuous (has rcr ENET_RCR_PROM_MASK && has (rx_control d) ENET_BUFFDESCRIPTOR_RX_MISS_MASK)
              (set_totLen (rx_length d) f) in
            ret (if ENHANCEDBUFFERDESCRIPTOR_MODE then set_timestamp (rx_timestamp d) f else f)
          else ret f) ;;
        let buffLen := if last then buffLen else u16 (buffLen + len) in
        rx_put (rxGenIdx r) (set_rx_buffer (u32 (local2dma newBuff))) ;;
        rearm ;;
        if last then ret (kStatus_Success, f) else rx_take_loop n (S index) buffLen f
      else
        free_parts index f ;;
        rx_drop_loop (S (Z.to_nat (rxRingLen r))) ;;
        ret (kStatus_ENET_RxFrameDrop, f)
  end.

Definition ENET_GetRxFrame (f : enet_rx_frame_struct) : M W (status_t * enet_rx_frame_struct) :=
  assert_ (ringId <? ENET_QUEUE) ;;
  r <- hand h_rx ;;
  res <- rx_find_last (S (Z.to_nat (rxRingLen r))) (rxGenIdx r) f ;;
  let '(result, f) := res : status_t * enet_rx_frame_struct in
  if result =? kStatus_ENET_RxFrameError then
    rx_drop_loop (S (Z.to_nat (rxRingLen r))) ;;
    on_enet ENET_ActiveReadRing ;;
    ret (result, f)
  else if negb (result =? kStatus_Success) then ret (result, f)
  else
    z <- hand zeroCopy ;;
    if negb z then throw NullCall else
    res <- rx_take_loop (S (Z.to_nat (rxRingLen r))) 0 0 f ;;
    on_enet ENET_ActiveReadRing ;;
    ret res.

(** ** Sending *)

Definition set_timestamp_flag (tsFlag : bool) (i : Z) : M W unit :=
  when ENHANCEDBUFFERDESCRIPTOR_MODE (
    tx_put i (fun d => set_tx_controlExtend1
      (if tsFlag then Z.lor (tx_controlExtend1 d) ENET_BUFFDESCRIPTOR_TX_TIMESTAMP_MASK
       else bic 16 (tx_controlExtend1 d) ENET_BUFFDESCRIPTOR_TX_TIMESTAMP_MASK) d)).

(** [txGenIdx = ENET_IncreaseIndex(txGenIdx, txRingLen)] *)
Definition next_tx : M W unit :=
  t <- hand h_tx ;; i <- lift (ENET_IncreaseIndex (txGenIdx t) (txRingLen t)) ;; upd_tx (set_tx_gen i).

(** The frame's context goes to the ring of frame information. *)
Definition add_context (context : Z) : M W unit :=
  r <- hand h_dirty ;;
  i <- lift (aget (txDirty r) (dGenIdx r)) ;;
  l <- lift (aset (txDirty r) (dGenIdx r) (FrameInfo context (isTsAvail i) (ts_second i) (ts_nanosecond i))) ;;
  upd_dirty (set_infos l) ;;
  g <- lift (ENET_IncreaseIndex (dGenIdx r) (dRingLen r)) ;;
  upd_dirty (set_d_gen g) ;;
  when (g =? dConsumIdx r) (upd_dirty (set_full true)).

Definition use_desc : M W unit := upd_tx (fun t => set_tx_used (u16 (txDescUsed t + 1)) t).

(** A part of a frame that is not its last. *)
Definition not_last (d : enet_tx_bd) : enet_tx_bd :=
  set_tx_control (u16 (Z.lor (bic 32 (tx_control d) ENET_BUFFDESCRIPTOR_TX_LAST_MASK) ENET_BUFFDESCRIPTOR_TX_READY_MASK)) d.
Definition ready_last : Z := Z.lor ENET_BUFFDESCRIPTOR_TX_READY_MASK ENET_BUFFDESCRIPTOR_TX_LAST_MASK.

Fixpoint send_parts (n : nat) (cur data length len : Z) (tsFlag : bool) (context : Z) : M W status_t :=
  match n with
  | O => throw OutOfFuel
  | S n =>
      set_timestamp_flag tsFlag cur ;;
      let sizeleft := u32 (length - len) in
      d <- tx_desc cur ;;
      let address := dma2local (tx_buffer d) in
      let src := data + len in
      next_tx ;;
      t <- hand h_tx ;;
      reclaim <- hand txReclaimEnable ;;
      if txBuffSizeAlign t <? sizeleft then
        copy address src (txBuffSizeAlign t) ;;
        tx_put cur (set_tx_length (txBuffSizeAlign t)) ;;
        tx_put cur not_last ;;
        when (reclaim : bool) use_desc ;;
        on_enet ENET_ActiveSendRing ;;
        d <- tx_desc (txGenIdx t) ;;
        if has (tx_control d) ENET_BUFFDESCRIPTOR_TX_READY_MASK then ret kStatus_ENET_TxFrameBusy
        else send_parts n (txGenIdx t) data length (u32 (len + txBuffSizeAlign t)) tsFlag context
      else
        copy address src sizeleft ;;
        tx_put cur (set_tx_length (u16 sizeleft)) ;;
        tx_put cur (or_tx_control ready_last) ;;
        when (reclaim : bool) (add_context context ;; use_desc) ;;
        on_enet ENET_ActiveSendRing ;;
        ret kStatus_Success
  end.

(** Every round makes one more descriptor of the ring busy. *)
Definition ENET_SendFrame (data length : Z) (tsFlag : bool) (context : Z) : M W status_t :=
  assert_ (negb (data =? 0)) ;;
  assert_ (ringId <? ENET_QUEUE) ;;
  limit <- on_enet ENET_FRAME_TX_LEN_LIMITATION ;;
  if limit <? length then ret kStatus_ENET_TxFrameOverLen else
  t <- hand h_tx ;;
  d <- tx_desc (txGenIdx t) ;;
  if has (tx_control d) ENET_BUFFDESCRIPTOR_TX_READY_MASK then ret kStatus_ENET_TxFrameBusy else
  reclaim <- hand txReclaimEnable ;;
  dirty <- hand h_dirty ;;
  if reclaim && negb (ENET_TxDirtyRingAvailable dirty) then ret kStatus_ENET_TxFrameBusy else
  if length <=? txBuffSizeAlign t then
    let cur := txGenIdx t in
    copy (dma2local (tx_buffer d)) data length ;;
    tx_put cur (set_tx_length (u16 length)) ;;
    set_timestamp_flag tsFlag cur ;;
    tx_put cur (or_tx_control ready_last) ;;
    next_tx ;;
    when (reclaim : bool) (add_context context ;; use_desc) ;;
    on_enet ENET_ActiveSendRing ;;
    ret kStatus_Success
  else send_parts (S (Z.to_nat (txRingLen t))) (txGenIdx t) data length 0 tsFlag context.

Definition ENET_SetTxReclaim (isEnable : bool) : M W status_t :=
  assert_ (ringId <? ENET_QUEUE) ;;
  r <- hand h_dirty ;;
  if (dGenIdx r =? dConsumIdx r) && ENET_TxDirtyRingAvailable r then
    (if isEnable then upd_h (set_reclaim true) ;; upd_tx (fun t => set_tx_consum (txGenIdx t) t)
     else upd_h (set_reclaim false)) ;;
    ret kStatus_Success
  else ret kStatus_Fail.

(** The end of a frame has been sent: its context is reported. *)
Definition reclaim_frame (d : enet_tx_bd) : M W unit :=
  r <- hand h_dirty ;;
  i <- lift (aget (txDirty r) (dConsumIdx r)) ;;
  c <- lift (ENET_IncreaseIndex (dConsumIdx r) (dRingLen r)) ;;
  upd_dirty (set_d_consum c) ;;
  upd_dirty (set_full false) ;;
  second <- hand msTimerSecond ;;
  let info := if ENHANCEDBUFFERDESCRIPTOR_MODE then
      if has (tx_controlExtend1 d) ENET_BUFFDESCRIPTOR_TX_TIMESTAMP_MASK
      then FrameInfo (fi_context i) true second (tx_timestamp d)
      else FrameInfo (fi_context i) false (ts_second i) (ts_nanosecond i)
    else i in
  l <- lift (aset (txDirty r) (dConsumIdx r) info) ;;
  upd_dirty (set_infos l) ;;
  cb <- hand hasCallback ;;
  when (cb : bool) (callback kENET_TxEvent (Some info)).

Fixpoint reclaim_loop (n : nat) : M W unit :=
  match n with
  | O => throw OutOfFuel
  | S n =>
      t <- hand h_tx ;;
      d <- tx_desc (txConsumIdx t) ;;
      if negb (has (tx_control d) ENET_BUFFDESCRIPTOR_TX_READY_MASK) && (0 <? txDescUsed t) then
        when (has (tx_control d) ENET_BUFFDESCRIPTOR_TX_LAST_MASK) (reclaim_frame d) ;;
        upd_tx (fun t => set_tx_used (u16 (txDescUsed t - 1)) t) ;;
        t <- hand h_tx ;;
        i <- lift (ENET_IncreaseIndex (txConsumIdx t) (txRingLen t)) ;;
        upd_tx (set_tx_consum i) ;;
        reclaim_loop n
      else ret tt
  end.

(** A round per used descriptor (the callback may have more of them used: the
    fuel is an argument). *)
Definition ENET_ReclaimTxDescriptor (fuel : nat) : M W unit :=
  assert_ (ringId <? ENET_QUEUE) ;;
  reclaim_loop fuel.

Definition ENET_PrepareTxDesc (i : Z) (c : enet_tx_config_struct) : M W unit :=
  let e := 0 in
  let e := if intEnable c then Z.lor e ENET_BUFFDESCRIPTOR_TX_INTERRUPT_MASK else e in
  let e := if tsEnable c then Z.lor e ENET_BUFFDESCRIPTOR_TX_TIMESTAMP_MASK else e in
  let e := if autoProtocolChecksum c then Z.lor e ENET_BUFFDESCRIPTOR_TX_PROTOCHECKSUM_MASK else e in
  let e := if autoIPChecksum c then Z.lor e ENET_BUFFDESCRIPTOR_TX_IPCHECKSUM_MASK else e in
  if HAS_AVB then
    let e := if tltEnable c then Z.lor e ENET_BUFFDESCRIPTOR_TX_USETXLAUNCHTIME_MASK else e in
    when (tltEnable c) (tx_put i (fun d => set_tx_launch (Z.lor (tx_launchLow d) (tltLow c)) (Z.lor (tx_launchHigh d) (tltHigh c)) d)) ;;
    tx_put i (set_tx_controlExtend1 (Z.lor e (u16 (ENET_BD_FTYPE (AVBFrameType c)))))
  else tx_put i (set_tx_controlExtend1 e).

(** How many descriptors are free, counted up to [need]. *)
Fixpoint idle_loop (n : nat) (index idle need : Z) : M W Z :=
  match n with
  | O => throw OutOfFuel
  | S n =>
      d <- tx_desc index ;;
      if has (tx_control d) ENET_BUFFDESCRIPTOR_TX_READY_MASK then ret idle else
      let idle := u32 (idle + 1) in
      if need <=? idle then ret idle else
      t <- hand h_tx ;;
      index <- lift (ENET_IncreaseIndex index (txRingLen t)) ;;
      if negb (index =? txGenIdx t) then idle_loop n index idle need else ret idle
  end.

Fixpoint start_parts (bufs : list enet_buffer_struct) (c : enet_tx_config_struct) (context : Z) : M W unit :=
  match bufs with
  | [] => ret tt
  | b :: bufs =>
      assert_ (negb (bs_buffer b =? 0)) ;;
      assert_ (bs_buffer b + bs_length b - 1 <=? UINT32_MAX) ;;
      t <- hand h_tx ;;
      let cur := txGenIdx t in
      tx_put cur (set_tx_buffer (u32 (local2dma (bs_buffer b)))) ;;
      tx_put cur (set_tx_length (bs_length b)) ;;
      next_tx ;;
      when ENHANCEDBUFFERDESCRIPTOR_MODE (ENET_PrepareTxDesc cur c) ;;
      match bufs with
      | _ :: _ => tx_put cur not_last ;; use_desc
      | [] => tx_put cur (or_tx_control ready_last) ;; add_context context ;; use_desc
      end ;;
      on_enet ENET_ActiveSendRing ;;
      start_parts bufs c context
  end.

Definition frame_length (bufs : list enet_buffer_struct) : Z := fold_left (fun n b => u32 (n + bs_length b)) bufs 0.

Definition ENET_StartTxFrame (f : enet_tx_frame_struct) : M W status_t :=
  assert_ (ringId <? ENET_QUEUE) ;;
  assert_ (negb (0 =? Z.of_nat (length (txBuffArray f)))) ;;
  reclaim <- hand txReclaimEnable ;;
  assert_ reclaim ;;
  let frameLen := frame_length (txBuffArray f) in
  let txBuffNum := Z.of_nat (length (txBuffArray f)) in
  t <- hand h_tx ;;
  idle <- idle_loop (S (Z.to_nat (txRingLen t))) (txGenIdx t) 0 txBuffNum ;;
  limit <- on_enet ENET_FRAME_TX_LEN_LIMITATION ;;
  dirty <- hand h_dirty ;;
  if limit <? frameLen then ret kStatus_ENET_TxFrameOverLen
  else if idle <? txBuffNum then ret kStatus_ENET_TxFrameBusy
  else if negb (ENET_TxDirtyRingAvailable dirty) then ret kStatus_ENET_TxFrameBusy
  else start_parts (txBuffArray f) (txConfig f) (tf_context f) ;; ret kStatus_Success.
End Driver.
