(* ===== verification/EnetMac.v ===== *)
(** * The rest of the Ethernet driver (drivers/enet)

    The MAC address, the management interface to the PHY, the multicast
    filter, the clock of IEEE 1588, the statistics of sent frames, the
    interrupt handlers, and the parts of [ENET_Up] and [ENET_Down] that concern
    the rings.  The wait for the captured time is the one that polls the
    CAPTURE bit. *)

From stdpp Require Import base list numbers tactics.
From Stdlib Require Import ZArith Lia.
From S2P Require Import Prelude Bytes Mmio Enet EnetFrames.

Open Scope Z_scope.
Open Scope prog_scope.

Definition ENET_FRAME_MACLEN : Z := 6.
Definition ENET_NANOSECOND_ONE_SECOND : Z := 1000000000.
Definition UINT64_MAX : Z := 18446744073709551615.
Definition INT64_MAX : Z := 9223372036854775807.

(** [DIV_FLOOR]: the quotient and remainder of C round towards zero. *)
Definition DIV_FLOOR (x y : Z) : Z := if (0 <=? x) || (Z.rem x y =? 0) then Z.quot x y else Z.quot x y - 1.

(** One bit of the CRC, with the rest of the byte. *)
Definition crc_bit (s : Z * Z) : Z * Z :=
  let '(c, crc) := s in
  if negb (Z.land (Z.lxor c crc) 1 =? 0) then (Z.shiftr c 1, Z.lxor (Z.shiftr crc 1) 0xEDB88320)
  else (Z.shiftr c 1, Z.shiftr crc 1).
Definition crc_byte (crc c : Z) : Z := (Nat.iter 8 crc_bit (c, crc)).2.
(** The place of an address in the hash table. *)
Definition multicast_hash (address : list Z) : Z := Z.shiftr (fold_left crc_byte (take (Z.to_nat ENET_FRAME_MACLEN) address) 0xFFFFFFFF) 26.

Section Mac.
Context {D A : Type} `{!Device enet_reg D} {F : EnetFields} {X : EnetFeatures}.
Abbreviation W := (enet_world D A).

Definition ENET_SetMacAddr (macAddr : list Z) : M D unit :=
  m0 <- lift (aget macAddr 0) ;; m1 <- lift (aget macAddr 1) ;; m2 <- lift (aget macAddr 2) ;; m3 <- lift (aget macAddr 3) ;;
  wr PALR (Z.lor (Z.lor (Z.lor (u32 (Z.shiftl m0 24)) (Z.shiftl m1 16)) (Z.shiftl m2 8)) m3) ;;
  m4 <- lift (aget macAddr 4) ;; m5 <- lift (aget macAddr 5) ;;
  wr PAUR (u32 (Z.shiftl (Z.lor (Z.shiftl m4 8) m5) ENET_PAUR_PADDR2_SHIFT)).

Definition ENET_GetMacAddr : M D (list Z) :=
  a <- rd PALR ;;
  b <- rd PAUR ;;
  let b := Z.shiftr (Z.land b ENET_PAUR_PADDR2_MASK) ENET_PAUR_PADDR2_SHIFT in
  ret [u8 (Z.shiftr a 24); u8 (Z.shiftr a 16); u8 (Z.shiftr a 8); u8 a; u8 (Z.shiftr b 8); u8 b].

(** ** Management interface *)

(** Up to [n] reads of the status. *)
Fixpoint mdio_wait (n : nat) : M D bool :=
  match n with
  | O => ret false
  | S n => x <- rd EIR ;; if Z.land x ENET_EIR_MII_MASK =? ENET_EIR_MII_MASK then ret true else mdio_wait n
  end.
(** Without a limit on the reads. *)
Fixpoint mdio_wait_forever (fuel : nat) : M D unit :=
  match fuel with
  | O => throw OutOfFuel
  | S fuel => x <- rd EIR ;; if Z.land x ENET_EIR_MII_MASK =? ENET_EIR_MII_MASK then ret tt else mdio_wait_forever fuel
  end.
Definition ENET_MDIOWaitTransferOver (fuel : nat) : M D status_t :=
  match MDIO_TIMEOUT_COUNT with
  | Some n => ok <- mdio_wait (Z.to_nat n) ;; ret (if ok : bool then kStatus_Success else kStatus_Timeout)
  | None => mdio_wait_forever fuel ;; ret kStatus_Success
  end.
Definition ENET_ClearInterruptStatus (mask : Z) : M D unit := wr EIR mask.
Definition ENET_ReadSMIData : M D Z := x <- rd MMFR ;; ret (Z.shiftr (Z.land x ENET_MMFR_DATA_MASK) ENET_MMFR_DATA_SHIFT).

Definition ENET_MDIOWrite (fuel : nat) (phyAddr regAddr data : Z) : M D status_t :=
  ENET_ClearInterruptStatus ENET_EIR_MII_MASK ;;
  wr MMFR (ENET_MMFR_write phyAddr regAddr data) ;;
  result <- ENET_MDIOWaitTransferOver fuel ;;
  if negb (result =? kStatus_Success) then ret result else
  ENET_ClearInterruptStatus ENET_EIR_MII_MASK ;;
  ret result.

(** The status and, on success, [*pData]. *)
Definition ENET_MDIORead (fuel : nat) (phyAddr regAddr : Z) : M D (status_t * option Z) :=
  ENET_ClearInterruptStatus ENET_EIR_MII_MASK ;;
  wr MMFR (ENET_MMFR_read phyAddr regAddr) ;;
  result <- ENET_MDIOWaitTransferOver fuel ;;
  if negb (result =? kStatus_Success) then ret (result, None) else
  data <- ENET_ReadSMIData ;;
  ENET_ClearInterruptStatus ENET_EIR_MII_MASK ;;
  ret (result, Some (u16 data)).

(** ** Multicast filter *)

Definition group_reg (crc : Z) : enet_reg := if has crc 0x20 then GAUR else GALR.
Definition group_bit (crc : Z) : Z := u32 (Z.shiftl 1 (Z.land crc 0x1F)).

Definition ENET_AddMulticastGroup (address : list Z) : M W unit :=
  let crc := multicast_hash address in
  l <- hand multicastCount ;;
  n <- lift (aget l crc) ;;
  l <- lift (aset l crc (u8 (n + 1))) ;;
  upd_h (set_multicast l) ;;
  on_enet (set_bits (group_reg crc) (group_bit crc)).

Definition ENET_LeaveMulticastGroup (address : list Z) : M W unit :=
  let crc := multicast_hash address in
  l <- hand multicastCount ;;
  n <- lift (aget l crc) ;;
  l <- lift (aset l crc (u8 (n - 1))) ;;
  upd_h (set_multicast l) ;;
  when (u8 (n - 1) =? 0) (on_enet (clear_bits (group_reg crc) (group_bit crc))).

(** ** Statistics of sent frames *)

Fixpoint tx_err_loop (n : nat) (ringId cur : Z) (stats : list Z) : M W (status_t * list Z) :=
  match n with
  | O => throw OutOfFuel
  | S n =>
      i <- hand txBdDirtyStatic ;;
      d <- tx_desc i ;;
      if has (tx_control d) ENET_BUFFDESCRIPTOR_TX_READY_MASK then ret (kStatus_ENET_TxFrameBusy, stats) else
      upd_h (set_dirty_static (if has (tx_control d) ENET_BUFFDESCRIPTOR_TX_WRAP_MASK then 0 else i + 1)) ;;
      if has (tx_control d) ENET_BUFFDESCRIPTOR_TX_LAST_MASK then
        let e := tx_controlExtend0 d in
        let bump (m x : Z) := if has e m then u32 (x + 1) else x in
        ret (kStatus_Success, match stats with
          | [err; excess; late; under; over] =>
              [bump ENET_BUFFDESCRIPTOR_TX_ERR_MASK err; bump ENET_BUFFDESCRIPTOR_TX_EXCCOLLISIONERR_MASK excess;
               bump ENET_BUFFDESCRIPTOR_TX_LATECOLLISIONERR_MASK late; bump ENET_BUFFDESCRIPTOR_TX_UNDERFLOWERR_MASK under;
               bump ENET_BUFFDESCRIPTOR_TX_OVERFLOWERR_MASK over]
          | _ => stats
          end)
      else
      i <- hand txBdDirtyStatic ;;
      if negb (i =? cur) then tx_err_loop n ringId cur stats else ret (kStatus_ENET_TxFrameFail, stats)
  end.
Definition ENET_GetTxErrAfterSendFrame (ringId : Z) (stats : list Z) : M W (status_t * list Z) :=
  assert_ (ringId <? ENET_QUEUE) ;;
  t <- hand h_tx ;;
  tx_err_loop (S (length (txBd t))) ringId (txGenIdx t) stats.

(** ** IEEE 1588 clock *)

Definition ENET_Ptp1588CaptureBlocking (fuel : nat) : M D unit :=
  set_bits ATCR ENET_ATCR_CAPTURE_MASK ;; poll_set fuel ATCR ENET_ATCR_CAPTURE_MASK.

(** Second and nanosecond. *)
Definition ENET_Ptp1588GetTimerNoIrqDisable (fuel : nat) : M W (Z * Z) :=
  second <- hand msTimerSecond ;;
  on_enet (ENET_Ptp1588CaptureBlocking fuel) ;;
  nanosecond <- on_enet (rd ATVR) ;;
  ret (second, nanosecond).
Definition ENET_Ptp1588GetTimer (fuel : nat) : M W (Z * Z) :=
  t <- ENET_Ptp1588GetTimerNoIrqDisable fuel ;;
  let '(second, nanosecond) := t : Z * Z in
  eir <- on_enet (rd EIR) ;;
  ret (if has eir kENET_TsTimerInterrupt && (nanosecond <? ENET_NANOSECOND_ONE_SECOND / 2) then u64 (second + 1) else second, nanosecond).
Definition ENET_Ptp1588SetTimer (second nanosecond : Z) : M W unit :=
  upd_h (set_second second) ;; on_enet (wr ATVR nanosecond).

Definition ENET_Ptp1588JumpTimer (fuel : nat) (nanosecondDiff : Z) : M W unit :=
  on_enet (ENET_Ptp1588CaptureBlocking fuel) ;;
  if 0 <=? nanosecondDiff then
    x <- on_enet (rd ATVR) ;;
    let nanosecondTime := x mod ENET_NANOSECOND_ONE_SECOND in
    let secondDiff := nanosecondDiff / ENET_NANOSECOND_ONE_SECOND in
    let nanosecondTime := u32 (nanosecondTime + u32 nanosecondDiff mod ENET_NANOSECOND_ONE_SECOND) in
    let secondDiff := if ENET_NANOSECOND_ONE_SECOND <=? nanosecondTime then secondDiff + 1 else secondDiff in
    s <- hand msTimerSecond ;;
    if UINT64_MAX - secondDiff <? s then ret tt else
    upd_h (set_second (u64 (s + secondDiff))) ;;
    on_enet (wr ATVR (nanosecondTime mod ENET_NANOSECOND_ONE_SECOND))
  else
    x <- on_enet (rd ATVR) ;;
    let nanosecondTime := x mod ENET_NANOSECOND_ONE_SECOND in
    let secondDiff := DIV_FLOOR (nanosecondDiff + nanosecondTime) ENET_NANOSECOND_ONE_SECOND in
    let nanosecondTime := nanosecondTime + Z.rem nanosecondDiff ENET_NANOSECOND_ONE_SECOND in
    s <- hand msTimerSecond ;;
    if (s <? INT64_MAX) && (s <? - secondDiff) then upd_h (set_second 0) ;; on_enet (wr ATVR 0)
    else
      upd_h (set_second (u64 (s - u64 (- secondDiff)))) ;;
      on_enet (wr ATVR (u32 (u32 nanosecondTime + ENET_NANOSECOND_ONE_SECOND) mod ENET_NANOSECOND_ONE_SECOND)).

(** ** Interrupt handlers *)

Context (callback : enet_event -> option enet_frame_info -> M W unit).
Definition call_back (e : enet_event) : M W unit := cb <- hand hasCallback ;; when (cb : bool) (callback e None).

Fixpoint tx_irq_loop (fuel : nat) (ringId : Z) : M W unit :=
  match fuel with
  | O => throw OutOfFuel
  | S n =>
      let mask := ENET_TxInterrupts ringId in
      x <- on_enet (rd EIR) ;;
      if negb (has mask x) then ret tt else
      irq <- on_enet (rd EIR) ;;
      on_enet (wr EIR mask) ;;
      reclaim <- hand txReclaimEnable ;;
      (if reclaim && has irq kENET_TxFrameInterrupt then ENET_ReclaimTxDescriptor ringId callback n else call_back kENET_TxEvent) ;;
      tx_irq_loop n ringId
  end.
Definition ENET_TransmitIRQHandler (fuel : nat) (ringId : Z) : M W unit := tx_irq_loop fuel ringId.

Fixpoint rx_irq_loop (fuel : nat) (ringId : Z) : M W unit :=
  match fuel with
  | O => throw OutOfFuel
  | S n =>
      let mask := ENET_RxInterrupts ringId in
      x <- on_enet (rd EIR) ;;
      if negb (has mask x) then ret tt else
      on_enet (wr EIR mask) ;; call_back kENET_RxEvent ;; rx_irq_loop n ringId
  end.
Definition ENET_ReceiveIRQHandler (fuel : nat) (ringId : Z) : M W unit := rx_irq_loop fuel ringId.

Definition ENET_ErrorIRQHandler : M W unit :=
  x <- on_enet (rd EIR) ;;
  if has kENET_WakeupInterrupt x then
    on_enet (wr EIR kENET_WakeupInterrupt) ;;
    on_enet (clear_bits ECR ENET_ECR_SLEEP_MAGIC_MASK) ;;
    call_back kENET_WakeUpEvent
  else
    x <- on_enet (rd EIR) ;;
    on_enet (wr EIR (Z.land ENET_errMask x)) ;;
    call_back kENET_ErrEvent.

Definition ENET_TimeStampIRQHandler : M W unit :=
  x <- on_enet (rd EIR) ;;
  when (has kENET_TsTimerInterrupt x) (
    on_enet (wr EIR kENET_TsTimerInterrupt) ;;
    s <- hand msTimerSecond ;;
    upd_h (set_second (u64 (s + 1))) ;;
    call_back kENET_TimeStampEvent) ;;
  x <- on_enet (rd EIR) ;;
  when (has kENET_TsAvailInterrupt x) (
    on_enet (wr EIR kENET_TsAvailInterrupt) ;;
    call_back kENET_TimeStampAvailEvent).

(** The handlers installed: [None] is a null pointer. *)
Definition ENET_CommonFrame0IRQHandler (txIsr rxIsr tsIsr errIsr : option (M W unit)) : M W unit :=
  event <- on_enet (rd EIR) ;;
  mask <- on_enet (rd EIMR) ;;
  let event := Z.land event mask in
  let run (b : bool) (isr : option (M W unit)) : M W unit := match isr with Some h => when b h | None => ret tt end in
  run (has event (ENET_TxInterrupts 0)) txIsr ;;
  run (has event (ENET_RxInterrupts 0)) rxIsr ;;
  run (has event (Z.lor kENET_TsTimerInterrupt kENET_TsAvailInterrupt)) tsIsr ;;
  run (has event (Z.lor ENET_errMask kENET_WakeupInterrupt)) errIsr.

(** ** The rings' part of [ENET_Up] and [ENET_Down] *)

Context (ringId : Z) (rxBuffAlloc : M A Z) (rxBuffFree : Z -> M A unit).
Definition up_rings (txBufferAlign rxBufferAlign : Z) (rxInterrupt : bool) : M W status_t :=
  ENET_SetTxBufferDescriptors ringId txBufferAlign ;;
  result <- ENET_SetRxBufferDescriptors rxBuffAlloc rxBufferAlign rxInterrupt ;;
  (if result =? kStatus_ENET_InitMemoryFail then ENET_RxBufferFreeAll rxBuffFree else ret tt) ;;
  ret result.
Definition ENET_Down : M W unit :=
  on_enet (wr EIMR 0) ;;
  on_enet (clear_bits ECR ENET_ECR_ETHEREN_MASK) ;;
  z <- hand zeroCopy ;;
  when (z : bool) (ENET_RxBufferFreeAll rxBuffFree).
End Mac.
