(* ===== verification/EnetRing.v ===== *)
(** * Rings of descriptors

    Index arithmetic modulo the length of a ring, the effect of the access
    functions of EnetFrames.v on the state, and the two views of a transmit
    ring the theorems are about: the descriptors that belong to the engine
    ([pending]) and those not yet reclaimed. *)

From stdpp Require Import base list numbers tactics.
From Stdlib Require Import ZArith Lia.
From S2P Require Import Prelude Bytes Mmio Enet EnetFrames.

Open Scope Z_scope.
Open Scope prog_scope.

(** ** Indices *)

Lemma increase_index i n : 0 <= i < n -> n < 2 ^ 16 -> ENET_IncreaseIndex i n = Ok ((i + 1) mod n).
Proof.
  change (2 ^ 16) with 65536. intros Hi Hn. unfold ENET_IncreaseIndex. rewrite (proj2 (Z.ltb_lt i n)) by lia.
  rewrite (wrap_small 16) by (pow2; lia). f_equal. destruct (Z.leb_spec n (i + 1)).
  - replace (i + 1) with n by lia. symmetry. apply Z.mod_same. lia.
  - symmetry. apply Z.mod_small. lia.
Qed.

(** The [k]-th place from [c] on in a ring of [n]. *)
Definition slot (n c k : Z) : Z := (c + k) mod n.

Lemma slot_bound n c k : 0 < n -> 0 <= slot n c k < n.
Proof. intros. by apply Z.mod_pos_bound. Qed.

Lemma slot_inj n c k j : 0 <= k < n -> 0 <= j < n -> slot n c k = slot n c j -> k = j.
Proof.
  unfold slot. intros Hk Hj H. assert (Hn : n <> 0) by lia.
  assert (E : (k - j) mod n = 0).
  { replace (k - j) with ((c + k) - (c + j)) by lia. rewrite Zminus_mod, H, Z.sub_diag. by apply Z.mod_0_l. }
  destruct (Z.eq_dec k j) as [|Hne]; [done|]. apply Z.mod_divide in E as [q E]; [|done].
  assert (q = 0) by nia. lia.
Qed.

Lemma slot_next n c k : 0 < n -> slot n ((c + 1) mod n) k = slot n c (k + 1).
Proof. intros Hn. unfold slot. rewrite Zplus_mod_idemp_l. f_equal. lia. Qed.

Lemma slot_slot n c j k : 0 < n -> slot n (slot n c j) k = slot n c (j + k).
Proof. intros Hn. unfold slot. rewrite Zplus_mod_idemp_l. f_equal. lia. Qed.

Lemma slot_0 n c : 0 <= c < n -> slot n c 0 = c.
Proof. intros Hc. unfold slot. rewrite Z.add_0_r. by apply Z.mod_small. Qed.

Lemma slot_small n k : 0 <= k < n -> slot n 0 k = k.
Proof. intros Hk. unfold slot. rewrite Z.add_0_l. by apply Z.mod_small. Qed.

Lemma slot_full n c k : 0 < n -> slot n c (k + n) = slot n c k.
Proof. intros Hn. unfold slot. rewrite Z.add_assoc. rewrite <- (Z.mul_1_l n) at 1. by rewrite Z_mod_plus_full. Qed.

(** Every place of the ring is the [k]-th from [c] for one [k]. *)
Lemma slot_onto n c i : 0 <= i < n -> exists k, 0 <= k < n /\ i = slot n c k.
Proof.
  intros Hi. exists ((i - c) mod n). split; [apply Z.mod_pos_bound; lia|]. unfold slot.
  rewrite Zplus_mod_idemp_r. replace (c + (i - c)) with i by lia. symmetry. by apply Z.mod_small.
Qed.

(** ** Descriptors of a ring *)

Definition tx_null : enet_tx_bd := TxBd 0 0 0 0 0 0 0 0.
Definition tat (t : enet_tx_ring) (i : Z) : enet_tx_bd := nth (Z.to_nat i) (txBd t) tx_null.
Definition tput (i : Z) (f : enet_tx_bd -> enet_tx_bd) (t : enet_tx_ring) : enet_tx_ring :=
  set_tx_bds (<[Z.to_nat i := f (tat t i)]> (txBd t)) t.

Lemma tat_put_eq i f t : 0 <= i < Z.of_nat (length (txBd t)) -> tat (tput i f t) i = f (tat t i).
Proof. intros Hi. unfold tat at 1, tput. cbn [txBd set_tx_bds]. rewrite nth_lookup, list_lookup_insert_eq by lia. done. Qed.

Lemma tat_put_ne i j f t : 0 <= i -> 0 <= j -> i <> j -> tat (tput i f t) j = tat t j.
Proof.
  intros Hi Hj Hne. unfold tat at 1, tput. cbn [txBd set_tx_bds]. rewrite nth_lookup, list_lookup_insert_ne by lia.
  by rewrite <- nth_lookup.
Qed.

Lemma tput_tput i f g t : 0 <= i < Z.of_nat (length (txBd t)) -> tput i g (tput i f t) = tput i (fun d => g (f d)) t.
Proof.
  intros Hi. unfold tput at 1. rewrite tat_put_eq by done. unfold tput. cbn [txBd set_tx_bds].
  unfold set_tx_bds. cbn. by rewrite list_insert_insert_eq.
Qed.

Lemma tput_id i t : 0 <= i < Z.of_nat (length (txBd t)) -> tput i (fun d => d) t = t.
Proof.
  intros Hi. unfold tput, tat. destruct t as [l g c u n z]. unfold set_tx_bds. cbn in *. f_equal. apply list_insert_id.
  rewrite nth_lookup. destruct (lookup_lt_is_Some_2 l (Z.to_nat i)) as [x Hx]; [lia|]. by rewrite Hx.
Qed.

Lemma length_tput i f t : length (txBd (tput i f t)) = length (txBd t).
Proof. apply length_insert. Qed.

Lemma aget_nth {B} (l : list B) i d : 0 <= i < Z.of_nat (length l) -> aget l i = Ok (nth (Z.to_nat i) l d).
Proof.
  intros Hi. destruct (lookup_lt_is_Some_2 l (Z.to_nat i)) as [x Hx]; [lia|].
  rewrite (aget_ok l i x) by (lia || done). by rewrite nth_lookup, Hx.
Qed.

(** ** The bits of a descriptor *)

Definition ready (d : enet_tx_bd) : bool := has (tx_control d) ENET_BUFFDESCRIPTOR_TX_READY_MASK.
Definition last (d : enet_tx_bd) : bool := has (tx_control d) ENET_BUFFDESCRIPTOR_TX_LAST_MASK.
Definition wraps (d : enet_tx_bd) : bool := has (tx_control d) ENET_BUFFDESCRIPTOR_TX_WRAP_MASK.
Definition empty (d : enet_rx_bd) : bool := has (rx_control d) ENET_BUFFDESCRIPTOR_RX_EMPTY_MASK.
Definition rlast (d : enet_rx_bd) : bool := has (rx_control d) ENET_BUFFDESCRIPTOR_RX_LAST_MASK.
Definition rwraps (d : enet_rx_bd) : bool := has (rx_control d) ENET_BUFFDESCRIPTOR_RX_WRAP_MASK.

(** [bits] turns tests of these masks into tests of bits. *)
Ltac bits :=
  unfold ready, last, wraps, empty, rlast, rwraps, or_tx_control, not_last, ready_last, or_rx_control, and_rx_control;
  cbn [tx_control set_tx_control rx_control set_rx_control];
  change ENET_BUFFDESCRIPTOR_TX_READY_MASK with (2 ^ 15); change ENET_BUFFDESCRIPTOR_TX_LAST_MASK with (2 ^ 11);
  change ENET_BUFFDESCRIPTOR_TX_WRAP_MASK with (2 ^ 13);
  change ENET_BUFFDESCRIPTOR_RX_EMPTY_MASK with (2 ^ 15); change ENET_BUFFDESCRIPTOR_RX_LAST_MASK with (2 ^ 11);
  change ENET_BUFFDESCRIPTOR_RX_WRAP_MASK with (2 ^ 13);
  rewrite ?has_pow2 by lia; rewrite ?(wrap_testbit 16), ?Z.lor_spec, ?Z.land_spec, ?bic_testbit, ?Z.pow2_bits_eqb by lia;
  cbn [Z.eqb Pos.eqb]; rewrite ?orb_true_r, ?orb_false_r, ?andb_false_r, ?andb_true_r.

Lemma last_bits d :
  ready (or_tx_control ready_last d) = true /\ last (or_tx_control ready_last d) = true /\
  wraps (or_tx_control ready_last d) = wraps d.
Proof. bits. done. Qed.

Lemma part_bits d : ready (not_last d) = true /\ last (not_last d) = false /\ wraps (not_last d) = wraps d.
Proof. bits. done. Qed.

(** ** The state *)

Section Ring.
Context {D A : Type} `{!Device enet_reg D} {F : EnetFields} {X : EnetFeatures}.
Abbreviation W := (enet_world D A).

Definition txr (w : W) : enet_tx_ring := h_tx (e_h w).
Definition dirtyr (w : W) : enet_dirty_ring := h_dirty (e_h w).
Definition with_tx (t : enet_tx_ring) (w : W) : W := EnetWorld (e_hw w) (set_tx t (e_h w)) (e_mem w) (e_app w).
Definition with_dirty (r : enet_dirty_ring) (w : W) : W := EnetWorld (e_hw w) (set_dirty r (e_h w)) (e_mem w) (e_app w).
Definition with_rx (r : enet_rx_ring) (w : W) : W := EnetWorld (e_hw w) (set_rx r (e_h w)) (e_mem w) (e_app w).
Definition with_mem (m : Z -> Z) (w : W) : W := EnetWorld (e_hw w) (e_h w) m (e_app w).
Definition with_hw (d : D) (w : W) : W := EnetWorld d (e_h w) (e_mem w) (e_app w).
Definition with_app (a : A) (w : W) : W := EnetWorld (e_hw w) (e_h w) (e_mem w) a.

Lemma wp_hand {B} (f : enet_handle -> B) (Q : B -> W -> Prop) w : wp (hand f) Q w <-> Q (f (e_h w)) w.
Proof. done. Qed.
Lemma wp_on_enet {B} (m : M D B) (Q : B -> W -> Prop) w : wp (on_enet m) Q w <-> wp m (fun b d => Q b (with_hw d w)) (e_hw w).
Proof. unfold wp, on_enet. by destruct (m (e_hw w)) as [[b d]|]. Qed.
Lemma wp_on_app {B} (m : M A B) (Q : B -> W -> Prop) w : wp (on_app m) Q w <-> wp m (fun b a => Q b (with_app a w)) (e_app w).
Proof. unfold wp, on_app. by destruct (m (e_app w)) as [[b a]|]. Qed.
Lemma wp_upd_tx f (Q : unit -> W -> Prop) w : wp (upd_tx f) Q w <-> Q tt (with_tx (f (txr w)) w).
Proof. done. Qed.
Lemma wp_upd_dirty f (Q : unit -> W -> Prop) w : wp (upd_dirty f) Q w <-> Q tt (with_dirty (f (dirtyr w)) w).
Proof. done. Qed.
Lemma wp_copy dst src n (Q : unit -> W -> Prop) w :
  wp (copy dst src n) Q w <-> Q tt (with_mem (mem_write dst (bytes_at (e_mem w) src n) (e_mem w)) w).
Proof. done. Qed.

Lemma wp_tx_desc i (Q : enet_tx_bd -> W -> Prop) w :
  0 <= i < Z.of_nat (length (txBd (txr w))) -> wp (tx_desc i) Q w <-> Q (tat (txr w) i) w.
Proof.
  intros Hi. unfold tx_desc. rewrite wp_bind, wp_hand. by rewrite (wp_lift _ _ _ _ (aget_nth (txBd (txr w)) i tx_null Hi)).
Qed.

Lemma wp_tx_put i f (Q : unit -> W -> Prop) w :
  0 <= i < Z.of_nat (length (txBd (txr w))) -> wp (tx_put i f) Q w <-> Q tt (with_tx (tput i f (txr w)) w).
Proof.
  intros Hi. unfold tx_put. rewrite wp_bind, wp_hand, wp_bind, (wp_lift _ _ _ _ (aget_nth (txBd (txr w)) i tx_null Hi)).
  by rewrite wp_bind, (wp_lift _ _ _ _ (aset_ok (txBd (txr w)) i _ Hi)), wp_upd_tx.
Qed.

Lemma wp_next_tx (Q : unit -> W -> Prop) w :
  0 <= txGenIdx (txr w) < txRingLen (txr w) -> txRingLen (txr w) < 2 ^ 16 ->
  wp next_tx Q w <-> Q tt (with_tx (set_tx_gen ((txGenIdx (txr w) + 1) mod txRingLen (txr w)) (txr w)) w).
Proof.
  intros Hi Hn. unfold next_tx. rewrite wp_bind, wp_hand, wp_bind.
  rewrite (wp_lift _ _ _ _ (increase_index (txGenIdx (txr w)) (txRingLen (txr w)) Hi Hn)). by rewrite wp_upd_tx.
Qed.
End Ring.
