(* ===== verification/EnetClock.v ===== *)
(** * The 1588 clock and the multicast filter

    What [ENET_Ptp1588JumpTimer] does to the time, exactly, and what a sequence
    of joins and leaves makes of the hash table. *)

From stdpp Require Import base list numbers tactics.
From Stdlib Require Import ZArith Lia.
From S2P Require Import Prelude Bytes Mmio Enet EnetFrames EnetRing EnetMac.

Open Scope Z_scope.
Open Scope prog_scope.

(** ** Time *)

(** The timer as far as a capture looks at it: the capture takes at most
    [capture_bound] reads, and the time stands still during the call. *)
Class PtpLaws {D : Type} `{!Device enet_reg D} {F : EnetFields} := {
  capture_bound : nat;
  atvr : D -> Z;
  capturing : D -> nat;
  capturing_bound d : (capturing d <= capture_bound)%nat;
  read_atcr d : has (reg_read ATCR d).1 ENET_ATCR_CAPTURE_MASK = (0 <? Z.of_nat (capturing d)) /\
    capturing (reg_read ATCR d).2 = pred (capturing d) /\ atvr (reg_read ATCR d).2 = atvr d;
  write_atcr v d : atvr (reg_write ATCR v d) = atvr d;
  read_atvr d : reg_read ATVR d = (atvr d, d);
  write_atvr v d : atvr (reg_write ATVR v d) = v
}.

Abbreviation NS := ENET_NANOSECOND_ONE_SECOND.

(** ** The hash *)

Lemma crc_byte_bound crc c : 0 <= crc < 2 ^ 32 -> 0 <= crc_byte crc c < 2 ^ 32.
Proof.
  intros H. unfold crc_byte. assert (G : forall n s, 0 <= s.2 < 2 ^ 32 -> 0 <= (Nat.iter n crc_bit s).2 < 2 ^ 32); [|by apply G].
  induction n as [|n IH]; intros s Hs; [done|]. cbn [Nat.iter nat_rect]. fold (Nat.iter n crc_bit s). specialize (IH s Hs).
  destruct (Nat.iter n crc_bit s) as [c' crc']. cbn [snd] in IH. unfold crc_bit.
  assert (Hsh : 0 <= Z.shiftr crc' 1 < 2 ^ 32) by (rewrite Z.shiftr_div_pow2 by lia; change (2 ^ 1) with 2; pow2; zlia).
  destruct (negb _); cbn [snd]; [|done]. apply lxor_bound; [lia|done|done].
Qed.

Lemma multicast_hash_bound address : 0 <= multicast_hash address < 64.
Proof.
  unfold multicast_hash. assert (G : forall l crc, 0 <= crc < 2 ^ 32 -> 0 <= fold_left crc_byte l crc < 2 ^ 32).
  { induction l as [|c l IH]; intros crc H; [done|]. cbn [fold_left]. by apply IH, crc_byte_bound. }
  specialize (G (take (Z.to_nat ENET_FRAME_MACLEN) address) 0xFFFFFFFF ltac:(done)). rewrite Z.shiftr_div_pow2 by lia.
  change (2 ^ 26) with 67108864. pow2. zlia.
Qed.

Section Clock.
Context {D A : Type} `{!Device enet_reg D} {F : EnetFields} {X : EnetFeatures} {L : PtpLaws (D := D)}.
Abbreviation W := (enet_world D A).

Lemma capture_run fuel d (Q : unit -> D -> Prop) : (capture_bound < fuel)%nat ->
  (forall d', atvr d' = atvr d -> Q tt d') -> wp (ENET_Ptp1588CaptureBlocking fuel) Q d.
Proof.
  intros Hf HQ. unfold ENET_Ptp1588CaptureBlocking, set_bits. rewrite wp_bind, wp_bind. unfold wp at 1, rd.
  destruct (read_atcr d) as (_ & _ & Ea). destruct (reg_read ATCR d) as [x d1]. cbn [fst snd] in Ea. unfold wp at 1, wr.
  set (d2 := reg_write ATCR _ d1). assert (E2 : atvr d2 = atvr d) by (unfold d2; by rewrite write_atcr).
  clearbody d2. clear Ea. assert (Hb := capturing_bound d2). assert (Hn : (capturing d2 < fuel)%nat) by lia. clear Hb Hf.
  revert d2 E2 Hn. induction fuel as [|fuel IH]; intros d2 E2 Hn; [lia|]. unfold poll_set. cbn [while_]. rewrite wp_bind, wp_bind.
  unfold wp at 1, rd. destruct (read_atcr d2) as (R1 & R2 & R3). destruct (reg_read ATCR d2) as [y d3]. cbn [fst snd] in *. rewrite wp_ret, R1.
  destruct (Z.ltb_spec 0 (Z.of_nat (capturing d2))); [|rewrite wp_ret; apply HQ; congruence].
  rewrite wp_bind, wp_ret. apply IH; [congruence|lia].
Qed.

Lemma wp_atvr (Q : Z -> D -> Prop) d : wp (rd ATVR) Q d <-> Q (atvr d) d.
Proof. unfold wp, rd. by rewrite read_atvr. Qed.

Definition time (w : W) : Z := msTimerSecond (e_h w) * NS + atvr (e_hw w).

(** What the conversion to 32 bits before the remainder adds to a jump
    forward. *)
Definition jump_error (diff : Z) : Z := diff mod 2 ^ 32 mod NS - diff mod NS.

Lemma div_floor x : DIV_FLOOR x NS = x / NS.
Proof.
  unfold DIV_FLOOR, NS. destruct (Z.leb_spec 0 x); cbn [orb]; [by apply Z.quot_div_nonneg|].
  assert (Hq := Z.quot_rem' x 1000000000). assert (Hr := Z.rem_bound_pos_neg x 1000000000 ltac:(lia) ltac:(lia)).
  assert (Hd := Z.div_mod x 1000000000 ltac:(lia)). assert (Hm := Z.mod_pos_bound x 1000000000 ltac:(lia)).
  destruct (Z.eqb_spec (Z.rem x 1000000000) 0); nia.
Qed.

Lemma jump_forward diff s x : 0 <= x < NS -> 0 <= diff < 2 ^ 63 ->
  let n := u32 (x + u32 diff mod NS) in
  let sd := if NS <=? n then diff / NS + 1 else diff / NS in
  (UINT64_MAX - sd <? s) = (2 ^ 64 * NS <=? s * NS + x + diff + jump_error diff) /\
  (s + sd) * NS + n mod NS = s * NS + x + diff + jump_error diff.
Proof.
  intros Hx Hd n sd. unfold jump_error. set (m := diff mod 2 ^ 32 mod NS). assert (Hm : 0 <= m < NS) by (apply Z.mod_pos_bound; done).
  assert (Hn : n = x + m) by (unfold n; apply wrap_small; unfold m, NS in *; pow2; lia).
  assert (Hq := Z.div_mod diff NS ltac:(done)). assert (Hr := Z.mod_pos_bound diff NS ltac:(done)).
  assert (E : (s + sd) * NS + n mod NS = s * NS + x + diff + (m - diff mod NS)).
  { unfold sd. rewrite Hn. destruct (Z.leb_spec NS (x + m)).
    - replace (x + m) with (x + m - NS + 1 * NS) by lia. rewrite Z_mod_plus_full, Z.mod_small by lia. unfold NS in *. lia.
    - rewrite Z.mod_small by lia. unfold NS in *. lia. }
  split; [|exact E]. rewrite <- E. assert (Hb := Z.mod_pos_bound n NS ltac:(done)). unfold UINT64_MAX. pow2. unfold NS in *.
  destruct (Z.ltb_spec (18446744073709551615 - sd) s), (Z.leb_spec (18446744073709551616 * 1000000000) ((s + sd) * 1000000000 + n mod 1000000000)); lia.
Qed.

Lemma jump_back diff s x : 0 <= x < NS -> - 2 ^ 63 <= diff < 0 -> 0 <= s < 2 ^ 64 ->
  let sd := DIV_FLOOR (diff + x) NS in
  let n := u32 (u32 (x + Z.rem diff NS) + NS) mod NS in
  if (s <? INT64_MAX) && (s <? - sd) then s * NS + x + diff <= 0
  else 0 <= s + sd /\ u64 (s - u64 (- sd)) = s + sd /\ (s + sd) * NS + n = s * NS + x + diff.
Proof.
  intros Hx Hd Hs sd n. assert (Esd : sd = (diff + x) / NS) by apply div_floor. clearbody sd.
  assert (Hq := Z.div_mod (diff + x) NS ltac:(done)). assert (Hr := Z.mod_pos_bound (diff + x) NS ltac:(done)).
  rewrite <- Esd in Hq. assert (Hq2 := Z.quot_rem' diff NS). assert (Hr2 := Z.rem_bound_pos_neg diff NS ltac:(done) ltac:(lia)).
  change (2 ^ 63) with 9223372036854775808 in *. pow2. unfold NS, INT64_MAX in *.
  assert (Hn : n = (diff + x) mod 1000000000).
  { unfold n. set (y := x + Z.rem diff 1000000000) in *. unfold wrap. rewrite Zplus_mod_idemp_l. pow2.
    rewrite (Z.mod_small (y + 1000000000)) by lia. rewrite Zplus_mod, Z.mod_same, Z.add_0_r, Z.mod_mod by lia.
    unfold y. rewrite Hq2 at 2. rewrite (Z.mul_comm 1000000000), <- Z.add_assoc, (Z.add_comm _ (_ + x)), Z_mod_plus_full. f_equal. lia. }
  destruct (Z.ltb_spec s 9223372036854775807), (Z.ltb_spec s (- sd)); cbn [andb]; try lia.
  all: assert (Hsd : 0 <= - sd < 2 ^ 64) by (pow2; lia); rewrite (wrap_small 64 (- sd)) by exact Hsd;
    rewrite (wrap_small 64) by (pow2; lia); lia.
Qed.

(** C38: JumpTimer with a negative difference moves the clock by it, down to
    zero at most.  With a positive one it moves the clock by the difference
    plus [jump_error], unless that leaves the 64-bit seconds, when it does
    nothing; the error is zero below 2^32 ns, and at 5 s it is 0.7 s. *)
Theorem enet_ptp_jump (w : W) (fuel : nat) (diff : Z) :
  0 <= msTimerSecond (e_h w) < 2 ^ 64 -> 0 <= atvr (e_hw w) < NS -> - 2 ^ 63 <= diff < 2 ^ 63 -> (capture_bound < fuel)%nat ->
  wp (ENET_Ptp1588JumpTimer fuel diff) (fun _ w' =>
    time w' = (if 0 <=? diff then
                 if 2 ^ 64 * NS <=? time w + diff + jump_error diff then time w else time w + diff + jump_error diff
               else Z.max 0 (time w + diff))) w /\
  (0 <= diff < 2 ^ 32 -> jump_error diff = 0) /\ jump_error (5 * NS) = 705032704.
Proof.
  intros Hs Hx Hd Hf. split; [|split; [|done]].
  2:{ intros H. unfold jump_error. rewrite (Z.mod_small diff (2 ^ 32)) by lia. lia. }
  unfold ENET_Ptp1588JumpTimer. rewrite wp_bind, wp_on_enet. apply capture_run; [done|]. intros d Ed.
  set (w1 := with_hw d w). assert (Et : forall w2, msTimerSecond (e_h w2) = msTimerSecond (e_h w) -> atvr (e_hw w2) = atvr (e_hw w) -> time w2 = time w).
  { intros w2 E1 E2. unfold time. by rewrite E1, E2. }
  destruct (Z.leb_spec 0 diff) as [Hp|Hn].
  - destruct (jump_forward diff (msTimerSecond (e_h w)) (atvr (e_hw w)) Hx ltac:(lia)) as [F1 F2]. cbv zeta in F1, F2.
    rewrite wp_bind, wp_on_enet, wp_atvr. rewrite (Z.mod_small (atvr (e_hw w1))) by (cbn; rewrite Ed; lia). cbn [e_hw with_hw w1]. rewrite Ed.
    rewrite wp_bind, wp_hand. change (msTimerSecond (e_h (with_hw d w1))) with (msTimerSecond (e_h w)). rewrite F1. fold (time w).
    fold (time w) in F1, F2. destruct (2 ^ 64 * NS <=? time w + diff + jump_error diff) eqn:E; [rewrite wp_ret; by apply Et|].
    assert (Hb : msTimerSecond (e_h w) + (if NS <=? u32 (atvr (e_hw w) + u32 diff mod NS) then diff / NS + 1 else diff / NS) < 2 ^ 64).
    { apply Z.ltb_ge in F1. unfold UINT64_MAX in F1. pow2. lia. }
    assert (0 <= diff / NS) by (apply Z.div_pos; [lia|done]).
    rewrite wp_bind. unfold wp at 1, upd_h, modify. rewrite wp_on_enet. unfold wp, wr. unfold time at 1. cbn [e_h e_hw with_hw set_second msTimerSecond].
    rewrite write_atvr, (wrap_small 64); [exact F2|]. destruct (NS <=? _); lia.
  - assert (HB := jump_back diff (msTimerSecond (e_h w)) (atvr (e_hw w)) Hx ltac:(lia) Hs). cbv zeta in HB.
    rewrite wp_bind, wp_on_enet, wp_atvr. rewrite (Z.mod_small (atvr (e_hw w1))) by (cbn; rewrite Ed; lia). cbn [e_hw with_hw w1]. rewrite Ed.
    rewrite wp_bind, wp_hand. change (msTimerSecond (e_h (with_hw d w1))) with (msTimerSecond (e_h w)).
    destruct (_ && _).
    + rewrite wp_bind. unfold wp at 1, upd_h, modify. rewrite wp_on_enet. unfold wp, wr. unfold time at 1. cbn [e_h e_hw with_hw set_second msTimerSecond].
      rewrite write_atvr. unfold time. lia.
    + destruct HB as (B1 & B2 & B3). rewrite wp_bind. unfold wp at 1, upd_h, modify. rewrite wp_on_enet. unfold wp, wr. unfold time at 1.
      cbn [e_h e_hw with_hw set_second msTimerSecond]. rewrite write_atvr, B2, B3. unfold time.
      assert (0 <= (msTimerSecond (e_h w) + DIV_FLOOR (diff + atvr (e_hw w)) NS) * NS) by (apply Z.mul_nonneg_nonneg; [exact B1|done]).
      assert (Hm := Z.mod_pos_bound (u32 (u32 (atvr (e_hw w) + Z.rem diff NS) + NS)) NS ltac:(done)). lia.
Qed.
End Clock.

(** ** The hash table *)

Class FilterLaws {D : Type} `{!Device enet_reg D} := {
  table : D -> enet_reg -> Z;
  read_table r d : r = GAUR \/ r = GALR -> reg_read r d = (table d r, d);
  write_table r v d r' : r = GAUR \/ r = GALR -> table (reg_write r v d) r' = if decide (r = r') then v else table d r'
}.

Section Filter.
Context {D A : Type} `{!Device enet_reg D} {F : EnetFields} {X : EnetFeatures} {L : FilterLaws (D := D)}.
Abbreviation W := (enet_world D A).

(** Whether frames whose address has this hash are received. *)
Definition listens (d : D) (h : Z) : bool := Z.testbit (table d (group_reg h)) (Z.land h 0x1F).

Lemma land31 h : 0 <= h < 64 -> 0 <= Z.land h 0x1F < 32 /\ (has h 0x20 = (32 <=? h)) /\ Z.land h 0x1F = h mod 32.
Proof.
  intros Hh. assert (E : Z.land h 0x1F = h mod 32) by exact (Z.land_ones h 5 ltac:(lia)). rewrite E. split; [apply Z.mod_pos_bound; lia|]. split; [|done].
  change 0x20 with (2 ^ 5). rewrite has_pow2 by lia. rewrite Z.testbit_eqb by lia. change (2 ^ 5) with 32.
  destruct (Z.leb_spec 32 h); [replace (h / 32) with 1 by zlia|replace (h / 32) with 0 by zlia]; done.
Qed.

Lemma same_place h h' : 0 <= h < 64 -> 0 <= h' < 64 -> group_reg h = group_reg h' -> Z.land h 0x1F = Z.land h' 0x1F -> h = h'.
Proof.
  intros H H' E1 E2. destruct (land31 h H) as (_ & B1 & C1), (land31 h' H') as (_ & B2 & C2). unfold group_reg in E1. rewrite B1, B2 in E1.
  rewrite C1, C2 in E2. destruct (Z.leb_spec 32 h), (Z.leb_spec 32 h'); try done; zlia.
Qed.

Lemma group_reg_table h : group_reg h = GAUR \/ group_reg h = GALR.
Proof. unfold group_reg. destruct (has h 0x20); auto. Qed.

Lemma group_bit_pow h : 0 <= h < 64 -> group_bit h = 2 ^ Z.land h 0x1F.
Proof.
  intros Hh. destruct (land31 h Hh) as (B & _). unfold group_bit. rewrite Z.shiftl_1_l. apply wrap_small. split; [apply Z.pow_nonneg; lia|].
  apply Z.pow_lt_mono_r; lia.
Qed.

(** Setting and clearing one place of the table. *)
Lemma listens_write d h h' v : 0 <= h < 64 -> 0 <= h' < 64 ->
  (forall i, 0 <= i < 32 -> i <> Z.land h 0x1F -> Z.testbit v i = Z.testbit (table d (group_reg h)) i) ->
  listens (reg_write (group_reg h) v d) h' = if h' =? h then Z.testbit v (Z.land h 0x1F) else listens d h'.
Proof.
  intros H H' Hv. unfold listens. rewrite write_table by apply group_reg_table. destruct (Z.eqb_spec h' h) as [->|Hne].
  - by rewrite decide_True.
  - destruct (decide (group_reg h = group_reg h')) as [E|E]; [|done]. rewrite <- E. apply Hv; [by apply land31|].
    intros E2. apply Hne. by apply same_place.
Qed.

(** ** Runs of joins and leaves *)

Inductive mop := Join (address : list Z) | Leave (address : list Z).
Definition mstep (o : mop) : M W unit := match o with Join a => ENET_AddMulticastGroup a | Leave a => ENET_LeaveMulticastGroup a end.
Fixpoint mrun (ops : list mop) : M W unit := match ops with [] => ret tt | o :: ops => mstep o ;; mrun ops end.

(** How many memberships there are for each hash. *)
Definition counts : Type := Z -> Z.
Definition count_step (o : mop) (c : counts) : counts :=
  match o with
  | Join a => fun h => if h =? multicast_hash a then c h + 1 else c h
  | Leave a => fun h => if h =? multicast_hash a then c h - 1 else c h
  end.
Definition mop_ok (o : mop) (c : counts) : Prop :=
  match o with Join a => c (multicast_hash a) < 255 | Leave a => 0 < c (multicast_hash a) end.
(** Nobody leaves what was not joined, and no hash is joined more than 255
    times at once. *)
Fixpoint legal (ops : list mop) (c : counts) : Prop :=
  match ops with [] => True | o :: ops => mop_ok o c /\ legal ops (count_step o c) end.

Record filtered (w : W) (c : counts) : Prop := {
  fil_len : length (multicastCount (e_h w)) = 64%nat;
  fil_range : forall h, 0 <= h < 64 -> 0 <= c h < 256;
  fil_count : forall h, 0 <= h < 64 -> multicastCount (e_h w) !! Z.to_nat h = Some (c h);
  fil_table : forall h, 0 <= h < 64 -> listens (e_hw w) h = (0 <? c h)
}.

(** The handle's count and one place of the table change together. *)
Lemma filtered_step w c h n v : filtered w c -> 0 <= h < 64 -> 0 <= n < 256 ->
  listens v h = (0 <? n) -> (forall h', 0 <= h' < 64 -> h' <> h -> listens v h' = listens (e_hw w) h') ->
  filtered (EnetWorld v (set_multicast (<[Z.to_nat h := n]> (multicastCount (e_h w))) (e_h w)) (e_mem w) (e_app w))
    (fun h' => if h' =? h then n else c h').
Proof.
  intros [F1 F2 F3 F4] Hh Hn Hv Hk. split; cbn [e_h e_hw multicastCount set_multicast]; [by rewrite length_insert| | |];
    intros h' Hh'; destruct (Z.eqb_spec h' h) as [->|Hne]; try done; [by apply F2| | |].
  - rewrite list_lookup_insert_eq by (rewrite F1; lia). done.
  - rewrite list_lookup_insert_ne by lia. by apply F3.
  - rewrite Hk by done. by apply F4.
Qed.

Lemma filtered_ext w c c' : (forall h, c h = c' h) -> filtered w c -> filtered w c'.
Proof. intros E [F1 F2 F3 F4]. split; [done| | |]; intros h Hh; rewrite <- E; auto. Qed.

Lemma mstep_run o w c (Q : unit -> W -> Prop) : filtered w c -> mop_ok o c ->
  (forall w', filtered w' (count_step o c) -> Q tt w') -> wp (mstep o) Q w.
Proof.
  intros HF HO HQ. assert (HF' := HF). destruct HF' as [F1 F2 F3 F4].
  destruct o as [a|a]; cbn [mstep mop_ok count_step] in *; unfold ENET_AddMulticastGroup, ENET_LeaveMulticastGroup;
    assert (Hh := multicast_hash_bound a); revert Hh HO HQ; generalize (multicast_hash a) as h; intros h Hh HO HQ; assert (Hc := F2 _ Hh);
    assert (Hcount : aget (multicastCount (e_h w)) h = Ok (c h)) by (apply aget_ok; [lia|by apply F3]);
    assert (Hset : forall n, aset (multicastCount (e_h w)) h n = Ok (<[Z.to_nat h := n]> (multicastCount (e_h w)))) by (intros n; apply aset_ok; rewrite F1; lia);
    rewrite wp_bind, wp_hand, wp_bind, (wp_lift _ _ _ _ Hcount); rewrite (wrap_small 8) by (pow2; lia);
    rewrite wp_bind, (wp_lift _ _ _ _ (Hset _)), wp_bind; unfold wp at 1, upd_h, modify.
  - rewrite wp_on_enet. unfold set_bits. rewrite wp_bind. unfold wp at 1, rd. cbn [e_hw]. rewrite read_table by apply group_reg_table.
    unfold wp, wr. apply HQ. apply (filtered_ext _ (fun h' => if h' =? h then c h + 1 else c h')); [intros h'; destruct (Z.eqb_spec h' h); congruence|].
    destruct (land31 h Hh) as (B1 & _). apply (filtered_step w c h); [done|done|lia| |].
    + rewrite listens_write, Z.eqb_refl, Z.lor_spec, group_bit_pow, Z.pow2_bits_true, orb_true_r; try done; try lia.
      intros i Hi Hne. by rewrite Z.lor_spec, group_bit_pow, Z.pow2_bits_false, orb_false_r by lia.
    + intros h' Hh' Hne. rewrite listens_write; [by rewrite (proj2 (Z.eqb_neq _ _) Hne)|done|done|].
      intros i Hi Hne'. by rewrite Z.lor_spec, group_bit_pow, Z.pow2_bits_false, orb_false_r by lia.
  - set (w1 := EnetWorld _ _ _ _). assert (Hkeep : forall d, (forall h', 0 <= h' < 64 -> h' <> h -> listens d h' = listens (e_hw w) h') ->
      listens d h = (0 <? c h - 1) -> Q tt (with_hw d w1)).
    { intros d Hd1 Hd2. apply HQ. apply (filtered_ext _ (fun h' => if h' =? h then c h - 1 else c h')); [intros h'; destruct (Z.eqb_spec h' h); congruence|].
      apply (filtered_step w c h); [done|done|lia|done|done]. }
    destruct (Z.eqb_spec (c h - 1) 0) as [E|E].
    + rewrite wp_on_enet. unfold clear_bits. rewrite wp_bind. unfold wp at 1, rd. cbn [e_hw w1]. rewrite read_table by apply group_reg_table.
      unfold wp, wr. destruct (land31 h Hh) as (B1 & _).
      assert (Hbit : forall i, 0 <= i < 32 -> Z.testbit (bic32 (table (e_hw w) (group_reg h)) (group_bit h)) i =
        Z.testbit (table (e_hw w) (group_reg h)) i && negb (Z.land h 31 =? i)).
      { intros i Hi. by rewrite bic_testbit, group_bit_pow, Z.pow2_bits_eqb by lia. }
      apply Hkeep.
      * intros h' Hh' Hne. rewrite listens_write; [by rewrite (proj2 (Z.eqb_neq _ _) Hne)|done|done|].
        intros i Hi Hne'. rewrite Hbit by done. rewrite (proj2 (Z.eqb_neq (Z.land h 31) i)) by congruence. by rewrite andb_true_r.
      * rewrite listens_write; [|done|done|].
        { rewrite Z.eqb_refl, Hbit, Z.eqb_refl, andb_false_r by done. rewrite E. done. }
        intros i Hi Hne'. rewrite Hbit by done. rewrite (proj2 (Z.eqb_neq (Z.land h 31) i)) by congruence. by rewrite andb_true_r.
    + rewrite wp_ret. apply (Hkeep (e_hw w)); [done|]. rewrite F4 by done.
      by rewrite (proj2 (Z.ltb_lt 0 (c h))), (proj2 (Z.ltb_lt 0 (c h - 1))) by lia.
Qed.

(** after any legal sequence of joins and leaves the filter accepts
    exactly the hashes that are joined: no group is cut off by another that
    shares its hash and is left, none stays when its last member leaves. *)
Theorem enet_multicast_filter (w : W) (ops : list mop) :
  filtered w (fun _ => 0) -> legal ops (fun _ => 0) ->
  wp (mrun ops) (fun _ w' => forall a,
    let c := fold_left (fun c o => count_step o c) ops (fun _ => 0) in
    listens (e_hw w') (multicast_hash a) = (0 <? c (multicast_hash a))) w.
Proof.
  generalize (fun _ : Z => 0) as c. revert w. induction ops as [|o ops IH]; intros w c HF HL; cbn [mrun].
  - rewrite wp_ret. intros a. by apply HF, multicast_hash_bound.
  - destruct HL as [HO HL]. rewrite wp_bind. apply (mstep_run o w c); [done|done|]. intros w' HF'. cbn [fold_left]. by apply IH.
Qed.
End Filter.
