(* ===== verification/EnetTx.v ===== *)
(** * What the engine is given to send

    [pending]: from place [p] on, as many descriptors belong to the engine as
    there are segments waiting, each describing one of them; the others are
    free.  Sending adds segments behind, the engine takes them off in front.
    [ENET_SendFrame] adds the segments of the frame's data, or, when it runs
    out of free descriptors in the middle, only the first of them. *)

From stdpp Require Import base list numbers tactics.
From Stdlib Require Import ZArith Lia.
From S2P Require Import Prelude Bytes Mmio Enet EnetFrames EnetRing.

Open Scope Z_scope.
Open Scope prog_scope.

(** The bytes of a buffer, and whether it ends a frame. *)
Definition seg : Type := list Z * bool.

(** A frame's data in buffers of [size] bytes. *)
Fixpoint cut (n : nat) (size : Z) (l : list Z) : list seg :=
  match n with
  | O => []
  | S n => if Z.of_nat (length l) <=? size then [(l, true)]
           else (take (Z.to_nat size) l, false) :: cut n size (drop (Z.to_nat size) l)
  end.
Definition segments (size : Z) (l : list Z) : list seg := cut (S (length l)) size l.

Lemma cut_enough n : forall size l, 0 < size -> (length l < n)%nat -> cut n size l = segments size l.
Proof.
  unfold segments. induction n as [|n IH]; intros size l Hs Hn; [lia|]. cbn [cut].
  destruct (Z.leb_spec (Z.of_nat (length l)) size); [done|]. f_equal.
  assert (Hd : length (drop (Z.to_nat size) l) = (length l - Z.to_nat size)%nat) by apply length_drop.
  assert (G : forall m, (length (drop (Z.to_nat size) l) < m)%nat -> (m <= n)%nat ->
    cut m size (drop (Z.to_nat size) l) = cut (S (length (drop (Z.to_nat size) l))) size (drop (Z.to_nat size) l)).
  { clear - IH Hs. intros m. revert IH. generalize (drop (Z.to_nat size) l) as l'. intros l' IH H1 H2.
    destruct (decide (m = n)) as [->|]; [by apply IH|].
    rewrite <- (IH size l') by lia. clear - H1 H2 Hs. revert l' n H1 H2. induction m as [|m IHm]; intros l' n H1 H2; [lia|].
    destruct n as [|n]; [lia|]. cbn [cut]. destruct (Z.leb_spec (Z.of_nat (length l')) size); [done|]. f_equal.
    apply IHm; [rewrite length_drop; lia|lia]. }
  rewrite G by lia. symmetry. apply G; lia.
Qed.

Lemma segments_step size l :
  0 < size -> segments size l =
  if Z.of_nat (length l) <=? size then [(l, true)]
  else (take (Z.to_nat size) l, false) :: segments size (drop (Z.to_nat size) l).
Proof.
  intros Hs. unfold segments at 1. cbn [cut]. destruct (Z.leb_spec (Z.of_nat (length l)) size); [done|]. f_equal.
  apply cut_enough; [done|]. rewrite length_drop. lia.
Qed.

Section Tx.
Context {D A : Type} `{!Device enet_reg D} {F : EnetFields} {X : EnetFeatures}.
Abbreviation W := (enet_world D A).

(** The controller as far as the data path looks at it: the frame length
    limit and the promiscuous mode are settings that the data path does not
    change. *)
Class EnetLaws := {
  tx_limit : D -> Z;
  promisc : D -> bool;
  settings (d d' : D) := tx_limit d' = tx_limit d /\ promisc d' = promisc d;
  read_limit d : u32 (Z.shiftr (Z.land (reg_read RCR d).1 ENET_RCR_MAX_FL_MASK) ENET_RCR_MAX_FL_SHIFT - ENET_FRAME_CRC_LEN) = tx_limit d;
  read_promisc d : has (reg_read RCR d).1 ENET_RCR_PROM_MASK = promisc d;
  read_keeps r d : settings d (reg_read r d).2;
  activate_keeps r v d : r = TDAR \/ r = TDAR1 \/ r = TDAR2 \/ r = RDAR \/ r = RDAR1 \/ r = RDAR2 -> settings d (reg_write r v d)
}.
Context {L : EnetLaws}.

Lemma settings_refl d : settings d d.
Proof. done. Qed.
Lemma settings_trans d1 d2 d3 : settings d1 d2 -> settings d2 d3 -> settings d1 d3.
Proof. unfold settings. intros [? ?] [? ?]. split; congruence. Qed.

(** ** The ring *)

Record tx_ok (t : enet_tx_ring) : Prop := {
  tx_len : Z.of_nat (length (txBd t)) = txRingLen t;
  tx_num : 0 < txRingLen t < 2 ^ 16;
  tx_gen : 0 <= txGenIdx t < txRingLen t;
  tx_cons : 0 <= txConsumIdx t < txRingLen t;
  tx_wraps : forall i, 0 <= i < txRingLen t -> wraps (tat t i) = (i =? txRingLen t - 1);
  tx_size : 0 < txBuffSizeAlign t < 2 ^ 16
}.

Definition buf (d : enet_tx_bd) : Z := dma2local (tx_buffer d).
Definition matches (mem : Z -> Z) (d : enet_tx_bd) (s : seg) : Prop :=
  ready d = true /\ last d = s.2 /\ 0 <= tx_length d < 2 ^ 16 /\ bytes_at mem (buf d) (tx_length d) = s.1.

Record pending (mem : Z -> Z) (p : Z) (P : list seg) (t : enet_tx_ring) : Prop := {
  pend_place : 0 <= p < txRingLen t;
  pend_fit : Z.of_nat (length P) <= txRingLen t;
  pend_gen : txGenIdx t = slot (txRingLen t) p (Z.of_nat (length P));
  pend_busy : forall k s, P !! k = Some s -> matches mem (tat t (slot (txRingLen t) p (Z.of_nat k))) s;
  pend_idle : forall k, Z.of_nat (length P) <= k < txRingLen t -> ready (tat t (slot (txRingLen t) p k)) = false
}.

(** [t'] is [t] with the [k] descriptors from [txGenIdx] on taken. *)
Record grown (t t' : enet_tx_ring) (k : Z) : Prop := {
  grown_len : length (txBd t') = length (txBd t);
  grown_num : txRingLen t' = txRingLen t;
  grown_size : txBuffSizeAlign t' = txBuffSizeAlign t;
  grown_cons : txConsumIdx t' = txConsumIdx t;
  grown_gen : txGenIdx t' = slot (txRingLen t) (txGenIdx t) k;
  grown_others : forall j, k <= j < txRingLen t ->
    tat t' (slot (txRingLen t) (txGenIdx t) j) = tat t (slot (txRingLen t) (txGenIdx t) j);
  grown_wraps : forall i, 0 <= i < txRingLen t -> wraps (tat t' i) = wraps (tat t i)
}.

Lemma grown_refl t : tx_ok t -> grown t t 0.
Proof. intros [? ? ? ? ? ?]. split; try done. by rewrite slot_0. Qed.

Lemma grown_trans t1 t2 t3 k1 k2 :
  tx_ok t1 -> 0 <= k1 -> 0 <= k2 -> grown t1 t2 k1 -> grown t2 t3 k2 -> grown t1 t3 (k1 + k2).
Proof.
  intros Hok H1 H2 G1 G2. destruct G1 as [A1 A2 A3 A4 A5 A6 A7], G2 as [B1 B2 B3 B4 B5 B6 B7].
  assert (Hn := tx_num _ Hok).
  split; [congruence|congruence|congruence|congruence| | |].
  - rewrite B5, A2, A5. apply slot_slot. lia.
  - intros j Hj. rewrite <- A6 by lia. specialize (B6 (j - k1)). rewrite A2, A5, !slot_slot in B6 by lia.
    replace (k1 + (j - k1)) with j in B6 by lia. apply B6. lia.
  - intros i Hi. rewrite B7, A7 by (rewrite ?A2; done). done.
Qed.

Lemma grown_ok t t' k : tx_ok t -> grown t t' k -> tx_ok t'.
Proof.
  intros [? ? ? ? ? ?] [A1 A2 A3 A4 A5 A6 A7]. split; rewrite ?A2, ?A3, ?A4; try done.
  - by rewrite A1.
  - rewrite A5. apply slot_bound. lia.
  - intros i Hi. rewrite A7 by done. auto.
Qed.

(** A place behind the waiting segments is filled. *)
Lemma pending_push mem mem' p P t t' s :
  tx_ok t -> pending mem p P t -> Z.of_nat (length P) < txRingLen t -> grown t t' 1 ->
  matches mem' (tat t' (txGenIdx t)) s ->
  (forall k s, P !! k = Some s -> let d := tat t (slot (txRingLen t) p (Z.of_nat k)) in
    bytes_at mem' (buf d) (tx_length d) = bytes_at mem (buf d) (tx_length d)) ->
  pending mem' p (P ++ [s]) t'.
Proof.
  intros Hok [H1 H2 H3 H4 H5] Hlt [A1 A2 A3 A4 A5 A6 A7] Hs Hkeep. assert (Hn := tx_num _ Hok).
  assert (Hslot : forall k, 0 <= k < txRingLen t -> k <> Z.of_nat (length P) ->
    tat t' (slot (txRingLen t) p k) = tat t (slot (txRingLen t) p k)).
  { intros k Hk Hne. set (n := Z.of_nat (length P)) in *.
    destruct (slot_onto (txRingLen t) (txGenIdx t) (slot (txRingLen t) p k)) as (j & Hj & Ej); [apply slot_bound; lia|].
    rewrite Ej. apply A6. destruct (decide (j = 0)) as [->|]; [|lia]. exfalso. apply Hne.
    rewrite slot_0 in Ej by (rewrite H3; apply slot_bound; lia). rewrite H3 in Ej. by apply slot_inj in Ej; [|lia|lia]. }
  split; rewrite ?A2, ?length_app; cbn [length].
  - done.
  - lia.
  - rewrite A5, H3, slot_slot by lia. f_equal. lia.
  - intros k s' Hk. apply lookup_app_Some in Hk as [Hk|[Hk1 Hk2]].
    + assert (Hkl := lookup_lt_Some _ _ _ Hk). rewrite Hslot by lia. destruct (H4 k s' Hk) as (M1 & M2 & M3 & M4).
      split; [done|split; [done|split; [done|]]]. rewrite <- M4. by apply (Hkeep k s').
    + destruct (k - length P)%nat as [|] eqn:E; [|by destruct n]. injection Hk2 as <-.
      replace k with (length P) by lia. by rewrite <- H3.
  - intros k Hk. rewrite Hslot by lia. apply H5. lia.
Qed.

(** ** Filling descriptors *)

(** The buffers of the ring are apart, and apart from [n] bytes at [src]. *)
Definition buffers_ok (t : enet_tx_ring) (src n : Z) : Prop :=
  (forall i j, 0 <= i < txRingLen t -> 0 <= j < txRingLen t -> i <> j ->
    apart (buf (tat t i)) (txBuffSizeAlign t) (buf (tat t j)) (txBuffSizeAlign t)) /\
  (forall i, 0 <= i < txRingLen t -> apart (buf (tat t i)) (txBuffSizeAlign t) src n).
Definition short (t : enet_tx_ring) (P : list seg) : Prop :=
  Forall (fun s : seg => Z.of_nat (length s.1) <= txBuffSizeAlign t) P.

(** [w'] is [w] with the segments [S] behind those waiting, and the frame
    information [r]. *)
Record sent (w w' : W) (p : Z) (P S : list seg) (used : Z) (r : enet_dirty_ring) : Prop := {
  sent_hw : settings (e_hw w) (e_hw w');
  sent_app : e_app w' = e_app w;
  sent_h : e_h w' = set_dirty r (set_tx (txr w') (e_h w));
  sent_pending : pending (e_mem w') p (P ++ S) (txr w');
  sent_grown : grown (txr w) (txr w') (Z.of_nat (length S));
  sent_used : txDescUsed (txr w') = used;
  sent_bufs : forall i, 0 <= i < txRingLen (txr w) -> tx_buffer (tat (txr w') i) = tx_buffer (tat (txr w) i);
  sent_mem : forall x, (forall i, 0 <= i < txRingLen (txr w) ->
    ~ (buf (tat (txr w) i) <= x < buf (tat (txr w) i) + txBuffSizeAlign (txr w))) -> e_mem w' x = e_mem w x
}.

Lemma sent_trans w1 w2 w3 p P S1 S2 u r1 u2 r2 :
  tx_ok (txr w1) -> sent w1 w2 p P S1 u r1 -> sent w2 w3 p (P ++ S1) S2 u2 r2 -> sent w1 w3 p P (S1 ++ S2) u2 r2.
Proof.
  intros Hok [A1 A2 A3 A4 A5 A6 A7 A8] [B1 B2 B3 B4 B5 B6 B7 B8]. assert (G := A5). destruct G as [_ G2 G3 _ _ _ _].
  split.
  - by apply (settings_trans _ (e_hw w2)).
  - congruence.
  - rewrite B3, A3. done.
  - by rewrite app_assoc.
  - rewrite length_app, Nat2Z.inj_add. apply (grown_trans _ (txr w2)); [done|lia|lia|done|done].
  - done.
  - intros i Hi. rewrite B7, A7 by (rewrite ?G2; done). done.
  - intros x Hx. rewrite B8, A8; [done|done|]. intros i Hi. rewrite G2 in Hi. unfold buf. rewrite A7, G3 by done. by apply Hx.
Qed.

Lemma grown_fill t f u :
  tx_ok t -> (forall d, wraps (f d) = wraps d) ->
  grown t (set_tx_used u (set_tx_gen ((txGenIdx t + 1) mod txRingLen t) (tput (txGenIdx t) f t))) 1.
Proof.
  intros [H1 H2 H3 H4 H5 H6] Hf. split; try done.
  - apply length_tput.
  - intros j Hj. change (tat (set_tx_used _ (set_tx_gen _ ?x)) ?i) with (tat x i).
    change (tat (tput (txGenIdx t) f t) (slot (txRingLen t) (txGenIdx t) j) = tat t (slot (txRingLen t) (txGenIdx t) j)).
    assert (Hs := slot_bound (txRingLen t) (txGenIdx t) j ltac:(lia)). apply tat_put_ne; [lia|lia|].
    intros E. rewrite <- (slot_0 (txRingLen t) (txGenIdx t)) in E at 1 by done. apply slot_inj in E; lia.
  - intros i Hi. change (wraps (tat (tput (txGenIdx t) f t) i) = wraps (tat t i)).
    destruct (decide (txGenIdx t = i)) as [<-|Hne]; [by rewrite tat_put_eq by lia|by rewrite tat_put_ne by lia].
Qed.

(** One descriptor, with bytes [b] copied to its buffer. *)
Lemma part_sent w d p P f u b fl src n r :
  let t := txr w in
  let t' := set_tx_used u (set_tx_gen ((txGenIdx t + 1) mod txRingLen t) (tput (txGenIdx t) f t)) in
  tx_ok t -> pending (e_mem w) p P t -> Z.of_nat (length P) < txRingLen t -> buffers_ok t src n -> short t P ->
  settings (e_hw w) d -> Z.of_nat (length b) <= txBuffSizeAlign t ->
  (forall d, tx_buffer (f d) = tx_buffer d /\ wraps (f d) = wraps d) ->
  (let d := f (tat t (txGenIdx t)) in ready d = true /\ last d = fl /\ tx_length d = Z.of_nat (length b)) ->
  sent w (with_hw d (with_dirty r (with_tx t' (with_mem (mem_write (buf (tat t (txGenIdx t))) b (e_mem w)) w)))) p P [(b, fl)] u r.
Proof.
  intros t t' Hok HP Hlt [Hap _] Hshort Hd Hb Hf Hf1. assert (Hok' := Hok). destruct Hok' as [H1 H2 H3 H4 H5 H6].
  assert (Hg : grown t t' 1) by (apply grown_fill; [done|by intros; apply Hf]).
  assert (E1 : tat t' (txGenIdx t) = f (tat t (txGenIdx t))) by (apply tat_put_eq; lia).
  split; try done; change (txr (with_hw _ _)) with t'.
  - apply (pending_push (e_mem w) _ _ _ t); [done|done|done|done| |].
    + destruct Hf1 as (F1 & F2 & F3). unfold matches. rewrite E1. split; [done|]. split; [done|]. rewrite F3. split; [lia|].
      unfold buf at 2. rewrite (proj1 (Hf _)). apply bytes_at_stored.
    + intros k s Hk. cbv zeta. apply bytes_at_apart. assert (Hkl := lookup_lt_Some _ _ _ Hk).
      destruct (pend_busy _ _ _ _ HP k s Hk) as (_ & _ & M3 & M4).
      assert (Hs := Forall_lookup_1 _ _ _ _ Hshort Hk). cbn beta in Hs.
      rewrite <- M4, bytes_at_length in Hs.
      assert (Hne : txGenIdx t <> slot (txRingLen t) p (Z.of_nat k)).
      { rewrite (pend_gen _ _ _ _ HP). intros E. apply slot_inj in E; lia. }
      assert (Hsl := slot_bound (txRingLen t) p (Z.of_nat k) ltac:(lia)).
      specialize (Hap (txGenIdx t) (slot (txRingLen t) p (Z.of_nat k)) ltac:(lia) ltac:(lia) Hne). unfold apart in *. lia.
  - intros i Hi. change (tx_buffer (tat (tput (txGenIdx t) f t) i) = tx_buffer (tat t i)).
    destruct (decide (txGenIdx t = i)) as [<-|Hne]; [by rewrite tat_put_eq, (proj1 (Hf _)) by lia|by rewrite tat_put_ne by lia].
  - intros x Hx. cbn [e_mem with_hw with_dirty with_tx with_mem]. apply mem_write_out. specialize (Hx (txGenIdx t) H3). fold t in Hx. lia.
Qed.

Context (ringId : Z) (ring_ok : ringId < ENET_QUEUE).

Lemma wp_keeps {B} (r : enet_reg) (f : Z -> M D B) (Q : B -> D -> Prop) (d : D) :
  (forall d', settings d d' -> wp (f (reg_read r d).1) Q d') -> wp (x <- rd r ;; f x) Q d.
Proof.
  intros H. rewrite wp_bind. unfold wp at 1, rd. assert (K := read_keeps r d). destruct (reg_read r d) as [x d']. by apply H.
Qed.

Lemma activate_run w (Q : unit -> W -> Prop) :
  (forall d, settings (e_hw w) d -> Q tt (with_hw d w)) -> wp (on_enet (ENET_ActiveSendRing ringId)) Q w.
Proof.
  intros HQ. rewrite wp_on_enet. unfold ENET_ActiveSendRing. rewrite wp_bind, wp_assert by (apply Z.ltb_lt; exact ring_ok).
  cbv zeta. set (r := if (1 <? ENET_QUEUE) && (ringId =? 1) then TDAR1 else (_ : enet_reg)).
  assert (Hr : r = TDAR \/ r = TDAR1 \/ r = TDAR2).
  { unfold r. destruct ((1 <? ENET_QUEUE) && (ringId =? 1)); [auto|]. destruct ((1 <? ENET_QUEUE) && (ringId =? 2)); auto. }
  clearbody r. assert (Hwr : forall d, settings (e_hw w) d -> wp (wr r 0) (fun a d => Q a (with_hw d w)) d).
  { intros d Hd. unfold wp, wr. apply HQ. apply (settings_trans _ d); [done|]. apply activate_keeps. tauto. }
  assert (Hread : forall n d, settings (e_hw w) d -> wp (read_until_zero n r) (fun _ d => settings (e_hw w) d) d).
  { induction n as [|n IH]; intros d Hd; cbn [read_until_zero]; [by rewrite wp_ret|]. apply wp_keeps. intros d' Hd'.
    assert (Hd2 := settings_trans _ _ _ Hd Hd'). destruct (_ =? 0); [by rewrite wp_ret|by apply IH]. }
  rewrite wp_bind. destruct HAS_ERRATA_007885; [|rewrite wp_ret; by apply Hwr].
  eapply wp_mono; [by apply Hread|]. intros a d Hd. by apply Hwr.
Qed.

(** What the time stamp flag of a descriptor leaves alone. *)
Definition same_desc (f : enet_tx_bd -> enet_tx_bd) : Prop :=
  forall d, tx_buffer (f d) = tx_buffer d /\ tx_control (f d) = tx_control d /\ tx_length (f d) = tx_length d.

Lemma timestamp_run ts i w (Q : unit -> W -> Prop) :
  0 <= i < Z.of_nat (length (txBd (txr w))) ->
  (forall f, same_desc f -> Q tt (with_tx (tput i f (txr w)) w)) -> wp (set_timestamp_flag ts i) Q w.
Proof.
  intros Hi HQ. unfold set_timestamp_flag. destruct ENHANCEDBUFFERDESCRIPTOR_MODE.
  - rewrite wp_tx_put by done. by apply HQ.
  - rewrite wp_ret. specialize (HQ (fun d => d)). rewrite tput_id in HQ by done. destruct w as [? [] ? ?]. by apply HQ.
Qed.

(** ** Frame information *)

Record dirty_ok (r : enet_dirty_ring) : Prop := {
  dirty_len : Z.of_nat (length (txDirty r)) = dRingLen r;
  dirty_num : 0 < dRingLen r < 2 ^ 16;
  dirty_gen : 0 <= dGenIdx r < dRingLen r;
  dirty_cons : 0 <= dConsumIdx r < dRingLen r
}.
Definition info_null : enet_frame_info := FrameInfo 0 false 0 0.
Definition dat (r : enet_dirty_ring) (i : Z) : enet_frame_info := nth (Z.to_nat i) (txDirty r) info_null.
Definition dirty_add (c : Z) (r : enet_dirty_ring) : enet_dirty_ring :=
  let i := dat r (dGenIdx r) in
  let g := (dGenIdx r + 1) mod dRingLen r in
  DirtyRing (<[Z.to_nat (dGenIdx r) := FrameInfo c (isTsAvail i) (ts_second i) (ts_nanosecond i)]> (txDirty r))
    g (dConsumIdx r) (dRingLen r) (if g =? dConsumIdx r then true else isFull r).

Lemma wp_add_context c (Q : unit -> W -> Prop) w :
  dirty_ok (dirtyr w) -> wp (add_context c) Q w <-> Q tt (with_dirty (dirty_add c (dirtyr w)) w).
Proof.
  intros [H1 H2 H3 H4]. unfold add_context. rewrite wp_bind, wp_hand. change (h_dirty (e_h w)) with (dirtyr w).
  rewrite wp_bind, (wp_lift _ _ _ _ (aget_nth (txDirty (dirtyr w)) (dGenIdx (dirtyr w)) info_null ltac:(lia))).
  rewrite wp_bind, (wp_lift _ _ _ _ (aset_ok (txDirty (dirtyr w)) (dGenIdx (dirtyr w)) _ ltac:(lia))), wp_bind, wp_upd_dirty.
  rewrite wp_bind, (wp_lift _ _ _ _ (increase_index (dGenIdx (dirtyr w)) (dRingLen (dirtyr w)) H3 (proj2 H2))).
  rewrite wp_bind, wp_upd_dirty. unfold dirty_add. cbv zeta.
  destruct (_ =? dConsumIdx (dirtyr w)); [by rewrite wp_upd_dirty|by rewrite wp_ret].
Qed.

(** ** [ENET_SendFrame] *)

(** The segments that fit, and what the call answers. *)
Definition fit (t : enet_tx_ring) (P S : list seg) : bool := Z.of_nat (length P + length S) <=? txRingLen t.
Definition taken (t : enet_tx_ring) (P S : list seg) : list seg := take (Z.to_nat (txRingLen t) - length P) S.
Definition used_after (w : W) (S : list seg) : Z :=
  if txReclaimEnable (e_h w) then (txDescUsed (txr w) + Z.of_nat (length S)) mod 2 ^ 16 else txDescUsed (txr w).
Definition context_after (w : W) (b : bool) (c : Z) : enet_dirty_ring :=
  if txReclaimEnable (e_h w) && b then dirty_add c (dirtyr w) else dirtyr w.

Lemma used_after_add w w' S1 S2 :
  txReclaimEnable (e_h w') = txReclaimEnable (e_h w) -> txDescUsed (txr w') = used_after w S1 ->
  used_after w' S2 = used_after w (S1 ++ S2).
Proof.
  intros E1 E2. unfold used_after in *. rewrite E1, E2. destruct (txReclaimEnable (e_h w)); [|done].
  rewrite length_app, Zplus_mod_idemp_l. f_equal. lia.
Qed.

(** A use of one descriptor, as the code writes it. *)
Lemma wp_use_desc (b : bool) (Q : unit -> W -> Prop) w :
  wp (when b use_desc) Q w <-> Q tt (if b then with_tx (set_tx_used (u16 (txDescUsed (txr w) + 1)) (txr w)) w else w).
Proof. by destruct b. Qed.

(** One part of a frame, filled in as [send_parts] does; [m] does the
    accounting, [r] is the frame information after it. *)
Lemma part_run cur f1 g src x bs fl p P s0 n r (m : M W unit) (k : M W status_t) w (Q : status_t -> W -> Prop) :
  let t := txr w in
  cur = txGenIdx t -> tx_ok t -> pending (e_mem w) p P t -> Z.of_nat (length P) < txRingLen t -> buffers_ok t s0 n -> short t P ->
  same_desc f1 ->
  (forall d, tx_buffer (g d) = tx_buffer d /\ wraps (g d) = wraps d /\ ready (g d) = true /\ last (g d) = fl /\ tx_length (g d) = tx_length d) ->
  x = Z.of_nat (length bs) -> x <= txBuffSizeAlign t -> bytes_at (e_mem w) src x = bs ->
  (forall w3 (Q' : unit -> W -> Prop), dirtyr w3 = dirtyr w -> txReclaimEnable (e_h w3) = txReclaimEnable (e_h w) ->
    Q' tt (with_dirty r (with_tx (set_tx_used (if txReclaimEnable (e_h w) then u16 (txDescUsed (txr w3) + 1) else txDescUsed (txr w3)) (txr w3)) w3)) ->
    wp m Q' w3) ->
  (forall w', sent w w' p P [(bs, fl)] (used_after w [(bs, fl)]) r -> wp k Q w') ->
  wp (copy (buf (tat t cur)) src x ;; tx_put cur (set_tx_length x) ;; tx_put cur g ;; m ;; on_enet (ENET_ActiveSendRing ringId) ;; k) Q
    (with_tx (set_tx_gen ((cur + 1) mod txRingLen t) (tput cur f1 t)) w).
Proof.
  intros t Hcur Hok HP Hlt Hbufs Hshort Hf1 Hg Hx Hxs Hsrc Hm Hk. subst cur. assert (Hok' := Hok). destruct Hok' as [H1 H2 H3 H4 H5 H6].
  assert (Hi : 0 <= txGenIdx t < Z.of_nat (length (txBd t))) by lia.
  rewrite wp_bind, wp_copy, wp_bind. cbn [e_mem with_tx]. rewrite Hsrc.
  set (w3 := with_mem _ _). change (txr w3) with (set_tx_gen ((txGenIdx t + 1) mod txRingLen t) (tput (txGenIdx t) f1 t)).
  assert (Hi' : forall f, 0 <= txGenIdx t < Z.of_nat (length (txBd (set_tx_gen ((txGenIdx t + 1) mod txRingLen t) (tput (txGenIdx t) f t))))).
  { intros f. cbn [txBd set_tx_gen]. rewrite length_tput. exact Hi. }
  rewrite (wp_tx_put (txGenIdx t) _ _ w3 (Hi' f1)).
  change (tput (txGenIdx t) (set_tx_length x) (txr w3)) with
    (set_tx_gen ((txGenIdx t + 1) mod txRingLen t) (tput (txGenIdx t) (set_tx_length x) (tput (txGenIdx t) f1 t))).
  rewrite tput_tput by done. set (f2 := fun d => set_tx_length x (f1 d)). set (w4 := with_tx _ w3).
  assert (E4 : txr w4 = set_tx_gen ((txGenIdx t + 1) mod txRingLen t) (tput (txGenIdx t) f2 t)) by done.
  rewrite wp_bind, (wp_tx_put (txGenIdx t) _ _ w4 (Hi' f2)), E4.
  change (tput (txGenIdx t) g (set_tx_gen ?y ?z)) with (set_tx_gen y (tput (txGenIdx t) g z)).
  rewrite tput_tput by done. set (f3 := fun d => g (f2 d)). rewrite wp_bind. apply Hm; [done|done|].
  rewrite wp_bind. apply activate_run. intros d Hd. apply Hk.
  assert (Hf3 : forall d, tx_buffer (f3 d) = tx_buffer d /\ wraps (f3 d) = wraps d).
  { intros d0. unfold f3, f2. destruct (Hg (set_tx_length x (f1 d0))) as (G1 & G2 & _). destruct (Hf1 d0) as (F1 & F2 & _).
    rewrite G1, G2. split; [exact F1|]. unfold wraps. cbn. by rewrite F2. }
  assert (HX := fun a b c => part_sent w d p P f3 (used_after w [(bs, fl)]) bs fl s0 n r Hok HP Hlt Hbufs Hshort Hd a b c).
  cbv zeta in HX. unfold used_after in *. cbn [length] in HX. apply HX; [by rewrite <- Hx|done|].
  destruct (Hg (f2 (tat t (txGenIdx t)))) as (_ & _ & G3 & G4 & G5). rewrite <- Hx. split; [exact G3|split; [exact G4|exact G5]].
Qed.

Lemma with_same_dirty (w : W) : with_dirty (dirtyr w) w = w.
Proof. by destruct w as [? [] ? ?]. Qed.

(** The accounting of a part that is not the last, and of the last. *)
Lemma use_run (w w3 : W) (Q : unit -> W -> Prop) : dirtyr w3 = dirtyr w -> txReclaimEnable (e_h w3) = txReclaimEnable (e_h w) ->
  Q tt (with_dirty (dirtyr w) (with_tx (set_tx_used
    (if txReclaimEnable (e_h w) then u16 (txDescUsed (txr w3) + 1) else txDescUsed (txr w3)) (txr w3)) w3)) ->
  wp (when (txReclaimEnable (e_h w)) use_desc) Q w3.
Proof.
  intros <- E HQ. rewrite wp_use_desc. destruct (txReclaimEnable (e_h w)); [by destruct w3 as [? [] ? ?]|].
  by destruct w3 as [? [? [] ? ? ? ? ? ? ?] ? ?].
Qed.

Lemma close_run c (w w3 : W) (Q : unit -> W -> Prop) : dirtyr w3 = dirtyr w -> txReclaimEnable (e_h w3) = txReclaimEnable (e_h w) ->
  (txReclaimEnable (e_h w) = true -> dirty_ok (dirtyr w)) ->
  Q tt (with_dirty (context_after w true c) (with_tx (set_tx_used
    (if txReclaimEnable (e_h w) then u16 (txDescUsed (txr w3) + 1) else txDescUsed (txr w3)) (txr w3)) w3)) ->
  wp (when (txReclaimEnable (e_h w)) (add_context c ;; use_desc)) Q w3.
Proof.
  intros E1 E2 Hd HQ. unfold context_after in HQ. rewrite andb_true_r in HQ. destruct (txReclaimEnable (e_h w)) eqn:E.
  - rewrite wp_bind, wp_add_context by (rewrite E1; by apply Hd). unfold use_desc. rewrite wp_upd_tx, E1. exact HQ.
  - rewrite wp_ret. rewrite <- E1 in HQ. by destruct w3 as [? [? [] ? ? ? ? ? ? ?] ? ?].
Qed.

(** The next descriptor is free exactly when there is room behind the
    segments. *)
Lemma next_ready mem p P t :
  tx_ok t -> pending mem p P t -> ready (tat t (txGenIdx t)) = (Z.of_nat (length P) =? txRingLen t).
Proof.
  intros Hok [H1 H2 H3 H4 H5]. assert (Hn := tx_num _ Hok). rewrite H3. destruct (Z.eqb_spec (Z.of_nat (length P)) (txRingLen t)) as [E|E].
  - destruct (lookup_lt_is_Some_2 P 0%nat) as [s Hs]; [lia|]. destruct (H4 _ _ Hs) as [M _].
    rewrite E. replace (txRingLen t) with (0 + txRingLen t) at 2 by lia. by rewrite slot_full by lia.
  - apply H5. lia.
Qed.

Lemma grown_bufs t t' k src n : grown t t' k -> (forall i, 0 <= i < txRingLen t -> tx_buffer (tat t' i) = tx_buffer (tat t i)) ->
  buffers_ok t src n -> buffers_ok t' src n.
Proof.
  intros [_ G2 G3 _ _ _ _] Hb [B1 B2]. unfold buffers_ok, buf in *. rewrite G2, G3. split.
  - intros i j Hi Hj Hne. rewrite !Hb by done. by apply B1.
  - intros i Hi. rewrite Hb by done. by apply B2.
Qed.
End Tx.
