(* ===== verification/EnetSend.v ===== *)
(** * Sending a frame: what [ENET_SendFrame] answers and leaves

    The exact effect of the copying interface on the segments waiting in the
    ring, on each branch: the frame is refused, queued as a whole, or queued
    in part. *)

From stdpp Require Import base list numbers tactics.
From Stdlib Require Import ZArith Lia.
From S2P Require Import Prelude Bytes Mmio Enet EnetFrames EnetRing EnetTx.

Open Scope Z_scope.
Open Scope prog_scope.

Section Send.
Context {D A : Type} `{!Device enet_reg D} {F : EnetFields} {X : EnetFeatures} {L : EnetLaws}.
Abbreviation W := (enet_world D A).
Context (ringId : Z) (ring_ok : ringId < ENET_QUEUE).

Lemma sent_keep (w w' : W) p P S u r : sent w w' p P S u r -> tx_ok (txr w) ->
  tx_ok (txr w') /\ txRingLen (txr w') = txRingLen (txr w) /\ txBuffSizeAlign (txr w') = txBuffSizeAlign (txr w) /\
  dirtyr w' = r /\ txReclaimEnable (e_h w') = txReclaimEnable (e_h w).
Proof.
  intros [_ _ H3 _ H5 _ _ _] Hok. split; [by apply (grown_ok (txr w) _ (Z.of_nat (length S)))|].
  destruct H5 as [_ G2 G3 _ _ _ _]. repeat split; [done|done| |]; unfold dirtyr; by rewrite H3.
Qed.

(** Memory away from the buffers is as before. *)
Lemma sent_bytes (w w' : W) p P S u r n : sent w w' p P S u r -> forall src k, buffers_ok (txr w) src n -> 0 < n -> 0 <= k ->
  forall m, k + m <= n -> bytes_at (e_mem w') (src + k) m = bytes_at (e_mem w) (src + k) m.
Proof.
  intros [_ _ _ _ _ _ _ H8] src k [_ Hap] Hn Hk m Hm. apply bytes_at_agree. intros x Hx. apply H8. intros i Hi Hb.
  specialize (Hap i Hi). unfold apart in Hap. lia.
Qed.

Lemma fit_step t t' P s S : txRingLen t' = txRingLen t -> fit t P (s :: S) = fit t' (P ++ [s]) S.
Proof. intros E. unfold fit. rewrite E, length_app. cbn [length]. f_equal. lia. Qed.

Lemma taken_step t t' P s S : txRingLen t' = txRingLen t -> Z.of_nat (length P) < txRingLen t ->
  taken t P (s :: S) = s :: taken t' (P ++ [s]) S.
Proof.
  intros E H. unfold taken. rewrite E, length_app. cbn [length].
  replace (Z.to_nat (txRingLen t) - length P)%nat with (Datatypes.S (Z.to_nat (txRingLen t) - (length P + 1))) by lia. done.
Qed.

Lemma segments_nonempty size l : segments size l <> [].
Proof. unfold segments. cbn [cut]. by destruct (_ <=? size). Qed.

(** After one part: the ring is full, or the rest goes behind it. *)
Lemma sent_more w w' p P s S u c (Q : status_t -> W -> Prop) : S <> [] ->
  tx_ok (txr w) -> Z.of_nat (length P) < txRingLen (txr w) -> u = used_after w [s] ->
  sent w w' p P [s] u (dirtyr w) ->
  (forall w2, sent w w2 p P (taken (txr w) P (s :: S)) (used_after w (taken (txr w) P (s :: S))) (context_after w (fit (txr w) P (s :: S)) c) ->
    Q (if fit (txr w) P (s :: S) then kStatus_Success else kStatus_ENET_TxFrameBusy) w2) ->
  if Z.of_nat (length P + 1) =? txRingLen (txr w) then Q kStatus_ENET_TxFrameBusy w'
  else forall w2, sent w' w2 p (P ++ [s]) (taken (txr w') (P ++ [s]) S) (used_after w' (taken (txr w') (P ++ [s]) S))
      (context_after w' (fit (txr w') (P ++ [s]) S) c) ->
    Q (if fit (txr w') (P ++ [s]) S then kStatus_Success else kStatus_ENET_TxFrameBusy) w2.
Proof.
  intros HS Hok Hlt Hu Hs HQ. destruct (sent_keep _ _ _ _ _ _ _ Hs Hok) as (_ & E2 & _ & E4 & E5).
  destruct (Z.eqb_spec (Z.of_nat (length P + 1)) (txRingLen (txr w))) as [E|E].
  - assert (Ef : fit (txr w) P (s :: S) = false).
    { apply Z.leb_gt. destruct S; [done|]. cbn [length]. lia. }
    assert (Et : taken (txr w) P (s :: S) = [s]).
    { unfold taken. by replace (Z.to_nat (txRingLen (txr w)) - length P)%nat with 1%nat by lia. }
    specialize (HQ w'). rewrite Ef, Et, <- Hu in HQ. unfold context_after in HQ. rewrite andb_false_r in HQ. by apply HQ.
  - intros w2 Hs2. specialize (HQ w2). rewrite (fit_step _ (txr w')), (taken_step _ (txr w')) in HQ by done. apply HQ.
    assert (Eu : txDescUsed (txr w') = used_after w [s]) by (rewrite <- Hu; apply Hs).
    rewrite (used_after_add w w' [s] _ E5 Eu) in Hs2. cbn [app] in Hs2.
    assert (Ec : context_after w' (fit (txr w') (P ++ [s]) S) c = context_after w (fit (txr w') (P ++ [s]) S) c).
    { unfold context_after. by rewrite E4, E5. }
    rewrite Ec in Hs2. exact (sent_trans w w' w2 p P [s] _ u _ _ _ Hok Hs Hs2).
Qed.

(** The rest [l] of a frame, from [len] on. *)
Lemma send_parts_run ts context data length : forall n (w : W) p P l len (Q : status_t -> W -> Prop),
  let t := txr w in
  let S := segments (txBuffSizeAlign t) l in
  tx_ok t -> pending (e_mem w) p P t -> Z.of_nat (List.length P) < txRingLen t -> txRingLen t - Z.of_nat (List.length P) <= Z.of_nat n ->
  buffers_ok t data length -> short t P -> (txReclaimEnable (e_h w) = true -> dirty_ok (dirtyr w)) ->
  bytes_at (e_mem w) (data + len) (length - len) = l -> 0 <= len <= length -> 0 < length < 2 ^ 32 ->
  (forall w', sent w w' p P (taken t P S) (used_after w (taken t P S)) (context_after w (fit t P S) context) ->
    Q (if fit t P S then kStatus_Success else kStatus_ENET_TxFrameBusy) w') ->
  wp (send_parts ringId n (txGenIdx t) data length len ts context) Q w.
Proof.
  induction n as [|n IH]; intros w p P l len Q t S Hok HP Hlt Hfuel Hbufs Hshort Hdirty Hl Hlen Hlength HQ; [lia|].
  assert (Hok' := Hok). destruct Hok' as [T1 T2 T3 T4 T5 T6]. assert (Hll : Z.of_nat (List.length l) = length - len).
  { rewrite <- Hl, bytes_at_length. lia. }
  assert (ES : S = if length - len <=? txBuffSizeAlign t then [(l, true)]
    else (take (Z.to_nat (txBuffSizeAlign t)) l, false) :: segments (txBuffSizeAlign t) (drop (Z.to_nat (txBuffSizeAlign t)) l)).
  { unfold S. rewrite segments_step by lia. by rewrite Hll. }
  cbn [send_parts]. rewrite wp_bind. apply timestamp_run; [fold t; lia|]. intros f1 Hf1. fold t. cbv zeta.
  rewrite (wrap_small 32 (length - len)) by (pow2; lia). rewrite wp_bind, wp_tx_desc by (cbn [txr with_tx]; unfold txr; cbn; rewrite length_insert; lia).
  change (txr (with_tx ?a w)) with a. rewrite (tat_put_eq (txGenIdx t) f1 t) by lia. rewrite (proj1 (Hf1 _)).
  rewrite wp_bind, wp_next_tx by (cbn; lia). change (txr (with_tx ?a w)) with a. rewrite wp_bind, wp_hand, wp_bind, wp_hand.
  set (w1 := with_tx _ (with_tx _ w)). change (h_tx (e_h w1)) with (txr w1).
  change (txReclaimEnable (e_h w1)) with (txReclaimEnable (e_h w)). change (txBuffSizeAlign (txr w1)) with (txBuffSizeAlign t).
  change w1 with (with_tx (set_tx_gen ((txGenIdx t + 1) mod txRingLen t) (tput (txGenIdx t) f1 t)) w). clear w1.
  change (txr (with_tx ?a w)) with a. change (txGenIdx (set_tx_gen ?i _)) with i.
  destruct (Z.ltb_spec (txBuffSizeAlign t) (length - len)) as [Hmore|Hlast].
  - rewrite (proj2 (Z.leb_gt _ _)) in ES by lia. set (b := take (Z.to_nat (txBuffSizeAlign t)) l) in *. rewrite ES in HQ.
    assert (Hb : Z.of_nat (List.length b) = txBuffSizeAlign t) by (unfold b; rewrite length_take; lia).
    destruct (bytes_at_cut (e_mem w) (data + len) (txBuffSizeAlign t) (length - len)) as [Eb Er]; [lia|]. rewrite Hl in Eb, Er. symmetry in Eb.
    apply (part_run ringId ring_ok (txGenIdx t) f1 not_last (data + len) (txBuffSizeAlign t) b false p P data length (dirtyr w)); try done; try lia.
    + intros d. destruct (part_bits d) as (B1 & B2 & B3). split; [done|]. split; [done|]. split; [done|]. split; done.
    + intros w3 Q' E1 E2 HQ'. by apply (use_run w).
    + intros w' Hs. apply (sent_more w w' p P (b, false) (segments (txBuffSizeAlign t) (drop (Z.to_nat (txBuffSizeAlign t)) l)) _ context Q) in Hs as HQ'; [|apply segments_nonempty|done|done|done|exact HQ].
      destruct (sent_keep _ _ _ _ _ _ _ Hs Hok) as (Hok' & E2 & E3 & E4 & E5). fold t in E2, E3.
      assert (Eg : (txGenIdx t + 1) mod txRingLen t = txGenIdx (txr w')) by (symmetry; apply Hs).
      rewrite Eg, wp_bind, wp_tx_desc by (rewrite (tx_len _ Hok'); apply (tx_gen _ Hok')).
      change (has (tx_control ?d) ENET_BUFFDESCRIPTOR_TX_READY_MASK) with (ready d).
      rewrite (next_ready (e_mem w') p (P ++ [(b, false)])) by (done || apply Hs). rewrite length_app, E2. cbn [List.length].
      fold t in HQ'. destruct (Z.eqb_spec (Z.of_nat (List.length P + 1)) (txRingLen t)); [by rewrite wp_ret|].
      rewrite (wrap_small 32) by (pow2; lia).
      apply (IH w' p (P ++ [(b, false)]) (drop (Z.to_nat (txBuffSizeAlign t)) l)); rewrite ?E2, ?length_app; cbn [List.length]; try done; try lia.
      * apply Hs.
      * apply (grown_bufs t _ 1); [apply Hs|apply Hs|done].
      * unfold short. rewrite E3. apply Forall_app. split; [done|]. constructor; [cbn [fst]; rewrite Hb; done|done].
      * by rewrite E4, E5.
      * rewrite (sent_bytes _ _ _ _ _ _ _ length Hs) by (exact Hbufs || lia).
        rewrite Er. f_equal; lia.
      * rewrite E3. intros w2 Hs2. by apply HQ'.
  - rewrite (proj2 (Z.leb_le _ _)) in ES by lia.
    rewrite (wrap_small 16) by (pow2; lia).
    apply (part_run ringId ring_ok (txGenIdx t) f1 (or_tx_control ready_last) (data + len) (length - len) l true p P data length (context_after w true context));
      try done; try lia.
    + intros d. destruct (last_bits d) as (B1 & B2 & B3). split; [done|]. split; [done|]. split; [done|]. split; done.
    + intros w3 Q' E1 E2 HQ'. by apply (close_run context w).
    + intros w' Hs. rewrite wp_ret. specialize (HQ w').
      assert (Ef : fit t P S = true) by (unfold fit; rewrite ES; cbn [List.length]; apply Z.leb_le; lia).
      assert (Et : taken t P S = [(l, true)]) by (unfold taken; rewrite ES; apply take_ge; cbn [List.length]; lia).
      rewrite Ef, Et in HQ. by apply HQ.
Qed.

(** The descriptor and the context ring of the first part. *)
Definition busy (w : W) (P : list seg) : bool :=
  (Z.of_nat (length P) =? txRingLen (txr w)) || (txReclaimEnable (e_h w) && isFull (dirtyr w)).

(** What [ENET_SendFrame] answers with the segments [P] waiting, and what it
    appends to them. *)
Definition send_answer (w : W) (P : list seg) (l : list Z) : status_t :=
  if tx_limit (e_hw w) <? Z.of_nat (length l) then kStatus_ENET_TxFrameOverLen
  else if busy w P then kStatus_ENET_TxFrameBusy
  else if fit (txr w) P (segments (txBuffSizeAlign (txr w)) l) then kStatus_Success else kStatus_ENET_TxFrameBusy.
Definition send_adds (w : W) (P : list seg) (l : list Z) : list seg :=
  if tx_limit (e_hw w) <? Z.of_nat (length l) then []
  else if busy w P then [] else taken (txr w) P (segments (txBuffSizeAlign (txr w)) l).
Definition send_dirty (w : W) (P : list seg) (l : list Z) (c : Z) : enet_dirty_ring :=
  if send_answer w P l =? kStatus_Success then context_after w true c else dirtyr w.

Lemma sent_nothing (w : W) d p P : tx_ok (txr w) -> pending (e_mem w) p P (txr w) -> settings (e_hw w) d -> 0 <= txDescUsed (txr w) < 2 ^ 16 ->
  sent w (with_hw d w) p P [] (used_after w []) (dirtyr w).
Proof.
  intros Hok HP Hd Hu. split; try done.
  - by destruct w as [? [] ? ?].
  - by rewrite app_nil_r.
  - by apply grown_refl.
  - unfold used_after. destruct (txReclaimEnable (e_h w)); [|done]. cbn [length]. rewrite Z.add_0_r. symmetry. by apply Z.mod_small.
Qed.

(** A frame that fits in one buffer. *)
Lemma send_one_run ts context data size (w : W) p P (Q : status_t -> W -> Prop) :
  let l := bytes_at (e_mem w) data size in
  let t := txr w in
  let cur := txGenIdx t in
  tx_ok t -> pending (e_mem w) p P t -> Z.of_nat (length P) < txRingLen t -> short t P -> buffers_ok t data size ->
  (txReclaimEnable (e_h w) = true -> dirty_ok (dirtyr w)) -> 0 < size <= txBuffSizeAlign t ->
  (forall w', sent w w' p P [(l, true)] (used_after w [(l, true)]) (context_after w true context) -> Q kStatus_Success w') ->
  wp (copy (buf (tat t cur)) data size ;; tx_put cur (set_tx_length (u16 size)) ;; set_timestamp_flag ts cur ;;
      tx_put cur (or_tx_control ready_last) ;; next_tx ;; when (txReclaimEnable (e_h w)) (add_context context ;; use_desc) ;;
      on_enet (ENET_ActiveSendRing ringId) ;; ret kStatus_Success) Q w.
Proof.
  intros l t cur Hok HP Hlt Hshort Hbufs Hdirty Hsize HQ. assert (Hok' := Hok). destruct Hok' as [T1 T2 T3 T4 T5 T6].
  assert (Hi : forall f, 0 <= cur < Z.of_nat (length (txBd (tput cur f t)))) by (intros f; rewrite length_tput; fold cur in T3; lia).
  assert (Hi0 : 0 <= cur < Z.of_nat (length (txBd t))) by (fold cur in T3; lia).
  rewrite (wrap_small 16) by (pow2; lia). rewrite wp_bind, wp_copy. fold l. set (w1 := with_mem _ w). change t with (txr w1) in Hi0 |- *.
  rewrite wp_bind, wp_tx_put by exact Hi0. rewrite wp_bind. apply timestamp_run; [apply Hi|]. intros f1 Hf1.
  change (txr (with_tx ?a w1)) with a. change (txr w1) with t. rewrite tput_tput by exact Hi0. rewrite wp_bind, wp_tx_put by apply Hi.
  change (txr (with_tx ?a (with_tx ?b w1))) with a. rewrite tput_tput by exact Hi0. rewrite wp_bind, wp_next_tx by (cbn; lia).
  set (f := fun d => or_tx_control ready_last (f1 (set_tx_length size d))). set (w2 := with_tx _ (with_tx _ _)).
  rewrite wp_bind. apply (close_run context w); [done|done|exact Hdirty|].
  rewrite wp_bind. apply activate_run; [exact ring_ok|]. intros d Hd. rewrite wp_ret. apply HQ.
  assert (Hf : forall d, tx_buffer (f d) = tx_buffer d /\ wraps (f d) = wraps d).
  { intros d0. unfold f. destruct (Hf1 (set_tx_length size d0)) as (F1 & F2 & _). destruct (last_bits (f1 (set_tx_length size d0))) as (_ & _ & B3).
    rewrite B3. split; [exact F1|]. unfold wraps. by rewrite F2. }
  assert (Hl : size = Z.of_nat (length l)) by (unfold l; rewrite bytes_at_length; lia).
  assert (HX := fun a b c => part_sent w d p P f (used_after w [(l, true)]) l true data size (context_after w true context) Hok HP Hlt Hbufs Hshort Hd a b c).
  cbv zeta in HX. unfold used_after in *. cbn [length] in HX. apply HX; [rewrite <- Hl; apply Hsize|exact Hf|].
  destruct (last_bits (f1 (set_tx_length size (tat t cur)))) as (B1 & B2 & _). destruct (Hf1 (set_tx_length size (tat t cur))) as (_ & _ & F3).
  rewrite <- Hl. split; [exact B1|split; [exact B2|exact F3]].
Qed.

Lemma send_frame_run ts context data size (w : W) p P (Q : status_t -> W -> Prop) :
  let l := bytes_at (e_mem w) data size in
  tx_ok (txr w) -> pending (e_mem w) p P (txr w) -> short (txr w) P -> buffers_ok (txr w) data size ->
  (txReclaimEnable (e_h w) = true -> dirty_ok (dirtyr w)) -> 0 <= txDescUsed (txr w) < 2 ^ 16 -> data <> 0 -> 0 < size < 2 ^ 32 ->
  (forall w', sent w w' p P (send_adds w P l) (used_after w (send_adds w P l)) (send_dirty w P l context) ->
    Q (send_answer w P l) w') ->
  wp (ENET_SendFrame ringId data size ts context) Q w.
Proof.
  intros l Hok HP Hshort Hbufs Hdirty Hu Hdata Hsize HQ. unfold ENET_SendFrame.
  rewrite wp_bind, wp_assert by (by rewrite (proj2 (Z.eqb_neq _ _))). rewrite wp_bind, wp_assert by (by apply Z.ltb_lt).
  rewrite wp_bind, wp_on_enet. unfold ENET_FRAME_TX_LEN_LIMITATION.
  apply wp_keeps. intros d Hd. rewrite wp_ret, read_limit. set (w1 := with_hw d w).
  assert (Hl : Z.of_nat (length l) = size) by (unfold l; rewrite bytes_at_length; lia).
  assert (Hlift : forall w' S r, sent w1 w' p P S (used_after w1 S) r -> sent w w' p P S (used_after w S) r).
  { intros w' S r Hs. apply (sent_trans w w1 w' p P [] S (used_after w []) (dirtyr w)); [done|by apply sent_nothing|].
    rewrite app_nil_r. exact Hs. }
  unfold send_adds, send_dirty, send_answer in HQ. rewrite Hl in HQ. destruct (tx_limit (e_hw w) <? size) eqn:Hlim.
  { rewrite wp_ret. apply HQ. by apply sent_nothing. }
  assert (Hi : 0 <= txGenIdx (txr w1) < Z.of_nat (length (txBd (txr w1)))) by (change (txr w1) with (txr w); rewrite (tx_len _ Hok); apply (tx_gen _ Hok)).
  rewrite wp_bind, wp_hand. change (h_tx (e_h w1)) with (txr w1). rewrite wp_bind, wp_tx_desc by exact Hi.
  change (has (tx_control ?x) ENET_BUFFDESCRIPTOR_TX_READY_MASK) with (ready x).
  change (txr w1) with (txr w). rewrite (next_ready (e_mem w) p P) by done. unfold busy in HQ.
  destruct (Z.eqb_spec (Z.of_nat (length P)) (txRingLen (txr w))) as [E|E]; cbn [orb] in HQ.
  { rewrite wp_ret. apply HQ. by apply sent_nothing. }
  rewrite wp_bind, wp_hand, wp_bind, wp_hand. unfold ENET_TxDirtyRingAvailable. rewrite negb_involutive.
  change (txReclaimEnable (e_h w1) && isFull (h_dirty (e_h w1))) with (txReclaimEnable (e_h w) && isFull (dirtyr w)).
  destruct (txReclaimEnable (e_h w) && isFull (dirtyr w)) eqn:Efull.
  { rewrite wp_ret. apply HQ. by apply sent_nothing. }
  assert (Hfit := pend_fit _ _ _ _ HP). destruct (Z.leb_spec size (txBuffSizeAlign (txr w))) as [Hone|Hmany].
  - rewrite segments_step, Hl, (proj2 (Z.leb_le _ _)) in HQ by (done || apply (tx_size _ Hok)).
    apply (send_one_run ts context data size w1 p P); try done; change (txr w1) with (txr w); [lia|lia|]. intros w' Hs. apply Hlift in Hs.
    assert (Ef : fit (txr w) P [(l, true)] = true) by (apply Z.leb_le; cbn [length]; lia).
    assert (Et : taken (txr w) P [(l, true)] = [(l, true)]) by (apply take_ge; cbn [length]; lia).
    rewrite Ef, Et in HQ. by apply HQ.
  - apply (send_parts_run ts context data size _ w1 p P l 0); try done; change (txr w1) with (txr w); try lia.
    + by rewrite Z.add_0_r, Z.sub_0_r.
    + intros w' Hs. apply Hlift in Hs. apply HQ. revert Hs. change (txr w1) with (txr w).
      destruct (fit (txr w) P _); [done|]. unfold context_after. by rewrite andb_false_r.
Qed.
End Send.
