(* ===== verification/EnetWire.v ===== *)
(** * From the frames given to the driver to the wire

    The application puts frames in memory and calls [ENET_SendFrame]; in
    between, the MAC's engine takes descriptors off the ring: the one it is
    at, when READY, is transmitted, its READY bit cleared, and the engine goes
    on to the next one, back to the first after the one with the WRAP bit.
    What the engine has transmitted and what it is still to transmit is what
    the calls have added; cut at the LAST bits this is the frames accepted. *)

From stdpp Require Import base list numbers tactics.
From Stdlib Require Import ZArith Lia.
From S2P Require Import Prelude Bytes Mmio Enet EnetFrames EnetRing EnetTx EnetSend.

Open Scope Z_scope.
Open Scope prog_scope.

(** The frames a receiver sees: [acc] is the frame under way. *)
Fixpoint join (acc : list Z) (T : list seg) : list (list Z) :=
  match T with
  | [] => []
  | (b, false) :: T => join (acc ++ b) T
  | (b, true) :: T => (acc ++ b) :: join [] T
  end.

Lemma join_cut n : forall size l S acc, 0 < size -> (length l < n)%nat -> join acc (cut n size l ++ S) = (acc ++ l) :: join [] S.
Proof.
  induction n as [|n IH]; intros size l S acc Hs Hn; [lia|]. cbn [cut]. destruct (Z.leb_spec (Z.of_nat (length l)) size); [done|].
  cbn [app join]. rewrite IH by (rewrite ?length_drop; lia). by rewrite <- app_assoc, take_drop.
Qed.

Lemma join_segments size l S acc : 0 < size -> join acc (segments size l ++ S) = (acc ++ l) :: join [] S.
Proof. intros. apply join_cut; [done|lia]. Qed.

(** Segments without an end only add to the frame under way. *)
Lemma join_open T : forall acc S, Forall (fun s : seg => s.2 = false) T -> join acc (T ++ S) = join (acc ++ concat (map fst T)) S.
Proof.
  induction T as [|[b fl] T IH]; intros acc S HT; [by rewrite app_nil_r|]. assert (H1 := Forall_inv HT). cbn in H1. subst fl.
  cbn [app join map fst concat]. rewrite IH by (by apply Forall_inv_tail in HT). by rewrite <- app_assoc.
Qed.

Lemma segments_short size l : 0 < size -> Forall (fun s : seg => Z.of_nat (length s.1) <= size) (segments size l).
Proof.
  intros Hs. unfold segments. generalize (S (length l)) as n. intros n. revert l. induction n as [|n IH]; intros l; [done|]. cbn [cut].
  destruct (Z.leb_spec (Z.of_nat (length l)) size); constructor; cbn [fst]; [done|done|rewrite length_take; lia|apply IH].
Qed.

(** Only the last segment of a frame ends it. *)
Lemma segments_open size l k : 0 < size -> (k < length (segments size l))%nat -> Forall (fun s : seg => s.2 = false) (take k (segments size l)).
Proof.
  intros Hs. unfold segments. generalize (S (length l)) as n. intros n. revert l k. induction n as [|n IH]; intros l k Hk; [cbn [cut length] in Hk; lia|].
  cbn [cut] in *. destruct (Z.leb_spec (Z.of_nat (length l)) size); cbn [length] in Hk; [by replace k with 0%nat by lia|].
  destruct k as [|k]; [by rewrite take_0|]. rewrite firstn_cons. constructor; [done|]. apply IH. lia.
Qed.

(** ** The engine *)

Definition clear_ready (d : enet_tx_bd) : enet_tx_bd := set_tx_control (bic 16 (tx_control d) ENET_BUFFDESCRIPTOR_TX_READY_MASK) d.

Lemma clear_bits d : ready (clear_ready d) = false /\ last (clear_ready d) = last d /\ wraps (clear_ready d) = wraps d.
Proof. unfold clear_ready. bits. done. Qed.

Section Wire.
Context {D A : Type} `{!Device enet_reg D} {F : EnetFields} {X : EnetFeatures} {L : EnetLaws}.
Abbreviation W := (enet_world D A).
Context (ringId : Z) (ring_ok : ringId < ENET_QUEUE).

(** What the engine at descriptor [p] transmits, and where it is then. *)
Definition engine_send (mem : Z -> Z) (p : Z) (t : enet_tx_ring) : option (seg * Z * enet_tx_ring) :=
  let d := tat t p in
  if ready d then Some (bytes_at mem (buf d) (tx_length d), last d, if wraps d then 0 else p + 1, tput p clear_ready t)
  else None.

Lemma engine_pop mem p s P t : tx_ok t -> pending mem p (s :: P) t ->
  engine_send mem p t = Some (s, slot (txRingLen t) p 1, tput p clear_ready t) /\ pending mem (slot (txRingLen t) p 1) P (tput p clear_ready t).
Proof.
  intros [T1 T2 T3 T4 T5 T6] [H1 H2 H3 H4 H5]. cbn [length] in *.
  assert (E0 := H4 0%nat s eq_refl). rewrite slot_0 in E0 by done. destruct E0 as (M1 & M2 & M3 & M4).
  assert (Hw : (if wraps (tat t p) then 0 else p + 1) = slot (txRingLen t) p 1).
  { rewrite T5 by done. unfold slot. destruct (Z.eqb_spec p (txRingLen t - 1)) as [->|].
    - rewrite Z.sub_add. symmetry. apply Z.mod_same. lia.
    - symmetry. apply Z.mod_small. lia. }
  split; [unfold engine_send; rewrite M1, M2, M4, Hw; by destruct s|].
  assert (Hne : forall k, 0 < k < txRingLen t -> tat (tput p clear_ready t) (slot (txRingLen t) p k) = tat t (slot (txRingLen t) p k)).
  { intros k Hk. assert (Hb := slot_bound (txRingLen t) p k ltac:(lia)). apply tat_put_ne; [lia|lia|]. intros E.
    rewrite <- (slot_0 (txRingLen t) p) in E at 1 by done. apply slot_inj in E; lia. }
  split; change (txRingLen (tput p clear_ready t)) with (txRingLen t); change (txGenIdx (tput p clear_ready t)) with (txGenIdx t).
  - apply slot_bound. lia.
  - lia.
  - rewrite slot_slot, H3 by lia. f_equal. lia.
  - intros k s' Hk. assert (Hkl := lookup_lt_Some _ _ _ Hk). rewrite slot_slot by lia. rewrite Hne by lia.
    replace (1 + Z.of_nat k) with (Z.of_nat (S k)) by lia. by apply H4.
  - intros k Hk. rewrite slot_slot by lia. destruct (Z.eq_dec k (txRingLen t - 1)) as [->|].
    + replace (1 + (txRingLen t - 1)) with (0 + txRingLen t) by lia. rewrite slot_full, slot_0, tat_put_eq by lia. apply clear_bits.
    + rewrite Hne by lia. apply H5. lia.
Qed.

Lemma engine_idle mem p t : tx_ok t -> pending mem p [] t -> engine_send mem p t = None.
Proof.
  intros Hok HP. unfold engine_send. assert (E := next_ready _ _ _ _ Hok HP). assert (Hn := tx_num _ Hok).
  rewrite (pend_gen _ _ _ _ HP), slot_0 in E by apply HP. rewrite E. cbn [length]. by destruct (Z.eqb_spec (Z.of_nat 0) (txRingLen t)); [lia|].
Qed.

(** ** Runs *)

Inductive op := Send (data : Z) (l : list Z) (ts : bool) (context : Z) | Transmit.
(** The driver's world, where the engine is, and what it has transmitted. *)
Record link := Link { k_w : W; k_at : Z; k_out : list seg }.

Definition step (o : op) : M link (list (list Z * status_t)) := fun s =>
  match o with
  | Send data l ts context =>
      match ENET_SendFrame ringId data (Z.of_nat (length l)) ts context (with_mem (mem_write data l (e_mem (k_w s))) (k_w s)) with
      | Ok (r, w) => Ok ([(l, r)], Link w (k_at s) (k_out s))
      | Err e => Err e
      end
  | Transmit =>
      match engine_send (e_mem (k_w s)) (k_at s) (txr (k_w s)) with
      | Some (x, p, t) => Ok ([], Link (with_tx t (k_w s)) p (k_out s ++ [x]))
      | None => Ok ([], s)
      end
  end.
Fixpoint run (ops : list op) : M link (list (list Z * status_t)) :=
  match ops with
  | [] => ret []
  | o :: ops => r <- step o ;; rs <- run ops ;; ret (r ++ rs)
  end.

(** What a call with this answer has added. *)
Definition added (size : Z) (r : list Z * status_t) (T : list seg) : Prop :=
  if r.2 =? kStatus_Success then T = segments size r.1 else exists rest, rest <> [] /\ segments size r.1 = T ++ rest.

(** The ring has the length and the buffers of [t0]. *)
Record good (t0 : enet_tx_ring) (s : link) (P : list seg) : Prop := {
  good_ok : tx_ok (txr (k_w s));
  good_len : txRingLen (txr (k_w s)) = txRingLen t0;
  good_size : txBuffSizeAlign (txr (k_w s)) = txBuffSizeAlign t0;
  good_bufs : forall i, 0 <= i < txRingLen t0 -> tx_buffer (tat (txr (k_w s)) i) = tx_buffer (tat t0 i);
  good_pending : pending (e_mem (k_w s)) (k_at s) P (txr (k_w s));
  good_short : short t0 P;
  good_dirty : txReclaimEnable (e_h (k_w s)) = true -> dirty_ok (dirtyr (k_w s));
  good_used : 0 <= txDescUsed (txr (k_w s)) < 2 ^ 16
}.
Definition op_ok (t0 : enet_tx_ring) (o : op) : Prop :=
  match o with
  | Send data l _ _ => data <> 0 /\ 0 < Z.of_nat (length l) < 2 ^ 32 /\ buffers_ok t0 data (Z.of_nat (length l))
  | Transmit => True
  end.

Lemma same_bufs t0 t src n : txRingLen t = txRingLen t0 -> txBuffSizeAlign t = txBuffSizeAlign t0 ->
  (forall i, 0 <= i < txRingLen t0 -> tx_buffer (tat t i) = tx_buffer (tat t0 i)) -> buffers_ok t0 src n -> buffers_ok t src n.
Proof.
  intros E1 E2 Hb [B1 B2]. unfold buffers_ok, buf in *. rewrite E1, E2. split.
  - intros i j Hi Hj Hne. rewrite !Hb by done. by apply B1.
  - intros i Hi. rewrite Hb by done. by apply B2.
Qed.

Lemma dirty_add_ok c r : dirty_ok r -> dirty_ok (dirty_add c r).
Proof.
  intros [H1 H2 H3 H4]. split; unfold dirty_add; cbn; [by rewrite length_insert|done| |done]. apply Z.mod_pos_bound. lia.
Qed.

(** New contents away from the ring's buffers. *)
Lemma pending_mem mem data l p P t : tx_ok t -> short t P -> buffers_ok t data (Z.of_nat (length l)) -> pending mem p P t ->
  pending (mem_write data l mem) p P t.
Proof.
  intros Hok Hshort [_ Hb] [H1 H2 H3 H4 H5]. split; try done. intros k s Hk. destruct (H4 k s Hk) as (M1 & M2 & M3 & M4).
  split; [done|split; [done|split; [done|]]]. rewrite <- M4. apply bytes_at_apart.
  assert (Hs := Forall_lookup_1 _ _ _ _ Hshort Hk). cbn beta in Hs. rewrite <- M4, bytes_at_length in Hs.
  specialize (Hb _ (slot_bound (txRingLen t) p (Z.of_nat k) ltac:(lia))). unfold apart in *. lia.
Qed.

Definition follows (t0 : enet_tx_ring) (s : link) (P : list seg) (rs : list (list Z * status_t)) (s' : link) : Prop :=
  exists Ts P', good t0 s' P' /\ Forall2 (added (txBuffSizeAlign t0)) rs Ts /\ k_out s' ++ P' = k_out s ++ P ++ concat Ts.

(** What the call has added, against its answer. *)
Lemma added_spec (w : W) P l : 0 < txBuffSizeAlign (txr w) -> added (txBuffSizeAlign (txr w)) (l, send_answer w P l) (send_adds w P l).
Proof.
  intros Hs. unfold added, send_answer, send_adds. cbn [fst snd].
  destruct (tx_limit (e_hw w) <? Z.of_nat (length l)); [by eexists; split; [apply segments_nonempty|]|].
  destruct (busy w P); [by eexists; split; [apply segments_nonempty|]|]. unfold fit, taken.
  destruct (Z.leb_spec (Z.of_nat (length P + length (segments (txBuffSizeAlign (txr w)) l))) (txRingLen (txr w))) as [H|H].
  - apply take_ge. lia.
  - eexists. split; [|symmetry; apply take_drop]. intros E. apply (f_equal length) in E. rewrite length_drop in E. cbn [length] in E.
    assert (Hne := segments_nonempty (txBuffSizeAlign (txr w)) l). destruct (segments _ _); [done|]. cbn [length] in *. lia.
Qed.

Lemma send_adds_short (w : W) P l : 0 < txBuffSizeAlign (txr w) -> short (txr w) (send_adds w P l).
Proof.
  intros Hs. unfold send_adds. destruct (_ <? _); [constructor|]. destruct (busy w P); [constructor|].
  apply Forall_take, segments_short, Hs.
Qed.

Lemma clear_ok p t : tx_ok t -> 0 <= p < txRingLen t -> tx_ok (tput p clear_ready t).
Proof.
  intros [T1 T2 T3 T4 T5 T6] Hp. split; try done; [by rewrite length_tput|]. intros i Hi. change (txRingLen (tput p clear_ready t)) with (txRingLen t) in *.
  rewrite <- T5 by done. destruct (decide (p = i)) as [<-|]; [rewrite tat_put_eq by lia; apply clear_bits|by rewrite tat_put_ne by lia].
Qed.

Lemma send_exact t0 s P data l ts context : good t0 s P -> op_ok t0 (Send data l ts context) ->
  wp (step (Send data l ts context)) (fun rs s' =>
    rs = [(l, send_answer (k_w s) P l)] /\ good t0 s' (P ++ send_adds (k_w s) P l) /\ k_at s' = k_at s /\ k_out s' = k_out s /\
    settings (e_hw (k_w s)) (e_hw (k_w s')) /\ dirtyr (k_w s') = send_dirty (k_w s) P l context /\
    txReclaimEnable (e_h (k_w s')) = txReclaimEnable (e_h (k_w s)) /\
    sent (with_mem (mem_write data l (e_mem (k_w s))) (k_w s)) (k_w s') (k_at s) P (send_adds (k_w s) P l)
      (used_after (k_w s) (send_adds (k_w s) P l)) (send_dirty (k_w s) P l context)) s.
Proof.
  intros [G1 G2 G3 G4 G5 G6 G7 G8] (O1 & O2 & O3). set (w := with_mem (mem_write data l (e_mem (k_w s))) (k_w s)).
  assert (El : bytes_at (e_mem w) data (Z.of_nat (length l)) = l) by apply bytes_at_stored.
  assert (Hb : buffers_ok (txr w) data (Z.of_nat (length l))) by by apply (same_bufs t0).
  assert (Hsh : short (txr w) P) by (unfold short; change (txr w) with (txr (k_w s)); rewrite G3; exact G6).
  match goal with |- wp _ ?Post _ => assert (Hr := send_frame_run ringId ring_ok ts context data (Z.of_nat (length l)) w (k_at s) P
    (fun r w' => Post [(l, r)] (Link w' (k_at s) (k_out s))) G1 ltac:(by apply pending_mem) Hsh Hb G7 G8 O1 O2) end.
  cbv zeta in Hr. rewrite El in Hr. unfold wp in *. cbn [step]. fold w. destruct (ENET_SendFrame _ _ _ _ _ w) as [[r w']|e]; apply Hr; clear Hr.
  all: intros w2 Hs; destruct (sent_keep _ _ _ _ _ _ _ Hs G1) as (E1 & E2 & E3 & E4 & E5).
  all: split; [done|]; split; [split; cbn [k_w k_at]|split; [done|]; split; [done|]; split; [apply Hs|]; split; [done|]; split; [done|exact Hs]].
  all: change (txr (k_w s)) with (txr w) in *.
  all: try (by rewrite ?E2, ?E3).
  all: try (by apply Hs).
  all: try (intros i Hi; rewrite (sent_bufs _ _ _ _ _ _ _ Hs) by (by rewrite G2); by apply G4).
  all: try (apply Forall_app; split; [done|]; rewrite <- G3; exact (send_adds_short (k_w s) P l (proj1 (tx_size _ G1)))).
  all: try (rewrite E5, E4; intros HE; unfold send_dirty, context_after; rewrite HE;
    destruct (_ =? _); [apply dirty_add_ok|]; by apply G7).
  all: rewrite (sent_used _ _ _ _ _ _ _ Hs); unfold used_after; destruct (txReclaimEnable (e_h w)); [apply Z.mod_pos_bound; lia|done].
Qed.

Lemma send_good t0 s P data l ts context : good t0 s P -> op_ok t0 (Send data l ts context) ->
  wp (step (Send data l ts context)) (follows t0 s P) s.
Proof.
  intros G O. eapply wp_mono; [by apply send_exact|]. intros rs s' (-> & G' & E1 & E2 & _).
  exists [send_adds (k_w s) P l], (P ++ send_adds (k_w s) P l). split; [exact G'|]. split.
  - constructor; [|constructor]. rewrite <- (good_size _ _ _ G). apply added_spec. apply (tx_size _ (good_ok _ _ _ G)).
  - rewrite E2. cbn [concat]. by rewrite app_nil_r.
Qed.

(** The state after the engine has transmitted [x]. *)
Definition popped (s : link) (x : seg) : link :=
  Link (with_tx (tput (k_at s) clear_ready (txr (k_w s))) (k_w s)) (slot (txRingLen (txr (k_w s))) (k_at s) 1) (k_out s ++ [x]).

Lemma transmit_pop t0 s x P : good t0 s (x :: P) -> step Transmit s = Ok ([], popped s x) /\ good t0 (popped s x) P.
Proof.
  intros [G1 G2 G3 G4 G5 G6 G7 G8]. destruct (engine_pop _ _ _ _ _ G1 G5) as [Ee Hp]. unfold step. rewrite Ee. split; [done|].
  assert (Hi : 0 <= k_at s < Z.of_nat (length (txBd (txr (k_w s))))) by (rewrite (tx_len _ G1); apply G5).
  split; cbn [k_w k_at popped]; change (txr (with_tx ?t _)) with t; try done.
  - apply clear_ok; [done|apply G5].
  - intros i Hk. destruct (decide (k_at s = i)) as [<-|]; [rewrite tat_put_eq by done|rewrite tat_put_ne by lia]; by apply G4.
  - by apply Forall_inv_tail in G6.
Qed.

Lemma transmit_none t0 s : good t0 s [] -> step Transmit s = Ok ([], s).
Proof. intros [G1 G2 G3 G4 G5 G6 G7 G8]. unfold step. by rewrite (engine_idle (e_mem (k_w s)) (k_at s)). Qed.

Lemma transmit_good t0 s P : good t0 s P -> wp (step Transmit) (follows t0 s P) s.
Proof.
  intros G. destruct P as [|x P].
  - rewrite (wp_ok _ _ _ _ _ (transmit_none t0 s G)). exists [], []. split; [done|]. split; [constructor|done].
  - destruct (transmit_pop t0 s x P G) as [Es G']. rewrite (wp_ok _ _ _ _ _ Es). exists [], P. split; [done|]. split; [constructor|].
    cbn [k_out popped concat]. by rewrite app_nil_r, <- app_assoc.
Qed.

Lemma link_run_good t0 ops : forall s P, good t0 s P -> Forall (op_ok t0) ops -> wp (run ops) (follows t0 s P) s.
Proof.
  induction ops as [|o ops IH]; intros s P G HO; cbn [run].
  - rewrite wp_ret. exists [], P. split; [done|]. split; [constructor|]. cbn [concat]. by rewrite app_nil_r.
  - rewrite wp_bind. eapply wp_mono with (P := follows t0 s P).
    { destruct o; [apply send_good; [done|by apply Forall_inv in HO]|by apply transmit_good]. }
    intros rs s1 (Ts & P1 & G1 & H1 & E1). rewrite wp_bind. eapply wp_mono; [apply (IH s1 P1 G1); by apply Forall_inv_tail in HO|].
    intros rs2 s2 (Ts2 & P2 & G2 & H2 & E2). rewrite wp_ret. exists (Ts ++ Ts2), P2. split; [done|]. split; [by apply Forall2_app|].
    rewrite concat_app, E2, app_assoc, E1, <- !app_assoc. done.
Qed.

(** The frames of the calls that answered success. *)
Definition accepted (rs : list (list Z * status_t)) : list (list Z) := map fst (filter (fun r => r.2 = kStatus_Success) rs).

Lemma join_added size rs : forall Ts, 0 < size -> Forall (fun r : list Z * status_t => Z.of_nat (length r.1) <= size) rs ->
  Forall2 (added size) rs Ts -> join [] (concat Ts) = accepted rs.
Proof.
  induction rs as [|[l r] rs IH]; intros Ts Hs HF H2; inversion H2 as [|? T ? Ts' Ha Hr]; subst; [done|]. cbn [concat].
  assert (Hl := Forall_inv HF). cbn [fst] in Hl. apply Forall_inv_tail in HF. specialize (IH Ts' Hs HF Hr).
  unfold accepted in *. unfold added in Ha. cbn [fst snd] in Ha. destruct (Z.eqb_spec r kStatus_Success) as [->|Hne].
  - subst T. rewrite filter_cons_True by done. cbn [map fst]. rewrite join_segments, IH by done. done.
  - rewrite filter_cons_False by done. destruct Ha as (rest & Hr0 & Ha). rewrite segments_step in Ha by done.
    rewrite (proj2 (Z.leb_le _ _)) in Ha by done. destruct T as [|x [|]]; [exact IH| |]; destruct rest; done.
Qed.

(** The engine empties the ring. *)
Lemma drain n : forall t0 s P, good t0 s P -> n = length P ->
  wp (run (repeat Transmit n)) (fun rs s' => rs = [] /\ good t0 s' [] /\ k_out s' = k_out s ++ P /\ e_hw (k_w s') = e_hw (k_w s) /\
    dirtyr (k_w s') = dirtyr (k_w s) /\ txReclaimEnable (e_h (k_w s')) = txReclaimEnable (e_h (k_w s))) s.
Proof.
  induction n as [|n IH]; intros t0 s P G E; cbn [repeat run].
  - rewrite wp_ret. destruct P; [|done]. rewrite app_nil_r. split_and!; done.
  - destruct P as [|x P]; [done|]. destruct (transmit_pop t0 s x P G) as [Es G']. rewrite wp_bind, (wp_ok _ _ _ _ _ Es).
    set (s1 := popped s x) in *.
    rewrite wp_bind. eapply wp_mono; [apply (IH t0 _ P G'); cbn in E; lia|]. intros rs s' (-> & G2 & E2 & E3 & E4 & E5).
    rewrite wp_ret. split; [done|]. split; [done|]. rewrite E2. unfold s1. cbn [k_out popped]. by rewrite <- app_assoc.
Qed.

Lemma concat_cut n : forall size l k, 0 <= size -> (k < length (cut n size l))%nat ->
  concat (map fst (take k (cut n size l))) = take (k * Z.to_nat size) l.
Proof.
  induction n as [|n IH]; intros size l k Hs Hk; cbn [cut] in *; [cbn [length] in Hk; lia|].
  destruct k as [|k]; [by rewrite !take_0|]. destruct (Z.leb_spec (Z.of_nat (length l)) size); cbn [length] in Hk; [lia|].
  rewrite firstn_cons. cbn [map fst concat]. rewrite IH by lia. by rewrite take_take_drop.
Qed.

Lemma length_cut n : forall size l, 0 < size -> (length l < n)%nat -> Z.of_nat (length l) <= Z.of_nat (length (cut n size l)) * size.
Proof.
  induction n as [|n IH]; intros size l Hs Hn; [lia|]. cbn [cut]. destruct (Z.leb_spec (Z.of_nat (length l)) size); cbn [length]; [lia|].
  specialize (IH size (drop (Z.to_nat size) l) Hs). rewrite length_drop in IH. specialize (IH ltac:(lia)). lia.
Qed.

Lemma segments_many size l n : 0 < size -> n * size < Z.of_nat (length l) -> n < Z.of_nat (length (segments size l)).
Proof. intros Hs Hn. assert (H := length_cut (S (length l)) size l Hs ltac:(lia)). fold (segments size l) in H. nia. Qed.

(** A frame too long for the empty ring, and one that fits in a buffer. *)
Lemma send_too_long (w : W) l N : tx_ok (txr w) -> (txReclaimEnable (e_h w) = true -> isFull (dirtyr w) = false) -> N = txRingLen (txr w) ->
  N * txBuffSizeAlign (txr w) < Z.of_nat (length l) <= tx_limit (e_hw w) ->
  send_answer w [] l = kStatus_ENET_TxFrameBusy /\ send_adds w [] l = take (Z.to_nat N) (segments (txBuffSizeAlign (txr w)) l) /\
  (Z.to_nat N < length (segments (txBuffSizeAlign (txr w)) l))%nat.
Proof.
  intros [T1 T2 T3 T4 T5 T6] Hfull -> Hl. assert (Hm := segments_many (txBuffSizeAlign (txr w)) l (txRingLen (txr w)) (proj1 T6) (proj1 Hl)).
  unfold send_answer, send_adds, busy, fit, taken. rewrite (proj2 (Z.ltb_ge _ _)) by lia.
  cbn [length]. rewrite (proj2 (Z.eqb_neq _ _)) by lia. rewrite Nat.sub_0_r, Nat.add_0_l, (proj2 (Z.leb_gt _ _)) by lia.
  destruct (txReclaimEnable (e_h w)); cbn [orb andb]; [rewrite Hfull by done|]; (split; [done|split; [done|lia]]).
Qed.

Lemma send_single (w : W) l : tx_ok (txr w) -> (txReclaimEnable (e_h w) = true -> isFull (dirtyr w) = false) ->
  Z.of_nat (length l) <= Z.min (txBuffSizeAlign (txr w)) (tx_limit (e_hw w)) ->
  send_answer w [] l = kStatus_Success /\ send_adds w [] l = [(l, true)].
Proof.
  intros [T1 T2 T3 T4 T5 T6] Hfull Hl. unfold send_answer, send_adds, busy, fit. rewrite (proj2 (Z.ltb_ge _ _)) by lia.
  rewrite segments_step, (proj2 (Z.leb_le (Z.of_nat (length l)) _)) by lia. cbn [length].
  rewrite (proj2 (Z.eqb_neq _ _)), (proj2 (Z.leb_le _ _)) by lia.
  assert (E : taken (txr w) [] [(l, true)] = [(l, true)]) by (apply take_ge; cbn [length]; lia). rewrite E.
  destruct (txReclaimEnable (e_h w)); cbn [orb andb]; [rewrite Hfull by done|]; done.
Qed.

Lemma wp_run_app a b (Q : list (list Z * status_t) -> link -> Prop) : forall s,
  wp (run a) (fun r1 => wp (run b) (fun r2 => Q (r1 ++ r2))) s -> wp (run (a ++ b)) Q s.
Proof.
  revert Q. induction a as [|o a IH]; intros Q s H; cbn [run app] in *; [exact H|]. rewrite wp_bind in *.
  eapply wp_mono; [exact H|]. intros r s' H'. rewrite wp_bind in *. apply IH. eapply wp_mono; [exact H'|]. intros r1 s1 H1.
  rewrite wp_ret in H1. eapply wp_mono; [exact H1|]. intros r2 s2 H2. rewrite wp_ret. by rewrite app_assoc.
Qed.

Lemma run_one o (Q : list (list Z * status_t) -> link -> Prop) s : wp (step o) Q s -> wp (run [o]) Q s.
Proof.
  intros H. cbn [run]. rewrite wp_bind. eapply wp_mono; [exact H|]. intros r s' HQ. rewrite wp_bind, wp_ret, wp_ret. by rewrite app_nil_r.
Qed.

(** C2: whatever calls of [ENET_SendFrame] are made, in whatever order with
    the transmissions of the engine, what was transmitted followed by what is
    still waiting is what the calls added, in order: all segments of a frame
    whose call answered success, a proper prefix of them for any other
    answer.  When no frame is longer than one buffer, the frames on the wire
    are those accepted. *)
Theorem enet_wire_order (t0 : enet_tx_ring) (s : link) (ops : list op) :
  good t0 s [] -> k_out s = [] -> Forall (op_ok t0) ops ->
  wp (run ops) (fun rs s' => exists Ts P',
    pending (e_mem (k_w s')) (k_at s') P' (txr (k_w s')) /\
    Forall2 (added (txBuffSizeAlign t0)) rs Ts /\ k_out s' ++ P' = concat Ts /\
    (Forall (fun r => Z.of_nat (length r.1) <= txBuffSizeAlign t0) rs -> join [] (k_out s' ++ P') = accepted rs)) s.
Proof.
  intros G E HO. eapply wp_mono; [by apply link_run_good|]. intros rs s' (Ts & P' & G' & H2 & E'). exists Ts, P'.
  rewrite E in E'. cbn [app] in E'. split; [apply G'|]. split; [done|]. split; [done|]. intros HF. rewrite E'.
  apply (join_added (txBuffSizeAlign t0)); [|done|done]. rewrite <- (good_size _ _ _ G). apply (tx_size _ (good_ok _ _ _ G)).
Qed.

(** a frame with more segments than the ring has descriptors, sent into
    an empty ring, is answered busy, but its first segments are queued
    without an end.  When the engine has transmitted them, the next frame is
    joined to them: the wire carries the beginning of the refused frame and
    the accepted frame as one. *)
Theorem enet_partial_frame_merges (t0 : enet_tx_ring) (s : link) data1 l1 ts1 c1 data2 l2 ts2 c2 :
  good t0 s [] -> k_out s = [] ->
  op_ok t0 (Send data1 l1 ts1 c1) -> op_ok t0 (Send data2 l2 ts2 c2) ->
  (txReclaimEnable (e_h (k_w s)) = true -> isFull (dirtyr (k_w s)) = false) ->
  txRingLen t0 * txBuffSizeAlign t0 < Z.of_nat (length l1) <= tx_limit (e_hw (k_w s)) ->
  Z.of_nat (length l2) <= Z.min (txBuffSizeAlign t0) (tx_limit (e_hw (k_w s))) ->
  wp (run (Send data1 l1 ts1 c1 :: repeat Transmit (Z.to_nat (txRingLen t0)) ++ [Send data2 l2 ts2 c2; Transmit])) (fun rs s' =>
    rs = [(l1, kStatus_ENET_TxFrameBusy); (l2, kStatus_Success)] /\
    join [] (k_out s') = [take (Z.to_nat (txRingLen t0 * txBuffSizeAlign t0)) l1 ++ l2]) s.
Proof.
  intros G E0 O1 O2 Hfull Hl1 Hl2. assert (Hok := good_ok _ _ _ G). assert (EN := good_len _ _ _ G). assert (ES := good_size _ _ _ G).
  rewrite <- ES in *. destruct (send_too_long (k_w s) l1 (txRingLen t0) Hok Hfull (eq_sym EN) Hl1) as (A1 & A2 & A3).
  apply (wp_run_app [_]), run_one. eapply wp_mono; [by apply (send_exact t0 s [])|]. intros rs s1 (-> & G1 & _ & K1 & B1 & B2 & B3 & _).
  rewrite A1. cbn [app] in G1. rewrite A2 in G1. set (P1 := take _ _) in G1.
  assert (HP1 : length P1 = Z.to_nat (txRingLen t0)) by (unfold P1; rewrite length_take; lia).
  apply wp_run_app. eapply wp_mono; [by apply (drain _ t0 s1 P1)|]. intros rs s2 (-> & G2 & K2 & C1 & C2 & C3).
  assert (Hlim : tx_limit (e_hw (k_w s2)) = tx_limit (e_hw (k_w s))) by (rewrite C1; apply B1).
  assert (Hfull2 : txReclaimEnable (e_h (k_w s2)) = true -> isFull (dirtyr (k_w s2)) = false).
  { rewrite C2, C3, B2, B3. unfold send_dirty. rewrite A1. exact Hfull. }
  destruct (send_single (k_w s2) l2 (good_ok _ _ _ G2) Hfull2) as (A4 & A5); [by rewrite (good_size _ _ _ G2), Hlim, <- ES|].
  apply (wp_run_app [_]), run_one. eapply wp_mono; [by apply (send_exact t0 s2 [])|]. intros rs s3 (-> & G3 & _ & K3 & _).
  rewrite A4. cbn [app] in G3. rewrite A5 in G3.
  eapply wp_mono; [by apply (drain 1 t0 s3 [(l2, true)])|]. intros rs s4 (-> & _ & K4 & _). split; [done|].
  rewrite K4, K3, K2, K1, E0. cbn [app]. unfold P1. rewrite join_open by (apply segments_open; [apply (tx_size _ Hok)|exact A3]).
  cbn [join app]. unfold segments. rewrite concat_cut; [|apply Z.lt_le_incl, (tx_size _ Hok)|exact A3].
  rewrite Z2Nat.inj_mul; [done| |apply Z.lt_le_incl, (tx_size _ Hok)]. rewrite <- EN. apply Z.lt_le_incl, (tx_num _ Hok).
Qed.
End Wire.
