(* ===== verification/EnetReclaim.v ===== *)
(** * Reclaiming transmit descriptors

    When reclaiming is enabled, every frame sent adds its context to the ring
    of frame information; [ENET_ReclaimTxDescriptor] walks the descriptors the
    engine is done with and reports the context of each that ends a frame.
    [ledger] relates the two rings: behind the descriptors not yet reclaimed
    come those of the engine, and the contexts queued are those of the frames
    ending in either.  It is kept by the engine and by reclaiming, and by
    [ENET_SendFrame] when everything transmitted has been reclaimed before. *)

From stdpp Require Import base list numbers tactics.
From Stdlib Require Import ZArith Lia.
From S2P Require Import Prelude Bytes Mmio Enet EnetFrames EnetRing EnetTx EnetSend EnetWire.

Open Scope Z_scope.
Open Scope prog_scope.

(** ** The ring of frame information as a queue of contexts *)






(** ** The descriptors the engine is done with *)








Section Reclaim.
Context {D A : Type} `{!Device enet_reg D} {F : EnetFields} {X : EnetFeatures} {L : EnetLaws}.
Abbreviation W := (enet_world D A).
Context (ringId : Z) (ring_ok : ringId < ENET_QUEUE) (callback : enet_event -> option enet_frame_info -> M W unit).
(** The application's callback adds the report to a record of its own. *)
Context (reports : A -> list enet_frame_info) (note : enet_frame_info -> A -> A)
  (note_reports : forall i a, reports (note i a) = reports a ++ [i])
  (callback_run : forall i w, callback kENET_TxEvent (Some i) w = Ok (tt, with_app (note i (e_app w)) w)).







(** ** The ledger *)





(** ** Runs *)

Abbreviation K := (link (D := D) (A := A)).













End Reclaim.
