(* ===== verification/EnetRx.v ===== *)
(** * Receiving without copying

    [ENET_GetRxFrame] looks for the end of the next frame, then exchanges the
    buffers of its descriptors for new ones and hands the filled ones to the
    application.  [scan] is what it finds, [served] the ring afterwards. *)

From stdpp Require Import base list numbers tactics.
From Stdlib Require Import ZArith Lia.
From S2P Require Import Prelude Bytes Mmio Enet EnetFrames EnetRing EnetTx.

Open Scope Z_scope.
Open Scope prog_scope.

(** ** Descriptors *)

Definition rx_null : enet_rx_bd := RxBd 0 0 0 0 0.
Definition rat (r : enet_rx_ring) (i : Z) : enet_rx_bd := nth (Z.to_nat i) (rxBd r) rx_null.
Definition rput (i : Z) (f : enet_rx_bd -> enet_rx_bd) (r : enet_rx_ring) : enet_rx_ring :=
  set_rx_bds (<[Z.to_nat i := f (rat r i)]> (rxBd r)) r.
(** The [k]-th descriptor from the current one on. *)
Definition rk (r : enet_rx_ring) (k : Z) : enet_rx_bd := rat r (slot (rxRingLen r) (rxGenIdx r) k).

Lemma rat_put_eq i f r : 0 <= i < Z.of_nat (length (rxBd r)) -> rat (rput i f r) i = f (rat r i).
Proof. intros Hi. unfold rat at 1, rput. cbn [rxBd set_rx_bds]. rewrite nth_lookup, list_lookup_insert_eq by lia. done. Qed.

Lemma rat_put_ne i j f r : 0 <= i -> 0 <= j -> i <> j -> rat (rput i f r) j = rat r j.
Proof.
  intros Hi Hj Hne. unfold rat at 1, rput. cbn [rxBd set_rx_bds]. rewrite nth_lookup, list_lookup_insert_ne by lia.
  by rewrite <- nth_lookup.
Qed.

Lemma rput_rput i f g r : 0 <= i < Z.of_nat (length (rxBd r)) -> rput i g (rput i f r) = rput i (fun d => g (f d)) r.
Proof.
  intros Hi. unfold rput at 1. rewrite rat_put_eq by done. unfold rput, set_rx_bds. cbn. by rewrite list_insert_insert_eq.
Qed.

Lemma length_rput i f r : length (rxBd (rput i f r)) = length (rxBd r).
Proof. apply length_insert. Qed.

Lemma rput_same i r : 0 <= i < Z.of_nat (length (rxBd r)) -> rput i (fun d => d) r = r.
Proof.
  intros Hi. unfold rput, rat. destruct r as [l g n z]. unfold set_rx_bds. cbn in *. f_equal. apply list_insert_id.
  rewrite nth_lookup. destruct (lookup_lt_is_Some_2 l (Z.to_nat i)) as [x Hx]; [lia|]. by rewrite Hx.
Qed.

Record rx_ok (r : enet_rx_ring) : Prop := {
  rx_len : Z.of_nat (length (rxBd r)) = rxRingLen r;
  rx_num : 0 < rxRingLen r < 2 ^ 16;
  rx_gen : 0 <= rxGenIdx r < rxRingLen r;
  rx_wraps : forall i, 0 <= i < rxRingLen r -> rwraps (rat r i) = (i =? rxRingLen r - 1)
}.

(** A descriptor given back to the engine, and one given back with another
    buffer. *)
Definition rearmed (d : enet_rx_bd) : enet_rx_bd :=
  or_rx_control ENET_BUFFDESCRIPTOR_RX_EMPTY_MASK (and_rx_control ENET_BUFFDESCRIPTOR_RX_WRAP_MASK d).

Lemma rearmed_bits d : empty (rearmed d) = true /\ rlast (rearmed d) = false /\ rwraps (rearmed d) = rwraps d /\ rx_buffer (rearmed d) = rx_buffer d.
Proof. unfold rearmed. bits. done. Qed.

Lemma rput_id r : rx_ok r -> rput (rxGenIdx r) (fun d => d) r = r.
Proof. intros [R1 R2 R3 R4]. apply rput_same. lia. Qed.

Lemma ended_bits d : rlast (or_rx_control ENET_BUFFDESCRIPTOR_RX_LAST_MASK d) = true /\
  rwraps (or_rx_control ENET_BUFFDESCRIPTOR_RX_LAST_MASK d) = rwraps d.
Proof. bits. done. Qed.

Lemma rearmed_last d : rearmed (or_rx_control ENET_BUFFDESCRIPTOR_RX_LAST_MASK d) = rearmed d.
Proof.
  unfold rearmed, or_rx_control, and_rx_control, set_rx_control. cbn. f_equal.
  rewrite Z.land_lor_distr_l. change (Z.land ENET_BUFFDESCRIPTOR_RX_LAST_MASK ENET_BUFFDESCRIPTOR_RX_WRAP_MASK) with 0. by rewrite Z.lor_0_r.
Qed.

(** ** The ring after some descriptors have been served *)

Definition serve (r : enet_rx_ring) (f : enet_rx_bd -> enet_rx_bd) : enet_rx_ring :=
  set_rx_gen ((rxGenIdx r + 1) mod rxRingLen r) (rput (rxGenIdx r) (fun d => rearmed (f d)) r).
Definition same_wrap (f : enet_rx_bd -> enet_rx_bd) : Prop := forall d, rwraps (f d) = rwraps d.

Lemma serve_ok r f : rx_ok r -> same_wrap f -> rx_ok (serve r f).
Proof.
  intros [R1 R2 R3 R4] Hf. split; cbn [rxBd rxRingLen rxGenIdx serve set_rx_gen]; change (rxRingLen (rput _ _ r)) with (rxRingLen r).
  - by rewrite length_rput.
  - done.
  - apply Z.mod_pos_bound. lia.
  - intros i Hi. change (rat (serve r f) i) with (rat (rput (rxGenIdx r) (fun d => rearmed (f d)) r) i). rewrite <- R4 by done.
    destruct (decide (rxGenIdx r = i)) as [<-|Hne]; [|by rewrite rat_put_ne by lia]. rewrite rat_put_eq by lia.
    destruct (rearmed_bits (f (rat r (rxGenIdx r)))) as (_ & _ & -> & _). apply Hf.
Qed.

Lemma serve_k r f k : rx_ok r -> 0 <= k < rxRingLen r ->
  rk (serve r f) k = if k =? rxRingLen r - 1 then rearmed (f (rk r 0)) else rk r (k + 1).
Proof.
  intros [R1 R2 R3 R4] Hk. unfold rk. change (rxRingLen (serve r f)) with (rxRingLen r).
  change (rxGenIdx (serve r f)) with ((rxGenIdx r + 1) mod rxRingLen r). rewrite slot_next by lia.
  change (rat (serve r f)) with (rat (rput (rxGenIdx r) (fun d => rearmed (f d)) r)).
  destruct (Z.eqb_spec k (rxRingLen r - 1)) as [->|Hne].
  - replace (rxRingLen r - 1 + 1) with (0 + rxRingLen r) by lia. rewrite slot_full, slot_0 by lia. by rewrite rat_put_eq by lia.
  - assert (Hb := slot_bound (rxRingLen r) (rxGenIdx r) (k + 1) ltac:(lia)). apply rat_put_ne; [lia|lia|].
    intros E. rewrite <- (slot_0 (rxRingLen r) (rxGenIdx r)) in E at 1 by done. apply slot_inj in E; lia.
Qed.

(** ** The ring as a list, from the current descriptor on *)

Definition view (r : enet_rx_ring) : list enet_rx_bd := map (fun k => rk r (Z.of_nat k)) (seq 0 (Z.to_nat (rxRingLen r))).

Lemma view_length r : length (view r) = Z.to_nat (rxRingLen r).
Proof. unfold view. by rewrite length_map, length_seq. Qed.

Lemma view_at r k : (k < Z.to_nat (rxRingLen r))%nat -> view r !! k = Some (rk r (Z.of_nat k)).
Proof. intros Hk. unfold view. rewrite list_lookup_fmap, lookup_seq_lt by lia. done. Qed.

Lemma view_serve r f d ds : rx_ok r -> view r = d :: ds -> view (serve r f) = ds ++ [rearmed (f d)].
Proof.
  intros Hr Hv. assert (Hl := view_length r). rewrite Hv in Hl. cbn [length] in Hl. assert (Hn := rx_num _ Hr).
  apply list_eq. intros k. destruct (decide (k < Z.to_nat (rxRingLen r))%nat) as [Hk|Hk].
  2:{ rewrite !lookup_ge_None_2; [done| |]; [rewrite length_app|rewrite view_length]; cbn [length]; [lia|]. change (rxRingLen (serve r f)) with (rxRingLen r). lia. }
  rewrite view_at by done. rewrite serve_k by (done || lia).
  assert (Hat := fun j Hj => view_at r j Hj). rewrite Hv in Hat. destruct (Z.eqb_spec (Z.of_nat k) (rxRingLen r - 1)) as [E|E].
  - rewrite lookup_app_r by lia. replace (k - length ds)%nat with 0%nat by lia. specialize (Hat 0%nat ltac:(lia)). cbn in Hat. injection Hat as ->. done.
  - rewrite lookup_app_l by lia. specialize (Hat (S k) ltac:(lia)). cbn [lookup] in Hat.
    replace (Z.of_nat k + 1) with (Z.of_nat (S k)) by lia. symmetry. exact Hat.
Qed.

(** [r'] is [r] gone on by [n] descriptors, with the contents [v]. *)
Record moved (r r' : enet_rx_ring) (n : nat) (v : list enet_rx_bd) : Prop := {
  mv_ok : rx_ok r';
  mv_len : rxRingLen r' = rxRingLen r;
  mv_size : rxBuffSizeAlign r' = rxBuffSizeAlign r;
  mv_gen : rxGenIdx r' = slot (rxRingLen r) (rxGenIdx r) (Z.of_nat n);
  mv_view : view r' = v
}.

Lemma moved_refl r : rx_ok r -> moved r r 0 (view r).
Proof. intros Hr. split; try done. by rewrite slot_0 by apply Hr. Qed.

Lemma moved_trans r1 r2 r3 n1 n2 v1 v2 : rx_ok r1 -> moved r1 r2 n1 v1 -> moved r2 r3 n2 v2 -> moved r1 r3 (n1 + n2) v2.
Proof.
  intros Hr [A1 A2 A3 A4 A5] [B1 B2 B3 B4 B5]. split; try done; try congruence.
  rewrite B4, A2, A4, slot_slot by (apply (rx_num _ Hr)). f_equal. lia.
Qed.

Lemma moved_serve r f d ds : rx_ok r -> same_wrap f -> view r = d :: ds -> moved r (serve r f) 1 (ds ++ [rearmed (f d)]).
Proof. intros Hr Hf Hv. split; try done; [by apply serve_ok|by apply view_serve]. Qed.

(** A frame's descriptors: only the last one is marked as such. *)
Fixpoint shaped (ds : list enet_rx_bd) : Prop :=
  match ds with
  | [] => False
  | d :: ds => match ds with [] => rlast d = true | _ :: _ => rlast d = false /\ shaped ds end
  end.

(** ** What is found *)

(** No complete frame; one whose end is the [m]-th descriptor, with its status
    and error word; or one broken off at the [m]-th descriptor. *)
Inductive verdict := NoFrame | Complete (m : nat) (result : status_t) (e : Z) | Broken (m : nat).
Definition later (v : verdict) : verdict :=
  match v with NoFrame => NoFrame | Complete m r e => Complete (S m) r e | Broken m => Broken (S m) end.

Section Scan.
Context {X : EnetFeatures}.
Fixpoint scan (ds : list enet_rx_bd) : verdict :=
  match ds with
  | [] => NoFrame
  | d :: ds => if empty d then NoFrame
               else if rlast d then let '(r, e) := ENET_GetRxFrameErr d in Complete 0 r e
               else if rx_length d =? 0 then Broken 0 else later (scan ds)
  end.

Lemma scan_complete ds : forall m r e, scan ds = Complete m r e -> exists fr more,
  ds = fr ++ more /\ length fr = S m /\ shaped fr /\ ENET_GetRxFrameErr (List.last fr rx_null) = (r, e).
Proof.
  induction ds as [|d ds IH]; intros m r e H; [done|]. cbn [scan] in H. destruct (empty d); [done|]. destruct (rlast d) eqn:El.
  - destruct (ENET_GetRxFrameErr d) as [r' e'] eqn:E. injection H as <- <- <-. exists [d], ds. done.
  - destruct (rx_length d =? 0); [done|]. destruct (scan ds) as [|m' r' e'|] eqn:E; try done. injection H as <- <- <-.
    destruct (IH m' r' e' eq_refl) as (fr & more & -> & H2 & H3 & H4). exists (d :: fr), more. split; [done|]. split; [cbn; lia|].
    destruct fr as [|d' fr]; [done|]. done.
Qed.

Lemma scan_broken ds : forall m, scan ds = Broken m -> exists pre d more,
  ds = pre ++ d :: more /\ length pre = m /\ shaped (pre ++ [or_rx_control ENET_BUFFDESCRIPTOR_RX_LAST_MASK d]).
Proof.
  induction ds as [|d ds IH]; intros m H; [done|]. cbn [scan] in H. destruct (empty d); [done|]. destruct (rlast d) eqn:El.
  - by destruct (ENET_GetRxFrameErr d).
  - destruct (rx_length d =? 0).
    + injection H as <-. exists [], d, ds. split; [done|]. split; [done|]. apply ended_bits.
    + destruct (scan ds) as [| |m'] eqn:E; try done. injection H as <-. destruct (IH m' eq_refl) as (pre & d' & more & -> & H2 & H3).
      exists (d :: pre), d', more. split; [done|]. split; [cbn; lia|]. destruct pre as [|d'' pre]; [by split|by split].
Qed.

Lemma frame_error_cases d : ENET_GetRxFrameErr d = (kStatus_Success, 0) \/ exists e, ENET_GetRxFrameErr d = (kStatus_ENET_RxFrameError, e).
Proof. unfold ENET_GetRxFrameErr. destruct (has _ _); [by right; eexists|]. destruct (_ && _); [by right; eexists|by left]. Qed.
End Scan.

(** A store to one descriptor. *)
Lemma moved_rput r f pre d more : rx_ok r -> same_wrap f -> view r = pre ++ d :: more ->
  moved r (rput (slot (rxRingLen r) (rxGenIdx r) (Z.of_nat (length pre))) f r) 0 (pre ++ f d :: more).
Proof.
  intros [R1 R2 R3 R4] Hf Hv. set (i := slot _ _ _). assert (Hb : 0 <= i < rxRingLen r) by (apply slot_bound; lia).
  assert (Hl := f_equal length Hv). rewrite view_length, length_app in Hl. cbn [length] in Hl. split; try done.
  - split; try done; [by rewrite length_rput|]. intros j Hj. change (rxRingLen (rput i f r)) with (rxRingLen r) in *. rewrite <- R4 by done.
    destruct (decide (i = j)) as [<-|]; [rewrite rat_put_eq by lia; apply Hf|by rewrite rat_put_ne by lia].
  - change (rxGenIdx (rput i f r)) with (rxGenIdx r). by rewrite slot_0.
  - apply list_eq. intros k. destruct (decide (k < Z.to_nat (rxRingLen r))%nat) as [Hk|Hk].
    2:{ rewrite !lookup_ge_None_2; [done| |]; [rewrite length_app|rewrite view_length]; cbn [length]; [lia|]. change (rxRingLen (rput i f r)) with (rxRingLen r). lia. }
    rewrite view_at by done. assert (Hat := view_at r k Hk). rewrite Hv in Hat. unfold rk in *. change (rxRingLen (rput i f r)) with (rxRingLen r).
    change (rxGenIdx (rput i f r)) with (rxGenIdx r). assert (Hsk := slot_bound (rxRingLen r) (rxGenIdx r) (Z.of_nat k) ltac:(lia)).
    destruct (decide (k = length pre)) as [->|Hne].
    + rewrite lookup_app_r, Nat.sub_diag in Hat |- * by lia. change ((d :: more) !! 0%nat) with (Some d) in Hat. fold i in Hat |- *.
      injection Hat as ->. by rewrite rat_put_eq by lia.
    + rewrite rat_put_ne; [|lia|lia|].
      * rewrite <- Hat. destruct (decide (k < length pre)%nat); [by rewrite !lookup_app_l by lia|].
        rewrite !lookup_app_r by lia. by destruct (k - length pre)%nat eqn:E; [lia|].
      * intros E. apply slot_inj in E; lia.
Qed.

Section Rx.
Context {D A : Type} `{!Device enet_reg D} {F : EnetFields} {X : EnetFeatures} {L : EnetLaws}.
Abbreviation W := (enet_world D A).
Context (ringId : Z) (ring_ok : ringId < ENET_QUEUE).

Definition rxr (w : W) : enet_rx_ring := h_rx (e_h w).

Lemma wp_rx_desc i (Q : enet_rx_bd -> W -> Prop) w :
  0 <= i < Z.of_nat (length (rxBd (rxr w))) -> wp (rx_desc i) Q w <-> Q (rat (rxr w) i) w.
Proof.
  intros Hi. unfold rx_desc. rewrite wp_bind, wp_hand. by rewrite (wp_lift _ _ _ _ (aget_nth (rxBd (rxr w)) i rx_null Hi)).
Qed.

Lemma wp_upd_rx f (Q : unit -> W -> Prop) w : wp (upd_rx f) Q w <-> Q tt (with_rx (f (rxr w)) w).
Proof. done. Qed.

Lemma wp_rx_put i f (Q : unit -> W -> Prop) w :
  0 <= i < Z.of_nat (length (rxBd (rxr w))) -> wp (rx_put i f) Q w <-> Q tt (with_rx (rput i f (rxr w)) w).
Proof.
  intros Hi. unfold rx_put. rewrite wp_bind, wp_hand, wp_bind, (wp_lift _ _ _ _ (aget_nth (rxBd (rxr w)) i rx_null Hi)).
  by rewrite wp_bind, (wp_lift _ _ _ _ (aset_ok (rxBd (rxr w)) i _ Hi)), wp_upd_rx.
Qed.

(** The current descriptor is the head of the list. *)
Lemma wp_rx_current (Q : enet_rx_bd -> W -> Prop) w d ds : rx_ok (rxr w) -> view (rxr w) = d :: ds ->
  wp (rx_desc (rxGenIdx (rxr w))) Q w <-> Q d w.
Proof.
  intros [R1 R2 R3 R4] Hv. rewrite wp_rx_desc by lia. assert (H := view_at (rxr w) 0 ltac:(lia)). rewrite Hv in H. cbn in H. injection H as ->.
  unfold rk. by rewrite slot_0.
Qed.

Lemma wp_rearm f (Q : unit -> W -> Prop) w r : rx_ok r -> rxr w = rput (rxGenIdx r) f r ->
  wp rearm Q w <-> Q tt (with_rx (serve r f) w).
Proof.
  intros [R1 R2 R3 R4] E. unfold rearm. rewrite wp_bind, wp_hand. change (h_rx (e_h w)) with (rxr w).
  assert (Hi : forall g, 0 <= rxGenIdx r < Z.of_nat (length (rxBd (rput (rxGenIdx r) g r)))) by (intros g; rewrite length_rput; lia).
  rewrite E. change (rxGenIdx (rput (rxGenIdx r) f r)) with (rxGenIdx r). rewrite wp_bind, wp_rx_put by (rewrite E; apply Hi).
  rewrite E, rput_rput by lia. rewrite wp_bind, wp_rx_put by apply Hi. change (rxr (with_rx ?a _)) with a. rewrite rput_rput by lia.
  rewrite wp_bind, wp_hand. change (h_rx (e_h (with_rx ?a _))) with a.
  change (rxGenIdx (rput (rxGenIdx r) ?g r)) with (rxGenIdx r). change (rxRingLen (rput (rxGenIdx r) ?g r)) with (rxRingLen r).
  by rewrite wp_bind, (wp_lift _ _ _ _ (increase_index (rxGenIdx r) (rxRingLen r) R3 (proj2 R2))), wp_upd_rx.
Qed.

(** What [rx_find_last] leaves, when it looks from the [k]-th descriptor on. *)
Definition found (v : verdict) (k : Z) (f : enet_rx_frame_struct) (w : W) (Q : status_t * enet_rx_frame_struct -> W -> Prop) : Prop :=
  match v with
  | NoFrame => Q (kStatus_ENET_RxFrameEmpty, f) w
  | Complete _ r e => Q (r, set_frameError e f) w
  | Broken m => let r := rxr w in
      Q (kStatus_ENET_RxFrameError, f)
        (with_rx (rput (slot (rxRingLen r) (rxGenIdx r) (k + Z.of_nat m)) (or_rx_control ENET_BUFFDESCRIPTOR_RX_LAST_MASK) r) w)
  end.

Lemma found_later v k f w Q : found (later v) k f w Q = found v (k + 1) f w Q.
Proof. destruct v as [|m r e|m]; try done. cbn [found later]. by replace (k + Z.of_nat (S m)) with (k + 1 + Z.of_nat m) by lia. Qed.

Lemma find_run n : forall k w f (Q : status_t * enet_rx_frame_struct -> W -> Prop), rx_ok (rxr w) ->
  0 <= k < rxRingLen (rxr w) -> rxRingLen (rxr w) - k <= Z.of_nat n -> found (scan (drop (Z.to_nat k) (view (rxr w)))) k f w Q ->
  wp (rx_find_last n (slot (rxRingLen (rxr w)) (rxGenIdx (rxr w)) k) f) Q w.
Proof.
  induction n as [|n IH]; intros k w f Q Hr Hk Hn HQ; [lia|]. assert (Hr' := Hr). destruct Hr' as [R1 R2 R3 R4].
  assert (Hb := slot_bound (rxRingLen (rxr w)) (rxGenIdx (rxr w)) k ltac:(lia)).
  assert (Hv := view_at (rxr w) (Z.to_nat k) ltac:(lia)). rewrite (drop_S _ _ _ Hv) in HQ. rewrite Z2Nat.id in HQ by lia.
  cbn [rx_find_last]. rewrite wp_bind, wp_rx_desc by lia. fold (rk (rxr w) k). cbn [scan] in HQ.
  change (has (rx_control (rk ?r ?j)) ENET_BUFFDESCRIPTOR_RX_EMPTY_MASK) with (empty (rk r j)).
  change (has (rx_control (rk ?r ?j)) ENET_BUFFDESCRIPTOR_RX_LAST_MASK) with (rlast (rk r j)).
  destruct (empty (rk (rxr w) k)); [by rewrite wp_ret|]. destruct (rlast (rk (rxr w) k)).
  { destruct (ENET_GetRxFrameErr (rk (rxr w) k)) as [st e]. rewrite wp_ret. exact HQ. }
  destruct (rx_length (rk (rxr w) k) =? 0).
  { rewrite wp_bind, wp_rx_put by lia. rewrite wp_ret. cbn [found] in HQ. by rewrite Z.add_0_r in HQ. }
  rewrite found_later in HQ. rewrite wp_bind, wp_hand. change (h_rx (e_h w)) with (rxr w).
  rewrite wp_bind, (wp_lift _ _ _ _ (increase_index _ (rxRingLen (rxr w)) Hb (proj2 R2))).
  fold (slot (rxRingLen (rxr w)) (slot (rxRingLen (rxr w)) (rxGenIdx (rxr w)) k) 1). rewrite slot_slot by lia.
  destruct (Z.eq_dec (k + 1) (rxRingLen (rxr w))) as [E|E].
  - rewrite E. replace (rxRingLen (rxr w)) with (0 + rxRingLen (rxr w)) at 2 by lia. rewrite slot_full, slot_0, Z.eqb_refl, wp_ret by lia.
    rewrite drop_ge in HQ by (rewrite view_length; lia). exact HQ.
  - destruct (Z.eqb_spec (slot (rxRingLen (rxr w)) (rxGenIdx (rxr w)) (k + 1)) (rxGenIdx (rxr w))) as [E2|_].
    { exfalso. rewrite <- (slot_0 (rxRingLen (rxr w)) (rxGenIdx (rxr w))) in E2 at 2 by done. apply slot_inj in E2; lia. }
    apply IH; [done|lia|lia|]. replace (Z.to_nat (k + 1)) with (S (Z.to_nat k)) by lia. exact HQ.
Qed.

(** The descriptors of a frame are given back as they are. *)
Lemma drop_run ds : forall n w rest (Q : unit -> W -> Prop), rx_ok (rxr w) -> shaped ds -> view (rxr w) = ds ++ rest -> (length ds <= n)%nat ->
  (forall r, moved (rxr w) r (length ds) (rest ++ map rearmed ds) -> Q tt (with_rx r w)) -> wp (rx_drop_loop n) Q w.
Proof.
  induction ds as [|d ds IH]; intros n w rest Q Hr Hs Hv Hn HQ; [done|]. destruct n as [|n]; [cbn in Hn; lia|]. cbn [rx_drop_loop].
  rewrite wp_bind, wp_hand. change (h_rx (e_h w)) with (rxr w). rewrite wp_bind, (wp_rx_current _ _ _ _ Hr Hv).
  assert (Eid : rxr w = rput (rxGenIdx (rxr w)) (fun d => d) (rxr w)) by (symmetry; by apply rput_id).
  rewrite wp_bind, (wp_rearm _ _ _ _ Hr Eid). change (has (rx_control d) ENET_BUFFDESCRIPTOR_RX_LAST_MASK) with (rlast d).
  assert (Hm := moved_serve (rxr w) (fun d => d) d (ds ++ rest) Hr (fun _ => eq_refl) Hv). destruct ds as [|d' ds].
  - cbn in Hs. rewrite Hs, wp_ret. apply HQ. exact Hm.
  - destruct Hs as [-> Hs]. apply (IH n (with_rx (serve (rxr w) (fun d => d)) w) (rest ++ [rearmed d])); change (rxr (with_rx ?a _)) with a.
    + apply Hm.
    + done.
    + rewrite (mv_view _ _ _ _ Hm). by rewrite <- app_assoc.
    + cbn [length] in *. lia.
    + intros r Hm2. rewrite <- app_assoc in Hm2. apply HQ. exact (moved_trans _ _ _ _ _ _ _ Hr Hm Hm2).
Qed.

(** Reading the control registers leaves the settings. *)
Lemma activate_read_run w (Q : unit -> W -> Prop) : 0 <= ringId < 3 ->
  (forall d, settings (e_hw w) d -> Q tt (with_hw d w)) -> wp (on_enet (ENET_ActiveReadRing ringId)) Q w.
Proof.
  intros H3 HQ. rewrite wp_on_enet. unfold ENET_ActiveReadRing. rewrite wp_bind, wp_assert by (apply Z.ltb_lt; exact ring_ok).
  assert (Hwr : forall r, r = RDAR \/ r = RDAR1 \/ r = RDAR2 -> wp (wr r ENET_RDAR_RDAR_MASK) (fun a d => Q a (with_hw d w)) (e_hw w)).
  { intros r Hr. unfold wp, wr. apply HQ, activate_keeps. tauto. }
  destruct (Z.eqb_spec ringId 0); [by apply Hwr; auto|]. rewrite (proj2 (Z.ltb_lt 1 ENET_QUEUE)) by lia. cbn [andb].
  destruct (Z.eqb_spec ringId 1); [by apply Hwr; auto|]. destruct (Z.eqb_spec ringId 2); [by apply Hwr; auto|lia].
Qed.

(** ** Taking a frame *)

Context (rxBuffAlloc : M A Z) (rxBuffFree : Z -> M A unit).

(** [n] allocations, up to the first that fails. *)
Fixpoint grab (n : nat) : M A (list Z) :=
  match n with
  | O => ret []
  | S n => b <- rxBuffAlloc ;; if b =? 0 then ret [] else bs <- grab n ;; ret (b :: bs)
  end.
Fixpoint frees (bs : list Z) : M A unit :=
  match bs with [] => ret tt | b :: bs => rxBuffFree b ;; frees bs end.

(** The application's array entries for the descriptors [ds]. *)
Fixpoint parts (ds : list enet_rx_bd) (buffLen : Z) : list enet_buffer_struct :=
  match ds with
  | [] => []
  | d :: ds =>
      BufferStruct (dma2local (rx_buffer d)) (if rlast d then u16 (rx_length d - buffLen) else rx_length d)
        :: parts ds (if rlast d then buffLen else u16 (buffLen + rx_length d))
  end.
Definition refill (b : Z) (d : enet_rx_bd) : enet_rx_bd := rearmed (set_rx_buffer (u32 (local2dma b)) d).

(** The frame structure when everything has been taken. *)
Definition taken_frame (w : W) (d : enet_rx_bd) (f : enet_rx_frame_struct) : enet_rx_frame_struct :=
  let f := set_promiscuous (promisc (e_hw w) && has (rx_control d) ENET_BUFFDESCRIPTOR_RX_MISS_MASK) (set_totLen (rx_length d) f) in
  if ENHANCEDBUFFERDESCRIPTOR_MODE then set_timestamp (rx_timestamp d) f else f.

Lemma free_parts_run k : forall f w (Q : unit -> W -> Prop), (k <= length (rxBuffArray f))%nat ->
  wp (frees (rev (map bs_buffer (take k (rxBuffArray f))))) (fun u a => Q u (with_app a w)) (e_app w) ->
  wp (free_parts rxBuffFree k f) Q w.
Proof.
  induction k as [|k IH]; intros f w Q Hk H; cbn [free_parts].
  - rewrite take_0 in H. cbn in H. rewrite wp_ret in *. by destruct w.
  - destruct (lookup_lt_is_Some_2 (rxBuffArray f) k) as [b Hb]; [lia|].
    rewrite wp_bind, (wp_lift _ b) by (apply aget_ok; [lia|by rewrite Nat2Z.id]).
    rewrite (take_S_r _ _ b Hb), map_app, rev_app_distr in H. cbn [map rev app frees] in H. rewrite wp_bind in H. rewrite wp_bind, wp_on_app.
    eapply wp_mono; [exact H|]. intros u a Ha. apply IH; [lia|]. exact Ha.
Qed.

(** What [Q] has to say about taking the frame [ds], in front of [more], when
    the allocations have given [bs]: all the buffers are exchanged, or those
    taken so far are freed and the rest of the frame is dropped.  [dn] are the
    array's entries already written, [rest] the others. *)
Definition take_post (w : W) (dn rest : list enet_buffer_struct) (buffLen : Z) (ds more : list enet_rx_bd) (f : enet_rx_frame_struct)
    (Q : status_t * enet_rx_frame_struct -> W -> Prop) (bs : list Z) (a : A) : Prop :=
  Forall (fun b => b + rxBuffSizeAlign (rxr w) - 1 <= UINT32_MAX) bs /\
  if decide (length bs = length ds) then
    forall r d, moved (rxr w) r (length ds) (more ++ zip_with refill bs ds) -> settings (e_hw w) d ->
      Q (kStatus_Success, taken_frame w (List.last ds rx_null) (set_buff_array (dn ++ parts ds buffLen ++ drop (length ds) rest) f))
        (with_app a (with_hw d (with_rx r w)))
  else
    wp (frees (rev (map bs_buffer (dn ++ take (length bs) (parts ds buffLen))))) (fun _ a' =>
      forall r, moved (rxr w) r (length ds) (more ++ zip_with refill bs (take (length bs) ds) ++ map rearmed (drop (length bs) ds)) ->
      Q (kStatus_ENET_RxFrameDrop, set_buff_array (dn ++ take (length bs) (parts ds buffLen) ++ drop (length bs) rest) f)
        (with_app a' (with_rx r w))) a.

Lemma take_post_mono w dn rest buffLen ds more f (Q Q' : status_t * enet_rx_frame_struct -> W -> Prop) bs a :
  (forall res w', Q res w' -> Q' res w') -> take_post w dn rest buffLen ds more f Q bs a -> take_post w dn rest buffLen ds more f Q' bs a.
Proof.
  intros HQ [H1 H2]. split; [done|]. destruct (decide _); [auto|]. eapply wp_mono; [exact H2|]. cbn beta. auto.
Qed.

Lemma take_post_step w a1 r1 dn x rest b d d' ds more buffLen f Q bs a :
  rx_ok (rxr w) -> moved (rxr w) r1 1 ((d' :: ds) ++ more ++ [refill b d]) -> rlast d = false ->
  x = BufferStruct (dma2local (rx_buffer d)) (rx_length d) -> rest <> [] ->
  take_post w dn rest buffLen (d :: d' :: ds) more f Q (b :: bs) a ->
  take_post (with_rx r1 (with_app a1 w)) (dn ++ [x]) (drop 1 rest) (u16 (buffLen + rx_length d)) (d' :: ds) (more ++ [refill b d])
    (set_buff_array (dn ++ x :: drop 1 rest) f) Q bs a.
Proof.
  intros Hr Hm Hd Hx Hrest [H1 H2]. unfold take_post. change (rxr (with_rx r1 _)) with r1. rewrite (mv_size _ _ _ _ Hm).
  assert (Hm' := fun r v => moved_trans (rxr w) r1 r 1 (length (d' :: ds)) _ v Hr Hm).
  assert (Ep : parts (d :: d' :: ds) buffLen = x :: parts (d' :: ds) (u16 (buffLen + rx_length d))) by (rewrite Hx; cbn [parts]; by rewrite Hd).
  rewrite Ep in H2. split; [by apply Forall_inv_tail in H1|]. destruct rest as [|y rest]; [done|]. cbn [drop]. rewrite drop_0.
  destruct (decide (length bs = length (d' :: ds))) as [E|E], (decide (length (b :: bs) = length (d :: d' :: ds))) as [E'|E']; try (cbn [length] in *; lia).
  - intros r hd Hmr Hhd. specialize (H2 r hd). cbn [length zip_with app drop] in H2. rewrite <- app_assoc in Hmr |- *. apply H2; [|exact Hhd].
    apply Hm'. exact Hmr.
  - cbn [length take] in H2. rewrite <- !app_assoc. eapply wp_mono; [exact H2|]. intros u a' H3 r Hmr. specialize (H3 r).
    cbn [length zip_with app drop] in H3. apply H3. apply Hm'. exact Hmr.
Qed.

(** One round of the loop, by the answer of the allocation. *)
Lemma take_step n w f dn y rest buffLen d ds (Q : status_t * enet_rx_frame_struct -> W -> Prop) :
  let x := BufferStruct (dma2local (rx_buffer d)) (if rlast d then u16 (rx_length d - buffLen) else rx_length d) in
  let f1 := set_buff_array (dn ++ x :: rest) f in
  rx_ok (rxr w) -> view (rxr w) = d :: ds -> rxBuffArray f = dn ++ y :: rest ->
  wp rxBuffAlloc (fun b a =>
    if decide (b = 0) then
      wp (free_parts rxBuffFree (length dn) f ;; rx_drop_loop (S (Z.to_nat (rxRingLen (rxr w)))) ;; ret (kStatus_ENET_RxFrameDrop, f)) Q (with_app a w)
    else b + rxBuffSizeAlign (rxr w) - 1 <= UINT32_MAX /\ forall r hd, moved (rxr w) r 1 (ds ++ [refill b d]) -> settings (e_hw w) hd ->
      if rlast d then Q (kStatus_Success, taken_frame w d f1) (with_app a (with_hw hd (with_rx r w)))
      else wp (rx_take_loop rxBuffAlloc rxBuffFree n (S (length dn)) (u16 (buffLen + rx_length d)) f1) Q (with_rx r (with_app a w))) (e_app w) ->
  wp (rx_take_loop rxBuffAlloc rxBuffFree (S n) (length dn) buffLen f) Q w.
Proof.
  intros x f1 Hr Hv Ha H. cbn [rx_take_loop]. rewrite wp_bind, wp_on_app. eapply wp_mono; [exact H|]. clear H.
  intros b a H. cbv beta zeta in H. rewrite wp_bind, wp_hand. set (w0 := with_app a w). change (h_rx (e_h w0)) with (rxr w).
  revert H. destruct (decide (b = 0)) as [->|Hb]; intros H; [exact H|]. rewrite (proj2 (Z.eqb_neq b 0) Hb). cbn [negb]. destruct H as [Hsz H].
  rewrite wp_bind, wp_assert by by apply Z.leb_le.
  change (rx_desc (rxGenIdx (rxr w))) with (rx_desc (D := D) (A := A) (rxGenIdx (rxr w0))). rewrite wp_bind, (wp_rx_current _ w0 d ds) by done.
  change (has (rx_control d) ENET_BUFFDESCRIPTOR_RX_LAST_MASK) with (rlast d). cbv zeta. fold x.
  assert (Eset : aset (rxBuffArray f) (Z.of_nat (length dn)) x = Ok (dn ++ x :: rest)).
  { rewrite aset_ok by (rewrite Ha, length_app; cbn [length]; lia). rewrite Nat2Z.id, Ha, insert_app_r_alt, Nat.sub_diag by lia. done. }
  rewrite wp_bind, (wp_lift _ _ _ _ Eset). fold f1.
  set (r := serve (rxr w) (set_rx_buffer (u32 (local2dma b)))).
  assert (Hm : moved (rxr w) r 1 (ds ++ [refill b d])) by by apply moved_serve.
  assert (Hi : 0 <= rxGenIdx (rxr w) < Z.of_nat (length (rxBd (rxr w)))) by (rewrite (rx_len _ Hr); apply Hr).
  destruct (rlast d).
  - rewrite wp_bind, wp_bind, wp_on_enet. unfold wp at 1, rd. assert (Kp := read_keeps RCR (e_hw w)). assert (Ep := read_promisc (e_hw w)).
    change (e_hw w0) with (e_hw w). destruct (reg_read RCR (e_hw w)) as [rcr hd]. cbn [fst snd] in *. rewrite wp_ret, Ep. fold (taken_frame w d f1).
    rewrite wp_bind, wp_rx_put by exact Hi. rewrite wp_bind, (wp_rearm (set_rx_buffer (u32 (local2dma b))) _ _ (rxr w)) by done.
    fold r. rewrite wp_ret. by apply H.
  - rewrite wp_bind, wp_ret, wp_bind, wp_rx_put by exact Hi.
    rewrite wp_bind, (wp_rearm (set_rx_buffer (u32 (local2dma b))) _ _ (rxr w)) by done. fold r. specialize (H r (e_hw w) Hm (settings_refl _)).
    exact H.
Qed.

Lemma take_run ds : forall n w f dn rest more buffLen (Q : status_t * enet_rx_frame_struct -> W -> Prop),
  rx_ok (rxr w) -> shaped ds -> view (rxr w) = ds ++ more -> (length ds <= n)%nat ->
  rxBuffArray f = dn ++ rest -> (length ds <= length rest)%nat ->
  wp (grab (length ds)) (take_post w dn rest buffLen ds more f Q) (e_app w) ->
  wp (rx_take_loop rxBuffAlloc rxBuffFree n (length dn) buffLen f) Q w.
Proof.
  induction ds as [|d ds IH]; intros n w f dn rest more buffLen Q Hr Hs Hv Hn Ha Hl H; [done|]. destruct n as [|n]; [cbn in Hn; lia|].
  destruct rest as [|y rest]; [cbn in Hl; lia|]. apply (take_step n w f dn y rest buffLen d (ds ++ more)); [done|done|done|].
  cbn [length grab] in H. rewrite wp_bind in H. eapply wp_mono; [exact H|]. clear H. intros b a H. cbv beta zeta in *.
  destruct (decide (b = 0)) as [->|Hb]; [|rewrite (proj2 (Z.eqb_neq b 0) Hb) in H].
  - change (0 =? 0) with true in H. rewrite wp_ret in H. destruct H as [_ H]. cbn [length take drop zip_with] in H.
    destruct (decide _) as [|_]; [done|]. rewrite app_nil_r in H. cbn [app] in H.
    rewrite wp_bind. apply free_parts_run; [rewrite Ha, length_app; lia|]. rewrite Ha, take_app_length. eapply wp_mono; [exact H|].
    intros u a' HQ. rewrite wp_bind. apply (drop_run (d :: ds) _ (with_app a' (with_app a w)) more); [done|done|done| |].
    { assert (E := f_equal length Hv). rewrite view_length, length_app in E. lia. }
    intros r Hm. rewrite wp_ret. specialize (HQ r Hm). rewrite take_0 in HQ. cbn [app] in HQ. rewrite <- Ha in HQ. by destruct f.
  - rewrite wp_bind in H. split.
    { apply wp_inv in H as (bs & a' & _ & H). rewrite wp_ret in H. destruct H as [H _]. by apply Forall_inv in H. }
    intros r hd Hm Hhd. destruct ds as [|d' ds].
    + cbn in Hs. rewrite Hs in *. cbn [length grab] in H. rewrite wp_ret, wp_ret in H. destruct H as [_ H]. destruct (decide _) as [_|]; [|done].
      cbn [parts List.last length drop app] in H. rewrite Hs in H. by apply H.
    + destruct Hs as [Hd Hs]. rewrite Hd. cbn [length] in Hl, Hn.
      replace (S (length dn)) with (length (dn ++ [BufferStruct (dma2local (rx_buffer d)) (rx_length d)])) by (rewrite length_app; cbn; lia).
      apply (IH n _ _ _ rest (more ++ [refill b d])); change (rxr (with_rx r _)) with r.
      * apply Hm.
      * done.
      * rewrite (mv_view _ _ _ _ Hm). by rewrite <- app_assoc.
      * cbn [length]. lia.
      * cbn. by rewrite <- app_assoc.
      * cbn [length]. lia.
      * eapply wp_mono; [exact H|]. intros bs a' HP. rewrite wp_ret in HP.
        assert (Hm1 : moved (rxr w) r 1 ((d' :: ds) ++ more ++ [refill b d])) by (rewrite app_assoc; exact Hm).
        exact (take_post_step w a r dn _ (y :: rest) b d d' ds more buffLen f Q bs a' Hr Hm1 Hd eq_refl ltac:(done) HP).
Qed.

(** The whole call, by what is found. *)
Lemma get_run w f (Q : status_t * enet_rx_frame_struct -> W -> Prop) : 0 <= ringId < 3 -> rx_ok (rxr w) ->
  match scan (view (rxr w)) with
  | NoFrame => Q (kStatus_ENET_RxFrameEmpty, f) w
  | Broken m => forall fr more r d, view (rxr w) = fr ++ more -> length fr = S m ->
      moved (rxr w) r (S m) (more ++ map rearmed fr) -> settings (e_hw w) d -> Q (kStatus_ENET_RxFrameError, f) (with_hw d (with_rx r w))
  | Complete m st e => forall fr more, view (rxr w) = fr ++ more -> length fr = S m -> shaped fr ->
      if decide (st = kStatus_Success) then
        zeroCopy (e_h w) = true /\ (S m <= length (rxBuffArray f))%nat /\
        wp (grab (S m)) (take_post w [] (rxBuffArray f) 0 fr more (set_frameError e f)
          (fun res w' => forall d, settings (e_hw w') d -> Q res (with_hw d w'))) (e_app w)
      else forall r d, moved (rxr w) r (S m) (more ++ map rearmed fr) -> settings (e_hw w) d ->
        Q (st, set_frameError e f) (with_hw d (with_rx r w))
  end ->
  wp (ENET_GetRxFrame ringId rxBuffAlloc rxBuffFree f) Q w.
Proof.
  intros H3 Hr HQ. assert (Hr' := Hr). destruct Hr' as [R1 R2 R3 R4]. unfold ENET_GetRxFrame.
  rewrite wp_bind, wp_assert by (by apply Z.ltb_lt). rewrite wp_bind, wp_hand. change (h_rx (e_h w)) with (rxr w).
  rewrite wp_bind. rewrite <- (slot_0 (rxRingLen (rxr w)) (rxGenIdx (rxr w))) at 1 by done.
  apply find_run; [done|lia|lia|]. change (Z.to_nat 0) with 0%nat. rewrite drop_0.
  destruct (scan (view (rxr w))) as [|m st e|m] eqn:Es; cbn [found].
  - change (kStatus_ENET_RxFrameEmpty =? kStatus_ENET_RxFrameError) with false. change (kStatus_ENET_RxFrameEmpty =? kStatus_Success) with false.
    cbn [negb]. by rewrite wp_ret.
  - destruct (scan_complete _ _ _ _ Es) as (fr & more & Hv & Hl & Hs & He). specialize (HQ fr more Hv Hl Hs).
    assert (Hlen := f_equal length Hv). rewrite view_length, length_app in Hlen.
    destruct (frame_error_cases (List.last fr rx_null)) as [E|[e' E]]; rewrite E in He; injection He as <- <-.
    + destruct (decide _) as [_|]; [|done]. destruct HQ as (Hz & Ha & HQ).
      change (kStatus_Success =? kStatus_ENET_RxFrameError) with false. change (kStatus_Success =? kStatus_Success) with true. cbn [negb].
      rewrite wp_bind, wp_hand, Hz. cbn [negb]. rewrite wp_bind. rewrite <- Hl in *.
      apply (take_run fr _ w _ [] (rxBuffArray f) more); [done|done|done|lia|done|lia|].
      eapply wp_mono; [exact HQ|]. intros bs a [P1 P2]. split; [done|]. destruct (decide _).
      * intros r d Hm Hd. rewrite wp_bind. apply activate_read_run; [done|]. intros d' Hd'. rewrite wp_ret. by apply P2.
      * eapply wp_mono; [exact P2|]. intros u a' P3 r Hm. rewrite wp_bind. apply activate_read_run; [done|]. intros d' Hd'. rewrite wp_ret. by apply P3.
    + destruct (decide _) as [|_]; [done|]. rewrite Z.eqb_refl, wp_bind. apply (drop_run fr _ w more); [done|done|done|lia|].
      intros r Hm. rewrite wp_bind. apply activate_read_run; [done|]. intros d' Hd'. rewrite wp_ret. apply HQ; [by rewrite <- Hl|done].
  - destruct (scan_broken _ _ Es) as (pre & d & more & Hv & Hl & Hs). rewrite Z.add_0_l, <- Hl.
    assert (Hm := moved_rput (rxr w) (or_rx_control ENET_BUFFDESCRIPTOR_RX_LAST_MASK) pre d more Hr (fun d => proj2 (ended_bits d)) Hv).
    assert (Hlen := f_equal length Hv). rewrite view_length, length_app in Hlen. cbn [length] in Hlen.
    rewrite Z.eqb_refl, wp_bind. set (w1 := with_rx _ w). apply (drop_run (pre ++ [or_rx_control ENET_BUFFDESCRIPTOR_RX_LAST_MASK d]) _ w1 more).
    + apply Hm.
    + done.
    + rewrite <- app_assoc. apply Hm.
    + rewrite length_app. cbn [length]. lia.
    + intros r Hm2. rewrite wp_bind. apply activate_read_run; [done|]. intros d' Hd'. rewrite wp_ret.
      apply (HQ (pre ++ [d]) more r d'); [by rewrite <- app_assoc|rewrite length_app; cbn; lia| |done].
      assert (Hm3 := moved_trans _ _ _ _ _ _ _ Hr Hm Hm2). rewrite length_app in Hm3. cbn [length] in Hm3. rewrite map_app in *. cbn [map] in *.
      rewrite rearmed_last in Hm3. rewrite <- Hl. replace (S (length pre)) with (0 + (length pre + 1))%nat by lia. exact Hm3.
Qed.
End Rx.
