(* ===== verification/EnetPool.v ===== *)
(** * Where the receive buffers are

    With zero-copy reception the buffers travel: from the application's pool
    to the ring, from there, filled, to the application.  [BufferPool] is what
    the driver expects of the application's functions; freeing a buffer that
    is not out is no defined behaviour, so the theorem also excludes it. *)

From stdpp Require Import base list numbers tactics.
From Stdlib Require Import ZArith Lia.
From S2P Require Import Prelude Bytes Mmio Enet EnetFrames EnetRing EnetTx EnetRx.

Open Scope Z_scope.
Open Scope prog_scope.

Class BufferPool {A : Type} {X : EnetFeatures} (rxBuffAlloc : M A Z) (rxBuffFree : Z -> M A unit) (size : Z) := {
  out : A -> list Z;       (** the buffers handed out *)
  sound : Z -> Prop;       (** what is a buffer *)
  sound_address b : sound b -> b <> 0 /\ b + size - 1 <= UINT32_MAX /\
    dma2local (u32 (local2dma b)) = b /\ u32 (local2dma b) <> 0;
  alloc_law a : exists b a', rxBuffAlloc a = Ok (b, a') /\
    ((b = 0 /\ (out a' ≡ₚ out a)) \/ (sound b /\ (b ∉ out a) /\ (out a' ≡ₚ (b :: out a))));
  free_law a b : b ∈ out a -> exists a', rxBuffFree b a = Ok (tt, a') /\ out a ≡ₚ (b :: out a')
}.

Section Pool.
Context {D A : Type} `{!Device enet_reg D} {F : EnetFields} {X : EnetFeatures} {L : EnetLaws}.
Abbreviation W := (enet_world D A).
Context (ringId : Z) (ring_ok : 0 <= ringId < 3 /\ ringId < ENET_QUEUE).
Context (rxBuffAlloc : M A Z) (rxBuffFree : Z -> M A unit) (size : Z) `{!BufferPool rxBuffAlloc rxBuffFree size} (num : Z).

Definition addresses (ds : list enet_rx_bd) : list Z := map (fun d => dma2local (rx_buffer d)) ds.

Lemma grab_run n : forall a, NoDup (out a) ->
  wp (grab rxBuffAlloc n) (fun bs a' => (length bs <= n)%nat /\ Forall sound bs /\ out a' ≡ₚ (bs ++ out a) /\ NoDup (out a')) a.
Proof.
  induction n as [|n IH]; intros a Hnd; cbn [grab]; [by rewrite wp_ret|].
  destruct (alloc_law a) as (b & a1 & Ea & Hb). rewrite wp_bind, (wp_ok _ _ _ _ _ Ea). cbv beta. destruct Hb as [[-> Ho]|(Hs & Hin & Ho)].
  - rewrite Z.eqb_refl, wp_ret. split; [cbn; lia|]. split; [done|]. split; [done|]. by rewrite Ho.
  - destruct (sound_address b Hs) as (Hb & _). rewrite (proj2 (Z.eqb_neq _ _) Hb), wp_bind.
    assert (Hnd1 : NoDup (out a1)) by (rewrite Ho; by constructor).
    eapply wp_mono; [by apply IH|]. intros bs a2 (H1 & H2 & H3 & H4). rewrite wp_ret. split; [cbn; lia|]. split; [by constructor|].
    split; [|done]. rewrite H3, Ho. cbn [app]. by rewrite Permutation_middle.
Qed.

Lemma frees_run bs : forall a rest, out a ≡ₚ (bs ++ rest) -> wp (frees rxBuffFree bs) (fun _ a' => out a' ≡ₚ rest) a.
Proof.
  induction bs as [|b bs IH]; intros a rest H; cbn [frees]; [by rewrite wp_ret|]. rewrite wp_bind.
  destruct (free_law a b) as (a1 & Ef & Ho); [rewrite H; left|]. rewrite (wp_ok _ _ _ _ _ Ef). apply IH.
  rewrite Ho in H. cbn [app] in H. by apply Permutation_cons_inv in H.
Qed.

Lemma parts_addresses ds : forall n, map bs_buffer (parts ds n) = addresses ds.
Proof. induction ds as [|d ds IH]; intros n; [done|]. cbn. by rewrite IH. Qed.

Lemma addresses_rearmed ds : addresses (map rearmed ds) = addresses ds.
Proof. unfold addresses. rewrite map_map. apply map_ext. intros d. by destruct (rearmed_bits d) as (_ & _ & _ & ->). Qed.

Lemma addresses_refilled bs : forall ds, Forall sound bs -> (length bs <= length ds)%nat -> addresses (zip_with refill bs ds) = bs.
Proof.
  induction bs as [|b bs IH]; intros ds Hs Hl; [done|]. destruct ds as [|d ds]; [cbn in Hl; lia|]. cbn [zip_with addresses map].
  destruct (rearmed_bits (set_rx_buffer (u32 (local2dma b)) d)) as (_ & _ & _ & E). unfold refill at 1. rewrite E. cbn [rx_buffer set_rx_buffer].
  destruct (sound_address b (Forall_inv Hs)) as (_ & _ & -> & _). f_equal. apply IH; [by apply Forall_inv_tail in Hs|cbn in Hl; lia].
Qed.

(** The lengths reported add up to the frame's, when the engine's lengths are
    those of the parts and, in the last descriptor, of the whole. *)
Definition total (l : list Z) : Z := fold_right Z.add 0 l.
Definition consistent (buffLen : Z) (ds : list enet_rx_bd) : Prop :=
  Forall (fun d => 0 <= rx_length d < 2 ^ 16) ds /\ 0 <= buffLen /\
  buffLen + total (map rx_length (removelast ds)) <= rx_length (List.last ds rx_null).

Lemma parts_total ds : forall buffLen, shaped ds -> consistent buffLen ds ->
  total (map bs_length (parts ds buffLen)) = rx_length (List.last ds rx_null) - buffLen.
Proof.
  induction ds as [|d ds IH]; intros n Hs (H1 & H2 & H3); [done|]. assert (Hd := Forall_inv H1). cbn beta in Hd. destruct ds as [|d' ds].
  - cbn in Hs. cbn [parts map bs_length total fold_right List.last removelast] in *. rewrite Hs, (wrap_small 16) by (pow2; lia). lia.
  - destruct Hs as [E Hs]. assert (Hlast : 0 <= rx_length (List.last (d' :: ds) rx_null) < 2 ^ 16).
    { apply Forall_inv_tail in H1. apply (proj1 (Forall_forall _ _) H1). destruct (exists_last (l := d' :: ds)) as (l & x & ->); [done|].
      rewrite last_last. apply in_app_iff. right. by left. }
    change (removelast (d :: d' :: ds)) with (d :: removelast (d' :: ds)) in H3.
    change (List.last (d :: d' :: ds) rx_null) with (List.last (d' :: ds) rx_null) in *.
    change (parts (d :: d' :: ds) n) with (BufferStruct (dma2local (rx_buffer d)) (if rlast d then u16 (rx_length d - n) else rx_length d)
      :: parts (d' :: ds) (if rlast d then n else u16 (n + rx_length d))).
    rewrite E. cbn [map bs_length total fold_right] in *. fold (total (map rx_length (removelast (d' :: ds)))) in H3.
    assert (Hnn : 0 <= total (map rx_length (removelast (d' :: ds)))).
    { apply Forall_inv_tail in H1. clear - H1. revert H1. generalize (d' :: ds). intros l Hl. induction l as [|x [|y l] IHl]; [done|done|].
      change (removelast (x :: y :: l)) with (x :: removelast (y :: l)). cbn [map total fold_right]. assert (Hx := Forall_inv Hl). cbn beta in Hx.
      apply Forall_inv_tail in Hl. specialize (IHl Hl). unfold total in *. lia. }
    rewrite (wrap_small 16) by (pow2; lia). fold (total (map bs_length (parts (d' :: ds) (n + rx_length d)))). rewrite IH; [lia|done|].
    split; [by apply Forall_inv_tail in H1|]. lia.
Qed.

(** Every buffer that is out is in exactly one place: one descriptor of the
    ring, or with the application, which holds [held]. *)
Record placed (w : W) (held : list Z) : Prop := {
  pl_ring : rx_ok (rxr w);
  pl_num : rxRingLen (rxr w) = num;
  pl_size : rxBuffSizeAlign (rxr w) = size;
  pl_zero : zeroCopy (e_h w) = true;
  pl_full : Forall (fun d => rx_buffer d <> 0) (view (rxr w));
  pl_out : out (e_app w) ≡ₚ (addresses (view (rxr w)) ++ held);
  pl_once : NoDup (out (e_app w))
}.

Definition full (ds : list enet_rx_bd) : Prop := Forall (fun d => rx_buffer d <> 0) ds.
Lemma full_rearmed ds : full ds -> full (map rearmed ds).
Proof. intros H. apply Forall_map. eapply Forall_impl; [|exact H]. intros d Hd. change (rx_buffer (rearmed d) <> 0). by destruct (rearmed_bits d) as (_ & _ & _ & ->). Qed.
Lemma full_refilled bs : forall ds, Forall sound bs -> full (zip_with refill bs ds).
Proof.
  induction bs as [|b bs IH]; intros ds Hs; [constructor|]. destruct ds as [|d ds]; [constructor|]. cbn [zip_with]. constructor.
  - destruct (rearmed_bits (set_rx_buffer (u32 (local2dma b)) d)) as (_ & _ & _ & E). unfold refill. rewrite E. by apply sound_address, (Forall_inv Hs).
  - apply IH. by apply Forall_inv_tail in Hs.
Qed.

Lemma placed_moved w r d a n v held held' : placed w held -> moved (rxr w) r n v -> full v ->
  out a ≡ₚ (addresses v ++ held') -> NoDup (out a) -> placed (with_app a (with_hw d (with_rx r w))) held'.
Proof.
  intros [P1 P0 P2 P3 P6 P4 P5] [M1 M2 M3 M4 M5] Hf Ho Hn. split; try done; change (rxr (with_app _ _)) with r; [congruence|congruence|by rewrite M5|by rewrite M5].
Qed.

Lemma rotate (bs l m h : list Z) : bs ++ (l ++ m) ++ h ≡ₚ (m ++ bs) ++ l ++ h.
Proof. rewrite <- !app_assoc, (app_assoc bs l). rewrite Permutation_app_swap_app. by rewrite <- app_assoc. Qed.

Lemma take_places (w : W) fr more f held :
  placed w held -> view (rxr w) = fr ++ more -> (length fr <= length (rxBuffArray f))%nat ->
  wp (grab rxBuffAlloc (length fr)) (take_post rxBuffFree w [] (rxBuffArray f) 0 fr more f
    (fun res w' => forall d, settings (e_hw w') d ->
      let got := map bs_buffer (take (length fr) (rxBuffArray res.2)) in
      if decide (res.1 = kStatus_Success) then placed (with_hw d w') (got ++ held) /\ got = addresses fr
      else res.1 = kStatus_ENET_RxFrameDrop /\ placed (with_hw d w') held)) (e_app w).
Proof.
  intros HP Hv Hl. assert (HP' := HP). destruct HP' as [P1 P0 P2 P3 P6 P4 P5]. eapply wp_mono; [by apply grab_run|]. intros bs a (H1 & H2 & H3 & H4).
  assert (Hadd : forall ds ds', addresses (ds ++ ds') = addresses ds ++ addresses ds') by (intros; apply map_app). split.
  { rewrite P2. apply Forall_forall. intros b Hb. by apply (sound_address b), (proj1 (Forall_forall _ _) H2). }
  destruct (decide (length bs = length fr)) as [E|E].
  - intros r d Hm _ d' _. cbv zeta. cbn [fst snd]. destruct (decide _) as [_|]; [|done].
    assert (Eg : map bs_buffer (take (length fr) (rxBuffArray (taken_frame w (List.last fr rx_null)
      (set_buff_array ([] ++ parts fr 0 ++ drop (length fr) (rxBuffArray f)) f)))) = addresses fr).
    { unfold taken_frame. assert (El : length (parts fr 0) = length fr) by (rewrite <- (length_map bs_buffer), parts_addresses; apply length_map).
      destruct ENHANCEDBUFFERDESCRIPTOR_MODE; cbn [rxBuffArray set_timestamp set_promiscuous set_totLen set_buff_array app];
        by rewrite <- El, take_app_length, parts_addresses. }
    rewrite Eg. split; [|done]. apply (placed_moved w r d' a _ _ held _ HP Hm); [|  |done].
    { rewrite Hv in P6. apply Forall_app in P6 as [_ P6]. apply Forall_app. split; [done|by apply full_refilled]. }
    rewrite H3, P4, Hv, !Hadd, addresses_refilled by (done || lia). apply rotate.
  - cbn [app]. rewrite <- firstn_map, parts_addresses.
    assert (Hk : addresses fr = take (length bs) (addresses fr) ++ addresses (drop (length bs) fr)).
    { unfold addresses. rewrite <- skipn_map. by rewrite take_drop. }
    assert (Hout : out a ≡ₚ (rev (take (length bs) (addresses fr)) ++ bs ++ addresses (drop (length bs) fr) ++ addresses more ++ held)).
    { rewrite H3, P4, Hv, Hadd. rewrite Hk at 1. rewrite <- Permutation_rev, <- !app_assoc. apply Permutation_app_swap_app. }
    eapply wp_mono; [by apply frees_run|]. intros u a' Ho r Hm d Hd. cbv zeta. cbn [fst snd]. destruct (decide _) as [|_]; [done|]. split; [done|].
    rewrite Hout in H4. apply list.NoDup_app in H4 as (_ & _ & H4). rewrite <- Ho in H4.
    apply (placed_moved w r d a' _ _ held _ HP Hm); [| |done].
    { rewrite Hv in P6. apply Forall_app in P6 as [P6 P7]. apply Forall_app. split; [done|]. apply Forall_app. split; [by apply full_refilled|].
      by apply full_rearmed, Forall_drop. }
    rewrite Ho, !Hadd, addresses_rearmed, addresses_refilled by (done || (rewrite length_take; lia)).
    rewrite <- !app_assoc, (app_assoc bs). rewrite Permutation_app_swap_app. by rewrite <- !app_assoc.
Qed.

(** Whatever is in the receive ring, ENET_GetRxFrame returns, and every
    buffer that is out is afterwards still in exactly one place: on success
    the buffers of the frame's descriptors have passed to the application, in
    order, and new ones have taken their place; on an empty ring, an error or
    a failed allocation the application holds what it held before. *)
Lemma get_placed (w : W) (f : enet_rx_frame_struct) (held : list Z) :
  placed w held -> (Z.to_nat (rxRingLen (rxr w)) <= length (rxBuffArray f))%nat ->
  wp (ENET_GetRxFrame ringId rxBuffAlloc rxBuffFree f) (fun res w' =>
    exists got, placed w' (got ++ held) /\
    if decide (res.1 = kStatus_Success) then
      exists n, (0 < n)%nat /\ got = map bs_buffer (take n (rxBuffArray res.2)) /\ got = addresses (take n (view (rxr w)))
    else got = [] /\ In res.1 [kStatus_ENET_RxFrameEmpty; kStatus_ENET_RxFrameError; kStatus_ENET_RxFrameDrop]) w.
Proof.
  intros HP Hl. assert (HP' := HP). destruct HP' as [P1 P0 P2 P3 P6 P4 P5]. apply get_run; [apply ring_ok|apply ring_ok|done|].
  assert (Hdrop : forall fr more r d, view (rxr w) = fr ++ more -> moved (rxr w) r (length fr) (more ++ map rearmed fr) ->
    placed (with_hw d (with_rx r w)) held).
  { intros fr more r d Hv Hm. change (with_rx r w) with (with_app (e_app w) (with_rx r w)). apply (placed_moved w r d _ _ _ held _ HP Hm); [| |done].
    { rewrite Hv in P6. apply Forall_app in P6 as [P6 P7]. apply Forall_app. split; [done|by apply full_rearmed]. }
    rewrite P4, Hv. unfold addresses. rewrite !map_app. fold (addresses (map rearmed fr)). rewrite addresses_rearmed.
    by rewrite (Permutation_app_comm (map _ fr)). }
  destruct (scan (view (rxr w))) as [|m st e|m] eqn:Es.
  - exists []. split; [done|]. destruct (decide _); [done|]. cbn. auto.
  - intros fr more Hv Hfr Hs. assert (Hlen := f_equal length Hv). rewrite view_length, length_app in Hlen.
    assert (Hst : st = kStatus_Success \/ st = kStatus_ENET_RxFrameError).
    { destruct (scan_complete _ _ _ _ Es) as (fr' & _ & _ & _ & _ & He).
      destruct (frame_error_cases (List.last fr' rx_null)) as [E|[e' E]]; rewrite E in He; injection He as <- _; auto. }
    destruct (decide (st = kStatus_Success)) as [E|E].
    + split; [done|]. split; [lia|]. rewrite <- Hfr.
      eapply wp_mono; [apply (take_places w fr more (set_frameError e f) held HP Hv); cbn; lia|].
      intros bs a. apply take_post_mono. intros res w' HQ d Hd. specialize (HQ d Hd). cbv zeta in HQ. destruct (decide _).
      * destruct HQ as [H1 H2]. eexists. split; [exact H1|]. exists (length fr). split; [lia|]. split; [done|]. by rewrite Hv, take_app_length.
      * destruct HQ as [-> H2]. exists []. split; [done|]. split; [done|]. cbn. auto.
    + destruct Hst as [Hst | ->]; [done|]. intros r d Hm _. exists []. rewrite <- Hfr in Hm. split; [by apply (Hdrop fr more)|].
      cbn [fst]. destruct (decide _); [done|]. cbn. auto.
  - intros fr more r d Hv Hfr Hm _. exists []. rewrite <- Hfr in Hm. split; [by apply (Hdrop fr more)|].
    cbn [fst]. destruct (decide _); [done|]. cbn. auto.
Qed.

(** C25: when the next frame in the ring is complete and free of errors and
    the allocations succeed, the application gets the addresses of its
    buffers in order, with their lengths, the total length, the promiscuous
    flag and the time stamp of its last descriptor; the descriptors go back to
    the engine with the new buffers, behind the others.  The lengths add up to
    the total when the engine's do. *)
Theorem enet_rx_frame_delivered (w : W) (f : enet_rx_frame_struct) (m : nat) (e : Z) (bs : list Z) (a : A) :
  let fr := take (S m) (view (rxr w)) in
  rx_ok (rxr w) -> zeroCopy (e_h w) = true -> scan (view (rxr w)) = Complete m kStatus_Success e ->
  (S m <= length (rxBuffArray f))%nat -> grab rxBuffAlloc (S m) (e_app w) = Ok (bs, a) -> length bs = S m ->
  Forall (fun b => b + rxBuffSizeAlign (rxr w) - 1 <= UINT32_MAX) bs ->
  wp (ENET_GetRxFrame ringId rxBuffAlloc rxBuffFree f) (fun res w' =>
    res = (kStatus_Success, taken_frame w (List.last fr rx_null)
             (set_buff_array (parts fr 0 ++ drop (S m) (rxBuffArray f)) (set_frameError e f))) /\
    moved (rxr w) (rxr w') (S m) (drop (S m) (view (rxr w)) ++ zip_with refill bs fr) /\ e_app w' = a /\
    (consistent 0 fr -> total (map bs_length (parts fr 0)) = totLen res.2)) w.
Proof.
  intros fr Hr Hz Hs Ha Hg Hb HF. apply get_run; [apply ring_ok|apply ring_ok|done|]. rewrite Hs.
  intros fr' more Hv Hl Hsh. assert (fr = fr') as -> by (unfold fr; rewrite Hv, <- Hl; by rewrite take_app_length).
  assert (drop (S m) (view (rxr w)) = more) as Em by (rewrite Hv, <- Hl; by rewrite drop_app_length).
  destruct (decide _) as [_|]; [|done]. split; [done|]. split; [done|]. rewrite (wp_ok _ _ _ _ _ Hg). split; [done|].
  rewrite Hl. destruct (decide _) as [_|]; [|congruence]. intros r d Hm _ d' _. split; [done|]. split; [by rewrite Em|]. split; [done|].
  intros Hc. rewrite parts_total by done. unfold taken_frame. destruct ENHANCEDBUFFERDESCRIPTOR_MODE; cbn; lia.
Qed.
End Pool.
