(* ===== verification/EnetLife.v ===== *)
(** * The receive ring from initialisation to shutdown

    [ENET_Up] fills the ring with buffers of the pool, [ENET_Down] gives back
    what is in it; in between the engine writes to the descriptors and frames
    are fetched.  When the ring is shut down, or could not be filled, the only
    buffers out are those the application had before and those of the frames
    it was given. *)

From stdpp Require Import base list numbers tactics.
From Stdlib Require Import ZArith Lia.
From S2P Require Import Prelude Bytes Mmio Enet EnetFrames EnetMac EnetRing EnetTx EnetRx EnetPool.

Open Scope Z_scope.
Open Scope prog_scope.

Section Life.
Context {D A : Type} `{!Device enet_reg D} {F : EnetFields} {X : EnetFeatures} {L : EnetLaws (D := D)}.
Abbreviation W := (enet_world D A).
Context (ringId : Z) (ring_ok : 0 <= ringId < 3 /\ ringId < ENET_QUEUE).
Context (rxBuffAlloc : M A Z) (rxBuffFree : Z -> M A unit) (size : Z) `{!BufferPool rxBuffAlloc rxBuffFree size}.

(** A ring at its beginning is its list of descriptors. *)
Lemma view_start r : rx_ok r -> rxGenIdx r = 0 -> view r = rxBd r.
Proof.
  intros [R1 R2 R3 R4] Hg. apply list_eq. intros k. destruct (decide (k < Z.to_nat (rxRingLen r))%nat) as [Hk|Hk].
  - rewrite view_at by done. unfold rk, rat. rewrite Hg, slot_small by lia. rewrite Nat2Z.id, nth_lookup.
    destruct (lookup_lt_is_Some_2 (rxBd r) k) as [x Hx]; [lia|]. by rewrite Hx.
  - rewrite !lookup_ge_None_2; [done| |rewrite view_length]; lia.
Qed.

Lemma view_rotation r : rx_ok r -> view r ≡ₚ rxBd r.
Proof.
  intros Hr. assert (Hr' := Hr). destruct Hr' as [R1 R2 R3 R4]. assert (E : view r = drop (Z.to_nat (rxGenIdx r)) (rxBd r) ++ take (Z.to_nat (rxGenIdx r)) (rxBd r)).
  { apply list_eq. intros k. destruct (decide (k < Z.to_nat (rxRingLen r))%nat) as [Hk|Hk].
    2:{ rewrite !lookup_ge_None_2; [done| |rewrite view_length]; rewrite ?length_app, ?length_drop, ?length_take; lia. }
    rewrite view_at by done. unfold rk, rat. destruct (decide (k < Z.to_nat (rxRingLen r) - Z.to_nat (rxGenIdx r))%nat) as [H|H].
    - rewrite lookup_app_l by (rewrite length_drop; lia). rewrite lookup_drop. unfold slot. rewrite Z.mod_small by lia.
      rewrite nth_lookup. replace (Z.to_nat (rxGenIdx r + Z.of_nat k)) with (Z.to_nat (rxGenIdx r) + k)%nat by lia.
      destruct (lookup_lt_is_Some_2 (rxBd r) (Z.to_nat (rxGenIdx r) + k)) as [x Hx]; [lia|]. by rewrite Hx.
    - rewrite lookup_app_r by (rewrite length_drop; lia). rewrite length_drop, lookup_take_lt by lia. unfold slot.
      replace (rxGenIdx r + Z.of_nat k) with (rxGenIdx r + Z.of_nat k - rxRingLen r + 1 * rxRingLen r) by lia.
      rewrite Z_mod_plus_full, Z.mod_small by lia. rewrite nth_lookup.
      replace (Z.to_nat (rxGenIdx r + Z.of_nat k - rxRingLen r)) with (k - (length (rxBd r) - Z.to_nat (rxGenIdx r)))%nat by lia.
      destruct (lookup_lt_is_Some_2 (rxBd r) (k - (length (rxBd r) - Z.to_nat (rxGenIdx r)))) as [x Hx]; [lia|]. by rewrite Hx. }
  rewrite E, Permutation_app_comm. by rewrite take_drop.
Qed.

Lemma rput_mid r l1 d l2 f : rxBd r = l1 ++ d :: l2 -> rput (Z.of_nat (length l1)) f r = set_rx_bds (l1 ++ f d :: l2) r.
Proof.
  intros E. unfold rput, rat. rewrite E, Nat2Z.id. f_equal. rewrite insert_app_r_alt, Nat.sub_diag by lia. cbn [insert list_insert]. do 2 f_equal.
  rewrite nth_lookup, lookup_app_r, Nat.sub_diag by lia. done.
Qed.

(** [wp_rx_put] in this view. *)
Lemma wp_rx_put_mid w l1 d l2 f (Q : unit -> W -> Prop) : rxBd (rxr w) = l1 ++ d :: l2 ->
  wp (rx_put (Z.of_nat (length l1)) f) Q w <-> Q tt (with_rx (set_rx_bds (l1 ++ f d :: l2) (rxr w)) w).
Proof.
  intros E. rewrite wp_rx_put by (rewrite E, length_app; cbn [length]; lia). by rewrite (rput_mid _ _ _ _ _ E).
Qed.

(** ** Filling the ring *)

(** A descriptor as initialised with the buffer [b]. *)
Definition initial (last irq : bool) (b : Z) (d : enet_rx_bd) : enet_rx_bd :=
  let d := set_rx_control ENET_BUFFDESCRIPTOR_RX_EMPTY_MASK (set_rx_length 0 (set_rx_buffer (u32 (local2dma b)) d)) in
  let d := if last then or_rx_control ENET_BUFFDESCRIPTOR_RX_WRAP_MASK d else d in
  if ENHANCEDBUFFERDESCRIPTOR_MODE then
    set_rx_controlExtend1 (if irq then Z.lor (rx_controlExtend1 d) ENET_BUFFDESCRIPTOR_RX_INTERRUPT_MASK else 0) d
  else d.

Lemma initial_desc last irq b d : rx_buffer (initial last irq b d) = u32 (local2dma b) /\ rwraps (initial last irq b d) = last /\ empty (initial last irq b d) = true.
Proof. unfold initial. destruct ENHANCEDBUFFERDESCRIPTOR_MODE, last; repeat split; try done; bits; done. Qed.

(** The part [l] of a ring of [n], from its beginning, is initialised. *)
Record filled (n : Z) (l : list enet_rx_bd) : Prop := {
  fd_full : full l;
  fd_empty : Forall (fun d => empty d = true) l;
  fd_wraps : forall i d, l !! i = Some d -> rwraps d = (Z.of_nat i =? n - 1)
}.

Lemma filled_snoc n l b irq d : filled n l -> sound b ->
  filled n (l ++ [initial (Z.of_nat (length l) =? n - 1) irq b d]).
Proof.
  intros [F1 F3 F2] Hb. destruct (initial_desc (Z.of_nat (length l) =? n - 1) irq b d) as (E1 & E2 & E3). split.
  - apply Forall_app. split; [done|]. constructor; [|constructor]. rewrite E1. by apply sound_address.
  - apply Forall_app. split; [done|]. by constructor.
  - intros i d' Hi. apply lookup_app_Some in Hi as [Hi|[Hi1 Hi2]]; [by apply F2|].
    destruct (i - length l)%nat as [|k] eqn:Ek; [|by destruct k]. injection Hi2 as <-. rewrite E2. do 2 f_equal. lia.
Qed.

Lemma with_rx_bds_twice l l' (w : W) : with_rx (set_rx_bds l (rxr (with_rx (set_rx_bds l' (rxr w)) w))) (with_rx (set_rx_bds l' (rxr w)) w)
  = with_rx (set_rx_bds l (rxr w)) w.
Proof. done. Qed.

(** Writing one descriptor of the ring. *)
Lemma init_desc_run {B} (w : W) l1 d l2 c b (last irq : bool) (k : M W B) (Q : B -> W -> Prop) :
  rxBd (rxr w) = l1 ++ d :: l2 -> c = Z.of_nat (length l1) ->
  wp (rx_put c (set_rx_buffer (u32 (local2dma b))) ;; rx_put c (set_rx_length 0) ;;
      rx_put c (set_rx_control ENET_BUFFDESCRIPTOR_RX_EMPTY_MASK) ;;
      when last (rx_put c (or_rx_control ENET_BUFFDESCRIPTOR_RX_WRAP_MASK)) ;;
      when ENHANCEDBUFFERDESCRIPTOR_MODE (
        rx_put c (fun d => set_rx_controlExtend1 (if irq then Z.lor (rx_controlExtend1 d) ENET_BUFFDESCRIPTOR_RX_INTERRUPT_MASK else 0) d)) ;;
      k) Q w <-> wp k Q (with_rx (set_rx_bds (l1 ++ initial last irq b d :: l2) (rxr w)) w).
Proof.
  intros E ->. rewrite wp_bind, (wp_rx_put_mid _ _ _ _ _ _ E). do 2 (rewrite wp_bind, (wp_rx_put_mid _ l1 _ l2) by reflexivity). rewrite !with_rx_bds_twice.
  unfold initial. rewrite wp_bind. destruct last; [rewrite (wp_rx_put_mid _ l1 _ l2) by reflexivity|rewrite wp_ret]; rewrite ?with_rx_bds_twice, wp_bind;
    (destruct ENHANCEDBUFFERDESCRIPTOR_MODE; [rewrite (wp_rx_put_mid _ l1 _ l2) by reflexivity|rewrite wp_ret]); by rewrite ?with_rx_bds_twice.
Qed.

Lemma rx_init_run irq addr n : forall w l1 l2 out0 (Q : status_t -> W -> Prop),
  rxBd (rxr w) = l1 ++ l2 -> length l2 = n -> Z.of_nat (length l1 + n) = rxRingLen (rxr w) -> rxRingLen (rxr w) < 2 ^ 16 ->
  rxBuffSizeAlign (rxr w) = size -> zeroCopy (e_h w) = true -> NoDup (out (e_app w)) ->
  out (e_app w) ≡ₚ (addresses l1 ++ out0) -> filled (rxRingLen (rxr w)) l1 ->
  (forall l1' a, length l1' = (length l1 + n)%nat -> NoDup (out a) -> out a ≡ₚ (addresses l1' ++ out0) -> filled (rxRingLen (rxr w)) l1' ->
    Q kStatus_Success (with_app a (with_rx (set_rx_bds l1' (rxr w)) w))) ->
  (forall l1' pre l2' a, l2 = pre ++ l2' -> length (l1' ++ l2') = (length l1 + n)%nat -> NoDup (out a) -> out a ≡ₚ (addresses l1' ++ out0) -> full l1' ->
    Q kStatus_ENET_InitMemoryFail (with_app a (with_rx (set_rx_bds (l1' ++ l2') (rxr w)) w))) ->
  wp (rx_init_loop rxBuffAlloc (S n) (Z.of_nat (length l1)) addr irq) Q w.
Proof.
  induction n as [|n IH]; intros w l1 l2 out0 Q Hbd Hl2 HN HN2 Hsz Hz Hnd Hout Hfd HQ1 HQ2; cbn [rx_init_loop]; rewrite wp_bind, wp_hand; change (h_rx (e_h w)) with (rxr w).
  - rewrite (proj2 (Z.ltb_ge _ _)) by lia. cbn [negb]. rewrite wp_ret. destruct l2; [|done].
    specialize (HQ1 l1 (e_app w) ltac:(lia) Hnd Hout Hfd). rewrite app_nil_r in Hbd.
    assert (E : with_app (e_app w) (with_rx (set_rx_bds l1 (rxr w)) w) = w) by (rewrite <- Hbd; by destruct w as [? [[] ? ? ? ? ? ? ? ?] ? ?]).
    by rewrite E in HQ1.
  - destruct l2 as [|d l2]; [done|]. rewrite (proj2 (Z.ltb_lt _ _)) by lia. cbn [negb]. rewrite wp_bind, wp_hand, Hz. cbn [negb andb].
    rewrite wp_bind, wp_on_app. destruct (alloc_law (e_app w)) as (b & a & Ea & Hb). rewrite (wp_ok _ _ _ _ _ Ea).
    change (rxr (with_app a w)) with (rxr w). destruct Hb as [[-> Ho]|(Hs & Hin & Ho)].
    + rewrite Z.eqb_refl, wp_ret. specialize (HQ2 l1 [] (d :: l2) a eq_refl). rewrite <- Hbd in HQ2.
      assert (E : with_rx (set_rx_bds (rxBd (rxr w)) (rxr w)) w = w) by (by destruct w as [? [[] ? ? ? ? ? ? ? ?] ? ?]).
      rewrite E in HQ2. apply HQ2; [by rewrite Hbd, length_app, Hl2|by rewrite Ho|by rewrite Ho|apply Hfd].
    + destruct (sound_address b Hs) as (Hb & Hb2 & Hb3 & _). rewrite (proj2 (Z.eqb_neq _ _) Hb), Hsz, (proj2 (Z.leb_le _ _)) by done.
      rewrite wp_bind, wp_assert by done. rewrite (init_desc_run _ l1 d l2) by done.
      rewrite (wrap_small 16) by (pow2; lia). replace (Z.of_nat (length l1) + 1) with (Z.of_nat (length (l1 ++ [initial (Z.of_nat (length l1) =? rxRingLen (rxr w) - 1) irq b d])))
        by (rewrite length_app; cbn [length]; lia).
      set (d1 := initial _ _ _ _). cbn [length] in Hl2.
      apply (IH _ _ l2 out0); cbn [e_app with_rx with_app]; change (rxRingLen (rxr _)) with (rxRingLen (rxr w)); try done.
      * cbn [rxBd rxr with_rx e_h set_rx h_rx set_rx_bds]. by rewrite <- app_assoc.
      * lia.
      * rewrite length_app. cbn [length]. lia.
      * rewrite Ho. apply list.NoDup_cons. done.
      * unfold addresses, d1. rewrite map_app. cbn [map]. rewrite (proj1 (initial_desc _ irq b d)), Hb3, Ho, Hout, <- app_assoc. cbn [app].
        apply Permutation_middle.
      * by apply filled_snoc.
      * intros l1' a' H1. rewrite length_app in H1. cbn [length] in H1. apply (HQ1 l1' a'). lia.
      * intros l1' pre l2' a' H0 H1. rewrite (length_app l1) in H1. cbn [length] in H1. subst l2. apply (HQ2 l1' (d :: pre) l2' a'); [done|lia].
Qed.

(** ** Emptying it *)

Definition occupied (ds : list enet_rx_bd) : list Z := addresses (List.filter (fun d => negb (rx_buffer d =? 0)) ds).
Definition emptied (d : enet_rx_bd) : enet_rx_bd :=
  if rx_buffer d =? 0 then d else and_rx_control ENET_BUFFDESCRIPTOR_RX_WRAP_MASK (set_rx_buffer 0 d).

Lemma occupied_full ds : full ds -> occupied ds = addresses ds.
Proof.
  intros H. unfold occupied. f_equal. induction H as [|d ds Hd _ IH]; [done|]. cbn [List.filter]. rewrite (proj2 (Z.eqb_neq _ _) Hd). cbn [negb]. by rewrite IH.
Qed.
Lemma occupied_app ds ds' : occupied (ds ++ ds') = occupied ds ++ occupied ds'.
Proof. unfold occupied. rewrite List.filter_app. apply map_app. Qed.
Lemma occupied_none ds : Forall (fun d => rx_buffer d = 0) ds -> occupied ds = [].
Proof. induction 1 as [|d ds Hd _ IH]; [done|]. unfold occupied. cbn [List.filter]. by rewrite Hd, Z.eqb_refl. Qed.

Lemma empty_desc_run (w : W) l1 d l2 rest (Q : unit -> W -> Prop) :
  rxBd (rxr w) = l1 ++ d :: l2 -> out (e_app w) ≡ₚ (occupied [d] ++ rest) ->
  (forall a, out a ≡ₚ rest -> Q tt (with_app a (with_rx (set_rx_bds (l1 ++ emptied d :: l2) (rxr w)) w))) ->
  wp (when (negb (rx_buffer d =? 0)) (on_app (rxBuffFree (dma2local (rx_buffer d))) ;; rx_put (Z.of_nat (length l1)) (set_rx_buffer 0) ;;
      rx_put (Z.of_nat (length l1)) (and_rx_control ENET_BUFFDESCRIPTOR_RX_WRAP_MASK))) Q w.
Proof.
  unfold occupied, emptied. cbn [List.filter]. intros E Ho HQ. destruct (rx_buffer d =? 0); cbn [negb addresses map app] in *.
  - rewrite wp_ret. rewrite <- E in HQ. specialize (HQ (e_app w) Ho).
    assert (E2 : with_app (e_app w) (with_rx (set_rx_bds (rxBd (rxr w)) (rxr w)) w) = w) by (by destruct w as [? [[] ? ? ? ? ? ? ? ?] ? ?]).
    by rewrite E2 in HQ.
  - destruct (free_law (e_app w) (dma2local (rx_buffer d))) as (a & Ea & Ho2); [rewrite Ho; left|].
    rewrite wp_bind, wp_on_app, (wp_ok _ _ _ _ _ Ea), wp_bind, (wp_rx_put_mid _ l1 d l2) by done.
    rewrite (wp_rx_put_mid _ l1 _ l2) by reflexivity. apply HQ. rewrite Ho2 in Ho. by apply Permutation_cons_inv in Ho.
Qed.

Lemma wp_rx_desc_mid (w : W) l1 d l2 (Q : enet_rx_bd -> W -> Prop) : rxBd (rxr w) = l1 ++ d :: l2 ->
  wp (rx_desc (Z.of_nat (length l1))) Q w <-> Q d w.
Proof.
  intros E. rewrite wp_rx_desc by (rewrite E, length_app; cbn [length]; lia). unfold rat.
  by rewrite E, Nat2Z.id, nth_lookup, lookup_app_r, Nat.sub_diag by lia.
Qed.

Lemma free_run n : forall (w : W) l1 d l2 rest (Q : unit -> W -> Prop),
  rxBd (rxr w) = l1 ++ d :: l2 -> (length l2 < n)%nat -> Z.of_nat (length (l1 ++ d :: l2)) = rxRingLen (rxr w) -> rxRingLen (rxr w) < 2 ^ 16 ->
  out (e_app w) ≡ₚ (occupied (d :: l2) ++ rest) ->
  (forall a, out a ≡ₚ rest -> Q tt (with_app a (with_rx (set_rx_bds (l1 ++ map emptied (d :: l2)) (rxr w)) w))) ->
  wp (rx_free_loop rxBuffFree n (Z.of_nat (length l1))) Q w.
Proof.
  induction n as [|n IH]; intros w l1 d l2 rest Q E Hn HN HN2 Ho HQ; [lia|]. cbn [rx_free_loop]. rewrite wp_bind, (wp_rx_desc_mid w l1 d l2), wp_bind by done.
  rewrite (occupied_app [d] l2 : occupied (d :: l2) = _), <- app_assoc in Ho.
  apply (empty_desc_run w l1 d l2 _ _ E Ho). intros a Ha. rewrite wp_bind, wp_hand, wp_bind.
  change (rxRingLen (h_rx _)) with (rxRingLen (rxr w)). rewrite length_app in HN. cbn [length] in HN.
  rewrite (wp_lift _ _ _ _ (increase_index (Z.of_nat (length l1)) (rxRingLen (rxr w)) ltac:(lia) HN2)).
  destruct l2 as [|d2 l2].
  - replace (Z.of_nat (length l1) + 1) with (rxRingLen (rxr w)) by (cbn [length] in HN; lia). rewrite Z.mod_same by lia.
    cbn [Z.eqb negb]. rewrite wp_ret. by apply HQ.
  - cbn [length] in Hn, HN. rewrite Z.mod_small by lia. rewrite (proj2 (Z.eqb_neq _ _)) by lia. cbn [negb].
    replace (Z.of_nat (length l1) + 1) with (Z.of_nat (length (l1 ++ [emptied d]))) by (rewrite length_app; cbn [length]; lia).
    apply (IH _ _ d2 l2 rest); cbn [e_app with_rx with_app]; change (rxRingLen (rxr _)) with (rxRingLen (rxr w)); try done.
    + cbn [rxBd rxr with_app with_rx e_h set_rx h_rx set_rx_bds]. by rewrite <- app_assoc.
    + lia.
    + rewrite !length_app. cbn [length]. lia.
    + intros a' Ha'. specialize (HQ a' Ha'). rewrite <- app_assoc. exact HQ.
Qed.

(** ** From the beginning *)

(** The state when the ring is given back. *)
Lemma free_all_run (w : W) rest (Q : unit -> W -> Prop) :
  Z.of_nat (length (rxBd (rxr w))) = rxRingLen (rxr w) -> 0 < rxRingLen (rxr w) < 2 ^ 16 -> zeroCopy (e_h w) = true ->
  out (e_app w) ≡ₚ (occupied (rxBd (rxr w)) ++ rest) ->
  (forall a, out a ≡ₚ rest -> Q tt (with_app a (with_rx (set_rx_bds (map emptied (rxBd (rxr w))) (rxr w)) w))) ->
  wp (ENET_RxBufferFreeAll rxBuffFree) Q w.
Proof.
  intros HN HN2 Hz Ho HQ. unfold ENET_RxBufferFreeAll. rewrite wp_bind, wp_hand, wp_bind, Hz, wp_assert, wp_bind, wp_hand by done.
  change (h_rx (e_h w)) with (rxr w). destruct (rxBd (rxr w)) as [|d l] eqn:E; [cbn in HN; lia|].
  change 0 with (Z.of_nat (length (@nil enet_rx_bd))). apply (free_run _ w [] d l rest); try done; [cbn [length] in HN; lia|lia].
Qed.

(** ** The transmit ring *)

Lemma tput_mid t l1 d l2 f : txBd t = l1 ++ d :: l2 -> tput (Z.of_nat (length l1)) f t = set_tx_bds (l1 ++ f d :: l2) t.
Proof.
  intros E. unfold tput, tat. rewrite E, Nat2Z.id. f_equal. rewrite insert_app_r_alt, Nat.sub_diag by lia. cbn [insert list_insert]. do 2 f_equal.
  rewrite nth_lookup, lookup_app_r, Nat.sub_diag by lia. done.
Qed.

Lemma wp_tx_put_mid {B} w l1 d l2 f (k : M W B) (Q : B -> W -> Prop) : txBd (txr w) = l1 ++ d :: l2 ->
  wp (tx_put (Z.of_nat (length l1)) f ;; k) Q w <-> wp k Q (with_tx (set_tx_bds (l1 ++ f d :: l2) (txr w)) w).
Proof.
  intros E. rewrite wp_bind, wp_tx_put by (rewrite E, length_app; cbn [length]; lia). by rewrite (tput_mid _ _ _ _ _ E).
Qed.

Lemma wp_when_tx_put_mid {B} (b : bool) w l1 d l2 f (k : M W B) (Q : B -> W -> Prop) : txBd (txr w) = l1 ++ d :: l2 ->
  wp (when b (tx_put (Z.of_nat (length l1)) f) ;; k) Q w <-> wp k Q (with_tx (set_tx_bds (l1 ++ (if b then f d else d) :: l2) (txr w)) w).
Proof.
  intros E. destruct b; [by apply wp_tx_put_mid|]. rewrite wp_bind, wp_ret, <- E.
  assert (E2 : with_tx (set_tx_bds (txBd (txr w)) (txr w)) w = w) by (by destruct w as [? [? [] ? ? ? ? ? ? ?] ? ?]). by rewrite E2.
Qed.

(** A descriptor as initialised, with the buffer at [b] if there is one. *)
Definition tx_initial (hasBuffer last : bool) (b : Z) (d : enet_tx_bd) : enet_tx_bd :=
  let d := if hasBuffer then set_tx_buffer (u32 b) d else d in
  let d := set_tx_control ENET_BUFFDESCRIPTOR_TX_TRANMITCRC_MASK (set_tx_length 0 d) in
  let d := if last then or_tx_control ENET_BUFFDESCRIPTOR_TX_WRAP_MASK d else d in
  if ENHANCEDBUFFERDESCRIPTOR_MODE then
    let d := set_tx_controlExtend1 (Z.lor (tx_controlExtend1 d) ENET_BUFFDESCRIPTOR_TX_INTERRUPT_MASK) d in
    if HAS_AVB then set_tx_controlExtend1 (Z.lor (tx_controlExtend1 d) (u16 (ENET_BD_FTYPE ringId))) d else d
  else d.

Lemma tx_initial_desc hb last b d : ready (tx_initial hb last b d) = false /\ wraps (tx_initial hb last b d) = last /\
  (hb = true -> tx_buffer (tx_initial hb last b d) = u32 b).
Proof.
  unfold tx_initial, ready, wraps. destruct hb, last, ENHANCEDBUFFERDESCRIPTOR_MODE, HAS_AVB; repeat split; done.
Qed.

Lemma with_tx_bds_twice l l' (w : W) : with_tx (set_tx_bds l (txr (with_tx (set_tx_bds l' (txr w)) w))) (with_tx (set_tx_bds l' (txr w)) w)
  = with_tx (set_tx_bds l (txr w)) w.
Proof. done. Qed.

Lemma tx_init_desc_run {B} (w : W) l1 d l2 c b (hb last : bool) (k : M W B) (Q : B -> W -> Prop) :
  txBd (txr w) = l1 ++ d :: l2 -> c = Z.of_nat (length l1) ->
  wp (when hb (tx_put c (set_tx_buffer (u32 b))) ;; tx_put c (set_tx_length 0) ;;
      tx_put c (set_tx_control ENET_BUFFDESCRIPTOR_TX_TRANMITCRC_MASK) ;;
      when last (tx_put c (or_tx_control ENET_BUFFDESCRIPTOR_TX_WRAP_MASK)) ;;
      when ENHANCEDBUFFERDESCRIPTOR_MODE (
        tx_put c (fun d => set_tx_controlExtend1 (Z.lor (tx_controlExtend1 d) ENET_BUFFDESCRIPTOR_TX_INTERRUPT_MASK) d) ;;
        when HAS_AVB (tx_put c (fun d => set_tx_controlExtend1 (Z.lor (tx_controlExtend1 d) (u16 (ENET_BD_FTYPE ringId))) d))) ;; k) Q w
  <-> wp k Q (with_tx (set_tx_bds (l1 ++ tx_initial hb last b d :: l2) (txr w)) w).
Proof.
  intros E ->. rewrite (wp_when_tx_put_mid _ _ l1 d l2) by done. do 2 (rewrite (wp_tx_put_mid _ l1 _ l2) by reflexivity). rewrite !with_tx_bds_twice.
  rewrite (wp_when_tx_put_mid _ _ l1 _ l2) by reflexivity. rewrite with_tx_bds_twice, wp_bind. unfold tx_initial.
  destruct ENHANCEDBUFFERDESCRIPTOR_MODE; [|by rewrite wp_ret]. rewrite (wp_tx_put_mid _ l1 _ l2) by reflexivity.
  destruct HAS_AVB; [|by rewrite wp_ret]. rewrite wp_tx_put by (cbn; rewrite length_app; cbn; lia).
  by rewrite (tput_mid _ l1 _ l2) by reflexivity.
Qed.

(** The first descriptors [l] of a ring of [n] are initialised, with buffers
    from [addr] on if there are any. *)
Definition tx_filled (n addr bsize : Z) (hasBuffer : bool) (l : list enet_tx_bd) : Prop := forall i d, l !! i = Some d ->
  ready d = false /\ wraps d = (Z.of_nat i =? n - 1) /\ (hasBuffer = true -> tx_buffer d = u32 (addr + Z.of_nat i * bsize)).

Lemma tx_filled_snoc n addr bsize hb l d : tx_filled n addr bsize hb l ->
  tx_filled n addr bsize hb (l ++ [tx_initial hb (Z.of_nat (length l) =? n - 1) (addr + Z.of_nat (length l) * bsize) d]).
Proof.
  intros Hl i d' Hi. apply lookup_app_Some in Hi as [Hi|[Hi1 Hi2]]; [by apply Hl|].
  destruct (i - length l)%nat as [|k] eqn:Ek; [|by destruct k]. injection Hi2 as <-. replace i with (length l) by lia. apply tx_initial_desc.
Qed.

Lemma tx_init_run hb addr n : forall w l1 l2 (Q : unit -> W -> Prop),
  txBd (txr w) = l1 ++ l2 -> length l2 = n -> Z.of_nat (length l1 + n) = txRingLen (txr w) -> txRingLen (txr w) < 2 ^ 16 ->
  tx_filled (txRingLen (txr w)) addr (txBuffSizeAlign (txr w)) hb l1 ->
  (forall l, length l = (length l1 + n)%nat -> tx_filled (txRingLen (txr w)) addr (txBuffSizeAlign (txr w)) hb l ->
    Q tt (with_tx (set_tx_bds l (txr w)) w)) ->
  wp (tx_init_loop ringId (S n) (Z.of_nat (length l1)) addr hb) Q w.
Proof.
  induction n as [|n IH]; intros w l1 l2 Q Hbd Hl2 HN HN2 Hfd HQ; cbn [tx_init_loop]; rewrite wp_bind, wp_hand; change (h_tx (e_h w)) with (txr w).
  - rewrite (proj2 (Z.ltb_ge _ _)) by lia. cbn [negb]. rewrite wp_ret. destruct l2; [|done]. specialize (HQ l1 ltac:(lia) Hfd). rewrite app_nil_r in Hbd.
    assert (E : with_tx (set_tx_bds l1 (txr w)) w = w) by (rewrite <- Hbd; by destruct w as [? [? [] ? ? ? ? ? ? ?] ? ?]). by rewrite E in HQ.
  - destruct l2 as [|d l2]; [done|]. rewrite (proj2 (Z.ltb_lt _ _)) by lia. cbn [negb length] in *.
    rewrite (tx_init_desc_run w l1 d l2) by done. set (d1 := tx_initial _ _ _ _).
    rewrite (wrap_small 16) by (pow2; lia). replace (Z.of_nat (length l1) + 1) with (Z.of_nat (length (l1 ++ [d1]))) by (rewrite length_app; cbn [length]; lia).
    apply (IH _ _ l2); change (txRingLen (txr (with_tx _ _))) with (txRingLen (txr w)); change (txBuffSizeAlign (txr (with_tx _ _))) with (txBuffSizeAlign (txr w)).
    + cbn [txBd txr with_tx e_h set_tx h_tx set_tx_bds]. by rewrite <- app_assoc.
    + lia.
    + rewrite length_app. cbn [length]. lia.
    + done.
    + by apply tx_filled_snoc.
    + intros l H1 H2. rewrite length_app in H1. cbn [length] in H1. apply HQ; [lia|done].
Qed.

(** ** ENET_Up and ENET_Down *)

(** Memory for descriptors that has been set to 0. *)
Definition cleared (ds : list enet_rx_bd) : Prop := Forall (fun d => rx_buffer d = 0) ds.

(** The handle as [ENET_SetHandler] leaves it: the indices are cleared. *)
Record configured (w : W) (txBufferAlign : Z) : Prop := {
  cf_tx : Z.of_nat (length (txBd (txr w))) = txRingLen (txr w) /\ 0 < txRingLen (txr w) < 2 ^ 16;
  cf_tx_size : 0 < txBuffSizeAlign (txr w) < 2 ^ 16;
  cf_tx_index : txGenIdx (txr w) = 0 /\ txConsumIdx (txr w) = 0;
  cf_tx_range : txBufferAlign <> 0 -> local2dma txBufferAlign + txRingLen (txr w) * txBuffSizeAlign (txr w) - 1 <= UINT32_MAX;
  cf_rx : Z.of_nat (length (rxBd (rxr w))) = rxRingLen (rxr w) /\ 0 < rxRingLen (rxr w) < 2 ^ 16;
  cf_rx_size : rxBuffSizeAlign (rxr w) = size /\ ENET_RX_MIN_BUFFERSIZE <= size;
  cf_rx_index : rxGenIdx (rxr w) = 0;
  cf_zero : zeroCopy (e_h w) = true;
  cf_clear : cleared (rxBd (rxr w));
  cf_once : NoDup (out (e_app w))
}.

(** A transmit ring without frames, over the buffers from [start] on. *)
Record tx_fresh (start : Z) (t : enet_tx_ring) : Prop := {
  tf_ok : tx_ok t;
  tf_idle : forall mem, pending mem 0 [] t;
  tf_bufs : start <> 0 -> forall i, 0 <= i < txRingLen t -> tx_buffer (tat t i) = u32 (local2dma start + i * txBuffSizeAlign t)
}.

Lemma tx_up_run (w : W) txb (Q : unit -> W -> Prop) : configured w txb ->
  (forall t, tx_fresh txb t -> txRingLen t = txRingLen (txr w) -> txBuffSizeAlign t = txBuffSizeAlign (txr w) -> Q tt (with_tx t w)) ->
  wp (ENET_SetTxBufferDescriptors ringId txb) Q w.
Proof.
  intros [[T1 T2] T3 [T4 T5] T6 _ _ _ _ _ _] HQ. unfold ENET_SetTxBufferDescriptors. rewrite wp_bind, wp_hand, wp_bind. change (h_tx (e_h w)) with (txr w).
  assert (Ha : forall R : unit -> W -> Prop, R tt w ->
    wp (when (negb (txb =? 0)) (assert_ (local2dma txb + txRingLen (txr w) * txBuffSizeAlign (txr w) - 1 <=? UINT32_MAX))) R w).
  { intros R HR. destruct (Z.eqb_spec txb 0); cbn [negb]; [done|]. rewrite wp_assert; [done|]. apply Z.leb_le. by apply T6. }
  apply Ha. apply (tx_init_run _ _ (Z.to_nat (txRingLen (txr w))) w [] (txBd (txr w))); cbn [length]; try done; try lia.
  intros l Hl Hf. assert (Hat : forall i, 0 <= i < txRingLen (txr w) -> l !! Z.to_nat i = Some (nth (Z.to_nat i) l tx_null)).
  { intros i Hi. rewrite nth_lookup. destruct (lookup_lt_is_Some_2 l (Z.to_nat i)) as [x Hx]; [lia|]. by rewrite Hx. }
  apply HQ; try done. split.
  - split; cbn [txBd txRingLen txGenIdx txConsumIdx txBuffSizeAlign set_tx_bds]; try done; try lia.
    intros i Hi. destruct (Hf _ _ (Hat i Hi)) as (_ & H & _). rewrite Z2Nat.id in H by lia. exact H.
  - intros mem. split; cbn [txBd txRingLen txGenIdx set_tx_bds length]; try done; try lia.
    intros k Hk. rewrite slot_small by lia. apply (Hf _ _ (Hat k ltac:(lia))).
  - intros Hs i Hi. destruct (Hf _ _ (Hat i Hi)) as (_ & _ & H). rewrite Z2Nat.id in H by lia. apply H. by destruct (Z.eqb_spec txb 0).
Qed.

(** When every buffer was obtained the ring is filled; otherwise those that
    were are given back, if the memory of the descriptors was cleared. *)
Lemma rx_up_run (w : W) (irq : bool) (rxb : Z) (Q : status_t -> W -> Prop) : 
  Z.of_nat (length (rxBd (rxr w))) = rxRingLen (rxr w) /\ 0 < rxRingLen (rxr w) < 2 ^ 16 -> rxBuffSizeAlign (rxr w) = size ->
  ENET_RX_MIN_BUFFERSIZE <= size -> rxGenIdx (rxr w) = 0 -> zeroCopy (e_h w) = true -> NoDup (out (e_app w)) ->
  cleared (rxBd (rxr w)) ->
  (forall w', placed rxBuffAlloc rxBuffFree size (rxRingLen (rxr w)) w' (out (e_app w)) -> Forall (fun d => empty d = true) (view (rxr w')) ->
    txr w' = txr w -> Q kStatus_Success w') ->
  (forall w', out (e_app w') ≡ₚ out (e_app w) -> Q kStatus_ENET_InitMemoryFail w') ->
  wp (result <- ENET_SetRxBufferDescriptors rxBuffAlloc rxb irq ;;
    (if result =? kStatus_ENET_InitMemoryFail then ENET_RxBufferFreeAll rxBuffFree else ret tt) ;; ret result) Q w.
Proof.
  intros [R1 R2] R3 R4 R5 R6 R7 R8 HQ1 HQ2. unfold ENET_SetRxBufferDescriptors. rewrite wp_bind, wp_bind, wp_hand. change (h_rx (e_h w)) with (rxr w).
  rewrite wp_bind, R3, wp_assert by (by apply Z.leb_le). rewrite wp_bind, wp_hand, R6, orb_true_r.
  apply (rx_init_run _ _ (Z.to_nat (rxRingLen (rxr w))) w [] (rxBd (rxr w)) (out (e_app w))); try done; try (cbn [length]; lia).
  { split; [constructor|constructor|]. intros i d Hi. by rewrite lookup_nil in Hi. }
  - intros l a H1 H2 H3 [F1 F2 F3]. cbn [length] in H1. cbv beta. change (kStatus_Success =? kStatus_ENET_InitMemoryFail) with false. rewrite wp_bind, !wp_ret.
    set (r := set_rx_bds l (rxr w)). assert (Hr : rx_ok r).
    { split; cbn [rxBd rxRingLen rxGenIdx set_rx_bds r]; try done; try lia. intros i Hi. unfold rat. rewrite nth_lookup.
      destruct (lookup_lt_is_Some_2 l (Z.to_nat i)) as [x Hx]; [lia|]. change (rxBd r) with l. rewrite Hx. assert (E := F3 _ _ Hx). rewrite Z2Nat.id in E by lia. exact E. }
    assert (Hv : view r = l) by (by rewrite view_start). apply HQ1; try done; change (rxr (with_app _ _)) with r; [|by rewrite Hv].
    split; try done; change (rxr (with_app _ _)) with r; by rewrite Hv.
  - intros l1 pre l2 a H1 H2 H3 H4 H5. cbn [length] in H2. cbv beta. rewrite Z.eqb_refl, wp_bind. cbn [app] in *.
    rewrite H1 in R8. apply Forall_app in R8 as [_ Hl2].
    apply (free_all_run _ (out (e_app w))); change (rxr (with_app _ _)) with (set_rx_bds (l1 ++ l2) (rxr w)); cbn [rxBd rxRingLen set_rx_bds e_app with_app]; try done; [lia| |].
    + rewrite occupied_app, (occupied_none l2), app_nil_r, occupied_full by done. done.
    + intros a' Ha. rewrite wp_ret. by apply HQ2.
Qed.

Lemma up_run (w : W) txb rxb irq (Q : status_t -> W -> Prop) : configured w txb ->
  (forall w', tx_fresh txb (txr w') -> placed rxBuffAlloc rxBuffFree size (rxRingLen (rxr w)) w' (out (e_app w)) ->
    Forall (fun d => empty d = true) (view (rxr w')) -> Q kStatus_Success w') ->
  (forall w', out (e_app w') ≡ₚ out (e_app w) -> Q kStatus_ENET_InitMemoryFail w') ->
  wp (up_rings ringId rxBuffAlloc rxBuffFree txb rxb irq) Q w.
Proof.
  intros HC HQ1 HQ2. unfold up_rings. rewrite wp_bind. apply tx_up_run; [done|]. intros t Ht _ _. destruct HC as [_ _ _ _ [R1 R2] [R3 R4] R5 R6 R7 R8].
  apply rx_up_run; try done. intros w' H1 H2 H3. apply HQ1; try done. by rewrite H3.
Qed.

(** C26: starting from a cleared handle and cleared descriptors, the ring set
    up of ENET_Up returns; on success both rings are well formed (one wrap
    bit, at the end), no transmit descriptor belongs to the engine and each
    has its own part of the buffer memory, and every receive descriptor
    belongs to the engine and holds a buffer of its own; when an allocation
    fails, every buffer obtained so far has been given back. *)
Theorem enet_up_rings_typed (w : W) (txb rxb : Z) (irq : bool) : configured w txb ->
  wp (up_rings ringId rxBuffAlloc rxBuffFree txb rxb irq) (fun st w' =>
    (st = kStatus_Success /\ tx_ok (txr w') /\ (forall mem, pending mem 0 [] (txr w')) /\
     (txb <> 0 -> forall i, 0 <= i < txRingLen (txr w') -> tx_buffer (tat (txr w') i) = u32 (local2dma txb + i * txBuffSizeAlign (txr w'))) /\
     rx_ok (rxr w') /\ Forall (fun d => empty d = true /\ rx_buffer d <> 0) (view (rxr w')) /\
     out (e_app w') ≡ₚ (addresses (view (rxr w')) ++ out (e_app w)) /\ NoDup (out (e_app w'))) \/
    (st = kStatus_ENET_InitMemoryFail /\ out (e_app w') ≡ₚ out (e_app w))) w.
Proof.
  intros HC. apply up_run; [done| |].
  - intros w' [T1 T2 T3] [P1 P0 P2 P3 P6 P4 P5] He. left. repeat (split; [done|]). split; [|done]. apply List.Forall_and; done.
  - intros w' H. by right.
Qed.

(** ** The life of a ring *)

Inductive event :=
  | Fetch (f : enet_rx_frame_struct)                      (** the application asks for a frame *)
  | Engine (g : nat -> enet_rx_bd -> enet_rx_bd).         (** the engine writes to the descriptors *)

(** The engine changes neither the buffers of the descriptors nor where the
    ring ends. *)
Definition event_ok (n : Z) (e : event) : Prop :=
  match e with
  | Fetch f => (Z.to_nat n <= length (rxBuffArray f))%nat
  | Engine g => forall i d, rx_buffer (g i d) = rx_buffer d /\ rwraps (g i d) = rwraps d
  end.

Definition engine (g : nat -> enet_rx_bd -> enet_rx_bd) : M W unit := upd_rx (fun r => set_rx_bds (imap g (rxBd r)) r).
Fixpoint live (es : list event) : M W (list (status_t * enet_rx_frame_struct)) :=
  match es with
  | [] => ret []
  | Fetch f :: es => r <- ENET_GetRxFrame ringId rxBuffAlloc rxBuffFree f ;; rs <- live es ;; ret (r :: rs)
  | Engine g :: es => engine g ;; live es
  end.
Definition lifetime (txb rxb : Z) (irq : bool) (es : list event) : M W (status_t * list (status_t * enet_rx_frame_struct)) :=
  st <- up_rings ringId rxBuffAlloc rxBuffFree txb rxb irq ;;
  if st =? kStatus_Success then rs <- live es ;; ENET_Down rxBuffFree ;; ret (st, rs) else ret (st, []).

(** The buffers [got] came with the result [r] of ENET_GetRxFrame. *)
Definition handed (r : status_t * enet_rx_frame_struct) (got : list Z) : Prop :=
  if decide (r.1 = kStatus_Success) then exists n, (0 < n)%nat /\ got = map bs_buffer (take n (rxBuffArray r.2)) else got = [].

Lemma view_map_perm g r : rx_ok r -> (forall i d, rx_buffer (g i d) = rx_buffer d /\ rwraps (g i d) = rwraps d) ->
  rx_ok (set_rx_bds (imap g (rxBd r)) r) /\ addresses (view (set_rx_bds (imap g (rxBd r)) r)) ≡ₚ addresses (view r) /\
  (full (view r) -> full (view (set_rx_bds (imap g (rxBd r)) r))).
Proof.
  intros Hr Hg. assert (Hr' := Hr). destruct Hr' as [R1 R2 R3 R4]. set (r' := set_rx_bds _ r). assert (Hb : map rx_buffer (rxBd r') = map rx_buffer (rxBd r)).
  { cbn [rxBd set_rx_bds r']. apply list_eq. intros i. rewrite !list_lookup_fmap, list_lookup_imap. destruct (rxBd r !! i); [|done]. cbn. by destruct (Hg i e) as [-> _]. }
  assert (Ho : rx_ok r').
  { split; cbn [rxBd rxRingLen rxGenIdx set_rx_bds r']; try done; [by rewrite length_imap|]. intros i Hi. rewrite <- R4 by done. unfold rat.
    rewrite !nth_lookup. change (rxBd r') with (imap g (rxBd r)). rewrite list_lookup_imap. destruct (lookup_lt_is_Some_2 (rxBd r) (Z.to_nat i)) as [x Hx]; [lia|].
    rewrite Hx. cbn. apply Hg. }
  assert (Hp : map rx_buffer (view r') ≡ₚ map rx_buffer (view r)).
  { rewrite (view_rotation r' Ho), (view_rotation r Hr). by rewrite Hb. }
  split; [done|]. split; [unfold addresses; rewrite <- !(map_map rx_buffer dma2local); by rewrite Hp|].
  unfold full. rewrite <- !(Forall_map rx_buffer (fun b => b <> 0)). intros H. by rewrite Hp.
Qed.

Lemma engine_placed g num (w : W) held : (forall i d, rx_buffer (g i d) = rx_buffer d /\ rwraps (g i d) = rwraps d) ->
  placed rxBuffAlloc rxBuffFree size num w held ->
  wp (engine g) (fun _ w' => placed rxBuffAlloc rxBuffFree size num w' held) w.
Proof.
  intros Hg [P1 P0 P2 P3 P6 P4 P5]. destruct (view_map_perm g (rxr w) P1 Hg) as (H1 & H2 & H3).
  change (placed rxBuffAlloc rxBuffFree size num (with_rx (set_rx_bds (imap g (rxBd (rxr w))) (rxr w)) w) held).
  split; try done; [by apply H3|]. by rewrite H2.
Qed.

Lemma live_run num es : forall (w : W) held, Forall (event_ok num) es -> placed rxBuffAlloc rxBuffFree size num w held ->
  wp (live es) (fun rs w' => exists gs, Forall2 handed rs gs /\ exists held', placed rxBuffAlloc rxBuffFree size num w' held' /\ held' ≡ₚ (concat gs ++ held)) w.
Proof.
  induction es as [|[f|g] es IH]; intros w held Hes HP; cbn [live].
  - rewrite wp_ret. exists []. split; [done|]. by exists held.
  - assert (He := Forall_inv Hes). apply Forall_inv_tail in Hes. rewrite wp_bind.
    eapply wp_mono; [apply (get_placed ringId ring_ok rxBuffAlloc rxBuffFree size num w f held HP); rewrite (pl_num _ _ _ _ _ _ HP); exact He|].
    intros r w1 (got & H1 & H2). cbv beta. rewrite wp_bind. eapply wp_mono; [by apply (IH w1 (got ++ held))|].
    intros rs w2 (gs & G1 & held' & G2 & G3). cbv beta. rewrite wp_ret. exists (got :: gs). split.
    + constructor; [|done]. unfold handed. destruct (decide _); [|apply H2]. destruct H2 as (n & Hn & Hg & _). by exists n.
    + exists held'. split; [done|]. rewrite G3. cbn [concat]. rewrite <- (app_assoc got). apply Permutation_app_swap_app.
  - assert (He := Forall_inv Hes). apply Forall_inv_tail in Hes. rewrite wp_bind. eapply wp_mono; [apply (engine_placed g num w held He HP)|].
    intros u w1 H1. by apply IH.
Qed.

Lemma down_run (w : W) num held (Q : unit -> W -> Prop) : placed rxBuffAlloc rxBuffFree size num w held ->
  (forall w', out (e_app w') ≡ₚ held -> Q tt w') -> wp (ENET_Down rxBuffFree) Q w.
Proof.
  intros [P1 P0 P2 P3 P6 P4 P5] HQ. assert (P1' := P1). destruct P1' as [R1 R2 _ _]. unfold ENET_Down, clear_bits, rd, wr.
  rewrite wp_bind, wp_on_enet. change (wp (on_enet (fun d => let '(v, d) := reg_read ECR d in Ok (tt, reg_write ECR (bic32 v ENET_ECR_ETHEREN_MASK) d)) ;;
    z <- hand zeroCopy ;; when (z : bool) (ENET_RxBufferFreeAll rxBuffFree)) Q (with_hw (reg_write EIMR 0 (e_hw w)) w)).
  rewrite wp_bind, wp_on_enet. unfold wp at 1. destruct (reg_read ECR _) as [v d]. rewrite wp_bind, wp_hand.
  change (zeroCopy _) with (zeroCopy (e_h w)). rewrite P3.
  apply (free_all_run _ held); try done; change (rxr (with_hw _ _)) with (rxr w); [|by intros a Ha; apply HQ].
  assert (Hf : full (rxBd (rxr w))) by (unfold full; by rewrite <- (view_rotation _ P1)).
  rewrite occupied_full by done. change (out (e_app w) ≡ₚ (addresses (rxBd (rxr w)) ++ held)). rewrite P4. unfold addresses.
  by rewrite (view_rotation _ P1).
Qed.

(** C19: from ENET_Up to ENET_Down no receive buffer is lost, and none is
    given back twice: whatever the engine writes to the descriptors and
    however often frames are asked for, the buffers out at the end are those
    that were out before and, for each frame that was delivered, those that
    came with it; when ENET_Up runs out of memory they are those that were out
    before. *)
Theorem enet_rx_lifetime (w : W) (txb rxb : Z) (irq : bool) (es : list event) :
  configured w txb -> Forall (event_ok (rxRingLen (rxr w))) es ->
  wp (lifetime txb rxb irq es) (fun res w' => exists gs, Forall2 handed res.2 gs /\
    out (e_app w') ≡ₚ (concat gs ++ out (e_app w)) /\ In res.1 [kStatus_Success; kStatus_ENET_InitMemoryFail]) w.
Proof.
  intros HC Hes. unfold lifetime. rewrite wp_bind. apply up_run; [done| |].
  - intros w1 _ HP _. cbv beta. rewrite Z.eqb_refl, wp_bind. eapply wp_mono; [by apply (live_run _ es w1 _ Hes HP)|].
    intros rs w2 (gs & G1 & held & G2 & G3). cbv beta. rewrite wp_bind. apply (down_run _ _ _ _ G2). intros w3 H. rewrite wp_ret.
    exists gs. split; [done|]. split; [by rewrite H|by left].
  - intros w1 H. cbv beta. change (kStatus_ENET_InitMemoryFail =? kStatus_Success) with false. rewrite wp_ret. exists []. split; [done|].
    split; [done|]. right. by left.
Qed.
End Life.
