(* ===== verification/EnetDevice.v ===== *)
(** * A controller and an application to run the driver on

    The controller keeps its receive control register and a log of writes; the
    application keeps the reports it was given and a pool of buffers it checks
    on every call.  The witnesses run frames through small rings. *)

From stdpp Require Import base list numbers tactics.
From Stdlib Require Import ZArith Lia.
From S2P Require Import Prelude Bytes Mmio Enet EnetFrames EnetMac EnetRing EnetClock EnetTx EnetSend EnetWire EnetReclaim EnetRx EnetPool EnetLife.

Open Scope Z_scope.
Open Scope prog_scope.

#[export] Instance enet_fields : EnetFields := {|
  ENET_RCR_MAX_FL_MASK := 0x3FFF0000; ENET_RCR_MAX_FL_SHIFT := 16; ENET_RCR_PROM_MASK := 0x8;
  ENET_RDAR_RDAR_MASK := 0x1000000; ENET_ECR_ETHEREN_MASK := 0x2; ENET_EIR_MII_MASK := 0x800000;
  ENET_ATCR_CAPTURE_MASK := 0x800; ENET_PAUR_PADDR2_MASK := 0xFFFF0000; ENET_PAUR_PADDR2_SHIFT := 16;
  kENET_TxFrameInterrupt := 0x8000000; kENET_TxBufferInterrupt := 0x4000000; kENET_RxFrameInterrupt := 0x2000000;
  kENET_RxBufferInterrupt := 0x1000000; kENET_TsTimerInterrupt := 0x8000; kENET_TsAvailInterrupt := 0x10000;
  kENET_WakeupInterrupt := 0x20000; ENET_errMask := 0x70780000; ENET_ECR_SLEEP_MAGIC_MASK := 0xC;
  ENET_TxInterrupts r := if r =? 1 then 0x180 else if r =? 2 then 0x1800 else 0xC000000;
  ENET_RxInterrupts r := if r =? 1 then 0x60 else if r =? 2 then 0x600 else 0x3000000;
  ENET_MMFR_write a r x := Z.lor 0x50020000 x; ENET_MMFR_read a r := 0x60020000; ENET_MMFR_DATA_MASK := 0xFFFF; ENET_MMFR_DATA_SHIFT := 0
|}.
#[export] Instance enet_features : EnetFeatures := {|
  ENHANCEDBUFFERDESCRIPTOR_MODE := true; HAS_AVB := true; ENET_QUEUE := 3; HAS_ERRATA_007885 := true;
  MDIO_TIMEOUT_COUNT := Some 100; dma2local x := x; local2dma x := x
|}.

Record enet_dev := EnetDev { d_rcr : Z; d_log : list (enet_reg * Z) }.
#[export] Instance enet_device : Device enet_reg enet_dev := {|
  reg_read r d := (match r with RCR => d_rcr d | _ => 0 end, d);
  reg_write r v d := match r with RCR => EnetDev v (d_log d) | _ => EnetDev (d_rcr d) (d_log d ++ [(r, v)]) end
|}.
#[export] Instance enet_laws : EnetLaws (D := enet_dev).
Proof.
  refine {| tx_limit d := u32 (Z.shiftr (Z.land (d_rcr d) 0x3FFF0000) 16 - 4); promisc d := has (d_rcr d) 0x8 |}.
  - done.
  - done.
  - done.
  - intros r v d Hr. destruct_or! Hr; by subst r.
Defined.

(** ** The application *)

Record enet_app := EnetApp { a_reports : list enet_frame_info; a_free : list Z; a_out : list Z }.
Abbreviation world := (enet_world enet_dev enet_app).

Definition note (i : enet_frame_info) (a : enet_app) : enet_app := EnetApp (a_reports a ++ [i]) (a_free a) (a_out a).
Definition callback (e : enet_event) (i : option enet_frame_info) : M world unit :=
  match i with Some i => modify (fun w => with_app (note i (e_app w)) w) | None => ret tt end.

Definition is_buffer (size b : Z) : bool := (0 <? b) && (b <=? UINT32_MAX) && (b + size - 1 <=? UINT32_MAX).
Fixpoint remove1 (b : Z) (l : list Z) : list Z :=
  match l with [] => [] | x :: l => if x =? b then l else x :: remove1 b l end.
Definition is_out (b : Z) (a : enet_app) : bool := existsb (Z.eqb b) (a_out a).
Definition alloc (size : Z) : M enet_app Z := fun a =>
  match a_free a with
  | b :: l => if is_buffer size b && negb (is_out b a) then Ok (b, EnetApp (a_reports a) l (b :: a_out a)) else Ok (0, a)
  | [] => Ok (0, a)
  end.
Definition free (b : Z) : M enet_app unit := fun a =>
  if is_out b a then Ok (tt, EnetApp (a_reports a) (b :: a_free a) (remove1 b (a_out a))) else Err AssertFailed.

Lemma is_out_true b a : is_out b a = true <-> In b (a_out a).
Proof.
  unfold is_out. rewrite existsb_exists. split; [intros (x & Hx & E); apply Z.eqb_eq in E; by subst|]. intros H. exists b. split; [done|apply Z.eqb_refl].
Qed.

Lemma remove1_perm b l : In b l -> l ≡ₚ (b :: remove1 b l).
Proof.
  induction l as [|x l IH]; intros H; [done|]. cbn [remove1]. destruct (Z.eqb_spec x b) as [->|Hne]; [done|].
  destruct H as [|H]; [done|]. rewrite (IH H) at 1. apply perm_swap.
Qed.

#[export] Instance enet_pool size : BufferPool (alloc size) free size.
Proof.
  refine {| out := a_out; sound b := is_buffer size b = true |}.
  - intros b H. unfold is_buffer in H. apply andb_true_iff in H as [H H2]. apply andb_true_iff in H as [H1 H3].
    apply Z.ltb_lt in H1. apply Z.leb_le in H2, H3.
    split; [lia|]. split; [done|]. change (u32 b = b /\ u32 b <> 0). assert (E : u32 b = b) by (apply wrap_small; pow2; lia). rewrite E. lia.
  - intros a. unfold alloc. destruct (a_free a) as [|b l]; [exists 0, a; auto|].
    destruct (is_buffer size b && negb (is_out b a)) eqn:E; [|exists 0, a; auto].
    apply andb_true_iff in E as [E1 E2]. apply negb_true_iff in E2. eexists b, _. split; [done|]. right.
    split; [done|]. split; [|done]. rewrite list_elem_of_In, <- is_out_true. by rewrite E2.
  - intros a b H. rewrite list_elem_of_In in H. unfold free. rewrite (proj2 (is_out_true b a) H). eexists. split; [done|]. by apply remove1_perm.
Defined.

(** ** Small rings *)

(** Transmit rings of [n] descriptors with buffers of 16 bytes. *)
Definition tx_bd_at (n i : Z) : enet_tx_bd := TxBd 0 (if i =? n - 1 then 0x2400 else 0x400) (0x1000 + 0x100 * i) 0 0 0 0 0.
Definition tx_ring (n : nat) : enet_tx_ring := TxRing (map (fun i => tx_bd_at (Z.of_nat n) (Z.of_nat i)) (seq 0 n)) 0 0 0 (Z.of_nat n) 16.
Definition dirty_ring (n : nat) : enet_dirty_ring := DirtyRing (repeat info_null n) 0 0 (Z.of_nat n) false.
(** A receive ring of four descriptors: a frame of two buffers, then free ones. *)
Definition rx_ring : enet_rx_ring :=
  RxRing [RxBd 0 0x8000 0x5300 0 0; RxBd 256 0x0000 0x5000 0 0; RxBd 300 0x0900 0x5100 0 77; RxBd 0 0xA000 0x5200 0 0] 1 4 256.
Definition start (n : nat) : world :=
  EnetWorld (EnetDev (Z.lor (Z.shiftl 100 16) 8) [])
    (Handle rx_ring (tx_ring n) (dirty_ring n) true 0 7 [] true true) (fun _ => 0)
    (EnetApp [] [0x6000; 0x6100; 0x6200] [0x5300; 0x5000; 0x5100; 0x5200]).
Definition start_link (n : nat) : link := Link (start n) 0 [].

(** A statement about every place of a small ring is checked place by place. *)
Definition all_places (n : nat) (f : Z -> bool) : bool := forallb (fun i => f (Z.of_nat i)) (seq 0 n).
Lemma all_places_true n f : all_places n f = true -> forall i, 0 <= i < Z.of_nat n -> f i = true.
Proof.
  intros H i Hi. unfold all_places in H. rewrite forallb_forall in H. rewrite <- (Z2Nat.id i) by lia. apply H, in_seq. lia.
Qed.

Lemma start_good : good (tx_ring 2) (start_link 2) [].
Proof.
  split; cbn [k_w k_at start_link]; try done.
  - split; try (cbn; lia). change (txRingLen (txr (start 2))) with (Z.of_nat 2). intros i Hi.
    apply eqb_prop. revert i Hi. by apply (all_places_true 2 (fun i => eqb (wraps (tat (txr (start 2)) i)) (i =? Z.of_nat 2 - 1))).
  - split; try done; try (cbn; lia). change (txRingLen (txr (start 2))) with (Z.of_nat 2). cbn [length]. intros k Hk. 
    apply negb_true_iff. revert k Hk.
    by apply (all_places_true 2 (fun k => negb (ready (tat (txr (start 2)) (slot (Z.of_nat 2) 0 k))))).
  - constructor.
Qed.

(** Data above the rings' buffers. *)
Lemma data_ok data n : 0x2000 <= data -> 0 < n -> buffers_ok (tx_ring 2) data n.
Proof.
  intros Hd Hn. assert (H : forall i, 0 <= i < 2 -> buf (tat (tx_ring 2) i) = 0x1000 + 0x100 * i).
  { intros i Hi. assert (i = 0 \/ i = 1) as [-> | ->] by lia; reflexivity. }
  unfold buffers_ok. change (txRingLen (tx_ring 2)) with 2. change (txBuffSizeAlign (tx_ring 2)) with 16. split.
  - intros i j Hi Hj Hne. rewrite !H by done. unfold apart. lia.
  - intros i Hi. rewrite H by done. unfold apart. lia.
Qed.

Lemma send_ok data l ts c : 0x2000 <= data -> 0 < Z.of_nat (length l) < 2 ^ 32 -> op_ok (tx_ring 2) (Send data l ts c).
Proof. intros Hd Hl. split; [lia|]. split; [done|]. apply data_ok; lia. Qed.

(** Two frames of one and two buffers; a third finds no room for its context. *)
Definition ops : list op := [Send 0x3000 [1; 2; 3] true 11; Transmit; Send 0x3100 (repeat 9 20) false 12; Transmit; Send 0x3200 [4] false 13].
Lemma ops_ok : Forall (op_ok (tx_ring 2)) ops.
Proof. repeat (apply Forall_cons; [done || (apply send_ok; cbn; lia)|]). constructor. Qed.

Lemma enet_wire_order_witness :
  option_map (map snd) (answer (run 0 ops) (start_link 2)) = Some [kStatus_Success; kStatus_Success; kStatus_ENET_TxFrameBusy] /\
  wp (run 0 ops) (fun rs s' => exists Ts P',
    pending (e_mem (k_w s')) (k_at s') P' (txr (k_w s')) /\
    Forall2 (added 16) rs Ts /\ k_out s' ++ P' = concat Ts /\
    (Forall (fun r => Z.of_nat (length r.1) <= 16) rs -> join [] (k_out s' ++ P') = accepted rs)) (start_link 2).
Proof.
  split; [vm_compute; reflexivity|].
  exact (enet_wire_order (L := enet_laws) 0 ltac:(done) (tx_ring 2) (start_link 2) ops start_good eq_refl ops_ok).
Defined.

Lemma enet_partial_frame_merges_witness :
  wp (run 0 (Send 0x3000 (repeat 9 40) true 11 :: repeat Transmit 2 ++ [Send 0x3100 [1; 2] true 12; Transmit])) (fun rs s' =>
    rs = [(repeat 9 40, kStatus_ENET_TxFrameBusy); ([1; 2], kStatus_Success)] /\ join [] (k_out s') = [repeat 9 32 ++ [1; 2]]) (start_link 2).
Proof.
  exact (enet_partial_frame_merges (L := enet_laws) 0 ltac:(done) (tx_ring 2) (start_link 2) 0x3000 (repeat 9 40) true 11 0x3100 [1; 2] true 12
    start_good eq_refl (send_ok 0x3000 (repeat 9 40) true 11 ltac:(lia) ltac:(cbn; lia)) (send_ok 0x3100 [1; 2] true 12 ltac:(lia) ltac:(cbn; lia))
    (fun _ => eq_refl) ltac:(vm_compute; split; [reflexivity|discriminate]) ltac:(vm_compute; discriminate)).
Defined.

(** ** Reclaiming *)





(** When descriptors that have been sent are used again before they are
    reclaimed, their number is counted past the length of the ring: a frame
    of two buffers, transmitted, then another one, in a ring of three; the
    second frame overwrites the first one's place, and reclaiming reports a
    third frame that was never sent. *)
Example enet_late_reclaim_reports_unsent :
  match run 0 ([Send 0x3000 (repeat 9 20) true 11] ++ repeat Transmit 2 ++ [Send 0x3100 (repeat 9 20) true 12] ++ repeat Transmit 2) (start_link 3) with
  | Ok (_, s) => match ENET_ReclaimTxDescriptor 0 callback 10 (k_w s) with Ok (_, w) => map fi_context (a_reports (e_app w)) | Err _ => [] end
  | Err _ => []
  end = [11; 12; 0].
Proof. vm_compute. reflexivity. Qed.

(** ** Receiving *)

Definition rx_frame : enet_rx_frame_struct := RxFrame (repeat (BufferStruct 0 0) 4) 0 false 0 0.
Definition rx_start : world := start 2.

Lemma rx_ring_ok : rx_ok rx_ring.
Proof.
  split; try (cbn; lia). change (rxRingLen rx_ring) with (Z.of_nat 4). intros i Hi.
  apply eqb_prop. revert i Hi. by apply (all_places_true 4 (fun i => eqb (rwraps (rat rx_ring i)) (i =? Z.of_nat 4 - 1))).
Qed.

Lemma enet_rx_frame_delivered_witness :
  wp (ENET_GetRxFrame 0 (alloc 256) free rx_frame) (fun res w' =>
    map bs_buffer (take 2 (rxBuffArray res.2)) = [0x5000; 0x5100] /\ map bs_length (take 2 (rxBuffArray res.2)) = [256; 44] /\
    totLen res.2 = 300 /\ promiscuous res.2 = true /\ rf_timestamp res.2 = 77 /\
    addresses (view (rxr w')) = [0x5200; 0x5300; 0x6000; 0x6100]) rx_start.
Proof.
  eapply wp_mono; [exact (enet_rx_frame_delivered (L := enet_laws) 0 ltac:(done) (alloc 256) free rx_start rx_frame 1 0 [0x6000; 0x6100]
    (EnetApp [] [0x6200] [0x6100; 0x6000; 0x5300; 0x5000; 0x5100; 0x5200]) rx_ring_ok eq_refl eq_refl ltac:(cbn; lia) eq_refl eq_refl
    ltac:(repeat constructor; vm_compute; discriminate))|].
  intros res w' (-> & Hm & _). rewrite (mv_view _ _ _ _ Hm). vm_compute. auto 10.
Defined.

(** ** From initialisation to shutdown *)

(** Rings of three descriptors in cleared memory; [pool] is free. *)
Definition cold (pool : list Z) : world :=
  EnetWorld (EnetDev (Z.lor (Z.shiftl 100 16) 8) [])
    (Handle (RxRing (repeat rx_null 3) 0 3 256) (TxRing (repeat tx_null 3) 0 0 0 3 256) (dirty_ring 3) true 0 7 [] true true) (fun _ => 0)
    (EnetApp [] pool [0x4000]).

Lemma cold_configured pool : configured (alloc 256) free 256 (cold pool) 0x1000.
Proof. split; try (cbn; lia); try done; repeat constructor. intros H. by rewrite list_elem_of_In in H. Qed.

Lemma enet_up_rings_typed_witness :
  wp (up_rings 0 (alloc 256) free 0x1000 0 true) (fun st w' =>
    (st = kStatus_Success /\ tx_ok (txr w') /\ (forall mem, pending mem 0 [] (txr w')) /\
     (0x1000 <> 0 -> forall i, 0 <= i < txRingLen (txr w') -> tx_buffer (tat (txr w') i) = u32 (local2dma 0x1000 + i * txBuffSizeAlign (txr w'))) /\
     rx_ok (rxr w') /\ Forall (fun d => empty d = true /\ rx_buffer d <> 0) (view (rxr w')) /\
     a_out (e_app w') ≡ₚ (addresses (view (rxr w')) ++ [0x4000]) /\ NoDup (a_out (e_app w'))) \/
    (st = kStatus_ENET_InitMemoryFail /\ a_out (e_app w') ≡ₚ [0x4000])) (cold [0x6000; 0x6100; 0x6200]).
Proof. exact (enet_up_rings_typed 0 (alloc 256) free 256 (cold _) 0x1000 0 true (cold_configured _)). Defined.

(** The engine writes a frame of two buffers; the application takes it. *)
Definition first_frame (i : nat) (d : enet_rx_bd) : enet_rx_bd :=
  match i with
  | O => RxBd 256 (Z.land (rx_control d) 0x2000) (rx_buffer d) 0 0
  | S O => RxBd 300 (Z.lor 0x800 (Z.land (rx_control d) 0x2000)) (rx_buffer d) 0 77
  | _ => d
  end.
Definition life_events : list event := [Fetch rx_frame; Engine first_frame; Fetch rx_frame].
Lemma life_events_ok : Forall (event_ok 3) life_events.
Proof.
  constructor; [cbn; lia|]. constructor; [|constructor; [cbn; lia|constructor]]. intros i d. destruct i as [|[|i]]; [| |done]; (split; [done|]).
  - cbn [first_frame]. bits. done.
  - cbn [first_frame]. bits. done.
Qed.

Lemma enet_rx_lifetime_witness :
  option_map (fun r => map (fun x => (x.1, map bs_buffer (take 2 (rxBuffArray x.2)))) r.2)
    (answer (lifetime 0 (alloc 256) free 0x1000 0 true life_events) (cold [0x6000; 0x6100; 0x6200; 0x6300; 0x6400])) =
    Some [(kStatus_ENET_RxFrameEmpty, [0; 0]); (kStatus_Success, [0x6000; 0x6100])] /\
  wp (lifetime 0 (alloc 256) free 0x1000 0 true life_events) (fun res w' => exists gs, Forall2 handed res.2 gs /\
    a_out (e_app w') ≡ₚ (concat gs ++ [0x4000]) /\ In res.1 [kStatus_Success; kStatus_ENET_InitMemoryFail])
    (cold [0x6000; 0x6100; 0x6200; 0x6300; 0x6400]).
Proof.
  split; [vm_compute; reflexivity|].
  exact (enet_rx_lifetime (L := enet_laws) 0 ltac:(done) (alloc 256) free 256 (cold _) 0x1000 0 true life_events (cold_configured _) life_events_ok).
Defined.

(** ** The clock and the filter *)

(** A timer whose captures take three reads. *)
Record clock := Clock { c_atvr : Z; c_wait : nat }.
#[export] Instance clock_device : Device enet_reg clock := {|
  reg_read r d := match r with
    | ATCR => (if (0 <? Z.of_nat (Nat.min (c_wait d) 3)) then 0x801 else 1, Clock (c_atvr d) (pred (Nat.min (c_wait d) 3)))
    | ATVR => (c_atvr d, d) | _ => (0, d) end;
  reg_write r v d := match r with ATCR => Clock (c_atvr d) 3 | ATVR => Clock v (c_wait d) | _ => d end
|}.
#[export] Instance clock_laws : PtpLaws (D := clock).
Proof.
  refine {| capture_bound := 3; atvr := c_atvr; capturing d := Nat.min (c_wait d) 3 |}.
  - lia.
  - intros d. cbn [reg_read clock_device fst snd]. split; [by destruct (0 <? _)|]. split; [cbn [c_wait]; lia|done].
  - done.
  - done.
  - done.
Defined.
Definition at_noon : enet_world clock unit :=
  EnetWorld (Clock 999999999 0) (Handle rx_ring (tx_ring 2) (dirty_ring 2) true 0 43200 [] true true) (fun _ => 0) tt.

(** A jump of 5 s moves the clock by 5.7 s; one of -1 s by -1 s. *)
Lemma enet_ptp_jump_witness :
  (wp (ENET_Ptp1588JumpTimer 5 5000000000) (fun _ w' => time w' = time at_noon + 5705032704) at_noon /\
   wp (ENET_Ptp1588JumpTimer 5 (-1000000000)) (fun _ w' => time w' = time at_noon - 1000000000) at_noon).
Proof.
  destruct (enet_ptp_jump (L := clock_laws) at_noon 5 5000000000 ltac:(done) ltac:(done) ltac:(done) ltac:(cbn; lia)) as [H _].
  destruct (enet_ptp_jump (L := clock_laws) at_noon 5 (-1000000000) ltac:(done) ltac:(done) ltac:(done) ltac:(cbn; lia)) as [H' _].
  split; [eapply wp_mono; [exact H|]|eapply wp_mono; [exact H'|]]; intros u w' E; rewrite E; vm_compute; reflexivity.
Defined.

#[export] Instance filter_laws : FilterLaws (D := enet_reg -> Z).
Proof. refine {| table d r := d r |}; [done|]. intros r v d r' _. done. Defined.
Definition no_groups : enet_world (enet_reg -> Z) unit :=
  EnetWorld (fun _ => 0) (Handle rx_ring (tx_ring 2) (dirty_ring 2) true 0 0 (repeat 0 64) true true) (fun _ => 0) tt.
Lemma no_groups_filtered : filtered no_groups (fun _ => 0).
Proof.
  split; [done| | |]; intros h Hh; [done| |].
  - apply (lookup_replicate_2 64 0). lia.
  - apply Z.bits_0.
Qed.
Definition ip4_all : list Z := [0x01; 0x00; 0x5E; 0x00; 0x00; 0x01].
Definition ip6_all : list Z := [0x33; 0x33; 0x00; 0x00; 0x00; 0x01].
Lemma enet_multicast_filter_witness :
  wp (mrun [Join ip4_all; Join ip6_all; Join ip4_all; Leave ip4_all; Leave ip6_all]) (fun _ w' =>
    listens (e_hw w') (multicast_hash ip4_all) = true /\ listens (e_hw w') (multicast_hash ip6_all) = false) no_groups.
Proof.
  eapply wp_mono; [exact (enet_multicast_filter (L := filter_laws) no_groups [Join ip4_all; Join ip6_all; Join ip4_all; Leave ip4_all; Leave ip6_all]
    no_groups_filtered ltac:(vm_compute; auto 10))|].
  intros u w' H. split; [rewrite (H ip4_all)|rewrite (H ip6_all)]; vm_compute; reflexivity.
Defined.

(** ** Interrupts of the other rings *)

(** Interrupt flags, cleared by writing ones. *)
#[export] Instance flag_device : Device enet_reg Z := {|
  reg_read r d := (match r with EIR => d | _ => 0 end, d);
  reg_write r v d := match r with EIR => Z.land d (Z.lnot v) | _ => d end
|}.
(** A frame with context 5 has been sent from a ring of two. *)
Definition sent_ring : enet_tx_ring := TxRing [TxBd 1 0x0C00 0x1000 0 0 0 0 0; TxBd 0 0x2400 0x1100 0 0 0 0 0] 1 0 1 2 16.
Definition sent_infos : enet_dirty_ring := DirtyRing [FrameInfo 5 false 0 0; info_null] 1 0 2 false.
Definition interrupted (flags : Z) : enet_world Z (list Z) :=
  EnetWorld flags (Handle rx_ring sent_ring sent_infos true 0 0 [] true true) (fun _ => 0) [].
Definition log_frame (e : enet_event) (i : option enet_frame_info) : M (enet_world Z (list Z)) unit :=
  modify (fun w => with_app (e_app w ++ [match i with Some i => fi_context i | None => 0 end]) w).
Definition after_interrupt (ring flags : Z) : option (list Z * Z) :=
  match ENET_TransmitIRQHandler log_frame 5 ring (interrupted flags) with
  | Ok (_, w) => Some (e_app w, txDescUsed (txr w)) | Err _ => None end.

(** On ring 0 the interrupt reports the frame and frees its descriptor; on
    ring 1 the same interrupt does neither, unless that of ring 0 is pending
    too. *)
Example enet_other_rings_not_reclaimed :
  after_interrupt 0 0x8000000 = Some ([5], 0) /\ after_interrupt 1 0x100 = Some ([0], 1) /\ after_interrupt 1 0x8000100 = Some ([5], 0).
Proof. vm_compute. auto. Qed.
